(* ===== verification/_CoqProject ===== *)
-Q . S2P
Prelude.v
GoStrings.v
GoNet.v
GoCrypto.v
GoTime.v
GoJson.v
GoText.v
GoMaps.v
GoTimeJson.v
PeerStore.v
Routes.v
Derive.v
Aead.v
GoFloat.v
GoFmt.v
GoDuration.v
Tokens.v
Envelope.v
RateLimit.v
Dandelion.v
IfName.v
WgConfig.v
NodeConfig.v
Iface.v
IfaceProps.v
GoFlag.v
Systemd.v
Daemon.v
Health.v
Endpoints.v
Stun.v
External.v
PeerSink.v
Exchange.v
Gossip.v
Protocol.v
Rendezvous.v
Cache.v
Collisions.v
Dht.v
DhtProps.v
DhtJoin.v
Lan.v
Status.v
Metrics.v
Loops.v
Mesh.v
Atomic.v
MeshState.v
Deploy.v
Ssh.v
Services.v
ServicesProps.v
Rpc.v
Lifecycle.v
LifecycleProps.v
RpcProps.v
Registry.v
RegistryProps.v
Promo.v
PromoProps.v
PromoFile.v
Referral.v
Cli.v
CliProps.v
Rotation.v
MeshCmd.v
TestPeer.v
PeersCmd.v
Pilot.v
Report.v
PilotPages.v
MainCmd.v
Analytics.v
AnalyticsProps.v
AnalyticsDb.v
Dashboard.v
Nurture.v
Eidos.v
StatusGen.v
