(* ===== verification/Prelude.v ===== *)
(** * wgmesh: a verification development of the mesh builder

    wgmesh builds a WireGuard mesh in two ways.  In the decentralised mode a
    daemon on every host derives keys, addresses and rendezvous points from a
    shared secret, finds the other members (DHT, LAN multicast, gossip, direct
    exchange, a cache on disk), keeps them in a peer store, and reconciles the
    kernel's WireGuard peers and routes with the store every few seconds; health
    checks and probes evict members that are gone.  In the centralised mode an
    operator keeps a state file of nodes, groups and policies and deploys
    configurations over SSH.  Around them are a control socket, the command line
    with the systemd unit it installs, the registration of services with a
    third-party Lighthouse, and the programs of a trial: promo and referral codes,
    pilots, analytics and e-mails.

    ** How the code is modelled

    A Go function is a Rocq function of the same name; one that returns an error
    is a [result], with the constant part of the message; a panic is [None] (or a
    constructor of the outcome type) and a mutated receiver is passed and
    returned.  Integers are [Z] with their wrap-around written out, durations and
    instants are nanoseconds, strings are byte strings, maps are [gmap]s and the
    order in which Go visits a map is an argument or is quantified over.  The
    clock, random draws, sockets, the outcome of commands and of file operations
    are arguments, so a theorem holds for all of them.  Goroutines appear as the
    steps they take: a loop runs over the list of what wakes it, a request is split
    where it waits, a datagram is handled in one step; runs are lists of such
    steps in any order.  Code outside the repository is a class with its
    documented laws and an executable instance (HKDF, PBKDF2, AES-GCM, the shuffle
    of math/rand, the executor of system commands, the issue tracker of the
    registry with a search that lags behind) or a function (the HTTP answers
    of GitHub, the Lighthouse client, the dial of an SSH library and what the machine
    behind it does with a command).  What a program prints is a text or a list of
    lines, byte for byte.

    ** Files

    Shared ground: Prelude (results, time, machine integers, lists), GoStrings
    (package strings, strconv), GoNet (package net), GoCrypto (SHA-256, HMAC),
    GoTime (civil dates and RFC 3339), GoJson (encoding/json: printer, parser,
    struct fields), GoText (more of strings, %q, path/filepath), GoMaps
    (maps in JSON), GoTimeJson (times in JSON), GoFloat (binary64), GoFmt (%f, padded
    columns, text/tabwriter), GoDuration (durations as text), GoFlag (package
    flag), Aead (AES-GCM), Atomic (files replaced by write and rename, one system
    call at a time).

    - PeerStore: pkg/node (store.go, types.go).  The store with its capacity, the
      ranking of endpoint sources, stale cleanup, and subscribers whose channels
      are closed while events are sent.
    - Routes: pkg/routes, daemon/routes.go, ssh/routes.go.  Route tables, their
      parsers, the diff and the commands that apply it.
    - Derive, Tokens, Rotation, Envelope: pkg/crypto and daemon/collision.go.  Keys,
      addresses, collisions, membership tokens, password encryption, sealed and
      validated announcements.
    - RateLimit, Dandelion: pkg/ratelimit and pkg/privacy.
    - IfName, WgConfig: pkg/ifname and pkg/wireguard.  Interface names, shell
      quoting, dumps, diffs, wg and wg-quick.
    - NodeConfig, Daemon, Health, Cache, Collisions: pkg/daemon (config.go,
      helpers.go, daemon.go, cache.go, collision.go).  Configuration and identity,
      desired peers with relays and hysteresis, application of the difference,
      health checks, probes, eviction, the cache file, collision handling in the
      reconciliation.
    - Status: what a running daemon reports (daemon.go: logging, the
      printed status, local networks, the peers of the privacy layer, the source of
      a probe).  Metrics: daemon/metrics.go.
    - Loops: every loop of the daemon and of the discovery, over the
      sequence of ticks, datagrams, connections and events that wake it, the files
      of cache and DHT nodes they write, and the wait for a handshake.
    - Iface, IfaceProps: the interface set-up of helpers.go and daemon.go.  IfaceProps
      states what the commands do to the links of a Linux host, as a class with an
      executable host, and proves the set-up against it.
    - Lifecycle, LifecycleProps: RunWithDHTDiscovery of daemon.go with the start and
      stop of dht.go, exchange.go and gossip.go: a run from its first step to the
      last deferred call.  A process holds its goroutines, listeners, servers and
      deferred calls as they were started; the shutdown cancels the context, waits
      for the goroutines that are counted, and runs the deferred calls in reverse.
    - Endpoints, Exchange, Gossip, PeerSink, Protocol, Rendezvous:
      pkg/discovery/exchange.go and gossip.go.  PeerSink is the interface the
      exchange needs of a peer store, with the store as its instance; Protocol and
      Rendezvous hold the theorems over sequences of datagrams.
    - Stun, External, Dht, DhtProps, DhtJoin, Lan: pkg/discovery/stun.go, dht.go,
      lan.go.  The DHT itself is a class of which DhtJoin states the laws.
    - Registry, RegistryProps: pkg/discovery/registry.go.  The issue in which the
      members of a mesh publish an encrypted list of themselves.
    - Mesh, MeshState, Deploy, Ssh: pkg/mesh (types.go, mesh.go, policy.go,
      deploy.go), pkg/ssh (wireguard.go, client.go) and wireguard/keys.go.  Ssh gives
      the host of Deploy from the sessions of the client.  Deploy runs in a monad with the state of the
      [sync.RWMutex], in which a blocked lock is a result.  MeshCmd composes the
      commands of main.go on the state file and proves them against a specification
      on the table of nodes.
    - Services, ServicesProps: service.go, pkg/mesh/account.go and services.go, and
      the account flag of main.go.
    - Rpc, RpcProps: pkg/rpc, with the callbacks of main.go and daemon.go.
    - Systemd, Cli, CliProps, TestPeer, PeersCmd, MainCmd:
      daemon/systemd.go and main.go.  The unit and its installation, and what systemd
      and the shell, by their documentation, start from the files it writes;
      dispatch, flags and commands; the test-peer command against a node; the peers command against a daemon; what the
      commands print, and join from its flags to the daemon.
    - Promo, PromoProps, PromoFile, Referral: pkg/promo and pkg/referral.
    - Pilot, Report, PilotPages; Analytics, AnalyticsProps, AnalyticsDb; Nurture:
      pkg/pilot with its reports, pkg/analytics with the statements of postgres.go as
      functions on a table, and pkg/nurture.
    - Eidos, StatusGen, Dashboard: the programs under cmd/
      (eidos-lint, status-gen, analytics-dashboard) and eidos/eidosmeta.

    ** What the theorems show

    State: the peer store, the cache of applied configurations, the promo store
    and the mesh state keep their invariants over every sequence of operations,
    with any command or write failing.  Function: the desired configuration and the
    permitted peers are characterised exactly; the
    route and configuration diffs give what they promise; relays follow a
    three-cycle automaton and the rate limiter an abstract recency table.
    Protocol: no sequence of datagrams panics the exchange, an exchange that
    reaches the other side leaves both nodes knowing each other, a rendezvous
    starts both sides at the same instant and at most once per cooldown, members
    that know the same declared introducers choose the same ones, members with
    clocks an hour apart find each other through the DHT and end in each other's
    stores when the messages are fresh, and nodes meet through the registry when
    they come within ten minutes of each other and its search shows what was
    written; every line on the control socket gets the answer of its method or the
    code of its error.  Host: the set-up brings the interface up on the
    first free port with the addresses of the node and touches no other link; a run
    that is told to end waits for three goroutines, removes its interface and stops
    its servers, and tells all others to end; on the default interface the installed
    unit joins the mesh that the installer was given; the commands on the mesh state
    do to the table of nodes what they are asked.  Loops: each takes only steps of its component and
    ends when it is told to, the listeners survive whatever they read, the lookups
    slow down once and for good, the wait for a handshake takes at most 42 looks, and
    what the last save wrote is there at the next start.  Reports: the peers command
    shows the peer store, the status names the tunnels that carry the traffic, the
    relays of an epoch are other active peers, an SSH operation succeeds exactly when
    its command did, and the status page has a row of eight cells for every feature
    and a summary that adds up.
    Codes and files: envelopes, the cache, the node state, the mesh state, the
    service file and the promo store are read back as they were written; the last
    two survive a crash at any system call.  Errors: the theorems named in the
    findings exhibit what goes wrong, among them a deployment that deadlocks,
    STUN answers that panic the parser, a stale check that never meets its window,
    an account flag that saves nothing, a registered address that ignores the
    node, a test command that always reports a wrong secret, a daemon that does not
    start without internet, and campaign metrics that never show a conversion.

    ** Fuel

    Recursion is structural except in the JSON and IPv6 parsers, base64, base32,
    the blocks of the executable cipher, the attributes of a STUN message, durations,
    the e-mail templates, the box of the qr command, octal numbers and the wait for a
    handshake.
    Their fuel is computed from the length of the input by the function that calls
    them; every turn consumes input, and the round-trip lemmas (for STUN, that a
    query never ends [Running]) prove it enough; 42 is enough for the wait.  Retry loops (collision nonces,
    bootstrap, punching) run over the list of outcomes they are given.

    ** Not modelled

    The server of the anacrolix/dht library, the SSH transport, Curve25519 (in wg) and
    the buckets and quantiles of Prometheus, which are libraries; the goroutines that
    serve pprof and metrics over HTTP; Run, the daemon without a DHT factory, which
    nothing calls; the text of log messages other than the printed status and
    analytics/log.go.  [null] entries in the node map of
    the mesh state are refused, where Go keeps a nil pointer. *)

From stdpp Require Export base tactics list list_numbers gmap fin_maps sets strings pretty option sorting relations.
From Stdlib Require Export ZArith Lia.

#[export] Set Default Goal Selector "!".

Declare Scope wgmesh_scope.
Delimit Scope wgmesh_scope with wg.

(** ** Error results

    A Go function that returns [(T, error)] is a [result T]: the error carries
    the constant part of the message of the [fmt.Errorf] that built it. *)

Inductive result (A : Type) : Type :=
| Ok (a : A)
| Err (msg : string).
Arguments Ok {A} _.
Arguments Err {A} _.

Definition rbind {A B} (r : result A) (k : A -> result B) : result B :=
  match r with
  | Ok a => k a
  | Err e => Err e
  end.

(** [wrap pre r] is [fmt.Errorf("pre: %w", err)] on the error path. *)
Definition wrap {A} (pre : string) (r : result A) : result A :=
  match r with
  | Ok a => Ok a
  | Err e => Err (String.append pre (String.append ": " e))
  end.

Definition is_ok {A} (r : result A) : bool :=
  match r with
  | Ok _ => true
  | Err _ => false
  end.

Notation "x <-? r ; k" := (rbind r (fun x => k))
  (at level 100, r at next level, right associativity) : wgmesh_scope.
Notation "'guard_err' b 'else' e ; k" := (if b then k else Err e)
  (at level 100, b at level 99, e at next level, right associativity) : wgmesh_scope.

Lemma rbind_ok {A B} (r : result A) (k : A -> result B) b :
  rbind r k = Ok b <-> exists a, r = Ok a /\ k a = Ok b.
Proof.
  destruct r as [a|e]; simpl; split.
  - intros H. by exists a.
  - intros (a' & Ha & H). by simplify_eq.
  - done.
  - by intros (a' & Ha & H).
Qed.

Lemma wrap_ok {A} pre (r : result A) a : wrap pre r = Ok a <-> r = Ok a.
Proof. by destruct r. Qed.

(** ** Time

    A [time.Time] is the number of nanoseconds since the Unix epoch; the zero
    [time.Time] is 1 January of year 1.  A [time.Duration] is an [int64]
    number of nanoseconds, and [Sub] saturates at its ends. *)

Definition Time := Z.
Definition Duration := Z.

Definition nanosecond : Duration := 1%Z.
Definition millisecond : Duration := 1000000%Z.
Definition second : Duration := 1000000000%Z.
Definition minute : Duration := (60 * second)%Z.
Definition hour : Duration := (60 * minute)%Z.

Definition int64_min : Z := (- 2 ^ 63)%Z.
Definition int64_max : Z := (2 ^ 63 - 1)%Z.

Definition zero_time : Time := (-62135596800 * 1000000000)%Z.
Definition time_is_zero (t : Time) : bool := Z.eqb t zero_time.
Definition time_after (t u : Time) : bool := Z.ltb u t.
Definition time_before (t u : Time) : bool := Z.ltb t u.
Definition time_add (t : Time) (d : Duration) : Time := (t + d)%Z.
Definition time_sub (t u : Time) : Duration :=
  Z.max int64_min (Z.min int64_max (t - u)).

(** [time.Unix(sec, 0)] and [t.Unix()] (which rounds towards minus infinity). *)
Definition time_unix (sec : Z) : Time := (sec * second)%Z.
Definition time_to_unix (t : Time) : Z := Z.div t second.

(** ** Machine words *)

Definition u8 (z : Z) : Z := (z mod 2 ^ 8)%Z.
Definition u16 (z : Z) : Z := (z mod 2 ^ 16)%Z.
Definition u32 (z : Z) : Z := (z mod 2 ^ 32)%Z.
Definition u64 (z : Z) : Z := (z mod 2 ^ 64)%Z.

Definition is_byte (b : Z) : Prop := (0 <= b < 256)%Z.
Definition is_byteb (b : Z) : bool := ((0 <=? b) && (b <? 256))%Z.

(** Big-endian value of a byte string ([binary.BigEndian.Uint16/Uint64]). *)
Definition be_uint (bs : list Z) : Z :=
  foldl (fun acc b => (acc * 256 + b)%Z) 0%Z bs.

(** ** Automation *)

Create HintDb wgmesh.

(** Break every boolean test of the goal and of the hypotheses. *)
Ltac bool_steps :=
  repeat match goal with
  | H : (_ && _) = true |- _ => apply andb_true_iff in H; destruct H
  | H : (_ || _) = false |- _ => apply orb_false_iff in H; destruct H
  | H : negb _ = true |- _ => apply negb_true_iff in H
  | H : negb _ = false |- _ => apply negb_false_iff in H
  | H : Z.ltb _ _ = true |- _ => apply Z.ltb_lt in H
  | H : Z.ltb _ _ = false |- _ => apply Z.ltb_ge in H
  | H : Z.leb _ _ = true |- _ => apply Z.leb_le in H
  | H : Z.leb _ _ = false |- _ => apply Z.leb_gt in H
  | H : Z.eqb _ _ = true |- _ => apply Z.eqb_eq in H
  | H : Z.eqb _ _ = false |- _ => apply Z.eqb_neq in H
  | H : String.eqb _ _ = true |- _ => apply String.eqb_eq in H
  | H : String.eqb _ _ = false |- _ => apply String.eqb_neq in H
  | H : bool_decide _ = true |- _ => apply bool_decide_eq_true in H
  | H : bool_decide _ = false |- _ => apply bool_decide_eq_false in H
  end.

(** Case analysis on the outermost conditionals and matches of the goal. *)
Ltac split_if :=
  repeat match goal with
  | |- context [if ?b then _ else _] => destruct b eqn:?
  end.

Ltac split_if_in H :=
  repeat match type of H with
  | context [if ?b then _ else _] => destruct b eqn:?
  end.

(** [lia] with the defining equations of division by constants. *)
Ltac div_lia := Z.to_euclidean_division_equations; lia.

(** Decide a closed proposition, or refute a closed hypothesis, by evaluation. *)
Ltac by_compute := refine (bool_decide_unpack _ _); vm_compute; exact I.
Ltac absurd_compute H :=
  let P := type of H in
  let E := fresh in
  assert (bool_decide P = false) as E by (vm_compute; reflexivity);
  apply bool_decide_eq_false in E; destruct (E H).

(** ** Lemmas shared by the components *)

Lemma time_sub_exact t u :
  (int64_min <= t - u <= int64_max)%Z -> time_sub t u = (t - u)%Z.
Proof. unfold time_sub. lia. Qed.

Lemma time_sub_diag t : time_sub t t = 0%Z.
Proof. unfold time_sub, int64_min, int64_max. lia. Qed.

(** Saturation does not change a comparison with a bound inside [int64]. *)
Lemma time_sub_lt_iff t u d :
  (int64_min < d <= int64_max)%Z -> (time_sub t u < d <-> t - u < d)%Z.
Proof. unfold time_sub. lia. Qed.

Lemma time_sub_gt_iff t u d :
  (int64_min <= d < int64_max)%Z -> (d < time_sub t u <-> d < t - u)%Z.
Proof. unfold time_sub. lia. Qed.

Lemma time_unix_to_unix s : time_to_unix (time_unix s) = s.
Proof. unfold time_to_unix, time_unix, second. apply Z.div_mul. lia. Qed.

(** Truncating to whole seconds loses less than a second and is idempotent. *)
Lemma time_to_unix_bounds t :
  (time_unix (time_to_unix t) <= t < time_unix (time_to_unix t) + second)%Z.
Proof.
  unfold time_unix, time_to_unix, second.
  pose proof (Z.div_mod t 1000000000 ltac:(lia)).
  pose proof (Z.mod_pos_bound t 1000000000 ltac:(lia)). lia.
Qed.

Lemma is_byteb_spec b : is_byteb b = true <-> is_byte b.
Proof. unfold is_byteb, is_byte. lia. Qed.

Lemma u8_byte z : is_byte (u8 z).
Proof. unfold u8, is_byte. pose proof (Z.mod_pos_bound z (2 ^ 8)). lia. Qed.

Lemma land_255 b : is_byte b -> Z.land b 255 = b.
Proof.
  intros Hb. change 255%Z with (Z.ones 8). rewrite Z.land_ones by lia.
  apply Z.mod_small. unfold is_byte in Hb. lia.
Qed.

Lemma land_255_byte a : is_byte (Z.land a 255).
Proof.
  change 255%Z with (Z.ones 8). rewrite Z.land_ones by lia. apply (u8_byte a).
Qed.

Lemma be_uint_app bs b : be_uint (bs ++ [b]) = (be_uint bs * 256 + b)%Z.
Proof. unfold be_uint. by rewrite foldl_app. Qed.

Lemma be_uint_bound bs :
  Forall is_byte bs -> (0 <= be_uint bs < 256 ^ Z.of_nat (length bs))%Z.
Proof.
  induction bs as [|b bs IH] using rev_ind; intros H; [done|].
  apply Forall_app in H as [H1 H2]. apply Forall_cons in H2 as [H2 _].
  specialize (IH H1). unfold is_byte in H2.
  rewrite be_uint_app, length_app, Nat2Z.inj_add.
  rewrite Z.pow_add_r by lia. change (256 ^ Z.of_nat (length [b]))%Z with 256%Z.
  generalize dependent (256 ^ Z.of_nat (length bs))%Z. lia.
Qed.

Lemma omap_cons_Some {A B} (f : A -> option B) x xs y :
  f x = Some y -> omap f (x :: xs) = y :: omap f xs.
Proof. intros H. simpl. by rewrite H. Qed.

Lemma filter_all {A} (P : A -> Prop) `{!forall x, Decision (P x)} (l : list A) :
  (forall x, x ∈ l -> P x) -> filter P l = l.
Proof.
  induction l as [|x l IH]; intros Hall; [done|]. rewrite filter_cons_True by (apply Hall; by left).
  f_equal. apply IH. intros y Hy. apply Hall. by right.
Qed.

(** Deleting a list of keys. *)
Lemma lookup_foldr_delete {A} (m : gmap string A) ks k :
  foldr delete m ks !! k = if decide (k ∈ ks) then None else m !! k.
Proof.
  induction ks as [|k' ks IH]; cbn [foldr].
  - case_decide; [by apply not_elem_of_nil in H|done].
  - rewrite lookup_delete, IH. destruct (decide (k' = k)) as [->|Hne].
    + rewrite decide_True; [done|]. by left.
    + destruct (decide (k ∈ ks)) as [Hin|Hin].
      * rewrite decide_True; [done|]. by right.
      * rewrite decide_False; [done|]. by intros [->|]%elem_of_cons.
Qed.

(** An optional part of a list. *)
Definition when {A} (b : bool) (l : list A) : list A := if b then l else [].

(** Filtering keeps the images distinct. *)
Lemma NoDup_fmap_filter {A B} (f : A -> B) (P : A -> Prop) `{!forall x, Decision (P x)} l :
  NoDup (f <$> l) -> NoDup (f <$> filter P l).
Proof.
  induction l as [|x l IH]; [done|]. rewrite fmap_cons, NoDup_cons. intros [Hx Hl].
  destruct (decide (P x)).
  - rewrite filter_cons_True, fmap_cons by done. constructor; [|by apply IH].
    intros (y & Hxy & [_ Hy]%list_elem_of_filter)%list_elem_of_fmap.
    apply Hx. rewrite Hxy. by apply list_elem_of_fmap_2.
  - rewrite filter_cons_False by done. by apply IH.
Qed.

#[export] Hint Resolve u8_byte : wgmesh.

(** Elements outside [P] give nothing. *)
Lemma omap_filter_in {A B} (P : A -> Prop) `{!forall x, Decision (P x)} (f : A -> option B) (l : list A) :
  (forall x, x ∈ l -> ~ P x -> f x = None) -> omap f l = omap f (filter P l).
Proof.
  induction l as [|x l IH]; intros Hn; [done|]. rewrite filter_cons. cbn [omap list_omap].
  rewrite IH by (intros y Hy; apply Hn; by right).
  destruct (decide (P x)) as [Hx|Hx]; cbn [omap list_omap]; [done|]. by rewrite Hn by (done || by left).
Qed.

Lemma omap_fmap_l {A B C} (g : A -> B) (f : B -> option C) (l : list A) : omap (fun x => f (g x)) l = omap f (g <$> l).
Proof. induction l as [|x l IH]; [done|]. cbn [omap list_omap fmap list_fmap]. fold (omap f (g <$> l)). by rewrite <- IH. Qed.

Lemma omap_ext_in {A B} (f g : A -> option B) (l : list A) : (forall x, x ∈ l -> f x = g x) -> omap f l = omap g l.
Proof.
  intros Hfg. induction l as [|x l IH]; [done|]. cbn [omap list_omap].
  rewrite (Hfg x) by (by left). rewrite IH by (intros y Hy; apply Hfg; by right). done.
Qed.
