(* ===== verification/GoStrings.v ===== *)
(** * The parts of Go's [strings], [strconv] and [fmt] the program calls

    Go strings are byte strings; they are modelled as Rocq [string]s (lists of
    8-bit [ascii]).  The whitespace and case functions are the ASCII part of
    the Go functions: the program applies them to interface names, routes,
    keys and command output. *)

From S2P Require Import Prelude.
From Stdlib Require Import Ascii DecimalString DecimalZ DecimalPos.
From Stdlib Require Export Ascii.

Notation "s1 ^^ s2" := (String.append s1 s2)
  (at level 60, right associativity) : wgmesh_scope.

(** ** Bytes of a string *)

Definition byte_of_ascii (c : ascii) : Z := Z.of_N (N_of_ascii c).
Definition ascii_of_byte (b : Z) : ascii := ascii_of_N (Z.to_N b).

(** [[]byte(s)] and [string(b)]. *)
Definition bytes_of_string (s : string) : list Z :=
  byte_of_ascii <$> String.list_ascii_of_string s.
Definition string_of_bytes (bs : list Z) : string :=
  String.string_of_list_ascii (ascii_of_byte <$> bs).

Fixpoint string_forall (p : ascii -> bool) (s : string) : bool :=
  match s with
  | EmptyString => true
  | String c s' => p c && string_forall p s'
  end.

(** Slicing: [s[:n]] and [s[n:]]. *)
Fixpoint str_take (n : nat) (s : string) : string :=
  match n, s with
  | O, _ => EmptyString
  | S _, EmptyString => EmptyString
  | S n', String c s' => String c (str_take n' s')
  end.

Fixpoint str_drop (n : nat) (s : string) : string :=
  match n, s with
  | O, _ => s
  | S _, EmptyString => EmptyString
  | S n', String _ s' => str_drop n' s'
  end.

(** ** [strings] *)

Definition has_prefix (s p : string) : bool := String.prefix p s.

Fixpoint contains (s sub : string) : bool :=
  has_prefix s sub ||
  match s with
  | EmptyString => false
  | String _ s' => contains s' sub
  end.

Fixpoint contains_char (c : ascii) (s : string) : bool :=
  match s with
  | EmptyString => false
  | String d s' => Ascii.eqb d c || contains_char c s'
  end.

(** [strings.Count] of a one-byte substring. *)
Fixpoint count_char (c : ascii) (s : string) : nat :=
  match s with
  | EmptyString => 0
  | String d s' => (if Ascii.eqb d c then 1 else 0) + count_char c s'
  end.

(** [strings.Split] with a one-byte separator. *)
Fixpoint split_char (c : ascii) (s : string) : list string :=
  match s with
  | EmptyString => [EmptyString]
  | String d s' =>
      if Ascii.eqb d c then EmptyString :: split_char c s'
      else match split_char c s' with
           | [] => [String d EmptyString]
           | w :: ws => String d w :: ws
           end
  end.

(** [strings.Cut]: the text before and after the first separator. *)
Fixpoint cut_char (c : ascii) (s : string) : option (string * string) :=
  match s with
  | EmptyString => None
  | String d s' =>
      if Ascii.eqb d c then Some (EmptyString, s')
      else match cut_char c s' with
           | Some (a, b) => Some (String d a, b)
           | None => None
           end
  end.

(** The text before and after the last separator. *)
Fixpoint cut_last (c : ascii) (s : string) : option (string * string) :=
  match s with
  | EmptyString => None
  | String d s' =>
      match cut_last c s' with
      | Some (a, b) => Some (String d a, b)
      | None => if Ascii.eqb d c then Some (EmptyString, s') else None
      end
  end.

(** [strings.SplitN(s, c, n)]. *)
Fixpoint split_n (n : nat) (c : ascii) (s : string) : list string :=
  match n with
  | O => []
  | S O => [s]
  | S n' => match cut_char c s with
            | Some (a, b) => a :: split_n n' c b
            | None => [s]
            end
  end.

Fixpoint join (sep : string) (ws : list string) : string :=
  match ws with
  | [] => EmptyString
  | [w] => w
  | w :: ws' => String.append w (String.append sep (join sep ws'))
  end.

Definition is_space (c : ascii) : bool :=
  let n := byte_of_ascii c in
  ((9 <=? n) && (n <=? 13) || (n =? 32))%Z.

Fixpoint trim_left (s : string) : string :=
  match s with
  | EmptyString => EmptyString
  | String c s' => if is_space c then trim_left s' else s
  end.

Fixpoint trim_right (s : string) : string :=
  match s with
  | EmptyString => EmptyString
  | String c s' =>
      match trim_right s' with
      | EmptyString => if is_space c then EmptyString else String c EmptyString
      | t => String c t
      end
  end.

Definition trim_space (s : string) : string := trim_right (trim_left s).

(** [strings.Fields], with the word being read kept as an accumulator. *)
Fixpoint fields_go (acc : string) (s : string) : list string :=
  match s with
  | EmptyString => if String.eqb acc EmptyString then [] else [acc]
  | String c s' =>
      if is_space c then
        (if String.eqb acc EmptyString then [] else [acc]) ++ fields_go EmptyString s'
      else fields_go (String.append acc (String c EmptyString)) s'
  end.
Definition fields (s : string) : list string := fields_go EmptyString s.

Definition lower_char (c : ascii) : ascii :=
  let n := byte_of_ascii c in
  if ((65 <=? n) && (n <=? 90))%Z then ascii_of_byte (n + 32) else c.
Definition upper_char (c : ascii) : ascii :=
  let n := byte_of_ascii c in
  if ((97 <=? n) && (n <=? 122))%Z then ascii_of_byte (n - 32) else c.

Fixpoint str_map (f : ascii -> ascii) (s : string) : string :=
  match s with
  | EmptyString => EmptyString
  | String c s' => String (f c) (str_map f s')
  end.
Definition to_lower : string -> string := str_map lower_char.
Definition to_upper : string -> string := str_map upper_char.

(** [a < b] on strings: byte-wise lexicographic order. *)
Definition str_lt (a b : string) : bool := String.ltb a b.

(** ** [strconv] and [fmt] *)

(** [strconv.Itoa] and the [%d] verb. *)
Definition itoa (z : Z) : string := NilZero.string_of_int (Z.to_int z).

Definition strip_plus (s : string) : option string :=
  match s with
  | String "+" (String d s') =>
      if Ascii.eqb d "-" then None else Some (String d s')
  | String "+" EmptyString => None
  | _ => Some s
  end.

(** [strconv.Atoi]: an optional sign, decimal digits, the [int64] range. *)
Definition atoi (s : string) : option Z :=
  match strip_plus s with
  | None => None
  | Some s' =>
      match NilZero.int_of_string s' with
      | Some d =>
          let z := Z.of_int d in
          if ((int64_min <=? z) && (z <=? int64_max))%Z then Some z else None
      | None => None
      end
  end.

Definition is_digit (c : ascii) : bool :=
  let n := byte_of_ascii c in ((48 <=? n) && (n <=? 57))%Z.

(** The longest prefix of decimal digits. *)
Fixpoint digit_prefix (s : string) : string :=
  match s with
  | EmptyString => EmptyString
  | String c s' => if is_digit c then String c (digit_prefix s') else EmptyString
  end.

(** [fmt.Sscanf(s, "%d", &x)]: leading blanks, a sign, a prefix of digits;
    the rest of [s] is not read. *)
Definition sscanf_d (s : string) : option Z :=
  match trim_left s with
  | String "-" s' =>
      let d := digit_prefix s' in
      if String.eqb d EmptyString then None else atoi (String "-" d)
  | String "+" s' =>
      let d := digit_prefix s' in
      if String.eqb d EmptyString then None else atoi d
  | s' =>
      let d := digit_prefix s' in
      if String.eqb d EmptyString then None else atoi d
  end.

(** One lower-case hexadecimal digit. *)
Definition hex_digit (n : Z) : ascii :=
  if (n <? 10)%Z then ascii_of_byte (48 + n) else ascii_of_byte (87 + n).

(** The [%x] verb on a byte string (also [hex.EncodeToString]). *)
Fixpoint hex_bytes (bs : list Z) : string :=
  match bs with
  | [] => EmptyString
  | b :: bs' => String (hex_digit (b / 16)) (String (hex_digit (b mod 16)) (hex_bytes bs'))
  end.

(** The [%0<w>x] verb, for a value below [16 ^ w]. *)
Fixpoint hex_pad (w : nat) (n : Z) : string :=
  match w with
  | O => EmptyString
  | S w' => String.append (hex_pad w' (n / 16)) (String (hex_digit (n mod 16)) EmptyString)
  end.

(** [sort.Strings]. *)
Definition str_le (a b : string) : Prop := String.leb a b = true.
#[export] Instance str_le_dec : RelDecision str_le.
Proof. intros a b. unfold str_le. apply _. Defined.

Definition sort_strings (l : list string) : list string := merge_sort str_le l.

(** ** Lemmas *)

#[export] Instance str_le_trans : Transitive str_le.
Proof.
  intros a b c. unfold str_le, String.leb.
  destruct (String.compare a b) eqn:E1, (String.compare b c) eqn:E2; try done; intros _ _.
  - apply String.compare_eq_iff in E1 as ->. by rewrite E2.
  - apply String.compare_eq_iff in E1 as ->. by rewrite E2.
  - apply String.compare_eq_iff in E2 as ->. by rewrite E1.
  - assert (String.compare a c = Lt) as ->; [|done].
    revert b c E1 E2. induction a as [|x a IH]; intros [|y b] [|z c]; simpl; try done.
    unfold Ascii.compare.
    destruct (N.compare_spec (N_of_ascii x) (N_of_ascii y)) as [H1|H1|H1];
      destruct (N.compare_spec (N_of_ascii y) (N_of_ascii z)) as [H2|H2|H2]; try done.
    + rewrite H1, H2, N.compare_refl. eauto.
    + intros _ _. rewrite H1. by apply N.compare_lt_iff in H2 as ->.
    + intros _ _. rewrite <- H2. by apply N.compare_lt_iff in H1 as ->.
    + intros _ _. assert (N_of_ascii x < N_of_ascii z)%N as Hlt by lia.
      by apply N.compare_lt_iff in Hlt as ->.
Qed.

#[export] Instance str_le_total : Total str_le.
Proof.
  intros a b. unfold str_le, String.leb. rewrite String.compare_antisym.
  destruct (String.compare b a); simpl; auto.
Qed.

#[export] Instance str_le_antisym : AntiSymm (=) str_le.
Proof.
  intros a b. unfold str_le, String.leb. rewrite (String.compare_antisym b a).
  destruct (String.compare a b) eqn:E; simpl; intros ??; try done.
  by apply String.compare_eq_iff.
Qed.

Lemma str_lt_le a b : str_lt a b = true -> str_le a b.
Proof. unfold str_lt, str_le, String.ltb, String.leb. by destruct (String.compare a b). Qed.

Lemma str_lt_not_le a b : str_lt a b = false -> str_le b a.
Proof.
  unfold str_lt, str_le, String.ltb, String.leb. rewrite (String.compare_antisym b a).
  by destruct (String.compare a b).
Qed.

Lemma str_compare_refl a : String.compare a a = Eq.
Proof.
  induction a as [|c a IH]; simpl; [done|].
  unfold Ascii.compare. by rewrite N.compare_refl.
Qed.

Lemma str_lt_irrefl a : str_lt a a = false.
Proof. unfold str_lt, String.ltb. by rewrite str_compare_refl. Qed.

Lemma str_lt_ne a b : str_lt a b = true -> a <> b.
Proof. intros H ->. by rewrite str_lt_irrefl in H. Qed.

Lemma str_lt_asym a b : a <> b -> str_lt a b = negb (str_lt b a).
Proof.
  intros Hne. unfold str_lt, String.ltb. rewrite (String.compare_antisym b a).
  destruct (String.compare a b) eqn:E; try done.
  by apply String.compare_eq_iff in E.
Qed.

(** Sorting depends on the set of elements only, not on their order. *)
Lemma sort_strings_perm l : sort_strings l ≡ₚ l.
Proof. apply merge_sort_Permutation. Qed.

Lemma sort_strings_sorted l : StronglySorted str_le (sort_strings l).
Proof. apply StronglySorted_merge_sort; apply _. Qed.

Lemma sort_strings_canonical l1 l2 : l1 ≡ₚ l2 -> sort_strings l1 = sort_strings l2.
Proof.
  intros H. apply (StronglySorted_unique str_le);
    [apply sort_strings_sorted | apply sort_strings_sorted |].
  by rewrite !sort_strings_perm.
Qed.

(** Sorting records by a string key forgets the order they were listed in, when
    the keys are distinct. *)
Lemma sort_by_key_canonical {A} (key : A -> string) (R : A -> A -> Prop) `{!RelDecision R} (l1 l2 : list A) :
  (forall x y, R x y <-> str_le (key x) (key y)) ->
  NoDup (key <$> l1) -> l1 ≡ₚ l2 -> merge_sort R l1 = merge_sort R l2.
Proof.
  intros HR Hnd Hp.
  assert (Transitive R) by (intros x y z; rewrite !HR; apply transitivity).
  assert (Total R) by (intros x y; rewrite !HR; apply total, _).
  apply (StronglySorted_unique_strong R).
  - intros x1 x2 H1 H2 H12 H21. rewrite merge_sort_Permutation in H1.
    rewrite merge_sort_Permutation, <- Hp in H2. rewrite HR in H12, H21.
    assert (key x1 = key x2) as Hk by (by apply (anti_symm str_le)).
    apply list_elem_of_lookup in H1 as [i1 H1]. apply list_elem_of_lookup in H2 as [i2 H2].
    assert (i1 = i2); [|congruence].
    eapply NoDup_lookup; [exact Hnd| |]; rewrite list_lookup_fmap.
    + rewrite H1. reflexivity.
    + rewrite H2. simpl. by rewrite Hk.
  - by apply StronglySorted_merge_sort.
  - by apply StronglySorted_merge_sort.
  - by rewrite !merge_sort_Permutation.
Qed.

Lemma atoi_itoa z : (int64_min <= z <= int64_max)%Z -> atoi (itoa z) = Some z.
Proof.
  intros Hz. unfold atoi, itoa.
  assert (strip_plus (NilZero.string_of_int (Z.to_int z)) =
          Some (NilZero.string_of_int (Z.to_int z))) as ->.
  { destruct (Z.to_int z) as [u|u]; [|done]. by destruct u. }
  rewrite NilZero.isi.
  - rewrite DecimalZ.of_to. by replace ((int64_min <=? z) && (z <=? int64_max))%Z with true by lia.
  - destruct z; try done. simpl. intros [=H]. by apply (DecimalPos.Unsigned.to_uint_nonnil p).
  - destruct z; try done. simpl. intros [=H]. by apply (DecimalPos.Unsigned.to_uint_nonnil p).
Qed.

(** [Itoa] is injective on the whole [int64] range. *)
Lemma itoa_inj x y :
  (int64_min <= x <= int64_max)%Z -> (int64_min <= y <= int64_max)%Z ->
  itoa x = itoa y -> x = y.
Proof. intros Hx Hy H. apply atoi_itoa in Hx, Hy. congruence. Qed.

Lemma string_of_uint_digits u : string_forall is_digit (NilEmpty.string_of_uint u) = true.
Proof. by induction u. Qed.

(** [Itoa] of a non-negative number is made of digits. *)
Lemma itoa_digits z : (0 <= z)%Z -> string_forall is_digit (itoa z) = true.
Proof.
  intros Hz. unfold itoa. destruct z as [|p|p]; [done| |lia]. simpl.
  unfold NilZero.string_of_uint. destruct (Pos.to_uint p) eqn:E; try done;
    rewrite <- E; apply string_of_uint_digits.
Qed.

Lemma itoa_nonempty z : itoa z <> EmptyString.
Proof.
  unfold itoa. destruct z as [|p|p]; simpl; try done.
  unfold NilZero.string_of_uint. by destruct (Pos.to_uint p).
Qed.

Lemma app_cons_str c s t : String.append (String c s) t = String c (String.append s t).
Proof. done. Qed.

Lemma app_nil_l_str t : String.append EmptyString t = t.
Proof. done. Qed.

(** Unfold [String.append] on constructors. *)
Ltac str_simpl := repeat (rewrite app_cons_str || rewrite app_nil_l_str); simpl.
Ltac str_simpl_in H := repeat (rewrite app_cons_str in H || rewrite app_nil_l_str in H); simpl in H.

Lemma app_nil_r_str s : String.append s EmptyString = s.
Proof. induction s as [|c s IH]; str_simpl; [done|by rewrite IH]. Qed.

Lemma length_app_str a b : String.length (String.append a b) = (String.length a + String.length b)%nat.
Proof. induction a as [|c a IH]; [done|]. rewrite app_cons_str. simpl. by rewrite IH. Qed.
Lemma app_assoc_str a b c :
  String.append a (String.append b c) = String.append (String.append a b) c.
Proof. induction a as [|x a IH]; str_simpl; [done|by rewrite IH]. Qed.

Lemma contains_char_app c s t :
  contains_char c (String.append s t) = contains_char c s || contains_char c t.
Proof. induction s as [|d s IH]; str_simpl; [done|]. by rewrite IH, orb_assoc. Qed.

Lemma string_forall_app p s t :
  string_forall p (String.append s t) = string_forall p s && string_forall p t.
Proof. induction s as [|d s IH]; str_simpl; [done|]. by rewrite IH, andb_assoc. Qed.

(** Cutting a string at a position. *)
Lemma has_prefix_app p s : has_prefix (String.append p s) p = true.
Proof.
  unfold has_prefix. induction p as [|c p IH]; [by destruct s|].
  rewrite app_cons_str. cbn [String.prefix]. by destruct (ascii_dec c c).
Qed.
Lemma str_take_app p s : str_take (String.length p) (String.append p s) = p.
Proof. induction p as [|c p IH]; [by destruct s|]. rewrite app_cons_str. cbn [String.length str_take]. by rewrite IH. Qed.
Lemma str_drop_app p s : str_drop (String.length p) (String.append p s) = s.
Proof. induction p as [|c p IH]; [by destruct s|]. by rewrite app_cons_str. Qed.
Lemma str_take_drop n s : String.append (str_take n s) (str_drop n s) = s.
Proof. revert n. induction s as [|c s IH]; intros [|n]; try done. cbn [str_take str_drop]. by rewrite app_cons_str, IH. Qed.
Lemma str_drop_length s : str_drop (String.length s) s = EmptyString.
Proof. by induction s. Qed.
Lemma str_take_forall p n s : string_forall p s = true -> string_forall p (str_take n s) = true.
Proof. revert n. induction s as [|c s IH]; intros [|n]; try done. cbn [string_forall str_take]. intros H. apply andb_true_iff in H as [H1 H2]. by rewrite IH, H1. Qed.
Lemma str_drop_forall p n s : string_forall p s = true -> string_forall p (str_drop n s) = true.
Proof. revert n. induction s as [|c s IH]; intros [|n]; try done. cbn [string_forall str_drop]. intros H. apply andb_true_iff in H as [_ H2]. by apply IH. Qed.
Lemma length_str_take n s : String.length (str_take n s) = Nat.min n (String.length s).
Proof. revert n. induction s as [|c s IH]; intros [|n]; try done. cbn [String.length str_take]. rewrite IH. lia. Qed.
Lemma length_str_drop n s : String.length (str_drop n s) = (String.length s - n)%nat.
Proof. revert n. induction s as [|c s IH]; intros [|n]; try done. cbn [String.length str_drop]. by rewrite IH. Qed.

Lemma forall_not_contains p c s :
  p c = false -> string_forall p s = true -> contains_char c s = false.
Proof.
  intros Hc. induction s as [|d s IH]; simpl; [done|]. intros H. bool_steps.
  rewrite IH by done. destruct (Ascii.eqb_spec d c) as [->|]; [congruence|done].
Qed.

Lemma split_char_nonempty c s : split_char c s <> [].
Proof. destruct s as [|d s]; simpl; [done|]. destruct (Ascii.eqb d c); [done|].
  by destruct (split_char c s). Qed.

(** [Join] undoes [Split]. *)
Lemma join_split c s : join (String c EmptyString) (split_char c s) = s.
Proof.
  induction s as [|d s IH]; simpl; [done|].
  pose proof (split_char_nonempty c s).
  destruct (Ascii.eqb_spec d c) as [->|Hne];
    destruct (split_char c s) as [|w [|w' ws]]; simpl in *; subst; str_simpl; try done.
Qed.

Lemma split_char_no_sep c s : contains_char c s = false -> split_char c s = [s].
Proof.
  induction s as [|d s IH]; simpl; [done|]. intros H. bool_steps.
  rewrite H, IH by done. done.
Qed.

Lemma split_char_app c s t :
  contains_char c s = false ->
  split_char c (String.append s (String c t)) = s :: split_char c t.
Proof.
  induction s as [|d s IH]; str_simpl; intros H.
  - by rewrite Ascii.eqb_refl.
  - bool_steps. rewrite H, IH by done. done.
Qed.

Lemma cut_char_app c s t :
  contains_char c s = false -> cut_char c (String.append s (String c t)) = Some (s, t).
Proof.
  induction s as [|d s IH]; str_simpl; intros H.
  - by rewrite Ascii.eqb_refl.
  - bool_steps. rewrite H, IH by done. done.
Qed.

Lemma cut_last_none c s : contains_char c s = false -> cut_last c s = None.
Proof.
  induction s as [|d s IH]; simpl; [done|]. intros H. bool_steps.
  by rewrite IH, H by done.
Qed.

Lemma cut_last_app c s t :
  contains_char c t = false -> cut_last c (String.append s (String c t)) = Some (s, t).
Proof.
  intros Ht. induction s as [|d s IH]; str_simpl.
  - by rewrite (cut_last_none c t Ht), Ascii.eqb_refl.
  - by rewrite IH.
Qed.

Lemma ascii_byte_roundtrip c : ascii_of_byte (byte_of_ascii c) = c.
Proof. unfold ascii_of_byte, byte_of_ascii. by rewrite N2Z.id, ascii_N_embedding. Qed.

Lemma byte_ascii_roundtrip b : is_byte b -> byte_of_ascii (ascii_of_byte b) = b.
Proof.
  unfold ascii_of_byte, byte_of_ascii, is_byte. intros H.
  rewrite N_ascii_embedding by lia. lia.
Qed.

Lemma byte_of_ascii_range c : is_byte (byte_of_ascii c).
Proof.
  unfold byte_of_ascii, is_byte. pose proof (N_ascii_bounded c). lia.
Qed.

Lemma string_bytes_roundtrip s : string_of_bytes (bytes_of_string s) = s.
Proof.
  unfold string_of_bytes, bytes_of_string. rewrite <- list_fmap_compose.
  transitivity (String.string_of_list_ascii (String.list_ascii_of_string s)).
  - f_equal. rewrite <- (list_fmap_id (String.list_ascii_of_string s)) at 2.
    apply list_fmap_ext. intros i x _. apply ascii_byte_roundtrip.
  - apply String.string_of_list_ascii_of_string.
Qed.

Lemma bytes_of_string_bytes s : Forall is_byte (bytes_of_string s).
Proof.
  unfold bytes_of_string. apply Forall_fmap, Forall_forall. intros c _. apply byte_of_ascii_range.
Qed.

Lemma trim_left_idem s : trim_left (trim_left s) = trim_left s.
Proof. induction s as [|c s IH]; simpl; [done|]. destruct (is_space c) eqn:E; simpl; [done|by rewrite E]. Qed.

Lemma trim_right_idem s : trim_right (trim_right s) = trim_right s.
Proof.
  induction s as [|c s IH]; simpl; [done|].
  destruct (trim_right s) as [|d t] eqn:E.
  - destruct (is_space c) eqn:Ec; simpl; [done|by rewrite Ec].
  - change (trim_right (String c (String d t))) with
      (match trim_right (String d t) with
       | EmptyString => if is_space c then EmptyString else String c EmptyString
       | u => String c u end).
    by rewrite IH.
Qed.

(** A string without blanks at its ends is unchanged by [TrimSpace]. *)
Definition tight (s : string) : bool := string_forall (fun c => negb (is_space c)) s.

Lemma trim_right_tight s : tight s = true -> trim_right s = s.
Proof.
  unfold tight. induction s as [|c s IH]; simpl; [done|]. intros H. bool_steps.
  rewrite IH by done. rewrite H. by destruct s.
Qed.

Lemma trim_space_tight s : tight s = true -> trim_space s = s.
Proof.
  intros H. unfold trim_space. assert (trim_left s = s) as ->; [|by apply trim_right_tight].
  destruct s as [|c s]; [done|]. unfold tight in H. simpl in *. bool_steps. by rewrite H.
Qed.

#[export] Hint Resolve bytes_of_string_bytes byte_of_ascii_range : wgmesh.

(** Non-empty words without blanks. *)
Definition word (w : string) : Prop := w <> EmptyString /\ tight w = true.

Lemma fields_go_tight acc w s :
  tight w = true -> fields_go acc (String.append w s) = fields_go (String.append acc w) s.
Proof.
  unfold tight. revert acc. induction w as [|c w IH]; intros acc H; str_simpl.
  - by rewrite app_nil_r_str.
  - simpl in H. bool_steps. rewrite H, IH by done. by rewrite <- app_assoc_str.
Qed.

(** [Fields] reads back words joined by single blanks. *)
Lemma fields_join ws : Forall word ws -> fields (join " " ws) = ws.
Proof.
  unfold fields. induction ws as [|w ws IH]; intros Hf; [done|].
  apply Forall_cons in Hf as [[Hne Ht] Hf].
  assert (String.eqb w EmptyString = false) as Hw by by apply String.eqb_neq.
  destruct ws as [|w' ws].
  - simpl. rewrite <- (app_nil_r_str w) at 1. rewrite fields_go_tight by done.
    simpl. rewrite app_nil_l_str. by rewrite Hw.
  - change (join " " (w :: w' :: ws)) with
      (String.append w (String.append " " (join " " (w' :: ws)))).
    rewrite fields_go_tight by done. rewrite app_nil_l_str.
    rewrite app_cons_str, app_nil_l_str. cbn [fields_go].
    change (is_space " ") with true. cbv iota. rewrite Hw. by rewrite IH.
Qed.

Lemma fields_trim_left s : fields (trim_left s) = fields s.
Proof.
  unfold fields. induction s as [|c s IH]; simpl; [done|].
  destruct (is_space c) eqn:E; [done|]. simpl. by rewrite E.
Qed.

Lemma fields_all_space s : trim_right s = EmptyString -> fields_go EmptyString s = [].
Proof.
  induction s as [|c s IH]; simpl; [done|].
  destruct (trim_right s); [|done]. destruct (is_space c); [|done]. intros _. by rewrite IH.
Qed.

Lemma fields_trim_right acc s : fields_go acc (trim_right s) = fields_go acc s.
Proof.
  revert acc. induction s as [|c s IH]; intros acc; simpl; [done|].
  destruct (trim_right s) as [|d t] eqn:E.
  - destruct (is_space c) eqn:Ec; simpl.
    + rewrite fields_all_space by done. by destruct (String.eqb acc "").
    + rewrite Ec. apply IH.
  - cbn [fields_go] in *. destruct (is_space c) eqn:Ec; [|apply IH].
    f_equal. exact (IH EmptyString).
Qed.

(** [s[:n]]; [None] is the panic of a slice beyond the string. *)
Definition str_prefix (s : string) (n : nat) : option string :=
  if Nat.leb n (String.length s) then Some (String.substring 0 n s) else None.

(** [Fields] does not care for surrounding blanks. *)
Lemma fields_trim_space s : fields (trim_space s) = fields s.
Proof.
  unfold trim_space. rewrite <- (fields_trim_left s). apply fields_trim_right.
Qed.

(** [Fields] has no empty word. *)
Lemma fields_nonempty s : Forall (fun w => w <> EmptyString) (fields s).
Proof.
  unfold fields. generalize EmptyString at 2 as acc. revert s.
  assert (forall s acc, Forall (fun w => w <> EmptyString) (fields_go acc s)) as H; [|auto].
  induction s as [|c s IH]; intros acc; cbn [fields_go].
  - destruct (String.eqb_spec acc EmptyString); by repeat constructor.
  - destruct (is_space c); [|apply IH]. apply Forall_app. split; [|apply IH].
    destruct (String.eqb_spec acc EmptyString); by repeat constructor.
Qed.

Lemma trim_right_app s t : trim_right t = EmptyString -> trim_right (String.append s t) = trim_right s.
Proof. intros H. induction s as [|c s IH]; [by rewrite app_nil_l_str|]. rewrite app_cons_str. cbn [trim_right]. by rewrite IH. Qed.

Lemma trim_right_last s c : is_space c = false -> trim_right (String.append s (String c EmptyString)) = String.append s (String c EmptyString).
Proof.
  intros H. induction s as [|d s IH]; [rewrite app_nil_l_str; cbn [trim_right]; by rewrite H|].
  rewrite app_cons_str. cbn [trim_right]. rewrite IH. by destruct s.
Qed.
