(* ===== verification/GoNet.v ===== *)
(** * The parts of Go's [net] and [net/netip] the program calls

    [net.IP] is a byte slice: a list of 4 or 16 bytes ([ParseIP] returns the
    16-byte form, an IPv4 address under the prefix [::ffff:0:0/96]).
    [SplitHostPort], [JoinHostPort], [ParseIP], [ParseCIDR], [IPNet.Contains]
    and [IP.String] follow the standard library's code. *)

From S2P Require Import Prelude GoStrings.
Local Open Scope Z_scope.

(** ** Host and port *)

(** [net.SplitHostPort]; [None] is any of its errors. *)
Definition split_host_port (hostport : string) : option (string * string) :=
  match cut_last ":" hostport with
  | None => None
  | Some (before, port) =>
      match hostport with
      | String "[" rest =>
          match cut_char "]" rest with
          | None => None
          | Some (host, after) =>
              match after with
              | String ":" p =>
                  (* the bracket must be closed right before the last colon *)
                  if contains_char ":" p then None
                  else if contains_char "[" rest || contains_char "]" p then None
                  else Some (host, p)
              | _ => None
              end
          end
      | _ =>
          if contains_char ":" before then None
          else if contains_char "[" hostport || contains_char "]" hostport then None
          else Some (before, port)
      end
  end.

(** [net.JoinHostPort]. *)
Definition join_host_port (host port : string) : string :=
  if contains_char ":" host
  then String "[" (String.append host (String "]" (String ":" port)))
  else String.append host (String ":" port).

(** ** Addresses *)

Definition v4_in_v6_prefix : list Z := [0;0;0;0;0;0;0;0;0;0;255;255].

(** [ip.To4()]. *)
Definition to4 (ip : list Z) : option (list Z) :=
  if Nat.eqb (length ip) 4 then Some ip
  else if Nat.eqb (length ip) 16 && bool_decide (take 12 ip = v4_in_v6_prefix)
  then Some (drop 12 ip)
  else None.

(** One decimal octet: one to three digits, no leading zero, at most 255. *)
Definition parse_octet (s : string) : option Z :=
  if String.eqb s EmptyString then None
  else if negb (string_forall is_digit s) then None
  else match s with
       | String "0" (String _ _) => None
       | _ => match atoi s with
              | Some n => if n <=? 255 then Some n else None
              | None => None
              end
       end.

Definition parse_ipv4 (s : string) : option (list Z) :=
  match split_char "." s with
  | [a; b; c; d] =>
      match parse_octet a, parse_octet b, parse_octet c, parse_octet d with
      | Some a, Some b, Some c, Some d => Some [a; b; c; d]
      | _, _, _, _ => None
      end
  | _ => None
  end.

Definition hex_value (c : ascii) : option Z :=
  let n := byte_of_ascii c in
  if (48 <=? n) && (n <=? 57) then Some (n - 48)
  else if (97 <=? n) && (n <=? 102) then Some (n - 87)
  else if (65 <=? n) && (n <=? 70) then Some (n - 55)
  else None.

(** The hexadecimal prefix of [s]: number of digits, value, the rest. *)
Fixpoint hex_prefix (s : string) : nat * Z * string :=
  match s with
  | EmptyString => (O, 0, EmptyString)
  | String c s' =>
      match hex_value c with
      | None => (O, 0, s)
      | Some v =>
          let '(n, acc, rest) := hex_prefix s' in
          (S n, v * 16 ^ Z.of_nat n + acc, rest)
      end
  end.

(** The loop of [netip.parseIPv6]: at most eight groups, [ip] the bytes
    written so far, [ell] the position of the ellipsis.  The result is the
    bytes, the ellipsis and the unread text. *)
Fixpoint parse_ipv6_loop (fuel : nat) (ip : list Z) (ell : option nat) (s : string)
  : option (list Z * option nat * string) :=
  match fuel with
  | O => Some (ip, ell, s)
  | S fuel =>
      let '(n, acc, rest) := hex_prefix s in
      if (Nat.eqb n 0) || (Nat.ltb 4 n) then None
      else match rest with
      | String "." _ =>
          if (match ell with None => negb (Nat.eqb (length ip) 12) | Some _ => false end)
             || Nat.ltb 12 (length ip)
          then None
          else match parse_ipv4 s with
               | Some v4 => Some (ip ++ v4, ell, EmptyString)
               | None => None
               end
      | EmptyString => Some (ip ++ [acc / 256; acc mod 256], ell, EmptyString)
      | String ":" rest1 =>
          let ip' := ip ++ [acc / 256; acc mod 256] in
          match rest1 with
          | EmptyString => None
          | String ":" rest2 =>
              match ell with
              | Some _ => None
              | None =>
                  if String.eqb rest2 EmptyString then Some (ip', Some (length ip'), EmptyString)
                  else parse_ipv6_loop fuel ip' (Some (length ip')) rest2
              end
          | _ => parse_ipv6_loop fuel ip' ell rest1
          end
      | _ => None
      end
  end.

Definition parse_ipv6 (s : string) : option (list Z) :=
  if contains_char "%" s then None  (* a zone: refused by ParseIP and ParseCIDR *)
  else
    let start :=
      match s with
      | String ":" (String ":" s') => (Some 0%nat, s')
      | _ => (None, s)
      end in
    match start with
    | (Some _, EmptyString) => Some (replicate 16 0)
    | (ell, s') =>
        match parse_ipv6_loop 8 [] ell s' with
        | Some (ip, ell', EmptyString) =>
            if Nat.ltb (length ip) 16 then
              match ell' with
              | None => None
              | Some e => Some (take e ip ++ replicate (16 - length ip) 0 ++ drop e ip)
              end
            else match ell' with
                 | None => Some ip
                 | Some _ => None
                 end
        | _ => None
        end
    end.

(** The address family is chosen by the first of ['.'], [':'] and ['%']. *)
Inductive addr_kind := KindV4 | KindV6 | KindBad.

Fixpoint addr_kind_of (s : string) : addr_kind :=
  match s with
  | EmptyString => KindBad
  | String c s' =>
      if Ascii.eqb c "." then KindV4
      else if Ascii.eqb c ":" then KindV6
      else if Ascii.eqb c "%" then KindBad
      else addr_kind_of s'
  end.

(** [netip.ParseAddr], with no zone: the address bytes in their own family. *)
Definition parse_addr (s : string) : option (list Z) :=
  match addr_kind_of s with
  | KindV4 => parse_ipv4 s
  | KindV6 => parse_ipv6 s
  | KindBad => None
  end.

Definition as16 (ip : list Z) : list Z :=
  if Nat.eqb (length ip) 4 then v4_in_v6_prefix ++ ip else ip.

(** [net.ParseIP]. *)
Definition parse_ip (s : string) : option (list Z) := as16 <$> parse_addr s.

(** [ip.IsLoopback()], [ip.IsPrivate()], [ip.IsLinkLocalUnicast()]. *)
Definition is_loopback (ip : list Z) : bool :=
  match to4 ip with
  | Some v4 => Z.eqb (nth 0 v4 0) 127
  | None => bool_decide (ip = replicate 15 0 ++ [1])
  end.

Definition is_private (ip : list Z) : bool :=
  match to4 ip with
  | Some v4 =>
      (nth 0 v4 0 =? 10)
      || ((nth 0 v4 0 =? 172) && (Z.land (nth 1 v4 0) 240 =? 16))
      || ((nth 0 v4 0 =? 192) && (nth 1 v4 0 =? 168))
  | None => Nat.eqb (length ip) 16 && (Z.land (nth 0 ip 0) 254 =? 252)
  end.

Definition is_link_local_unicast (ip : list Z) : bool :=
  match to4 ip with
  | Some v4 => (nth 0 v4 0 =? 169) && (nth 1 v4 0 =? 254)
  | None => Nat.eqb (length ip) 16 && (nth 0 ip 0 =? 254) && (Z.land (nth 1 ip 0) 192 =? 128)
  end.

(** [ip.IsUnspecified()], [ip.IsMulticast()], [ip.IsLinkLocalMulticast()]. *)
Definition is_unspecified (ip : list Z) : bool :=
  match to4 ip with
  | Some v4 => bool_decide (v4 = [0; 0; 0; 0])
  | None => bool_decide (ip = replicate 16 0)
  end.

Definition is_multicast (ip : list Z) : bool :=
  match to4 ip with
  | Some v4 => Z.land (nth 0 v4 0) 240 =? 224
  | None => Nat.eqb (length ip) 16 && (nth 0 ip 0 =? 255)
  end.

Definition is_link_local_multicast (ip : list Z) : bool :=
  match to4 ip with
  | Some v4 => (nth 0 v4 0 =? 224) && (nth 1 v4 0 =? 0) && (nth 2 v4 0 =? 0)
  | None => Nat.eqb (length ip) 16 && (nth 0 ip 0 =? 255) && (Z.land (nth 1 ip 0) 15 =? 2)
  end.

(** [ip.IsGlobalUnicast()]. *)
Definition is_global_unicast (ip : list Z) : bool :=
  (Nat.eqb (length ip) 4 || Nat.eqb (length ip) 16)
  && negb (bool_decide (to4 ip = Some [255; 255; 255; 255]))
  && negb (is_unspecified ip)
  && negb (is_loopback ip)
  && negb (is_multicast ip)
  && negb (is_link_local_unicast ip).

(** [ip.IsGlobalUnicast()] of an IPv6 address. *)
Definition is_global_unicast6 (ip : list Z) : bool :=
  Nat.eqb (length ip) 16
  && negb (bool_decide (ip = replicate 16 0))
  && negb (is_loopback ip)
  && negb (nth 0 ip 0 =? 255)
  && negb (is_link_local_unicast ip).

(** ** Networks *)

Record IPNet := { net_ip : list Z; net_mask : list Z }.

#[export] Instance IPNet_eq_dec : EqDecision IPNet.
Proof. solve_decision. Defined.

(** [net.CIDRMask(ones, bits)]. *)
Fixpoint cidr_mask (nbytes : nat) (ones : Z) : list Z :=
  match nbytes with
  | O => []
  | S n =>
      if 8 <=? ones then 255 :: cidr_mask n (ones - 8)
      else (256 - 2 ^ (8 - ones)) :: replicate n 0
  end.

(** [ip.Mask(m)]. *)
Definition ip_mask (ip m : list Z) : list Z :=
  let ip := if Nat.eqb (length m) 4 && Nat.eqb (length ip) 16
               && bool_decide (take 12 ip = v4_in_v6_prefix)
            then drop 12 ip else ip in
  zip_with Z.land ip m.

(** Leading one bits of a mask byte, if its ones are contiguous. *)
Definition mask_byte_ones (b : Z) : option Z :=
  if b =? 255 then Some 8 else if b =? 254 then Some 7 else if b =? 252 then Some 6
  else if b =? 248 then Some 5 else if b =? 240 then Some 4 else if b =? 224 then Some 3
  else if b =? 192 then Some 2 else if b =? 128 then Some 1 else if b =? 0 then Some 0
  else None.

Fixpoint simple_mask_length (m : list Z) : option Z :=
  match m with
  | [] => Some 0
  | b :: m' =>
      if b =? 255 then (fun n => 8 + n) <$> simple_mask_length m'
      else match mask_byte_ones b with
           | Some n => if forallb (fun x => x =? 0) m' then Some n else None
           | None => None
           end
  end.

(** [mask.Size()]: ones and bits, both 0 for a mask that is not a prefix. *)
Definition mask_size (m : list Z) : Z * Z :=
  match simple_mask_length m with
  | Some n => (n, 8 * Z.of_nat (length m))
  | None => (0, 0)
  end.

(** [net.ParseCIDR]: the address (16 bytes) and the network. *)
Definition parse_cidr (s : string) : option (list Z * IPNet) :=
  match cut_char "/" s with
  | None => None
  | Some (addr, mask) =>
      match parse_addr addr with
      | None => None
      | Some a =>
          let bits := 8 * Z.of_nat (length a) in
          if String.eqb mask EmptyString || negb (string_forall is_digit mask) then None
          else match atoi mask with
               | None => None
               | Some n =>
                   if bits <? n then None
                   else
                     let m := cidr_mask (length a) n in
                     Some (as16 a, {| net_ip := ip_mask (as16 a) m; net_mask := m |})
               end
      end
  end.

(** [n.Contains(ip)]. *)
Definition net_contains (n : IPNet) (ip : list Z) : bool :=
  let nn := match to4 (net_ip n) with Some v4 => v4 | None => net_ip n end in
  let m := if Nat.eqb (length (net_mask n)) 16 && Nat.eqb (length nn) 4
           then drop 12 (net_mask n) else net_mask n in
  let x := match to4 ip with Some v4 => v4 | None => ip end in
  Nat.eqb (length nn) (length m)
  && (Nat.eqb (length nn) 4 || Nat.eqb (length nn) 16)
  && Nat.eqb (length x) (length nn)
  && bool_decide (zip_with Z.land nn m = zip_with Z.land x m).

(** ** Printing addresses *)

Definition ipv4_string (ip : list Z) : string := join "." (itoa <$> ip).

Fixpoint groups16 (ip : list Z) : list Z :=
  match ip with
  | a :: b :: rest => (a * 256 + b) :: groups16 rest
  | _ => []
  end.

(** Hexadecimal without leading zeros ([appendHex]). *)
Definition hex16 (n : Z) : string :=
  if n <? 16 then hex_pad 1 n
  else if n <? 256 then hex_pad 2 n
  else if n <? 4096 then hex_pad 3 n
  else hex_pad 4 n.

Fixpoint zero_run (gs : list Z) : nat :=
  match gs with
  | g :: gs' => if g =? 0 then S (zero_run gs') else O
  | [] => O
  end.

(** The first longest run of at least two zero groups: start and length. *)
Fixpoint best_run (i : nat) (gs : list Z) (best : nat * nat) : nat * nat :=
  match gs with
  | [] => best
  | _ :: gs' =>
      let l := zero_run gs in
      let best' := if Nat.leb 2 l && Nat.ltb (snd best) l then (i, l) else best in
      best_run (S i) gs' best'
  end.

Definition ipv6_string (ip : list Z) : string :=
  let gs := groups16 ip in
  let '(st, l) := best_run 0 gs (0%nat, 0%nat) in
  if Nat.eqb l 0 then join ":" (hex16 <$> gs)
  else String.append (join ":" (hex16 <$> take st gs))
         (String.append "::" (join ":" (hex16 <$> drop (st + l) gs))).

(** [ip.String()] of a 4- or 16-byte address. *)
Definition ip_string (ip : list Z) : string :=
  match to4 ip with
  | Some v4 => ipv4_string v4
  | None => ipv6_string ip
  end.

(** [isIPv6Endpointvalue], written in three packages with the same body. *)
Definition endpoint_is_v6 (endpoint : string) : bool :=
  match split_host_port endpoint with
  | None => false
  | Some (host, _) =>
      match parse_ip host with
      | None => false
      | Some ip => match to4 ip with None => true | Some _ => false end
      end
  end.

(** A peer's UDP source address. *)
Record UDPAddr := { ua_ip : list Z; ua_port : Z }.

(** [addr.String()]. *)
Definition udp_addr_string (a : UDPAddr) : string :=
  join_host_port (ip_string (ua_ip a)) (itoa (ua_port a)).

(** ** Lemmas *)

(** Text that cannot confuse the host/port split. *)
Definition plain_char (c : ascii) : bool :=
  negb (Ascii.eqb c ":") && negb (Ascii.eqb c "[") && negb (Ascii.eqb c "]").
Definition host_char (c : ascii) : bool :=
  negb (Ascii.eqb c "[") && negb (Ascii.eqb c "]").

Lemma split_join_plain h p :
  string_forall plain_char h = true -> string_forall plain_char p = true ->
  split_host_port (String.append h (String ":" p)) = Some (h, p).
Proof.
  intros Hh Hp.
  assert (forall c, plain_char c = false ->
            contains_char c h = false /\ contains_char c p = false) as Hno.
  { intros c Hc. split; by apply (forall_not_contains plain_char). }
  destruct (Hno ":"%char) as [H1 H2]; [done|].
  destruct (Hno "["%char) as [H3 H4]; [done|].
  destruct (Hno "]"%char) as [H5 H6]; [done|].
  unfold split_host_port. rewrite cut_last_app by done.
  assert (match String.append h (String ":" p) with String "[" _ => False | _ => True end) as Hhd.
  { destruct h as [|c h]; [done|]. simpl in H3. str_simpl.
    destruct (Ascii.eqb_spec c "["); [done|].
    destruct c as [[] [] [] [] [] [] [] []]; done. }
  rewrite !contains_char_app, H1, H3, H5. simpl. rewrite H4, H6. simpl.
  destruct (String.append h (String ":" p)) as [|c s]; [done|].
  destruct c as [[] [] [] [] [] [] [] []]; done.
Qed.

Lemma split_join_bracket h p :
  string_forall host_char h = true -> string_forall plain_char p = true ->
  split_host_port (String "[" (String.append h (String "]" (String ":" p)))) = Some (h, p).
Proof.
  intros Hh Hp.
  assert (contains_char "[" h = false) by by apply (forall_not_contains host_char).
  assert (contains_char "]" h = false) by by apply (forall_not_contains host_char).
  assert (contains_char ":" p = false) as Hpc by by apply (forall_not_contains plain_char).
  assert (contains_char "[" p = false) by by apply (forall_not_contains plain_char).
  assert (contains_char "]" p = false) by by apply (forall_not_contains plain_char).
  assert (cut_last ":" (String "[" (String.append h (String "]" (String ":" p)))) =
          Some (String "[" (String.append h "]"), p)) as Hcut.
  { replace (String "[" (String.append h (String "]" (String ":" p)))) with
      (String.append (String "[" (String.append h "]")) (String ":" p))
      by (str_simpl; f_equal; by rewrite <- app_assoc_str).
    by apply cut_last_app. }
  unfold split_host_port. rewrite Hcut, cut_char_app, !contains_char_app by done.
  simpl. by rewrite Hpc, H, H1, H2.
Qed.

(** [SplitHostPort] undoes [JoinHostPort]. *)
Lemma split_join_host_port h p :
  string_forall host_char h = true -> string_forall plain_char p = true ->
  split_host_port (join_host_port h p) = Some (h, p).
Proof.
  intros Hh Hp. unfold join_host_port.
  destruct (contains_char ":" h) eqn:Hc; [by apply split_join_bracket|].
  apply split_join_plain; [|done]. clear Hp p.
  induction h as [|c h IH]; [done|]. simpl in *. bool_steps.
  unfold plain_char, host_char in *. rewrite IH by done.
  bool_steps. repeat match goal with E : Ascii.eqb c _ = false |- _ => rewrite E end. done.
Qed.

Lemma parse_octet_itoa n : is_byte n -> parse_octet (itoa n) = Some n.
Proof.
  intros Hn.
  assert (Forall (fun n => parse_octet (itoa n) = Some n) (seqZ 0 256)) as H
    by (apply (bool_decide_unpack _); by vm_compute).
  rewrite Forall_forall in H. apply H, elem_of_seqZ. unfold is_byte in Hn. lia.
Qed.

Lemma strip_plus_digits s :
  string_forall is_digit s = true -> s <> EmptyString -> strip_plus s = Some s.
Proof. destruct s as [|[[] [] [] [] [] [] [] []] s]; by simpl. Qed.

(** A number written with digits only is not negative. *)
Lemma atoi_digits_nonneg s n : string_forall is_digit s = true -> atoi s = Some n -> 0 <= n.
Proof.
  intros Hd. destruct s as [|c s]; [done|]. unfold atoi.
  rewrite strip_plus_digits by done. unfold DecimalString.NilZero.int_of_string.
  destruct (Ascii.eqb_spec c "-") as [->|]; [done|].
  destruct (DecimalString.NilZero.uint_of_string (String c s)) as [u|]; [|done].
  simpl. split_if; [|done]. intros [= <-]. unfold Z.of_uint. lia.
Qed.

Lemma parse_octet_byte s n : parse_octet s = Some n -> is_byte n.
Proof.
  unfold parse_octet. destruct (String.eqb s EmptyString); [done|].
  destruct (negb (string_forall is_digit s)) eqn:Hd; [done|].
  assert (forall o : option Z, match o with Some n => if n <=? 255 then Some n else None | None => None end
          = Some n -> o = Some n /\ n <= 255) as Haux.
  { intros [m|]; [|done]. destruct (Z.leb_spec m 255); [|done]. by intros [= ->]. }
  assert (atoi s = Some n -> 0 <= n) as Hpos.
  { bool_steps. by apply atoi_digits_nonneg. }
  intros H. unfold is_byte.
  assert (atoi s = Some n /\ n <= 255) as [H1 H2]; [|specialize (Hpos H1); lia].
  apply Haux. revert H. clear.
  destruct s as [|c s]; [done|].
  destruct c as [[] [] [] [] [] [] [] []]; try done. by destruct s.
Qed.

Lemma digits_no_char c s :
  is_digit c = false -> string_forall is_digit s = true -> contains_char c s = false.
Proof. apply forall_not_contains. Qed.

Lemma addr_kind_digits s t :
  string_forall is_digit s = true -> addr_kind_of (String.append s (String "." t)) = KindV4.
Proof.
  induction s as [|c s IH]; [done|]. str_simpl. intros H. bool_steps.
  destruct (Ascii.eqb_spec c "."); [done|].
  destruct (Ascii.eqb_spec c ":") as [->|]; [done|].
  destruct (Ascii.eqb_spec c "%") as [->|]; [done|]. by apply IH.
Qed.

(** [ParseIP] reads back the dotted form of an IPv4 address. *)
Lemma parse_addr_ipv4_string a b c d :
  is_byte a -> is_byte b -> is_byte c -> is_byte d ->
  parse_addr (ipv4_string [a; b; c; d]) = Some [a; b; c; d].
Proof.
  intros Ha Hb Hc Hd. unfold ipv4_string. simpl. str_simpl.
  assert (forall n, is_byte n -> contains_char "." (itoa n) = false) as Hno.
  { intros n Hn. apply digits_no_char; [done|]. apply itoa_digits. unfold is_byte in Hn. lia. }
  unfold parse_addr. rewrite addr_kind_digits by (apply itoa_digits; unfold is_byte in Ha; lia).
  unfold parse_ipv4. rewrite !split_char_app by auto.
  rewrite split_char_no_sep by auto. by rewrite !parse_octet_itoa.
Qed.

Lemma parse_ip_ipv4_string a b c d :
  is_byte a -> is_byte b -> is_byte c -> is_byte d ->
  parse_ip (ipv4_string [a; b; c; d]) = Some (v4_in_v6_prefix ++ [a; b; c; d]).
Proof. intros. unfold parse_ip. by rewrite parse_addr_ipv4_string. Qed.

Lemma to4_v4 ip : length ip = 4%nat -> to4 (v4_in_v6_prefix ++ ip) = Some ip.
Proof.
  intros H. do 5 (destruct ip as [|? ip]; try done).
Qed.

Lemma to4_length ip v4 : to4 ip = Some v4 -> length v4 = 4%nat.
Proof.
  unfold to4. destruct (Nat.eqb_spec (length ip) 4); [by intros [= <-]|].
  destruct (Nat.eqb_spec (length ip) 16) as [H|]; [|done]. simpl.
  case_bool_decide; [|done]. intros [= <-]. rewrite length_drop. lia.
Qed.

(** A prefix mask knows its length. *)
Lemma mask_size_cidr n : 0 <= n <= 32 -> mask_size (cidr_mask 4 n) = (n, 32).
Proof.
  intros Hn.
  assert (Forall (fun n => mask_size (cidr_mask 4 n) = (n, 32)) (seqZ 0 33)) as H
    by (apply (bool_decide_unpack _); by vm_compute).
  rewrite Forall_forall in H. apply H, elem_of_seqZ. lia.
Qed.

Lemma itoa_plain n : 0 <= n -> string_forall plain_char (itoa n) = true.
Proof.
  intros H. apply itoa_digits in H. revert H. generalize (itoa n). intros s.
  induction s as [|c s IH]; [done|]. simpl. intros H. bool_steps. rewrite IH by done.
  unfold plain_char.
  destruct (Ascii.eqb_spec c ":") as [->|]; [done|].
  destruct (Ascii.eqb_spec c "[") as [->|]; [done|].
  destruct (Ascii.eqb_spec c "]") as [->|]; done.
Qed.

#[export] Hint Resolve itoa_plain : wgmesh.

(** ** Prefix masks as arithmetic *)

Lemma be_uint_cons b bs : be_uint (b :: bs) = b * 256 ^ Z.of_nat (length bs) + be_uint bs.
Proof.
  induction bs as [|c bs IH] using rev_ind; [unfold be_uint; simpl; lia|].
  change (b :: bs ++ [c]) with ((b :: bs) ++ [c]).
  rewrite !be_uint_app, IH, length_app, Nat2Z.inj_add, Z.pow_add_r by lia.
  change (256 ^ Z.of_nat (length [c])) with 256. ring.
Qed.

Lemma be_uint_inj l1 l2 :
  length l1 = length l2 -> Forall is_byte l1 -> Forall is_byte l2 ->
  be_uint l1 = be_uint l2 -> l1 = l2.
Proof.
  revert l2. induction l1 as [|a l1 IH]; intros [|b l2] Hl H1 H2 He; try done.
  injection Hl as Hl. apply Forall_cons in H1 as [Ha H1]. apply Forall_cons in H2 as [Hb H2].
  rewrite !be_uint_cons, <- Hl in He.
  pose proof (be_uint_bound l1 H1) as B1. pose proof (be_uint_bound l2 H2) as B2.
  rewrite <- Hl in B2. set (K := 256 ^ Z.of_nat (length l1)) in *.
  assert (a = b) as -> by nia. f_equal. apply IH; [done..|lia].
Qed.

Lemma land_mask_byte b k : is_byte b -> 0 <= k < 8 ->
  Z.land b (256 - 2 ^ (8 - k)) = b / 2 ^ (8 - k) * 2 ^ (8 - k).
Proof.
  intros Hb Hk.
  assert (Forall (fun k => Forall (fun b =>
    Z.land b (256 - 2 ^ (8 - k)) = b / 2 ^ (8 - k) * 2 ^ (8 - k)) (seqZ 0 256)) (seqZ 0 8)) as H
    by by_compute.
  rewrite Forall_forall in H. specialize (H k). rewrite Forall_forall in H.
  unfold is_byte in Hb. apply H; apply elem_of_seqZ; lia.
Qed.

Lemma be_uint_zeros l n : be_uint (zip_with Z.land l (replicate n 0)) = 0.
Proof.
  revert n. induction l as [|b l IH]; intros [|n]; try done. simpl.
  by rewrite Z.land_0_r, be_uint_cons, IH.
Qed.

Lemma cidr_mask_length m n : length (cidr_mask m n) = m.
Proof.
  revert n. induction m as [|m IH]; intros n; simpl; [done|].
  split_if; simpl; [by rewrite IH|by rewrite length_replicate].
Qed.

(** Masking with a prefix of [n] ones clears the host bits. *)
Lemma be_uint_mask l n :
  Forall is_byte l -> 0 <= n <= 8 * Z.of_nat (length l) ->
  let h := 2 ^ (8 * Z.of_nat (length l) - n) in
  be_uint (zip_with Z.land l (cidr_mask (length l) n)) = be_uint l / h * h.
Proof.
  cbv zeta. revert n. induction l as [|b l IH]; intros n Hb Hn.
  - simpl in Hn. replace n with 0 by lia. done.
  - apply Forall_cons in Hb as [Hb Hl]. cbn [cidr_mask length] in *.
    pose proof (be_uint_bound l Hl) as Hv. rewrite be_uint_cons.
    set (v := be_uint l) in *. set (m := Z.of_nat (length l)) in *.
    replace (8 * Z.of_nat (S (length l)) - n) with (8 * m + (8 - n)) by lia.
    assert (256 ^ m = 2 ^ (8 * m)) as HK by (change 256 with (2 ^ 8); rewrite <- Z.pow_mul_r; lia).
    destruct (Z.leb_spec 8 n) as [H8|H8].
    + cbn [zip_with]. rewrite land_255, be_uint_cons, length_zip_with, cidr_mask_length by done.
      rewrite Nat.min_id. fold m. rewrite IH by (done || lia). fold v m.
      replace (8 * m + (8 - n)) with (8 * m - (n - 8)) by lia.
      assert (256 ^ m = 2 ^ (n - 8) * 2 ^ (8 * m - (n - 8))) as -> by
        (rewrite <- Z.pow_add_r by lia; rewrite HK; f_equal; lia).
      set (h := 2 ^ (8 * m - (n - 8))). assert (0 < h) by (apply Z.pow_pos_nonneg; lia).
      replace (b * (2 ^ (n - 8) * h) + v) with (b * 2 ^ (n - 8) * h + v) by ring.
      rewrite Z.div_add_l by lia. ring.
    + cbn [zip_with]. rewrite be_uint_cons, be_uint_zeros, land_mask_byte by (done || lia).
      rewrite length_zip_with, length_replicate, Nat.min_id. fold m.
      rewrite Z.pow_add_r, <- HK by lia. set (K := 256 ^ m) in *. set (P := 2 ^ (8 - n)).
      assert (0 < P) by (apply Z.pow_pos_nonneg; lia).
      rewrite <- Z.div_div by lia. rewrite Z.div_add_l, (Z.div_small v K) by lia.
      rewrite !Z.add_0_r. ring.
Qed.

Lemma zip_land_bytes l m : Forall is_byte l -> Forall is_byte (zip_with Z.land l m).
Proof.
  revert m. induction l as [|b l IH]; intros [|c m] H; try constructor.
  - apply Forall_cons in H as [H _]. unfold is_byte in *. split.
    + apply Z.land_nonneg. lia.
    + pose proof (Z.land_ones b 8 ltac:(lia)) as E. change (Z.ones 8) with 255 in E.
      assert (Z.land b c = Z.land (Z.land b c) 255) as ->.
      { rewrite <- Z.land_assoc, (Z.land_comm c), Z.land_assoc, land_255; done. }
      change 255 with (Z.ones 8). rewrite Z.land_ones by lia. apply Z.mod_pos_bound. lia.
  - apply Forall_cons in H as [_ H]. by apply IH.
Qed.

Definition v4net (base : list Z) (n : Z) : IPNet :=
  {| net_ip := base; net_mask := cidr_mask 4 n |}.

(** An IPv4 network contains the addresses that agree with it above the host
    bits. *)
Lemma net_contains_v4 base n ip :
  length base = 4%nat -> Forall is_byte base -> length ip = 4%nat -> Forall is_byte ip ->
  0 <= n <= 32 ->
  net_contains (v4net base n) ip = true <->
  be_uint base / 2 ^ (32 - n) = be_uint ip / 2 ^ (32 - n).
Proof.
  intros Hl Hb Hil Hi Hn.
  assert (forall l, length l = 4%nat -> to4 l = Some l) as Hto4 by (intros l E; unfold to4; by rewrite E).
  unfold net_contains, v4net. cbn [net_ip net_mask].
  rewrite (Hto4 _ Hl), (Hto4 _ Hil), cidr_mask_length, Hl, Hil. cbn [Nat.eqb andb orb].
  cbv beta iota. rewrite !cidr_mask_length. cbn [Nat.eqb andb orb]. rewrite bool_decide_eq_true.
  pose proof (be_uint_mask base n Hb) as M1. pose proof (be_uint_mask ip n Hi) as M2.
  rewrite Hl in M1. rewrite Hil in M2. specialize (M1 ltac:(lia)). specialize (M2 ltac:(lia)).
  change (8 * Z.of_nat 4) with 32 in M1, M2. cbv zeta in M1, M2.
  assert (0 < 2 ^ (32 - n)) by (apply Z.pow_pos_nonneg; lia).
  split.
  - intros E. rewrite E in M1. rewrite M1 in M2. by apply Z.mul_reg_r in M2; [|lia].
  - intros E. apply be_uint_inj.
    + rewrite !length_zip_with, cidr_mask_length. lia.
    + by apply zip_land_bytes.
    + by apply zip_land_bytes.
    + rewrite M1, M2. by rewrite E.
Qed.
