(* ===== verification/GoCrypto.v ===== *)
(** * The parts of Go's [crypto/sha256], [crypto/hmac], [encoding/base64],
      [encoding/base32] and [hash/fnv] the program calls

    Byte strings are lists of [Z] in [0, 256).  SHA-256 is FIPS 180-4 on 32-bit
    words kept as [Z] modulo 2^32; it is executable, so that the address
    derivations and tokens can be evaluated. *)

From S2P Require Import Prelude GoStrings.
Local Open Scope Z_scope.

(** ** SHA-256 *)

Definition add32 (a b : Z) : Z := u32 (a + b).
Definition rotr32 (n x : Z) : Z := Z.lor (Z.shiftr x n) (u32 (Z.shiftl x (32 - n))).
Definition not32 (x : Z) : Z := Z.lxor x 4294967295.

Definition sha_ch (x y z : Z) : Z := Z.lxor (Z.land x y) (Z.land (not32 x) z).
Definition sha_maj (x y z : Z) : Z :=
  Z.lxor (Z.lxor (Z.land x y) (Z.land x z)) (Z.land y z).
Definition big_sigma0 (x : Z) : Z := Z.lxor (Z.lxor (rotr32 2 x) (rotr32 13 x)) (rotr32 22 x).
Definition big_sigma1 (x : Z) : Z := Z.lxor (Z.lxor (rotr32 6 x) (rotr32 11 x)) (rotr32 25 x).
Definition small_sigma0 (x : Z) : Z := Z.lxor (Z.lxor (rotr32 7 x) (rotr32 18 x)) (Z.shiftr x 3).
Definition small_sigma1 (x : Z) : Z := Z.lxor (Z.lxor (rotr32 17 x) (rotr32 19 x)) (Z.shiftr x 10).

Definition sha_k : list Z :=
  [1116352408; 1899447441; 3049323471; 3921009573; 961987163; 1508970993; 2453635748; 2870763221;
   3624381080; 310598401; 607225278; 1426881987; 1925078388; 2162078206; 2614888103; 3248222580;
   3835390401; 4022224774; 264347078; 604807628; 770255983; 1249150122; 1555081692; 1996064986;
   2554220882; 2821834349; 2952996808; 3210313671; 3336571891; 3584528711; 113926993; 338241895;
   666307205; 773529912; 1294757372; 1396182291; 1695183700; 1986661051; 2177026350; 2456956037;
   2730485921; 2820302411; 3259730800; 3345764771; 3516065817; 3600352804; 4094571909; 275423344;
   430227734; 506948616; 659060556; 883997877; 958139571; 1322822218; 1537002063; 1747873779;
   1955562222; 2024104815; 2227730452; 2361852424; 2428436474; 2756734187; 3204031479; 3329325298].

Definition sha_h0 : list Z :=
  [1779033703; 3144134277; 1013904242; 2773480762; 1359893119; 2600822924; 528734635; 1541459225].

(** Sixteen big-endian words of a 64-byte block. *)
Fixpoint words32 (bs : list Z) : list Z :=
  match bs with
  | a :: b :: c :: d :: rest => be_uint [a; b; c; d] :: words32 rest
  | _ => []
  end.

(** The message schedule, kept newest word first. *)
Fixpoint sha_schedule (n : nat) (w : list Z) : list Z :=
  match n with
  | O => w
  | S n =>
      let wt := add32 (add32 (small_sigma1 (nth 1 w 0)) (nth 6 w 0))
                      (add32 (small_sigma0 (nth 14 w 0)) (nth 15 w 0)) in
      sha_schedule n (wt :: w)
  end.

Definition sha_round (s : list Z) (kw : Z * Z) : list Z :=
  match s with
  | [a; b; c; d; e; f; g; h] =>
      let t1 := add32 (add32 h (big_sigma1 e)) (add32 (sha_ch e f g) (add32 (fst kw) (snd kw))) in
      let t2 := add32 (big_sigma0 a) (sha_maj a b c) in
      [add32 t1 t2; a; b; c; add32 d t1; e; f; g]
  | _ => s
  end.

Definition sha_block (h : list Z) (block : list Z) : list Z :=
  let w := rev (sha_schedule 48 (rev (words32 block))) in
  zip_with add32 h (foldl sha_round h (zip sha_k w)).

Definition be_bytes (n : nat) (x : Z) : list Z :=
  (fun i => Z.shiftr x (8 * Z.of_nat i) mod 256) <$> rev (seq 0 n).

Definition sha_pad (msg : list Z) : list Z :=
  let l := length msg in
  let zeros := ((119 - l mod 64) mod 64)%nat in
  msg ++ [128] ++ replicate zeros 0 ++ be_bytes 8 (8 * Z.of_nat l).

Fixpoint sha_blocks (n : nat) (h : list Z) (bs : list Z) : list Z :=
  match n with
  | O => h
  | S n => sha_blocks n (sha_block h (take 64 bs)) (drop 64 bs)
  end.

(** [sha256.Sum256]. *)
Definition sha256 (msg : list Z) : list Z :=
  let p := sha_pad msg in
  sha_blocks (length p / 64) sha_h0 p ≫= be_bytes 4.

Definition sha256_string (s : string) : list Z := sha256 (bytes_of_string s).

Example sha256_abc :
  hex_bytes (sha256_string "abc") =
  "ba7816bf8f01cfea414140de5dae2223b00361a396177a9cb410ff61f20015ad"%string.
Proof. by vm_compute. Qed.

Example sha256_two_blocks :
  hex_bytes (sha256_string "abcdbcdecdefdefgefghfghighijhijkijkljklmklmnlmnomnopnopq") =
  "248d6a61d20638b8e5c026930c3e6039a33ce45964ff2167f6ecedd419db06c1"%string.
Proof. by vm_compute. Qed.

(** ** HMAC-SHA256 *)

Definition hmac_key (key : list Z) : list Z :=
  let k := if Nat.ltb 64 (length key) then sha256 key else key in
  k ++ replicate (64 - length k) 0.

Definition hmac_sha256 (key msg : list Z) : list Z :=
  let k := hmac_key key in
  sha256 ((Z.lxor 92 <$> k) ++ sha256 ((Z.lxor 54 <$> k) ++ msg)).

Example hmac_rfc4231_2 :
  hex_bytes (hmac_sha256 (bytes_of_string "Jefe") (bytes_of_string "what do ya want for nothing?")) =
  "5bdcc146bf60754e6a042426089575c75a003f089d2739839dec58b964ec3843"%string.
Proof. by vm_compute. Qed.

(** ** Base64 *)

Inductive b64_variant := StdEncoding | RawURLEncoding.

Definition b64_char (v : b64_variant) (n : Z) : ascii :=
  if n <? 26 then ascii_of_byte (65 + n)
  else if n <? 52 then ascii_of_byte (71 + n)
  else if n <? 62 then ascii_of_byte (n - 4)
  else match v with
       | StdEncoding => if n =? 62 then "+"%char else "/"%char
       | RawURLEncoding => if n =? 62 then "-"%char else "_"%char
       end.

Definition b64_value (v : b64_variant) (c : ascii) : option Z :=
  let n := byte_of_ascii c in
  if (65 <=? n) && (n <=? 90) then Some (n - 65)
  else if (97 <=? n) && (n <=? 122) then Some (n - 71)
  else if (48 <=? n) && (n <=? 57) then Some (n + 4)
  else if Ascii.eqb c (b64_char v 62) then Some 62
  else if Ascii.eqb c (b64_char v 63) then Some 63
  else None.

Definition b64_pad (v : b64_variant) : bool :=
  match v with StdEncoding => true | RawURLEncoding => false end.

Fixpoint b64_encode (v : b64_variant) (bs : list Z) : string :=
  match bs with
  | [] => EmptyString
  | [a] =>
      String (b64_char v (a / 4)) (String (b64_char v (a mod 4 * 16))
        (if b64_pad v then "==" else ""))
  | [a; b] =>
      String (b64_char v (a / 4)) (String (b64_char v (a mod 4 * 16 + b / 16))
        (String (b64_char v (b mod 16 * 4)) (if b64_pad v then "=" else "")))
  | a :: b :: c :: rest =>
      String (b64_char v (a / 4)) (String (b64_char v (a mod 4 * 16 + b / 16))
        (String (b64_char v (b mod 16 * 4 + c / 64)) (String (b64_char v (c mod 64))
          (b64_encode v rest))))
  end.

(** Decoding of the quanta; as Go's default (non-strict) decoder, the unused
    trailing bits of the last quantum are not checked. *)
Fixpoint b64_decode_go (v : b64_variant) (fuel : nat) (s : string) : option (list Z) :=
  match fuel with
  | O => None
  | S fuel =>
      match s with
      | EmptyString => Some []
      | String c1 (String c2 s2) =>
          match b64_value v c1, b64_value v c2 with
          | Some x1, Some x2 =>
              let b1 := x1 * 4 + x2 / 16 in
              match s2 with
              | EmptyString => if b64_pad v then None else Some [b1]
              | String c3 s3 =>
                  match b64_value v c3 with
                  | None =>
                      if b64_pad v && Ascii.eqb c3 "=" && String.eqb s3 "=" then Some [b1] else None
                  | Some x3 =>
                      let b2 := x2 mod 16 * 16 + x3 / 4 in
                      match s3 with
                      | EmptyString => if b64_pad v then None else Some [b1; b2]
                      | String c4 s4 =>
                          match b64_value v c4 with
                          | None =>
                              if b64_pad v && Ascii.eqb c4 "=" && String.eqb s4 "" then Some [b1; b2]
                              else None
                          | Some x4 =>
                              let b3 := x3 mod 4 * 64 + x4 in
                              (fun rest => b1 :: b2 :: b3 :: rest) <$> b64_decode_go v fuel s4
                          end
                      end
                  end
              end
          | _, _ => None
          end
      | _ => None
      end
  end.

(** Carriage returns and line feeds are skipped before decoding. *)
Fixpoint strip_newlines (s : string) : string :=
  match s with
  | EmptyString => EmptyString
  | String c s' =>
      if (byte_of_ascii c =? 10) || (byte_of_ascii c =? 13) then strip_newlines s'
      else String c (strip_newlines s')
  end.

Definition b64_decode (v : b64_variant) (s : string) : option (list Z) :=
  let t := strip_newlines s in b64_decode_go v (S (String.length t)) t.

Example b64_encode_ex : b64_encode StdEncoding (bytes_of_string "light w") = "bGlnaHQgdw=="%string.
Proof. by vm_compute. Qed.

(** ** FNV-1a, 32 bits ([fnv.New32a]) *)

Definition fnv32a (bs : list Z) : Z :=
  foldl (fun h b => u32 (Z.lxor h b * 16777619)) 2166136261 bs.

Example fnv32a_ex : fnv32a (bytes_of_string "foobar") = 3214735720.
Proof. by vm_compute. Qed.

(** FNV-1a, 64 bits ([fnv.New64a]). *)
Definition fnv64a (bs : list Z) : Z :=
  foldl (fun h b => u64 (Z.lxor h b * 1099511628211)) 14695981039346656037 bs.

Example fnv64a_ex : fnv64a (bytes_of_string "foobar") = 9625390261332436968.
Proof. by vm_compute. Qed.

(** ** Lemmas *)

Lemma be_bytes_length n x : length (be_bytes n x) = n.
Proof. unfold be_bytes. by rewrite length_fmap, length_rev, length_seq. Qed.

Lemma be_bytes_bytes n x : Forall is_byte (be_bytes n x).
Proof.
  unfold be_bytes. apply Forall_fmap, Forall_true. intros i. simpl.
  unfold is_byte. apply Z.mod_pos_bound. lia.
Qed.

Lemma bind_length {A B} (f : A -> list B) n l :
  (forall a, length (f a) = n) -> length (l ≫= f) = (length l * n)%nat.
Proof.
  intros Hf. induction l as [|a l IH]; [done|].
  rewrite bind_cons, length_app, Hf, IH. simpl. lia.
Qed.

Lemma sha_round_length s kw : length s = 8%nat -> length (sha_round s kw) = 8%nat.
Proof. intros H. do 9 (destruct s as [|? s]; try done). Qed.

Lemma sha_block_length h b : length h = 8%nat -> length (sha_block h b) = 8%nat.
Proof.
  intros Hh. unfold sha_block. rewrite length_zip_with, Hh.
  generalize (zip sha_k (rev (sha_schedule 48 (rev (words32 b))))). intros l.
  assert (length (foldl sha_round h l) = 8%nat) as ->; [|done].
  revert h Hh. induction l as [|kw l IH]; intros h Hh; [done|]. simpl.
  apply IH, sha_round_length, Hh.
Qed.

Lemma sha_blocks_length n h bs : length h = 8%nat -> length (sha_blocks n h bs) = 8%nat.
Proof.
  revert h bs. induction n as [|n IH]; intros h bs Hh; [done|]. simpl. apply IH, sha_block_length, Hh.
Qed.

(** A digest is 32 bytes. *)
Lemma sha256_length m : length (sha256 m) = 32%nat.
Proof.
  unfold sha256. rewrite (bind_length _ 4); [|intros; apply be_bytes_length].
  by rewrite sha_blocks_length.
Qed.

Lemma sha256_bytes m : Forall is_byte (sha256 m).
Proof.
  unfold sha256. induction (sha_blocks _ _ _) as [|w ws IH]; [constructor|].
  rewrite bind_cons. apply Forall_app. split; [apply be_bytes_bytes|done].
Qed.

Lemma hmac_length k m : length (hmac_sha256 k m) = 32%nat.
Proof. apply sha256_length. Qed.

Lemma hmac_bytes k m : Forall is_byte (hmac_sha256 k m).
Proof. apply sha256_bytes. Qed.

(** *** Base64 reads back what it wrote *)

Lemma b64_value_char v n : 0 <= n < 64 -> b64_value v (b64_char v n) = Some n.
Proof.
  intros Hn.
  assert (Forall (fun n => b64_value v (b64_char v n) = Some n) (seqZ 0 64)) as H
    by (destruct v; by_compute).
  rewrite Forall_forall in H. apply H, elem_of_seqZ. lia.
Qed.

Lemma b64_char_no_newline v n : 0 <= n < 64 ->
  (byte_of_ascii (b64_char v n) =? 10) || (byte_of_ascii (b64_char v n) =? 13) = false.
Proof.
  intros Hn.
  assert (Forall (fun n => (byte_of_ascii (b64_char v n) =? 10)
                         || (byte_of_ascii (b64_char v n) =? 13) = false) (seqZ 0 64)) as H
    by (destruct v; by_compute).
  rewrite Forall_forall in H. apply H, elem_of_seqZ. lia.
Qed.

(** Recombination of the bits of a quantum. *)
Lemma quantum_bounds a b c :
  is_byte a -> is_byte b -> is_byte c ->
  0 <= a / 4 < 64 /\ 0 <= a mod 4 * 16 < 64 /\ 0 <= a mod 4 * 16 + b / 16 < 64
  /\ 0 <= b mod 16 * 4 < 64 /\ 0 <= b mod 16 * 4 + c / 64 < 64 /\ 0 <= c mod 64 < 64.
Proof. unfold is_byte. intros. div_lia. Qed.

Lemma quantum_1 a : is_byte a -> a / 4 * 4 + (a mod 4 * 16) / 16 = a.
Proof. unfold is_byte. div_lia. Qed.
Lemma quantum_1' a b : is_byte a -> is_byte b -> a / 4 * 4 + (a mod 4 * 16 + b / 16) / 16 = a.
Proof. unfold is_byte. div_lia. Qed.
Lemma quantum_2 a b : is_byte a -> is_byte b ->
  (a mod 4 * 16 + b / 16) mod 16 * 16 + (b mod 16 * 4) / 4 = b.
Proof. unfold is_byte. div_lia. Qed.
Lemma quantum_2' a b c : is_byte a -> is_byte b -> is_byte c ->
  (a mod 4 * 16 + b / 16) mod 16 * 16 + (b mod 16 * 4 + c / 64) / 4 = b.
Proof. unfold is_byte. div_lia. Qed.
Lemma quantum_3 b c : is_byte b -> is_byte c -> (b mod 16 * 4 + c / 64) mod 4 * 64 + c mod 64 = c.
Proof. unfold is_byte. div_lia. Qed.

(** Induction on byte strings three bytes at a time. *)
Lemma list_ind3 {A} (P : list A -> Prop) :
  P [] -> (forall a, P [a]) -> (forall a b, P [a; b]) ->
  (forall a b c l, P l -> P (a :: b :: c :: l)) -> forall l, P l.
Proof.
  intros H0 H1 H2 H3. fix IH 1. intros [|a [|b [|c l]]]; [done|done|done|]. apply H3, IH.
Qed.

Lemma strip_newlines_encode v bs :
  Forall is_byte bs -> strip_newlines (b64_encode v bs) = b64_encode v bs.
Proof.
  induction bs as [|a|a b|a b c bs IH] using list_ind3; intros Hb;
    repeat (apply Forall_cons in Hb as [? Hb]).
  - done.
  - destruct (quantum_bounds a a a) as (? & ? & _); [done..|].
    simpl. rewrite !b64_char_no_newline by done. by destruct v.
  - destruct (quantum_bounds a b a) as (? & ? & ? & ? & _); [done..|].
    simpl. rewrite !b64_char_no_newline by done. by destruct v.
  - destruct (quantum_bounds a b c) as (? & ? & ? & ? & ? & ?); [done..|].
    simpl. rewrite !b64_char_no_newline by done. by rewrite IH.
Qed.

Lemma b64_decode_go_encode v bs fuel :
  Forall is_byte bs -> (length bs < fuel)%nat ->
  b64_decode_go v fuel (b64_encode v bs) = Some bs.
Proof.
  revert fuel. induction bs as [|a|a b|a b c bs IH] using list_ind3; intros [|fuel] Hb Hf;
    [simpl in Hf; lia| |simpl in Hf; lia| |simpl in Hf; lia| |simpl in Hf; lia|];
    repeat (apply Forall_cons in Hb as [? Hb]).
  - done.
  - destruct (quantum_bounds a a a) as (? & ? & _); [done..|].
    destruct v; simpl; rewrite !b64_value_char by done; simpl; by rewrite quantum_1.
  - destruct (quantum_bounds a b a) as (? & ? & ? & ? & _); [done..|].
    destruct v; simpl; rewrite !b64_value_char by done; simpl;
      by rewrite quantum_1', quantum_2.
  - destruct (quantum_bounds a b c) as (? & ? & ? & ? & ? & ?); [done..|].
    simpl. rewrite !b64_value_char by done. rewrite IH; [|done|simpl in Hf; lia].
    simpl. by rewrite quantum_1', quantum_2', quantum_3.
Qed.

Lemma b64_encode_length v bs : (length bs <= String.length (b64_encode v bs))%nat.
Proof.
  induction bs as [|a|a b|a b c bs IH] using list_ind3; simpl; lia.
Qed.

(** Decoding undoes encoding, in both alphabets. *)
Lemma b64_decode_encode v bs : Forall is_byte bs -> b64_decode v (b64_encode v bs) = Some bs.
Proof.
  intros Hb. unfold b64_decode. rewrite strip_newlines_encode by done.
  apply b64_decode_go_encode; [done|]. pose proof (b64_encode_length v bs). lia.
Qed.

#[export] Hint Resolve sha256_bytes hmac_bytes be_bytes_bytes : wgmesh.
