(* ===== verification/GoTime.v ===== *)
(** * Go's calendar and RFC 3339 (package time)

    [time.Time.Format(time.RFC3339)] and [time.Parse] of the same layout, on the
    proleptic Gregorian calendar; a location is its offset from UTC in seconds.
    The parser is the strict form of RFC 3339 that Go tries first. *)

From S2P Require Import Prelude GoStrings.
Local Open Scope Z_scope.

(** ** Civil dates *)

Record Date := { d_year : Z; d_month : Z; d_day : Z }.

(** Day 0 is 1 March of year 0; an era has 400 years of 146097 days. *)
Definition era_days : Z := 146097.
Definition epoch_shift : Z := 719468.

(** Year of the era and day of that year, by centuries, cycles of four years and
    years; the last century and the last year of a cycle may be a day longer. *)
Definition year_of_era (doe : Z) : Z * Z :=
  let c := Z.min (doe / 36524) 3 in
  let r := doe - 36524 * c in
  let q := r / 1461 in
  let s := r - 1461 * q in
  let y := Z.min (s / 365) 3 in
  (100 * c + 4 * q + y, s - 365 * y).

Definition civil_of_era_day (doe : Z) : Z * Z * Z :=
  let '(yoe, doy) := year_of_era doe in
  let mp := (5 * doy + 2) / 153 in
  (yoe, mp, doy - (153 * mp + 2) / 5 + 1).

Definition era_day_of_civil (yoe mp day : Z) : Z :=
  365 * yoe + yoe / 4 - yoe / 100 + ((153 * mp + 2) / 5 + day - 1).

Definition civil_of_days (days : Z) : Date :=
  let z := days + epoch_shift in
  let '(yoe, mp, day) := civil_of_era_day (z mod era_days) in
  let month := if mp <? 10 then mp + 3 else mp - 9 in
  {| d_year := yoe + 400 * (z / era_days) + (if month <=? 2 then 1 else 0); d_month := month; d_day := day |}.

Definition days_of_civil (d : Date) : Z :=
  let y := if d_month d <=? 2 then d_year d - 1 else d_year d in
  let mp := if 2 <? d_month d then d_month d - 3 else d_month d + 9 in
  era_days * (y / 400) + era_day_of_civil (y mod 400) mp (d_day d) - epoch_shift.

Definition is_leap (y : Z) : bool := (y mod 4 =? 0) && (negb (y mod 100 =? 0) || (y mod 400 =? 0)).
Definition days_in (month year : Z) : Z :=
  if month =? 2 then (if is_leap year then 29 else 28)
  else if (month =? 4) || (month =? 6) || (month =? 9) || (month =? 11) then 30 else 31.

(** ** Text *)

Definition digit_char (d : Z) : ascii := ascii_of_byte (48 + d).

Fixpoint pad (n : nat) (z : Z) : string :=
  match n with
  | O => EmptyString
  | S n => String.append (pad n (z / 10)) (String (digit_char (z mod 10)) EmptyString)
  end.

(** Exactly [n] digits. *)
Fixpoint read_num (n : nat) (s : string) : option (Z * string) :=
  match n with
  | O => Some (0, s)
  | S n =>
      match read_num n s with
      | Some (v, String c rest) => if is_digit c then Some (10 * v + (byte_of_ascii c - 48), rest) else None
      | _ => None
      end
  end.

Definition read_char (c : ascii) (s : string) : option string :=
  match s with String d rest => if Ascii.eqb d c then Some rest else None | EmptyString => None end.

Definition format_zone (zone : Z) : string :=
  if zone =? 0 then "Z"%string
  else String.append (if zone <? 0 then "-" else "+")
         (String.append (pad 2 (Z.abs zone / 60 / 60)) (String ":" (pad 2 (Z.abs zone / 60 mod 60)))).

(** [t.In(zone).Format(time.RFC3339)]. *)
(** [tail] is the fraction and the zone. *)
Definition format_datetime (zone : Z) (t : Time) (tail : string) : string :=
  let secs := time_to_unix t + zone in
  let d := civil_of_days (secs / 86400) in
  let s := secs mod 86400 in
  String.append (pad 4 (d_year d)) (String "-" (String.append (pad 2 (d_month d)) (String "-"
    (String.append (pad 2 (d_day d)) (String "T" (String.append (pad 2 (s / 3600)) (String ":"
    (String.append (pad 2 (s / 60 mod 60)) (String ":" (String.append (pad 2 (s mod 60)) tail)))))))))).
Definition format_rfc3339 (zone : Z) (t : Time) : string := format_datetime zone t (format_zone zone).

(** With [time.RFC3339Nano], the JSON form of a [time.Time], the trailing zeros
    of the fraction are dropped, and the point with them. *)
Fixpoint trim_zeros (s : string) : string :=
  match s with
  | EmptyString => EmptyString
  | String c rest => match trim_zeros rest with
                     | EmptyString => if Ascii.eqb c "0" then EmptyString else String c EmptyString
                     | t => String c t
                     end
  end.
Definition format_frac (nsec : Z) : string :=
  match trim_zeros (pad 9 nsec) with EmptyString => EmptyString | t => String "." t end.
Definition format_rfc3339_nano (zone : Z) (t : Time) : string :=
  format_datetime zone t (String.append (format_frac (t mod second)) (format_zone zone)).

(** At most nine digits of a fraction count. *)
Fixpoint read_frac (n : nat) (s : string) : Z * string :=
  match s with
  | String c rest =>
      if is_digit c then
        match n with
        | O => read_frac O rest
        | S n => let '(v, r) := read_frac n rest in ((byte_of_ascii c - 48) * 10 ^ Z.of_nat n + v, r)
        end
      else (0, s)
  | EmptyString => (0, s)
  end.

Definition read_fraction (s : string) : Z * string :=
  match s with
  | String "." (String c rest) => if is_digit c then read_frac 9 (String c rest) else (0, s)
  | _ => (0, s)
  end.

Definition read_zone (s : string) : option Z :=
  match s with
  | String "Z" EmptyString => Some 0
  | String sign rest =>
      if Ascii.eqb sign "+" || Ascii.eqb sign "-" then
        '(hh, r1) ← read_num 2 rest; r2 ← read_char ":" r1; '(mm, r3) ← read_num 2 r2;
        if (hh <=? 23) && (mm <=? 59) && String.eqb r3 "" then
          Some (if Ascii.eqb sign "-" then - ((hh * 60 + mm) * 60) else (hh * 60 + mm) * 60)
        else None
      else None
  | EmptyString => None
  end.

Definition valid_clock (d : Date) (hh mm ss : Z) : bool :=
  (1 <=? d_month d) && (d_month d <=? 12) && (1 <=? d_day d) && (d_day d <=? days_in (d_month d) (d_year d))
  && (hh <=? 23) && (mm <=? 59) && (ss <=? 59).

(** [time.Parse(time.RFC3339, s)]. *)
Definition parse_rfc3339 (s : string) : option Time :=
  '(year, s) ← read_num 4 s; s ← read_char "-" s; '(month, s) ← read_num 2 s; s ← read_char "-" s;
  '(day, s) ← read_num 2 s; s ← read_char "T" s; '(hh, s) ← read_num 2 s; s ← read_char ":" s;
  '(mm, s) ← read_num 2 s; s ← read_char ":" s; '(ss, s) ← read_num 2 s;
  let '(nsec, s) := read_fraction s in
  zone ← read_zone s;
  let d := {| d_year := year; d_month := month; d_day := day |} in
  if valid_clock d hh mm ss then
    Some ((days_of_civil d * 86400 + hh * 3600 + mm * 60 + ss - zone) * second + nsec)
  else None.

(** ** Lemmas *)

(** The months of a year that starts in March, by computation. *)
Definition month_ok (doy : Z) : bool :=
  let mp := (5 * doy + 2) / 153 in
  let day := doy - (153 * mp + 2) / 5 + 1 in
  let month := if mp <? 10 then mp + 3 else mp - 9 in
  (0 <=? mp) && (mp <? 12) && (1 <=? day) && (day <=? (if doy =? 365 then 29 else days_in month 1)).

Fixpoint all_from (f : Z -> bool) (n : nat) (z : Z) : bool :=
  match n with O => true | S n => f z && all_from f n (z + 1) end.

Lemma all_from_spec f n z x : all_from f n z = true -> z <= x < z + Z.of_nat n -> f x = true.
Proof.
  revert z. induction n as [|n IH]; intros z; cbn [all_from]; [lia|]. intros H Hx. bool_steps.
  destruct (Z.eq_dec x z) as [->|]; [done|]. apply (IH (z + 1)); [done|lia].
Qed.

Lemma months_valid doy : 0 <= doy <= 365 -> month_ok doy = true.
Proof. intros H. apply (all_from_spec month_ok 366 0); [vm_compute; reflexivity|lia]. Qed.

Lemma year_of_era_spec doe yoe doy : 0 <= doe < era_days -> year_of_era doe = (yoe, doy) ->
  0 <= yoe < 400 /\ 0 <= doy <= 365 /\ 365 * yoe + yoe / 4 - yoe / 100 + doy = doe /\ (doy = 365 -> is_leap (yoe + 1) = true).
Proof.
  unfold era_days, year_of_era. intros Hd [= <- <-].
  set (c := Z.min (doe / 36524) 3). assert (0 <= c <= 3 /\ 0 <= doe - 36524 * c <= 36524 /\ (c < 3 -> doe - 36524 * c < 36524)) as (Hc & Hr & Hr').
  { pose proof (Z.div_mod doe 36524). pose proof (Z.mod_pos_bound doe 36524). unfold c. lia. }
  set (r := doe - 36524 * c) in *. set (q := r / 1461).
  assert (0 <= q <= 24 /\ 0 <= r - 1461 * q < 1461) as (Hq & Hs).
  { pose proof (Z.div_mod r 1461). pose proof (Z.mod_pos_bound r 1461). unfold q. lia. }
  set (s := r - 1461 * q) in *. set (y := Z.min (s / 365) 3).
  assert (0 <= y <= 3 /\ 0 <= s - 365 * y <= 365 /\ (y < 3 -> s - 365 * y < 365)) as (Hy & Ho & Ho').
  { pose proof (Z.div_mod s 365). pose proof (Z.mod_pos_bound s 365). unfold y. lia. }
  assert ((100 * c + 4 * q + y) / 4 = 25 * c + q) as E4 by (symmetry; apply (Z.div_unique _ _ _ y); lia).
  assert ((100 * c + 4 * q + y) / 100 = c) as E100 by (symmetry; apply (Z.div_unique _ _ _ (4 * q + y)); lia).
  split; [lia|]. split; [lia|]. split; [rewrite E4, E100; unfold s, r in *; lia|]. intros Hl.
  assert (y = 3) as Ey by lia. unfold is_leap. rewrite Ey.
  assert ((100 * c + 4 * q + 3 + 1) mod 4 = 0) as -> by (symmetry; apply (Z.mod_unique _ _ (25 * c + q + 1)); lia).
  destruct (Z.eq_dec q 24) as [Eq|Nq].
  - assert (c = 3) as -> by (unfold s in *; lia). by rewrite Eq.
  - assert ((100 * c + 4 * q + 3 + 1) mod 100 = 4 * q + 4) as -> by (symmetry; apply (Z.mod_unique _ _ c); lia).
    replace (4 * q + 4 =? 0) with false by (symmetry; apply Z.eqb_neq; lia). done.
Qed.

(** A day of an era. *)
Lemma era_valid doe yoe mp day : 0 <= doe < era_days -> civil_of_era_day doe = (yoe, mp, day) ->
  let month := if mp <? 10 then mp + 3 else mp - 9 in
  0 <= yoe < 400 /\ 0 <= mp < 12 /\ 1 <= day <= days_in month (yoe + (if month <=? 2 then 1 else 0))
  /\ era_day_of_civil yoe mp day = doe.
Proof.
  intros Hd. unfold civil_of_era_day. destruct (year_of_era doe) as [yoe' doy] eqn:E. intros [= -> <- <-].
  destruct (year_of_era_spec _ _ _ Hd E) as (Hy & Ho & He & Hl). pose proof (months_valid doy Ho) as Hm.
  unfold month_ok in Hm. cbv zeta in *. set (mp := (5 * doy + 2) / 153) in *. bool_steps.
  split; [lia|]. split; [lia|]. split; [|unfold era_day_of_civil; lia]. split; [lia|]. etransitivity; [eassumption|].
  set (month := if mp <? 10 then mp + 3 else mp - 9). destruct (Z.eqb_spec doy 365) as [Ed|Nd].
  - assert (month = 2) as ->. { unfold month, mp. by rewrite Ed. }
    cbn [Z.leb Z.compare Pos.compare Pos.compare_cont]. unfold days_in. cbn [Z.eqb Pos.eqb]. by rewrite (Hl Ed).
  - unfold days_in. destruct (month =? 2); [|apply Z.le_refl]. change (is_leap 1) with false. match goal with |- _ <= (if ?b then _ else _) => destruct b end; cbv iota; lia.
Qed.

Lemma is_leap_era y k : is_leap (y + 400 * k) = is_leap y.
Proof.
  unfold is_leap. replace ((y + 400 * k) mod 4) with (y mod 4) by (rewrite <- (Z.mod_add y (100 * k) 4) by lia; f_equal; lia).
  replace ((y + 400 * k) mod 100) with (y mod 100) by (rewrite <- (Z.mod_add y (4 * k) 100) by lia; f_equal; lia).
  replace ((y + 400 * k) mod 400) with (y mod 400) by (rewrite <- (Z.mod_add y k 400) by lia; f_equal; lia). done.
Qed.

(** A day has one date, which is a date of the calendar. *)
Lemma civil_days days :
  days_of_civil (civil_of_days days) = days
  /\ 1 <= d_month (civil_of_days days) <= 12
  /\ 1 <= d_day (civil_of_days days) <= days_in (d_month (civil_of_days days)) (d_year (civil_of_days days)).
Proof.
  unfold civil_of_days, days_of_civil. set (z := days + epoch_shift).
  assert (0 <= z mod era_days < era_days) as Hd by (apply Z.mod_pos_bound; done).
  destruct (civil_of_era_day (z mod era_days)) as [[yoe mp] day] eqn:Ev.
  destruct (era_valid _ _ _ _ Hd Ev) as (Hy & Hp & Hday & He). cbn [d_year d_month d_day].
  set (month := if mp <? 10 then mp + 3 else mp - 9) in *.
  assert (1 <= month <= 12 /\ (if 2 <? month then month - 3 else month + 9) = mp) as [Hm Hmp].
  { unfold month. destruct (Z.ltb_spec mp 10); split; try lia.
    - destruct (Z.ltb_spec 2 (mp + 3)); lia.
    - destruct (Z.ltb_spec 2 (mp - 9)); lia. }
  rewrite Hmp. set (k := z / era_days).
  assert ((if month <=? 2 then yoe + 400 * k + (if month <=? 2 then 1 else 0) - 1 else yoe + 400 * k + (if month <=? 2 then 1 else 0))
          = yoe + k * 400) as -> by (destruct (month <=? 2); lia).
  rewrite Z.div_add, Z.mod_add, (Z.div_small yoe), (Z.mod_small yoe) by lia. split; [|split; [done|]].
  - rewrite He. unfold k, z. pose proof (Z.div_mod z era_days ltac:(done)) as E.
    unfold z in E. lia.
  - split; [lia|]. etransitivity; [exact (proj2 Hday)|]. unfold days_in.
    replace (yoe + 400 * k + (if month <=? 2 then 1 else 0)) with (yoe + (if month <=? 2 then 1 else 0) + 400 * k) by lia.
    by rewrite is_leap_era.
Qed.

Lemma is_digit_char d : 0 <= d < 10 -> is_digit (digit_char d) = true /\ byte_of_ascii (digit_char d) = 48 + d.
Proof.
  intros Hd. assert (all_from (fun d => is_digit (digit_char d) && (byte_of_ascii (digit_char d) =? 48 + d)) 10 0 = true) as H by reflexivity.
  pose proof (all_from_spec _ _ _ d H ltac:(lia)) as H1. cbv beta in H1. by bool_steps.
Qed.

Lemma read_pad n z rest : 0 <= z < 10 ^ Z.of_nat n -> read_num n (String.append (pad n z) rest) = Some (z, rest).
Proof.
  revert z rest. induction n as [|n IH]; intros z rest Hz.
  { cbn in Hz. by assert (z = 0) as -> by lia. }
  cbn [pad read_num]. rewrite <- app_assoc_str. rewrite Nat2Z.inj_succ, Z.pow_succ_r in Hz by lia.
  pose proof (Z.mod_pos_bound z 10 ltac:(lia)) as Hm. pose proof (Z.div_mod z 10 ltac:(lia)) as Hdm.
  rewrite IH by lia. rewrite app_cons_str, app_nil_l_str. destruct (is_digit_char (z mod 10) Hm) as [-> ->]. do 2 f_equal. lia.
Qed.

Lemma read_pad2 z rest : 0 <= z < 100 -> read_num 2 (String.append (pad 2 z) rest) = Some (z, rest).
Proof. intros. by apply read_pad. Qed.
Lemma read_pad4 z rest : 0 <= z < 10000 -> read_num 4 (String.append (pad 4 z) rest) = Some (z, rest).
Proof. intros. by apply read_pad. Qed.

Lemma read_char_eq c rest : read_char c (String c rest) = Some rest.
Proof. unfold read_char. by rewrite Ascii.eqb_refl. Qed.

(** Zones of whole minutes, less than a day from UTC. *)
Definition zone_ok (zone : Z) : Prop := zone mod 60 = 0 /\ -86400 < zone < 86400.

Lemma format_zone_head zone : read_fraction (format_zone zone) = (0, format_zone zone).
Proof. unfold format_zone. destruct (zone =? 0); [done|]. by destruct (zone <? 0). Qed.

Lemma read_format_zone zone : zone_ok zone -> read_zone (format_zone zone) = Some zone.
Proof.
  intros [Hm Hz]. unfold format_zone. destruct (Z.eqb_spec zone 0) as [->|Hne]; [done|].
  set (a := Z.abs zone). assert (0 < a < 86400) as Ha by lia.
  assert (a mod 60 = 0) as Ham.
  { unfold a. destruct (Z.abs_spec zone) as [[_ ->]|[_ ->]]; [done|]. by apply Z_mod_zero_opp_full. }
  pose proof (Z.div_mod a 60 ltac:(lia)) as E1. pose proof (Z.div_mod (a / 60) 60 ltac:(lia)) as E2.
  pose proof (Z.mod_pos_bound (a / 60) 60 ltac:(lia)) as Hmm.
  assert (0 <= a / 60 / 60 < 24) as Hhh by (split; [apply Z.div_pos; [apply Z.div_pos|]; lia|]; apply Z.div_lt_upper_bound; [lia|]; apply Z.div_lt_upper_bound; lia).
  assert (forall sign, sign = "+"%char \/ sign = "-"%char ->
    read_zone (String sign (String.append (pad 2 (a / 60 / 60)) (String ":" (pad 2 (a / 60 mod 60)))))
    = Some (if Ascii.eqb sign "-" then - a else a)) as Hr.
  { intros sign Hs. unfold read_zone. rewrite read_pad by (cbn; lia). cbn [mbind option_bind]. rewrite read_char_eq. cbn [mbind option_bind].
    pose proof (read_pad 2 (a / 60 mod 60) EmptyString ltac:(cbn; lia)) as Hp. rewrite app_nil_r_str in Hp. rewrite Hp. cbn [mbind option_bind].
    replace ((a / 60 / 60 <=? 23) && (a / 60 mod 60 <=? 59) && String.eqb "" "") with true
      by (symmetry; rewrite !andb_true_iff, !Z.leb_le; split; [lia|done]).
    replace ((a / 60 / 60 * 60 + a / 60 mod 60) * 60) with a by lia. by destruct Hs as [-> | ->]. }
  destruct (Z.ltb_spec zone 0).
  - change (String.append "-" ?x) with (String "-" x). rewrite (Hr "-"%char) by auto. cbn. f_equal. unfold a. lia.
  - change (String.append "+" ?x) with (String "+" x). rewrite (Hr "+"%char) by auto. cbn. f_equal. unfold a. lia.
Qed.

Definition digits_end (rest : string) : bool := match rest with EmptyString => true | String c _ => negb (is_digit c) end.

Lemma read_frac_end k rest : digits_end rest = true -> read_frac k rest = (0, rest).
Proof. destruct rest as [|c rest]; [by destruct k|]. cbn [digits_end read_frac]. intros H. apply negb_true_iff in H. destruct k; cbn [read_frac]; by rewrite H. Qed.

Lemma read_frac_trim k s rest : string_forall is_digit s = true -> (String.length s <= k)%nat -> digits_end rest = true ->
  read_frac k (String.append (trim_zeros s) rest) = read_frac k (String.append s rest).
Proof.
  revert k. induction s as [|c s IH]; intros k Hs Hk Hr; [done|]. cbn [string_forall String.length trim_zeros] in *. bool_steps.
  destruct k as [|k]; [lia|]. specialize (IH k ltac:(done) ltac:(lia) Hr). rewrite app_cons_str.
  destruct (trim_zeros s) as [|c' t] eqn:E.
  - rewrite app_nil_l_str, read_frac_end in IH by done. destruct (Ascii.eqb_spec c "0") as [->|Hc].
    + rewrite app_nil_l_str, read_frac_end by done. cbn [read_frac]. change (is_digit "0") with true. cbv iota. rewrite <- IH. f_equal.
    + rewrite app_cons_str, app_nil_l_str. cbn [read_frac]. match goal with H : is_digit c = true |- _ => rewrite H end.
      rewrite (read_frac_end k) by done. by rewrite <- IH.
  - rewrite (app_cons_str c). cbn [read_frac]. match goal with H : is_digit c = true |- _ => rewrite H end. by rewrite IH.
Qed.

Lemma pad_digits n z : string_forall is_digit (pad n z) = true /\ String.length (pad n z) = n.
Proof.
  revert z. induction n as [|n IH]; intros z; [done|]. cbn [pad]. destruct (IH (z / 10)) as [H1 H2].
  rewrite string_forall_app, H1. cbn [string_forall]. rewrite (proj1 (is_digit_char (z mod 10) ltac:(apply Z.mod_pos_bound; lia))).
  split; [done|]. assert (forall a c, String.length (String.append a (String c EmptyString)) = S (String.length a)) as Hl.
  { intros a c. induction a as [|x a IHa]; [done|]. rewrite app_cons_str. cbn [String.length]. by rewrite IHa. }
  by rewrite Hl, H2.
Qed.

Lemma read_frac_pad n k z s : (n <= k)%nat -> 0 <= z < 10 ^ Z.of_nat n ->
  read_frac k (String.append (pad n z) s)
  = (let '(v, r) := read_frac (k - n) s in (z * 10 ^ Z.of_nat (k - n) + v, r)).
Proof.
  revert z s. induction n as [|n IH]; intros z s Hk Hz.
  { cbn in Hz. assert (z = 0) as -> by lia. cbn [pad]. rewrite app_nil_l_str, Nat.sub_0_r. by destruct (read_frac k s). }
  cbn [pad]. rewrite <- app_assoc_str. rewrite Nat2Z.inj_succ, Z.pow_succ_r in Hz by lia.
  pose proof (Z.mod_pos_bound z 10 ltac:(lia)) as Hm. pose proof (Z.div_mod z 10 ltac:(lia)) as Hdm.
  rewrite IH by lia. rewrite app_cons_str, app_nil_l_str. replace (k - n)%nat with (S (k - S n)) by lia. cbn [read_frac].
  destruct (is_digit_char (z mod 10) Hm) as [-> ->]. destruct (read_frac (k - S n) s) as [v r].
  f_equal. rewrite Nat2Z.inj_succ, Z.pow_succ_r by lia. lia.
Qed.

Lemma zone_digits_end zone : digits_end (format_zone zone) = true.
Proof. unfold format_zone. destruct (zone =? 0); [done|]. by destruct (zone <? 0). Qed.

Lemma trim_zeros_digits s : string_forall is_digit s = true -> string_forall is_digit (trim_zeros s) = true.
Proof.
  induction s as [|c s IH]; [done|]. cbn [string_forall trim_zeros]. intros H. bool_steps. destruct (trim_zeros s) as [|c' t].
  - destruct (Ascii.eqb c "0"); [done|]. cbn [string_forall]. by rewrite andb_true_r.
  - cbn [string_forall] in *. rewrite IH by done. by rewrite andb_true_r.
Qed.

Lemma read_format_frac nsec zone : 0 <= nsec < second ->
  read_fraction (String.append (format_frac nsec) (format_zone zone)) = (nsec, format_zone zone).
Proof.
  intros Hn. unfold second in Hn. destruct (pad_digits 9 nsec) as [Hd Hl].
  pose proof (read_frac_trim 9 (pad 9 nsec) (format_zone zone) Hd ltac:(lia) (zone_digits_end zone)) as E.
  rewrite read_frac_pad in E by (lia || (cbn; lia)). rewrite (read_frac_end (9 - 9)) in E by apply zone_digits_end.
  cbn [Nat.sub Z.of_nat] in E. unfold format_frac. destruct (trim_zeros (pad 9 nsec)) as [|c t] eqn:Et.
  - rewrite app_nil_l_str in *. rewrite read_frac_end in E by apply zone_digits_end. rewrite format_zone_head. f_equal. injection E as E. lia.
  - rewrite !app_cons_str in *. unfold read_fraction. rewrite <- (app_cons_str c t) in *.
    pose proof (trim_zeros_digits _ Hd) as Ht. rewrite Et in Ht. cbn [string_forall] in Ht. apply andb_true_iff in Ht as [Hc _].
    rewrite app_cons_str in *. rewrite Hc, E. f_equal. lia.
Qed.

(** The years that four digits hold. *)
Definition year_ok (zone : Z) (t : Time) : Prop :=
  0 <= d_year (civil_of_days ((time_to_unix t + zone) / 86400)) <= 9999.

Lemma parse_datetime zone t tail nsec : zone_ok zone -> year_ok zone t -> read_fraction tail = (nsec, format_zone zone) ->
  parse_rfc3339 (format_datetime zone t tail) = Some (time_unix (time_to_unix t) + nsec).
Proof.
  intros Hz Hy Htail. unfold year_ok in Hy. unfold format_datetime. set (secs := time_to_unix t + zone) in *. set (d := civil_of_days (secs / 86400)) in *.
  set (s := secs mod 86400). destruct (civil_days (secs / 86400)) as (Hdays & Hmo & Hda). fold d in Hdays, Hmo, Hda.
  assert (days_in (d_month d) (d_year d) <= 31) as H31.
  { unfold days_in. destruct (_ =? 2); [destruct (is_leap _); lia|]. destruct (_ || _); lia. }
  assert (0 <= s < 86400) as Hs by (apply Z.mod_pos_bound; lia).
  pose proof (Z.div_mod s 3600 ltac:(lia)) as E1. pose proof (Z.mod_pos_bound s 3600 ltac:(lia)).
  pose proof (Z.div_mod s 60 ltac:(lia)) as E2. pose proof (Z.mod_pos_bound s 60 ltac:(lia)).
  pose proof (Z.div_mod (s / 60) 60 ltac:(lia)) as E3. pose proof (Z.mod_pos_bound (s / 60) 60 ltac:(lia)).
  assert (s / 60 / 60 = s / 3600) as E4 by (rewrite Z.div_div by lia; done).
  unfold parse_rfc3339. rewrite read_pad4 by lia. cbn [mbind option_bind]. rewrite read_char_eq.
  cbn [mbind option_bind]. repeat (rewrite read_pad2 by lia; cbn [mbind option_bind]; try (rewrite read_char_eq; cbn [mbind option_bind])).
  rewrite Htail, read_format_zone by done. cbn [mbind option_bind].
  assert ({| d_year := d_year d; d_month := d_month d; d_day := d_day d |} = d) as -> by by destruct d.
  unfold valid_clock. replace (_ && _) with true.
  - rewrite Hdays. unfold time_unix. f_equal. pose proof (Z.div_mod secs 86400 ltac:(lia)) as E5. fold s in E5. unfold secs in *. lia.
  - symmetry. rewrite !andb_true_iff, !Z.leb_le. lia.
Qed.

(** What is printed is read back, to the second. *)
Lemma parse_format_rfc3339 zone t : zone_ok zone -> year_ok zone t ->
  parse_rfc3339 (format_rfc3339 zone t) = Some (time_unix (time_to_unix t)).
Proof.
  intros Hz Hy. unfold format_rfc3339. rewrite (parse_datetime zone t _ 0 Hz Hy (format_zone_head zone)). by rewrite Z.add_0_r.
Qed.

(** With nanoseconds it is read back as it was. *)
Lemma parse_format_nano zone t : zone_ok zone -> year_ok zone t -> parse_rfc3339 (format_rfc3339_nano zone t) = Some t.
Proof.
  intros Hz Hy. unfold format_rfc3339_nano.
  rewrite (parse_datetime zone t _ (t mod second) Hz Hy (read_format_frac _ _ (Z.mod_pos_bound t second ltac:(done)))).
  f_equal. unfold time_unix, time_to_unix. pose proof (Z.div_mod t second ltac:(done)). lia.
Qed.
