(* ===== verification/GoJson.v ===== *)
(** * Go's [encoding/json]

    Values are trees; a number keeps its literal, as the decoder reads it.
    [print] is [json.Marshal] of a tree (with HTML escaping), [parse] the
    decoder.  [JsonCodec] is what the message and state formats need of the
    package: reading back what was written.  Strings are byte strings, and
    invalid UTF-8 becomes U+FFFD as in Go. *)

From S2P Require Import Prelude GoStrings GoNet.
Local Open Scope Z_scope.

Inductive json :=
| JNull
| JBool (b : bool)
| JNum (lit : string)
| JStr (s : string)
| JArr (l : list json)
| JObj (l : list (string * json)).

(** ** UTF-8 *)

Definition byte_in (lo hi : Z) (c : ascii) : bool :=
  (lo <=? byte_of_ascii c) && (byte_of_ascii c <=? hi).
Definition cont_byte : ascii -> bool := byte_in 128 191.

(** Length of the rune at the head of the string, 0 when it is not valid. *)
Definition rune_size (s : string) : nat :=
  match s with
  | EmptyString => 0
  | String a s1 =>
      if byte_in 0 127 a then 1
      else match s1 with
      | EmptyString => 0
      | String b s2 =>
          if byte_in 194 223 a && cont_byte b then 2
          else match s2 with
          | EmptyString => 0
          | String c s3 =>
              if ((byte_in 224 224 a && byte_in 160 191 b)
                  || (byte_in 225 236 a && cont_byte b)
                  || (byte_in 237 237 a && byte_in 128 159 b)
                  || (byte_in 238 239 a && cont_byte b)) && cont_byte c then 3
              else match s3 with
              | EmptyString => 0
              | String d _ =>
                  if ((byte_in 240 240 a && byte_in 144 191 b)
                      || (byte_in 241 243 a && cont_byte b)
                      || (byte_in 244 244 a && byte_in 128 143 b)) && cont_byte c && cont_byte d then 4
                  else 0
              end
          end
      end
  end%nat.

Definition utf8_encode (r : Z) : string :=
  let byte z := ascii_of_byte z in
  if r <? 128 then String (byte r) EmptyString
  else if r <? 2048 then
    String (byte (192 + r / 64)) (String (byte (128 + r mod 64)) EmptyString)
  else if r <? 65536 then
    String (byte (224 + r / 4096)) (String (byte (128 + r / 64 mod 64))
      (String (byte (128 + r mod 64)) EmptyString))
  else
    String (byte (240 + r / 262144)) (String (byte (128 + r / 4096 mod 64))
      (String (byte (128 + r / 64 mod 64)) (String (byte (128 + r mod 64)) EmptyString))).

Definition rune_error : Z := 65533.

(** ** Writing *)

Definition quote_char : ascii := ascii_of_byte 34.
Definition backslash : ascii := ascii_of_byte 92.

(** The escape of one ASCII byte. *)
Definition escape_byte (c : ascii) : string :=
  let n := byte_of_ascii c in
  let esc l := String backslash (String l EmptyString) in
  if (n =? 34) || (n =? 92) then esc c
  else if n =? 8 then esc "b"%char
  else if n =? 12 then esc "f"%char
  else if n =? 10 then esc "n"%char
  else if n =? 13 then esc "r"%char
  else if n =? 9 then esc "t"%char
  else if (n <? 32) || (n =? 60) || (n =? 62) || (n =? 38)
  then String backslash (String.append "u" (hex_pad 4 n))
  else String c EmptyString.

(** [copy] bytes of a valid rune remain to be copied, [skip] to be dropped. *)
Fixpoint escape_go (copy skip : nat) (s : string) : string :=
  match s with
  | EmptyString => EmptyString
  | String c s' =>
      match copy, skip with
      | S k, _ => String c (escape_go k skip s')
      | O, S k => escape_go O k s'
      | O, O =>
          if byte_in 0 127 c then String.append (escape_byte c) (escape_go 0 0 s')
          else match rune_size s with
               | O => String.append (String backslash "ufffd") (escape_go 0 0 s')
               | S k =>
                   if String.eqb (str_take 3 s) (utf8_encode 8232)
                   then String.append (String backslash "u2028") (escape_go 0 k s')
                   else if String.eqb (str_take 3 s) (utf8_encode 8233)
                   then String.append (String backslash "u2029") (escape_go 0 k s')
                   else String c (escape_go k 0 s')
               end
      end
  end.

Definition quote (s : string) : string :=
  String quote_char (String.append (escape_go 0 0 s) (String quote_char EmptyString)).

Fixpoint print (v : json) : string :=
  match v with
  | JNull => "null"
  | JBool b => if b then "true" else "false"
  | JNum lit => lit
  | JStr s => quote s
  | JArr l => String "[" (String.append (join "," (List.map print l)) "]")
  | JObj l =>
      String "{" (String.append
        (join "," (List.map (fun kv => String.append (quote (fst kv)) (String ":" (print (snd kv)))) l)) "}")
  end.

(** The text of a tree with a layout: [nl d] is written before an element at
    depth [d] and before the closing bracket of depth [d], [sp] after a colon.
    Empty arrays and objects stay on one line. *)
Fixpoint print_at (nl : nat -> string) (sp : string) (d : nat) (v : json) : string :=
  match v with
  | JArr ((_ :: _) as l) =>
      String "[" (String.append
        (join "," (List.map (fun v => String.append (nl (S d)) (print_at nl sp (S d) v)) l))
        (String.append (nl d) "]"))
  | JObj ((_ :: _) as l) =>
      String "{" (String.append
        (join "," (List.map (fun kv => String.append (nl (S d))
           (String.append (quote (fst kv)) (String ":" (String.append sp (print_at nl sp (S d) (snd kv)))))) l))
        (String.append (nl d) "}"))
  | _ => print v
  end.

(** [json.MarshalIndent(v, "", "  ")]. *)
Definition indent_nl (d : nat) : string :=
  String (ascii_of_byte 10) (join EmptyString (replicate d "  "%string)).
Definition print_indent (v : json) : string := print_at indent_nl " " 0 v.

(** ** Reading *)

Definition is_ws (c : ascii) : bool :=
  let n := byte_of_ascii c in (n =? 32) || (n =? 9) || (n =? 10) || (n =? 13).

Fixpoint skip_ws (s : string) : string :=
  match s with
  | String c s' => if is_ws c then skip_ws s' else s
  | EmptyString => EmptyString
  end.

Definition hex4 (a b c d : ascii) : option Z :=
  match hex_value a, hex_value b, hex_value c, hex_value d with
  | Some a, Some b, Some c, Some d => Some (a * 4096 + b * 256 + c * 16 + d)
  | _, _, _, _ => None
  end.

Definition simple_escape (e : ascii) : option ascii :=
  if Ascii.eqb e quote_char || Ascii.eqb e backslash || Ascii.eqb e "/" then Some e
  else if Ascii.eqb e "b" then Some (ascii_of_byte 8)
  else if Ascii.eqb e "f" then Some (ascii_of_byte 12)
  else if Ascii.eqb e "n" then Some (ascii_of_byte 10)
  else if Ascii.eqb e "r" then Some (ascii_of_byte 13)
  else if Ascii.eqb e "t" then Some (ascii_of_byte 9)
  else None.

Definition push (p : string) (r : option (string * string)) : option (string * string) :=
  match r with
  | Some (s, rest) => Some (String.append p s, rest)
  | None => None
  end.

Definition is_surrogate (r : Z) : bool := (55296 <=? r) && (r <? 57344).

(** The rune of a surrogate pair, if it is one. *)
Definition surrogate_pair (r1 r2 : Z) : option Z :=
  if (r1 <? 56320) && (56320 <=? r2) && (r2 <? 57344)
  then Some ((r1 - 55296) * 1024 + (r2 - 56320) + 65536) else None.

(** The body of a string literal after its opening quote: the decoded string
    and the text after the closing quote. *)
Fixpoint unquote_go (copy : nat) (s : string) : option (string * string) :=
  match s with
  | EmptyString => None
  | String c s' =>
      match copy with
      | S k => push (String c EmptyString) (unquote_go k s')
      | O =>
          if Ascii.eqb c quote_char then Some (EmptyString, s')
          else if byte_of_ascii c <? 32 then None
          else if Ascii.eqb c backslash then
            match s' with
            | EmptyString => None
            | String e t =>
                match simple_escape e with
                | Some ch => push (String ch EmptyString) (unquote_go 0 t)
                | None =>
                    if negb (Ascii.eqb e "u") then None
                    else match t with
                    | String h1 (String h2 (String h3 (String h4 t1))) =>
                        match hex4 h1 h2 h3 h4 with
                        | None => None
                        | Some r =>
                            if negb (is_surrogate r) then push (utf8_encode r) (unquote_go 0 t1)
                            else match t1 with
                            | String b (String u (String g1 (String g2 (String g3 (String g4 t2))))) =>
                                match (if Ascii.eqb b backslash && Ascii.eqb u "u"
                                       then hex4 g1 g2 g3 g4 ≫= surrogate_pair r else None) with
                                | Some r' => push (utf8_encode r') (unquote_go 0 t2)
                                | None => push (utf8_encode rune_error) (unquote_go 0 t1)
                                end
                            | _ => push (utf8_encode rune_error) (unquote_go 0 t1)
                            end
                        end
                    | _ => None
                    end
                end
            end
          else match rune_size s with
               | O => push (utf8_encode rune_error) (unquote_go 0 s')
               | S k => push (String c EmptyString) (unquote_go k s')
               end
      end
  end.

(** The longest prefix of digits, and the rest. *)
Fixpoint span_digits (s : string) : string * string :=
  match s with
  | String c s' =>
      if is_digit c then let '(d, r) := span_digits s' in (String c d, r) else (EmptyString, s)
  | EmptyString => (EmptyString, EmptyString)
  end.

Definition lex_int (s : string) : option (string * string) :=
  match s with
  | String c s' =>
      if Ascii.eqb c "0" then Some ("0"%string, s')
      else if is_digit c then Some (span_digits s) else None
  | EmptyString => None
  end.

Definition lex_frac (s : string) : option (string * string) :=
  match s with
  | String c s' =>
      if Ascii.eqb c "." then
        let '(d, r) := span_digits s' in
        if String.eqb d "" then None else Some (String "." d, r)
      else Some (EmptyString, s)
  | EmptyString => Some (EmptyString, s)
  end.

Definition lex_exp (s : string) : option (string * string) :=
  match s with
  | String c s' =>
      if Ascii.eqb c "e" || Ascii.eqb c "E" then
        let '(sign, s'') :=
          match s' with
          | String g t => if Ascii.eqb g "+" || Ascii.eqb g "-" then (String g EmptyString, t) else (EmptyString, s')
          | EmptyString => (EmptyString, s')
          end in
        let '(d, r) := span_digits s'' in
        if String.eqb d "" then None else Some (String c (String.append sign d), r)
      else Some (EmptyString, s)
  | EmptyString => Some (EmptyString, s)
  end.

Definition lex_number (s : string) : option (string * string) :=
  let '(sign, s0) :=
    match s with
    | String c s' => if Ascii.eqb c "-" then ("-"%string, s') else (EmptyString, s)
    | EmptyString => (EmptyString, s)
    end in
  match lex_int s0 with
  | None => None
  | Some (i, s1) =>
      match lex_frac s1 with
      | None => None
      | Some (f, s2) =>
          match lex_exp s2 with
          | None => None
          | Some (e, s3) => Some (String.append sign (String.append i (String.append f e)), s3)
          end
      end
  end.

Definition strip (lit : string) (v : json) (s : string) : option (json * string) :=
  if has_prefix s lit then Some (v, str_drop (String.length lit) s) else None.

Fixpoint parse_value (fuel : nat) (s : string) : option (json * string) :=
  match fuel with
  | O => None
  | S fuel =>
      let s := skip_ws s in
      match s with
      | EmptyString => None
      | String c s' =>
          if Ascii.eqb c quote_char then
            match unquote_go 0 s' with Some (x, r) => Some (JStr x, r) | None => None end
          else if Ascii.eqb c "[" then
            match skip_ws s' with
            | String d r =>
                if Ascii.eqb d "]" then Some (JArr [], r)
                else match parse_elems fuel s' with Some (l, r) => Some (JArr l, r) | None => None end
            | EmptyString => None
            end
          else if Ascii.eqb c "{" then
            match skip_ws s' with
            | String d r =>
                if Ascii.eqb d "}" then Some (JObj [], r)
                else match parse_members fuel s' with Some (l, r) => Some (JObj l, r) | None => None end
            | EmptyString => None
            end
          else if Ascii.eqb c "n" then strip "null" JNull s
          else if Ascii.eqb c "t" then strip "true" (JBool true) s
          else if Ascii.eqb c "f" then strip "false" (JBool false) s
          else match lex_number s with Some (lit, r) => Some (JNum lit, r) | None => None end
      end
  end
with parse_elems (fuel : nat) (s : string) : option (list json * string) :=
  match fuel with
  | O => None
  | S fuel =>
      match parse_value fuel s with
      | None => None
      | Some (v, r) =>
          match skip_ws r with
          | String c r' =>
              if Ascii.eqb c "]" then Some ([v], r')
              else if Ascii.eqb c "," then
                match parse_elems fuel r' with Some (l, r'') => Some (v :: l, r'') | None => None end
              else None
          | EmptyString => None
          end
      end
  end
with parse_members (fuel : nat) (s : string) : option (list (string * json) * string) :=
  match fuel with
  | O => None
  | S fuel =>
      match skip_ws s with
      | String q s' =>
          if negb (Ascii.eqb q quote_char) then None
          else match unquote_go 0 s' with
          | None => None
          | Some (k, r) =>
              match skip_ws r with
              | String c r' =>
                  if negb (Ascii.eqb c ":") then None
                  else match parse_value fuel r' with
                  | None => None
                  | Some (v, r'') =>
                      match skip_ws r'' with
                      | String d t =>
                          if Ascii.eqb d "}" then Some ([(k, v)], t)
                          else if Ascii.eqb d "," then
                            match parse_members fuel t with
                            | Some (l, t') => Some ((k, v) :: l, t')
                            | None => None
                            end
                          else None
                      | EmptyString => None
                      end
                  end
              | EmptyString => None
              end
          end
      | EmptyString => None
      end
  end.

(** The whole text must be one value. *)
Definition parse (s : string) : option json :=
  match parse_value (S (2 * String.length s)) s with
  | Some (v, r) => if String.eqb (skip_ws r) "" then Some v else None
  | None => None
  end.

(** ** Reading back what was written *)

(** Trees whose text is unambiguous: ASCII strings and canonical integers. *)
Definition ascii_str (s : string) : bool := string_forall (byte_in 0 127) s.

Definition int_lit (lit : string) : bool :=
  match atoi lit with Some z => String.eqb (itoa z) lit | None => false end.

Fixpoint json_ok (v : json) : bool :=
  match v with
  | JNull | JBool _ => true
  | JNum lit => int_lit lit
  | JStr s => ascii_str s
  | JArr l => forallb json_ok l
  | JObj l => forallb (fun kv => ascii_str (fst kv) && json_ok (snd kv)) l
  end.

Section json_induction.
Context (P : json -> Prop).
Hypothesis (Hnull : P JNull) (Hbool : forall b, P (JBool b)) (Hnum : forall l, P (JNum l))
  (Hstr : forall s, P (JStr s)) (Harr : forall l, Forall P l -> P (JArr l))
  (Hobj : forall l, Forall (fun kv => P (snd kv)) l -> P (JObj l)).

Lemma json_ind' : forall v, P v.
Proof.
  fix IH 1. intros [|b|lit|s|l|l]; [done|apply Hbool|apply Hnum|apply Hstr|apply Harr|apply Hobj].
  - induction l as [|v l IHl]; constructor; [apply IH|apply IHl].
  - induction l as [|[k v] l IHl]; constructor; [apply IH|apply IHl].
Qed.
End json_induction.

Lemma unquote_escape_byte c t :
  byte_in 0 127 c = true ->
  unquote_go 0 (String.append (escape_byte c) t) = push (String c EmptyString) (unquote_go 0 t).
Proof. destruct c as [[] [] [] [] [] [] [] []]; intros H; try discriminate H; reflexivity. Qed.

Lemma unquote_escape s rest :
  ascii_str s = true ->
  unquote_go 0 (String.append (escape_go 0 0 s) (String quote_char rest)) = Some (s, rest).
Proof.
  induction s as [|c s IH]; intros H; [done|]. cbn [ascii_str string_forall escape_go] in *.
  unfold ascii_str in H. cbn [string_forall] in H. bool_steps. rewrite H, <- app_assoc_str.
  rewrite unquote_escape_byte by done. rewrite IH by done. done.
Qed.

Lemma quote_app s rest :
  String.append (quote s) rest =
  String quote_char (String.append (escape_go 0 0 s) (String quote_char rest)).
Proof. unfold quote. by rewrite app_cons_str, <- app_assoc_str. Qed.

(** What may follow a number. *)
Definition delim (rest : string) : bool :=
  match rest with
  | EmptyString => true
  | String c _ => negb (is_digit c) && negb (Ascii.eqb c ".") && negb (Ascii.eqb c "e") && negb (Ascii.eqb c "E")
  end.

Lemma span_digits_app d rest :
  string_forall is_digit d = true -> delim rest = true -> span_digits (String.append d rest) = (d, rest).
Proof.
  intros Hd Hr. induction d as [|c d IH].
  - rewrite app_nil_l_str. destruct rest as [|c rest]; [done|]. unfold delim in Hr. bool_steps.
    cbn [span_digits]. by rewrite H.
  - simpl in Hd. bool_steps. rewrite app_cons_str. cbn [span_digits]. rewrite H, IH by done. done.
Qed.

Lemma delim_tail rest : delim rest = true -> lex_frac rest = Some (EmptyString, rest) /\ lex_exp rest = Some (EmptyString, rest).
Proof.
  destruct rest as [|c rest]; [done|]. unfold delim. intros H. bool_steps.
  unfold lex_frac, lex_exp. rewrite H0, H1, H2. done.
Qed.

(** Canonical decimal digits: "0", or no leading zero. *)
Definition canon_digits (s : string) : Prop :=
  string_forall is_digit s = true
  /\ match s with EmptyString => False | String c s' => c = "0"%char -> s' = EmptyString end.

Lemma canon_uint u :
  u = Decimal.unorm u -> canon_digits (DecimalString.NilZero.string_of_uint u).
Proof.
  intros Hu. assert (u <> Decimal.Nil) as Hn.
  { intros ->. discriminate Hu. }
  assert (DecimalString.NilZero.string_of_uint u = DecimalString.NilEmpty.string_of_uint u) as ->
    by by destruct u.
  split; [apply string_of_uint_digits|].
  destruct u as [|u|u|u|u|u|u|u|u|u|u]; try done; simpl; try (intros ?; discriminate).
  intros _. unfold Decimal.unorm in Hu. cbn [Decimal.nzhead] in Hu.
  destruct (Decimal.nzhead u) eqn:E; try discriminate Hu; [by injection Hu as ->|].
  by apply DecimalFacts.nzhead_nonzero in E.
Qed.

Lemma itoa_canon z :
  canon_digits (itoa z) \/ exists d, itoa z = String "-" d /\ canon_digits d.
Proof.
  unfold itoa. assert (Z.to_int z = Decimal.norm (Z.to_int z)) as H.
  { rewrite <- DecimalZ.to_of. by rewrite DecimalZ.of_to. }
  destruct (Z.to_int z) as [u|u] eqn:E.
  - left. injection H as H. by apply canon_uint.
  - right. exists (DecimalString.NilZero.string_of_uint u). split; [done|]. apply canon_uint.
    unfold Decimal.norm in H. destruct (Decimal.nzhead u) eqn:En; try discriminate H; injection H as ->;
      rewrite DecimalFacts.unorm_nzhead; rewrite En; done.
Qed.

Lemma lex_int_canon d rest :
  canon_digits d -> delim rest = true -> lex_int (String.append d rest) = Some (d, rest).
Proof.
  intros [Hd Hc] Hr. destruct d as [|c d]; [done|]. rewrite app_cons_str. cbn [lex_int].
  destruct (Ascii.eqb_spec c "0") as [->|Hne].
  - rewrite (Hc eq_refl). by rewrite app_nil_l_str.
  - pose proof Hd as Hd'. simpl in Hd'. bool_steps. rewrite H. f_equal.
    rewrite <- app_cons_str. by apply span_digits_app.
Qed.

Lemma lex_number_itoa z rest : delim rest = true -> lex_number (String.append (itoa z) rest) = Some (itoa z, rest).
Proof.
  intros Hr. destruct (delim_tail rest Hr) as [Hf He].
  assert (forall d, canon_digits d -> match String.append d rest with
            String c _ => Ascii.eqb c "-" = false | EmptyString => True end) as Hminus.
  { intros [|c d] [Hd Hc]; [done|]. rewrite app_cons_str. simpl in Hd. bool_steps.
    destruct (Ascii.eqb_spec c "-") as [->|]; [done|done]. }
  unfold lex_number. destruct (itoa_canon z) as [H|(d & -> & H)].
  - pose proof (Hminus _ H) as Hm. pose proof (lex_int_canon _ rest H Hr) as Hi.
    destruct (String.append (itoa z) rest) as [|c s] eqn:E.
    { rewrite Hi, Hf, He. rewrite !app_nil_l_str, app_nil_r_str. done. }
    rewrite Hm, Hi, Hf, He. by rewrite !app_nil_l_str, app_nil_r_str.
  - rewrite app_cons_str. cbn [Ascii.eqb Bool.eqb]. rewrite (lex_int_canon _ rest H Hr), Hf, He.
    by rewrite ?app_nil_r_str, app_cons_str, app_nil_l_str, ?app_nil_r_str.
Qed.

(** The first character of a printed value tells its kind. *)
Definition value_head (c : ascii) : bool :=
  negb (is_ws c) && negb (Ascii.eqb c "]") && negb (Ascii.eqb c "}").

Lemma itoa_head z : exists c t, itoa z = String c t /\ (is_digit c = true \/ c = "-"%char).
Proof.
  destruct (itoa_canon z) as [[Hd Hc]|(d & -> & _)]; [|by exists "-"%char, d; auto].
  destruct (itoa z) as [|c t]; [done|]. exists c, t. simpl in Hd. bool_steps. auto.
Qed.

Lemma int_lit_itoa lit : int_lit lit = true -> exists z, lit = itoa z.
Proof.
  unfold int_lit. destruct (atoi lit) as [z|]; [|done]. intros H. bool_steps. by exists z.
Qed.

Lemma digit_head c : is_digit c = true \/ c = "-"%char ->
  value_head c = true /\ Ascii.eqb c quote_char = false /\ Ascii.eqb c "[" = false
  /\ Ascii.eqb c "{" = false /\ Ascii.eqb c "n" = false /\ Ascii.eqb c "t" = false
  /\ Ascii.eqb c "f" = false.
Proof.
  intros [H | ->]; [|by vm_compute].
  destruct c as [[] [] [] [] [] [] [] []]; try discriminate H; by vm_compute.
Qed.

Lemma print_head v : json_ok v = true -> exists c t, print v = String c t /\ value_head c = true.
Proof.
  destruct v as [|[]|lit|s|l|l]; intros H; simpl; try by (eexists _, _; split; [reflexivity|]; by vm_compute).
  - destruct (int_lit_itoa lit H) as [z ->]. destruct (itoa_head z) as (c & t & -> & Hc).
    exists c, t. split; [done|]. by apply digit_head.
Qed.

Lemma skip_ws_head c t : is_ws c = false -> skip_ws (String c t) = String c t.
Proof. intros H. simpl. by rewrite H. Qed.

(** Fuel enough to read a value back. *)
Fixpoint need (v : json) : nat :=
  match v with
  | JArr l => S (foldr (fun v n => S (Nat.max (need v) n)) 0%nat l)
  | JObj l => S (foldr (fun kv n => S (Nat.max (need (snd kv)) n)) 0%nat l)
  | _ => 1%nat
  end.

Lemma Forall2_map_self {A B} (P : B -> A -> Prop) (f : A -> B) l :
  Forall (fun x => P (f x) x) l -> Forall2 P (List.map f l) l.
Proof. induction 1; by constructor. Qed.

(** Text that says [v], whatever follows it. *)
Definition reads_as (text : string) (v : json) : Prop :=
  forall fuel rest, (need v <= fuel)%nat -> delim rest = true ->
  parse_value fuel (String.append text rest) = Some (v, rest).

(** White space. *)
Definition blank (w : string) : bool := string_forall is_ws w.

Lemma skip_blank w s : blank w = true -> skip_ws (String.append w s) = skip_ws s.
Proof.
  induction w as [|c w IH]; [done|]. unfold blank in *. rewrite app_cons_str. simpl. intros H. bool_steps.
  rewrite H. by apply IH.
Qed.

Lemma parse_value_blank w fuel s : blank w = true -> parse_value fuel (String.append w s) = parse_value fuel s.
Proof. intros H. destruct fuel; [done|]. cbn [parse_value]. by rewrite skip_blank. Qed.

Lemma reads_as_blank w t v : blank w = true -> reads_as t v -> reads_as (String.append w t) v.
Proof. intros Hw Ht fuel rest Hf Hd. rewrite <- app_assoc_str, parse_value_blank by done. by apply Ht. Qed.

Lemma blank_delim w c rest :
  blank w = true -> delim (String c rest) = true -> delim (String.append w (String c rest)) = true.
Proof.
  destruct w as [|b w]; [done|]. unfold blank. rewrite app_cons_str. simpl. intros H _. bool_steps.
  destruct b as [[] [] [] [] [] [] [] []]; try discriminate H; by vm_compute.
Qed.

Definition needs (l : list json) : nat := foldr (fun v n => S (Nat.max (need v) n)) 0%nat l.
Definition member_needs (l : list (string * json)) : nat :=
  foldr (fun kv n => S (Nat.max (need (snd kv)) n)) 0%nat l.

Lemma elems_read_back texts l fuel w rest :
  Forall2 reads_as texts l -> l <> [] -> blank w = true -> (needs l <= fuel)%nat ->
  parse_elems fuel (String.append (join "," texts) (String.append w (String "]" rest))) = Some (l, rest).
Proof.
  intros H Hne Hw. revert fuel Hne. induction H as [|t v ts l Hv Hl IH]; intros fuel Hne Hn; [done|].
  destruct fuel as [|fuel]; [simpl in Hn; lia|]. destruct Hl as [|t' v' ts l Hv' Hl].
  - cbn [join parse_elems]. rewrite Hv; [|simpl in Hn; lia|by apply blank_delim].
    by rewrite skip_blank.
  - assert (String.append (join "," (t :: t' :: ts)) (String.append w (String "]" rest))
      = String.append t (String "," (String.append (join "," (t' :: ts)) (String.append w (String "]" rest))))) as ->.
    { cbn [join]. rewrite <- !app_assoc_str. by rewrite app_cons_str, app_nil_l_str. }
    cbn [parse_elems]. rewrite Hv; [|simpl in Hn; lia|done].
    rewrite skip_ws_head by done. cbn [Ascii.eqb Bool.eqb]. rewrite IH; [done|done|].
    change (needs (v :: v' :: l)) with (S (Nat.max (need v) (needs (v' :: l)))) in Hn. lia.
Qed.

(** Text that says one member. *)
Definition member_as (text : string) (kv : string * json) : Prop :=
  forall fuel t, (need (snd kv) <= fuel)%nat -> delim t = true ->
  parse_members (S fuel) (String.append text t) =
  match skip_ws t with
  | String d t =>
      if Ascii.eqb d "}" then Some ([kv], t)
      else if Ascii.eqb d "," then
        match parse_members fuel t with Some (l, t') => Some (kv :: l, t') | None => None end
      else None
  | EmptyString => None
  end.

Lemma member_reads w k t v : blank w = true -> ascii_str k = true -> reads_as t v ->
  member_as (String.append w (String.append (quote k) (String ":" t))) (k, v).
Proof.
  intros Hw Hk Hv fuel rest Hf Hd. cbn [snd] in Hf.
  rewrite <- !app_assoc_str, app_cons_str. cbn [parse_members]. rewrite skip_blank by done.
  rewrite quote_app, skip_ws_head by done. cbn [Ascii.eqb Bool.eqb quote_char].
  change (negb (Ascii.eqb quote_char quote_char)) with false. cbv iota.
  rewrite unquote_escape by done. rewrite skip_ws_head by done.
  change (negb (Ascii.eqb ":" ":")) with false. cbv iota. by rewrite Hv.
Qed.

Lemma members_read_back texts l fuel w rest :
  Forall2 member_as texts l -> l <> [] -> blank w = true -> (member_needs l <= fuel)%nat ->
  parse_members fuel (String.append (join "," texts) (String.append w (String "}" rest))) = Some (l, rest).
Proof.
  intros H Hne Hw. revert fuel Hne. induction H as [|t [k v] ts l Hv Hl IH]; intros fuel Hne Hn; [done|].
  destruct fuel as [|fuel]; [simpl in Hn; lia|]. destruct Hl as [|t' [k' v'] ts l Hv' Hl].
  - cbn [join]. rewrite Hv; [|simpl in *; lia|by apply blank_delim]. by rewrite skip_blank.
  - assert (String.append (join "," (t :: t' :: ts)) (String.append w (String "}" rest))
      = String.append t (String "," (String.append (join "," (t' :: ts)) (String.append w (String "}" rest))))) as ->.
    { cbn [join]. rewrite <- !app_assoc_str. by rewrite app_cons_str, app_nil_l_str. }
    change (member_needs ((k, v) :: (k', v') :: l)) with
      (S (Nat.max (need v) (member_needs ((k', v') :: l)))) in Hn.
    rewrite Hv; [|simpl; lia|done]. rewrite skip_ws_head by done. cbn [Ascii.eqb Bool.eqb].
    rewrite IH; [done|done|lia].
Qed.

Lemma strip_app lit v rest : strip lit v (String.append lit rest) = Some (v, rest).
Proof.
  unfold strip. assert (has_prefix (String.append lit rest) lit = true) as ->.
  { unfold has_prefix. induction lit as [|c lit IH]; [by destruct rest|].
    rewrite app_cons_str. cbn [String.prefix]. by destruct (ascii_dec c c). }
  f_equal. f_equal. induction lit as [|c lit IH]; [done|]. by rewrite app_cons_str.
Qed.

Lemma scalar_reads v : match v with JArr (_ :: _) | JObj (_ :: _) => False | _ => True end ->
  json_ok v = true -> reads_as (print v) v.
Proof.
  destruct v as [|b|lit|s|l|l]; intros Hs Hok [|fuel] rest Hf Hd; try (simpl in Hf; lia).
  - exact (strip_app "null" JNull rest).
  - destruct b; [exact (strip_app "true" (JBool true) rest)|exact (strip_app "false" (JBool false) rest)].
  - destruct (int_lit_itoa lit Hok) as [z ->]. cbn [print].
    pose proof (lex_number_itoa z rest Hd) as Hl.
    destruct (itoa_head z) as (c & t & E & Hc). rewrite E in *. rewrite app_cons_str in *.
    destruct (digit_head c Hc) as (Hh & Hq & H1 & H2 & H3 & H4 & H5).
    unfold value_head in Hh. bool_steps. cbn [parse_value]. rewrite skip_ws_head by done.
    by rewrite Hq, H1, H2, H3, H4, H5, Hl.
  - cbn [print]. rewrite quote_app. cbn [parse_value]. rewrite skip_ws_head by done.
    change (Ascii.eqb quote_char quote_char) with true. cbv iota. by rewrite unquote_escape.
  - by destruct l.
  - by destruct l.
Qed.

(** The opening bracket of a non-empty array or object. *)
Lemma array_reads texts l w :
  Forall2 reads_as texts l -> l <> [] -> blank w = true ->
  (forall rest, exists c t, skip_ws (String.append (join "," texts) rest) = String c t /\ Ascii.eqb c "]" = false) ->
  reads_as (String "[" (String.append (join "," texts) (String.append w "]"))) (JArr l).
Proof.
  intros H Hne Hw Hhd [|fuel] rest Hf Hd; [simpl in Hf; lia|].
  change (need (JArr l)) with (S (needs l)) in Hf. rewrite app_cons_str. cbn [parse_value].
  rewrite skip_ws_head by done. change (Ascii.eqb "[" quote_char) with false. cbn [Ascii.eqb Bool.eqb]. cbv iota.
  rewrite <- !app_assoc_str, app_cons_str, app_nil_l_str.
  rewrite (elems_read_back texts l) by (done || lia). destruct (Hhd (String.append w (String "]" rest))) as (c & t & -> & ->). done.
Qed.

Lemma object_reads texts l w :
  Forall2 member_as texts l -> l <> [] -> blank w = true ->
  (forall rest, exists c t, skip_ws (String.append (join "," texts) rest) = String c t /\ Ascii.eqb c "}" = false) ->
  reads_as (String "{" (String.append (join "," texts) (String.append w "}"))) (JObj l).
Proof.
  intros H Hne Hw Hhd [|fuel] rest Hf Hd; [simpl in Hf; lia|].
  change (need (JObj l)) with (S (member_needs l)) in Hf. rewrite app_cons_str. cbn [parse_value].
  rewrite skip_ws_head by done. change (Ascii.eqb "{" quote_char) with false. cbn [Ascii.eqb Bool.eqb]. cbv iota.
  rewrite <- !app_assoc_str, app_cons_str, app_nil_l_str.
  rewrite (members_read_back texts l) by (done || lia). destruct (Hhd (String.append w (String "}" rest))) as (c & t & -> & ->). done.
Qed.

Lemma join_head t ts w c r rest :
  t = String.append w (String c r) -> blank w = true -> is_ws c = false ->
  exists t', skip_ws (String.append (join "," (t :: ts)) rest) = String c t'.
Proof.
  intros -> Hw Hc. destruct ts as [|t' ts]; cbn [join]; rewrite <- ?app_assoc_str, skip_blank by done;
    rewrite app_cons_str, skip_ws_head by done; eauto.
Qed.

(** A joined text is at least as long as what the fuel of its parts asks. *)
Lemma join_need {A} (pr : A -> string) (nd : A -> nat) l :
  Forall (fun a => (nd a <= 2 * String.length (pr a))%nat) l ->
  (foldr (fun a n => S (Nat.max (nd a) n)) 0 l <= 2 * String.length (join "," (List.map pr l)) + 1)%nat.
Proof.
  induction l as [|a l IH]; intros H; [simpl; lia|]. apply Forall_cons in H as [Ha Hl].
  specialize (IH Hl). cbn [foldr List.map]. destruct l as [|b l]; cbn [List.map join foldr] in *; [lia|].
  rewrite !length_app_str. simpl String.length in *. lia.
Qed.


Section layout.
Context (nl : nat -> string) (sp : string).
Context (nl_blank : forall d, blank (nl d) = true) (sp_blank : blank sp = true).
Notation pr := (print_at nl sp).

Lemma print_at_head v d : json_ok v = true -> exists c t, pr d v = String c t /\ value_head c = true.
Proof.
  intros H. destruct v as [|b|lit|s|[|v l]|[|kv l]]; try exact (print_head _ H);
    cbn [print_at]; eexists _, _; split; [reflexivity|by vm_compute|reflexivity|by vm_compute].
Qed.

Lemma print_at_reads v d : json_ok v = true -> reads_as (pr d v) v.
Proof.
  revert d. induction v as [|b|lit|s|l IH|l IH] using json_ind'; intros d Hok; try by apply scalar_reads.
  - destruct l as [|v l]; [by apply scalar_reads|]. cbn [print_at]. apply array_reads; [|done|done|].
    + apply Forall2_map_self, Forall_forall. intros x Hx.
      apply reads_as_blank; [done|]. apply (proj1 (Forall_forall _ _) IH x Hx).
      by apply (proj1 (forallb_forall json_ok (v :: l)) Hok), list_elem_of_In.
    + intros rest. cbn [json_ok forallb] in Hok. bool_steps.
      destruct (print_at_head v (S d)) as (c & t & E & Hc); [done|]. unfold value_head in Hc. bool_steps.
      destruct (join_head (String.append (nl (S d)) (pr (S d) v))
        (List.map (fun v => String.append (nl (S d)) (pr (S d) v)) l) (nl (S d)) c t rest) as [t' Ht];
        [by rewrite E|done|done|]. exists c, t'. by split.
  - destruct l as [|[k v] l]; [by apply scalar_reads|]. cbn [print_at]. apply object_reads; [|done|done|].
    + apply Forall2_map_self, Forall_forall. intros [k' v'] Hx. cbn [fst snd].
      pose proof (proj1 (forallb_forall _ ((k, v) :: l)) Hok _ (proj1 (list_elem_of_In _ _) Hx)) as Hkv.
      apply andb_true_iff in Hkv as [Hk Hv]. apply member_reads; [done|done|].
      apply reads_as_blank; [done|]. exact (proj1 (Forall_forall _ _) IH (k', v') Hx (S d) Hv).
    + intros rest. set (f := fun kv : string * json => String.append (nl (S d)) _).
      destruct (join_head (f (k, v)) (List.map f l) (nl (S d)) quote_char
        (String.append (String.append (escape_go 0 0 k) (String quote_char EmptyString))
           (String ":" (String.append sp (pr (S d) v)))) rest) as [t' Ht]; [done|done|done|].
      exists quote_char, t'. by split.
Qed.

Lemma print_at_need v d : json_ok v = true -> (need v <= 2 * String.length (pr d v))%nat.
Proof.
  revert d. induction v as [|b|lit|s|l IH|l IH] using json_ind'; intros d Hok.
  - simpl; lia.
  - destruct b; simpl; lia.
  - destruct (int_lit_itoa lit Hok) as [z ->]. destruct (itoa_head z) as (c & t & E & _).
    cbn [need print_at print]. rewrite E. simpl. lia.
  - simpl. lia.
  - destruct l as [|v l]; [simpl; lia|]. cbn [need print_at].
    set (f := fun v => String.append (nl (S d)) (pr (S d) v)).
    assert (Forall (fun v => (need v <= 2 * String.length (f v))%nat) (v :: l)) as H.
    { apply Forall_forall. intros x Hx. unfold f. rewrite length_app_str.
      assert (json_ok x = true) as Hx' by by apply (proj1 (forallb_forall json_ok (v :: l)) Hok), list_elem_of_In.
      pose proof (proj1 (Forall_forall _ _) IH x Hx (S d) Hx'). simpl in *. lia. }
    pose proof (join_need f need (v :: l) H). cbn [String.length]. rewrite !length_app_str. cbn [String.length]. lia.
  - destruct l as [|kv l]; [simpl; lia|]. cbn [need print_at].
    set (f := fun kv : string * json => String.append (nl (S d)) _).
    assert (Forall (fun kv => (need (snd kv) <= 2 * String.length (f kv))%nat) (kv :: l)) as H.
    { apply Forall_forall. intros x Hx. unfold f. rewrite !length_app_str.
      pose proof (proj1 (forallb_forall _ (kv :: l)) Hok x (proj1 (list_elem_of_In _ _) Hx)) as Hkv.
      apply andb_true_iff in Hkv as [_ Hkv]. pose proof (proj1 (Forall_forall _ _) IH x Hx (S d) Hkv).
      cbn [String.length]. rewrite length_app_str. lia. }
    pose proof (join_need f (fun kv => need (snd kv)) (kv :: l) H).
    cbn [String.length]. rewrite !length_app_str. cbn [String.length]. lia.
Qed.

Lemma parse_print_at v : json_ok v = true -> parse (pr 0 v) = Some v.
Proof.
  intros Hok. unfold parse. rewrite <- (app_nil_r_str (pr 0 v)) at 2.
  rewrite (print_at_reads v 0 Hok); [done| |done]. pose proof (print_at_need v 0 Hok). lia.
Qed.
End layout.

(** [Marshal] is the layout without white space. *)
Lemma print_at_compact v d : print_at (fun _ => EmptyString) EmptyString d v = print v.
Proof.
  revert d. induction v as [|b|lit|s|l IH|l IH] using json_ind'; intros d; try done.
  - destruct l as [|v l]; [done|]. cbn [print_at print]. rewrite app_nil_l_str. do 3 f_equal.
    apply map_ext_in. intros x Hx. rewrite app_nil_l_str.
    apply (proj1 (Forall_forall _ _) IH). by apply list_elem_of_In.
  - destruct l as [|kv l]; [done|]. cbn [print_at print]. rewrite app_nil_l_str. do 3 f_equal.
    apply map_ext_in. intros x Hx. rewrite !app_nil_l_str. do 2 f_equal.
    apply (proj1 (Forall_forall _ _) IH). by apply list_elem_of_In.
Qed.

(** [Unmarshal] reads back what [Marshal] or [MarshalIndent] wrote. *)
Lemma parse_print v : json_ok v = true -> parse (print v) = Some v.
Proof. intros H. rewrite <- (print_at_compact v 0). by apply parse_print_at. Qed.

Lemma parse_print_indent v : json_ok v = true -> parse (print_indent v) = Some v.
Proof.
  apply parse_print_at; [|done]. intros d. unfold indent_nl, blank. simpl.
  induction d as [|d IH]; [done|]. simpl. destruct (replicate d "  "%string) eqn:E; [done|].
  rewrite string_forall_app. simpl in *. done.
Qed.

(** ** Decoding into Go values *)

(** [strings.EqualFold] on field names. *)
Definition key_match (name key : string) : bool := String.eqb (to_lower name) (to_lower key).

(** One struct field: every member with its name is stored, in order; [null]
    is given to [on_null]. *)
Definition field_step {A} (dec : json -> option A) (on_null : A -> A) (name : string)
    (acc : option A) (kv : string * json) : option A :=
  match acc with
  | None => None
  | Some a =>
      if key_match name (fst kv) then
        match snd kv with JNull => Some (on_null a) | v => dec v end
      else acc
  end.

Definition field {A} (dec : json -> option A) (on_null : A -> A) (zero : A) (name : string)
    (ms : list (string * json)) : option A :=
  foldl (field_step dec on_null name) (Some zero) ms.

Definition keep {A} (a : A) : A := a.

Definition dec_string (v : json) : option string := match v with JStr s => Some s | _ => None end.
Definition dec_bool (v : json) : option bool := match v with JBool b => Some b | _ => None end.
Definition dec_int64 (v : json) : option Z :=
  match v with
  | JNum lit => atoi lit
  | _ => None
  end.
Definition dec_list {A} (dec : json -> option A) (v : json) : option (list A) :=
  match v with JArr l => mapM dec l | _ => None end.

Definition str_field := field dec_string keep EmptyString.
Definition bool_field := field dec_bool keep false.
Definition int_field := field dec_int64 keep 0.
Definition list_field {A} (dec : json -> option A) := field (dec_list dec) (fun _ => []) [].

(** [omitempty]. *)
Definition omit_str (name s : string) : list (string * json) :=
  if String.eqb s "" then [] else [(name, JStr s)].
Definition omit_bool (name : string) (b : bool) : list (string * json) :=
  if b then [(name, JBool true)] else [].
Definition omit_list {A} (name : string) (enc : A -> json) (l : list A) : list (string * json) :=
  match l with [] => [] | _ => [(name, JArr (enc <$> l))] end.
Definition jint (z : Z) : json := JNum (itoa z).

(** *** Fields read back what the encoder wrote *)

Section fields.
Context {A : Type} (dec : json -> option A) (on_null : A -> A) (name : string).

Lemma fold_other acc k v :
  key_match name k = false -> foldl (field_step dec on_null name) acc [(k, v)] = acc.
Proof. intros H. unfold field_step. simpl. rewrite H. by destruct acc. Qed.

Lemma fold_omit_str_other acc k s :
  key_match name k = false -> foldl (field_step dec on_null name) acc (omit_str k s) = acc.
Proof. unfold omit_str. destruct (String.eqb s ""); [done|]. apply fold_other. Qed.

Lemma fold_omit_bool_other acc k b :
  key_match name k = false -> foldl (field_step dec on_null name) acc (omit_bool k b) = acc.
Proof. unfold omit_bool. destruct b; [|done]. apply fold_other. Qed.

Lemma fold_omit_list_other {B} acc k (enc : B -> json) l :
  key_match name k = false -> foldl (field_step dec on_null name) acc (omit_list k enc l) = acc.
Proof. unfold omit_list. destruct l; [done|]. apply fold_other. Qed.
End fields.

Lemma key_match_refl name : key_match name name = true.
Proof. apply String.eqb_refl. Qed.

Lemma fold_same {A} (dec : json -> option A) on_null name z v :
  v <> JNull -> foldl (field_step dec on_null name) (Some z) [(name, v)] = dec v.
Proof. intros H. simpl. rewrite key_match_refl. by destruct v. Qed.

Lemma fold_omit_str name s :
  foldl (field_step dec_string keep name) (Some EmptyString) (omit_str name s) = Some s.
Proof.
  unfold omit_str. destruct (String.eqb_spec s "") as [->|]; [done|]. by rewrite fold_same.
Qed.

Lemma fold_omit_bool name b :
  foldl (field_step dec_bool keep name) (Some false) (omit_bool name b) = Some b.
Proof. destruct b; [|done]. unfold omit_bool. by rewrite fold_same. Qed.

Lemma mapM_encode {A} (enc : A -> json) (dec : json -> option A) l :
  Forall (fun a => dec (enc a) = Some a) l -> mapM dec (enc <$> l) = Some l.
Proof.
  intros H. apply mapM_Some, Forall2_fmap_l, Forall_Forall2_diag, H.
Qed.

Lemma fold_omit_list {A} name (enc : A -> json) (dec : json -> option A) l :
  Forall (fun a => dec (enc a) = Some a) l ->
  foldl (field_step (dec_list dec) (fun _ => []) name) (Some []) (omit_list name enc l) = Some l.
Proof.
  intros H. unfold omit_list. destruct l as [|a l]; [done|].
  rewrite fold_same by done. by apply mapM_encode.
Qed.

Lemma dec_jint z : int64_min <= z <= int64_max -> dec_int64 (jint z) = Some z.
Proof. apply atoi_itoa. Qed.

Lemma jint_ok z : int64_min <= z <= int64_max -> json_ok (jint z) = true.
Proof. intros H. simpl. unfold int_lit. rewrite atoi_itoa by done. apply String.eqb_refl. Qed.

Lemma bind_intro {A B} (o : option A) (k : A -> option B) a r : o = Some a -> k a = r -> o ≫= k = r.
Proof. intros ->. done. Qed.

(** Walk over the members of an encoded struct, one chunk at a time. *)
Ltac read_fields :=
  unfold str_field, bool_field, int_field, list_field, field;
  rewrite ?foldl_app;
  repeat match goal with
  | |- context [foldl (field_step ?d ?o ?n) ?acc (omit_str ?k ?s)] =>
      rewrite (fold_omit_str_other d o n acc k s) by reflexivity
  | |- context [foldl (field_step ?d ?o ?n) ?acc (omit_bool ?k ?b)] =>
      rewrite (fold_omit_bool_other d o n acc k b) by reflexivity
  | |- context [foldl (field_step ?d ?o ?n) ?acc (omit_list ?k ?e ?l)] =>
      rewrite (fold_omit_list_other d o n acc k e l) by reflexivity
  | |- context [foldl (field_step ?d ?o ?n) ?acc [(?k, ?v)]] =>
      rewrite (fold_other d o n acc k v) by reflexivity
  end;
  repeat first [ rewrite fold_omit_str | rewrite fold_omit_bool | rewrite fold_same by done ].

(** Read the fields of an encoded struct one after the other; [tac] closes the
    ones that are not strings or booleans. *)
Ltac read_struct tac :=
  repeat (eapply bind_intro; [read_fields; first [reflexivity | tac]|cbn beta]).

Lemma omit_str_ok name s : ascii_str name = true -> ascii_str s = true ->
  forallb (fun kv => ascii_str (fst kv) && json_ok (snd kv)) (omit_str name s) = true.
Proof. intros Hn Hs. unfold omit_str. destruct (String.eqb s ""); [done|]. simpl. by rewrite Hn, Hs. Qed.

Lemma omit_bool_ok name b : ascii_str name = true ->
  forallb (fun kv => ascii_str (fst kv) && json_ok (snd kv)) (omit_bool name b) = true.
Proof. intros Hn. unfold omit_bool. destruct b; [|done]. simpl. by rewrite Hn. Qed.

Lemma omit_list_ok {A} name (enc : A -> json) l : ascii_str name = true ->
  Forall (fun a => json_ok (enc a) = true) l ->
  forallb (fun kv => ascii_str (fst kv) && json_ok (snd kv)) (omit_list name enc l) = true.
Proof.
  intros Hn Hl. unfold omit_list. destruct l as [|a l]; [done|]. cbn [forallb fst snd].
  rewrite Hn. cbn [json_ok]. rewrite andb_true_r. cbn [andb]. apply forallb_forall. intros x Hx.
  apply list_elem_of_In, list_elem_of_fmap in Hx as (b & -> & Hb).
  by apply (proj1 (Forall_forall _ _) Hl).
Qed.

(** ** Structs of strings, booleans, integers and string lists *)

Definition int64 (z : Z) : bool := (int64_min <=? z) && (z <=? int64_max).

(** Decode an encoded struct; the integer bounds are in the context. *)
Ltac read_message :=
  read_struct ltac:(first [ apply dec_jint; lia | apply fold_omit_list, Forall_true; intros; reflexivity ]).

(** The tree of an encoded struct can be printed. *)
Ltac message_ok :=
  cbn [json_ok]; rewrite ?forallb_app; cbn [forallb fst snd json_ok];
  rewrite ?omit_str_ok, ?omit_bool_ok by done; rewrite ?omit_list_ok by
    (done || (apply Forall_forall; intros ? ?; cbn [json_ok];
              match goal with E : forallb ascii_str _ = true |- _ =>
                apply (proj1 (forallb_forall _ _) E), list_elem_of_In; assumption end));
  repeat match goal with E : ascii_str _ = true |- _ => rewrite E; clear E end;
  rewrite ?jint_ok by lia; reflexivity.

