(* ===== verification/GoText.v ===== *)
(** * More of package strings, and the [%q] verb

    Prefixes, suffixes and blanks at the ends of a text. *)

From S2P Require Import Prelude GoStrings.
Local Open Scope wgmesh_scope.

Definition newline_char : ascii := ascii_of_byte 10.
Definition return_char : ascii := ascii_of_byte 13.
Definition double_quote : ascii := ascii_of_byte 34.
Definition single_quote : ascii := ascii_of_byte 39.

(** [%v] of a bool, and of a list of texts. *)
Definition bool_text (b : bool) : string := if b then "true" else "false".
Definition list_text (l : list string) : string := "[" ^^ join " " l ^^ "]".

Definition trim_prefix (p s : string) : string := if has_prefix s p then str_drop (String.length p) s else s.
Definition has_suffix (s x : string) : bool :=
  Nat.leb (String.length x) (String.length s) && String.eqb (str_drop (String.length s - String.length x) s) x.
Definition cut_suffix (s x : string) : string :=
  if has_suffix s x then str_take (String.length s - String.length x) s else s.

(** [strings.ContainsAny]. *)
Definition contains_any (s chars : string) : bool := negb (string_forall (fun c => negb (contains_char c chars)) s).

(** The byte at the end of a string. *)
Fixpoint last_char (s : string) : option ascii :=
  match s with
  | EmptyString => None
  | String c EmptyString => Some c
  | String _ s' => last_char s'
  end.

(** The [%q] verb on ASCII text; other bytes are copied. *)
Definition quote_byte (c : ascii) : string :=
  let n := byte_of_ascii c in
  let esc l := String (ascii_of_byte 92) (String l EmptyString) in
  (if (n =? 34) || (n =? 92) then esc c
   else if n =? 7 then esc "a"%char else if n =? 8 then esc "b"%char else if n =? 12 then esc "f"%char
   else if n =? 10 then esc "n"%char else if n =? 13 then esc "r"%char else if n =? 9 then esc "t"%char
   else if n =? 11 then esc "v"%char
   else if (n <? 32) || (n =? 127) then String (ascii_of_byte 92) (String "x" (hex_pad 2 n))
   else String c EmptyString)%Z.
Fixpoint quote_bytes (s : string) : string :=
  match s with EmptyString => EmptyString | String c s' => quote_byte c ^^ quote_bytes s' end.
Definition go_quote (s : string) : string :=
  String double_quote (quote_bytes s ^^ String double_quote EmptyString).

(** [strings.ReplaceAll] of a byte. *)
Fixpoint replace_char (c : ascii) (by_ : string) (s : string) : string :=
  match s with
  | EmptyString => EmptyString
  | String d s' => (if Ascii.eqb d c then by_ else String d EmptyString) ^^ replace_char c by_ s'
  end.

(** ** Blanks *)

Lemma trim_left_app s t :
  trim_left (s ^^ t) = if String.eqb (trim_left s) EmptyString then trim_left t else trim_left s ^^ t.
Proof.
  induction s as [|c s IH]; [done|]. rewrite app_cons_str. cbn [trim_left].
  destruct (is_space c); [done|]. by rewrite app_cons_str.
Qed.

Lemma trim_right_app_ne s t : trim_right t <> EmptyString -> trim_right (s ^^ t) = s ^^ trim_right t.
Proof.
  intros H. induction s as [|c s IH]; [done|]. rewrite !app_cons_str. cbn [trim_right]. rewrite IH.
  destruct (s ^^ trim_right t) eqn:E; [|done]. destruct s; [|discriminate E]. by rewrite app_nil_l_str in E.
Qed.

Lemma trim_comm s : trim_left (trim_right s) = trim_right (trim_left s).
Proof.
  induction s as [|c s IH]; [done|]. cbn [trim_right trim_left]. destruct (is_space c) eqn:Ec.
  - rewrite <- IH. destruct (trim_right s) as [|d t]; [done|]. cbn [trim_left]. by rewrite Ec.
  - cbn [trim_right]. rewrite Ec. destruct (trim_right s); cbn [trim_left]; by rewrite Ec.
Qed.

Lemma trim_blank t : trim_left t = EmptyString -> trim_right t = EmptyString.
Proof.
  induction t as [|c t IH]; [done|]. cbn [trim_left trim_right]. destruct (is_space c) eqn:E; [|done].
  intros H. by rewrite IH.
Qed.

Lemma trim_space_blank_r s t : trim_left t = EmptyString -> trim_space (s ^^ t) = trim_space s.
Proof.
  intros H. unfold trim_space. rewrite trim_left_app. destruct (String.eqb_spec (trim_left s) EmptyString) as [E|_].
  - by rewrite E, H.
  - by apply trim_right_app, trim_blank.
Qed.

Lemma trim_space_right s : trim_space (trim_right s) = trim_space s.
Proof. unfold trim_space. by rewrite trim_comm, trim_right_idem. Qed.

Lemma trim_space_idem s : trim_space (trim_space s) = trim_space s.
Proof. unfold trim_space. by rewrite trim_comm, trim_right_idem, trim_left_idem. Qed.

(** Text that begins and ends with something else than a blank. *)
Definition trimmed (s : string) : Prop := s <> EmptyString /\ trim_left s = s /\ trim_right s = s.

Lemma trimmed_space s : trimmed s -> trim_space s = s.
Proof. intros (_ & H1 & H2). unfold trim_space. by rewrite H1. Qed.

Lemma trimmed_app s t u : trimmed s -> trimmed u -> trimmed (s ^^ t ^^ u).
Proof.
  intros (Hs & Hl & _) (Hu & _ & Hr). split; [destruct s; [done|discriminate]|]. split.
  - rewrite trim_left_app, Hl. by destruct (String.eqb_spec s EmptyString).
  - rewrite app_assoc_str, trim_right_app_ne by by rewrite Hr. by rewrite Hr.
Qed.

Lemma trimmed_join sep ws : ws <> [] -> Forall trimmed ws -> trimmed (join sep ws).
Proof.
  intros Hne H. induction H as [|w ws Hw Hws IH]; [done|]. destruct ws as [|w' ws]; [exact Hw|].
  change (trimmed (w ^^ sep ^^ join sep (w' :: ws))). apply trimmed_app; [exact Hw|]. by apply IH.
Qed.

Lemma last_char_app s c : last_char (s ^^ String c EmptyString) = Some c.
Proof.
  induction s as [|d s IH]; [done|]. rewrite app_cons_str. cbn [last_char]. rewrite IH. by destruct s.
Qed.
Lemma take_last s c : str_take (String.length (s ^^ String c EmptyString) - 1) (s ^^ String c EmptyString) = s.
Proof.
  rewrite length_app_str. cbn [String.length]. replace (String.length s + 1 - 1)%nat with (String.length s) by lia.
  apply str_take_app.
Qed.
Lemma last_char_split s c : last_char s = Some c -> exists t, s = t ^^ String c EmptyString.
Proof.
  induction s as [|d s IH]; [done|]. cbn [last_char]. destruct s as [|e s].
  - intros [= ->]. by exists EmptyString.
  - intros H. destruct (IH H) as [t ->]. exists (String d t). done.
Qed.

Lemma cut_suffix_last s c : cut_suffix (s ^^ String c EmptyString) (String c EmptyString) = s
  /\ has_suffix (s ^^ String c EmptyString) (String c EmptyString) = true.
Proof.
  assert (has_suffix (s ^^ String c EmptyString) (String c EmptyString) = true) as H.
  { unfold has_suffix. rewrite length_app_str. cbn [String.length].
    replace (String.length s + 1 - 1)%nat with (String.length s) by lia.
    rewrite str_drop_app, String.eqb_refl. rewrite andb_true_r. apply Nat.leb_le. lia. }
  split; [|exact H]. unfold cut_suffix. rewrite H. apply take_last.
Qed.

(** * Package path/filepath

    Lexical operations on slash-separated paths. *)

(** [filepath.Clean]: [out] holds the elements kept, the last one first. *)
Fixpoint clean_elems (rooted : bool) (out elems : list string) : list string :=
  match elems with
  | [] => out
  | e :: rest =>
      clean_elems rooted
        (if String.eqb e "" || String.eqb e "." then out
         else if String.eqb e ".." then
           match out with
           | top :: out' => if String.eqb top ".." then e :: out else out'
           | [] => if rooted then [] else [e]
           end
         else e :: out) rest
  end.
Definition path_clean (path : string) : string :=
  let rooted := has_prefix path "/" in
  let text := join "/" (rev (clean_elems rooted [] (split_char "/" path))) in
  if rooted then "/" ^^ text else if String.eqb text "" then "." else text.

(** [filepath.Join]: empty elements are left out. *)
Definition filepath_join (elems : list string) : string :=
  match base.filter (fun e => e <> EmptyString) elems with
  | [] => EmptyString
  | es => path_clean (join "/" es)
  end.

Definition last_element (p : string) : string := default EmptyString (last (split_char "/" p)).
(** [filepath.Base] of a path that does not end with a slash, and [filepath.Ext]. *)
Definition filepath_base (p : string) : string := if String.eqb p EmptyString then "." else last_element p.
Definition filepath_ext (p : string) : string :=
  match cut_last "." (last_element p) with Some (_, e) => "." ^^ e | None => EmptyString end.
