(* ===== verification/GoMaps.v ===== *)
(** * Go maps in JSON

    [map[string]T] written with its keys in order, as [encoding/json] does, and
    read back. *)

From S2P Require Import Prelude GoStrings GoJson.
Local Open Scope wgmesh_scope.

(** The members of a map are printed in the order of the keys. *)
Definition sorted_members {A} (m : gmap string A) : list (string * A) :=
  omap (fun k => (fun a => (k, a)) <$> m !! k) (sort_strings (fst <$> map_to_list m)).
Definition map_json {A} (enc : A -> json) (m : gmap string A) : json :=
  JObj ((fun ka => (ka.1, enc ka.2)) <$> sorted_members m).
Definition omit_map {A} (name : string) (enc : A -> json) (m : gmap string A) : list (string * json) :=
  if bool_decide (m = ∅) then [] else [(name, map_json enc m)].

Fixpoint dec_members {A} (dec : json -> option A) (l : list (string * json)) (acc : gmap string A)
  : option (gmap string A) :=
  match l with
  | [] => Some acc
  | (k, v) :: rest => a ← dec v; dec_members dec rest (<[k := a]> acc)
  end.
Definition dec_map {A} (dec : json -> option A) (v : json) : option (gmap string A) :=
  match v with JObj l => dec_members dec l ∅ | _ => None end.

(** ** Reading back *)

Lemma sorted_members_perm {A} (m : gmap string A) : sorted_members m ≡ₚ map_to_list m.
Proof.
  unfold sorted_members. rewrite sort_strings_perm.
  assert (forall l : list (string * A), (forall ka, ka ∈ l -> m !! ka.1 = Some ka.2) ->
    omap (fun k => (fun a => (k, a)) <$> m !! k) (fst <$> l) = l) as Hl.
  { induction l as [|[k a] l IH]; intros Hall; [done|]. cbn [fmap list_fmap omap list_omap fst].
    assert (m !! k = Some a) as -> by (apply (Hall (k, a)); by left). cbn [fmap option_fmap option_map].
    change (list_fmap _ _ fst l) with (fst <$> l). rewrite IH; [done|]. intros ka Hin. apply Hall. by right. }
  rewrite Hl; [done|]. intros [k a] Hin. by apply elem_of_map_to_list in Hin.
Qed.

Lemma sorted_members_elem {A} (m : gmap string A) k a : (k, a) ∈ sorted_members m <-> m !! k = Some a.
Proof. by rewrite sorted_members_perm, elem_of_map_to_list. Qed.

Lemma dec_members_spec {A} (enc : A -> json) (dec : json -> option A) l acc :
  Forall (fun ka => dec (enc ka.2) = Some ka.2) l ->
  dec_members dec ((fun ka => (ka.1, enc ka.2)) <$> l) acc
  = Some (foldl (fun (m : gmap string A) ka => <[ka.1 := ka.2]> m) acc l).
Proof.
  intros Hl. revert acc. induction Hl as [|[k a] l Ha _ IH]; intros acc; [done|].
  cbn [fmap list_fmap dec_members fst snd foldl] in *. rewrite Ha. cbn [mbind option_bind]. apply IH.
Qed.

Lemma fold_sorted_members {A} (m : gmap string A) :
  foldl (fun (acc : gmap string A) ka => <[ka.1 := ka.2]> acc) ∅ (sorted_members m) = m.
Proof.
  assert (forall l : list (string * A), foldl (fun (m : gmap string A) ka => <[ka.1 := ka.2]> m) ∅ l = list_to_map (rev l)) as ->.
  { intros l. induction l as [|[k a] l IH] using rev_ind; [done|]. by rewrite foldl_app, rev_app_distr, IH. }
  rewrite <- (list_to_map_to_list m) at 2. apply list_to_map_proper.
  - rewrite <- Permutation_rev, sorted_members_perm. apply NoDup_fst_map_to_list.
  - by rewrite <- Permutation_rev, sorted_members_perm.
Qed.

Lemma dec_map_json {A} (enc : A -> json) (dec : json -> option A) (m : gmap string A) :
  (forall k a, m !! k = Some a -> dec (enc a) = Some a) -> dec_map dec (map_json enc m) = Some m.
Proof.
  intros Hm. cbn [dec_map map_json]. rewrite dec_members_spec.
  - by rewrite fold_sorted_members.
  - apply Forall_forall. intros [k a] Hin%sorted_members_elem. by apply (Hm k).
Qed.

Lemma map_json_ok {A} (enc : A -> json) (m : gmap string A) :
  (forall k a, m !! k = Some a -> ascii_str k = true /\ json_ok (enc a) = true) -> json_ok (map_json enc m) = true.
Proof.
  intros Hm. cbn [map_json json_ok]. apply forallb_forall. intros [k v] Hin.
  apply list_elem_of_In, list_elem_of_fmap in Hin as ([k' a] & [= -> ->] & Hin). apply sorted_members_elem in Hin.
  cbn [fst snd]. by destruct (Hm k' a Hin) as [-> ->].
Qed.
