(* ===== verification/GoTimeJson.v ===== *)
(** * Times in JSON

    A [time.Time] as [encoding/json] writes and reads it, and that the texts of
    times are ASCII.  A time is an instant here; the offset it is printed with is
    an argument. *)

From S2P Require Import Prelude GoStrings GoTime GoJson.
Local Open Scope wgmesh_scope.

Definition time_json_at (zone : Z) (t : Time) : json := JStr (format_rfc3339_nano zone t).
Definition time_json (t : Time) : json := time_json_at 0 t.
Definition dec_time (v : json) : option Time := match v with JStr s => parse_rfc3339 s | _ => None end.

Lemma time_reads_at zone t : zone_ok zone -> year_ok zone t -> dec_time (time_json_at zone t) = Some t.
Proof. intros Hz Hy. cbn [dec_time time_json_at]. by apply parse_format_nano. Qed.
Lemma time_reads t : year_ok 0 t -> dec_time (time_json t) = Some t.
Proof. by apply time_reads_at. Qed.

(** ** Times are ASCII *)

Lemma digits_ascii s : string_forall is_digit s = true -> ascii_str s = true.
Proof.
  unfold ascii_str. induction s as [|c s IH]; [done|]. cbn [string_forall]. intros H. bool_steps. rewrite IH by done.
  rewrite andb_true_r. unfold is_digit, byte_in in *. bool_steps. apply andb_true_iff. rewrite !Z.leb_le. lia.
Qed.
Lemma itoa_ascii z : ascii_str (itoa z) = true.
Proof. destruct (itoa_canon z) as [[H _]|(d & -> & [H _])]; by apply digits_ascii in H. Qed.
Lemma ascii_app a b : ascii_str a = true -> ascii_str b = true -> ascii_str (a ^^ b) = true.
Proof. unfold ascii_str. intros Ha Hb. by rewrite string_forall_app, Ha. Qed.
Lemma pad_app_ascii n z s : ascii_str s = true -> ascii_str (pad n z ^^ s) = true.
Proof. apply ascii_app, digits_ascii, pad_digits. Qed.

Lemma zone_ascii zone : ascii_str (format_zone zone) = true.
Proof.
  unfold format_zone. destruct (zone =? 0)%Z; [done|]. apply ascii_app; [by destruct (zone <? 0)%Z|].
  apply pad_app_ascii, (ascii_app ":"); [done|]. apply digits_ascii, pad_digits.
Qed.

Lemma datetime_ascii zone t tail : ascii_str tail = true -> ascii_str (format_datetime zone t tail) = true.
Proof.
  intros Ht. unfold format_datetime. cbv zeta.
  assert (forall c n z s, byte_in 0 127 c = true -> ascii_str s = true -> ascii_str (String c (pad n z ^^ s)) = true) as Hc.
  { intros c n z s Hb Hs. pose proof (pad_app_ascii n z s Hs) as H. unfold ascii_str in *. cbn [string_forall]. by rewrite Hb. }
  generalize (civil_of_days ((time_to_unix t + zone) / 86400)). generalize ((time_to_unix t + zone) mod 86400)%Z. intros s d.
  apply pad_app_ascii. do 4 (apply Hc; [reflexivity|]). by apply Hc.
Qed.

Lemma format_rfc3339_ascii zone t : ascii_str (format_rfc3339 zone t) = true.
Proof. unfold format_rfc3339. apply datetime_ascii. apply zone_ascii. Qed.

Lemma time_json_ok zone t : json_ok (time_json_at zone t) = true.
Proof.
  cbn [json_ok time_json_at]. unfold format_rfc3339_nano. apply datetime_ascii. apply ascii_app; [|apply zone_ascii]. unfold format_frac.
  pose proof (trim_zeros_digits _ (proj1 (pad_digits 9 (t mod second)))) as H. destruct (trim_zeros _) as [|c r]; [done|].
  apply (ascii_app "."); [done|]. by apply digits_ascii.
Qed.
