(* ===== verification/PeerStore.v ===== *)
(** * The peer store (pkg/node/store.go, pkg/node/types.go)

    The store maps a WireGuard public key to what is known of the peer, and
    publishes an event to its subscribers on every change.  [Update] is the one
    operation through which discovery (DHT, gossip, LAN, cache) writes; it
    merges field by field, with a priority between discovery methods for the
    endpoint.  The clock is an argument of the operations that read it. *)

From S2P Require Import Prelude GoStrings GoNet.
Local Open Scope Z_scope.

(** ** Data *)

Record PeerInfo := {
  WGPubKey : string;
  Hostname : string;
  MeshIP : string;
  MeshIPv6 : string;
  Endpoint : string;
  Introducer : bool;
  RoutableNetworks : list string;
  LastSeen : Time;
  DiscoveredVia : list string;
  Latency : option Duration;
  NATType : string;
  EndpointMethod : string;
}.

#[export] Instance PeerInfo_eq_dec : EqDecision PeerInfo.
Proof. solve_decision. Defined.

Inductive PeerEventKind := PeerEventNew | PeerEventUpdated.
#[export] Instance PeerEventKind_eq_dec : EqDecision PeerEventKind.
Proof. solve_decision. Defined.

Record PeerEvent := { ev_PubKey : string; ev_Kind : PeerEventKind }.
#[export] Instance PeerEvent_eq_dec : EqDecision PeerEvent.
Proof. solve_decision. Defined.

Definition PeerDeadTimeout : Duration := 5 * minute.
Definition PeerRemoveTimeout : Duration := 10 * minute.
Definition PeerEventBufSize : nat := 16.
Definition DefaultMaxPeers : nat := 1000.
#[global] Arguments DefaultMaxPeers : simpl never.
#[global] Arguments PeerEventBufSize : simpl never.
Definition LANMethod : string := "lan".
Definition RendezvousMethod : string := "dht-rendezvous".

(** A Go channel: its buffer and whether it was closed.  Channels are shared
    between the store and the subscriber, so the store holds references. *)
Record chan := { ch_buf : list PeerEvent; ch_closed : bool }.

Record PeerStore := {
  peers : gmap string PeerInfo;
  chans : gmap nat chan;          (* the channels ever created *)
  subscribers : list nat;         (* references, in subscription order *)
}.

Definition NewPeerStore : PeerStore :=
  {| peers := ∅; chans := ∅; subscribers := [] |}.

Definition set_peers (ps : PeerStore) (m : gmap string PeerInfo) : PeerStore :=
  {| peers := m; chans := chans ps; subscribers := subscribers ps |}.

(** ** Subscriptions *)

(** A reference no channel uses yet ([make(chan PeerEvent, 16)]). *)
Definition fresh_chan (ps : PeerStore) : nat := fresh (dom (chans ps)).

Definition Subscribe (ps : PeerStore) : PeerStore * nat :=
  let c := fresh_chan ps in
  ({| peers := peers ps;
      chans := <[c := {| ch_buf := []; ch_closed := false |}]> (chans ps);
      subscribers := subscribers ps ++ [c] |}, c).

(** The loop of [Unsubscribe]: drop the first occurrence. *)
Fixpoint drop_first (c : nat) (l : list nat) : option (list nat) :=
  match l with
  | [] => None
  | x :: l' => if Nat.eqb x c then Some l' else cons x <$> drop_first c l'
  end.

Definition close_chan (ch : chan) : chan := {| ch_buf := ch_buf ch; ch_closed := true |}.

Definition Unsubscribe (ps : PeerStore) (c : nat) : PeerStore :=
  match drop_first c (subscribers ps) with
  | Some subs =>
      {| peers := peers ps; chans := alter close_chan c (chans ps); subscribers := subs |}
  | None => ps
  end.

(** [select { case ch <- ev: default: }]: append when there is room, drop the
    event otherwise; a send on a closed channel panics ([None]). *)
Definition send_event (chs : gmap nat chan) (ev : PeerEvent) (c : nat) : option (gmap nat chan) :=
  match chs !! c with
  | Some ch =>
      if ch_closed ch then None
      else if Nat.ltb (length (ch_buf ch)) PeerEventBufSize
      then Some (<[c := {| ch_buf := ch_buf ch ++ [ev]; ch_closed := false |}]> chs)
      else Some chs
  | None => Some chs
  end.

Fixpoint send_all (chs : gmap nat chan) (ev : PeerEvent) (subs : list nat) : option (gmap nat chan) :=
  match subs with
  | [] => Some chs
  | c :: subs' =>
      match send_event chs ev c with
      | Some chs' => send_all chs' ev subs'
      | None => None
      end
  end.

(** [notify] run without interleaving: snapshot of the subscribers, then the
    sends. *)
Definition notify (ps : PeerStore) (ev : PeerEvent) : option PeerStore :=
  match send_all (chans ps) ev (subscribers ps) with
  | Some chs => Some {| peers := peers ps; chans := chs; subscribers := subscribers ps |}
  | None => None
  end.

(** ** Endpoint priority *)

Definition isTransitiveMethod (discoveryMethod : string) : bool :=
  contains discoveryMethod "transitive".

Definition shouldRefreshLastSeen (discoveryMethod : string) : bool :=
  if String.eqb discoveryMethod "cache" then false
  else if isTransitiveMethod discoveryMethod then false
  else true.

Definition endpointMethodRank (method : string) : Z :=
  if String.eqb method "" then 0
  else if String.eqb method LANMethod then 100
  else if contains method RendezvousMethod then 90
  else if String.eqb method "dht" then 70
  else if contains method "dht-transitive" then 40
  else if has_prefix method "gossip" then
    (if contains method "transitive" then 35 else 65)
  else if String.eqb method "cache" then 20
  else 30.

Definition isIPv6EndpointValue (endpoint : string) : bool :=
  match split_host_port endpoint with
  | None => false
  | Some (host, _) =>
      match parse_ip host with
      | None => false
      | Some ip => match to4 ip with None => true | Some _ => false end
      end
  end.

Definition shouldUpdateEndpoint (existing : PeerInfo) (newEndpoint discoveryMethod : string) : bool :=
  if String.eqb (Endpoint existing) "" then true
  else
    let newRank := endpointMethodRank discoveryMethod in
    let oldRank := endpointMethodRank (EndpointMethod existing) in
    if newRank >? oldRank then true
    else if newRank <? oldRank then false
    else
      let newIsV6 := isIPv6EndpointValue newEndpoint in
      let oldIsV6 := isIPv6EndpointValue (Endpoint existing) in
      if newIsV6 && negb oldIsV6 then true
      else if oldIsV6 && negb newIsV6 then false
      else if oldRank =? endpointMethodRank LANMethod
      then String.eqb discoveryMethod LANMethod
      else true.

(** ** Update *)

(** The value stored for a peer that was not known. *)
Definition new_peer (info : PeerInfo) (discoveryMethod : string) (now : Time) : PeerInfo :=
  {| WGPubKey := WGPubKey info;
     Hostname := Hostname info;
     MeshIP := MeshIP info;
     MeshIPv6 := MeshIPv6 info;
     Endpoint := Endpoint info;
     Introducer := Introducer info;
     RoutableNetworks := RoutableNetworks info;
     LastSeen := if time_is_zero (LastSeen info) then now else LastSeen info;
     DiscoveredVia := [discoveryMethod];
     Latency := Latency info;
     NATType := NATType info;
     EndpointMethod :=
       if String.eqb (Endpoint info) "" then EndpointMethod info else discoveryMethod |}.

Definition str_or (new old : string) : string := if String.eqb new "" then old else new.

(** The merge into the entry of a peer that is known. *)
Definition merge_peer (existing info : PeerInfo) (discoveryMethod : string) (now : Time) : PeerInfo :=
  let take_ep := negb (String.eqb (Endpoint info) "")
                 && shouldUpdateEndpoint existing (Endpoint info) discoveryMethod in
  {| WGPubKey := WGPubKey existing;
     Hostname := str_or (Hostname info) (Hostname existing);
     MeshIP := str_or (MeshIP info) (MeshIP existing);
     MeshIPv6 := str_or (MeshIPv6 info) (MeshIPv6 existing);
     Endpoint := if take_ep then Endpoint info else Endpoint existing;
     Introducer := Introducer info;
     RoutableNetworks :=
       match RoutableNetworks info with
       | [] => RoutableNetworks existing
       | ns => ns
       end;
     LastSeen :=
       if shouldRefreshLastSeen discoveryMethod then now
       else if negb (time_is_zero (LastSeen info)) && time_after (LastSeen info) (LastSeen existing)
       then LastSeen info
       else LastSeen existing;
     DiscoveredVia :=
       if bool_decide (discoveryMethod ∈ DiscoveredVia existing)
       then DiscoveredVia existing
       else DiscoveredVia existing ++ [discoveryMethod];
     Latency := Latency existing;
     NATType := str_or (NATType info) (NATType existing);
     EndpointMethod := if take_ep then discoveryMethod else EndpointMethod existing |}.

(** The critical section of [Update]: the new map and the event to publish.
    The empty key publishes nothing. *)
Definition update_locked (m : gmap string PeerInfo) (info : PeerInfo)
    (discoveryMethod : string) (now : Time) : gmap string PeerInfo * option PeerEvent :=
  let key := WGPubKey info in
  let ev kind := if String.eqb key "" then None
                 else Some {| ev_PubKey := key; ev_Kind := kind |} in
  match m !! key with
  | None =>
      if Nat.leb DefaultMaxPeers (size m) then (m, None)
      else (<[key := new_peer info discoveryMethod now]> m, ev PeerEventNew)
  | Some existing =>
      (<[key := merge_peer existing info discoveryMethod now]> m, ev PeerEventUpdated)
  end.

Definition Update (ps : PeerStore) (info : PeerInfo) (discoveryMethod : string) (now : Time)
  : option PeerStore :=
  let '(m, ev) := update_locked (peers ps) info discoveryMethod now in
  match ev with
  | Some e => notify (set_peers ps m) e
  | None => Some (set_peers ps m)
  end.

(** ** Reading and removing *)

Definition Get (ps : PeerStore) (pubKey : string) : option PeerInfo := peers ps !! pubKey.

(** Go iterates a map in an unspecified order; [GetAll] and [GetActive] return
    some permutation of these lists. *)
Definition GetAll (ps : PeerStore) : list PeerInfo := snd <$> map_to_list (peers ps).

Definition List (ps : PeerStore) : list PeerInfo := GetAll ps.

Definition is_active (now : Time) (p : PeerInfo) : Prop :=
  time_sub now (LastSeen p) < PeerDeadTimeout.
#[export] Instance is_active_dec now p : Decision (is_active now p).
Proof. unfold is_active. apply _. Defined.

Definition GetActive (ps : PeerStore) (now : Time) : list PeerInfo :=
  filter (is_active now) (GetAll ps).

Definition Remove (ps : PeerStore) (pubKey : string) : PeerStore :=
  set_peers ps (delete pubKey (peers ps)).

Definition is_stale (now : Time) (p : PeerInfo) : Prop :=
  PeerRemoveTimeout < time_sub now (LastSeen p).
#[export] Instance is_stale_dec now p : Decision (is_stale now p).
Proof. unfold is_stale. apply _. Defined.

(** The loop of [CleanupStale] over an iteration order of the map: deleting
    the entry under the cursor is allowed in Go. *)
Fixpoint cleanup_loop (now : Time) (order : list (string * PeerInfo))
    (m : gmap string PeerInfo) (removed : list string) : gmap string PeerInfo * list string :=
  match order with
  | [] => (m, removed)
  | (k, p) :: order' =>
      if bool_decide (is_stale now p)
      then cleanup_loop now order' (delete k m) (removed ++ [k])
      else cleanup_loop now order' m removed
  end.

Definition CleanupStale (ps : PeerStore) (now : Time) : PeerStore * list string :=
  let '(m, removed) := cleanup_loop now (map_to_list (peers ps)) (peers ps) [] in
  (set_peers ps m, removed).

Definition Count (ps : PeerStore) : nat := size (peers ps).

Definition with_latency (rtt : Duration) (p : PeerInfo) : PeerInfo :=
  {| WGPubKey := WGPubKey p; Hostname := Hostname p; MeshIP := MeshIP p; MeshIPv6 := MeshIPv6 p;
     Endpoint := Endpoint p; Introducer := Introducer p; RoutableNetworks := RoutableNetworks p;
     LastSeen := LastSeen p; DiscoveredVia := DiscoveredVia p; Latency := Some rtt;
     NATType := NATType p; EndpointMethod := EndpointMethod p |}.

Definition SetLatency (ps : PeerStore) (pubKey : string) (rtt : Duration) : PeerStore :=
  match peers ps !! pubKey with
  | None => ps
  | Some p => set_peers ps (<[pubKey := with_latency rtt p]> (peers ps))
  end.

Definition IsDead (ps : PeerStore) (pubKey : string) (now : Time) : bool :=
  match peers ps !! pubKey with
  | None => true
  | Some p => PeerDeadTimeout <? time_sub now (LastSeen p)
  end.

Definition shortKey (key : string) : string :=
  if Nat.ltb 16 (String.length key) then str_take 16 key else key.

Definition with_endpoint_method (method : string) (p : PeerInfo) : PeerInfo :=
  {| WGPubKey := WGPubKey p; Hostname := Hostname p; MeshIP := MeshIP p; MeshIPv6 := MeshIPv6 p;
     Endpoint := Endpoint p; Introducer := Introducer p; RoutableNetworks := RoutableNetworks p;
     LastSeen := LastSeen p; DiscoveredVia := DiscoveredVia p; Latency := Latency p;
     NATType := NATType p; EndpointMethod := method |}.

Definition SetEndpointMethod (ps : PeerStore) (pubKey method : string) : PeerStore :=
  match peers ps !! pubKey with
  | None => ps
  | Some p => set_peers ps (<[pubKey := with_endpoint_method method p]> (peers ps))
  end.

Definition SetPeerDirectly (ps : PeerStore) (key : string) (info : PeerInfo) : PeerStore :=
  set_peers ps (<[key := info]> (peers ps)).

(** ** Invariant *)

(** What every entry of the map satisfies: it is filed under its own key, and
    the methods it was discovered by are listed once each, at least one. *)
Definition peer_ok (k : string) (p : PeerInfo) : Prop :=
  WGPubKey p = k /\ NoDup (DiscoveredVia p) /\ DiscoveredVia p <> [].

Definition peers_ok (m : gmap string PeerInfo) : Prop :=
  map_Forall peer_ok m /\ (size m <= DefaultMaxPeers)%nat.

(** What every channel satisfies: a bounded buffer; and every subscriber is an
    open channel, listed once. *)
Definition chans_ok (ps : PeerStore) : Prop :=
  map_Forall (fun _ ch => (length (ch_buf ch) <= PeerEventBufSize)%nat) (chans ps)
  /\ NoDup (subscribers ps)
  /\ Forall (fun c => exists ch, chans ps !! c = Some ch /\ ch_closed ch = false) (subscribers ps).

Definition store_ok (ps : PeerStore) : Prop := peers_ok (peers ps) /\ chans_ok ps.

(** The operations a run of the program performs on the store. *)
Inductive op :=
| OpUpdate (info : PeerInfo) (method : string) (now : Time)
| OpRemove (k : string)
| OpCleanup (now : Time)
| OpSetLatency (k : string) (rtt : Duration)
| OpSetEndpointMethod (k method : string)
| OpSubscribe
| OpUnsubscribe (c : nat).

(** One operation; [None] is a panic. *)
Definition run_op (ps : PeerStore) (o : op) : option PeerStore :=
  match o with
  | OpUpdate info method now => Update ps info method now
  | OpRemove k => Some (Remove ps k)
  | OpCleanup now => Some (CleanupStale ps now).1
  | OpSetLatency k rtt => Some (SetLatency ps k rtt)
  | OpSetEndpointMethod k method => Some (SetEndpointMethod ps k method)
  | OpSubscribe => Some (Subscribe ps).1
  | OpUnsubscribe c => Some (Unsubscribe ps c)
  end.

Fixpoint run_ops (ps : PeerStore) (os : list op) : option PeerStore :=
  match os with
  | [] => Some ps
  | o :: os' => match run_op ps o with
                | Some ps' => run_ops ps' os'
                | None => None
                end
  end.

(** A run of [Update] calls, in order. *)
Definition run_updates (m : gmap string PeerInfo) (us : list (PeerInfo * string * Time))
  : gmap string PeerInfo :=
  foldl (fun m u => (update_locked m u.1.1 u.1.2 u.2).1) m us.

Definition with_last_seen (t : Time) (p : PeerInfo) : PeerInfo :=
  {| WGPubKey := WGPubKey p; Hostname := Hostname p; MeshIP := MeshIP p; MeshIPv6 := MeshIPv6 p;
     Endpoint := Endpoint p; Introducer := Introducer p; RoutableNetworks := RoutableNetworks p;
     LastSeen := t; DiscoveredVia := DiscoveredVia p; Latency := Latency p;
     NATType := NATType p; EndpointMethod := EndpointMethod p |}.

(** *** Interleaving

    [Update] releases the lock before it publishes: the critical section, the
    snapshot of the subscribers and each send are separate steps, and the
    operations of other goroutines run between them. *)

Record sys := {
  sy_store : PeerStore;
  sy_pending : list PeerEvent;              (* events whose snapshot is not taken *)
  sy_sending : list (PeerEvent * list nat); (* snapshots with the sends left *)
  sy_panic : bool;
}.

Definition sys_init : sys :=
  {| sy_store := NewPeerStore; sy_pending := []; sy_sending := []; sy_panic := false |}.

Inductive label := LUpdate | LSnapshot | LSend | LSubscribe | LUnsubscribe.

Inductive sys_step : label -> sys -> sys -> Prop :=
| step_update s info method now m ev :
    sy_panic s = false ->
    update_locked (peers (sy_store s)) info method now = (m, ev) ->
    sys_step LUpdate s
      {| sy_store := set_peers (sy_store s) m;
         sy_pending := option_list ev ++ sy_pending s;
         sy_sending := sy_sending s; sy_panic := false |}
| step_snapshot s ev p1 p2 :
    sy_panic s = false ->
    sy_pending s = p1 ++ ev :: p2 ->
    sys_step LSnapshot s
      {| sy_store := sy_store s; sy_pending := p1 ++ p2;
         sy_sending := (ev, subscribers (sy_store s)) :: sy_sending s; sy_panic := false |}
| step_send s ev c cs q1 q2 chs :
    sy_panic s = false ->
    sy_sending s = q1 ++ (ev, c :: cs) :: q2 ->
    send_event (chans (sy_store s)) ev c = Some chs ->
    sys_step LSend s
      {| sy_store := {| peers := peers (sy_store s); chans := chs;
                        subscribers := subscribers (sy_store s) |};
         sy_pending := sy_pending s; sy_sending := q1 ++ (ev, cs) :: q2; sy_panic := false |}
| step_send_panic s ev c cs q1 q2 :
    sy_panic s = false ->
    sy_sending s = q1 ++ (ev, c :: cs) :: q2 ->
    send_event (chans (sy_store s)) ev c = None ->
    sys_step LSend s
      {| sy_store := sy_store s; sy_pending := sy_pending s; sy_sending := sy_sending s;
         sy_panic := true |}
| step_subscribe s :
    sy_panic s = false ->
    sys_step LSubscribe s
      {| sy_store := (Subscribe (sy_store s)).1; sy_pending := sy_pending s;
         sy_sending := sy_sending s; sy_panic := false |}
| step_unsubscribe s c :
    sy_panic s = false ->
    sys_step LUnsubscribe s
      {| sy_store := Unsubscribe (sy_store s) c; sy_pending := sy_pending s;
         sy_sending := sy_sending s; sy_panic := false |}.

(** A step of any goroutine, and a step that does not unsubscribe. *)
Definition any_step (s s' : sys) : Prop := exists l, sys_step l s s'.
Definition keep_step (s s' : sys) : Prop := exists l, l <> LUnsubscribe /\ sys_step l s s'.

(** ** Proofs: the map *)

Lemma new_peer_ok info method now : peer_ok (WGPubKey info) (new_peer info method now).
Proof. repeat split; [apply NoDup_singleton | done]. Qed.

Lemma merge_peer_ok k existing info method now :
  peer_ok k existing -> peer_ok k (merge_peer existing info method now).
Proof.
  intros (Hk & Hnd & Hne). repeat split; simpl; [done| |]; case_bool_decide; try done.
  - apply NoDup_app. split; [done|]. split; [|apply NoDup_singleton].
    intros x Hx ->%list_elem_of_singleton. done.
  - by destruct (DiscoveredVia existing).
Qed.

Lemma update_locked_ok m info method now :
  peers_ok m -> peers_ok (update_locked m info method now).1.
Proof.
  intros [Hall Hsize]. unfold update_locked.
  destruct (m !! WGPubKey info) as [p|] eqn:Hp; cbn [fst].
  - split.
    + apply map_Forall_insert_2; [|done]. apply merge_peer_ok. by apply (Hall _ _ Hp).
    + by rewrite map_size_insert_Some.
  - destruct (Nat.leb_spec DefaultMaxPeers (size m)) as [Hc|Hc]; cbn [fst]; [by split|]. split.
    + apply map_Forall_insert_2; [|done]. apply new_peer_ok.
    + rewrite map_size_insert_None by done. lia.
Qed.

Lemma foldr_delete_swap (m : gmap string PeerInfo) k ks :
  foldr delete (delete k m) ks = delete k (foldr delete m ks).
Proof. induction ks as [|k' ks IH]; simpl; [done|]. by rewrite IH, delete_delete. Qed.

Lemma cleanup_loop_spec now order m removed :
  cleanup_loop now order m removed =
  (foldr delete m ((filter (fun kp => is_stale now kp.2) order).*1),
   removed ++ (filter (fun kp => is_stale now kp.2) order).*1).
Proof.
  revert m removed. induction order as [|[k p] order IH]; intros m removed; simpl.
  - by rewrite app_nil_r.
  - case_bool_decide as Hs; rewrite IH.
    + rewrite filter_cons_True by done. simpl. f_equal.
      * apply foldr_delete_swap.
      * by rewrite <- app_assoc.
    + by rewrite filter_cons_False.
Qed.

(** What [CleanupStale] leaves: the entries that are not stale, unchanged. *)
Lemma CleanupStale_lookup ps now k :
  peers (CleanupStale ps now).1 !! k =
  match peers ps !! k with
  | Some p => if decide (is_stale now p) then None else Some p
  | None => None
  end.
Proof.
  unfold CleanupStale. rewrite cleanup_loop_spec. simpl. rewrite lookup_foldr_delete.
  case_decide as Hin.
  - apply list_elem_of_fmap in Hin as ([k' p] & -> & Hin).
    apply list_elem_of_filter in Hin as [Hs Hin%elem_of_map_to_list]. simpl in *.
    rewrite Hin. by rewrite decide_True.
  - destruct (peers ps !! k) as [p|] eqn:Hp; [|done].
    rewrite decide_False; [done|]. intros Hs. apply Hin, list_elem_of_fmap. exists (k, p).
    split; [done|]. apply list_elem_of_filter. split; [done|]. by apply elem_of_map_to_list.
Qed.

Lemma peers_ok_subseteq m m' : m' ⊆ m -> peers_ok m -> peers_ok m'.
Proof.
  intros Hsub [Hall Hsize]. split.
  - intros k p Hp. apply Hall. by apply (lookup_weaken m' m).
  - apply map_subseteq_size in Hsub. lia.
Qed.

Lemma CleanupStale_subseteq ps now : peers (CleanupStale ps now).1 ⊆ peers ps.
Proof.
  apply map_subseteq_spec. intros k p. rewrite CleanupStale_lookup.
  destruct (peers ps !! k); [|done]. by case_decide.
Qed.

Lemma replace_ok m k p p' :
  m !! k = Some p -> (peer_ok k p -> peer_ok k p') -> peers_ok m -> peers_ok (<[k := p']> m).
Proof.
  intros Hk Hpp [Hall Hsize]. split.
  - apply map_Forall_insert_2; [|done]. apply Hpp, (Hall _ _ Hk).
  - by rewrite map_size_insert_Some.
Qed.

(** ** Proofs: the channels *)

Definition open_in (chs : gmap nat chan) (c : nat) : Prop :=
  exists ch, chs !! c = Some ch /\ ch_closed ch = false.

Definition bufs_ok (chs : gmap nat chan) : Prop :=
  map_Forall (fun _ ch => (length (ch_buf ch) <= PeerEventBufSize)%nat) chs.

Lemma send_event_open chs ev c :
  open_in chs c -> bufs_ok chs ->
  exists chs', send_event chs ev c = Some chs' /\ bufs_ok chs'
               /\ (forall d, open_in chs d -> open_in chs' d).
Proof.
  intros (ch & Hc & Ho) Hb. unfold send_event. rewrite Hc, Ho.
  destruct (Nat.ltb_spec (length (ch_buf ch)) PeerEventBufSize) as [Hlt|Hge].
  - eexists. split; [done|]. split.
    + apply map_Forall_insert_2; [|done]. simpl. rewrite length_app. simpl. lia.
    + intros d (ch' & Hd & Hod). unfold open_in. rewrite lookup_insert.
      case_decide; [by eexists|eauto].
  - exists chs. eauto.
Qed.

Lemma send_all_open chs ev subs :
  Forall (open_in chs) subs -> bufs_ok chs ->
  exists chs', send_all chs ev subs = Some chs' /\ bufs_ok chs'
               /\ (forall d, open_in chs d -> open_in chs' d).
Proof.
  revert chs. induction subs as [|c subs IH]; intros chs Hf Hb; simpl; [eauto|].
  apply Forall_cons in Hf as [Hc Hf].
  destruct (send_event_open chs ev c Hc Hb) as (chs1 & -> & Hb1 & Hop1).
  destruct (IH chs1) as (chs2 & -> & Hb2 & Hop2); [|done|eauto 10].
  eapply Forall_impl; [exact Hf|]. auto.
Qed.

(** Publishing to open subscribers does not panic and keeps the invariant. *)
Lemma notify_ok ps ev :
  chans_ok ps -> exists ps', notify ps ev = Some ps' /\ chans_ok ps' /\ peers ps' = peers ps.
Proof.
  intros (Hb & Hnd & Hsub). unfold notify.
  destruct (send_all_open (chans ps) ev (subscribers ps) Hsub Hb) as (chs & -> & Hb' & Hop).
  eexists. split; [done|]. split; [|done]. split; [done|]. split; [done|].
  eapply Forall_impl; [exact Hsub|]. apply Hop.
Qed.

Lemma Update_ok ps info method now :
  store_ok ps ->
  exists ps', Update ps info method now = Some ps' /\ store_ok ps'
              /\ peers ps' = (update_locked (peers ps) info method now).1.
Proof.
  intros [Hp Hc]. unfold Update.
  pose proof (update_locked_ok (peers ps) info method now Hp) as Hp'.
  destruct (update_locked (peers ps) info method now) as [m [ev|]]; simpl in *.
  - destruct (notify_ok (set_peers ps m) ev Hc) as (ps' & -> & Hc' & Hpeers).
    exists ps'. split; [done|]. split; [|done]. split; [by rewrite Hpeers|done].
  - by exists (set_peers ps m).
Qed.

Lemma Subscribe_ok ps : store_ok ps -> store_ok (Subscribe ps).1.
Proof.
  intros [Hp (Hb & Hnd & Hsub)]. split; [done|]. simpl.
  assert (chans ps !! fresh_chan ps = None) as Hf
    by (apply not_elem_of_dom; unfold fresh_chan; apply is_fresh).
  split; [|split]; simpl.
  - apply map_Forall_insert_2; [|done]. simpl. unfold PeerEventBufSize. lia.
  - apply NoDup_app. split; [done|]. split; [|apply NoDup_singleton].
    intros c Hc Hc'. apply list_elem_of_singleton in Hc' as ->.
    rewrite Forall_forall in Hsub. destruct (Hsub _ Hc) as (ch & Hch & _). congruence.
  - apply Forall_app. split.
    + eapply Forall_impl; [exact Hsub|]. intros c (ch & Hch & Ho). exists ch. split; [|done].
      rewrite lookup_insert_ne; [done|]. congruence.
    + apply Forall_singleton. eexists. by rewrite lookup_insert_eq.
Qed.

Lemma drop_first_sublist c l l' : drop_first c l = Some l' -> l ≡ₚ c :: l'.
Proof.
  revert l'. induction l as [|x l IH]; intros l'; simpl; [done|].
  destruct (Nat.eqb_spec x c) as [->|]; [by intros [= ->]|].
  intros (l1 & Hl1 & ->)%fmap_Some. rewrite (IH l1 Hl1). by constructor.
Qed.

Lemma Unsubscribe_ok ps c : store_ok ps -> store_ok (Unsubscribe ps c).
Proof.
  intros [Hp (Hb & Hnd & Hsub)]. unfold Unsubscribe.
  destruct (drop_first c (subscribers ps)) as [subs|] eqn:Hd; [|done].
  apply drop_first_sublist in Hd. split; [done|]. rewrite Hd in Hnd, Hsub.
  apply NoDup_cons in Hnd as [Hnin Hnd]. apply Forall_cons in Hsub as [_ Hsub].
  split; [|split]; simpl; [|done|].
  - intros d ch. rewrite lookup_alter. case_decide; [|apply Hb].
    intros (ch0 & H0 & ->)%fmap_Some. exact (Hb _ _ H0).
  - rewrite Forall_forall in Hsub |- *. intros d Hin. destruct (Hsub d Hin) as (ch & Hch & Ho).
    exists ch. split; [|done]. rewrite lookup_alter_ne; [done|]. congruence.
Qed.

(** One operation neither panics nor breaks the invariant. *)
Lemma run_op_ok ps o : store_ok ps -> exists ps', run_op ps o = Some ps' /\ store_ok ps'.
Proof.
  intros Hok. pose proof Hok as [Hp Hc]. destruct o; simpl.
  - destruct (Update_ok ps info method now Hok) as (ps' & -> & Hok' & _). eauto.
  - eexists. split; [done|]. split; [|done]. simpl.
    apply (peers_ok_subseteq (peers ps)); [apply delete_subseteq|done].
  - eexists. split; [done|]. unfold store_ok, chans_ok.
    pose proof (CleanupStale_subseteq ps now) as Hsub.
    unfold CleanupStale in *. destruct (cleanup_loop now _ _ _) as [m rm]. simpl in *.
    split; [|done]. by apply (peers_ok_subseteq (peers ps)).
  - unfold SetLatency. destruct (peers ps !! k) eqn:Hk; [|eauto].
    eexists. split; [done|]. split; [|done]. by eapply replace_ok.
  - unfold SetEndpointMethod. destruct (peers ps !! k) eqn:Hk; [|eauto].
    eexists. split; [done|]. split; [|done]. by eapply replace_ok.
  - eexists. split; [done|]. by apply Subscribe_ok.
  - eexists. split; [done|]. by apply Unsubscribe_ok.
Qed.

Lemma NewPeerStore_ok : store_ok NewPeerStore.
Proof.
  split; [split|split; [|split]]; simpl.
  - apply map_Forall_empty.
  - rewrite map_size_empty. unfold DefaultMaxPeers. lia.
  - apply map_Forall_empty.
  - apply NoDup_nil_2.
  - apply Forall_nil_2.
Qed.

(** ** Proofs: merging *)

Lemma update_locked_other m info method now k :
  k <> WGPubKey info -> (update_locked m info method now).1 !! k = m !! k.
Proof.
  intros Hne. unfold update_locked. destruct (m !! WGPubKey info); cbn [fst].
  - by rewrite lookup_insert_ne.
  - destruct (Nat.leb DefaultMaxPeers (size m)); cbn [fst]; [done|]. by rewrite lookup_insert_ne.
Qed.

Lemma update_locked_known m info method now p :
  m !! WGPubKey info = Some p ->
  (update_locked m info method now).1 !! WGPubKey info = Some (merge_peer p info method now).
Proof. intros H. unfold update_locked. rewrite H. cbn [fst]. by rewrite lookup_insert_eq. Qed.

(** A property of one entry that every update of it preserves holds along any
    run of updates. *)
Lemma run_updates_ind (P : PeerInfo -> Prop) m us k p :
  (forall q info method now, (info, method, now) ∈ us -> WGPubKey info = k ->
     P q -> P (merge_peer q info method now)) ->
  m !! k = Some p -> P p ->
  exists q, run_updates m us !! k = Some q /\ P q.
Proof.
  revert m p. induction us as [|[[info method] now] us IH]; intros m p Hpres Hk HP; [eauto|].
  unfold run_updates. cbn [foldl fst snd]. fold (run_updates (update_locked m info method now).1 us).
  destruct (decide (k = WGPubKey info)) as [->|Hne].
  - apply (IH _ (merge_peer p info method now)).
    + intros q i me n Hin. apply Hpres. by right.
    + by apply update_locked_known.
    + apply Hpres; [by left|done|done].
  - apply (IH _ p); [|by rewrite update_locked_other|done].
    intros q i me n Hin. apply Hpres. by right.
Qed.

Lemma merge_endpoint_rank existing info method now :
  Endpoint existing <> ""%string ->
  Endpoint (merge_peer existing info method now) <> ""%string
  /\ endpointMethodRank (EndpointMethod existing)
     <= endpointMethodRank (EndpointMethod (merge_peer existing info method now)).
Proof.
  intros Hne. simpl. unfold shouldUpdateEndpoint.
  destruct (String.eqb_spec (Endpoint existing) ""); [done|].
  destruct (String.eqb_spec (Endpoint info) "") as [|Hi]; simpl; [split; [done|lia]|].
  destruct (Z.gtb_spec (endpointMethodRank method) (endpointMethodRank (EndpointMethod existing)));
    [split; [done|lia]|].
  destruct (Z.ltb_spec (endpointMethodRank method) (endpointMethodRank (EndpointMethod existing)));
    [split; [done|lia]|].
  split_if; (split; [done|lia]).
Qed.

Lemma rank_lan method : endpointMethodRank method = 100 <-> method = LANMethod.
Proof.
  split; [|by intros ->]. unfold endpointMethodRank.
  destruct (String.eqb_spec method ""); [done|].
  destruct (String.eqb_spec method LANMethod); [done|]. by split_if.
Qed.

Lemma rank_max method : endpointMethodRank method <= 100.
Proof. unfold endpointMethodRank. split_if; lia. Qed.

Lemma merge_lan_sticky existing info method now :
  Endpoint existing <> ""%string -> EndpointMethod existing = LANMethod -> method <> LANMethod ->
  Endpoint (merge_peer existing info method now) = Endpoint existing
  /\ EndpointMethod (merge_peer existing info method now) = LANMethod.
Proof.
  intros Hne Hlan Hm. simpl. unfold shouldUpdateEndpoint.
  destruct (String.eqb_spec (Endpoint existing) ""); [done|]. rewrite Hlan.
  assert (endpointMethodRank method < endpointMethodRank LANMethod) as Hlt.
  { pose proof (rank_max method). pose proof (rank_lan method).
    change (endpointMethodRank LANMethod) with 100.
    assert (endpointMethodRank method <> 100) by tauto. lia. }
  destruct (Z.gtb_spec (endpointMethodRank method) (endpointMethodRank LANMethod)); [lia|].
  destruct (Z.ltb_spec (endpointMethodRank method) (endpointMethodRank LANMethod)); [|lia].
  by rewrite andb_false_r.
Qed.


(** ** Proofs: interleaving *)

(** No channel was closed, and everything in flight refers to an open channel. *)
Definition all_open (s : sys) : Prop :=
  sy_panic s = false
  /\ map_Forall (fun _ ch => ch_closed ch = false) (chans (sy_store s)).

Lemma send_event_all_open chs ev c :
  map_Forall (fun _ ch => ch_closed ch = false) chs ->
  exists chs', send_event chs ev c = Some chs'
               /\ map_Forall (fun _ ch => ch_closed ch = false) chs'.
Proof.
  intros H. unfold send_event. destruct (chs !! c) as [ch|] eqn:Hc; [|eauto].
  rewrite (H _ _ Hc). destruct (Nat.ltb _ _); [|eauto].
  eexists. split; [done|]. by apply map_Forall_insert_2.
Qed.

Lemma keep_step_all_open s s' : all_open s -> keep_step s s' -> all_open s'.
Proof.
  intros [Hp Ho] (l & Hl & Hstep). destruct Hstep as [| |s ev c cs q1 q2 chs _ _ Hsome|s ev c cs q1 q2 _ _ Hnone|s|]; try done.
  - split; [done|]. simpl. destruct (send_event_all_open (chans (sy_store s)) ev c Ho)
      as (chs' & Heq & Ho'). by simplify_eq.
  - exfalso. destruct (send_event_all_open (chans (sy_store s)) ev c Ho) as (? & ? & _). congruence.
  - split; [done|]. simpl. by apply map_Forall_insert_2.
Qed.

(** ** Properties *)

(** A peer record used by the witnesses. *)
Definition sample_peer (k ep method : string) (seen : Time) : PeerInfo :=
  {| WGPubKey := k; Hostname := "h"; MeshIP := "10.1.2.3"; MeshIPv6 := "";
     Endpoint := ep; Introducer := false; RoutableNetworks := []; LastSeen := seen;
     DiscoveredVia := [method]; Latency := None; NATType := ""; EndpointMethod := method |}.

(** C1. Any sequence of store operations (updates from any discovery method,
    removals, cleanups, latency and endpoint-method writes, subscriptions and
    cancellations), run one after the other from the empty store, completes
    without a panic and leaves the store well formed: at most
    [DefaultMaxPeers] entries, each filed under its own public key and with a
    duplicate-free, non-empty list of discovery methods; every subscriber an
    open channel, listed once, whose buffer holds at most
    [PeerEventBufSize] events. *)
Theorem store_ops_safe : forall os,
  exists ps, run_ops NewPeerStore os = Some ps /\ store_ok ps.
Proof.
  intros os. generalize NewPeerStore_ok. generalize NewPeerStore.
  induction os as [|o os IH]; intros ps Hok; simpl; [eauto|].
  destruct (run_op_ok ps o Hok) as (ps' & -> & Hok'). by apply IH.
Qed.




(** C20. Along any run of updates, an endpoint that is known is never lost and
    the rank of the method that supplied it never decreases: a gossip or cache
    record cannot displace an endpoint learned by a better method. *)
Theorem endpoint_rank_monotone : forall m us k p,
  m !! k = Some p -> Endpoint p <> ""%string ->
  exists q, run_updates m us !! k = Some q
    /\ Endpoint q <> ""%string
    /\ endpointMethodRank (EndpointMethod p) <= endpointMethodRank (EndpointMethod q).
Proof.
  intros m us k p Hk Hne.
  apply (run_updates_ind (fun q => Endpoint q <> ""%string /\
    endpointMethodRank (EndpointMethod p) <= endpointMethodRank (EndpointMethod q)) m us k p);
    [|done|split; [done|lia]].
  intros q info method now _ _ [Hq Hr].
  destruct (merge_endpoint_rank q info method now Hq). split; [done|lia].
Qed.

Lemma endpoint_rank_monotone_witness :
  let m := <["k"%string := sample_peer "k" "1.2.3.4:51820" "dht" 5]> ∅ : gmap string PeerInfo in
  exists q, run_updates m [(sample_peer "k" "9.9.9.9:1" "x" 9, "gossip"%string, 10)] !! "k"%string = Some q
    /\ Endpoint q <> ""%string /\ endpointMethodRank "dht" <= endpointMethodRank (EndpointMethod q).
Proof.
  intros m.
  apply (endpoint_rank_monotone m _ "k" (sample_peer "k" "1.2.3.4:51820" "dht" 5)); [by vm_compute|done].
Defined.

(** An endpoint learned on the local network stays: as long as the updates
    that follow come from other methods, the peer keeps that endpoint. *)
Theorem lan_endpoint_sticky : forall m us k p,
  m !! k = Some p -> Endpoint p <> ""%string -> EndpointMethod p = LANMethod ->
  Forall (fun u => u.1.2 <> LANMethod) us ->
  exists q, run_updates m us !! k = Some q
    /\ Endpoint q = Endpoint p /\ EndpointMethod q = LANMethod.
Proof.
  intros m us k p Hk Hne Hlan Hus. rewrite Forall_forall in Hus.
  apply (run_updates_ind (fun q => Endpoint q = Endpoint p /\ EndpointMethod q = LANMethod)
    m us k p); [|done|done].
  intros q info method now Hin _ [Hq Hm]. specialize (Hus _ Hin). simpl in Hus.
  rewrite <- Hq in Hne |- *. by apply merge_lan_sticky.
Qed.

Lemma lan_endpoint_sticky_witness :
  let m := <["k"%string := sample_peer "k" "192.168.1.5:51820" "lan" 5]> ∅ : gmap string PeerInfo in
  exists q, run_updates m [(sample_peer "k" "[2001:db8::1]:1" "x" 9, "dht"%string, 10)] !! "k"%string = Some q
    /\ Endpoint q = "192.168.1.5:51820"%string /\ EndpointMethod q = LANMethod.
Proof.
  intros m. apply (lan_endpoint_sticky m _ "k" (sample_peer "k" "192.168.1.5:51820" "lan" 5));
    [by vm_compute|done|done|by repeat constructor].
Defined.



(** [CleanupStale] removes exactly the peers not seen for longer than
    [PeerRemoveTimeout], reports each of them once, leaves every other entry
    unchanged, and in particular removes no active peer. *)
Theorem cleanup_exact : forall ps now k,
  (k ∈ (CleanupStale ps now).2 <->
     exists p, peers ps !! k = Some p /\ PeerRemoveTimeout < now - LastSeen p)
  /\ NoDup (CleanupStale ps now).2
  /\ (forall p, peers (CleanupStale ps now).1 !! k = Some p <->
        peers ps !! k = Some p /\ now - LastSeen p <= PeerRemoveTimeout)
  /\ (forall p, peers ps !! k = Some p -> is_active now p ->
        peers (CleanupStale ps now).1 !! k = Some p).
Proof.
  intros ps now k.
  assert (forall p, is_stale now p <-> PeerRemoveTimeout < now - LastSeen p) as Hst.
  { intros p. unfold is_stale. apply time_sub_gt_iff.
    unfold PeerRemoveTimeout, minute, second, int64_min, int64_max. lia. }
  assert (forall p, peers (CleanupStale ps now).1 !! k = Some p <->
        peers ps !! k = Some p /\ now - LastSeen p <= PeerRemoveTimeout) as Hlook.
  { intros p. rewrite CleanupStale_lookup. destruct (peers ps !! k) as [q|]; [|by split; [|intros [? _]]].
    case_decide as Hd; rewrite Hst in Hd.
    - split; [done|]. intros [[= ->] ?]. lia.
    - split; [intros [= ->]; split; [done|lia]|by intros [? _]]. }
  unfold CleanupStale in *. rewrite cleanup_loop_spec in *. cbn [fst snd] in *.
  rewrite app_nil_l. split; [|split; [|split]]; [| |done|].
  - rewrite list_elem_of_fmap. split.
    + intros ([k' p] & -> & [Hs Hin]%list_elem_of_filter). apply elem_of_map_to_list in Hin.
      exists p. split; [done|]. by apply Hst.
    + intros (p & Hp & Hs). exists (k, p). split; [done|]. apply list_elem_of_filter.
      split; [by apply Hst|]. by apply elem_of_map_to_list.
  - apply NoDup_fmap_filter, NoDup_fst_map_to_list.
  - intros p Hp Ha. apply Hlook. split; [done|].
    unfold is_active in Ha. apply time_sub_lt_iff in Ha;
      unfold PeerRemoveTimeout, PeerDeadTimeout, minute, second, int64_min, int64_max in *; lia.
Qed.

(** The merge does not compare timestamps: a record that is strictly older
    than what is known, from a method of the same rank (other than LAN) and of
    the same address family, still replaces the endpoint, and its networks
    replace the known ones. *)
Theorem older_record_wins : forall existing info method now,
  LastSeen info < LastSeen existing ->
  Endpoint info <> ""%string -> RoutableNetworks info <> [] ->
  endpointMethodRank method = endpointMethodRank (EndpointMethod existing) ->
  method <> LANMethod ->
  isIPv6EndpointValue (Endpoint info) = isIPv6EndpointValue (Endpoint existing) ->
  Endpoint (merge_peer existing info method now) = Endpoint info
  /\ RoutableNetworks (merge_peer existing info method now) = RoutableNetworks info.
Proof.
  intros existing info method now _ Hep Hnet Hrank Hlan Hv6. simpl. split.
  - unfold shouldUpdateEndpoint. rewrite Hrank, Hv6.
    destruct (String.eqb_spec (Endpoint info) ""); [done|].
    destruct (String.eqb (Endpoint existing) ""); [done|].
    rewrite Z.gtb_ltb, Z.ltb_irrefl, andb_negb_r.
    destruct (Z.eqb_spec (endpointMethodRank (EndpointMethod existing)) (endpointMethodRank LANMethod))
      as [He|]; [|done].
    exfalso. apply Hlan, rank_lan. by rewrite Hrank, He.
  - by destruct (RoutableNetworks info).
Qed.

Lemma older_record_wins_witness :
  let old := {| WGPubKey := "k"; Hostname := "h"; MeshIP := "10.1.2.3"; MeshIPv6 := "";
     Endpoint := "5.6.7.8:1"; Introducer := false; RoutableNetworks := ["10.9.0.0/16"%string];
     LastSeen := 3; DiscoveredVia := []; Latency := None; NATType := ""; EndpointMethod := "" |} in
  Endpoint (merge_peer (sample_peer "k" "1.2.3.4:1" "dht" 9) old "dht" 10) = "5.6.7.8:1"%string
  /\ RoutableNetworks (merge_peer (sample_peer "k" "1.2.3.4:1" "dht" 9) old "dht" 10) = ["10.9.0.0/16"%string].
Proof. intros old. apply (older_record_wins _ old); done. Defined.

(** Publishing races with cancelling: a subscriber that unsubscribes after
    the snapshot of the subscribers was taken and before the send makes the
    send hit a closed channel, which panics the process. *)
Theorem notify_unsubscribe_race : exists s, rtc any_step sys_init s /\ sy_panic s = true.
Proof.
  set (info := sample_peer "k" "" "dht" 5).
  eexists. split.
  - eapply rtc_l; [exists LSubscribe; by apply step_subscribe|].
    eapply rtc_l; [exists LUpdate; by apply (step_update _ info "dht" 5)|].
    eapply rtc_l; [exists LSnapshot; apply (step_snapshot _ {| ev_PubKey := "k"; ev_Kind := PeerEventNew |} [] []); [done|by vm_compute]|].
    eapply rtc_l; [exists LUnsubscribe; apply (step_unsubscribe _ 0); done|].
    eapply rtc_l; [exists LSend; apply (step_send_panic _ {| ev_PubKey := "k"; ev_Kind := PeerEventNew |} 0 [] [] []);
      [done|by vm_compute|by vm_compute]|].
    apply rtc_refl.
  - done.
Qed.

(** Without cancellations the interleaving is safe: however updates,
    snapshots, sends and subscriptions interleave, no send panics. *)
Theorem publish_safe_without_unsubscribe : forall s,
  rtc keep_step sys_init s -> sy_panic s = false.
Proof.
  intros s Hr. assert (all_open s) as [H _]; [|done].
  eapply (rtc_ind_r all_open); [|intros; by eapply keep_step_all_open|exact Hr].
  split; [done|]. apply map_Forall_empty.
Qed.

Lemma publish_safe_without_unsubscribe_witness :
  exists s, rtc keep_step sys_init s /\ sy_panic s = false /\ subscribers (sy_store s) = [0%nat].
Proof.
  eexists. assert (rtc keep_step sys_init {| sy_store := (Subscribe NewPeerStore).1;
    sy_pending := []; sy_sending := []; sy_panic := false |}) as Hr.
  { eapply rtc_once. exists LSubscribe. split; [done|]. by apply (step_subscribe sys_init). }
  split; [exact Hr|]. split; [apply (publish_safe_without_unsubscribe _ Hr)|by vm_compute].
Defined.
