(* ===== verification/Routes.v ===== *)
(** * Route tables (pkg/routes/routes.go, pkg/ssh/routes.go, pkg/daemon/routes.go)

    The diff between the kernel's routes and the desired ones, the parsers of
    [ip route show] in the two deployment modes, and the commands that apply a
    diff.  Commands are argument vectors (or shell lines over SSH); a run
    produces the list of commands issued, the outcome of each being an
    argument of the model. *)

From S2P Require Import Prelude GoStrings.

(** ** Entries and the diff *)

Record Entry := { Network : string; Gateway : string }.

#[export] Instance Entry_eq_dec : EqDecision Entry.
Proof. solve_decision. Defined.
#[export] Program Instance Entry_countable : Countable Entry :=
  inj_countable (fun e => (Network e, Gateway e))
                (fun p => Some {| Network := p.1; Gateway := p.2 |}) _.
Next Obligation. by intros []. Qed.

Definition NormalizeNetwork (network : string) : string :=
  if negb (contains network "/") then
    if Nat.eqb (count_char "." network) 3 then String.append network "/32"
    else if contains network ":" then String.append network "/128"
    else network
  else network.

Definition MakeKey (network gateway : string) : string :=
  String.append network (String.append "|" gateway).

Definition entry_key (r : Entry) : string := MakeKey (Network r) (Gateway r).

(** The loops that fill the maps: a later entry overwrites an earlier one. *)
Definition index_by (key : Entry -> string) (l : list Entry) : gmap string Entry :=
  foldl (fun m r => <[key r := r]> m) ∅ l.

(** Body of the loop over [desiredMap]. *)
Definition diff_add (currentMap currentByNetwork : gmap string Entry)
    (acc : list Entry * list Entry) (kr : string * Entry) : list Entry * list Entry :=
  let '(toAdd, toRemove) := acc in
  let '(key, route) := kr in
  match currentMap !! key with
  | Some _ => (toAdd, toRemove)
  | None =>
      let toRemove' :=
        match currentByNetwork !! Network route with
        | Some currentRoute =>
            if negb (String.eqb (Gateway currentRoute) (Gateway route))
               && negb (String.eqb (Gateway currentRoute) "")
            then toRemove ++ [currentRoute] else toRemove
        | None => toRemove
        end in
      (toAdd ++ [route], toRemove')
  end.

(** Body of the loop over [currentMap]. *)
Definition diff_remove (desiredMap desiredByNetwork : gmap string Entry)
    (toRemove : list Entry) (kr : string * Entry) : list Entry :=
  let '(key, route) := kr in
  match desiredMap !! key with
  | Some _ => toRemove
  | None =>
      match desiredByNetwork !! Network route with
      | Some _ => toRemove
      | None => if negb (String.eqb (Gateway route) "") then toRemove ++ [route] else toRemove
      end
  end.

Definition CalculateDiff (current desired : list Entry) : list Entry * list Entry :=
  let currentMap := index_by entry_key current in
  let desiredMap := index_by entry_key desired in
  let currentByNetwork := index_by Network current in
  let desiredByNetwork := index_by Network desired in
  let '(toAdd, toRemove) :=
    foldl (diff_add currentMap currentByNetwork) ([], []) (map_to_list desiredMap) in
  (toAdd, foldl (diff_remove desiredMap desiredByNetwork) toRemove (map_to_list currentMap)).

Definition CalculateRouteDiff (current desired : list Entry) : list Entry * list Entry :=
  CalculateDiff current desired.

(** The route set after the removals and the additions. *)
Definition apply_diff (current : gset Entry) (d : list Entry * list Entry) : gset Entry :=
  (current ∖ list_to_set d.2) ∪ list_to_set d.1.

(** ** Parsing [ip route show dev <iface>] *)

(** The token after the first ["via"] that has one. *)
Fixpoint via_gateway (parts : list string) : string :=
  match parts with
  | [] => ""
  | p :: parts' =>
      match parts' with
      | g :: _ => if String.eqb p "via" then g else via_gateway parts'
      | [] => ""
      end
  end.

(** One line of the daemon's parser: routes without a gateway are skipped. *)
Definition parse_route_line (line : string) : option Entry :=
  match fields (trim_space line) with
  | [] => None
  | (n :: _) as parts =>
      let gateway := via_gateway parts in
      if String.eqb gateway "" then None
      else Some {| Network := NormalizeNetwork n; Gateway := gateway |}
  end.

Definition newline : ascii := ascii_of_byte 10.

Definition parse_routes (output : string) : list Entry :=
  omap parse_route_line (split_char newline (trim_space output)).

(** The SSH parser keeps directly connected routes, with an empty gateway. *)
Definition ssh_parse_route_line (line : string) : option Entry :=
  if String.eqb (trim_space line) "" then None
  else match fields line with
       | [] => None
       | (n :: _) as parts =>
           Some {| Network := NormalizeNetwork n; Gateway := via_gateway parts |}
       end.

Definition ssh_parse_routes (output : string) : list Entry :=
  omap ssh_parse_route_line (split_char newline (trim_space output)).

(** [getCurrentRoutes] and [ssh.GetCurrentRoutes]: the command's output, or
    its error. *)
Definition getCurrentRoutes (output : option string) : result (list Entry) :=
  match output with
  | None => Err "failed to read routes"
  | Some o => Ok (parse_routes o)
  end.

Definition ssh_GetCurrentRoutes (output : option string) : result (list Entry) :=
  match output with
  | None => Err "ssh"
  | Some o => Ok (ssh_parse_routes o)
  end.

(** ** Applying a diff on the local host *)

Definition cmd := list string.

Definition route_del_cmd (iface : string) (r : Entry) : cmd :=
  ["ip"; "route"; "del"; Network r; "via"; Gateway r; "dev"; iface]%string.
Definition route_replace_cmd (iface : string) (r : Entry) : cmd :=
  ["ip"; "route"; "replace"; Network r; "via"; Gateway r; "dev"; iface]%string.
Definition sysctl_cmd : cmd := ["sysctl"; "-w"; "net.ipv4.ip_forward=1"]%string.
Definition forward_rule_cmd (flag iface : string) : cmd :=
  ["iptables"; flag; "FORWARD"; "-i"; iface; "-o"; iface; "-j"; "ACCEPT"]%string.

(** [exec c] tells whether command [c] succeeds. *)
Definition ensureWGForwardingRule (exec : cmd -> bool) (iface : string) : list cmd :=
  let check := forward_rule_cmd "-C" iface in
  if exec check then [check] else [check; forward_rule_cmd "-A" iface].

(** The additions stop at the first failure. *)
Fixpoint add_routes (exec : cmd -> bool) (iface : string) (toAdd : list Entry)
  : list cmd * result unit :=
  match toAdd with
  | [] => ([], Ok tt)
  | r :: toAdd' =>
      let c := route_replace_cmd iface r in
      if exec c then
        let '(cs, res) := add_routes exec iface toAdd' in (c :: cs, res)
      else ([c], Err "failed to add route")
  end.

Definition applyRouteDiff (exec : cmd -> bool) (iface : string) (toAdd toRemove : list Entry)
  : list cmd * result unit :=
  let dels := route_del_cmd iface <$> toRemove in
  let '(adds, res) := add_routes exec iface toAdd in
  match res with
  | Err e => (dels ++ adds, Err e)
  | Ok _ => (dels ++ adds ++ [sysctl_cmd] ++ ensureWGForwardingRule exec iface, Ok tt)
  end.

(** ** Applying a diff over SSH *)

Definition ssh_del_line (iface : string) (r : Entry) : string :=
  if negb (String.eqb (Gateway r) "")
  then String.append "ip route del " (String.append (Network r) (String.append " via "
         (String.append (Gateway r) (String.append " dev " (String.append iface " 2>/dev/null || true")))))
  else String.append "ip route del " (String.append (Network r) (String.append " dev "
         (String.append iface " 2>/dev/null || true"))).

Definition ssh_add_line (iface : string) (r : Entry) : string :=
  let via := if negb (String.eqb (Gateway r) "")
             then String.append " via " (Gateway r) else EmptyString in
  let tail := String.append (Network r) (String.append via (String.append " dev " iface)) in
  String.append "ip route add " (String.append tail (String.append " || ip route replace " tail)).

Fixpoint ssh_add_routes (run : string -> bool) (iface : string) (toAdd : list Entry)
  : list string * result unit :=
  match toAdd with
  | [] => ([], Ok tt)
  | r :: toAdd' =>
      let c := ssh_add_line iface r in
      if run c then
        let '(cs, res) := ssh_add_routes run iface toAdd' in (c :: cs, res)
      else ([c], Err "failed to add route for")
  end.

Definition ssh_sysctl_line : string := "sysctl -w net.ipv4.ip_forward=1 > /dev/null".

Definition ApplyRouteDiff (run : string -> bool) (iface : string) (toAdd toRemove : list Entry)
  : list string * result unit :=
  if Nat.eqb (length toAdd + length toRemove) 0 then ([], Ok tt)
  else
    let dels := ssh_del_line iface <$> toRemove in
    let '(adds, res) := ssh_add_routes run iface toAdd in
    match res with
    | Err e => (dels ++ adds, Err e)
    | Ok _ =>
        if run ssh_sysctl_line then (dels ++ adds ++ [ssh_sysctl_line], Ok tt)
        else (dels ++ adds ++ [ssh_sysctl_line], Err "failed to enable IP forwarding")
    end.

(** ** Specification vocabulary *)

(** A route list that names a network at most once (what the kernel's main
    table holds for one interface), with networks that are not ambiguous as
    part of a key. *)
Definition table_ok (l : list Entry) : Prop :=
  NoDup (Network <$> l) /\ Forall (fun r => contains_char "|" (Network r) = false) l.

#[export] Instance table_ok_dec l : Decision (table_ok l).
Proof. unfold table_ok. apply _. Defined.

(** ** Lemmas *)

Lemma index_by_lookup key l k r :
  index_by key l !! k = Some r -> r ∈ l /\ key r = k.
Proof.
  unfold index_by. induction l as [|x l IH] using rev_ind; [done|].
  rewrite foldl_app. simpl. rewrite lookup_insert. case_decide as Hk.
  - intros [= ->]. split; [|done]. apply elem_of_app. right. by left.
  - intros H. destruct (IH H) as [Hin ?]. split; [|done]. apply elem_of_app. by left.
Qed.

Lemma index_by_None key l k :
  index_by key l !! k = None <-> forall r, r ∈ l -> key r <> k.
Proof.
  unfold index_by. induction l as [|x l IH] using rev_ind.
  - split; [intros _ r Hr; by apply not_elem_of_nil in Hr|done].
  - rewrite foldl_app. simpl. rewrite lookup_insert. case_decide as Hk.
    + split; [done|]. intros H. exfalso. apply (H x); [|done]. apply elem_of_app. right. by left.
    + rewrite IH. split.
      * intros H r [Hr|Hr]%elem_of_app; [by apply H|].
        apply list_elem_of_singleton in Hr as ->. done.
      * intros H r Hr. apply H, elem_of_app. by left.
Qed.

Lemma index_by_is_Some key l r : r ∈ l -> exists r', index_by key l !! key r = Some r'.
Proof.
  intros Hr. destruct (index_by key l !! key r) eqn:E; [eauto|].
  exfalso. by apply (proj1 (index_by_None key l (key r)) E r).
Qed.

(** [MakeKey] is injective when the networks contain no separator. *)
Lemma MakeKey_inj n1 g1 n2 g2 :
  contains_char "|" n1 = false -> contains_char "|" n2 = false ->
  MakeKey n1 g1 = MakeKey n2 g2 -> n1 = n2 /\ g1 = g2.
Proof.
  unfold MakeKey. intros H1 H2 H. str_simpl_in H.
  apply (f_equal (cut_char "|")) in H. rewrite !cut_char_app in H by done.
  by simplify_eq.
Qed.

Lemma entry_key_inj r1 r2 :
  contains_char "|" (Network r1) = false -> contains_char "|" (Network r2) = false ->
  entry_key r1 = entry_key r2 -> r1 = r2.
Proof.
  intros H1 H2 H. apply MakeKey_inj in H as [Hn Hg]; [|done|done].
  destruct r1, r2. simpl in *. congruence.
Qed.

Definition clean (l : list Entry) : Prop :=
  Forall (fun r => contains_char "|" (Network r) = false) l.

Lemma key_index_mem l r : clean l -> contains_char "|" (Network r) = false ->
  index_by entry_key l !! entry_key r = Some r <-> r ∈ l.
Proof.
  intros Hc Hr. split.
  - by intros [H _]%index_by_lookup.
  - intros Hin. destruct (index_by_is_Some entry_key l r Hin) as [r' Hr'].
    rewrite Hr'. apply index_by_lookup in Hr' as [Hin' Hk]. f_equal.
    apply entry_key_inj; [|done|done]. by apply (proj1 (Forall_forall _ _) Hc).
Qed.

Lemma key_index_none l r : clean l -> contains_char "|" (Network r) = false ->
  index_by entry_key l !! entry_key r = None <-> r ∉ l.
Proof.
  intros Hc Hr. rewrite <- key_index_mem by done.
  destruct (index_by entry_key l !! entry_key r) as [r'|] eqn:E; [|by split].
  split; [done|]. intros H. exfalso. apply H. f_equal.
  apply index_by_lookup in E as [Hin Hk]. apply entry_key_inj; [|done|done].
  by apply (proj1 (Forall_forall _ _) Hc).
Qed.

(** The removal queued when [d] is added. *)
Definition replaced_by (current : list Entry) (d r : Entry) : Prop :=
  index_by Network current !! Network d = Some r
  /\ Gateway r <> Gateway d /\ Gateway r <> ""%string.

Lemma diff_add_fold cm cbn order a0 r0 :
  let '(a, r) := foldl (diff_add cm cbn) (a0, r0) order in
  (forall e, e ∈ a <-> e ∈ a0 \/ exists k, (k, e) ∈ order /\ cm !! k = None)
  /\ (forall e, e ∈ r <-> e ∈ r0 \/ exists k d, (k, d) ∈ order /\ cm !! k = None
       /\ cbn !! Network d = Some e /\ Gateway e <> Gateway d /\ Gateway e <> ""%string).
Proof.
  revert a0 r0. induction order as [|[k d] order IH]; intros a0 r0; cbn [foldl].
  - split; intros e; (split; [by left|]); intros [?|H]; try done.
    + destruct H as (? & H & _). by apply not_elem_of_nil in H.
    + destruct H as (? & ? & H & _). by apply not_elem_of_nil in H.
  - destruct (diff_add cm cbn (a0, r0) (k, d)) as [a1 r1] eqn:E.
    specialize (IH a1 r1). destruct (foldl (diff_add cm cbn) (a1, r1) order) as [a r].
    destruct IH as [IHa IHr]. unfold diff_add in E.
    destruct (cm !! k) as [cur|] eqn:Ek.
    + simplify_eq. split; intros e; rewrite ?IHa, ?IHr; set_solver.
    + assert (a1 = a0 ++ [d]) as -> by congruence.
      assert (forall e, e ∈ r1 <-> e ∈ r0 \/ (cbn !! Network d = Some e
        /\ Gateway e <> Gateway d /\ Gateway e <> ""%string)) as Hr1.
      { clear IHa IHr. intros e'. simplify_eq. destruct (cbn !! Network d) as [c|]; [|naive_solver].
        destruct (String.eqb_spec (Gateway c) (Gateway d)); simpl; [naive_solver|].
        destruct (String.eqb_spec (Gateway c) ""); simpl; [naive_solver|].
        rewrite elem_of_app, list_elem_of_singleton. naive_solver. }
      split; intros e.
      * rewrite IHa, elem_of_app, list_elem_of_singleton.
        setoid_rewrite elem_of_cons. naive_solver.
      * rewrite IHr, Hr1. setoid_rewrite elem_of_cons. naive_solver.
Qed.

Lemma diff_remove_fold dm dbn order r0 e :
  e ∈ foldl (diff_remove dm dbn) r0 order <->
  e ∈ r0 \/ exists k, (k, e) ∈ order /\ dm !! k = None /\ dbn !! Network e = None
                      /\ Gateway e <> ""%string.
Proof.
  revert r0. induction order as [|[k d] order IH]; intros r0; cbn [foldl].
  - split; [by left|]. intros [?|(? & H & _)]; [done|]. by apply not_elem_of_nil in H.
  - rewrite IH. setoid_rewrite elem_of_cons. unfold diff_remove.
    destruct (dm !! k) eqn:Ek; [naive_solver|].
    destruct (dbn !! Network d) eqn:En; [naive_solver|].
    destruct (String.eqb_spec (Gateway d) ""); simpl; [naive_solver|].
    rewrite elem_of_app, list_elem_of_singleton. naive_solver.
Qed.

Lemma index_order_mem l k r :
  (k, r) ∈ map_to_list (index_by entry_key l) -> k = entry_key r /\ r ∈ l.
Proof. intros [? <-]%elem_of_map_to_list%index_by_lookup. done. Qed.

(** Which routes a diff adds and removes, for separator-free networks. *)
Lemma CalculateDiff_spec current desired :
  clean current -> clean desired ->
  let d := CalculateDiff current desired in
  (forall r, r ∈ d.1 <-> r ∈ desired /\ r ∉ current)
  /\ (forall r, r ∈ d.2 <->
        (exists x, x ∈ desired /\ x ∉ current /\ replaced_by current x r)
        \/ (r ∈ current /\ Gateway r <> ""%string /\ forall x, x ∈ desired -> Network x <> Network r)).
Proof.
  intros Hc Hd. unfold CalculateDiff.
  pose proof (diff_add_fold (index_by entry_key current) (index_by Network current)
    (map_to_list (index_by entry_key desired)) [] []) as H.
  destruct (foldl (diff_add _ _) _ _) as [a r0]. destruct H as [Ha Hr]. cbn [fst snd].
  pose proof (proj1 (Forall_forall _ _) Hc) as Hc'.
  pose proof (proj1 (Forall_forall _ _) Hd) as Hd'.
  assert (forall e, (exists k, (k, e) ∈ map_to_list (index_by entry_key desired)
            /\ index_by entry_key current !! k = None) <-> e ∈ desired /\ e ∉ current) as Hadd.
  { intros e. split.
    - intros (k & [-> Hin]%index_order_mem & Hn). split; [done|].
      apply key_index_none in Hn; auto.
    - intros [Hin Hni]. exists (entry_key e). split.
      + apply elem_of_map_to_list, key_index_mem; auto.
      + apply key_index_none; auto. }
  split; intros e.
  - rewrite Ha, <- Hadd. set_solver.
  - rewrite diff_remove_fold, Hr. split.
    + intros [[Hx|(k & d & Hin & Hn & Hrep)]|(k & [-> Hin]%index_order_mem & Hk & Hn & Hg)].
      * by apply not_elem_of_nil in Hx.
      * left. exists d. destruct (proj1 (Hadd d)) as [? ?]; [eauto|]. done.
      * right. split; [done|]. split; [done|]. by apply index_by_None.
    + intros [(x & Hin & Hni & Hrep)|(Hin & Hg & Hno)].
      * left. right. destruct (proj2 (Hadd x)) as (k & Hk1 & Hk2); [done|].
        exists k, x. done.
      * right. exists (entry_key e). split; [|split; [|split; [|done]]].
        -- apply elem_of_map_to_list, key_index_mem; auto.
        -- apply key_index_none; auto. intros Hin'. by apply (Hno e).
        -- by apply index_by_None.
Qed.

Lemma table_unique l r1 r2 :
  NoDup (Network <$> l) -> r1 ∈ l -> r2 ∈ l -> Network r1 = Network r2 -> r1 = r2.
Proof.
  intros Hnd [i1 H1]%list_elem_of_lookup [i2 H2]%list_elem_of_lookup Hn.
  assert (i1 = i2); [|congruence].
  apply (NoDup_lookup (Network <$> l) i1 i2 (Network r1)); [done| |].
  - by rewrite list_lookup_fmap, H1.
  - rewrite list_lookup_fmap, H2. simpl. by rewrite Hn.
Qed.

(** Under [table_ok] a queued replacement is the one current route of the
    network. *)
Lemma replaced_by_table current x r :
  NoDup (Network <$> current) ->
  replaced_by current x r <->
  r ∈ current /\ Network r = Network x /\ Gateway r <> Gateway x /\ Gateway r <> ""%string.
Proof.
  intros Hnd. unfold replaced_by. split.
  - intros (Hl & ? & ?). apply index_by_lookup in Hl as [??]. done.
  - intros (Hin & Hn & ? & ?). split; [|done].
    destruct (index_by_is_Some Network current r Hin) as [r' Hr'].
    rewrite Hn in Hr'. rewrite Hr'. f_equal.
    apply index_by_lookup in Hr' as [Hin' Hn']. apply (table_unique current); congruence.
Qed.

(** C14. On route tables that name each network once, applying the diff turns
    the current table into the desired one, plus the directly connected routes
    that were already there and that the diff never touches. *)
Theorem diff_correct current desired :
  table_ok current -> table_ok desired ->
  forall r, r ∈ apply_diff (list_to_set current) (CalculateDiff current desired) <->
            r ∈ desired \/ (r ∈ current /\ Gateway r = ""%string).
Proof.
  intros [Hcn Hc] [Hdn Hd] r.
  destruct (CalculateDiff_spec current desired Hc Hd) as [Ha Hr].
  unfold apply_diff. rewrite elem_of_union, elem_of_difference, !elem_of_list_to_set, Ha, Hr.
  setoid_rewrite replaced_by_table; [|done].
  destruct (decide (r ∈ desired)) as [Hin|Hni].
  - split; [by left|]. intros _. destruct (decide (r ∈ current)) as [Hcur|]; [|by right].
    left. split; [done|]. intros [(x & Hx & _ & _ & Hn & Hg & _)|(_ & _ & Hno)].
    + apply Hg. f_equal. by apply (table_unique desired).
    + by apply (Hno r).
  - split.
    + intros [[Hcur Hnr]|[? _]]; [|done]. right. split; [done|].
      destruct (decide (Gateway r = ""%string)) as [|Hg]; [done|]. exfalso. apply Hnr.
      destruct (index_by Network desired !! Network r) as [x|] eqn:E.
      * apply index_by_lookup in E as [Hx Hn]. left. exists x. split; [done|].
        assert (Gateway r <> Gateway x) as Hgx.
        { intros Hgx. apply Hni. assert (r = x) as ->; [|done].
          destruct r, x; simpl in *; congruence. }
        split; [|done]. intros Hxc. apply Hgx. f_equal. by apply (table_unique current).
      * right. split; [done|]. split; [done|]. by apply index_by_None.
    + intros [?|[Hcur Hg]]; [done|]. left. split; [done|].
      intros [(? & _ & _ & _ & _ & _ & ?)|(_ & ? & _)]; done.
Qed.

Definition sample_current : list Entry :=
  [ {| Network := "10.1.0.0/16"; Gateway := "10.99.0.2" |};
    {| Network := "10.2.0.0/16"; Gateway := "10.99.0.3" |};
    {| Network := "10.99.0.0/16"; Gateway := "" |} ].
Definition sample_desired : list Entry :=
  [ {| Network := "10.1.0.0/16"; Gateway := "10.99.0.7" |};
    {| Network := "10.5.0.0/16"; Gateway := "10.99.0.3" |} ].

Lemma diff_correct_witness :
  {| Network := "10.1.0.0/16"; Gateway := "10.99.0.7" |}
    ∈ apply_diff (list_to_set sample_current) (CalculateDiff sample_current sample_desired)
  /\ {| Network := "10.1.0.0/16"; Gateway := "10.99.0.2" |}
    ∉ apply_diff (list_to_set sample_current) (CalculateDiff sample_current sample_desired).
Proof.
  assert (table_ok sample_current) as Hc by by_compute.
  assert (table_ok sample_desired) as Hd by by_compute.
  split.
  - apply (diff_correct sample_current sample_desired Hc Hd). left. left.
  - intros [H|[_ H]]%(diff_correct sample_current sample_desired Hc Hd); [|done].
    absurd_compute H.
Defined.

(** The diff is minimal: it adds only missing routes, removes only
    existing, gateway-routed ones, never a desired one, and never names the
    same route on both sides. *)
Theorem diff_minimal current desired :
  table_ok current -> table_ok desired ->
  let d := CalculateDiff current desired in
  (forall r, r ∈ d.1 -> r ∈ desired /\ r ∉ current)
  /\ (forall r, r ∈ d.2 -> r ∈ current /\ r ∉ desired /\ Gateway r <> ""%string).
Proof.
  intros [Hcn Hc] [Hdn Hd]. destruct (CalculateDiff_spec current desired Hc Hd) as [Ha Hr].
  split; intros r; [by rewrite Ha|]. rewrite Hr. setoid_rewrite replaced_by_table; [|done].
  intros [(x & Hx & _ & Hin & Hn & Hg & ?)|(? & ? & Hno)].
  - split; [done|]. split; [|done]. intros Hrd. apply Hg. f_equal. by apply (table_unique desired).
  - split; [done|]. split; [|done]. intros Hrd. by apply (Hno r).
Qed.

Lemma diff_minimal_witness :
  table_ok sample_current /\ table_ok sample_desired
  /\ (forall r, r ∈ (CalculateDiff sample_current sample_desired).2 -> Gateway r <> ""%string).
Proof.
  assert (table_ok sample_current) as Hc by by_compute.
  assert (table_ok sample_desired) as Hd by by_compute.
  split; [done|]. split; [done|]. intros r Hr.
  by apply (proj2 (diff_minimal sample_current sample_desired Hc Hd)).
Defined.

(** Two current routes to one network: the code keeps one of them in
    [currentByNetwork], and a stale one survives the diff. *)
Definition dup_current : list Entry :=
  [ {| Network := "10.1.0.0/16"; Gateway := "10.99.0.2" |};
    {| Network := "10.1.0.0/16"; Gateway := "10.99.0.3" |} ].
Definition dup_desired : list Entry :=
  [ {| Network := "10.1.0.0/16"; Gateway := "10.99.0.2" |} ].

(** A network that has two current gateways, one of them desired: the
    diff is empty, and the route through the other gateway stays. *)
Theorem diff_keeps_stale_duplicate :
  CalculateDiff dup_current dup_desired = ([], [])
  /\ {| Network := "10.1.0.0/16"; Gateway := "10.99.0.3" |}
       ∈ apply_diff (list_to_set dup_current) (CalculateDiff dup_current dup_desired).
Proof. split; [by vm_compute|by_compute]. Qed.

Lemma contains_app_r s t : contains t "/" = true -> contains (String.append s t) "/" = true.
Proof.
  intros H. induction s as [|c s IH]; str_simpl; [done|]. cbn [contains]. rewrite IH. apply orb_true_r.
Qed.

(** Normalising a network read from the kernel is idempotent, so a
    normalised and a configured CIDR are compared on equal terms. *)
Theorem NormalizeNetwork_idem n : NormalizeNetwork (NormalizeNetwork n) = NormalizeNetwork n.
Proof.
  assert (forall s, contains s "/" = true -> NormalizeNetwork s = s) as H.
  { intros s Hs. unfold NormalizeNetwork. by rewrite Hs. }
  unfold NormalizeNetwork at 2 3. destruct (contains n "/") eqn:E; simpl; [by apply H|].
  destruct (Nat.eqb _ 3) eqn:E3; [by apply H, contains_app_r|].
  destruct (contains n ":") eqn:E6; [by apply H, contains_app_r|].
  unfold NormalizeNetwork. by rewrite E, E3, E6.
Qed.

(** A line [NETWORK via GATEWAY ...] printed by the kernel is read back
    as that route by both parsers, whatever follows and whatever blanks
    surround it. *)
Theorem parse_route_line_via n g rest line :
  Forall word (n :: g :: rest) -> n <> "via"%string ->
  fields line = fields (join " " (n :: "via"%string :: g :: rest)) ->
  let e := {| Network := NormalizeNetwork n; Gateway := g |} in
  parse_route_line line = Some e /\ ssh_parse_route_line line = Some e.
Proof.
  intros Hw Hn Hl. rewrite fields_join in Hl.
  2:{ apply Forall_cons in Hw as [? Hw]. constructor; [done|]. by constructor. }
  apply Forall_cons in Hw as [_ Hw]. apply Forall_cons in Hw as [[Hg _] _].
  unfold parse_route_line, ssh_parse_route_line. rewrite fields_trim_space, Hl.
  cbn [via_gateway]. apply String.eqb_neq in Hn, Hg. rewrite Hn. simpl. rewrite Hg.
  split; [done|]. destruct (String.eqb_spec (trim_space line) ""); [|done].
  rewrite <- fields_trim_space, e in Hl. done.
Qed.

Lemma parse_route_line_via_witness :
  parse_route_line "  192.168.5.5 via 10.99.0.2 proto static " =
  Some {| Network := "192.168.5.5/32"; Gateway := "10.99.0.2" |}.
Proof.
  apply (parse_route_line_via "192.168.5.5" "10.99.0.2" ["proto"; "static"]%string).
  - by_compute.
  - done.
  - by vm_compute.
Defined.
