(* ===== verification/Derive.v ===== *)
(** * Key and address derivation (pkg/crypto/derive.go, pkg/daemon/collision.go)

    Everything a mesh node computes from the shared secret: the derived keys,
    its mesh addresses in the default 10.0.0.0/8 layout and in a custom subnet,
    and what happens when two nodes derive the same address.

    HKDF (golang.org/x/crypto) is an interface, [Hkdf]; RFC 5869 over HMAC-SHA256
    is an instance of it. *)

From S2P Require Import Prelude GoStrings GoNet GoCrypto PeerStore.
Local Open Scope Z_scope.

(** ** HKDF as an interface *)

Class Hkdf := {
  (* [hkdf_read secret info n]: the first [n] bytes of the key stream, if the
     reader can deliver them. *)
  hkdf_read : string -> string -> nat -> option (list Z);
  hkdf_length : forall secret info n bs,
    hkdf_read secret info n = Some bs -> length bs = n;
  hkdf_bytes : forall secret info n bs,
    hkdf_read secret info n = Some bs -> Forall is_byte bs;
  (* RFC 5869: up to 255 blocks are available. *)
  hkdf_available : forall secret info n,
    (n <= 255 * 32)%nat -> is_Some (hkdf_read secret info n)
}.

(** ** The derived keys *)

Definition MinSecretLength : nat := 16.
Definition hkdfInfoGossipKey : string := "wgmesh-gossip-v1".
Definition hkdfInfoSubnet : string := "wgmesh-subnet-v1".
Definition hkdfInfoIPv6Prefix : string := "wgmesh-ipv6-prefix-v1".
Definition hkdfInfoMulticast : string := "wgmesh-mcast-v1".
Definition hkdfInfoPSK : string := "wgmesh-wg-psk-v1".
Definition hkdfInfoGossipPort : string := "wgmesh-gossip-port-v1".
Definition hkdfInfoMembership : string := "wgmesh-membership-v1".
Definition hkdfInfoEpoch : string := "wgmesh-epoch-v1".
Definition hkdfRendezvousSuffix : string := "rv".
Definition networkIDSize : nat := 20.
Definition rendezvousIDSize : nat := 8.
Definition ipv6PrefixTailSize : nat := 7.
Definition GossipPortBase : Z := 51821.
Definition gossipPortRange : Z := 1000.

Record DerivedKeys := {
  NetworkID : list Z;
  GossipKey : list Z;
  MeshSubnet : list Z;
  MeshPrefixV6 : list Z;
  MulticastID : list Z;
  PSK : list Z;
  GossipPort : Z;
  RendezvousID : list Z;
  MembershipKey : list Z;
  EpochSeed : list Z;
}.

Definition deriveHKDF `{Hkdf} (secret info : string) (n : nat) : result (list Z) :=
  match hkdf_read secret info n with
  | Some bs => Ok bs
  | None => Err "EOF"
  end.

Definition DeriveKeys `{Hkdf} (secret : string) : result DerivedKeys :=
  (if Nat.ltb (String.length secret) MinSecretLength
   then Err "secret must be at least 16 characters"
   else
     let hash := sha256_string secret in
     gossip <-? wrap "failed to derive gossip key" (deriveHKDF secret hkdfInfoGossipKey 32);
     subnet <-? wrap "failed to derive mesh subnet" (deriveHKDF secret hkdfInfoSubnet 2);
     tail <-? wrap "failed to derive mesh ipv6 prefix"
                (deriveHKDF secret hkdfInfoIPv6Prefix ipv6PrefixTailSize);
     mcast <-? wrap "failed to derive multicast ID" (deriveHKDF secret hkdfInfoMulticast 4);
     psk <-? wrap "failed to derive PSK" (deriveHKDF secret hkdfInfoPSK 32);
     port <-? wrap "failed to derive gossip port" (deriveHKDF secret hkdfInfoGossipPort 2);
     let rvHash := sha256_string (String.append secret hkdfRendezvousSuffix) in
     membership <-? wrap "failed to derive membership key" (deriveHKDF secret hkdfInfoMembership 32);
     epoch <-? wrap "failed to derive epoch seed" (deriveHKDF secret hkdfInfoEpoch 32);
     Ok {| NetworkID := take networkIDSize hash;
           GossipKey := gossip;
           MeshSubnet := subnet;
           MeshPrefixV6 := 253 :: tail;
           MulticastID := mcast;
           PSK := psk;
           GossipPort := u16 (GossipPortBase + be_uint port mod gossipPortRange);
           RendezvousID := take rendezvousIDSize rvHash;
           MembershipKey := membership;
           EpochSeed := epoch |})%wg.

(** Hour of a time; [t.Unix() / 3600] truncates towards zero. *)
Definition hour_epoch (t : Time) : Z := Z.quot (time_to_unix t) 3600.

Definition DeriveNetworkIDWithTime (secret : string) (t : Time) : list Z :=
  let input := String.append secret (String.append "||" (itoa (hour_epoch t))) in
  take networkIDSize (sha256_string input).

Definition GetCurrentAndPreviousNetworkIDs (secret : string) (now : Time) : list Z * list Z :=
  (DeriveNetworkIDWithTime secret now, DeriveNetworkIDWithTime secret (time_add now (-1 * hour))).

Definition MeshID (dk : DerivedKeys) : string := hex_bytes (take 6 (NetworkID dk)).

(** ** Mesh addresses *)

Definition byte_at (l : list Z) (i : nat) : Z := nth i l 0.

Definition DeriveMeshIP (meshSubnet : list Z) (wgPubKey secret : string) : string :=
  let hash := sha256_string (String.append wgPubKey secret) in
  let highByte := Z.lxor (byte_at hash 0) (byte_at meshSubnet 1) in
  let lowByte := byte_at hash 1 in
  let lowByte := if lowByte =? 0 then 1 else if lowByte =? 255 then 254 else lowByte in
  ipv4_string [10; byte_at meshSubnet 0; highByte; lowByte].

(** The interface identifier and its two flag bits; the all-zero check of the
    source follows. *)
Definition mesh_iid (hash : list Z) : list Z :=
  let iid := take 8 hash in
  let iid := <[0%nat := Z.land (Z.lor (byte_at iid 0) 2) 254]> iid in
  if forallb (fun b => b =? 0) iid then <[7%nat := 1]> iid else iid.

Definition mesh_ipv6_bytes (meshPrefixV6 : list Z) (wgPubKey secret : string) : list Z :=
  let input := String.append wgPubKey (String.append "|" (String.append secret "|ipv6")) in
  meshPrefixV6 ++ mesh_iid (sha256_string input).

Definition DeriveMeshIPv6 (meshPrefixV6 : list Z) (wgPubKey secret : string) : string :=
  ip_string (mesh_ipv6_bytes meshPrefixV6 wgPubKey secret).

Definition validateIPv4Subnet (subnet : IPNet) : result Z :=
  let '(ones, bits) := mask_size (net_mask subnet) in
  if negb (bits =? 32) then Err "only IPv4 subnets are supported for mesh IP derivation"
  else
    let hostBits := bits - ones in
    if hostBits <? 2 then Err "subnet too small: need at least 2 host bits (/30 max)"
    else Ok hostBits.

(** The loop of [addHostNum], from the last byte backwards. *)
Fixpoint add_host_rev (l : list Z) (remaining : Z) : list Z :=
  match l with
  | [] => []
  | b :: l' =>
      if 0 <? remaining then
        let sum := b + Z.land remaining 255 in
        Z.land sum 255 :: add_host_rev l' (Z.shiftr remaining 8 + Z.shiftr sum 8)
      else l
  end.

Definition addHostNum (base : list Z) (hostNum : Z) : list Z :=
  rev (add_host_rev (rev base) hostNum).

Definition maxHosts (hostBits : Z) : Z := Z.shiftl 1 hostBits - 2.

Definition host_num (hash : list Z) (hostBits : Z) : Z :=
  be_uint (take 8 hash) mod maxHosts hostBits + 1.

Definition DeriveMeshIPInSubnet (subnet : IPNet) (wgPubKey secret : string) : result string :=
  (hostBits <-? validateIPv4Subnet subnet;
   let hash := sha256_string (String.append wgPubKey secret) in
   Ok (ip_string (addHostNum (net_ip subnet) (host_num hash hostBits))))%wg.

(** [fmt.Sprintf("%d:%s|%d:%s|nonce=%d", ...)]: length-prefixed fields. *)
Definition nonce_input (wgPubKey secret : string) (nonce : Z) : string :=
  String.append (itoa (Z.of_nat (String.length wgPubKey))) (String.append ":" (String.append wgPubKey
    (String.append "|" (String.append (itoa (Z.of_nat (String.length secret))) (String.append ":"
      (String.append secret (String.append "|nonce=" (itoa nonce)))))))).

Definition DeriveMeshIPInSubnetWithNonce (subnet : IPNet) (wgPubKey secret : string) (nonce : Z)
  : result string :=
  (hostBits <-? validateIPv4Subnet subnet;
   let hash := sha256_string (nonce_input wgPubKey secret nonce) in
   Ok (ip_string (addHostNum (net_ip subnet) (host_num hash hostBits))))%wg.

Definition ParseSubnetOrDefault (cidr : string) : result (option IPNet) :=
  if String.eqb cidr "" then Ok None
  else match parse_cidr cidr with
       | Some (_, subnet) => Ok (Some subnet)
       | None => Err "invalid subnet CIDR"
       end.

(** ** Collisions *)

Record CollisionInfo := { ci_MeshIP : string; Peer1 : PeerInfo; Peer2 : PeerInfo }.

(** Body of the loop of [DetectCollisions]: the first claimant of each address
    and the collisions found so far. *)
Definition detect_step (acc : gmap string PeerInfo * list CollisionInfo) (peer : PeerInfo)
  : gmap string PeerInfo * list CollisionInfo :=
  let '(ipMap, collisions) := acc in
  if String.eqb (MeshIP peer) "" then acc
  else match ipMap !! MeshIP peer with
       | Some existing =>
           if negb (String.eqb (WGPubKey existing) (WGPubKey peer))
           then (ipMap, collisions ++ [{| ci_MeshIP := MeshIP peer; Peer1 := existing; Peer2 := peer |}])
           else acc
       | None => (<[MeshIP peer := peer]> ipMap, collisions)
       end.

Definition detect_peers (peers : list PeerInfo) : list CollisionInfo :=
  (foldl detect_step (∅, []) peers).2.

Definition DetectCollisions (ps : PeerStore) : list CollisionInfo := detect_peers (GetAll ps).

Definition DeterministicWinner (peer1 peer2 : PeerInfo) : PeerInfo * PeerInfo :=
  if str_lt (WGPubKey peer1) (WGPubKey peer2) then (peer1, peer2) else (peer2, peer1).

Definition DeriveMeshIPWithNonce (meshSubnet : list Z) (wgPubKey secret : string) (nonce : Z) : string :=
  let hash := sha256_string (nonce_input wgPubKey secret nonce) in
  let suffix := be_uint (take 2 hash) in
  let suffix := if suffix =? 0 then 1 else if suffix =? 65535 then 65534 else suffix in
  ipv4_string [10; byte_at meshSubnet 0; Z.land (Z.shiftr suffix 8) 255; Z.land suffix 255].

(** A failed derivation is logged and gives the empty string. *)
Definition ResolveCollision (collision : CollisionInfo) (meshSubnet : list Z) (secret : string)
    (customSubnet : option IPNet) : string :=
  let loser := (DeterministicWinner (Peer1 collision) (Peer2 collision)).2 in
  match customSubnet with
  | Some net =>
      match DeriveMeshIPInSubnetWithNonce net (WGPubKey loser) secret 1 with
      | Ok ip => ip
      | Err _ => ""
      end
  | None => DeriveMeshIPWithNonce meshSubnet (WGPubKey loser) secret 1
  end.

(** The address a node falls back to for a given nonce. *)
Definition derive_nonce (customSubnet : option IPNet) (meshSubnet : list Z)
    (wgPubKey secret : string) (nonce : Z) : result string :=
  match customSubnet with
  | Some net => DeriveMeshIPInSubnetWithNonce net wgPubKey secret nonce
  | None => Ok (DeriveMeshIPWithNonce meshSubnet wgPubKey secret nonce)
  end.

(** One collision handled by [CheckAndResolveCollisions]: the local address
    after it, and the address given to the interface, if any. *)
Definition resolve_local (customSubnet : option IPNet) (meshSubnet : list Z) (secret localKey : string)
    (prefixLen : Z) (meshIP : string) (collision : CollisionInfo) : string * list string :=
  let loser := (DeterministicWinner (Peer1 collision) (Peer2 collision)).2 in
  if String.eqb (WGPubKey loser) localKey then
    match derive_nonce customSubnet meshSubnet localKey secret 1 with
    | Err _ => (meshIP, [])
    | Ok newIP => (newIP, [String.append newIP (String.append "/" (itoa prefixLen))])
    end
  else (meshIP, []).

Definition CheckAndResolveCollisions (customSubnet : option IPNet) (meshSubnet : list Z)
    (secret localKey : string) (prefixLen : Z) (ps : PeerStore) (meshIP : string)
  : string * list string :=
  foldl (fun '(ip, cmds) c =>
           let '(ip', cs) := resolve_local customSubnet meshSubnet secret localKey prefixLen ip c in
           (ip', cmds ++ cs))
        (meshIP, []) (DetectCollisions ps).

Definition safeKeyPrefix (key : string) : string :=
  if Nat.ltb 8 (String.length key) then String.append (str_take 8 key) "..." else key.

(** The loop over nonces 1..10: the candidate [ip] is returned as soon as it is
    free or ours. *)
Fixpoint collision_loop (rounds : nat) (nonce : Z) (derive : Z -> result string)
    (wgPubKey : string) (existingIPs : gmap string string) (ip : string) : string :=
  match rounds with
  | O => ip
  | S rounds =>
      if match existingIPs !! ip with
         | None => true
         | Some owner => String.eqb owner wgPubKey
         end
      then ip
      else match derive nonce with
           | Err _ => ""
           | Ok ip' => collision_loop rounds (nonce + 1) derive wgPubKey existingIPs ip'
           end
  end.

Definition DeriveMeshIPWithCollisionCheck (meshSubnet : list Z) (wgPubKey secret : string)
    (existingIPs : gmap string string) (customSubnet : option IPNet) : string :=
  let first :=
    match customSubnet with
    | Some net => DeriveMeshIPInSubnet net wgPubKey secret
    | None => Ok (DeriveMeshIP meshSubnet wgPubKey secret)
    end in
  match first with
  | Err _ => ""
  | Ok ip =>
      collision_loop 10 1 (derive_nonce customSubnet meshSubnet wgPubKey secret)
        wgPubKey existingIPs ip
  end.

(** ** RFC 5869 as an instance of the interface *)

Definition hkdf_prk (secret : string) : list Z :=
  hmac_sha256 (replicate 32 0) (bytes_of_string secret).

Fixpoint hkdf_expand (blocks : nat) (prk info prev : list Z) (i : Z) : list Z :=
  match blocks with
  | O => []
  | S blocks =>
      let t := hmac_sha256 prk (prev ++ info ++ [i]) in
      t ++ hkdf_expand blocks prk info t (i + 1)
  end.

Definition rfc5869_read (secret info : string) (n : nat) : option (list Z) :=
  if Nat.leb n (255 * 32) then
    Some (take n (hkdf_expand ((n + 31) / 32) (hkdf_prk secret) (bytes_of_string info) [] 1))
  else None.

Lemma hkdf_expand_length k prk info prev i : length (hkdf_expand k prk info prev i) = (32 * k)%nat.
Proof.
  revert prev i. induction k as [|k IH]; intros prev i; [done|].
  cbn [hkdf_expand]. rewrite length_app, IH, hmac_length. lia.
Qed.

Lemma hkdf_expand_bytes k prk info prev i : Forall is_byte (hkdf_expand k prk info prev i).
Proof.
  revert prev i. induction k as [|k IH]; intros prev i; [constructor|].
  cbn [hkdf_expand]. apply Forall_app. split; [apply hmac_bytes|apply IH].
Qed.

Lemma rfc5869_length secret info n bs : rfc5869_read secret info n = Some bs -> length bs = n.
Proof.
  unfold rfc5869_read. destruct (Nat.leb n (255 * 32)); [|done].
  intros [= <-]. rewrite length_take, hkdf_expand_length. apply Nat.min_l.
  change (Nat.divmod (n + 31) 31 0 31).1 with ((n + 31) / 32)%nat.
  pose proof (Nat.div_mod_eq (n + 31) 32).
  assert ((n + 31) mod 32 < 32)%nat by (by apply Nat.mod_upper_bound). lia.
Qed.

Lemma rfc5869_bytes secret info n bs : rfc5869_read secret info n = Some bs -> Forall is_byte bs.
Proof.
  unfold rfc5869_read. destruct (Nat.leb n (255 * 32)); [|done].
  intros [= <-]. apply Forall_take, hkdf_expand_bytes.
Qed.

Lemma rfc5869_available secret info n :
  (n <= 255 * 32)%nat -> is_Some (rfc5869_read secret info n).
Proof. intros H%Nat.leb_le. unfold rfc5869_read. rewrite H. eauto. Qed.

#[export] Instance rfc5869 : Hkdf := {|
  hkdf_read := rfc5869_read;
  hkdf_length := rfc5869_length;
  hkdf_bytes := rfc5869_bytes;
  hkdf_available := rfc5869_available
|}.

(** ** Lemmas on the keys *)

Lemma deriveHKDF_ok `{Hkdf} secret info n :
  (n <= 255 * 32)%nat ->
  exists bs, deriveHKDF secret info n = Ok bs /\ length bs = n /\ Forall is_byte bs.
Proof.
  intros Hn. destruct (hkdf_available secret info n Hn) as [bs Hbs].
  exists bs. unfold deriveHKDF. rewrite Hbs. split; [done|].
  split; [by eapply hkdf_length|by eapply hkdf_bytes].
Qed.

(** Every field has the size of its array in [DerivedKeys], the prefix is a
    unique local one and the port lies in the gossip range. *)
Definition keys_ok (k : DerivedKeys) : Prop :=
  length (NetworkID k) = 20%nat /\ length (GossipKey k) = 32%nat
  /\ length (MeshSubnet k) = 2%nat /\ length (MeshPrefixV6 k) = 8%nat
  /\ length (MulticastID k) = 4%nat /\ length (PSK k) = 32%nat
  /\ length (RendezvousID k) = 8%nat /\ length (MembershipKey k) = 32%nat
  /\ length (EpochSeed k) = 32%nat
  /\ Forall is_byte (MeshSubnet k) /\ Forall is_byte (MeshPrefixV6 k)
  /\ byte_at (MeshPrefixV6 k) 0 = 253
  /\ GossipPortBase <= GossipPort k < GossipPortBase + gossipPortRange.

Lemma gossip_port_range p :
  0 <= p -> GossipPortBase <= u16 (GossipPortBase + p mod gossipPortRange) < GossipPortBase + gossipPortRange.
Proof.
  unfold u16, GossipPortBase, gossipPortRange. intros Hp.
  pose proof (Z.mod_pos_bound p 1000 ltac:(lia)). rewrite Z.mod_small; lia.
Qed.

(** One HKDF read that succeeds. *)
Ltac derive_step info n bs Hl Hb :=
  let E := fresh in
  match goal with |- context [deriveHKDF ?s info n] =>
    destruct (deriveHKDF_ok s info n ltac:(unfold ipv6PrefixTailSize; lia)) as (bs & E & Hl & Hb);
    rewrite E; clear E
  end.

Lemma derive_keys_total `{Hkdf} secret :
  if Nat.ltb (String.length secret) MinSecretLength
  then exists e, DeriveKeys secret = Err e
  else exists k, DeriveKeys secret = Ok k /\ keys_ok k.
Proof.
  unfold DeriveKeys. destruct (Nat.ltb _ _); [by eexists|].
  derive_step hkdfInfoGossipKey 32%nat gk Hgk Bgk. derive_step hkdfInfoSubnet 2%nat sub Hsub Bsub.
  derive_step hkdfInfoIPv6Prefix ipv6PrefixTailSize v6 Hv6 Bv6.
  derive_step hkdfInfoMulticast 4%nat mc Hmc Bmc. derive_step hkdfInfoPSK 32%nat pk Hpk Bpk.
  derive_step hkdfInfoGossipPort 2%nat po Hpo Bpo.
  derive_step hkdfInfoMembership 32%nat mb Hmb Bmb. derive_step hkdfInfoEpoch 32%nat ep Hep Bep.
  cbn [wrap rbind]. eexists. split; [reflexivity|]. unfold keys_ok, ipv6PrefixTailSize in *. simpl.
  unfold sha256_string. rewrite !length_take, !sha256_length.
  repeat (split; [done || (simpl; congruence) || (constructor; [unfold is_byte; lia|done])|]).
  apply gossip_port_range. pose proof (be_uint_bound po Bpo). lia.
Qed.

(** Key derivation is total and well formed on every secret of at least 16
    bytes: all arrays are filled, the IPv6 prefix is a unique local (fd) one,
    the gossip port is one of 51821..52820 without 16-bit overflow; a shorter
    secret is refused. *)
Theorem DeriveKeys_total `{Hkdf} secret :
  if Nat.ltb (String.length secret) MinSecretLength
  then exists e, DeriveKeys secret = Err e
  else exists k, DeriveKeys secret = Ok k /\ keys_ok k.
Proof. apply derive_keys_total. Qed.

Lemma DeriveKeys_total_witness :
  exists k, @DeriveKeys rfc5869 "0123456789abcdef" = Ok k /\ keys_ok k.
Proof. exact (@DeriveKeys_total rfc5869 "0123456789abcdef"). Defined.

(** ** Lemmas on addresses *)

Lemma byte_at_byte l i : Forall is_byte l -> is_byte (byte_at l i).
Proof.
  intros H. unfold byte_at. destruct (decide (i < length l)%nat) as [Hi|Hi].
  - by apply (proj1 (List.Forall_nth is_byte l)).
  - rewrite nth_overflow by lia. unfold is_byte. lia.
Qed.

Lemma lxor_byte a b : is_byte a -> is_byte b -> is_byte (Z.lxor a b).
Proof.
  unfold is_byte. intros Ha Hb. split; [apply Z.lxor_nonneg; lia|].
  assert (Z.lxor a b = Z.land (Z.lxor a b) 255) as ->; [|apply land_255_byte].
  rewrite <- (land_255 a Ha), <- (land_255 b Hb) at 1. apply Z.bits_inj. intros n.
  rewrite !Z.land_spec, !Z.lxor_spec, !Z.land_spec.
  by destruct (Z.testbit a n), (Z.testbit b n), (Z.testbit 255 n).
Qed.

Lemma is_byte_const n : is_byteb n = true -> is_byte n.
Proof. by rewrite is_byteb_spec. Qed.

(** Little-endian value, for the backwards loop of [addHostNum]. *)
Definition le_uint (l : list Z) : Z := foldr (fun b acc => b + 256 * acc) 0 l.

Lemma be_uint_rev l : be_uint (rev l) = le_uint l.
Proof.
  induction l as [|b l IH]; [done|]. simpl. rewrite be_uint_app, IH. unfold le_uint. simpl. lia.
Qed.

Lemma shift_mask_split r : 0 <= r -> r = Z.land r 255 + 256 * Z.shiftr r 8 /\ 0 <= Z.land r 255 < 256
  /\ 0 <= Z.shiftr r 8.
Proof.
  intros Hr. change 255 with (Z.ones 8). rewrite Z.land_ones, Z.shiftr_div_pow2 by lia.
  change (2 ^ 8) with 256. div_lia.
Qed.

Lemma add_host_rev_spec l r :
  Forall is_byte l -> 0 <= r ->
  length (add_host_rev l r) = length l /\ Forall is_byte (add_host_rev l r)
  /\ le_uint (add_host_rev l r) = (le_uint l + r) mod 256 ^ Z.of_nat (length l).
Proof.
  revert r. induction l as [|b l IH]; intros r Hb Hr.
  - split; [done|]. split; [done|]. simpl. by rewrite Z.mod_1_r.
  - cbn [add_host_rev]. destruct (Z.ltb_spec 0 r).
    + apply Forall_cons in Hb as [Hb Hl]. unfold is_byte in Hb.
      destruct (shift_mask_split r Hr) as (Er & Bl & Bh).
      set (sum := b + Z.land r 255).
      destruct (shift_mask_split sum ltac:(lia)) as (Es & Bsl & Bsh).
      destruct (IH (Z.shiftr r 8 + Z.shiftr sum 8)) as (I1 & I2 & I3); [done|lia|].
      split; [simpl; by rewrite I1|]. split; [by constructor|].
      unfold le_uint in *. cbn [foldr length]. rewrite I3.
      rewrite Nat2Z.inj_succ, Z.pow_succ_r by lia.
      set (M := 256 ^ Z.of_nat (length l)). assert (0 < M) by (apply Z.pow_pos_nonneg; lia).
      set (v := foldr _ _ l) in *.
      replace (b + 256 * v + r) with (Z.land sum 255 + 256 * (v + (Z.shiftr r 8 + Z.shiftr sum 8))) by lia.
      rewrite (Z.rem_mul_r _ 256 M) by lia.
      set (x := v + (Z.shiftr r 8 + Z.shiftr sum 8)). rewrite (Z.mul_comm 256 x).
      rewrite Z.mod_add, Z.div_add by lia.
      rewrite (Z.mod_small (Z.land sum 255)), (Z.div_small (Z.land sum 255)) by lia.
      by rewrite Z.add_0_l.
    + assert (r = 0) as -> by lia. rewrite Z.add_0_r. split; [done|]. split; [done|].
      pose proof (be_uint_bound (rev (b :: l))) as B. rewrite be_uint_rev, length_rev in B.
      rewrite Z.mod_small; [done|]. apply B. by apply Forall_rev.
Qed.

Lemma addHostNum_spec base h :
  Forall is_byte base -> 0 <= h ->
  length (addHostNum base h) = length base /\ Forall is_byte (addHostNum base h)
  /\ be_uint (addHostNum base h) = (be_uint base + h) mod 256 ^ Z.of_nat (length base).
Proof.
  intros Hb Hh. unfold addHostNum.
  destruct (add_host_rev_spec (rev base) h) as (H1 & H2 & H3); [by apply Forall_rev|done|].
  rewrite length_rev in H1, H3. rewrite length_rev. split; [done|].
  split; [by apply Forall_rev|]. rewrite be_uint_rev, H3. f_equal. f_equal.
  by rewrite <- be_uint_rev, rev_involutive.
Qed.

(** An IPv4 network as [ParseCIDR] builds it: the host bits of the base are
    clear. *)
Definition v4_network (net : IPNet) (base : list Z) (n : Z) : Prop :=
  net = v4net base n /\ length base = 4%nat /\ Forall is_byte base /\ 0 <= n <= 32
  /\ be_uint base mod 2 ^ (32 - n) = 0.

Lemma parse_ipv6_long s ip : parse_ipv6 s = Some ip -> (16 <= length ip)%nat.
Proof.
  unfold parse_ipv6. destruct (contains_char "%" s); [done|].
  generalize (match s with String ":" (String ":" s') => (Some 0%nat, s') | _ => (None, s) end).
  intros [ell s'].
  assert (forall o, match o with
      | Some (ip, ell', EmptyString) =>
            if Nat.ltb (length ip) 16 then
              match ell' with
              | None => None
              | Some e => Some (take e ip ++ replicate (16 - length ip) 0 ++ drop e ip)
              end
            else match ell' with None => Some ip | Some _ => None end
      | _ => None end = Some ip -> (16 <= length ip)%nat) as H.
  { intros [[[l e] [|? ?]]|]; try done. destruct (Nat.ltb_spec (length l) 16).
    - destruct e as [e|]; [|done]. intros [= <-].
      rewrite !length_app, length_replicate, length_take, length_drop. lia.
    - destruct e; [done|]. by intros [= <-]. }
  destruct ell as [k|].
  - destruct s'; [by intros [= <-]|]. apply H.
  - apply H.
Qed.

Lemma parse_ipv4_bytes s ip : parse_ipv4 s = Some ip -> length ip = 4%nat /\ Forall is_byte ip.
Proof.
  unfold parse_ipv4. destruct (split_char "." s) as [|a [|b [|c [|d [|]]]]]; try done.
  destruct (parse_octet a) eqn:Ea; [|done]. destruct (parse_octet b) eqn:Eb; [|done].
  destruct (parse_octet c) eqn:Ec; [|done]. destruct (parse_octet d) eqn:Ed; [|done].
  intros [= <-]. split; [done|]. repeat constructor; by eapply parse_octet_byte.
Qed.

Lemma mask_size_not_v4 m : length m <> 4%nat -> (mask_size m).2 <> 32.
Proof. intros H. unfold mask_size. destruct (simple_mask_length m); simpl; lia. Qed.

(** A validated subnet read from a CIDR string is an IPv4 network of at most 30
    bits. *)
Lemma parsed_subnet cidr net hb :
  ParseSubnetOrDefault cidr = Ok (Some net) -> validateIPv4Subnet net = Ok hb ->
  exists base n, v4_network net base n /\ hb = 32 - n /\ 2 <= hb.
Proof.
  unfold ParseSubnetOrDefault. destruct (String.eqb cidr ""); [done|].
  destruct (parse_cidr cidr) as [[a net']|] eqn:E; [|done]. intros [= ->].
  unfold parse_cidr in E. destruct (cut_char "/" cidr) as [[addr m]|]; [|done].
  destruct (parse_addr addr) as [ip|] eqn:Ea; [|done].
  destruct (String.eqb m EmptyString || negb (string_forall is_digit m)) eqn:Em; [done|].
  destruct (atoi m) as [n|] eqn:En; [|done]. destruct (Z.ltb_spec (8 * Z.of_nat (length ip)) n); [done|].
  injection E as <- <-. bool_steps. apply atoi_digits_nonneg in En; [|done].
  unfold validateIPv4Subnet. cbn [net_mask].
  destruct (decide (length ip = 4%nat)) as [Hl|Hl].
  - assert (Forall is_byte ip) as Hb.
    { unfold parse_addr in Ea. destruct (addr_kind_of addr); [by apply parse_ipv4_bytes in Ea as []| |done].
      apply parse_ipv6_long in Ea. lia. }
    rewrite Hl in *. rewrite mask_size_cidr by lia. cbn [negb Z.eqb Pos.eqb].
    destruct (Z.ltb_spec (32 - n) 2); [done|]. intros [= <-].
    exists (zip_with Z.land ip (cidr_mask 4 n)), n. split; [|lia].
    unfold v4_network, v4net. split.
    { f_equal. unfold ip_mask, as16. rewrite Hl, cidr_mask_length.
      by do 5 (destruct ip as [|? ip]; try done). }
    rewrite length_zip_with, cidr_mask_length, Hl. split; [done|].
    split; [by apply zip_land_bytes|]. split; [lia|].
    pose proof (be_uint_mask ip n Hb) as HM. rewrite Hl in HM. rewrite HM by lia.
    change (8 * Z.of_nat 4) with 32. by rewrite Z.mod_mul by (apply Z.pow_nonzero; lia).
  - pose proof (mask_size_not_v4 (cidr_mask (length ip) n)) as Hm. rewrite cidr_mask_length in Hm.
    specialize (Hm Hl). destruct (mask_size (cidr_mask (length ip) n)) as [ones bits].
    cbn [snd] in Hm. by destruct (Z.eqb_spec bits 32).
Qed.

(** A printed address of the network that is neither its network address nor
    its broadcast address. *)
Definition usable_host (net : IPNet) (s : string) : Prop :=
  exists base n v4, v4_network net base n /\ length v4 = 4%nat
  /\ parse_ip s = Some (v4_in_v6_prefix ++ v4)
  /\ net_contains net v4 = true
  /\ be_uint base < be_uint v4 < be_uint base + 2 ^ (32 - n) - 1.

Lemma host_num_bounds hash hb :
  Forall is_byte hash -> 2 <= hb -> 1 <= host_num hash hb <= 2 ^ hb - 2.
Proof.
  intros Hb Hh. unfold host_num, maxHosts. rewrite Z.shiftl_1_l.
  assert (2 ^ 2 <= 2 ^ hb) by (apply Z.pow_le_mono_r; lia). change (2 ^ 2) with 4 in *.
  pose proof (Z.mod_pos_bound (be_uint (take 8 hash)) (2 ^ hb - 2) ltac:(lia)). lia.
Qed.

Lemma network_fits base n : length base = 4%nat -> Forall is_byte base -> 0 <= n <= 32 ->
  be_uint base mod 2 ^ (32 - n) = 0 -> be_uint base + 2 ^ (32 - n) <= 2 ^ 32.
Proof.
  intros Hl Hb Hn Hz. pose proof (be_uint_bound base Hb) as B. rewrite Hl in B.
  change (256 ^ Z.of_nat 4) with (2 ^ 32) in B. set (P := 2 ^ (32 - n)) in *.
  assert (0 < P) by (apply Z.pow_pos_nonneg; lia).
  assert (2 ^ 32 = 2 ^ n * P) as E by (unfold P; rewrite <- Z.pow_add_r; [f_equal|..]; lia).
  apply Z.mod_divide in Hz as [k Hk]; [|lia].
  rewrite E in *. assert (k < 2 ^ n) by nia. nia.
Qed.

(** Adding a host number of the usable range stays in the network. *)
Lemma addHostNum_usable net base n h :
  v4_network net base n -> 1 <= h <= 2 ^ (32 - n) - 2 -> usable_host net (ip_string (addHostNum base h)).
Proof.
  intros Hnet Hh. pose proof Hnet as (-> & Hl & Hb & Hn & Hz).
  destruct (addHostNum_spec base h) as (H1 & H2 & H3); [done|lia|].
  pose proof (network_fits base n Hl Hb Hn Hz) as Hfit.
  pose proof (be_uint_bound base Hb) as B. rewrite Hl in H1, H3, B.
  change (256 ^ Z.of_nat 4) with (2 ^ 32) in H3, B. rewrite Z.mod_small in H3 by lia.
  exists base, n, (addHostNum base h). split; [done|]. split; [done|]. split; [|split; [|lia]].
  - unfold ip_string, to4. rewrite H1. cbn [Nat.eqb].
    destruct (addHostNum base h) as [|a [|b [|c [|d [|]]]]]; try done.
    do 4 (apply Forall_cons in H2 as [? H2]). by apply parse_ip_ipv4_string.
  - apply net_contains_v4; [done..|]. rewrite H3.
    apply Z.mod_divide in Hz as [k Hk]; [|apply Z.pow_nonzero; lia]. rewrite Hk.
    assert (2 ^ (32 - n) <> 0) by (apply Z.pow_nonzero; lia).
    rewrite Z.div_mul, Z.div_add_l, Z.div_small by lia. lia.
Qed.

(** ** Properties of the addresses *)

Lemma subnet_ip_ok cidr net wgPubKey secret nonce :
  ParseSubnetOrDefault cidr = Ok (Some net) -> is_ok (validateIPv4Subnet net) = true ->
  (exists s, DeriveMeshIPInSubnet net wgPubKey secret = Ok s /\ usable_host net s)
  /\ (exists s, DeriveMeshIPInSubnetWithNonce net wgPubKey secret nonce = Ok s /\ usable_host net s).
Proof.
  intros Hp Hv. unfold DeriveMeshIPInSubnet, DeriveMeshIPInSubnetWithNonce.
  destruct (validateIPv4Subnet net) as [hb|] eqn:Ev; [|done]. simpl.
  destruct (parsed_subnet cidr net hb Hp Ev) as (base & n & Hnet & -> & Hhb).
  assert (net_ip net = base) as -> by (by destruct Hnet as [-> _]).
  split; eexists; (split; [reflexivity|]); apply (addHostNum_usable net base n); try done;
    apply host_num_bounds; auto with wgmesh; unfold sha256_string; auto with wgmesh.
Qed.

(** C24. In a custom subnet read from the configuration and accepted by
    [validateIPv4Subnet], the derived address, and its fallback for every nonce,
    is printed in a form [ParseIP] reads back, lies in the subnet, and is
    neither the network nor the broadcast address. *)
Theorem subnet_ip_usable cidr net wgPubKey secret nonce :
  ParseSubnetOrDefault cidr = Ok (Some net) -> is_ok (validateIPv4Subnet net) = true ->
  (exists s, DeriveMeshIPInSubnet net wgPubKey secret = Ok s /\ usable_host net s)
  /\ (exists s, DeriveMeshIPInSubnetWithNonce net wgPubKey secret nonce = Ok s /\ usable_host net s).
Proof. apply subnet_ip_ok. Qed.

Lemma subnet_ip_usable_witness :
  exists net s, ParseSubnetOrDefault "192.168.64.0/22" = Ok (Some net)
  /\ DeriveMeshIPInSubnet net "pubkey" "0123456789abcdef" = Ok s /\ usable_host net s.
Proof.
  destruct (ParseSubnetOrDefault "192.168.64.0/22") as [[net|]|] eqn:E; try discriminate E.
  assert (is_ok (validateIPv4Subnet net) = true) as Hv.
  { vm_compute in E. injection E as <-. reflexivity. }
  destruct (subnet_ip_usable "192.168.64.0/22" net "pubkey" "0123456789abcdef" 1 E Hv)
    as [(s & Hs & Hu) _].
  exists net, s. split; [reflexivity|]. split; [exact Hs|exact Hu].
Defined.

Lemma bytes4 a b c d :
  is_byte a -> is_byte b -> is_byte c -> is_byte d -> Forall is_byte [a; b; c; d].
Proof. intros. by repeat (apply Forall_cons; split; [assumption|]). Qed.

(** The /16 of the default layout. *)
Definition default_net (meshSubnet : list Z) : IPNet := v4net [10; byte_at meshSubnet 0; 0; 0] 16.

Lemma default_ip_ok meshSubnet wgPubKey secret :
  length meshSubnet = 2%nat -> Forall is_byte meshSubnet ->
  exists x y, parse_ip (DeriveMeshIP meshSubnet wgPubKey secret)
                = Some (v4_in_v6_prefix ++ [10; byte_at meshSubnet 0; x; y])
  /\ 1 <= y <= 254
  /\ net_contains (default_net meshSubnet) [10; byte_at meshSubnet 0; x; y] = true.
Proof.
  intros Hl Hb. unfold DeriveMeshIP. set (hash := sha256_string _).
  assert (Forall is_byte hash) as Hh by apply sha256_bytes.
  pose proof (byte_at_byte hash 0 Hh) as B0. pose proof (byte_at_byte hash 1 Hh) as B1.
  pose proof (byte_at_byte meshSubnet 0 Hb) as S0. pose proof (byte_at_byte meshSubnet 1 Hb) as S1.
  pose proof (lxor_byte _ _ B0 S1) as BX.
  set (x := Z.lxor (byte_at hash 0) (byte_at meshSubnet 1)) in *.
  set (y := if byte_at hash 1 =? 0 then 1 else if byte_at hash 1 =? 255 then 254 else byte_at hash 1).
  assert (1 <= y <= 254) as Hy.
  { unfold y. destruct (Z.eqb_spec (byte_at hash 1) 0); [lia|].
    destruct (Z.eqb_spec (byte_at hash 1) 255); [lia|]. unfold is_byte in B1. lia. }
  assert (is_byte 10) as B10 by by apply is_byte_const.
  assert (is_byte y) as BY by (unfold is_byte; lia).
  assert (is_byte 0) as BZ by by apply is_byte_const.
  exists x, y. split; [by apply parse_ip_ipv4_string|]. split; [done|].
  apply net_contains_v4; [done|by apply bytes4|done|by apply bytes4|lia|].
  rewrite !be_uint_cons. change (be_uint []) with 0. cbn [length Z.of_nat Pos.of_succ_nat].
  unfold is_byte in *. change (2 ^ (32 - 16)) with 65536.
  change (256 ^ 3) with 16777216. change (256 ^ 2) with 65536. change (256 ^ 1) with 256.
  generalize dependent (byte_at meshSubnet 0). intros s0 S0. div_lia.
Qed.

(** In the default layout a mesh address reads back as
    10.<subnet[0]>.<x>.<y> inside the mesh's /16 with [y] in 1..254. *)
Theorem default_ip_usable meshSubnet wgPubKey secret :
  length meshSubnet = 2%nat -> Forall is_byte meshSubnet ->
  exists x y, parse_ip (DeriveMeshIP meshSubnet wgPubKey secret)
                = Some (v4_in_v6_prefix ++ [10; byte_at meshSubnet 0; x; y])
  /\ 1 <= y <= 254
  /\ net_contains (default_net meshSubnet) [10; byte_at meshSubnet 0; x; y] = true.
Proof. apply default_ip_ok. Qed.

Lemma default_ip_usable_witness :
  exists x y, parse_ip (DeriveMeshIP [42; 7] "pubkey" "0123456789abcdef")
              = Some (v4_in_v6_prefix ++ [10; 42; x; y]) /\ 1 <= y <= 254.
Proof.
  destruct (default_ip_usable [42; 7] "pubkey" "0123456789abcdef") as (x & y & H & Hy & _).
  - reflexivity.
  - by_compute.
  - exists x, y. split; [exact H|exact Hy].
Defined.

(** The collision fallback of the default layout clamps only the 16-bit
    suffix and leaves the second subnet byte out: for these keys it gives a
    network (.0) and a broadcast (.255) last octet, whatever the byte. *)
Theorem nonce_fallback_not_clamped s1 :
  DeriveMeshIPWithNonce [42; s1] "peer631" "0123456789abcdef" 1 = "10.42.137.0"%string
  /\ DeriveMeshIPWithNonce [42; s1] "peer224" "0123456789abcdef" 1 = "10.42.219.255"%string.
Proof. split; by vm_compute. Qed.

(** A mesh IPv6 address keeps the mesh's /64 prefix and has the interface
    bits of a locally administered unicast identifier; the all-zero guard of
    the source never fires. *)
Theorem mesh_ipv6_shape prefix wgPubKey secret :
  length prefix = 8%nat ->
  let ip := mesh_ipv6_bytes prefix wgPubKey secret in
  length ip = 16%nat /\ take 8 ip = prefix
  /\ Z.testbit (byte_at ip 8) 1 = true /\ Z.testbit (byte_at ip 8) 0 = false
  /\ forallb (fun b => b =? 0) (drop 8 ip) = false.
Proof.
  intros Hl. unfold mesh_ipv6_bytes, mesh_iid. set (hash := sha256_string _).
  assert (length hash = 32%nat) as Hh by apply sha256_length.
  destruct hash as [|h0 hash]; [done|].
  assert (length (take 7 hash) = 7%nat) as Ht by (rewrite length_take; simpl in Hh; lia).
  assert (forall h, Z.testbit (Z.land (Z.lor h 2) 254) 1 = true) as Hb1.
  { intros h. rewrite Z.land_spec, Z.lor_spec. by rewrite orb_true_r. }
  assert (forall h, Z.testbit (Z.land (Z.lor h 2) 254) 0 = false) as Hb0.
  { intros h. rewrite Z.land_spec. apply andb_false_r. }
  assert (Z.land (Z.lor h0 2) 254 <> 0) as Hnz.
  { intros E. specialize (Hb1 h0). rewrite E in Hb1. done. }
  cbn [take]. change (byte_at (h0 :: take 7 hash) 0) with h0.
  change (<[0%nat := Z.land (Z.lor h0 2) 254]> (h0 :: take 7 hash))
    with (Z.land (Z.lor h0 2) 254 :: take 7 hash).
  cbn [forallb]. apply Z.eqb_neq in Hnz. rewrite Hnz. cbn [andb].
  rewrite length_app, Hl. cbn [length]. rewrite Ht. split; [done|].
  rewrite take_app_length', drop_app_length' by done.
  unfold byte_at. rewrite !app_nth2, Hl by lia.
  cbn [Nat.sub nth forallb]. rewrite Hnz. by auto.
Qed.

Lemma mesh_ipv6_shape_witness :
  take 8 (mesh_ipv6_bytes [253; 1; 2; 3; 4; 5; 6; 7] "pubkey" "0123456789abcdef")
  = [253; 1; 2; 3; 4; 5; 6; 7].
Proof. apply (mesh_ipv6_shape [253; 1; 2; 3; 4; 5; 6; 7] "pubkey" "0123456789abcdef"). reflexivity. Defined.

(** ** Properties of collision handling *)

Lemma winner_cases p q :
  DeterministicWinner p q = (p, q) /\ str_lt (WGPubKey p) (WGPubKey q) = true
  \/ DeterministicWinner p q = (q, p) /\ str_lt (WGPubKey p) (WGPubKey q) = false.
Proof. unfold DeterministicWinner. destruct (str_lt _ _); auto. Qed.

(** Both parties of a collision agree without talking: in whichever order
    each of them found the pair, the loser is the same, the winner keeps its
    address and runs no command, and the loser moves to its nonce-1 address. *)
Theorem collision_agreement p q custom sub secret plen ipw ipl ip' :
  WGPubKey p <> WGPubKey q ->
  let '(w, l) := DeterministicWinner p q in
  derive_nonce custom sub (WGPubKey l) secret 1 = Ok ip' ->
  forall c1 c2,
  (Peer1 c1, Peer2 c1) = (p, q) -> (Peer1 c2, Peer2 c2) = (q, p) ->
  forall c, c = c1 \/ c = c2 ->
  resolve_local custom sub secret (WGPubKey w) plen ipw c = (ipw, [])
  /\ (resolve_local custom sub secret (WGPubKey l) plen ipl c).1 = ip'
  /\ WGPubKey w <> WGPubKey l.
Proof.
  intros Hne.
  assert (DeterministicWinner q p = DeterministicWinner p q) as Hsym.
  { unfold DeterministicWinner. rewrite (str_lt_asym (WGPubKey p)) by done.
    by destruct (str_lt (WGPubKey q) (WGPubKey p)). }
  assert ((DeterministicWinner p q).1 = p /\ (DeterministicWinner p q).2 = q
       \/ (DeterministicWinner p q).1 = q /\ (DeterministicWinner p q).2 = p) as Hpq.
  { destruct (winner_cases p q) as [[-> _]|[-> _]]; auto. }
  destruct (DeterministicWinner p q) as [w l] eqn:E. cbn [fst snd] in Hpq.
  intros Hd c1 c2 H1 H2 c Hc.
  assert ((DeterministicWinner (Peer1 c) (Peer2 c)).2 = l) as Hl.
  { destruct Hc as [-> | ->]; [injection H1 as -> ->|injection H2 as -> ->];
      [by rewrite E|by rewrite Hsym]. }
  assert (WGPubKey w <> WGPubKey l) as Hwl by (destruct Hpq as [[-> ->]|[-> ->]]; congruence).
  unfold resolve_local. rewrite Hl, String.eqb_refl, Hd.
  destruct (String.eqb_spec (WGPubKey l) (WGPubKey w)); [congruence|]. done.
Qed.

Lemma collision_agreement_witness :
  let p := sample_peer "keyA" "" "" 0 in
  let q := sample_peer "keyB" "" "" 0 in
  let c := {| ci_MeshIP := ""; Peer1 := q; Peer2 := p |} in
  resolve_local None [42; 7] "0123456789abcdef" "keyA" 16 "10.42.0.9" c = ("10.42.0.9"%string, [])
  /\ (resolve_local None [42; 7] "0123456789abcdef" "keyB" 16 "10.42.0.9" c).1
     = DeriveMeshIPWithNonce [42; 7] "keyB" "0123456789abcdef" 1.
Proof.
  set (p := sample_peer "keyA" "" "" 0). set (q := sample_peer "keyB" "" "" 0).
  set (c1 := {| ci_MeshIP := ""; Peer1 := p; Peer2 := q |}).
  set (c := {| ci_MeshIP := ""; Peer1 := q; Peer2 := p |}).
  assert (WGPubKey p <> WGPubKey q) as Hne by discriminate.
  destruct (collision_agreement p q None [42; 7] "0123456789abcdef" 16 "10.42.0.9" "10.42.0.9"
    _ Hne eq_refl c1 c eq_refl eq_refl c (or_intror eq_refl)) as (H1 & H2 & _).
  split; [exact H1|exact H2].
Defined.

(** The addresses of the peers walked so far, and what was reported. *)
Definition claimed (peers : list PeerInfo) (m : gmap string PeerInfo) : Prop :=
  (forall ip p, m !! ip = Some p -> p ∈ peers /\ MeshIP p = ip /\ ip <> ""%string)
  /\ (forall p, p ∈ peers -> MeshIP p <> ""%string -> is_Some (m !! MeshIP p)).

Definition collides (p q : PeerInfo) : Prop :=
  MeshIP p = MeshIP q /\ MeshIP p <> ""%string /\ WGPubKey p <> WGPubKey q.

Definition reported (peers : list PeerInfo) (cs : list CollisionInfo) : Prop :=
  (forall c, c ∈ cs -> Peer1 c ∈ peers /\ Peer2 c ∈ peers /\ collides (Peer1 c) (Peer2 c)
                      /\ ci_MeshIP c = MeshIP (Peer1 c)).

(** With nothing reported, the walked peers have addresses of their own. *)
Definition separated (peers : list PeerInfo) (m : gmap string PeerInfo) : Prop :=
  forall p, p ∈ peers -> MeshIP p <> ""%string ->
  exists q, m !! MeshIP p = Some q /\ WGPubKey q = WGPubKey p.

Lemma detect_fold peers :
  let '(m, cs) := foldl detect_step (∅, []) peers in
  claimed peers m /\ reported peers cs /\ (cs = [] -> separated peers m).
Proof.
  induction peers as [|p peers IH] using rev_ind.
  - simpl. split; [|split].
    + split; [by intros|]. intros p Hp. by apply not_elem_of_nil in Hp.
    + intros c Hc. by apply not_elem_of_nil in Hc.
    + intros _ p Hp. by apply not_elem_of_nil in Hp.
  - rewrite foldl_app. simpl. destruct (foldl detect_step (∅, []) peers) as [m cs].
    destruct IH as ([Hm1 Hm2] & Hr & Hs). unfold detect_step.
    assert (reported (peers ++ [p]) cs) as Hr'.
    { intros c Hc. destruct (Hr c Hc) as (? & ? & ?). rewrite !elem_of_app. auto. }
    destruct (String.eqb_spec (MeshIP p) "") as [He|He].
    + split; [|split; [done|]].
      * split; [intros ip q Hq; rewrite elem_of_app; naive_solver|].
        intros q [Hq|Hq%list_elem_of_singleton]%elem_of_app; [by apply Hm2|by subst].
      * intros Hcs q [Hq|Hq%list_elem_of_singleton]%elem_of_app Hn; [by apply Hs|by subst].
    + destruct (m !! MeshIP p) as [e|] eqn:Ee.
      * assert (claimed (peers ++ [p]) m) as Hcl.
        { split; [intros ip q Hq; rewrite elem_of_app; naive_solver|].
          intros q [Hq|Hq%list_elem_of_singleton]%elem_of_app; [by apply Hm2|subst; by eexists]. }
        destruct (String.eqb_spec (WGPubKey e) (WGPubKey p)) as [Hk|Hk]; simpl.
        -- split; [done|]. split; [done|].
           intros Hcs q [Hq|Hq%list_elem_of_singleton]%elem_of_app Hn; [by apply Hs|subst; eauto].
        -- split; [done|]. split; [|by destruct cs].
           intros c [Hc|Hc%list_elem_of_singleton]%elem_of_app; [by apply Hr'|]. subst c. simpl.
           destruct (Hm1 _ _ Ee) as (Hin & Hip & _). rewrite !elem_of_app, !list_elem_of_singleton.
           unfold collides. rewrite Hip. naive_solver.
      * split; [|split; [done|]].
        -- split.
           ++ intros ip q. rewrite lookup_insert. case_decide; rewrite elem_of_app, list_elem_of_singleton.
              ** intros [= ->]. subst. auto.
              ** intros Hq. destruct (Hm1 _ _ Hq). auto.
           ++ intros q [Hq|Hq%list_elem_of_singleton]%elem_of_app Hn; rewrite lookup_insert;
                case_decide; try by eexists. { by apply Hm2. } by subst.
        -- intros Hcs q [Hq|Hq%list_elem_of_singleton]%elem_of_app Hn; rewrite lookup_insert.
           ++ destruct (Hm2 q Hq Hn) as [x Hx]. case_decide as Hd; [|by apply Hs]. congruence.
           ++ subst. rewrite decide_True by done. eauto.
Qed.

Lemma detect_spec peers :
  reported peers (detect_peers peers)
  /\ (detect_peers peers = [] -> forall p q, p ∈ peers -> q ∈ peers -> ~ collides p q).
Proof.
  unfold detect_peers. pose proof (detect_fold peers) as H.
  destruct (foldl detect_step (∅, []) peers) as [m cs]. destruct H as (_ & Hr & Hs).
  split; [done|]. cbn [snd]. intros Hcs p q Hp Hq (Hip & Hn & Hk).
  destruct (Hs Hcs p Hp Hn) as (x & Hx & Hxk).
  destruct (Hs Hcs q Hq) as (y & Hy & Hyk); [congruence|].
  rewrite Hip in Hx. congruence.
Qed.

(** Collision detection is exact: every reported pair is two stored peers
    with different keys and one non-empty address, and if anything collides,
    something is reported. *)
Theorem detect_collisions_exact ps :
  (forall c, c ∈ DetectCollisions ps ->
     Peer1 c ∈ GetAll ps /\ Peer2 c ∈ GetAll ps /\ collides (Peer1 c) (Peer2 c))
  /\ (DetectCollisions ps = [] <-> forall p q, p ∈ GetAll ps -> q ∈ GetAll ps -> ~ collides p q).
Proof.
  unfold DetectCollisions. destruct (detect_spec (GetAll ps)) as [Hr Hn]. split.
  - intros c Hc. destruct (Hr c Hc) as (? & ? & ? & _). auto.
  - split; [done|]. intros H. destruct (detect_peers (GetAll ps)) as [|c cs]; [done|].
    destruct (Hr c) as (H1 & H2 & H3 & _); [by left|]. by destruct (H _ _ H1 H2).
Qed.

(** ** The derivation with a collision check *)

Definition ip_free (existingIPs : gmap string string) (wgPubKey ip : string) : Prop :=
  match existingIPs !! ip with
  | None => True
  | Some owner => owner = wgPubKey
  end.

Lemma collision_loop_spec rounds nonce derive key ex ip :
  let r := collision_loop rounds nonce derive key ex ip in
  ip_free ex key r
  \/ (exists i, nonce <= i < nonce + Z.of_nat rounds /\ is_ok (derive i) = false /\ r = ""%string)
  \/ (rounds = 0%nat /\ r = ip)
  \/ (rounds <> 0%nat /\ derive (nonce + Z.of_nat rounds - 1) = Ok r
      /\ ~ ip_free ex key ip
      /\ forall i c, nonce <= i < nonce + Z.of_nat rounds - 1 -> derive i = Ok c -> ~ ip_free ex key c).
Proof.
  cbv zeta. revert nonce ip. induction rounds as [|rounds IH]; intros nonce ip; cbn [collision_loop]; [auto|].
  destruct (match ex !! ip with None => true | Some owner => String.eqb owner key end) eqn:E.
  - left. unfold ip_free. destruct (ex !! ip); [by apply String.eqb_eq|done].
  - assert (~ ip_free ex key ip) as Hip.
    { unfold ip_free. destruct (ex !! ip); [by apply String.eqb_neq|done]. }
    destruct (derive nonce) as [c0|e] eqn:Ed.
    2:{ right. left. exists nonce. rewrite Ed. split; [lia|done]. }
    destruct (IH (nonce + 1) c0) as [H|[(i & Hi & H)|[[-> H]|(Hr & Hd & Hc0 & H)]]].
    + by left.
    + right. left. exists i. split; [lia|done].
    + right. right. right. split; [done|]. rewrite H. cbn [collision_loop] in *.
      replace (nonce + Z.of_nat 1 - 1) with nonce by lia. split; [done|].
      split; [done|]. intros i c Hi. lia.
    + right. right. right. split; [done|].
      replace (nonce + Z.of_nat (S rounds) - 1) with (nonce + 1 + Z.of_nat rounds - 1) by lia.
      split; [done|]. split; [done|]. intros i c Hi Hdi.
      destruct (decide (i = nonce)) as [-> |]; [congruence|]. apply (H i); [lia|done].
Qed.

(** The checked derivation returns an address nobody else holds, or the
    empty string when the subnet is unusable, or, after ten candidates that are
    all taken, the eleventh one unchecked. *)
Theorem collision_check_spec sub key secret existing custom :
  let r := DeriveMeshIPWithCollisionCheck sub key secret existing custom in
  ip_free existing key r \/ r = ""%string
  \/ (derive_nonce custom sub key secret 10 = Ok r
      /\ forall i c, 1 <= i < 10 -> derive_nonce custom sub key secret i = Ok c -> ~ ip_free existing key c).
Proof.
  unfold DeriveMeshIPWithCollisionCheck.
  destruct (match custom with Some net => _ | None => _ end) as [ip|e]; [|auto].
  destruct (collision_loop_spec 10 1 (derive_nonce custom sub key secret) key existing ip)
    as [H|[(i & _ & _ & H)|[[? _]|(_ & Hd & _ & H)]]]; [auto|auto|done|].
  right. right. split; [exact Hd|]. intros i c Hi. by apply H.
Qed.
