(* ===== verification/Aead.v ===== *)
(** * AES-256-GCM ([crypto/aes], [crypto/cipher])

    The program seals every message and every stored mesh state with AES-256 in
    Galois/counter mode, a 12-byte nonce and no additional data.  [Aead] is what
    the rest of the development relies on; [aes_gcm] is the cipher itself (FIPS
    197, NIST SP 800-38D), executable and checked on the standard vectors, as
    its instance. *)

From S2P Require Import Prelude GoStrings GoCrypto.
Local Open Scope Z_scope.

Class Aead := {
  seal : list Z -> list Z -> list Z -> list Z;            (* key nonce plaintext *)
  open : list Z -> list Z -> list Z -> option (list Z);   (* key nonce ciphertext *)
  open_seal : forall key nonce pt,
    length key = 32%nat -> length nonce = 12%nat -> Forall is_byte pt ->
    open key nonce (seal key nonce pt) = Some pt;
  seal_length : forall key nonce pt, length (seal key nonce pt) = (length pt + 16)%nat;
  seal_bytes : forall key nonce pt, Forall is_byte pt -> Forall is_byte (seal key nonce pt)
}.

(** [gcm.Open] panics on a nonce that is not of the standard size ([None]). *)
Definition gcmStandardNonceSize : nat := 12.
Definition gcm_Open `{Aead} (key nonce ciphertext : list Z) : option (option (list Z)) :=
  if Nat.eqb (length nonce) gcmStandardNonceSize then Some (open key nonce ciphertext) else None.

(** ** AES-256 *)

Definition sbox : list Z :=
  [
   99; 124; 119; 123; 242; 107; 111; 197; 48; 1; 103; 43; 254; 215; 171; 118;
   202; 130; 201; 125; 250; 89; 71; 240; 173; 212; 162; 175; 156; 164; 114; 192;
   183; 253; 147; 38; 54; 63; 247; 204; 52; 165; 229; 241; 113; 216; 49; 21;
   4; 199; 35; 195; 24; 150; 5; 154; 7; 18; 128; 226; 235; 39; 178; 117;
   9; 131; 44; 26; 27; 110; 90; 160; 82; 59; 214; 179; 41; 227; 47; 132;
   83; 209; 0; 237; 32; 252; 177; 91; 106; 203; 190; 57; 74; 76; 88; 207;
   208; 239; 170; 251; 67; 77; 51; 133; 69; 249; 2; 127; 80; 60; 159; 168;
   81; 163; 64; 143; 146; 157; 56; 245; 188; 182; 218; 33; 16; 255; 243; 210;
   205; 12; 19; 236; 95; 151; 68; 23; 196; 167; 126; 61; 100; 93; 25; 115;
   96; 129; 79; 220; 34; 42; 144; 136; 70; 238; 184; 20; 222; 94; 11; 219;
   224; 50; 58; 10; 73; 6; 36; 92; 194; 211; 172; 98; 145; 149; 228; 121;
   231; 200; 55; 109; 141; 213; 78; 169; 108; 86; 244; 234; 101; 122; 174; 8;
   186; 120; 37; 46; 28; 166; 180; 198; 232; 221; 116; 31; 75; 189; 139; 138;
   112; 62; 181; 102; 72; 3; 246; 14; 97; 53; 87; 185; 134; 193; 29; 158;
   225; 248; 152; 17; 105; 217; 142; 148; 155; 30; 135; 233; 206; 85; 40; 223;
   140; 161; 137; 13; 191; 230; 66; 104; 65; 153; 45; 15; 176; 84; 187; 22].

Definition sub_byte (b : Z) : Z := nth (Z.to_nat b) sbox 0.
Definition xtime (b : Z) : Z := if b <? 128 then 2 * b else Z.lxor (2 * b) 283.

Definition shift_index : list nat := [0; 5; 10; 15; 4; 9; 14; 3; 8; 13; 2; 7; 12; 1; 6; 11]%nat.
Definition shift_rows (s : list Z) : list Z := (fun i => nth i s 0) <$> shift_index.

Fixpoint mix_columns (s : list Z) : list Z :=
  match s with
  | a :: b :: c :: d :: rest =>
      let t := Z.lxor (Z.lxor a b) (Z.lxor c d) in
      Z.lxor a (Z.lxor t (xtime (Z.lxor a b))) :: Z.lxor b (Z.lxor t (xtime (Z.lxor b c)))
      :: Z.lxor c (Z.lxor t (xtime (Z.lxor c d))) :: Z.lxor d (Z.lxor t (xtime (Z.lxor d a)))
      :: mix_columns rest
  | _ => []
  end.

Definition xor_bytes (a b : list Z) : list Z := zip_with Z.lxor a b.

(** Round keys: words of four bytes, newest first; [i] counts the words made. *)
Definition rcon : list Z := [1; 2; 4; 8; 16; 32; 64].

Definition next_word (i : nat) (ws : list (list Z)) : list Z :=
  let prev := nth 0 ws [] in
  let t :=
    if Nat.eqb (i mod 8) 0 then
      xor_bytes (sub_byte <$> (drop 1 prev ++ take 1 prev)) [nth (i / 8 - 1) rcon 0; 0; 0; 0]
    else if Nat.eqb (i mod 8) 4 then sub_byte <$> prev
    else prev in
  xor_bytes (nth 7 ws []) t.

Fixpoint expand_words (n i : nat) (ws : list (list Z)) : list (list Z) :=
  match n with
  | O => ws
  | S n => expand_words n (S i) (next_word i ws :: ws)
  end.

Fixpoint chunks (n : nat) (fuel : nat) (l : list Z) : list (list Z) :=
  match fuel with
  | O => []
  | S fuel => match l with [] => [] | _ => take n l :: chunks n fuel (drop n l) end
  end.

Definition round_keys (key : list Z) : list (list Z) :=
  chunks 16 15 (concat (rev (expand_words 52 8 (rev (chunks 4 8 key))))).

Definition aes_block (rks : list (list Z)) (block : list Z) : list Z :=
  match rks with
  | [] => block
  | k0 :: ks =>
      let mid := removelast ks in
      let s := foldl (fun s k => xor_bytes (mix_columns (shift_rows (sub_byte <$> s))) k)
                     (xor_bytes block k0) mid in
      xor_bytes (shift_rows (sub_byte <$> s)) (List.last ks [])
  end.

(** ** GCM *)

(** Multiplication in GF(2^128), the most significant bit of a block being the
    coefficient of 1. *)
Fixpoint gf_mul_go (n : nat) (x v z : Z) : Z :=
  match n with
  | O => z
  | S n =>
      let z := if Z.testbit x (Z.of_nat n) then Z.lxor z v else z in
      let v := if Z.testbit v 0 then Z.lxor (Z.shiftr v 1) (Z.shiftl 225 120) else Z.shiftr v 1 in
      gf_mul_go n x v z
  end.
Definition gf_mul (x y : Z) : Z := gf_mul_go 128 x y 0.

Definition block_value (b : list Z) : Z := be_uint (b ++ replicate (16 - length b) 0).

Definition ghash (h : Z) (ct : list Z) : Z :=
  let blocks := (block_value <$> chunks 16 (length ct) ct) ++ [8 * Z.of_nat (length ct)] in
  foldl (fun y b => gf_mul (Z.lxor y b) h) 0 blocks.

(** The key stream: blocks of counters 2, 3, ... *)
Fixpoint ctr_stream (n : nat) (rks : list (list Z)) (nonce : list Z) (ctr : Z) : list Z :=
  match n with
  | O => []
  | S n => aes_block rks (nonce ++ be_bytes 4 ctr) ++ ctr_stream n rks nonce (u32 (ctr + 1))
  end.

(** XOR with the low byte of a key stream, one byte at a time. *)
Fixpoint xor_stream (l ks : list Z) : list Z :=
  match l with
  | [] => []
  | b :: l => Z.land (Z.lxor b (match ks with k :: _ => k | [] => 0 end)) 255 :: xor_stream l (tl ks)
  end.

Definition gcm_xor (rks : list (list Z)) (nonce data : list Z) : list Z :=
  xor_stream data (ctr_stream ((length data + 15) / 16) rks nonce 2).

Definition gcm_tag (rks : list (list Z)) (nonce ct : list Z) : list Z :=
  let h := be_uint (aes_block rks (replicate 16 0)) in
  be_bytes 16 (Z.lxor (ghash h ct) (be_uint (aes_block rks (nonce ++ [0; 0; 0; 1])))).

Definition gcm_seal (key nonce pt : list Z) : list Z :=
  let rks := round_keys key in
  let ct := gcm_xor rks nonce pt in
  ct ++ gcm_tag rks nonce ct.

Definition gcm_open (key nonce data : list Z) : option (list Z) :=
  if Nat.ltb (length data) 16 then None
  else
    let rks := round_keys key in
    let ct := take (length data - 16) data in
    let tag := drop (length data - 16) data in
    if bool_decide (tag = gcm_tag rks nonce ct) then Some (gcm_xor rks nonce ct) else None.

(** The vectors of the GCM specification for a 256-bit key. *)
Example gcm_vector_13 :
  hex_bytes (gcm_seal (replicate 32 0) (replicate 12 0) []) = "530f8afbc74536b9a963b4f1c4cb738b"%string.
Proof. by vm_compute. Qed.

Example gcm_vector_14 :
  hex_bytes (gcm_seal (replicate 32 0) (replicate 12 0) (replicate 16 0)) =
  "cea7403d4d606b6e074ec5d3baf39d18d0d1c8a799996bf0265b98b5d48ab919"%string.
Proof. by vm_compute. Qed.

(** ** [aes_gcm] is an authenticated cipher in the sense of [Aead] *)

Lemma xor_stream_length l ks : length (xor_stream l ks) = length l.
Proof. revert ks. induction l as [|b l IH]; intros ks; simpl; [done|]. by rewrite IH. Qed.

Lemma xor_stream_bytes l ks : Forall is_byte (xor_stream l ks).
Proof.
  revert ks. induction l as [|b l IH]; intros ks; [constructor|].
  cbn [xor_stream]. constructor; [apply land_255_byte|apply IH].
Qed.

Lemma byte_xor_twice b k : is_byte b -> Z.land (Z.lxor (Z.land (Z.lxor b k) 255) k) 255 = b.
Proof.
  intros Hb. rewrite <- (land_255 b Hb) at 2. apply Z.bits_inj. intros n.
  rewrite !Z.land_spec, !Z.lxor_spec, !Z.land_spec, !Z.lxor_spec.
  by destruct (Z.testbit b n), (Z.testbit k n), (Z.testbit 255 n).
Qed.

Lemma xor_stream_twice l ks : Forall is_byte l -> xor_stream (xor_stream l ks) ks = l.
Proof.
  revert ks. induction l as [|b l IH]; intros ks Hb; [done|].
  apply Forall_cons in Hb as [Hb Hl]. cbn [xor_stream]. f_equal; [by apply byte_xor_twice|by apply IH].
Qed.

Lemma gcm_seal_length key nonce pt : length (gcm_seal key nonce pt) = (length pt + 16)%nat.
Proof.
  unfold gcm_seal, gcm_xor, gcm_tag. by rewrite length_app, xor_stream_length, be_bytes_length.
Qed.

Lemma gcm_seal_bytes key nonce pt : Forall is_byte (gcm_seal key nonce pt).
Proof. apply Forall_app. split; [apply xor_stream_bytes|apply be_bytes_bytes]. Qed.

(** Decryption undoes encryption. *)
Lemma gcm_open_seal key nonce pt : Forall is_byte pt -> gcm_open key nonce (gcm_seal key nonce pt) = Some pt.
Proof.
  intros Hb. unfold gcm_open. rewrite gcm_seal_length.
  destruct (Nat.ltb_spec (length pt + 16) 16); [lia|].
  replace (length pt + 16 - 16)%nat with (length pt) by lia. unfold gcm_seal.
  assert (length pt = length (gcm_xor (round_keys key) nonce pt)) as Hl
    by (unfold gcm_xor; by rewrite xor_stream_length).
  rewrite take_app_length', drop_app_length' by done. rewrite bool_decide_true by done.
  f_equal. unfold gcm_xor. rewrite xor_stream_length. by apply xor_stream_twice.
Qed.

#[export] Instance aes_gcm : Aead := {|
  seal := gcm_seal;
  open := gcm_open;
  open_seal := fun key nonce pt _ _ => gcm_open_seal key nonce pt;
  seal_length := gcm_seal_length;
  seal_bytes := fun key nonce pt _ => gcm_seal_bytes key nonce pt
|}.
