(* ===== verification/GoFloat.v ===== *)
(** * Go's [float64]

    IEEE 754 binary64 with round to nearest even, from the Standard Library's
    computable specification of floats (precision 53, exponent bound 1024). *)

From Stdlib Require Import SpecFloat.
From S2P Require Import Prelude.
Local Open Scope Z_scope.

Definition float64 := spec_float.

(** [float64(z)] for an integer. *)
Definition f_of_Z (z : Z) : float64 := binary_normalize 53 1024 z 0 false.
Definition f_add : float64 -> float64 -> float64 := SFadd 53 1024.
Definition f_sub : float64 -> float64 -> float64 := SFsub 53 1024.
Definition f_mul : float64 -> float64 -> float64 := SFmul 53 1024.
Definition f_div : float64 -> float64 -> float64 := SFdiv 53 1024.
Definition f_lt : float64 -> float64 -> bool := SFltb.
Definition f_le : float64 -> float64 -> bool := SFleb.

(** [int64(f)], which discards the fraction; only used on finite values. *)
Definition f_trunc (f : float64) : Z :=
  match f with
  | S754_finite s m e =>
      let a := if e <? 0 then Z.shiftr (Zpos m) (- e) else Z.shiftl (Zpos m) e in
      if s then - a else a
  | _ => 0
  end.

(** [d.Seconds()]: whole seconds plus the remaining nanoseconds over 1e9. *)
Definition duration_seconds (d : Duration) : float64 :=
  f_add (f_of_Z (Z.quot d second)) (f_div (f_of_Z (Z.rem d second)) (f_of_Z 1000000000)).

(** [time.Duration(seconds * float64(time.Second))] style conversions. *)
Definition f_duration (f : float64) : Duration := f_trunc f.

(** A whole number of seconds survives the round trip, at least for the
    periods a mesh uses. *)
Example duration_seconds_day : f_trunc (duration_seconds (24 * hour)) = 86400.
Proof. by vm_compute. Qed.
Example duration_seconds_half : f_trunc (duration_seconds (90 * second + 500 * millisecond)) = 90.
Proof. by vm_compute. Qed.
