(* ===== verification/GoFmt.v ===== *)
(** * Formatting numbers and columns (packages fmt and strconv)

    The verbs with which the program prints tables: [%.<n>f] of a float64, which
    rounds the exact value half to even, and [%-<n>s], which pads on the right.
    Columns are counted in bytes: the texts in them are ASCII. *)

From Stdlib Require Import SpecFloat DecimalString DecimalZ DecimalPos.
From S2P Require Import Prelude GoStrings GoFloat GoTime.
Local Open Scope wgmesh_scope.

(** ** [%.<n>f] *)

(** The integer nearest to [m * 2 ^ e * 10 ^ prec], ties to even. *)
Definition round_scaled (prec m e : Z) : Z :=
  (let n := m * 10 ^ prec in
   if 0 <=? e then n * 2 ^ e
   else
     let d := 2 ^ (- e) in let q := n / d in let r := n mod d in
     if 2 * r <? d then q else if d <? 2 * r then q + 1 else if Z.even q then q else q + 1)%Z.

Definition fixed (prec n : Z) : string :=
  if (prec =? 0)%Z then itoa n else itoa (n / 10 ^ prec) ^^ "." ^^ pad (Z.to_nat prec) (n mod 10 ^ prec).

Definition fmt_f (prec : Z) (f : float64) : string :=
  match f with
  | S754_zero s => (if s then "-" else "") ^^ fixed prec 0
  | S754_infinity s => if s then "-Inf" else "+Inf"
  | S754_nan => "NaN"
  | S754_finite s m e => (if s then "-" else "") ^^ fixed prec (round_scaled prec (Zpos m) e)
  end.

(** ** The float64 of a JSON number *)

(** The float64 nearest to [a / b]: the quotient to 64 bits and a sticky bit. *)
Definition f_ratio (a b : Z) (sign : bool) : float64 :=
  (let s := Z.max 0 (Z.log2 b - Z.log2 a + 66) in
   let n := Z.shiftl a s in
   let q := n / b in
   let m := 2 * q + (if n mod b =? 0 then 0 else 1) in
   binary_normalize 53 1024 (if sign then - m else m) (- s - 1) sign)%Z.

Definition f_decimal (sign : bool) (n k : Z) : float64 :=
  (if 0 <=? k then binary_normalize 53 1024 (if sign then - (n * 10 ^ k) else n * 10 ^ k) 0 sign
   else f_ratio n (10 ^ (- k)) sign)%Z.

Definition digits_value (s : string) : Z :=
  match NilZero.uint_of_string s with Some d => Z.of_uint d | None => 0%Z end.

Definition read_exponent (s : string) : Z :=
  match s with
  | String c s' =>
      if Ascii.eqb c "e" || Ascii.eqb c "E" then
        match s' with
        | String "-" t => (- digits_value t)%Z
        | String "+" t => digits_value t
        | t => digits_value t
        end
      else 0%Z
  | EmptyString => 0%Z
  end.

(** The value of a literal of the JSON grammar; a value out of range is an error. *)
Definition lit_float (lit : string) : option float64 :=
  let sign := has_prefix lit "-" in
  let s := if sign then str_drop 1 lit else lit in
  let whole := digit_prefix s in
  let rest := str_drop (String.length whole) s in
  let '(frac, rest) := match rest with
                       | String c t =>
                           if Ascii.eqb c "." then (digit_prefix t, str_drop (String.length (digit_prefix t)) t)
                           else (EmptyString, rest)
                       | EmptyString => (EmptyString, rest)
                       end in
  match f_decimal sign (digits_value (whole ^^ frac)) (read_exponent rest - Z.of_nat (String.length frac)) with
  | S754_infinity _ => None
  | f => Some f
  end.

(** ** Columns *)

Fixpoint spaces (n : nat) : string := match n with O => EmptyString | S n' => String " " (spaces n') end.
Definition pad_right (n : nat) (s : string) : string := s ^^ spaces (n - String.length s).

Fixpoint repeat_str (s : string) (n : nat) : string := match n with O => EmptyString | S n' => s ^^ repeat_str s n' end.

(** ** Integers are printed exactly *)

Lemma digits2_shift k p : digits2_pos (Pos.iter xO p k) = (digits2_pos p + k)%positive.
Proof.
  revert p. induction k as [|k IH] using Pos.peano_ind; intros p.
  - cbn. lia.
  - rewrite Pos.iter_succ. cbn [digits2_pos]. rewrite IH. lia.
Qed.

Lemma digits2_lower p : (2 ^ (Zpos (digits2_pos p) - 1) <= Zpos p)%Z.
Proof.
  induction p as [p IH|p IH|]; cbn [digits2_pos]; [| |done];
    rewrite Pos2Z.inj_succ; replace (Z.succ (Zpos (digits2_pos p)) - 1)%Z with (Z.succ (Zpos (digits2_pos p) - 1)) by lia;
    rewrite Z.pow_succ_r by lia; lia.
Qed.

Lemma shift_value k p : Zpos (Pos.iter xO p k) = (Zpos p * 2 ^ Zpos k)%Z.
Proof.
  induction k as [|k IH] using Pos.peano_ind; [cbn; lia|].
  rewrite Pos.iter_succ, Pos2Z.inj_xO, IH, Pos2Z.inj_succ, Z.pow_succ_r by lia. lia.
Qed.

(** An integer below 2^53 is a float64 with the value of the integer. *)
Lemma binary_round_exact s p :
  (Zpos p < 2 ^ 53)%Z ->
  exists m k, binary_round 53 1024 s p 0 = S754_finite s m (- k) /\ (0 <= k)%Z /\ Zpos m = (Zpos p * 2 ^ k)%Z.
Proof.
  intros Hp. assert (Zpos (digits2_pos p) <= 53)%Z as Hd.
  { destruct (Z.le_gt_cases (Zpos (digits2_pos p)) 53) as [|Hgt]; [done|].
    pose proof (digits2_lower p). pose proof (Z.pow_le_mono_r 2 53 (Zpos (digits2_pos p) - 1) ltac:(lia) ltac:(lia)). lia. }
  assert (forall m e, Zpos (digits2_pos m) = 53%Z -> (-53 <= e <= 0)%Z -> binary_round_aux 53 1024 s (Zpos m) e loc_Exact = S754_finite s m e) as Haux.
  { intros m e Hm He. unfold binary_round_aux, shr_fexp, fexp, emin. cbn [Zdigits2]. rewrite Hm.
    replace (Z.max (53 + e - 53) (3 - 1024 - 53) - e)%Z with 0%Z by lia. cbn [shr shr_record_of_loc shr_m loc_of_shr_record].
    cbn [round_nearest_even Zdigits2]. rewrite Hm. replace (Z.max (53 + e - 53) (3 - 1024 - 53) - e)%Z with 0%Z by lia.
    cbn [shr shr_record_of_loc shr_m]. by destruct (Z.leb_spec e (1024 - 53)); [|lia]. }
  unfold binary_round, shl_align, fexp, emin.
  replace (Z.max (Zpos (digits2_pos p) + 0 - 53) (3 - 1024 - 53) - 0)%Z with (Zpos (digits2_pos p) - 53)%Z by lia.
  destruct (Zpos (digits2_pos p) - 53)%Z as [|k|k] eqn:E.
  - exists p, 0%Z. rewrite Haux by lia. split_and!; [done|lia|lia].
  - lia.
  - exists (Pos.iter xO p k), (Zpos k). replace (Z.max (Zpos (digits2_pos p) + 0 - 53) (3 - 1024 - 53)) with (Zneg k) by lia.
    rewrite Haux; [|rewrite digits2_shift, Pos2Z.inj_add; lia|lia]. split_and!; [done|lia|apply shift_value].
Qed.

Lemma round_scaled_exact prec p m k :
  (0 <= prec)%Z -> (0 <= k)%Z -> Zpos m = (Zpos p * 2 ^ k)%Z -> round_scaled prec (Zpos m) (- k) = (Zpos p * 10 ^ prec)%Z.
Proof.
  intros Hprec Hk ->. unfold round_scaled. destruct (Z.leb_spec 0 (- k)).
  - replace k with 0%Z by lia. cbn. lia.
  - rewrite Z.opp_involutive. assert (0 < 2 ^ k)%Z as Hpos by (apply Z.pow_pos_nonneg; lia).
    replace (Zpos p * 2 ^ k * 10 ^ prec)%Z with (Zpos p * 10 ^ prec * 2 ^ k)%Z by lia.
    rewrite Z.div_mul, Z.mod_mul by lia. by destruct (Z.ltb_spec (2 * 0) (2 ^ k)); [|lia].
Qed.

Lemma fixed_whole n : (0 <= n)%Z -> fixed 1 (n * 10) = itoa n ^^ ".0".
Proof. intros Hn. unfold fixed. cbn [Z.eqb]. rewrite Z.pow_1_r, Z.div_mul, Z.mod_mul by lia. done. Qed.

Lemma itoa_neg p : itoa (Zneg p) = "-" ^^ itoa (Zpos p).
Proof. done. Qed.

(** [%.1f] of an integer. *)
Lemma fmt_f_int z : (Z.abs z < 2 ^ 53)%Z -> fmt_f 1 (f_of_Z z) = itoa z ^^ ".0".
Proof.
  intros Hz. unfold f_of_Z, binary_normalize. destruct z as [|p|p]; [done| |].
  - destruct (binary_round_exact false p ltac:(lia)) as (m & k & -> & Hk & Hm). cbn [fmt_f].
    rewrite (round_scaled_exact 1 p m k), Z.pow_1_r by lia. apply fixed_whole. lia.
  - destruct (binary_round_exact true p ltac:(lia)) as (m & k & -> & Hk & Hm). cbn [fmt_f].
    rewrite (round_scaled_exact 1 p m k), Z.pow_1_r, fixed_whole by lia. rewrite itoa_neg. by rewrite app_assoc_str.
Qed.

Lemma digit_prefix_all s : string_forall is_digit s = true -> digit_prefix s = s.
Proof. induction s as [|c s IH]; [done|]. cbn. intros H. bool_steps. rewrite IH by done. by destruct (is_digit c). Qed.

Lemma digits_value_itoa p : digits_value (itoa (Zpos p)) = Zpos p.
Proof.
  unfold digits_value, itoa. cbn [Z.to_int NilZero.string_of_int]. rewrite NilZero.usu by apply DecimalPos.Unsigned.to_uint_nonnil.
  unfold Z.of_uint. by rewrite DecimalPos.Unsigned.of_to.
Qed.


Lemma lit_float_digits sign s :
  string_forall is_digit s = true ->
  (forall lit, has_prefix lit "-" = sign -> (if sign then str_drop 1 lit else lit) = s ->
   lit_float lit = match f_decimal sign (digits_value s) 0 with S754_infinity _ => None | f => Some f end).
Proof.
  intros Hs lit Hp Hd. unfold lit_float. rewrite Hp, Hd, digit_prefix_all by done.
  rewrite str_drop_length. cbn [String.length read_exponent Z.of_nat Z.sub Z.opp Z.add]. by rewrite app_nil_r_str.
Qed.

Lemma itoa_pos_no_sign p : has_prefix (itoa (Zpos p)) "-" = false.
Proof.
  pose proof (itoa_digits (Zpos p) ltac:(lia)) as H. pose proof (itoa_nonempty (Zpos p)).
  destruct (itoa (Zpos p)) as [|c s]; [done|]. cbn [string_forall] in H. bool_steps. unfold has_prefix. cbn [String.prefix].
  by destruct (ascii_dec "-" c) as [<-|].
Qed.

(** The literal of an integer is the float64 of the integer. *)
Lemma lit_float_itoa z : (Z.abs z < 2 ^ 53)%Z -> lit_float (itoa z) = Some (f_of_Z z).
Proof.
  intros Hz. destruct z as [|p|p]; [done| |].
  - rewrite (lit_float_digits false (itoa (Zpos p))); [|by apply itoa_digits|apply itoa_pos_no_sign|done].
    rewrite digits_value_itoa. unfold f_decimal, f_of_Z, binary_normalize. cbn [Z.leb Z.compare Z.pow Z.pow_pos]. rewrite Z.mul_1_r.
    destruct (binary_round_exact false p ltac:(lia)) as (m & k & -> & _). done.
  - rewrite itoa_neg, (lit_float_digits true (itoa (Zpos p))); [|by apply itoa_digits|apply (has_prefix_app "-")|done].
    rewrite digits_value_itoa. unfold f_decimal, f_of_Z, binary_normalize. cbn [Z.leb Z.compare Z.pow Z.pow_pos]. rewrite Z.mul_1_r.
    rewrite Pos2Z.opp_pos. destruct (binary_round_exact true p ltac:(lia)) as (m & k & -> & _). done.
Qed.

Example fmt_f_tie : fmt_f 1 (f_div (f_of_Z 1) (f_of_Z 4)) = "0.2"%string /\ fmt_f 1 (f_div (f_of_Z 3) (f_of_Z 4)) = "0.8"%string.
Proof. by vm_compute. Qed.
Example lit_float_tenth : lit_float "1e-1" = Some (f_div (f_of_Z 1) (f_of_Z 10)) /\ lit_float "-12.50" = Some (f_div (f_of_Z (-25)) (f_of_Z 2)).
Proof. by vm_compute. Qed.

(** * Package text/tabwriter

    A writer made with [NewWriter(out, 0, 0, 2, ' ', 0)]: the cells of a line end
    with tabs, the last one is trailing text.  A column is a run of consecutive
    lines that have a cell in it; it is as wide as its widest cell and two blanks. *)

Definition tab_char : ascii := ascii_of_byte 9.
Definition cells (line : string) : list string := split_char tab_char line.

(** A line has a cell in column [j] when a tab ends it. *)
Definition has_cell (j : nat) (row : list string) : bool := Nat.ltb (S j) (length row).
Definition cell_width (j : nat) (row : list string) : nat := default 0 (String.length <$> row !! j).

Fixpoint run_of (j : nat) (rows : list (list string)) : list (list string) :=
  match rows with
  | row :: rows' => if has_cell j row then row :: run_of j rows' else []
  | [] => []
  end.
Definition column_width (j : nat) (before : list (list string)) (row : list string) (after : list (list string)) : nat :=
  2 + foldr (fun r acc => Nat.max (cell_width j r) acc) 0 (run_of j before ++ row :: run_of j after).

(** The cells of a row from column [j] on; the last one is not padded. *)
Fixpoint render_cells (width : nat -> nat) (j : nat) (row : list string) : string :=
  match row with
  | [] => EmptyString
  | [w] => w
  | w :: row' => pad_right (width j) w ^^ render_cells width (S j) row'
  end.

Fixpoint render_rows (before rows : list (list string)) : list string :=
  match rows with
  | [] => []
  | row :: after => render_cells (fun j => column_width j before row after) 0 row :: render_rows (row :: before) after
  end.
Definition tab_lines (lines : list string) : list string := render_rows [] (cells <$> lines).

(** ** Alignment *)

Lemma run_of_all j rows : Forall (fun r => has_cell j r = true) rows -> run_of j rows = rows.
Proof. induction 1 as [|r rows Hr _ IH]; [done|]. cbv beta in Hr. cbn [run_of]. by rewrite Hr, IH. Qed.

Lemma max_perm j (l l' : list (list string)) : l ≡ₚ l' ->
  foldr (fun r acc => Nat.max (cell_width j r) acc) 0 l = foldr (fun r acc => Nat.max (cell_width j r) acc) 0 l'.
Proof. induction 1; cbn; lia. Qed.

Lemma max_ge j (l : list (list string)) r : r ∈ l -> cell_width j r <= foldr (fun r acc => Nat.max (cell_width j r) acc) 0 l.
Proof. induction l as [|x l IH]; [by intros ?%not_elem_of_nil|]. intros [->|Hr]%elem_of_cons; cbn; [lia|]. specialize (IH Hr). lia. Qed.

(** The width of a column in a table whose rows all have [n] cells. *)
Definition table_width (rows : list (list string)) (j : nat) : nat :=
  2 + foldr (fun r acc => Nat.max (cell_width j r) acc) 0 rows.

Lemma render_cells_ext f g j row : (forall i, (i + 1 < length row)%nat -> f (j + i) = g (j + i)) -> render_cells f j row = render_cells g j row.
Proof.
  revert j. induction row as [|w row IH]; intros j H; [done|]. destruct row as [|w' row]; [done|].
  cbn [render_cells]. f_equal.
  - pose proof (H 0 ltac:(cbn; lia)) as H0. rewrite Nat.add_0_r in H0. by rewrite H0.
  - apply IH. intros i Hi. replace (S j + i) with (j + S i) by lia. apply H. cbn [length] in *. lia.
Qed.

Lemma render_table before rows n :
  Forall (fun r => length r = n) before -> Forall (fun r => length r = n) rows ->
  render_rows before rows = render_cells (table_width (before ++ rows)) 0 <$> rows.
Proof.
  revert before. induction rows as [|row rows IH]; intros before Hb Hr; [done|].
  apply Forall_cons in Hr as [Hrow Hr]. cbn [render_rows]. rewrite fmap_cons. f_equal.
  - apply render_cells_ext. intros i Hi. rewrite Nat.add_0_l. unfold column_width, table_width.
    assert (forall l, Forall (fun r : list string => length r = n) l -> Forall (fun r => has_cell i r = true) l) as Hall.
    { intros l Hl. eapply Forall_impl; [exact Hl|]. intros r Hlen. unfold has_cell. apply Nat.ltb_lt. cbn in Hlen. lia. }
    by rewrite !run_of_all by by apply Hall.
  - rewrite IH; [|by constructor|done]. apply list_fmap_ext. intros _ r _. apply render_cells_ext. intros i _.
    unfold table_width. f_equal. apply max_perm. apply (Permutation_middle before rows row).
Qed.

Lemma length_spaces n : String.length (spaces n) = n.
Proof. induction n as [|n IH]; [done|]. cbn. by rewrite IH. Qed.
Lemma length_pad_right n s : String.length s <= n -> String.length (pad_right n s) = n.
Proof. intros H. unfold pad_right. rewrite length_app_str, length_spaces. lia. Qed.

(** Where the text of column [k] begins. *)
Fixpoint columns_before (f : nat -> nat) (j k : nat) : nat :=
  match k with O => 0 | S k' => f j + columns_before f (S j) k' end.
Definition column_start (f : nat -> nat) (k : nat) : nat := columns_before f 0 k.

Lemma render_columns f j row k :
  (forall i w, row !! i = Some w -> (i + 1 < length row)%nat -> String.length w <= f (j + i)) -> (k < length row)%nat ->
  str_drop (columns_before f j k) (render_cells f j row) = render_cells f (j + k) (drop k row).
Proof.
  revert j row. induction k as [|k IH]; intros j row Hw Hk; [by rewrite Nat.add_0_r|].
  destruct row as [|w [|w' row]]; cbn [length] in Hk; [lia|lia|].
  cbn [columns_before drop].
  assert (String.length (pad_right (f j) w) = f j) as Hp.
  { apply length_pad_right. specialize (Hw 0 w eq_refl ltac:(cbn; lia)). by rewrite Nat.add_0_r in Hw. }
  assert (forall a b s, str_drop (a + b) s = str_drop b (str_drop a s)) as Hdd.
  { clear. induction a as [|a IH]; intros b s; [done|]. destruct s as [|c s]; [by destruct b|apply IH]. }
  rewrite Hdd. pose proof (str_drop_app (pad_right (f j) w) (render_cells f (S j) (w' :: row))) as Hd. rewrite Hp in Hd.
  change (render_cells f j (w :: w' :: row)) with (pad_right (f j) w ^^ render_cells f (S j) (w' :: row)). rewrite Hd. rewrite (IH (S j) (w' :: row)); [|intros i v Hi Hlen|cbn [length]; lia].
  - by rewrite Nat.add_succ_l, Nat.add_succ_r.
  - replace (S j + i) with (j + S i) by lia. apply Hw; [done|cbn [length] in *; lia].
Qed.

(** Tables line up: in a table whose rows have the same number of cells, the
    text of a column begins at the same place in every row. *)
Theorem columns_align rows n k row :
  Forall (fun r => length r = n) rows -> (k < n)%nat -> row ∈ rows ->
  exists line, line ∈ render_rows [] rows /\
    str_drop (column_start (table_width rows) k) line = render_cells (table_width rows) k (drop k row).
Proof.
  intros Hn Hk Hin. exists (render_cells (table_width rows) 0 row). split.
  - rewrite (render_table [] rows n) by (done || constructor). by apply list_elem_of_fmap_2.
  - assert (length row = n) as Hlen by by (rewrite Forall_forall in Hn; apply Hn).
    unfold column_start. apply (render_columns _ 0); [|lia]. intros i w Hi _. rewrite Nat.add_0_l. unfold table_width.
    pose proof (max_ge i rows row Hin) as Hm. unfold cell_width at 1 in Hm. rewrite Hi in Hm. cbn in Hm. lia.
Qed.

Example tab_sample : tab_lines ["  a" ^^ String tab_char "bb" ^^ String tab_char "c"; "  long" ^^ String tab_char "x" ^^ String tab_char "y"; "z"]%string
  = ["  a     bb  c"; "  long  x   y"; "z"]%string.
Proof. vm_compute. reflexivity. Qed.
