(* ===== verification/GoDuration.v ===== *)
(** * Durations as text (package time)

    [Duration.String] and [time.ParseDuration], with the 64-bit arithmetic and the
    binary64 fractions of the latter.  A whole number of seconds, positive or not,
    is read back as it was printed. *)

From S2P Require Import Prelude GoStrings GoTime GoFloat.
From Stdlib Require Import DecimalPos DecimalString.
Local Open Scope wgmesh_scope.

Definition microsecond : Duration := 1000%Z.

(** ** Printing *)

(** [fmtFrac]: the [prec] last digits of [v] without trailing zeros, after a point. *)
Definition fmt_frac (v : Z) (prec : nat) : string :=
  match trim_zeros (pad prec (v mod 10 ^ Z.of_nat prec)) with
  | EmptyString => EmptyString
  | t => String "." t
  end.
Definition fmt_units (v : Z) (prec : nat) (unit : string) : string :=
  itoa (v / 10 ^ Z.of_nat prec) ^^ fmt_frac v prec ^^ unit.

(** U+00B5, the sign [String] prints, and U+03BC, which [ParseDuration] accepts too. *)
Definition micro_sign : string := String (ascii_of_byte 194) (String (ascii_of_byte 181) EmptyString).
Definition greek_mu : string := String (ascii_of_byte 206) (String (ascii_of_byte 188) EmptyString).

Definition fmt_magnitude (u : Z) : string :=
  if (u =? 0)%Z then "0s"
  else if (u <? microsecond)%Z then fmt_units u 0 "ns"
  else if (u <? millisecond)%Z then fmt_units u 3 (micro_sign ^^ "s")
  else if (u <? second)%Z then fmt_units u 6 "ms"
  else
    let s := (u / second)%Z in
    let m := (s / 60)%Z in
    let h := (m / 60)%Z in
    let secs := itoa (s mod 60) ^^ fmt_frac u 9 ^^ "s" in
    if (m =? 0)%Z then secs
    else
      let mins := itoa (m mod 60) ^^ "m" ^^ secs in
      if (h =? 0)%Z then mins else itoa h ^^ "h" ^^ mins.

Definition duration_string (d : Duration) : string :=
  if (d <? 0)%Z then "-" ^^ fmt_magnitude (- d) else fmt_magnitude d.

(** ** Parsing *)

Definition two63 : Z := (2 ^ 63)%Z.

Fixpoint leading_int (x : Z) (s : string) : option (Z * string) :=
  match s with
  | EmptyString => Some (x, s)
  | String c s' =>
      if is_digit c then
        if (two63 / 10 <? x)%Z then None
        else
          let x' := (x * 10 + (byte_of_ascii c - 48))%Z in
          if (two63 <? x')%Z then None else leading_int x' s'
      else Some (x, s)
  end.

(** The digits of a fraction, as long as they fit, and the power of ten of those. *)
Fixpoint leading_fraction (x : Z) (scale : float64) (overflow : bool) (s : string) : Z * float64 * string :=
  match s with
  | EmptyString => (x, scale, s)
  | String c s' =>
      if negb (is_digit c) then (x, scale, s)
      else if overflow then leading_fraction x scale true s'
      else if ((two63 - 1) / 10 <? x)%Z then leading_fraction x scale true s'
      else
        let y := (x * 10 + (byte_of_ascii c - 48))%Z in
        if (two63 <? y)%Z then leading_fraction x scale true s'
        else leading_fraction y (f_mul scale (f_of_Z 10)) false s'
  end.

Definition number_char (c : ascii) : bool := Ascii.eqb c "." || is_digit c.
Fixpoint span_unit (s : string) : string * string :=
  match s with
  | EmptyString => (EmptyString, s)
  | String c s' => if number_char c then (EmptyString, s) else let '(u, r) := span_unit s' in (String c u, r)
  end.

Definition unit_of (u : string) : option Z :=
  if String.eqb u "ns" then Some nanosecond
  else if String.eqb u "us" || String.eqb u (micro_sign ^^ "s") || String.eqb u (greek_mu ^^ "s") then Some microsecond
  else if String.eqb u "ms" then Some millisecond
  else if String.eqb u "s" then Some second
  else if String.eqb u "m" then Some minute
  else if String.eqb u "h" then Some hour
  else None.

(** One number with its unit: its value, and the rest. *)
Definition parse_term (s : string) : option (Z * string) :=
  match s with
  | EmptyString => None
  | String c _ =>
      if negb (number_char c) then None
      else
        '(v, s1) ← leading_int 0 s;
        let pre := negb (Nat.eqb (String.length s1) (String.length s)) in
        let '(f, scale, post, s2) :=
          match s1 with
          | String "." s1' =>
              let '(f, scale, s2) := leading_fraction 0 (f_of_Z 1) false s1' in
              (f, scale, negb (Nat.eqb (String.length s2) (String.length s1')), s2)
          | _ => (0%Z, f_of_Z 1, false, s1)
          end in
        if negb (pre || post) then None
        else
          let '(u, s3) := span_unit s2 in
          unit ← unit_of u;
          if (two63 / unit <? v)%Z then None
          else
            let v := (v * unit)%Z in
            let v := if (0 <? f)%Z then (v + f_trunc (f_mul (f_of_Z f) (f_div (f_of_Z unit) scale)))%Z else v in
            if (0 <? f)%Z && (two63 <? v)%Z then None else Some (v, s3)
  end.

(** Every term takes a character at least, so the length of the text is fuel enough. *)
Fixpoint parse_terms (fuel : nat) (d : Z) (s : string) : option Z :=
  match s, fuel with
  | EmptyString, _ => Some d
  | _, O => None
  | _, S fuel =>
      '(v, s') ← parse_term s;
      let d := u64 (d + v) in
      if (two63 <? d)%Z then None else parse_terms fuel d s'
  end.

Definition parse_sign (s : string) : bool * string :=
  match s with
  | String "-" r => (true, r)
  | String "+" r => (false, r)
  | _ => (false, s)
  end.

Definition parse_duration (s : string) : option Duration :=
  let '(neg, s) := parse_sign s in
  if String.eqb s "0" then Some 0%Z
  else if String.eqb s "" then None
  else
    d ← parse_terms (String.length s) 0 s;
    if neg then Some (- d)%Z else if (two63 - 1 <? d)%Z then None else Some d.

(** ** Samples *)

Example duration_string_ex :
  duration_string (24 * hour)%Z = "24h0m0s" /\ duration_string (90 * second)%Z = "1m30s" /\ duration_string 0%Z = "0s"
  /\ duration_string (1500 * millisecond)%Z = "1.5s" /\ duration_string 1100000%Z = "1.1ms"
  /\ duration_string (- 2500)%Z = "-2.5" ^^ micro_sign ^^ "s" /\ duration_string int64_min = "-2562047h47m16.854775808s".
Proof. by vm_compute. Qed.

Example parse_duration_ex :
  parse_duration "1.5h" = Some (90 * minute)%Z /\ parse_duration "1h15m30.918s" = Some 4530918000000%Z
  /\ parse_duration "-.5s" = Some (- 500000000)%Z /\ parse_duration "24" = None /\ parse_duration "" = None
  /\ parse_duration "-2562047h47m16.854775808s" = Some int64_min /\ parse_duration "2562047h47m16.854775808s" = None
  /\ parse_duration ("2" ^^ greek_mu ^^ "s") = Some 2000%Z /\ parse_duration "1d" = None.
Proof. by vm_compute. Qed.

(** ** Numbers *)

(** The value of digits read after [x]. *)
Fixpoint dval (x : Z) (s : string) : Z :=
  match s with
  | EmptyString => x
  | String c s' => dval (x * 10 + (byte_of_ascii c - 48)) s'
  end.

Lemma dval_acc u p : dval (Zpos p) (NilEmpty.string_of_uint u) = Zpos (Pos.of_uint_acc u p).
Proof. revert p. induction u; intros p; [done|..]; cbn [NilEmpty.string_of_uint dval Pos.of_uint_acc]; rewrite <- IHu; f_equal;
    lazymatch goal with |- context [byte_of_ascii ?c] => let v := eval vm_compute in (byte_of_ascii c) in change (byte_of_ascii c) with v end; lia. Qed.

Lemma dval_uint u : dval 0 (NilEmpty.string_of_uint u) = Z.of_N (Pos.of_uint u).
Proof. induction u; [done|..]; cbn [NilEmpty.string_of_uint dval Pos.of_uint]; [exact IHu|..]; cbn -[Pos.of_uint_acc]; apply dval_acc. Qed.

Lemma dval_itoa z : (0 <= z)%Z -> dval 0 (itoa z) = z.
Proof.
  intros Hz. destruct z as [|p|p]; [done| |lia]. unfold itoa. cbn [Z.to_int NilZero.string_of_int].
  unfold NilZero.string_of_uint. pose proof (Unsigned.of_to p) as Hp.
  destruct (Pos.to_uint p) eqn:E; [done|..]; by rewrite dval_uint, Hp.
Qed.

Lemma dval_ge s x : string_forall is_digit s = true -> (0 <= x)%Z -> (x <= dval x s)%Z.
Proof.
  revert x. induction s as [|c s IH]; intros x Hs Hx; cbn [string_forall dval] in *; [lia|]. bool_steps.
  assert (48 <= byte_of_ascii c)%Z by (unfold is_digit in *; cbv zeta in *; bool_steps; lia).
  specialize (IH (x * 10 + (byte_of_ascii c - 48))%Z ltac:(done) ltac:(lia)). lia.
Qed.

(** ** Whole seconds *)

Definition no_digit (s : string) : bool := match s with EmptyString => true | String c _ => negb (is_digit c) end.

Lemma leading_int_digits d x rest : string_forall is_digit d = true -> no_digit rest = true -> (0 <= x)%Z ->
  (dval x d <= two63)%Z -> leading_int x (d ^^ rest) = Some (dval x d, rest).
Proof.
  revert x. induction d as [|c d IH]; intros x Hd Hr Hx Hb; cbn [string_forall dval] in *.
  - rewrite app_nil_l_str. destruct rest as [|c rest]; [done|]. cbn [no_digit leading_int] in *. bool_steps. by rewrite Hr.
  - bool_steps. rewrite app_cons_str. cbn [leading_int]. rewrite H.
    assert (48 <= byte_of_ascii c)%Z by (unfold is_digit in H; cbv zeta in H; bool_steps; lia).
    pose proof (dval_ge d (x * 10 + (byte_of_ascii c - 48))%Z ltac:(done) ltac:(lia)) as Hge.
    replace (two63 / 10 <? x)%Z with false by (unfold two63 in *; div_lia). cbv zeta.
    replace (two63 <? _)%Z with false by lia. apply IH; [done|done|lia|done].
Qed.

(** A unit of one letter, before a digit or the end. *)
Definition starts_number (s : string) : bool := match s with EmptyString => true | String c _ => number_char c end.

Lemma parse_whole n u unit rest : (0 <= n)%Z -> (n * unit <= two63)%Z -> (0 < unit)%Z ->
  number_char u = false -> unit_of (String u EmptyString) = Some unit -> starts_number rest = true ->
  parse_term (itoa n ^^ String u rest) = Some ((n * unit)%Z, rest).
Proof.
  intros Hn Hb Hu Huc Hunit Hr. pose proof (itoa_digits n Hn) as Hd. pose proof (dval_itoa n Hn) as Hv. pose proof (itoa_nonempty n) as Hne.
  assert (is_digit u = false /\ Ascii.eqb u "." = false) as [Hu1 Hu2] by (unfold number_char in Huc; by bool_steps).
  pose proof (leading_int_digits (itoa n) 0 (String u rest) Hd ltac:(cbn; by rewrite Hu1) ltac:(lia) ltac:(rewrite Hv; nia)) as Hl.
  rewrite Hv in Hl. destruct (itoa n) as [|c d]; [done|]. rewrite app_cons_str in *.
  cbn [parse_term]. cbn [string_forall] in Hd. bool_steps. unfold number_char at 1. rewrite H, orb_true_r. cbn [negb]. rewrite Hl.
  cbn [mbind option_bind]. rewrite <- app_cons_str.
  replace (Nat.eqb (String.length (String u rest)) (String.length (String c d ^^ String u rest))) with false
    by (symmetry; apply Nat.eqb_neq; rewrite length_app_str; cbn; lia).
  assert (match String u rest with
          | String "." s1' => let '(f, scale, s2) := leading_fraction 0 (f_of_Z 1) false s1' in
              (f, scale, negb (Nat.eqb (String.length s2) (String.length s1')), s2)
          | _ => (0%Z, f_of_Z 1, false, String u rest)
          end = (0%Z, f_of_Z 1, false, String u rest)) as ->.
  { destruct u as [[] [] [] [] [] [] [] []]; try reflexivity. done. }
  cbn [negb orb span_unit]. rewrite Huc.
  assert (span_unit rest = (EmptyString, rest)) as ->.
  { destruct rest as [|r rest]; [done|]. cbn [starts_number span_unit] in *. by rewrite Hr. }
  rewrite Hunit. cbn [mbind option_bind]. replace (two63 / unit <? n)%Z with false; [done|].
  symmetry. apply Z.ltb_ge. apply Z.div_le_lower_bound; lia.
Qed.

Lemma itoa_starts n s : (0 <= n)%Z -> starts_number (itoa n ^^ s) = true.
Proof.
  intros Hn. pose proof (itoa_digits n Hn) as Hd. pose proof (itoa_nonempty n). destruct (itoa n) as [|c d]; [done|].
  rewrite app_cons_str. cbn [starts_number string_forall] in *. bool_steps. unfold number_char. rewrite H0. apply orb_true_r.
Qed.

Lemma parse_terms_step fuel d n u unit rest r : (0 <= n)%Z -> (0 <= d)%Z -> (d + n * unit <= two63)%Z -> (0 < unit)%Z ->
  number_char u = false -> unit_of (String u EmptyString) = Some unit -> starts_number rest = true ->
  parse_terms fuel (d + n * unit) rest = r -> parse_terms (S fuel) d (itoa n ^^ String u rest) = r.
Proof.
  intros Hn Hd Hb Hu Huc Hunit Hr <-. pose proof (parse_whole n u unit rest Hn ltac:(lia) Hu Huc Hunit Hr) as Hp.
  cbn [parse_terms]. rewrite Hp. cbn [mbind option_bind].
  destruct (itoa n ^^ String u rest) as [|c t] eqn:E.
  - apply (f_equal String.length) in E. rewrite length_app_str in E. cbn in E. lia.
  - unfold u64. rewrite Z.mod_small by (unfold two63 in *; nia). by replace (two63 <? _)%Z with false by lia.
Qed.

Lemma frac_whole s : fmt_frac (s * second) 9 = EmptyString.
Proof. unfold fmt_frac, second. change (10 ^ Z.of_nat 9)%Z with 1000000000%Z. by rewrite Z.mod_mul by lia. Qed.

Lemma parse_terms_s fuel d n : (1 <= fuel)%nat -> (0 <= n)%Z -> (0 <= d)%Z -> (d + n * second <= two63)%Z ->
  parse_terms fuel d (itoa n ^^ "s") = Some (d + n * second)%Z.
Proof. intros. destruct fuel as [|fuel]; [lia|]. by eapply (parse_terms_step fuel d n "s" second ""); [..|by destruct fuel]. Qed.
Lemma parse_terms_ms fuel d m n : (2 <= fuel)%nat -> (0 <= m)%Z -> (0 <= n)%Z -> (0 <= d)%Z -> (d + m * minute + n * second <= two63)%Z ->
  parse_terms fuel d (itoa m ^^ "m" ^^ itoa n ^^ "s") = Some (d + m * minute + n * second)%Z.
Proof.
  intros. assert (0 < second /\ 0 < minute)%Z as [] by (unfold minute, second; lia).
  pose proof (Z.mul_nonneg_nonneg n second). pose proof (Z.mul_nonneg_nonneg m minute).
  destruct fuel as [|fuel]; [lia|]. apply (parse_terms_step _ d m "m" minute); try done; [lia|by apply itoa_starts|]. apply parse_terms_s; [lia|done|lia|lia].
Qed.
Lemma parse_terms_hms fuel d h m n : (3 <= fuel)%nat -> (0 <= h)%Z -> (0 <= m)%Z -> (0 <= n)%Z -> (0 <= d)%Z ->
  (d + h * hour + m * minute + n * second <= two63)%Z ->
  parse_terms fuel d (itoa h ^^ "h" ^^ itoa m ^^ "m" ^^ itoa n ^^ "s") = Some (d + h * hour + m * minute + n * second)%Z.
Proof.
  intros. assert (0 < second /\ 0 < minute /\ 0 < hour)%Z as (? & ? & ?) by (unfold hour, minute, second; lia).
  pose proof (Z.mul_nonneg_nonneg n second). pose proof (Z.mul_nonneg_nonneg m minute). pose proof (Z.mul_nonneg_nonneg h hour).
  destruct fuel as [|fuel]; [lia|]. apply (parse_terms_step _ d h "h" hour); try done; [lia|by apply itoa_starts|]. apply parse_terms_ms; [lia|done|done|lia|lia].
Qed.

(** The text of a magnitude of whole seconds: its terms add up to it, it has a
    digit in front, and is neither empty nor a bare zero. *)
Lemma magnitude_reads s : (0 <= s)%Z -> (s * second <= two63)%Z ->
  let t := fmt_magnitude (s * second) in
  parse_terms (String.length t) 0 t = Some (s * second)%Z /\ parse_sign t = (false, t)
  /\ String.eqb t "0" = false /\ String.eqb t "" = false.
Proof.
  intros Hs Hb.
  assert (forall n x rest, (0 <= n)%Z -> let t := itoa n ^^ String x rest in is_digit x = false ->
    parse_sign t = (false, t) /\ String.eqb t "0" = false /\ String.eqb t "" = false) as Hshape.
  { intros n x rest Hn t Hx. subst t. pose proof (itoa_digits n Hn) as Hd. pose proof (itoa_nonempty n).
    destruct (itoa n) as [|c d]; [done|]. rewrite app_cons_str. cbn [string_forall] in Hd. bool_steps. split; [|split].
    - destruct c as [[] [] [] [] [] [] [] []]; by try discriminate H0.
    - apply String.eqb_neq. intros [= -> E]. destruct d; discriminate E.
    - done. }
  unfold fmt_magnitude. rewrite frac_whole, app_nil_l_str.
  destruct (Z.eqb_spec (s * second) 0) as [E|E]; [rewrite E; by vm_compute|].
  assert (1 <= s)%Z by (unfold second in *; lia). unfold microsecond, millisecond. replace (s * second <? 1000)%Z with false by (unfold second; lia).
  replace (s * second <? 1000000)%Z with false by (unfold second; lia). replace (s * second <? second)%Z with false by (unfold second; lia).
  rewrite Z.div_mul by done. cbv zeta.
  pose proof (Z.mod_pos_bound s 60 ltac:(lia)). pose proof (Z.div_mod s 60 ltac:(lia)). pose proof (Z.div_pos s 60 ltac:(lia) ltac:(lia)).
  pose proof (Z.mod_pos_bound (s / 60) 60 ltac:(lia)). pose proof (Z.div_mod (s / 60) 60 ltac:(lia)).
  pose proof (Z.div_pos (s / 60) 60 ltac:(lia) ltac:(lia)). set (sec := (s mod 60)%Z) in *. set (m := (s / 60)%Z) in *.
  set (h := (m / 60)%Z) in *. destruct (Z.eqb_spec m 0) as [Em|Em]; [|destruct (Z.eqb_spec h 0) as [Eh|Eh]].
  - split; [|apply Hshape; [lia|done]]. rewrite parse_terms_s by (rewrite ?length_app_str; cbn; unfold two63, second in *; lia).
    f_equal. unfold second in *. lia.
  - split; [|apply Hshape; [lia|done]].
    rewrite parse_terms_ms by (rewrite ?length_app_str; cbn; rewrite ?length_app_str; cbn; unfold two63, minute, second in *; lia).
    f_equal. unfold minute, second in *. lia.
  - split; [|apply Hshape; [lia|done]].
    rewrite parse_terms_hms by (rewrite ?length_app_str; cbn; rewrite ?length_app_str; cbn; unfold two63, hour, minute, second in *; lia).
    f_equal. unfold hour, minute, second in *. lia.
Qed.

(** A whole number of seconds is read back as it was printed, whatever its sign. *)
Theorem duration_roundtrip d : (int64_min <= d <= int64_max)%Z -> Z.rem d second = 0%Z ->
  parse_duration (duration_string d) = Some d.
Proof.
  intros Hd Hw. assert (d = Z.quot d second * second)%Z as E by (pose proof (Z.quot_rem' d second); lia).
  set (s := Z.quot d second) in *. assert (two63 = int64_max + 1)%Z by reflexivity. assert (int64_min = - two63)%Z by reflexivity.
  unfold duration_string, parse_duration. destruct (Z.ltb_spec d 0).
  - replace (- d)%Z with (- s * second)%Z by lia. destruct (magnitude_reads (- s)) as (Hp & Hs & Hz & He); [unfold second in *; lia|lia|].
    rewrite app_cons_str, app_nil_l_str. cbn [parse_sign]. rewrite Hz, He, Hp. cbn [mbind option_bind]. f_equal. lia.
  - destruct (magnitude_reads s) as (Hp & Hs & Hz & He); [unfold second in *; lia|lia|]. rewrite <- E in *.
    rewrite Hs, Hz, He, Hp. cbn [mbind option_bind]. by replace (two63 - 1 <? d)%Z with false by lia.
Qed.

Lemma duration_roundtrip_witness : parse_duration (duration_string (- 24 * hour)%Z) = Some (- 24 * hour)%Z.
Proof. apply duration_roundtrip; [unfold int64_min, int64_max, hour, minute, second; lia|reflexivity]. Defined.
