(* ===== verification/Tokens.v ===== *)
(** * Membership tokens, secret rotation, state encryption
      (pkg/crypto/membership.go, rotation.go, encrypt.go, password.go)

    The clock and the random source are arguments: [now] is the reading of
    [time.Now()], a random read is the bytes it delivered or [None]. *)

From S2P Require Import Prelude GoStrings GoCrypto GoFloat Aead Derive.
Local Open Scope Z_scope.

(** ** Membership tokens *)

Definition MembershipTokenSize : nat := 32.

Definition generateTokenForEpoch (membershipKey pubkey : list Z) (hourEpoch : Z) : list Z :=
  hmac_sha256 membershipKey (pubkey ++ bytes_of_string (String.append "|" (itoa hourEpoch))).

Definition GenerateMembershipToken (membershipKey myPubkey : list Z) (now : Time) : list Z :=
  generateTokenForEpoch membershipKey myPubkey (hour_epoch now).

Definition hmac_equal (a b : list Z) : bool := bool_decide (a = b).

Definition ValidateMembershipToken (membershipKey theirPubkey token : list Z) (now : Time) : bool :=
  if negb (Nat.eqb (length token) MembershipTokenSize) then false
  else
    let hourEpoch := hour_epoch now in
    if hmac_equal token (generateTokenForEpoch membershipKey theirPubkey hourEpoch) then true
    else if hmac_equal token (generateTokenForEpoch membershipKey theirPubkey (hourEpoch - 1)) then true
    else hmac_equal token (generateTokenForEpoch membershipKey theirPubkey (hourEpoch + 1)).

(** ** Secret rotation *)

Record RotationAnnouncement := {
  NewSecretHash : list Z;
  ra_GracePeriod : Z;
  ra_Timestamp : Z;
  Signature : list Z;
}.

Definition signRotation (membershipKey newSecretHash : list Z) (gracePeriod timestamp : Z) : list Z :=
  let data := String.append (hex_bytes newSecretHash) (String.append "|"
                (String.append (itoa gracePeriod) (String.append "|" (itoa timestamp)))) in
  hmac_sha256 membershipKey (bytes_of_string data).

Definition GenerateRotationAnnouncement (oldMembershipKey : list Z) (newSecret : string)
    (gracePeriod : Duration) (now : Time) : RotationAnnouncement :=
  let newHash := sha256_string newSecret in
  let grace := f_trunc (duration_seconds gracePeriod) in
  let ts := time_to_unix now in
  {| NewSecretHash := newHash; ra_GracePeriod := grace; ra_Timestamp := ts;
     Signature := signRotation oldMembershipKey newHash grace ts |}.

(** The two clock readings of the function, in the order it takes them. *)
Definition ValidateRotationAnnouncement (oldMembershipKey : list Z) (a : RotationAnnouncement)
    (now1 now2 : Time) : bool :=
  let msgTime := time_unix (ra_Timestamp a) in
  if hour <? time_sub now1 msgTime then false
  else if time_after msgTime (time_add now2 hour) then false
  else hmac_equal (Signature a)
         (signRotation oldMembershipKey (NewSecretHash a) (ra_GracePeriod a) (ra_Timestamp a)).

Definition VerifyNewSecret (newSecret : string) (a : RotationAnnouncement) : bool :=
  hmac_equal (sha256_string newSecret) (NewSecretHash a).

Record RotationState := {
  OldSecret : string;
  NewSecret : string;
  GracePeriod : Duration;
  StartedAt : Time;
  Completed : bool;
}.

Definition IsInGracePeriod (rs : RotationState) (now : Time) : bool :=
  if Completed rs then false else time_sub now (StartedAt rs) <? GracePeriod rs.

Definition ShouldComplete (rs : RotationState) (now : Time) : bool :=
  negb (Completed rs) && (GracePeriod rs <=? time_sub now (StartedAt rs)).

(** ** Password-based encryption of the mesh state *)

(** PBKDF2 (golang.org/x/crypto) with the program's iteration count. *)
Class Pbkdf2 := {
  pbkdf2_key : string -> list Z -> nat -> nat -> list Z;  (* password salt iterations size *)
  pbkdf2_length : forall password salt iters size, length (pbkdf2_key password salt iters size) = size
}.

Definition saltSize : nat := 32.
Definition iterations : nat := N.to_nat 100000.
Definition keySize : nat := 32.
Definition gcmNonceSize : nat := 12.

Definition Encrypt `{Aead, Pbkdf2} (plaintext : list Z) (password : string)
    (salt nonce : option (list Z)) : result string :=
  match salt with
  | None => Err "failed to generate salt"
  | Some salt =>
      let key := pbkdf2_key password salt iterations keySize in
      match nonce with
      | None => Err "failed to generate nonce"
      | Some nonce =>
          let ciphertext := nonce ++ seal key nonce plaintext in
          Ok (b64_encode StdEncoding (salt ++ ciphertext))
      end
  end.

Definition Decrypt `{Aead, Pbkdf2} (encoded password : string) : result (list Z) :=
  match b64_decode StdEncoding encoded with
  | None => Err "failed to decode base64"
  | Some encrypted =>
      if Nat.ltb (length encrypted) saltSize then Err "encrypted data too short"
      else
        let salt := take saltSize encrypted in
        let ciphertext := drop saltSize encrypted in
        let key := pbkdf2_key password salt iterations keySize in
        if Nat.ltb (length ciphertext) gcmNonceSize then Err "ciphertext too short"
        else
          match open key (take gcmNonceSize ciphertext) (drop gcmNonceSize ciphertext) with
          | None => Err "decryption failed (wrong password?)"
          | Some plaintext => Ok plaintext
          end
  end.

(** Two reads of the terminal. *)
Definition ReadPasswordTwice (first second : result string) : result string :=
  (password1 <-? wrap "failed to read password" first;
   password2 <-? wrap "failed to read password" second;
   if negb (String.eqb password1 password2) then Err "passwords do not match" else Ok password1)%wg.

(** ** Lemmas *)

Lemma hmac_equal_refl a : hmac_equal a a = true.
Proof. by apply bool_decide_eq_true. Qed.

Lemma hour_epoch_close t1 t2 :
  0 <= t1 -> 0 <= t2 -> Z.abs (t1 - t2) <= hour -> Z.abs (hour_epoch t1 - hour_epoch t2) <= 1.
Proof.
  unfold hour_epoch, time_to_unix, hour, minute, second. intros H1 H2 Hd.
  rewrite !Z.quot_div_nonneg by (try apply Z.div_pos; lia). div_lia.
Qed.

Lemma validate_token_iff key pub token now :
  ValidateMembershipToken key pub token now = true <->
  exists e, Z.abs (e - hour_epoch now) <= 1 /\ token = generateTokenForEpoch key pub e.
Proof.
  assert (forall e, length (generateTokenForEpoch key pub e) = 32%nat) as Hlen
    by (intros; apply hmac_length).
  unfold ValidateMembershipToken, MembershipTokenSize, hmac_equal.
  set (h := hour_epoch now). split.
  - destruct (Nat.eqb_spec (length token) 32); [|done]. cbn [negb].
    case_bool_decide; [exists h; split; [lia|done]|].
    case_bool_decide; [exists (h - 1); split; [lia|done]|].
    intros E%bool_decide_eq_true. exists (h + 1). split; [lia|done].
  - intros (e & He & ->). rewrite Hlen. cbn [Nat.eqb negb].
    assert (e = h \/ e = h - 1 \/ e = h + 1) as [-> | [-> | ->]] by lia;
      repeat case_bool_decide; done.
Qed.

(** A token made at any time is accepted by every node that holds the key
    and whose clock is within an hour of it; and an accepted token is the HMAC
    of the claimed public key for the validator's hour, the one before or the
    one after. *)
Theorem membership_token_window key pub t :
  (forall t', 0 <= t -> 0 <= t' -> Z.abs (t' - t) <= hour ->
     ValidateMembershipToken key pub (GenerateMembershipToken key pub t) t' = true)
  /\ (forall token, ValidateMembershipToken key pub token t = true ->
     exists e, Z.abs (e - hour_epoch t) <= 1 /\ token = generateTokenForEpoch key pub e).
Proof.
  split.
  - intros t' H1 H2 Hd. apply validate_token_iff. exists (hour_epoch t).
    split; [|done]. apply hour_epoch_close; lia.
  - intros token. apply validate_token_iff.
Qed.

(** A rotation announcement is accepted, by holders of the old membership
    key, from an hour before it was made until an hour after its second, and
    vouches for exactly the new secret's digest; outside that window it is
    refused whoever signed it. *)
Theorem rotation_window key newSecret grace t a now1 now2 :
  GenerateRotationAnnouncement key newSecret grace t = a ->
  VerifyNewSecret newSecret a = true
  /\ (ValidateRotationAnnouncement key a now1 now2 = true <->
      now1 - time_unix (time_to_unix t) <= hour /\ time_unix (time_to_unix t) <= now2 + hour).
Proof.
  intros <-. unfold VerifyNewSecret, ValidateRotationAnnouncement, GenerateRotationAnnouncement.
  cbn [NewSecretHash ra_Timestamp ra_GracePeriod Signature]. rewrite !hmac_equal_refl.
  split; [done|]. set (m := time_unix (time_to_unix t)). unfold time_after, time_add.
  pose proof (time_sub_gt_iff now1 m hour ltac:(unfold int64_min, int64_max, hour, minute, second; lia)).
  destruct (Z.ltb_spec hour (time_sub now1 m)); [split; [done|lia]|].
  destruct (Z.ltb_spec (now2 + hour) m); split; try done; lia.
Qed.

Lemma rotation_window_witness :
  ValidateRotationAnnouncement (replicate 32 7)
    (GenerateRotationAnnouncement (replicate 32 7) "a-new-mesh-secret" (24 * hour) (1700000000 * second))
    (1700001000 * second) (1700001000 * second) = true.
Proof.
  apply (rotation_window (replicate 32 7) "a-new-mesh-secret" (24 * hour) (1700000000 * second)
    _ (1700001000 * second) (1700001000 * second) eq_refl).
  split; vm_compute; discriminate.
Defined.

(** A rotation is in exactly one of three phases, and time only moves it
    from the grace period to completion. *)
Theorem rotation_phases rs now :
  (Completed rs = true -> IsInGracePeriod rs now = false /\ ShouldComplete rs now = false)
  /\ (Completed rs = false -> IsInGracePeriod rs now = negb (ShouldComplete rs now))
  /\ (forall later, now <= later -> ShouldComplete rs now = true -> ShouldComplete rs later = true).
Proof.
  unfold IsInGracePeriod, ShouldComplete. destruct (Completed rs) eqn:E; cbn [negb andb].
  - split; [done|]. split; [done|]. done.
  - split; [done|]. split; [intros _; by rewrite Z.ltb_antisym|].
    intros later Hl H. bool_steps. apply Z.leb_le. unfold time_sub in *. lia.
Qed.

(** What is encrypted with a password decrypts with it, for every salt and
    nonce the random source may deliver, and only the random source can make
    the encryption fail. *)
Theorem Decrypt_Encrypt `{Aead, Pbkdf2} plaintext password salt nonce :
  Forall is_byte plaintext -> length salt = saltSize -> Forall is_byte salt ->
  length nonce = gcmNonceSize -> Forall is_byte nonce ->
  exists s, Encrypt plaintext password (Some salt) (Some nonce) = Ok s
            /\ Decrypt s password = Ok plaintext.
Proof.
  intros Hp Hs Bs Hn Bn. eexists. split; [reflexivity|]. unfold Decrypt.
  set (key := pbkdf2_key password salt iterations keySize).
  rewrite b64_decode_encode.
  2:{ apply Forall_app. split; [done|]. apply Forall_app. split; [done|]. by apply seal_bytes. }
  rewrite !length_app, Hs, Hn.
  destruct (Nat.ltb_spec (saltSize + (gcmNonceSize + length (seal key nonce plaintext))) saltSize); [lia|].
  rewrite take_app_length', drop_app_length' by done.
  rewrite length_app, Hn.
  destruct (Nat.ltb_spec (gcmNonceSize + length (seal key nonce plaintext)) gcmNonceSize); [lia|].
  rewrite take_app_length', drop_app_length' by done. fold key.
  rewrite open_seal; [done|apply pbkdf2_length|done|done].
Qed.

(** PBKDF2-HMAC-SHA256 (RFC 8018) as an instance. *)
Fixpoint pbkdf2_iter (n : nat) (password u acc : list Z) : list Z :=
  match n with
  | O => acc
  | S n => let u' := hmac_sha256 password u in pbkdf2_iter n password u' (zip_with Z.lxor acc u')
  end.

Definition pbkdf2_block (password salt : list Z) (iters : nat) (i : Z) : list Z :=
  let u1 := hmac_sha256 password (salt ++ be_bytes 4 i) in
  pbkdf2_iter (iters - 1) password u1 u1.

Definition rfc8018_key (password : string) (salt : list Z) (iters size : nat) : list Z :=
  take size (seqZ 1 (Z.of_nat size) ≫= pbkdf2_block (bytes_of_string password) salt iters).

Lemma pbkdf2_block_length password salt iters i : length (pbkdf2_block password salt iters i) = 32%nat.
Proof.
  unfold pbkdf2_block. generalize (hmac_length password (salt ++ be_bytes 4 i)).
  generalize (hmac_sha256 password (salt ++ be_bytes 4 i)) at 1 3. intros acc Hacc.
  generalize (hmac_sha256 password (salt ++ be_bytes 4 i)). generalize (iters - 1)%nat. intros n.
  revert acc Hacc. induction n as [|n IH]; intros acc Hacc u; [done|].
  cbn [pbkdf2_iter]. apply IH. by rewrite length_zip_with, Hacc, hmac_length.
Qed.

Lemma rfc8018_length password salt iters size : length (rfc8018_key password salt iters size) = size.
Proof.
  unfold rfc8018_key. rewrite length_take, (bind_length _ 32) by apply pbkdf2_block_length.
  rewrite length_seqZ. lia.
Qed.

#[export] Instance rfc8018 : Pbkdf2 := {| pbkdf2_key := rfc8018_key; pbkdf2_length := rfc8018_length |}.

Lemma Decrypt_Encrypt_witness :
  exists s, Encrypt (bytes_of_string "{}") "hunter2" (Some (replicate 32 1)) (Some (replicate 12 2)) = Ok s
            /\ Decrypt s "hunter2" = Ok (bytes_of_string "{}").
Proof. apply (Decrypt_Encrypt (bytes_of_string "{}") "hunter2" (replicate 32 1) (replicate 12 2)); by_compute. Defined.
