(* ===== verification/Envelope.v ===== *)
(** * The message envelope (pkg/crypto/envelope.go)

    Peer announcements, their validation, and the sealed envelope every
    datagram travels in.  The cipher is the [Aead] interface, the wire format
    the executable JSON codec; the clock and the random nonce are arguments. *)

From S2P Require Import Prelude GoStrings GoNet GoCrypto GoJson Aead.
Local Open Scope Z_scope.

Definition NonceSize : nat := 12.
Definition MaxMessageAge : Duration := 10 * minute.
Definition ProtocolVersion : string := "wgmesh-v1".
Definition MessageTypeHello : string := "HELLO".
Definition MessageTypeReply : string := "REPLY".
Definition MessageTypeAnnounce : string := "ANNOUNCE".
Definition MessageTypeGoodbye : string := "GOODBYE".
Definition MessageTypeRendezvousOffer : string := "RENDEZVOUS_OFFER".
Definition MessageTypeRendezvousStart : string := "RENDEZVOUS_START".
Definition MaxHostnameLength : nat := 253.
Definition MaxRoutableNetworks : nat := 100.
Definition MaxKnownPeers : nat := 1000.

Record KnownPeer := {
  kp_WGPubKey : string;
  kp_Hostname : string;
  kp_MeshIP : string;
  kp_MeshIPv6 : string;
  kp_WGEndpoint : string;
  kp_Introducer : bool;
  kp_NATType : string;
}.
#[export] Instance KnownPeer_eq_dec : EqDecision KnownPeer.
Proof. solve_decision. Defined.

Record PeerAnnouncement := {
  pa_Protocol : string;
  pa_WGPubKey : string;
  pa_Hostname : string;
  pa_MeshIP : string;
  pa_MeshIPv6 : string;
  pa_WGEndpoint : string;
  pa_Introducer : bool;
  pa_RoutableNetworks : list string;
  pa_Timestamp : Z;
  pa_KnownPeers : list KnownPeer;
  pa_ObservedEndpoint : string;
  pa_NATType : string;
}.
#[export] Instance PeerAnnouncement_eq_dec : EqDecision PeerAnnouncement.
Proof. solve_decision. Defined.

(** ** Validation *)

Definition validateWGPubKey (key : string) : result unit :=
  if String.eqb key "" then Err "empty key"
  else match b64_decode StdEncoding key with
       | None => Err "invalid base64"
       | Some decoded => if Nat.eqb (length decoded) 32 then Ok tt else Err "decoded length"
       end.

Definition validateMeshIP (ip : string) : result unit :=
  if String.eqb ip "" then Err "empty IP"
  else match parse_ip ip with
       | None => Err "invalid IP address"
       | Some _ => Ok tt
       end.

Definition validateEndpoint (endpoint : string) : result unit :=
  match split_host_port endpoint with
  | None => Err "invalid host:port"
  | Some (_, portStr) =>
      match atoi portStr with
      | None => Err "invalid port"
      | Some port => if (port <? 1) || (65535 <? port) then Err "port out of range 1-65535" else Ok tt
      end
  end.

(** The loop over the bytes of the hostname. *)
Fixpoint check_printable (s : string) : result unit :=
  match s with
  | EmptyString => Ok tt
  | String c s' =>
      let b := byte_of_ascii c in
      if (b <? 32) || (126 <? b) then Err "hostname contains invalid character" else check_printable s'
  end.

Definition validateHostname (hostname : string) : result unit :=
  if Nat.ltb MaxHostnameLength (String.length hostname) then Err "hostname too long"
  else check_printable hostname.

Definition when_set (s : string) (check : string -> result unit) : result unit :=
  if String.eqb s "" then Ok tt else check s.

Definition KnownPeer_Validate (kp : KnownPeer) : result unit :=
  (_ <-? wrap "WGPubKey" (validateWGPubKey (kp_WGPubKey kp));
   _ <-? wrap "MeshIP" (validateMeshIP (kp_MeshIP kp));
   _ <-? wrap "WGEndpoint" (when_set (kp_WGEndpoint kp) validateEndpoint);
   _ <-? wrap "Hostname" (when_set (kp_Hostname kp) validateHostname);
   Ok tt)%wg.

Fixpoint check_all {A} (check : A -> result unit) (l : list A) : result unit :=
  match l with
  | [] => Ok tt
  | a :: l' => match check a with Ok _ => check_all check l' | Err e => Err e end
  end.

Definition check_cidr (cidr : string) : result unit :=
  match parse_cidr cidr with
  | Some _ => Ok tt
  | None => Err "RoutableNetworks: invalid CIDR"
  end.

Definition Validate (pa : PeerAnnouncement) : result unit :=
  (_ <-? wrap "WGPubKey" (validateWGPubKey (pa_WGPubKey pa));
   _ <-? wrap "MeshIP" (validateMeshIP (pa_MeshIP pa));
   _ <-? wrap "WGEndpoint" (when_set (pa_WGEndpoint pa) validateEndpoint);
   _ <-? wrap "Hostname" (when_set (pa_Hostname pa) validateHostname);
   if Nat.ltb MaxRoutableNetworks (length (pa_RoutableNetworks pa))
   then Err "RoutableNetworks: too many entries"
   else
     _ <-? check_all check_cidr (pa_RoutableNetworks pa);
     if Nat.ltb MaxKnownPeers (length (pa_KnownPeers pa)) then Err "KnownPeers: too many entries"
     else wrap "KnownPeers" (check_all KnownPeer_Validate (pa_KnownPeers pa)))%wg.

(** ** Wire format *)

Definition known_peer_json (k : KnownPeer) : json :=
  JObj ([("wg_pubkey"%string, JStr (kp_WGPubKey k))]
        ++ omit_str "hostname" (kp_Hostname k)
        ++ [("mesh_ip"%string, JStr (kp_MeshIP k))]
        ++ omit_str "mesh_ipv6" (kp_MeshIPv6 k)
        ++ [("wg_endpoint"%string, JStr (kp_WGEndpoint k))]
        ++ omit_bool "introducer" (kp_Introducer k)
        ++ omit_str "nat_type" (kp_NATType k)).

Definition dec_known_peer (v : json) : option KnownPeer :=
  match v with
  | JObj ms =>
      pk ← str_field "wg_pubkey" ms; hn ← str_field "hostname" ms; ip ← str_field "mesh_ip" ms;
      ip6 ← str_field "mesh_ipv6" ms; ep ← str_field "wg_endpoint" ms;
      intro ← bool_field "introducer" ms; nat_t ← str_field "nat_type" ms;
      Some {| kp_WGPubKey := pk; kp_Hostname := hn; kp_MeshIP := ip; kp_MeshIPv6 := ip6;
              kp_WGEndpoint := ep; kp_Introducer := intro; kp_NATType := nat_t |}
  | JNull => Some {| kp_WGPubKey := ""; kp_Hostname := ""; kp_MeshIP := ""; kp_MeshIPv6 := "";
                     kp_WGEndpoint := ""; kp_Introducer := false; kp_NATType := "" |}
  | _ => None
  end.

Definition announcement_json (a : PeerAnnouncement) : json :=
  JObj ([("protocol"%string, JStr (pa_Protocol a))]
        ++ [("wg_pubkey"%string, JStr (pa_WGPubKey a))]
        ++ omit_str "hostname" (pa_Hostname a)
        ++ [("mesh_ip"%string, JStr (pa_MeshIP a))]
        ++ omit_str "mesh_ipv6" (pa_MeshIPv6 a)
        ++ [("wg_endpoint"%string, JStr (pa_WGEndpoint a))]
        ++ omit_bool "introducer" (pa_Introducer a)
        ++ omit_list "routable_networks" JStr (pa_RoutableNetworks a)
        ++ [("timestamp"%string, jint (pa_Timestamp a))]
        ++ omit_list "known_peers" known_peer_json (pa_KnownPeers a)
        ++ omit_str "observed_endpoint" (pa_ObservedEndpoint a)
        ++ omit_str "nat_type" (pa_NATType a)).

Definition dec_announcement (v : json) : option PeerAnnouncement :=
  match v with
  | JObj ms =>
      proto ← str_field "protocol" ms; pk ← str_field "wg_pubkey" ms; hn ← str_field "hostname" ms;
      ip ← str_field "mesh_ip" ms; ip6 ← str_field "mesh_ipv6" ms; ep ← str_field "wg_endpoint" ms;
      intro ← bool_field "introducer" ms; nets ← list_field dec_string "routable_networks" ms;
      ts ← int_field "timestamp" ms; kps ← list_field dec_known_peer "known_peers" ms;
      obs ← str_field "observed_endpoint" ms; nat_t ← str_field "nat_type" ms;
      Some {| pa_Protocol := proto; pa_WGPubKey := pk; pa_Hostname := hn; pa_MeshIP := ip;
              pa_MeshIPv6 := ip6; pa_WGEndpoint := ep; pa_Introducer := intro;
              pa_RoutableNetworks := nets; pa_Timestamp := ts; pa_KnownPeers := kps;
              pa_ObservedEndpoint := obs; pa_NATType := nat_t |}
  | JNull => Some {| pa_Protocol := ""; pa_WGPubKey := ""; pa_Hostname := ""; pa_MeshIP := "";
              pa_MeshIPv6 := ""; pa_WGEndpoint := ""; pa_Introducer := false;
              pa_RoutableNetworks := []; pa_Timestamp := 0; pa_KnownPeers := [];
              pa_ObservedEndpoint := ""; pa_NATType := "" |}
  | _ => None
  end.

(** The metadata every payload carries: protocol and timestamp. *)
Definition dec_meta (v : json) : option (string * Z) :=
  match v with
  | JObj ms => proto ← str_field "protocol" ms; ts ← int_field "timestamp" ms; Some (proto, ts)
  | JNull => Some (EmptyString, 0)
  | _ => None
  end.

Record Envelope := { MessageType : string; Nonce : list Z; Ciphertext : list Z }.

(** A [[]byte] is a base64 string; an array of numbers is read as well, a [null]
    in it as 0. *)
Definition jbytes (bs : list Z) : json := JStr (b64_encode StdEncoding bs).
Definition dec_uint8 (v : json) : option Z :=
  match v with
  | JNum lit => n ← atoi lit; if string_forall is_digit lit && (n <=? 255) then Some n else None
  | JNull => Some 0
  | _ => None
  end.
Definition dec_bytes (v : json) : option (list Z) :=
  match v with
  | JStr s => b64_decode StdEncoding s
  | JArr vs => mapM dec_uint8 vs
  | _ => None
  end.
Definition bytes_field := field dec_bytes (fun _ => []) [].

Definition envelope_json (e : Envelope) : json :=
  JObj ([("type"%string, JStr (MessageType e))]
        ++ [("nonce"%string, jbytes (Nonce e))]
        ++ [("ciphertext"%string, jbytes (Ciphertext e))]).

Definition dec_envelope (v : json) : option Envelope :=
  match v with
  | JObj ms =>
      t ← str_field "type" ms; n ← bytes_field "nonce" ms; c ← bytes_field "ciphertext" ms;
      Some {| MessageType := t; Nonce := n; Ciphertext := c |}
  | JNull => Some {| MessageType := ""; Nonce := []; Ciphertext := [] |}
  | _ => None
  end.

Definition json_bytes (v : json) : list Z := bytes_of_string (print v).
Definition of_json_bytes {A} (dec : json -> option A) (bs : list Z) : option A :=
  parse (string_of_bytes bs) ≫= dec.

(** ** Sealing and opening *)

(** [payload] is the JSON tree of the message. *)
Definition SealEnvelope `{Aead} (messageType : string) (payload : json) (gossipKey : list Z)
    (nonce : option (list Z)) : result (list Z) :=
  match nonce with
  | None => Err "failed to generate nonce"
  | Some nonce =>
      let ciphertext := seal gossipKey nonce (json_bytes payload) in
      Ok (json_bytes (envelope_json
            {| MessageType := messageType; Nonce := nonce; Ciphertext := ciphertext |}))
  end.

(** [None]: the program panics. *)
Definition OpenEnvelopeRaw `{Aead} (data gossipKey : list Z) (now : Time)
  : option (result (Envelope * list Z)) :=
  match of_json_bytes dec_envelope data with
  | None => Some (Err "failed to unmarshal envelope")
  | Some envelope =>
      if negb (Nat.eqb (length (Nonce envelope)) NonceSize) then Some (Err "invalid nonce size")
      else
      opened ← gcm_Open gossipKey (Nonce envelope) (Ciphertext envelope);
      Some match opened with
      | None => Err "decryption failed (wrong key?)"
      | Some plaintext =>
          match of_json_bytes dec_meta plaintext with
          | None => Err "failed to unmarshal payload metadata"
          | Some (protocol, timestamp) =>
              if negb (String.eqb protocol ProtocolVersion) then Err "unsupported protocol version"
              else
                let msgTime := time_unix timestamp in
                if MaxMessageAge <? time_sub now msgTime then Err "message too old"
                else if time_after msgTime (time_add now MaxMessageAge)
                then Err "message timestamp in future"
                else Ok (envelope, plaintext)
          end
      end
  end.

Definition OpenEnvelope `{Aead} (data gossipKey : list Z) (now : Time)
  : option (result (Envelope * PeerAnnouncement)) :=
  opened ← OpenEnvelopeRaw data gossipKey now;
  Some (ep <-? opened;
   match of_json_bytes dec_announcement (snd ep) with
   | None => Err "failed to unmarshal announcement"
   | Some announcement =>
       _ <-? wrap "invalid announcement" (Validate announcement);
       Ok (fst ep, announcement)
   end)%wg.

Definition CreateAnnouncement (wgPubKey meshIP wgEndpoint : string) (introducer : bool)
    (routableNetworks : list string) (knownPeers : list KnownPeer)
    (hostname meshIPv6 natType : string) (now : Time) : PeerAnnouncement :=
  {| pa_Protocol := ProtocolVersion; pa_WGPubKey := wgPubKey; pa_Hostname := hostname;
     pa_MeshIP := meshIP; pa_MeshIPv6 := meshIPv6; pa_WGEndpoint := wgEndpoint;
     pa_Introducer := introducer; pa_RoutableNetworks := routableNetworks;
     pa_Timestamp := time_to_unix now; pa_KnownPeers := knownPeers;
     pa_ObservedEndpoint := ""; pa_NATType := natType |}.

(** ** Lemmas on the wire format *)

Definition known_peer_text (k : KnownPeer) : bool :=
  ascii_str (kp_WGPubKey k) && ascii_str (kp_Hostname k) && ascii_str (kp_MeshIP k)
  && ascii_str (kp_MeshIPv6 k) && ascii_str (kp_WGEndpoint k) && ascii_str (kp_NATType k).

(** Announcements whose strings are ASCII and whose timestamp is an [int64]. *)
Definition announcement_text (a : PeerAnnouncement) : bool :=
  ascii_str (pa_Protocol a) && ascii_str (pa_WGPubKey a) && ascii_str (pa_Hostname a)
  && ascii_str (pa_MeshIP a) && ascii_str (pa_MeshIPv6 a) && ascii_str (pa_WGEndpoint a)
  && forallb ascii_str (pa_RoutableNetworks a) && forallb known_peer_text (pa_KnownPeers a)
  && ascii_str (pa_ObservedEndpoint a) && ascii_str (pa_NATType a)
  && (int64_min <=? pa_Timestamp a) && (pa_Timestamp a <=? int64_max).

Lemma dec_known_peer_json k : dec_known_peer (known_peer_json k) = Some k.
Proof. unfold dec_known_peer, known_peer_json. read_struct fail. by destruct k. Qed.

Lemma known_peer_json_ok k : known_peer_text k = true -> json_ok (known_peer_json k) = true.
Proof.
  intros H. unfold known_peer_text in H. bool_steps. unfold known_peer_json. cbn [json_ok].
  rewrite !forallb_app. cbn [forallb fst snd json_ok].
  rewrite !omit_str_ok, omit_bool_ok by done.
  repeat match goal with E : ascii_str _ = true |- _ => rewrite E; clear E end. done.
Qed.

Lemma dec_announcement_json a :
  announcement_text a = true -> dec_announcement (announcement_json a) = Some a.
Proof.
  intros H. unfold announcement_text in H. bool_steps.
  unfold dec_announcement, announcement_json.
  read_struct ltac:(first [ apply dec_jint; lia
    | apply fold_omit_list, Forall_true; intros; apply dec_known_peer_json
    | apply fold_omit_list, Forall_true; intros; reflexivity ]).
  by destruct a.
Qed.

Lemma announcement_json_ok a : announcement_text a = true -> json_ok (announcement_json a) = true.
Proof.
  intros H. unfold announcement_text in H. bool_steps. unfold announcement_json. cbn [json_ok].
  rewrite !forallb_app. cbn [forallb fst snd].
  rewrite !omit_str_ok, omit_bool_ok, jint_ok by (done || lia).
  rewrite !omit_list_ok; [|done| |done|].
  - cbn [json_ok]. repeat match goal with E : ascii_str _ = true |- _ => rewrite E; clear E end. done.
  - apply Forall_forall. intros k Hk. apply known_peer_json_ok.
    by apply (proj1 (forallb_forall _ _) H4), list_elem_of_In.
  - apply Forall_forall. intros k Hk. cbn [json_ok].
    by apply (proj1 (forallb_forall _ _) H5), list_elem_of_In.
Qed.

(** The metadata of an announcement. *)
Lemma dec_meta_json a :
  int64_min <= pa_Timestamp a <= int64_max ->
  dec_meta (announcement_json a) = Some (pa_Protocol a, pa_Timestamp a).
Proof.
  intros H. unfold dec_meta, announcement_json. by read_struct ltac:(by apply dec_jint).
Qed.

Lemma b64_ascii bs : Forall is_byte bs -> ascii_str (b64_encode StdEncoding bs) = true.
Proof.
  assert (forall n, 0 <= n < 64 -> byte_in 0 127 (b64_char StdEncoding n) = true) as Hc.
  { assert (Forall (fun n => byte_in 0 127 (b64_char StdEncoding n) = true) (seqZ 0 64)) as H by by_compute.
    rewrite Forall_forall in H. intros n Hn. apply H, elem_of_seqZ. lia. }
  unfold ascii_str. induction bs as [|a|a b|a b c bs IH] using list_ind3; intros Hb;
    repeat (apply Forall_cons in Hb as [? Hb]).
  - done.
  - destruct (quantum_bounds a a a) as (? & ? & _); [done..|]. simpl. by rewrite !Hc.
  - destruct (quantum_bounds a b a) as (? & ? & ? & ? & _); [done..|]. simpl. by rewrite !Hc.
  - destruct (quantum_bounds a b c) as (? & ? & ? & ? & ? & ?); [done..|]. simpl.
    rewrite !Hc by done. by rewrite IH.
Qed.

Definition envelope_ok (e : Envelope) : Prop :=
  ascii_str (MessageType e) = true /\ Forall is_byte (Nonce e) /\ Forall is_byte (Ciphertext e).

Lemma dec_envelope_json e : envelope_ok e -> dec_envelope (envelope_json e) = Some e.
Proof.
  intros (_ & Hn & Hc). unfold dec_envelope, envelope_json, bytes_field.
  read_struct ltac:(by apply b64_decode_encode). by destruct e.
Qed.

Lemma envelope_json_ok e : envelope_ok e -> json_ok (envelope_json e) = true.
Proof.
  intros (Ht & Hn & Hc). unfold envelope_json, jbytes. cbn [app json_ok forallb fst snd].
  rewrite Ht, !b64_ascii by done. done.
Qed.

Lemma json_bytes_roundtrip {A} (dec : json -> option A) v :
  json_ok v = true -> of_json_bytes dec (json_bytes v) = dec v.
Proof. intros H. unfold of_json_bytes, json_bytes. by rewrite string_bytes_roundtrip, parse_print. Qed.

(** ** What validation promises *)

Definition valid_key (key : string) : Prop :=
  exists bs, b64_decode StdEncoding key = Some bs /\ length bs = 32%nat.
Definition valid_ip (ip : string) : Prop := is_Some (parse_ip ip).
Definition valid_endpoint (ep : string) : Prop :=
  ep = ""%string \/ exists host port n, split_host_port ep = Some (host, port)
                    /\ atoi port = Some n /\ 1 <= n <= 65535.
Definition valid_hostname (h : string) : Prop :=
  (String.length h <= MaxHostnameLength)%nat
  /\ Forall (fun b => 32 <= b <= 126) (bytes_of_string h).

Definition known_peer_valid (k : KnownPeer) : Prop :=
  valid_key (kp_WGPubKey k) /\ valid_ip (kp_MeshIP k) /\ valid_endpoint (kp_WGEndpoint k)
  /\ valid_hostname (kp_Hostname k).

Definition announcement_valid (a : PeerAnnouncement) : Prop :=
  valid_key (pa_WGPubKey a) /\ valid_ip (pa_MeshIP a) /\ valid_endpoint (pa_WGEndpoint a)
  /\ valid_hostname (pa_Hostname a)
  /\ (length (pa_RoutableNetworks a) <= MaxRoutableNetworks)%nat
  /\ Forall (fun c => is_Some (parse_cidr c)) (pa_RoutableNetworks a)
  /\ (length (pa_KnownPeers a) <= MaxKnownPeers)%nat
  /\ Forall known_peer_valid (pa_KnownPeers a).

Lemma validateWGPubKey_ok key : validateWGPubKey key = Ok tt <-> valid_key key.
Proof.
  unfold validateWGPubKey, valid_key. destruct (String.eqb_spec key "") as [->|].
  - split; [done|]. intros (bs & [= <-] & ?). done.
  - destruct (b64_decode StdEncoding key) as [bs|].
    + destruct (Nat.eqb_spec (length bs) 32); split; [by exists bs|done|done|].
      intros (bs' & [= <-] & ?). done.
    + split; [done|]. by intros (? & ? & _).
Qed.

Lemma validateMeshIP_ok ip : validateMeshIP ip = Ok tt <-> valid_ip ip.
Proof.
  unfold validateMeshIP, valid_ip. destruct (String.eqb_spec ip "") as [->|].
  - split; [done|]. intros [x Hx]. discriminate Hx.
  - destruct (parse_ip ip); split; [by eexists|done|done|by intros [? ?]].
Qed.

Lemma validateEndpoint_ok ep : when_set ep validateEndpoint = Ok tt <-> valid_endpoint ep.
Proof.
  unfold when_set, validateEndpoint, valid_endpoint. destruct (String.eqb_spec ep "") as [->|He].
  - split; [by left|done].
  - destruct (split_host_port ep) as [[h p]|].
    + destruct (atoi p) as [n|] eqn:En.
      * destruct ((n <? 1) || (65535 <? n)) eqn:E.
        -- split; [done|]. intros [?|(? & ? & m & [= <- <-] & Hm & ?)]; [done|].
           rewrite En in Hm. injection Hm as <-. apply orb_true_iff in E as []; bool_steps; lia.
        -- bool_steps. split; [|done]. intros _. right. exists h, p, n. split; [done|]. split; [done|lia].
      * split; [done|]. intros [?|(? & ? & m & [= <- <-] & Hm & ?)]; congruence.
    + split; [done|]. intros [?|(? & ? & ? & ? & _)]; done.
Qed.

Lemma check_printable_ok s : check_printable s = Ok tt <-> Forall (fun b => 32 <= b <= 126) (bytes_of_string s).
Proof.
  unfold bytes_of_string. induction s as [|c s IH]; simpl; [by split|].
  rewrite Forall_cons, <- IH. destruct ((byte_of_ascii c <? 32) || (126 <? byte_of_ascii c)) eqn:E.
  - split; [done|]. apply orb_true_iff in E as []; bool_steps; lia.
  - bool_steps. split; [intros; split; [lia|done]|by intros []].
Qed.

Lemma validateHostname_ok h : when_set h validateHostname = Ok tt <-> valid_hostname h.
Proof.
  unfold when_set, validateHostname, valid_hostname. destruct (String.eqb_spec h "") as [->|He].
  - split; [|done]. intros _. split; [simpl; lia|constructor].
  - destruct (Nat.ltb_spec MaxHostnameLength (String.length h)); [split; [done|lia]|].
    rewrite check_printable_ok. split; [by split|by intros []].
Qed.

Lemma wrap_unit pre (r : result unit) : wrap pre r = Ok tt <-> r = Ok tt.
Proof. apply wrap_ok. Qed.

Lemma rbind_unit (r : result unit) (k : unit -> result unit) :
  rbind r k = Ok tt <-> r = Ok tt /\ k tt = Ok tt.
Proof.
  rewrite rbind_ok. split; [intros ([] & ? & ?); auto|intros []; eauto].
Qed.

Lemma KnownPeer_Validate_ok k : KnownPeer_Validate k = Ok tt <-> known_peer_valid k.
Proof.
  unfold KnownPeer_Validate, known_peer_valid.
  rewrite !rbind_unit, !wrap_unit, validateWGPubKey_ok, validateMeshIP_ok, validateEndpoint_ok,
    validateHostname_ok. tauto.
Qed.

Lemma check_all_ok {A} (check : A -> result unit) (P : A -> Prop) l :
  (forall a, check a = Ok tt <-> P a) -> check_all check l = Ok tt <-> Forall P l.
Proof.
  intros H. induction l as [|a l IH]; simpl; [by split|]. rewrite Forall_cons, <- H, <- IH.
  destruct (check a) as [[]|e]; [tauto|]. split; [done|by intros []].
Qed.

Lemma check_cidr_ok c : check_cidr c = Ok tt <-> is_Some (parse_cidr c).
Proof. unfold check_cidr. destruct (parse_cidr c); split; try done; by intros []. Qed.

(** Validation is exactly its declarative meaning: an announcement is
    accepted if and only if its key is 32 base64 bytes, its mesh IP parses, its
    endpoint is empty or host:port with a port in 1..65535, its hostname is at
    most 253 printable ASCII bytes, and its networks (at most 100) and known
    peers (at most 1000) are all well formed. *)
Theorem Validate_iff a : Validate a = Ok tt <-> announcement_valid a.
Proof.
  unfold Validate, announcement_valid.
  rewrite !rbind_unit, !wrap_unit, validateWGPubKey_ok, validateMeshIP_ok, validateEndpoint_ok,
    validateHostname_ok.
  destruct (Nat.ltb_spec MaxRoutableNetworks (length (pa_RoutableNetworks a))) as [H1|H1].
  { split; [by intros (_ & _ & _ & _ & ?)|]. intros (_ & _ & _ & _ & ? & _). lia. }
  rewrite rbind_unit, (check_all_ok check_cidr _ _ check_cidr_ok).
  destruct (Nat.ltb_spec MaxKnownPeers (length (pa_KnownPeers a))) as [H2|H2].
  { split; [by intros (_ & _ & _ & _ & _ & ?)|]. intros (_ & _ & _ & _ & _ & _ & ? & _). lia. }
  rewrite wrap_unit, (check_all_ok _ _ _ KnownPeer_Validate_ok). tauto.
Qed.

(** ** Opening what was sealed *)

Definition fresh_at (ts : Z) (now : Time) : Prop :=
  now - time_unix ts <= MaxMessageAge /\ time_unix ts <= now + MaxMessageAge.

Lemma freshness_check ts now {A} (e1 e2 : string) (k : result A) :
  (if MaxMessageAge <? time_sub now (time_unix ts) then Err e1
   else if time_after (time_unix ts) (time_add now MaxMessageAge) then Err e2 else k) = k
  /\ fresh_at ts now
  \/ ~ fresh_at ts now /\ is_ok
  (if MaxMessageAge <? time_sub now (time_unix ts) then @Err A e1
   else if time_after (time_unix ts) (time_add now MaxMessageAge) then Err e2 else k) = false.
Proof.
  unfold fresh_at, time_after, time_add.
  pose proof (time_sub_gt_iff now (time_unix ts) MaxMessageAge
    ltac:(unfold int64_min, int64_max, MaxMessageAge, minute, second; lia)).
  destruct (Z.ltb_spec MaxMessageAge (time_sub now (time_unix ts))); [right; split; [lia|done]|].
  destruct (Z.ltb_spec (now + MaxMessageAge) (time_unix ts)); [right; split; [lia|done]|].
  left. split; [done|lia].
Qed.

(** The nonce size is checked before the cipher is called: no bytes panic. *)
Lemma OpenEnvelopeRaw_total `{Aead} data key now : exists r, OpenEnvelopeRaw data key now = Some r.
Proof.
  unfold OpenEnvelopeRaw. destruct (of_json_bytes dec_envelope data) as [env|]; [|by eexists].
  destruct (Nat.eqb_spec (length (Nonce env)) NonceSize) as [E|]; [|by eexists].
  unfold gcm_Open. rewrite E. by eexists.
Qed.

Lemma OpenEnvelope_total `{Aead} data key now : exists r, OpenEnvelope data key now = Some r.
Proof. unfold OpenEnvelope. destruct (OpenEnvelopeRaw_total data key now) as [r ->]. by eexists. Qed.

(** Opening what was sealed comes down to the test of its timestamp. *)
Lemma OpenEnvelopeRaw_eq `{Aead} mt v key nonce now data ts :
  json_ok v = true -> ascii_str mt = true -> length key = 32%nat ->
  length nonce = NonceSize -> Forall is_byte nonce ->
  dec_meta v = Some (ProtocolVersion, ts) ->
  SealEnvelope mt v key (Some nonce) = Ok data ->
  exists env, MessageType env = mt /\ OpenEnvelopeRaw data key now
    = Some (if MaxMessageAge <? time_sub now (time_unix ts) then Err "message too old"
      else if time_after (time_unix ts) (time_add now MaxMessageAge) then Err "message timestamp in future"
      else Ok (env, json_bytes v)).
Proof.
  intros Hv Hmt Hk Hn Bn Hmeta Hs. injection Hs as <-.
  set (env := {| MessageType := mt; Nonce := nonce; Ciphertext := seal key nonce (json_bytes v) |}).
  assert (Forall is_byte (json_bytes v)) as Bv by apply bytes_of_string_bytes.
  assert (envelope_ok env) as Henv by (split; [done|split; [done|by apply seal_bytes]]).
  exists env. split; [done|]. unfold OpenEnvelopeRaw.
  rewrite json_bytes_roundtrip, dec_envelope_json by (done || by apply envelope_json_ok).
  cbn [Nonce Ciphertext env]. unfold gcm_Open. rewrite Hn. cbn [NonceSize gcmStandardNonceSize Nat.eqb negb mbind option_bind].
  rewrite open_seal by done. rewrite json_bytes_roundtrip, Hmeta by done.
  rewrite String.eqb_refl. reflexivity.
Qed.

(** A sealed payload opens to its own bytes when its metadata is acceptable. *)
Lemma OpenEnvelopeRaw_Seal `{Aead} mt v key nonce now data ts :
  json_ok v = true -> ascii_str mt = true -> length key = 32%nat ->
  length nonce = NonceSize -> Forall is_byte nonce ->
  dec_meta v = Some (ProtocolVersion, ts) ->
  SealEnvelope mt v key (Some nonce) = Ok data ->
  fresh_at ts now ->
  exists env, MessageType env = mt /\ OpenEnvelopeRaw data key now = Some (Ok (env, json_bytes v)).
Proof.
  intros Hv Hmt Hk Hn Bn Hmeta Hs Hf.
  destruct (OpenEnvelopeRaw_eq mt v key nonce now data ts) as (env & Hty & ->); try done.
  exists env. split; [done|].
  destruct (freshness_check ts now "message too old" "message timestamp in future" (Ok (env, json_bytes v)))
    as [[E _]|[? _]]; [by rewrite E|done].
Qed.

(** A sealed payload is refused when the clock has left its window. *)
Lemma OpenEnvelope_stale `{Aead} mt v key nonce now data ts :
  json_ok v = true -> ascii_str mt = true -> length key = 32%nat ->
  length nonce = NonceSize -> Forall is_byte nonce ->
  dec_meta v = Some (ProtocolVersion, ts) ->
  SealEnvelope mt v key (Some nonce) = Ok data ->
  ~ fresh_at ts now -> exists e, OpenEnvelope data key now = Some (Err e).
Proof.
  intros Hv Hmt Hk Hn Bn Hmeta Hs Hf. unfold OpenEnvelope.
  destruct (OpenEnvelopeRaw_eq mt v key nonce now data ts) as (env & _ & ->); try done.
  destruct (freshness_check ts now "message too old" "message timestamp in future" (Ok (env, json_bytes v)))
    as [[_ ?]|[_ E]]; [done|]. destruct (if MaxMessageAge <? _ then _ else _) as [x|e]; [done|]. by exists e.
Qed.

(** Opening what a node of the mesh sealed. *)
Lemma open_sealed `{Aead} mt a key nonce now data :
  Validate a = Ok tt -> announcement_text a = true -> pa_Protocol a = ProtocolVersion ->
  ascii_str mt = true -> length key = 32%nat -> length nonce = NonceSize -> Forall is_byte nonce ->
  SealEnvelope mt (announcement_json a) key (Some nonce) = Ok data ->
  fresh_at (pa_Timestamp a) now ->
  exists env, MessageType env = mt /\ OpenEnvelope data key now = Some (Ok (env, a)).
Proof.
  intros Hval Ht Hp Hmt Hk Hn Bn Hs Hf.
  assert (int64_min <= pa_Timestamp a <= int64_max) as Hts.
  { unfold announcement_text in Ht. bool_steps. lia. }
  pose proof (dec_meta_json a Hts) as Hm. rewrite Hp in Hm.
  destruct (OpenEnvelopeRaw_Seal mt _ key nonce now data _ (announcement_json_ok a Ht) Hmt Hk Hn Bn Hm Hs Hf)
    as (env & Hty & Ho).
  exists env. split; [done|]. unfold OpenEnvelope. rewrite Ho. cbn [mbind option_bind rbind fst snd].
  rewrite json_bytes_roundtrip, dec_announcement_json by (done || by apply announcement_json_ok).
  by rewrite Hval.
Qed.

(** C9. A valid announcement survives the wire: what one node seals of an
    announcement that validates, is plain ASCII text with a 64-bit timestamp and
    carries the protocol version, every holder of the gossip key opens to the same
    announcement and message type, for any nonce, as long as its clock is within
    ten minutes of the timestamp. *)
Theorem OpenEnvelope_SealEnvelope `{Aead} mt a key nonce now data :
  Validate a = Ok tt -> announcement_text a = true -> pa_Protocol a = ProtocolVersion ->
  ascii_str mt = true -> length key = 32%nat -> length nonce = NonceSize -> Forall is_byte nonce ->
  SealEnvelope mt (announcement_json a) key (Some nonce) = Ok data ->
  fresh_at (pa_Timestamp a) now ->
  exists env, MessageType env = mt /\ OpenEnvelope data key now = Some (Ok (env, a)).
Proof. apply open_sealed. Qed.

Definition sample_announcement : PeerAnnouncement :=
  CreateAnnouncement "AAAAAAAAAAAAAAAAAAAAAAAAAAAAAAAAAAAAAAAAAAA=" "10.42.0.7" "192.0.2.1:51820"
    true ["10.1.0.0/16"]%string
    [{| kp_WGPubKey := "AQEBAQEBAQEBAQEBAQEBAQEBAQEBAQEBAQEBAQEBAQE="; kp_Hostname := "relay";
        kp_MeshIP := "10.42.0.9"; kp_MeshIPv6 := ""; kp_WGEndpoint := ""; kp_Introducer := true;
        kp_NATType := "cone" |}]
    "node-1" "" "unknown" (1700000000 * second).

Lemma OpenEnvelope_SealEnvelope_witness :
  exists data env, SealEnvelope MessageTypeHello (announcement_json sample_announcement)
                     (replicate 32 9) (Some (replicate 12 3)) = Ok data
  /\ OpenEnvelope data (replicate 32 9) (1700000300 * second) = Some (Ok (env, sample_announcement)).
Proof.
  destruct (SealEnvelope MessageTypeHello (announcement_json sample_announcement)
              (replicate 32 9) (Some (replicate 12 3))) as [data|e] eqn:E; [|discriminate E].
  destruct (OpenEnvelope_SealEnvelope MessageTypeHello sample_announcement (replicate 32 9)
    (replicate 12 3) (1700000300 * second) data) as (env & _ & H).
  - vm_compute; reflexivity.
  - vm_compute; reflexivity.
  - reflexivity.
  - reflexivity.
  - reflexivity.
  - reflexivity.
  - by_compute.
  - exact E.
  - split; vm_compute; discriminate.
  - exists data, env. split; [reflexivity|exact H].
Defined.

(** C8. Whatever bytes arrive, an envelope is accepted only if it decrypts
    under the gossip key with a 12-byte nonce, names the protocol version and
    carries a timestamp within ten minutes of the local clock; and an accepted
    announcement satisfies the validation contract. *)
Theorem OpenEnvelope_sound `{Aead} data key now env a :
  OpenEnvelope data key now = Some (Ok (env, a)) ->
  announcement_valid a /\ length (Nonce env) = NonceSize
  /\ exists pt ts, open key (Nonce env) (Ciphertext env) = Some pt
     /\ of_json_bytes dec_meta pt = Some (ProtocolVersion, ts) /\ fresh_at ts now
     /\ of_json_bytes dec_announcement pt = Some a.
Proof.
  unfold OpenEnvelope. intros (r & Hraw & [= Hk])%bind_Some. apply rbind_ok in Hk as ([e pt] & -> & Hk).
  cbn [fst snd] in Hk.
  destruct (of_json_bytes dec_announcement pt) as [a'|] eqn:Ea; [|done].
  apply rbind_ok in Hk as ([] & Hv & [= <- <-]). apply wrap_ok, Validate_iff in Hv.
  split; [done|]. unfold OpenEnvelopeRaw in Hraw.
  destruct (of_json_bytes dec_envelope data) as [env'|]; [|done].
  destruct (Nat.eqb_spec (length (Nonce env')) NonceSize) as [Hn|]; [|done]. cbn [negb] in Hraw.
  unfold gcm_Open in Hraw. rewrite Hn in Hraw. cbn [mbind option_bind NonceSize gcmStandardNonceSize Nat.eqb] in Hraw.
  destruct (open key (Nonce env') (Ciphertext env')) as [pt'|] eqn:Eo; [|done]. injection Hraw as Hraw.
  destruct (of_json_bytes dec_meta pt') as [[proto ts]|] eqn:Em; [|done].
  destruct (String.eqb_spec proto ProtocolVersion) as [->|]; [|done]. cbn [negb] in Hraw.
  destruct (freshness_check ts now "message too old" "message timestamp in future"
    (Ok (env', pt'))) as [[E Hf]|[_ E]]; rewrite Hraw in E; [|done].
  injection E as <- <-. split; [done|]. exists pt, ts. done.
Qed.

(** The sample as it travels. *)
Definition sample_data : list Z :=
  match SealEnvelope MessageTypeHello (announcement_json sample_announcement)
          (replicate 32 9) (Some (replicate 12 3)) with
  | Ok data => data
  | Err _ => []
  end.

Definition opened (r : option (result (Envelope * PeerAnnouncement))) : option PeerAnnouncement :=
  match r with Some (Ok (_, a)) => Some a | _ => None end.

Lemma OpenEnvelope_sound_witness :
  opened (OpenEnvelope sample_data (replicate 32 9) (1700000300 * second)) = Some sample_announcement
  /\ announcement_valid sample_announcement.
Proof.
  assert (opened (OpenEnvelope sample_data (replicate 32 9) (1700000300 * second))
          = Some sample_announcement) as H by (vm_compute; reflexivity).
  split; [exact H|].
  destruct (OpenEnvelope sample_data (replicate 32 9) (1700000300 * second)) as [[[env a]|e]|] eqn:E;
    [|discriminate H..].
  injection H as <-.
  exact (proj1 (OpenEnvelope_sound sample_data (replicate 32 9) (1700000300 * second) env _ E)).
Defined.
