(* ===== verification/RateLimit.v ===== *)
(** * Per-IP rate limiting (pkg/ratelimit/limiter.go)

    The limiter keeps a map from source IP to an element of a doubly linked
    list ordered by recency, each element holding a token bucket.  The model
    keeps the indirection: elements are identifiers into a heap, [buckets] maps
    a key to an identifier and [lru] lists the identifiers, most recent first.
    Token arithmetic is binary64, as in the source.  An association list ordered
    by recency is the abstract specification the pointer structure refines. *)

From S2P Require Import Prelude GoFloat.

Definition f0 : float64 := f_of_Z 0.
Definition f1 : float64 := f_of_Z 1.

Definition DefaultRate : float64 := f_of_Z 10.
Definition DefaultBurst : float64 := f_of_Z 20.
Definition DefaultMaxIPs : Z := 4096.

Record bucket := { tokens : float64; lastFill : Time }.
Record entry := { en_ip : string; bkt : bucket }.

Record IPRateLimiter := {
  rate : float64;
  burst : float64;
  maxIPs : Z;
  buckets : gmap string nat;
  lru : list nat;
  elems : gmap nat entry;
}.

Definition New (r b : float64) (m : Z) : IPRateLimiter :=
  {| rate := if f_le r f0 then DefaultRate else r;
     burst := if f_le b f0 then DefaultBurst else if f_lt b f1 then f1 else b;
     maxIPs := if (m <=? 0)%Z then DefaultMaxIPs else m;
     buckets := ∅; lru := []; elems := ∅ |}.

Definition NewDefault : IPRateLimiter := New DefaultRate DefaultBurst DefaultMaxIPs.

Record verdict := { allowed : bool; remaining : float64; retryAfter : Duration }.

(** Refill the bucket for the elapsed time and take a token if there is one. *)
Definition refill (r b : float64) (bk : bucket) (now : Time) : float64 :=
  let elapsed := duration_seconds (time_sub now (lastFill bk)) in
  let t := f_add (tokens bk) (f_mul elapsed r) in
  if f_lt b t then b else t.

Definition take_token (r b : float64) (bk : bucket) (now : Time) : bucket * verdict :=
  let t := refill r b bk now in
  if f_lt t f1 then
    let wait := f_div (f_sub f1 t) r in
    ({| tokens := t; lastFill := now |},
     {| allowed := false; remaining := f0; retryAfter := f_duration (f_mul wait (f_of_Z second)) |})
  else
    let t' := f_sub t f1 in
    ({| tokens := t'; lastFill := now |}, {| allowed := true; remaining := t'; retryAfter := 0%Z |}).

Definition first_bucket (b : float64) (now : Time) : bucket :=
  {| tokens := f_sub b f1; lastFill := now |}.
Definition first_verdict (b : float64) : verdict :=
  {| allowed := true; remaining := f_sub b f1; retryAfter := 0%Z |}.

(** [list.MoveToFront] and [list.Remove]. *)
Definition unlink (id : nat) (l : list nat) : list nat := filter (fun x => x <> id) l.

(** [lru.Back()]: evict the least recently used entry when full. *)
Definition evict (l : IPRateLimiter) : IPRateLimiter :=
  if (maxIPs l <=? Z.of_nat (length (lru l)))%Z then
    match last (lru l) with
    | None => l
    | Some oldest =>
        {| rate := rate l; burst := burst l; maxIPs := maxIPs l;
           buckets := match elems l !! oldest with
                      | Some e => delete (en_ip e) (buckets l)
                      | None => buckets l
                      end;
           lru := unlink oldest (lru l);
           elems := delete oldest (elems l) |}
    end
  else l.

Definition push_front (l : IPRateLimiter) (e : entry) : IPRateLimiter :=
  let id := fresh (dom (elems l)) in
  {| rate := rate l; burst := burst l; maxIPs := maxIPs l;
     buckets := <[en_ip e := id]> (buckets l);
     lru := id :: lru l;
     elems := <[id := e]> (elems l) |}.

Definition consume (l : IPRateLimiter) (key : string) (now : Time) : IPRateLimiter * verdict :=
  match buckets l !! key ≫= (fun id => e ← elems l !! id; Some (id, e)) with
  | Some (id, e) =>
      let '(bk, v) := take_token (rate l) (burst l) (bkt e) now in
      ({| rate := rate l; burst := burst l; maxIPs := maxIPs l;
          buckets := buckets l;
          lru := id :: unlink id (lru l);
          elems := <[id := {| en_ip := en_ip e; bkt := bk |}]> (elems l) |}, v)
  | None =>
      (push_front (evict l) {| en_ip := key; bkt := first_bucket (burst l) now |},
       first_verdict (burst l))
  end.

Definition Allow (l : IPRateLimiter) (ip : string) (now : Time) : IPRateLimiter * bool :=
  let '(l', v) := consume l ip now in (l', allowed v).

Definition Reserve (l : IPRateLimiter) (key : string) (now : Time)
  : IPRateLimiter * (bool * Z * Duration) :=
  let '(l', v) := consume l key now in (l', (allowed v, f_trunc (remaining v), retryAfter v)).

Definition Burst (l : IPRateLimiter) : Z := f_trunc (burst l).
Definition Rate (l : IPRateLimiter) : float64 := rate l.

Definition Reset (l : IPRateLimiter) : IPRateLimiter :=
  {| rate := rate l; burst := burst l; maxIPs := maxIPs l; buckets := ∅; lru := []; elems := ∅ |}.

(** ** The abstract limiter: buckets in order of recency *)

Notation recency := (list (string * bucket)).

Definition spec_consume (r b : float64) (cap : Z) (a : recency) (key : string) (now : Time)
  : recency * verdict :=
  match (list_to_map a : gmap string bucket) !! key with
  | Some bk =>
      let '(bk', v) := take_token r b bk now in
      ((key, bk') :: filter (fun kb => fst kb <> key) a, v)
  | None =>
      let a' := if (cap <=? Z.of_nat (length a))%Z then take (length a - 1) a else a in
      ((key, first_bucket b now) :: a', first_verdict b)
  end.

(** The recency list a limiter represents. *)
Definition abs_entry (l : IPRateLimiter) (id : nat) : option (string * bucket) :=
  (fun e => (en_ip e, bkt e)) <$> elems l !! id.
Definition abs (l : IPRateLimiter) : recency := omap (abs_entry l) (lru l).

(** The map, the list and the heap agree. *)
Record coherent (l : IPRateLimiter) : Prop := {
  coh_nodup : NoDup (lru l);
  coh_heap : forall id, id ∈ lru l <-> is_Some (elems l !! id);
  coh_map : forall k id, buckets l !! k = Some id <-> exists e, elems l !! id = Some e /\ en_ip e = k;
  coh_cap : (0 < maxIPs l)%Z /\ (Z.of_nat (length (lru l)) <= maxIPs l)%Z
}.

(** ** Lemmas *)

Lemma New_coherent r b m : coherent (New r b m).
Proof.
  constructor; simpl; [constructor| | |].
  - intros id. split; [by intros ?%not_elem_of_nil|]. by intros [? ?].
  - intros k id. split; [done|]. by intros (? & ? & _).
  - unfold DefaultMaxIPs. destruct (Z.leb_spec m 0); lia.
Qed.

Section coherent_limiter.
Context (l : IPRateLimiter) (Hl : coherent l).

Lemma heap_entry id : id ∈ lru l -> exists e, elems l !! id = Some e.
Proof. intros H. by apply (coh_heap l Hl) in H as [e ?]; exists e. Qed.

(** A key is held by one element only. *)
Lemma heap_key_inj id1 id2 e1 e2 :
  elems l !! id1 = Some e1 -> elems l !! id2 = Some e2 -> en_ip e1 = en_ip e2 -> id1 = id2.
Proof.
  intros H1 H2 He.
  assert (buckets l !! en_ip e1 = Some id1) by (apply (coh_map l Hl); eauto).
  assert (buckets l !! en_ip e1 = Some id2) by (apply (coh_map l Hl); eauto).
  congruence.
Qed.

Lemma abs_sublist_length xs : (forall x, x ∈ xs -> x ∈ lru l) -> length (omap (abs_entry l) xs) = length xs.
Proof.
  intros H. induction xs as [|x xs IH]; [done|]. destruct (heap_entry x) as [e He]; [apply H; by left|].
  unfold abs_entry. simpl. rewrite He. simpl. f_equal. apply IH. intros y Hy. apply H. by right.
Qed.

Lemma abs_length : length (abs l) = length (lru l).
Proof. by apply abs_sublist_length. Qed.

Lemma abs_elem k bk :
  (k, bk) ∈ abs l <-> exists id e, elems l !! id = Some e /\ en_ip e = k /\ bkt e = bk.
Proof.
  unfold abs. rewrite list_elem_of_omap. unfold abs_entry. split.
  - intros (id & _ & H). destruct (elems l !! id) as [e|] eqn:E; [|done]. simpl in H.
    simplify_eq. eauto.
  - intros (id & e & He & <- & <-). exists id. rewrite He. split; [|done].
    apply (coh_heap l Hl). eauto.
Qed.

Lemma abs_nodup : NoDup (fst <$> abs l).
Proof.
  unfold abs. assert (forall x, x ∈ lru l -> x ∈ lru l) as Hsub by done.
  revert Hsub. generalize (coh_nodup l Hl). generalize (lru l) at 1 2 4. intros xs Hnd Hsub.
  induction xs as [|x xs IH]; [constructor|]. apply NoDup_cons in Hnd as [Hx Hnd].
  destruct (heap_entry x) as [e He]; [apply Hsub; by left|].
  simpl. unfold abs_entry at 1. rewrite He. simpl. constructor.
  2:{ apply IH; [done|]. intros y Hy. apply Hsub. by right. }
  intros ((k & bk) & Hk & Hin)%list_elem_of_fmap. simpl in Hk. subst k.
  apply list_elem_of_omap in Hin as (y & Hy & He'). unfold abs_entry in He'.
  destruct (elems l !! y) as [e'|] eqn:Ey; [|done]. simpl in He'. simplify_eq.
  assert (x = y) as -> by (by eapply heap_key_inj). done.
Qed.

(** The map lookup of the code is the lookup in the recency list. *)
Lemma lookup_abs key :
  (list_to_map (abs l) : gmap string bucket) !! key
  = bkt <$> (buckets l !! key ≫= fun id => elems l !! id).
Proof.
  destruct (buckets l !! key) as [id|] eqn:Eb; simpl.
  - pose proof Eb as Eb'. apply (coh_map l Hl) in Eb' as (e & He & Hk). rewrite He. simpl.
    apply elem_of_list_to_map_1; [apply abs_nodup|]. apply abs_elem. eauto.
  - apply not_elem_of_list_to_map_1. intros ((k & bk) & Hk & Hin)%list_elem_of_fmap.
    simpl in Hk. subst k. apply abs_elem in Hin as (id & e & He & Hk & _).
    assert (buckets l !! key = Some id) by (apply (coh_map l Hl); eauto). congruence.
Qed.

(** Removing one element from the list removes its key from the recency list. *)
Lemma omap_unlink id e xs :
  elems l !! id = Some e -> (forall x, x ∈ xs -> x ∈ lru l) ->
  omap (abs_entry l) (unlink id xs) = filter (fun kb => fst kb <> en_ip e) (omap (abs_entry l) xs).
Proof.
  intros He Hsub. unfold unlink. induction xs as [|x xs IH]; [done|].
  destruct (heap_entry x) as [e' He']; [apply Hsub; by left|].
  assert (abs_entry l x = Some (en_ip e', bkt e')) as Hx by (unfold abs_entry; by rewrite He').
  rewrite (omap_cons_Some _ x xs _ Hx).
  assert (forall y, y ∈ xs -> y ∈ lru l) as Hsub' by (intros y Hy; apply Hsub; by right).
  specialize (IH Hsub').
  destruct (decide (x = id)) as [->|Hne].
  - rewrite filter_cons_False by naive_solver. rewrite filter_cons_False; [done|].
    simpl. rewrite He in He'. naive_solver.
  - rewrite filter_cons_True by done. rewrite (omap_cons_Some _ x _ _ Hx), filter_cons_True; [by f_equal|].
    simpl. intros Heq. apply Hne. by eapply heap_key_inj.
Qed.

Lemma abs_unlink id e :
  elems l !! id = Some e ->
  omap (abs_entry l) (unlink id (lru l)) = filter (fun kb => fst kb <> en_ip e) (abs l).
Proof. intros He. by apply omap_unlink. Qed.
End coherent_limiter.

Lemma unlink_elem id xs x : x ∈ unlink id xs <-> x ∈ xs /\ x <> id.
Proof. unfold unlink. rewrite list_elem_of_filter. tauto. Qed.

Lemma unlink_last xs o : NoDup (xs ++ [o]) -> unlink o (xs ++ [o]) = xs.
Proof.
  intros Hnd. apply NoDup_app in Hnd as (_ & Hd & _). unfold unlink. rewrite filter_app.
  assert (filter (fun x => x <> o) [o] = []) as -> by (by rewrite filter_cons_False by naive_solver).
  rewrite app_nil_r. apply filter_all. intros x Hx ->. apply (Hd o Hx). by left.
Qed.

(** Eviction drops the least recently used entry exactly when the table is
    full. *)
Lemma evict_spec l :
  coherent l ->
  let l' := evict l in
  NoDup (lru l') /\ (forall id, id ∈ lru l' <-> is_Some (elems l' !! id))
  /\ (forall k id, buckets l' !! k = Some id <-> exists e, elems l' !! id = Some e /\ en_ip e = k)
  /\ (Z.of_nat (length (lru l')) < maxIPs l)%Z
  /\ rate l' = rate l /\ burst l' = burst l /\ maxIPs l' = maxIPs l
  /\ abs l' = (if (maxIPs l <=? Z.of_nat (length (abs l)))%Z then take (length (abs l) - 1) (abs l) else abs l).
Proof.
  intros Hl. pose proof (coh_cap l Hl) as [Hpos Hcap]. pose proof (abs_length l Hl) as Habs.
  unfold evict. rewrite Habs. destruct (Z.leb_spec (maxIPs l) (Z.of_nat (length (lru l)))) as [Hfull|Hroom].
  2:{ cbv zeta. destruct Hl. auto 10 with lia. }
  destruct (last (lru l)) as [o|] eqn:Eo.
  2:{ apply last_None in Eo. rewrite Eo in Hfull. simpl in Hfull. lia. }
  apply last_Some in Eo as [xs Exs]. pose proof (coh_nodup l Hl) as Hnd. rewrite Exs in Hnd.
  destruct (heap_entry l Hl o) as [e He]; [rewrite Exs; apply elem_of_app; right; by left|].
  rewrite He. cbn [lru elems buckets rate burst maxIPs]. cbv zeta. cbn [lru elems buckets rate burst maxIPs].
  rewrite Exs, unlink_last by done. rewrite Exs, length_app in Hcap, Hfull. simpl in Hcap, Hfull.
  pose proof Hnd as Hnd'. apply NoDup_app in Hnd' as (Hxs & Hdis & _).
  assert (o ∉ xs) as Ho by (intros Hin; apply (Hdis o Hin); by left).
  split; [done|]. split; [|split; [|split; [lia|split; [done|split; [done|split; [done|]]]]]].
  - intros id. rewrite lookup_delete. case_decide as Hid.
    + subst. split; [done|]. by intros [? ?].
    + rewrite <- (coh_heap l Hl), Exs, elem_of_app, list_elem_of_singleton. naive_solver.
  - intros k id. rewrite !lookup_delete. case_decide as Hk.
    + split; [done|]. intros (e' & He' & Hke). case_decide as Hid; [done|].
      exfalso. apply Hid. by eapply (heap_key_inj l Hl); [exact He|exact He'|congruence].
    + rewrite (coh_map l Hl). case_decide as Hid; [|done]. subst. split; [|by intros (? & ? & _)].
      intros (e' & He' & Hke). rewrite He in He'. by simplify_eq.
  - unfold abs. cbn [lru]. rewrite Exs, omap_app.
    assert (abs_entry l o = Some (en_ip e, bkt e)) as Hae by (unfold abs_entry; by rewrite He).
    rewrite (omap_cons_Some _ _ _ _ Hae). cbn [omap list_omap]. rewrite length_app. cbn [length].
    assert (length (omap (abs_entry l) xs) = length xs) as Hlen.
    { apply (abs_sublist_length l Hl). intros x Hx. rewrite Exs. apply elem_of_app. by left. }
    replace (length xs + 1 - 1)%nat with (length (omap (abs_entry l) xs)) by lia.
    rewrite take_app_length. apply omap_ext_in. intros x Hx. unfold abs_entry. cbn [elems].
    rewrite lookup_delete_ne; [done|]. intros ->. done.
Qed.

Lemma push_front_spec l e :
  NoDup (lru l) -> (forall id, id ∈ lru l <-> is_Some (elems l !! id)) ->
  (forall k id, buckets l !! k = Some id <-> exists e, elems l !! id = Some e /\ en_ip e = k) ->
  (Z.of_nat (length (lru l)) < maxIPs l)%Z -> buckets l !! en_ip e = None ->
  coherent (push_front l e) /\ abs (push_front l e) = (en_ip e, bkt e) :: abs l.
Proof.
  intros Hnd Hheap Hmap Hcap Hno. unfold push_front. set (id := fresh (dom (elems l))).
  assert (elems l !! id = None) as Hid by (apply not_elem_of_dom, is_fresh).
  assert (id ∉ lru l) as Hni by (intros Hin; apply Hheap in Hin as [? ?]; congruence).
  split; [constructor; cbn [lru elems buckets maxIPs]|].
  - by constructor.
  - intros x. rewrite elem_of_cons, lookup_insert. case_decide as Hx; [naive_solver|].
    rewrite <- Hheap. naive_solver.
  - intros k x. rewrite !lookup_insert. case_decide as Hk; case_decide as Hx; subst.
    + naive_solver.
    + split; [naive_solver|]. intros (e' & He' & Hk).
      assert (buckets l !! en_ip e = Some x) by (apply Hmap; eauto). congruence.
    + split; [|naive_solver]. intros H. apply Hmap in H as (? & ? & _). congruence.
    + apply Hmap.
  - simpl. lia.
  - unfold abs. cbn [lru]. erewrite omap_cons_Some; [|unfold abs_entry; cbn [elems]; by rewrite lookup_insert_eq].
    f_equal. apply omap_ext_in. intros x Hx. unfold abs_entry. cbn [elems].
    rewrite lookup_insert_ne; [done|]. intros <-. done.
Qed.

(** One step of the refinement. *)
Lemma consume_refines l key now :
  coherent l ->
  let '(l', v) := consume l key now in
  coherent l' /\ spec_consume (rate l) (burst l) (maxIPs l) (abs l) key now = (abs l', v).
Proof.
  intros Hl. unfold consume, spec_consume. rewrite (lookup_abs l Hl).
  destruct (buckets l !! key) as [id|] eqn:Eb; simpl.
  - pose proof Eb as Eb'. apply (coh_map l Hl) in Eb' as (e & He & Hk). rewrite He. simpl.
    destruct (take_token (rate l) (burst l) (bkt e) now) as [bk v].
    assert (id ∈ lru l) as Hin by (apply (coh_heap l Hl); eauto).
    split; [constructor; cbn [lru elems buckets maxIPs]|].
    + constructor; [rewrite unlink_elem; naive_solver|]. apply NoDup_filter, (coh_nodup l Hl).
    + intros x. rewrite elem_of_cons, unlink_elem, lookup_insert, (coh_heap l Hl).
      destruct (decide (x = id)); case_decide; naive_solver.
    + intros k x. rewrite (coh_map l Hl), lookup_insert. case_decide; naive_solver.
    + pose proof (coh_cap l Hl). split; [lia|].
      assert (length (unlink id (lru l)) < length (lru l))%nat; [|simpl; lia].
      apply (length_filter_lt (fun x => x <> id) (lru l) id); naive_solver.
    + f_equal. unfold abs at 2. cbn [lru].
      erewrite omap_cons_Some; [|unfold abs_entry; cbn [elems]; rewrite lookup_insert_eq; reflexivity].
      cbn [en_ip bkt]. rewrite Hk. f_equal. rewrite <- Hk, <- (abs_unlink l Hl id e He).
      apply omap_ext_in. intros x Hx. apply unlink_elem in Hx as [_ Hx]. unfold abs_entry. cbn [elems].
      by rewrite lookup_insert_ne.
  - destruct (evict_spec l Hl) as (H1 & H2 & H3 & H4 & H5 & H6 & H7 & H8).
    destruct (push_front_spec (evict l) {| en_ip := key; bkt := first_bucket (burst l) now |})
      as [Hc Ha]; [done|done|done|by rewrite H7| |].
    + cbn [en_ip]. destruct (buckets (evict l) !! key) as [x|] eqn:Ex; [|done]. exfalso.
      unfold evict in Ex. repeat case_match; simpl in Ex;
        rewrite ?lookup_delete in Ex; repeat case_decide; congruence.
    + split; [done|]. rewrite Ha. cbn [en_ip bkt]. by rewrite H8.
Qed.

(** ** Properties *)

(** The verdicts of a sequence of messages, each with its source and arrival
    time. *)
Fixpoint run (l : IPRateLimiter) (calls : list (string * Time)) : IPRateLimiter * list verdict :=
  match calls with
  | [] => (l, [])
  | (key, now) :: calls' =>
      let '(l', v) := consume l key now in
      let '(l'', vs) := run l' calls' in (l'', v :: vs)
  end.

Fixpoint spec_run (r b : float64) (cap : Z) (a : recency) (calls : list (string * Time))
  : recency * list verdict :=
  match calls with
  | [] => (a, [])
  | (key, now) :: calls' =>
      let '(a', v) := spec_consume r b cap a key now in
      let '(a'', vs) := spec_run r b cap a' calls' in (a'', v :: vs)
  end.

Lemma consume_params l key now :
  rate (consume l key now).1 = rate l /\ burst (consume l key now).1 = burst l
  /\ maxIPs (consume l key now).1 = maxIPs l.
Proof.
  unfold consume. destruct (buckets l !! key ≫= _) as [[id e]|].
  - by destruct (take_token (rate l) (burst l) (bkt e) now).
  - unfold push_front, evict. simpl. destruct (Z.leb _ _); [|done]. by destruct (last (lru l)).
Qed.

Lemma run_refines l calls :
  coherent l ->
  coherent (run l calls).1
  /\ spec_run (rate l) (burst l) (maxIPs l) (abs l) calls = (abs (run l calls).1, (run l calls).2).
Proof.
  revert l. induction calls as [|[key now] calls IH]; intros l Hl; [done|]. cbn [run spec_run].
  pose proof (consume_refines l key now Hl) as H. pose proof (consume_params l key now) as (P1 & P2 & P3).
  destruct (consume l key now) as [l' v]. cbn [fst] in P1, P2, P3. destruct H as [Hc ->].
  destruct (IH l' Hc) as [Hc' Hs]. rewrite P1, P2, P3 in Hs. rewrite Hs.
  by destruct (run l' calls) as [l'' vs].
Qed.

Lemma run_maxIPs l calls : maxIPs (run l calls).1 = maxIPs l.
Proof.
  revert l. induction calls as [|[key now] calls IH]; intros l; [done|]. cbn [run].
  pose proof (consume_params l key now) as (_ & _ & Hm). specialize (IH (consume l key now).1).
  destruct (consume l key now) as [l' v]. cbn [fst] in *. destruct (run l' calls). cbn [fst] in *. congruence.
Qed.

(** C12. On every sequence of messages the limiter gives exactly the verdicts of
    a table of buckets ordered by recency that forgets its least recently used
    entry when full; it represents that table, its map, list and heap stay
    coherent, and it never tracks more than [maxIPs] sources. *)
Theorem limiter_refines_recency r b m calls :
  let l0 := New r b m in
  let '(l, vs) := run l0 calls in
  coherent l
  /\ spec_run (rate l0) (burst l0) (maxIPs l0) [] calls = (abs l, vs)
  /\ (Z.of_nat (size (buckets l)) <= maxIPs l0)%Z.
Proof.
  cbv zeta. destruct (run_refines (New r b m) calls (New_coherent r b m)) as [Hc Hs].
  pose proof (run_maxIPs (New r b m) calls) as Hmax.
  destruct (run (New r b m) calls) as [l vs]. cbn [fst snd] in *.
  split; [done|]. split; [done|]. pose proof (coh_cap l Hc) as [_ Hcap].
  assert (size (buckets l) <= length (lru l))%nat; [|lia].
  assert (size (buckets l) = size (dom (buckets l))) as -> by (by rewrite size_dom).
  assert (size (list_to_set (fst <$> abs l) : gset string) <= length (lru l))%nat as Hsz.
  { rewrite size_list_to_set by apply abs_nodup, Hc. by rewrite length_fmap, abs_length. }
  etrans; [|exact Hsz]. apply subseteq_size. intros k Hk. apply elem_of_dom in Hk as [id Hid].
  apply (coh_map l Hc) in Hid as (e & He & Hk). apply elem_of_list_to_set, list_elem_of_fmap.
  exists (k, bkt e). split; [done|]. apply (abs_elem l Hc). eauto.
Qed.

(** What one source sees while it is tracked. *)
Fixpoint bucket_run (r b : float64) (bk : bucket) (times : list Time) : list bool :=
  match times with
  | [] => []
  | t :: times => let '(bk', v) := take_token r b bk t in allowed v :: bucket_run r b bk' times
  end.

Lemma spec_consume_single r b cap key bk t :
  spec_consume r b cap [(key, bk)] key t
  = let '(bk', v) := take_token r b bk t in ([(key, bk')], v).
Proof.
  unfold spec_consume.
  assert ((list_to_map [(key, bk)] : gmap string bucket) !! key = Some bk) as ->
    by apply lookup_insert_eq.
  assert (filter (fun kb : string * bucket => kb.1 <> key) [(key, bk)] = []) as ->
    by (rewrite filter_cons_False; [done|naive_solver]).
  done.
Qed.

Lemma single_source_run r b cap key bk times :
  allowed <$> (spec_run r b cap [(key, bk)] ((fun t => (key, t)) <$> times)).2 = bucket_run r b bk times.
Proof.
  revert bk. induction times as [|t times IH]; intros bk; [done|].
  rewrite fmap_cons. cbn [spec_run bucket_run]. rewrite spec_consume_single.
  destruct (take_token r b bk t) as [bk' v]. specialize (IH bk').
  destruct (spec_run r b cap [(key, bk')] ((fun t => (key, t)) <$> times)) as [a vs].
  cbn [snd] in *. rewrite fmap_cons. by f_equal.
Qed.

Lemma take_token_now bk now n :
  lastFill bk = now ->
  bucket_run DefaultRate DefaultBurst bk (replicate n now)
  = bucket_run DefaultRate DefaultBurst {| tokens := tokens bk; lastFill := 0%Z |} (replicate n 0%Z).
Proof.
  revert bk. induction n as [|n IH]; intros bk Hb; [done|]. cbn [replicate bucket_run].
  unfold take_token, refill. cbn [tokens lastFill]. rewrite Hb, time_sub_diag. change (time_sub 0%Z 0%Z) with 0%Z.
  destruct (f_lt _ f1); cbn [allowed]; f_equal; by rewrite IH.
Qed.

(** A source that floods a default limiter gets its burst of 20 messages
    and nothing more until time passes, whatever its address and the hour. *)
Theorem default_burst_exact key now n :
  (n <= 100)%nat ->
  allowed <$> (run NewDefault (replicate n (key, now))).2
  = replicate (Nat.min n 20) true ++ replicate (n - 20) false.
Proof.
  intros Hn. destruct (run_refines NewDefault (replicate n (key, now))) as [_ Hs]; [apply New_coherent|].
  assert ((run NewDefault (replicate n (key, now))).2 =
          (spec_run DefaultRate DefaultBurst DefaultMaxIPs [] (replicate n (key, now))).2) as ->.
  { change (abs NewDefault) with (@nil (string * bucket)) in Hs.
    change (rate NewDefault) with DefaultRate in Hs. change (burst NewDefault) with DefaultBurst in Hs.
    change (maxIPs NewDefault) with DefaultMaxIPs in Hs. by rewrite Hs. }
  destruct n as [|n]; [done|]. cbn [replicate spec_run].
  assert (replicate n (key, now) = (fun t => (key, t)) <$> replicate n now) as ->
    by (by rewrite fmap_replicate).
  change (spec_consume DefaultRate DefaultBurst DefaultMaxIPs [] key now) with
    ([(key, first_bucket DefaultBurst now)], first_verdict DefaultBurst).
  pose proof (single_source_run DefaultRate DefaultBurst DefaultMaxIPs key
    (first_bucket DefaultBurst now) (replicate n now)) as H.
  cbv iota beta. clear Hs. destruct (spec_run _ _ _ _ _) as [a vs]. cbn [snd] in *. rewrite fmap_cons, H.
  rewrite take_token_now by done. clear H.
  assert (Forall (fun n => true :: bucket_run DefaultRate DefaultBurst
            {| tokens := tokens (first_bucket DefaultBurst now); lastFill := 0%Z |} (replicate n 0%Z)
          = replicate (Nat.min (S n) 20) true ++ replicate (S n - 20) false) (seq 0 100)) as Hall.
  { cbn [tokens first_bucket]. by_compute. }
  rewrite Forall_forall in Hall. apply Hall, elem_of_seq. lia.
Qed.

Lemma default_burst_exact_witness :
  allowed <$> (run NewDefault (replicate 23 ("192.0.2.7"%string, 1700000000000000000%Z))).2
  = replicate 20 true ++ replicate 3 false.
Proof. apply (default_burst_exact "192.0.2.7" 1700000000000000000%Z 23). lia. Defined.
