(* ===== verification/Dandelion.v ===== *)
(** * Dandelion++ announcements (pkg/privacy/dandelion.go, pkg/daemon/epoch.go)

    The router's epoch, the deterministic choice of relay peers, and the stem or
    fluff decision taken at every hop.  [crypto/rand] draws are arguments;
    [math/rand]'s generator is the interface [Shuffler] (its Fisher-Yates
    shuffle is executable over the draws). *)

From S2P Require Import Prelude GoStrings GoCrypto.

Definition MaxStemHops : Z := 4%Z.
Definition FluffPercent : Z := 10%Z.      (* int64(FluffProbability*100) *)
Definition DefaultEpochDuration : Duration := (10 * minute)%Z.

Record DandelionAnnounce := {
  OriginPubkey : string;
  OriginMeshIP : string;
  OriginEndpoint : string;
  da_RoutableNetworks : list string;
  HopCount : Z;                           (* uint8 *)
  da_Timestamp : Z;
  da_Nonce : list Z;
}.

(** The privacy package's own [PeerInfo]. *)
Record RelayPeer := { rp_WGPubKey : string; rp_MeshIP : string; rp_Endpoint : string }.
#[export] Instance RelayPeer_eq_dec : EqDecision RelayPeer.
Proof. solve_decision. Defined.

Record Epoch := {
  ep_ID : Z;                              (* uint64 *)
  RelayPeers : list RelayPeer;
  ep_StartedAt : Time;
  ep_Duration : Duration;
}.

(** [onFluff] and [onStem] may be unset. *)
Record DandelionRouter := {
  epochSeed : list Z;
  epoch : Epoch;
  hasFluff : bool;
  hasStem : bool;
}.

Definition NewDandelionRouter (seed : list Z) (now : Time) : DandelionRouter :=
  {| epochSeed := seed;
     epoch := {| ep_ID := 0; RelayPeers := []; ep_StartedAt := now; ep_Duration := DefaultEpochDuration |};
     hasFluff := false; hasStem := false |}.

Definition SetFluffHandler (d : DandelionRouter) : DandelionRouter :=
  {| epochSeed := epochSeed d; epoch := epoch d; hasFluff := true; hasStem := hasStem d |}.
Definition SetStemHandler (d : DandelionRouter) : DandelionRouter :=
  {| epochSeed := epochSeed d; epoch := epoch d; hasFluff := hasFluff d; hasStem := true |}.

(** [draw] is the number in [0, 100) or [None] when the random source fails. *)
Definition ShouldFluff (hopCount : Z) (draw : option Z) : bool :=
  if (MaxStemHops <=? hopCount)%Z then true
  else match draw with
       | None => true
       | Some n => (n <? FluffPercent)%Z
       end.

Definition with_hops (msg : DandelionAnnounce) (h : Z) : DandelionAnnounce :=
  {| OriginPubkey := OriginPubkey msg; OriginMeshIP := OriginMeshIP msg;
     OriginEndpoint := OriginEndpoint msg; da_RoutableNetworks := da_RoutableNetworks msg;
     HopCount := h; da_Timestamp := da_Timestamp msg; da_Nonce := da_Nonce msg |}.

(** The handler call a message leads to. *)
Inductive action :=
| Fluff (msg : DandelionAnnounce)
| Stem (msg : DandelionAnnounce) (relay : RelayPeer)
| Dropped.

Definition HandleAnnounce (d : DandelionRouter) (msg : DandelionAnnounce) (draw : option Z) : action :=
  let msg :=
    if (MaxStemHops <=? HopCount msg)%Z then with_hops msg MaxStemHops
    else with_hops msg (u8 (HopCount msg + 1)) in
  if ShouldFluff (HopCount msg) draw then
    (if hasFluff d then Fluff msg else Dropped)
  else
    match RelayPeers (epoch d) with
    | [] => if hasFluff d then Fluff msg else Dropped
    | relays =>
        match relays !! (Z.to_nat (HopCount msg) mod length relays) with
        | Some relay => if hasStem d then Stem msg relay else Dropped
        | None => Dropped
        end
    end.

(** ** Choosing the relays of an epoch *)

(** [math/rand]: the value drawn for position [i] when a list of [n] elements
    is shuffled with a generator of the given seed. *)
Class Shuffler := {
  shuffle_draw : Z -> nat -> nat -> nat;
  shuffle_draw_le : forall seed n i, (shuffle_draw seed n i <= i)%nat
}.

Definition swap {A} (i j : nat) (l : list A) : list A :=
  match l !! i, l !! j with
  | Some x, Some y => <[i := y]> (<[j := x]> l)
  | _, _ => l
  end.

(** [rng.Shuffle]: positions n-1 down to 1. *)
Fixpoint shuffle_from {A} `{Shuffler} (seed : Z) (n i : nat) (l : list A) : list A :=
  match i with
  | O => l
  | S i' => shuffle_from seed n i' (swap i (shuffle_draw seed n i) l)
  end.

Definition shuffle {A} `{Shuffler} (seed : Z) (l : list A) : list A :=
  shuffle_from seed (length l) (length l - 1) l.

Definition key_le (p q : RelayPeer) : Prop := str_le (rp_WGPubKey p) (rp_WGPubKey q).
#[export] Instance key_le_dec : RelDecision key_le.
Proof. intros p q. unfold key_le. apply _. Defined.

(** [int64(uint64)]. *)
Definition to_int64 (u : Z) : Z := if (u <? 2 ^ 63)%Z then u else (u - 2 ^ 64)%Z.

Definition selectRelayPeers `{Shuffler} (seed : list Z) (epochID : Z) (allPeers : list RelayPeer)
    (count : nat) : list RelayPeer :=
  match allPeers with
  | [] => []
  | _ =>
      let count := Nat.min count (length allPeers) in
      let mac := hmac_sha256 seed (be_bytes 8 epochID) in
      let sorted := merge_sort key_le allPeers in
      take count (shuffle (to_int64 (be_uint (take 8 mac))) sorted)
  end.

Definition RotateEpoch `{Shuffler} (d : DandelionRouter) (allPeers : list RelayPeer) (now : Time)
  : DandelionRouter :=
  let newEpochID := u64 (ep_ID (epoch d) + 1) in
  {| epochSeed := epochSeed d;
     epoch := {| ep_ID := newEpochID;
                 RelayPeers := selectRelayPeers (epochSeed d) newEpochID allPeers 2;
                 ep_StartedAt := now; ep_Duration := DefaultEpochDuration |};
     hasFluff := hasFluff d; hasStem := hasStem d |}.

Definition GetEpoch (d : DandelionRouter) : Epoch := epoch d.

Definition NeedsEpochRotation (d : DandelionRouter) (now : Time) : bool :=
  (ep_Duration (epoch d) <? time_sub now (ep_StartedAt (epoch d)))%Z.

Definition CreateAnnounce (pubkey meshIP endpoint : string) (routableNetworks : list string)
    (nonce : list Z) (now : Time) : DandelionAnnounce :=
  {| OriginPubkey := pubkey; OriginMeshIP := meshIP; OriginEndpoint := endpoint;
     da_RoutableNetworks := routableNetworks; HopCount := 0; da_Timestamp := time_to_unix now;
     da_Nonce := nonce |}.

(** One tick of [EpochRotationLoop]: the initial rotation and every tick rotate
    over the peers known at that time. *)
Definition EpochRotationLoop `{Shuffler} (d : DandelionRouter) (ticks : list (list RelayPeer * Time))
  : DandelionRouter :=
  foldl (fun d t => RotateEpoch d (fst t) (snd t)) d ticks.

(** ** Travelling through the mesh *)

(** A message visits a router with a draw; a stem passes it to the next router,
    which may be any other node of the mesh. *)
Inductive hop : DandelionAnnounce -> DandelionAnnounce -> Prop :=
| hop_stem d msg draw msg' relay :
    HandleAnnounce d msg draw = Stem msg' relay -> hop msg msg'.

(** ** Lemmas *)

Lemma swap_length {A} i j (l : list A) : length (swap i j l) = length l.
Proof.
  unfold swap. destruct (l !! i); [|done]. destruct (l !! j); [|done]. by rewrite !length_insert.
Qed.

Lemma swap_perm {A} i j (l : list A) : (i < length l)%nat -> (j < length l)%nat -> swap i j l ≡ₚ l.
Proof.
  intros [x Hx]%lookup_lt_is_Some [y Hy]%lookup_lt_is_Some. unfold swap. rewrite Hx, Hy.
  destruct (decide (i = j)) as [->|Hij].
  - rewrite list_insert_insert_eq. rewrite list_insert_id; [done|congruence].
  - apply Permutation_inj. rewrite !length_insert. split; [done|].
    exists (fun k => if decide (k = i) then j else if decide (k = j) then i else k). split.
    + intros a b. repeat case_decide; congruence.
    + intros k. destruct (decide (k = i)) as [->|Hk]; [|destruct (decide (k = j)) as [->|Hk']].
      * rewrite list_lookup_insert_eq; [done|]. rewrite length_insert. by eapply lookup_lt_Some.
      * rewrite list_lookup_insert_ne by done. rewrite list_lookup_insert_eq; [done|]. by eapply lookup_lt_Some.
      * by rewrite !list_lookup_insert_ne.
Qed.

Lemma shuffle_from_perm {A} `{Shuffler} seed n i (l : list A) :
  (i < length l)%nat \/ i = 0%nat -> shuffle_from seed n i l ≡ₚ l.
Proof.
  revert l. induction i as [|i IH]; intros l Hi; [done|]. cbn [shuffle_from].
  pose proof (shuffle_draw_le seed n (S i)) as Hj.
  rewrite IH by (rewrite swap_length; lia). apply swap_perm; lia.
Qed.

Lemma shuffle_perm {A} `{Shuffler} seed (l : list A) : shuffle seed l ≡ₚ l.
Proof. apply shuffle_from_perm. lia. Qed.

(** Sorting by key forgets the order the peers were listed in. *)
Lemma sort_canonical l1 l2 :
  NoDup (rp_WGPubKey <$> l1) -> l1 ≡ₚ l2 -> merge_sort key_le l1 = merge_sort key_le l2.
Proof. apply (sort_by_key_canonical rp_WGPubKey key_le). done. Qed.

(** ** Properties *)

Definition same_message (m m' : DandelionAnnounce) : Prop := with_hops m 0 = with_hops m' 0.

Lemma hop_counts m m' :
  (0 <= HopCount m)%Z -> hop m m' ->
  HopCount m' = (HopCount m + 1)%Z /\ (HopCount m' < MaxStemHops)%Z /\ same_message m m'.
Proof.
  intros H0 Hh. inversion Hh as [d msg draw msg' relay Hstem]; subst. revert Hstem.
  unfold HandleAnnounce, ShouldFluff.
  destruct (Z.leb_spec MaxStemHops (HopCount m)) as [Hm|Hm].
  { cbn [HopCount with_hops]. rewrite Z.leb_refl. by destruct (hasFluff d). }
  assert (u8 (HopCount m + 1) = HopCount m + 1)%Z as E.
  { unfold u8, MaxStemHops in *. apply Z.mod_small. lia. }
  cbn [HopCount with_hops]. rewrite E.
  destruct (Z.leb_spec MaxStemHops (HopCount m + 1)); [by destruct (hasFluff d)|].
  destruct (match draw with Some n => (n <? FluffPercent)%Z | None => true end);
    [by destruct (hasFluff d)|].
  destruct (RelayPeers (epoch d)) as [|r rs]; [by destruct (hasFluff d)|].
  destruct ((r :: rs) !! _); [|done]. destruct (hasStem d); [|done].
  intros [= <- _]. done.
Qed.

(** C40. Whatever the routers it meets and the random draws, an announcement is
    relayed along the stem at most three times before it is fluffed; each relay
    adds exactly one to its hop count (no 8-bit wrap-around) and changes nothing
    else. *)
Theorem stem_bounded k m m' :
  (0 <= HopCount m)%Z -> nsteps hop k m m' ->
  (HopCount m' = HopCount m + Z.of_nat k)%Z /\ (k <= 3)%nat /\ same_message m m'.
Proof.
  intros H0 Hs. assert ((HopCount m' = HopCount m + Z.of_nat k)%Z
    /\ (k = 0%nat \/ HopCount m' < MaxStemHops)%Z /\ same_message m m') as (H1 & H2 & H3).
  { revert H0. induction Hs as [x|n x y z Hxy Hyz IH]; intros H0.
    - split; [lia|]. split; [by left|done].
    - destruct (hop_counts _ _ H0 Hxy) as (E & Hlt & Hsame). destruct IH as (IH1 & IH2 & IH3); [lia|].
      split; [lia|]. split; [|unfold same_message in *; congruence].
      right. destruct IH2 as [->|]; [|done]. inversion Hyz; subst. done. }
  split; [done|]. split; [|done]. unfold MaxStemHops in H2. lia.
Qed.

Definition sample_router : DandelionRouter :=
  {| epochSeed := replicate 32 1%Z;
     epoch := {| ep_ID := 1;
                 RelayPeers := [{| rp_WGPubKey := "r1"; rp_MeshIP := "10.0.0.1"; rp_Endpoint := "" |}];
                 ep_StartedAt := 0%Z; ep_Duration := DefaultEpochDuration |};
     hasFluff := true; hasStem := true |}.

Lemma stem_bounded_witness :
  let m := CreateAnnounce "k" "10.0.0.9" "" [] [] 0%Z in
  nsteps hop 3 m (with_hops m 3) /\ (3 <= 3)%nat.
Proof.
  set (m := CreateAnnounce "k" "10.0.0.9" "" [] [] 0%Z).
  assert (nsteps hop 3 m (with_hops m 3)) as Hs.
  { apply (nsteps_l hop _ m (with_hops m 1)); [apply (hop_stem sample_router m (Some 50%Z) _ _ eq_refl)|].
    apply (nsteps_l hop _ _ (with_hops m 2));
      [apply (hop_stem sample_router (with_hops m 1) (Some 50%Z) _ _ eq_refl)|].
    apply (nsteps_l hop _ _ (with_hops m 3));
      [apply (hop_stem sample_router (with_hops m 2) (Some 50%Z) _ _ eq_refl)|apply nsteps_O]. }
  split; [exact Hs|].
  apply (stem_bounded 3 m (with_hops m 3)); [vm_compute; discriminate|exact Hs].
Defined.

(** A router with its handlers set never loses an announcement: it is
    fluffed, or passed to one of the epoch's relay peers; without relays it is
    fluffed at once, and at the last hop in any case. *)
Theorem announce_not_lost d msg draw :
  hasFluff d = true -> hasStem d = true ->
  (exists m', HandleAnnounce d msg draw = Fluff m' /\ same_message msg m')
  \/ (exists m' relay, HandleAnnounce d msg draw = Stem m' relay /\ relay ∈ RelayPeers (epoch d)
      /\ same_message msg m' /\ RelayPeers (epoch d) <> []).
Proof.
  intros Hf Hs. unfold HandleAnnounce. rewrite Hf, Hs.
  set (m := if (MaxStemHops <=? HopCount msg)%Z then _ else _).
  assert (same_message msg m) as Hm by (unfold m; by destruct (MaxStemHops <=? HopCount msg)%Z).
  destruct (ShouldFluff (HopCount m) draw); [left; eauto|].
  destruct (RelayPeers (epoch d)) as [|r rs] eqn:E; [left; eauto|]. right.
  destruct ((r :: rs) !! (Z.to_nat (HopCount m) mod length (r :: rs))) as [relay|] eqn:Er.
  - exists m, relay. split; [done|]. split; [by eapply list_elem_of_lookup_2|]. done.
  - apply lookup_ge_None in Er. pose proof (Nat.mod_upper_bound (Z.to_nat (HopCount m)) (length (r :: rs))).
    simpl in *. lia.
Qed.

Lemma announce_not_lost_witness :
  exists m' relay, HandleAnnounce sample_router (CreateAnnounce "k" "10.0.0.9" "" [] [] 0%Z) (Some 50%Z)
                   = Stem m' relay.
Proof.
  destruct (announce_not_lost sample_router (CreateAnnounce "k" "10.0.0.9" "" [] [] 0%Z) (Some 50%Z)
    eq_refl eq_refl) as [(m' & H & _)|(m' & relay & H & _)].
  - vm_compute in H. discriminate H.
  - exists m', relay. exact H.
Defined.

(** Nodes that know the same peers choose the same relays for an epoch,
    in whatever order their stores list them; the choice is two different known
    peers (or as many as there are). *)
Theorem relay_selection_agrees `{Shuffler} seed eid l1 l2 count :
  NoDup (rp_WGPubKey <$> l1) -> l1 ≡ₚ l2 ->
  let sel := selectRelayPeers seed eid l1 count in
  sel = selectRelayPeers seed eid l2 count
  /\ length sel = Nat.min count (length l1) /\ NoDup sel /\ (forall p, p ∈ sel -> p ∈ l1).
Proof.
  intros Hnd Hp. cbv zeta.
  assert (NoDup l1) as Hnd1 by (by eapply NoDup_fmap_1).
  destruct l1 as [|p l1].
  - apply Permutation_nil_l in Hp. subst l2. split; [done|]. split; [simpl; lia|].
    split; [constructor|by intros q Hq].
  - destruct l2 as [|q l2]; [by apply Permutation_nil_r in Hp|].
    set (x := p :: l1) in *. set (y := q :: l2) in *.
    unfold selectRelayPeers. change (match x with [] => [] | _ => ?e end) with e. unfold y, x.
    rewrite (sort_canonical (p :: l1) (q :: l2)) by done. fold x y.
    rewrite <- (Permutation_length Hp).
    set (s := shuffle _ _). assert (s ≡ₚ x) as Hsx.
    { unfold s. rewrite shuffle_perm, merge_sort_Permutation. by symmetry. }
    split; [done|]. split; [rewrite length_take, (Permutation_length Hsx); unfold x; simpl; lia|].
    split.
    + apply (sublist_NoDup _ s); [by rewrite Hsx|apply sublist_take].
    + intros r Hr. rewrite <- Hsx. apply (list_elem_of_lookup_1) in Hr as [i Hi].
      apply lookup_take_Some in Hi as [Hi _]. by eapply list_elem_of_lookup_2.
Qed.

(** A generator that leaves the order alone. *)
#[export] Program Instance no_shuffle : Shuffler := {| shuffle_draw := fun _ _ i => i |}.
Next Obligation. intros. lia. Qed.

Lemma relay_selection_agrees_witness :
  let peer k := {| rp_WGPubKey := k; rp_MeshIP := ""; rp_Endpoint := "" |} in
  selectRelayPeers (replicate 32 1%Z) 1%Z [peer "b"; peer "a"; peer "c"]%string 2
  = selectRelayPeers (replicate 32 1%Z) 1%Z [peer "c"; peer "b"; peer "a"]%string 2.
Proof.
  set (peer k := {| rp_WGPubKey := k; rp_MeshIP := ""; rp_Endpoint := "" |}).
  apply (relay_selection_agrees (replicate 32 1%Z) 1%Z [peer "b"; peer "a"; peer "c"]%string
    [peer "c"; peer "b"; peer "a"]%string 2).
  - by_compute.
  - by_compute.
Defined.
