(* ===== verification/IfName.v ===== *)
(** * Interface names and shell quoting (pkg/ifname/validate.go, shellQuote of
      pkg/wireguard/apply.go)

    Interface names reach file paths and, over SSH, shell command lines. *)

From S2P Require Import Prelude GoStrings.

Inductive goos := Linux | Darwin.

Definition MaxLen : nat := 15.

Definition is_letter (c : ascii) : bool :=
  let n := byte_of_ascii c in
  (((65 <=? n) && (n <=? 90)) || ((97 <=? n) && (n <=? 122)))%Z.

Definition name_char (c : ascii) : bool :=
  is_letter c || is_digit c || Ascii.eqb c "_" || Ascii.eqb c "-".

(** [^[a-zA-Z][a-zA-Z0-9_-]*$]. *)
Definition linuxRegex (s : string) : bool :=
  match s with
  | EmptyString => false
  | String c s' => is_letter c && string_forall name_char s'
  end.

(** [^utun[0-9]+$]. *)
Definition darwinRegex (s : string) : bool :=
  has_prefix s "utun"
  && negb (String.eqb (str_drop 4 s) "") && string_forall is_digit (str_drop 4 s).

Definition nul : ascii := ascii_of_byte 0.
Definition backslash_char : ascii := ascii_of_byte 92.

Definition Validate (os : goos) (name : string) : result unit :=
  if String.eqb name "" then Ok tt
  else if contains_char nul name then Err "interface name must not contain null bytes"
  else if contains_char "/" name || contains_char backslash_char name
  then Err "interface name must not contain path separators"
  else if String.eqb name "." || String.eqb name ".." then Err "interface name must not be '.' or '..'"
  else match os with
       | Darwin =>
           if negb (darwinRegex name) then Err "on macOS, interface name must follow the utun<N> pattern"
           else Ok tt
       | Linux =>
           if Nat.ltb MaxLen (String.length name) then Err "interface name is too long"
           else if negb (linuxRegex name) then Err "interface name is invalid"
           else Ok tt
       end.

(** ** Shell quoting *)

Definition squote : ascii := ascii_of_byte 39.

(** Every single quote closes the quotation, is escaped, and reopens it. *)
Fixpoint escape_quotes (s : string) : string :=
  match s with
  | EmptyString => EmptyString
  | String c s' =>
      if Ascii.eqb c squote
      then String squote (String backslash_char (String squote (String squote (escape_quotes s'))))
      else String c (escape_quotes s')
  end.

Definition shellQuote (s : string) : string :=
  String squote (String.append (escape_quotes s) (String squote EmptyString)).

(** How a POSIX shell reads one word: single quotes keep everything literal, a
    backslash outside them keeps the next character, a blank or the end of the
    line closes the word.  Other characters stand for themselves only if the
    shell gives them no meaning. *)
Definition shell_plain (c : ascii) : bool :=
  is_letter c || is_digit c
  || contains_char c "_-./:,=@%+".

Fixpoint sh_word (quoted : bool) (s : string) : option (string * string) :=
  let push c r := match r with Some (w, rest) => Some (String c w, rest) | None => None end in
  match s with
  | EmptyString => if quoted then None else Some (EmptyString, EmptyString)
  | String c s' =>
      if quoted then
        if Ascii.eqb c squote then sh_word false s' else push c (sh_word true s')
      else if Ascii.eqb c squote then sh_word true s'
      else if Ascii.eqb c backslash_char then
        match s' with
        | EmptyString => None
        | String d s'' => push d (sh_word false s'')
        end
      else if is_space c then Some (EmptyString, s)
      else if shell_plain c then push c (sh_word false s')
      else None
  end.

(** ** Properties *)

Lemma sh_word_escaped s rest :
  sh_word true (String.append (escape_quotes s) (String squote rest))
  = match sh_word false rest with Some (w, r) => Some (String.append s w, r) | None => None end.
Proof.
  induction s as [|c s IH].
  - simpl escape_quotes. rewrite app_nil_l_str. cbn [sh_word].
    change (Ascii.eqb squote squote) with true. cbv iota. by destruct (sh_word false rest) as [[w r]|].
  - cbn [escape_quotes]. destruct (Ascii.eqb_spec c squote) as [->|Hc].
    + rewrite !app_cons_str. cbn [sh_word].
      change (Ascii.eqb squote squote) with true. change (Ascii.eqb backslash_char squote) with false.
      change (Ascii.eqb backslash_char backslash_char) with true. cbv iota. rewrite IH.
      destruct (sh_word false rest) as [[w r]|]; [|done]. by rewrite app_cons_str.
    + rewrite app_cons_str. cbn [sh_word]. apply Ascii.eqb_neq in Hc. rewrite Hc, IH.
      destruct (sh_word false rest) as [[w r]|]; [|done]. by rewrite app_cons_str.
Qed.

(** Quoting is injection-proof: whatever bytes a string holds, the shell
    reads its quoted form, followed by a blank or the end of the line, as that
    one string and nothing else. *)
Theorem shellQuote_one_word s :
  sh_word false (shellQuote s) = Some (s, EmptyString)
  /\ forall rest, sh_word false (String.append (shellQuote s) (String " " rest))
                  = Some (s, String " " rest).
Proof.
  unfold shellQuote. split.
  - cbn [sh_word]. change (Ascii.eqb squote squote) with true. cbv iota.
    rewrite sh_word_escaped. cbn [sh_word]. by rewrite app_nil_r_str.
  - intros rest. rewrite app_cons_str, <- app_assoc_str, app_cons_str, app_nil_l_str.
    cbn [sh_word]. change (Ascii.eqb squote squote) with true. cbv iota.
    rewrite sh_word_escaped. cbn [sh_word].
    change (Ascii.eqb " " squote) with false. change (Ascii.eqb " " backslash_char) with false.
    change (is_space " ") with true. cbv iota. by rewrite app_nil_r_str.
Qed.

Lemma name_char_plain c : name_char c = true -> shell_plain c = true.
Proof. destruct c as [[] [] [] [] [] [] [] []]; intros H; try discriminate H; reflexivity. Qed.

Lemma letter_name_char c : is_letter c = true -> name_char c = true.
Proof. intros H. unfold name_char. by rewrite H. Qed.

(** On Linux a non-empty name is accepted exactly when it is one to fifteen
    letters, digits, underscores and hyphens starting with a letter; so an
    accepted name is a single path component and has no character that the
    shell interprets. *)
Theorem ifname_linux name :
  name <> EmptyString ->
  (Validate Linux name = Ok tt <-> (String.length name <= MaxLen)%nat /\ linuxRegex name = true)
  /\ (Validate Linux name = Ok tt ->
      string_forall shell_plain name = true /\ contains_char "/" name = false
      /\ name <> "."%string /\ name <> ".."%string).
Proof.
  intros Hne. assert (linuxRegex name = true -> string_forall name_char name = true) as Hall.
  { destruct name as [|c s]; [done|]. simpl. intros H. bool_steps. by rewrite letter_name_char. }
  assert (Validate Linux name = Ok tt <-> (String.length name <= MaxLen)%nat /\ linuxRegex name = true) as Hiff.
  { unfold Validate. apply String.eqb_neq in Hne. rewrite Hne. split.
    - destruct (contains_char nul name); [done|]. destruct (_ || _); [done|]. destruct (_ || _); [done|].
      destruct (Nat.ltb_spec MaxLen (String.length name)); [done|].
      by destruct (linuxRegex name).
    - intros [Hl Hr]. specialize (Hall Hr).
      assert (forall c, name_char c = false -> contains_char c name = false) as Hno.
      { intros c Hc. by apply (forall_not_contains name_char). }
      rewrite (Hno nul), (Hno "/"%char), (Hno backslash_char) by done. cbn [orb].
      destruct (String.eqb_spec name ".") as [->|]; [done|].
      destruct (String.eqb_spec name "..") as [->|]; [done|]. cbn [orb].
      destruct (Nat.ltb_spec MaxLen (String.length name)); [lia|]. by rewrite Hr. }
  split; [done|]. intros [_ Hr]%Hiff. specialize (Hall Hr).
  split; [|split; [by apply (forall_not_contains name_char)|split; by intros ->]].
  clear Hr Hiff Hne. induction name as [|c s IH]; [done|]. simpl in *. bool_steps.
  rewrite name_char_plain by done. by apply IH.
Qed.

Lemma ifname_linux_witness :
  Validate Linux "cloudroof-0" = Ok tt /\ contains_char "/" "cloudroof-0" = false.
Proof.
  assert (Validate Linux "cloudroof-0" = Ok tt) as H by reflexivity. split; [exact H|].
  apply (ifname_linux "cloudroof-0"); [discriminate|exact H].
Defined.
