(* ===== verification/WgConfig.v ===== *)
(** * WireGuard configuration (pkg/wireguard: config.go, apply.go, convert.go, persist.go)

    The centralized mode reads a remote interface with [wg show dump], computes
    a diff against the desired configuration and applies it over SSH; the daemon
    drives the local interface with [wg set].  A remote operation is a value of
    [rop]; an oracle [ok] tells which of them succeed, and the operations return
    the operations issued with the error they stopped at. *)

From S2P Require Import Prelude GoStrings GoCrypto IfName Routes.
Local Open Scope wgmesh_scope.

(** ** Data *)

Record WGInterface := { wi_PrivateKey : string; wi_Address : string; wi_ListenPort : Z }.
Record WGPeer := {
  wp_PublicKey : string;
  wp_Endpoint : string;
  wp_AllowedIPs : list string;
  wp_PersistentKeepalive : Z;
}.
Record FullConfig := { fc_Interface : WGInterface; fc_Peers : list WGPeer }.
Record PeerTransfer := { RxBytes : Z; TxBytes : Z }.

Record Peer := {
  PublicKey : string;
  PresharedKey : string;
  p_Endpoint : string;
  AllowedIPs : list string;
  PersistentKeepalive : Z;
}.
#[export] Instance Peer_eq_dec : EqDecision Peer.
Proof. solve_decision. Defined.

Record Interface := { PrivateKey : string; Address : string; ListenPort : Z }.
Record WgConfig := { c_Interface : Interface; c_Peers : gmap string Peer }.

Record ConfigDiff := {
  InterfaceChanged : bool;
  AddedPeers : gmap string Peer;
  RemovedPeers : list string;
  ModifiedPeers : gmap string Peer;
}.

Inductive rop :=
| Run (cmd : string)
| RunQuiet (cmd : string)
| RunWithStdin (cmd stdin : string)
| WriteFile (path content : string).

(** ** Reading the interface *)

(** [fmt.Sscanf(s, "%d", &x)] leaves [x] at 0 when nothing is read. *)
Definition scan_int (s : string) : Z := default 0%Z (sscanf_d s).

Definition dump_peer (line : string) : option Peer :=
  match fields line with
  | publicKey :: presharedKey :: endpoint :: ips :: rest =>
      Some {| PublicKey := publicKey; PresharedKey := presharedKey; p_Endpoint := endpoint;
              AllowedIPs := split_char "," ips;
              PersistentKeepalive := match rest with k :: _ => scan_int k | [] => 0%Z end |}
  | _ => None
  end.

Definition add_dump_line (peers : gmap string Peer) (line : string) : gmap string Peer :=
  match dump_peer line with
  | Some p => <[PublicKey p := p]> peers
  | None => peers
  end.

(** [output] is what the command printed, or its error. *)
Definition GetCurrentConfig (output : result string) : result WgConfig :=
  (out <-? output;
   if String.eqb (trim_space out) "" then Err "interface does not exist or no config"
   else match split_char newline (trim_space out) with
        | [] => Err "invalid wg dump output"
        | first :: rest =>
            Ok {| c_Interface :=
                    match fields first with
                    | key :: _ :: port :: _ =>
                        {| PrivateKey := key; Address := ""; ListenPort := scan_int port |}
                    | _ => {| PrivateKey := ""; Address := ""; ListenPort := 0%Z |}
                    end;
                  c_Peers := foldl add_dump_line ∅ rest |}
        end)%wg.

(** The three parsers of [wg show] of the daemon. *)
Definition GetPeers (output : result string) : result (list string) :=
  (out <-? wrap "wg show peers failed" output;
   Ok (filter (fun l => l <> ""%string) (trim_space <$> split_char newline out)))%wg.

Definition tab : ascii := ascii_of_byte 9.

Definition handshake_line (acc : gmap string Z) (line : string) : gmap string Z :=
  let line := trim_space line in
  if String.eqb line "" then acc
  else match cut_char tab line with
       | Some (key, ts) => <[key := scan_int ts]> acc
       | None => acc
       end.

Definition GetLatestHandshakes (output : result string) : result (gmap string Z) :=
  (out <-? wrap "wg show latest-handshakes failed" output;
   Ok (foldl handshake_line ∅ (split_char newline out)))%wg.

Definition transfer_line (acc : gmap string PeerTransfer) (line : string) : gmap string PeerTransfer :=
  let line := trim_space line in
  if String.eqb line "" then acc
  else match cut_char tab line with
       | Some (key, rest) =>
           match cut_char tab rest with
           | Some (rx, tx) => <[key := {| RxBytes := scan_int rx; TxBytes := scan_int tx |}]> acc
           | None => acc
           end
       | None => acc
       end.

Definition GetPeerTransfers (output : result string) : result (gmap string PeerTransfer) :=
  (out <-? wrap "wg show transfer failed" output;
   Ok (foldl transfer_line ∅ (split_char newline out)))%wg.

(** ** The diff *)

Definition set_of (l : list string) : gset string := list_to_set l.

Definition peersEqual (a b : Peer) : bool :=
  if negb (String.eqb (PresharedKey a) (PresharedKey b)) then false
  else if negb (String.eqb (p_Endpoint a) (p_Endpoint b)) then false
  else if negb (Z.eqb (PersistentKeepalive a) (PersistentKeepalive b)) then false
  else if negb (Nat.eqb (length (AllowedIPs a)) (length (AllowedIPs b))) then false
  else forallb (fun ip => bool_decide (ip ∈ set_of (AllowedIPs a))) (AllowedIPs b).

(** The peer exists on both sides and differs. *)
Definition is_modified (current : gmap string Peer) (kp : string * Peer) : bool :=
  match current !! kp.1 with
  | Some cur => negb (peersEqual cur kp.2)
  | None => false
  end.

Definition CalculateConfigDiff (current desired : WgConfig) : ConfigDiff :=
  {| InterfaceChanged :=
       negb (Z.eqb (ListenPort (c_Interface current)) (ListenPort (c_Interface desired)));
     RemovedPeers :=
       filter (fun k => c_Peers desired !! k = None) (fst <$> map_to_list (c_Peers current));
     AddedPeers :=
       filter (fun kp : string * Peer => c_Peers current !! kp.1 = None) (c_Peers desired);
     ModifiedPeers :=
       filter (fun kp : string * Peer => is_modified (c_Peers current) kp = true) (c_Peers desired) |}.

Definition HasChanges (d : ConfigDiff) : bool :=
  InterfaceChanged d || negb (Nat.eqb (size (AddedPeers d)) 0)
  || negb (Nat.eqb (length (RemovedPeers d)) 0) || negb (Nat.eqb (size (ModifiedPeers d)) 0).

Definition FullConfigToConfig (full : FullConfig) : WgConfig :=
  {| c_Interface := {| PrivateKey := wi_PrivateKey (fc_Interface full);
                       Address := wi_Address (fc_Interface full);
                       ListenPort := wi_ListenPort (fc_Interface full) |};
     c_Peers := foldl (fun m p =>
       <[wp_PublicKey p :=
           {| PublicKey := wp_PublicKey p; PresharedKey := ""; p_Endpoint := wp_Endpoint p;
              AllowedIPs := wp_AllowedIPs p; PersistentKeepalive := wp_PersistentKeepalive p |}]> m)
       ∅ (fc_Peers full) |}.

(** ** Applying over SSH *)

(** Issue operations in order until one fails. *)
Fixpoint issue (ok : rop -> bool) (ops : list (rop * string)) : list rop * result unit :=
  match ops with
  | [] => ([], Ok tt)
  | (o, err) :: ops' =>
      if ok o then let '(done, r) := issue ok ops' in (o :: done, r)
      else ([o], Err err)
  end.

Definition peer_flags (endpoint : string) (ips : list string) (keepalive : Z) : string :=
  (if String.eqb endpoint "" then "" else " endpoint " ^^ endpoint)
  ^^ (match ips with [] => "" | _ => " allowed-ips " ^^ join "," ips end)
  ^^ (if (0 <? keepalive)%Z then " persistent-keepalive " ^^ itoa keepalive else "").

Definition addOrUpdatePeer (iface pubKey : string) (p : Peer) : rop :=
  let psk := negb (String.eqb (PresharedKey p) "") && negb (String.eqb (PresharedKey p) "(none)") in
  let endpoint := if String.eqb (p_Endpoint p) "(none)" then EmptyString else p_Endpoint p in
  let cmd := "wg set " ^^ iface ^^ " peer " ^^ pubKey
             ^^ (if psk then " preshared-key /dev/stdin" else "")
             ^^ peer_flags endpoint (AllowedIPs p) (PersistentKeepalive p) in
  if psk then RunWithStdin cmd (PresharedKey p ^^ String newline EmptyString) else Run cmd.

Definition removePeer_op (iface pubKey : string) : rop :=
  Run ("wg set " ^^ iface ^^ " peer " ^^ pubKey ^^ " remove").

Definition ApplyDiff (ok : rop -> bool) (iface : string) (diff : ConfigDiff) : list rop * result unit :=
  if InterfaceChanged diff then ([], Err "interface changes require full reconfig")
  else
    let configure kp := (addOrUpdatePeer iface (fst kp) (snd kp), "failed to configure peer"%string) in
    issue ok (((fun k => (removePeer_op iface k, "failed to remove peer"%string)) <$> RemovedPeers diff)
              ++ (configure <$> map_to_list (AddedPeers diff))
              ++ (configure <$> map_to_list (ModifiedPeers diff))).

Definition ApplyFullConfiguration (os : goos) (ok : rop -> bool) (iface : string) (config : FullConfig)
  : list rop * result unit :=
  match Validate os iface with
  | Err e => ([], Err ("invalid interface name: " ^^ e))
  | Ok _ =>
      let qi := shellQuote iface in
      let tmpKeyFile := "/tmp/wg-key-" ^^ iface in
      let qk := shellQuote tmpKeyFile in
      let peer_op p :=
        (Run ("wg set " ^^ qi ^^ " peer " ^^ wp_PublicKey p
              ^^ peer_flags (wp_Endpoint p) (wp_AllowedIPs p) (wp_PersistentKeepalive p)),
         "failed to add peer"%string) in
      let del := Run ("ip link del " ^^ qi ^^ " 2>/dev/null || true") in
      let add := Run ("ip link add " ^^ qi ^^ " type wireguard") in
      let key := WriteFile tmpKeyFile (wi_PrivateKey (fc_Interface config)) in
      let rm := Run ("rm -f " ^^ qk) in
      if negb (ok add) then ([del; add], Err "failed to create interface")
      else if negb (ok key) then ([del; add; key], Err "failed to write private key")
      else
        let '(ops, r) := issue ok
          ([(Run ("wg set " ^^ qi ^^ " private-key " ^^ qk ^^ " listen-port "
                  ^^ itoa (wi_ListenPort (fc_Interface config))), "failed to set interface config"%string);
            (Run ("ip addr add " ^^ wi_Address (fc_Interface config) ^^ " dev " ^^ qi),
             "failed to set IP address"%string);
            (Run ("ip link set " ^^ qi ^^ " up"), "failed to bring interface up"%string)]
           ++ (peer_op <$> fc_Peers config)) in
        (* the deferred removal of the key file runs on every later return *)
        ([del; add; key] ++ ops ++ [rm], r)
  end.

(** ** The daemon's local commands *)

(** A local [wg] invocation: arguments and standard input. *)
Definition wg_cmd : Type := list string * option string.

Definition psk_nonzero (psk : list Z) : bool := negb (forallb (fun b => Z.eqb b 0) psk).

Definition SetPeer (iface pubKey : string) (psk : list Z) (endpoint allowedIPs : string) : wg_cmd :=
  (["set"; iface; "peer"; pubKey]%string
   ++ (if psk_nonzero psk then ["preshared-key"; "/dev/stdin"]%string else [])
   ++ (if String.eqb endpoint "" then [] else ["endpoint"%string; endpoint])
   ++ (if String.eqb allowedIPs "" then [] else ["allowed-ips"%string; allowedIPs])
   ++ ["persistent-keepalive"; "25"]%string,
   if psk_nonzero psk then Some (b64_encode StdEncoding psk ^^ String newline EmptyString) else None).

Definition RemovePeer (iface pubKey : string) : wg_cmd :=
  (["set"; iface; "peer"; pubKey; "remove"]%string, None).

(** ** The persistent configuration *)

Definition line (s : string) : string := s ^^ String newline EmptyString.

Definition GenerateWgQuickConfig (config : FullConfig) (routes : list Entry) : string :=
  let i := fc_Interface config in
  let route verb r := line (verb ^^ Network r ^^ " via " ^^ Gateway r ^^ " dev %i || true") in
  let cat := foldr String.append EmptyString in
  let peer p :=
    line "[Peer]" ^^ line ("PublicKey = " ^^ wp_PublicKey p)
    ^^ (if String.eqb (wp_Endpoint p) "" then "" else line ("Endpoint = " ^^ wp_Endpoint p))
    ^^ (match wp_AllowedIPs p with [] => "" | ips => line ("AllowedIPs = " ^^ join ", " ips) end)
    ^^ (if (0 <? wp_PersistentKeepalive p)%Z
        then line ("PersistentKeepalive = " ^^ itoa (wp_PersistentKeepalive p)) else "")
    ^^ line "" in
  line "[Interface]" ^^ line ("Address = " ^^ wi_Address i)
  ^^ line ("ListenPort = " ^^ itoa (wi_ListenPort i)) ^^ line ("PrivateKey = " ^^ wi_PrivateKey i)
  ^^ cat (route "PostUp = ip route add " <$> routes)
  ^^ cat (route "PreDown = ip route del " <$> routes)
  ^^ line "PostUp = sysctl -w net.ipv4.ip_forward=1"
  ^^ line "" ^^ cat (peer <$> fc_Peers config).

Definition conf_path (iface : string) : string := "/etc/wireguard/" ^^ iface ^^ ".conf".

Definition ApplyPersistentConfig (ok : rop -> bool) (iface : string) (config : FullConfig)
    (routes : list Entry) : list rop * result unit :=
  issue ok
    [(WriteFile (conf_path iface) (GenerateWgQuickConfig config routes), "failed to write config file"%string);
     (Run ("systemctl enable wg-quick@" ^^ iface), "failed to enable systemd service"%string);
     (Run ("systemctl restart wg-quick@" ^^ iface), "failed to restart service"%string)].

Definition canUseOnlineUpdate (diff : ConfigDiff) : bool := negb (InterfaceChanged diff).

Definition UpdatePersistentConfig (ok : rop -> bool) (iface : string) (config : FullConfig)
    (routes : list Entry) (diff : ConfigDiff) : list rop * result unit :=
  if InterfaceChanged diff || negb (canUseOnlineUpdate diff)
  then ApplyPersistentConfig ok iface config routes
  else
    let w := WriteFile (conf_path iface) (GenerateWgQuickConfig config routes) in
    if negb (ok w) then ([w], Err "failed to write config file")
    else
      let '(ops, r) := ApplyDiff ok iface diff in
      (w :: ops, wrap "failed to apply diff" r).

Definition RemovePersistentConfig (ok : rop -> bool) (iface : string) : list rop * result unit :=
  let rm := Run ("rm -f " ^^ conf_path iface) in
  ([RunQuiet ("systemctl stop wg-quick@" ^^ iface); RunQuiet ("systemctl disable wg-quick@" ^^ iface); rm],
   if ok rm then Ok tt else Err "failed to remove config file").

(** ** Lemmas *)

(** The peers a remote interface has once a diff is applied. *)
Definition apply_config_diff (current : gmap string Peer) (d : ConfigDiff) : gmap string Peer :=
  ModifiedPeers d ∪ AddedPeers d ∪ foldr delete current (RemovedPeers d).

Lemma removed_iff current desired k :
  k ∈ RemovedPeers (CalculateConfigDiff current desired) <->
  is_Some (c_Peers current !! k) /\ c_Peers desired !! k = None.
Proof.
  cbn [RemovedPeers CalculateConfigDiff]. rewrite list_elem_of_filter, list_elem_of_fmap. split.
  - intros [Hd ([k' p] & -> & Hin%elem_of_map_to_list)]. split; [by exists p|done].
  - intros [[p Hp] Hd]. split; [done|]. exists (k, p). split; [done|]. by apply elem_of_map_to_list.
Qed.

Lemma added_lookup current desired k :
  AddedPeers (CalculateConfigDiff current desired) !! k
  = if decide (c_Peers current !! k = None) then c_Peers desired !! k else None.
Proof.
  cbn [AddedPeers CalculateConfigDiff]. rewrite map_lookup_filter.
  destruct (c_Peers desired !! k); repeat case_decide; by simplify_option_eq.
Qed.

Lemma modified_lookup current desired k :
  ModifiedPeers (CalculateConfigDiff current desired) !! k
  = match c_Peers current !! k, c_Peers desired !! k with
    | Some cur, Some des => if peersEqual cur des then None else Some des
    | _, _ => None
    end.
Proof.
  cbn [ModifiedPeers CalculateConfigDiff]. rewrite map_lookup_filter. unfold is_modified.
  destruct (c_Peers desired !! k) as [des|]; simpl; [|by destruct (c_Peers current !! k)].
  destruct (c_Peers current !! k) as [cur|]; [|by simplify_option_eq].
  destruct (peersEqual cur des); by simplify_option_eq.
Qed.

Lemma apply_config_diff_lookup current desired k :
  apply_config_diff (c_Peers current) (CalculateConfigDiff current desired) !! k
  = match c_Peers current !! k, c_Peers desired !! k with
    | Some cur, Some des => Some (if peersEqual cur des then cur else des)
    | None, Some des => Some des
    | _, None => None
    end.
Proof.
  unfold apply_config_diff.
  rewrite !lookup_union, modified_lookup, added_lookup, lookup_foldr_delete.
  destruct (c_Peers current !! k) as [cur|] eqn:Ec; destruct (c_Peers desired !! k) as [des|] eqn:Ed;
    rewrite ?Ec; case_decide as H; case_decide as H'; try done;
    try (apply removed_iff in H' as [[? ?] ?]; congruence);
    try (exfalso; apply H', removed_iff; split; [by eexists|done]).
  by destruct (peersEqual cur des).
Qed.

(** What [peersEqual] decides: equal fields, and allowed IPs of the same number
    with every one of [b]'s among [a]'s. *)
Lemma peersEqual_iff a b :
  peersEqual a b = true <->
  PresharedKey a = PresharedKey b /\ p_Endpoint a = p_Endpoint b
  /\ PersistentKeepalive a = PersistentKeepalive b
  /\ length (AllowedIPs a) = length (AllowedIPs b)
  /\ forall ip, ip ∈ AllowedIPs b -> ip ∈ AllowedIPs a.
Proof.
  unfold peersEqual.
  destruct (String.eqb_spec (PresharedKey a) (PresharedKey b)); simpl; [|naive_solver].
  destruct (String.eqb_spec (p_Endpoint a) (p_Endpoint b)); simpl; [|naive_solver].
  destruct (Z.eqb_spec (PersistentKeepalive a) (PersistentKeepalive b)); simpl; [|naive_solver].
  destruct (Nat.eqb_spec (length (AllowedIPs a)) (length (AllowedIPs b))); simpl; [|naive_solver].
  rewrite forallb_forall. unfold set_of. split.
  - intros H. do 4 (split; [done|]). intros ip Hip%list_elem_of_In. specialize (H ip Hip).
    apply bool_decide_eq_true in H. by apply elem_of_list_to_set in H.
  - intros (_ & _ & _ & _ & H) ip Hip. apply bool_decide_eq_true, elem_of_list_to_set, H, list_elem_of_In, Hip.
Qed.

(** ** Properties *)

(** Applying the diff gives the interface the desired peers: exactly the
    desired keys, each with the desired parameters or with parameters the code
    considers equal to them; and a diff without changes means the interface was
    already in that state. *)
Theorem config_diff_correct current desired :
  let d := CalculateConfigDiff current desired in
  (forall k, match apply_config_diff (c_Peers current) d !! k, c_Peers desired !! k with
             | Some p, Some des => p = des \/ peersEqual p des = true
             | None, None => True
             | _, _ => False
             end)
  /\ (HasChanges d = false ->
      ListenPort (c_Interface current) = ListenPort (c_Interface desired)
      /\ apply_config_diff (c_Peers current) d = c_Peers current).
Proof.
  cbv zeta. split.
  - intros k. rewrite apply_config_diff_lookup.
    destruct (c_Peers current !! k) as [cur|], (c_Peers desired !! k) as [des|]; try done.
    + destruct (peersEqual cur des) eqn:E; auto.
    + by left.
  - unfold HasChanges. intros H. bool_steps. split; [by apply negb_false_iff, Z.eqb_eq in H|].
    apply map_eq. intros k. rewrite apply_config_diff_lookup.
    apply Nat.eqb_eq in H0, H1, H2. apply map_size_empty_inv in H0, H2. apply nil_length_inv in H1.
    pose proof (modified_lookup current desired k) as Hm. rewrite H0, lookup_empty in Hm.
    pose proof (added_lookup current desired k) as Ha. rewrite H2, lookup_empty in Ha.
    pose proof (removed_iff current desired k) as Hr. rewrite H1 in Hr.
    destruct (c_Peers current !! k) as [cur|] eqn:Ec, (c_Peers desired !! k) as [des|] eqn:Ed; try done.
    + by destruct (peersEqual cur des).
    + exfalso. by apply (not_elem_of_nil k), Hr.
Qed.

Lemma dump_peers_psk ls k p m :
  (forall k p, m !! k = Some p -> PresharedKey p <> ""%string) ->
  foldl add_dump_line m ls !! k = Some p -> PresharedKey p <> ""%string.
Proof.
  revert m. induction ls as [|l ls IH]; intros m Hm; cbn [foldl]; [apply Hm|].
  apply IH. intros k' p'. unfold add_dump_line. destruct (dump_peer l) as [q|] eqn:E; [|apply Hm].
  rewrite lookup_insert. case_decide; [|apply Hm]. intros [= <-]. unfold dump_peer in E.
  pose proof (fields_nonempty l) as Hne.
  destruct (fields l) as [|a [|b [|c [|d rest]]]]; try done. injection E as <-. cbn [PresharedKey].
  apply Forall_cons in Hne as [_ Hne]. by apply Forall_cons in Hne as [? _].
Qed.

(** A dump always has a pre-shared key column ("(none)" when unset) while
    the desired configuration of the centralized mode never has one: every peer
    that exists on both sides is reported as modified, in every deployment. *)
Theorem centralized_diff_never_settles out cur full k p des :
  GetCurrentConfig (Ok out) = Ok cur -> c_Peers cur !! k = Some p ->
  c_Peers (FullConfigToConfig full) !! k = Some des ->
  ModifiedPeers (CalculateConfigDiff cur (FullConfigToConfig full)) !! k = Some des
  /\ HasChanges (CalculateConfigDiff cur (FullConfigToConfig full)) = true.
Proof.
  intros Hcur Hp Hdes.
  assert (PresharedKey p <> ""%string) as Hpsk.
  { unfold GetCurrentConfig in Hcur. simpl in Hcur.
    destruct (String.eqb (trim_space out) ""); [done|].
    destruct (split_char newline (trim_space out)) as [|l ls]; [done|]. injection Hcur as <-.
    cbn [c_Peers] in Hp. by eapply dump_peers_psk in Hp. }
  assert (PresharedKey des = ""%string) as Hempty.
  { revert Hdes. cbn [c_Peers FullConfigToConfig]. generalize (fc_Peers full). intros ps.
    induction ps as [|q ps IH] using rev_ind; [done|]. rewrite foldl_app. cbn [foldl].
    rewrite lookup_insert. case_decide; [|apply IH]. by intros [= <-]. }
  assert (ModifiedPeers (CalculateConfigDiff cur (FullConfigToConfig full)) !! k = Some des) as Hmod.
  { rewrite modified_lookup, Hp, Hdes. destruct (peersEqual p des) eqn:E; [|done].
    apply peersEqual_iff in E as (E & _). congruence. }
  split; [done|]. unfold HasChanges.
  destruct (Nat.eqb_spec (size (ModifiedPeers (CalculateConfigDiff cur (FullConfigToConfig full)))) 0) as [E|].
  - apply map_size_empty_inv in E. by rewrite E in Hmod.
  - apply orb_true_r.
Qed.

(** A remote interface with one peer, as dumped, and the configuration that
    asks for exactly that peer. *)
Definition sample_dump : string :=
  "privkey pubkey 51820 off" ^^ String newline
    "peerkey (none) 192.0.2.9:51820 10.99.0.2/32 0 0 0 25".

Definition sample_full : FullConfig :=
  {| fc_Interface := {| wi_PrivateKey := "privkey"; wi_Address := "10.99.0.1/16"; wi_ListenPort := 51820 |};
     fc_Peers := [{| wp_PublicKey := "peerkey"; wp_Endpoint := "192.0.2.9:51820";
                     wp_AllowedIPs := ["10.99.0.2/32"%string]; wp_PersistentKeepalive := 25 |}] |}.

Lemma centralized_diff_never_settles_witness :
  exists cur, GetCurrentConfig (Ok sample_dump) = Ok cur
  /\ HasChanges (CalculateConfigDiff cur (FullConfigToConfig sample_full)) = true.
Proof.
  destruct (GetCurrentConfig (Ok sample_dump)) as [cur|e] eqn:E; [|discriminate E].
  exists cur. split; [reflexivity|].
  assert (is_Some (c_Peers cur !! "peerkey"%string)) as [p Hp].
  { vm_compute in E. injection E as <-. vm_compute. eexists. reflexivity. }
  assert (is_Some (c_Peers (FullConfigToConfig sample_full) !! "peerkey"%string)) as [des Hdes].
  { vm_compute. eexists. reflexivity. }
  exact (proj2 (centralized_diff_never_settles sample_dump cur sample_full "peerkey" p des E Hp Hdes)).
Defined.

(** The allowed IPs are compared as a set and a count, so lists that repeat an
    entry can pass for one another. *)
Example peersEqual_duplicates :
  let peer ips := {| PublicKey := "k"; PresharedKey := ""; p_Endpoint := ""; AllowedIPs := ips;
                     PersistentKeepalive := 0%Z |} in
  peersEqual (peer ["10.0.0.1/32"; "10.0.0.2/32"]%string) (peer ["10.0.0.1/32"; "10.0.0.1/32"]%string) = true.
Proof. by vm_compute. Qed.
