(* ===== verification/NodeConfig.v ===== *)
(** * Node configuration and identity (pkg/daemon/config.go; meshIPInSubnet,
      initLocalNode, reloadConfig of pkg/daemon/daemon.go; the state file of
      pkg/daemon/helpers.go)

    From the command-line options to the running configuration, the mesh
    address a node keeps across restarts, and the options reloaded on SIGHUP.
    The operating system, the files read and the key generator are arguments. *)

From S2P Require Import Prelude GoStrings GoNet GoCrypto GoJson IfName Derive.
Local Open Scope wgmesh_scope.

Definition URIPrefix : string := "wgmesh://".
Definition URIVersion : string := "v1".
Definition DefaultWGPort : Z := 51820%Z.
Definition DefaultInterface : string := "wg0".
Definition DefaultInterfaceDarwin : string := "utun20".

Record Config := {
  Secret : string;
  Keys : DerivedKeys;
  InterfaceName : string;
  WGListenPort : Z;
  AdvertiseRoutes : list string;
  LogLevel : string;
  Privacy : bool;
  Gossip : bool;
  LANDiscovery : bool;
  cfg_Introducer : bool;
  DisableIPv6 : bool;
  ForceRelay : bool;
  DisablePunching : bool;
  CustomSubnet : option IPNet;
}.

(** A nil slice of routes is [None]. *)
Record DaemonOpts := {
  o_Secret : string;
  o_InterfaceName : string;
  o_WGListenPort : Z;
  o_AdvertiseRoutes : option (list string);
  o_LogLevel : string;
  o_Privacy : bool;
  o_Gossip : bool;
  o_DisableLANDiscovery : bool;
  o_Introducer : bool;
  o_DisableIPv6 : bool;
  o_ForceRelay : bool;
  o_DisablePunching : bool;
  o_MeshSubnet : string;
}.

(** ** Secrets *)

(** [strings.Index(s, "?")] and the slice before it. *)
Definition before_query (s : string) : string :=
  match cut_char "?" s with
  | Some (before, _) => before
  | None => s
  end.

Definition parseSecret (input : string) : string :=
  let input := trim_space input in
  if has_prefix input URIPrefix then
    let input := str_drop (String.length URIPrefix) input in
    match cut_char "/" input with
    | Some (_, secret) => before_query secret
    | None => input
    end
  else input.

Definition FormatSecretURI (secret : string) : string := URIPrefix ^^ URIVersion ^^ "/" ^^ secret.

(** [random] is what [rand.Read] delivered into the 128-byte buffer. *)
Definition GenerateSecret (random : option (list Z)) : result string :=
  match random with
  | None => Err "failed to generate random bytes"
  | Some b => Ok (b64_encode RawURLEncoding b)
  end.

(** ** Building the configuration *)

Definition check_subnet (customSubnet : option IPNet) : result unit :=
  match customSubnet with
  | None => Ok tt
  | Some net =>
      match to4 (net_ip net) with
      | None => Err "mesh subnet must be an IPv4 CIDR"
      | Some _ =>
          let '(ones, bits) := mask_size (net_mask net) in
          if negb (Z.eqb bits 32) then Err "mesh subnet must be an IPv4 CIDR"
          else if (bits - ones <? 2)%Z then Err "mesh subnet is too small" else Ok tt
      end
  end.

Definition NewConfig `{Hkdf} (os : goos) (opts : DaemonOpts) : result Config :=
  (let secret := parseSecret (o_Secret opts) in
   keys <-? wrap "failed to derive keys" (DeriveKeys secret);
   _ <-? wrap "invalid interface name" (Validate os (o_InterfaceName opts));
   let ifaceName :=
     if String.eqb (o_InterfaceName opts) "" then
       match os with Darwin => DefaultInterfaceDarwin | Linux => DefaultInterface end
     else o_InterfaceName opts in
   let listenPort := if Z.eqb (o_WGListenPort opts) 0 then DefaultWGPort else o_WGListenPort opts in
   let logLevel := if String.eqb (o_LogLevel opts) "" then "info"%string else o_LogLevel opts in
   customSubnet <-? wrap "invalid mesh subnet" (ParseSubnetOrDefault (o_MeshSubnet opts));
   _ <-? check_subnet customSubnet;
   Ok {| Secret := secret; Keys := keys; InterfaceName := ifaceName; WGListenPort := listenPort;
         AdvertiseRoutes := default [] (o_AdvertiseRoutes opts); LogLevel := logLevel;
         Privacy := o_Privacy opts; Gossip := o_Gossip opts;
         LANDiscovery := negb (o_DisableLANDiscovery opts);
         cfg_Introducer := o_Introducer opts; DisableIPv6 := o_DisableIPv6 opts;
         ForceRelay := o_ForceRelay opts; DisablePunching := o_DisablePunching opts;
         CustomSubnet := customSubnet |})%wg.

Definition PrefixLen (c : Config) : Z :=
  match CustomSubnet c with
  | Some net => (mask_size (net_mask net)).1
  | None => 16
  end.

(** ** The local node *)

Record LocalNode := {
  ln_WGPubKey : string;
  ln_WGPrivateKey : string;
  ln_MeshIP : string;
  ln_MeshIPv6 : string;
  ln_RoutableNetworks : list string;
  ln_Introducer : bool;
  ln_NATType : string;
  ln_Hostname : string;
  wgEndpoint : string;
}.

Definition GetEndpoint (n : LocalNode) : string := wgEndpoint n.
Definition SetEndpoint (n : LocalNode) (ep : string) : LocalNode :=
  {| ln_WGPubKey := ln_WGPubKey n; ln_WGPrivateKey := ln_WGPrivateKey n; ln_MeshIP := ln_MeshIP n;
     ln_MeshIPv6 := ln_MeshIPv6 n; ln_RoutableNetworks := ln_RoutableNetworks n;
     ln_Introducer := ln_Introducer n; ln_NATType := ln_NATType n; ln_Hostname := ln_Hostname n;
     wgEndpoint := ep |}.

Definition with_mesh_ip (n : LocalNode) (ip : string) : LocalNode :=
  {| ln_WGPubKey := ln_WGPubKey n; ln_WGPrivateKey := ln_WGPrivateKey n; ln_MeshIP := ip;
     ln_MeshIPv6 := ln_MeshIPv6 n; ln_RoutableNetworks := ln_RoutableNetworks n;
     ln_Introducer := ln_Introducer n; ln_NATType := ln_NATType n; ln_Hostname := ln_Hostname n;
     wgEndpoint := wgEndpoint n |}.

Definition with_mesh_ipv6 (n : LocalNode) (ip6 : string) : LocalNode :=
  {| ln_WGPubKey := ln_WGPubKey n; ln_WGPrivateKey := ln_WGPrivateKey n; ln_MeshIP := ln_MeshIP n;
     ln_MeshIPv6 := ip6; ln_RoutableNetworks := ln_RoutableNetworks n;
     ln_Introducer := ln_Introducer n; ln_NATType := ln_NATType n; ln_Hostname := ln_Hostname n;
     wgEndpoint := wgEndpoint n |}.

Definition with_routes (n : LocalNode) (routes : list string) : LocalNode :=
  {| ln_WGPubKey := ln_WGPubKey n; ln_WGPrivateKey := ln_WGPrivateKey n; ln_MeshIP := ln_MeshIP n;
     ln_MeshIPv6 := ln_MeshIPv6 n; ln_RoutableNetworks := routes;
     ln_Introducer := ln_Introducer n; ln_NATType := ln_NATType n; ln_Hostname := ln_Hostname n;
     wgEndpoint := wgEndpoint n |}.

Definition meshIPInSubnet (meshIP : string) (cfg : Config) : bool :=
  match parse_ip meshIP with
  | None => false
  | Some ip =>
      match CustomSubnet cfg with
      | Some net => net_contains net ip
      | None =>
          net_contains {| net_ip := [10; byte_at (MeshSubnet (Keys cfg)) 0; 0; 0]%Z;
                          net_mask := cidr_mask 4 16 |} ip
      end
  end.

(** The address the configuration derives for a key. *)
Definition derive_ip (cfg : Config) (pubKey : string) : result string :=
  match CustomSubnet cfg with
  | Some net =>
      wrap "failed to derive mesh IP in custom subnet" (DeriveMeshIPInSubnet net pubKey (Secret cfg))
  | None => Ok (DeriveMeshIP (MeshSubnet (Keys cfg)) pubKey (Secret cfg))
  end.

(** A node found in the state file: the address is kept when it still lies in
    the mesh subnet, derived and saved otherwise; then the IPv6 address, if it
    is missing.  The result is the node and the states saved on the way. *)
Definition restore_node (cfg : Config) (hostname : string) (node : LocalNode)
  : result (LocalNode * list LocalNode) :=
  (ipnode <-?
     (if negb (String.eqb (ln_MeshIP node) "") && meshIPInSubnet (ln_MeshIP node) cfg
      then Ok (node, [])
      else ip <-? derive_ip cfg (ln_WGPubKey node);
           let node := with_mesh_ip node ip in Ok (node, [node]));
   let '(node1, saves) := ipnode in
   let '(node2, saves) :=
     if String.eqb (ln_MeshIPv6 node1) "" then
       let node2 := with_mesh_ipv6 node1
         (DeriveMeshIPv6 (MeshPrefixV6 (Keys cfg)) (ln_WGPubKey node1) (Secret cfg)) in
       (node2, saves ++ [node2])
     else (node1, saves) in
   Ok ({| ln_WGPubKey := ln_WGPubKey node2; ln_WGPrivateKey := ln_WGPrivateKey node2;
          ln_MeshIP := ln_MeshIP node2; ln_MeshIPv6 := ln_MeshIPv6 node2;
          ln_RoutableNetworks := AdvertiseRoutes cfg; ln_Introducer := cfg_Introducer cfg;
          ln_NATType := ln_NATType node2; ln_Hostname := hostname; wgEndpoint := wgEndpoint node2 |},
       saves))%wg.

(** A node without a state file. *)
Definition create_node (cfg : Config) (hostname : string) (keypair : result (string * string))
  : result (LocalNode * list LocalNode) :=
  (kp <-? wrap "failed to generate keypair" keypair;
   let '(privateKey, publicKey) := kp in
   ip <-? derive_ip cfg publicKey;
   let node :=
     {| ln_WGPubKey := publicKey; ln_WGPrivateKey := privateKey; ln_MeshIP := ip;
        ln_MeshIPv6 := DeriveMeshIPv6 (MeshPrefixV6 (Keys cfg)) publicKey (Secret cfg);
        ln_RoutableNetworks := AdvertiseRoutes cfg; ln_Introducer := cfg_Introducer cfg;
        ln_NATType := ""; ln_Hostname := hostname; wgEndpoint := "" |} in
   Ok (node, [node]))%wg.

(** [loaded] is the node of the state file, [None] when it could not be read;
    [hostname] is empty when the system could not tell. *)
Definition initLocalNode (cfg : Config) (hostname : string) (loaded : option LocalNode)
    (keypair : result (string * string)) : result (LocalNode * list LocalNode) :=
  match loaded with
  | Some node => restore_node cfg hostname node
  | None => create_node cfg hostname keypair
  end.

(** [setLocalWGEndpoint]. *)
Definition setLocalWGEndpoint (cfg : Config) (node : LocalNode) : LocalNode :=
  SetEndpoint node (join_host_port "0.0.0.0" (itoa (WGListenPort cfg))).

(** ** Reloading on SIGHUP *)

Definition ReloadConfigPath (ifaceName : string) : string := "/var/lib/wgmesh/" ^^ ifaceName ^^ ".reload".

(** What a reload file sets: routes ([None] when the key is absent) and level. *)
Record ReloadOpts := { r_AdvertiseRoutes : option (list string); r_LogLevel : string }.

Definition route_list (val : string) : list string :=
  filter (fun r => r <> ""%string) (trim_space <$> split_char "," val).

Definition reload_line (opts : ReloadOpts) (text : string) : ReloadOpts :=
  let line := trim_space text in
  if String.eqb line "" || has_prefix line "#" then opts
  else match cut_char "=" line with
       | None => opts
       | Some (key, val) =>
           let key := trim_space (to_lower key) in
           let val := trim_space val in
           if String.eqb key "advertise-routes" then
             {| r_AdvertiseRoutes := Some (if String.eqb val "" then [] else route_list val);
                r_LogLevel := r_LogLevel opts |}
           else if String.eqb key "log-level" then
             {| r_AdvertiseRoutes := r_AdvertiseRoutes opts; r_LogLevel := val |}
           else opts
       end.

Definition parse_reload (lines : list string) : ReloadOpts :=
  foldl reload_line {| r_AdvertiseRoutes := None; r_LogLevel := "" |} lines.

(** [lines] are the lines the scanner delivered, or the error of opening or
    reading the file. *)
Definition LoadReloadFile (lines : result (list string)) : result ReloadOpts :=
  (ls <-? lines; Ok (parse_reload ls))%wg.

Definition routeSlicesEqual (a b : list string) : bool :=
  if negb (Nat.eqb (length a) (length b)) then false
  else
    let set : gset string := list_to_set a in
    forallb (fun r => bool_decide (r ∈ set)) b.

Definition with_reloaded (c : Config) (level : string) (routes : list string) : Config :=
  {| Secret := Secret c; Keys := Keys c; InterfaceName := InterfaceName c;
     WGListenPort := WGListenPort c; AdvertiseRoutes := routes; LogLevel := level;
     Privacy := Privacy c; Gossip := Gossip c; LANDiscovery := LANDiscovery c;
     cfg_Introducer := cfg_Introducer c; DisableIPv6 := DisableIPv6 c; ForceRelay := ForceRelay c;
     DisablePunching := DisablePunching c; CustomSubnet := CustomSubnet c |}.

Definition reloadConfig (c : Config) (node : option LocalNode) (opts : ReloadOpts)
  : Config * option LocalNode :=
  let level :=
    if negb (String.eqb (LogLevel c) (r_LogLevel opts)) && negb (String.eqb (r_LogLevel opts) "")
    then r_LogLevel opts else LogLevel c in
  match r_AdvertiseRoutes opts with
  | Some routes =>
      if negb (routeSlicesEqual (AdvertiseRoutes c) routes)
      then (with_reloaded c level routes, (fun n => with_routes n routes) <$> node)
      else (with_reloaded c level (AdvertiseRoutes c), node)
  | None => (with_reloaded c level (AdvertiseRoutes c), node)
  end.

Definition GetAdvertiseRoutes (c : Config) : list string := AdvertiseRoutes c.
Definition GetLogLevel (c : Config) : string := LogLevel c.

(** ** The state file *)

Definition state_json (n : LocalNode) : json :=
  JObj ([("wg_pubkey"%string, JStr (ln_WGPubKey n))]
    ++ [("wg_private_key"%string, JStr (ln_WGPrivateKey n))]
    ++ omit_str "mesh_ip" (ln_MeshIP n) ++ omit_str "mesh_ipv6" (ln_MeshIPv6 n)).

Definition dec_state (v : json) : option LocalNode :=
  match v with
  | JObj ms =>
      pub ← str_field "wg_pubkey" ms; priv ← str_field "wg_private_key" ms;
      ip ← str_field "mesh_ip" ms; ip6 ← str_field "mesh_ipv6" ms;
      Some {| ln_WGPubKey := pub; ln_WGPrivateKey := priv; ln_MeshIP := ip; ln_MeshIPv6 := ip6;
              ln_RoutableNetworks := []; ln_Introducer := false; ln_NATType := ""; ln_Hostname := "";
              wgEndpoint := "" |}
  | JNull =>
      Some {| ln_WGPubKey := ""; ln_WGPrivateKey := ""; ln_MeshIP := ""; ln_MeshIPv6 := "";
              ln_RoutableNetworks := []; ln_Introducer := false; ln_NATType := ""; ln_Hostname := "";
              wgEndpoint := "" |}
  | _ => None
  end.

(** The content of the file. *)
Definition saveLocalNode (n : LocalNode) : string := print_indent (state_json n).
Definition loadLocalNode (content : option string) : option LocalNode :=
  text ← content; v ← parse text; dec_state v.

(** ** Lemmas *)

Lemma load_save_state n :
  json_ok (state_json n) = true ->
  exists n', loadLocalNode (Some (saveLocalNode n)) = Some n'
  /\ ln_WGPubKey n' = ln_WGPubKey n /\ ln_WGPrivateKey n' = ln_WGPrivateKey n
  /\ ln_MeshIP n' = ln_MeshIP n /\ ln_MeshIPv6 n' = ln_MeshIPv6 n.
Proof.
  intros Hok.
  assert (forall text v, parse text = Some v -> loadLocalNode (Some text) = dec_state v) as Hload.
  { intros text v Hp. unfold loadLocalNode. cbn [mbind option_bind]. by rewrite Hp. }
  unfold saveLocalNode. eexists. split; [rewrite (Hload _ _ (parse_print_indent _ Hok)); unfold dec_state, state_json; read_struct fail; reflexivity|].
  done.
Qed.

(** A secret that survives being written in a URI. *)
Definition uri_safe (s : string) : bool := tight s && negb (contains_char "?" s).

Lemma cut_char_none c s : contains_char c s = false -> cut_char c s = None.
Proof.
  induction s as [|d s IH]; [done|]. simpl. intros H. bool_steps.
  rewrite IH by done. by rewrite H.
Qed.

Lemma parse_format_secret s : uri_safe s = true -> parseSecret (FormatSecretURI s) = s.
Proof.
  intros H. unfold uri_safe in H. bool_steps. unfold parseSecret, FormatSecretURI.
  rewrite trim_space_tight.
  2:{ unfold tight in *. rewrite !string_forall_app, H. done. }
  rewrite has_prefix_app, str_drop_app.
  assert (URIVersion ^^ "/" ^^ s = URIVersion ^^ String "/" s) as -> by (by rewrite app_cons_str, app_nil_l_str).
  rewrite cut_char_app by done. unfold before_query. by rewrite cut_char_none.
Qed.

Lemma raw_url_safe bs : Forall is_byte bs -> uri_safe (b64_encode RawURLEncoding bs) = true.
Proof.
  assert (forall n, (0 <= n < 64)%Z -> is_space (b64_char RawURLEncoding n) = false
            /\ Ascii.eqb (b64_char RawURLEncoding n) "?" = false) as Hc.
  { assert (Forall (fun n => is_space (b64_char RawURLEncoding n) = false
            /\ Ascii.eqb (b64_char RawURLEncoding n) "?" = false) (seqZ 0 64)) as H by by_compute.
    rewrite Forall_forall in H. intros n Hn. apply H, elem_of_seqZ. lia. }
  unfold uri_safe, tight. induction bs as [|a|a b|a b c bs IH] using list_ind3; intros Hb;
    repeat (apply Forall_cons in Hb as [? Hb]).
  - done.
  - destruct (quantum_bounds a a a) as (B1 & B2 & _); [done..|]. simpl.
    destruct (Hc _ B1) as [-> ->]. by destruct (Hc _ B2) as [-> ->].
  - destruct (quantum_bounds a b a) as (B1 & _ & B3 & B4 & _); [done..|]. simpl.
    destruct (Hc _ B1) as [-> ->]. destruct (Hc _ B3) as [-> ->]. by destruct (Hc _ B4) as [-> ->].
  - destruct (quantum_bounds a b c) as (B1 & _ & B3 & _ & B5 & B6); [done..|]. simpl.
    destruct (Hc _ B1) as [-> ->]. destruct (Hc _ B3) as [-> ->]. destruct (Hc _ B5) as [-> ->].
    destruct (Hc _ B6) as [-> ->]. cbn [negb andb orb]. by apply IH.
Qed.

Lemma raw_url_length bs : (length bs <= String.length (b64_encode RawURLEncoding bs))%nat.
Proof. apply b64_encode_length. Qed.

Lemma check_subnet_validates net :
  check_subnet (Some net) = Ok tt -> is_ok (validateIPv4Subnet net) = true.
Proof.
  unfold check_subnet, validateIPv4Subnet. destruct (to4 (net_ip net)); [|done].
  destruct (mask_size (net_mask net)) as [ones bits].
  destruct (negb (Z.eqb bits 32)); [done|]. by destruct (Z.ltb _ 2).
Qed.

(** What a successful [NewConfig] guarantees of its subnet and keys. *)
Definition config_ok (c : Config) : Prop :=
  keys_ok (Keys c)
  /\ match CustomSubnet c with
     | Some net => (exists cidr, ParseSubnetOrDefault cidr = Ok (Some net))
                   /\ is_ok (validateIPv4Subnet net) = true
     | None => True
     end.

Lemma DeriveKeys_keys_ok `{Hkdf} secret k : DeriveKeys secret = Ok k -> keys_ok k.
Proof.
  intros Hk. pose proof (derive_keys_total secret) as H'.
  destruct (Nat.ltb (String.length secret) MinSecretLength).
  - destruct H' as [e He]. congruence.
  - destruct H' as (k' & Hk' & Hok). congruence.
Qed.

Lemma NewConfig_ok `{Hkdf} os opts c :
  NewConfig os opts = Ok c -> config_ok c /\ Secret c = parseSecret (o_Secret opts).
Proof.
  unfold NewConfig. intros (keys & Hk%wrap_ok & H1)%rbind_ok.
  apply rbind_ok in H1 as ([] & _ & H1). apply rbind_ok in H1 as (sub & Hs%wrap_ok & H1).
  apply rbind_ok in H1 as ([] & Hc & H1). injection H1 as <-.
  split; [|done]. split; cbn [Keys CustomSubnet]; [by eapply DeriveKeys_keys_ok|].
  destruct sub as [net|]; [|done]. split; [eauto|]. by apply check_subnet_validates.
Qed.

Lemma net_contains_16 net v4 : length v4 = 4%nat -> net_contains net (v4_in_v6_prefix ++ v4) = net_contains net v4.
Proof.
  intros Hl. unfold net_contains. rewrite to4_v4 by done.
  assert (to4 v4 = Some v4) as -> by (unfold to4; by rewrite Hl). done.
Qed.

(** The derived address lies in the mesh subnet. *)
Lemma derive_ip_in_subnet c key :
  config_ok c -> exists ip, derive_ip c key = Ok ip /\ meshIPInSubnet ip c = true.
Proof.
  intros [Hk Hsub]. unfold derive_ip, meshIPInSubnet. destruct (CustomSubnet c) as [net|].
  - destruct Hsub as [[cidr Hcidr] Hv].
    destruct (subnet_ip_ok cidr net key (Secret c) 0 Hcidr Hv)
      as [(ip & Hip & base & n & v4 & Hnet & Hlen & Hparse & Hin & _) _].
    exists ip. rewrite Hip. split; [done|]. rewrite Hparse.
    by rewrite net_contains_16.
  - destruct Hk as (_ & _ & Hl & _ & _ & _ & _ & _ & _ & Hb & _).
    destruct (default_ip_ok (MeshSubnet (Keys c)) key (Secret c) Hl Hb) as (x & y & Hparse & _ & Hin).
    eexists. split; [reflexivity|]. rewrite Hparse, net_contains_16 by done. exact Hin.
Qed.

(** ** Properties *)

(** A generated secret works end to end: written as a wgmesh:// URI it is
    read back unchanged (also with blanks around it), and it is long enough for
    key derivation to succeed. *)
Theorem generated_secret_roundtrip `{Hkdf} random s :
  length random = 128%nat -> Forall is_byte random -> GenerateSecret (Some random) = Ok s ->
  parseSecret (FormatSecretURI s) = s
  /\ b64_decode RawURLEncoding s = Some random
  /\ exists k, DeriveKeys s = Ok k /\ keys_ok k.
Proof.
  intros Hl Hb [= <-]. split; [by apply parse_format_secret, raw_url_safe|].
  split; [by apply b64_decode_encode|]. pose proof (derive_keys_total (b64_encode RawURLEncoding random)) as Hk.
  destruct (Nat.ltb_spec (String.length (b64_encode RawURLEncoding random)) MinSecretLength); [|done].
  pose proof (raw_url_length random). unfold MinSecretLength in *. lia.
Qed.

Lemma generated_secret_roundtrip_witness :
  exists s, GenerateSecret (Some (replicate 128 171%Z)) = Ok s /\ parseSecret (FormatSecretURI s) = s.
Proof.
  destruct (GenerateSecret (Some (replicate 128 171%Z))) as [s|] eqn:E; [|discriminate E].
  exists s. split; [reflexivity|].
  refine (proj1 (generated_secret_roundtrip (replicate 128 171%Z) s eq_refl _ E)). by_compute.
Defined.

Lemma initLocalNode_ip c hostname loaded keypair n saves :
  config_ok c -> initLocalNode c hostname loaded keypair = Ok (n, saves) ->
  meshIPInSubnet (ln_MeshIP n) c = true.
Proof.
  intros Hc. unfold initLocalNode. destruct loaded as [node|].
  - unfold restore_node. intros ([node1 s1] & Hip & H2)%rbind_ok.
    assert (meshIPInSubnet (ln_MeshIP node1) c = true) as Hin.
    { destruct (negb (String.eqb (ln_MeshIP node) "") && meshIPInSubnet (ln_MeshIP node) c) eqn:E.
      - injection Hip as <- <-. by bool_steps.
      - destruct (derive_ip_in_subnet c (ln_WGPubKey node) Hc) as (ip & Hd & Hi).
        rewrite Hd in Hip. simpl in Hip. by injection Hip as <- <-. }
    destruct (String.eqb (ln_MeshIPv6 node1) ""); injection H2 as <- <-; done.
  - unfold create_node. intros ([priv pub] & Hkp & H2)%rbind_ok.
    destruct (derive_ip_in_subnet c pub Hc) as (ip & Hd & Hi). rewrite Hd in H2. simpl in H2.
    by injection H2 as <- <-.
Qed.

(** C27. A node started with an accepted configuration always has a mesh address
    inside its mesh subnet, whatever its state file said; initialisation can
    fail only because no key pair could be generated, and after it everything
    saved is the identity in use. *)
Theorem node_address_in_subnet `{Hkdf} os opts c hostname loaded keypair :
  NewConfig os opts = Ok c -> (loaded = None -> is_ok keypair = true) ->
  exists n saves, initLocalNode c hostname loaded keypair = Ok (n, saves)
  /\ meshIPInSubnet (ln_MeshIP n) c = true
  /\ (forall s, last saves = Some s -> ln_MeshIP s = ln_MeshIP n /\ ln_WGPubKey s = ln_WGPubKey n
                                        /\ ln_MeshIPv6 s = ln_MeshIPv6 n).
Proof.
  intros Hcfg Hkey. destruct (NewConfig_ok os opts c Hcfg) as [Hc _].
  assert (exists n saves, initLocalNode c hostname loaded keypair = Ok (n, saves)
    /\ (forall s, last saves = Some s -> ln_MeshIP s = ln_MeshIP n /\ ln_WGPubKey s = ln_WGPubKey n
          /\ ln_MeshIPv6 s = ln_MeshIPv6 n)) as (n & saves & Hn & Hs).
  2:{ exists n, saves. split; [done|]. split; [by eapply initLocalNode_ip|done]. }
  unfold initLocalNode. destruct loaded as [node|].
  - unfold restore_node. destruct (derive_ip_in_subnet c (ln_WGPubKey node) Hc) as (ip & -> & _).
    destruct (negb _ && _); cbn [rbind]; destruct (String.eqb (ln_MeshIPv6 _) "") eqn:E6;
      eexists _, _; (split; [reflexivity|]); intros s; simpl; try discriminate; intros [= <-]; done.
  - unfold create_node. destruct keypair as [[priv pub]|]; [|by specialize (Hkey eq_refl)]. simpl.
    destruct (derive_ip_in_subnet c pub Hc) as (ip & -> & _). simpl.
    eexists _, _. split; [reflexivity|]. intros s [= <-]. done.
Qed.

(** A key stream that repeats the length of the secret, for samples. *)
Definition flat_read (secret info : string) (n : nat) : option (list Z) :=
  Some (replicate n (u8 (Z.of_nat (String.length secret)))).

Lemma flat_length secret info n bs : flat_read secret info n = Some bs -> length bs = n.
Proof. intros [= <-]. apply length_replicate. Qed.
Lemma flat_bytes secret info n bs : flat_read secret info n = Some bs -> Forall is_byte bs.
Proof. intros [= <-]. apply Forall_replicate, u8_byte. Qed.
Lemma flat_available secret info n : (n <= 255 * 32)%nat -> is_Some (flat_read secret info n).
Proof. by eexists. Qed.

Definition flat_hkdf : Hkdf := {|
  hkdf_read := flat_read; hkdf_length := flat_length; hkdf_bytes := flat_bytes;
  hkdf_available := flat_available
|}.

Definition sample_opts (secret subnet : string) : DaemonOpts :=
  {| o_Secret := secret; o_InterfaceName := ""; o_WGListenPort := 0; o_AdvertiseRoutes := None;
     o_LogLevel := ""; o_Privacy := false; o_Gossip := false; o_DisableLANDiscovery := false;
     o_Introducer := false; o_DisableIPv6 := false; o_ForceRelay := false;
     o_DisablePunching := false; o_MeshSubnet := subnet |}.

Lemma node_address_in_subnet_witness :
  exists c n saves, NewConfig (H := flat_hkdf) Linux (sample_opts "0123456789abcdef" "192.168.64.0/22") = Ok c
  /\ initLocalNode c "host" None (Ok ("priv", "pub")%string) = Ok (n, saves)
  /\ meshIPInSubnet (ln_MeshIP n) c = true.
Proof.
  assert (is_ok (NewConfig (H := flat_hkdf) Linux (sample_opts "0123456789abcdef" "192.168.64.0/22")) = true) as Hok
    by (vm_compute; reflexivity).
  destruct (NewConfig (H := flat_hkdf) Linux (sample_opts "0123456789abcdef" "192.168.64.0/22")) as [c|e] eqn:E;
    [|discriminate Hok].
  destruct (node_address_in_subnet (H := flat_hkdf) Linux (sample_opts "0123456789abcdef" "192.168.64.0/22") c "host"
    None (Ok ("priv", "pub")%string) E (fun _ => eq_refl)) as (n & saves & Hn & Hin & _).
  exists c, n, saves. split; [reflexivity|]. split; [exact Hn|exact Hin].
Defined.

(** The address survives restarts: what a node saved is loaded and kept,
    with no further writes, by any configuration with the same mesh subnet,
    whatever its secret. *)
Theorem address_stable c c' hostname hostname' loaded keypair keypair' n saves :
  config_ok c -> initLocalNode c hostname loaded keypair = Ok (n, saves) ->
  ln_MeshIPv6 n <> ""%string ->
  CustomSubnet c' = CustomSubnet c ->
  (CustomSubnet c = None -> byte_at (MeshSubnet (Keys c')) 0 = byte_at (MeshSubnet (Keys c)) 0) ->
  json_ok (state_json n) = true ->
  exists n', initLocalNode c' hostname' (loadLocalNode (Some (saveLocalNode n))) keypair' = Ok (n', [])
  /\ ln_MeshIP n' = ln_MeshIP n /\ ln_MeshIPv6 n' = ln_MeshIPv6 n /\ ln_WGPubKey n' = ln_WGPubKey n
  /\ ln_WGPrivateKey n' = ln_WGPrivateKey n.
Proof.
  intros Hc Hn H6 Hsub Hbyte Hok.
  pose proof (initLocalNode_ip _ _ _ _ _ _ Hc Hn) as Hin.
  destruct (load_save_state n Hok) as (m & -> & Hpub & Hpriv & Hip & Hip6).
  assert (meshIPInSubnet (ln_MeshIP m) c' = true) as Hin'.
  { rewrite Hip. unfold meshIPInSubnet in *. rewrite Hsub.
    destruct (CustomSubnet c); [done|]. by rewrite Hbyte. }
  assert (String.eqb (ln_MeshIP m) "" = false) as Hne.
  { apply String.eqb_neq. intros E. rewrite E in Hin'. discriminate Hin'. }
  unfold initLocalNode, restore_node. rewrite Hne, Hin'. cbn [negb andb rbind].
  apply String.eqb_neq in H6. rewrite <- Hip6 in H6. rewrite H6.
  eexists. split; [reflexivity|]. cbn. done.
Qed.

(** The state of a node of the sample subnet. *)
Definition sample_node (hostname : string) : LocalNode :=
  {| ln_WGPubKey := "pub"; ln_WGPrivateKey := "priv"; ln_MeshIP := "192.168.64.9";
     ln_MeshIPv6 := "fd00::1"; ln_RoutableNetworks := []; ln_Introducer := false; ln_NATType := "";
     ln_Hostname := hostname; wgEndpoint := "" |}.

(** The configuration of a sample secret, and the check of a start under it. *)
Definition get_config `{Hkdf} (secret subnet : string) : Config :=
  match NewConfig Linux (sample_opts secret subnet) with
  | Ok c => c
  | Err _ => {| Secret := ""; Keys := {| NetworkID := []; GossipKey := []; MeshSubnet := [];
                  MeshPrefixV6 := []; MulticastID := []; PSK := []; GossipPort := 0; RendezvousID := [];
                  MembershipKey := []; EpochSeed := [] |};
                InterfaceName := ""; WGListenPort := 0; AdvertiseRoutes := []; LogLevel := "";
                Privacy := false; Gossip := false; LANDiscovery := false; cfg_Introducer := false;
                DisableIPv6 := false; ForceRelay := false; DisablePunching := false; CustomSubnet := None |}
  end.

Lemma get_config_ok `{Hkdf} secret subnet :
  is_ok (NewConfig Linux (sample_opts secret subnet)) = true -> config_ok (get_config secret subnet).
Proof.
  unfold get_config. destruct (NewConfig Linux (sample_opts secret subnet)) as [c|] eqn:E; [|done].
  intros _. by apply NewConfig_ok in E as [? _].
Qed.

Lemma address_stable_witness :
  exists n', initLocalNode (get_config (H := flat_hkdf) "another-mesh-secret" "192.168.64.0/22") "host2"
               (loadLocalNode (Some (saveLocalNode (sample_node "host")))) (Err "") = Ok (n', [])
  /\ ln_MeshIP n' = "192.168.64.9"%string.
Proof.
  destruct (address_stable (get_config (H := flat_hkdf) "0123456789abcdef" "192.168.64.0/22")
    (get_config (H := flat_hkdf) "another-mesh-secret" "192.168.64.0/22") "host" "host2" (Some (sample_node ""))
    (Err "") (Err "") (sample_node "host") []) as (n' & Hn & Hip & _).
  - apply (get_config_ok (H := flat_hkdf)). vm_compute; reflexivity.
  - vm_compute; reflexivity.
  - discriminate.
  - vm_compute; reflexivity.
  - intros H. assert (CustomSubnet (get_config (H := flat_hkdf) "0123456789abcdef" "192.168.64.0/22") <> None) as Hn
      by (vm_compute; discriminate). destruct (Hn H).
  - reflexivity.
  - exists n'. split; [exact Hn|exact Hip].
Defined.

(** The node of a first start in the default layout, and of a restart with
    another secret. *)
Definition started (secret : string) (loaded : option LocalNode) : option LocalNode :=
  match initLocalNode (get_config secret "") "host" loaded (Ok ("priv", "pub")%string) with
  | Ok (n, _) => Some n
  | Err _ => None
  end.

(** Whether the second start moves the address of the first. *)
Definition moves (first : option LocalNode) (second : LocalNode -> option LocalNode) : bool :=
  match first with
  | None => false
  | Some n => match second n with None => false | Some n' => negb (String.eqb (ln_MeshIP n) (ln_MeshIP n')) end
  end.

Lemma moves_spec first second :
  moves first second = true ->
  exists n n', first = Some n /\ second n = Some n' /\ ln_MeshIP n' <> ln_MeshIP n.
Proof.
  unfold moves. destruct first as [n|]; [|done]. destruct (second n) as [n'|] eqn:E; [|done].
  intros H. bool_steps. exists n, n'. split; [done|]. split; [done|]. congruence.
Qed.

(** In the default layout the persisted address does not survive a secret
    rotation: the new secret derives another /16, the saved address lies outside
    of it, and the node is given a new one. *)
Theorem rotation_moves_default_address :
  exists n n', started "0123456789abcdef" None = Some n
  /\ started "fedcba9876543210" (loadLocalNode (Some (saveLocalNode n))) = Some n'
  /\ ln_MeshIP n' <> ln_MeshIP n.
Proof.
  apply (moves_spec (started "0123456789abcdef" None)
    (fun n => started "fedcba9876543210" (loadLocalNode (Some (saveLocalNode n))))).
  vm_compute. reflexivity.
Qed.

(** A reload changes the log level and the advertised routes and nothing
    else; the routes afterwards are the requested ones up to order, provided
    neither list repeats a route, and the node advertises what the
    configuration says whenever it did so before. *)
Theorem reload_effect c node opts routes :
  r_AdvertiseRoutes opts = Some routes -> NoDup (AdvertiseRoutes c) -> NoDup routes ->
  ln_RoutableNetworks node = AdvertiseRoutes c ->
  let '(c', node') := reloadConfig c (Some node) opts in
  c' = with_reloaded c (LogLevel c') (AdvertiseRoutes c')
  /\ AdvertiseRoutes c' ≡ₚ routes
  /\ (exists n, node' = Some n /\ ln_RoutableNetworks n = AdvertiseRoutes c')
  /\ (r_LogLevel opts <> ""%string -> LogLevel c' = r_LogLevel opts).
Proof.
  intros Hr Hnd1 Hnd2 Hnode. unfold reloadConfig. rewrite Hr.
  set (level := if _ && _ then _ else _).
  assert (r_LogLevel opts <> ""%string -> level = r_LogLevel opts) as Hlevel.
  { intros Hne. unfold level. destruct (String.eqb_spec (LogLevel c) (r_LogLevel opts)); [done|].
    apply String.eqb_neq in Hne. by rewrite Hne. }
  destruct (routeSlicesEqual (AdvertiseRoutes c) routes) eqn:E; cbn [negb].
  - split; [done|]. split; [|split; [eauto|done]]. cbn [AdvertiseRoutes with_reloaded].
    unfold routeSlicesEqual in E.
    destruct (Nat.eqb_spec (length (AdvertiseRoutes c)) (length routes)) as [Hlen|]; [|done].
    cbn [negb] in E. symmetry. apply submseteq_length_Permutation; [|lia].
    apply NoDup_submseteq; [done|]. intros x Hx%list_elem_of_In.
    apply (proj1 (forallb_forall _ _) E) in Hx. apply bool_decide_eq_true in Hx.
    by apply elem_of_list_to_set in Hx.
  - split; [done|]. split; [done|]. split; [|done]. exists (with_routes node routes). done.
Qed.

Lemma reload_effect_witness :
  let c := get_config (H := flat_hkdf) "0123456789abcdef" "" in
  let opts := parse_reload ["# routes"; "Advertise-Routes = 10.1.0.0/16, 10.2.0.0/16"; "log-level=debug"]%string in
  let '(c', _) := reloadConfig c (Some (sample_node "host")) opts in
  AdvertiseRoutes c' ≡ₚ ["10.1.0.0/16"; "10.2.0.0/16"]%string.
Proof.
  pose proof (reload_effect (get_config (H := flat_hkdf) "0123456789abcdef" "") (sample_node "host")
    (parse_reload ["# routes"; "Advertise-Routes = 10.1.0.0/16, 10.2.0.0/16"; "log-level=debug"]%string)
    ["10.1.0.0/16"; "10.2.0.0/16"]%string) as H.
  cbv zeta. destruct (reloadConfig _ _ _) as [c' n']. apply H.
  - vm_compute. reflexivity.
  - assert (AdvertiseRoutes (get_config (H := flat_hkdf) "0123456789abcdef" "") = []) as -> by (vm_compute; reflexivity).
    constructor.
  - by_compute.
  - assert (AdvertiseRoutes (get_config (H := flat_hkdf) "0123456789abcdef" "") = []) as -> by (vm_compute; reflexivity).
    reflexivity.
Defined.

(** The comparison ignores how often a route occurs. *)
Example routeSlicesEqual_duplicates :
  routeSlicesEqual ["10.1.0.0/16"; "10.2.0.0/16"]%string ["10.1.0.0/16"; "10.1.0.0/16"]%string = true.
Proof. by vm_compute. Qed.
