(* ===== verification/Iface.v ===== *)
(** * Setting up the WireGuard interface (pkg/daemon/helpers.go, daemon.go)

    The daemon drives ip(8), wg(8), ifconfig(8) and route(8) through its command
    executor.  [Executor] is that interface together with the other ways the code
    looks at the host: /sys/class/net, a UDP bind, the path, the clock.  The
    operations run on an abstract host state; [os] is the platform ([None]: any
    other than linux and darwin). *)

From S2P Require Import Prelude GoStrings GoNet IfName Derive NodeConfig.
Local Open Scope wgmesh_scope.

Class Executor (H : Type) := {
  (** A command with its standard input: whether it succeeded, and its output. *)
  run_cmd : H -> list string -> string -> H * (bool * string);
  (** A command started and left running. *)
  start_cmd : H -> list string -> H * bool;
  look_path : H -> string -> bool;
  path_exists : H -> string -> bool;
  (** Whether UDP port [p] can be bound. *)
  can_bind : H -> Z -> bool;
  sleep : H -> Duration -> H;
}.

(** [IPNet.String], for masks of ones and zeros. *)
Definition net_string (n : IPNet) : string := ip_string (net_ip n) ^^ "/" ^^ itoa (mask_size (net_mask n)).1.

Definition maskSize (mask : list Z) : Z := (mask_size mask).1.

Section iface.
Context {H : Type} {exec : Executor H} (os : option goos) (wgBinPath wireguardGoBinPath : string).

(** A command whose failure is an error that carries its output. *)
Definition checked (h : H) (words : list string) (msg : string) : H * result unit :=
  let '(h', (ok, out)) := run_cmd h words "" in (h', if ok then Ok tt else Err (msg ^^ ": " ^^ out)).
(** ... and one whose failure is ignored. *)
Definition unchecked (h : H) (words : list string) : H := (run_cmd h words "").1.
(** ... and one that may fail when its work is already done. *)
Definition checked_unless (known : string -> bool) (h : H) (words : list string) (msg : string) : H * result unit :=
  let '(h', (ok, out)) := run_cmd h words "" in
  (h', if ok || known out then Ok tt else Err (msg ^^ ": " ^^ out)).
Definition file_exists (out : string) : bool := contains out "File exists".

Definition andThen (p : H * result unit) (k : H -> H * result unit) : H * result unit :=
  match p with (h, Ok _) => k h | (h, Err e) => (h, Err e) end.
Definition explain (msg : string) (p : H * result unit) : H * result unit := (p.1, wrap msg p.2).
Definition unsupported (h : H) : H * result unit := (h, Err "unsupported OS").

Definition interfaceExists (h : H) (name : string) : H * bool :=
  match os with
  | Some Linux => (h, path_exists h ("/sys/class/net/" ^^ name))
  | Some Darwin => let '(h', (ok, _)) := run_cmd h ["ifconfig"; name]%string "" in (h', ok)
  | None => (h, false)
  end.

(** The loop that waits for the utun device: up to [n] looks, 50 ms apart. *)
Fixpoint wait_interface (n : nat) (h : H) (name : string) : H * bool :=
  match n with
  | O => (h, false)
  | S n => let '(h', there) := interfaceExists h name in
           if there then (h', true) else wait_interface n (sleep h' (50 * millisecond)%Z) name
  end.

Definition createInterface (h : H) (name : string) : H * result unit :=
  match os with
  | Some Linux => checked h ["ip"; "link"; "add"; "dev"; name; "type"; "wireguard"]%string "failed to create interface"
  | Some Darwin =>
      if String.eqb wireguardGoBinPath "wireguard-go" && negb (look_path h "wireguard-go")
      then (h, Err "wireguard-go not found in PATH (required on macOS)")
      else
        let '(h1, started) := start_cmd h [wireguardGoBinPath; name] in
        if negb started then (h1, Err "failed to start wireguard-go")
        else let '(h2, there) := wait_interface 20 h1 name in
             (h2, if there then Ok tt else Err ("wireguard interface " ^^ name ^^ " was not created on macOS"))
  | None => unsupported h
  end.

Definition configureInterface (h : H) (name privateKey : string) (listenPort : Z) : H * result unit :=
  let '(h', (ok, out)) := run_cmd h [wgBinPath; "set"; name; "private-key"; "/dev/stdin"; "listen-port"; itoa listenPort]%string
                            (privateKey ^^ String (ascii_of_byte 10) "") in
  (h', if ok then Ok tt else Err ("failed to configure interface: " ^^ out)).

(** The route of the subnet on macOS: added, or changed when it exists. *)
Definition ensure_route (h : H) (family : list string) (networkCIDR name : string) : H * result unit :=
  let '(h1, (ok, out)) := run_cmd h (["route"; "-n"; "add"]%string ++ family ++ ["-net"; networkCIDR; "-interface"; name]%string) "" in
  if ok then (h1, Ok tt)
  else if file_exists out then
    checked h1 (["route"; "-n"; "change"]%string ++ family ++ ["-net"; networkCIDR; "-interface"; name]%string)
      ("failed to update route " ^^ networkCIDR ^^ " via " ^^ name)
  else (h1, Err ("failed to add route " ^^ networkCIDR ^^ " via " ^^ name ^^ ": " ^^ out)).

Definition setInterfaceAddress (h : H) (name address : string) : H * result unit :=
  match os, parse_cidr address with
  | None, _ => unsupported h
  | Some _, None => (h, Err ("invalid address format: " ^^ address))
  | Some Linux, Some (ip, _) =>
      let family := match to4 ip with Some _ => "-4" | None => "-6" end%string in
      let h1 := unchecked h ["ip"; family; "addr"; "flush"; "dev"; name]%string in
      checked_unless file_exists h1 ["ip"; "addr"; "add"; address; "dev"; name]%string "failed to set address"
  | Some Darwin, Some (ip, ipNet) =>
      match to4 ip with
      | Some ipv4 =>
          andThen (checked_unless file_exists h
                     ["ifconfig"; name; "inet"; ip_string ipv4; ip_string ipv4; "netmask"; ip_string (net_mask ipNet); "alias"]%string
                     "failed to set address")
            (fun h1 => ensure_route h1 [] (net_string ipNet) name)
      | None =>
          andThen (checked_unless file_exists h
                     ["ifconfig"; name; "inet6"; ip_string ip; "prefixlen"; "128"; "alias"]%string "failed to set address")
            (fun h1 => ensure_route h1 ["-inet6"%string] (net_string ipNet) name)
      end
  end.

Definition setInterfaceUp (h : H) (name : string) : H * result unit :=
  match os with
  | Some Linux => checked h ["ip"; "link"; "set"; "dev"; name; "up"]%string "failed to bring interface up"
  | Some Darwin => checked h ["ifconfig"; name; "up"]%string "failed to bring interface up"
  | None => unsupported h
  end.

(** Errors are ignored. *)
Definition setInterfaceDown (h : H) (name : string) : H :=
  match os with
  | Some Linux => unchecked h ["ip"; "link"; "set"; "dev"; name; "down"]%string
  | Some Darwin => unchecked h ["ifconfig"; name; "down"]%string
  | None => h
  end.

Definition deleteInterface (h : H) (name : string) : H * result unit :=
  match os with
  | Some Linux =>
      checked_unless (fun out => contains out "Cannot find device" || contains out "does not exist") h
        ["ip"; "link"; "del"; "dev"; name]%string "failed to delete interface"
  | Some Darwin =>
      checked_unless (fun out => contains (to_lower out) "does not exist" || contains (to_lower out) "no such") h
        ["ifconfig"; name; "destroy"]%string "failed to delete interface"
  | None => (h, Ok tt)
  end.

Definition resetInterface (h : H) (name : string) : H :=
  let h1 := setInterfaceDown h name in
  match os with
  | Some Linux =>
      let h2 := unchecked h1 ["ip"; "addr"; "flush"; "dev"; name]%string in
      unchecked h2 [wgBinPath; "set"; name; "peer"; "remove"]%string
  | _ => h1
  end.

(** A port out of range cannot be listened on either. *)
Definition isPortInUse (h : H) (port : Z) : bool :=
  negb ((0 <=? port) && (port <=? 65535) && can_bind h port)%Z.

Fixpoint find_port (n : nat) (h : H) (port : Z) : Z :=
  match n with
  | O => 0
  | S n => if negb (isPortInUse h port) then port else find_port n h (port + 1)
  end%Z.
Definition findAvailablePort (h : H) (startPort : Z) : Z := find_port 100 h startPort.

Definition getWGInterfacePort (h : H) (name : string) : H * Z :=
  let '(h', (ok, out)) := run_cmd h [wgBinPath; "show"; name; "listen-port"]%string "" in
  (h', if ok then default 0%Z (sscanf_d (trim_space out)) else 0%Z).

Definition with_listen_port (c : Config) (port : Z) : Config :=
  {| Secret := Secret c; Keys := Keys c; InterfaceName := InterfaceName c; WGListenPort := port;
     AdvertiseRoutes := AdvertiseRoutes c; LogLevel := LogLevel c; Privacy := Privacy c; Gossip := Gossip c;
     LANDiscovery := LANDiscovery c; cfg_Introducer := cfg_Introducer c; DisableIPv6 := DisableIPv6 c;
     ForceRelay := ForceRelay c; DisablePunching := DisablePunching c; CustomSubnet := CustomSubnet c |}.

(** The interface is there: one that existed is reset, else one is created.  The
    port of an existing one only chooses a log line. *)
Definition ensure_interface (h : H) (name : string) : H * result unit :=
  let '(h1, there) := interfaceExists h name in
  if there then let '(h2, _) := getWGInterfacePort h1 name in (resetInterface h2 name, Ok tt)
  else explain "failed to create interface" (createInterface h1 name).

(** The port to use: the configured one, or the next free one. *)
Definition choose_port (h : H) (port : Z) : result Z :=
  if isPortInUse h port then
    let availablePort := findAvailablePort h (port + 1) in
    if Z.eqb availablePort 0 then Err "no available ports found" else Ok availablePort
  else Ok port.

(** Key, port, addresses, up. *)
Definition bring_up (h : H) (c : Config) (node : LocalNode) : H * result unit :=
  let name := InterfaceName c in
  andThen (explain "failed to configure interface" (configureInterface h name (ln_WGPrivateKey node) (WGListenPort c))) (fun h1 =>
  andThen (explain "failed to set IP address" (setInterfaceAddress h1 name (ln_MeshIP node ^^ "/" ^^ itoa (PrefixLen c)))) (fun h2 =>
  andThen (if String.eqb (ln_MeshIPv6 node) "" then (h2, Ok tt)
           else explain "failed to set IPv6 address" (setInterfaceAddress h2 name (ln_MeshIPv6 node ^^ "/64"))) (fun h3 =>
  explain "failed to bring interface up" (setInterfaceUp h3 name)))).

Definition setupWireGuard (h : H) (c : Config) (node : LocalNode) : H * Config * result unit :=
  match ensure_interface h (InterfaceName c) with
  | (h1, Err e) => (h1, c, Err e)
  | (h1, Ok _) =>
      match choose_port h1 (WGListenPort c) with
      | Err e => (h1, c, Err e)
      | Ok port =>
          let c' := with_listen_port c port in
          let '(h2, r) := bring_up h1 c' node in (h2, c', r)
      end
  end.

Definition teardownWireGuard (h : H) (c : Config) : H :=
  if String.eqb (InterfaceName c) "" then h
  else (deleteInterface (setInterfaceDown h (InterfaceName c)) (InterfaceName c)).1.

(** [Run]: the teardown is deferred once the set-up has succeeded; [body] is
    what runs in between. *)
Definition run_interface (h : H) (c : Config) (node : LocalNode) (body : H -> Config -> H) : H * result unit :=
  match setupWireGuard h c node with
  | (h1, _, Err e) => (h1, Err ("failed to setup WireGuard: " ^^ e))
  | (h1, c', Ok _) => (teardownWireGuard (body h1 c') c', Ok tt)
  end.

End iface.
