(* ===== verification/IfaceProps.v ===== *)
(** * What setting up the interface achieves on a Linux host

    [LinuxHost] states what the documentation of ip(8), wg(8) and the kernel
    promises for the commands the daemon issues; a host with a finite map of links
    is an instance.  The theorems say in which state set-up, a restart after a
    crash, a failed set-up and a run leave the host. *)

From S2P Require Import Prelude GoStrings GoNet GoCrypto IfName Derive NodeConfig Iface.
Local Open Scope wgmesh_scope.

(** A WireGuard link: whether it is up, its key and port, its addresses as they
    were given, and the public keys of its peers. *)
Record Link := { l_up : bool; l_key : string; l_port : Z; l_addrs : list string; l_peers : list string }.
Definition new_link : Link := {| l_up := false; l_key := ""; l_port := 0; l_addrs := []; l_peers := [] |}.
Definition with_up (b : bool) (l : Link) : Link :=
  {| l_up := b; l_key := l_key l; l_port := l_port l; l_addrs := l_addrs l; l_peers := l_peers l |}.
Definition with_addrs (addrs : list string) (l : Link) : Link :=
  {| l_up := l_up l; l_key := l_key l; l_port := l_port l; l_addrs := addrs; l_peers := l_peers l |}.
Definition with_key (key : string) (port : Z) (l : Link) : Link :=
  {| l_up := l_up l; l_key := key; l_port := port; l_addrs := l_addrs l; l_peers := l_peers l |}.

Definition good_name (n : string) : Prop := IfName.Validate Linux n = Ok tt.
(** A key in the form wg(8) reads: 44 characters that stand for 32 bytes. *)
Definition wg_key (k : string) : bool :=
  Nat.eqb (String.length k) 44 && tight k &&
  match b64_decode StdEncoding k with Some bs => Nat.eqb (length bs) 32 | None => false end.
Definition is_v4 (address : string) : bool :=
  match parse_cidr address with
  | Some (ip, _) => match to4 ip with Some _ => true | None => false end
  | None => false
  end.
Definition is_v6 (address : string) : bool :=
  match parse_cidr address with
  | Some (ip, _) => match to4 ip with Some _ => false | None => true end
  | None => false
  end.
Definition endline (s : string) : string := s ^^ String (ascii_of_byte 10) "".

(** A link that goes down loses its IPv6 addresses, unless the host is set to
    keep them (keep_addr_on_down). *)
Definition taken_down (keep : bool) (l : Link) : Link :=
  with_up false (with_addrs (if keep then l_addrs l else List.filter is_v4 (l_addrs l)) l).

Class LinuxHost {H : Type} (exec : Executor H) (wg : string) := {
  keep_addr_on_down : bool;
  link : H -> string -> option Link;
  (** The UDP ports other programs are bound to. *)
  foreign : H -> Z -> bool;
  (** The command leaves the host with [ol] under [name] and all else as it was. *)
  sets (h h' : H) (name : string) (ol : option Link) : Prop :=
    (forall n, link h' n = if decide (n = name) then ol else link h n) /\ (forall p, foreign h' p = foreign h p);
  does (h : H) (words : list string) (stdin name : string) (ol : option Link) : Prop :=
    exists h' out, run_cmd h words stdin = (h', (true, out)) /\ sets h h' name ol;
  lh_stat : forall h n, good_name n -> path_exists h ("/sys/class/net/" ^^ n) = bool_decide (is_Some (link h n));
  lh_bind : forall h p, (0 < p <= 65535)%Z -> can_bind h p = true <->
    foreign h p = false /\ forall n l, link h n = Some l -> l_up l = true -> l_port l <> p;
  lh_add : forall h n, good_name n -> link h n = None ->
    does h ["ip"; "link"; "add"; "dev"; n; "type"; "wireguard"]%string "" n (Some new_link);
  lh_down : forall h n l, link h n = Some l ->
    does h ["ip"; "link"; "set"; "dev"; n; "down"]%string "" n (Some (taken_down keep_addr_on_down l));
  lh_up : forall h n l, link h n = Some l -> l_up l = false -> can_bind h (l_port l) = true ->
    does h ["ip"; "link"; "set"; "dev"; n; "up"]%string "" n (Some (with_up true l));
  lh_del : forall h n l, link h n = Some l -> does h ["ip"; "link"; "del"; "dev"; n]%string "" n None;
  lh_flush : forall h n l, link h n = Some l ->
    does h ["ip"; "addr"; "flush"; "dev"; n]%string "" n (Some (with_addrs [] l));
  lh_flush4 : forall h n l, link h n = Some l ->
    does h ["ip"; "-4"; "addr"; "flush"; "dev"; n]%string "" n
      (Some (with_addrs (List.filter (fun a => negb (is_v4 a)) (l_addrs l)) l));
  lh_flush6 : forall h n l, link h n = Some l ->
    does h ["ip"; "-6"; "addr"; "flush"; "dev"; n]%string "" n
      (Some (with_addrs (List.filter (fun a => negb (is_v6 a)) (l_addrs l)) l));
  lh_addr : forall h n l a, link h n = Some l -> (is_v4 a || is_v6 a) = true -> a ∉ l_addrs l ->
    does h ["ip"; "addr"; "add"; a; "dev"; n]%string "" n (Some (with_addrs (l_addrs l ++ [a]) l));
  lh_key : forall h n l k p, link h n = Some l -> l_up l = false -> wg_key k = true -> (0 < p <= 65535)%Z ->
    does h [wg; "set"; n; "private-key"; "/dev/stdin"; "listen-port"; itoa p]%string (endline k) n
      (Some (with_key k p l));
  (** wg(8): [peer] is followed by a public key; nothing is set when one word of
      the command is malformed. *)
  lh_malformed : forall h n l w, link h n = Some l -> wg_key w = false ->
    exists h' out, run_cmd h [wg; "set"; n; "peer"; w]%string "" = (h', (false, out)) /\ sets h h' n (link h n);
  lh_show : forall h n l, link h n = Some l ->
    exists h' out, run_cmd h [wg; "show"; n; "listen-port"]%string "" = (h', (true, out)) /\ sets h h' n (link h n);
}.

Section host.
Context {H : Type} {exec : Executor H} {wg : string} {host : LinuxHost exec wg} (goBin : string).

Lemma sets_link h h' n ol : sets h h' n ol -> link h' n = ol.
Proof. intros [E _]. rewrite E. by rewrite decide_True. Qed.

Lemma sets_trans h1 h2 h3 n o2 o3 : sets h1 h2 n o2 -> sets h2 h3 n o3 -> sets h1 h3 n o3.
Proof.
  intros [E2 F2] [E3 F3]. split; [|intros p; by rewrite F3].
  intros m. rewrite E3, E2. by destruct (decide (m = n)).
Qed.

Lemma sets_same h n : sets h h n (link h n).
Proof. split; [|done]. intros m. by destruct (decide (m = n)) as [->|]. Qed.

(** A command that does something, in the three ways the code runs it. *)
Lemma does_checked h words n ol msg : does h words "" n ol -> exists h', checked h words msg = (h', Ok tt) /\ sets h h' n ol.
Proof. intros (h' & out & E & Hs). exists h'. unfold checked. by rewrite E. Qed.
Lemma does_unless known h words n ol msg : does h words "" n ol ->
  exists h', checked_unless known h words msg = (h', Ok tt) /\ sets h h' n ol.
Proof. intros (h' & out & E & Hs). exists h'. unfold checked_unless. by rewrite E. Qed.
Lemma does_unchecked h words n ol : does h words "" n ol -> sets h (unchecked h words) n ol.
Proof. intros (h' & out & E & Hs). unfold unchecked. by rewrite E. Qed.

(** ** Ports *)

(** No other program and no other link holds the port. *)
Definition port_free (h : H) (name : string) (p : Z) : Prop :=
  foreign h p = false /\ forall n l, n <> name -> link h n = Some l -> l_up l = true -> l_port l <> p.

Lemma sets_free h h' n ol p : sets h h' n ol -> port_free h' n p <-> port_free h n p.
Proof.
  intros [E F]. unfold port_free. rewrite F. split; intros [H1 H2]; (split; [done|]); intros m l Hm Hl.
  - apply (H2 m l Hm). rewrite E, decide_False by done. done.
  - rewrite E, decide_False in Hl by done. by apply (H2 m l Hm).
Qed.

Lemma free_in_use h n l p : link h n = Some l -> l_up l = false -> (0 < p <= 65535)%Z ->
  isPortInUse h p = false <-> port_free h n p.
Proof.
  intros Hl Hu Hp. unfold isPortInUse. rewrite !(proj2 (Z.leb_le _ _)) by lia. cbn [andb].
  rewrite negb_false_iff, lh_bind by done. unfold port_free. split; intros [H1 H2]; (split; [done|]).
  - intros m l' _. apply H2.
  - intros m l' Hm Hup. destruct (decide (m = n)) as [->|Hne]; [congruence|]. by apply (H2 m).
Qed.

Lemma out_of_range h p : (65535 < p)%Z -> isPortInUse h p = true.
Proof. intros Hp. unfold isPortInUse. rewrite (proj2 (Z.leb_gt p _)) by lia. by rewrite andb_false_r. Qed.

(** The search returns the first port that is not in use, and 0 when none is. *)
Lemma find_port_spec k h port : (0 < port)%Z ->
  let r := find_port k h port in
  (r = 0%Z /\ (forall q, port <= q < port + Z.of_nat k -> isPortInUse h q = true)%Z)
  \/ (port <= r < port + Z.of_nat k /\ r <= 65535)%Z /\ isPortInUse h r = false
     /\ (forall q, port <= q < r -> isPortInUse h q = true)%Z.
Proof.
  revert port. induction k as [|k IH]; intros port Hp; cbn [find_port].
  - left. split; [done|]. intros q Hq. lia.
  - destruct (isPortInUse h port) eqn:E; cbn [negb].
    + destruct (IH (port + 1)%Z ltac:(lia)) as [[Hr Hq]|(Hr & Hu & Hq)].
      * left. split; [done|]. intros q Hq'. destruct (decide (q = port)) as [->|]; [done|]. apply Hq. lia.
      * right. split; [lia|]. split; [done|]. intros q Hq'. destruct (decide (q = port)) as [->|]; [done|]. apply Hq. lia.
    + right. split; [|split; [done|lia]].
      destruct (Z.le_gt_cases port 65535); [lia|]. rewrite out_of_range in E by done. done.
Qed.

(** The port chosen is the first of the configured one and the hundred after it
    that is not in use. *)
Lemma choose_port_spec h port : (0 < port)%Z ->
  match choose_port h port with
  | Ok p => (port <= p <= port + 100 /\ p <= 65535)%Z /\ isPortInUse h p = false
            /\ (forall q, port <= q < p -> isPortInUse h q = true)%Z
  | Err _ => forall q, (port <= q <= port + 100)%Z -> isPortInUse h q = true
  end.
Proof.
  intros Hp. unfold choose_port, findAvailablePort. destruct (isPortInUse h port) eqn:E.
  - destruct (find_port_spec 100 h (port + 1) ltac:(lia)) as [[-> Hq]|(Hr & Hu & Hq)].
    + cbn [Z.eqb]. intros q Hq'. destruct (decide (q = port)) as [->|]; [done|]. apply Hq. lia.
    + rewrite (proj2 (Z.eqb_neq _ _)) by lia. split; [lia|]. split; [done|].
      intros q Hq'. destruct (decide (q = port)) as [->|]; [done|]. apply Hq. lia.
  - split; [|split; [done|lia]]. destruct (Z.le_gt_cases port 65535); [lia|].
    rewrite out_of_range in E by done. done.
Qed.

(** ** The steps of the set-up *)

Notation setup := (setupWireGuard (Some Linux) wg goBin).

(** The link under the name, down and without addresses; its key, port and peers
    are those of the link that was there, if any. *)
Definition ready_link (h : H) (name : string) : Link := with_up false (with_addrs [] (default new_link (link h name))).

Lemma ensure_interface_ok h name : good_name name ->
  exists h', ensure_interface (Some Linux) wg goBin h name = (h', Ok tt) /\ sets h h' name (Some (ready_link h name)).
Proof.
  intros Hn. unfold ensure_interface, interfaceExists, ready_link. rewrite lh_stat by done.
  destruct (link h name) as [l|] eqn:El.
  - rewrite bool_decide_eq_true_2 by by eexists. unfold getWGInterfacePort.
    destruct (lh_show h name l El) as (h1 & out & -> & S1). rewrite El in S1.
    eexists. split; [reflexivity|]. unfold resetInterface, setInterfaceDown.
    pose proof (does_unchecked _ _ _ _ (lh_down h1 name l (sets_link _ _ _ _ S1))) as S2.
    pose proof (does_unchecked _ _ _ _ (lh_flush _ name _ (sets_link _ _ _ _ S2))) as S3.
    destruct (lh_malformed _ name _ "remove" (sets_link _ _ _ _ S3) eq_refl) as (h4 & out' & E4 & S4).
    unfold unchecked at 1. rewrite E4. rewrite (sets_link _ _ _ _ S3) in S4.
    exact (sets_trans _ _ _ _ _ _ S1 (sets_trans _ _ _ _ _ _ S2 (sets_trans _ _ _ _ _ _ S3 S4))).
  - rewrite bool_decide_eq_false_2 by apply is_Some_None. unfold createInterface.
    destruct (does_checked _ _ _ _ "failed to create interface" (lh_add h name Hn El)) as (h' & -> & Hs).
    by exists h'.
Qed.

Lemma set_v4_ok h name l a : link h name = Some l -> is_v4 a = true ->
  Forall (fun a => is_v4 a = true) (l_addrs l) ->
  exists h', setInterfaceAddress (Some Linux) h name a = (h', Ok tt) /\ sets h h' name (Some (with_addrs [a] l)).
Proof.
  intros Hl Ha Hold. unfold setInterfaceAddress.
  assert ((is_v4 a || is_v6 a) = true) as Hany by by rewrite Ha. unfold is_v4 in Ha.
  destruct (parse_cidr a) as [[ip net]|] eqn:Ep; [|done]. destruct (to4 ip) eqn:E4; [|done].
  pose proof (does_unchecked _ _ _ _ (lh_flush4 h name l Hl)) as S1.
  assert (List.filter (fun a => negb (is_v4 a)) (l_addrs l) = []) as E0.
  { clear -Hold. induction Hold as [|x xs Hx _ IH]; [done|]. cbn [List.filter]. by rewrite Hx. }
  rewrite E0 in S1.
  destruct (does_unless file_exists _ _ _ _ "failed to set address" (lh_addr _ name _ a (sets_link _ _ _ _ S1)
    Hany ltac:(apply not_elem_of_nil))) as (h' & -> & S2).
  exists h'. split; [done|]. exact (sets_trans _ _ _ _ _ _ S1 S2).
Qed.

Lemma set_v6_ok h name l a a4 : link h name = Some l -> is_v6 a = true -> is_v4 a4 = true -> l_addrs l = [a4] ->
  exists h', setInterfaceAddress (Some Linux) h name a = (h', Ok tt) /\ sets h h' name (Some (with_addrs [a4; a] l)).
Proof.
  intros Hl Ha H4 Hold. unfold setInterfaceAddress.
  assert (is_v6 a4 = false) as H64.
  { unfold is_v4, is_v6 in *. destruct (parse_cidr a4) as [[ip4 ?]|]; [|done]. by destruct (to4 ip4). }
  assert (a <> a4) as Hne by (intros ->; congruence).
  assert ((is_v4 a || is_v6 a) = true) as Hany by (by rewrite Ha, orb_true_r). unfold is_v6 in Ha.
  destruct (parse_cidr a) as [[ip net]|] eqn:Ep; [|done]. destruct (to4 ip) eqn:E4; [done|].
  pose proof (does_unchecked _ _ _ _ (lh_flush6 h name l Hl)) as S1.
  rewrite Hold in S1. cbn [List.filter] in S1. rewrite H64 in S1. cbn [negb] in S1.
  destruct (does_unless file_exists _ _ _ _ "failed to set address" (lh_addr _ name _ a (sets_link _ _ _ _ S1)
    Hany ltac:(cbn [with_addrs l_addrs]; by rewrite list_elem_of_singleton))) as (h' & -> & S2).
  exists h'. split; [done|]. exact (sets_trans _ _ _ _ _ _ S1 S2).
Qed.

(** The addresses of a node, as they are given to ip(8). *)
Definition v4_addr (c : Config) (node : LocalNode) : string := ln_MeshIP node ^^ "/" ^^ itoa (PrefixLen c).
Definition mesh_addrs (c : Config) (node : LocalNode) : list string :=
  v4_addr c node :: (if String.eqb (ln_MeshIPv6 node) "" then [] else [ln_MeshIPv6 node ^^ "/64"]).
(** A node the tools accept. *)
Record node_ready (c : Config) (node : LocalNode) : Prop := {
  nr_name : good_name (InterfaceName c);
  nr_key : wg_key (ln_WGPrivateKey node) = true;
  nr_v4 : is_v4 (v4_addr c node) = true;
  nr_v6 : ln_MeshIPv6 node <> ""%string -> is_v6 (ln_MeshIPv6 node ^^ "/64") = true;
}.

Definition configured (c : Config) (node : LocalNode) (l : Link) : Link :=
  {| l_up := true; l_key := ln_WGPrivateKey node; l_port := WGListenPort c; l_addrs := mesh_addrs c node; l_peers := l_peers l |}.

(** Both addresses, then what follows. *)
Lemma addresses_ok h c node l k : node_ready c node -> link h (InterfaceName c) = Some l -> l_addrs l = [] ->
  exists h', andThen (explain "failed to set IP address" (setInterfaceAddress (Some Linux) h (InterfaceName c) (v4_addr c node)))
    (fun h2 => andThen (if String.eqb (ln_MeshIPv6 node) "" then (h2, Ok tt)
       else explain "failed to set IPv6 address" (setInterfaceAddress (Some Linux) h2 (InterfaceName c) (ln_MeshIPv6 node ^^ "/64"))) k)
    = k h' /\ sets h h' (InterfaceName c) (Some (with_addrs (mesh_addrs c node) l)).
Proof.
  intros [_ _ H4 H6] Hl H0.
  destruct (set_v4_ok h (InterfaceName c) l (v4_addr c node) Hl H4 ltac:(rewrite H0; constructor)) as (h1 & E1 & S1).
  rewrite E1. unfold mesh_addrs. destruct (String.eqb_spec (ln_MeshIPv6 node) "") as [_|Hne].
  - by exists h1.
  - destruct (set_v6_ok h1 _ _ _ _ (sets_link _ _ _ _ S1) (H6 Hne) H4 eq_refl) as (h2 & E2 & S2).
    exists h2. cbn [explain andThen fst snd wrap]. rewrite E2. split; [done|]. exact (sets_trans _ _ _ _ _ _ S1 S2).
Qed.

Lemma bring_up_ok h c node l : node_ready c node -> link h (InterfaceName c) = Some l -> l_up l = false -> l_addrs l = [] ->
  (0 < WGListenPort c <= 65535)%Z -> port_free h (InterfaceName c) (WGListenPort c) ->
  exists h', bring_up (Some Linux) wg h c node = (h', Ok tt) /\ sets h h' (InterfaceName c) (Some (configured c node l)).
Proof.
  intros HN Hl Hu Ha Hp Hfree. unfold bring_up. cbv zeta.
  destruct (lh_key h _ l (ln_WGPrivateKey node) (WGListenPort c) Hl Hu (nr_key _ _ HN) Hp) as (h1 & out & E1 & S1).
  unfold configureInterface. unfold endline in E1. rewrite E1.
  match goal with |- context [andThen (explain ?m (?h0, Ok tt)) ?k] => change (andThen (explain m (h0, Ok tt)) k) with (k h0) end.
  cbv beta.
  destruct (addresses_ok h1 c node _ (fun h3 => explain "failed to bring interface up"
    (setInterfaceUp (Some Linux) h3 (InterfaceName c))) HN (sets_link _ _ _ _ S1) Ha) as (h2 & E2 & S2).
  unfold v4_addr in E2. rewrite E2. pose proof (sets_trans _ _ _ _ _ _ S1 S2) as S12.
  assert (can_bind h2 (WGListenPort c) = true) as Hb.
  { apply lh_bind; [done|]. apply (sets_free _ _ _ _ _ S12) in Hfree as [F1 F2]. split; [done|].
    intros n l' Hn Hup. destruct (decide (n = InterfaceName c)) as [->|Hne]; [|by apply (F2 n)].
    rewrite (sets_link _ _ _ _ S2) in Hn. injection Hn as <-. cbn in Hup. congruence. }
  destruct (does_checked _ _ _ _ "failed to bring interface up" (lh_up h2 _ _ (sets_link _ _ _ _ S2) Hu Hb)) as (h3 & E3 & S3).
  unfold setInterfaceUp. rewrite E3. exists h3. split; [done|]. exact (sets_trans _ _ _ _ _ _ S12 S3).
Qed.

(** ** Set-up *)

Lemma setup_spec h c node q :
  node_ready c node -> (0 < WGListenPort c)%Z ->
  (WGListenPort c <= q <= WGListenPort c + 100)%Z -> (q <= 65535)%Z -> port_free h (InterfaceName c) q ->
  exists h' p, setup h c node = (h', with_listen_port c p, Ok tt)
  /\ (WGListenPort c <= p <= q)%Z /\ port_free h (InterfaceName c) p
  /\ (forall r, (WGListenPort c <= r < p)%Z -> ~ port_free h (InterfaceName c) r)
  /\ (forall r, port_free h' (InterfaceName c) r <-> port_free h (InterfaceName c) r)
  /\ link h' (InterfaceName c)
     = Some {| l_up := true; l_key := ln_WGPrivateKey node; l_port := p; l_addrs := mesh_addrs c node;
               l_peers := from_option l_peers [] (link h (InterfaceName c)) |}
  /\ (forall n, n <> InterfaceName c -> link h' n = link h n).
Proof.
  intros HN Hp Hq Hq2 Hfree. unfold setupWireGuard.
  destruct (ensure_interface_ok h (InterfaceName c) (nr_name _ _ HN)) as (h1 & -> & S1).
  pose proof (sets_link _ _ _ _ S1) as L1.
  assert (forall r, (0 < r <= 65535)%Z -> isPortInUse h1 r = false <-> port_free h (InterfaceName c) r) as HF.
  { intros r Hr. rewrite (free_in_use h1 _ _ r L1) by done. by apply (sets_free _ _ _ _ _ S1). }
  pose proof (choose_port_spec h1 (WGListenPort c) Hp) as HC.
  destruct (choose_port h1 (WGListenPort c)) as [p|e].
  2: { specialize (HC q Hq). rewrite (proj2 (HF q ltac:(lia)) Hfree) in HC. done. }
  destruct HC as (Hr & Hu & Hmin). assert (port_free h (InterfaceName c) p) as Hpf by (apply HF; [lia|done]).
  destruct (bring_up_ok h1 (with_listen_port c p) node (ready_link h (InterfaceName c))) as (h2 & -> & S2); try done.
  { destruct HN. by split. }
  { cbn [with_listen_port WGListenPort]. lia. }
  { by apply (sets_free _ _ _ _ _ S1). }
  exists h2, p. split; [done|]. split.
  { destruct (Z.le_gt_cases p q); [lia|].
    specialize (Hmin q ltac:(lia)). rewrite (proj2 (HF q ltac:(lia)) Hfree) in Hmin. done. }
  split; [done|]. split.
  { intros r Hr' HfR. specialize (Hmin r Hr'). rewrite (proj2 (HF r ltac:(lia)) HfR) in Hmin. done. }
  pose proof (sets_trans _ _ _ _ _ _ S1 S2) as S12. split; [intros r; by apply (sets_free _ _ _ _ _ S12)|]. split.
  - rewrite (sets_link _ _ _ _ S12). f_equal. unfold configured, ready_link.
    cbn [with_up with_addrs l_peers with_listen_port WGListenPort]. by destruct (link h (InterfaceName c)).
  - intros n Hn. destruct S12 as [E _]. rewrite E. by rewrite decide_False.
Qed.

(** C11. On a Linux host where one of the configured port and the hundred after
    it is free, set-up succeeds: the interface is up under its name with the node's
    key and exactly the node's addresses, on the first free port (which becomes the
    configured one), and no other link is touched, whether the interface existed
    before or not. *)
Theorem setup_ready h c node q :
  node_ready c node -> (0 < WGListenPort c)%Z ->
  (WGListenPort c <= q <= WGListenPort c + 100)%Z -> (q <= 65535)%Z -> port_free h (InterfaceName c) q ->
  exists h' p, setup h c node = (h', with_listen_port c p, Ok tt)
  /\ (WGListenPort c <= p <= q)%Z /\ port_free h (InterfaceName c) p
  /\ (forall r, (WGListenPort c <= r < p)%Z -> ~ port_free h (InterfaceName c) r)
  /\ (exists l, link h' (InterfaceName c) = Some l /\ l_up l = true /\ l_key l = ln_WGPrivateKey node
       /\ l_port l = p /\ l_addrs l = mesh_addrs c node)
  /\ (forall n, n <> InterfaceName c -> link h' n = link h n).
Proof.
  intros HN Hp Hq Hq2 Hfree.
  destruct (setup_spec h c node q HN Hp Hq Hq2 Hfree) as (h' & p & E & Hr & Hf & Hmin & Hfr & Hl & Ho).
  exists h', p. do 4 (split; [assumption|]). split; [|done]. eexists. by split_and!.
Qed.

(** A daemon that starts again after a crash, on the interface it left
    behind (up, holding its port, with whatever peers), takes the same port and
    addresses; but the peers of the earlier run stay on the interface, because the
    command meant to remove them names no key. *)
Theorem restart_keeps_port_and_peers h h1 h2 c c1 node l :
  node_ready c node -> (0 < WGListenPort c)%Z ->
  (exists q, (WGListenPort c <= q <= WGListenPort c + 100)%Z /\ (q <= 65535)%Z /\ port_free h (InterfaceName c) q) ->
  setup h c node = (h1, c1, Ok tt) -> sets h1 h2 (InterfaceName c) (Some l) ->
  exists h3 l3, setup h2 c node = (h3, c1, Ok tt) /\ link h3 (InterfaceName c) = Some l3
  /\ l_up l3 = true /\ l_port l3 = WGListenPort c1 /\ l_addrs l3 = mesh_addrs c node /\ l_peers l3 = l_peers l.
Proof.
  intros HN Hp (q & Hq & Hq2 & Hfree) E1 S12.
  destruct (setup_spec h c node q HN Hp Hq Hq2 Hfree) as (h' & p & E & Hr & Hf & Hmin & Hfr & Hl & Ho).
  rewrite E1 in E. injection E as <- ->.
  assert (forall r, port_free h2 (InterfaceName c) r <-> port_free h (InterfaceName c) r) as HF.
  { intros r. by rewrite (sets_free _ _ _ _ r S12). }
  destruct (setup_spec h2 c node p HN Hp ltac:(lia) ltac:(lia) (proj2 (HF p) Hf)) as (h3 & p3 & E3 & Hr3 & Hf3 & _ & _ & Hl3 & _).
  assert (p3 = p) as ->.
  { destruct (Z.lt_ge_cases p3 p) as [Hlt|]; [|lia]. destruct (Hmin p3 ltac:(lia)). by apply HF. }
  exists h3. eexists. split; [exact E3|]. split; [exact Hl3|]. split_and!; try done.
  cbn [l_peers]. by rewrite (sets_link _ _ _ _ S12).
Qed.

(** When no port is free, the daemon fails to start and leaves the
    interface it has just created behind: the teardown is only deferred once the
    set-up has succeeded. *)
Theorem failed_setup_leaks h c node body :
  node_ready c node -> (0 < WGListenPort c)%Z -> link h (InterfaceName c) = None ->
  (forall q, (WGListenPort c <= q <= WGListenPort c + 100)%Z -> foreign h q = true) ->
  exists h' e, run_interface (Some Linux) wg goBin h c node body = (h', Err e)
  /\ link h' (InterfaceName c) = Some new_link.
Proof.
  intros HN Hp Hnone Hbusy. unfold run_interface, setupWireGuard.
  destruct (ensure_interface_ok h (InterfaceName c) (nr_name _ _ HN)) as (h1 & -> & S1).
  pose proof (sets_link _ _ _ _ S1) as L1. unfold ready_link in L1. rewrite Hnone in L1.
  pose proof (choose_port_spec h1 (WGListenPort c) Hp) as HC.
  destruct (choose_port h1 (WGListenPort c)) as [p|e]; [|by exists h1; eexists].
  exfalso. destruct HC as (Hr & Hu & _). apply (free_in_use h1 (InterfaceName c) _ p L1) in Hu as [Hf _]; [|done|lia].
  destruct S1 as [_ F]. rewrite F, Hbusy in Hf by lia. done.
Qed.

Lemma teardown_ok h c l : InterfaceName c <> ""%string -> link h (InterfaceName c) = Some l ->
  sets h (teardownWireGuard (Some Linux) h c) (InterfaceName c) None.
Proof.
  intros Hne Hl. unfold teardownWireGuard. rewrite (proj2 (String.eqb_neq _ _)) by done.
  unfold setInterfaceDown, deleteInterface.
  pose proof (does_unchecked _ _ _ _ (lh_down h _ l Hl)) as S1.
  destruct (does_unless (fun out => contains out "Cannot find device" || contains out "does not exist") _ _ _ _
    "failed to delete interface" (lh_del _ _ _ (sets_link _ _ _ _ S1))) as (h2 & -> & S2).
  exact (sets_trans _ _ _ _ _ _ S1 S2).
Qed.

(** A run that reached its body leaves no link behind, whatever the body did to
    the interface short of removing it. *)
Theorem run_removes_interface h c node body q :
  node_ready c node -> (0 < WGListenPort c)%Z -> InterfaceName c <> ""%string ->
  (WGListenPort c <= q <= WGListenPort c + 100)%Z -> (q <= 65535)%Z -> port_free h (InterfaceName c) q ->
  (forall h1 c1, is_Some (link h1 (InterfaceName c)) -> exists l, sets h1 (body h1 c1) (InterfaceName c) (Some l)) ->
  exists h', run_interface (Some Linux) wg goBin h c node body = (h', Ok tt) /\ link h' (InterfaceName c) = None
  /\ forall n, n <> InterfaceName c -> link h' n = link h n.
Proof.
  intros HN Hp Hne Hq Hq2 Hfree Hbody. unfold run_interface.
  destruct (setup_spec h c node q HN Hp Hq Hq2 Hfree) as (h1 & p & -> & _ & _ & _ & _ & Hl & Ho).
  destruct (Hbody h1 (with_listen_port c p) ltac:(rewrite Hl; by eexists)) as (l & SB).
  pose proof (teardown_ok _ (with_listen_port c p) l Hne (sets_link _ _ _ _ SB)) as ST.
  eexists. split; [reflexivity|]. split; [by apply (sets_link _ _ _ _ ST)|].
  intros n Hn. destruct (sets_trans _ _ _ _ _ _ SB ST) as [E _]. rewrite E.
  cbn [with_listen_port InterfaceName]. rewrite decide_False by done. by apply Ho.
Qed.

End host.

(** ** macOS: waiting for the device *)

Section darwin.
Context {H : Type} {exec : Executor H} (wgGo : string).

(** The host after [n] looks that did not find the device. *)
Fixpoint after_looks (n : nat) (h : H) (name : string) : H :=
  match n with
  | O => h
  | S n => after_looks n (sleep (interfaceExists (Some Darwin) h name).1 (50 * millisecond)%Z) name
  end.
Definition seen_at (n : nat) (h : H) (name : string) : bool := (interfaceExists (Some Darwin) (after_looks n h name) name).2.

Lemma wait_interface_iff k h name :
  (wait_interface (Some Darwin) k h name).2 = true <-> exists i, (i < k)%nat /\ seen_at i h name = true.
Proof.
  revert h. induction k as [|k IH]; intros h.
  - cbn. split; [done|]. intros (i & ? & _). lia.
  - cbn [wait_interface]. destruct (interfaceExists (Some Darwin) h name) as [h' there] eqn:E.
    destruct there.
    + split; [|done]. intros _. exists 0%nat. split; [lia|]. unfold seen_at. cbn [after_looks]. by rewrite E.
    + rewrite IH. split.
      * intros (i & Hi & Hs). exists (S i). split; [lia|]. unfold seen_at in *. cbn [after_looks]. by rewrite E.
      * intros ([|i] & Hi & Hs); unfold seen_at in Hs; cbn [after_looks] in Hs; rewrite E in Hs; [done|].
        exists i. split; [lia|exact Hs].
Qed.

(** On macOS creation succeeds exactly when wireguard-go could be started and the
    device is seen by one of twenty looks, 50 ms apart. *)
Theorem create_darwin_iff h h1 name : start_cmd h [wgGo; name] = (h1, true) ->
  (wgGo <> "wireguard-go"%string \/ look_path h "wireguard-go" = true) ->
  is_ok (createInterface (Some Darwin) wgGo h name).2 = true <-> exists i, (i < 20)%nat /\ seen_at i h1 name = true.
Proof.
  intros Hs Hl. rewrite <- wait_interface_iff. unfold createInterface. rewrite Hs.
  destruct (String.eqb_spec wgGo "wireguard-go") as [->|]; cbn [andb].
  - destruct Hl as [|Hl]; [done|]. rewrite Hl. cbn [negb].
    destruct (wait_interface _ 20 h1 name) as [h2 there]. cbn [snd]. by destruct there.
  - cbn [negb]. destruct (wait_interface _ 20 h1 name) as [h2 there]. cbn [snd]. by destruct there.
Qed.

End darwin.

(** ** A host that keeps the promise *)

Record SimHost := { sh_links : gmap string Link; sh_foreign : list Z }.

Definition sim_bind (h : SimHost) (p : Z) : bool :=
  negb (bool_decide (p ∈ sh_foreign h))
  && bool_decide (map_Forall (fun _ l => l_up l = true -> l_port l <> p) (sh_links h)).
Definition sim_set (h : SimHost) (n : string) (ol : option Link) : SimHost :=
  {| sh_links := partial_alter (fun _ => ol) n (sh_links h); sh_foreign := sh_foreign h |}.
Definition on_link (h : SimHost) (n : string) (f : Link -> option (option Link)) : SimHost * (bool * string) :=
  match sh_links h !! n ≫= f with
  | Some ol => (sim_set h n ol, (true, ""%string))
  | None => (h, (false, "Cannot find device"%string))
  end.

(** ip(8), by the words that follow it. *)
Definition sim_ip (h : SimHost) (args : list string) : SimHost * (bool * string) :=
  match args with
  | [o; a; d; n; x; y] =>
      if String.eqb a "add" then
        (if String.eqb o "link" then (match sh_links h !! n with
          | Some _ => (h, (false, "File exists"%string))
          | None => (sim_set h n (Some new_link), (true, ""%string)) end)
         else (h, (false, "what?"%string)))
      else (h, (false, "what?"%string))
  | [o; a; x; d; n] =>
      if String.eqb o "addr" then
        on_link h n (fun l => if bool_decide (x ∈ l_addrs l) then None else Some (Some (with_addrs (l_addrs l ++ [x]) l)))
      else if String.eqb o "-4" then on_link h n (fun l => Some (Some (with_addrs (List.filter (fun a => negb (is_v4 a)) (l_addrs l)) l)))
      else if String.eqb o "-6" then on_link h n (fun l => Some (Some (with_addrs (List.filter (fun a => negb (is_v6 a)) (l_addrs l)) l)))
      else if String.eqb n "down" then on_link h d (fun l => Some (Some (taken_down false l)))
      else on_link h d (fun l => if sim_bind h (l_port l) then Some (Some (with_up true l)) else None)
  | [o; a; d; n] =>
      if String.eqb o "addr" then on_link h n (fun l => Some (Some (with_addrs [] l))) else on_link h n (fun _ => Some None)
  | _ => (h, (false, "what?"%string))
  end.

(** wg(8). *)
Definition sim_wg (h : SimHost) (args : list string) (stdin : string) : SimHost * (bool * string) :=
  match args with
  | [set; n; pk; dev; lp; port] => on_link h n (fun l => p ← atoi port; Some (Some (with_key (trim_space stdin) p l)))
  | [set; n; peer; w] => (h, (false, "Key is not the correct length or format"%string))
  | [show; n; lp] => (h, (true, from_option (fun l => itoa (l_port l)) "" (sh_links h !! n)))
  | _ => (h, (false, "what?"%string))
  end.

#[export] Instance sim_exec : Executor SimHost := {|
  run_cmd h words stdin :=
    match words with
    | c :: args => if String.eqb c "ip" then sim_ip h args else sim_wg h args stdin
    | [] => (h, (false, ""%string))
    end;
  start_cmd h words := (h, false);
  look_path h file := true;
  path_exists h path := bool_decide (is_Some (sh_links h !! str_drop 15 path));
  can_bind := sim_bind;
  sleep h d := h;
|}.

Lemma sim_sets h n ol :
  (forall m, sh_links (sim_set h n ol) !! m = if decide (m = n) then ol else sh_links h !! m)
  /\ forall p, bool_decide (p ∈ sh_foreign (sim_set h n ol)) = bool_decide (p ∈ sh_foreign h).
Proof.
  split; [|done]. intros m. cbn [sim_set sh_links]. destruct (decide (m = n)) as [->|Hne].
  - by rewrite lookup_partial_alter_eq.
  - by rewrite lookup_partial_alter_ne.
Qed.

Lemma sim_same h n l : sh_links h !! n = Some l ->
  (forall m, sh_links h !! m = if decide (m = n) then sh_links h !! n else sh_links h !! m)
  /\ forall p, bool_decide (p ∈ sh_foreign h) = bool_decide (p ∈ sh_foreign h).
Proof. intros _. split; [|done]. intros m. by destruct (decide (m = n)) as [->|]. Qed.

(** One link changed by a command of the simulation. *)
Lemma sim_on_link h n l f ol : sh_links h !! n = Some l -> f l = Some ol ->
  exists h' out, on_link h n f = (h', (true, out)) /\ h' = sim_set h n ol.
Proof. intros Hl Hf. unfold on_link. rewrite Hl. cbn [mbind option_bind]. rewrite Hf. by do 2 eexists. Qed.

(** A command that applies [f] to the link. *)
Ltac sim_effect f := match goal with
  | Hl : _ ?h ?n = Some ?l |- _ _ _ _ _ ?ol =>
      destruct (sim_on_link h n l f ol Hl) as (h' & out & E & ->);
        [ | exists (sim_set h n ol), out; split; [exact E|apply sim_sets] ]
  end.

Lemma trim_key k : wg_key k = true -> trim_space (endline k) = k.
Proof.
  unfold wg_key. intros Hk. bool_steps. unfold trim_space, endline. destruct k as [|c k]; [done|].
  rewrite app_cons_str. assert (is_space c = false) as Hc.
  { unfold tight in H1. cbn [string_forall] in H1. by bool_steps. }
  cbn [trim_left]. rewrite Hc, <- app_cons_str, trim_right_app by done. by apply trim_right_tight.
Qed.

#[export] Program Instance sim_linux : LinuxHost sim_exec "wg" := {|
  keep_addr_on_down := false;
  link h n := sh_links h !! n;
  foreign h p := bool_decide (p ∈ sh_foreign h);
|}.
Next Obligation. intros h n _. reflexivity. Qed.
Next Obligation.
  intros h p _. cbn [can_bind sim_exec]. unfold sim_bind. rewrite andb_true_iff, negb_true_iff, bool_decide_eq_true.
  unfold map_Forall. done.
Qed.
Next Obligation.
  intros h n _ Hn. cbn beta in *. exists (sim_set h n (Some new_link)), ""%string. cbn [run_cmd sim_exec].
  split; [|apply sim_sets].
  change (sim_ip h ["link"; "add"; "dev"; n; "type"; "wireguard"]%string = (sim_set h n (Some new_link), (true, ""%string))).
  cbn. by rewrite Hn.
Qed.
Next Obligation. intros h n l Hl. by sim_effect (fun l => Some (Some (taken_down false l))). Qed.
Next Obligation.
  intros h n l Hl Hu Hb. sim_effect (fun l => if sim_bind h (l_port l) then Some (Some (with_up true l)) else None).
  cbn [can_bind sim_exec] in Hb. by rewrite Hb.
Qed.
Next Obligation. intros h n l Hl. by sim_effect (fun _ : Link => Some (@None Link)). Qed.
Next Obligation. intros h n l Hl. by sim_effect (fun l => Some (Some (with_addrs [] l))). Qed.
Next Obligation.
  intros h n l Hl. by sim_effect (fun l => Some (Some (with_addrs (List.filter (fun a => negb (is_v4 a)) (l_addrs l)) l))).
Qed.
Next Obligation.
  intros h n l Hl. by sim_effect (fun l => Some (Some (with_addrs (List.filter (fun a => negb (is_v6 a)) (l_addrs l)) l))).
Qed.
Next Obligation.
  intros h n l a Hl _ Ha.
  sim_effect (fun l => if bool_decide (a ∈ l_addrs l) then None else Some (Some (with_addrs (l_addrs l ++ [a]) l))).
  by rewrite bool_decide_eq_false_2.
Qed.
Next Obligation.
  intros h n l k p Hl Hu Hk Hp. sim_effect (fun l => p' ← atoi (itoa p); Some (Some (with_key (trim_space (endline k)) p' l))).
  rewrite atoi_itoa by (unfold int64_min, int64_max; lia). cbn [mbind option_bind]. by rewrite trim_key.
Qed.
Next Obligation. intros h n l w Hl _. do 2 eexists. split; [reflexivity|]. by apply (sim_same h n l). Qed.
Next Obligation. intros h n l Hl. do 2 eexists. split; [reflexivity|]. by apply (sim_same h n l). Qed.

(** ** Witnesses *)

Definition set_cfg : Config := get_config (H := flat_hkdf) "0123456789abcdef" "192.168.64.0/22".
Definition set_node : LocalNode :=
  {| ln_WGPubKey := "pub"; ln_WGPrivateKey := "AQEBAQEBAQEBAQEBAQEBAQEBAQEBAQEBAQEBAQEBAQE="; ln_MeshIP := "192.168.64.9";
     ln_MeshIPv6 := "fd00::1"; ln_RoutableNetworks := []; ln_Introducer := false; ln_NATType := "";
     ln_Hostname := "host"; wgEndpoint := "" |}.
(** A host where another program holds the default port and another link the next. *)
Definition busy_host : SimHost :=
  {| sh_links := {["wg9"%string := {| l_up := true; l_key := "k"; l_port := 51821; l_addrs := []; l_peers := [] |}]};
     sh_foreign := [51820%Z] |}.
Definition full_host : SimHost := {| sh_links := ∅; sh_foreign := seqZ 51820 101 |}.

Lemma set_ready : node_ready set_cfg set_node.
Proof. split; [reflexivity|reflexivity|vm_compute; reflexivity|intros _; vm_compute; reflexivity]. Qed.
Lemma set_cfg_name : InterfaceName set_cfg = "wg0"%string /\ WGListenPort set_cfg = 51820%Z.
Proof. split; vm_compute; reflexivity. Qed.
Lemma busy_free : port_free (host := sim_linux) busy_host "wg0" 51822.
Proof.
  split; [vm_compute; reflexivity|]. intros n l Hn Hl.
  change ((sh_links busy_host : gmap string Link) !! n = Some l) in Hl. cbn [busy_host sh_links] in Hl.
  apply lookup_singleton_Some in Hl as [<- <-]. done.
Qed.

Lemma setup_ready_witness :
  exists h' p, setupWireGuard (Some Linux) "wg" "wireguard-go" busy_host set_cfg set_node
    = (h', with_listen_port set_cfg p, Ok tt)
  /\ (51820 <= p <= 51822)%Z
  /\ exists l, sh_links h' !! "wg0"%string = Some l /\ l_addrs l = ["192.168.64.9/22"; "fd00::1/64"]%string.
Proof.
  destruct set_cfg_name as [En Ep].
  destruct (setup_ready (wg := "wg") "wireguard-go" busy_host set_cfg set_node 51822%Z) as (h' & p & E & Hr & _ & _ & (l & Hl & _ & _ & _ & Ha) & _).
  - exact set_ready.
  - rewrite Ep. lia.
  - rewrite Ep. lia.
  - lia.
  - rewrite En. exact busy_free.
  - exists h', p. split; [exact E|]. split; [rewrite Ep in Hr; exact Hr|]. exists l. rewrite En in Hl. split; [exact Hl|].
    rewrite Ha. vm_compute. reflexivity.
Defined.

Definition set_up_host : SimHost := (setupWireGuard (Some Linux) "wg" "wireguard-go" busy_host set_cfg set_node).1.1.
Definition old_link : Link :=
  {| l_up := true; l_key := "k"; l_port := 51822; l_addrs := ["192.168.64.9/22"%string]; l_peers := ["gone"%string] |}.

Lemma restart_keeps_port_and_peers_witness :
  exists h3 l3, setupWireGuard (Some Linux) "wg" "wireguard-go" (sim_set set_up_host "wg0" (Some old_link)) set_cfg set_node
    = (h3, with_listen_port set_cfg 51822, Ok tt)
  /\ sh_links h3 !! "wg0"%string = Some l3 /\ l_peers l3 = ["gone"%string].
Proof.
  destruct set_cfg_name as [En Ep].
  destruct (restart_keeps_port_and_peers (wg := "wg") "wireguard-go" busy_host set_up_host
    (sim_set set_up_host "wg0" (Some old_link)) set_cfg (with_listen_port set_cfg 51822) set_node old_link)
    as (h3 & l3 & E & Hl & _ & _ & _ & Hp).
  - exact set_ready.
  - rewrite Ep. lia.
  - exists 51822%Z. rewrite En, Ep. split; [lia|]. split; [lia|]. exact busy_free.
  - vm_compute; reflexivity.
  - rewrite En. exact (sim_sets set_up_host "wg0" (Some old_link)).
  - exists h3, l3. split; [exact E|]. rewrite En in Hl. split; [exact Hl|exact Hp].
Defined.

Lemma failed_setup_leaks_witness :
  exists h' e, run_interface (Some Linux) "wg" "wireguard-go" full_host set_cfg set_node (fun h _ => h) = (h', Err e)
  /\ sh_links h' !! "wg0"%string = Some new_link.
Proof.
  destruct set_cfg_name as [En Ep].
  destruct (failed_setup_leaks (wg := "wg") "wireguard-go" full_host set_cfg set_node (fun h _ => h)) as (h' & e & E & Hl).
  - exact set_ready.
  - rewrite Ep. lia.
  - rewrite En. reflexivity.
  - rewrite Ep. intros q Hq. change (bool_decide (q ∈ seqZ 51820 101) = true). apply bool_decide_eq_true. apply elem_of_seqZ. lia.
  - exists h', e. split; [exact E|]. rewrite En in Hl. exact Hl.
Defined.
