(* ===== verification/GoFlag.v ===== *)
(** * Command-line flags (the standard library's flag package)

    [FlagSet.Parse] for string, bool, int and duration flags, and the number syntax of
    [strconv.ParseInt] with base 0 that int flags use. *)

From S2P Require Import Prelude GoStrings GoDuration.
Local Open Scope wgmesh_scope.

(** ** Numbers *)

Definition digit_value (c : ascii) : option Z :=
  let n := byte_of_ascii (lower_char c) in
  if ((48 <=? n) && (n <=? 57))%Z then Some (n - 48)%Z
  else if ((97 <=? n) && (n <=? 122))%Z then Some (n - 87)%Z else None.

(** The digits of a number in [base]; underscores are passed over. *)
Fixpoint read_digits (base acc : Z) (s : string) : option Z :=
  match s with
  | EmptyString => Some acc
  | String c s' =>
      if Ascii.eqb c "_" then read_digits base acc s'
      else match digit_value c with
           | Some d => if (d <? base)%Z then read_digits base (acc * base + d)%Z s' else None
           | None => None
           end
  end.

(** [underscoreOK], after the sign and the prefix: [prev] is the kind of the
    character before ("0": a digit, "_": an underscore, anything else). *)
Fixpoint underscores_ok (hex : bool) (prev : ascii) (s : string) : bool :=
  match s with
  | EmptyString => negb (Ascii.eqb prev "_")
  | String c s' =>
      let n := byte_of_ascii (lower_char c) in
      if is_digit c || (hex && ((97 <=? n) && (n <=? 102))%Z) then underscores_ok hex "0" s'
      else if Ascii.eqb c "_" then if Ascii.eqb prev "0" then underscores_ok hex "_" s' else false
      else if Ascii.eqb prev "_" then false else underscores_ok hex "!" s'
  end.

(** The base a prefix announces, and what follows the prefix. *)
Definition number_base (s : string) : Z * string :=
  match s with
  | String "0" (String p (String d rest)) =>
      match lower_char p with
      | "b"%char => (2, String d rest)
      | "o"%char => (8, String d rest)
      | "x"%char => (16, String d rest)
      | _ => (8, String p (String d rest))
      end
  | String "0" rest => (8, rest)
  | _ => (10, s)
  end%Z.

Definition split_sign (s : string) : bool * string :=
  match s with
  | String "-" r => (true, r)
  | String "+" r => (false, r)
  | _ => (false, s)
  end.

(** [strconv.ParseInt(s, 0, 64)]. *)
Definition parse_int0 (s : string) : option Z :=
  let '(neg, mag) := split_sign s in
  if String.eqb mag "" then None
  else
    let '(base, digits) := number_base mag in
    let prefixed := bool_decide (base <> 10%Z) in
    if contains_char "_" mag && negb (underscores_ok (Z.eqb base 16) (if prefixed then "0" else "^")%char digits) then None
    else match read_digits base 0 digits with
         | None => None
         | Some n => let z := if neg then (- n)%Z else n in
                     if ((int64_min <=? z) && (z <=? int64_max))%Z then Some z else None
         end.

(** ** Flags *)

Inductive fkind := FString | FBool | FInt | FDuration.
Inductive fval := VString (s : string) | VBool (b : bool) | VInt (z : Z) | VDuration (d : Duration).

(** [strconv.ParseBool]. *)
Definition parse_bool (s : string) : option bool :=
  if bool_decide (s ∈ ["1"; "t"; "T"; "true"; "TRUE"; "True"]%string) then Some true
  else if bool_decide (s ∈ ["0"; "f"; "F"; "false"; "FALSE"; "False"]%string) then Some false
  else None.

Definition flag_set (k : fkind) (s : string) : option fval :=
  match k with
  | FString => Some (VString s)
  | FBool => VBool <$> parse_bool s
  | FInt => VInt <$> parse_int0 s
  | FDuration => VDuration <$> parse_duration s
  end.

(** The declared flags, and the values that were set. *)
Notation FlagSet := (list (string * fkind)).
Notation FlagVals := (gmap string fval).

Definition flag_kind (fs : FlagSet) (name : string) : option fkind :=
  snd <$> List.find (fun d => String.eqb (fst d) name) fs.

(** A word that looks like a flag: its name, and its value after "=". *)
Inductive flag_word := Positional | Terminator | BadFlag | Flag (name : string) (value : option string).

Definition read_flag_word (s : string) : flag_word :=
  match s with
  | String "-" (String "-" EmptyString) => Terminator
  | String "-" (String c r) =>
      let name := if Ascii.eqb c "-" then r else String c r in
      match name with
      | EmptyString => BadFlag
      | String d name' =>
          if Ascii.eqb d "-" || Ascii.eqb d "=" then BadFlag
          else match cut_char "=" name with
               | Some (n, v) => Flag n (Some v)
               | None => Flag name None
               end
      end
  | _ => Positional
  end.

(** [FlagSet.Parse]: the values, and the words from the first that is not a flag. *)
Fixpoint parse_flags (fs : FlagSet) (args : list string) (vals : FlagVals) : result (FlagVals * list string) :=
  match args with
  | [] => Ok (vals, [])
  | s :: args' =>
      match read_flag_word s with
      | Positional => Ok (vals, args)
      | Terminator => Ok (vals, args')
      | BadFlag => Err "bad flag syntax"
      | Flag name value =>
          match flag_kind fs name with
          | None => if String.eqb name "help" || String.eqb name "h" then Err "flag: help requested"
                    else Err "flag provided but not defined"
          | Some FBool =>
              match flag_set FBool (default "true"%string value) with
              | Some v => parse_flags fs args' (<[name := v]> vals)
              | None => Err "invalid boolean value"
              end
          | Some k =>
              match value, args' with
              | Some text, _ =>
                  match flag_set k text with
                  | Some v => parse_flags fs args' (<[name := v]> vals)
                  | None => Err "invalid value"
                  end
              | None, text :: args'' =>
                  match flag_set k text with
                  | Some v => parse_flags fs args'' (<[name := v]> vals)
                  | None => Err "invalid value"
                  end
              | None, [] => Err "flag needs an argument"
              end
          end
      end
  end.

(** What a flag is after parsing. *)
Definition get_string (vals : FlagVals) (name dflt : string) : string :=
  match vals !! name with Some (VString s) => s | _ => dflt end.
Definition get_bool (vals : FlagVals) (name : string) : bool :=
  match vals !! name with Some (VBool b) => b | _ => false end.
Definition get_int (vals : FlagVals) (name : string) (dflt : Z) : Z :=
  match vals !! name with Some (VInt z) => z | _ => dflt end.
Definition get_duration (vals : FlagVals) (name : string) (dflt : Duration) : Duration :=
  match vals !! name with Some (VDuration d) => d | _ => dflt end.

(** ** Lemmas *)

Lemma cut_char_absent c s : contains_char c s = false -> cut_char c s = None.
Proof. induction s as [|d s IH]; cbn [contains_char cut_char]; [done|]. intros H. bool_steps. by rewrite H, IH. Qed.

(** The name of a long flag: a letter, then no "=". *)
Definition long_name (n : string) : bool :=
  match n with
  | EmptyString => false
  | String c _ => negb (Ascii.eqb c "-") && negb (contains_char "=" n)
  end.

Lemma read_long n : long_name n = true -> read_flag_word (String "-" (String "-" n)) = Flag n None.
Proof.
  destruct n as [|c n]; [done|]. cbn [long_name contains_char]. intros H.
  cbn [read_flag_word]. change (Ascii.eqb "-" "-") with true. cbv iota. bool_steps.
  rewrite H. rewrite H0. cbn [orb].
  rewrite cut_char_absent; [done|]. cbn [contains_char]. by rewrite H0, H1.
Qed.

Section steps.
Context (fs : FlagSet) (n : string) (rest : list string) (vals : FlagVals).
Hypothesis (Hn : long_name n = true).
Notation long := (String "-" (String "-" n)).

Lemma parse_string_flag v : flag_kind fs n = Some FString ->
  parse_flags fs (long :: v :: rest) vals = parse_flags fs rest (<[n := VString v]> vals).
Proof. intros Hk. cbn [parse_flags]. by rewrite read_long, Hk by done. Qed.

Lemma parse_int_flag v z : flag_kind fs n = Some FInt -> parse_int0 v = Some z ->
  parse_flags fs (long :: v :: rest) vals = parse_flags fs rest (<[n := VInt z]> vals).
Proof. intros Hk Hz. cbn [parse_flags]. rewrite read_long, Hk by done. cbn [flag_set]. by rewrite Hz. Qed.

Lemma parse_duration_flag v d : flag_kind fs n = Some FDuration -> parse_duration v = Some d ->
  parse_flags fs (long :: v :: rest) vals = parse_flags fs rest (<[n := VDuration d]> vals).
Proof. intros Hk Hd. cbn [parse_flags]. rewrite read_long, Hk by done. cbn [flag_set]. by rewrite Hd. Qed.

Lemma parse_bool_flag : flag_kind fs n = Some FBool ->
  parse_flags fs (long :: rest) vals = parse_flags fs rest (<[n := VBool true]> vals).
Proof. intros Hk. cbn [parse_flags]. by rewrite read_long, Hk by done. Qed.
End steps.

(** Decimal port numbers read back. *)
Definition port_reads (z : Z) : bool := match parse_int0 (itoa z) with Some z' => Z.eqb z' z | None => false end.
Fixpoint all_ports (n : nat) (z : Z) : bool :=
  match n with O => true | S n => port_reads z && all_ports n (z + 1)%Z end.

Lemma all_ports_spec n z q : all_ports n z = true -> (z <= q < z + Z.of_nat n)%Z -> port_reads q = true.
Proof.
  revert z. induction n as [|n IH]; intros z H Hq; [lia|]. cbn [all_ports] in H. bool_steps.
  destruct (decide (q = z)) as [->|]; [done|]. apply (IH (z + 1)%Z); [done|lia].
Qed.

Lemma parse_port z : (0 <= z <= 65535)%Z -> parse_int0 (itoa z) = Some z.
Proof.
  intros Hz. assert (all_ports (Z.to_nat 65536) 0 = true) as H by (vm_compute; reflexivity).
  apply (all_ports_spec _ _ z) in H; [|lia]. unfold port_reads in H.
  destruct (parse_int0 (itoa z)); [|done]. apply Z.eqb_eq in H. by subst.
Qed.

Example parse_int0_ex : parse_int0 "0x1F" = Some 31%Z /\ parse_int0 "-017" = Some (-15)%Z /\ parse_int0 "1_000" = Some 1000%Z
  /\ parse_int0 "1__0" = None /\ parse_int0 "_1" = None /\ parse_int0 "0_7" = Some 7%Z /\ parse_int0 "08" = None
  /\ parse_int0 "0" = Some 0%Z /\ parse_int0 "9223372036854775808" = None.
Proof. by vm_compute. Qed.
