(* ===== verification/Systemd.v ===== *)
(** * The systemd service (pkg/daemon/systemd.go)

    The unit file and the environment file that [install-service] writes, the
    command line in the unit, and the sequence of actions of installing and
    removing the service.  Files and systemctl are an oracle that says whether an
    action succeeds.  The last part says what systemd and the shell make of the
    two files, by their documentation; a construct of theirs that is not described
    there reads as [None]. *)

From S2P Require Import Prelude GoStrings IfName Derive NodeConfig.
Local Open Scope wgmesh_scope.

Record SystemdServiceConfig := {
  sc_Secret : string;
  sc_InterfaceName : string;
  sc_ListenPort : Z;
  sc_AdvertiseRoutes : list string;
  sc_Privacy : bool;
  sc_Gossip : bool;
  sc_DisableLANDiscovery : bool;
  sc_DisableIPv6 : bool;
  sc_ForceRelay : bool;
  sc_DisablePunching : bool;
  sc_Introducer : bool;
  sc_MeshSubnet : string;
  sc_BinaryPath : string;
}.

(** The same quoting as for remote commands. *)
Definition shellQuoteSystemd (s : string) : string := shellQuote s.

Definition secret_variable : string := "${WGMESH_SECRET}".


(** The options, in the order the code appends them. *)
Definition unit_options (cfg : SystemdServiceConfig) : list string :=
  when (negb (String.eqb (sc_InterfaceName cfg) "") && negb (String.eqb (sc_InterfaceName cfg) DefaultInterface))
       ["--interface"%string; shellQuoteSystemd (sc_InterfaceName cfg)]
  ++ when (negb (Z.eqb (sc_ListenPort cfg) 0) && negb (Z.eqb (sc_ListenPort cfg) DefaultWGPort))
       ["--listen-port"%string; itoa (sc_ListenPort cfg)]
  ++ when (Nat.ltb 0 (length (sc_AdvertiseRoutes cfg)))
       ["--advertise-routes"%string; join "," (sc_AdvertiseRoutes cfg)]
  ++ when (sc_Privacy cfg) ["--privacy"%string]
  ++ when (sc_Gossip cfg) ["--gossip"%string]
  ++ when (sc_DisableLANDiscovery cfg) ["--no-lan-discovery"%string]
  ++ when (sc_DisableIPv6 cfg) ["--no-ipv6"%string]
  ++ when (sc_ForceRelay cfg) ["--force-relay"%string]
  ++ when (sc_DisablePunching cfg) ["--no-punching"%string]
  ++ when (sc_Introducer cfg) ["--introducer"%string]
  ++ when (negb (String.eqb (sc_MeshSubnet cfg) "")) ["--mesh-subnet"%string; sc_MeshSubnet cfg].

(** The words after the binary. *)
Definition unit_flags (cfg : SystemdServiceConfig) : list string :=
  ["join"; "--secret"; secret_variable]%string ++ unit_options cfg.

Definition exec_start (binary : string) (cfg : SystemdServiceConfig) : string :=
  join " " (binary :: unit_flags cfg).

Definition nl : string := String (ascii_of_byte 10) EmptyString.
Definition line (s : string) : string := s ^^ nl.

Definition systemd_unit (execStart : string) : string :=
  line "[Unit]" ^^ line "Description=WireGuard Mesh Network (wgmesh)" ^^ line "After=network-online.target"
  ^^ line "Wants=network-online.target" ^^ line "" ^^ line "[Service]" ^^ line "Type=simple"
  ^^ line "EnvironmentFile=/etc/wgmesh/secret.env"
  ^^ line ("ExecStart=/bin/sh -c 'exec " ^^ execStart ^^ "'")
  ^^ line "Restart=always" ^^ line "RestartSec=5" ^^ line "LimitNOFILE=65535" ^^ line ""
  ^^ line "# Security hardening" ^^ line "NoNewPrivileges=yes" ^^ line "ProtectSystem=full"
  ^^ line "ProtectHome=true" ^^ line "ReadWritePaths=/var/lib/wgmesh" ^^ line ""
  ^^ line "[Install]" ^^ line "WantedBy=multi-user.target".

(** [found]: wgmesh in the path; [self]: the absolute path of the program. *)
Definition GenerateSystemdUnit (cfg : SystemdServiceConfig) (found self : option string) : result string :=
  if String.eqb (sc_BinaryPath cfg) "" then
    match found, self with
    | Some path, _ => Ok (systemd_unit (exec_start path cfg))
    | None, Some path => Ok (systemd_unit (exec_start path cfg))
    | None, None => Err "could not determine wgmesh binary path"
    end
  else Ok (systemd_unit (exec_start (sc_BinaryPath cfg) cfg)).

(** ** Installing *)

Inductive sys_action :=
  | SysMkdir (path : string) (mode : Z)
  | SysWrite (path data : string) (mode : Z)
  | SysRemove (path : string)
  | Systemctl (args : list string).

(** [strings.ReplaceAll] of one byte. *)
Fixpoint replace_char (c : ascii) (by_ : string) (s : string) : string :=
  match s with
  | EmptyString => EmptyString
  | String d s' => if Ascii.eqb d c then by_ ^^ replace_char c by_ s' else String d (replace_char c by_ s')
  end.

Definition dquote : ascii := ascii_of_byte 34.
Definition escape_secret (s : string) : string :=
  replace_char dquote (String backslash_char (String dquote EmptyString))
    (replace_char backslash_char (String backslash_char (String backslash_char EmptyString)) s).
Definition secret_env (secret : string) : string :=
  line ("WGMESH_SECRET=" ^^ String dquote (escape_secret secret ^^ String dquote EmptyString)).

Definition install_actions (unit_text secret : string) : list sys_action :=
  [ SysMkdir "/var/lib/wgmesh" 488;                (* 0750 *)
    SysMkdir "/etc/wgmesh" 448;                    (* 0700 *)
    SysWrite "/etc/wgmesh/secret.env" (secret_env secret) 384;   (* 0600 *)
    SysWrite "/etc/systemd/system/wgmesh.service" unit_text 420; (* 0644 *)
    Systemctl ["daemon-reload"%string];
    Systemctl ["enable"; "wgmesh.service"]%string;
    Systemctl ["start"; "wgmesh.service"]%string ].

Section host.
Context {S : Type} (act : S -> sys_action -> S * bool).

(** The actions in order, up to the first that fails. *)
Fixpoint run_actions (s : S) (l : list sys_action) : S * result unit :=
  match l with
  | [] => (s, Ok tt)
  | a :: l' => let '(s', ok) := act s a in if ok then run_actions s' l' else (s', Err "action failed")
  end.

Definition InstallSystemdService (s : S) (cfg : SystemdServiceConfig) (found self : option string) : S * result unit :=
  match GenerateSystemdUnit cfg found self with
  | Err e => (s, Err ("failed to generate unit file: " ^^ e))
  | Ok unit_text => run_actions s (install_actions unit_text (sc_Secret cfg))
  end.

(** [missing]: the file was not there, which is no error. *)
Definition UninstallSystemdService (missing : S -> string -> bool) (s : S) : S * result unit :=
  let s1 := (act s (Systemctl ["stop"; "wgmesh.service"]%string)).1 in
  let s2 := (act s1 (Systemctl ["disable"; "wgmesh.service"]%string)).1 in
  let '(s3, ok3) := act s2 (SysRemove "/etc/systemd/system/wgmesh.service") in
  if negb ok3 && negb (missing s2 "/etc/systemd/system/wgmesh.service") then (s3, Err "failed to remove unit file")
  else
    let '(s4, ok4) := act s3 (SysRemove "/etc/wgmesh/secret.env") in
    if negb ok4 && negb (missing s3 "/etc/wgmesh/secret.env") then (s4, Err "failed to remove secret file")
    else
      let s5 := (act s4 (SysRemove "/etc/wgmesh")).1 in
      ((act s5 (Systemctl ["daemon-reload"%string])).1, Ok tt).

End host.

(** [is-active]: any failure reads as inactive. *)
Definition ServiceStatus (output : option string) : string :=
  match output with Some out => trim_space out | None => "inactive" end.

(** ** What systemd and the shell make of the files *)

(** The values of a setting of the [Service] section (systemd.syntax(7)). *)
Fixpoint settings (inside : bool) (key : string) (ls : list string) : list string :=
  match ls with
  | [] => []
  | l :: ls' =>
      if has_prefix l "[" then settings (String.eqb l "[Service]") key ls'
      else match cut_char "=" l with
           | Some (k, v) => (if inside && String.eqb k key then [v] else []) ++ settings inside key ls'
           | None => settings inside key ls'
           end
  end.
Definition unit_settings (text key : string) : list string :=
  settings false key (split_char (ascii_of_byte 10) text).

(** One word of a command line: what single quotes wrap as a whole, or a run
    without quotes.  The closing quote is followed by a blank or the end of the
    line; backslashes and percent signs, which introduce escapes and specifiers,
    are not described here, nor are double quotes. *)
Definition sd_plain (c : ascii) : bool :=
  negb (contains_char c (String squote (String backslash_char (String dquote "%")))).
Fixpoint sd_word (quoted : bool) (s : string) : option (string * string) :=
  match s with
  | EmptyString => if quoted then None else Some (EmptyString, EmptyString)
  | String c s' =>
      if quoted && Ascii.eqb c squote then
        match s' with
        | EmptyString => Some (EmptyString, EmptyString)
        | String d _ => if Ascii.eqb d " " then Some (EmptyString, s') else None
        end
      else if negb quoted && Ascii.eqb c " " then Some (EmptyString, s)
      else if sd_plain c then '(w, rest) ← sd_word quoted s'; Some (String c w, rest)
      else None
  end.
Fixpoint sd_words (fuel : nat) (s : string) : option (list string) :=
  match fuel, s with
  | O, _ => None
  | S _, EmptyString => Some []
  | S fuel', String c s' =>
      if Ascii.eqb c " " then sd_words fuel' s'
      else '(w, rest) ← (if Ascii.eqb c squote then sd_word true s' else sd_word false s);
           cons w <$> sd_words fuel' rest
  end.

(** [${NAME}] is replaced by the exact value, blanks included, within its word
    (systemd.service(5)); [name] collects the name. *)
Fixpoint sd_expand (env : string -> string) (name : option string) (s : string) : option string :=
  match name, s with
  | None, EmptyString => Some EmptyString
  | Some _, EmptyString => None
  | None, String c s' =>
      if Ascii.eqb c "$" then
        match s' with
        | String d s'' => if Ascii.eqb d "{" then sd_expand env (Some EmptyString) s'' else None
        | EmptyString => None
        end
      else String c <$> sd_expand env None s'
  | Some n, String c s' =>
      if Ascii.eqb c "}" then String.append (env n) <$> sd_expand env None s'
      else sd_expand env (Some (n ^^ String c EmptyString)) s'
  end.

(** The value in double quotes of an environment file (systemd.exec(5)): a
    backslash quotes the characters that are special to the shell there, and is
    kept before any other. *)
Fixpoint env_quoted (s : string) : option (string * string) :=
  match s with
  | EmptyString => None
  | String c s' =>
      if Ascii.eqb c dquote then Some (EmptyString, s')
      else if Ascii.eqb c backslash_char then
        match s' with
        | EmptyString => None
        | String d s'' =>
            '(v, rest) ← env_quoted s'';
            Some (if contains_char d (String dquote (String backslash_char "`$")) then (String d v, rest)
                  else (String c (String d v), rest))
        end
      else '(v, rest) ← env_quoted s'; Some (String c v, rest)
  end.
(** A file of one such assignment. *)
Definition env_file (text : string) : option (string * string) :=
  '(name, rest) ← cut_char "=" text;
  match rest with
  | String q rest' =>
      if Ascii.eqb q dquote then
        '(v, rest'') ← env_quoted rest';
        if String.eqb rest'' nl then Some (name, v) else None
      else None
  | EmptyString => None
  end.

(** The words of a simple command, as the shell of the unit reads them. *)
Fixpoint sh_words (fuel : nat) (s : string) : option (list string) :=
  match fuel with
  | O => None
  | S fuel =>
      match trim_left s with
      | EmptyString => Some []
      | t => '(w, rest) ← sh_word false t; cons w <$> sh_words fuel rest
      end
  end.

(** The program that [exec] with an absolute path leaves running. *)
Definition sh_exec (command : string) : option (list string) :=
  words ← sh_words (S (String.length command)) command;
  match words with
  | exec :: program :: args =>
      if String.eqb exec "exec" && has_prefix program "/" then Some (program :: args) else None
  | _ => None
  end.

(** The words the service runs as, from the files on the disk. *)
Definition started_argv (files : gmap string string) : option (list string) :=
  text ← files !! "/etc/systemd/system/wgmesh.service"%string;
  match unit_settings text "EnvironmentFile", unit_settings text "ExecStart" with
  | [env_path], [command_line] =>
      env_text ← files !! env_path;
      '(name, value) ← env_file env_text;
      words ← sd_words (S (String.length command_line)) command_line;
      args ← mapM (sd_expand (fun n => if String.eqb n name then value else EmptyString) None) words;
      match args with
      | [shell; flag; command] =>
          if String.eqb shell "/bin/sh" && String.eqb flag "-c" then sh_exec command else None
      | _ => None
      end
  | _, _ => None
  end.

(** A host on which every action succeeds, as the files it holds. *)
Definition disk_act (files : gmap string string) (a : sys_action) : gmap string string * bool :=
  match a with
  | SysWrite path data _ => (<[path := data]> files, true)
  | SysRemove path => (delete path files, true)
  | SysMkdir _ _ | Systemctl _ => (files, true)
  end.

(** ** Reading the files back *)

Lemma escape_secret_cons c s : escape_secret (String c s)
  = (if Ascii.eqb c backslash_char then String backslash_char (String backslash_char EmptyString)
     else if Ascii.eqb c dquote then String backslash_char (String dquote EmptyString)
     else String c EmptyString) ^^ escape_secret s.
Proof.
  unfold escape_secret. cbn [replace_char]. destruct (Ascii.eqb_spec c backslash_char) as [->|Hb]; [done|].
  cbn [replace_char]. by destruct (Ascii.eqb c dquote).
Qed.

Lemma env_quoted_escape s rest : env_quoted (escape_secret s ^^ String dquote rest) = Some (s, rest).
Proof.
  induction s as [|c s IH]; [done|]. rewrite escape_secret_cons.
  destruct (Ascii.eqb_spec c backslash_char) as [->|Hb].
  { str_simpl. cbn [env_quoted]. by rewrite IH. }
  destruct (Ascii.eqb_spec c dquote) as [->|Hq]; str_simpl; cbn [env_quoted].
  { by rewrite IH. }
  apply Ascii.eqb_neq in Hb, Hq. by rewrite Hb, Hq, IH.
Qed.

(** The environment file gives back any secret. *)
Lemma env_file_secret secret : env_file (secret_env secret) = Some ("WGMESH_SECRET"%string, secret).
Proof.
  unfold secret_env, line, env_file.
  change (cut_char "=" _) with (Some ("WGMESH_SECRET"%string, String dquote (escape_secret secret ^^ String dquote EmptyString) ^^ nl)).
  cbn [mbind option_bind]. rewrite app_cons_str, <- app_assoc_str, app_cons_str, app_nil_l_str.
  cbn [Ascii.eqb]. by rewrite env_quoted_escape.
Qed.

Lemma split_line s rest : contains_char (ascii_of_byte 10) s = false ->
  split_char (ascii_of_byte 10) (line s ^^ rest) = s :: split_char (ascii_of_byte 10) rest.
Proof. intros H. unfold line, nl. rewrite <- app_assoc_str, app_cons_str, app_nil_l_str. by apply split_char_app. Qed.

(** The two settings of the unit that say what is started. *)
Lemma unit_read exec : contains_char (ascii_of_byte 10) exec = false ->
  unit_settings (systemd_unit exec) "EnvironmentFile" = ["/etc/wgmesh/secret.env"%string]
  /\ unit_settings (systemd_unit exec) "ExecStart" = ["/bin/sh -c 'exec " ^^ exec ^^ "'"].
Proof.
  intros He. unfold unit_settings, systemd_unit.
  do 8 (rewrite split_line by reflexivity). rewrite split_line.
  - do 10 (rewrite split_line by reflexivity). split; reflexivity.
  - rewrite !contains_char_app, He. reflexivity.
Qed.

Lemma sd_word_quoted s : string_forall sd_plain s = true -> sd_word true (s ^^ "'") = Some (s, EmptyString).
Proof.
  induction s as [|c s IH]; [done|]. cbn [string_forall]. intros H. bool_steps. rewrite app_cons_str. cbn [sd_word].
  assert (Ascii.eqb c squote = false) as ->.
  { destruct (Ascii.eqb_spec c squote) as [->|]; [discriminate H|done]. }
  cbn [andb negb]. by rewrite H, IH.
Qed.

(** The command line is three words, when the command has no character that
    systemd reads specially. *)
Lemma sd_words_line exec : string_forall sd_plain exec = true ->
  sd_words (S (String.length ("/bin/sh -c 'exec " ^^ exec ^^ "'"))) ("/bin/sh -c 'exec " ^^ exec ^^ "'")
  = Some ["/bin/sh"%string; "-c"%string; "exec " ^^ exec].
Proof.
  intros H. pose proof (sd_word_quoted ("exec " ^^ exec)) as E. rewrite string_forall_app, H in E.
  specialize (E eq_refl). str_simpl_in E. str_simpl. cbn. by rewrite E.
Qed.

Lemma sd_expand_plain env s rest : contains_char "$" s = false ->
  sd_expand env None (s ^^ rest) = String.append s <$> sd_expand env None rest.
Proof.
  induction s as [|c s IH]; intros H.
  - rewrite app_nil_l_str. by destruct (sd_expand env None rest).
  - cbn [contains_char] in H. bool_steps. rewrite app_cons_str. cbn [sd_expand]. rewrite H, IH by done.
    by destruct (sd_expand env None rest).
Qed.
Lemma sd_expand_secret env rest :
  sd_expand env None (secret_variable ^^ rest) = String.append (env "WGMESH_SECRET"%string) <$> sd_expand env None rest.
Proof. reflexivity. Qed.
