(* ===== verification/Daemon.v ===== *)
(** * The daemon's reconciliation and health checks (pkg/daemon/daemon.go,
      pkg/daemon/routes.go)

    The daemon turns the active peers into the desired WireGuard peers, keeps
    relay routes with a hysteresis, applies the difference with [wg], and drops
    peers whose handshakes and probes fail.  The clock reading of an operation,
    the output of [wg show], the success of each command and the answers to
    probes are arguments; everything the operations change is in [Daemon]. *)

From S2P Require Import Prelude GoStrings GoNet GoCrypto PeerStore Routes Derive Dandelion.
From S2P Require Import IfName WgConfig NodeConfig.
Local Open Scope wgmesh_scope.

Definition RelayCandidateMaxAge : Duration := (90 * second)%Z.
Definition HandshakeStaleAfter : Duration := (150 * second)%Z.
Definition MeshProbeFailLimit : nat := 8.
Definition TemporaryOfflineTTL : Duration := (30 * second)%Z.
Definition RelayHysteresisThreshold : nat := 3.
Definition ProbeGracePeriod : Duration := (45 * second)%Z.

Record Daemon := {
  config : Config;
  localNode : LocalNode;
  peerStore : PeerStore;
  lastAppliedPeerConfigs : gmap string string;
  relayRoutes : gmap string string;
  directStableCycles : gmap string nat;
  localSubnets : list IPNet;
  peerHealthFailures : gmap string nat;
  lastPeerTransferTotal : gmap string Z;
  probeSessions : gset string;
  probeFailures : gmap string nat;
  temporaryOffline : gmap string Time;
}.

Definition NewDaemon (c : Config) (node : LocalNode) (subnets : list IPNet) : Daemon :=
  {| config := c; localNode := node; peerStore := NewPeerStore; lastAppliedPeerConfigs := ∅;
     relayRoutes := ∅; directStableCycles := ∅; localSubnets := subnets; peerHealthFailures := ∅;
     lastPeerTransferTotal := ∅; probeSessions := ∅; probeFailures := ∅; temporaryOffline := ∅ |}.

(** Field updates. *)
Definition set_store (d : Daemon) (s : PeerStore) : Daemon :=
  {| config := config d; localNode := localNode d; peerStore := s;
     lastAppliedPeerConfigs := lastAppliedPeerConfigs d; relayRoutes := relayRoutes d;
     directStableCycles := directStableCycles d; localSubnets := localSubnets d;
     peerHealthFailures := peerHealthFailures d; lastPeerTransferTotal := lastPeerTransferTotal d;
     probeSessions := probeSessions d; probeFailures := probeFailures d;
     temporaryOffline := temporaryOffline d |}.
Definition set_applied (d : Daemon) (m : gmap string string) : Daemon :=
  {| config := config d; localNode := localNode d; peerStore := peerStore d;
     lastAppliedPeerConfigs := m; relayRoutes := relayRoutes d;
     directStableCycles := directStableCycles d; localSubnets := localSubnets d;
     peerHealthFailures := peerHealthFailures d; lastPeerTransferTotal := lastPeerTransferTotal d;
     probeSessions := probeSessions d; probeFailures := probeFailures d;
     temporaryOffline := temporaryOffline d |}.
Definition set_relays (d : Daemon) (r : gmap string string) (s : gmap string nat) : Daemon :=
  {| config := config d; localNode := localNode d; peerStore := peerStore d;
     lastAppliedPeerConfigs := lastAppliedPeerConfigs d; relayRoutes := r;
     directStableCycles := s; localSubnets := localSubnets d;
     peerHealthFailures := peerHealthFailures d; lastPeerTransferTotal := lastPeerTransferTotal d;
     probeSessions := probeSessions d; probeFailures := probeFailures d;
     temporaryOffline := temporaryOffline d |}.
Definition set_health (d : Daemon) (f : gmap string nat) (t : gmap string Z) : Daemon :=
  {| config := config d; localNode := localNode d; peerStore := peerStore d;
     lastAppliedPeerConfigs := lastAppliedPeerConfigs d; relayRoutes := relayRoutes d;
     directStableCycles := directStableCycles d; localSubnets := localSubnets d;
     peerHealthFailures := f; lastPeerTransferTotal := t;
     probeSessions := probeSessions d; probeFailures := probeFailures d;
     temporaryOffline := temporaryOffline d |}.
Definition set_probes (d : Daemon) (s : gset string) (f : gmap string nat) : Daemon :=
  {| config := config d; localNode := localNode d; peerStore := peerStore d;
     lastAppliedPeerConfigs := lastAppliedPeerConfigs d; relayRoutes := relayRoutes d;
     directStableCycles := directStableCycles d; localSubnets := localSubnets d;
     peerHealthFailures := peerHealthFailures d; lastPeerTransferTotal := lastPeerTransferTotal d;
     probeSessions := s; probeFailures := f; temporaryOffline := temporaryOffline d |}.
Definition set_offline (d : Daemon) (m : gmap string Time) : Daemon :=
  {| config := config d; localNode := localNode d; peerStore := peerStore d;
     lastAppliedPeerConfigs := lastAppliedPeerConfigs d; relayRoutes := relayRoutes d;
     directStableCycles := directStableCycles d; localSubnets := localSubnets d;
     peerHealthFailures := peerHealthFailures d; lastPeerTransferTotal := lastPeerTransferTotal d;
     probeSessions := probeSessions d; probeFailures := probeFailures d; temporaryOffline := m |}.
Definition set_local (d : Daemon) (n : LocalNode) : Daemon :=
  {| config := config d; localNode := n; peerStore := peerStore d;
     lastAppliedPeerConfigs := lastAppliedPeerConfigs d; relayRoutes := relayRoutes d;
     directStableCycles := directStableCycles d; localSubnets := localSubnets d;
     peerHealthFailures := peerHealthFailures d; lastPeerTransferTotal := lastPeerTransferTotal d;
     probeSessions := probeSessions d; probeFailures := probeFailures d;
     temporaryOffline := temporaryOffline d |}.

Definition own_key (d : Daemon) : string := ln_WGPubKey (localNode d).

(** ** Peers that are temporarily offline *)

Definition markTemporarilyOffline (d : Daemon) (pubKey : string) (now : Time) : Daemon :=
  if String.eqb pubKey "" then d
  else set_offline d (<[pubKey := time_add now TemporaryOfflineTTL]> (temporaryOffline d)).

Definition clearTemporarilyOffline (d : Daemon) (pubKey : string) : Daemon :=
  if String.eqb pubKey "" then d else set_offline d (delete pubKey (temporaryOffline d)).

(** The check drops an entry that has expired. *)
Definition isTemporarilyOffline (off : gmap string Time) (pubKey : string) (now : Time)
  : bool * gmap string Time :=
  if String.eqb pubKey "" then (false, off)
  else match off !! pubKey with
       | None => (false, off)
       | Some until => if time_after now until then (false, delete pubKey off) else (true, off)
       end.

Definition isRelayRoutedPeer (d : Daemon) (pubKey : string) : bool :=
  if String.eqb pubKey "" then false
  else match relayRoutes d !! pubKey with Some _ => true | None => false end.

(** ** Choosing relays *)

Definition hasDiscoveryMethod (methods : list string) (target : string) : bool :=
  existsb (fun m => String.eqb m target) methods.

Definition isIPv6Endpoint (endpoint : string) : bool :=
  match split_host_port endpoint with
  | None => false
  | Some (host, _) =>
      match parse_ip host with
      | None => false
      | Some ip => match to4 ip with None => true | Some _ => false end
      end
  end.

Definition endpointOnAnyLocalSubnet (endpoint : string) (subnets : list IPNet) : bool :=
  if String.eqb endpoint "" || Nat.eqb (length subnets) 0 then false
  else match split_host_port endpoint with
       | None => false
       | Some (host, _) =>
           match parse_ip host with
           | None => false
           | Some ip => existsb (fun n => net_contains n ip) subnets
           end
       end.

(** [handshakes] is [None] when [wg show] failed (a nil map). *)
Definition shouldRelayPeerWithSubnets (d : Daemon) (peer : PeerInfo) (candidates : list PeerInfo)
    (handshakes : option (gmap string Z)) (subnets : list IPNet) (now : Time) : bool :=
  if cfg_Introducer (config d) then false
  else if Introducer peer then false
  else if hasDiscoveryMethod (DiscoveredVia peer) LANMethod then false
  else if endpointOnAnyLocalSubnet (Endpoint peer) subnets then false
  else if ForceRelay (config d) then negb (Nat.eqb (length candidates) 0)
  else if Nat.eqb (length candidates) 0 then false
  else
    let no_handshake :=
      if negb (DisableIPv6 (config d)) && isIPv6Endpoint (Endpoint peer) then false
      else if String.eqb (ln_NATType (localNode d)) "symmetric" && String.eqb (NATType peer) "symmetric"
      then true
      else match handshakes with
           | None => false
           | Some hs =>
               match hs !! WGPubKey peer with
               | Some ts => if Z.eqb ts 0 then hasDiscoveryMethod (DiscoveredVia peer) "dht-transitive" else false
               | None => hasDiscoveryMethod (DiscoveredVia peer) "dht-transitive"
               end
           end in
    match handshakes with
    | None => no_handshake
    | Some hs =>
        match hs !! WGPubKey peer with
        | Some ts =>
            if (0 <? ts)%Z then negb (time_sub now (time_unix ts) <? HandshakeStaleAfter)%Z
            else no_handshake
        | None => no_handshake
        end
    end.

Definition shouldRelayPeer (d : Daemon) (peer : PeerInfo) (candidates : list PeerInfo)
    (handshakes : option (gmap string Z)) (now : Time) : bool :=
  shouldRelayPeerWithSubnets d peer candidates handshakes (localSubnets d) now.

Definition peer_key_le (p q : PeerInfo) : Prop := str_le (WGPubKey p) (WGPubKey q).
#[export] Instance peer_key_le_dec : RelDecision peer_key_le.
Proof. intros p q. unfold peer_key_le. apply _. Defined.

Definition usable_relay (p : PeerInfo) : Prop := WGPubKey p <> ""%string /\ Endpoint p <> ""%string.

Definition selectRelayForPeer (d : Daemon) (peer : PeerInfo) (candidates : list PeerInfo)
  : option PeerInfo :=
  let sorted := merge_sort peer_key_le (filter usable_relay candidates) in
  let h := fnv64a (bytes_of_string (own_key d) ++ [0%Z] ++ bytes_of_string (WGPubKey peer)) in
  match sorted with
  | [] => None
  | _ => sorted !! Z.to_nat (h mod Z.of_nat (length sorted))
  end.

(** ** The desired WireGuard peers *)

Record desiredPeerConfig := { dp_peer : PeerInfo; dp_allowed : gset string }.

Definition addAllowedIP (peer : PeerInfo) (desired : gmap string desiredPeerConfig) (cidr : string)
  : gmap string desiredPeerConfig :=
  if String.eqb (WGPubKey peer) "" || String.eqb cidr "" then desired
  else match desired !! WGPubKey peer with
       | Some e => <[WGPubKey peer := {| dp_peer := dp_peer e; dp_allowed := {[cidr]} ∪ dp_allowed e |}]> desired
       | None => <[WGPubKey peer := {| dp_peer := peer; dp_allowed := {[cidr]} |}]> desired
       end.

(** The prefixes that lead to a peer: its mesh addresses and its networks. *)
Definition peer_cidrs (p : PeerInfo) : list string :=
  [MeshIP p ^^ "/32"]
  ++ (if String.eqb (MeshIPv6 p) "" then [] else [MeshIPv6 p ^^ "/128"])
  ++ filter (fun n => n <> ""%string) (trim_space <$> RoutableNetworks p).

(** Peers the first loop collects as relay candidates; offline entries that
    have expired are dropped on the way. *)
Fixpoint relay_candidates (d : Daemon) (now : Time) (off : gmap string Time) (peers : list PeerInfo)
  : list PeerInfo * gmap string Time :=
  match peers with
  | [] => ([], off)
  | p :: ps =>
      if String.eqb (WGPubKey p) (own_key d) || String.eqb (WGPubKey p) "" then relay_candidates d now off ps
      else
        let '(offline, off) := isTemporarilyOffline off (WGPubKey p) now in
        let '(cs, off) := relay_candidates d now off ps in
        if negb offline && Introducer p && negb (String.eqb (Endpoint p) "")
           && (time_sub now (LastSeen p) <=? RelayCandidateMaxAge)%Z
        then (p :: cs, off) else (cs, off)
  end.

Record build_state := {
  bs_desired : gmap string desiredPeerConfig;
  bs_relays : gmap string string;
  bs_stable : gmap string nat;
  bs_offline : gmap string Time;
}.

(** The relay decision with the hysteresis: the decision, and the number of
    stable cycles to remember. *)
Definition hysteresis (wasRelayed shouldRelay : bool) (stable : nat) : bool * option nat :=
  if wasRelayed && negb shouldRelay then
    let n := S stable in
    if Nat.ltb n RelayHysteresisThreshold then (true, Some n) else (false, None)
  else (shouldRelay, None).

(** Body of the second loop. *)
Definition build_step (d : Daemon) (candidates : list PeerInfo) (handshakes : option (gmap string Z))
    (now : Time) (s : build_state) (p : PeerInfo) : build_state :=
  if String.eqb (WGPubKey p) (own_key d) || String.eqb (WGPubKey p) "" || String.eqb (MeshIP p) "" then s
  else
    let '(offline, off) := isTemporarilyOffline (bs_offline s) (WGPubKey p) now in
    if offline then {| bs_desired := bs_desired s; bs_relays := bs_relays s; bs_stable := bs_stable s; bs_offline := off |}
    else
      let shouldRelay := shouldRelayPeerWithSubnets d p candidates handshakes (localSubnets d) now in
      let wasRelayed := match relayRoutes d !! WGPubKey p with Some _ => true | None => false end in
      let '(relay, n) := hysteresis wasRelayed shouldRelay (default 0 (directStableCycles d !! WGPubKey p)) in
      let stable := match n with Some n => <[WGPubKey p := n]> (bs_stable s) | None => bs_stable s end in
      match (if relay then selectRelayForPeer d p candidates else None) with
      | Some r =>
          {| bs_desired := foldl (addAllowedIP r) (bs_desired s) (peer_cidrs p);
             bs_relays := <[WGPubKey p := WGPubKey r]> (bs_relays s);
             bs_stable := stable; bs_offline := off |}
      | None =>
          {| bs_desired := foldl (addAllowedIP p) (bs_desired s) (peer_cidrs p);
             bs_relays := bs_relays s; bs_stable := stable; bs_offline := off |}
      end.

Definition buildDesiredPeerConfigsWithHandshakes (d : Daemon) (peers : list PeerInfo)
    (handshakes : option (gmap string Z)) (now : Time) : build_state :=
  let '(candidates, off) := relay_candidates d now (temporaryOffline d) peers in
  foldl (build_step d candidates handshakes now)
    {| bs_desired := ∅; bs_relays := ∅; bs_stable := ∅; bs_offline := off |} peers.

Definition buildDesiredPeerConfigs (d : Daemon) (peers : list PeerInfo)
    (handshakes : result (gmap string Z)) (now : Time) : build_state :=
  buildDesiredPeerConfigsWithHandshakes d peers
    (match handshakes with Ok hs => Some hs | Err _ => None end) now.

(** ** Applying the desired peers *)

(** A [wg set] of the daemon, by the peer it is about. *)
Inductive wg_op :=
| WgSet (pubKey endpoint allowedCSV : string)
| WgRemove (pubKey : string).
#[export] Instance wg_op_eq_dec : EqDecision wg_op.
Proof. solve_decision. Defined.

Definition op_key (o : wg_op) : string :=
  match o with WgSet k _ _ => k | WgRemove k => k end.

(** The command line of an operation. *)
Definition op_cmd (c : Config) (o : wg_op) : wg_cmd :=
  match o with
  | WgSet k ep ips => SetPeer (InterfaceName c) k (PSK (Keys c)) ep ips
  | WgRemove k => RemovePeer (InterfaceName c) k
  end.

(** The operations issued, each with its success. *)
Notation wg_log := (list (wg_op * bool)).

Definition mapKeysSorted (m : gset string) : list string := sort_strings (elements m).

Definition allowed_csv (allowed : gset string) : string := join "," (mapKeysSorted allowed).

(** First loop: peers of the interface that are not desired any more. *)
Fixpoint remove_obsolete (ok : wg_op -> bool) (desired : gmap string desiredPeerConfig)
    (existing : list string) (applied : gmap string string) : gmap string string * wg_log :=
  match existing with
  | [] => (applied, [])
  | k :: ks =>
      match desired !! k with
      | Some _ => remove_obsolete ok desired ks applied
      | None =>
          let '(applied', log) := remove_obsolete ok desired ks (delete k applied) in
          (applied', (WgRemove k, ok (WgRemove k)) :: log)
      end
  end.

(** A desired peer that can be configured, with its signature. *)
Definition applicable (c : Config) (cfg : desiredPeerConfig) : bool :=
  negb (String.eqb (Endpoint (dp_peer cfg)) "")
  && negb (DisableIPv6 c && isIPv6Endpoint (Endpoint (dp_peer cfg)))
  && negb (Nat.eqb (length (mapKeysSorted (dp_allowed cfg))) 0).

Definition signature (cfg : desiredPeerConfig) : string :=
  Endpoint (dp_peer cfg) ^^ "|" ^^ allowed_csv (dp_allowed cfg).

Definition set_op (k : string) (cfg : desiredPeerConfig) : wg_op :=
  WgSet k (Endpoint (dp_peer cfg)) (allowed_csv (dp_allowed cfg)).

(** Second loop, over the desired peers in the order Go's map iteration gives. *)
Fixpoint apply_loop (ok : wg_op -> bool) (c : Config) (order : list (string * desiredPeerConfig))
    (applied : gmap string string) : gmap string string * wg_log * result unit :=
  match order with
  | [] => (applied, [], Ok tt)
  | (k, cfg) :: rest =>
      if negb (applicable c cfg) then apply_loop ok c rest applied
      else if bool_decide (applied !! k = Some (signature cfg)) then apply_loop ok c rest applied
      else
        let o := set_op k cfg in
        if ok o then
          let '(applied', log, r) := apply_loop ok c rest (<[k := signature cfg]> applied) in
          (applied', (o, true) :: log, r)
        else (delete k (<[k := signature cfg]> applied), [(o, false)], Err "failed to configure peer")
  end.

(** [existing] is the output of [wg show peers], [order] the iteration order
    over [desired]. *)
Definition applyDesiredPeerConfigs (ok : wg_op -> bool) (d : Daemon)
    (desired : gmap string desiredPeerConfig) (existing : result (list string))
    (order : list (string * desiredPeerConfig)) : Daemon * wg_log * result unit :=
  let '(applied, removes) :=
    match existing with
    | Ok ks => remove_obsolete ok desired ks (lastAppliedPeerConfigs d)
    | Err _ => (lastAppliedPeerConfigs d, [])
    end in
  let '(applied, sets, r) := apply_loop ok (config d) order applied in
  (set_applied d applied, removes ++ sets, r).

(** ** The kernel routes of the peers' networks (daemon/routes.go) *)

Definition currentRelayRoutesSnapshot (d : Daemon) : gmap string string := relayRoutes d.
Definition directStableCyclesSnapshot (d : Daemon) : gmap string nat := directStableCycles d.

Definition mesh_ips (peers : list PeerInfo) : gmap string string :=
  foldl (fun m p => if String.eqb (WGPubKey p) "" || String.eqb (MeshIP p) "" then m
                    else <[WGPubKey p := MeshIP p]> m) ∅ peers.

Definition peer_gateway (relays ips : gmap string string) (p : PeerInfo) : string :=
  match relays !! WGPubKey p with
  | Some relayPubKey => str_or (default ""%string (ips !! relayPubKey)) (MeshIP p)
  | None => MeshIP p
  end.

Fixpoint desired_routes (d : Daemon) (now : Time) (ips : gmap string string) (off : gmap string Time)
    (peers : list PeerInfo) : list Entry * gmap string Time :=
  match peers with
  | [] => ([], off)
  | p :: ps =>
      if String.eqb (WGPubKey p) (own_key d) || String.eqb (MeshIP p) "" then desired_routes d now ips off ps
      else
        let '(offline, off) := isTemporarilyOffline off (WGPubKey p) now in
        let '(rest, off) := desired_routes d now ips off ps in
        if offline then (rest, off)
        else
          let gateway := peer_gateway (currentRelayRoutesSnapshot d) ips p in
          (((fun n => {| Network := n; Gateway := gateway |})
              <$> filter (fun n => n <> ""%string) (trim_space <$> RoutableNetworks p))
           ++ rest, off)
  end.

(** [output] is what [ip route show] printed, [exec] the success of the other
    commands; nothing is done but on Linux. *)
Definition syncPeerRoutes (os : goos) (exec : cmd -> bool) (d : Daemon) (peers : list PeerInfo)
    (output : option string) (now : Time) : Daemon * list cmd * result unit :=
  match os with
  | Darwin => (d, [], Ok tt)
  | Linux =>
      let '(desired, off) := desired_routes d now (mesh_ips peers) (temporaryOffline d) peers in
      let d := set_offline d off in
      match getCurrentRoutes output with
      | Err e => (d, [], Err e)
      | Ok current =>
          let '(toAdd, toRemove) := CalculateDiff current desired in
          let '(cs, r) := applyRouteDiff exec (InterfaceName (config d)) toAdd toRemove in
          (d, cs, r)
      end
  end.

(** What the environment answers during one reconciliation. *)
Record world := {
  w_now : Time;
  w_handshakes : result (gmap string Z);
  w_existing : result (list string);
  w_order : list (string * desiredPeerConfig) -> list (string * desiredPeerConfig);
  w_wg : wg_op -> bool;
  w_routes : option string;
  w_exec : cmd -> bool;
}.

(** [CheckAndResolveCollisions] on the daemon: the local address may change,
    with the addresses set on the interface. *)
Definition check_collisions (d : Daemon) : Daemon * list string :=
  let c := config d in
  let '(ip, addrs) :=
    CheckAndResolveCollisions (CustomSubnet c) (MeshSubnet (Keys c)) (Secret c) (own_key d)
      (PrefixLen c) (peerStore d) (ln_MeshIP (localNode d)) in
  (set_local d (with_mesh_ip (localNode d) ip), addrs).

Definition reconcile (os : goos) (w : world) (d : Daemon) : Daemon * wg_log * list cmd * list string :=
  let peers := GetActive (peerStore d) (w_now w) in
  let s := buildDesiredPeerConfigs d peers (w_handshakes w) (w_now w) in
  let d := set_relays (set_offline d (bs_offline s)) (bs_relays s) (bs_stable s) in
  let '(d, log, _) :=
    applyDesiredPeerConfigs (w_wg w) d (bs_desired s) (w_existing w)
      (w_order w (map_to_list (bs_desired s))) in
  let '(d, cmds, _) := syncPeerRoutes os (w_exec w) d peers (w_routes w) (w_now w) in
  let '(d, addrs) := check_collisions d in
  (d, log, cmds, addrs).

(** ** Specification vocabulary *)

(** Marked offline and not expired. *)
Definition is_offline (off : gmap string Time) (now : Time) (k : string) : bool :=
  negb (String.eqb k "") && match off !! k with Some u => negb (time_after now u) | None => false end.

Definition candidate (d : Daemon) (now : Time) (p : PeerInfo) : Prop :=
  WGPubKey p <> own_key d /\ WGPubKey p <> ""%string
  /\ is_offline (temporaryOffline d) now (WGPubKey p) = false
  /\ Introducer p = true /\ Endpoint p <> ""%string
  /\ (time_sub now (LastSeen p) <= RelayCandidateMaxAge)%Z.
#[export] Instance candidate_dec d now p : Decision (candidate d now p).
Proof. unfold candidate. apply _. Defined.

(** A peer the daemon configures. *)
Definition eligible (d : Daemon) (now : Time) (p : PeerInfo) : Prop :=
  WGPubKey p <> own_key d /\ WGPubKey p <> ""%string /\ MeshIP p <> ""%string
  /\ is_offline (temporaryOffline d) now (WGPubKey p) = false.
#[export] Instance eligible_dec d now p : Decision (eligible d now p).
Proof. unfold eligible. apply _. Defined.

(** The relay decision of a cycle for one peer, and its relay. *)
Definition relay_verdict (d : Daemon) (cands : list PeerInfo) (hs : option (gmap string Z))
    (now : Time) (p : PeerInfo) : bool * option nat :=
  hysteresis (match relayRoutes d !! WGPubKey p with Some _ => true | None => false end)
    (shouldRelayPeerWithSubnets d p cands hs (localSubnets d) now)
    (default 0 (directStableCycles d !! WGPubKey p)).

Definition relay_for (d : Daemon) (cands : list PeerInfo) (hs : option (gmap string Z))
    (now : Time) (p : PeerInfo) : option PeerInfo :=
  if (relay_verdict d cands hs now p).1 then selectRelayForPeer d p cands else None.

Definition allowed_of (m : gmap string desiredPeerConfig) (k : string) : gset string :=
  match m !! k with Some e => dp_allowed e | None => ∅ end.

(** ** Lemmas *)

Lemma isTemporarilyOffline_spec off k now :
  (isTemporarilyOffline off k now).1 = is_offline off now k
  /\ forall k', is_offline (isTemporarilyOffline off k now).2 now k' = is_offline off now k'.
Proof.
  unfold isTemporarilyOffline, is_offline. destruct (String.eqb k "") eqn:E; [done|].
  destruct (off !! k) as [u|] eqn:Hk; [|done].
  destruct (time_after now u) eqn:Ha; [|done]. split; [done|]. intros k'. cbn [snd].
  rewrite lookup_delete. case_decide; [subst; rewrite Hk, Ha; by destruct (negb _)|done].
Qed.

Lemma relay_candidates_spec d now ps off :
  (forall k, is_offline off now k = is_offline (temporaryOffline d) now k) ->
  (relay_candidates d now off ps).1 = filter (candidate d now) ps
  /\ forall k, is_offline (relay_candidates d now off ps).2 now k = is_offline (temporaryOffline d) now k.
Proof.
  revert off. induction ps as [|p ps IH]; intros off Hoff; [done|]. cbn [relay_candidates].
  destruct (String.eqb (WGPubKey p) (own_key d) || String.eqb (WGPubKey p) "") eqn:Ek.
  - rewrite filter_cons_False; [by apply IH|]. intros (H1 & H2 & _).
    apply orb_true_iff in Ek as [Ek|Ek]; bool_steps; congruence.
  - bool_steps. destruct (isTemporarilyOffline_spec off (WGPubKey p) now) as [Hb Hoff'].
    destruct (isTemporarilyOffline off (WGPubKey p) now) as [b off']. cbn [fst snd] in *.
    destruct (IH off') as [IH1 IH2]; [intros k'; by rewrite Hoff'|].
    destruct (relay_candidates d now off' ps) as [cs off'']. cbn [fst snd] in *. subst b.
    rewrite Hoff. destruct (_ && _ && _ && _)%bool eqn:Ec; cbn [fst snd].
    + bool_steps. rewrite filter_cons_True; [by rewrite IH1|done].
    + rewrite filter_cons_False; [done|]. intros (_ & _ & Ho & Hi & He & Hl).
      rewrite Ho, Hi in Ec. apply String.eqb_neq in He. rewrite He in Ec.
      apply Z.leb_le in Hl. by rewrite Hl in Ec.
Qed.

Lemma addAllowedIP_allowed p m c k :
  WGPubKey p <> ""%string -> c <> ""%string ->
  allowed_of (addAllowedIP p m c) k
  = if decide (k = WGPubKey p) then {[c]} ∪ allowed_of m k else allowed_of m k.
Proof.
  intros Hp Hc. apply String.eqb_neq in Hp, Hc. unfold addAllowedIP, allowed_of. rewrite Hp, Hc. cbn [orb].
  destruct (m !! WGPubKey p) as [e|] eqn:E; rewrite lookup_insert; repeat case_decide; subst; try done;
    rewrite E; cbn [dp_allowed]; set_solver.
Qed.

Lemma fold_allowed p cs m k c :
  WGPubKey p <> ""%string -> Forall (fun c => c <> ""%string) cs ->
  c ∈ allowed_of (foldl (addAllowedIP p) m cs) k <-> c ∈ allowed_of m k \/ k = WGPubKey p /\ c ∈ cs.
Proof.
  intros Hp. revert m. induction cs as [|c' cs IH]; intros m Hcs; cbn [foldl].
  - split; [by left|]. by intros [H | [_ H%not_elem_of_nil]].
  - apply Forall_cons in Hcs as [Hc' Hcs]. rewrite IH by done. rewrite addAllowedIP_allowed by done.
    rewrite elem_of_cons. case_decide; set_solver.
Qed.

Lemma peer_cidrs_nonempty p : Forall (fun c => c <> ""%string) (peer_cidrs p).
Proof.
  assert (forall a b, b <> ""%string -> a ^^ b <> ""%string) as Happ by (by intros [|x a]).
  unfold peer_cidrs. apply Forall_app. split; [by repeat constructor; apply Happ|]. apply Forall_app. split.
  - destruct (String.eqb (MeshIPv6 p) ""); [done|]. by repeat constructor; apply Happ.
  - apply Forall_forall. intros c Hc. by apply list_elem_of_filter in Hc as [? _].
Qed.

Section Build.
Context (d : Daemon) (cands : list PeerInfo) (hs : option (gmap string Z)) (now : Time).

Definition off_same (s : build_state) : Prop :=
  forall k, is_offline (bs_offline s) now k = is_offline (temporaryOffline d) now k.

(** What the loop body does, without the bookkeeping of offline entries. *)
Definition step_effect (s s' : build_state) (p : PeerInfo) : Prop :=
  let via := default p (relay_for d cands hs now p) in
  bs_desired s' = foldl (addAllowedIP via) (bs_desired s) (peer_cidrs p)
  /\ bs_relays s' = match relay_for d cands hs now p with
                    | Some r => <[WGPubKey p := WGPubKey r]> (bs_relays s)
                    | None => bs_relays s
                    end
  /\ bs_stable s' = match (relay_verdict d cands hs now p).2 with
                    | Some n => <[WGPubKey p := n]> (bs_stable s)
                    | None => bs_stable s
                    end.

Lemma build_step_spec s p :
  off_same s ->
  off_same (build_step d cands hs now s p)
  /\ (eligible d now p -> step_effect s (build_step d cands hs now s p) p)
  /\ (~ eligible d now p ->
      let s' := build_step d cands hs now s p in
      bs_desired s' = bs_desired s /\ bs_relays s' = bs_relays s /\ bs_stable s' = bs_stable s).
Proof.
  intros Hoff. unfold build_step.
  destruct (String.eqb (WGPubKey p) (own_key d) || String.eqb (WGPubKey p) "" || String.eqb (MeshIP p) "") eqn:Ek.
  { split_and!; [done| |done]. intros (H1 & H2 & H3 & _).
    apply orb_true_iff in Ek as [[Ek|Ek]%orb_true_iff|Ek]; bool_steps; congruence. }
  bool_steps. destruct (isTemporarilyOffline_spec (bs_offline s) (WGPubKey p) now) as [Hb Hoff'].
  destruct (isTemporarilyOffline (bs_offline s) (WGPubKey p) now) as [b off']. cbn [fst snd] in *. subst b.
  rewrite (Hoff (WGPubKey p)).
  assert (forall k, is_offline off' now k = is_offline (temporaryOffline d) now k) as Hoff2
    by (intros k; by rewrite Hoff').
  destruct (is_offline (temporaryOffline d) now (WGPubKey p)) eqn:Eo.
  { split_and!; [done| |done]. intros (_ & _ & _ & Ho). congruence. }
  unfold step_effect, relay_for. fold (relay_verdict d cands hs now p).
  destruct (relay_verdict d cands hs now p) as [b n] eqn:Ev. cbn [fst snd].
  destruct (if b then selectRelayForPeer d p cands else None) as [r|]; cbn;
    (split_and!; [done|intros _; by destruct n|intros Hne; exfalso; by apply Hne]).
Qed.

Lemma selectRelay_in p r : selectRelayForPeer d p cands = Some r -> r ∈ cands /\ usable_relay r.
Proof.
  unfold selectRelayForPeer.
  destruct (merge_sort peer_key_le (filter usable_relay cands)) as [|x l] eqn:E; [done|].
  rewrite <- E. intros H%list_elem_of_lookup_2.
  rewrite merge_sort_Permutation in H. apply list_elem_of_filter in H. tauto.
Qed.

Lemma relay_for_usable p r : relay_for d cands hs now p = Some r -> r ∈ cands /\ usable_relay r.
Proof. unfold relay_for. destruct (_.1); [apply selectRelay_in|done]. Qed.

Lemma via_key_nonempty p :
  eligible d now p -> WGPubKey (default p (relay_for d cands hs now p)) <> ""%string.
Proof.
  intros (_ & Hk & _). destruct (relay_for d cands hs now p) eqn:E; [|done].
  by apply relay_for_usable in E as [_ [? _]].
Qed.

Lemma build_fold_off ps s : off_same s -> off_same (foldl (build_step d cands hs now) s ps).
Proof.
  revert s. induction ps as [|p ps IH]; intros s Hs; [done|]. cbn [foldl]. apply IH.
  by apply build_step_spec.
Qed.

(** The prefixes assigned to each key after the loop. *)
Lemma build_fold_allowed ps s k c :
  off_same s ->
  c ∈ allowed_of (bs_desired (foldl (build_step d cands hs now) s ps)) k
  <-> c ∈ allowed_of (bs_desired s) k
      \/ exists p, p ∈ ps /\ eligible d now p /\ k = WGPubKey (default p (relay_for d cands hs now p))
                   /\ c ∈ peer_cidrs p.
Proof.
  revert s. induction ps as [|p ps IH]; intros s Hs; cbn [foldl].
  { split; [by left|]. intros [H | (p & H%not_elem_of_nil & _)]; done. }
  destruct (build_step_spec s p Hs) as (Hoff & He & Hne). rewrite IH by done.
  destruct (decide (eligible d now p)) as [Hp|Hp].
  - destruct (He Hp) as (-> & _ & _).
    rewrite fold_allowed by (auto using via_key_nonempty, peer_cidrs_nonempty). split.
    + intros [[H | [Hk Hc]] | (q & Hq & H)]; [by left| |]; right.
      * exists p. by split; [left|].
      * exists q. by split; [right|].
    + intros [H | (q & [->|Hq]%elem_of_cons & H)]; [by left; left| |].
      * left. right. by destruct H as (_ & ? & ?).
      * right. by exists q.
  - destruct (Hne Hp) as (-> & _ & _). split; (intros [H | (q & Hq & H)]; [by left|]).
    + right. exists q. by split; [right|].
    + apply elem_of_cons in Hq as [->|Hq]; [by destruct H|]. right. by exists q.
Qed.

(** The relay of each peer after the loop, when keys are distinct. *)
Lemma build_fold_maps ps s k :
  off_same s -> NoDup (WGPubKey <$> ps) ->
  let s' := foldl (build_step d cands hs now) s ps in
  (forall p, p ∈ ps -> WGPubKey p = k -> eligible d now p ->
     bs_relays s' !! k = match relay_for d cands hs now p with Some r => Some (WGPubKey r) | None => bs_relays s !! k end
     /\ bs_stable s' !! k = match (relay_verdict d cands hs now p).2 with Some n => Some n | None => bs_stable s !! k end)
  /\ ((forall p, p ∈ ps -> WGPubKey p = k -> ~ eligible d now p) ->
      bs_relays s' !! k = bs_relays s !! k /\ bs_stable s' !! k = bs_stable s !! k).
Proof.
  revert s. induction ps as [|p ps IH]; intros s Hs Hnd.
  { split; [intros p Hp; by apply not_elem_of_nil in Hp|done]. }
  rewrite fmap_cons in Hnd. apply NoDup_cons in Hnd as [Hnew Hnd]. cbn [foldl].
  destruct (build_step_spec s p Hs) as (Hoff & He & Hne).
  destruct (IH (build_step d cands hs now s p) Hoff Hnd) as [IH1 IH2]. clear IH.
  assert (forall q, q ∈ ps -> WGPubKey q <> WGPubKey p) as Hdiff.
  { intros q Hq Hqp. apply Hnew. rewrite <- Hqp. by apply list_elem_of_fmap_2. }
  split.
  - intros q [->|Hq]%elem_of_cons Hk Hq'.
    + destruct IH2 as [-> ->]; [intros q' Hq1 Hq2; exfalso; apply (Hdiff q' Hq1); congruence|].
      destruct (He Hq') as (_ & -> & ->). subst k.
      split; [destruct (relay_for _ _ _ _ _)|destruct (_.2)]; rewrite ?lookup_insert_eq; done.
    + destruct (IH1 q Hq Hk Hq') as [-> ->].
      assert (WGPubKey p <> k) as Hpk by (subst k; intros Hc; by apply (Hdiff q Hq)).
      destruct (decide (eligible d now p)) as [Hp|Hp].
      * destruct (He Hp) as (_ & -> & ->).
        destruct (relay_for d cands hs now p), (relay_verdict d cands hs now p) as [? []];
          cbn [snd]; rewrite ?lookup_insert_ne by done; done.
      * destruct (Hne Hp) as (_ & -> & ->). done.
  - intros Hnone. destruct IH2 as [-> ->]; [intros q Hq; apply Hnone; by right|].
    destruct (decide (eligible d now p)) as [Hp|Hp].
    + assert (WGPubKey p <> k) as Hpk by (intros Hpk; apply (Hnone p); [by left|done..]).
      destruct (He Hp) as (_ & -> & ->).
      destruct (relay_for d cands hs now p), (relay_verdict d cands hs now p) as [? []];
        cbn [snd]; rewrite ?lookup_insert_ne by done; done.
    + destruct (Hne Hp) as (_ & -> & ->). done.
Qed.

End Build.

Lemma build_spec d peers hs now :
  let cands := filter (candidate d now) peers in
  exists s0, off_same d now s0 /\ bs_desired s0 = ∅ /\ bs_relays s0 = ∅ /\ bs_stable s0 = ∅
    /\ buildDesiredPeerConfigsWithHandshakes d peers hs now = foldl (build_step d cands hs now) s0 peers.
Proof.
  intros cands. unfold buildDesiredPeerConfigsWithHandshakes.
  destruct (relay_candidates_spec d now peers (temporaryOffline d)) as [Hc Hoff]; [done|].
  destruct (relay_candidates d now (temporaryOffline d) peers) as [cs off]. cbn [fst snd] in *. subst cs.
  exists {| bs_desired := ∅; bs_relays := ∅; bs_stable := ∅; bs_offline := off |}. done.
Qed.

(** ** The desired peers *)

Lemma desired_spec d peers hs now :
  let s := buildDesiredPeerConfigsWithHandshakes d peers hs now in
  let cands := filter (candidate d now) peers in
  (forall k c, c ∈ allowed_of (bs_desired s) k <->
     exists p, p ∈ peers /\ eligible d now p /\ k = WGPubKey (default p (relay_for d cands hs now p))
               /\ c ∈ peer_cidrs p)
  /\ (forall p r, relay_for d cands hs now p = Some r -> r ∈ peers /\ candidate d now r)
  /\ allowed_of (bs_desired s) (own_key d) = ∅.
Proof.
  intros s cands. unfold s. clear s.
  destruct (build_spec d peers hs now) as (s0 & Hoff & Hd & _ & _ & ->). fold cands.
  assert (forall p r, relay_for d cands hs now p = Some r -> r ∈ peers /\ candidate d now r) as Hr.
  { intros p r [[H1 H2]%list_elem_of_filter _]%relay_for_usable. done. }
  assert (forall k c, c ∈ allowed_of (bs_desired (foldl (build_step d cands hs now) s0 peers)) k <->
     exists p, p ∈ peers /\ eligible d now p /\ k = WGPubKey (default p (relay_for d cands hs now p))
               /\ c ∈ peer_cidrs p) as Ha.
  { intros k c. rewrite build_fold_allowed by done. rewrite Hd.
    split; [|by right]. intros [H | H]; [|done]. exfalso. revert H. unfold allowed_of.
    rewrite lookup_empty. set_solver. }
  split_and!; [done|done|]. apply set_eq. intros c. split; [|set_solver].
  intros (p & _ & Hp & Hk & _)%Ha. exfalso.
  destruct (relay_for d cands hs now p) as [r|] eqn:E; cbn in Hk.
  - destruct (Hr p r E) as [_ [Hown _]]. congruence.
  - destruct Hp as [Hown _]. congruence.
Qed.

(** C3. The desired configuration is exact: a prefix is assigned to a key iff
    it is a prefix of a peer of the list that is not this node, has a key and
    a mesh address and is not marked offline, and the key is that peer's own,
    or its relay's when the cycle relays it.  A relay is always a peer of the
    list that is an introducer with an endpoint, seen in the last 90 seconds
    and not offline; this node's own key never gets a prefix. *)
Theorem desired_exact d peers hs now :
  let s := buildDesiredPeerConfigsWithHandshakes d peers hs now in
  let cands := filter (candidate d now) peers in
  (forall k c, c ∈ allowed_of (bs_desired s) k <->
     exists p, p ∈ peers /\ eligible d now p /\ k = WGPubKey (default p (relay_for d cands hs now p))
               /\ c ∈ peer_cidrs p)
  /\ (forall p r, relay_for d cands hs now p = Some r -> r ∈ peers /\ candidate d now r)
  /\ allowed_of (bs_desired s) (own_key d) = ∅.
Proof. apply desired_spec. Qed.

(** ** Relay selection *)

Lemma peer_sort_canonical (l1 l2 : list PeerInfo) :
  NoDup (WGPubKey <$> l1) -> l1 ≡ₚ l2 -> merge_sort peer_key_le l1 = merge_sort peer_key_le l2.
Proof. apply (sort_by_key_canonical WGPubKey peer_key_le). done. Qed.

Lemma selectRelay_exists d p cands r :
  r ∈ cands -> usable_relay r -> is_Some (selectRelayForPeer d p cands).
Proof.
  intros Hr Hu. unfold selectRelayForPeer.
  assert (r ∈ merge_sort peer_key_le (filter usable_relay cands)) as Hin
    by (rewrite merge_sort_Permutation; by apply list_elem_of_filter).
  destruct (merge_sort peer_key_le (filter usable_relay cands)) as [|x l]; [by apply not_elem_of_nil in Hin|].
  apply lookup_lt_is_Some. cbn [length].
  pose proof (Z.mod_pos_bound (fnv64a (bytes_of_string (own_key d) ++ [0%Z] ++ bytes_of_string (WGPubKey p)))
                (Z.of_nat (S (length l)))). lia.
Qed.

(** The relay of a peer does not depend on the order in which the peer
    store lists the candidates, is always one of the usable candidates, and
    exists as soon as there is one. *)
Theorem relay_choice d p cands cands' :
  NoDup (WGPubKey <$> cands) -> cands ≡ₚ cands' ->
  selectRelayForPeer d p cands = selectRelayForPeer d p cands'
  /\ (forall r, selectRelayForPeer d p cands = Some r -> r ∈ cands /\ usable_relay r)
  /\ (forall r, r ∈ cands -> usable_relay r -> is_Some (selectRelayForPeer d p cands)).
Proof.
  intros Hnd Hp. split_and!.
  - unfold selectRelayForPeer. f_equal.
    rewrite (peer_sort_canonical (filter usable_relay cands) (filter usable_relay cands')); [done| |by rewrite Hp].
    by apply NoDup_fmap_filter.
  - intros r. apply selectRelay_in.
  - intros r. apply selectRelay_exists.
Qed.

Definition relay_sample (k ep : string) : PeerInfo :=
  {| WGPubKey := k; Hostname := ""; MeshIP := "10.1.0.1"; MeshIPv6 := ""; Endpoint := ep;
     Introducer := true; RoutableNetworks := []; LastSeen := time_unix 990; DiscoveredVia := ["dht"%string];
     Latency := None; NATType := ""; EndpointMethod := "dht" |}.

Definition sample_keys : DerivedKeys :=
  {| NetworkID := []; GossipKey := []; MeshSubnet := [7; 9]%Z; MeshPrefixV6 := []; MulticastID := [];
     PSK := []; GossipPort := 51900%Z; RendezvousID := []; MembershipKey := []; EpochSeed := [] |}.

Definition sample_daemon : Daemon :=
  NewDaemon
    {| Secret := "secret"; Keys := sample_keys; InterfaceName := "wg0"; WGListenPort := 51820%Z;
       AdvertiseRoutes := []; LogLevel := "info"; Privacy := false; Gossip := false; LANDiscovery := false;
       cfg_Introducer := false; DisableIPv6 := true; ForceRelay := false; DisablePunching := false;
       CustomSubnet := None |}
    {| ln_WGPubKey := "me"; ln_WGPrivateKey := "k"; ln_MeshIP := "10.7.0.1"; ln_MeshIPv6 := "";
       ln_RoutableNetworks := []; ln_Introducer := false; ln_NATType := ""; ln_Hostname := "h";
       wgEndpoint := "" |} [].

Lemma relay_choice_witness :
  selectRelayForPeer sample_daemon (relay_sample "p" "") [relay_sample "r1" "1.1.1.1:1"; relay_sample "r2" "2.2.2.2:2"]
  = selectRelayForPeer sample_daemon (relay_sample "p" "") [relay_sample "r2" "2.2.2.2:2"; relay_sample "r1" "1.1.1.1:1"].
Proof.
  refine (proj1 (relay_choice _ _ _ _ _ _)).
  - by_compute.
  - apply Permutation_swap.
Defined.

(** ** Hysteresis *)

(** The relay state of one peer: [None] when direct, otherwise the number of
    cycles in a row that found a direct path. *)
Definition relay_state (d : Daemon) (k : string) : option nat :=
  match relayRoutes d !! k with
  | Some _ => Some (default 0 (directStableCycles d !! k))
  | None => None
  end.

(** What a cycle finds about a peer: that it should be relayed, that it has a direct
    path, or that it cannot be relayed at all (it is not among the peers the daemon
    configures, or there is no relay). *)
Inductive relay_event := Relayed | Directed | Gone.
#[export] Instance relay_event_eq_dec : EqDecision relay_event.
Proof. solve_decision. Defined.

Definition relay_auto (s : option nat) (v : relay_event) : option nat :=
  match v with
  | Relayed => Some 0
  | Gone => None
  | Directed =>
      match s with
      | None => None
      | Some n => if Nat.ltb (S n) RelayHysteresisThreshold then Some (S n) else None
      end
  end.

Definition finding (d : Daemon) (w : world) (k : string) : relay_event :=
  let peers := GetActive (peerStore d) (w_now w) in
  let relays := filter (candidate d (w_now w)) peers in
  match list_find (fun p => WGPubKey p = k /\ eligible d (w_now w) p) peers with
  | None => Gone
  | Some (_, p) =>
      match relays with
      | [] => Gone
      | _ => if shouldRelayPeer d p relays (match w_handshakes w with Ok hs => Some hs | Err _ => None end) (w_now w)
             then Relayed else Directed
      end
  end.

(** What happens to the relay state of a peer: a reconciliation, a step that forgets
    the peer (an eviction), or one that leaves its state alone. *)
Inductive cycle (k : string) : Daemon -> list relay_event -> Daemon -> Prop :=
| cycle_reconcile os w d : store_ok (peerStore d) -> cycle k d [finding d w k] (reconcile os w d).1.1.1
| cycle_forgotten d d' : relayRoutes d' !! k = None -> cycle k d [Gone] d'
| cycle_elsewhere d d' :
    relayRoutes d' !! k = relayRoutes d !! k -> directStableCycles d' !! k = directStableCycles d !! k -> cycle k d [] d'.

Inductive cycles (k : string) : Daemon -> list relay_event -> Daemon -> Prop :=
| cycles_nil d : cycles k d [] d
| cycles_cons d v d' vs d'' : cycle k d v d' -> cycles k d' vs d'' -> cycles k d (v ++ vs) d''.

Lemma candidate_usable d now p : candidate d now p -> usable_relay p.
Proof. intros (_ & H1 & _ & _ & H2 & _). done. Qed.

Lemma selectRelay_available d p now peers :
  filter (candidate d now) peers <> [] -> is_Some (selectRelayForPeer d p (filter (candidate d now) peers)).
Proof.
  intros Hne. destruct (filter (candidate d now) peers) as [|r rs] eqn:E; [done|]. rewrite <- E.
  assert (r ∈ filter (candidate d now) peers) as Hr by (rewrite E; by left).
  apply selectRelay_exists with r; [done|].
  apply list_elem_of_filter in Hr as [Hr _]. by apply candidate_usable in Hr.
Qed.

(** A store whose invariant holds lists each active peer once. *)
Lemma GetActive_keys ps now :
  store_ok ps -> NoDup (WGPubKey <$> GetActive ps now).
Proof.
  intros [[Hall _] _]. unfold GetActive. apply NoDup_fmap_filter. unfold GetAll.
  rewrite <- list_fmap_compose.
  assert ((WGPubKey ∘ snd) <$> map_to_list (peers ps) = (map_to_list (peers ps)).*1) as ->.
  { apply list_fmap_ext. intros i [k p] Hi%list_elem_of_lookup_2. cbn.
    apply elem_of_map_to_list in Hi. by destruct (Hall k p Hi). }
  apply NoDup_fst_map_to_list.
Qed.

(** The relay maps after a reconciliation are those it built. *)
Lemma reconcile_relays os w d :
  let hs := match w_handshakes w with Ok hs => Some hs | Err _ => None end in
  let s := buildDesiredPeerConfigsWithHandshakes d (GetActive (peerStore d) (w_now w)) hs (w_now w) in
  relayRoutes (reconcile os w d).1.1.1 = bs_relays s /\ directStableCycles (reconcile os w d).1.1.1 = bs_stable s.
Proof.
  cbv zeta. unfold reconcile, buildDesiredPeerConfigs. set (s := buildDesiredPeerConfigsWithHandshakes _ _ _ _).
  set (d1 := set_relays _ _ _).
  assert (let '(d2, _, _) := applyDesiredPeerConfigs (w_wg w) d1 (bs_desired s) (w_existing w) (w_order w (map_to_list (bs_desired s))) in
          relayRoutes d2 = relayRoutes d1 /\ directStableCycles d2 = directStableCycles d1) as H2.
  { unfold applyDesiredPeerConfigs. by repeat case_match; simplify_eq/=. }
  destruct (applyDesiredPeerConfigs _ _ _ _ _) as [[d2 l] r]. destruct H2 as [E1 E2].
  assert (let '(d3, _, _) := syncPeerRoutes os (w_exec w) d2 (GetActive (peerStore d) (w_now w)) (w_routes w) (w_now w) in
          relayRoutes d3 = relayRoutes d2 /\ directStableCycles d3 = directStableCycles d2) as H3.
  { unfold syncPeerRoutes. destruct os; [|done]. destruct (desired_routes _ _ _ _ _) as [es off].
    destruct (getCurrentRoutes _); [|done]. destruct (CalculateDiff _ _) as [ta tr].
    by destruct (applyRouteDiff _ _ _ _). }
  destruct (syncPeerRoutes _ _ _ _ _ _) as [[d3 cs] r3]. destruct H3 as [E3 E4].
  assert (relayRoutes (check_collisions d3).1 = relayRoutes d3 /\ directStableCycles (check_collisions d3).1 = directStableCycles d3)
    as [E5 E6] by (unfold check_collisions; by destruct (CheckAndResolveCollisions _ _ _ _ _ _ _)).
  destruct (check_collisions d3) as [d4 addrs]. cbn [fst] in *. by rewrite E5, E6, E3, E4, E1, E2.
Qed.

Lemma reconcile_auto k os w d : store_ok (peerStore d) ->
  relay_state (reconcile os w d).1.1.1 k = relay_auto (relay_state d k) (finding d w k).
Proof.
  intros Hs. destruct (reconcile_relays os w d) as [Hr Hst]. unfold relay_state at 1. rewrite Hr, Hst. clear Hr Hst.
  set (now := w_now w). set (peers := GetActive (peerStore d) now). set (hs := match w_handshakes w with Ok _ => _ | Err _ => _ end).
  assert (NoDup (WGPubKey <$> peers)) as Hnd by by apply GetActive_keys.
  destruct (build_spec d peers hs now) as (s0 & Hoff & _ & Hr0 & Hs0 & ->).
  destruct (build_fold_maps d (filter (candidate d now) peers) hs now peers s0 k Hoff Hnd) as [Htake Habsent].
  unfold finding. fold now peers hs. destruct (list_find _ peers) as [[i p]|] eqn:Ef.
  - apply list_find_Some in Ef as (Hp & [Hk Hel] & _). apply list_elem_of_lookup_2 in Hp.
    destruct (Htake p Hp Hk Hel) as [-> ->]. rewrite Hr0, Hs0, !lookup_empty. subst k.
    unfold relay_for, relay_verdict. destruct (filter (candidate d now) peers) as [|r rs] eqn:Ec.
    + cbn [selectRelayForPeer]. by destruct (hysteresis _ _ _) as [[] ?].
    + rewrite <- Ec. destruct (selectRelay_available d p now peers) as [q Hsel]; [by rewrite Ec|]. rewrite Hsel.
      unfold shouldRelayPeer, relay_state, relay_auto, hysteresis.
      destruct (shouldRelayPeerWithSubnets _ _ _ _ _ _), (relayRoutes d !! WGPubKey p); cbn [andb negb fst snd]; try done.
      by destruct (Nat.ltb _ _).
  - apply list_find_None in Ef. rewrite Forall_forall in Ef.
    destruct Habsent as [-> _]; [intros p Hp Hk Hel; by apply (Ef p Hp)|]. by rewrite Hr0, lookup_empty.
Qed.

Lemma cycle_auto k d v d' : cycle k d v d' -> relay_state d' k = foldl relay_auto (relay_state d k) v.
Proof.
  intros [os w d0 Hs|d0 d1 H|d0 d1 H1 H2]; cbn [foldl].
  - by apply reconcile_auto.
  - unfold relay_state at 1. by rewrite H.
  - unfold relay_state. by rewrite H1, H2.
Qed.

Lemma cycles_auto k d vs d' : cycles k d vs d' -> relay_state d' k = foldl relay_auto (relay_state d k) vs.
Proof.
  induction 1 as [|d v d1 vs d2 H1 _ IH]; [done|]. rewrite IH, foldl_app. by rewrite (cycle_auto k d v d1).
Qed.

(** The automaton leaves the relay only after three direct paths in a row, or when the
    peer cannot be relayed. *)
Lemma relay_auto_leaves vs n :
  (n < RelayHysteresisThreshold)%nat ->
  foldl relay_auto (Some n) vs = None -> Gone ∉ vs ->
  exists a b, replicate n Directed ++ vs = a ++ [Directed; Directed; Directed] ++ b.
Proof.
  revert n. induction vs as [|v vs IH]; intros n Hn H Hg; [done|]. cbn [foldl] in H.
  apply not_elem_of_cons in Hg as [Hv Hg]. destruct v; cbn [relay_auto] in H; [|..|by destruct Hv].
  - destruct (IH 0%nat ltac:(unfold RelayHysteresisThreshold; lia) H Hg) as (a & b & Hab).
    exists (replicate n Directed ++ [Relayed] ++ a), b. cbn [replicate app] in Hab. rewrite Hab.
    by rewrite <- !app_assoc.
  - destruct (Nat.ltb_spec (S n) RelayHysteresisThreshold) as [Hlt|Hge].
    + destruct (IH (S n) Hlt H Hg) as (a & b & Hab). exists a, b. rewrite <- Hab.
      by rewrite replicate_S_end, <- app_assoc.
    + exists [], vs. assert (n = 2)%nat as -> by (unfold RelayHysteresisThreshold in *; lia). done.
Qed.

(** C10. Switching from relay to direct is damped: over any sequence of
    reconciliations of a well-formed store, with evictions of the peer and any other
    work in between, the relay state of a peer follows the automaton [relay_auto] on
    what each cycle found.  A relayed peer that could be relayed all along becomes
    direct only after three cycles in a row found a direct path, and does so after
    three; a finding to relay takes effect at once, and so does the loss of the last
    relay or of the peer. *)
Theorem relay_hysteresis k d vs d' :
  cycles k d vs d' ->
  relay_state d' k = foldl relay_auto (relay_state d k) vs
  /\ (relay_state d k = Some 0%nat -> relay_state d' k = None ->
      Gone ∈ vs \/ exists a b, vs = a ++ [Directed; Directed; Directed] ++ b)
  /\ (relay_state d k = Some 0%nat -> vs = [Directed; Directed; Directed] -> relay_state d' k = None)
  /\ (last vs = Some Relayed -> relay_state d' k = Some 0%nat)
  /\ (last vs = Some Gone -> relay_state d' k = None).
Proof.
  intros H%cycles_auto. rewrite H. split; [done|]. split_and!.
  - intros -> E. destruct (decide (Gone ∈ vs)) as [Hg|Hg]; [by left|right].
    refine (relay_auto_leaves vs 0 _ E Hg). unfold RelayHysteresisThreshold. lia.
  - by intros -> ->.
  - intros [l ->]%last_Some. by rewrite foldl_app.
  - intros [l ->]%last_Some. by rewrite foldl_app.
Qed.

(** A mesh of one introducer and one peer behind a NAT, whose last handshake is
    old enough to relay it or recent. *)
Definition natted_sample : PeerInfo :=
  {| WGPubKey := "p"; Hostname := ""; MeshIP := "10.7.0.9"; MeshIPv6 := ""; Endpoint := "3.3.3.3:1";
     Introducer := false; RoutableNetworks := []; LastSeen := time_unix 990; DiscoveredVia := ["dht"%string];
     Latency := None; NATType := ""; EndpointMethod := "dht" |}.
Definition pair_sample : list PeerInfo := [relay_sample "r1" "1.1.1.1:1"; natted_sample].
Definition pair_store : PeerStore :=
  match Update NewPeerStore (relay_sample "r1" "1.1.1.1:1") "dht" (time_unix 990) with
  | Some ps => default NewPeerStore (Update ps natted_sample "dht" (time_unix 990))
  | None => NewPeerStore
  end.
Lemma pair_store_ok : store_ok pair_store.
Proof.
  unfold pair_store.
  destruct (Update_ok NewPeerStore (relay_sample "r1" "1.1.1.1:1") "dht" (time_unix 990) NewPeerStore_ok) as (s & -> & Hs & _).
  by destruct (Update_ok s natted_sample "dht" (time_unix 990) Hs) as (s' & -> & Hs' & _).
Qed.

(** A reconciliation at second 1000 where nothing works but reading the handshakes. *)
Definition pair_world (age : Z) : world :=
  {| w_now := time_unix 1000; w_handshakes := Ok {["p"%string := (1000 - age)%Z]}; w_existing := Err ""; w_order := id;
     w_wg := fun _ => false; w_routes := None; w_exec := fun _ => false |}.
Definition pair_cycle (age : Z) (d : Daemon) : Daemon := (reconcile Linux (pair_world age) d).1.1.1.
Definition pair_daemon : Daemon := set_store sample_daemon pair_store.

Lemma relay_hysteresis_witness :
  let d0 := pair_cycle 500 pair_daemon in
  relay_state d0 "p" = Some 0
  /\ relay_state (pair_cycle 10 (pair_cycle 10 (pair_cycle 10 d0))) "p" = None.
Proof.
  intros d0. split; [vm_compute; reflexivity|].
  assert (forall d, peerStore d = pair_store -> finding d (pair_world 10) "p" = Directed ->
            cycle "p" d [Directed] (pair_cycle 10 d)) as Hc.
  { intros d Hd <-. apply cycle_reconcile. rewrite Hd. apply pair_store_ok. }
  refine (proj1 (proj2 (proj2 (relay_hysteresis "p" d0 [Directed; Directed; Directed] _ _))) _ eq_refl);
    [|vm_compute; reflexivity].
  do 3 (eapply (cycles_cons "p" _ [Directed]); [apply Hc; vm_compute; reflexivity|]). apply cycles_nil.
Defined.

(** ** Applying *)

(** The last operation about a peer that succeeded. *)
Definition last_op (log : wg_log) (k : string) : option wg_op :=
  last (filter (fun e => op_key e.1 = k /\ e.2 = true) log).*1.

(** The cache of applied configurations tells the truth: a cached signature is
    that of the last successful operation about the peer, a [wg set]. *)
Definition coherent (applied : gmap string string) (log : wg_log) : Prop :=
  forall k sig, applied !! k = Some sig ->
  exists ep csv, last_op log k = Some (WgSet k ep csv) /\ sig = ep ^^ "|" ^^ csv.

Lemma last_op_snoc log o b k :
  last_op (log ++ [(o, b)]) k = if decide (op_key o = k /\ b = true) then Some o else last_op log k.
Proof.
  unfold last_op. rewrite filter_app. case_decide as H.
  - rewrite (filter_cons_True _ (o, b)), filter_nil by done. rewrite fmap_app. apply last_snoc.
  - rewrite (filter_cons_False _ (o, b)), filter_nil by done. by rewrite app_nil_r.
Qed.

Lemma coherent_forget applied log o b :
  coherent applied log -> coherent (delete (op_key o) applied) (log ++ [(o, b)]).
Proof.
  intros H k sig. rewrite lookup_delete, last_op_snoc. case_decide; [done|]. intros Hk.
  rewrite decide_False by tauto. by apply H.
Qed.

Lemma coherent_failed applied log o : coherent applied log -> coherent applied (log ++ [(o, false)]).
Proof. intros H k sig Hk. rewrite last_op_snoc, decide_False by intuition done. by apply H. Qed.

Lemma coherent_set applied log k cfg :
  coherent applied log -> coherent (<[k := signature cfg]> applied) (log ++ [(set_op k cfg, true)]).
Proof.
  intros H k' sig. rewrite lookup_insert, last_op_snoc. cbn [op_key set_op].
  case_decide as Hk; subst; [|rewrite decide_False by tauto; by intros ?%H].
  intros [= <-]. rewrite decide_True by done. by eexists _, _.
Qed.

Lemma remove_obsolete_coherent ok desired ks applied log :
  coherent applied log ->
  let '(applied', l) := remove_obsolete ok desired ks applied in coherent applied' (log ++ l).
Proof.
  revert applied log. induction ks as [|k ks IH]; intros applied log H; cbn [remove_obsolete].
  - by rewrite app_nil_r.
  - destruct (desired !! k); [by apply IH|].
    specialize (IH (delete k applied) (log ++ [(WgRemove k, ok (WgRemove k))])).
    destruct (remove_obsolete ok desired ks (delete k applied)) as [a l].
    rewrite cons_middle, app_assoc. apply IH. by apply (coherent_forget _ _ (WgRemove k)).
Qed.

Lemma apply_loop_coherent ok c order applied log :
  coherent applied log ->
  let '(applied', l, _) := apply_loop ok c order applied in coherent applied' (log ++ l).
Proof.
  revert applied log. induction order as [|[k cfg] order IH]; intros applied log H; cbn [apply_loop].
  - by rewrite app_nil_r.
  - destruct (negb (applicable c cfg)); [by apply IH|]. case_bool_decide; [by apply IH|].
    destruct (ok (set_op k cfg)).
    + specialize (IH (<[k := signature cfg]> applied) (log ++ [(set_op k cfg, true)])).
      destruct (apply_loop ok c order _) as [[a l] r]. rewrite cons_middle, app_assoc. apply IH.
      by apply coherent_set.
    + rewrite delete_insert_eq. by apply (coherent_forget _ _ (set_op k cfg)).
Qed.

Lemma applyDesired_coherent ok d desired existing order log :
  coherent (lastAppliedPeerConfigs d) log ->
  let '(d', l, _) := applyDesiredPeerConfigs ok d desired existing order in
  coherent (lastAppliedPeerConfigs d') (log ++ l).
Proof.
  intros H. unfold applyDesiredPeerConfigs.
  assert (let '(a, l) := match existing with
            | Ok ks => remove_obsolete ok desired ks (lastAppliedPeerConfigs d)
            | Err _ => (lastAppliedPeerConfigs d, []) end in coherent a (log ++ l)) as H1.
  { destruct existing; [by apply remove_obsolete_coherent|by rewrite app_nil_r]. }
  destruct (match existing with Ok _ => _ | Err _ => _ end) as [a l].
  pose proof (apply_loop_coherent ok (config d) order a _ H1) as H2.
  destruct (apply_loop ok (config d) order a) as [[a' l'] r]. by rewrite app_assoc.
Qed.

(** The second loop leaves the entries of other keys alone. *)
Lemma apply_loop_other ok c order applied k :
  k ∉ order.*1 -> (apply_loop ok c order applied).1.1 !! k = applied !! k.
Proof.
  revert applied. induction order as [|[k' cfg] order IH]; intros applied Hk; [done|]. cbn [apply_loop].
  rewrite fmap_cons in Hk. apply not_elem_of_cons in Hk as [Hne Hk]. cbn [fst] in Hne.
  destruct (negb (applicable c cfg)); [by apply IH|]. case_bool_decide; [by apply IH|].
  destruct (ok (set_op k' cfg)).
  - specialize (IH (<[k' := signature cfg]> applied) Hk).
    destruct (apply_loop ok c order _) as [[a l] r]. cbn [fst snd] in *. rewrite IH.
    by apply lookup_insert_ne.
  - cbn [fst]. rewrite lookup_delete_ne, lookup_insert_ne by done. done.
Qed.

Lemma apply_loop_ok ok c order applied k cfg :
  NoDup order.*1 -> (apply_loop ok c order applied).2 = Ok tt -> (k, cfg) ∈ order -> applicable c cfg = true ->
  (apply_loop ok c order applied).1.1 !! k = Some (signature cfg).
Proof.
  revert applied. induction order as [|[k' cfg'] order IH]; intros applied Hnd Hok Hin Happ;
    [by apply not_elem_of_nil in Hin|].
  rewrite fmap_cons in Hnd. apply NoDup_cons in Hnd as [Hnew Hnd]. cbn [fst] in Hnew.
  cbn [apply_loop] in *. apply elem_of_cons in Hin as [[= <- <-]|Hin].
  - rewrite Happ in *. cbn [negb] in *. case_bool_decide; [by rewrite apply_loop_other|].
    destruct (ok (set_op k cfg)); [|done].
    pose proof (apply_loop_other ok c order (<[k := signature cfg]> applied) k Hnew) as Ho.
    destruct (apply_loop ok c order _) as [[a l] r]. cbn [fst snd] in *. rewrite Ho.
    by rewrite lookup_insert_eq.
  - destruct (negb (applicable c cfg')); [by apply IH|]. case_bool_decide; [by apply IH|].
    destruct (ok (set_op k' cfg')); [|done].
    specialize (IH (<[k' := signature cfg']> applied) Hnd).
    destruct (apply_loop ok c order _) as [[a l] r]. by apply IH.
Qed.

(** When everything is cached nothing is issued. *)
Lemma apply_loop_idle ok c order applied :
  (forall k cfg, (k, cfg) ∈ order -> applicable c cfg = true -> applied !! k = Some (signature cfg)) ->
  apply_loop ok c order applied = (applied, [], Ok tt).
Proof.
  induction order as [|[k cfg] order IH]; intros H; [done|]. cbn [apply_loop].
  assert (apply_loop ok c order applied = (applied, [], Ok tt)) as ->
    by (apply IH; intros; apply H; [by right|done]).
  destruct (applicable c cfg) eqn:E; [|done]. cbn [negb]. rewrite bool_decide_eq_true_2; [done|].
  apply H; [by left|done].
Qed.

Lemma remove_obsolete_idle ok desired ks applied :
  (forall k, k ∈ ks -> is_Some (desired !! k)) -> remove_obsolete ok desired ks applied = (applied, []).
Proof.
  induction ks as [|k ks IH]; intros H; [done|]. cbn [remove_obsolete].
  destruct (H k ltac:(by left)) as [e ->]. apply IH. intros k' Hk'. apply H. by right.
Qed.

Lemma apply_loop_err ok c order applied e :
  (apply_loop ok c order applied).2 = Err e ->
  exists k cfg l, (k, cfg) ∈ order /\ applicable c cfg = true
    /\ (apply_loop ok c order applied).1.2 = l ++ [(set_op k cfg, false)]
    /\ (apply_loop ok c order applied).1.1 !! k = None.
Proof.
  revert applied. induction order as [|[k cfg] order IH]; intros applied H; [done|]. cbn [apply_loop] in *.
  assert (forall a, (apply_loop ok c order a).2 = Err e -> exists k' cfg' l, (k', cfg') ∈ (k, cfg) :: order
      /\ applicable c cfg' = true /\ (apply_loop ok c order a).1.2 = l ++ [(set_op k' cfg', false)]
      /\ (apply_loop ok c order a).1.1 !! k' = None) as IH'.
  { intros a Ha. destruct (IH a Ha) as (k' & cfg' & l & Hin & Hrest). exists k', cfg', l. by split; [right|]. }
  destruct (applicable c cfg) eqn:E; cbn [negb] in *; [|by apply IH']. case_bool_decide; [by apply IH'|].
  destruct (ok (set_op k cfg)).
  - specialize (IH' (<[k := signature cfg]> applied)). destruct (apply_loop ok c order _) as [[a l] r].
    cbn [fst snd] in *. destruct (IH' H) as (k' & cfg' & l' & Hin & Ha & -> & Hn).
    exists k', cfg', ((set_op k cfg, true) :: l'). done.
  - exists k, cfg, []. cbn [fst snd]. rewrite lookup_delete_eq. split; [by left|done].
Qed.

Definition order_of (desired : gmap string desiredPeerConfig) (order : list (string * desiredPeerConfig)) : Prop :=
  order ≡ₚ map_to_list desired.

Lemma order_of_elem desired order k cfg :
  order_of desired order -> (k, cfg) ∈ order <-> desired !! k = Some cfg.
Proof. intros H. unfold order_of in H. rewrite H. apply elem_of_map_to_list. Qed.

Lemma order_of_nodup desired order : order_of desired order -> NoDup order.*1.
Proof. intros H. unfold order_of in H. rewrite H. apply NoDup_fst_map_to_list. Qed.

(** C13. Applying the desired peers converges: when it reports success every
    desired peer that can be configured is cached with its current endpoint
    and prefixes, and applying the same configuration again, in any iteration
    order and whatever the commands would return, issues no command as long as
    the interface shows no other peer. *)
Theorem apply_converges ok d desired existing order :
  order_of desired order ->
  let '(d', _, r) := applyDesiredPeerConfigs ok d desired existing order in
  r = Ok tt ->
  (forall k cfg, desired !! k = Some cfg -> applicable (config d) cfg = true ->
     lastAppliedPeerConfigs d' !! k = Some (signature cfg))
  /\ forall ok2 ks order2, order_of desired order2 -> (forall k, k ∈ ks -> is_Some (desired !! k)) ->
       applyDesiredPeerConfigs ok2 d' desired (Ok ks) order2 = (d', [], Ok tt).
Proof.
  intros Hord. unfold applyDesiredPeerConfigs.
  destruct (match existing with Ok _ => _ | Err _ => _ end) as [a0 l0].
  pose proof (apply_loop_ok ok (config d) order a0) as Hloop.
  destruct (apply_loop ok (config d) order a0) as [[a l] r]. intros ->. cbn [fst snd] in *.
  assert (forall k cfg, desired !! k = Some cfg -> applicable (config d) cfg = true -> a !! k = Some (signature cfg)) as Hall.
  { intros k cfg Hk Happ. apply Hloop; [by eapply order_of_nodup|done|by apply (order_of_elem desired)|done]. }
  split; [done|]. intros ok2 ks order2 Hord2 Hks. cbn [lastAppliedPeerConfigs set_applied config].
  rewrite remove_obsolete_idle by done. rewrite apply_loop_idle; [done|].
  intros k cfg Hin. apply Hall. by apply (order_of_elem desired order2).
Qed.

(** A failure is never cached: when a [wg set] fails, applying stops at
    it, the peer has no cached signature, and the next application issues its
    [wg set] again. *)
Theorem apply_failure_retried ok d desired existing order :
  let '(d', log, r) := applyDesiredPeerConfigs ok d desired existing order in
  r <> Ok tt ->
  exists k cfg l, (k, cfg) ∈ order /\ log = l ++ [(set_op k cfg, false)]
    /\ lastAppliedPeerConfigs d' !! k = None
    /\ forall ok2, ok2 (set_op k cfg) = true ->
         (applyDesiredPeerConfigs ok2 d' desired (Ok []) [(k, cfg)]).1.2 = [(set_op k cfg, true)].
Proof.
  unfold applyDesiredPeerConfigs. destruct (match existing with Ok _ => _ | Err _ => _ end) as [a0 l0].
  pose proof (apply_loop_err ok (config d) order a0) as Herr.
  destruct (apply_loop ok (config d) order a0) as [[a l] [[]|e]]; [done|]. intros _. cbn [fst snd] in *.
  destruct (Herr e eq_refl) as (k & cfg & l' & Hin & Happ & -> & Hn).
  exists k, cfg, (l0 ++ l'). split_and!; [done|by rewrite app_assoc|done|].
  intros ok2 Hok2. cbn [remove_obsolete lastAppliedPeerConfigs set_applied config apply_loop].
  rewrite Happ. cbn [negb]. rewrite bool_decide_eq_false_2 by congruence. by rewrite Hok2.
Qed.

Lemma apply_converges_witness :
  let desired := bs_desired (buildDesiredPeerConfigsWithHandshakes sample_daemon pair_sample None (time_unix 1000)) in
  let '(d', log, r) := applyDesiredPeerConfigs (fun _ => true) sample_daemon desired (Ok ["old"%string]) (map_to_list desired) in
  r = Ok tt /\ length log = 3
  /\ applyDesiredPeerConfigs (fun _ => false) d' desired (Ok ["p"; "r1"]%string) (map_to_list desired) = (d', [], Ok tt).
Proof.
  intros desired.
  pose proof (apply_converges (fun _ => true) sample_daemon desired (Ok ["old"%string]) (map_to_list desired)
                ltac:(unfold order_of; reflexivity)) as H.
  assert ((applyDesiredPeerConfigs (fun _ => true) sample_daemon desired (Ok ["old"%string]) (map_to_list desired)).2 = Ok tt)
    as Hr by (vm_compute; reflexivity).
  assert (length (applyDesiredPeerConfigs (fun _ => true) sample_daemon desired (Ok ["old"%string]) (map_to_list desired)).1.2 = 3)
    as Hl by (vm_compute; reflexivity).
  destruct (applyDesiredPeerConfigs (fun _ => true) sample_daemon desired (Ok ["old"%string]) (map_to_list desired)) as [[d' log] r].
  cbn [fst snd] in *. split_and!; [done|done|]. apply (proj2 (H Hr)); [unfold order_of; reflexivity|].
  intros k Hk. apply elem_of_cons in Hk as [->|[->|Hk%not_elem_of_nil]%elem_of_cons];
    [eexists; vm_compute; reflexivity..|done].
Defined.
