(* ===== verification/Health.v ===== *)
(** * Health checks, probes and eviction (pkg/daemon/daemon.go)

    Three loops watch the peers: the health monitor (WireGuard handshakes and
    transfer counters), the mesh probes (a ping over TCP through the tunnel)
    and the stale cleanup.  The answers of [wg] and of the network are
    arguments; an operation returns the daemon after it with the [wg]
    operations issued, and [None] when the code panics. *)

From S2P Require Import Prelude GoStrings GoNet GoCrypto PeerStore Routes Derive.
From S2P Require Import IfName WgConfig NodeConfig Daemon.
Local Open Scope wgmesh_scope.

Definition MeshProbePortOffset : Z := 2000%Z.
Definition healthProbePort (d : Daemon) : Z := (GossipPort (Keys (config d)) + MeshProbePortOffset)%Z.

(** ** Eviction *)

Definition closeProbeSession (d : Daemon) (pubKey : string) : Daemon :=
  set_probes d (probeSessions d ∖ {[pubKey]}) (probeFailures d).

Definition forget_peer (d : Daemon) (k : string) : Daemon :=
  let d := set_applied d (delete k (lastAppliedPeerConfigs d)) in
  let d := set_relays d (delete k (relayRoutes d)) (delete k (directStableCycles d)) in
  let d := set_health d (delete k (peerHealthFailures d)) (delete k (lastPeerTransferTotal d)) in
  let d := closeProbeSession d k in
  set_probes d (probeSessions d) (delete k (probeFailures d)).

Definition evictPeerFromPool (ok : wg_op -> bool) (d : Daemon) (peer : PeerInfo) (now : Time)
  : Daemon * wg_log :=
  let k := WGPubKey peer in
  if String.eqb k "" then (d, [])
  else
    let d := markTemporarilyOffline d k now in
    let d := set_store d (Remove (peerStore d) k) in
    (forget_peer d k, [(WgRemove k, ok (WgRemove k))]).

(** ** Handshakes *)

Definition shouldTreatPeerAsStale (handshakeTS prevTransferTotal currentTransferTotal : Z) (now : Time) : bool :=
  if (handshakeTS <=? 0)%Z then false
  else if (time_sub now (time_unix handshakeTS) <=? HandshakeStaleAfter)%Z then false
  else (currentTransferTotal <=? prevTransferTotal)%Z.

Definition reconnect_allowed (p : PeerInfo) : gset string :=
  list_to_set
    ((if String.eqb (MeshIP p) "" then [] else [MeshIP p ^^ "/32"])
     ++ (if String.eqb (MeshIPv6 p) "" then [] else [MeshIPv6 p ^^ "/128"])
     ++ filter (fun n => n <> ""%string) (trim_space <$> RoutableNetworks p)).

Definition attemptPeerReconnect (ok : wg_op -> bool) (d : Daemon) (peer : PeerInfo) : Daemon * wg_log :=
  if String.eqb (WGPubKey peer) "" then (d, [])
  else if String.eqb (Endpoint peer) "" then (d, [])
  else
    let allowedCSV := allowed_csv (reconnect_allowed peer) in
    if String.eqb allowedCSV "" then (d, [])
    else
      let o := WgSet (WGPubKey peer) (Endpoint peer) allowedCSV in
      if ok o then (set_applied d (delete (WGPubKey peer) (lastAppliedPeerConfigs d)), [(o, true)])
      else (d, [(o, false)]).

(** [transfer.RxBytes + transfer.TxBytes], in [uint64]; 0 for an absent peer. *)
Definition transfer_total (transfers : gmap string PeerTransfer) (k : string) : Z :=
  match transfers !! k with Some t => u64 (RxBytes t + TxBytes t) | None => 0%Z end.

(** Body of the loop of [checkPeerHealth]. *)
Definition health_peer (ok : wg_op -> bool) (hs : gmap string Z) (transfers : gmap string PeerTransfer)
    (now : Time) (acc : Daemon * wg_log) (p : PeerInfo) : Daemon * wg_log :=
  let '(d, log) := acc in
  let k := WGPubKey p in
  if String.eqb k "" || String.eqb k (own_key d) then (d, log)
  else
    let currentTotal := transfer_total transfers k in
    let prevTotal := default 0%Z (lastPeerTransferTotal d !! k) in
    let isStale := shouldTreatPeerAsStale (default 0%Z (hs !! k)) prevTotal currentTotal now in
    let failures := if isStale then S (default 0%nat (peerHealthFailures d !! k)) else 0%nat in
    let d := set_health d (<[k := failures]> (peerHealthFailures d)) (<[k := currentTotal]> (lastPeerTransferTotal d)) in
    if negb isStale then (d, log)
    else if Nat.eqb failures 1 then let '(d, l) := attemptPeerReconnect ok d p in (d, log ++ l)
    else if Nat.leb 2 failures then let '(d, l) := evictPeerFromPool ok d p now in (d, log ++ l)
    else (d, log).

(** The keys the loop marks as active. *)
Definition health_active (d : Daemon) (ps : list PeerInfo) : gset string :=
  list_to_set (filter (fun k => k <> ""%string /\ k <> own_key d) (WGPubKey <$> ps)).

Definition checkPeerHealth (ok : wg_op -> bool) (d : Daemon) (handshakes : result (gmap string Z))
    (transfers : result (gmap string PeerTransfer)) (now : Time) : Daemon * wg_log :=
  match handshakes, transfers with
  | Ok hs, Ok tr =>
      let ps := GetActive (peerStore d) now in
      let active := health_active d ps in
      let '(d, log) := foldl (health_peer ok hs tr now) (d, []) ps in
      let gone := dom (peerHealthFailures d) ∖ active in
      (set_health d (filter (fun kv => kv.1 ∉ gone) (peerHealthFailures d))
                    (filter (fun kv => kv.1 ∉ gone) (lastPeerTransferTotal d)), log)
  | _, _ => (d, [])
  end.

(** ** Probes *)

(** What happens on a probe's connection. *)
Inductive probe_answer := WriteError | ReadError | Line (line : string).

Record net_world := {
  nw_now : Time;
  nw_dial : string -> bool;                 (* address -> connected *)
  nw_answer : string -> probe_answer;       (* by public key *)
  nw_rtt : string -> Duration;
}.

Definition probe_addrs (d : Daemon) (p : PeerInfo) : list string :=
  let port := itoa (healthProbePort d) in
  (if negb (DisableIPv6 (config d)) && negb (String.eqb (MeshIPv6 p) "")
   then [join_host_port (MeshIPv6 p) port] else [])
  ++ [join_host_port (MeshIP p) port].

Definition getOrDialProbeSession (w : net_world) (d : Daemon) (p : PeerInfo) : Daemon * bool :=
  if bool_decide (WGPubKey p ∈ probeSessions d) then (d, true)
  else if existsb (nw_dial w) (probe_addrs d p)
  then (set_probes d ({[WGPubKey p]} ∪ probeSessions d) (probeFailures d), true)
  else (d, false).

(** [peer.WGPubKey[:8]] panics on a shorter key. *)
Definition probePeer (w : net_world) (d : Daemon) (p : PeerInfo) : option (Daemon * bool) :=
  if String.eqb (WGPubKey p) "" then Some (d, false)
  else
    let '(d, session) := getOrDialProbeSession w d p in
    if negb session then Some (d, false)
    else match nw_answer w (WGPubKey p) with
         | WriteError | ReadError => Some (closeProbeSession d (WGPubKey p), false)
         | Line line =>
             if negb (String.eqb (trim_space line) "pong") then Some (closeProbeSession d (WGPubKey p), false)
             else if Nat.ltb (String.length (WGPubKey p)) 8 then None
             else Some (set_store d (SetLatency (peerStore d) (WGPubKey p) (nw_rtt w (WGPubKey p))), true)
         end.

Definition set_failures (d : Daemon) (k : string) (n : nat) : Daemon :=
  set_probes d (probeSessions d) (<[k := n]> (probeFailures d)).

(** WireGuard shows a recent handshake with the peer. *)
Definition fresh_handshake (hs : gmap string Z) (k : string) (now : Time) : bool :=
  let ts := default 0%Z (hs !! k) in
  (0 <? ts)%Z && (time_sub now (time_unix ts) <? HandshakeStaleAfter)%Z.

Definition enforced (d : Daemon) (hs : gmap string Z) (p : PeerInfo) (now : Time) : bool :=
  (0 <? default 0 (hs !! WGPubKey p))%Z || isRelayRoutedPeer d (WGPubKey p)
  || (ProbeGracePeriod <? time_sub now (LastSeen p))%Z.

(** Body of the loop of [probePeersOverMesh]. *)
Definition probe_peer_step (ok : wg_op -> bool) (w : net_world) (hs : gmap string Z)
    (acc : Daemon * wg_log) (p : PeerInfo) : option (Daemon * wg_log) :=
  let '(d, log) := acc in
  let k := WGPubKey p in
  if String.eqb k "" || String.eqb k (own_key d) || String.eqb (MeshIP p) "" then Some (d, log)
  else if fresh_handshake hs k (nw_now w)
  then Some (closeProbeSession (set_failures (clearTemporarilyOffline d k) k 0) k, log)
  else if negb (enforced d hs p (nw_now w))
  then Some (closeProbeSession (set_failures d k 0) k, log)
  else match probePeer w d p with
       | None => None
       | Some (d, true) => Some (set_failures (clearTemporarilyOffline d k) k 0, log)
       | Some (d, false) =>
           let failures := S (default 0%nat (probeFailures d !! k)) in
           let d := set_failures d k failures in
           if Nat.leb MeshProbeFailLimit failures
           then let '(d, l) := evictPeerFromPool ok d p (nw_now w) in Some (d, log ++ l)
           else Some (d, log)
       end.

Fixpoint probe_loop (ok : wg_op -> bool) (w : net_world) (hs : gmap string Z)
    (acc : Daemon * wg_log) (ps : list PeerInfo) : option (Daemon * wg_log) :=
  match ps with
  | [] => Some acc
  | p :: ps => match probe_peer_step ok w hs acc p with
               | None => None
               | Some acc => probe_loop ok w hs acc ps
               end
  end.

Definition probe_active (d : Daemon) (ps : list PeerInfo) : gset string :=
  list_to_set (WGPubKey <$> filter (fun p => WGPubKey p <> ""%string /\ WGPubKey p <> own_key d /\ MeshIP p <> ""%string) ps).

Definition cleanupProbeSessions (d : Daemon) (active : gset string) : Daemon :=
  let keys := probeSessions d ∖ active in
  set_probes d (probeSessions d ∖ keys) (filter (fun kv => kv.1 ∉ keys) (probeFailures d)).

(** A failing [wg show] gives a nil map of handshakes. *)
Definition probePeersOverMesh (ok : wg_op -> bool) (w : net_world) (d : Daemon)
    (handshakes : result (gmap string Z)) : option (Daemon * wg_log) :=
  let ps := GetActive (peerStore d) (nw_now w) in
  let active := probe_active d ps in
  let hs := match handshakes with Ok hs => hs | Err _ => ∅ end in
  match probe_loop ok w hs (d, []) ps with
  | None => None
  | Some (d, log) => Some (cleanupProbeSessions d active, log)
  end.

(** The other end of a probe: the replies to the lines of a connection. *)
Definition handleProbeConnection (lines : list string) : list string :=
  (fun _ => "pong" ^^ String newline EmptyString) <$> filter (fun l => trim_space l = "ping"%string) lines.

(** ** Stale cleanup: one tick of [staleCleanupLoop] *)

Definition removePeer (ok : wg_op -> bool) (k : string) : wg_op * bool := (WgRemove k, ok (WgRemove k)).

Definition stale_cleanup (ok : wg_op -> bool) (d : Daemon) (now : Time) : Daemon * wg_log :=
  let '(ps, removed) := CleanupStale (peerStore d) now in
  (set_store d ps, removePeer ok <$> removed).

(** ** Operations on one peer leave the others alone *)

(** Everything the daemon keeps about peer [k] is the same. *)
Record same_at (k : string) (d d' : Daemon) : Prop := {
  sa_config : config d = config d';
  sa_node : localNode d = localNode d';
  sa_store : peers (peerStore d) !! k = peers (peerStore d') !! k;
  sa_applied : lastAppliedPeerConfigs d !! k = lastAppliedPeerConfigs d' !! k;
  sa_relay : relayRoutes d !! k = relayRoutes d' !! k;
  sa_stable : directStableCycles d !! k = directStableCycles d' !! k;
  sa_health : peerHealthFailures d !! k = peerHealthFailures d' !! k;
  sa_transfer : lastPeerTransferTotal d !! k = lastPeerTransferTotal d' !! k;
  sa_session : k ∈ probeSessions d <-> k ∈ probeSessions d';
  sa_probe : probeFailures d !! k = probeFailures d' !! k;
  sa_offline : temporaryOffline d !! k = temporaryOffline d' !! k;
}.

#[export] Instance same_at_equiv k : Equivalence (same_at k).
Proof.
  split; [by constructor|intros d d' []; by constructor|].
  intros d d' d'' [] []; constructor; by etransitivity.
Qed.

(** Proves [same_at k d (op d)] for an update of the maps at another key. *)
Ltac frame_solve :=
  constructor; cbn; rewrite ?lookup_delete_ne, ?lookup_insert_ne by congruence; try done; set_solver.

Lemma markTemporarilyOffline_frame d k k' now : k <> k' -> same_at k d (markTemporarilyOffline d k' now).
Proof. intros. unfold markTemporarilyOffline. destruct (String.eqb k' ""); [done|]. frame_solve. Qed.

Lemma clearTemporarilyOffline_frame d k k' : k <> k' -> same_at k d (clearTemporarilyOffline d k').
Proof. intros. unfold clearTemporarilyOffline. destruct (String.eqb k' ""); [done|]. frame_solve. Qed.

Lemma closeProbeSession_frame d k k' : k <> k' -> same_at k d (closeProbeSession d k').
Proof. intros. unfold closeProbeSession. frame_solve. Qed.

Lemma set_failures_frame d k k' n : k <> k' -> same_at k d (set_failures d k' n).
Proof. intros. unfold set_failures. frame_solve. Qed.

Lemma forget_peer_frame d k k' : k <> k' -> same_at k d (forget_peer d k').
Proof. intros. unfold forget_peer. frame_solve. Qed.

Lemma evict_frame ok d p now k : k <> WGPubKey p -> same_at k d (evictPeerFromPool ok d p now).1.
Proof.
  intros Hk. unfold evictPeerFromPool. destruct (String.eqb (WGPubKey p) ""); [done|]. cbn [fst].
  rewrite <- forget_peer_frame by done. rewrite (markTemporarilyOffline_frame d k (WGPubKey p) now) at 1 by done.
  frame_solve.
Qed.

Lemma reconnect_frame ok d p k : k <> WGPubKey p -> same_at k d (attemptPeerReconnect ok d p).1.
Proof. intros Hk. unfold attemptPeerReconnect. split_if; cbn [fst]; try done. frame_solve. Qed.

Lemma health_peer_frame ok hs tr now d log p k :
  k <> WGPubKey p -> same_at k d (health_peer ok hs tr now (d, log) p).1.
Proof.
  intros Hk. unfold health_peer. destruct (String.eqb (WGPubKey p) "" || _); [done|].
  set (stale := shouldTreatPeerAsStale _ _ _ _).
  set (n := if stale then _ else _).
  set (d1 := set_health _ _ _). assert (same_at k d d1) as H1 by (unfold d1; frame_solve).
  destruct (negb stale); [done|]. destruct (Nat.eqb n 1).
  - pose proof (reconnect_frame ok d1 p k Hk). destruct (attemptPeerReconnect ok d1 p). by transitivity d1.
  - destruct (Nat.leb 2 n); [|done].
    pose proof (evict_frame ok d1 p now k Hk). destruct (evictPeerFromPool ok d1 p now). by transitivity d1.
Qed.

Lemma health_fold_frame ok hs tr now ps acc k :
  k ∉ WGPubKey <$> ps -> same_at k acc.1 (foldl (health_peer ok hs tr now) acc ps).1.
Proof.
  revert acc. induction ps as [|p ps IH]; intros [d log] Hk; [done|]. cbn [foldl].
  rewrite fmap_cons in Hk. apply not_elem_of_cons in Hk as [Hp Hk].
  rewrite <- IH by done. by apply health_peer_frame.
Qed.

Lemma getOrDial_frame w d p k : k <> WGPubKey p -> same_at k d (getOrDialProbeSession w d p).1.
Proof. intros Hk. unfold getOrDialProbeSession. split_if; cbn [fst]; try done. frame_solve. Qed.

Lemma SetLatency_other ps k k' rtt : k <> k' -> peers (SetLatency ps k' rtt) !! k = peers ps !! k.
Proof. intros Hk. unfold SetLatency. destruct (peers ps !! k'); [|done]. cbn. by rewrite lookup_insert_ne. Qed.

Lemma probePeer_frame w d p k d' b :
  k <> WGPubKey p -> probePeer w d p = Some (d', b) -> same_at k d d'.
Proof.
  intros Hk. unfold probePeer. destruct (String.eqb (WGPubKey p) ""); [by intros [= <- _]|].
  pose proof (getOrDial_frame w d p k Hk) as H1. destruct (getOrDialProbeSession w d p) as [d1 s]. cbn [fst] in H1.
  pose proof (closeProbeSession_frame d1 k (WGPubKey p) Hk) as H2.
  destruct (negb s); [by intros [= <- _]|].
  destruct (nw_answer w (WGPubKey p)); [intros [= <- _]; by transitivity d1..|].
  destruct (negb _); [intros [= <- _]; by transitivity d1|].
  destruct (Nat.ltb _ _); [done|]. intros [= <- _]. transitivity d1; [done|].
  constructor; cbn; rewrite ?SetLatency_other by done; done.
Qed.

Lemma probe_step_frame ok w hs d log p k d' log' :
  k <> WGPubKey p -> probe_peer_step ok w hs (d, log) p = Some (d', log') -> same_at k d d'.
Proof.
  intros Hk. unfold probe_peer_step.
  destruct (_ || _ || _)%bool; [by intros [= <- _]|].
  destruct (fresh_handshake _ _ _).
  { intros [= <- _]. rewrite <- closeProbeSession_frame, <- set_failures_frame by done.
    by apply clearTemporarilyOffline_frame. }
  destruct (negb (enforced _ _ _ _)).
  { intros [= <- _]. rewrite <- closeProbeSession_frame by done. by apply set_failures_frame. }
  destruct (probePeer w d p) as [[d1 []]|] eqn:E; [..|done]; apply (probePeer_frame w d p k) in E; try done.
  - intros [= <- _]. rewrite <- set_failures_frame, <- clearTemporarilyOffline_frame by done. done.
  - set (n := S _). pose proof (set_failures_frame d1 k (WGPubKey p) n Hk) as H2.
    destruct (Nat.leb _ _); [|intros [= <- _]; by transitivity d1].
    pose proof (evict_frame ok (set_failures d1 (WGPubKey p) n) p (nw_now w) k Hk) as H3.
    destruct (evictPeerFromPool _ _ _ _) as [d2 l]. intros [= <- _].
    transitivity d1; [done|]. by transitivity (set_failures d1 (WGPubKey p) n).
Qed.

Lemma probe_loop_frame ok w hs ps acc acc' k :
  k ∉ WGPubKey <$> ps -> probe_loop ok w hs acc ps = Some acc' -> same_at k acc.1 acc'.1.
Proof.
  revert acc. induction ps as [|p ps IH]; intros [d log] Hk; cbn [probe_loop]; [by intros [= <-]|].
  rewrite fmap_cons in Hk. apply not_elem_of_cons in Hk as [Hp Hk].
  destruct (probe_peer_step ok w hs (d, log) p) as [[d1 log1]|] eqn:E; [|done].
  intros H%IH; [|done]. cbn [fst] in *. transitivity d1; [|done]. by eapply probe_step_frame.
Qed.

Lemma GetActive_elem ps now p k :
  peers ps !! k = Some p -> is_active now p -> p ∈ GetActive ps now.
Proof.
  intros Hk Ha. unfold GetActive. apply list_elem_of_filter. split; [done|].
  unfold GetAll. apply list_elem_of_fmap. exists (k, p). split; [done|]. by apply elem_of_map_to_list.
Qed.

(** A loop over a list with distinct keys acts on the state of [p]'s key only
    at [p]. *)
Lemma health_fold_at ok hs tr now ps d log p :
  NoDup (WGPubKey <$> ps) -> p ∈ ps ->
  exists d1 log1, same_at (WGPubKey p) d d1
    /\ same_at (WGPubKey p) (health_peer ok hs tr now (d1, log1) p).1
                            (foldl (health_peer ok hs tr now) (d, log) ps).1.
Proof.
  intros Hnd (l1 & l2 & ->)%list_elem_of_split.
  rewrite fmap_app, fmap_cons in Hnd. apply NoDup_app in Hnd as (Hnd1 & Hdis & Hnd2).
  apply NoDup_cons in Hnd2 as [H2 _]. rewrite foldl_app. cbn [foldl].
  assert (WGPubKey p ∉ WGPubKey <$> l1) as H1 by (intros H; apply (Hdis _ H); by left).
  pose proof (health_fold_frame ok hs tr now l1 (d, log) (WGPubKey p) H1) as Hf1.
  destruct (foldl _ (d, log) l1) as [d1 log1]. exists d1, log1. split; [done|].
  by apply health_fold_frame.
Qed.

Lemma probe_loop_at ok w hs ps d log p acc :
  NoDup (WGPubKey <$> ps) -> p ∈ ps -> probe_loop ok w hs (d, log) ps = Some acc ->
  exists d1 log1 acc1, same_at (WGPubKey p) d d1
    /\ probe_peer_step ok w hs (d1, log1) p = Some acc1 /\ same_at (WGPubKey p) acc1.1 acc.1.
Proof.
  revert d log. induction ps as [|q ps IH]; intros d log Hnd Hin H; [by apply not_elem_of_nil in Hin|].
  rewrite fmap_cons in Hnd. apply NoDup_cons in Hnd as [Hq Hnd]. cbn [probe_loop] in H.
  destruct (probe_peer_step ok w hs (d, log) q) as [[d1 log1]|] eqn:E; [|done].
  apply elem_of_cons in Hin as [->|Hin].
  - exists d, log, (d1, log1). split; [done|]. split; [done|]. by eapply probe_loop_frame.
  - destruct (IH d1 log1 Hnd Hin H) as (d2 & log2 & acc2 & Hs & Hstep & Hend).
    exists d2, log2, acc2. split; [|done]. transitivity d1; [|done].
    eapply probe_step_frame; [|exact E]. intros Heq. apply Hq. rewrite <- Heq. by apply list_elem_of_fmap_2.
Qed.

(** ** Eviction *)

Lemma evict_lookup ok d p now :
  let k := WGPubKey p in
  k <> ""%string ->
  let d' := (evictPeerFromPool ok d p now).1 in
  peers (peerStore d') !! k = None /\ lastAppliedPeerConfigs d' !! k = None
  /\ relayRoutes d' !! k = None /\ directStableCycles d' !! k = None
  /\ peerHealthFailures d' !! k = None /\ lastPeerTransferTotal d' !! k = None
  /\ k ∉ probeSessions d' /\ probeFailures d' !! k = None
  /\ temporaryOffline d' !! k = Some (time_add now TemporaryOfflineTTL).
Proof.
  intros k Hk d'. unfold d', evictPeerFromPool, markTemporarilyOffline. fold k.
  apply String.eqb_neq in Hk. rewrite Hk. cbn. rewrite !lookup_delete_eq, lookup_insert_eq.
  split_and!; try done. set_solver.
Qed.

Lemma offline_until (off : gmap string Time) k (u now : Time) : k <> ""%string -> off !! k = Some u -> (now <= u)%Z -> is_offline off now k = true.
Proof.
  intros Hk Hu Hle. unfold is_offline, time_after. rewrite Hu. apply String.eqb_neq in Hk. rewrite Hk.
  cbn. destruct (Z.ltb_spec u now); [lia|done].
Qed.

(** C28. Eviction is complete and local: nothing is kept about the evicted peer
    in the store, the applied configurations, the relay maps, the health and
    probe counters; a removal is issued to WireGuard; for the next 30 seconds,
    whatever discovery reports, the desired configuration gives the peer no
    prefix and relays nobody through it; and what is kept about every other
    peer does not change. *)
Theorem eviction_complete ok d p now :
  WGPubKey p <> ""%string ->
  let k := WGPubKey p in
  let '(d', log) := evictPeerFromPool ok d p now in
  (peers (peerStore d') !! k = None /\ lastAppliedPeerConfigs d' !! k = None
   /\ relayRoutes d' !! k = None /\ directStableCycles d' !! k = None
   /\ peerHealthFailures d' !! k = None /\ lastPeerTransferTotal d' !! k = None
   /\ k ∉ probeSessions d' /\ probeFailures d' !! k = None)
  /\ log = [(WgRemove k, ok (WgRemove k))]
  /\ (forall ps hs t, (t <= now + TemporaryOfflineTTL)%Z ->
        let s := buildDesiredPeerConfigsWithHandshakes d' ps hs t in
        allowed_of (bs_desired s) k = ∅)
  /\ (forall k', k' <> k -> same_at k' d d').
Proof.
  intros Hk k. pose proof (evict_lookup ok d p now Hk) as (H1 & H2 & H3 & H4 & H5 & H6 & H7 & H8 & H9).
  pose proof (evict_frame ok d p now) as Hf. pose proof (proj2 (String.eqb_neq _ _) Hk) as Hk'.
  assert ((evictPeerFromPool ok d p now).2 = [(WgRemove k, ok (WgRemove k))]) as Hl
    by (unfold evictPeerFromPool; by rewrite Hk').
  destruct (evictPeerFromPool ok d p now) as [d' log]. cbn [fst snd] in *.
  split; [done|]. split; [done|]. split; [|exact Hf]. intros ps hs t Ht.
  pose proof (offline_until _ _ _ t Hk H9 Ht) as Hoff.
  destruct (desired_spec d' ps hs t) as (Hd & Hr & _). apply set_eq. intros c. split; [|set_solver].
  intros (q & Hq & Hel & Hvia & _)%Hd. exfalso.
  destruct (relay_for d' _ hs t q) as [r|] eqn:E; cbn in Hvia.
  - destruct (Hr q r E) as (_ & _ & _ & Ho & _). unfold k in *. congruence.
  - destruct Hel as (_ & _ & _ & Ho). unfold k in *. congruence.
Qed.

Lemma eviction_complete_witness :
  let d := set_store sample_daemon (SetPeerDirectly NewPeerStore "p" natted_sample) in
  let d' := (evictPeerFromPool (fun _ => true) d natted_sample 0%Z).1 in
  peers (peerStore d) !! "p"%string = Some natted_sample /\ peers (peerStore d') !! "p"%string = None
  /\ allowed_of (bs_desired (buildDesiredPeerConfigsWithHandshakes d' pair_sample None (30 * second)%Z)) "p" = ∅.
Proof.
  intros d d'. split; [vm_compute; reflexivity|].
  pose proof (eviction_complete (fun _ => true) d natted_sample 0%Z ltac:(by_compute)) as H.
  destruct (evictPeerFromPool (fun _ => true) d natted_sample 0%Z) as [d1 log].
  destruct H as ((H1 & _) & _ & H2 & _). split; [exact H1|]. apply H2. by_compute.
Defined.

(** ** One health check *)

Lemma Remove_ok ps k : store_ok ps -> store_ok (Remove ps k).
Proof. intros H. destruct (run_op_ok ps (OpRemove k) H) as (ps' & [= <-] & H'). done. Qed.

Lemma SetLatency_ok ps k rtt : store_ok ps -> store_ok (SetLatency ps k rtt).
Proof. intros H. destruct (run_op_ok ps (OpSetLatency k rtt) H) as (ps' & [= <-] & H'). done. Qed.

Definition stale_verdict (d : Daemon) (hs : gmap string Z) (tr : gmap string PeerTransfer) (k : string)
    (now : Time) : bool :=
  shouldTreatPeerAsStale (default 0%Z (hs !! k)) (default 0%Z (lastPeerTransferTotal d !! k))
    (transfer_total tr k) now.

(** What a check does to the peer it looks at. *)
Definition checked (d d' : Daemon) (stale : bool) (total : Z) (k : string) (now : Time) : Prop :=
  if stale && Nat.leb 1 (default 0%nat (peerHealthFailures d !! k)) then
    peers (peerStore d') !! k = None /\ temporaryOffline d' !! k = Some (time_add now TemporaryOfflineTTL)
    /\ peerHealthFailures d' !! k = None
  else
    peers (peerStore d') !! k = peers (peerStore d) !! k
    /\ temporaryOffline d' !! k = temporaryOffline d !! k
    /\ peerHealthFailures d' !! k = Some (if stale then 1%nat else 0%nat)
    /\ lastPeerTransferTotal d' !! k = Some total.

Lemma health_peer_checked ok hs tr now d log p :
  let k := WGPubKey p in
  k <> ""%string -> k <> own_key d ->
  checked d (health_peer ok hs tr now (d, log) p).1 (stale_verdict d hs tr k now) (transfer_total tr k) k now.
Proof.
  intros k Hk Ho. unfold health_peer, checked, stale_verdict. fold k.
  pose proof (proj2 (String.eqb_neq _ _) Hk) as Hk'. pose proof (proj2 (String.eqb_neq _ _) Ho) as Ho'.
  rewrite Hk', Ho'. cbn [orb].
  destruct (shouldTreatPeerAsStale _ _ _ _); cbn [negb andb].
  2:{ cbn. by rewrite !lookup_insert_eq. }
  destruct (default 0%nat (peerHealthFailures d !! k)) as [|n] eqn:En; cbn [Nat.eqb Nat.leb].
  - set (d1 := set_health d _ _).
    assert (peerStore (attemptPeerReconnect ok d1 p).1 = peerStore d
            /\ temporaryOffline (attemptPeerReconnect ok d1 p).1 = temporaryOffline d
            /\ peerHealthFailures (attemptPeerReconnect ok d1 p).1 = peerHealthFailures d1
            /\ lastPeerTransferTotal (attemptPeerReconnect ok d1 p).1 = lastPeerTransferTotal d1)
      as (H1 & H2 & H3 & H4) by (unfold attemptPeerReconnect; split_if; done).
    destruct (attemptPeerReconnect ok d1 p) as [d2 l]. cbn [fst] in *. rewrite H1, H2, H3, H4.
    unfold d1. cbn. by rewrite !lookup_insert_eq.
  - set (d1 := set_health d _ _).
    destruct (evict_lookup ok d1 p now Hk) as (H1 & _ & _ & _ & H5 & _ & _ & _ & H9).
    by destruct (evictPeerFromPool ok d1 p now).
Qed.

Lemma checked_same k d d1 d2 d' stale total now :
  same_at k d d1 -> same_at k d2 d' -> checked d1 d2 stale total k now -> checked d d' stale total k now.
Proof.
  intros [] []. unfold checked. rewrite sa_health0, sa_store0, sa_offline0. destruct (_ && _)%bool.
  - rewrite sa_store1, sa_offline1, sa_health1. done.
  - rewrite sa_store1, sa_offline1, sa_health1, sa_transfer1. done.
Qed.

Lemma health_active_elem d ps p :
  p ∈ ps -> WGPubKey p <> ""%string -> WGPubKey p <> own_key d -> WGPubKey p ∈ health_active d ps.
Proof.
  intros. unfold health_active. apply elem_of_list_to_set, list_elem_of_filter.
  split; [done|]. by apply list_elem_of_fmap_2.
Qed.

Lemma lookup_filter_keep {A} (m : gmap string A) (gone : gset string) k :
  k ∉ gone -> filter (fun kv => kv.1 ∉ gone) m !! k = m !! k.
Proof.
  intros Hk. destruct (m !! k) as [a|] eqn:E.
  - by apply map_lookup_filter_Some.
  - apply map_lookup_filter_None. by left.
Qed.

(** One health check, on every branch, for a known active peer.  With a
    fresh handshake, or a growing transfer counter, or no handshake at all,
    the peer is kept and its failure count is reset.  The first stale verdict
    keeps it (a reconnection is attempted); a stale verdict with a failure
    already counted removes it from the store and marks it offline for 30
    seconds.  What happens to other peers in the same check has no influence. *)
Theorem health_check_effect ok d p hs tr now :
  store_ok (peerStore d) -> peers (peerStore d) !! WGPubKey p = Some p -> is_active now p ->
  WGPubKey p <> ""%string -> WGPubKey p <> own_key d ->
  checked d (checkPeerHealth ok d (Ok hs) (Ok tr) now).1
    (stale_verdict d hs tr (WGPubKey p) now) (transfer_total tr (WGPubKey p)) (WGPubKey p) now.
Proof.
  intros Hok Hp Ha Hk Ho. unfold checkPeerHealth.
  pose proof (GetActive_elem _ now p _ Hp Ha) as Hin.
  destruct (health_fold_at ok hs tr now _ d [] p (GetActive_keys _ now Hok) Hin) as (d1 & log1 & Hs1 & Hs2).
  pose proof (health_active_elem d _ p Hin Hk Ho) as Hact.
  destruct (foldl (health_peer ok hs tr now) (d, []) (GetActive (peerStore d) now)) as [d2 log2]. cbn [fst] in *.
  assert (stale_verdict d hs tr (WGPubKey p) now = stale_verdict d1 hs tr (WGPubKey p) now) as ->
    by (unfold stale_verdict; by rewrite (sa_transfer _ _ _ Hs1)).
  apply (checked_same _ d d1 d2); [done| |].
  - constructor; cbn; rewrite ?lookup_filter_keep by set_solver; done.
  - apply (checked_same _ d1 d1 (health_peer ok hs tr now (d1, log1) p).1); [done|done|].
    apply health_peer_checked; [done|]. unfold own_key. by rewrite <- (sa_node _ _ _ Hs1).
Qed.

Definition one_peer_daemon : Daemon :=
  set_store sample_daemon (set_peers NewPeerStore {[ "p"%string := natted_sample ]}).

Lemma one_peer_store_ok : store_ok (peerStore one_peer_daemon).
Proof.
  split.
  - split; [|by_compute]. intros k q Hk. cbn in Hk. apply lookup_singleton_Some in Hk as [<- <-].
    split_and!; by_compute.
  - apply NewPeerStore_ok.
Qed.

Lemma health_check_effect_witness :
  let hs := {[ "p"%string := 500%Z ]} in
  let now := time_unix 1000 in
  let d1 := (checkPeerHealth (fun _ => true) one_peer_daemon (Ok hs) (Ok ∅) now).1 in
  checked one_peer_daemon d1 true 0 "p" now /\ peerHealthFailures d1 !! "p"%string = Some 1%nat.
Proof.
  intros hs now d1. split.
  - refine (health_check_effect (fun _ => true) one_peer_daemon natted_sample hs ∅ now one_peer_store_ok eq_refl _ _ _);
      by_compute.
  - vm_compute. reflexivity.
Defined.

(** ** One round of probes *)

Definition probe_outcome (w : net_world) (d : Daemon) (p : PeerInfo) : bool :=
  (bool_decide (WGPubKey p ∈ probeSessions d) || existsb (nw_dial w) (probe_addrs d p))
  && match nw_answer w (WGPubKey p) with Line l => String.eqb (trim_space l) "pong" | _ => false end.

(** What a round does to a peer it considers. *)
Definition probed (w : net_world) (d d' : Daemon) (hs : gmap string Z) (p : PeerInfo) : Prop :=
  let k := WGPubKey p in
  let n := default 0%nat (probeFailures d !! k) in
  let kept := is_Some (peers (peerStore d') !! k) in
  if fresh_handshake hs k (nw_now w) then
    kept /\ probeFailures d' !! k = Some 0%nat /\ temporaryOffline d' !! k = None
  else if negb (enforced d hs p (nw_now w)) then
    kept /\ probeFailures d' !! k = Some 0%nat /\ temporaryOffline d' !! k = temporaryOffline d !! k
  else if probe_outcome w d p then
    kept /\ probeFailures d' !! k = Some 0%nat /\ temporaryOffline d' !! k = None
  else if Nat.leb MeshProbeFailLimit (S n) then
    peers (peerStore d') !! k = None /\ probeFailures d' !! k = None
    /\ temporaryOffline d' !! k = Some (time_add (nw_now w) TemporaryOfflineTTL)
  else kept /\ probeFailures d' !! k = Some (S n) /\ temporaryOffline d' !! k = temporaryOffline d !! k.

Lemma probePeer_spec w d p d' b :
  WGPubKey p <> ""%string -> probePeer w d p = Some (d', b) ->
  b = probe_outcome w d p /\ probeFailures d' = probeFailures d /\ temporaryOffline d' = temporaryOffline d
  /\ (is_Some (peers (peerStore d) !! WGPubKey p) -> is_Some (peers (peerStore d') !! WGPubKey p)).
Proof.
  intros Hk. unfold probePeer, probe_outcome, getOrDialProbeSession.
  apply String.eqb_neq in Hk. rewrite Hk.
  assert (forall d1, probeFailures d1 = probeFailures d -> temporaryOffline d1 = temporaryOffline d ->
            peerStore d1 = peerStore d ->
            (match nw_answer w (WGPubKey p) with
             | Line line => if negb (String.eqb (trim_space line) "pong") then Some (closeProbeSession d1 (WGPubKey p), false)
                 else if Nat.ltb (String.length (WGPubKey p)) 8 then None
                 else Some (set_store d1 (SetLatency (peerStore d1) (WGPubKey p) (nw_rtt w (WGPubKey p))), true)
             | _ => Some (closeProbeSession d1 (WGPubKey p), false) end) = Some (d', b) ->
            b = match nw_answer w (WGPubKey p) with Line l => String.eqb (trim_space l) "pong" | _ => false end
            /\ probeFailures d' = probeFailures d /\ temporaryOffline d' = temporaryOffline d
            /\ (is_Some (peers (peerStore d) !! WGPubKey p) -> is_Some (peers (peerStore d') !! WGPubKey p))) as Hans.
  { intros d1 H1 H2 H3. destruct (nw_answer w (WGPubKey p)) as [| |l];
      [intros [= <- <-]; cbn; rewrite H3; done..|].
    destruct (String.eqb (trim_space l) "pong"); cbn [negb]; [|intros [= <- <-]; cbn; rewrite H3; done].
    destruct (Nat.ltb _ _); [done|]. intros [= <- <-]. cbn. split_and!; try done. rewrite H3.
    unfold SetLatency. intros [q Hq]. rewrite Hq. cbn. rewrite lookup_insert_eq. done. }
  case_bool_decide; cbn [orb negb].
  - apply Hans; done.
  - destruct (existsb _ _); cbn [negb].
    + apply Hans; done.
    + intros [= <- <-]. done.
Qed.

Lemma probe_step_probed ok w hs d log p acc :
  WGPubKey p <> ""%string -> WGPubKey p <> own_key d -> MeshIP p <> ""%string ->
  is_Some (peers (peerStore d) !! WGPubKey p) ->
  probe_peer_step ok w hs (d, log) p = Some acc -> probed w d acc.1 hs p.
Proof.
  intros Hk Ho Hm Hp. unfold probe_peer_step, probed, clearTemporarilyOffline.
  pose proof (proj2 (String.eqb_neq _ _) Hk) as Hk'. apply String.eqb_neq in Ho, Hm. rewrite Hk', Ho, Hm. cbn [orb].
  destruct (fresh_handshake _ _ _).
  { intros [= <-]. cbn. by rewrite lookup_insert_eq, lookup_delete_eq. }
  destruct (negb (enforced _ _ _ _)).
  { intros [= <-]. cbn. by rewrite lookup_insert_eq. }
  destruct (probePeer w d p) as [[d1 b]|] eqn:E; [|done].
  destruct (probePeer_spec w d p d1 b Hk E) as (-> & Hf & Hoff & Hkeep).
  destruct (probe_outcome w d p).
  { intros [= <-]. cbn. rewrite lookup_insert_eq, lookup_delete_eq. split_and!; [by apply Hkeep|done..]. }
  rewrite Hf. set (n := S _). destruct (Nat.leb MeshProbeFailLimit n).
  - destruct (evict_lookup ok (set_failures d1 (WGPubKey p) n) p (nw_now w) Hk) as (H1 & _ & _ & _ & _ & _ & _ & H8 & H9).
    destruct (evictPeerFromPool _ _ _ _) as [d2 l]. intros [= <-]. done.
  - intros [= <-]. cbn. rewrite lookup_insert_eq, Hoff. split_and!; [by apply Hkeep|done..].
Qed.

Lemma probed_same w k d d1 d2 d' hs p :
  k = WGPubKey p -> same_at k d d1 -> same_at k d2 d' -> probed w d1 d2 hs p -> probed w d d' hs p.
Proof.
  intros -> [] []. unfold probed, enforced, isRelayRoutedPeer, probe_outcome, probe_addrs, healthProbePort.
  rewrite sa_config0, sa_relay0, sa_probe0, sa_offline0, sa_store1, sa_probe1, sa_offline1.
  rewrite (bool_decide_ext _ _ sa_session0). done.
Qed.

Lemma probe_active_elem d ps p :
  p ∈ ps -> WGPubKey p <> ""%string -> WGPubKey p <> own_key d -> MeshIP p <> ""%string ->
  WGPubKey p ∈ probe_active d ps.
Proof.
  intros. unfold probe_active. apply elem_of_list_to_set, list_elem_of_fmap. exists p.
  split; [done|]. by apply list_elem_of_filter.
Qed.

(** One round of probes, on every branch, for a known active peer of a
    round that completes.  A fresh handshake or an answered ping resets the
    failure count and lifts the offline mark; a peer too new to be judged has
    its count reset; an unanswered ping is counted, and the eighth in a row
    removes the peer and marks it offline for 30 seconds. *)
Theorem probe_round_effect ok w d p hs d' log :
  store_ok (peerStore d) -> peers (peerStore d) !! WGPubKey p = Some p -> is_active (nw_now w) p ->
  WGPubKey p <> ""%string -> WGPubKey p <> own_key d -> MeshIP p <> ""%string ->
  probePeersOverMesh ok w d (Ok hs) = Some (d', log) ->
  probed w d d' hs p.
Proof.
  intros Hok Hp Ha Hk Ho Hm. unfold probePeersOverMesh.
  pose proof (GetActive_elem _ (nw_now w) p _ Hp Ha) as Hin.
  pose proof (probe_active_elem d _ p Hin Hk Ho Hm) as Hact.
  destruct (probe_loop ok w hs (d, []) (GetActive (peerStore d) (nw_now w))) as [[d2 log2]|] eqn:E; [|done].
  intros [= <- <-].
  destruct (probe_loop_at ok w hs _ d [] p _ (GetActive_keys _ _ Hok) Hin E) as (d1 & log1 & acc1 & H1 & Hstep & H2).
  assert (same_at (WGPubKey p) d2 (cleanupProbeSessions d2 (probe_active d (GetActive (peerStore d) (nw_now w))))) as H3.
  { constructor; cbn; rewrite ?lookup_filter_keep by set_solver; try done. set_solver. }
  apply (probed_same w (WGPubKey p) d d1 acc1.1); [done|done|by rewrite <- H3|].
  apply (probe_step_probed ok w hs d1 log1 p); try done.
  - unfold own_key. by rewrite <- (sa_node _ _ _ H1).
  - rewrite <- (sa_store _ _ _ H1). by rewrite Hp.
Qed.

(** A network that does not answer. *)
Definition dead_net : net_world :=
  {| nw_now := time_unix 1000; nw_dial := fun _ => false; nw_answer := fun _ => ReadError;
     nw_rtt := fun _ => millisecond |}.

Lemma probe_round_effect_witness :
  let hs := {[ "p"%string := 500%Z ]} in
  let d := set_failures one_peer_daemon "p" 7 in
  exists d' log, probePeersOverMesh (fun _ => true) dead_net d (Ok hs) = Some (d', log)
    /\ probed dead_net d d' hs natted_sample /\ peers (peerStore d') !! "p"%string = None.
Proof.
  intros hs d.
  assert (is_Some (probePeersOverMesh (fun _ => true) dead_net d (Ok hs))) as [[d' log] E]
    by (vm_compute; eexists; reflexivity).
  exists d', log. split; [exact E|].
  assert (probed dead_net d d' hs natted_sample) as H
    by (refine (probe_round_effect (fun _ => true) dead_net d natted_sample hs d' log
                  one_peer_store_ok eq_refl _ _ _ _ E); by_compute).
  split; [exact H|]. exact (proj1 H).
Defined.

(** ** The applied configurations and the interface *)

(** [d] extends [d0] with the operations [l] and keeps the cache coherent. *)
Definition keeps_coherent (d0 d : Daemon) (l : wg_log) : Prop :=
  forall log, coherent (lastAppliedPeerConfigs d0) log -> coherent (lastAppliedPeerConfigs d) (log ++ l).

Lemma keeps_refl d0 d : lastAppliedPeerConfigs d = lastAppliedPeerConfigs d0 -> keeps_coherent d0 d [].
Proof. intros Heq log. by rewrite Heq, app_nil_r. Qed.

Lemma keeps_trans d0 d1 d2 l1 l2 :
  keeps_coherent d0 d1 l1 -> keeps_coherent d1 d2 l2 -> keeps_coherent d0 d2 (l1 ++ l2).
Proof. intros H1 H2 log H. rewrite app_assoc. by apply H2, H1. Qed.

Lemma keeps_weaken d0 d1 d2 l :
  keeps_coherent d0 d1 l -> lastAppliedPeerConfigs d2 = lastAppliedPeerConfigs d1 -> keeps_coherent d0 d2 l.
Proof. intros H Heq log Hlog. rewrite Heq. by apply H. Qed.

Lemma evict_keeps ok d p now :
  keeps_coherent d (evictPeerFromPool ok d p now).1 (evictPeerFromPool ok d p now).2.
Proof.
  unfold evictPeerFromPool. destruct (String.eqb (WGPubKey p) "") eqn:Hk; [by apply keeps_refl|].
  intros log H. cbn [fst snd]. unfold markTemporarilyOffline. rewrite Hk.
  by apply (coherent_forget _ _ (WgRemove (WGPubKey p))).
Qed.

Lemma reconnect_keeps ok d p :
  keeps_coherent d (attemptPeerReconnect ok d p).1 (attemptPeerReconnect ok d p).2.
Proof.
  unfold attemptPeerReconnect. set (o := WgSet _ _ _).
  repeat (case_match; try (by apply keeps_refl)); intros log Hlog; cbn.
  - by apply (coherent_forget _ _ o).
  - by apply coherent_failed.
Qed.

Lemma health_peer_keeps ok hs tr now d log p :
  exists l, (health_peer ok hs tr now (d, log) p).2 = log ++ l
            /\ keeps_coherent d (health_peer ok hs tr now (d, log) p).1 l.
Proof.
  unfold health_peer. destruct (String.eqb (WGPubKey p) "" || _); [exists []; by rewrite app_nil_r; split; [|apply keeps_refl]|].
  set (stale := shouldTreatPeerAsStale _ _ _ _). set (n := if stale then _ else _). set (d1 := set_health _ _ _).
  assert (lastAppliedPeerConfigs d1 = lastAppliedPeerConfigs d) as Hd1 by done.
  destruct (negb stale); [exists []; by rewrite app_nil_r; split; [|apply keeps_refl]|].
  destruct (Nat.eqb n 1).
  - pose proof (reconnect_keeps ok d1 p) as H. destruct (attemptPeerReconnect ok d1 p) as [d2 l].
    exists l. split; [done|]. by apply (keeps_trans d d1 d2 []); [apply keeps_refl|].
  - destruct (Nat.leb 2 n); [|exists []; by rewrite app_nil_r; split; [|apply keeps_refl]].
    pose proof (evict_keeps ok d1 p now) as H. destruct (evictPeerFromPool ok d1 p now) as [d2 l].
    exists l. split; [done|]. by apply (keeps_trans d d1 d2 []); [apply keeps_refl|].
Qed.

Lemma health_fold_keeps ok hs tr now ps d log :
  exists l, (foldl (health_peer ok hs tr now) (d, log) ps).2 = log ++ l
            /\ keeps_coherent d (foldl (health_peer ok hs tr now) (d, log) ps).1 l.
Proof.
  revert d log. induction ps as [|p ps IH]; intros d log.
  - exists []. rewrite app_nil_r. split; [done|by apply keeps_refl].
  - cbn [foldl]. destruct (health_peer_keeps ok hs tr now d log p) as (l1 & Hl1 & Hk1).
    destruct (health_peer ok hs tr now (d, log) p) as [d1 log1]. cbn [fst snd] in *. subst log1.
    destruct (IH d1 (log ++ l1)) as (l2 & -> & Hk2). exists (l1 ++ l2). rewrite app_assoc.
    split; [done|by eapply keeps_trans].
Qed.

Lemma checkPeerHealth_keeps ok d hs tr now :
  keeps_coherent d (checkPeerHealth ok d hs tr now).1 (checkPeerHealth ok d hs tr now).2.
Proof.
  unfold checkPeerHealth. destruct hs as [hs|]; [|by apply keeps_refl]. destruct tr as [tr|]; [|by apply keeps_refl].
  destruct (health_fold_keeps ok hs tr now (GetActive (peerStore d) now) d []) as (l & Hl & Hk).
  destruct (foldl _ _ _) as [d1 log1]. cbn [fst snd] in *. subst log1. by apply (keeps_weaken d d1).
Qed.

Lemma probePeer_applied w d p d' b :
  probePeer w d p = Some (d', b) -> lastAppliedPeerConfigs d' = lastAppliedPeerConfigs d.
Proof.
  unfold probePeer. destruct (String.eqb (WGPubKey p) ""); [by intros [= <- _]|].
  assert (lastAppliedPeerConfigs (getOrDialProbeSession w d p).1 = lastAppliedPeerConfigs d) as H1
    by (unfold getOrDialProbeSession; by split_if).
  destruct (getOrDialProbeSession w d p) as [d1 s]. cbn [fst] in H1. rewrite <- H1.
  destruct (negb s); [by intros [= <- _]|].
  destruct (nw_answer w (WGPubKey p)); [by intros [= <- _]..|].
  destruct (negb _); [by intros [= <- _]|]. destruct (Nat.ltb _ _); [done|]. by intros [= <- _].
Qed.

Lemma probe_step_keeps ok w hs d log p d' log' :
  probe_peer_step ok w hs (d, log) p = Some (d', log') -> exists l, log' = log ++ l /\ keeps_coherent d d' l.
Proof.
  assert (forall d1, lastAppliedPeerConfigs d1 = lastAppliedPeerConfigs d -> exists l, log = log ++ l /\ keeps_coherent d d1 l) as Hsame
    by (intros d1 H1; exists []; by rewrite app_nil_r; split; [|apply keeps_refl]).
  assert (forall k, lastAppliedPeerConfigs (clearTemporarilyOffline d k) = lastAppliedPeerConfigs d) as Hclear
    by (intros k; unfold clearTemporarilyOffline; by destruct (String.eqb k "")).
  unfold probe_peer_step. destruct (_ || _ || _)%bool; [intros [= <- <-]; by apply Hsame|].
  destruct (fresh_handshake _ _ _); [intros [= <- <-]; apply Hsame; cbn; apply Hclear|].
  destruct (negb _); [intros [= <- <-]; by apply Hsame|].
  destruct (probePeer w d p) as [[d1 b]|] eqn:E; [|done].
  pose proof (probePeer_applied w d p d1 b E) as Hd1.
  destruct b.
  - intros [= <- <-]. apply Hsame. unfold clearTemporarilyOffline. by destruct (String.eqb _ "").
  - set (n := S _). destruct (Nat.leb _ _); [|intros [= <- <-]; by apply Hsame].
    pose proof (evict_keeps ok (set_failures d1 (WGPubKey p) n) p (nw_now w)) as H.
    destruct (evictPeerFromPool _ _ _ _) as [d2 l]. intros [= <- <-]. exists l. split; [done|].
    apply (keeps_trans d (set_failures d1 (WGPubKey p) n) d2 []); [|done]. by apply keeps_refl.
Qed.

Lemma probe_loop_keeps ok w hs ps d log d' log' :
  probe_loop ok w hs (d, log) ps = Some (d', log') -> exists l, log' = log ++ l /\ keeps_coherent d d' l.
Proof.
  revert d log. induction ps as [|p ps IH]; intros d log; cbn [probe_loop].
  - intros [= <- <-]. exists []. rewrite app_nil_r. split; [done|by apply keeps_refl].
  - destruct (probe_peer_step ok w hs (d, log) p) as [[d1 log1]|] eqn:E; [|done].
    apply probe_step_keeps in E as (l1 & -> & H1). intros (l2 & -> & H2)%IH.
    exists (l1 ++ l2). rewrite app_assoc. split; [done|by eapply keeps_trans].
Qed.

Lemma reconcile_keeps os w d :
  let '(d', l, _, _) := reconcile os w d in keeps_coherent d d' l.
Proof.
  unfold reconcile. set (s := buildDesiredPeerConfigs _ _ _ _). set (d1 := set_relays _ _ _).
  pose proof (fun log => applyDesired_coherent (w_wg w) d1 (bs_desired s) (w_existing w)
                (w_order w (map_to_list (bs_desired s))) log) as H.
  destruct (applyDesiredPeerConfigs _ _ _ _ _) as [[d2 l] r].
  assert (let '(d3, _, _) := syncPeerRoutes os (w_exec w) d2 (GetActive (peerStore d) (w_now w)) (w_routes w) (w_now w) in
          lastAppliedPeerConfigs d3 = lastAppliedPeerConfigs d2) as H3.
  { unfold syncPeerRoutes. destruct os; [|done]. destruct (desired_routes _ _ _ _ _) as [es off].
    destruct (getCurrentRoutes _); [|done]. destruct (CalculateDiff _ _) as [ta tr].
    by destruct (applyRouteDiff _ _ _ _). }
  destruct (syncPeerRoutes _ _ _ _ _ _) as [[d3 cs] r3].
  assert (lastAppliedPeerConfigs (check_collisions d3).1 = lastAppliedPeerConfigs d3) as H4
    by (unfold check_collisions; by destruct (CheckAndResolveCollisions _ _ _ _ _ _ _)).
  destruct (check_collisions d3) as [d4 addrs]. cbn [fst] in H4.
  intros log Hlog. rewrite H4, H3. by apply H.
Qed.

(** The loops of a daemon, and what one turn of each makes of the daemon and issues
    to WireGuard.  Discovery may change the store in any way between their turns. *)
Inductive source := Reconciling | HealthChecking | Probing | Discovering | Cleaning.
#[export] Instance source_eq_dec : EqDecision source.
Proof. solve_decision. Defined.

Inductive loop_step : source -> Daemon -> Daemon -> wg_log -> Prop :=
| step_reconcile os w d d' l cmds addrs : reconcile os w d = (d', l, cmds, addrs) -> loop_step Reconciling d d' l
| step_health ok d hs tr now d' l : checkPeerHealth ok d hs tr now = (d', l) -> loop_step HealthChecking d d' l
| step_probe ok w d hs d' l : probePeersOverMesh ok w d hs = Some (d', l) -> loop_step Probing d d' l
| step_discovery d ps : loop_step Discovering d (set_store d ps) []
| step_cleanup ok d now d' l : stale_cleanup ok d now = (d', l) -> loop_step Cleaning d d' l.

(** The daemon and the operations issued so far. *)
Definition daemon_step (s s' : Daemon * wg_log) : Prop :=
  exists src l, loop_step src s.1 s'.1 l /\ s'.2 = s.2 ++ l.

(** A run from [d0], turn by turn: who had a turn, and what it issued. *)
Notation turns := (list (source * wg_log)).
Inductive history (d0 : Daemon) : Daemon -> turns -> Prop :=
| history_new : history d0 d0 []
| history_turn src d d' l h : history d0 d h -> loop_step src d d' l -> history d0 d' (h ++ [(src, l)]).

Definition operations (h : turns) : wg_log := concat h.*2.
Definition not_cleaning (h : turns) : turns := filter (fun t => t.1 <> Cleaning) h.

Lemma last_op_app a b k : last_op (a ++ b) k = match last_op b k with Some o => Some o | None => last_op a k end.
Proof. unfold last_op. rewrite filter_app, fmap_app. rewrite last_app. done. Qed.

Lemma operations_snoc h src l : operations (h ++ [(src, l)]) = operations h ++ l.
Proof. unfold operations. rewrite fmap_app, concat_app. cbn. by rewrite app_nil_r. Qed.

(** A turn other than the cleanup keeps the cache coherent with what was issued. *)
Lemma turn_coherent src d d' l : loop_step src d d' l -> src <> Cleaning -> keeps_coherent d d' l.
Proof.
  intros H Hne. destruct H as [os w d d' l cmds addrs E|ok d hs tr now d' l E|ok w d hs d' l E|d ps|]; [..|done].
  - pose proof (reconcile_keeps os w d) as H. by rewrite E in H.
  - pose proof (checkPeerHealth_keeps ok d hs tr now) as H. by rewrite E in H.
  - revert E. unfold probePeersOverMesh. destruct (probe_loop _ _ _ _ _) as [[d1 l1]|] eqn:E; [|done].
    intros [= <- <-]. by apply probe_loop_keeps in E as (l & -> & H).
  - by apply keeps_refl.
Qed.

(** The cleanup issues removals alone and does not look at the cache. *)
Lemma cleaning_removes d d' l : loop_step Cleaning d d' l ->
  lastAppliedPeerConfigs d' = lastAppliedPeerConfigs d /\ forall k o, last_op l k = Some o -> o = WgRemove k.
Proof.
  inversion_clear 1 as [| | | |ok ? now ? ? E]. revert E. unfold stale_cleanup.
  destruct (CleanupStale (peerStore d) now) as [ps removed]. intros [= <- <-]. split; [done|]. intros k o Ho.
  unfold last_op in Ho. apply last_Some_elem_of, list_elem_of_fmap in Ho as (e & -> & He).
  apply list_elem_of_filter in He as [[Hk _] He]. apply list_elem_of_fmap in He as (k' & -> & _). cbn in *. by subst.
Qed.

Lemma history_coherent d0 d h : lastAppliedPeerConfigs d0 = ∅ -> history d0 d h ->
  coherent (lastAppliedPeerConfigs d) (operations (not_cleaning h)).
Proof.
  intros H0. induction 1 as [|src d d' l h _ IH Hst].
  - intros k sig Hk. by rewrite H0, lookup_empty in Hk.
  - unfold not_cleaning in *. rewrite filter_app. destruct (decide (src = Cleaning)) as [->|Hne].
    + rewrite (filter_cons_False _ (Cleaning, l)), filter_nil, app_nil_r by (intros Hx; by apply Hx).
      by rewrite (proj1 (cleaning_removes _ _ _ Hst)).
    + rewrite (filter_cons_True _ (src, l)), filter_nil, operations_snoc by done. by apply (turn_coherent _ _ _ _ Hst Hne).
Qed.

(** The last operation about a peer is the last one issued by the loops that keep the
    cache, or the cleanup removed the peer afterwards. *)
Lemma history_last d0 d h k : history d0 d h ->
  last_op (operations h) k = last_op (operations (not_cleaning h)) k
  \/ exists pre l post, h = pre ++ [(Cleaning, l)] ++ post /\ last_op l k = Some (WgRemove k)
       /\ last_op (operations post) k = None.
Proof.
  induction 1 as [|src d d' l h _ IH Hst]; [by left|]. unfold not_cleaning in *. rewrite filter_app, operations_snoc, last_op_app.
  destruct (decide (src = Cleaning)) as [->|Hne].
  - rewrite (filter_cons_False _ (Cleaning, l)), filter_nil, app_nil_r by (intros Hx; by apply Hx).
    destruct (last_op l k) as [o|] eqn:El.
    + right. exists h, l, []. split; [done|]. split; [|done].
      by rewrite El, (proj2 (cleaning_removes _ _ _ Hst) k o El).
    + destruct IH as [IH|(pre & l' & post & -> & Hr & Hp)]; [by left|right]. exists pre, l', (post ++ [(Cleaning, l)]).
      split; [by rewrite <- !app_assoc|]. split; [done|]. by rewrite operations_snoc, last_op_app, El.
  - rewrite (filter_cons_True _ (src, l)), filter_nil, operations_snoc, last_op_app by done.
    destruct (last_op l k) as [o|] eqn:El; [by left|].
    destruct IH as [IH|(pre & l' & post & -> & Hr & Hp)]; [by left|right]. exists pre, l', (post ++ [(src, l)]).
    split; [by rewrite <- !app_assoc|]. split; [done|]. by rewrite operations_snoc, last_op_app, El.
Qed.

(** C2. What the cache of applied configurations means: from a new daemon, through
    any interleaving of reconciliations, health checks, probe rounds, discovery and
    stale cleanups, with any command failing at any time, a cached signature of a
    peer is that of the last [wg set] about it that succeeded, with no removal since
    by any loop but the stale cleanup; and if it is not the last thing that happened
    to the peer in WireGuard, then the stale cleanup removed the peer afterwards,
    and nothing was done about it since. *)
Theorem applied_cache_truthful c node subnets d h :
  history (NewDaemon c node subnets) d h ->
  forall k sig, lastAppliedPeerConfigs d !! k = Some sig ->
  exists ep csv, sig = ep ^^ "|" ^^ csv
  /\ last_op (operations (not_cleaning h)) k = Some (WgSet k ep csv)
  /\ (last_op (operations h) k = Some (WgSet k ep csv)
       \/ exists pre l post, h = pre ++ [(Cleaning, l)] ++ post /\ last_op l k = Some (WgRemove k)
            /\ last_op (operations post) k = None).
Proof.
  intros H k sig Hk. destruct (history_coherent (NewDaemon c node subnets) d h eq_refl H k sig Hk) as (ep & csv & Hl & ->).
  exists ep, csv. split; [done|]. split; [done|]. rewrite <- Hl. by apply history_last with (NewDaemon c node subnets) d.
Qed.

(** A world where every command succeeds, at second [t]. *)
Definition calm (t : Z) (existing : result (list string)) : world :=
  {| w_now := time_unix t; w_handshakes := Ok ∅; w_existing := existing; w_order := id;
     w_wg := fun _ => true; w_routes := Some ""%string; w_exec := fun _ => true |}.

Definition reconciled (t : Z) (existing : result (list string)) (s : Daemon * wg_log) : Daemon * wg_log :=
  let '(d', l, _, _) := reconcile Linux (calm t existing) s.1 in (d', s.2 ++ l).

Lemma reconciled_turn d0 t existing d h s : history d0 d h -> s.1 = d ->
  exists l, history d0 (reconciled t existing s).1 (h ++ [(Reconciling, l)]) /\ (reconciled t existing s).2 = s.2 ++ l.
Proof.
  unfold reconciled. destruct s as [d1 log]. cbn [fst snd]. intros H ->.
  destruct (reconcile Linux (calm t existing) d) as [[[d' l] cmds] addrs] eqn:E. exists l. split; [|done].
  eapply history_turn; [exact H|by eapply step_reconcile].
Qed.

Definition after_first : Daemon * wg_log := reconciled 1000 (Ok []) (one_peer_daemon, []).

Lemma applied_cache_truthful_witness :
  lastAppliedPeerConfigs after_first.1 !! "p"%string = Some "3.3.3.3:1|10.7.0.9/32"%string
  /\ exists h ep csv, history (NewDaemon (config sample_daemon) (localNode sample_daemon) []) after_first.1 h
                     /\ last_op (operations h) "p" = Some (WgSet "p" ep csv)
                     /\ "3.3.3.3:1|10.7.0.9/32"%string = ep ^^ "|" ^^ csv.
Proof.
  assert (lastAppliedPeerConfigs after_first.1 !! "p"%string = Some "3.3.3.3:1|10.7.0.9/32"%string) as H
    by (vm_compute; reflexivity).
  split; [exact H|]. set (d0 := NewDaemon (config sample_daemon) (localNode sample_daemon) []).
  assert (history d0 one_peer_daemon ([] ++ [(Discovering, [])])) as H1.
  { eapply history_turn; [apply history_new|]. exact (step_discovery d0 (peerStore one_peer_daemon)). }
  destruct (reconciled_turn d0 1000 (Ok []) one_peer_daemon _ (one_peer_daemon, []) H1 eq_refl) as (l & H2 & _).
  destruct (applied_cache_truthful _ _ _ _ _ H2 _ _ H) as (ep & csv & Hs & _ & [Hl|(pre & l' & post & E & _)]).
  - eexists _, ep, csv. split; [exact H2|]. split; [exact Hl|exact Hs].
  - exfalso. destruct pre as [|? [|? [|? ?]]]; cbn in E; discriminate E.
Defined.

(** The second case happens: when [wg show peers] fails
    while a peer is silent, the cleanup removes the peer from WireGuard and
    leaves its cached signature, and when the peer comes back with the same
    endpoint the reconciliation believes it is still configured. *)
Definition after_cleanup : Daemon * wg_log :=
  let s := reconciled 1400 (Err "wg show peers failed") after_first in
  let '(d, l) := stale_cleanup (fun _ => true) s.1 (time_unix 1700) in (d, s.2 ++ l).
Definition after_return : Daemon * wg_log :=
  reconciled 1701 (Ok [])
    (set_store after_cleanup.1 (set_peers NewPeerStore {[ "p"%string := with_last_seen (time_unix 1700) natted_sample ]}),
     after_cleanup.2).

Example cleanup_leaves_cache_entry :
  last_op after_cleanup.2 "p" = Some (WgRemove "p") /\ after_return.2 = after_cleanup.2
  /\ bool_decide (is_active (time_unix 1701) (with_last_seen (time_unix 1700) natted_sample)) = true.
Proof. vm_compute. split_and!; reflexivity. Qed.

(** A peer with a key of less than 8 characters that answers a ping makes the
    probe round panic. *)
Example short_key_panics :
  probePeersOverMesh (fun _ => true)
    {| nw_now := time_unix 1000; nw_dial := fun _ => true;
       nw_answer := fun _ => Line ("pong" ^^ String newline EmptyString); nw_rtt := fun _ => millisecond |}
    one_peer_daemon (Ok {["p"%string := 500%Z]}) = None.
Proof. vm_compute. reflexivity. Qed.
