(* ===== verification/Endpoints.v ===== *)
(** * Endpoints and candidates (helpers of pkg/discovery/exchange.go and dht.go)

    What discovery does with the [host:port] strings peers advertise: replacing
    a wildcard host by the sender's address, dropping what cannot be used, and
    the candidate lists of a NAT punch.  A nil [net.IP] is the empty list. *)

From S2P Require Import Prelude GoStrings GoNet GoCrypto GoJson NodeConfig.
Local Open Scope wgmesh_scope.

Definition wildcard_host (host : string) : bool :=
  String.eqb host "" || String.eqb host "0.0.0.0" || String.eqb host "::".

(** [sender != nil && sender.IP != nil]. *)
Definition sender_ip (sender : option UDPAddr) : option (list Z) :=
  match sender with
  | Some a => match ua_ip a with [] => None | ip => Some ip end
  | None => None
  end.

Definition resolvePeerEndpoint (advertised : string) (sender : option UDPAddr) : string :=
  let fallback :=
    match sender_ip sender with
    | Some ip => join_host_port (ip_string ip) (itoa DefaultWGPort)
    | None => ""%string
    end in
  match split_host_port advertised with
  | Some (host, port) =>
      let resolvedHost :=
        if wildcard_host host then
          match sender_ip sender with Some ip => ip_string ip | None => host end
        else host in
      if String.eqb resolvedHost "" then fallback else join_host_port resolvedHost port
  | None => fallback
  end.

Definition normalizeKnownPeerEndpoint (endpoint : string) : string :=
  if String.eqb endpoint "" then ""
  else match split_host_port endpoint with
       | None => ""
       | Some (host, _) => if wildcard_host host then "" else endpoint
       end.

Definition isIPv6Endpoint (endpoint : string) : bool := endpoint_is_v6 endpoint.

Definition filterEndpointForConfig (endpoint : string) (disableIPv6 : bool) : string :=
  if String.eqb endpoint "" then ""
  else if disableIPv6 && isIPv6Endpoint endpoint then ""
  else endpoint.

(** The loops over candidates: [norm] each, drop the empty ones and those
    already seen. *)
Fixpoint dedup_loop (norm : string -> string) (seen : gset string) (cs : list string) : list string :=
  match cs with
  | [] => []
  | c :: cs' =>
      let n := norm c in
      if String.eqb n "" || bool_decide (n ∈ seen) then dedup_loop norm seen cs'
      else n :: dedup_loop norm ({[ n ]} ∪ seen) cs'
  end.

Definition normalizeCandidates (candidates : list string) : list string :=
  dedup_loop normalizeKnownPeerEndpoint ∅ candidates.

Definition filterCandidatesForConfig (candidates : list string) (disableIPv6 : bool) : list string :=
  dedup_loop (fun c => filterEndpointForConfig c disableIPv6) ∅ candidates.

(** The ports tried for one candidate, in order: the port, then for each
    [delta] the one below and the one above. *)
Definition spread_ports (port spread : Z) : list Z :=
  port :: flat_map (fun delta =>
    (if 0 <? port - delta then [port - delta] else [])
    ++ (if port + delta <=? 65535 then [port + delta] else []))%Z
    (Z.of_nat <$> seq 1 (Z.to_nat spread)).

Definition spread_candidate (spread : Z) (candidate : string) : list string :=
  match split_host_port candidate with
  | None => []
  | Some (host, portStr) =>
      match atoi portStr with
      | None => []
      | Some port => (fun p => join_host_port host (itoa p)) <$> spread_ports port spread
      end
  end.

(** [appendCandidate]: keep the first occurrence. *)
Fixpoint first_occurrences (seen : gset string) (cs : list string) : list string :=
  match cs with
  | [] => []
  | c :: cs' =>
      if bool_decide (c ∈ seen) then first_occurrences seen cs'
      else c :: first_occurrences ({[ c ]} ∪ seen) cs'
  end.

Definition expandCandidatePorts (candidates : list string) (spread : Z) : list string :=
  if Nat.eqb (length candidates) 0 || (spread <=? 0)%Z then candidates
  else first_occurrences ∅ (flat_map (spread_candidate spread) candidates).

Definition controlEndpointFromPeerEndpoint (endpoint : string) (controlPort : Z) : string :=
  if String.eqb endpoint "" || (controlPort <=? 0)%Z then ""
  else match split_host_port endpoint with
       | None => ""
       | Some (host, _) =>
           if wildcard_host host then "" else join_host_port host (itoa controlPort)
       end.

(** ** Pair identifiers (dht.go) *)

Definition pairSeed (a b : string) : Z :=
  let '(a, b) := if str_lt b a then (b, a) else (a, b) in
  fnv64a (bytes_of_string a ++ [0%Z] ++ bytes_of_string b).

Definition pairIDForPeers (a b : string) : string := hex_pad 16 (pairSeed a b).

Definition shortKey (key : string) : string :=
  if Nat.leb (String.length key) 8 then key else str_take 8 key ^^ "...".

(** ** Lemmas *)

(** Both ends of a pair compute the same identifier. *)
Lemma pairSeed_sym a b : pairSeed a b = pairSeed b a.
Proof.
  unfold pairSeed. destruct (decide (a = b)) as [->|Hne]; [done|].
  rewrite (str_lt_asym b a) by congruence. by destruct (str_lt a b).
Qed.

Lemma pairIDForPeers_sym a b : pairIDForPeers a b = pairIDForPeers b a.
Proof. unfold pairIDForPeers. by rewrite pairSeed_sym. Qed.

Lemma hex_pad_length w n : String.length (hex_pad w n) = w.
Proof.
  revert n. induction w as [|w IH]; intros n; [done|]. simpl.
  rewrite length_app_str, IH. simpl. lia.
Qed.

Lemma pairID_nonempty a b : pairIDForPeers a b <> ""%string.
Proof. intros H. pose proof (hex_pad_length 16 (pairSeed a b)) as Hl. unfold pairIDForPeers in H. by rewrite H in Hl. Qed.

Lemma dedup_loop_spec norm seen cs :
  NoDup (dedup_loop norm seen cs)
  /\ forall x, x ∈ dedup_loop norm seen cs <->
       x ∉ seen /\ x <> ""%string /\ exists c, c ∈ cs /\ norm c = x.
Proof.
  revert seen. induction cs as [|c cs IH]; intros seen; simpl.
  { split; [apply NoDup_nil_2|]. set_solver. }
  destruct (String.eqb_spec (norm c) "") as [He|He]; simpl.
  { destruct (IH seen) as [Hn Hi]. split; [done|]. intros x. rewrite Hi. set_solver. }
  case_bool_decide as Hs.
  { destruct (IH seen) as [Hn Hi]. split; [done|]. intros x. rewrite Hi. set_solver. }
  destruct (IH ({[norm c]} ∪ seen)) as [Hn Hi]. split.
  { apply NoDup_cons. split; [|done]. rewrite Hi. set_solver. }
  intros x. rewrite elem_of_cons, Hi. split.
  - intros [->|(Hx & Hne & c' & Hc' & <-)]; [split; [done|]; split; [done|]; exists c; set_solver|].
    split; [set_solver|]. split; [done|]. exists c'. set_solver.
  - intros (Hx & Hne & c' & Hc' & <-). destruct (decide (norm c' = norm c)) as [->|Hd]; [by left|].
    right. split; [set_solver|]. split; [done|]. exists c'. split; [|done].
    apply elem_of_cons in Hc' as [->|]; [done|done].
Qed.

Lemma filterEndpoint_Some e b x :
  filterEndpointForConfig e b = x -> x <> ""%string -> x = e /\ (b = true -> isIPv6Endpoint e = false).
Proof.
  unfold filterEndpointForConfig. destruct (String.eqb_spec e ""); [congruence|].
  destruct b; simpl; [|by intros <-]. by destruct (isIPv6Endpoint e); [congruence|intros <-].
Qed.

Lemma normalize_Some e x :
  normalizeKnownPeerEndpoint e = x -> x <> ""%string ->
  x = e /\ exists h p, split_host_port e = Some (h, p) /\ wildcard_host h = false.
Proof.
  unfold normalizeKnownPeerEndpoint. destruct (String.eqb_spec e ""); [congruence|].
  destruct (split_host_port e) as [[h p]|] eqn:Hs; [|congruence].
  destruct (wildcard_host h) eqn:Hw; [congruence|]. intros <- _. eauto.
Qed.

(** Nothing is filtered when the list already satisfies the filter. *)
Lemma filterCandidates_spec cs b :
  NoDup (filterCandidatesForConfig cs b)
  /\ forall x, x ∈ filterCandidatesForConfig cs b <->
       x ∈ cs /\ x <> ""%string /\ (b = true -> isIPv6Endpoint x = false).
Proof.
  destruct (dedup_loop_spec (fun c => filterEndpointForConfig c b) ∅ cs) as [Hn Hi].
  split; [done|]. intros x. unfold filterCandidatesForConfig. rewrite Hi. split.
  - intros (_ & Hne & c & Hc & Hx). destruct (filterEndpoint_Some _ _ _ Hx Hne) as [-> H]. done.
  - intros (Hx & Hne & Hb). split; [set_solver|]. split; [done|]. exists x. split; [done|].
    unfold filterEndpointForConfig. rewrite (proj2 (String.eqb_neq x "") Hne).
    destruct b; simpl; [by rewrite Hb|done].
Qed.

Lemma normalizeCandidates_spec cs :
  NoDup (normalizeCandidates cs)
  /\ forall x, x ∈ normalizeCandidates cs <->
       x ∈ cs /\ exists h p, split_host_port x = Some (h, p) /\ wildcard_host h = false.
Proof.
  destruct (dedup_loop_spec normalizeKnownPeerEndpoint ∅ cs) as [Hn Hi].
  split; [done|]. intros x. unfold normalizeCandidates. rewrite Hi. split.
  - intros (_ & Hne & c & Hc & Hx). by destruct (normalize_Some _ _ Hx Hne) as [-> ?].
  - intros (Hx & h & p & Hs & Hw). assert (x <> ""%string) as Hne by (intros ->; done).
    split; [set_solver|]. split; [done|]. exists x. split; [done|].
    unfold normalizeKnownPeerEndpoint. rewrite (proj2 (String.eqb_neq x "") Hne), Hs. by rewrite Hw.
Qed.

Lemma first_occurrences_spec seen cs :
  NoDup (first_occurrences seen cs)
  /\ forall x, x ∈ first_occurrences seen cs <-> x ∉ seen /\ x ∈ cs.
Proof.
  revert seen. induction cs as [|c cs IH]; intros seen; simpl.
  { split; [apply NoDup_nil_2|]. set_solver. }
  case_bool_decide as Hs.
  { destruct (IH seen) as [Hn Hi]. split; [done|]. intros x. rewrite Hi. set_solver. }
  destruct (IH ({[c]} ∪ seen)) as [Hn Hi]. split.
  { apply NoDup_cons. split; [|done]. rewrite Hi. set_solver. }
  intros x. rewrite elem_of_cons, Hi. destruct (decide (x = c)) as [->|]; set_solver.
Qed.

(** ** Addresses printed and split again *)

Lemma cut_last_spec c s before after :
  cut_last c s = Some (before, after) ->
  s = before ^^ String c after /\ contains_char c after = false.
Proof.
  revert before. induction s as [|d s IH]; intros before; simpl; [done|].
  destruct (cut_last c s) as [[b a]|] eqn:E.
  - intros [= <- <-]. destruct (IH b eq_refl) as [-> Ha]. done.
  - destruct (Ascii.eqb_spec d c) as [->|]; [|done]. intros [= <- <-]. split; [done|].
    clear IH. revert E. induction s as [|e s IH]; [done|]. simpl.
    destruct (cut_last c s) as [[]|]; [done|]. destruct (Ascii.eqb e c); [done|]. intros _. by apply IH.
Qed.

Lemma cut_char_spec c s before after :
  cut_char c s = Some (before, after) -> s = before ^^ String c after.
Proof.
  revert before. induction s as [|d s IH]; intros before; simpl; [done|].
  destruct (Ascii.eqb_spec d c) as [->|]; [by intros [= <- <-]|].
  destruct (cut_char c s) as [[b a]|] eqn:E; [|done]. intros [= <- <-]. by rewrite (IH b).
Qed.

Lemma plain_of_absent s :
  contains_char ":" s = false -> contains_char "[" s = false -> contains_char "]" s = false ->
  string_forall plain_char s = true.
Proof.
  induction s as [|c s IH]; [done|]. simpl. intros H1 H2 H3. bool_steps.
  rewrite IH by done. unfold plain_char.
  repeat match goal with E : Ascii.eqb c _ = false |- _ => rewrite E end. done.
Qed.

(** The port of a split is plain text. *)
Lemma split_port_plain s h p : split_host_port s = Some (h, p) -> string_forall plain_char p = true.
Proof.
  unfold split_host_port. destruct (cut_last ":" s) as [[before port]|] eqn:Ec; [|done].
  apply cut_last_spec in Ec as [Hs Hport].
  assert ((if contains_char ":" before then None
            else if contains_char "[" s || contains_char "]" s then None
            else Some (before, port)) = Some (h, p) -> string_forall plain_char p = true) as Hplain.
  { destruct (contains_char ":" before); [done|].
    destruct (_ || _) eqn:E; [done|]. intros [= <- <-]. bool_steps.
    rewrite Hs in H, H0. rewrite contains_char_app in H, H0. bool_steps. simpl in *.
    by apply plain_of_absent. }
  destruct s as [|c rest]; [exact Hplain|].
  destruct (Ascii.eqb_spec c "[") as [->|Hc].
  - destruct (cut_char "]" rest) as [[host after]|] eqn:Eb; [|done].
    apply cut_char_spec in Eb. destruct after as [|d q]; [done|].
    destruct (Ascii.eqb_spec d ":") as [->|Hd]; [|by destruct d as [[] [] [] [] [] [] [] []]].
    clear Hplain. destruct (contains_char ":" q) eqn:E1; [done|].
    destruct (contains_char "[" rest || contains_char "]" q) eqn:E2; [done|].
    intros [= <- <-]. bool_steps. rewrite Eb, contains_char_app in H. bool_steps. simpl in *.
    by apply plain_of_absent.
  - intros H. apply Hplain. by destruct c as [[] [] [] [] [] [] [] []].
Qed.

Lemma host_itoa z : string_forall host_char (itoa z) = true.
Proof.
  assert (forall d, string_forall is_digit d = true -> string_forall host_char d = true) as Hd.
  { induction d as [|c d IH]; [done|]. simpl. intros H. bool_steps. rewrite IH by done.
    unfold is_digit, host_char in *. by destruct c as [[] [] [] [] [] [] [] []]. }
  destruct (itoa_canon z) as [[H _]|(d & -> & [H _])]; [by apply Hd|]. simpl. by apply Hd.
Qed.

Lemma host_hex_pad w n : string_forall host_char (hex_pad w n) = true.
Proof.
  revert n. induction w as [|w IH]; intros n; [done|]. simpl.
  rewrite string_forall_app, IH. simpl. rewrite andb_true_r.
  pose proof (Z.mod_pos_bound n 16 ltac:(lia)) as Hr. generalize dependent (n mod 16)%Z. intros r Hr.
  assert (r ∈ (Z.of_nat <$> seq 0 16)) as Hin.
  { apply list_elem_of_fmap. exists (Z.to_nat r). split; [lia|]. apply elem_of_seq. lia. }
  clear Hr. revert r Hin. apply (proj1 (Forall_forall _ _)). repeat constructor.
Qed.

Lemma host_join sep (ws : list string) :
  string_forall host_char sep = true -> Forall (fun w => string_forall host_char w = true) ws ->
  string_forall host_char (join sep ws) = true.
Proof.
  intros Hs H. induction H as [|w ws Hw Hws IH]; [done|]. simpl. destruct ws; [done|].
  by rewrite !string_forall_app, Hw, Hs, IH.
Qed.

Lemma host_ip_string ip : string_forall host_char (ip_string ip) = true.
Proof.
  assert (forall gs, string_forall host_char (join ":" (hex16 <$> gs)) = true) as Hg.
  { intros gs. apply host_join; [done|]. apply Forall_fmap, Forall_true. intros n. simpl. unfold hex16.
    split_if; apply host_hex_pad. }
  unfold ip_string. destruct (to4 ip).
  - unfold ipv4_string. apply host_join; [done|]. apply Forall_fmap, Forall_true. intros n. apply host_itoa.
  - unfold ipv6_string. cbv zeta. destruct (best_run _ _ _) as [st l]. destruct (Nat.eqb l 0); [apply Hg|].
    by rewrite !string_forall_app, !Hg.
Qed.

(** An address splits into its IP and its port. *)
Lemma split_udp_addr a : (0 <= ua_port a)%Z ->
  split_host_port (udp_addr_string a) = Some (ip_string (ua_ip a), itoa (ua_port a)).
Proof. intros H. apply split_join_host_port; [apply host_ip_string|by apply itoa_plain]. Qed.
