(* ===== verification/Stun.v ===== *)
(** * STUN (pkg/discovery/stun.go)

    The binding request, the parser of the response with the 16-bit arithmetic
    and the slice bounds of the source, and the classification of the NAT.
    Sockets are arguments: what was resolved, whether the datagram was sent and
    what was read. *)

From S2P Require Import Prelude GoStrings GoNet GoCrypto.
Local Open Scope wgmesh_scope.
Local Open Scope Z_scope.

(** How a call ends: with a value, with a run-time panic, or not within the
    steps it was given. *)
Inductive go_run (A : Type) : Type :=
| Returned (a : A)
| Panicked
| Running.
Arguments Returned {A} _.
Arguments Panicked {A}.
Arguments Running {A}.

Definition stunBindingRequest : Z := 1.
Definition stunBindingResponse : Z := 257.
Definition stunMagicCookie : Z := 554869826.
Definition stunHeaderSize : nat := 20.
Definition stunAttrMappedAddress : Z := 1.
Definition stunAttrXORMappedAddress : Z := 32.

Definition DefaultSTUNServers : list string :=
  ["stun.l.google.com:19302"; "stun1.l.google.com:19302"; "stun.cloudflare.com:3478"]%string.

(** [binary.BigEndian.Uint16(data[i:i+2])]. *)
Definition get16 (data : list Z) (i : nat) : Z := be_uint (take 2 (drop i data)).

(** [txn] is the draw of [crypto/rand]. *)
Definition buildBindingRequest (txn : list Z) : list Z :=
  be_bytes 2 stunBindingRequest ++ be_bytes 2 0 ++ be_bytes 4 stunMagicCookie ++ txn.

Definition parseXORMappedAddress (val txnID : list Z) : result (list Z * Z) :=
  if Nat.ltb (length val) 4 then Err "XOR-MAPPED-ADDRESS too short"
  else
    let family := nth 1 val 0 in
    let port := Z.lxor (get16 val 2) (Z.shiftr stunMagicCookie 16) in
    if family =? 1 then
      if Nat.ltb (length val) 8 then Err "XOR-MAPPED-ADDRESS IPv4 too short"
      else Ok (zip_with Z.lxor (take 4 (drop 4 val)) (be_bytes 4 stunMagicCookie), port)
    else if family =? 2 then
      if Nat.ltb (length val) 20 then Err "XOR-MAPPED-ADDRESS IPv6 too short"
      else Ok (zip_with Z.lxor (take 16 (drop 4 val)) (be_bytes 4 stunMagicCookie ++ txnID), port)
    else Err "unknown address family".

Definition parseMappedAddress (val : list Z) : result (list Z * Z) :=
  if Nat.ltb (length val) 4 then Err "MAPPED-ADDRESS too short"
  else
    let family := nth 1 val 0 in
    let port := get16 val 2 in
    if family =? 1 then
      if Nat.ltb (length val) 8 then Err "MAPPED-ADDRESS IPv4 too short"
      else Ok (take 4 (drop 4 val), port)
    else if family =? 2 then
      if Nat.ltb (length val) 20 then Err "MAPPED-ADDRESS IPv6 too short"
      else Ok (take 16 (drop 4 val), port)
    else Err "unknown address family".

(** After the loop: the MAPPED-ADDRESS seen last, if any. *)
Definition mapped_or_error (mapped : option (list Z * Z)) : result (list Z * Z) :=
  match mapped with Some m => Ok m | None => Err "no mapped address in response" end.

(** [padLen], a [uint16]. *)
Definition pad_len (valLen : Z) : Z :=
  if valLen mod 4 =? 0 then valLen else u16 (valLen + (4 - valLen mod 4)).

(** The loop over the attributes.  [4+valLen] and [4+padLen] are [uint16]s: the
    bounds of the slices are what is left of them after the wrap-around, and a
    slice whose bounds are out of order or past the end panics. *)
Fixpoint parse_attrs (fuel : nat) (txnID attrs : list Z) (mapped : option (list Z * Z))
  : go_run (result (list Z * Z)) :=
  match fuel with
  | O => Running
  | S fuel =>
      if Nat.ltb (length attrs) 4 then Returned (mapped_or_error mapped)
      else
        let attrType := get16 attrs 0 in
        let valLen := get16 attrs 2 in
        let padLen := pad_len valLen in
        let len := Z.of_nat (length attrs) in
        if len <? u16 (4 + valLen) then Returned (mapped_or_error mapped)
        else if u16 (4 + valLen) <? 4 then Panicked
        else
          let val := take (Z.to_nat (u16 (4 + valLen) - 4)) (drop 4 attrs) in
          let next mapped :=
            if len <? u16 (4 + padLen) then Panicked
            else parse_attrs fuel txnID (drop (Z.to_nat (u16 (4 + padLen))) attrs) mapped in
          if attrType =? stunAttrXORMappedAddress then
            match parseXORMappedAddress val txnID with
            | Ok r => Returned (Ok r)
            | Err _ => next mapped
            end
          else if attrType =? stunAttrMappedAddress then
            next (match parseMappedAddress val with Ok r => Some r | Err _ => mapped end)
          else next mapped
  end.

Definition parseBindingResponse (data txnID : list Z) : go_run (result (list Z * Z)) :=
  if Nat.ltb (length data) stunHeaderSize then Returned (Err "response too short")
  else if negb (get16 data 0 =? stunBindingResponse) then Returned (Err "unexpected message type")
  else if negb (be_uint (take 4 (drop 4 data)) =? stunMagicCookie) then Returned (Err "invalid magic cookie")
  else if negb (bool_decide (take 12 (drop 8 data) = txnID)) then Returned (Err "transaction ID mismatch")
  else
    let attrLen := get16 data 2 in
    if Z.of_nat (length data - stunHeaderSize) <? attrLen then Returned (Err "attribute length exceeds data")
    else
      let attrs := take (Z.to_nat attrLen) (drop stunHeaderSize data) in
      parse_attrs (S (length attrs)) txnID attrs None.

(** ** Queries *)

Definition stun_buffer : nat := 512.

(** [ip.Equal(x)]: an IPv4 address equals its 16-byte form. *)
Definition ip_equal (ip x : list Z) : bool :=
  bool_decide (ip = x)
  || (Nat.eqb (length ip) 4 && Nat.eqb (length x) 16 && bool_decide (x = v4_in_v6_prefix ++ ip))
  || (Nat.eqb (length ip) 16 && Nat.eqb (length x) 4 && bool_decide (ip = v4_in_v6_prefix ++ x)).

(** One query on a socket: the server's address, the transaction drawn, whether
    the request went out, and the first datagram read (sender and bytes). *)
Record stun_io := {
  io_server : option (list Z);
  io_txn : list Z;
  io_sent : bool;
  io_read : option (list Z * list Z);
}.

Definition stunQueryConn (io : stun_io) : go_run (result (list Z * Z)) :=
  match io_server io with
  | None => Returned (Err "resolve")
  | Some raddr =>
      let txnID := take 12 (drop 8 (buildBindingRequest (io_txn io))) in
      if negb (io_sent io) then Returned (Err "send")
      else match io_read io with
      | None => Returned (Err "read")
      | Some (sender, data) =>
          if negb (ip_equal sender raddr) then Returned (Err "STUN response from unexpected sender")
          else parseBindingResponse (take stun_buffer data) txnID
      end
  end.

(** [STUNQuery] binds a socket of its own after resolving the server. *)
Definition STUNQuery (bound : bool) (io : stun_io) : go_run (result (list Z * Z)) :=
  match io_server io with
  | None => Returned (Err "resolve STUN server")
  | Some _ => if negb bound then Returned (Err "bind UDP") else stunQueryConn io
  end.

Fixpoint DiscoverExternalEndpoint (queries : list (bool * stun_io)) : go_run (result (list Z * Z)) :=
  match queries with
  | [] => Returned (Err "all STUN servers failed")
  | (bound, io) :: rest =>
      match STUNQuery bound io with
      | Returned (Ok r) => Returned (Ok r)
      | Returned (Err _) => DiscoverExternalEndpoint rest
      | Panicked => Panicked
      | Running => Running
      end
  end.

Inductive NATType := NATUnknown | NATCone | NATSymmetric.

Definition nat_type_string (t : NATType) : string :=
  match t with NATUnknown => "unknown" | NATCone => "cone" | NATSymmetric => "symmetric" end.

(** The comparison at the end of [DetectNATType]. *)
Definition classify (r1 r2 : result (list Z * Z)) : result (NATType * list Z * Z) :=
  match r1, r2 with
  | Err _, Err _ => Err "both STUN servers failed"
  | Err _, Ok (ip2, port2) => Ok (NATUnknown, ip2, port2)
  | Ok (ip1, port1), Err _ => Ok (NATUnknown, ip1, port1)
  | Ok (ip1, port1), Ok (ip2, port2) =>
      if ip_equal ip1 ip2 && (port1 =? port2) then Ok (NATCone, ip1, port1)
      else Ok (NATSymmetric, ip1, port1)
  end.

Definition DetectNATType (bound : bool) (io1 io2 : stun_io) : go_run (result (NATType * list Z * Z)) :=
  if negb bound then Returned (Err "bind UDP for NAT detection")
  else
    match stunQueryConn io1 with
    | Returned r1 =>
        match stunQueryConn io2 with
        | Returned r2 => Returned (classify r1 r2)
        | Panicked => Panicked
        | Running => Running
        end
    | Panicked => Panicked
    | Running => Running
    end.

(** ** Messages of a compliant server *)

(** An attribute with its padding bytes, whose content is free. *)
Record attribute := { at_type : Z; at_value : list Z; at_pad : list Z }.

Definition encode_attr (a : attribute) : list Z :=
  be_bytes 2 (at_type a) ++ be_bytes 2 (Z.of_nat (length (at_value a))) ++ at_value a ++ at_pad a.

Definition encode_attrs (l : list attribute) : list Z := l ≫= encode_attr.

(** A type of 16 bits, and padding up to the next multiple of four. *)
Definition attr_ok (a : attribute) : Prop :=
  0 <= at_type a < 65536
  /\ Z.of_nat (length (at_pad a)) = (- Z.of_nat (length (at_value a))) mod 4.

(** A message of the given type with the given attribute bytes. *)
Definition stun_message (txn body : list Z) : list Z :=
  be_bytes 2 stunBindingResponse ++ be_bytes 2 (Z.of_nat (length body)) ++ be_bytes 4 stunMagicCookie
  ++ txn ++ body.

Definition ok_value {A} (r : result A) : option A := match r with Ok a => Some a | Err _ => None end.

(** What the loop finds: the XOR-MAPPED-ADDRESSes and MAPPED-ADDRESSes it can decode. *)
Definition xor_answers (txn : list Z) (l : list attribute) : list (list Z * Z) :=
  omap (fun a => if at_type a =? stunAttrXORMappedAddress
                 then ok_value (parseXORMappedAddress (at_value a) txn) else None) l.
Definition mapped_answers (l : list attribute) : list (list Z * Z) :=
  omap (fun a => if at_type a =? stunAttrMappedAddress
                 then ok_value (parseMappedAddress (at_value a)) else None) l.

(** The value of a XOR-MAPPED-ADDRESS for an address. *)
Definition xor_value (txn ip : list Z) (port : Z) : list Z :=
  [0; if Nat.eqb (length ip) 4 then 1 else 2] ++ be_bytes 2 (Z.lxor port (Z.shiftr stunMagicCookie 16))
  ++ zip_with Z.lxor ip (be_bytes 4 stunMagicCookie ++ txn).

(** ** Reading numbers back *)

Lemma be_bytes_S n x : be_bytes (S n) x = (Z.shiftr x (8 * Z.of_nat n) mod 256) :: be_bytes n x.
Proof. unfold be_bytes. by rewrite seq_S, rev_app_distr. Qed.

Lemma be_uint_be_bytes n x : be_uint (be_bytes n x) = x mod 256 ^ Z.of_nat n.
Proof.
  induction n as [|n IH]; [unfold be_uint; simpl; by rewrite Z.mod_1_r|].
  rewrite be_bytes_S, be_uint_cons, IH, be_bytes_length.
  rewrite Z.shiftr_div_pow2 by lia. replace (2 ^ (8 * Z.of_nat n)) with (256 ^ Z.of_nat n)
    by (rewrite Z.pow_mul_r by lia; done).
  assert (0 < 256 ^ Z.of_nat n) by (apply Z.pow_pos_nonneg; lia).
  rewrite Nat2Z.inj_succ, Z.pow_succ_r by lia. rewrite (Z.mul_comm 256 (256 ^ _)), Z.rem_mul_r by lia. lia.
Qed.

Lemma get16_be x rest : 0 <= x < 65536 -> get16 (be_bytes 2 x ++ rest) 0 = x.
Proof.
  intros Hx. unfold get16. rewrite drop_0, take_app_le by (rewrite be_bytes_length; lia).
  rewrite take_ge by (rewrite be_bytes_length; lia). rewrite be_uint_be_bytes. apply Z.mod_small. lia.
Qed.

Lemma get16_drop l i : get16 l i = get16 (drop i l) 0.
Proof. unfold get16. by rewrite drop_0. Qed.

Lemma drop_be n x rest : drop n (be_bytes n x ++ rest) = rest.
Proof. rewrite drop_app_ge; rewrite be_bytes_length; [|lia]. by rewrite Nat.sub_diag, drop_0. Qed.

Lemma u16_small x : 0 <= x < 65536 -> u16 x = x.
Proof. apply Z.mod_small. Qed.

(** The header of a message with a body of 16-bit length passes the checks. *)
Lemma parse_message txn body extra : length txn = 12%nat -> Z.of_nat (length body) < 65536 ->
  parseBindingResponse (stun_message txn body ++ extra) txn = parse_attrs (S (length body)) txn body None.
Proof.
  intros Ht Hb. unfold parseBindingResponse, stun_message.
  set (len := Z.of_nat (length body)). assert (0 <= len < 65536) as Hlen by lia.
  rewrite <- !app_assoc.
  assert (Nat.ltb (length (be_bytes 2 stunBindingResponse ++ be_bytes 2 len ++ be_bytes 4 stunMagicCookie
            ++ txn ++ body ++ extra)) stunHeaderSize = false) as ->.
  { apply Nat.ltb_ge. rewrite !length_app, !be_bytes_length. unfold stunHeaderSize. lia. }
  rewrite get16_be by done. cbn [negb Z.eqb]. change (stunBindingResponse =? stunBindingResponse) with true.
  cbn [negb]. rewrite (drop_app_add' _ _ 2 2), drop_be by (by rewrite be_bytes_length).
  rewrite take_app_le by (by rewrite be_bytes_length). rewrite take_ge by (by rewrite be_bytes_length).
  rewrite be_uint_be_bytes. change (stunMagicCookie mod 256 ^ Z.of_nat 4 =? stunMagicCookie) with true. cbn [negb].
  rewrite (drop_app_add' _ _ 2 6), (drop_app_add' _ _ 2 4), drop_be by (by rewrite be_bytes_length).
  rewrite take_app_le, take_ge by lia. rewrite bool_decide_eq_true_2 by done. cbn [negb].
  rewrite get16_drop, drop_be, get16_be by done.
  assert (Z.of_nat (length (be_bytes 2 stunBindingResponse ++ be_bytes 2 len ++ be_bytes 4 stunMagicCookie
            ++ txn ++ body ++ extra) - stunHeaderSize) <? len = false) as ->.
  { apply Z.ltb_ge. rewrite !length_app, !be_bytes_length. unfold stunHeaderSize, len. lia. }
  unfold stunHeaderSize. rewrite (drop_app_add' _ _ 2 18), (drop_app_add' _ _ 2 16), (drop_app_add' _ _ 4 12)
    by (by rewrite be_bytes_length).
  rewrite drop_app_ge by lia. rewrite Ht. cbn [Nat.sub]. rewrite drop_0.
  unfold len. rewrite Nat2Z.id, take_app_le, take_ge by lia. done.
Qed.

(** ** The loop on encoded attributes *)

(** One turn of the loop at an attribute of type [t] and value [v], with [rest]
    behind the value, when no sum of 16 bits overflows. *)
Lemma pad_len_small l : 0 <= l <= 65528 ->
  l <= pad_len l <= 65528 /\ pad_len l = l + (- l) mod 4.
Proof.
  intros Hl. unfold pad_len, u16. destruct (Z.eqb_spec (l mod 4) 0); div_lia.
Qed.

Lemma parse_attr_step fuel txn t v rest mapped :
  0 <= t < 65536 -> Z.of_nat (length v) <= 65528 ->
  parse_attrs (S fuel) txn (be_bytes 2 t ++ be_bytes 2 (Z.of_nat (length v)) ++ v ++ rest) mapped
  = let next mapped :=
      if Z.of_nat (length rest) <? (- Z.of_nat (length v)) mod 4 then Panicked
      else parse_attrs fuel txn (drop (Z.to_nat ((- Z.of_nat (length v)) mod 4)) rest) mapped in
    if t =? stunAttrXORMappedAddress then
      match parseXORMappedAddress v txn with
      | Ok r => Returned (Ok r)
      | Err _ => next mapped
      end
    else if t =? stunAttrMappedAddress then
      next (match parseMappedAddress v with Ok r => Some r | Err _ => mapped end)
    else next mapped.
Proof.
  intros Ht Hv. set (l := Z.of_nat (length v)). set (bs := be_bytes 2 t ++ be_bytes 2 l ++ v ++ rest).
  assert (length bs = 4 + length v + length rest)%nat as Hl.
  { unfold bs. rewrite !length_app, !be_bytes_length. lia. }
  assert (get16 bs 0 = t) as E0 by by apply get16_be.
  assert (get16 bs 2 = l) as E2.
  { rewrite get16_drop. unfold bs. rewrite drop_be. apply get16_be. lia. }
  assert (drop 4 bs = v ++ rest) as Hd.
  { unfold bs. rewrite (drop_app_add' _ _ 2 2) by (by rewrite be_bytes_length). apply drop_be. }
  destruct (pad_len_small l ltac:(lia)) as [Hp Hpl].
  assert (drop (Z.to_nat (4 + pad_len l)) bs = drop (Z.to_nat ((- l) mod 4)) rest) as Hdrop.
  { replace (Z.to_nat (4 + pad_len l)) with (4 + (length v + Z.to_nat ((- l) mod 4)))%nat by lia.
    by rewrite <- drop_drop, Hd, drop_app_add. }
  cbn [parse_attrs]. rewrite (proj2 (Nat.ltb_ge _ _)) by lia. cbv zeta. rewrite E0, E2, Hd, Hl.
  rewrite (u16_small (4 + l)), (u16_small (4 + pad_len l)) by lia. rewrite (proj2 (Z.ltb_ge _ _)) by lia.
  rewrite (proj2 (Z.ltb_ge (4 + l) 4)) by lia. replace (Z.to_nat (4 + l - 4)) with (length v) by lia.
  rewrite take_app_le, take_ge by lia. rewrite Hdrop.
  replace (Z.of_nat (4 + length v + length rest) <? 4 + pad_len l)
    with (Z.of_nat (length rest) <? (- l) mod 4); [done|].
  apply eq_true_iff_eq. rewrite !Z.ltb_lt. lia.
Qed.

(** What the loop finds in padded attributes, from a state [mapped]. *)
Lemma parse_encoded fuel txn l mapped :
  Forall attr_ok l -> Z.of_nat (length (encode_attrs l)) < 65536 -> (length (encode_attrs l) < fuel)%nat ->
  parse_attrs fuel txn (encode_attrs l) mapped
  = Returned (match head (xor_answers txn l) with
              | Some r => Ok r
              | None => mapped_or_error (match last (mapped_answers l) with Some r => Some r | None => mapped end)
              end).
Proof.
  intros Hok. revert fuel mapped. induction Hok as [|a l [Ht Hp] Hok IH]; intros fuel mapped Hlen Hf.
  { by destruct fuel; [simpl in Hf; lia|]. }
  unfold encode_attrs in Hlen, Hf |- *. rewrite bind_cons in Hlen, Hf |- *. fold (encode_attrs l) in Hlen, Hf |- *.
  unfold encode_attr in Hlen, Hf |- *. rewrite !length_app, !be_bytes_length in Hlen, Hf.
  destruct fuel as [|fuel]; [lia|]. rewrite <- !app_assoc.
  rewrite parse_attr_step by (done || div_lia). cbv zeta.
  rewrite (proj2 (Z.ltb_ge _ _)) by (rewrite length_app; lia).
  replace (Z.to_nat ((- Z.of_nat (length (at_value a))) mod 4)) with (length (at_pad a)) by lia.
  rewrite drop_app_length. rewrite !IH by lia.
  unfold xor_answers, mapped_answers. cbn [omap list_omap].
  destruct (Z.eqb_spec (at_type a) stunAttrXORMappedAddress) as [->|].
  { change (stunAttrXORMappedAddress =? stunAttrMappedAddress) with false.
    by destruct (parseXORMappedAddress (at_value a) txn). }
  destruct (at_type a =? stunAttrMappedAddress); [|done].
  destruct (parseMappedAddress (at_value a)) as [r|]; cbn [ok_value]; [|done].
  destruct (head _); [done|]. rewrite last_cons. by destruct (last _).
Qed.

(** ** Addresses *)

Lemma lxor_lt n a b : 0 <= n -> 0 <= a < 2 ^ n -> 0 <= b < 2 ^ n -> 0 <= Z.lxor a b < 2 ^ n.
Proof.
  intros Hn Ha Hb. assert (0 <= Z.lxor a b) as H0 by (apply Z.lxor_nonneg; lia). split; [done|].
  destruct (Z.eq_dec (Z.lxor a b) 0) as [->|Hne]; [lia|]. apply Z.log2_lt_pow2; [lia|].
  pose proof (Z.log2_lxor a b ltac:(lia) ltac:(lia)).
  destruct (Z.eq_dec a 0) as [->|]; [rewrite Z.lxor_0_l in *; apply Z.log2_lt_pow2; lia|].
  destruct (Z.eq_dec b 0) as [->|]; [rewrite Z.lxor_0_r in *; apply Z.log2_lt_pow2; lia|].
  pose proof (proj1 (Z.log2_lt_pow2 a n ltac:(lia)) ltac:(lia)).
  pose proof (proj1 (Z.log2_lt_pow2 b n ltac:(lia)) ltac:(lia)). lia.
Qed.

Lemma zip_lxor_involutive l k : (length l <= length k)%nat ->
  zip_with Z.lxor (zip_with Z.lxor l k) k = l.
Proof.
  revert k. induction l as [|x l IH]; intros [|y k] Hl; simpl in *; [done..|lia|].
  rewrite Z.lxor_assoc, Z.lxor_nilpotent, Z.lxor_0_r, IH by lia. done.
Qed.

Lemma zip_lxor_app_l l k k' : (length l <= length k)%nat ->
  zip_with Z.lxor l (k ++ k') = zip_with Z.lxor l k.
Proof.
  revert k. induction l as [|x l IH]; intros [|y k] Hl; simpl in *; [done..|lia|]. by rewrite IH by lia.
Qed.

Lemma parse_xor_value txn ip port : length txn = 12%nat -> length ip = 4%nat \/ length ip = 16%nat ->
  0 <= port < 65536 -> parseXORMappedAddress (xor_value txn ip port) txn = Ok (ip, port).
Proof.
  intros Ht Hip Hport. set (magic := Z.shiftr stunMagicCookie 16).
  set (key := be_bytes 4 stunMagicCookie ++ txn).
  assert (length key = 16%nat) as Hk by (unfold key; rewrite length_app, be_bytes_length; lia).
  pose proof (lxor_lt 16 port magic ltac:(lia) ltac:(simpl; lia) ltac:(unfold magic; by_compute)) as Hx.
  assert (length (xor_value txn ip port) = 4 + length ip)%nat as Hl.
  { unfold xor_value. rewrite !length_app, be_bytes_length, length_zip_with. fold key. simpl length. lia. }
  unfold parseXORMappedAddress. rewrite (proj2 (Nat.ltb_ge _ _)) by lia.
  assert (get16 (xor_value txn ip port) 2 = Z.lxor port magic) as ->.
  { rewrite get16_drop. unfold xor_value. cbn [app drop]. by apply get16_be. }
  cbv zeta. fold magic. rewrite Z.lxor_assoc, Z.lxor_nilpotent, Z.lxor_0_r.
  assert (drop 4 (xor_value txn ip port) = zip_with Z.lxor ip key) as Hd.
  { unfold xor_value. cbn [app drop]. by rewrite drop_be. }
  rewrite Hl, Hd. unfold xor_value. cbn [app nth].
  destruct Hip as [Hip|Hip]; rewrite Hip; cbn [Nat.eqb Z.eqb Pos.eqb Nat.ltb Nat.leb Nat.add];
    rewrite take_ge by (rewrite length_zip_with; lia).
  - unfold key. rewrite zip_lxor_app_l by (rewrite be_bytes_length; lia).
    rewrite zip_lxor_involutive; [done|]. rewrite be_bytes_length. lia.
  - fold key. rewrite zip_lxor_involutive; [done|lia].
Qed.

(** The attribute of a server that reflects an address. *)
Definition reflected (txn ip : list Z) (port : Z) : attribute :=
  {| at_type := stunAttrXORMappedAddress; at_value := xor_value txn ip port; at_pad := [] |}.

Lemma reflected_length txn ip port : length txn = 12%nat -> length ip = 4%nat \/ length ip = 16%nat ->
  length (at_value (reflected txn ip port)) = (4 + length ip)%nat.
Proof.
  intros Ht Hip. cbn [reflected at_value]. unfold xor_value.
  rewrite !length_app, be_bytes_length, length_zip_with, length_app, be_bytes_length, Ht. simpl length. lia.
Qed.

Lemma reflected_ok txn ip port : length txn = 12%nat -> length ip = 4%nat \/ length ip = 16%nat ->
  attr_ok (reflected txn ip port).
Proof.
  intros Ht Hip. split; [done|]. rewrite reflected_length by done. cbn [reflected at_pad length].
  destruct Hip as [->| ->]; done.
Qed.

Lemma parse_reflected txn ip port l1 l2 :
  length txn = 12%nat -> length ip = 4%nat \/ length ip = 16%nat -> 0 <= port < 65536 ->
  Forall attr_ok l1 -> Forall attr_ok l2 -> xor_answers txn l1 = [] ->
  Z.of_nat (length (encode_attrs (l1 ++ reflected txn ip port :: l2))) < 65536 ->
  parseBindingResponse (stun_message txn (encode_attrs (l1 ++ reflected txn ip port :: l2))) txn
  = Returned (Ok (ip, port)).
Proof.
  intros Ht Hip Hp H1 H2 Hno Hl. rewrite <- (app_nil_r (stun_message _ _)).
  rewrite parse_message by done.
  rewrite parse_encoded; [|apply Forall_app; split; [done|constructor; [by apply reflected_ok|done]]|done|lia].
  unfold xor_answers in *. rewrite omap_app, Hno. cbn [app omap list_omap reflected at_type at_value].
  rewrite Z.eqb_refl, parse_xor_value by done. done.
Qed.

(** ** A server by the RFC

    The wire format of RFC 5389, sections 6 and 15, byte by byte: what a server puts
    into its response, from the addresses it means. *)

Inductive server_attr :=
| XorMapped (ip : list Z) (port : Z)
| Mapped (ip : list Z) (port : Z)
| Other (type : Z) (value : list Z).

Definition octets (x : Z) : list Z := [x / 256; x mod 256].
(** 0x2112A442 *)
Definition cookie_octets : list Z := [33; 18; 164; 66].
Definition family_octet (ip : list Z) : Z := if Nat.eqb (length ip) 4 then 1 else 2.

Definition wire_type (a : server_attr) : Z := match a with XorMapped _ _ => 32 | Mapped _ _ => 1 | Other t _ => t end.
Definition wire_value (txn : list Z) (a : server_attr) : list Z :=
  match a with
  | XorMapped ip port =>
      [0; family_octet ip; Z.lxor (port / 256) 33; Z.lxor (port mod 256) 18] ++ zip_with Z.lxor ip (cookie_octets ++ txn)
  | Mapped ip port => [0; family_octet ip] ++ octets port ++ ip
  | Other _ v => v
  end.
(** An attribute with the padding the server chose. *)
Definition wire_attr (txn : list Z) (a : server_attr * list Z) : list Z :=
  octets (wire_type a.1) ++ octets (Z.of_nat (length (wire_value txn a.1))) ++ wire_value txn a.1 ++ a.2.
Definition wire_attrs (txn : list Z) (l : list (server_attr * list Z)) : list Z := l ≫= wire_attr txn.
Definition wire_response (txn : list Z) (l : list (server_attr * list Z)) : list Z :=
  [1; 1] ++ octets (Z.of_nat (length (wire_attrs txn l))) ++ cookie_octets ++ txn ++ wire_attrs txn l.

(** IPv4 or IPv6 addresses, ports of 16 bits, other types for other attributes, and
    padding up to the next multiple of four bytes. *)
Definition server_attr_ok (txn : list Z) (a : server_attr * list Z) : Prop :=
  Z.of_nat (length a.2) = (- Z.of_nat (length (wire_value txn a.1))) mod 4
  /\ match a.1 with
     | XorMapped ip port | Mapped ip port => (length ip = 4%nat \/ length ip = 16%nat) /\ 0 <= port < 65536
     | Other t _ => 0 <= t < 65536 /\ t <> 1 /\ t <> 32
     end.

Definition xor_mapped (l : list (server_attr * list Z)) : list (list Z * Z) :=
  omap (fun a => match a.1 with XorMapped ip port => Some (ip, port) | _ => None end) l.
Definition plain_mapped (l : list (server_attr * list Z)) : list (list Z * Z) :=
  omap (fun a => match a.1 with Mapped ip port => Some (ip, port) | _ => None end) l.

(** Section 15: the XOR-MAPPED-ADDRESS goes before the MAPPED-ADDRESS, and of
    attributes that occur more than once the first counts. *)
Definition rfc_address (l : list (server_attr * list Z)) : result (list Z * Z) :=
  match head (xor_mapped l) with Some r => Ok r | None => mapped_or_error (head (plain_mapped l)) end.

Lemma octets_be x : 0 <= x < 65536 -> octets x = be_bytes 2 x.
Proof.
  intros Hx. unfold octets, be_bytes. cbn [seq rev app fmap list_fmap]. rewrite !Z.shiftr_div_pow2 by lia.
  cbn. rewrite Z.div_1_r. f_equal. symmetry. apply Z.mod_small. div_lia.
Qed.

Lemma xor_octets port : 0 <= port < 65536 ->
  [Z.lxor (port / 256) 33; Z.lxor (port mod 256) 18] = be_bytes 2 (Z.lxor port (Z.shiftr stunMagicCookie 16)).
Proof.
  intros Hp. change (Z.shiftr stunMagicCookie 16) with 8466.
  pose proof (lxor_lt 16 port 8466 ltac:(lia) ltac:(simpl; lia) ltac:(lia)) as Hx.
  rewrite <- octets_be by (simpl in Hx; lia). unfold octets.
  change 256 with (2 ^ 8). rewrite <- !Z.shiftr_div_pow2, <- !Z.land_ones by lia. f_equal; [|f_equal].
  - by rewrite Z.shiftr_lxor.
  - apply Z.bits_inj. intros n. rewrite !Z.land_spec, !Z.lxor_spec, !Z.land_spec.
    change 18 with (Z.land 8466 (Z.ones 8)). rewrite Z.land_spec.
    by destruct (Z.testbit port n), (Z.testbit 8466 n), (Z.testbit (Z.ones 8) n).
Qed.

(** The attribute as the loop sees it. *)
Definition sent_attr (txn : list Z) (a : server_attr * list Z) : attribute :=
  {| at_type := wire_type a.1; at_value := wire_value txn a.1; at_pad := a.2 |}.

Lemma sent_attr_ok txn a : server_attr_ok txn a -> attr_ok (sent_attr txn a).
Proof. intros [Hp Hv]. split; [|done]. cbn [sent_attr at_type]. destruct a as [[]]; cbn in *; lia. Qed.

Lemma length_octets x : length (octets x) = 2%nat.
Proof. done. Qed.

Lemma wire_attrs_encoded txn l : Forall (server_attr_ok txn) l -> Z.of_nat (length (wire_attrs txn l)) < 65536 ->
  wire_attrs txn l = encode_attrs (sent_attr txn <$> l).
Proof.
  induction 1 as [|a l Ha _ IH]; [done|]. unfold wire_attrs, encode_attrs in *. rewrite fmap_cons, !bind_cons.
  rewrite length_app. intros Hl. rewrite IH by lia. f_equal. unfold wire_attr in *. unfold encode_attr.
  rewrite !length_app, !length_octets in Hl. cbn [sent_attr at_type at_value at_pad].
  destruct (sent_attr_ok _ _ Ha) as [Ht _]. cbn [sent_attr at_type] in Ht. by rewrite !octets_be by lia.
Qed.

Lemma parse_wire_xor txn ip port : length txn = 12%nat -> length ip = 4%nat \/ length ip = 16%nat -> 0 <= port < 65536 ->
  parseXORMappedAddress (wire_value txn (XorMapped ip port)) txn = Ok (ip, port).
Proof.
  intros Ht Hip Hp. rewrite <- (parse_xor_value txn ip port) by done. f_equal. unfold xor_value.
  rewrite <- xor_octets by done. reflexivity.
Qed.

Lemma parse_wire_mapped txn ip port : length ip = 4%nat \/ length ip = 16%nat -> 0 <= port < 65536 ->
  parseMappedAddress (wire_value txn (Mapped ip port)) = Ok (ip, port).
Proof.
  intros Hip Hp. cbn [wire_value]. rewrite octets_be by done. unfold parseMappedAddress.
  assert (get16 ([0; family_octet ip] ++ be_bytes 2 port ++ ip) 2 = port) as ->.
  { rewrite get16_drop. cbn [app drop]. by apply get16_be. }
  assert (drop 4 ([0; family_octet ip] ++ be_bytes 2 port ++ ip) = ip) as -> by (cbn [app drop]; by rewrite drop_be).
  rewrite !length_app, be_bytes_length. cbn [length Nat.add app nth]. unfold family_octet.
  destruct Hip as [Hip|Hip]; rewrite Hip; cbn [Nat.eqb Nat.ltb Nat.leb Z.eqb Pos.eqb]; by rewrite take_ge by lia.
Qed.

Lemma sent_answers txn l : length txn = 12%nat -> Forall (server_attr_ok txn) l ->
  xor_answers txn (sent_attr txn <$> l) = xor_mapped l /\ mapped_answers (sent_attr txn <$> l) = plain_mapped l.
Proof.
  intros Ht Hl. unfold xor_answers, mapped_answers, xor_mapped, plain_mapped. rewrite <- !omap_fmap_l. rewrite Forall_forall in Hl.
  split; apply omap_ext_in; intros [a pad] Ha; destruct (Hl _ Ha) as [_ Hok]; cbn [sent_attr at_type at_value fst] in *;
    destruct a as [ip port|ip port|t v]; cbn [wire_type]; try done; unfold stunAttrXORMappedAddress, stunAttrMappedAddress.
  - cbn [Z.eqb Pos.eqb]. by rewrite parse_wire_xor by (done || apply Hok).
  - by rewrite (proj2 (Z.eqb_neq t 32)) by apply Hok.
  - cbn [Z.eqb Pos.eqb]. by rewrite parse_wire_mapped by apply Hok.
  - by rewrite (proj2 (Z.eqb_neq t 1)) by apply Hok.
Qed.

(** C18. On every response a server can send by RFC 5389 - the address it saw as
    XOR-MAPPED-ADDRESS or MAPPED-ADDRESS, IPv4 or IPv6, among any other attributes,
    each padded to four bytes with any bytes, in a body of 16-bit length, and whatever
    follows the message in the buffer - the parser finds the address the server
    means: that of the first XOR-MAPPED-ADDRESS; otherwise that of the last
    MAPPED-ADDRESS; otherwise it reports an error.  This is what the RFC prescribes
    unless the server sends several MAPPED-ADDRESSes and nothing else, of which the
    RFC takes the first. *)
Theorem stun_parse_compliant txn l extra :
  length txn = 12%nat -> Forall (server_attr_ok txn) l -> Z.of_nat (length (wire_attrs txn l)) < 65536 ->
  parseBindingResponse (wire_response txn l ++ extra) txn
    = Returned (match head (xor_mapped l) with Some r => Ok r | None => mapped_or_error (last (plain_mapped l)) end)
  /\ (xor_mapped l <> [] \/ (length (plain_mapped l) <= 1)%nat ->
      parseBindingResponse (wire_response txn l ++ extra) txn = Returned (rfc_address l)).
Proof.
  intros Ht Hok Hl.
  assert (parseBindingResponse (wire_response txn l ++ extra) txn
    = Returned (match head (xor_mapped l) with Some r => Ok r | None => mapped_or_error (last (plain_mapped l)) end)) as E.
  { assert (wire_response txn l = stun_message txn (encode_attrs (sent_attr txn <$> l))) as ->.
    { unfold wire_response, stun_message. rewrite <- wire_attrs_encoded by done. by rewrite octets_be by lia. }
    rewrite wire_attrs_encoded in Hl by done. rewrite parse_message by done.
    rewrite parse_encoded; [|by apply Forall_fmap, (Forall_impl _ _ _ Hok), sent_attr_ok|done|lia].
    destruct (sent_answers txn l Ht Hok) as [-> ->]. destruct (head _); [done|]. by destruct (last _). }
  split; [exact E|]. rewrite E. unfold rfc_address.
  intros [Hne|H1]; [by destruct (xor_mapped l)|]. by destruct (plain_mapped l) as [|m [|]]; [..|simpl in H1; lia].
Qed.

(** ** Any datagram *)

(** Where the next attribute starts, from where this value ends. *)
Lemma next_start v : u16 (4 + pad_len v) = u16 (u16 (4 + v) + (- v) mod 4).
Proof.
  unfold u16, pad_len. rewrite Z.add_mod_idemp_l by done. destruct (Z.eqb_spec (v mod 4) 0) as [E|E].
  - replace ((- v) mod 4) with 0 by div_lia. f_equal. lia.
  - unfold u16. rewrite Z.add_mod_idemp_r by done. f_equal. div_lia.
Qed.

Lemma next_start_after v : 4 <= u16 (4 + v) <= 65532 -> 4 <= u16 (4 + pad_len v).
Proof.
  intros Hw. rewrite next_start. set (w := u16 (4 + v)) in *.
  assert ((- v) mod 4 = (- w) mod 4) as ->.
  { unfold w, u16. pose proof (Z.div_mod (4 + v) 65536 ltac:(done)). set (q := (4 + v) / 65536) in *. div_lia. }
  rewrite u16_small; div_lia.
Qed.

Lemma parse_attrs_terminates fuel txn attrs mapped :
  Z.of_nat (length attrs) < 65533 -> (length attrs < fuel)%nat -> parse_attrs fuel txn attrs mapped <> Running.
Proof.
  revert attrs mapped. induction fuel as [|fuel IH]; intros attrs mapped Hl Hf; [lia|]. cbn [parse_attrs].
  destruct (Nat.ltb_spec (length attrs) 4) as [|H4]; [done|]. cbv zeta.
  set (valLen := get16 attrs 2). set (len := Z.of_nat (length attrs)).
  destruct (Z.ltb_spec len (u16 (4 + valLen))) as [|Hv]; [done|].
  destruct (Z.ltb_spec (u16 (4 + valLen)) 4) as [|Hv4]; [done|].
  assert (forall m, (if len <? u16 (4 + pad_len valLen) then Panicked
            else parse_attrs fuel txn (drop (Z.to_nat (u16 (4 + pad_len valLen))) attrs) m) <> Running) as Hnext.
  { intros m. destruct (Z.ltb_spec len (u16 (4 + pad_len valLen))); [done|].
    pose proof (next_start_after valLen ltac:(lia)).
    apply IH; rewrite length_drop; lia. }
  destruct (get16 attrs 0 =? stunAttrXORMappedAddress); [destruct (parseXORMappedAddress _ _); [done|apply Hnext]|].
  destruct (get16 attrs 0 =? stunAttrMappedAddress); apply Hnext.
Qed.

(** The transaction is read back from the request. *)
Lemma request_txn txn : length txn = 12%nat -> take 12 (drop 8 (buildBindingRequest txn)) = txn.
Proof.
  intros Ht. unfold buildBindingRequest.
  rewrite (drop_app_add' _ _ 2 6), (drop_app_add' _ _ 2 4), drop_be by (by rewrite be_bytes_length).
  apply take_ge. lia.
Qed.

(** Whatever a STUN server or a spoofer sends, a query ends (the loop over
    the attributes advances at every turn), and an address is believed only if
    the datagram came from the queried server's address and echoes the magic
    cookie and the transaction drawn for this request. *)
Theorem stun_query_authentic io : length (io_txn io) = 12%nat ->
  stunQueryConn io <> Running
  /\ (forall r, stunQueryConn io = Returned (Ok r) ->
       exists server sender data, io_server io = Some server /\ io_read io = Some (sender, data)
         /\ ip_equal sender server = true
         /\ get16 data 0 = stunBindingResponse /\ be_uint (take 4 (drop 4 data)) = stunMagicCookie
         /\ take 12 (drop 8 data) = io_txn io).
Proof.
  intros Ht. unfold stunQueryConn. destruct (io_server io) as [server|]; [|done].
  destruct (io_sent io); cbn [negb]; [|done]. destruct (io_read io) as [[sender data]|]; [|done].
  destruct (ip_equal sender server) eqn:Es; cbn [negb]; [|done].
  rewrite request_txn by done.
  unfold parseBindingResponse. set (d := take stun_buffer data).
  destruct (Nat.ltb_spec (length d) stunHeaderSize) as [|Hd]; [done|]. unfold stunHeaderSize in Hd.
  assert (forall i n, (i + n <= 20)%nat -> take n (drop i d) = take n (drop i data)) as Hcut.
  { intros i n Hi. unfold d. rewrite !take_drop_commute, take_take. do 2 f_equal. unfold stun_buffer. lia. }
  assert (get16 d 0 = get16 data 0) as -> by (unfold get16; by rewrite Hcut by lia). rewrite !Hcut by lia.
  destruct (Z.eqb_spec (get16 data 0) stunBindingResponse) as [E1|]; cbn [negb]; [|done].
  destruct (Z.eqb_spec (be_uint (take 4 (drop 4 data))) stunMagicCookie) as [E2|]; cbn [negb]; [|done].
  destruct (bool_decide_reflect (take 12 (drop 8 data) = io_txn io)) as [E3|]; cbn [negb]; [|done]. cbv zeta.
  destruct (Z.ltb _ _); [done|]. split; [|by eauto 10].
  apply parse_attrs_terminates; [|lia]. rewrite length_take, length_drop. unfold d. rewrite length_take.
  unfold stun_buffer. lia.
Qed.

(** ** What a response can do to the node *)

(** An attribute length for which [4+valLen] wraps around. *)
Lemma oversized_panics fuel txn bs mapped : (4 <= length bs)%nat -> 65532 <= get16 bs 2 < 65536 ->
  parse_attrs (S fuel) txn bs mapped = Panicked.
Proof.
  intros Hl Hlen. cbn [parse_attrs]. rewrite (proj2 (Nat.ltb_ge _ _) Hl). cbv zeta.
  assert (u16 (4 + get16 bs 2) = get16 bs 2 - 65532) as -> by (unfold u16; div_lia).
  rewrite (proj2 (Z.ltb_ge _ _)) by lia. by rewrite (proj2 (Z.ltb_lt (get16 bs 2 - 65532) 4)) by lia.
Qed.

(** A last attribute without padding. *)
Lemma unpadded_panics fuel txn t v mapped :
  0 <= t < 65536 -> t <> stunAttrXORMappedAddress -> Z.of_nat (length v) mod 4 <> 0 -> Z.of_nat (length v) <= 65528 ->
  parse_attrs (S fuel) txn (be_bytes 2 t ++ be_bytes 2 (Z.of_nat (length v)) ++ v) mapped = Panicked.
Proof.
  intros Ht Hne Hmod Hv. pose proof (parse_attr_step fuel txn t v [] mapped Ht Hv) as E.
  rewrite app_nil_r in E. rewrite E. cbv zeta.
  rewrite (proj2 (Z.ltb_lt _ _)) by (simpl; div_lia).
  rewrite (proj2 (Z.eqb_neq _ _) Hne). by destruct (t =? stunAttrMappedAddress).
Qed.

(** C19. Two malformed responses crash the node instead of being refused: an
    attribute whose 16-bit length is within four of the maximum ([4+valLen]
    wraps around and the bounds of the slice are out of order), and a last
    attribute without its padding ([attrs[4+padLen:]] starts past the end). *)
Theorem stun_malformed_panics txn t : length txn = 12%nat -> 0 <= t < 65536 ->
  (forall len rest, 65532 <= len < 65536 -> Z.of_nat (length rest) < 65532 ->
     parseBindingResponse (stun_message txn (be_bytes 2 t ++ be_bytes 2 len ++ rest)) txn = Panicked)
  /\ (forall v, t <> stunAttrXORMappedAddress -> Z.of_nat (length v) mod 4 <> 0 -> Z.of_nat (length v) <= 65528 ->
     parseBindingResponse (stun_message txn (be_bytes 2 t ++ be_bytes 2 (Z.of_nat (length v)) ++ v)) txn = Panicked).
Proof.
  intros Ht Htype. split.
  - intros len rest Hlen Hrest. rewrite <- (app_nil_r (stun_message _ _)).
    rewrite parse_message by (try done; rewrite !length_app, !be_bytes_length; lia).
    apply oversized_panics; [rewrite !length_app, !be_bytes_length; lia|].
    rewrite get16_drop, drop_be, get16_be by lia. lia.
  - intros v Hne Hmod Hv. rewrite <- (app_nil_r (stun_message _ _)).
    rewrite parse_message by (try done; rewrite !length_app, !be_bytes_length; lia).
    by apply unpadded_panics.
Qed.

(** The classification: an error only when both queries failed, and with two
    answers the mapping is called cone exactly when both servers saw the same
    address and port. *)
Lemma classify_spec r1 r2 :
  (is_ok (classify r1 r2) = is_ok r1 || is_ok r2)
  /\ (forall ip1 p1 ip2 p2, r1 = Ok (ip1, p1) -> r2 = Ok (ip2, p2) ->
       classify r1 r2 = Ok (if ip_equal ip1 ip2 && (p1 =? p2) then NATCone else NATSymmetric, ip1, p1)).
Proof.
  split.
  - destruct r1 as [[]|], r2 as [[]|]; simpl; [by destruct (ip_equal _ _ && _)|done..].
  - intros ip1 p1 ip2 p2 -> ->. simpl. by destruct (ip_equal ip1 ip2 && (p1 =? p2)).
Qed.

(** A query answered by an honest server: the mapping as the server saw it, in
    a response that fits the buffer. *)
Definition answered (io : stun_io) (ip : list Z) (port : Z) : Prop :=
  length (io_txn io) = 12%nat /\ length ip = 4%nat /\ 0 <= port < 65536 /\ io_sent io = true
  /\ exists server, io_server io = Some server
     /\ io_read io = Some (server, stun_message (io_txn io) (encode_attrs [reflected (io_txn io) ip port])).

Lemma answered_query io ip port : answered io ip port -> stunQueryConn io = Returned (Ok (ip, port)).
Proof.
  intros (Ht & Hi & Hp & Hs & server & Hserver & Hr). unfold stunQueryConn. rewrite Hserver, Hs, Hr. cbn [negb].
  unfold ip_equal. rewrite bool_decide_eq_true_2 by done. cbn [orb negb]. rewrite request_txn by done.
  assert (length (encode_attrs [reflected (io_txn io) ip port]) = 12%nat) as Hl.
  { unfold encode_attrs. rewrite bind_cons, length_app. cbn [mbind list_bind length]. unfold encode_attr.
    rewrite !length_app, !be_bytes_length, reflected_length by (done || by left).
    cbn [reflected at_pad length]. lia. }
  rewrite take_ge.
  - apply (parse_reflected (io_txn io) ip port [] []); try done; [by left|simpl app; lia].
  - unfold stun_message. rewrite !length_app, !be_bytes_length, Hl, Ht. unfold stun_buffer. lia.
Qed.

(** NAT detection against two honest servers: each reflects the node's
    mapping as it saw it; the NAT is classified as cone exactly when the two
    mappings agree, and the address reported is the first server's.  With one
    answer the address is still found and the type is unknown. *)
Theorem nat_detection_correct io1 io2 ip1 p1 ip2 p2 :
  answered io1 ip1 p1 -> answered io2 ip2 p2 ->
  DetectNATType true io1 io2
    = Returned (Ok (if decide (ip1 = ip2 /\ p1 = p2) then NATCone else NATSymmetric, ip1, p1))
  /\ (forall silent, io_read silent = None ->
       DetectNATType true silent io2 = Returned (Ok (NATUnknown, ip2, p2))
       /\ DetectNATType true io1 silent = Returned (Ok (NATUnknown, ip1, p1))).
Proof.
  intros H1 H2. unfold DetectNATType. cbn [negb]. rewrite (answered_query _ _ _ H1), (answered_query _ _ _ H2).
  split.
  - cbn [classify]. replace (ip_equal ip1 ip2) with (bool_decide (ip1 = ip2)).
    + destruct (Z.eqb_spec p1 p2), (decide (ip1 = ip2 /\ p1 = p2)), (bool_decide_reflect (ip1 = ip2)); naive_solver.
    + destruct H1 as (_ & Hl1 & _), H2 as (_ & Hl2 & _). unfold ip_equal. rewrite Hl1, Hl2. cbn [Nat.eqb andb].
      by rewrite !orb_false_r.
  - intros silent Hs.
    assert (exists e, stunQueryConn silent = Returned (Err e)) as [e ->]; [|done].
    unfold stunQueryConn. destruct (io_server silent); [|by eauto]. rewrite Hs. by destruct (io_sent silent); eauto.
Qed.

(** ** Samples *)

Definition sample_txn : list Z := [1; 2; 3; 4; 5; 6; 7; 8; 9; 10; 11; 12].
Definition sample_io (port : Z) : stun_io :=
  {| io_server := Some [192; 0; 2; 1]; io_txn := sample_txn; io_sent := true;
     io_read := Some ([192; 0; 2; 1], stun_message sample_txn (encode_attrs [reflected sample_txn [203; 0; 113; 1] port])) |}.

(** A SOFTWARE attribute, a MAPPED-ADDRESS and the XOR-MAPPED-ADDRESS. *)
Definition sample_server : list (server_attr * list Z) :=
  [(Other 32802 [116; 101; 115; 116; 33], [0; 0; 0]); (Mapped [10; 0; 0; 7] 40001, []); (XorMapped [203; 0; 113; 1] 40000, [])].

Lemma stun_parse_compliant_witness :
  wire_response sample_txn [(XorMapped [203; 0; 113; 1] 40000, [])]
    = [1; 1; 0; 12; 33; 18; 164; 66; 1; 2; 3; 4; 5; 6; 7; 8; 9; 10; 11; 12; 0; 32; 0; 8; 0; 1; 189; 82; 234; 18; 213; 67]
  /\ parseBindingResponse (wire_response sample_txn sample_server ++ [9; 9]) sample_txn = Returned (Ok ([203; 0; 113; 1], 40000)).
Proof.
  split; [vm_compute; reflexivity|].
  refine (proj2 (stun_parse_compliant sample_txn sample_server [9; 9] _ _ _) _).
  - reflexivity.
  - repeat constructor; vm_compute; congruence.
  - vm_compute. reflexivity.
  - left. vm_compute. discriminate.
Defined.

Lemma stun_query_authentic_witness :
  exists server sender data, io_server (sample_io 40000) = Some server
    /\ io_read (sample_io 40000) = Some (sender, data) /\ take 12 (drop 8 data) = sample_txn.
Proof.
  assert (stunQueryConn (sample_io 40000) = Returned (Ok ([203; 0; 113; 1], 40000))) as E by (vm_compute; reflexivity).
  destruct (proj2 (stun_query_authentic (sample_io 40000) eq_refl) _ E)
    as (server & sender & data & H1 & H2 & _ & _ & _ & H3).
  exists server, sender, data. split; [exact H1|]. split; [exact H2|exact H3].
Defined.

Lemma stun_malformed_panics_witness :
  parseBindingResponse (stun_message sample_txn (be_bytes 2 1 ++ be_bytes 2 65535 ++ [])) sample_txn = Panicked
  /\ parseBindingResponse (stun_message sample_txn (be_bytes 2 32802 ++ be_bytes 2 5 ++ [116; 101; 115; 116; 33])) sample_txn
     = Panicked.
Proof.
  split.
  - apply (proj1 (stun_malformed_panics sample_txn 1 eq_refl ltac:(lia))); [lia|reflexivity].
  - apply (proj2 (stun_malformed_panics sample_txn 32802 eq_refl ltac:(lia)) [116; 101; 115; 116; 33]);
      [discriminate|discriminate|simpl; lia].
Defined.

Lemma nat_detection_correct_witness :
  DetectNATType true (sample_io 40000) (sample_io 40001) = Returned (Ok (NATSymmetric, [203; 0; 113; 1], 40000)).
Proof.
  assert (forall port, 0 <= port < 65536 -> answered (sample_io port) [203; 0; 113; 1] port) as H.
  { intros port Hp. split; [reflexivity|]. split; [reflexivity|]. split; [exact Hp|]. split; [reflexivity|].
    exists [192; 0; 2; 1]. split; reflexivity. }
  exact (proj1 (nat_detection_correct (sample_io 40000) (sample_io 40001) _ _ _ _
           (H 40000 ltac:(lia)) (H 40001 ltac:(lia)))).
Defined.
