(* ===== verification/External.v ===== *)
(** * The external endpoint (pkg/discovery/dht.go)

    How a node finds the endpoint it advertises: a public IPv6 address of its
    interfaces, or the address STUN servers reflect.  The interfaces and the
    answers of the servers are arguments. *)

From S2P Require Import Prelude GoStrings GoNet GoCrypto NodeConfig Stun.
Local Open Scope wgmesh_scope.

(** An interface: up, loopback, and its addresses ([None] when they cannot be
    read); an address that is not a network is [None]. *)
Record iface := { if_up : bool; if_loopback : bool; if_addrs : option (list (option (list Z))) }.

(** ** Choosing an IPv6 address *)

Definition scoreIPv6 (ip : list Z) : Z :=
  if negb (Nat.eqb (length ip) 16) then 0
  else
    (10 + (if Z.land (nth 0 ip 0) 224 =? 32 then 20 else 0)
        - (if (nth 11 ip 0 =? 255) && (nth 12 ip 0 =? 254) then 5 else 0))%Z.

Definition specialPrefixes : list (string * Z) :=
  [("200::", 7); ("2001:db8::", 32); ("fc00::", 7); ("fd00::", 8); ("fe80::", 10); ("ff00::", 8); ("::1", 128)]%string%Z.

Definition in_prefix (ip : list Z) (sp : string * Z) : bool :=
  match parse_ip sp.1 with
  | None => false
  | Some prefix =>
      let mask := cidr_mask 16 sp.2 in
      ip_equal (ip_mask ip mask) (ip_mask prefix mask)
  end.

Definition isPublicIPv6 (ip : list Z) : bool :=
  Nat.eqb (length ip) 16
  && match to4 ip with Some _ => false | None => true end
  && negb (is_unspecified ip)
  && negb (existsb (in_prefix ip) specialPrefixes).

Record ipv6Candidate := { v6_ip : list Z; v6_score : Z }.

(** The tests on one address. *)
Definition ipv6_candidate (ip : list Z) : option ipv6Candidate :=
  if Nat.eqb (length ip) 0 || match to4 ip with Some _ => true | None => false end then None
  else if is_link_local_unicast ip || is_link_local_multicast ip then None
  else if negb (is_global_unicast ip) then None
  else if negb (isPublicIPv6 ip) then None
  else Some {| v6_ip := ip; v6_score := scoreIPv6 ip |}.

Definition iface_candidates (i : iface) : list ipv6Candidate :=
  if negb (if_up i) || if_loopback i then []
  else match if_addrs i with
       | None => []
       | Some addrs => omap (fun a => a ≫= ipv6_candidate) addrs
       end.

(** The order of the sort: the higher score, then the smaller text. *)
Definition v6_less (x y : ipv6Candidate) : bool :=
  if negb (v6_score x =? v6_score y)%Z then (v6_score y <? v6_score x)%Z
  else str_lt (ip_string (v6_ip x)) (ip_string (v6_ip y)).
Definition v6_le (x y : ipv6Candidate) : Prop := v6_less y x = false.
#[export] Instance v6_le_dec : RelDecision v6_le.
Proof. intros x y. unfold v6_le. apply _. Defined.

Definition best_ipv6 (candidates : list ipv6Candidate) : option ipv6Candidate :=
  head (merge_sort v6_le candidates).

(** [None] for the interfaces: they could not be listed. *)
Definition discoverIPv6Endpoint (cfg : Config) (ifaces : option (list iface)) : string :=
  match ifaces with
  | None => ""
  | Some l =>
      match best_ipv6 (l ≫= iface_candidates) with
      | None => ""
      | Some c => join_host_port (ip_string (v6_ip c)) (itoa (WGListenPort cfg))
      end
  end.

(** ** The endpoint of the node *)

Definition with_nat (n : LocalNode) (nat : string) : LocalNode :=
  {| ln_WGPubKey := ln_WGPubKey n; ln_WGPrivateKey := ln_WGPrivateKey n; ln_MeshIP := ln_MeshIP n;
     ln_MeshIPv6 := ln_MeshIPv6 n; ln_RoutableNetworks := ln_RoutableNetworks n;
     ln_Introducer := ln_Introducer n; ln_NATType := nat; ln_Hostname := ln_Hostname n;
     wgEndpoint := wgEndpoint n |}.

(** What the STUN servers answered: the two-server detection, and the
    single-server query used when fewer than two servers are known. *)
Record stun_answers := {
  sa_detect : result (NATType * list Z * Z);
  sa_single : result (list Z * Z);
}.

(** The endpoint for a reflected address: its port is WireGuard's. *)
Definition reflected_endpoint (cfg : Config) (ip : list Z) : string :=
  join_host_port (ip_string ip) (itoa (WGListenPort cfg)).

Definition discoverExternalEndpoint (servers : list string) (cfg : Config) (ifaces : option (list iface))
    (stun : stun_answers) (n : LocalNode) : LocalNode :=
  let ipv6Endpoint := discoverIPv6Endpoint cfg ifaces in
  if negb (DisableIPv6 cfg) && negb (String.eqb ipv6Endpoint "") then
    with_nat (SetEndpoint n ipv6Endpoint) (nat_type_string NATUnknown)
  else if Nat.ltb (length servers) 2 then
    match sa_single stun with
    | Err _ => n
    | Ok (ip, _) => with_nat (SetEndpoint n (reflected_endpoint cfg ip)) (nat_type_string NATUnknown)
    end
  else
    match sa_detect stun with
    | Err _ => n
    | Ok (natType, ip, _) => with_nat (SetEndpoint n (reflected_endpoint cfg ip)) (nat_type_string natType)
    end.

(** One tick of [stunRefreshLoop]. *)
Definition stun_refresh (servers : list string) (cfg : Config) (ifaces : option (list iface))
    (stun : stun_answers) (n : LocalNode) : LocalNode :=
  let replace_endpoint n ep := if String.eqb ep (GetEndpoint n) then n else SetEndpoint n ep in
  let ipv6Endpoint := discoverIPv6Endpoint cfg ifaces in
  if negb (DisableIPv6 cfg) && negb (String.eqb ipv6Endpoint "") then
    with_nat (replace_endpoint n ipv6Endpoint) (nat_type_string NATUnknown)
  else if Nat.leb 2 (length servers) then
    match sa_detect stun with
    | Err _ => n
    | Ok (natType, ip, _) => with_nat (replace_endpoint n (reflected_endpoint cfg ip)) (nat_type_string natType)
    end
  else
    match sa_single stun with
    | Err _ => n
    | Ok (ip, _) => replace_endpoint n (reflected_endpoint cfg ip)
    end.

(** ** Properties *)

Lemma v6_le_iff x y : v6_le x y <->
  (v6_score y < v6_score x)%Z
  \/ (v6_score x = v6_score y /\ str_le (ip_string (v6_ip x)) (ip_string (v6_ip y))).
Proof.
  unfold v6_le, v6_less. destruct (Z.eqb_spec (v6_score y) (v6_score x)) as [E|E]; cbn [negb].
  - split; [intros H; right; split; [done|by apply str_lt_not_le]|].
    intros [?|[_ H]]; [lia|]. destruct (str_lt _ _) eqn:El; [|done].
    pose proof (str_lt_ne _ _ El). apply str_lt_le in El. by destruct (anti_symm str_le _ _ H El).
  - rewrite Z.ltb_ge. split; [intros; left; lia|]. intros [?|[? _]]; [lia|congruence].
Qed.

#[export] Instance v6_le_total : Total v6_le.
Proof.
  intros x y. rewrite !v6_le_iff. destruct (Z.lt_trichotomy (v6_score x) (v6_score y)) as [?|[E|?]]; [by right; left| |by left; left].
  destruct (total str_le (ip_string (v6_ip x)) (ip_string (v6_ip y))); [left|right]; right; auto.
Qed.

#[export] Instance v6_le_trans : Transitive v6_le.
Proof.
  intros x y z. rewrite !v6_le_iff. intros [?|[E1 H1]] [?|[E2 H2]]; [left; lia..|].
  right. split; [congruence|]. by transitivity (ip_string (v6_ip y)).
Qed.

(** The choice is a candidate that no other one beats. *)
Lemma best_ipv6_spec cs c : best_ipv6 cs = Some c -> c ∈ cs /\ forall x, x ∈ cs -> v6_le c x.
Proof.
  unfold best_ipv6. intros Hh.
  pose proof (StronglySorted_merge_sort v6_le cs) as Hs.
  destruct (merge_sort v6_le cs) as [|c' l] eqn:E; [done|]. injection Hh as ->.
  assert (c :: l ≡ₚ cs) as Hp by (rewrite <- E; apply merge_sort_Permutation).
  split; [rewrite <- Hp; by left|]. intros x. rewrite <- Hp. intros [->|Hx]%elem_of_cons.
  - destruct (total v6_le c c); done.
  - apply StronglySorted_inv in Hs as [_ Hf]. rewrite Forall_forall in Hf. by apply Hf.
Qed.

Lemma best_ipv6_None cs : best_ipv6 cs = None -> cs = [].
Proof.
  unfold best_ipv6. intros Hh. destruct (merge_sort v6_le cs) as [|c l] eqn:E; [|done].
  apply Permutation_nil. rewrite <- E. by rewrite merge_sort_Permutation.
Qed.

(** The IPv6 endpoint a node advertises is one of its own addresses, on an
    interface that is up and not the loopback, public, with the best score; and
    it does not depend on the order in which the system lists interfaces and
    addresses.  None is advertised only when there is no such address. *)
Theorem ipv6_endpoint_choice cfg l l' :
  let cs := l ≫= iface_candidates in
  (discoverIPv6Endpoint cfg (Some l) = ""%string -> cs = [])
  /\ (forall c, best_ipv6 cs = Some c ->
        discoverIPv6Endpoint cfg (Some l) = join_host_port (ip_string (v6_ip c)) (itoa (WGListenPort cfg))
        /\ isPublicIPv6 (v6_ip c) = true /\ is_global_unicast (v6_ip c) = true
        /\ (forall x, x ∈ cs -> v6_score x <= v6_score c)%Z
        /\ exists i addrs, i ∈ l /\ if_up i = true /\ if_loopback i = false
             /\ if_addrs i = Some addrs /\ Some (v6_ip c) ∈ addrs)
  /\ (cs ≡ₚ l' ≫= iface_candidates -> discoverIPv6Endpoint cfg (Some l) = discoverIPv6Endpoint cfg (Some l')).
Proof.
  intros cs. split; [|split].
  - unfold discoverIPv6Endpoint. fold cs. destruct (best_ipv6 cs) eqn:E; [|intros _; by apply best_ipv6_None].
    unfold join_host_port. destruct (contains_char ":" _); [done|]. by destruct (ip_string _).
  - intros c Hc. unfold discoverIPv6Endpoint. fold cs. rewrite Hc. split; [done|].
    destruct (best_ipv6_spec cs c Hc) as [Hin Hbest]. unfold cs in Hin.
    apply list_elem_of_bind in Hin as (i & Hin & Hi). unfold iface_candidates in Hin.
    destruct (negb (if_up i) || if_loopback i) eqn:Eu; [by apply not_elem_of_nil in Hin|].
    destruct (if_addrs i) as [addrs|] eqn:Ea; [|by apply not_elem_of_nil in Hin].
    apply list_elem_of_omap in Hin as ([ip|] & Hip & Hcand); [|done]. simpl in Hcand.
    unfold ipv6_candidate in Hcand. destruct (Nat.eqb (length ip) 0 || _); [done|].
    destruct (is_link_local_unicast ip || _); [done|].
    destruct (is_global_unicast ip) eqn:Eg; [|done]. destruct (isPublicIPv6 ip) eqn:Ep; [|done]. cbn [negb] in Hcand.
    injection Hcand as <-. cbn [v6_ip v6_score]. split; [done|]. split; [done|]. split.
    + intros x Hx. apply Hbest, v6_le_iff in Hx. cbn [v6_score] in Hx. lia.
    + bool_steps. exists i, addrs. done.
  - intros Hp. unfold discoverIPv6Endpoint. fold cs.
    destruct (best_ipv6 cs) as [c|] eqn:E1, (best_ipv6 (l' ≫= iface_candidates)) as [c'|] eqn:E2; [|exfalso..|done].
    + destruct (best_ipv6_spec _ _ E1) as [H1 B1], (best_ipv6_spec _ _ E2) as [H2 B2].
      rewrite Hp in H1. rewrite <- Hp in H2. pose proof (proj1 (v6_le_iff _ _) (B1 _ H2)) as L1.
      pose proof (proj1 (v6_le_iff _ _) (B2 _ H1)) as L2.
      destruct L1 as [?|[? S1]], L2 as [?|[? S2]]; try lia.
      by rewrite (anti_symm str_le _ _ S1 S2).
    + apply best_ipv6_None in E2. rewrite E2 in Hp. symmetry in Hp. apply Permutation_nil in Hp. by rewrite Hp in E1.
    + apply best_ipv6_None in E1. rewrite E1 in Hp. apply Permutation_nil in Hp. by rewrite Hp in E2.
Qed.

(** The periodic refresh and the discovery at start-up agree: with at least
    two servers known, a tick leaves the node exactly as a fresh discovery
    would; and a node never advertises a port other than WireGuard's, keeps its
    identity, and keeps its endpoint when nothing answers. *)
Theorem stun_refresh_agrees servers cfg ifaces stun n :
  (2 <= length servers -> stun_refresh servers cfg ifaces stun n = discoverExternalEndpoint servers cfg ifaces stun n)
  /\ (exists ep nat, discoverExternalEndpoint servers cfg ifaces stun n = with_nat (SetEndpoint n ep) nat
       /\ (ep = GetEndpoint n \/ exists host, ep = join_host_port host (itoa (WGListenPort cfg)))).
Proof.
  split.
  - intros Hl. unfold stun_refresh, discoverExternalEndpoint. rewrite (proj2 (Nat.ltb_ge _ _)), (proj2 (Nat.leb_le _ _)) by lia.
    assert (forall ep, (if String.eqb ep (GetEndpoint n) then n else SetEndpoint n ep) = SetEndpoint n ep) as Hrep.
    { intros ep. destruct (String.eqb_spec ep (GetEndpoint n)) as [->|]; [|done]. by destruct n. }
    cbv zeta. destruct (_ && _); [by rewrite Hrep|]. destruct (sa_detect stun) as [[[t ip] p]|]; [by rewrite Hrep|done].
  - unfold discoverExternalEndpoint. cbv zeta.
    assert (exists ep nat, n = with_nat (SetEndpoint n ep) nat
      /\ (ep = GetEndpoint n \/ exists host, ep = join_host_port host (itoa (WGListenPort cfg)))) as Hkeep.
    { exists (GetEndpoint n), (ln_NATType n). split; [by destruct n|by left]. }
    destruct (_ && _) eqn:E.
    { do 2 eexists. split; [done|]. right. unfold discoverIPv6Endpoint in *. destruct ifaces as [l|]; [|by rewrite andb_false_r in E].
      destruct (best_ipv6 _) as [c|]; [by eexists|]. by rewrite andb_false_r in E. }
    destruct (Nat.ltb _ _).
    + destruct (sa_single stun) as [[ip p]|]; [|exact Hkeep]. do 2 eexists. split; [done|]. right. by eexists.
    + destruct (sa_detect stun) as [[[t ip] p]|]; [|exact Hkeep]. do 2 eexists. split; [done|]. right. by eexists.
Qed.
