(* ===== verification/PeerSink.v ===== *)
(** * What the peer store promises to discovery

    The discovery layers (exchange, gossip, LAN, cache) reach the peer store
    through four operations.  [PeerSink] states what they rely on; the store of
    pkg/node/store.go is an instance. *)

From S2P Require Import Prelude GoStrings GoNet PeerStore.

Class PeerSink (S : Type) := {
  sink_inv : S -> Prop;
  sink_room : S -> nat;
  sink_update : S -> PeerInfo -> string -> Time -> option S;
  sink_remove : S -> string -> S;
  sink_get : S -> string -> option PeerInfo;
  sink_active : S -> Time -> list PeerInfo;
  (** What is stored for a key after an update of that key. *)
  sink_stored (s : S) (info : PeerInfo) (method : string) (now : Time) : option PeerInfo :=
    match sink_get s (WGPubKey info) with
    | Some p => Some (merge_peer p info method now)
    | None => if Nat.eqb (sink_room s) 0 then None else Some (new_peer info method now)
    end;
  (** An update does not panic, keeps the invariant, writes the entry of its key
      and no other, and takes room only for a key that was not there. *)
  sink_update_spec : forall s info method now, sink_inv s ->
    exists s', sink_update s info method now = Some s' /\ sink_inv s'
      /\ sink_get s' (WGPubKey info) = sink_stored s info method now
      /\ (forall k, k <> WGPubKey info -> sink_get s' k = sink_get s k)
      /\ sink_room s <= Datatypes.S (sink_room s');
  sink_remove_inv : forall s k, sink_inv s -> sink_inv (sink_remove s k);
  sink_get_remove : forall s k k',
    sink_get (sink_remove s k) k' = if decide (k = k') then None else sink_get s k';
  sink_get_key : forall s k p, sink_inv s -> sink_get s k = Some p -> WGPubKey p = k;
  sink_active_spec : forall s now p, sink_inv s ->
    p ∈ sink_active s now <-> sink_get s (WGPubKey p) = Some p /\ is_active now p;
}.

(** The store of the program: 1000 entries, one per key. *)
#[export] Program Instance peer_store_sink : PeerSink PeerStore := {|
  sink_inv := store_ok;
  sink_room s := DefaultMaxPeers - size (peers s);
  sink_update := Update;
  sink_remove := Remove;
  sink_get := Get;
  sink_active := GetActive;
|}.
Next Obligation.
  intros s info method now Hs. simpl.
  destruct (Update_ok s info method now Hs) as (s' & HU & Hok & Hp).
  exists s'. split; [done|]. split; [done|]. unfold Get. rewrite Hp.
  unfold update_locked. destruct (peers s !! WGPubKey info) as [p|] eqn:E; cbn [fst].
  - rewrite lookup_insert_eq, map_size_insert_Some by done. split; [done|].
    split; [|lia]. intros k Hk. by rewrite lookup_insert_ne.
  - destruct (Nat.leb_spec DefaultMaxPeers (size (peers s))) as [Hl|Hl]; cbn [fst].
    + rewrite E. rewrite (proj2 (Nat.eqb_eq _ _)) by lia. split; [done|]. split; [done|lia].
    + rewrite lookup_insert_eq, map_size_insert_None by done.
      rewrite (proj2 (Nat.eqb_neq _ _)) by lia. split; [done|]. split; [|lia].
      intros k Hk. by rewrite lookup_insert_ne.
Qed.
Next Obligation.
  intros s k [Hp Hc]. split; [|done]. apply (peers_ok_subseteq (peers s)); [apply delete_subseteq|done].
Qed.
Next Obligation. intros s k k'. unfold Get, Remove. simpl. apply lookup_delete. Qed.
Next Obligation. intros s k p [[Hp _] _] Hk. by destruct (Hp k p Hk). Qed.
Next Obligation.
  intros s now p [[Hp _] _]. unfold GetActive, GetAll, Get.
  rewrite list_elem_of_filter, list_elem_of_fmap. split.
  - intros [Ha ([k p'] & -> & Hin)]. apply elem_of_map_to_list in Hin. cbn [snd] in *.
    destruct (Hp k p' Hin) as [<- _]. done.
  - intros [Hg Ha]. split; [done|]. exists (WGPubKey p, p). split; [done|].
    by apply elem_of_map_to_list.
Qed.

(** ** Updates in sequence *)

Section sink.
Context {S : Type} `{PeerSink S}.

(** A run of updates with one method, as the loops over announced peers do. *)
Fixpoint update_all (s : S) (infos : list PeerInfo) (method : string) (now : Time) : option S :=
  match infos with
  | [] => Some s
  | info :: infos' =>
      match sink_update s info method now with
      | Some s' => update_all s' infos' method now
      | None => None
      end
  end.

(** Keys known before stay known, keys not in the run are untouched, and with
    room for all of them every key of the run is known after it. *)
Lemma update_all_spec s infos method now : sink_inv s ->
  exists s', update_all s infos method now = Some s' /\ sink_inv s'
    /\ (forall k, k ∉ (WGPubKey <$> infos) -> sink_get s' k = sink_get s k)
    /\ (forall k, is_Some (sink_get s k) -> is_Some (sink_get s' k))
    /\ (length infos <= sink_room s -> forall k, k ∈ (WGPubKey <$> infos) -> is_Some (sink_get s' k))
    /\ sink_room s <= length infos + sink_room s'.
Proof.
  revert s. induction infos as [|info infos IH]; intros s Hs; cbn [update_all].
  { exists s. split; [done|]. split; [done|]. split; [done|]. split; [done|]. split; [set_solver|done]. }
  destruct (sink_update_spec s info method now Hs) as (s1 & -> & Hs1 & Hk & Ho & Hr).
  destruct (IH s1 Hs1) as (s' & -> & Hs' & Hn & Hkeep & Hall & Hr').
  assert (forall k, is_Some (sink_get s k) -> is_Some (sink_get s1 k)) as Hkeep1.
  { intros k Hsome. destruct (decide (k = WGPubKey info)) as [->|Hne]; [|by rewrite Ho].
    rewrite Hk. unfold sink_stored. destruct Hsome as [p ->]. done. }
  exists s'. split; [done|]. split; [done|]. split; [|split; [|split]].
  - intros k Hni. rewrite fmap_cons in Hni. apply not_elem_of_cons in Hni as [Hne Hni].
    by rewrite Hn, Ho.
  - auto.
  - simpl length. intros Hroom k. rewrite fmap_cons, elem_of_cons. intros [->|Hin]; [|apply Hall; [lia|done]].
    apply Hkeep. rewrite Hk. unfold sink_stored. destruct (sink_get s (WGPubKey info)); [done|].
    rewrite (proj2 (Nat.eqb_neq _ _)) by lia. done.
  - simpl length. lia.
Qed.

(** With distinct keys and room for all, each key gets the entry its own update
    makes of the store before the run. *)
Lemma update_all_exact s infos method now : sink_inv s -> NoDup (WGPubKey <$> infos) ->
  length infos <= sink_room s ->
  exists s', update_all s infos method now = Some s' /\ sink_inv s'
    /\ (forall k, k ∉ (WGPubKey <$> infos) -> sink_get s' k = sink_get s k)
    /\ (forall info, info ∈ infos -> sink_get s' (WGPubKey info)
         = Some match sink_get s (WGPubKey info) with
                | Some p => merge_peer p info method now
                | None => new_peer info method now
                end).
Proof.
  revert s. induction infos as [|info infos IH]; intros s Hs Hnd Hroom; cbn [update_all].
  { exists s. repeat (split; [done|]). set_solver. }
  rewrite fmap_cons in Hnd. apply NoDup_cons in Hnd as [Hni Hnd]. simpl length in Hroom.
  destruct (sink_update_spec s info method now Hs) as (s1 & -> & Hs1 & Hk & Ho & Hr).
  destruct (IH s1 Hs1 Hnd) as (s' & -> & Hs' & Hn & Hall); [lia|].
  exists s'. split; [done|]. split; [done|]. split.
  - intros k. rewrite fmap_cons, not_elem_of_cons. intros [Hne Hk']. by rewrite Hn, Ho.
  - intros i [->|Hi]%elem_of_cons.
    + rewrite (Hn _ Hni), Hk. unfold sink_stored. destruct (sink_get s (WGPubKey info)); [done|].
      by rewrite (proj2 (Nat.eqb_neq _ _)) by lia.
    + rewrite (Hall i Hi), Ho; [done|]. intros E. apply Hni. rewrite <- E. by apply list_elem_of_fmap_2.
Qed.

End sink.
