(* ===== verification/Exchange.v ===== *)
(** * The peer exchange protocol (pkg/discovery/exchange.go)

    Members of a mesh exchange sealed datagrams: HELLO and REPLY (who I am and
    whom I know), ANNOUNCE (gossip), GOODBYE, and the RENDEZVOUS messages by
    which an introducer makes two peers behind NATs punch at the same time.

    A handler takes the state, the datagram, its source and the clock, and
    returns the state with what it sent or spawned ([None] is a panic).  The
    store is any [PeerSink], the cipher any [Aead]; an operation reads the clock
    once.  [net.ResolveUDPAddr] asks the system resolver: it is the argument
    [resolve]. *)

From S2P Require Import Prelude GoStrings GoNet GoCrypto GoJson PeerStore Derive Aead Envelope.
From S2P Require Import RateLimit NodeConfig Endpoints PeerSink.
Local Open Scope wgmesh_scope.

Definition DHTMethod : string := "dht".
Definition TransitiveMethod : string := DHTMethod ^^ "-transitive".
Definition RendezvousSessionTTL : Duration := (20 * second)%Z.
Definition RendezvousStartLeadTime : Duration := (1800 * millisecond)%Z.
Definition RendezvousPunchCooldown : Duration := (6 * second)%Z.
Definition RendezvousStartCooldown : Duration := (8 * second)%Z.
Definition RendezvousPortSpread : Z := 2%Z.
Definition HandshakeWaitTimeout : Duration := (10 * second)%Z.
Definition ExchangeLogCooldown : Duration := (30 * second)%Z.
Definition GoodbyeWindow : Duration := (60 * second)%Z.

(** ** Messages *)

Record rendezvousOffer := {
  ro_Protocol : string;
  ro_Timestamp : Z;
  ro_FromPubKey : string;
  ro_TargetPubKey : string;
  ro_PairID : string;
  ro_Candidates : list string;
  ro_ObservedAddr : string;
  ro_IntroducerKey : string;
}.
#[export] Instance rendezvousOffer_eq_dec : EqDecision rendezvousOffer.
Proof. solve_decision. Defined.

Record rendezvousStart := {
  rs_Protocol : string;
  rs_Timestamp : Z;
  rs_PairID : string;
  rs_PeerPubKey : string;
  rs_PeerCandidates : list string;
  rs_StartAtUnixMs : Z;
  rs_IntroducerKey : string;
}.
#[export] Instance rendezvousStart_eq_dec : EqDecision rendezvousStart.
Proof. solve_decision. Defined.

Record goodbyeMessage := { gb_Protocol : string; gb_Timestamp : Z; gb_WGPubKey : string }.

Definition offer_json (o : rendezvousOffer) : json :=
  JObj ([("protocol"%string, JStr (ro_Protocol o))]
        ++ [("timestamp"%string, jint (ro_Timestamp o))]
        ++ [("from_pubkey"%string, JStr (ro_FromPubKey o))]
        ++ [("target_pubkey"%string, JStr (ro_TargetPubKey o))]
        ++ [("pair_id"%string, JStr (ro_PairID o))]
        ++ omit_list "candidates" JStr (ro_Candidates o)
        ++ omit_str "observed_addr" (ro_ObservedAddr o)
        ++ omit_str "introducer_key" (ro_IntroducerKey o)).

Definition dec_offer (v : json) : option rendezvousOffer :=
  match v with
  | JObj ms =>
      proto ← str_field "protocol" ms; ts ← int_field "timestamp" ms;
      from ← str_field "from_pubkey" ms; target ← str_field "target_pubkey" ms;
      pid ← str_field "pair_id" ms; cs ← list_field dec_string "candidates" ms;
      obs ← str_field "observed_addr" ms; ik ← str_field "introducer_key" ms;
      Some {| ro_Protocol := proto; ro_Timestamp := ts; ro_FromPubKey := from;
              ro_TargetPubKey := target; ro_PairID := pid; ro_Candidates := cs;
              ro_ObservedAddr := obs; ro_IntroducerKey := ik |}
  | JNull => Some {| ro_Protocol := ""; ro_Timestamp := 0; ro_FromPubKey := "";
              ro_TargetPubKey := ""; ro_PairID := ""; ro_Candidates := [];
              ro_ObservedAddr := ""; ro_IntroducerKey := "" |}
  | _ => None
  end.

Definition start_json (s : rendezvousStart) : json :=
  JObj ([("protocol"%string, JStr (rs_Protocol s))]
        ++ [("timestamp"%string, jint (rs_Timestamp s))]
        ++ [("pair_id"%string, JStr (rs_PairID s))]
        ++ [("peer_pubkey"%string, JStr (rs_PeerPubKey s))]
        ++ omit_list "peer_candidates" JStr (rs_PeerCandidates s)
        ++ [("start_at_unix_ms"%string, jint (rs_StartAtUnixMs s))]
        ++ omit_str "introducer_key" (rs_IntroducerKey s)).

Definition dec_start (v : json) : option rendezvousStart :=
  match v with
  | JObj ms =>
      proto ← str_field "protocol" ms; ts ← int_field "timestamp" ms;
      pid ← str_field "pair_id" ms; peer ← str_field "peer_pubkey" ms;
      cs ← list_field dec_string "peer_candidates" ms; at_ms ← int_field "start_at_unix_ms" ms;
      ik ← str_field "introducer_key" ms;
      Some {| rs_Protocol := proto; rs_Timestamp := ts; rs_PairID := pid; rs_PeerPubKey := peer;
              rs_PeerCandidates := cs; rs_StartAtUnixMs := at_ms; rs_IntroducerKey := ik |}
  | JNull => Some {| rs_Protocol := ""; rs_Timestamp := 0; rs_PairID := ""; rs_PeerPubKey := "";
              rs_PeerCandidates := []; rs_StartAtUnixMs := 0; rs_IntroducerKey := "" |}
  | _ => None
  end.

Definition goodbye_json (g : goodbyeMessage) : json :=
  JObj ([("protocol"%string, JStr (gb_Protocol g))]
        ++ [("timestamp"%string, jint (gb_Timestamp g))]
        ++ [("wg_pubkey"%string, JStr (gb_WGPubKey g))]).

Definition dec_goodbye (v : json) : option goodbyeMessage :=
  match v with
  | JObj ms =>
      proto ← str_field "protocol" ms; ts ← int_field "timestamp" ms; pk ← str_field "wg_pubkey" ms;
      Some {| gb_Protocol := proto; gb_Timestamp := ts; gb_WGPubKey := pk |}
  | JNull => Some {| gb_Protocol := ""; gb_Timestamp := 0; gb_WGPubKey := "" |}
  | _ => None
  end.

(** ** State *)

Record rendezvousState := {
  st_offers : gmap string rendezvousOffer;
  st_endpoints : gmap string string;
  st_createdAt : Time;
}.

(** A datagram sent, or a goroutine started. *)
Inductive effect :=
| Send (to : UDPAddr) (data : list Z)
| GoStart (pairID targetPubKey targetEndpoint peerPubKey : string) (peerCandidates : list string)
    (startAt : Time)
| GoPunch (pairID peerPubKey : string) (candidates : list string) (startAt : Time).

(** [pendingReplies] holds references to the one-slot channels of the requests
    in flight; [replies] is what each of them contains. *)
Record PeerExchange (S : Type) := {
  pe_config : Config;
  pe_node : LocalNode;
  pe_store : S;
  pe_limiter : IPRateLimiter;
  pendingReplies : gmap string nat;
  replies : gmap nat (option PeerInfo);
  announceHandler : option (PeerAnnouncement -> option UDPAddr -> Time -> S -> option S);
  rendezvousSessions : gmap string rendezvousState;
  activePunches : gmap string Time;
  rendezvousStarts : gmap string Time;
  lastPacketLog : gmap string Time;
}.
Arguments pe_config {S} _.
Arguments pe_node {S} _.
Arguments pe_store {S} _.
Arguments pe_limiter {S} _.
Arguments pendingReplies {S} _.
Arguments replies {S} _.
Arguments announceHandler {S} _.
Arguments rendezvousSessions {S} _.
Arguments activePunches {S} _.
Arguments rendezvousStarts {S} _.
Arguments lastPacketLog {S} _.

(** ** Records built from announcements, and back *)

Definition announced_peer (a : PeerAnnouncement) (endpoint : string) : PeerInfo :=
  {| WGPubKey := pa_WGPubKey a; Hostname := pa_Hostname a; MeshIP := pa_MeshIP a;
     MeshIPv6 := pa_MeshIPv6 a; Endpoint := endpoint; Introducer := pa_Introducer a;
     RoutableNetworks := pa_RoutableNetworks a; LastSeen := zero_time; DiscoveredVia := [];
     Latency := None; NATType := pa_NATType a; EndpointMethod := "" |}.

Definition transitive_peer (cfg : Config) (kp : KnownPeer) : PeerInfo :=
  {| WGPubKey := kp_WGPubKey kp; Hostname := kp_Hostname kp; MeshIP := kp_MeshIP kp;
     MeshIPv6 := kp_MeshIPv6 kp;
     Endpoint := filterEndpointForConfig (normalizeKnownPeerEndpoint (kp_WGEndpoint kp)) (DisableIPv6 cfg);
     Introducer := kp_Introducer kp; RoutableNetworks := []; LastSeen := zero_time;
     DiscoveredVia := []; Latency := None; NATType := kp_NATType kp; EndpointMethod := "" |}.

Definition known_peer_of (p : PeerInfo) : KnownPeer :=
  {| kp_WGPubKey := WGPubKey p; kp_Hostname := Hostname p; kp_MeshIP := MeshIP p;
     kp_MeshIPv6 := MeshIPv6 p; kp_WGEndpoint := Endpoint p; kp_Introducer := Introducer p;
     kp_NATType := NATType p |}.

Definition self_announcement (n : LocalNode) (knownPeers : list KnownPeer) (now : Time)
  : PeerAnnouncement :=
  CreateAnnouncement (ln_WGPubKey n) (ln_MeshIP n) (GetEndpoint n) (ln_Introducer n)
    (ln_RoutableNetworks n) knownPeers (ln_Hostname n) (ln_MeshIPv6 n) (ln_NATType n) now.

Definition with_observed (a : PeerAnnouncement) (observed : string) : PeerAnnouncement :=
  {| pa_Protocol := pa_Protocol a; pa_WGPubKey := pa_WGPubKey a; pa_Hostname := pa_Hostname a;
     pa_MeshIP := pa_MeshIP a; pa_MeshIPv6 := pa_MeshIPv6 a; pa_WGEndpoint := pa_WGEndpoint a;
     pa_Introducer := pa_Introducer a; pa_RoutableNetworks := pa_RoutableNetworks a;
     pa_Timestamp := pa_Timestamp a; pa_KnownPeers := pa_KnownPeers a;
     pa_ObservedEndpoint := observed; pa_NATType := pa_NATType a |}.

(** The peer as STUN reflector: our endpoint gets the reflected IP and keeps
    its WireGuard port. *)
Definition applyObservedEndpoint (cfg : Config) (n : LocalNode) (observed : string) : LocalNode :=
  if String.eqb observed "" then n
  else match split_host_port observed with
  | None => n
  | Some (host, _) =>
      match parse_ip host with
      | None => n
      | Some ip =>
          let ip_is_v6 := match to4 ip with None => true | Some _ => false end in
          if DisableIPv6 cfg && ip_is_v6 then n
          else if is_loopback ip || is_private ip || is_link_local_unicast ip then n
          else match split_host_port (GetEndpoint n) with
          | None => n
          | Some (currentHost, wgPort) =>
              let downgrade :=
                match parse_ip currentHost with
                | Some currentIP =>
                    match to4 currentIP with
                    | None => is_global_unicast6 currentIP && negb (is_private currentIP) && negb ip_is_v6
                    | Some _ => false
                    end
                | None => false
                end in
              if downgrade then n
              else
                let newEndpoint := join_host_port (ip_string ip) wgPort in
                if String.eqb newEndpoint (GetEndpoint n) then n else SetEndpoint n newEndpoint
          end
      end
  end.

(** ** Handlers *)

Section exchange.
Context {S : Type} {sink : PeerSink S} {cipher : Aead}.
Context (resolve : string -> option UDPAddr).

Notation PE := (PeerExchange S).
Notation outcome := (option (PE * list effect)).

Definition NewPeerExchange (cfg : Config) (n : LocalNode) (store : S) : PE :=
  {| pe_config := cfg; pe_node := n; pe_store := store; pe_limiter := NewDefault;
     pendingReplies := ∅; replies := ∅; announceHandler := None; rendezvousSessions := ∅;
     activePunches := ∅; rendezvousStarts := ∅; lastPacketLog := ∅ |}.

Definition with_store (pe : PE) (s : S) : PE :=
  {| pe_config := pe_config pe; pe_node := pe_node pe; pe_store := s; pe_limiter := pe_limiter pe;
     pendingReplies := pendingReplies pe; replies := replies pe;
     announceHandler := announceHandler pe; rendezvousSessions := rendezvousSessions pe;
     activePunches := activePunches pe; rendezvousStarts := rendezvousStarts pe;
     lastPacketLog := lastPacketLog pe |}.

Definition with_node (pe : PE) (n : LocalNode) : PE :=
  {| pe_config := pe_config pe; pe_node := n; pe_store := pe_store pe; pe_limiter := pe_limiter pe;
     pendingReplies := pendingReplies pe; replies := replies pe;
     announceHandler := announceHandler pe; rendezvousSessions := rendezvousSessions pe;
     activePunches := activePunches pe; rendezvousStarts := rendezvousStarts pe;
     lastPacketLog := lastPacketLog pe |}.

Definition with_pending (pe : PE) (pending : gmap string nat) (chans : gmap nat (option PeerInfo)) : PE :=
  {| pe_config := pe_config pe; pe_node := pe_node pe; pe_store := pe_store pe;
     pe_limiter := pe_limiter pe; pendingReplies := pending; replies := chans;
     announceHandler := announceHandler pe; rendezvousSessions := rendezvousSessions pe;
     activePunches := activePunches pe; rendezvousStarts := rendezvousStarts pe;
     lastPacketLog := lastPacketLog pe |}.

Definition with_rendezvous (pe : PE) (sessions : gmap string rendezvousState)
    (punches starts : gmap string Time) : PE :=
  {| pe_config := pe_config pe; pe_node := pe_node pe; pe_store := pe_store pe;
     pe_limiter := pe_limiter pe; pendingReplies := pendingReplies pe; replies := replies pe;
     announceHandler := announceHandler pe; rendezvousSessions := sessions;
     activePunches := punches; rendezvousStarts := starts; lastPacketLog := lastPacketLog pe |}.

Definition with_log (pe : PE) (l : gmap string Time) : PE :=
  {| pe_config := pe_config pe; pe_node := pe_node pe; pe_store := pe_store pe;
     pe_limiter := pe_limiter pe; pendingReplies := pendingReplies pe; replies := replies pe;
     announceHandler := announceHandler pe; rendezvousSessions := rendezvousSessions pe;
     activePunches := activePunches pe; rendezvousStarts := rendezvousStarts pe;
     lastPacketLog := l |}.

Definition with_limiter (pe : PE) (l : IPRateLimiter) : PE :=
  {| pe_config := pe_config pe; pe_node := pe_node pe; pe_store := pe_store pe; pe_limiter := l;
     pendingReplies := pendingReplies pe; replies := replies pe;
     announceHandler := announceHandler pe; rendezvousSessions := rendezvousSessions pe;
     activePunches := activePunches pe; rendezvousStarts := rendezvousStarts pe;
     lastPacketLog := lastPacketLog pe |}.

Definition SetAnnounceHandler (pe : PE)
    (handler : PeerAnnouncement -> option UDPAddr -> Time -> S -> option S) : PE :=
  {| pe_config := pe_config pe; pe_node := pe_node pe; pe_store := pe_store pe;
     pe_limiter := pe_limiter pe; pendingReplies := pendingReplies pe; replies := replies pe;
     announceHandler := Some handler; rendezvousSessions := rendezvousSessions pe;
     activePunches := activePunches pe; rendezvousStarts := rendezvousStarts pe;
     lastPacketLog := lastPacketLog pe |}.

Definition gossip_key (pe : PE) : list Z := GossipKey (Keys (pe_config pe)).
Definition own_pubkey (pe : PE) : string := ln_WGPubKey (pe_node pe).

(** Entries of [m] not older than [d]; the others are deleted. *)
Definition not_older (now : Time) (d : Duration) (m : gmap string Time) : gmap string Time :=
  filter (fun kt => (time_sub now kt.2 <= d)%Z) m.

Definition logIncomingPacket (pe : PE) (messageType : string) (remote : UDPAddr) (now : Time) : PE :=
  let key := messageType ^^ "|" ^^ udp_addr_string remote in
  let recent := match lastPacketLog pe !! key with
                | Some last => (time_sub now last <? ExchangeLogCooldown)%Z
                | None => false
                end in
  if recent then pe
  else
    let l := <[key := now]> (lastPacketLog pe) in
    with_log pe (if Nat.ltb 100 (size l) then not_older now (ExchangeLogCooldown * 2)%Z l else l).

Definition getKnownPeers (pe : PE) (now : Time) : list KnownPeer :=
  known_peer_of <$> filter (fun p => WGPubKey p <> ""%string /\ WGPubKey p <> own_pubkey pe)
                      (sink_active (pe_store pe) now).

Definition updateTransitivePeers (pe : PE) (knownPeers : list KnownPeer) (now : Time) : option PE :=
  with_store pe <$>
    update_all (pe_store pe)
      (transitive_peer (pe_config pe)
         <$> filter (fun kp => kp_WGPubKey kp <> own_pubkey pe) knownPeers)
      TransitiveMethod now.

(** [nonce] is the draw of [crypto/rand] for the envelope. *)
Definition sendReply (pe : PE) (remote : UDPAddr) (nonce : option (list Z)) (now : Time)
  : list effect :=
  let announcement :=
    with_observed (self_announcement (pe_node pe) (getKnownPeers pe now) now) (udp_addr_string remote) in
  match SealEnvelope MessageTypeReply (announcement_json announcement) (gossip_key pe) nonce with
  | Ok data => [Send remote data]
  | Err _ => []
  end.

Definition handleHello (pe : PE) (a : PeerAnnouncement) (remote : UDPAddr)
    (nonce : option (list Z)) (now : Time) : outcome :=
  if String.eqb (pa_WGPubKey a) (own_pubkey pe) then Some (pe, [])
  else
    let peerInfo := announced_peer a
      (filterEndpointForConfig (resolvePeerEndpoint (pa_WGEndpoint a) (Some remote)) (DisableIPv6 (pe_config pe))) in
    s ← sink_update (pe_store pe) peerInfo DHTMethod now;
    pe ← updateTransitivePeers (with_store pe s) (pa_KnownPeers a) now;
    Some (pe, sendReply pe remote nonce now).

Definition handleReply (pe : PE) (reply : PeerAnnouncement) (remote : UDPAddr) (now : Time)
  : outcome :=
  let pe := with_node pe (applyObservedEndpoint (pe_config pe) (pe_node pe) (pa_ObservedEndpoint reply)) in
  let peerInfo := announced_peer reply
    (filterEndpointForConfig (resolvePeerEndpoint (pa_WGEndpoint reply) (Some remote)) (DisableIPv6 (pe_config pe))) in
  pe ← updateTransitivePeers pe (pa_KnownPeers reply) now;
  s ← sink_update (pe_store pe) peerInfo DHTMethod now;
  let pe := with_store pe s in
  match pendingReplies pe !! udp_addr_string remote with
  | Some ch =>
      match replies pe !! ch with
      | Some None => Some (with_pending pe (pendingReplies pe) (<[ch := Some peerInfo]> (replies pe)), [])
      | _ => Some (pe, [])
      end
  | None => Some (pe, [])
  end.

(** The name a removal is logged under, [key[:8] + "..."] for a long key. *)
Definition goodbye_name (key : string) : option string :=
  if Nat.ltb 8 (String.length key) then
    prefix ← str_prefix key 8;
    Some (prefix ^^ "...")
  else Some key.

Definition handleGoodbye (pe : PE) (bye : goodbyeMessage) (now : Time) : outcome :=
  if String.eqb (gb_WGPubKey bye) "" || String.eqb (gb_WGPubKey bye) (own_pubkey pe) then Some (pe, [])
  else
    let msgTime := time_unix (gb_Timestamp bye) in
    if (GoodbyeWindow <? time_sub now msgTime)%Z then Some (pe, [])
    else if time_after msgTime (time_add now GoodbyeWindow) then Some (pe, [])
    else
      let pe := with_store pe (sink_remove (pe_store pe) (gb_WGPubKey bye)) in
      _ ← goodbye_name (gb_WGPubKey bye);
      Some (pe, []).

(** ** Rendezvous *)

(** The offer an introducer makes up for a target it knows. *)
Definition synthesized_offer (pe : PE) (offer : rendezvousOffer) (pairID targetControl : string)
    (now : Time) : rendezvousOffer :=
  {| ro_Protocol := ProtocolVersion; ro_Timestamp := time_to_unix now;
     ro_FromPubKey := ro_TargetPubKey offer; ro_TargetPubKey := ro_FromPubKey offer;
     ro_PairID := pairID;
     ro_Candidates := expandCandidatePorts (normalizeCandidates [targetControl]) RendezvousPortSpread;
     ro_ObservedAddr := ""; ro_IntroducerKey := own_pubkey pe |}.

(** The session of the pair with the offer recorded, and the target's offer
    when there is one or the target is in the store. *)
Definition record_offer (pe : PE) (st : rendezvousState) (offer : rendezvousOffer)
    (pairID observed : string) (candidates : list string) (now : Time)
  : rendezvousState * rendezvousOffer * option rendezvousOffer :=
  let a := {| ro_Protocol := ro_Protocol offer; ro_Timestamp := ro_Timestamp offer;
              ro_FromPubKey := ro_FromPubKey offer; ro_TargetPubKey := ro_TargetPubKey offer;
              ro_PairID := pairID; ro_Candidates := candidates; ro_ObservedAddr := observed;
              ro_IntroducerKey := own_pubkey pe |} in
  let st := {| st_offers := <[ro_FromPubKey offer := a]> (st_offers st);
               st_endpoints := <[ro_FromPubKey offer := observed]> (st_endpoints st);
               st_createdAt := st_createdAt st |} in
  match st_offers st !! ro_TargetPubKey offer with
  | Some b => (st, a, Some b)
  | None =>
      match sink_get (pe_store pe) (ro_TargetPubKey offer) with
      | None => (st, a, None)
      | Some target =>
          let targetControl := controlEndpointFromPeerEndpoint (Endpoint target) (GossipPort (Keys (pe_config pe))) in
          if String.eqb targetControl "" then (st, a, None)
          else
            let b := synthesized_offer pe offer pairID targetControl now in
            ({| st_offers := <[ro_TargetPubKey offer := b]> (st_offers st);
                st_endpoints := <[ro_TargetPubKey offer := targetControl]> (st_endpoints st);
                st_createdAt := st_createdAt st |}, a, Some b)
      end
  end.

Definition offer_candidates (cfg : Config) (offer : rendezvousOffer) (observed : string) : list string :=
  filterCandidatesForConfig
    (expandCandidatePorts (normalizeCandidates (ro_Candidates offer ++ [observed])) RendezvousPortSpread)
    (DisableIPv6 cfg).

(** The guards: a punching introducer, an offer between two other nodes, and a
    pair identifier that is absent or right. *)
Definition offer_acceptable (pe : PE) (offer : rendezvousOffer) : bool :=
  negb (DisablePunching (pe_config pe))
  && negb (String.eqb (ro_FromPubKey offer) "" || String.eqb (ro_TargetPubKey offer) "")
  && negb (String.eqb (ro_FromPubKey offer) (own_pubkey pe) || String.eqb (ro_TargetPubKey offer) (own_pubkey pe))
  && ln_Introducer (pe_node pe)
  && (String.eqb (ro_PairID offer) ""
      || String.eqb (ro_PairID offer) (pairIDForPeers (ro_FromPubKey offer) (ro_TargetPubKey offer))).

Definition handleRendezvousOffer (pe : PE) (offer : rendezvousOffer) (remote : UDPAddr) (now : Time)
  : PE * list effect :=
  if negb (offer_acceptable pe offer) then (pe, [])
  else
    let pairID := pairIDForPeers (ro_FromPubKey offer) (ro_TargetPubKey offer) in
    let observed := udp_addr_string remote in
    let candidates := offer_candidates (pe_config pe) offer observed in
    let sessions := filter (fun ks => (time_sub now (st_createdAt ks.2) <= RendezvousSessionTTL)%Z)
                      (rendezvousSessions pe) in
    let starts := not_older now (RendezvousStartCooldown * 2)%Z (rendezvousStarts pe) in
    let punches := not_older now (RendezvousPunchCooldown * 2)%Z (activePunches pe) in
    let st := default {| st_offers := ∅; st_endpoints := ∅; st_createdAt := now |} (sessions !! pairID) in
    let '(st, a, b) := record_offer pe st offer pairID observed candidates now in
    match b with
    | None => (with_rendezvous pe (<[pairID := st]> sessions) punches starts, [])
    | Some b =>
        let throttled := match starts !! pairID with
                         | Some lastStart => (time_sub now lastStart <? RendezvousStartCooldown)%Z
                         | None => false
                         end in
        if throttled then (with_rendezvous pe (<[pairID := st]> sessions) punches starts, [])
        else
          let startAt := time_add now RendezvousStartLeadTime in
          let endpoint k := default ""%string (st_endpoints st !! k) in
          (with_rendezvous pe (delete pairID (<[pairID := st]> sessions)) punches (<[pairID := now]> starts),
           [GoStart pairID (ro_FromPubKey a) (endpoint (ro_FromPubKey a)) (ro_FromPubKey b) (ro_Candidates b) startAt;
            GoStart pairID (ro_FromPubKey b) (endpoint (ro_FromPubKey b)) (ro_FromPubKey a) (ro_Candidates a) startAt])
    end.

Definition time_unix_milli (t : Time) : Z := Z.div t millisecond.
Definition of_unix_milli (ms : Z) : Time := (ms * millisecond)%Z.

Definition start_message (pe : PE) (pairID peerPubKey : string) (peerCandidates : list string)
    (startAt now : Time) : rendezvousStart :=
  {| rs_Protocol := ProtocolVersion; rs_Timestamp := time_to_unix now; rs_PairID := pairID;
     rs_PeerPubKey := peerPubKey;
     rs_PeerCandidates := filterCandidatesForConfig (normalizeCandidates peerCandidates)
                            (DisableIPv6 (pe_config pe));
     rs_StartAtUnixMs := time_unix_milli startAt; rs_IntroducerKey := own_pubkey pe |}.

(** The goroutine started by [GoStart]. *)
Definition sendRendezvousStart (pe : PE) (pairID targetPubKey targetEndpoint peerPubKey : string)
    (peerCandidates : list string) (startAt : Time) (nonce : option (list Z)) (now : Time)
  : list effect :=
  if String.eqb targetEndpoint "" || String.eqb peerPubKey "" then []
  else match resolve targetEndpoint with
  | None => []
  | Some remote =>
      let msg := start_message pe pairID peerPubKey peerCandidates startAt now in
      match SealEnvelope MessageTypeRendezvousStart (start_json msg) (gossip_key pe) nonce with
      | Ok data => [Send remote data]
      | Err _ => []
      end
  end.

Definition beginPunchJob (pe : PE) (pairID : string) (now : Time) : PE * bool :=
  let cooling := match activePunches pe !! pairID with
                 | Some last => (time_sub now last <? RendezvousPunchCooldown)%Z
                 | None => false
                 end in
  if cooling then (pe, false)
  else (with_rendezvous pe (rendezvousSessions pe) (<[pairID := now]> (activePunches pe)) (rendezvousStarts pe), true).

Definition endPunchJob (pe : PE) (pairID : string) (now : Time) : PE :=
  with_rendezvous pe (rendezvousSessions pe) (<[pairID := now]> (activePunches pe)) (rendezvousStarts pe).

Definition handleRendezvousStart (pe : PE) (start : rendezvousStart) (now : Time) : PE * list effect :=
  if DisablePunching (pe_config pe) then (pe, [])
  else if String.eqb (rs_PeerPubKey start) "" || String.eqb (rs_PairID start) "" then (pe, [])
  else
    let pairID := pairIDForPeers (own_pubkey pe) (rs_PeerPubKey start) in
    if negb (String.eqb pairID (rs_PairID start)) then (pe, [])
    else
      let startAt := if (0 <? rs_StartAtUnixMs start)%Z then of_unix_milli (rs_StartAtUnixMs start)
                     else time_add now (100 * millisecond)%Z in
      let candidates := filterCandidatesForConfig (normalizeCandidates (rs_PeerCandidates start))
                          (DisableIPv6 (pe_config pe)) in
      match candidates with
      | [] => (pe, [])
      | _ =>
          let '(pe, begun) := beginPunchJob pe pairID now in
          if begun then (pe, [GoPunch pairID (rs_PeerPubKey start) candidates startAt]) else (pe, [])
      end.

(** The polls of [wg show latest-handshakes] until the deadline, then one more. *)
Definition waitForHandshake (peerPubKey : string) (baseline : Z) (polls : list Z) (final : Z) : Z :=
  if String.eqb peerPubKey "" then 0
  else default final (List.find (fun hs => (baseline <? hs)%Z) polls).

(** What one candidate led to: the peer [ExchangeWithPeer] returned (as it is
    when it is used), and the handshakes read afterwards. *)
Record attempt := { at_reply : result PeerInfo; at_polls : list Z; at_final : Z }.

Fixpoint punch_loop (peerPubKey : string) (baseline : Z) (attempts : list attempt) : option PeerInfo :=
  match attempts with
  | [] => None
  | at_ :: rest =>
      match at_reply at_ with
      | Err _ => punch_loop peerPubKey baseline rest
      | Ok peerInfo =>
          if negb (String.eqb peerPubKey "") && negb (String.eqb (WGPubKey peerInfo) "")
             && negb (String.eqb (WGPubKey peerInfo) peerPubKey)
          then punch_loop peerPubKey baseline rest
          else if (waitForHandshake peerPubKey baseline (at_polls at_) (at_final at_) <=? baseline)%Z
          then punch_loop peerPubKey baseline rest
          else Some peerInfo
      end
  end.

Definition runRendezvousPunch (pe : PE) (pairID peerPubKey : string) (baseline : Z)
    (attempts : list attempt) (now : Time) : option PE :=
  match punch_loop peerPubKey baseline attempts with
  | Some peerInfo =>
      s ← sink_update (pe_store pe) peerInfo RendezvousMethod now;
      Some (endPunchJob (with_store pe s) pairID now)
  | None => Some (endPunchJob pe pairID now)
  end.

(** The offer a node makes for a peer it wants to reach. *)
Definition rendezvous_offer (pe : PE) (targetPubKey : string) (candidates : list string) (now : Time)
  : rendezvousOffer :=
  {| ro_Protocol := ProtocolVersion; ro_Timestamp := time_to_unix now;
     ro_FromPubKey := own_pubkey pe; ro_TargetPubKey := targetPubKey;
     ro_PairID := pairIDForPeers (own_pubkey pe) targetPubKey;
     ro_Candidates := filterCandidatesForConfig (normalizeCandidates candidates) (DisableIPv6 (pe_config pe));
     ro_ObservedAddr := ""; ro_IntroducerKey := "" |}.

Definition RequestRendezvous (pe : PE) (introducerAddr targetPubKey : string) (candidates : list string)
    (nonce : option (list Z)) (now : Time) : result (list effect) :=
  if DisablePunching (pe_config pe) then Ok []
  else if String.eqb introducerAddr "" || String.eqb targetPubKey ""
  then Err "introducer and target pubkey are required"
  else match resolve introducerAddr with
  | None => Err "failed to resolve introducer address"
  | Some remote =>
      let offer := rendezvous_offer pe targetPubKey candidates now in
      data <-? wrap "failed to seal rendezvous offer"
        (SealEnvelope MessageTypeRendezvousOffer (offer_json offer) (gossip_key pe) nonce);
      Ok [Send remote data]
  end.

(** ** Receiving *)

Definition handlePlaintext (pe : PE) (messageType : string) (plaintext : list Z) (remote : UDPAddr)
    (nonce : option (list Z)) (now : Time) : outcome :=
  if String.eqb messageType MessageTypeHello then
    match of_json_bytes dec_announcement plaintext with
    | Some a => handleHello pe a remote nonce now
    | None => Some (pe, [])
    end
  else if String.eqb messageType MessageTypeReply then
    match of_json_bytes dec_announcement plaintext with
    | Some reply => handleReply pe reply remote now
    | None => Some (pe, [])
    end
  else if String.eqb messageType MessageTypeAnnounce then
    match of_json_bytes dec_announcement plaintext with
    | Some a =>
        match announceHandler pe with
        | Some handler => s ← handler a (Some remote) now (pe_store pe); Some (with_store pe s, [])
        | None => Some (pe, [])
        end
    | None => Some (pe, [])
    end
  else if String.eqb messageType MessageTypeRendezvousOffer then
    match of_json_bytes dec_offer plaintext with
    | Some offer => Some (handleRendezvousOffer pe offer remote now)
    | None => Some (pe, [])
    end
  else if String.eqb messageType MessageTypeRendezvousStart then
    match of_json_bytes dec_start plaintext with
    | Some start => Some (handleRendezvousStart pe start now)
    | None => Some (pe, [])
    end
  else if String.eqb messageType MessageTypeGoodbye then
    match of_json_bytes dec_goodbye plaintext with
    | Some bye => handleGoodbye pe bye now
    | None => Some (pe, [])
    end
  else Some (pe, []).

Definition handleMessage (pe : PE) (data : list Z) (remote : UDPAddr) (nonce : option (list Z))
    (now : Time) : outcome :=
  match OpenEnvelopeRaw data (gossip_key pe) now with
  | None => None
  | Some (Err _) => Some (pe, [])
  | Some (Ok (envelope, plaintext)) =>
      handlePlaintext (logIncomingPacket pe (MessageType envelope) remote now)
        (MessageType envelope) plaintext remote nonce now
  end.

(** One turn of [listenLoop]: the rate limit, then the handler. *)
Definition receive (pe : PE) (data : list Z) (remote : UDPAddr) (nonce : option (list Z))
    (now : Time) : outcome :=
  let '(l, allow) := Allow (pe_limiter pe) (ip_string (ua_ip remote)) now in
  let pe := with_limiter pe l in
  if allow then handleMessage pe data remote nonce now else Some (pe, []).

(** ** Requests *)

(** [ExchangeWithPeer] up to its first HELLO: the channel registered, the
    datagram to send (and to send again every 100 ms).  A failure unregisters
    the channel. *)
Record request := { rq_remote : UDPAddr; rq_chan : nat; rq_hello : list Z }.

Definition clearPendingReplyChannel (pe : PE) (remote : UDPAddr) : PE :=
  with_pending pe (delete (udp_addr_string remote) (pendingReplies pe)) (replies pe).

Definition startExchange (pe : PE) (addrStr : string) (nonce : option (list Z)) (sent : bool) (now : Time)
  : PE * result request :=
  match resolve addrStr with
  | None => (pe, Err "failed to resolve address")
  | Some remote =>
      let ch := fresh (dom (replies pe)) in
      let pe := with_pending pe (<[udp_addr_string remote := ch]> (pendingReplies pe))
                  (<[ch := None]> (replies pe)) in
      let announcement := self_announcement (pe_node pe) (getKnownPeers pe now) now in
      match SealEnvelope MessageTypeHello (announcement_json announcement) (gossip_key pe) nonce with
      | Err _ => (clearPendingReplyChannel pe remote, Err "failed to seal hello")
      | Ok data =>
          if sent then (pe, Ok {| rq_remote := remote; rq_chan := ch; rq_hello := data |})
          else (clearPendingReplyChannel pe remote, Err "failed to send hello")
      end
  end.

(** The punch ticker: the same HELLO again, unless punching is disabled. *)
Definition resendHello (pe : PE) (rq : request) : list effect :=
  if DisablePunching (pe_config pe) then [] else [Send (rq_remote rq) (rq_hello rq)].

(** The end of the wait: the reply when the channel holds one, the timeout
    otherwise. *)
Definition finishExchange (pe : PE) (rq : request) : PE * result PeerInfo :=
  (clearPendingReplyChannel pe (rq_remote rq),
   match replies pe !! rq_chan rq with
   | Some (Some peerInfo) => Ok peerInfo
   | _ => Err "exchange timeout"
   end).

Definition SendAnnounce (pe : PE) (remote : UDPAddr) (nonce : option (list Z)) (now : Time)
  : result (list effect) :=
  let announcement := self_announcement (pe_node pe) (getKnownPeers pe now) now in
  data <-? wrap "failed to seal announce"
    (SealEnvelope MessageTypeAnnounce (announcement_json announcement) (gossip_key pe) nonce);
  Ok [Send remote data].

Definition SendGoodbye (pe : PE) (addr : string) (nonce : option (list Z)) (now : Time)
  : result (list effect) :=
  match resolve addr with
  | None => Err "failed to resolve goodbye target"
  | Some remote =>
      let msg := {| gb_Protocol := ProtocolVersion; gb_Timestamp := time_to_unix now;
                    gb_WGPubKey := own_pubkey pe |} in
      data <-? wrap "failed to seal goodbye"
        (SealEnvelope MessageTypeGoodbye (goodbye_json msg) (gossip_key pe) nonce);
      Ok [Send remote data]
  end.

End exchange.

(** ** The messages read back *)

Definition start_text (s : rendezvousStart) : bool :=
  ascii_str (rs_Protocol s) && int64 (rs_Timestamp s) && ascii_str (rs_PairID s)
  && ascii_str (rs_PeerPubKey s) && forallb ascii_str (rs_PeerCandidates s)
  && int64 (rs_StartAtUnixMs s) && ascii_str (rs_IntroducerKey s).

Definition offer_text (o : rendezvousOffer) : bool :=
  ascii_str (ro_Protocol o) && int64 (ro_Timestamp o) && ascii_str (ro_FromPubKey o)
  && ascii_str (ro_TargetPubKey o) && ascii_str (ro_PairID o) && forallb ascii_str (ro_Candidates o)
  && ascii_str (ro_ObservedAddr o) && ascii_str (ro_IntroducerKey o).

Definition goodbye_text (g : goodbyeMessage) : bool :=
  ascii_str (gb_Protocol g) && int64 (gb_Timestamp g) && ascii_str (gb_WGPubKey g).

Lemma start_reads s : start_text s = true ->
  json_ok (start_json s) = true /\ dec_start (start_json s) = Some s
  /\ dec_meta (start_json s) = Some (rs_Protocol s, rs_Timestamp s).
Proof.
  unfold start_text, int64. intros H. bool_steps.
  assert (int64_min <= rs_Timestamp s <= int64_max)%Z by lia.
  assert (int64_min <= rs_StartAtUnixMs s <= int64_max)%Z by lia.
  split; [|split].
  - unfold start_json. message_ok.
  - unfold dec_start, start_json. read_message. by destruct s.
  - unfold dec_meta, start_json. by read_message.
Qed.

Lemma offer_reads o : offer_text o = true ->
  json_ok (offer_json o) = true /\ dec_offer (offer_json o) = Some o
  /\ dec_meta (offer_json o) = Some (ro_Protocol o, ro_Timestamp o).
Proof.
  unfold offer_text, int64. intros H. bool_steps.
  assert (int64_min <= ro_Timestamp o <= int64_max)%Z by lia.
  split; [|split].
  - unfold offer_json. message_ok.
  - unfold dec_offer, offer_json. read_message. by destruct o.
  - unfold dec_meta, offer_json. by read_message.
Qed.

Lemma goodbye_reads g : goodbye_text g = true ->
  json_ok (goodbye_json g) = true /\ dec_goodbye (goodbye_json g) = Some g
  /\ dec_meta (goodbye_json g) = Some (gb_Protocol g, gb_Timestamp g).
Proof.
  unfold goodbye_text, int64. intros H. bool_steps.
  assert (int64_min <= gb_Timestamp g <= int64_max)%Z by lia.
  split; [|split].
  - unfold goodbye_json. message_ok.
  - unfold dec_goodbye, goodbye_json. read_message. by destruct g.
  - unfold dec_meta, goodbye_json. by read_message.
Qed.

(** ** What a handler may change *)

Section exchange_safety.
Context {S : Type} {sink : PeerSink S} {cipher : Aead}.
Notation PE := (PeerExchange S).

(** What the exchange needs of an announce handler: it does not panic, keeps
    the store's invariant, and leaves the entry of the local node alone. *)
Definition handler_ok (pe : PE) : Prop :=
  forall h, announceHandler pe = Some h -> forall a remote now s, sink_inv s ->
  exists s', h a remote now s = Some s' /\ sink_inv s'
             /\ sink_get s' (own_pubkey pe) = sink_get s (own_pubkey pe).

Definition exchange_ok (pe : PE) : Prop := sink_inv (pe_store pe) /\ handler_ok pe.

(** Identity and configuration: everything a message must not touch. *)
Definition same_identity (pe pe' : PE) : Prop :=
  pe_config pe' = pe_config pe /\ announceHandler pe' = announceHandler pe
  /\ exists ep, pe_node pe' = SetEndpoint (pe_node pe) ep.

#[export] Instance same_identity_preorder : PreOrder same_identity.
Proof.
  split.
  - intros pe. split; [done|]. split; [done|]. exists (wgEndpoint (pe_node pe)). by destruct (pe_node pe).
  - intros x y z (Hc & Hh & e & Hn) (Hc' & Hh' & e' & Hn'). unfold same_identity.
    rewrite Hc', Hh', Hn', Hn. split; [done|]. split; [done|]. by exists e'.
Qed.

Lemma same_identity_refl' pe pe' :
  pe_config pe' = pe_config pe -> announceHandler pe' = announceHandler pe -> pe_node pe' = pe_node pe ->
  same_identity pe pe'.
Proof.
  intros Hc Hh Hn. split; [done|]. split; [done|]. exists (wgEndpoint (pe_node pe)).
  rewrite Hn. by destruct (pe_node pe).
Qed.

Lemma same_identity_own pe pe' : same_identity pe pe' -> own_pubkey pe' = own_pubkey pe.
Proof. intros (_ & _ & ep & Hn). unfold own_pubkey. by rewrite Hn. Qed.

Lemma handler_ok_same pe pe' : same_identity pe pe' -> handler_ok pe -> handler_ok pe'.
Proof.
  intros Hs Hh. unfold handler_ok. rewrite (same_identity_own _ _ Hs). destruct Hs as (_ & -> & _). exact Hh.
Qed.

Lemma applyObservedEndpoint_endpoint cfg n observed :
  exists ep, applyObservedEndpoint cfg n observed = SetEndpoint n ep.
Proof.
  assert (exists ep, n = SetEndpoint n ep) as Hn by (exists (wgEndpoint n); by destruct n).
  unfold applyObservedEndpoint. cbv zeta. repeat case_match; eauto.
Qed.

(** The loop over announced peers leaves alone the keys it does not name, among
    them the local one. *)
Lemma updateTransitivePeers_spec (pe : PE) kps now : sink_inv (pe_store pe) ->
  exists s', updateTransitivePeers pe kps now = Some (with_store pe s') /\ sink_inv s'
    /\ sink_get s' (own_pubkey pe) = sink_get (pe_store pe) (own_pubkey pe)
    /\ (forall k, k ∉ (kp_WGPubKey <$> kps) -> sink_get s' k = sink_get (pe_store pe) k)
    /\ (forall k, is_Some (sink_get (pe_store pe) k) -> is_Some (sink_get s' k))
    /\ (length kps <= sink_room (pe_store pe) ->
        forall k, k ∈ (kp_WGPubKey <$> kps) -> k <> own_pubkey pe -> is_Some (sink_get s' k))
    /\ sink_room (pe_store pe) <= length kps + sink_room s'.
Proof.
  intros Hs. unfold updateTransitivePeers.
  set (infos := transitive_peer (pe_config pe)
         <$> filter (fun kp => kp_WGPubKey kp <> own_pubkey pe) kps).
  assert (forall k, k ∈ (WGPubKey <$> infos) <-> k ∈ (kp_WGPubKey <$> kps) /\ k <> own_pubkey pe) as Hkeys.
  { intros k. unfold infos. rewrite <- list_fmap_compose, !list_elem_of_fmap.
    setoid_rewrite list_elem_of_filter. split.
    - intros (kp & -> & Hne & Hin). split; [by exists kp|done].
    - intros [(kp & -> & Hin) Hne]. by exists kp. }
  assert (length infos <= length kps) as Hlen.
  { unfold infos. rewrite length_fmap. apply length_filter. }
  destruct (update_all_spec (pe_store pe) infos TransitiveMethod now Hs)
    as (s' & -> & Hs' & Hn & Hkeep & Hall & Hroom).
  exists s'. split; [done|]. split; [done|]. split; [apply Hn; rewrite Hkeys; tauto|].
  split; [intros k Hk; apply Hn; rewrite Hkeys; tauto|]. split; [done|].
  split; [intros Hr k Hk Hne; apply Hall; [lia|by apply Hkeys]|lia].
Qed.

(** One handled message: the state is sound again, the identity is kept, and
    so is the entry of the local node under the condition [own]; a datagram goes
    only to where the message came from. *)
Definition handled (own : Prop) (remote : UDPAddr) (pe pe' : PE) (effs : list effect) : Prop :=
  sink_inv (pe_store pe') /\ same_identity pe pe'
  /\ (own -> sink_get (pe_store pe') (own_pubkey pe) = sink_get (pe_store pe) (own_pubkey pe))
  /\ length effs <= 2
  /\ forall to data, Send to data ∈ effs -> to = remote /\ effs = [Send to data].

(** A step that leaves store, configuration and node alone. *)
Lemma handled_quiet own remote (pe pe' : PE) effs :
  sink_inv (pe_store pe) -> pe_store pe' = pe_store pe -> pe_config pe' = pe_config pe ->
  announceHandler pe' = announceHandler pe -> pe_node pe' = pe_node pe -> length effs <= 2 ->
  (forall to data, Send to data ∉ effs) -> handled own remote pe pe' effs.
Proof.
  intros Hs Hst Hc Hh Hn Hl Hno. unfold handled. rewrite Hst.
  split; [done|]. split; [by apply same_identity_refl'|]. split; [done|]. split; [done|].
  intros to data Hin. by apply Hno in Hin.
Qed.

Lemma handled_trans own remote pe1 pe2 pe3 effs :
  handled True remote pe1 pe2 [] -> handled own remote pe2 pe3 effs -> handled own remote pe1 pe3 effs.
Proof.
  intros (_ & Hi & Ho & _) (Hs' & Hi' & Ho' & Hl & He).
  rewrite (same_identity_own _ _ Hi) in Ho'. split; [done|]. split; [by etrans|].
  split; [|done]. intros H. by rewrite Ho', Ho.
Qed.

Ltac quiet :=
  cbn [fst snd]; apply handled_quiet;
  [done..|simpl; lia|intros ??; rewrite ?elem_of_cons, ?elem_of_nil; intuition congruence].

Lemma sendReply_effects (pe : PE) remote nonce now :
  length (sendReply pe remote nonce now) <= 2
  /\ forall to data, Send to data ∈ sendReply pe remote nonce now ->
       to = remote /\ sendReply pe remote nonce now = [Send to data].
Proof.
  unfold sendReply. destruct (SealEnvelope _ _ _ _); simpl; split; try lia.
  - intros to data. rewrite list_elem_of_singleton. by intros [= -> ->].
  - intros to data H. by apply elem_of_nil in H.
Qed.

Lemma handleHello_handled (pe : PE) a remote nonce now : sink_inv (pe_store pe) ->
  exists pe' effs, handleHello pe a remote nonce now = Some (pe', effs) /\ handled True remote pe pe' effs.
Proof.
  intros Hs. unfold handleHello. destruct (String.eqb_spec (pa_WGPubKey a) (own_pubkey pe)) as [|Hne].
  { exists pe, []. split; [done|]. quiet. }
  set (info := announced_peer a _).
  destruct (sink_update_spec (pe_store pe) info DHTMethod now Hs) as (s1 & -> & Hs1 & _ & Ho1 & _).
  cbn [mbind option_bind].
  destruct (updateTransitivePeers_spec (with_store pe s1) (pa_KnownPeers a) now Hs1)
    as (s2 & -> & Hs2 & Hown & _). cbn [mbind option_bind].
  do 2 eexists. split; [done|]. split; [done|]. split; [by apply same_identity_refl'|].
  split; [|apply sendReply_effects]. intros _. simpl in *. unfold own_pubkey in *. simpl in *.
  rewrite Hown. apply Ho1. simpl. congruence.
Qed.

Lemma handleReply_handled (pe : PE) reply remote now : sink_inv (pe_store pe) ->
  exists pe' effs, handleReply pe reply remote now = Some (pe', effs)
    /\ handled (pa_WGPubKey reply <> own_pubkey pe) remote pe pe' effs.
Proof.
  intros Hs. unfold handleReply. cbv zeta.
  destruct (applyObservedEndpoint_endpoint (pe_config pe) (pe_node pe) (pa_ObservedEndpoint reply)) as [ep Hep].
  set (pe1 := with_node pe _). set (info := announced_peer reply _).
  assert (same_identity pe pe1) as H1 by (split; [done|]; split; [done|]; by exists ep).
  destruct (updateTransitivePeers_spec pe1 (pa_KnownPeers reply) now Hs)
    as (s2 & -> & Hs2 & Hown & _). cbn [mbind option_bind pe_store with_store].
  destruct (sink_update_spec s2 info DHTMethod now Hs2) as (s3 & -> & Hs3 & _ & Ho3 & _).
  cbn [mbind option_bind].
  assert (forall chs, handled (pa_WGPubKey reply <> own_pubkey pe) remote pe
            (with_pending (with_store pe1 s3) (pendingReplies pe) chs) []) as Hfin.
  { intros chs. split; [done|]. split; [exact H1|]. split.
    - intros Hne. cbn [pe_store with_pending with_store]. rewrite Ho3 by (simpl; congruence).
      rewrite <- (same_identity_own _ _ H1). exact Hown.
    - split; [simpl; lia|]. intros to data H. by apply elem_of_nil in H. }
  cbn [pendingReplies replies with_store with_node pe1].
  destruct (pendingReplies pe !! udp_addr_string remote) as [ch|];
    [destruct (replies pe !! ch) as [[]|]|]; do 2 eexists; (split; [reflexivity|]);
    try apply Hfin; exact (Hfin (replies pe)).
Qed.

(** The slice is within the key: short keys are logged whole. *)
Lemma goodbye_name_total key : exists name, goodbye_name key = Some name.
Proof.
  unfold goodbye_name, str_prefix. destruct (Nat.ltb_spec 8 (String.length key)) as [Hl|]; [|by eexists].
  rewrite (proj2 (Nat.leb_le _ _)) by lia. by eexists.
Qed.

Lemma handleGoodbye_handled (pe : PE) bye remote now : sink_inv (pe_store pe) ->
  exists pe' effs, handleGoodbye pe bye now = Some (pe', effs) /\ handled True remote pe pe' effs.
Proof.
  intros Hs. unfold handleGoodbye.
  assert (exists pe' effs, Some (pe, @nil effect) = Some (pe', effs) /\ handled True remote pe pe' effs) as Hskip
    by (do 2 eexists; split; [done|]; quiet).
  destruct (_ || _) eqn:Hk; [done|]. bool_steps.
  destruct (_ <? _)%Z; [done|]. destruct (time_after _ _); [done|].
  destruct (goodbye_name_total (gb_WGPubKey bye)) as [name ->]. cbn [mbind option_bind].
  do 2 eexists. split; [done|]. split; [by apply sink_remove_inv|]. split; [by apply same_identity_refl'|]. split.
  - intros _. simpl. by rewrite sink_get_remove, decide_False.
  - split; [simpl; lia|]. intros to data H'. by apply elem_of_nil in H'.
Qed.

Lemma handleRendezvousOffer_handled (pe : PE) offer remote now : sink_inv (pe_store pe) ->
  handled True remote pe (handleRendezvousOffer pe offer remote now).1
    (handleRendezvousOffer pe offer remote now).2.
Proof.
  intros Hs. unfold handleRendezvousOffer. destruct (negb _); [quiet|]. cbv zeta.
  destruct (record_offer _ _ _ _ _ _ _) as [[st a] [b|]]; [|quiet].
  destruct (match _ !! _ with Some _ => _ | None => _ end); quiet.
Qed.

Lemma handleRendezvousStart_handled (pe : PE) start remote now : sink_inv (pe_store pe) ->
  handled True remote pe (handleRendezvousStart pe start now).1 (handleRendezvousStart pe start now).2.
Proof.
  intros Hs. unfold handleRendezvousStart, beginPunchJob. cbv zeta.
  destruct (DisablePunching _); [quiet|]. destruct (_ || _); [quiet|]. destruct (negb _); [quiet|].
  destruct (filterCandidatesForConfig _ _); [quiet|].
  destruct (match _ !! _ with Some _ => _ | None => _ end); quiet.
Qed.

Lemma logIncomingPacket_handled (pe : PE) mt remote now : sink_inv (pe_store pe) ->
  handled True remote pe (logIncomingPacket pe mt remote now) [].
Proof.
  intros Hs. unfold logIncomingPacket. cbv zeta.
  destruct (match _ !! _ with Some _ => _ | None => _ end); quiet.
Qed.

(** The REPLY whose sender claims the key of the local node. *)
Definition claims_own_key (pe : PE) (messageType : string) (plaintext : list Z) : Prop :=
  messageType = MessageTypeReply
  /\ exists reply, of_json_bytes dec_announcement plaintext = Some reply /\ pa_WGPubKey reply = own_pubkey pe.

Lemma handlePlaintext_handled (pe : PE) mt plaintext remote nonce now : exchange_ok pe ->
  exists pe' effs, handlePlaintext pe mt plaintext remote nonce now = Some (pe', effs)
    /\ handled (~ claims_own_key pe mt plaintext) remote pe pe' effs.
Proof.
  intros [Hs Hh]. unfold handlePlaintext.
  assert (forall pe' effs, handled True remote pe pe' effs ->
            handled (~ claims_own_key pe mt plaintext) remote pe pe' effs) as Hweak.
  { intros pe' effs (? & ? & Ho & ?). split; [done|]. split; [done|]. split; [|done]. by intros _; apply Ho. }
  assert (exists pe' effs, Some (pe, @nil effect) = Some (pe', effs)
            /\ handled (~ claims_own_key pe mt plaintext) remote pe pe' effs) as Hskip
    by (do 2 eexists; split; [done|]; quiet).
  destruct (String.eqb mt MessageTypeHello).
  { destruct (of_json_bytes _ _) as [a|]; [|done].
    destruct (handleHello_handled pe a remote nonce now Hs) as (pe' & effs & -> & H). eauto. }
  destruct (String.eqb_spec mt MessageTypeReply) as [->|].
  { destruct (of_json_bytes dec_announcement plaintext) as [r|] eqn:Hr; [|done].
    destruct (handleReply_handled pe r remote now Hs) as (pe' & effs & -> & ? & ? & Ho & ?).
    do 2 eexists. split; [done|]. split; [done|]. split; [done|]. split; [|done].
    intros Hno. apply Ho. intros Hk. apply Hno. split; [done|]. by exists r. }
  destruct (String.eqb mt MessageTypeAnnounce).
  { destruct (of_json_bytes dec_announcement plaintext) as [a|]; [|done].
    destruct (announceHandler pe) as [h|] eqn:Ea; [|done].
    destruct (Hh h Ea a (Some remote) now (pe_store pe) Hs) as (s' & -> & Hs' & Hown).
    cbn [mbind option_bind]. do 2 eexists. split; [done|]. split; [done|].
    split; [by apply same_identity_refl'|]. split; [done|]. split; [simpl; lia|].
    intros to data H'. by apply elem_of_nil in H'. }
  destruct (String.eqb mt MessageTypeRendezvousOffer).
  { destruct (of_json_bytes dec_offer plaintext) as [o|]; [|done].
    pose proof (handleRendezvousOffer_handled pe o remote now Hs).
    destruct (handleRendezvousOffer pe o remote now) as [pe' effs]. eauto. }
  destruct (String.eqb mt MessageTypeRendezvousStart).
  { destruct (of_json_bytes dec_start plaintext) as [o|]; [|done].
    pose proof (handleRendezvousStart_handled pe o remote now Hs).
    destruct (handleRendezvousStart pe o now) as [pe' effs]. eauto. }
  destruct (String.eqb mt MessageTypeGoodbye); [|done].
  destruct (of_json_bytes dec_goodbye plaintext) as [g|]; [|done].
  destruct (handleGoodbye_handled pe g remote now Hs) as (pe' & effs & -> & H). eauto.
Qed.
End exchange_safety.
