(* ===== verification/Gossip.v ===== *)
(** * In-mesh gossip (pkg/discovery/gossip.go)

    Every ten seconds a node tells a random active peer whom it knows.  The
    announcements travel either on the exchange's socket (the handler given to
    [SetAnnounceHandler]) or on a socket of their own inside the mesh. *)

From S2P Require Import Prelude GoStrings GoNet GoCrypto GoJson PeerStore Derive Aead Envelope.
From S2P Require Import RateLimit NodeConfig Endpoints PeerSink Exchange.
Local Open Scope wgmesh_scope.

Definition GossipMethod : string := "gossip".

(** [g_exchange] tells whether the exchange's socket is shared. *)
Record MeshGossip := {
  g_config : Config;
  g_node : LocalNode;
  g_gossipKey : list Z;
  g_port : Z;
  g_exchange : bool;
  g_limiter : IPRateLimiter;
}.

Section gossip.
Context {S : Type} {sink : PeerSink S} {cipher : Aead}.

Definition NewMeshGossip (cfg : Config) (n : LocalNode) (exchange : bool) : MeshGossip :=
  {| g_config := cfg; g_node := n; g_gossipKey := GossipKey (Keys cfg); g_port := GossipPort (Keys cfg);
     g_exchange := exchange; g_limiter := NewDefault |}.

Definition handleAnnouncement (g : MeshGossip) (a : PeerAnnouncement) (sender : option UDPAddr)
    (now : Time) (s : S) : option S :=
  if String.eqb (pa_WGPubKey a) (ln_WGPubKey (g_node g)) then Some s
  else
    let endpoint := match sender with
                    | None => normalizeKnownPeerEndpoint (pa_WGEndpoint a)
                    | Some _ => resolvePeerEndpoint (pa_WGEndpoint a) sender
                    end in
    let peer := announced_peer a (filterEndpointForConfig endpoint (DisableIPv6 (g_config g))) in
    s ← sink_update s peer GossipMethod now;
    update_all s
      (transitive_peer (g_config g)
         <$> filter (fun kp => kp_WGPubKey kp <> ln_WGPubKey (g_node g)) (pa_KnownPeers a))
      (GossipMethod ^^ "-transitive") now.

Definition HandleAnnounceFrom (g : MeshGossip) (a : PeerAnnouncement) (sender : option UDPAddr)
    (now : Time) (s : S) : option S := handleAnnouncement g a sender now s.

(** One turn of the standalone listener; an error leaves the store alone. *)
Definition gossip_receive (g : MeshGossip) (s : S) (data : list Z) (remote : UDPAddr) (now : Time)
  : option (MeshGossip * S) :=
  let '(l, allow) := Allow (g_limiter g) (ip_string (ua_ip remote)) now in
  let g := {| g_config := g_config g; g_node := g_node g; g_gossipKey := g_gossipKey g;
              g_port := g_port g; g_exchange := g_exchange g; g_limiter := l |} in
  if negb allow then Some (g, s)
  else match OpenEnvelope data (g_gossipKey g) now with
  | None => None
  | Some (Err _) => Some (g, s)
  | Some (Ok (_, a)) => s ← handleAnnouncement g a None now s; Some (g, s)
  end.

Definition gossip_candidates (g : MeshGossip) (peers : list PeerInfo) : list PeerInfo :=
  filter (fun p => WGPubKey p <> ln_WGPubKey (g_node g) /\ MeshIP p <> ""%string) peers.

(** What a standalone announcement to [target] tells. *)
Definition gossip_known (peers : list PeerInfo) (target : PeerInfo) : list KnownPeer :=
  known_peer_of <$> filter (fun p => WGPubKey p <> WGPubKey target) peers.

(** [draw n] is [rand.Intn(n)]; on the exchange's socket the announcement is
    built by [SendAnnounce] of [pe]. *)
Definition exchangeWithRandomPeer (g : MeshGossip) (pe : PeerExchange S) (s : S)
    (draw : nat -> nat) (nonce : option (list Z)) (now : Time) : list effect :=
  let peers := sink_active s now in
  let candidates := gossip_candidates g peers in
  match candidates !! draw (length candidates) with
  | None => []
  | Some target =>
      match parse_ip (MeshIP target) with
      | None => []
      | Some ip =>
          let targetAddr := {| ua_ip := ip; ua_port := g_port g |} in
          if g_exchange g then
            match SendAnnounce pe targetAddr nonce now with Ok effs => effs | Err _ => [] end
          else
            let a := self_announcement (g_node g) (gossip_known peers target) now in
            match SealEnvelope MessageTypeAnnounce (announcement_json a) (g_gossipKey g) nonce with
            | Ok data => [Send targetAddr data]
            | Err _ => []
            end
      end
  end.

(** ** The handler the exchange relies on *)

Lemma handleAnnouncement_spec g a sender now (s : S) : sink_inv s ->
  exists s', handleAnnouncement g a sender now s = Some s' /\ sink_inv s'
    /\ sink_get s' (ln_WGPubKey (g_node g)) = sink_get s (ln_WGPubKey (g_node g)).
Proof.
  intros Hs. unfold handleAnnouncement. destruct (String.eqb_spec (pa_WGPubKey a) (ln_WGPubKey (g_node g))) as [|Hne].
  { eauto. }
  cbv zeta. set (info := announced_peer a _).
  destruct (sink_update_spec s info GossipMethod now Hs) as (s1 & -> & Hs1 & _ & Ho & _). cbn [mbind option_bind].
  set (infos := _ <$> filter _ _).
  destruct (update_all_spec s1 infos (GossipMethod ^^ "-transitive") now Hs1) as (s2 & -> & Hs2 & Hn & _).
  exists s2. split; [done|]. split; [done|]. rewrite Hn.
  - apply Ho. simpl. congruence.
  - unfold infos. rewrite <- list_fmap_compose, list_elem_of_fmap. intros (kp & Hk & Hin).
    apply list_elem_of_filter in Hin as [Hin _]. simpl in Hk. congruence.
Qed.

(** The gossip of the same node discharges what the exchange asks of its
    announce handler. *)
Lemma gossip_handler_ok (pe : PeerExchange S) g :
  sink_inv (pe_store pe) -> g_node g = pe_node pe ->
  exchange_ok (SetAnnounceHandler pe (HandleAnnounceFrom g)).
Proof.
  intros Hs Hg. split; [done|]. intros h [= <-] a remote now s Hi.
  unfold own_pubkey. simpl. rewrite <- Hg. by apply handleAnnouncement_spec.
Qed.
End gossip.
