(* ===== verification/Protocol.v ===== *)
(** * The exchange protocol between nodes

    The theorems about pkg/discovery/exchange.go and gossip.go: what any
    datagram can do to a node, what two nodes know after a HELLO and its REPLY,
    what a GOODBYE removes, and how an introducer starts a synchronized punch. *)

From S2P Require Import Prelude GoStrings GoNet GoCrypto GoJson PeerStore Derive Aead Envelope.
From S2P Require Import RateLimit NodeConfig Endpoints PeerSink Exchange Gossip.
Local Open Scope wgmesh_scope.

(** A datagram as it arrives: bytes, source, the nonce drawn if it is answered,
    and the clock. *)
Record arrival := { ar_data : list Z; ar_from : UDPAddr; ar_nonce : option (list Z); ar_now : Time }.

Section protocol.
Context {S : Type} {sink : PeerSink S} {cipher : Aead}.
Notation PE := (PeerExchange S).

Fixpoint receive_all (pe : PE) (ms : list arrival) : option (PE * list (list effect)) :=
  match ms with
  | [] => Some (pe, [])
  | m :: ms' =>
      match receive pe (ar_data m) (ar_from m) (ar_nonce m) (ar_now m) with
      | None => None
      | Some (pe', effs) =>
          match receive_all pe' ms' with
          | None => None
          | Some (pe'', rest) => Some (pe'', effs :: rest)
          end
      end
  end.

(** ** Any datagram *)

Lemma exchange_ok_after (pe pe' : PE) own remote effs :
  exchange_ok pe -> handled own remote pe pe' effs -> exchange_ok pe'.
Proof. intros [_ Hh] (Hs & Hi & _). split; [done|]. by eapply handler_ok_same. Qed.

(** Who sent [data] claims the local node's key in a REPLY. *)
Definition impersonates (pe : PE) (data : list Z) (now : Time) : Prop :=
  exists env plaintext, OpenEnvelopeRaw data (gossip_key pe) now = Some (Ok (env, plaintext))
    /\ claims_own_key pe (MessageType env) plaintext.

Lemma handleMessage_handled (pe : PE) data remote nonce now : exchange_ok pe ->
  exists pe' effs, handleMessage pe data remote nonce now = Some (pe', effs)
    /\ handled (~ impersonates pe data now) remote pe pe' effs
    /\ ((forall x, OpenEnvelopeRaw data (gossip_key pe) now <> Some (Ok x)) -> pe' = pe /\ effs = []).
Proof.
  intros Hok. unfold handleMessage, impersonates.
  destruct (OpenEnvelopeRaw_total data (gossip_key pe) now) as [r Eo]. rewrite Eo. destruct r as [[env pt]|e].
  - pose proof (logIncomingPacket_handled pe (MessageType env) remote now (proj1 Hok)) as Hl.
    pose proof (exchange_ok_after _ _ _ _ _ Hok Hl) as Hok1.
    destruct (handlePlaintext_handled _ (MessageType env) pt remote nonce now Hok1) as (pe' & effs & -> & Hh).
    do 2 eexists. split; [done|]. split; [|by intros Hno; destruct (Hno (env, pt))].
    destruct (handled_trans _ _ _ _ _ _ Hl Hh) as (? & ? & Ho & ?).
    split; [done|]. split; [done|]. split; [|done]. intros Hni. apply Ho. intros [Ht (r & Hr & Hk)].
    apply Hni. exists env, pt. split; [done|]. split; [done|]. exists r. split; [done|].
    rewrite Hk. apply same_identity_own, Hl.
  - exists pe, []. split; [done|]. split; [|done].
    apply handled_quiet; [apply Hok|done..|simpl; lia|]. intros ??. apply not_elem_of_nil.
Qed.

Lemma receive_handled (pe : PE) data remote nonce now : exchange_ok pe ->
  exists pe' effs, receive pe data remote nonce now = Some (pe', effs)
    /\ handled (~ impersonates pe data now) remote pe pe' effs
    /\ ((forall x, OpenEnvelopeRaw data (gossip_key pe) now <> Some (Ok x)) ->
        effs = [] /\ exists l, pe' = with_limiter pe l).
Proof.
  intros Hok. unfold receive. destruct (Allow _ _ now) as [l []].
  - assert (exchange_ok (with_limiter pe l)) as Hok1 by exact Hok.
    destruct (handleMessage_handled _ data remote nonce now Hok1) as (pe' & effs & -> & Hh & Hno).
    do 2 eexists. split; [done|]. split; [exact Hh|]. intros H. destruct (Hno H) as [-> ->]. eauto.
  - do 2 eexists. split; [done|]. split; [|by eauto].
    apply handled_quiet; [apply Hok|done..|simpl; lia|]. intros ??. apply not_elem_of_nil.
Qed.

(** What was sent or started for one datagram: datagrams go only to where it
    came from, and then exactly one. *)
Definition answers_only (from : UDPAddr) (effs : list effect) : Prop :=
  length effs <= 2 /\ forall to data, Send to data ∈ effs -> to = from /\ effs = [Send to data].

(** C4. Whatever datagrams arrive, in whatever order and from whomever, the
    exchange neither panics nor breaks the peer store, keeps the node's
    configuration and identity (only its endpoint may be corrected), and sends
    at most one datagram per datagram received, to its source. *)
Theorem datagrams_safe (pe : PE) ms : exchange_ok pe ->
  exists pe' effss, receive_all pe ms = Some (pe', effss) /\ exchange_ok pe' /\ same_identity pe pe'
    /\ Forall2 (fun m effs => answers_only (ar_from m) effs) ms effss.
Proof.
  revert pe. induction ms as [|m ms IH]; intros pe Hok; cbn [receive_all].
  { do 2 eexists. split; [done|]. split; [done|]. split; [reflexivity|by constructor]. }
  destruct (receive_handled pe (ar_data m) (ar_from m) (ar_nonce m) (ar_now m) Hok)
    as (pe1 & effs & -> & Hh & _).
  destruct (IH pe1 (exchange_ok_after _ _ _ _ _ Hok Hh)) as (pe' & effss & -> & Hok' & Hi & Hf).
  destruct Hh as (_ & Hi1 & _ & Hl & He).
  do 2 eexists. split; [done|]. split; [done|]. split; [by etrans|]. constructor; [by split|done].
Qed.

(** The entry of the local node in its own store is out of reach: no
    datagram creates, changes or removes it, except a REPLY whose sender
    announces the node's own key. *)
Theorem own_entry_protected (pe : PE) data remote nonce now :
  exchange_ok pe -> ~ impersonates pe data now ->
  exists pe' effs, receive pe data remote nonce now = Some (pe', effs)
    /\ sink_get (pe_store pe') (own_pubkey pe) = sink_get (pe_store pe) (own_pubkey pe)
    /\ own_pubkey pe' = own_pubkey pe.
Proof.
  intros Hok Hni. destruct (receive_handled pe data remote nonce now Hok) as (pe' & effs & -> & Hh & _).
  do 2 eexists. split; [done|]. destruct Hh as (_ & Hi & Ho & _). split; [by apply Ho|].
  by apply same_identity_own.
Qed.

(** ** HELLO and REPLY *)

(** Announcements of the node as it is seen at [now]. *)
Definition hello_of (pe : PE) (now : Time) : PeerAnnouncement :=
  self_announcement (pe_node pe) (getKnownPeers pe now) now.
Definition reply_of (pe : PE) (remote : UDPAddr) (now : Time) : PeerAnnouncement :=
  with_observed (hello_of pe now) (udp_addr_string remote).

(** The store holds a live entry for the node, with its mesh address. *)
Definition knows (s : S) (n : LocalNode) (now : Time) : Prop :=
  exists p, sink_get s (ln_WGPubKey n) = Some p /\ LastSeen p = now
    /\ MeshIP p = ln_MeshIP n /\ Introducer p = ln_Introducer n.

Lemma stored_announced (s : S) a ep now :
  pa_MeshIP a <> ""%string -> 1 <= sink_room s ->
  exists p, sink_stored s (announced_peer a ep) DHTMethod now = Some p /\ LastSeen p = now
    /\ MeshIP p = pa_MeshIP a /\ Introducer p = pa_Introducer a.
Proof.
  intros Hip Hroom. unfold sink_stored. destruct (sink_get s _) as [q|].
  - eexists. split; [done|]. simpl. unfold str_or. by rewrite (proj2 (String.eqb_neq _ "") Hip).
  - rewrite (proj2 (Nat.eqb_neq _ _)) by lia. eexists. by split.
Qed.

(** Nobody announces itself among the peers it knows. *)
Lemma own_not_in_known (pe : PE) now : own_pubkey pe ∉ (kp_WGPubKey <$> getKnownPeers pe now).
Proof.
  unfold getKnownPeers. rewrite <- list_fmap_compose, list_elem_of_fmap.
  intros (p & Hk & Hin). apply list_elem_of_filter in Hin as [[_ Hne] _]. by apply Hne.
Qed.

Lemma handleHello_learns (pe : PE) a remote nonce now :
  sink_inv (pe_store pe) -> pa_WGPubKey a <> own_pubkey pe -> pa_MeshIP a <> ""%string ->
  pa_WGPubKey a ∉ (kp_WGPubKey <$> pa_KnownPeers a) ->
  1 + length (pa_KnownPeers a) <= sink_room (pe_store pe) ->
  exists s', handleHello pe a remote nonce now = Some (with_store pe s', sendReply (with_store pe s') remote nonce now)
    /\ sink_inv s'
    /\ (exists p, sink_get s' (pa_WGPubKey a) = Some p /\ LastSeen p = now
          /\ MeshIP p = pa_MeshIP a /\ Introducer p = pa_Introducer a)
    /\ forall k, k ∈ (kp_WGPubKey <$> pa_KnownPeers a) -> k <> own_pubkey pe -> is_Some (sink_get s' k).
Proof.
  intros Hs Hne Hip Hnk Hroom. unfold handleHello. rewrite (proj2 (String.eqb_neq _ _) Hne).
  cbv zeta. set (info := announced_peer a _).
  destruct (sink_update_spec (pe_store pe) info DHTMethod now Hs) as (s1 & -> & Hs1 & Hk & _ & Hr1).
  cbn [mbind option_bind].
  destruct (updateTransitivePeers_spec (with_store pe s1) (pa_KnownPeers a) now Hs1)
    as (s2 & -> & Hs2 & _ & Hn & _ & Hall & _). cbn [mbind option_bind pe_store with_store] in *.
  exists s2. split; [done|]. split; [done|]. split.
  - rewrite Hn by done. change (pa_WGPubKey a) with (WGPubKey info). rewrite Hk.
    apply stored_announced; [done|lia].
  - intros k Hin Hnk'. apply Hall; [lia|done|done].
Qed.

Lemma handleReply_learns (pe : PE) a remote now ch :
  sink_inv (pe_store pe) -> pa_MeshIP a <> ""%string ->
  1 + length (pa_KnownPeers a) <= sink_room (pe_store pe) ->
  pendingReplies pe !! udp_addr_string remote = Some ch -> replies pe !! ch = Some None ->
  exists pe' info, handleReply pe a remote now = Some (pe', [])
    /\ replies pe' !! ch = Some (Some info)
    /\ WGPubKey info = pa_WGPubKey a /\ MeshIP info = pa_MeshIP a
    /\ (exists p, sink_get (pe_store pe') (pa_WGPubKey a) = Some p /\ LastSeen p = now
          /\ MeshIP p = pa_MeshIP a /\ Introducer p = pa_Introducer a)
    /\ forall k, k ∈ (kp_WGPubKey <$> pa_KnownPeers a) -> k <> own_pubkey pe ->
         is_Some (sink_get (pe_store pe') k).
Proof.
  intros Hs Hip Hroom Hpend Hch. unfold handleReply. cbv zeta.
  destruct (applyObservedEndpoint_endpoint (pe_config pe) (pe_node pe) (pa_ObservedEndpoint a)) as [ep Hep].
  set (pe1 := with_node pe _). set (info := announced_peer a _).
  assert (own_pubkey pe1 = own_pubkey pe) as Hown by (unfold own_pubkey; simpl; by rewrite Hep).
  destruct (updateTransitivePeers_spec pe1 (pa_KnownPeers a) now Hs)
    as (s2 & -> & Hs2 & _ & _ & _ & Hall & Hr). cbn [mbind option_bind pe_store with_store] in *.
  destruct (sink_update_spec s2 info DHTMethod now Hs2) as (s3 & -> & Hs3 & Hk & Ho & _).
  cbn [mbind option_bind pendingReplies replies with_store with_node pe1] in *.
  rewrite Hpend, Hch. exists (with_pending (with_store pe1 s3) (pendingReplies pe) (<[ch:=Some info]> (replies pe))), info.
  split; [done|]. split; [simpl; by rewrite lookup_insert_eq|]. split; [done|]. split; [done|].
  cbn [pe_store with_pending with_store]. split.
  - change (pa_WGPubKey a) with (WGPubKey info). rewrite Hk. apply stored_announced; [done|].
    simpl in Hr. lia.
  - intros k Hin Hne. destruct (decide (k = WGPubKey info)) as [->|Hd].
    + rewrite Hk. destruct (stored_announced s2 a (Endpoint info) now Hip) as (p & Hp & _); [simpl in Hr; lia|].
      unfold sink_stored in *. simpl in *. destruct (sink_get s2 _); [done|]. by destruct (Nat.eqb _ 0).
    + rewrite Ho by done. apply Hall; [simpl; lia|done|]. by rewrite Hown.
Qed.

(** Opening what another member sealed, up to the dispatch. *)
Lemma handleMessage_sealed (pe : PE) key mt v ts data remote nonce nonce' now :
  json_ok v = true -> ascii_str mt = true -> length key = 32 -> gossip_key pe = key ->
  length nonce = NonceSize -> Forall is_byte nonce -> dec_meta v = Some (ProtocolVersion, ts) ->
  SealEnvelope mt v key (Some nonce) = Ok data -> fresh_at ts now ->
  exists l, handleMessage pe data remote nonce' now
            = handlePlaintext (with_log pe l) mt (json_bytes v) remote nonce' now.
Proof.
  intros Hv Hmt Hk Hg Hn Bn Hm Hs Hf. unfold handleMessage. rewrite Hg.
  destruct (OpenEnvelopeRaw_Seal mt v key nonce now data ts Hv Hmt Hk Hn Bn Hm Hs Hf) as (env & <- & ->).
  unfold logIncomingPacket. cbv zeta. destruct (match _ !! _ with Some _ => _ | None => _ end).
  - exists (lastPacketLog pe). by destruct pe.
  - by eexists.
Qed.

Lemma handleMessage_announcement (pe : PE) key mt a data remote nonce nonce' now :
  announcement_text a = true -> ascii_str mt = true -> length key = 32 -> gossip_key pe = key ->
  length nonce = NonceSize -> Forall is_byte nonce -> pa_Protocol a = ProtocolVersion ->
  SealEnvelope mt (announcement_json a) key (Some nonce) = Ok data -> fresh_at (pa_Timestamp a) now ->
  of_json_bytes dec_announcement (json_bytes (announcement_json a)) = Some a
  /\ exists l, handleMessage pe data remote nonce' now
            = handlePlaintext (with_log pe l) mt (json_bytes (announcement_json a)) remote nonce' now.
Proof.
  intros Ht Hmt Hk Hg Hn Bn Hp Hs Hf. split.
  { rewrite json_bytes_roundtrip by by apply announcement_json_ok. by apply dec_announcement_json. }
  eapply handleMessage_sealed; [by apply announcement_json_ok|done..| |done|done].
  rewrite dec_meta_json; [by rewrite Hp|]. unfold announcement_text in Ht. bool_steps. lia.
Qed.

Lemma sealed_ok mt v key nonce : exists data, SealEnvelope mt v key (Some nonce) = Ok data.
Proof. by eexists. Qed.

Lemma sendReply_sealed (pe : PE) remote nonce now data :
  SealEnvelope MessageTypeReply (announcement_json (reply_of pe remote now)) (gossip_key pe) nonce = Ok data ->
  sendReply pe remote nonce now = [Send remote data].
Proof. unfold sendReply, reply_of, hello_of. by intros ->. Qed.

Lemma startExchange_spec resolve (pe : PE) addr nonce sent now pe' rq :
  startExchange resolve pe addr (Some nonce) sent now = (pe', Ok rq) ->
  pe' = with_pending pe (<[udp_addr_string (rq_remote rq) := rq_chan rq]> (pendingReplies pe))
          (<[rq_chan rq := None]> (replies pe))
  /\ SealEnvelope MessageTypeHello (announcement_json (hello_of pe now)) (gossip_key pe) (Some nonce)
     = Ok (rq_hello rq).
Proof.
  unfold startExchange. destruct (resolve addr) as [remote|]; [|done]. cbv zeta.
  destruct (SealEnvelope _ _ _ _) as [data|] eqn:E; [|done]. destruct sent; [|done].
  intros H. by injection H as <- <-.
Qed.

(** The half of the exchange at the node that gets the HELLO of [A]. *)
Lemma hello_handled (A B : PE) hello addrA nonceA nonceB tA tB :
  exchange_ok B -> gossip_key B = gossip_key A -> length (gossip_key A) = 32 -> own_pubkey A <> own_pubkey B ->
  ln_MeshIP (pe_node A) <> ""%string ->
  length nonceA = NonceSize -> Forall is_byte nonceA ->
  SealEnvelope MessageTypeHello (announcement_json (hello_of A tA)) (gossip_key A) (Some nonceA) = Ok hello ->
  announcement_text (hello_of A tA) = true -> fresh_at (time_to_unix tA) tB ->
  1 + length (getKnownPeers A tA) <= sink_room (pe_store B) ->
  exists B1 data, handleMessage B hello addrA (Some nonceB) tB = Some (B1, [Send addrA data])
    /\ pe_node B1 = pe_node B /\ gossip_key B1 = gossip_key B
    /\ SealEnvelope MessageTypeReply (announcement_json (reply_of B1 addrA tB)) (gossip_key A) (Some nonceB) = Ok data
    /\ knows (pe_store B1) (pe_node A) tB
    /\ (forall k, k ∈ (kp_WGPubKey <$> getKnownPeers A tA) -> k <> own_pubkey B -> is_Some (sink_get (pe_store B1) k)).
Proof.
  intros HB Hkey Hlen Hne HipA HnA BnA Hseal HtA HfA HrB.
  destruct (handleMessage_announcement B (gossip_key A) MessageTypeHello (hello_of A tA) hello addrA
    nonceA (Some nonceB) tB HtA eq_refl Hlen Hkey HnA BnA eq_refl Hseal HfA) as [Hdec [l ->]].
  unfold handlePlaintext. rewrite String.eqb_refl, Hdec.
  destruct (handleHello_learns (with_log B l) (hello_of A tA) addrA (Some nonceB) tB)
    as (sB & -> & HsB & Hknow & Hall); [apply HB|done|done|apply own_not_in_known|done|].
  set (B1 := with_store (with_log B l) sB).
  destruct (sealed_ok MessageTypeReply (announcement_json (reply_of B1 addrA tB)) (gossip_key B1) nonceB) as [data Hdata].
  exists B1, data. split; [by rewrite (sendReply_sealed _ _ _ _ _ Hdata)|]. split; [done|]. split; [done|].
  split; [by rewrite <- Hkey|]. by split.
Qed.

(** The half at the node that waits for the REPLY of [B]. *)
Lemma reply_handled (A B : PE) ch remote data from nonceB nonce tB tA' :
  exchange_ok A -> gossip_key B = gossip_key A -> length (gossip_key A) = 32 -> ln_MeshIP (pe_node B) <> ""%string ->
  length nonceB = NonceSize -> Forall is_byte nonceB ->
  SealEnvelope MessageTypeReply (announcement_json (reply_of B from tB)) (gossip_key A) (Some nonceB) = Ok data ->
  announcement_text (reply_of B from tB) = true -> fresh_at (time_to_unix tB) tA' ->
  1 + length (getKnownPeers B tB) <= sink_room (pe_store A) ->
  pendingReplies A !! udp_addr_string remote = Some ch -> replies A !! ch = Some None ->
  exists A2 info, handleMessage A data remote nonce tA' = Some (A2, [])
    /\ replies A2 !! ch = Some (Some info) /\ WGPubKey info = own_pubkey B /\ MeshIP info = ln_MeshIP (pe_node B)
    /\ knows (pe_store A2) (pe_node B) tA'
    /\ (forall k, k ∈ (kp_WGPubKey <$> getKnownPeers B tB) -> k <> own_pubkey A -> is_Some (sink_get (pe_store A2) k)).
Proof.
  intros HA Hkey Hlen HipB HnB BnB Hdata HtB HfB HrA Hpend Hch.
  destruct (handleMessage_announcement A (gossip_key A) MessageTypeReply (reply_of B from tB) data remote
    nonceB nonce tA') as [Hdec' [l' ->]]; try done.
  unfold handlePlaintext. change (String.eqb MessageTypeReply MessageTypeHello) with false.
  rewrite String.eqb_refl, Hdec'. cbv iota.
  destruct (handleReply_learns (with_log A l') (reply_of B from tB) remote tA' ch)
    as (A2 & info & -> & Hch' & Hk & Hip & Hknow' & Hall'); [apply HA|done..|].
  exists A2, info. done.
Qed.

(** C5. Two members that exchange end up knowing each other and each other's
    peers: [A] sends the HELLO of [ExchangeWithPeer]; [B] handles it and answers
    with one REPLY; [A] handles that and the pending request returns [B].  It
    takes one secret, clocks within ten minutes of the timestamps, nonces of 12
    bytes, and room in the two stores; anything else in the two states is
    arbitrary. *)
Theorem exchange_converges resolve (A B A1 : PE) addr rq addrA nonceA nonceB nonce tA tB tA' :
  exchange_ok A -> exchange_ok B ->
  gossip_key B = gossip_key A -> length (gossip_key A) = 32 -> own_pubkey A <> own_pubkey B ->
  ln_MeshIP (pe_node A) <> ""%string -> ln_MeshIP (pe_node B) <> ""%string ->
  length nonceA = NonceSize -> Forall is_byte nonceA -> length nonceB = NonceSize -> Forall is_byte nonceB ->
  startExchange resolve A addr (Some nonceA) true tA = (A1, Ok rq) ->
  announcement_text (hello_of A tA) = true -> fresh_at (time_to_unix tA) tB ->
  1 + length (getKnownPeers A tA) <= sink_room (pe_store B) ->
  exists B1 data, handleMessage B (rq_hello rq) addrA (Some nonceB) tB = Some (B1, [Send addrA data])
    /\ knows (pe_store B1) (pe_node A) tB
    /\ (forall k, k ∈ (kp_WGPubKey <$> getKnownPeers A tA) -> k <> own_pubkey B -> is_Some (sink_get (pe_store B1) k))
    /\ (announcement_text (reply_of B1 addrA tB) = true -> fresh_at (time_to_unix tB) tA' ->
        1 + length (getKnownPeers B1 tB) <= sink_room (pe_store A) ->
        exists A2 info, handleMessage A1 data (rq_remote rq) nonce tA' = Some (A2, [])
          /\ knows (pe_store A2) (pe_node B) tA'
          /\ (forall k, k ∈ (kp_WGPubKey <$> getKnownPeers B1 tB) -> k <> own_pubkey A -> is_Some (sink_get (pe_store A2) k))
          /\ (finishExchange A2 rq).2 = Ok info /\ WGPubKey info = own_pubkey B /\ MeshIP info = ln_MeshIP (pe_node B)).
Proof.
  intros HA HB Hkey Hlen Hne HipA HipB HnA BnA HnB BnB Hst HtA HfA HrB.
  destruct (startExchange_spec _ _ _ _ _ _ _ _ Hst) as [-> Hseal].
  destruct (hello_handled A B _ addrA _ nonceB tA tB HB Hkey Hlen Hne HipA HnA BnA Hseal HtA HfA HrB)
    as (B1 & data & -> & HnodeB & HkeyB & Hdata & Hknow & Hall).
  exists B1, data. split; [done|]. split; [exact Hknow|]. split; [exact Hall|]. intros HtB HfB HrA.
  set (A1 := with_pending A _ _).
  destruct (reply_handled A1 B1 (rq_chan rq) (rq_remote rq) data addrA nonceB nonce tB tA')
    as (A2 & info & -> & Hch & Hk & Hip & Hknow' & Hall'); try done.
  - by rewrite HkeyB.
  - by rewrite HnodeB.
  - simpl. by rewrite lookup_insert_eq.
  - simpl. by rewrite lookup_insert_eq.
  - unfold own_pubkey in *. rewrite HnodeB in *. exists A2, info. split; [done|]. split; [exact Hknow'|]. split; [exact Hall'|].
    unfold finishExchange. cbn [snd]. by rewrite Hch.
Qed.

(** ** GOODBYE *)

(** A node that shuts down is forgotten: the GOODBYE it seals, delivered
    within a minute of its clock, makes any other member drop exactly that
    peer. *)
Theorem goodbye_forgets resolve (A B : PE) addr to nonce tA data from nonce' tB :
  gossip_key B = gossip_key A -> length (gossip_key A) = 32 ->
  length nonce = NonceSize -> Forall is_byte nonce ->
  own_pubkey A <> ""%string -> own_pubkey A <> own_pubkey B ->
  ascii_str (own_pubkey A) = true -> int64 (time_to_unix tA) = true ->
  resolve addr = Some to -> SendGoodbye resolve A addr (Some nonce) tA = Ok [Send to data] ->
  (Z.abs (tB - time_unix (time_to_unix tA)) <= GoodbyeWindow)%Z ->
  exists B', handleMessage B data from nonce' tB = Some (B', [])
    /\ forall k, sink_get (pe_store B') k = if decide (own_pubkey A = k) then None else sink_get (pe_store B) k.
Proof.
  intros Hg Hl Hn Bn Hne Hab Ht Hi Hres Hsend Hage. unfold SendGoodbye in Hsend. rewrite Hres in Hsend. cbv zeta in Hsend.
  set (bye := {| gb_Protocol := ProtocolVersion |}) in Hsend.
  apply rbind_ok in Hsend as (d & Hs & [= <-]). apply wrap_ok in Hs.
  destruct (goodbye_reads bye) as (Hok & Hdec & Hmeta).
  { unfold goodbye_text. cbn [gb_Protocol gb_Timestamp gb_WGPubKey bye]. by rewrite Ht, Hi. }
  assert (GoodbyeWindow <= MaxMessageAge)%Z as Hw by (unfold GoodbyeWindow, MaxMessageAge, minute, second; lia).
  destruct (handleMessage_sealed B (gossip_key A) MessageTypeGoodbye (goodbye_json bye) (time_to_unix tA) d from
    nonce nonce' tB) as [l ->]; try done; [split; lia|].
  unfold handlePlaintext.
  change (String.eqb MessageTypeGoodbye MessageTypeHello) with false.
  change (String.eqb MessageTypeGoodbye MessageTypeReply) with false.
  change (String.eqb MessageTypeGoodbye MessageTypeAnnounce) with false.
  change (String.eqb MessageTypeGoodbye MessageTypeRendezvousOffer) with false.
  change (String.eqb MessageTypeGoodbye MessageTypeRendezvousStart) with false.
  rewrite String.eqb_refl. cbv iota. rewrite json_bytes_roundtrip, Hdec by done.
  unfold handleGoodbye. cbn [gb_WGPubKey gb_Timestamp bye].
  rewrite (proj2 (String.eqb_neq _ "") Hne). change (own_pubkey (with_log B l)) with (own_pubkey B).
  rewrite (proj2 (String.eqb_neq _ _) Hab). cbn [orb].
  rewrite (proj2 (Z.ltb_ge _ _)).
  2: { unfold time_sub, GoodbyeWindow, second, int64_min, int64_max in *. lia. }
  unfold time_after. rewrite (proj2 (Z.ltb_ge _ _)) by (unfold time_add; lia).
  destruct (goodbye_name_total (own_pubkey A)) as [name ->]. cbn [mbind option_bind].
  eexists. split; [done|]. intros k. apply sink_get_remove.
Qed.

(** ** The reflected address *)

(** What a REPLY says about our public address may change the IP of our
    endpoint and never its port: the WireGuard port stays the configured one. *)
Theorem reflection_keeps_port (pe pe' : PE) reply remote now effs h p :
  handleReply pe reply remote now = Some (pe', effs) ->
  split_host_port (GetEndpoint (pe_node pe)) = Some (h, p) ->
  exists h', split_host_port (GetEndpoint (pe_node pe')) = Some (h', p)
    /\ (h' <> h -> exists ip, h' = ip_string ip
         /\ is_loopback ip = false /\ is_private ip = false /\ is_link_local_unicast ip = false).
Proof.
  intros Hr Hs.
  assert (pe_node pe' = applyObservedEndpoint (pe_config pe) (pe_node pe) (pa_ObservedEndpoint reply)) as ->.
  { unfold handleReply, updateTransitivePeers in Hr. cbv zeta in Hr.
    destruct (update_all _ _ _ _); [|done]. cbn [fmap option_fmap option_map mbind option_bind] in Hr.
    destruct (sink_update _ _ _ _); [|done]. cbn [mbind option_bind] in Hr.
    destruct (pendingReplies _ !! _); [destruct (replies _ !! _) as [[]|]|]; by injection Hr as <- <-. }
  clear Hr. assert (exists h', split_host_port (GetEndpoint (pe_node pe)) = Some (h', p)
    /\ (h' <> h -> exists ip, h' = ip_string ip
         /\ is_loopback ip = false /\ is_private ip = false /\ is_link_local_unicast ip = false)) as Hkeep
    by (exists h; by split).
  unfold applyObservedEndpoint. destruct (String.eqb _ ""); [done|].
  destruct (split_host_port (pa_ObservedEndpoint reply)) as [[host port]|]; [|done].
  destruct (parse_ip host) as [ip|]; [|done]. cbv zeta. destruct (_ && _); [done|].
  destruct (_ || _) eqn:Hpub; [done|]. rewrite Hs.
  destruct (match parse_ip h with Some _ => _ | None => _ end); [done|].
  destruct (String.eqb _ _); [done|]. bool_steps. cbn [GetEndpoint SetEndpoint wgEndpoint].
  exists (ip_string ip). split; [|by intros _; exists ip].
  apply split_join_host_port; [apply host_ip_string|by eapply split_port_plain].
Qed.
(** ** Withdrawn routes *)

(** A node cannot withdraw its last advertised network: an announcement
    without networks leaves those of the stored entry, so peers that were told
    of them keep routing them to it (a reload that empties the list does not
    reach the mesh). *)
Theorem withdrawn_routes_kept (pe : PE) a remote nonce now p :
  sink_inv (pe_store pe) -> pa_WGPubKey a <> own_pubkey pe ->
  pa_WGPubKey a ∉ (kp_WGPubKey <$> pa_KnownPeers a) ->
  sink_get (pe_store pe) (pa_WGPubKey a) = Some p -> pa_RoutableNetworks a = [] ->
  exists pe' effs p', handleHello pe a remote nonce now = Some (pe', effs)
    /\ sink_get (pe_store pe') (pa_WGPubKey a) = Some p' /\ LastSeen p' = now
    /\ RoutableNetworks p' = RoutableNetworks p.
Proof.
  intros Hs Hne Hnk Hp Hr. unfold handleHello. rewrite (proj2 (String.eqb_neq _ _) Hne).
  cbv zeta. set (info := announced_peer a _).
  destruct (sink_update_spec (pe_store pe) info DHTMethod now Hs) as (s1 & -> & Hs1 & Hk & _).
  cbn [mbind option_bind].
  destruct (updateTransitivePeers_spec (with_store pe s1) (pa_KnownPeers a) now Hs1)
    as (s2 & -> & _ & _ & Hn & _). cbn [mbind option_bind pe_store with_store] in *.
  do 3 eexists. split; [done|]. rewrite Hn by done. change (pa_WGPubKey a) with (WGPubKey info).
  unfold sink_stored in Hk. change (WGPubKey info) with (pa_WGPubKey a) in Hk at 2. rewrite Hp in Hk.
  rewrite Hk. split; [done|]. split; [done|]. simpl. by rewrite Hr.
Qed.
End protocol.

(** ** Samples *)

Definition mesh_config : Config := get_config "correct-horse-battery-staple" "".

Definition member (key ip endpoint : string) (introducer : bool) : LocalNode :=
  {| ln_WGPubKey := key; ln_WGPrivateKey := ""; ln_MeshIP := ip; ln_MeshIPv6 := "";
     ln_RoutableNetworks := []; ln_Introducer := introducer; ln_NATType := ""; ln_Hostname := key;
     wgEndpoint := endpoint |}.

Definition t0 : Time := (1700000000 * second)%Z.
Definition v4addr (a b c d port : Z) : UDPAddr := {| ua_ip := [a; b; c; d]; ua_port := port |}.

(** A store that heard of [key] at [t0]. *)
Definition store_with (key ip endpoint : string) : PeerStore :=
  default NewPeerStore
    (Update NewPeerStore
       {| WGPubKey := key; Hostname := ""; MeshIP := ip; MeshIPv6 := ""; Endpoint := endpoint;
          Introducer := false; RoutableNetworks := []; LastSeen := zero_time; DiscoveredVia := [];
          Latency := None; NATType := ""; EndpointMethod := "" |} DHTMethod t0).

Lemma store_with_ok key ip endpoint : store_ok (store_with key ip endpoint).
Proof.
  unfold store_with. set (info := {| WGPubKey := key |}).
  destruct (Update_ok NewPeerStore info DHTMethod t0 NewPeerStore_ok) as (s & -> & Hs & _). exact Hs.
Qed.

Definition node_a : LocalNode := member "pk-a" "10.7.0.1" "0.0.0.0:51820" false.
Definition node_b : LocalNode := member "pk-b" "10.7.0.2" "198.51.100.2:51820" true.
Definition addr_a : UDPAddr := v4addr 203 0 113 1 40000.
Definition addr_b : UDPAddr := v4addr 198 51 100 2 51821.

(** [A] knows [C], [B] knows [D]; both run gossip on the exchange's socket. *)
Definition ex_a : PeerExchange PeerStore :=
  SetAnnounceHandler (NewPeerExchange mesh_config node_a (store_with "pk-c" "10.7.0.3" "192.0.2.3:51820"))
    (HandleAnnounceFrom (NewMeshGossip mesh_config node_a true)).
Definition ex_b : PeerExchange PeerStore :=
  SetAnnounceHandler (NewPeerExchange mesh_config node_b (store_with "pk-d" "10.7.0.4" ""))
    (HandleAnnounceFrom (NewMeshGossip mesh_config node_b true)).

Lemma ex_a_ok : exchange_ok ex_a.
Proof. apply gossip_handler_ok; [apply store_with_ok|done]. Qed.
Lemma ex_b_ok : exchange_ok ex_b.
Proof. apply gossip_handler_ok; [apply store_with_ok|done]. Qed.

Lemma gossip_key_new (cfg : Config) n (s : PeerStore) h :
  gossip_key (SetAnnounceHandler (NewPeerExchange cfg n s) h) = GossipKey (Keys cfg).
Proof. done. Qed.

Definition start_a := startExchange (fun _ => Some addr_b) ex_a "198.51.100.2:51821" (Some (replicate 12 1%Z)) true t0.
Definition sample_rq : request :=
  match start_a.2 with
  | Ok rq => rq
  | Err _ => {| rq_remote := addr_b; rq_chan := 0; rq_hello := [] |}
  end.

Definition state_of (o : option (PeerExchange PeerStore * list effect)) (d : PeerExchange PeerStore)
  : PeerExchange PeerStore := match o with Some (pe, _) => pe | None => d end.
Definition sent_by (o : option (PeerExchange PeerStore * list effect)) : list effect :=
  match o with Some (_, effs) => effs | None => [] end.

(** [B] after the HELLO of [A]. *)
Definition ex_b1 : PeerExchange PeerStore :=
  state_of (handleMessage ex_b (rq_hello sample_rq) addr_a (Some (replicate 12 2%Z)) t0) ex_b.

Lemma exchange_converges_witness :
  exists B1 A2 info data,
    handleMessage ex_b (rq_hello sample_rq) addr_a (Some (replicate 12 2%Z)) t0 = Some (B1, [Send addr_a data])
    /\ handleMessage start_a.1 data addr_b None t0 = Some (A2, [])
    /\ knows (pe_store B1) node_a t0 /\ knows (pe_store A2) node_b t0
    /\ is_Some (sink_get (pe_store B1) "pk-c") /\ is_Some (sink_get (pe_store A2) "pk-d")
    /\ (finishExchange A2 sample_rq).2 = Ok info /\ WGPubKey info = "pk-b"%string.
Proof.
  assert (start_a = (start_a.1, Ok sample_rq)) as Hst.
  { assert (is_ok start_a.2 = true) as Hok by (vm_compute; reflexivity).
    unfold sample_rq. destruct start_a as [pe [rq|e]]; [reflexivity|discriminate Hok]. }
  destruct (exchange_converges (fun _ => Some addr_b) ex_a ex_b start_a.1 "198.51.100.2:51821" sample_rq addr_a
    (replicate 12 1%Z) (replicate 12 2%Z) None t0 t0 t0) as (B1 & data & HB & Hk & Hall & Hrest).
  - exact ex_a_ok.
  - exact ex_b_ok.
  - unfold ex_a, ex_b. rewrite !gossip_key_new. reflexivity.
  - vm_compute; reflexivity.
  - discriminate.
  - discriminate.
  - discriminate.
  - reflexivity.
  - by_compute.
  - reflexivity.
  - by_compute.
  - exact Hst.
  - vm_compute; reflexivity.
  - split; vm_compute; discriminate.
  - by_compute.
  - assert (ex_b1 = B1) as E1 by (unfold ex_b1; rewrite HB; reflexivity).
    destruct Hrest as (A2 & info & HA & Hk' & Hall' & Hf & Hkey & _).
    + rewrite <- E1. vm_compute; reflexivity.
    + split; vm_compute; discriminate.
    + rewrite <- E1. by_compute.
    + exists B1, A2, info, data. split; [exact HB|]. split; [exact HA|]. split; [exact Hk|].
      split; [exact Hk'|]. split; [apply Hall; [by_compute|discriminate]|].
      split; [apply Hall'; [rewrite <- E1; by_compute|discriminate]|]. split; [exact Hf|exact Hkey].
Defined.

(** Garbage, then the HELLO of [A]. *)
Definition sample_arrivals : list arrival :=
  [{| ar_data := [1; 2; 3]%Z; ar_from := addr_a; ar_nonce := None; ar_now := t0 |};
   {| ar_data := rq_hello sample_rq; ar_from := addr_a; ar_nonce := Some (replicate 12 2%Z); ar_now := t0 |}].

Lemma datagrams_safe_witness :
  exists pe' effss, receive_all ex_b sample_arrivals = Some (pe', effss)
    /\ exchange_ok pe' /\ same_identity ex_b pe' /\ length effss = 2.
Proof.
  destruct (datagrams_safe ex_b sample_arrivals ex_b_ok) as (pe' & effss & H & Hok & Hs & Hf).
  exists pe', effss. split; [exact H|]. split; [exact Hok|]. split; [exact Hs|].
  symmetry. exact (Forall2_length _ _ _ Hf).
Defined.

(** The message type a datagram opens to. *)
Definition opens_as (pe : PeerExchange PeerStore) (data : list Z) (now : Time) : option string :=
  match OpenEnvelopeRaw data (gossip_key pe) now with Some (Ok (env, _)) => Some (MessageType env) | _ => None end.

Lemma opens_as_not_reply pe data now mt :
  opens_as pe data now = Some mt -> mt <> MessageTypeReply -> ~ impersonates pe data now.
Proof.
  intros E Hne (env & pt & Ho & Ht & _). unfold opens_as in E. rewrite Ho in E.
  injection E as E. congruence.
Qed.

Lemma own_entry_protected_witness :
  exists pe' effs, receive ex_b (rq_hello sample_rq) addr_a None t0 = Some (pe', effs)
    /\ sink_get (pe_store pe') (own_pubkey ex_b) = None.
Proof.
  assert (sink_get (pe_store ex_b) (own_pubkey ex_b) = None) as Hb by (vm_compute; reflexivity).
  assert (opens_as ex_b (rq_hello sample_rq) t0 = Some MessageTypeHello) as E by (vm_compute; reflexivity).
  destruct (own_entry_protected ex_b (rq_hello sample_rq) addr_a None t0) as (pe' & effs & H & Hk & _).
  - exact ex_b_ok.
  - exact (opens_as_not_reply _ _ _ _ E ltac:(discriminate)).
  - exists pe', effs. split; [exact H|]. rewrite Hk. exact Hb.
Defined.

(** A sealed datagram of [a]. *)
Definition sealed (mt : string) (a : PeerAnnouncement) : list Z :=
  match SealEnvelope mt (announcement_json a) (gossip_key ex_a) (Some (replicate 12 3%Z)) with
  | Ok data => data
  | Err _ => []
  end.

Definition entry_after (o : option (PeerExchange PeerStore * list effect)) (k : string) : option PeerInfo :=
  match o with Some (pe, _) => sink_get (pe_store pe) k | None => None end.

(** [handleReply] does not compare the announced key with the local one, as
    [handleHello] does: a member that answers with the node's own key and
    another mesh address makes the node store an entry for itself. *)
Theorem reply_claims_own_key :
  sink_get (pe_store ex_a) (own_pubkey ex_a) = None
  /\ entry_after (handleMessage ex_a (sealed MessageTypeHello
       (self_announcement (member (own_pubkey ex_a) "10.7.66.66" "192.0.2.66:51820" false) [] t0)) addr_b None t0)
       (own_pubkey ex_a) = None
  /\ MeshIP <$> entry_after (handleMessage ex_a (sealed MessageTypeReply
       (self_announcement (member (own_pubkey ex_a) "10.7.66.66" "192.0.2.66:51820" false) [] t0)) addr_b None t0)
       (own_pubkey ex_a) = Some "10.7.66.66"%string.
Proof. split; [|split]; vm_compute; reflexivity. Qed.

(** Announcements reach the store without [Validate]: an unparsable mesh
    address is stored, and handed on to others. *)
Example unvalidated_hello_stored :
  is_ok (Validate (self_announcement (member "evil" "not-an-ip" "" false) [] t0)) = false
  /\ MeshIP <$> entry_after (handleMessage ex_a (sealed MessageTypeHello
       (self_announcement (member "evil" "not-an-ip" "" false) [] t0)) addr_b None t0) "evil" = Some "not-an-ip"%string.
Proof. split; vm_compute; reflexivity. Qed.

Definition sample_goodbye : list Z :=
  match SendGoodbye (fun _ => Some addr_b) ex_a "b" (Some (replicate 12 4%Z)) t0 with
  | Ok [Send _ data] => data
  | _ => []
  end.

(** [B] once it knows [A]. *)
Lemma goodbye_forgets_witness :
  is_Some (sink_get (pe_store ex_b1) "pk-a")
  /\ exists B', handleMessage ex_b1 sample_goodbye addr_a None t0 = Some (B', [])
       /\ sink_get (pe_store B') "pk-a" = None.
Proof.
  split; [by_compute|].
  destruct (goodbye_forgets (fun _ => Some addr_b) ex_a ex_b1 "b" addr_b (replicate 12 4%Z) t0 sample_goodbye addr_a None t0)
    as (B' & H & Hk).
  - by_compute.
  - vm_compute; reflexivity.
  - reflexivity.
  - by_compute.
  - discriminate.
  - by_compute.
  - vm_compute; reflexivity.
  - vm_compute; reflexivity.
  - reflexivity.
  - vm_compute; reflexivity.
  - vm_compute; discriminate.
  - exists B'. split; [exact H|]. rewrite Hk. reflexivity.
Defined.

Definition reflecting_reply : PeerAnnouncement :=
  with_observed (self_announcement node_b [] t0) "203.0.113.1:40000".

Lemma reflection_keeps_port_witness :
  exists pe' effs h', handleReply ex_a reflecting_reply addr_b t0 = Some (pe', effs)
    /\ split_host_port (GetEndpoint (pe_node pe')) = Some (h', "51820"%string).
Proof.
  assert (match handleReply ex_a reflecting_reply addr_b t0 with Some _ => true | None => false end = true) as H
    by (vm_compute; reflexivity).
  destruct (handleReply ex_a reflecting_reply addr_b t0) as [[pe' effs]|] eqn:E; [|discriminate H].
  destruct (reflection_keeps_port ex_a pe' reflecting_reply addr_b t0 effs "0.0.0.0" "51820" E) as (h' & Hs & _).
  - reflexivity.
  - exists pe', effs, h'. split; [reflexivity|exact Hs].
Defined.

(** [D] once advertised a network; then it announces none. *)
Definition ex_routes : PeerExchange PeerStore :=
  state_of (handleHello ex_a
    {| pa_Protocol := ProtocolVersion; pa_WGPubKey := "pk-d"; pa_Hostname := "d"; pa_MeshIP := "10.7.0.4";
       pa_MeshIPv6 := ""; pa_WGEndpoint := ""; pa_Introducer := false;
       pa_RoutableNetworks := ["192.168.10.0/24"%string]; pa_Timestamp := 1700000000; pa_KnownPeers := [];
       pa_ObservedEndpoint := ""; pa_NATType := "" |} addr_b None t0) ex_a.

Lemma ex_routes_ok : sink_inv (pe_store ex_routes).
Proof.
  unfold ex_routes. set (a := {| pa_Protocol := ProtocolVersion |}).
  destruct (handleHello_handled ex_a a addr_b None t0 (proj1 ex_a_ok)) as (pe' & effs & -> & H & _). exact H.
Qed.

Lemma withdrawn_routes_kept_witness :
  exists pe' effs p', handleHello ex_routes (self_announcement (member "pk-d" "10.7.0.4" "" false) [] t0) addr_b None t0
      = Some (pe', effs)
    /\ sink_get (pe_store pe') "pk-d" = Some p' /\ RoutableNetworks p' = ["192.168.10.0/24"%string].
Proof.
  assert (match sink_get (pe_store ex_routes) "pk-d" with
          | Some p => bool_decide (RoutableNetworks p = ["192.168.10.0/24"%string])
          | None => false
          end = true) as H by (vm_compute; reflexivity).
  destruct (sink_get (pe_store ex_routes) "pk-d") as [p|] eqn:E; [|discriminate H].
  destruct (withdrawn_routes_kept ex_routes (self_announcement (member "pk-d" "10.7.0.4" "" false) [] t0) addr_b None t0 p)
    as (pe' & effs & p' & Hh & Hg & _ & Hr).
  - exact ex_routes_ok.
  - by_compute.
  - by_compute.
  - exact E.
  - reflexivity.
  - exists pe', effs, p'. split; [exact Hh|]. split; [exact Hg|]. rewrite Hr. exact (proj1 (bool_decide_eq_true _) H).
Defined.

(** The REPLY of [B] to the HELLO above. *)
Definition sole_data (effs : list effect) : list Z :=
  match effs with [Send _ data] => data | _ => [] end.
Definition sample_reply : list Z :=
  sole_data (sent_by (handleMessage ex_b (rq_hello sample_rq) addr_a (Some (replicate 12 2%Z)) t0)).

Definition request_b (pe : PeerExchange PeerStore) : PeerExchange PeerStore * result request :=
  startExchange (fun _ => Some addr_b) pe "b" (Some (replicate 12 1%Z)) true t0.

Definition finish (pe : PeerExchange PeerStore) (r : result request) : PeerExchange PeerStore * result PeerInfo :=
  match r with Ok rq => finishExchange pe rq | Err e => (pe, Err e) end.

(** Two requests to the same address overlap: both are registered, the first
    gives up, then the REPLY arrives and the second ends. *)
Definition overlap (a : PeerExchange PeerStore) : PeerExchange PeerStore * result PeerInfo :=
  let '(pe1, r1) := request_b a in
  let '(pe2, r2) := request_b pe1 in
  let pe3 := (finish pe2 r1).1 in
  finish (state_of (handleMessage pe3 sample_reply addr_b None t0) pe3) r2.

(** Requests in flight are registered by address: the end of one request
    removes the registration of another one to the same address, so that one
    times out although its REPLY arrived and was stored. *)
Theorem overlapping_requests_lose_reply :
  is_ok (overlap ex_a).2 = false /\ is_Some (sink_get (pe_store (overlap ex_a).1) (own_pubkey ex_b)).
Proof. split; [vm_compute; reflexivity|by_compute]. Qed.
