(* ===== verification/Rendezvous.v ===== *)
(** * Rendezvous through an introducer (pkg/discovery/exchange.go)

    Two peers behind NATs send offers to an introducer both can reach; it pairs
    them and tells both to punch at the same instant.  The theorems follow the
    messages from the two offers to the two punch jobs, and bound how often an
    introducer starts, and a peer punches, the same pair. *)

From S2P Require Import Prelude GoStrings GoNet GoCrypto GoJson PeerStore Derive Aead Envelope.
From S2P Require Import RateLimit NodeConfig Endpoints PeerSink Exchange Gossip Protocol.
Local Open Scope wgmesh_scope.

(** ** Candidates *)

(** An address another peer can be told to punch. *)
Definition usable_addr (cfg : Config) (a : UDPAddr) : Prop :=
  (0 < ua_port a <= 65535)%Z /\ wildcard_host (ip_string (ua_ip a)) = false
  /\ (DisableIPv6 cfg = true -> isIPv6Endpoint (udp_addr_string a) = false).

Lemma usable_normal cfg a : usable_addr cfg a ->
  exists h p, split_host_port (udp_addr_string a) = Some (h, p) /\ wildcard_host h = false.
Proof. intros (Hp & Hw & _). do 2 eexists. split; [apply split_udp_addr; lia|done]. Qed.

Lemma usable_nonempty cfg a : usable_addr cfg a -> udp_addr_string a <> ""%string.
Proof. intros H E. destruct (usable_normal cfg a H) as (h & p & Hs & _). by rewrite E in Hs. Qed.

Lemma keeps_usable cfg cs a : usable_addr cfg a -> udp_addr_string a ∈ cs ->
  udp_addr_string a ∈ filterCandidatesForConfig (normalizeCandidates cs) (DisableIPv6 cfg).
Proof.
  intros Hu Hin. apply filterCandidates_spec. split.
  - apply normalizeCandidates_spec. split; [done|]. by eapply usable_normal.
  - split; [by eapply usable_nonempty|]. apply Hu.
Qed.

(** Spreading the ports keeps the address itself. *)
Lemma expand_keeps cfg cs a : usable_addr cfg a -> udp_addr_string a ∈ cs ->
  udp_addr_string a ∈ expandCandidatePorts (normalizeCandidates cs) RendezvousPortSpread.
Proof.
  intros Hu Hc. assert (udp_addr_string a ∈ normalizeCandidates cs) as Hin.
  { apply normalizeCandidates_spec. split; [done|]. by eapply usable_normal. }
  unfold expandCandidatePorts. destruct (Nat.eqb_spec (length (normalizeCandidates cs)) 0) as [E|_]; [done|].
  simpl orb. apply first_occurrences_spec. split; [set_solver|].
  apply list_elem_of_In, in_flat_map. exists (udp_addr_string a).
  split; [by apply list_elem_of_In|]. destruct Hu as (Hp & _).
  unfold spread_candidate. rewrite split_udp_addr by lia.
  rewrite atoi_itoa by (unfold int64_min, int64_max; lia). left. done.
Qed.

(** The address an offer came from is among the candidates passed on. *)
Lemma observed_is_candidate cfg offer a : usable_addr cfg a ->
  udp_addr_string a ∈ offer_candidates cfg offer (udp_addr_string a).
Proof.
  intros Hu. unfold offer_candidates. apply filterCandidates_spec.
  split; [|split; [by eapply usable_nonempty|apply Hu]]. apply (expand_keeps cfg); [done|]. set_solver.
Qed.

(** ** Expiry of the maps *)

Lemma time_sub_le t u d : (int64_min <= d < int64_max)%Z -> (t - u <= d)%Z -> (time_sub t u <= d)%Z.
Proof. intros Hd H. apply Z.le_ngt. rewrite time_sub_gt_iff by done. lia. Qed.

Lemma not_older_None now d (m : gmap string Time) k : m !! k = None -> not_older now d m !! k = None.
Proof. intros H. apply map_lookup_filter_None. by left. Qed.

Lemma not_older_sub now d (m : gmap string Time) k t : not_older now d m !! k = Some t -> m !! k = Some t.
Proof. by intros [? _]%map_lookup_filter_Some. Qed.

Lemma not_older_Some now d (m : gmap string Time) k t :
  m !! k = Some t -> (time_sub now t <= d)%Z -> not_older now d m !! k = Some t.
Proof. intros H Hd. by apply map_lookup_filter_Some_2. Qed.

(** Clocks in the order of arrival. *)
Lemma sorted_lookup_le ms : StronglySorted Z.le (ar_now <$> ms) -> forall j k m mj,
  k <= j -> ms !! k = Some m -> ms !! j = Some mj -> (ar_now m <= ar_now mj)%Z.
Proof.
  induction ms as [|m0 ms IH]; [done|]. intros [Hs Hm]%StronglySorted_inv [|j] [|k] m mj Hle Hk Hj; cbn in *; try lia.
  - by simplify_eq.
  - injection Hk as <-. rewrite Forall_forall in Hm. apply Hm, list_elem_of_fmap_2. by eapply list_elem_of_lookup_2.
  - eapply (IH Hs); [|done..]. lia.
Qed.

Section rendezvous.
Context {S : Type} {sink : PeerSink S} {cipher : Aead}.
Notation PE := (PeerExchange S).

(** ** One offer *)

(** An introducer that can serve the pair. *)
Definition introducer_for (I : PE) (a b : string) : Prop :=
  DisablePunching (pe_config I) = false /\ ln_Introducer (pe_node I) = true
  /\ a <> ""%string /\ b <> ""%string /\ a <> own_pubkey I /\ b <> own_pubkey I.

Lemma offer_accepted (I P : PE) target cands now :
  introducer_for I (own_pubkey P) target ->
  offer_acceptable I (rendezvous_offer P target cands now) = true.
Proof.
  intros (Hp & Hi & Ha & Hb & Hia & Hib). unfold offer_acceptable, rendezvous_offer.
  cbn [ro_FromPubKey ro_TargetPubKey ro_PairID]. rewrite Hp, Hi, String.eqb_refl, orb_true_r.
  by rewrite !(proj2 (String.eqb_neq _ _)) by done.
Qed.

(** No session of the pair is under way, and the pair was not started lately. *)
Definition no_session (I : PE) (pid : string) (now : Time) : Prop :=
  forall st, rendezvousSessions I !! pid = Some st -> (RendezvousSessionTTL < time_sub now (st_createdAt st))%Z.
Definition rested (I : PE) (pid : string) (now : Time) : Prop :=
  forall t, rendezvousStarts I !! pid = Some t -> (RendezvousStartCooldown <= time_sub now t)%Z.

(** The address the introducer can reach [k] at from its own store, if any. *)
Definition target_control (I : PE) (k : string) : string :=
  match sink_get (pe_store I) k with
  | Some p => controlEndpointFromPeerEndpoint (Endpoint p) (GossipPort (Keys (pe_config I)))
  | None => EmptyString
  end.

Lemma no_session_none (I : PE) pid now : no_session I pid now ->
  filter (fun ks => (time_sub now (st_createdAt ks.2) <= RendezvousSessionTTL)%Z) (rendezvousSessions I) !! pid = None.
Proof.
  intros H. apply map_lookup_filter_None. destruct (rendezvousSessions I !! pid) as [st|] eqn:E; [right|by left].
  intros st' [= <-]. cbn [snd]. specialize (H _ E). lia.
Qed.

(** The test of the cooldown. *)
Lemma rested_free (I : PE) pid now d : rested I pid now ->
  match not_older now d (rendezvousStarts I) !! pid with
  | Some lastStart => (time_sub now lastStart <? RendezvousStartCooldown)%Z
  | None => false
  end = false.
Proof.
  intros H. destruct (not_older now d (rendezvousStarts I) !! pid) as [t|] eqn:E; [|done].
  apply Z.ltb_ge, H. by eapply not_older_sub.
Qed.

(** The first offer of a pair waits for the second when the introducer does not know
    the target. *)
Lemma first_offer (I : PE) offer remote now :
  offer_acceptable I offer = true ->
  let pid := pairIDForPeers (ro_FromPubKey offer) (ro_TargetPubKey offer) in
  no_session I pid now -> ro_TargetPubKey offer <> ro_FromPubKey offer ->
  target_control I (ro_TargetPubKey offer) = EmptyString ->
  exists st punches, handleRendezvousOffer I offer remote now
    = (with_rendezvous I (<[pid := st]> (filter (fun ks => (time_sub now (st_createdAt ks.2) <= RendezvousSessionTTL)%Z)
         (rendezvousSessions I))) punches (not_older now (RendezvousStartCooldown * 2)%Z (rendezvousStarts I)), [])
  /\ st_createdAt st = now
  /\ st_endpoints st = {[ro_FromPubKey offer := udp_addr_string remote]}
  /\ exists a, st_offers st = {[ro_FromPubKey offer := a]} /\ ro_FromPubKey a = ro_FromPubKey offer
       /\ ro_Candidates a = offer_candidates (pe_config I) offer (udp_addr_string remote).
Proof.
  intros Hacc pid Hnone Hne Hget. unfold handleRendezvousOffer. rewrite Hacc. cbv zeta. cbn [negb].
  rewrite no_session_none by done. cbn [default from_option id].
  unfold record_offer. cbn [st_offers st_endpoints st_createdAt].
  rewrite lookup_insert_ne by congruence. rewrite lookup_empty.
  assert (forall X (f : PeerInfo -> X) x, match sink_get (pe_store I) (ro_TargetPubKey offer) with
            | None => x
            | Some t => if String.eqb (controlEndpointFromPeerEndpoint (Endpoint t) (GossipPort (Keys (pe_config I)))) "" then x else f t
            end = x) as Hx.
  { intros X f x. unfold target_control in Hget. destruct (sink_get _ _); [|done]. by rewrite Hget. }
  rewrite Hx. do 2 eexists. split; [reflexivity|]. rewrite !insert_empty. split; [done|]. split; [done|]. by eexists.
Qed.

(** When it does, the first offer starts both, the target at the address known. *)
Lemma known_offer (I : PE) offer remote now :
  offer_acceptable I offer = true ->
  let pid := pairIDForPeers (ro_FromPubKey offer) (ro_TargetPubKey offer) in
  let startAt := time_add now RendezvousStartLeadTime in
  no_session I pid now -> rested I pid now -> ro_TargetPubKey offer <> ro_FromPubKey offer ->
  target_control I (ro_TargetPubKey offer) <> EmptyString ->
  exists I', handleRendezvousOffer I offer remote now = (I',
    [GoStart pid (ro_FromPubKey offer) (udp_addr_string remote) (ro_TargetPubKey offer)
       (expandCandidatePorts (normalizeCandidates [target_control I (ro_TargetPubKey offer)]) RendezvousPortSpread) startAt;
     GoStart pid (ro_TargetPubKey offer) (target_control I (ro_TargetPubKey offer))
       (ro_FromPubKey offer) (offer_candidates (pe_config I) offer (udp_addr_string remote)) startAt])
  /\ gossip_key I' = gossip_key I /\ pe_config I' = pe_config I /\ own_pubkey I' = own_pubkey I.
Proof.
  intros Hacc pid startAt Hnone Hrest Hne Hctl. unfold handleRendezvousOffer. rewrite Hacc. cbv zeta. cbn [negb]. fold pid.
  rewrite no_session_none by done. cbn [default from_option id].
  unfold record_offer. cbn [st_offers st_endpoints st_createdAt].
  rewrite lookup_insert_ne by congruence. rewrite lookup_empty. unfold target_control in *.
  destruct (sink_get (pe_store I) (ro_TargetPubKey offer)) as [t|]; [|done].
  rewrite (proj2 (String.eqb_neq _ "") Hctl). rewrite rested_free by done.
  cbn [synthesized_offer ro_FromPubKey ro_Candidates st_endpoints].
  rewrite lookup_insert_eq, lookup_insert_ne, lookup_insert_eq by congruence.
  eexists. split; [reflexivity|]. done.
Qed.

(** The second offer starts both peers. *)
Lemma second_offer (I : PE) offer remote now st a :
  offer_acceptable I offer = true ->
  let pid := pairIDForPeers (ro_FromPubKey offer) (ro_TargetPubKey offer) in
  let startAt := time_add now RendezvousStartLeadTime in
  rendezvousSessions I !! pid = Some st -> (time_sub now (st_createdAt st) <= RendezvousSessionTTL)%Z ->
  st_offers st !! ro_TargetPubKey offer = Some a -> ro_FromPubKey a = ro_TargetPubKey offer ->
  ro_TargetPubKey offer <> ro_FromPubKey offer -> rested I pid now ->
  exists ss ps sts, handleRendezvousOffer I offer remote now
    = (with_rendezvous I ss ps sts,
           [GoStart pid (ro_FromPubKey offer) (udp_addr_string remote) (ro_TargetPubKey offer) (ro_Candidates a) startAt;
            GoStart pid (ro_TargetPubKey offer) (default ""%string (st_endpoints st !! ro_TargetPubKey offer))
              (ro_FromPubKey offer) (offer_candidates (pe_config I) offer (udp_addr_string remote)) startAt])
  /\ ss !! pid = None /\ sts !! pid = Some now.
Proof.
  intros Hacc pid startAt Hst Hage Ha Hfrom Hne Hstarts. unfold handleRendezvousOffer.
  rewrite Hacc. cbv zeta. cbn [negb]. fold pid.
  rewrite (map_lookup_filter_Some_2 _ _ _ _ Hst Hage). cbn [default from_option id].
  unfold record_offer. cbn [st_offers st_endpoints st_createdAt].
  rewrite lookup_insert_ne, Ha by congruence.
  rewrite rested_free by done.
  cbn [ro_FromPubKey ro_Candidates st_endpoints]. rewrite Hfrom, lookup_insert_eq, lookup_insert_ne by congruence.
  do 3 eexists. split; [reflexivity|]. by rewrite lookup_delete_eq, lookup_insert_eq.
Qed.

(** ** The START a peer receives *)

(** No punch of the pair within the last six seconds. *)
Definition cooled (P : PE) (pid : string) (now : Time) : Prop :=
  forall t, activePunches P !! pid = Some t -> (RendezvousPunchCooldown <= time_sub now t)%Z.

Lemma start_accepted (P : PE) start now cand :
  DisablePunching (pe_config P) = false -> rs_PeerPubKey start <> ""%string ->
  rs_PairID start = pairIDForPeers (own_pubkey P) (rs_PeerPubKey start) ->
  cand ∈ filterCandidatesForConfig (normalizeCandidates (rs_PeerCandidates start)) (DisableIPv6 (pe_config P)) ->
  cooled P (rs_PairID start) now -> (0 < rs_StartAtUnixMs start)%Z ->
  exists P' cands, handleRendezvousStart P start now
    = (P', [GoPunch (rs_PairID start) (rs_PeerPubKey start) cands (of_unix_milli (rs_StartAtUnixMs start))])
    /\ cand ∈ cands.
Proof.
  intros Hp Hk Hid Hin Hc Hat. unfold handleRendezvousStart. rewrite Hp, Hid.
  rewrite !(proj2 (String.eqb_neq _ "")) by (done || apply pairID_nonempty). cbn [orb].
  rewrite String.eqb_refl. cbn [negb]. rewrite (proj2 (Z.ltb_lt _ _) Hat).
  set (cands := filterCandidatesForConfig _ _) in *. destruct cands as [|c cs] eqn:E; [by apply elem_of_nil in Hin|].
  unfold beginPunchJob. rewrite <- Hid. destruct (activePunches P !! rs_PairID start) as [t|] eqn:Ea.
  - rewrite (proj2 (Z.ltb_ge _ _)) by by apply Hc. do 2 eexists. by split.
  - do 2 eexists. by split.
Qed.

(** From the introducer's goroutine to the peer's punch job. *)
Lemma start_delivered resolve (I P : PE) pid ep to peer cands cand startAt nonce nonce' from t3 t4 :
  gossip_key P = gossip_key I -> length (gossip_key I) = 32 ->
  length nonce = NonceSize -> Forall is_byte nonce ->
  ep <> ""%string -> peer <> ""%string -> resolve ep = Some to ->
  start_text (start_message I pid peer cands startAt t3) = true -> fresh_at (time_to_unix t3) t4 ->
  DisablePunching (pe_config P) = false -> pid = pairIDForPeers (own_pubkey P) peer ->
  usable_addr (pe_config I) cand -> usable_addr (pe_config P) cand -> udp_addr_string cand ∈ cands ->
  cooled P pid t4 -> (0 < time_unix_milli startAt)%Z ->
  exists data P' cs, sendRendezvousStart resolve I pid (own_pubkey P) ep peer cands startAt (Some nonce) t3 = [Send to data]
    /\ handleMessage P data from nonce' t4
       = Some (P', [GoPunch pid peer cs (of_unix_milli (time_unix_milli startAt))])
    /\ udp_addr_string cand ∈ cs.
Proof.
  intros Hg Hl Hn Bn Hep Hpeer Hres Htext Hf Hp Hid HuI HuP Hin Hc Hat.
  set (msg := start_message I pid peer cands startAt t3) in *.
  destruct (start_reads msg Htext) as (Hok & Hdec & Hmeta).
  destruct (sealed_ok MessageTypeRendezvousStart (start_json msg) (gossip_key I) nonce) as [data Hseal].
  destruct (handleMessage_sealed P (gossip_key I) MessageTypeRendezvousStart (start_json msg) (time_to_unix t3)
    data from nonce nonce' t4) as [l Hh]; try done.
  destruct (start_accepted (with_log P l) msg t4 (udp_addr_string cand)) as (P' & cs & HP & Hcs); try done.
  { apply keeps_usable; [done|]. by apply keeps_usable. }
  exists data, P', cs. split; [|split; [|done]].
  - unfold sendRendezvousStart. rewrite !(proj2 (String.eqb_neq _ "")) by done. cbn [orb].
    rewrite Hres. fold msg. by rewrite Hseal.
  - rewrite Hh. unfold handlePlaintext.
    change (String.eqb MessageTypeRendezvousStart MessageTypeHello) with false.
    change (String.eqb MessageTypeRendezvousStart MessageTypeReply) with false.
    change (String.eqb MessageTypeRendezvousStart MessageTypeAnnounce) with false.
    change (String.eqb MessageTypeRendezvousStart MessageTypeRendezvousOffer) with false.
    rewrite String.eqb_refl. cbv iota. rewrite json_bytes_roundtrip, Hdec by done. by rewrite HP.
Qed.

(** A member that may punch the pair at [now]. *)
Definition ready (I P : PE) (pid : string) (now : Time) : Prop :=
  gossip_key P = gossip_key I /\ DisablePunching (pe_config P) = false /\ cooled P pid now.

(** Both starts of a pair, delivered: the peers punch each other at one instant. *)
Lemma both_started resolve (I A B : PE) pid epA epB candA candB csA csB startAt nA nB nonce from t3 t4 :
  let a := own_pubkey A in
  let b := own_pubkey B in
  pid = pairIDForPeers a b -> a <> ""%string -> b <> ""%string ->
  length (gossip_key I) = 32 -> ready I A pid t4 -> ready I B pid t4 ->
  length nA = NonceSize -> Forall is_byte nA -> length nB = NonceSize -> Forall is_byte nB ->
  usable_addr (pe_config I) candA -> usable_addr (pe_config I) candB ->
  usable_addr (pe_config A) candB -> usable_addr (pe_config B) candA ->
  udp_addr_string epA <> ""%string -> udp_addr_string epB <> ""%string ->
  resolve (udp_addr_string epA) = Some epA -> resolve (udp_addr_string epB) = Some epB ->
  udp_addr_string candA ∈ csA -> udp_addr_string candB ∈ csB ->
  start_text (start_message I pid b csB startAt t3) = true ->
  start_text (start_message I pid a csA startAt t3) = true -> fresh_at (time_to_unix t3) t4 ->
  (0 < time_unix_milli startAt)%Z ->
  exists dA dB A' B' ksA ksB,
    sendRendezvousStart resolve I pid b (udp_addr_string epB) a csA startAt (Some nB) t3 = [Send epB dB]
    /\ sendRendezvousStart resolve I pid a (udp_addr_string epA) b csB startAt (Some nA) t3 = [Send epA dA]
    /\ handleMessage A dA from nonce t4 = Some (A', [GoPunch pid b ksA (of_unix_milli (time_unix_milli startAt))])
    /\ handleMessage B dB from nonce t4 = Some (B', [GoPunch pid a ksB (of_unix_milli (time_unix_milli startAt))])
    /\ udp_addr_string candB ∈ ksA /\ udp_addr_string candA ∈ ksB.
Proof.
  intros a b Hpid Ha Hb Hlen (HgA & HpA & HcA) (HgB & HpB & HcB) HnA BnA HnB BnB HIA HIB HAB HBA HeA HeB HrA HrB HinA HinB
    HtB HtA Hf Hat.
  destruct (start_delivered resolve I B pid (udp_addr_string epB) epB a csA candA startAt nB nonce from t3 t4)
    as (dB & B' & ksB & HsB & HhB & HkB); try done; [by rewrite Hpid; apply pairIDForPeers_sym|].
  destruct (start_delivered resolve I A pid (udp_addr_string epA) epA b csB candB startAt nA nonce from t3 t4)
    as (dA & A' & ksA & HsA & HhA & HkA); try done.
  exists dA, dB, A', B', ksA, ksB. done.
Qed.

(** C6. Two peers [A] and [B] of an introducer that has no session of the pair under
    way and did not start it within eight seconds, all of one secret and allowed to
    punch, the peers not having punched each other within six seconds.
    If the introducer does not know [B], the offer of [A] waits, and the offer of [B]
    within twenty seconds starts both; if it knows the address of [B] from its store,
    the offer of [A] alone starts both, [B] at that address.  Each START reaches the
    address it is meant for, and each peer begins one punch job for the other, with
    the other's observed (or known) address among the candidates, at the start time
    the introducer chose (to the millisecond).  The addresses can be told to a peer
    (a port, no wildcard, IPv6 only where it is not disabled) and resolve to
    themselves; the START messages are text and arrive within ten minutes. *)
Theorem rendezvous_synchronized resolve (I A B : PE) candsA candsB tA tB addrA addrB t1 t2 t3 t4 nA nB nonce from :
  let a := own_pubkey A in
  let b := own_pubkey B in
  let pid := pairIDForPeers a b in
  let startAt t := time_add t RendezvousStartLeadTime in
  let oA := rendezvous_offer A b candsA tA in
  let oB := rendezvous_offer B a candsB tB in
  let cA := offer_candidates (pe_config I) oA (udp_addr_string addrA) in
  let cB := offer_candidates (pe_config I) oB (udp_addr_string addrB) in
  let kB := expandCandidatePorts (normalizeCandidates [udp_addr_string addrB]) RendezvousPortSpread in
  introducer_for I a b -> a <> b -> no_session I pid t1 -> rested I pid t1 -> (0 <= t1)%Z ->
  usable_addr (pe_config I) addrA -> usable_addr (pe_config I) addrB ->
  usable_addr (pe_config A) addrB -> usable_addr (pe_config B) addrA ->
  length (gossip_key I) = 32 -> ready I A pid t4 -> ready I B pid t4 ->
  length nA = NonceSize -> Forall is_byte nA -> length nB = NonceSize -> Forall is_byte nB ->
  resolve (udp_addr_string addrA) = Some addrA -> resolve (udp_addr_string addrB) = Some addrB ->
  fresh_at (time_to_unix t3) t4 ->
  let sent_and_punched I' csB at_ :=
    exists dA dB A' B' ksA ksB,
      sendRendezvousStart resolve I' pid b (udp_addr_string addrB) a cA at_ (Some nB) t3 = [Send addrB dB]
      /\ sendRendezvousStart resolve I' pid a (udp_addr_string addrA) b csB at_ (Some nA) t3 = [Send addrA dA]
      /\ handleMessage A dA from nonce t4 = Some (A', [GoPunch pid b ksA (of_unix_milli (time_unix_milli at_))])
      /\ handleMessage B dB from nonce t4 = Some (B', [GoPunch pid a ksB (of_unix_milli (time_unix_milli at_))])
      /\ udp_addr_string addrB ∈ ksA /\ udp_addr_string addrA ∈ ksB in
  (target_control I b = ""%string -> (t1 <= t2 <= t1 + RendezvousSessionTTL)%Z ->
    start_text (start_message I pid b cB (startAt t2) t3) = true ->
    start_text (start_message I pid a cA (startAt t2) t3) = true ->
    exists I1 I2, handleRendezvousOffer I oA addrA t1 = (I1, [])
      /\ handleRendezvousOffer I1 oB addrB t2
         = (I2, [GoStart pid b (udp_addr_string addrB) a cA (startAt t2); GoStart pid a (udp_addr_string addrA) b cB (startAt t2)])
      /\ sent_and_punched I2 cB (startAt t2))
  /\ (target_control I b = udp_addr_string addrB ->
    start_text (start_message I pid b kB (startAt t1) t3) = true ->
    start_text (start_message I pid a cA (startAt t1) t3) = true ->
    exists I1, handleRendezvousOffer I oA addrA t1
         = (I1, [GoStart pid a (udp_addr_string addrA) b kB (startAt t1); GoStart pid b (udp_addr_string addrB) a cA (startAt t1)])
      /\ sent_and_punched I1 kB (startAt t1)).
Proof.
  intros a b pid startAt oA oB cA cB kB HI Hab Hsess Hstarts H0 HuA HuB HuAB HuBA Hlen HA HB HnA BnA HnB BnB HrA HrB Hf P.
  assert (introducer_for I b a) as HI' by (destruct HI as (? & ? & ? & ? & ? & ?); done).
  assert (pairIDForPeers b a = pid) as Hsym by apply pairIDForPeers_sym.
  assert (a <> ""%string /\ b <> ""%string) as [Ha Hb] by (destruct HI as (_ & _ & ? & ? & _); done).
  assert (forall t, (t1 <= t)%Z -> (0 < time_unix_milli (startAt t))%Z) as Hat.
  { intros t Ht. unfold time_unix_milli, startAt, time_add, RendezvousStartLeadTime, millisecond in *.
    apply Z.div_str_pos. lia. }
  assert (udp_addr_string addrA ∈ cA /\ udp_addr_string addrB ∈ cB) as [HcA HcB]
    by (split; by apply observed_is_candidate).
  assert (forall I' csB at_, gossip_key I' = gossip_key I -> pe_config I' = pe_config I -> own_pubkey I' = own_pubkey I ->
    udp_addr_string addrB ∈ csB -> (0 < time_unix_milli at_)%Z ->
    start_text (start_message I pid b csB at_ t3) = true -> start_text (start_message I pid a cA at_ t3) = true ->
    P I' csB at_) as Hboth.
  { intros I' csB at_ Eg Ec Eo Hin Hpos T1 T2. unfold P.
    apply (both_started resolve I' A B pid addrA addrB addrA addrB cA csB at_ nA nB nonce from t3 t4); try done;
      rewrite ?Ec, ?Eg; try done; try (by eapply usable_nonempty); unfold ready, start_message in *; by rewrite ?Eg, ?Ec, ?Eo. }
  split.
  - intros Hctl Ht T1 T2.
    destruct (first_offer I oA addrA t1) as (st & ps & H1 & Hcreated & Heps & oa & Hoffers & Hfrom & Hca);
      [by apply offer_accepted|done|by apply not_eq_sym|done|].
    set (I1 := with_rendezvous I _ _ _) in H1.
    destruct (second_offer I1 oB addrB t2 st oa) as (ss & ps' & sts & H2 & _).
    + exact (offer_accepted I B a candsB tB HI').
    + change (rendezvousSessions I1 !! pairIDForPeers b a = Some st). rewrite Hsym. apply lookup_insert_eq.
    + rewrite Hcreated. apply time_sub_le; [unfold int64_min, int64_max, RendezvousSessionTTL, second|]; lia.
    + rewrite Hoffers. exact (lookup_singleton_eq a oa).
    + done.
    + exact Hab.
    + change (rested I1 (pairIDForPeers b a) t2). rewrite Hsym. intros t Hst. apply not_older_sub in Hst.
      specialize (Hstarts _ Hst). unfold time_sub, RendezvousStartCooldown, second, int64_min, int64_max in *. lia.
    + change (ro_FromPubKey oB) with b in H2. change (ro_TargetPubKey oB) with a in H2.
      rewrite Hsym, Hca, Heps in H2. change (ro_FromPubKey oA) with a in H2. rewrite lookup_singleton_eq in H2.
      exists I1. eexists. split; [exact H1|]. split; [exact H2|]. apply Hboth; try done. apply Hat. lia.
  - intros Hctl T1 T2.
    destruct (known_offer I oA addrA t1) as (I1 & H1 & E1 & E2 & E3); [by apply offer_accepted|done|done|by apply not_eq_sym| |].
    { change (target_control I b <> ""%string). rewrite Hctl. by eapply usable_nonempty. }
    change (ro_TargetPubKey oA) with b in H1. change (ro_FromPubKey oA) with a in H1. rewrite Hctl in H1.
    exists I1. split; [exact H1|]. apply Hboth; try done; [|apply Hat; lia].
    apply (expand_keeps (pe_config I)); [done|]. by left.
Qed.

(** ** Rate of starts and punches *)

Definition starts_pair (pid : string) (e : effect) : bool :=
  match e with GoStart p _ _ _ _ _ => String.eqb p pid | _ => false end.
Definition punches_pair (pid : string) (e : effect) : bool :=
  match e with GoPunch p _ _ _ => String.eqb p pid | _ => false end.

(** The handler left both clocks of the pair alone and neither started nor
    punched it. *)
Definition pair_idle (pid : string) (pe pe' : PE) (effs : list effect) : Prop :=
  rendezvousStarts pe' = rendezvousStarts pe /\ activePunches pe' = activePunches pe
  /\ forallb (fun e => negb (starts_pair pid e || punches_pair pid e)) effs = true.

Lemma handleHello_idle pid (pe pe' : PE) a remote nonce now effs :
  handleHello pe a remote nonce now = Some (pe', effs) -> pair_idle pid pe pe' effs.
Proof.
  unfold handleHello. destruct (String.eqb _ _); [by intros [= <- <-]|]. cbv zeta.
  destruct (sink_update _ _ _ _) as [s|]; [|done]. cbn [mbind option_bind]. unfold updateTransitivePeers.
  destruct (update_all _ _ _ _) as [s'|]; [|done]. cbn [fmap option_fmap option_map mbind option_bind].
  intros [= <- <-]. unfold sendReply. by destruct (SealEnvelope _ _ _ _).
Qed.

Lemma handleReply_idle pid (pe pe' : PE) a remote now effs :
  handleReply pe a remote now = Some (pe', effs) -> pair_idle pid pe pe' effs.
Proof.
  unfold handleReply, updateTransitivePeers. cbv zeta.
  destruct (update_all _ _ _ _) as [s'|]; [|done]. cbn [fmap option_fmap option_map mbind option_bind].
  destruct (sink_update _ _ _ _) as [s|]; [|done]. cbn [mbind option_bind].
  destruct (pendingReplies _ !! _); [destruct (replies _ !! _) as [[]|]|]; by intros [= <- <-].
Qed.

Lemma goodbye_idle pid (pe : PE) bye now : match handleGoodbye pe bye now with Some (pe', effs) => pair_idle pid pe pe' effs | None => True end.
Proof. unfold handleGoodbye. split_if; try by split. by destruct (goodbye_name _). Qed.

(** Within eight seconds of a start of the pair, an offer does not start it
    again and keeps the clock; within six seconds of a punch it keeps that
    clock too. *)
Lemma offer_throttled pid (pe : PE) offer remote now t :
  rendezvousStarts pe !! pid = Some t -> (t <= now < t + RendezvousStartCooldown)%Z ->
  rendezvousStarts (handleRendezvousOffer pe offer remote now).1 !! pid = Some t
  /\ forallb (fun e => negb (starts_pair pid e)) (handleRendezvousOffer pe offer remote now).2 = true.
Proof.
  intros Hs Ht. unfold handleRendezvousOffer. destruct (negb _); [done|]. cbv zeta.
  assert (not_older now (RendezvousStartCooldown * 2)%Z (rendezvousStarts pe) !! pid = Some t) as Hk.
  { apply not_older_Some; [done|]. apply time_sub_le; unfold int64_min, int64_max, RendezvousStartCooldown, second in *; lia. }
  destruct (record_offer _ _ _ _ _ _ _) as [[st a] [b|]]; [|done].
  set (pid' := pairIDForPeers _ _). destruct (decide (pid' = pid)) as [E|Hne].
  - unfold Time in *. rewrite E, Hk. rewrite (proj2 (Z.ltb_lt _ _)); [done|].
    apply time_sub_lt_iff; unfold int64_min, int64_max, RendezvousStartCooldown, second in *; lia.
  - destruct (match _ !! _ with Some _ => _ | None => _ end); [done|].
    cbn [fst snd rendezvousStarts with_rendezvous forallb starts_pair].
    by rewrite lookup_insert_ne, (proj2 (String.eqb_neq _ _) Hne).
Qed.

Lemma offer_keeps_punch pid (pe : PE) offer remote now t :
  activePunches pe !! pid = Some t -> (t <= now < t + RendezvousPunchCooldown)%Z ->
  activePunches (handleRendezvousOffer pe offer remote now).1 !! pid = Some t
  /\ forallb (fun e => negb (punches_pair pid e)) (handleRendezvousOffer pe offer remote now).2 = true.
Proof.
  intros Hs Ht. unfold handleRendezvousOffer. destruct (negb _); [done|]. cbv zeta.
  assert (not_older now (RendezvousPunchCooldown * 2)%Z (activePunches pe) !! pid = Some t) as Hk.
  { apply not_older_Some; [done|]. apply time_sub_le; unfold int64_min, int64_max, RendezvousPunchCooldown, second in *; lia. }
  destruct (record_offer _ _ _ _ _ _ _) as [[st a] [b|]]; [|done].
  by destruct (match _ !! _ with Some _ => _ | None => _ end).
Qed.

Lemma start_keeps pid (pe : PE) start now :
  rendezvousStarts (handleRendezvousStart pe start now).1 = rendezvousStarts pe
  /\ forallb (fun e => negb (starts_pair pid e)) (handleRendezvousStart pe start now).2 = true
  /\ forall t, activePunches pe !! pid = Some t -> (t <= now < t + RendezvousPunchCooldown)%Z ->
       activePunches (handleRendezvousStart pe start now).1 !! pid = Some t
       /\ forallb (fun e => negb (punches_pair pid e)) (handleRendezvousStart pe start now).2 = true.
Proof.
  unfold handleRendezvousStart, beginPunchJob. cbv zeta.
  destruct (DisablePunching _); [done|]. destruct (_ || _); [done|]. destruct (negb _); [done|].
  destruct (filterCandidatesForConfig _ _); [done|]. set (pid' := pairIDForPeers _ _).
  destruct (match activePunches pe !! pid' with Some _ => _ | None => _ end) eqn:Ec; [done|].
  split; [done|]. split; [done|]. intros t Ht Hnow. destruct (decide (pid' = pid)) as [E|Hne].
  - unfold Time in *. rewrite E, Ht in Ec. apply Z.ltb_ge in Ec. exfalso. apply Z.le_ngt in Ec. apply Ec.
    apply time_sub_lt_iff; unfold int64_min, int64_max, RendezvousPunchCooldown, second in *; lia.
  - cbn [fst snd activePunches with_rendezvous forallb punches_pair].
    by rewrite lookup_insert_ne, (proj2 (String.eqb_neq _ _) Hne).
Qed.

(** An offer that starts the pair sets its clock, and so does a START that punches it. *)
Lemma offer_recorded pid (pe : PE) offer remote now :
  existsb (starts_pair pid) (handleRendezvousOffer pe offer remote now).2 = true ->
  rendezvousStarts (handleRendezvousOffer pe offer remote now).1 !! pid = Some now.
Proof.
  unfold handleRendezvousOffer. destruct (negb _); [done|]. cbv zeta.
  destruct (record_offer _ _ _ _ _ _ _) as [[st a] [b|]]; [|done].
  destruct (match _ !! _ with Some _ => _ | None => _ end); [done|].
  cbn [fst snd rendezvousStarts with_rendezvous existsb starts_pair]. rewrite orb_false_r, orb_diag.
  intros <-%String.eqb_eq. apply lookup_insert_eq.
Qed.

Lemma offer_no_punch pid (pe : PE) offer remote now : existsb (punches_pair pid) (handleRendezvousOffer pe offer remote now).2 = false.
Proof.
  unfold handleRendezvousOffer. destruct (negb _); [done|]. cbv zeta.
  destruct (record_offer _ _ _ _ _ _ _) as [[st a] [b|]]; [|done]. by destruct (match _ !! _ with Some _ => _ | None => _ end).
Qed.

Lemma punch_recorded pid (pe : PE) start now :
  existsb (starts_pair pid) (handleRendezvousStart pe start now).2 = false
  /\ (existsb (punches_pair pid) (handleRendezvousStart pe start now).2 = true ->
      activePunches (handleRendezvousStart pe start now).1 !! pid = Some now).
Proof.
  unfold handleRendezvousStart, beginPunchJob. cbv zeta.
  destruct (DisablePunching _); [done|]. destruct (_ || _); [done|]. destruct (negb _); [done|].
  destruct (filterCandidatesForConfig _ _); [done|]. set (pid' := pairIDForPeers _ _).
  destruct (match activePunches pe !! pid' with Some _ => _ | None => _ end); [done|]. split; [done|].
  cbn [fst snd activePunches with_rendezvous existsb punches_pair]. rewrite orb_false_r.
  intros <-%String.eqb_eq. apply lookup_insert_eq.
Qed.

(** For eight seconds after a start of the pair (six after a punch) the handler
    keeps the clock and does not start (punch) the pair again; when it does start
    (punch) the pair, it sets the clock. *)
Definition throttled (pid : string) (now : Time) (pe pe' : PE) (effs : list effect) : Prop :=
  (forall t : Time, rendezvousStarts pe !! pid = Some t -> (t <= now < t + RendezvousStartCooldown)%Z ->
     rendezvousStarts pe' !! pid = Some t /\ forallb (fun e => negb (starts_pair pid e)) effs = true)
  /\ (forall t : Time, activePunches pe !! pid = Some t -> (t <= now < t + RendezvousPunchCooldown)%Z ->
     activePunches pe' !! pid = Some t /\ forallb (fun e => negb (punches_pair pid e)) effs = true)
  /\ (existsb (starts_pair pid) effs = true -> rendezvousStarts pe' !! pid = Some now)
  /\ (existsb (punches_pair pid) effs = true -> activePunches pe' !! pid = Some now).

Lemma idle_throttled pid now pe pe' effs : pair_idle pid pe pe' effs -> throttled pid now pe pe' effs.
Proof.
  intros (H3 & H4 & H5). unfold throttled. rewrite H3, H4. rewrite forallb_forall in H5.
  split_and!; [intros t Ht _; split; [done|]; apply forallb_forall|intros t Ht _; split; [done|]; apply forallb_forall
              |intros (e & He & Hs)%existsb_exists|intros (e & He & Hs)%existsb_exists];
    try (intros e He; specialize (H5 e He); by destruct (starts_pair pid e), (punches_pair pid e));
    specialize (H5 e He); rewrite Hs in H5; by destruct (starts_pair pid e).
Qed.

Lemma handlePlaintext_throttled pid (pe pe' : PE) mt pt remote nonce now effs :
  handlePlaintext pe mt pt remote nonce now = Some (pe', effs) -> throttled pid now pe pe' effs.
Proof.
  assert (Some (pe, []) = Some (pe', effs) -> throttled pid now pe pe' effs) as Hskip.
  { intros [= <- <-]. by apply idle_throttled. }
  unfold handlePlaintext. destruct (String.eqb mt MessageTypeHello).
  { destruct (of_json_bytes _ _); [|done]. intros H. eapply idle_throttled, handleHello_idle, H. }
  destruct (String.eqb mt MessageTypeReply).
  { destruct (of_json_bytes _ _); [|done]. intros H. eapply idle_throttled, handleReply_idle, H. }
  destruct (String.eqb mt MessageTypeAnnounce).
  { destruct (of_json_bytes _ _); [|done]. destruct (announceHandler pe) as [h|]; [|done].
    destruct (h _ _ _ _); [|done]. intros [= <- <-]. by apply idle_throttled. }
  destruct (String.eqb mt MessageTypeRendezvousOffer).
  { destruct (of_json_bytes dec_offer pt) as [o|]; [|done]. intros [= Hr].
    pose proof (offer_throttled pid pe o remote now) as H1. pose proof (offer_keeps_punch pid pe o remote now) as H2.
    pose proof (offer_recorded pid pe o remote now) as H3. pose proof (offer_no_punch pid pe o remote now) as H4.
    rewrite Hr in H1, H2, H3, H4. cbn [fst snd] in *. split_and!; [done..|by rewrite H4]. }
  destruct (String.eqb mt MessageTypeRendezvousStart).
  { destruct (of_json_bytes dec_start pt) as [o|]; [|done]. intros [= Hr].
    destruct (start_keeps pid pe o now) as (Hst & Hno & Hp). destruct (punch_recorded pid pe o now) as [Hr1 Hr2].
    rewrite Hr in Hst, Hno, Hp, Hr1, Hr2. cbn [fst snd] in *.
    split; [|split; [exact Hp|split; [by rewrite Hr1|exact Hr2]]]. intros t Ht _. by rewrite Hst. }
  destruct (String.eqb mt MessageTypeGoodbye); [|done].
  destruct (of_json_bytes dec_goodbye pt) as [g|]; [|done]. intros Hr. apply idle_throttled.
  pose proof (goodbye_idle pid pe g now) as Hi. by rewrite Hr in Hi.
Qed.

Lemma receive_throttled pid (pe pe' : PE) data remote nonce now effs :
  receive pe data remote nonce now = Some (pe', effs) -> throttled pid now pe pe' effs.
Proof.
  unfold receive, handleMessage. destruct (Allow _ _ _) as [l []];
    [|intros [= <- <-]; by apply idle_throttled].
  destruct (OpenEnvelopeRaw _ _ _) as [[[env pt]|]|]; [| |done]; [|intros [= <- <-]; by apply idle_throttled].
  set (pe1 := logIncomingPacket _ _ _ _).
  assert (rendezvousStarts pe1 = rendezvousStarts pe /\ activePunches pe1 = activePunches pe) as [E1 E2].
  { unfold pe1, logIncomingPacket. cbv zeta. by destruct (match _ !! _ with Some _ => _ | None => _ end). }
  intros Hr. unfold throttled. rewrite <- E1, <- E2. by eapply handlePlaintext_throttled.
Qed.

(** The datagrams that follow a start (punch) closely do not start (punch) again. *)
Lemma quiet_after pid (pe pe' : PE) ms effss :
  receive_all pe ms = Some (pe', effss) ->
  forall j ej, effss !! j = Some ej ->
  (forall t : Time, rendezvousStarts pe !! pid = Some t ->
     (forall k m, k <= j -> ms !! k = Some m -> (t <= ar_now m < t + RendezvousStartCooldown)%Z) ->
     existsb (starts_pair pid) ej = false)
  /\ (forall t : Time, activePunches pe !! pid = Some t ->
     (forall k m, k <= j -> ms !! k = Some m -> (t <= ar_now m < t + RendezvousPunchCooldown)%Z) ->
     existsb (punches_pair pid) ej = false).
Proof.
  assert (forall p l, forallb (fun e : effect => negb (p e)) l = true -> existsb p l = false) as Hneg.
  { intros p l H. induction l as [|e l IHl]; [done|]. simpl in *. bool_steps. rewrite H. by apply IHl. }
  revert pe effss. induction ms as [|m ms IH]; intros pe effss; cbn [receive_all]; [by intros [= <- <-]|].
  destruct (receive pe _ _ _ _) as [[pe1 effs]|] eqn:Er; [|done].
  destruct (receive_all pe1 ms) as [[pe2 rest]|] eqn:Ea; [|done]. intros [= <- <-].
  destruct (receive_throttled pid _ _ _ _ _ _ _ Er) as (H1 & H2 & _). intros [|j] ej Hj; cbn in Hj.
  - injection Hj as <-. split; intros t Ht Hk; apply Hneg;
      [apply (H1 t Ht)|apply (H2 t Ht)]; apply (Hk 0); [lia|done|lia|done].
  - destruct (IH pe1 rest Ea j ej Hj) as [I1 I2].
    split; intros t Ht Hk; [apply (I1 t)|apply (I2 t)].
    1: apply (H1 t Ht). 3: apply (H2 t Ht). 1,3: (apply (Hk 0); [lia|done]).
    all: intros k m' Hle Hm'; apply (Hk (Datatypes.S k)); [lia|done].
Qed.

(** C22. From any state and whatever datagrams arrive, an introducer starts a pair at
    most once in eight seconds and a peer punches a pair at most once in six: of two
    datagrams that made it start (punch) the pair, the later came at least that much
    after the earlier.  The clock does not run backwards. *)
Theorem rendezvous_rate pid (pe pe' : PE) ms effss :
  receive_all pe ms = Some (pe', effss) -> StronglySorted Z.le (ar_now <$> ms) ->
  forall i j mi mj ei ej, i < j -> ms !! i = Some mi -> ms !! j = Some mj -> effss !! i = Some ei -> effss !! j = Some ej ->
  (existsb (starts_pair pid) ei = true -> existsb (starts_pair pid) ej = true ->
     (ar_now mi + RendezvousStartCooldown <= ar_now mj)%Z)
  /\ (existsb (punches_pair pid) ei = true -> existsb (punches_pair pid) ej = true ->
     (ar_now mi + RendezvousPunchCooldown <= ar_now mj)%Z).
Proof.
  revert pe effss. induction ms as [|m ms IH]; intros pe effss; cbn [receive_all]; [done|].
  destruct (receive pe _ _ _ _) as [[pe1 effs]|] eqn:Er; [|done].
  destruct (receive_all pe1 ms) as [[pe2 rest]|] eqn:Ea; [|done]. intros [= <- <-] [Hs Hm]%StronglySorted_inv.
  intros [|i] [|j] mi mj ei ej Hlt Hi Hj Hei Hej; try lia; cbn in Hi, Hj, Hei, Hej;
    [|exact (IH pe1 rest Ea Hs i j mi mj ei ej ltac:(lia) Hi Hj Hei Hej)].
  injection Hi as <-. injection Hei as <-. destruct (receive_throttled pid _ _ _ _ _ _ _ Er) as (_ & _ & R1 & R2).
  destruct (quiet_after pid pe1 pe2 ms rest Ea j ej Hej) as [Q1 Q2].
  assert (forall k m', k <= j -> ms !! k = Some m' -> (ar_now m <= ar_now m' <= ar_now mj)%Z) as Hord.
  { intros k m' Hk Hm'. split.
    - rewrite Forall_forall in Hm. apply Hm, list_elem_of_fmap_2. by eapply list_elem_of_lookup_2.
    - by eapply sorted_lookup_le. }
  split; intros Hst Hst'; apply Z.le_ngt; intros Hlt'.
  - rewrite (Q1 (ar_now m) (R1 Hst)) in Hst'; [done|]. intros k m' Hk Hm'. specialize (Hord k m' Hk Hm'). lia.
  - rewrite (Q2 (ar_now m) (R2 Hst)) in Hst'; [done|]. intros k m' Hk Hm'. specialize (Hord k m' Hk Hm'). lia.
Qed.
End rendezvous.

(** ** Samples *)

Definition ex_i : PeerExchange PeerStore :=
  NewPeerExchange mesh_config (member "pk-i" "10.7.0.9" "192.0.2.9:51820" true) NewPeerStore.
Definition sample_resolve (s : string) : option UDPAddr :=
  if String.eqb s (udp_addr_string addr_a) then Some addr_a else Some addr_b.

Lemma rendezvous_synchronized_witness :
  exists I1 I2 dA dB A' B' csA csB,
    handleRendezvousOffer ex_i (rendezvous_offer ex_a "pk-b" [] t0) addr_a t0 = (I1, [])
    /\ (exists e1 e2, handleRendezvousOffer I1 (rendezvous_offer ex_b "pk-a" [] t0) addr_b t0 = (I2, [e1; e2]))
    /\ handleMessage ex_a dA addr_b None t0 = Some (A', [GoPunch (pairIDForPeers "pk-a" "pk-b") "pk-b" csA
         (of_unix_milli (time_unix_milli (time_add t0 RendezvousStartLeadTime)))])
    /\ handleMessage ex_b dB addr_b None t0 = Some (B', [GoPunch (pairIDForPeers "pk-a" "pk-b") "pk-a" csB
         (of_unix_milli (time_unix_milli (time_add t0 RendezvousStartLeadTime)))]).
Proof.
  assert (forall cfg, DisableIPv6 cfg = false -> usable_addr cfg addr_a /\ usable_addr cfg addr_b) as Hu.
  { intros cfg Hc. split; (split; [split; by_compute|split; [vm_compute; reflexivity|congruence]]). }
  assert (DisableIPv6 mesh_config = false) as H6 by (vm_compute; reflexivity).
  assert (DisablePunching mesh_config = false) as Hp by (vm_compute; reflexivity).
  destruct (rendezvous_synchronized sample_resolve ex_i ex_a ex_b [] [] t0 t0 addr_a addr_b t0 t0 t0 t0
    (replicate 12 1%Z) (replicate 12 2%Z) None addr_b) as [Hunknown _].
  - split; [exact Hp|]. split; [reflexivity|]. repeat split; discriminate.
  - discriminate.
  - intros st Hst. discriminate Hst.
  - intros t Ht. discriminate Ht.
  - vm_compute; discriminate.
  - exact (proj1 (Hu _ H6)).
  - exact (proj2 (Hu _ H6)).
  - exact (proj2 (Hu _ H6)).
  - exact (proj1 (Hu _ H6)).
  - vm_compute; reflexivity.
  - split; [apply gossip_key_new|]. split; [exact Hp|]. intros t Ht. discriminate Ht.
  - split; [apply gossip_key_new|]. split; [exact Hp|]. intros t Ht. discriminate Ht.
  - reflexivity.
  - by_compute.
  - reflexivity.
  - by_compute.
  - reflexivity.
  - reflexivity.
  - split; vm_compute; discriminate.
  - destruct Hunknown as (I1 & I2 & H1 & H2 & dA & dB & A' & B' & csA & csB & _ & _ & HA & HB & _).
    + vm_compute; reflexivity.
    + split; vm_compute; discriminate.
    + vm_compute; reflexivity.
    + vm_compute; reflexivity.
    + exists I1, I2, dA, dB, A', B', csA, csB. split; [exact H1|].
      split; [do 2 eexists; exact H2|]. split; [exact HA|exact HB].
Defined.

(** Both peers make offers to the introducer that knows neither, and do so again
    ten seconds later. *)
Definition offer_data (pe : PeerExchange PeerStore) (target : string) : list Z :=
  match SealEnvelope MessageTypeRendezvousOffer (offer_json (rendezvous_offer pe target [] t0))
          (gossip_key pe) (Some (replicate 12 1%Z)) with
  | Ok data => data
  | Err _ => []
  end.

Definition offers_at (s : Z) : list arrival :=
  [{| ar_data := offer_data ex_a "pk-b"; ar_from := addr_a; ar_nonce := None; ar_now := time_add t0 (s * second)%Z |};
   {| ar_data := offer_data ex_b "pk-a"; ar_from := addr_b; ar_nonce := None; ar_now := time_add t0 ((s + 1) * second)%Z |}].
Definition repeated_offers : list arrival := offers_at 0 ++ offers_at 4 ++ offers_at 10.
Definition started_by (o : option (PeerExchange PeerStore * list (list effect))) : list bool :=
  match o with Some (_, effss) => existsb (starts_pair (pairIDForPeers "pk-a" "pk-b")) <$> effss | None => [] end.

Lemma rendezvous_rate_witness :
  started_by (receive_all ex_i repeated_offers) = [false; true; false; false; true; false]
  /\ (time_add t0 (1 * second) + RendezvousStartCooldown <= time_add t0 (10 * second))%Z.
Proof.
  assert (started_by (receive_all ex_i repeated_offers) = [false; true; false; false; true; false]) as H by (vm_compute; reflexivity).
  split; [exact H|]. destruct (receive_all ex_i repeated_offers) as [[pe' effss]|] eqn:E; [|discriminate H]. cbn [started_by] in H.
  destruct effss as [|e0 [|e1 [|e2 [|e3 [|e4 rest]]]]]; try discriminate H. injection H as H0 H1 H2 H3 H4 H5.
  refine (proj1 (rendezvous_rate (pairIDForPeers "pk-a" "pk-b") ex_i pe' repeated_offers _ E _ 1 4 _ _ e1 e4 _ eq_refl eq_refl eq_refl eq_refl) H1 H4).
  - repeat constructor; by_compute.
  - lia.
Defined.
