(* ===== verification/Cache.v ===== *)
(** * The peer cache (pkg/daemon/cache.go)

    The daemon writes the peers it knows to a JSON file every five minutes and
    when it stops, and reads it back when it starts.  The content of the file is
    the argument of the operations ([None] when it cannot be read). *)

From S2P Require Import Prelude GoStrings GoNet GoJson PeerStore PeerSink.
Local Open Scope wgmesh_scope.

Definition CacheExpiration : Duration := (24 * hour)%Z.
Definition CacheMethod : string := "cache".

Record PeerCacheEntry := {
  ce_WGPubKey : string;
  ce_Hostname : string;
  ce_MeshIP : string;
  ce_MeshIPv6 : string;
  ce_Endpoint : string;
  ce_Introducer : bool;
  ce_RoutableNetworks : list string;
  ce_NATType : string;
  ce_LastSeen : Z;
}.

Record PeerCache := { pc_Peers : list PeerCacheEntry; pc_UpdatedAt : Z }.

Definition CacheFilePath (interfaceName : string) : string :=
  "/var/lib/wgmesh/" ^^ interfaceName ^^ "-peers.json".

(** ** The file *)

Definition entry_json (e : PeerCacheEntry) : json :=
  JObj ([("wg_pubkey"%string, JStr (ce_WGPubKey e))]
        ++ omit_str "hostname" (ce_Hostname e)
        ++ [("mesh_ip"%string, JStr (ce_MeshIP e))]
        ++ omit_str "mesh_ipv6" (ce_MeshIPv6 e)
        ++ [("endpoint"%string, JStr (ce_Endpoint e))]
        ++ omit_bool "introducer" (ce_Introducer e)
        ++ omit_list "routable_networks" JStr (ce_RoutableNetworks e)
        ++ omit_str "nat_type" (ce_NATType e)
        ++ [("last_seen"%string, jint (ce_LastSeen e))]).

Definition dec_entry (v : json) : option PeerCacheEntry :=
  match v with
  | JObj ms =>
      pk ← str_field "wg_pubkey" ms; hn ← str_field "hostname" ms; ip ← str_field "mesh_ip" ms;
      ip6 ← str_field "mesh_ipv6" ms; ep ← str_field "endpoint" ms;
      intro ← bool_field "introducer" ms; nets ← list_field dec_string "routable_networks" ms;
      nat_t ← str_field "nat_type" ms; seen ← int_field "last_seen" ms;
      Some {| ce_WGPubKey := pk; ce_Hostname := hn; ce_MeshIP := ip; ce_MeshIPv6 := ip6;
              ce_Endpoint := ep; ce_Introducer := intro; ce_RoutableNetworks := nets;
              ce_NATType := nat_t; ce_LastSeen := seen |}
  | JNull => Some {| ce_WGPubKey := ""; ce_Hostname := ""; ce_MeshIP := ""; ce_MeshIPv6 := "";
              ce_Endpoint := ""; ce_Introducer := false; ce_RoutableNetworks := [];
              ce_NATType := ""; ce_LastSeen := 0 |}
  | _ => None
  end.

(** A nil slice is [null]. *)
Definition peers_json (l : list PeerCacheEntry) : json :=
  match l with [] => JNull | _ => JArr (entry_json <$> l) end.

Definition cache_json (c : PeerCache) : json :=
  JObj ([("peers"%string, peers_json (pc_Peers c))]
        ++ [("updated_at"%string, jint (pc_UpdatedAt c))]).

Definition dec_cache (v : json) : option PeerCache :=
  match v with
  | JObj ms =>
      ps ← list_field dec_entry "peers" ms; at_ ← int_field "updated_at" ms;
      Some {| pc_Peers := ps; pc_UpdatedAt := at_ |}
  | JNull => Some {| pc_Peers := []; pc_UpdatedAt := 0 |}
  | _ => None
  end.

(** ** Operations *)

Definition cache_entry (p : PeerInfo) : PeerCacheEntry :=
  {| ce_WGPubKey := WGPubKey p; ce_Hostname := Hostname p; ce_MeshIP := MeshIP p;
     ce_MeshIPv6 := MeshIPv6 p; ce_Endpoint := Endpoint p; ce_Introducer := Introducer p;
     ce_RoutableNetworks := RoutableNetworks p; ce_NATType := NATType p;
     ce_LastSeen := time_to_unix (LastSeen p) |}.

(** What [SavePeerCache] writes. *)
Definition SavePeerCache (ps : PeerStore) (now : Time) : string :=
  print_indent (cache_json {| pc_Peers := cache_entry <$> GetAll ps; pc_UpdatedAt := time_to_unix now |}).

Definition LoadPeerCache (content : option string) : result PeerCache :=
  match content with
  | None => Err "read error"
  | Some text =>
      match parse text ≫= dec_cache with
      | Some c => Ok c
      | None => Err "failed to parse peer cache"
      end
  end.

Definition cached_peer (e : PeerCacheEntry) : PeerInfo :=
  {| WGPubKey := ce_WGPubKey e; Hostname := ce_Hostname e; MeshIP := ce_MeshIP e;
     MeshIPv6 := ce_MeshIPv6 e; Endpoint := ce_Endpoint e; Introducer := ce_Introducer e;
     RoutableNetworks := ce_RoutableNetworks e; LastSeen := time_unix (ce_LastSeen e);
     DiscoveredVia := []; Latency := None; NATType := ce_NATType e; EndpointMethod := "" |}.

Definition not_expired (now : Time) (e : PeerCacheEntry) : Prop :=
  (time_sub now (time_unix (ce_LastSeen e)) <= CacheExpiration)%Z.
#[export] Instance not_expired_dec now e : Decision (not_expired now e).
Proof. unfold not_expired. apply _. Defined.

(** The entries restored, and the store with their number ([None]: a panic). *)
Definition cache_peers (c : PeerCache) (now : Time) : list PeerInfo :=
  cached_peer <$> filter (not_expired now) (pc_Peers c).

Definition RestoreFromCache (content : option string) (ps : PeerStore) (now : Time)
  : option (PeerStore * nat) :=
  match LoadPeerCache content with
  | Err _ => Some (ps, 0)
  | Ok c =>
      ps' ← update_all ps (cache_peers c now) CacheMethod now;
      Some (ps', length (cache_peers c now))
  end.

(** ** Reading the file back *)

Definition entry_text (e : PeerCacheEntry) : bool :=
  ascii_str (ce_WGPubKey e) && ascii_str (ce_Hostname e) && ascii_str (ce_MeshIP e)
  && ascii_str (ce_MeshIPv6 e) && ascii_str (ce_Endpoint e) && ascii_str (ce_NATType e)
  && forallb ascii_str (ce_RoutableNetworks e) && int64 (ce_LastSeen e).

Lemma entry_reads e : entry_text e = true ->
  json_ok (entry_json e) = true /\ dec_entry (entry_json e) = Some e.
Proof.
  unfold entry_text, int64. intros H. bool_steps. split.
  - unfold entry_json. message_ok.
  - unfold dec_entry, entry_json. read_message. by destruct e.
Qed.

(** A file written is read back, whatever the number of peers. *)
Lemma load_saved_cache c :
  forallb entry_text (pc_Peers c) = true -> int64 (pc_UpdatedAt c) = true ->
  LoadPeerCache (Some (print_indent (cache_json c))) = Ok c.
Proof.
  intros Hp Ht. unfold int64 in Ht. bool_steps.
  assert (forall e, e ∈ pc_Peers c -> entry_text e = true) as He.
  { intros e Hin. by apply (proj1 (forallb_forall _ _) Hp), list_elem_of_In. }
  unfold LoadPeerCache. rewrite parse_print_indent.
  - cbn [mbind option_bind]. unfold dec_cache, cache_json.
    assert (foldl (field_step (dec_list dec_entry) (fun _ => []) "peers") (Some [])
      [("peers"%string, peers_json (pc_Peers c))] = Some (pc_Peers c)) as Hpeers.
    { destruct (pc_Peers c) as [|e l] eqn:El; [done|]. unfold peers_json. rewrite fold_same by done.
      apply mapM_encode, Forall_forall. intros x Hx. by apply entry_reads, He. }
    unfold list_field at 1, field. rewrite foldl_app, Hpeers, fold_other by reflexivity.
    cbn [mbind option_bind]. unfold int_field, field. rewrite foldl_app, (fold_other _ _ _ _ "peers") by reflexivity.
    rewrite fold_same by done. rewrite dec_jint by lia. by destruct c.
  - unfold cache_json. cbn [json_ok]. rewrite forallb_app. cbn [forallb fst snd].
    rewrite jint_ok by lia. destruct (pc_Peers c) as [|e l] eqn:El; [done|].
    unfold peers_json. cbn [json_ok]. rewrite (proj2 (forallb_forall _ _)); [done|]. intros x Hx.
    apply list_elem_of_In, list_elem_of_fmap in Hx as (b & -> & Hb). by apply entry_reads, He.
Qed.

(** ** A restart *)

(** What the file holds of every peer can be written. *)
Definition store_text (ps : PeerStore) : Prop :=
  forall k p, Get ps k = Some p -> entry_text (cache_entry p) = true.

Lemma GetAll_elem ps p : store_ok ps -> p ∈ GetAll ps <-> Get ps (WGPubKey p) = Some p.
Proof.
  intros [[Hp _] _]. unfold GetAll, Get. rewrite list_elem_of_fmap. split.
  - intros ([k q] & -> & Hin). apply elem_of_map_to_list in Hin. simpl.
    by destruct (Hp k q Hin) as [<- _].
  - intros H. exists (WGPubKey p, p). split; [done|]. by apply elem_of_map_to_list.
Qed.

Lemma GetAll_keys ps : store_ok ps -> NoDup (WGPubKey <$> GetAll ps).
Proof.
  intros [[Hp _] _]. unfold GetAll.
  assert (WGPubKey <$> (snd <$> map_to_list (peers ps)) = (map_to_list (peers ps)).*1) as ->.
  { rewrite <- list_fmap_compose. apply list_fmap_ext. intros i [k q] Hi. simpl.
    apply list_elem_of_lookup_2, elem_of_map_to_list in Hi. by destruct (Hp k q Hi). }
  apply NoDup_fst_map_to_list.
Qed.

(** The entries of the file that have not expired. *)
Lemma cache_peers_saved ps now at_ :
  cache_peers {| pc_Peers := cache_entry <$> GetAll ps; pc_UpdatedAt := at_ |} now
  = (fun p => cached_peer (cache_entry p)) <$> filter (fun p => not_expired now (cache_entry p)) (GetAll ps).
Proof.
  unfold cache_peers. cbn [pc_Peers]. induction (GetAll ps) as [|p l IH]; [done|].
  rewrite fmap_cons, !filter_cons. destruct (decide (not_expired now (cache_entry p))); [|done].
  rewrite !fmap_cons. by rewrite IH.
Qed.

Lemma restore_saved ps at_ now :
  store_ok ps -> store_text ps -> int64 (time_to_unix at_) = true ->
  exists ps' n, RestoreFromCache (Some (SavePeerCache ps at_)) NewPeerStore now = Some (ps', n)
    /\ store_ok ps'
    /\ forall k, Get ps' k = match Get ps k with
         | Some p => if decide (not_expired now (cache_entry p))
                     then Some (new_peer (cached_peer (cache_entry p)) CacheMethod now) else None
         | None => None
         end.
Proof.
  intros Hok Ht Hat. unfold RestoreFromCache, SavePeerCache. rewrite load_saved_cache.
  2: { apply forallb_forall. intros e He. apply list_elem_of_In, list_elem_of_fmap in He as (p & -> & Hp).
       apply GetAll_elem in Hp; [|done]. by eapply Ht. }
  2: { done. }
  rewrite cache_peers_saved. set (live := filter _ (GetAll ps)).
  set (infos := (fun p => cached_peer (cache_entry p)) <$> live).
  assert (WGPubKey <$> infos = WGPubKey <$> live) as Hkeys by (unfold infos; by rewrite <- list_fmap_compose).
  assert (NoDup (WGPubKey <$> infos)) as Hnd.
  { rewrite Hkeys. apply NoDup_fmap_filter. by apply GetAll_keys. }
  assert (length infos <= sink_room NewPeerStore) as Hroom.
  { unfold infos, live. rewrite length_fmap. transitivity (length (GetAll ps)); [apply length_filter|].
    unfold GetAll. rewrite length_fmap, length_map_to_list. destruct Hok as [[_ Hs] _].
    simpl. rewrite map_size_empty. lia. }
  destruct (@update_all_exact PeerStore peer_store_sink NewPeerStore infos CacheMethod now NewPeerStore_ok Hnd Hroom) as (ps' & -> & Hok' & Hno & Hall).
  cbn [mbind option_bind]. do 2 eexists. split; [done|]. split; [done|]. intros k.
  destruct (Get ps k) as [p|] eqn:Hk.
  - assert (WGPubKey p = k) as <- by (destruct Hok as [[Hp _] _]; by destruct (Hp k p Hk)).
    destruct (decide (not_expired now (cache_entry p))) as [Hx|Hx].
    + apply (Hall (cached_peer (cache_entry p))). unfold infos. apply list_elem_of_fmap.
      exists p. split; [done|]. apply list_elem_of_filter. split; [done|]. by apply GetAll_elem.
    + change (Get ps' (WGPubKey p)) with (sink_get ps' (WGPubKey p)). rewrite Hno; [done|].
      rewrite Hkeys. intros (q & Hq & Hin)%list_elem_of_fmap. apply list_elem_of_filter in Hin as [Hl Hin].
      apply GetAll_elem in Hin; [|done]. rewrite <- Hq in Hin.
      assert (q = p) as -> by congruence. done.
  - change (Get ps' k) with (sink_get ps' k). rewrite Hno; [done|].
    rewrite Hkeys. intros (q & -> & Hin)%list_elem_of_fmap. apply list_elem_of_filter in Hin as [_ Hin].
    apply GetAll_elem in Hin; [|done]. congruence.
Qed.

(** C23. A restart keeps the peers: what the daemon saved when it stopped is
    restored into the empty store of the next run, exactly the peers heard of
    within the last 24 hours, with the same identity, addresses, networks and
    role, and the time of last contact to the second (never later). *)
Theorem cache_survives_restart ps at_ now :
  store_ok ps -> store_text ps -> int64 (time_to_unix at_) = true ->
  exists ps' n, RestoreFromCache (Some (SavePeerCache ps at_)) NewPeerStore now = Some (ps', n)
    /\ store_ok ps'
    /\ (forall k, is_Some (Get ps' k) <-> exists p, Get ps k = Some p /\ not_expired now (cache_entry p))
    /\ (forall k p q, Get ps k = Some p -> Get ps' k = Some q ->
         WGPubKey q = WGPubKey p /\ Hostname q = Hostname p /\ MeshIP q = MeshIP p
         /\ MeshIPv6 q = MeshIPv6 p /\ Endpoint q = Endpoint p /\ Introducer q = Introducer p
         /\ RoutableNetworks q = RoutableNetworks p /\ NATType q = NATType p
         /\ DiscoveredVia q = [CacheMethod]
         /\ ((0 <= LastSeen p)%Z -> (LastSeen q <= LastSeen p < LastSeen q + second)%Z)).
Proof.
  intros Hok Ht Hat. destruct (restore_saved ps at_ now Hok Ht Hat) as (ps' & n & Hr & Hok' & Hget).
  exists ps', n. split; [done|]. split; [done|]. split.
  - intros k. rewrite Hget. destruct (Get ps k) as [p|]; [|split; [by intros []|naive_solver]].
    destruct (decide (not_expired now (cache_entry p))); split; naive_solver.
  - intros k p q Hp Hq. rewrite Hget, Hp in Hq.
    destruct (decide (not_expired now (cache_entry p))) as [_|]; [|done]. injection Hq as <-.
    repeat (split; [done|]). intros H0. cbn [LastSeen new_peer cached_peer ce_LastSeen cache_entry].
    pose proof (time_to_unix_bounds (LastSeen p)) as Hb.
    destruct (time_is_zero _) eqn:Hz; [|exact Hb]. exfalso. unfold time_is_zero, zero_time in Hz. bool_steps.
    unfold second in Hb. lia.
Qed.

(** The 24 hours of the cache are not usable: a peer last heard of more than
    eleven minutes ago is restored, but it is not active, so nothing is
    configured for it, and the first cleanup of stale peers drops it. *)
Theorem cache_restores_dead_peers ps at_ now k p :
  store_ok ps -> store_text ps -> int64 (time_to_unix at_) = true ->
  Get ps k = Some p -> (0 <= LastSeen p)%Z -> (LastSeen p + PeerRemoveTimeout + minute < now)%Z ->
  (now + second <= LastSeen p + CacheExpiration)%Z ->
  exists ps' n, RestoreFromCache (Some (SavePeerCache ps at_)) NewPeerStore now = Some (ps', n)
    /\ is_Some (Get ps' k) /\ k ∉ (WGPubKey <$> GetActive ps' now) /\ Get (CleanupStale ps' now).1 k = None.
Proof.
  intros Hok Ht Hat Hp H0 Hold Hyoung. destruct (restore_saved ps at_ now Hok Ht Hat) as (ps' & n & Hr & Hok' & Hget).
  pose proof (time_to_unix_bounds (LastSeen p)) as Hb.
  set (q := new_peer (cached_peer (cache_entry p)) CacheMethod now).
  assert (LastSeen q = time_unix (time_to_unix (LastSeen p))) as Hls.
  { unfold q, new_peer. cbn [LastSeen cached_peer ce_LastSeen cache_entry].
    destruct (time_is_zero _) eqn:Hz; [|done]. exfalso. unfold time_is_zero, zero_time in Hz. bool_steps.
    unfold second in Hb. lia. }
  assert (Get ps' k = Some q) as Hq.
  { rewrite Hget, Hp, decide_True; [done|]. unfold not_expired. cbn [ce_LastSeen cache_entry].
    apply Z.le_ngt. rewrite time_sub_gt_iff by (unfold int64_min, int64_max, CacheExpiration, hour, minute, second; lia).
    lia. }
  exists ps', n. split; [done|]. split; [by rewrite Hq|]. split.
  - intros (r & -> & Hin)%list_elem_of_fmap. unfold GetActive in Hin. apply list_elem_of_filter in Hin as [Ha Hin].
    apply GetAll_elem in Hin; [|done]. assert (r = q) as -> by congruence.
    unfold is_active in Ha. rewrite Hls in Ha.
    rewrite time_sub_lt_iff in Ha by (unfold int64_min, int64_max, PeerDeadTimeout, minute, second; lia).
    unfold PeerDeadTimeout, PeerRemoveTimeout, minute, second in *. lia.
  - unfold Get in *. rewrite CleanupStale_lookup, Hq, decide_True; [done|]. unfold is_stale. rewrite Hls.
    rewrite time_sub_gt_iff by (unfold int64_min, int64_max, PeerRemoveTimeout, minute, second; lia).
    unfold minute, second in *. lia.
Qed.

(** Two peers, one heard of a moment before the save, one an hour before. *)
Definition sample_cached (key : string) (seen : Time) : PeerInfo :=
  {| WGPubKey := key; Hostname := "h"; MeshIP := "10.7.0.2"; MeshIPv6 := ""; Endpoint := "192.0.2.7:51820";
     Introducer := true; RoutableNetworks := ["10.1.0.0/16"%string]; LastSeen := seen; DiscoveredVia := [];
     Latency := None; NATType := "cone"; EndpointMethod := "" |}.

Definition learn (ps : PeerStore) (p : PeerInfo) : PeerStore := default ps (Update ps p "dht" 0%Z).

Lemma learn_ok ps p : store_ok ps -> store_ok (learn ps p).
Proof. intros H. unfold learn. by destruct (Update_ok ps p "dht" 0%Z H) as (s & -> & Hs & _). Qed.

Lemma store_text_check ps :
  forallb (fun kp => entry_text (cache_entry kp.2)) (map_to_list (peers ps)) = true -> store_text ps.
Proof.
  intros H k p Hp. apply (proj1 (forallb_forall _ _) H (k, p)), list_elem_of_In. by apply elem_of_map_to_list.
Qed.

Definition cache_sample : PeerStore :=
  learn (learn NewPeerStore (sample_cached "fresh" (1700003500 * second + 250 * millisecond)%Z))
    (sample_cached "old" (1700000000 * second)%Z).

Lemma cache_sample_ok : store_ok cache_sample /\ store_text cache_sample.
Proof.
  split.
  - apply learn_ok, learn_ok, NewPeerStore_ok.
  - apply store_text_check. vm_compute; reflexivity.
Qed.

(** [Get] and a property of what it finds, checked by evaluation. *)
Lemma get_check (P : PeerInfo -> Prop) `{!forall p, Decision (P p)} ps k :
  match Get ps k with Some p => bool_decide (P p) | None => false end = true ->
  exists p, Get ps k = Some p /\ P p.
Proof. destruct (Get ps k) as [p|]; [|done]. intros Hp. exists p. split; [done|]. by apply bool_decide_eq_true in Hp. Qed.

Lemma cache_survives_restart_witness :
  exists ps' n, RestoreFromCache (Some (SavePeerCache cache_sample (1700003600 * second)%Z)) NewPeerStore (1700003700 * second)%Z
      = Some (ps', n)
    /\ is_Some (Get ps' "fresh") /\ is_Some (Get ps' "old").
Proof.
  destruct (cache_survives_restart cache_sample (1700003600 * second)%Z (1700003700 * second)%Z)
    as (ps' & n & H & _ & Hk & _).
  - exact (proj1 cache_sample_ok).
  - exact (proj2 cache_sample_ok).
  - vm_compute; reflexivity.
  - exists ps', n. split; [exact H|].
    split; apply Hk, (get_check (fun p => not_expired (1700003700 * second)%Z (cache_entry p)));
      vm_compute; reflexivity.
Defined.

Lemma cache_restores_dead_peers_witness :
  exists ps' n, RestoreFromCache (Some (SavePeerCache cache_sample (1700003600 * second)%Z)) NewPeerStore (1700003700 * second)%Z
      = Some (ps', n)
    /\ is_Some (Get ps' "old") /\ "old"%string ∉ (WGPubKey <$> GetActive ps' (1700003700 * second)%Z).
Proof.
  destruct (get_check (fun p => LastSeen p = (1700000000 * second)%Z) cache_sample "old") as (p & E & Hl).
  { vm_compute; reflexivity. }
  destruct (cache_restores_dead_peers cache_sample (1700003600 * second)%Z (1700003700 * second)%Z "old" p)
    as (ps' & n & H & Hk & Ha & _).
  - exact (proj1 cache_sample_ok).
  - exact (proj2 cache_sample_ok).
  - vm_compute; reflexivity.
  - exact E.
  - rewrite Hl. by_compute.
  - rewrite Hl. by_compute.
  - rewrite Hl. by_compute.
  - exists ps', n. split; [exact H|]. split; [exact Hk|exact Ha].
Defined.
