(* ===== verification/Collisions.v ===== *)
(** * Address collisions over the protocol

    pkg/daemon/collision.go looks for collisions in the peer store, and the
    store is fed by pkg/discovery/exchange.go.  Composing the two shows when a
    node notices that a peer has its own address. *)

From S2P Require Import Prelude GoStrings GoNet GoJson PeerStore Derive Aead Envelope.
From S2P Require Import NodeConfig Endpoints PeerSink Exchange Gossip Protocol Cache.
Local Open Scope wgmesh_scope.

(** A collision is between two stored peers, so a node that is not in its own
    store is never a party of one. *)
Lemma not_stored_not_moved custom sub secret k len ps ip : store_ok ps -> Get ps k = None ->
  CheckAndResolveCollisions custom sub secret k len ps ip = (ip, []).
Proof.
  intros Hok Hk. unfold CheckAndResolveCollisions, DetectCollisions.
  pose proof (proj1 (detect_spec (GetAll ps))) as Hr. unfold reported in Hr.
  assert (forall p, p ∈ GetAll ps -> WGPubKey p <> k) as Hne.
  { intros p Hin%GetAll_elem <-; [congruence|done]. }
  induction (detect_peers (GetAll ps)) as [|c cs IH] using rev_ind; [done|].
  rewrite foldl_app, IH by (intros c' Hc'; apply Hr, elem_of_app; by left). simpl.
  unfold resolve_local. destruct (Hr c) as (H1 & H2 & _); [apply elem_of_app; right; by left|].
  destruct (String.eqb_spec (WGPubKey (DeterministicWinner (Peer1 c) (Peer2 c)).2) k) as [E|]; [|done].
  exfalso. unfold DeterministicWinner in E. destruct (str_lt _ _); simpl in E; [by apply (Hne _ H2)|by apply (Hne _ H1)].
Qed.

Section over_protocol.
Context {cipher : Aead}.
Notation PE := (PeerExchange PeerStore).

Lemma impersonates_same (pe pe' : PE) data now : same_identity pe pe' ->
  impersonates pe' data now -> impersonates pe data now.
Proof.
  intros Hi (env & pt & Ho & Ht & r & Hr & Hk). exists env, pt.
  assert (gossip_key pe' = gossip_key pe) as <- by (unfold gossip_key; destruct Hi as (-> & _); done).
  split; [done|]. split; [done|]. exists r. split; [done|]. rewrite Hk. by apply same_identity_own.
Qed.

Lemma receive_all_own_entry (pe pe' : PE) ms effss :
  exchange_ok pe -> Forall (fun m => ~ impersonates pe (ar_data m) (ar_now m)) ms ->
  receive_all pe ms = Some (pe', effss) ->
  exchange_ok pe' /\ own_pubkey pe' = own_pubkey pe
  /\ Get (pe_store pe') (own_pubkey pe) = Get (pe_store pe) (own_pubkey pe).
Proof.
  revert pe effss. induction ms as [|m ms IH]; intros pe effss Hok Hm; cbn [receive_all].
  { intros [= <- <-]. done. }
  apply Forall_cons in Hm as [Hm Hms].
  destruct (receive_handled pe (ar_data m) (ar_from m) (ar_nonce m) (ar_now m) Hok) as (pe1 & effs & -> & Hh & _).
  pose proof (exchange_ok_after _ _ _ _ _ Hok Hh) as Hok1. destruct Hh as (_ & Hi & Ho & _).
  destruct (receive_all pe1 ms) as [[pe2 rest]|] eqn:E; [|done]. intros [= <- <-].
  assert (own_pubkey pe1 = own_pubkey pe) as Ek by by apply same_identity_own.
  destruct (IH pe1 rest Hok1) as (Hok2 & Hown & Hg); [|done|].
  { eapply Forall_impl; [exact Hms|]. cbn beta. intros x Hx Hc. by apply Hx, (impersonates_same pe pe1). }
  split; [done|]. split; [congruence|]. rewrite Ek in Hg. rewrite Hg. by apply Ho.
Qed.

(** A node never notices that somebody else has its own mesh address:
    whatever it learns from the network, the collision check of the reconcile
    loop leaves its address alone and issues no command, also when the peers it
    stored include one with that very address.  (Only a REPLY forged with the
    node's own key can put the node into the comparison.) *)
Theorem own_collision_unnoticed (pe pe' : PE) ms effss custom sub secret len ip :
  exchange_ok pe -> Get (pe_store pe) (own_pubkey pe) = None ->
  Forall (fun m => ~ impersonates pe (ar_data m) (ar_now m)) ms ->
  receive_all pe ms = Some (pe', effss) ->
  CheckAndResolveCollisions custom sub secret (own_pubkey pe') len (pe_store pe') ip = (ip, []).
Proof.
  intros Hok Hno Hm Hr. destruct (receive_all_own_entry pe pe' ms effss Hok Hm Hr) as ([Hs _] & Hk & Hg).
  apply not_stored_not_moved; [exact Hs|]. congruence.
Qed.

End over_protocol.

(** ** Sample: two nodes with one address *)

(** [C] has the mesh address of [A] and says so in a HELLO to [A]. *)
Definition node_c : LocalNode := member "pk-c" "10.7.0.1" "198.51.100.3:51820" false.
Definition hello_c : arrival :=
  {| ar_data := sealed MessageTypeHello (self_announcement node_c [] t0); ar_from := addr_b;
     ar_nonce := None; ar_now := t0 |}.

(** The mesh address an exchange has stored for a key. *)
Definition address_after (o : option (PeerExchange PeerStore * list (list effect))) (k : string) : option string :=
  match o with Some (pe, _) => MeshIP <$> Get (pe_store pe) k | None => None end.

Lemma own_collision_unnoticed_witness :
  exists pe' effss, receive_all ex_a [hello_c] = Some (pe', effss)
    /\ MeshIP <$> Get (pe_store pe') "pk-c" = Some (ln_MeshIP (pe_node ex_a))
    /\ CheckAndResolveCollisions None [42; 7]%Z "s" (own_pubkey pe') 16 (pe_store pe') (ln_MeshIP (pe_node ex_a))
       = (ln_MeshIP (pe_node ex_a), []).
Proof.
  assert (address_after (receive_all ex_a [hello_c]) "pk-c" = Some (ln_MeshIP (pe_node ex_a))) as Hc
    by (vm_compute; reflexivity).
  assert (opens_as ex_a (ar_data hello_c) t0 = Some MessageTypeHello) as E by (vm_compute; reflexivity).
  assert (Get (pe_store ex_a) (own_pubkey ex_a) = None) as Hn by (vm_compute; reflexivity).
  unfold address_after in Hc. destruct (receive_all ex_a [hello_c]) as [[pe' effss]|] eqn:Er; [|discriminate Hc].
  exists pe', effss. split; [reflexivity|]. split; [exact Hc|].
  apply (own_collision_unnoticed ex_a pe' [hello_c] effss).
  - exact ex_a_ok.
  - exact Hn.
  - constructor; [|constructor]. exact (opens_as_not_reply _ _ _ _ E ltac:(discriminate)).
  - exact Er.
Defined.
