(* ===== verification/Dht.v ===== *)
(** * DHT discovery (pkg/discovery/dht.go)

    What the discovery layer decides: whom to contact and when, through which
    introducers a pair meets, how failed attempts are spaced, and under which
    identifiers nodes find each other.  The state shared with the exchange (the
    local node and the peer store) is the exchange's own; the answers of [wg
    show], the route check and the DHT library are arguments.  A goroutine that
    is started is an action; what it does when it ends is a definition of its
    own ([exchanged], [punched], [requested]). *)

From S2P Require Import Prelude GoStrings GoNet GoCrypto GoJson PeerStore Derive Aead Envelope.
From S2P Require Import GoFloat RateLimit NodeConfig Endpoints PeerSink Exchange Gossip.
Local Open Scope wgmesh_scope.

Definition DHTQueryInterval : Duration := (30 * second)%Z.
Definition DHTQueryIntervalStable : Duration := (60 * second)%Z.
Definition DHTBootstrapInitialDelay : Duration := (5 * second)%Z.
Definition DHTBootstrapMaxDelay : Duration := (60 * second)%Z.
Definition RendezvousWindow : Duration := (20 * second)%Z.
Definition RendezvousPhase : Duration := (4 * second)%Z.
Definition RendezvousMaxIntroducers : nat := 3.
Definition RendezvousMinBackoff : Duration := (3 * second)%Z.
Definition RendezvousMaxBackoff : Duration := (30 * second)%Z.
Definition RendezvousStaleCheck : Duration := (10 * second)%Z.
Definition IPv6SyncWindow : Duration := (8 * second)%Z.
Definition IPv6SyncPhase : Duration := (2 * second)%Z.
Definition RecentHandshake : Duration := (2 * minute)%Z.

Record backoffEntry := { be_nextAttempt : Time; be_duration : Duration }.

Record DHTDiscovery (S : Type) := {
  d_exchange : PeerExchange S;
  contactedPeers : gmap string Time;
  controlPeers : gmap string string;
  rendezvousBackoff : gmap string backoffEntry;
}.
Arguments d_exchange {S} _.
Arguments contactedPeers {S} _.
Arguments controlPeers {S} _.
Arguments rendezvousBackoff {S} _.

(** A goroutine started by the discovery. *)
Inductive dht_action :=
| GoExchange (addr method : string)
| GoRendezvous (introducer target : string)
| GoDirectPunch (endpoint target : string).

(** What the operating system answers during one step: [wg show
    latest-handshakes] (an error gives nothing) and a dial to an IPv6 host. *)
Record probe_env := { env_handshakes : result (gmap string Z); env_dial6 : bool }.

(** ** Helpers on strings *)

Definition isLikelyPublicEndpoint (endpoint : string) : bool :=
  match split_host_port endpoint with
  | None => false
  | Some (host, _) =>
      match parse_ip host with
      | None => true
      | Some ip =>
          if is_loopback ip || is_link_local_unicast ip || is_link_local_multicast ip
             || is_private ip || is_unspecified ip
          then false else is_global_unicast ip
      end
  end.

Definition toControlEndpoint (endpoint : string) (controlPort : Z) : string :=
  if (controlPort <=? 0)%Z then ""
  else match split_host_port endpoint with
       | None => ""
       | Some (host, _) => if wildcard_host host then "" else join_host_port host (itoa controlPort)
       end.

Definition hasDiscoveryMethod (methods : list string) (method : string) : bool :=
  existsb (String.eqb method) methods.

Definition hasAnyDHTReachability (methods : list string) : bool :=
  existsb (fun m => has_prefix m DHTMethod) methods.

(** ** Time windows *)

(** The position in a window of whole seconds, relative to an offset drawn from
    the pair; [int64(window / time.Second)] and Go's truncated [%]. *)
Definition in_window (window phase : Duration) (localKey remoteKey : string) (now : Time) : bool :=
  if String.eqb remoteKey "" then false
  else
    let windowSeconds := Z.quot window second in
    if (windowSeconds <=? 0)%Z then true
    else
      let phaseSeconds := if (Z.quot phase second <=? 0)%Z then 1%Z else Z.quot phase second in
      let offset := Z.modulo (pairSeed localKey remoteKey) windowSeconds in
      let position := Z.rem (time_to_unix now) windowSeconds in
      let delta := (position - offset)%Z in
      let delta := if (delta <? 0)%Z then (delta + windowSeconds)%Z else delta in
      (delta <? phaseSeconds)%Z.

(** ** Introducer candidates *)

Record introducerCandidate := {
  ic_pubKey : string;
  ic_endpoint : string;
  ic_controlEndpoint : string;
  ic_isExplicit : bool;
}.

Record rendezvousIntroducer := { ri_WGPubKey : string; ri_Endpoint : string; ri_ControlEndpoint : string }.

(** The order of [sort.Slice]: explicit introducers first, then keys, then
    endpoints. *)
Definition candidate_less (x y : introducerCandidate) : bool :=
  if negb (Bool.eqb (ic_isExplicit x) (ic_isExplicit y)) then ic_isExplicit x
  else if String.eqb (ic_pubKey x) (ic_pubKey y) then str_lt (ic_endpoint x) (ic_endpoint y)
  else str_lt (ic_pubKey x) (ic_pubKey y).

Definition candidate_le (x y : introducerCandidate) : Prop := candidate_less y x = false.
#[export] Instance candidate_le_dec : RelDecision candidate_le.
Proof. intros x y. unfold candidate_le. apply _. Defined.

Definition introducer_of (c : introducerCandidate) : rendezvousIntroducer :=
  {| ri_WGPubKey := ic_pubKey c; ri_Endpoint := ic_endpoint c; ri_ControlEndpoint := ic_controlEndpoint c |}.

(** [candidates[(start+i) % len]] for [i < maxCount]. *)
Definition rotate_take (cs : list introducerCandidate) (start maxCount : nat) : list introducerCandidate :=
  omap (fun i => cs !! ((start + i) mod length cs)) (seq 0 (Nat.min maxCount (length cs))).

Section dht.
Context {S : Type} {sink : PeerSink S} {cipher : Aead}.
Variable resolve : string -> option UDPAddr.
Notation D := (DHTDiscovery S).

Definition NewDHTDiscovery (cfg : Config) (n : LocalNode) (s : S) : D :=
  {| d_exchange := NewPeerExchange cfg n s; contactedPeers := ∅; controlPeers := ∅; rendezvousBackoff := ∅ |}.

Definition d_config (d : D) : Config := pe_config (d_exchange d).
Definition d_node (d : D) : LocalNode := pe_node (d_exchange d).
Definition d_store (d : D) : S := pe_store (d_exchange d).
Definition d_key (d : D) : string := own_pubkey (d_exchange d).

Definition set_exchange (d : D) (pe : PeerExchange S) : D :=
  {| d_exchange := pe; contactedPeers := contactedPeers d; controlPeers := controlPeers d;
     rendezvousBackoff := rendezvousBackoff d |}.
Definition set_contacted (d : D) (m : gmap string Time) : D :=
  {| d_exchange := d_exchange d; contactedPeers := m; controlPeers := controlPeers d;
     rendezvousBackoff := rendezvousBackoff d |}.
Definition set_control (d : D) (m : gmap string string) : D :=
  {| d_exchange := d_exchange d; contactedPeers := contactedPeers d; controlPeers := m;
     rendezvousBackoff := rendezvousBackoff d |}.
Definition set_backoff (d : D) (m : gmap string backoffEntry) : D :=
  {| d_exchange := d_exchange d; contactedPeers := contactedPeers d; controlPeers := controlPeers d;
     rendezvousBackoff := m |}.

(** ** Bookkeeping *)

Definition markContacted (d : D) (addr : string) (minInterval : Duration) (now : Time) : D * bool :=
  let recent := match contactedPeers d !! addr with
                | Some lastContact => (time_sub now lastContact <? minInterval)%Z
                | None => false
                end in
  if recent then (d, false) else (set_contacted d (<[addr := now]> (contactedPeers d)), true).

Definition canAttemptRendezvous (d : D) (pubKey : string) (now : Time) : bool :=
  match rendezvousBackoff d !! pubKey with
  | None => true
  | Some entry => time_after now (be_nextAttempt entry)
  end.

Definition next_backoff (existing : option backoffEntry) : Duration :=
  match existing with
  | None => RendezvousMinBackoff
  | Some e =>
      let next := (be_duration e * 2)%Z in
      let next := if (next <? RendezvousMinBackoff)%Z then RendezvousMinBackoff else next in
      if (RendezvousMaxBackoff <? next)%Z then RendezvousMaxBackoff else next
  end.

Definition recordRendezvousAttempt (d : D) (pubKey : string) (success : bool) (now : Time) : D :=
  if success then set_backoff d (delete pubKey (rendezvousBackoff d))
  else
    let nextBackoff := next_backoff (rendezvousBackoff d !! pubKey) in
    set_backoff d (<[pubKey := {| be_nextAttempt := time_add now nextBackoff; be_duration := nextBackoff |}]>
                     (rendezvousBackoff d)).

Definition setControlEndpoint (d : D) (peerPubKey endpoint : string) : D :=
  if String.eqb peerPubKey "" then d
  else
    let normalized := filterEndpointForConfig (normalizeKnownPeerEndpoint endpoint) (DisableIPv6 (d_config d)) in
    if String.eqb normalized "" then d
    else set_control d (<[peerPubKey := normalized]> (controlPeers d)).

Definition controlEndpointForPeer (d : D) (peer : PeerInfo) : string :=
  if String.eqb (WGPubKey peer) "" then ""
  else if String.eqb (WGPubKey peer) (d_key d) then ""
  else match controlPeers d !! WGPubKey peer with
  | Some endpoint => endpoint
  | None =>
      let endpoint := toControlEndpoint (Endpoint peer) (GossipPort (Keys (d_config d))) in
      if negb (String.eqb endpoint "") then
        if DisableIPv6 (d_config d) && isIPv6Endpoint endpoint then "" else endpoint
      else ""
  end.

Definition shouldAttemptRendezvous (d : D) (remoteKey : string) (now : Time) : bool :=
  in_window RendezvousWindow RendezvousPhase (d_key d) remoteKey now.

Definition shouldAttemptIPv6Sync (d : D) (remoteKey : string) (now : Time) : bool :=
  in_window IPv6SyncWindow IPv6SyncPhase (d_key d) remoteKey now.

(** ** Choosing introducers *)

Definition handshake_map (env : probe_env) : gmap string Z :=
  match env_handshakes env with Ok m => m | Err _ => ∅ end.

Definition getPeerHandshakeTS (env : probe_env) (iface peerPubKey : string) : Z :=
  if String.eqb iface "" || String.eqb peerPubKey "" then 0
  else default 0%Z (handshake_map env !! peerPubKey).

Definition isAutoIntroducerCandidate (d : D) (p : PeerInfo) (handshakes : gmap string Z) (now : Time) : bool :=
  if (RecentHandshake <? time_sub now (LastSeen p))%Z then false
  else match controlPeers d !! WGPubKey p with
  | None => false
  | Some _ =>
      match handshakes !! WGPubKey p with
      | Some ts => (0 <? ts)%Z && (time_sub now (time_unix ts) <? RecentHandshake)%Z
      | None => false
      end
  end.

(** The body of the loop over the peers: the candidate made of one, or none. *)
Definition introducer_candidate (d : D) (remoteKey : string) (handshakes : gmap string Z) (now : Time)
    (p : PeerInfo) : option introducerCandidate :=
  if String.eqb (WGPubKey p) "" || String.eqb (WGPubKey p) (d_key d) || String.eqb (WGPubKey p) remoteKey then None
  else if negb (hasAnyDHTReachability (DiscoveredVia p)) then None
  else if String.eqb (Endpoint p) "" || negb (isLikelyPublicEndpoint (Endpoint p)) then None
  else if DisableIPv6 (d_config d) && isIPv6Endpoint (Endpoint p) then None
  else
    let controlEndpoint := controlEndpointForPeer d p in
    if String.eqb controlEndpoint "" || negb (isLikelyPublicEndpoint controlEndpoint) then None
    else
      let isExplicit := Introducer p in
      let isAuto := negb isExplicit && isAutoIntroducerCandidate d p handshakes now in
      if negb isExplicit && negb isAuto then None
      else Some {| ic_pubKey := WGPubKey p; ic_endpoint := Endpoint p;
                   ic_controlEndpoint := controlEndpoint; ic_isExplicit := isExplicit |}.

Definition selectRendezvousIntroducers (d : D) (remoteKey : string) (peers : list PeerInfo) (maxCount : nat)
    (handshakes : gmap string Z) (now : Time) : list rendezvousIntroducer :=
  let candidates := merge_sort candidate_le (omap (introducer_candidate d remoteKey handshakes now) peers) in
  let start := Z.to_nat (Z.modulo (pairSeed (d_key d) remoteKey) (Z.of_nat (length candidates))) in
  introducer_of <$> rotate_take candidates start maxCount.

Definition hasIPv6Route (d : D) (env : probe_env) : bool :=
  if DisableIPv6 (d_config d) then false else env_dial6 env.

(** ** Attempts *)

(** The synchronized direct attempt of two nodes with IPv6. *)
Definition ipv6_sync (d : D) (peer : PeerInfo) (now : Time) : D * list dht_action :=
  let own := GetEndpoint (d_node d) in
  if negb (String.eqb own "") && isIPv6Endpoint own && shouldAttemptIPv6Sync d (WGPubKey peer) now then
    let target := controlEndpointForPeer d peer in
    if String.eqb target "" then (d, [])
    else
      let '(d, fresh) := markContacted d ("ipv6-sync:" ^^ target) (3 * second)%Z now in
      (d, if fresh then [GoExchange target (DHTMethod ^^ "-ipv6-sync")] else [])
  else (d, []).

(** The requests to the introducers: each at most once in 20 seconds. *)
Fixpoint ask_introducers (d : D) (target : string) (introducers : list rendezvousIntroducer) (now : Time)
  : D * list dht_action :=
  match introducers with
  | [] => (d, [])
  | i :: rest =>
      if String.eqb (ri_ControlEndpoint i) "" then ask_introducers d target rest now
      else
        let '(d, fresh) := markContacted d (ri_ControlEndpoint i) (20 * second)%Z now in
        let '(d, acts) := ask_introducers d target rest now in
        (d, (if fresh then [GoRendezvous (ri_ControlEndpoint i) target] else []) ++ acts)
  end.

(** Without introducers: a punch of the peer's own control endpoint. *)
Definition direct_punch (d : D) (peer : PeerInfo) (now : Time) : D * list dht_action :=
  let target := controlEndpointForPeer d peer in
  if String.eqb target "" then (d, [])
  else
    let '(d, fresh) := markContacted d target (20 * second)%Z now in
    (d, if fresh then [GoDirectPunch target (WGPubKey peer)] else []).

Definition hasDirectRoute (d : D) (env : probe_env) (peer : PeerInfo) : bool :=
  let direct := negb (String.eqb (Endpoint peer) "") in
  let direct := direct && negb (DisableIPv6 (d_config d) && isIPv6Endpoint (Endpoint peer)) in
  direct && negb (has_prefix (Endpoint peer) "[" && negb (hasIPv6Route d env)).

Definition tryRendezvousForPeer (d : D) (env : probe_env) (peer : PeerInfo) (now : Time)
  : D * list dht_action :=
  if DisablePunching (d_config d) || String.eqb (WGPubKey peer) "" then (d, [])
  else
    let hs := getPeerHandshakeTS env (InterfaceName (d_config d)) (WGPubKey peer) in
    let since := time_sub now (time_unix hs) in
    if (0 <? hs)%Z && (since <? RecentHandshake)%Z then (d, [])
    else
      let direct := hasDirectRoute d env peer in
      let v6 := direct && isIPv6Endpoint (Endpoint peer) in
      if v6 && ((0 <? hs)%Z && (since <? 90 * second)%Z) then (d, [])
      else
        let '(d, acts) := if v6 then ipv6_sync d peer now else (d, []) in
        let '(d, acts') :=
          match selectRendezvousIntroducers d (WGPubKey peer) (sink_active (d_store d) now)
                  RendezvousMaxIntroducers (handshake_map env) now with
          | [] => if direct then direct_punch d peer now else (d, [])
          | introducers => ask_introducers d (WGPubKey peer) introducers now
          end in
        (d, acts ++ acts').

Definition handlePeerEvent (d : D) (env : probe_env) (pubKey : string) (now : Time) : D * list dht_action :=
  if String.eqb pubKey "" || String.eqb pubKey (d_key d) then (d, [])
  else match sink_get (d_store d) pubKey with
  | None => (d, [])
  | Some peer =>
      if hasDiscoveryMethod (DiscoveredVia peer) "dht-rendezvous"
         && (time_sub now (LastSeen peer) <? RecentHandshake)%Z then (d, [])
      else if negb (canAttemptRendezvous d pubKey now) then (d, [])
      else tryRendezvousForPeer d env peer now
  end.

(** The loops over the active peers: [guard] is the extra condition of
    [checkStaleHandshakes]. *)
Fixpoint try_peers (guard : D -> string -> bool) (d : D) (env : probe_env) (peers : list PeerInfo) (now : Time)
  : D * list dht_action :=
  match peers with
  | [] => (d, [])
  | peer :: rest =>
      if String.eqb (WGPubKey peer) "" || String.eqb (WGPubKey peer) (d_key d)
         || String.eqb (Endpoint peer) "" || negb (canAttemptRendezvous d (WGPubKey peer) now)
         || negb (guard d (WGPubKey peer))
      then try_peers guard d env rest now
      else
        let '(d, acts) := tryRendezvousForPeer d env peer now in
        let '(d, acts') := try_peers guard d env rest now in
        (d, acts ++ acts')
  end.

Definition checkStaleHandshakes (d : D) (env : probe_env) (now : Time) : D * list dht_action :=
  try_peers (fun d k => shouldAttemptRendezvous d k now) d env (sink_active (d_store d) now) now.

Definition tryTransitivePeersWithBackoff (d : D) (env : probe_env) (now : Time) : D * list dht_action :=
  try_peers (fun _ _ => true) d env (sink_active (d_store d) now) now.

(** An address found in the DHT. *)
Definition contactPeer (d : D) (addrStr : string) (now : Time) : D * list dht_action :=
  if DisableIPv6 (d_config d) && isIPv6Endpoint addrStr then (d, [])
  else if String.eqb addrStr (GetEndpoint (d_node d)) then (d, [])
  else
    let '(d, fresh) := markContacted d addrStr (60 * second)%Z now in
    (d, if fresh then [GoExchange addrStr DHTMethod] else []).

(** ** The ends of the goroutines *)

(** [exchangeWithAddress]: its request, unless the address is filtered. *)
Definition exchangeWithAddress (d : D) (addrStr : string) (nonce : option (list Z)) (sent : bool) (now : Time)
  : D * result request :=
  if DisableIPv6 (d_config d) && isIPv6Endpoint addrStr then (d, Err "filtered")
  else
    let '(pe, r) := startExchange resolve (d_exchange d) addrStr nonce sent now in (set_exchange d pe, r).

(** What it does with the answer; the log line slices the first 8 bytes of the
    key, which panics on a shorter one. *)
Definition exchanged (d : D) (addrStr method : string) (r : result PeerInfo) (now : Time) : option D :=
  match r with
  | Err _ => Some d
  | Ok peerInfo =>
      if Nat.ltb (String.length (WGPubKey peerInfo)) 8 then None
      else
        let d := setControlEndpoint d (WGPubKey peerInfo) addrStr in
        s ← sink_update (d_store d) peerInfo method now;
        Some (set_exchange d (with_store (d_exchange d) s))
  end.

(** The direct punch: the answer of the exchange, and the handshakes before and
    after it. *)
Definition punched (d : D) (endpoint target : string) (r : result PeerInfo) (baseline newHandshake : Z) (now : Time)
  : option D :=
  match r with
  | Err _ => Some (recordRendezvousAttempt d target false now)
  | Ok peerInfo =>
      if (newHandshake <=? baseline)%Z then Some (recordRendezvousAttempt d target false now)
      else
        let d := setControlEndpoint d (WGPubKey peerInfo) endpoint in
        s ← sink_update (d_store d) peerInfo TransitiveMethod now;
        Some (recordRendezvousAttempt (set_exchange d (with_store (d_exchange d) s)) target true now)
  end.

(** The request to an introducer: only a failure is recorded. *)
Definition requested (d : D) (introducer target : string) (nonce : option (list Z)) (now : Time)
  : D * list effect :=
  match RequestRendezvous resolve (d_exchange d) introducer target [] nonce now with
  | Ok effs => (d, effs)
  | Err _ => (recordRendezvousAttempt d target false now, [])
  end.

(** ** Shutting down *)

Definition goodbye_target (d : D) (p : PeerInfo) : string :=
  if String.eqb (WGPubKey p) "" || String.eqb (WGPubKey p) (d_key d) then ""
  else
    let endpoint := controlEndpointForPeer d p in
    if negb (String.eqb endpoint "") then endpoint
    else toControlEndpoint (Endpoint p) (GossipPort (Keys (d_config d))).

(** The set of targets, over all peers of the store. *)
Definition goodbye_targets (d : D) (peers : list PeerInfo) : gset string :=
  list_to_set (filter (fun e => e <> ""%string) (goodbye_target d <$> peers)).

Definition broadcastGoodbye (d : D) (peers : list PeerInfo) (nonce : option (list Z)) (now : Time) : list effect :=
  elements (goodbye_targets d peers) ≫= fun endpoint =>
    match SendGoodbye resolve (d_exchange d) endpoint nonce now with Ok effs => effs | Err _ => [] end.

(** ** Runs *)

(** One event of the discovery's goroutines: a turn of the select loops, the
    end of a goroutine, or anything that happened to the shared exchange. *)
Inductive dht_op :=
| OpContact (addrStr : string)
| OpPeerEvent (env : probe_env) (pubKey : string)
| OpStaleTick (env : probe_env)
| OpBackfill (env : probe_env)
| OpExchanged (addrStr method : string) (r : result PeerInfo)
| OpPunched (endpoint target : string) (r : result PeerInfo) (baseline newHandshake : Z)
| OpRequested (introducer target : string) (nonce : option (list Z))
| OpShared (pe : PeerExchange S).

Definition dht_step (d : D) (op : dht_op) (now : Time) : option (D * list dht_action) :=
  match op with
  | OpContact addrStr => Some (contactPeer d addrStr now)
  | OpPeerEvent env pubKey => Some (handlePeerEvent d env pubKey now)
  | OpStaleTick env => Some (checkStaleHandshakes d env now)
  | OpBackfill env => Some (tryTransitivePeersWithBackoff d env now)
  | OpExchanged addrStr method r => d' ← exchanged d addrStr method r now; Some (d', [])
  | OpPunched endpoint target r baseline newHandshake =>
      d' ← punched d endpoint target r baseline newHandshake now; Some (d', [])
  | OpRequested introducer target nonce => Some ((requested d introducer target nonce now).1, [])
  | OpShared pe => Some (set_exchange d pe, [])
  end.

Fixpoint dht_run (d : D) (ops : list (Time * dht_op)) : option D :=
  match ops with
  | [] => Some d
  | (now, op) :: rest => '(d', _) ← dht_step d op now; dht_run d' rest
  end.

End dht.

(** ** Meeting points and periods *)

(** [announce] and [queryPeers] use the same identifiers: the hour's, and the
    previous hour's when it differs. *)
Definition dht_infohashes (secret : string) (now : Time) : list (list Z) :=
  let '(current, previous) := GetCurrentAndPreviousNetworkIDs secret now in
  if bool_decide (current = previous) then [current] else [current; previous].

Definition announce (secret : string) (port : Z) (now : Time) : list (list Z * Z) :=
  (fun infohash => (infohash, port)) <$> dht_infohashes secret now.
Definition queryPeers (secret : string) (now : Time) : list (list Z) := dht_infohashes secret now.

(** The DHT as the nodes use it, through the server of a library: announcing a port
    under an identifier from a host (port 0 only looks up), and the addresses a
    lookup delivers. *)
Class DhtNet (W : Type) := {
  net_announce : W -> string -> list Z -> Z -> W;
  net_peers : W -> list Z -> list string;
}.

Section network.
Context {W S : Type} {dht_net : DhtNet W} {sink : PeerSink S} {cipher : Aead}.

(** [started]: the identifiers for which the server could start a traversal. *)
Definition announceToInfohash (started : list Z -> bool) (host : string) (w : W) (ip : list Z * Z) : W :=
  if started ip.1 then net_announce w host ip.1 ip.2 else w.
Definition announce_all (started : list Z -> bool) (host : string) (w : W) (secret : string) (port : Z) (now : Time) : W :=
  foldl (announceToInfohash started host) w (announce secret port now).

(** Every address a lookup delivers is contacted, in the order the goroutines run. *)
Fixpoint contact_all (d : DHTDiscovery S) (addrs : list string) (now : Time) : DHTDiscovery S * list dht_action :=
  match addrs with
  | [] => (d, [])
  | addr :: rest =>
      let '(d, acts) := contactPeer d addr now in
      let '(d, acts') := contact_all d rest now in
      (d, acts ++ acts')
  end.
Definition queryInfohash (started : list Z -> bool) (d : DHTDiscovery S) (w : W) (infohash : list Z) (now : Time)
  : DHTDiscovery S * list dht_action :=
  if started infohash then contact_all d (net_peers w infohash) now else (d, []).
Fixpoint query_all (started : list Z -> bool) (d : DHTDiscovery S) (w : W) (infohashes : list (list Z)) (now : Time)
  : DHTDiscovery S * list dht_action :=
  match infohashes with
  | [] => (d, [])
  | ih :: rest =>
      let '(d, acts) := queryInfohash started d w ih now in
      let '(d, acts') := query_all started d w rest now in
      (d, acts ++ acts')
  end.

(** One look at the network for a lookup that is only to fill the routing table:
    whether the server could start it, and the nodes it knows afterwards. *)
Definition attemptBootstrapLookup (cancelled started : bool) (nodes : nat) : bool :=
  if cancelled then false else if negb started then false else Nat.ltb 0 nodes.
End network.

(** A turn of [queryLoop]: the interval of the ticker after it. *)
Definition query_tick (interval : Duration) (count : nat) : Duration :=
  if Nat.leb 3 count && (interval =? DHTQueryInterval)%Z then DHTQueryIntervalStable else interval.

(** [r] is [rand.Float64()]. *)
Definition dhtBackoffDelay (r : float64) (d : Duration) : Duration :=
  let half := f_div (f_of_Z 1) (f_of_Z 2) in
  let jitter := f_mul (f_sub r half) half in
  f_duration (f_mul (f_of_Z d) (f_add (f_of_Z 1) jitter)).

(** The waits of [bootstrapWithRetry], before the jitter: one before every
    attempt but the first, with the delay doubled after each failure.
    [lookups] tells which attempts succeed. *)
Fixpoint bootstrap_waits (attempt : nat) (delay : Duration) (lookups : list bool) : list Duration :=
  match lookups with
  | [] => []
  | ok :: rest =>
      (if Nat.ltb 0 attempt then [delay] else [])
      ++ (if ok then []
          else
            let delay := (delay * 2)%Z in
            let delay := if (DHTBootstrapMaxDelay <? delay)%Z then DHTBootstrapMaxDelay else delay in
            bootstrap_waits (S attempt) delay rest)
  end.
Definition bootstrapWithRetry (lookups : list bool) : list Duration :=
  bootstrap_waits 0 DHTBootstrapInitialDelay lookups.

Definition nodesFilePath (cfg : Config) : string :=
  "/var/lib/wgmesh/" ^^ InterfaceName cfg ^^ "-" ^^ hex_bytes (take 8 (NetworkID (Keys cfg))) ^^ "-dht.nodes".
