(* ===== verification/DhtProps.v ===== *)
(** * Properties of DHT discovery

    When two nodes attempt to meet, through whom, how often, and where they find
    each other: the theorems about pkg/discovery/dht.go. *)

From S2P Require Import Prelude GoStrings GoNet GoCrypto GoJson PeerStore Derive Aead Envelope.
From S2P Require Import GoFloat RateLimit NodeConfig Endpoints PeerSink Exchange Gossip Protocol Dht.
Local Open Scope wgmesh_scope.

(** ** Windows *)

Lemma filter_iff_in {A} (P Q : A -> Prop) `{!forall x, Decision (P x)} `{!forall x, Decision (Q x)} (l : list A) :
  (forall x, x ∈ l -> P x <-> Q x) -> filter P l = filter Q l.
Proof.
  induction l as [|x l IH]; intros Hpq; [done|]. rewrite !filter_cons.
  assert (P x <-> Q x) as Hx by (apply Hpq; by left). rewrite IH by (intros y Hy; apply Hpq; by right).
  destruct (decide (P x)), (decide (Q x)); naive_solver.
Qed.

(** Inside the window: the seconds since the pair's offset, modulo its length,
    are within the phase. *)
Lemma in_window_spec w p a b now : (0 < w)%Z -> (0 < p)%Z -> b <> ""%string -> (0 <= time_to_unix now)%Z ->
  in_window (w * second)%Z (p * second)%Z a b now
  = bool_decide (((time_to_unix now - pairSeed a b) mod w < p)%Z).
Proof.
  intros Hw Hp Hb Hn. unfold in_window. rewrite (proj2 (String.eqb_neq b "") Hb).
  rewrite !Z.quot_mul by done. rewrite (proj2 (Z.leb_gt w 0)), (proj2 (Z.leb_gt p 0)) by lia.
  rewrite Z.rem_mod_nonneg by lia. set (u := time_to_unix now) in *. set (s := pairSeed a b).
  set (delta := (u mod w - s mod w)%Z).
  assert ((if delta <? 0 then delta + w else delta) = (u - s) mod w)%Z as ->.
  { rewrite Zminus_mod. fold delta. pose proof (Z.mod_pos_bound u w Hw). pose proof (Z.mod_pos_bound s w Hw).
    destruct (Z.ltb_spec delta 0) as [Hd|Hd]; unfold delta in *.
    - apply (Z.mod_unique _ _ (-1)%Z); lia.
    - apply (Z.mod_unique _ _ 0%Z); lia. }
  case_bool_decide as H; [by apply Z.ltb_lt|by apply Z.ltb_ge, Z.nlt_ge].
Qed.

(** Of the seconds of a window of 20, those within 4 of an offset: four. *)
Lemma window_count x :
  length (filter (fun i => ((x + i) mod 20 < 4)%Z) (Z.of_nat <$> seq 0 20)) = 4.
Proof.
  assert (filter (fun i => ((x + i) mod 20 < 4)%Z) (Z.of_nat <$> seq 0 20)
          = filter (fun i => ((x mod 20 + i) mod 20 < 4)%Z) (Z.of_nat <$> seq 0 20)) as ->.
  { apply list_filter_iff. intros i. by rewrite Z.add_mod_idemp_l. }
  pose proof (Z.mod_pos_bound x 20 ltac:(lia)) as H. set (r := (x mod 20)%Z) in *. clearbody r.
  assert (r ∈ (Z.of_nat <$> seq 0 20)) as Hin.
  { apply list_elem_of_fmap. exists (Z.to_nat r). rewrite elem_of_seq. lia. }
  clear H. revert r Hin. apply Forall_forall. by_compute.
Qed.

Section windows.
Context {S : Type} {sink : PeerSink S} {cipher : Aead}.
Notation D := (DHTDiscovery S).

(** The rendezvous windows of a pair are synchronized without messages: both
    ends compute the same verdict in the same second, and in any 20 consecutive
    seconds each of them attempts in exactly four. *)
Theorem rendezvous_windows_agree (A B : D) t :
  d_key A <> ""%string -> d_key B <> ""%string ->
  (forall now now', time_to_unix now = time_to_unix now' ->
     shouldAttemptRendezvous A (d_key B) now = shouldAttemptRendezvous B (d_key A) now')
  /\ ((0 <= t)%Z ->
      length (filter (fun i => shouldAttemptRendezvous A (d_key B) (time_unix (t + i)) = true)
                (Z.of_nat <$> seq 0 20)) = 4).
Proof.
  intros Ha Hb. split.
  - intros now now' Hn. unfold shouldAttemptRendezvous, in_window.
    rewrite (proj2 (String.eqb_neq _ _) Ha), (proj2 (String.eqb_neq _ _) Hb), Hn, pairSeed_sym. done.
  - intros Ht. etrans; [|apply (window_count (t - pairSeed (d_key A) (d_key B)))]. f_equal.
    apply filter_iff_in. intros i (n & -> & _)%list_elem_of_fmap.
    unfold shouldAttemptRendezvous, RendezvousWindow, RendezvousPhase.
    rewrite in_window_spec by (try done; rewrite time_unix_to_unix; lia).
    rewrite bool_decide_eq_true, time_unix_to_unix. by replace (t + Z.of_nat n - pairSeed (d_key A) (d_key B))%Z
      with (t - pairSeed (d_key A) (d_key B) + Z.of_nat n)%Z by lia.
Qed.

(** The [n]th tick of the stale-handshake ticker after [start]. *)
Definition stale_tick (start : Time) (n : nat) : Time := time_add start (Z.of_nat n * RendezvousStaleCheck)%Z.

Lemma stale_tick_unix start n : time_to_unix (stale_tick start n) = (time_to_unix start + 10 * Z.of_nat n)%Z.
Proof.
  unfold stale_tick, time_add, time_to_unix, RendezvousStaleCheck.
  replace (start + Z.of_nat n * (10 * second))%Z with (start + 10 * Z.of_nat n * second)%Z by lia.
  by rewrite Z.div_add by done.
Qed.

(** The verdict at a tick only depends on the parity of its number. *)
Lemma stale_tick_verdict (d : D) k start n : k <> ""%string -> (0 <= time_to_unix start)%Z ->
  shouldAttemptRendezvous d k (stale_tick start n)
  = bool_decide (((time_to_unix start - pairSeed (d_key d) k + 10 * Z.of_nat n) mod 20 < 4)%Z).
Proof.
  intros Hk Ht. unfold shouldAttemptRendezvous, RendezvousWindow, RendezvousPhase.
  rewrite in_window_spec by (try done; rewrite stale_tick_unix; lia). rewrite stale_tick_unix.
  apply bool_decide_ext. by replace (time_to_unix start + 10 * Z.of_nat n - pairSeed (d_key d) k)%Z
    with (time_to_unix start - pairSeed (d_key d) k + 10 * Z.of_nat n)%Z by lia.
Qed.

Lemma try_peers_none guard (d : D) env peers now :
  Forall (fun p => guard d (WGPubKey p) = false) peers -> try_peers guard d env peers now = (d, []).
Proof.
  induction 1 as [|p peers Hp _ IH]; [done|]. cbn [try_peers]. rewrite Hp. cbn [negb].
  by rewrite !orb_true_r.
Qed.

(** C17. The ten-second ticker is locked to the twenty-second window: whether the
    periodic check for stale handshakes ever attempts a peer is decided once and
    for all by the second the ticker was started in.  In four of ten cases every
    other tick is inside the window; in the other six no tick ever is, and the
    check never does anything for that peer. *)
Theorem stale_check_phase_locked (d : D) k start : k <> ""%string -> (0 <= time_to_unix start)%Z ->
  let r := ((time_to_unix start - pairSeed (d_key d) k) mod 10)%Z in
  ((r < 4)%Z -> forall n, shouldAttemptRendezvous d k (stale_tick start n)
                       = negb (shouldAttemptRendezvous d k (stale_tick start (n + 1))))
  /\ ((4 <= r)%Z -> forall n,
        shouldAttemptRendezvous d k (stale_tick start n) = false
        /\ forall env, Forall (fun p => WGPubKey p = k) (sink_active (d_store d) (stale_tick start n)) ->
             checkStaleHandshakes d env (stale_tick start n) = (d, [])).
Proof.
  intros Hk Ht r. unfold r. set (x := (time_to_unix start - pairSeed (d_key d) k)%Z).
  assert (forall n, shouldAttemptRendezvous d k (stale_tick start n)
                    = bool_decide (((x + 10 * Z.of_nat n) mod 20 < 4)%Z)) as Hv
    by (intros n; by apply stale_tick_verdict).
  split; intros Hr n.
  - rewrite !Hv, <- bool_decide_not. apply bool_decide_ext. rewrite Nat2Z.inj_add. div_lia.
  - assert (shouldAttemptRendezvous d k (stale_tick start n) = false) as Hf.
    { rewrite Hv. apply bool_decide_eq_false. div_lia. }
    split; [done|]. intros env Hall. unfold checkStaleHandshakes. apply try_peers_none.
    eapply Forall_impl; [exact Hall|]. by intros p ->.
Qed.
End windows.

(** ** Backoff *)

Section backoff.
Context {S : Type} {sink : PeerSink S}.
Notation D := (DHTDiscovery S).

(** Failed attempts for a peer, at the given times. *)
Definition failures (d : D) (k : string) (ts : list Time) : D :=
  foldl (fun d t => recordRendezvousAttempt d k false t) d ts.

Lemma failures_snoc d k ts t : failures d k (ts ++ [t]) = recordRendezvousAttempt (failures d k ts) k false t.
Proof. unfold failures. by rewrite foldl_app. Qed.

Lemma failures_other d k k' ts : k' <> k -> rendezvousBackoff (failures d k ts) !! k' = rendezvousBackoff d !! k'.
Proof.
  intros Hne. induction ts as [|t ts IH] using rev_ind; [done|]. rewrite failures_snoc.
  unfold recordRendezvousAttempt. simpl. by rewrite lookup_insert_ne.
Qed.

(** The wait after a given number of failures in a row. *)
Definition backoff_wait (n : nat) : Duration := Z.min RendezvousMaxBackoff (RendezvousMinBackoff * 2 ^ Z.of_nat n)%Z.

Lemma failures_entry d k ts t : rendezvousBackoff d !! k = None ->
  rendezvousBackoff (failures d k (ts ++ [t])) !! k
  = Some {| be_nextAttempt := time_add t (backoff_wait (length ts)); be_duration := backoff_wait (length ts) |}.
Proof.
  intros Hd. revert t. induction ts as [|t' ts IH] using rev_ind; intros t.
  - rewrite failures_snoc. unfold recordRendezvousAttempt, failures. simpl. by rewrite Hd, lookup_insert_eq.
  - rewrite failures_snoc. unfold recordRendezvousAttempt. rewrite IH. cbn [rendezvousBackoff set_backoff].
    rewrite lookup_insert_eq, length_app, Nat.add_1_r.
    assert (next_backoff (Some {| be_nextAttempt := time_add t' (backoff_wait (length ts));
              be_duration := backoff_wait (length ts) |}) = backoff_wait (Datatypes.S (length ts))) as ->; [|done].
    unfold next_backoff, backoff_wait. cbn [be_duration]. rewrite Nat2Z.inj_succ, Z.pow_succ_r by lia.
    assert (1 <= 2 ^ Z.of_nat (length ts))%Z by (apply (Z.pow_le_mono_r 2 0); lia).
    change RendezvousMaxBackoff with 30000000000%Z. change RendezvousMinBackoff with 3000000000%Z.
    set (x := (2 ^ Z.of_nat (length ts))%Z) in *. clearbody x.
    rewrite (proj2 (Z.ltb_ge (Z.min _ _ * 2) 3000000000)) by lia. split_if; bool_steps; lia.
Qed.

(** The backoff of a peer that stays unreachable: after [n] failures in a row
    the next attempt waits 3 seconds doubled [n-1] times, at most 30, counted
    from the last failure; the others are not affected, and a success forgets
    the failures. *)
Theorem backoff_schedule (d : D) k ts t now :
  rendezvousBackoff d !! k = None ->
  let wait := backoff_wait (length ts) in
  let d' := failures d k (ts ++ [t]) in
  canAttemptRendezvous d' k now = bool_decide ((t + wait < now)%Z)
  /\ (forall k', k' <> k -> canAttemptRendezvous d' k' now = canAttemptRendezvous d k' now)
  /\ canAttemptRendezvous (recordRendezvousAttempt d' k true now) k now = true.
Proof.
  intros Hd wait d'.
  assert (rendezvousBackoff d' !! k = Some {| be_nextAttempt := time_add t wait; be_duration := wait |}) as Hk
    by by apply failures_entry.
  split; [|split].
  - unfold canAttemptRendezvous. rewrite Hk. simpl. unfold time_after, time_add.
    case_bool_decide; [by apply Z.ltb_lt|by apply Z.ltb_ge, Z.nlt_ge].
  - intros k' Hne. unfold canAttemptRendezvous, d'. by rewrite failures_other.
  - unfold canAttemptRendezvous, recordRendezvousAttempt. simpl. by rewrite lookup_delete_eq.
Qed.
End backoff.

(** ** How often an address is contacted *)

(** Contact times only move forward, and not past the clock. *)
Definition forward (now : Time) (m m' : gmap string Time) : Prop :=
  forall a t, m !! a = Some t -> (t <= now)%Z -> exists t', m' !! a = Some t' /\ (t <= t' <= now)%Z.

#[export] Instance forward_preorder now : PreOrder (forward now).
Proof.
  split.
  - intros m a t Ha Ht. exists t. split; [done|lia].
  - intros m1 m2 m3 H12 H23 a t Ha Ht. destruct (H12 a t Ha Ht) as (t2 & Ha2 & ?).
    destruct (H23 a t2 Ha2 ltac:(lia)) as (t3 & Ha3 & ?). exists t3. split; [done|lia].
Qed.

Section contact.
Context {S : Type} {sink : PeerSink S} {cipher : Aead}.
Variable resolve : string -> option UDPAddr.
Notation D := (DHTDiscovery S).
Notation fwd now d d' := (forward now (contactedPeers d) (contactedPeers d')).

Lemma markContacted_fwd (d : D) a i now : fwd now d (markContacted d a i now).1.
Proof.
  unfold markContacted. destruct (match contactedPeers d !! a with Some _ => _ | None => false end); [reflexivity|].
  intros b t Hb Ht. simpl. unfold Time in *. rewrite lookup_insert. case_decide; [|exists t; split; [done|lia]].
  exists now. split; [done|lia].
Qed.

Lemma ipv6_sync_fwd (d : D) p now : fwd now d (ipv6_sync d p now).1.
Proof.
  unfold ipv6_sync. destruct (_ && _); [|reflexivity]. cbv zeta. destruct (String.eqb _ _); [reflexivity|].
  pose proof (markContacted_fwd d ("ipv6-sync:" ^^ controlEndpointForPeer d p) (3 * second)%Z now) as H.
  by destruct (markContacted _ _ _ _).
Qed.

Lemma direct_punch_fwd (d : D) p now : fwd now d (direct_punch d p now).1.
Proof.
  unfold direct_punch. cbv zeta. destruct (String.eqb _ _); [reflexivity|].
  pose proof (markContacted_fwd d (controlEndpointForPeer d p) (20 * second)%Z now) as H.
  by destruct (markContacted _ _ _ _).
Qed.

Lemma ask_introducers_fwd (d : D) k ris now : fwd now d (ask_introducers d k ris now).1.
Proof.
  revert d. induction ris as [|i ris IH]; intros d; cbn [ask_introducers]; [reflexivity|].
  destruct (String.eqb _ _); [apply IH|].
  pose proof (markContacted_fwd d (ri_ControlEndpoint i) (20 * second)%Z now) as H.
  destruct (markContacted _ _ _ _) as [d1 b]. specialize (IH d1).
  destruct (ask_introducers d1 k ris now) as [d2 acts]. simpl in *. by etrans.
Qed.

Lemma tryRendezvous_fwd (d : D) env p now : fwd now d (tryRendezvousForPeer d env p now).1.
Proof.
  unfold tryRendezvousForPeer. destruct (_ || _); [reflexivity|]. cbv zeta.
  destruct (_ && _); [reflexivity|]. destruct (_ && (_ && _)); [reflexivity|].
  assert (fwd now d (if hasDirectRoute d env p && isIPv6Endpoint (Endpoint p) then ipv6_sync d p now else (d, [])).1) as H1
    by (destruct (_ && _); [apply ipv6_sync_fwd|reflexivity]).
  destruct (if hasDirectRoute d env p && isIPv6Endpoint (Endpoint p) then _ else _) as [d1 acts]. cbn [fst] in H1.
  etrans; [exact H1|].
  destruct (selectRendezvousIntroducers _ _ _ _ _ _) as [|i ris].
  - destruct (hasDirectRoute d env p); [|reflexivity].
    pose proof (direct_punch_fwd d1 p now). by destruct (direct_punch d1 p now).
  - pose proof (ask_introducers_fwd d1 (WGPubKey p) (i :: ris) now). by destruct (ask_introducers _ _ _ _).
Qed.

Lemma try_peers_fwd guard (d : D) env ps now : fwd now d (try_peers guard d env ps now).1.
Proof.
  revert d. induction ps as [|p ps IH]; intros d; cbn [try_peers]; [reflexivity|].
  destruct (_ || _); [apply IH|]. pose proof (tryRendezvous_fwd d env p now) as H.
  destruct (tryRendezvousForPeer d env p now) as [d1 acts]. specialize (IH d1).
  destruct (try_peers guard d1 env ps now) as [d2 acts']. simpl in *. by etrans.
Qed.

Lemma setControl_contacted (d : D) k ep : contactedPeers (setControlEndpoint d k ep) = contactedPeers d.
Proof. unfold setControlEndpoint. destruct (String.eqb k ""); [done|]. cbv zeta. by destruct (String.eqb _ ""). Qed.

Lemma record_contacted (d : D) k b now : contactedPeers (recordRendezvousAttempt d k b now) = contactedPeers d.
Proof. by destruct b. Qed.

Lemma dht_step_fwd (d d' : D) op now acts : dht_step resolve d op now = Some (d', acts) -> fwd now d d'.
Proof.
  destruct op; cbn [dht_step].
  - intros [= H]. unfold contactPeer in H. destruct (_ && _); [by injection H as <- <-|].
    destruct (String.eqb _ _); [by injection H as <- <-|].
    pose proof (markContacted_fwd d addrStr (60 * second)%Z now) as Hm.
    destruct (markContacted _ _ _ _). by injection H as <- <-.
  - intros [= H]. unfold handlePeerEvent in H. destruct (_ || _); [by injection H as <- <-|].
    destruct (sink_get _ _) as [p|]; [|by injection H as <- <-]. destruct (_ && _); [by injection H as <- <-|].
    destruct (negb _); [by injection H as <- <-|]. pose proof (tryRendezvous_fwd d env p now) as Hm. by rewrite H in Hm.
  - intros [= H]. pose proof (try_peers_fwd _ d env _ now : fwd now d (checkStaleHandshakes d env now).1) as Hm.
    by rewrite H in Hm.
  - intros [= H]. pose proof (try_peers_fwd _ d env _ now : fwd now d (tryTransitivePeersWithBackoff d env now).1) as Hm.
    by rewrite H in Hm.
  - unfold exchanged. destruct r as [info|]; simpl; [|by intros [= <- <-]].
    destruct (Nat.ltb _ _); simpl; [done|]. destruct (sink_update _ _ _ _); simpl; [|done].
    intros [= <- <-]. simpl. by rewrite setControl_contacted.
  - unfold punched. destruct r as [info|]; simpl; [|by intros [= <- <-]].
    destruct (Z.leb _ _); simpl; [by intros [= <- <-]|]. destruct (sink_update _ _ _ _); simpl; [|done].
    intros [= <- <-]. simpl. by rewrite setControl_contacted.
  - intros [= <- <-]. unfold requested. destruct (RequestRendezvous _ _ _ _ _ _ _); reflexivity.
  - by intros [= <- <-].
Qed.

(** Events in the order of a clock that does not go back, from [t] to [now]. *)
Fixpoint timed (t : Time) (ops : list (Time * @dht_op S)) (now : Time) : Prop :=
  match ops with
  | [] => (t <= now)%Z
  | (u, _) :: rest => (t <= u)%Z /\ timed u rest now
  end.

Lemma dht_run_fwd ops (d d' : D) a t0 t now :
  timed t ops now -> dht_run resolve d ops = Some d' ->
  contactedPeers d !! a = Some t0 -> (t0 <= t)%Z ->
  exists t', contactedPeers d' !! a = Some t' /\ (t0 <= t' <= now)%Z.
Proof.
  revert d t0 t. induction ops as [|[u op] ops IH]; intros d t0 t Ht Hr Ha H0; cbn [timed dht_run] in *.
  { injection Hr as <-. exists t0. split; [done|lia]. }
  destruct Ht as [Htu Ht]. destruct (dht_step resolve d op u) as [[d1 acts]|] eqn:E; [|done]. simpl in Hr.
  destruct (dht_step_fwd _ _ _ _ _ E a t0 Ha ltac:(lia)) as (t1 & Ha1 & ?).
  destruct (IH d1 t1 u Ht Hr Ha1 ltac:(lia)) as (t' & Ha' & ?). exists t'. split; [done|lia].
Qed.

(** An address found in the DHT is contacted at most once a minute: after it
    was contacted, whatever the discovery does in between (events, ticks,
    finished exchanges and punches, anything the network sends), the next
    [contactPeer] for it within 60 seconds starts nothing. *)
Theorem contact_throttled (d d1 d2 : D) addr t ops now :
  contactPeer d addr t = (d1, [GoExchange addr DHTMethod]) ->
  timed t ops now -> dht_run resolve d1 ops = Some d2 -> (now - t < 60 * second)%Z ->
  contactPeer d2 addr now = (d2, []).
Proof.
  intros Hc Ht Hr Hn.
  assert (contactedPeers d1 !! addr = Some t) as Ha.
  { unfold contactPeer in Hc. destruct (_ && _); [done|]. destruct (String.eqb _ _); [done|].
    unfold markContacted in Hc. destruct (match contactedPeers d !! addr with Some _ => _ | None => false end); [done|].
    injection Hc as <-. simpl. unfold Time in *. apply lookup_insert_eq. }
  destruct (dht_run_fwd ops d1 d2 addr t t now Ht Hr Ha ltac:(lia)) as (t' & Ha' & Hb).
  unfold contactPeer. destruct (_ && _); [done|]. destruct (String.eqb _ _); [done|].
  unfold markContacted. unfold Time in *. rewrite Ha'.
  assert (time_sub now t' <? 60 * second = true)%Z as ->; [|done].
  apply Z.ltb_lt, time_sub_lt_iff; [by_compute|]. lia.
Qed.
End contact.

(** ** Introducers *)

Lemma str_lt_false a b : str_lt a b = false <-> str_le b a.
Proof.
  split; [apply str_lt_not_le|]. intros Hle. destruct (str_lt a b) eqn:E; [|done].
  pose proof (str_lt_ne _ _ E) as Hne. apply str_lt_le in E. by destruct Hne; apply (anti_symm str_le).
Qed.

(** The order of the candidates, declaratively. *)
Lemma candidate_le_iff x y : candidate_le x y <->
  (ic_isExplicit x = true /\ ic_isExplicit y = false)
  \/ (ic_isExplicit x = ic_isExplicit y
      /\ ((ic_pubKey x <> ic_pubKey y /\ str_le (ic_pubKey x) (ic_pubKey y))
          \/ (ic_pubKey x = ic_pubKey y /\ str_le (ic_endpoint x) (ic_endpoint y)))).
Proof.
  unfold candidate_le, candidate_less.
  destruct (ic_isExplicit x), (ic_isExplicit y); cbn [Bool.eqb negb];
    destruct (String.eqb_spec (ic_pubKey y) (ic_pubKey x)) as [E|E]; rewrite ?str_lt_false; naive_solver.
Qed.

#[export] Instance candidate_le_total : Total candidate_le.
Proof.
  intros x y. rewrite !candidate_le_iff.
  destruct (ic_isExplicit x), (ic_isExplicit y); [|naive_solver..|];
    (destruct (decide (ic_pubKey x = ic_pubKey y)) as [E|E];
     [destruct (total str_le (ic_endpoint x) (ic_endpoint y))|destruct (total str_le (ic_pubKey x) (ic_pubKey y))]);
    naive_solver.
Qed.

#[export] Instance candidate_le_trans : Transitive candidate_le.
Proof.
  intros x y z. rewrite !candidate_le_iff.
  intros [[Hx Hy]|[Exy H1]] [[Hy' Hz]|[Eyz H2]]; try (left; split; congruence).
  right. split; [congruence|]. destruct H1 as [[N1 L1]|[E1 L1]], H2 as [[N2 L2]|[E2 L2]].
  - destruct (decide (ic_pubKey x = ic_pubKey z)) as [E|E].
    + exfalso. rewrite E in L1. by destruct N2; apply (anti_symm str_le).
    + left. split; [done|]. by transitivity (ic_pubKey y).
  - left. rewrite <- E2. done.
  - left. rewrite E1. done.
  - right. split; [congruence|]. by transitivity (ic_endpoint y).
Qed.

Lemma candidates_canonical l1 l2 :
  NoDup (ic_pubKey <$> l1) -> l1 ≡ₚ l2 -> merge_sort candidate_le l1 = merge_sort candidate_le l2.
Proof.
  intros Hnd Hp. apply (StronglySorted_unique_strong candidate_le).
  - intros x1 x2 H1 H2 H12 H21. rewrite merge_sort_Permutation in H1. rewrite merge_sort_Permutation, <- Hp in H2.
    rewrite candidate_le_iff in H12, H21.
    assert (ic_pubKey x1 = ic_pubKey x2) as Hk.
    { destruct H12 as [[? ?]|[? [[? L1]|[? ?]]]], H21 as [[? ?]|[? [[? L2]|[? ?]]]]; try congruence.
      by apply (anti_symm str_le). }
    apply list_elem_of_lookup in H1 as [i1 H1]. apply list_elem_of_lookup in H2 as [i2 H2].
    assert (i1 = i2); [|congruence].
    eapply NoDup_lookup; [exact Hnd| |]; rewrite list_lookup_fmap; [by rewrite H1|]. rewrite H2. simpl. by rewrite Hk.
  - apply StronglySorted_merge_sort; apply _.
  - apply StronglySorted_merge_sort; apply _.
  - by rewrite !merge_sort_Permutation.
Qed.

(** The declared introducers that are neither end of a pair. *)
Definition declared (a b : string) (ps : list PeerInfo) : list PeerInfo :=
  filter (fun p => Introducer p = true /\ WGPubKey p <> a /\ WGPubKey p <> b) ps.

Section introducers.
Context {S : Type} {sink : PeerSink S} {cipher : Aead}.
Notation D := (DHTDiscovery S).

Lemma introducer_candidate_Some (d : D) k hs now p c : introducer_candidate d k hs now p = Some c ->
  ic_pubKey c = WGPubKey p /\ WGPubKey p <> d_key d /\ WGPubKey p <> k
  /\ hasAnyDHTReachability (DiscoveredVia p) = true
  /\ ic_controlEndpoint c = controlEndpointForPeer d p /\ ic_controlEndpoint c <> ""%string
  /\ isLikelyPublicEndpoint (ic_controlEndpoint c) = true
  /\ (Introducer p = true \/ isAutoIntroducerCandidate d p hs now = true).
Proof.
  unfold introducer_candidate. destruct (_ || _ || _) eqn:E1; [done|]. destruct (hasAnyDHTReachability _) eqn:E2; [|done].
  cbn [negb]. destruct (String.eqb (Endpoint p) "" || _); [done|]. destruct (DisableIPv6 _ && _); [done|]. cbv zeta.
  destruct (String.eqb (controlEndpointForPeer d p) "" || negb (isLikelyPublicEndpoint (controlEndpointForPeer d p))) eqn:E3; [done|].
  destruct (negb (Introducer p) && _) eqn:E4; [done|]. intros [= <-]. bool_steps. cbn [ic_pubKey ic_controlEndpoint].
  repeat (split; [done|]). destruct (Introducer p); [by left|right].
  by destruct (isAutoIntroducerCandidate d p hs now).
Qed.

Lemma candidate_skips_pair (d : D) k hs now p :
  ~ (WGPubKey p <> d_key d /\ WGPubKey p <> k) -> introducer_candidate d k hs now p = None.
Proof.
  intros Hn. destruct (introducer_candidate d k hs now p) as [c|] eqn:E; [|done].
  by destruct (introducer_candidate_Some _ _ _ _ _ _ E) as (_ & ? & ? & _), Hn.
Qed.

Lemma candidate_keys_NoDup (d : D) k hs now ps : NoDup (WGPubKey <$> ps) ->
  NoDup (ic_pubKey <$> omap (introducer_candidate d k hs now) ps).
Proof.
  induction ps as [|p ps IH]; [done|]. rewrite fmap_cons, NoDup_cons. intros [Hni Hnd].
  cbn [omap list_omap]. destruct (introducer_candidate d k hs now p) as [c|] eqn:E; [|by apply IH].
  rewrite fmap_cons, NoDup_cons. split; [|by apply IH].
  destruct (introducer_candidate_Some _ _ _ _ _ _ E) as [-> _].
  intros (c' & Hk & Hin)%list_elem_of_fmap. apply list_elem_of_omap in Hin as (p' & Hp' & Ec').
  destruct (introducer_candidate_Some _ _ _ _ _ _ Ec') as [Hk' _]. apply Hni, list_elem_of_fmap.
  exists p'. split; [congruence|done].
Qed.

(** What a node knows of an introducer when it chooses: its key, its endpoint, whether
    it was reached over the DHT, and its control endpoint. *)
Definition known_introducer (d : D) (p : PeerInfo) : string * string * bool * string :=
  (WGPubKey p, Endpoint p, hasAnyDHTReachability (DiscoveredVia p), controlEndpointForPeer d p).

(** The candidate made of a declared introducer depends on nothing else. *)
Definition candidate_of (disableIPv6 : bool) (v : string * string * bool * string) : option introducerCandidate :=
  let '(key, endpoint, reached, control) := v in
  if String.eqb key "" || negb reached || (String.eqb endpoint "" || negb (isLikelyPublicEndpoint endpoint))
     || (disableIPv6 && isIPv6Endpoint endpoint) || (String.eqb control "" || negb (isLikelyPublicEndpoint control))
  then None
  else Some {| ic_pubKey := key; ic_endpoint := endpoint; ic_controlEndpoint := control; ic_isExplicit := true |}.

Lemma declared_candidate (d : D) k hs now p : Introducer p = true -> WGPubKey p <> d_key d -> WGPubKey p <> k ->
  introducer_candidate d k hs now p = candidate_of (DisableIPv6 (d_config d)) (known_introducer d p).
Proof.
  intros Hi Hd Hk. unfold introducer_candidate, candidate_of, known_introducer.
  rewrite (proj2 (String.eqb_neq _ _) Hd), (proj2 (String.eqb_neq _ _) Hk), Hi. cbn [negb andb].
  destruct (String.eqb (WGPubKey p) ""); [done|]. destruct (hasAnyDHTReachability _); [|done]. cbn [negb orb].
  destruct (String.eqb (Endpoint p) "" || _); [done|]. destruct (DisableIPv6 _ && _); [done|]. cbn [orb]. cbv zeta.
  by destruct (String.eqb (controlEndpointForPeer d p) "" || _).
Qed.

Lemma declared_candidates (d : D) k hs now ps :
  (forall p, p ∈ ps -> Introducer p = false -> isAutoIntroducerCandidate d p hs now = false) ->
  omap (introducer_candidate d k hs now) ps
  = omap (candidate_of (DisableIPv6 (d_config d))) (known_introducer d <$> declared (d_key d) k ps).
Proof.
  intros Ha. rewrite (omap_filter_in (fun p => Introducer p = true /\ WGPubKey p <> d_key d /\ WGPubKey p <> k)).
  - rewrite <- omap_fmap_l. apply omap_ext_in. intros p Hp. apply list_elem_of_filter in Hp as [(Hi & H1 & H2) _]. by apply declared_candidate.
  - intros p Hp Hn. destruct (introducer_candidate d k hs now p) as [c|] eqn:E; [|done]. destruct Hn.
    destruct (introducer_candidate_Some _ _ _ _ _ _ E) as (_ & ? & ? & _ & _ & _ & _ & [?|Hauto]); [done|].
    split; [|done]. destruct (Introducer p) eqn:Hi; [done|]. by rewrite (Ha p Hp Hi) in Hauto.
Qed.

(** C15. Both ends of a pair turn to the same introducers, in the same order, without
    talking to each other, when they know the same declared introducers - by key,
    endpoint, whether the DHT led to them, and control endpoint, listed in any order
    among any other peers -, agree on the use of IPv6, and neither has made an
    undeclared peer an introducer of its own (which depends on its own handshakes). *)
Theorem introducers_agree (A B : D) psA psB n hA hB tA tB :
  DisableIPv6 (d_config A) = DisableIPv6 (d_config B) ->
  NoDup (WGPubKey <$> psA) ->
  known_introducer A <$> declared (d_key A) (d_key B) psA ≡ₚ known_introducer B <$> declared (d_key A) (d_key B) psB ->
  (forall p, p ∈ psA -> Introducer p = false -> isAutoIntroducerCandidate A p hA tA = false) ->
  (forall p, p ∈ psB -> Introducer p = false -> isAutoIntroducerCandidate B p hB tB = false) ->
  selectRendezvousIntroducers A (d_key B) psA n hA tA = selectRendezvousIntroducers B (d_key A) psB n hB tB.
Proof.
  intros H6 Hnd Hp HA HB. unfold selectRendezvousIntroducers. rewrite (pairSeed_sym (d_key B)).
  assert (merge_sort candidate_le (omap (introducer_candidate A (d_key B) hA tA) psA)
          = merge_sort candidate_le (omap (introducer_candidate B (d_key A) hB tB) psB)) as ->; [|done].
  apply candidates_canonical; [by apply candidate_keys_NoDup|].
  rewrite !declared_candidates by done. rewrite <- H6, Hp. unfold declared.
  rewrite (list_filter_iff (fun p => Introducer p = true /\ WGPubKey p <> d_key A /\ WGPubKey p <> d_key B)
    (fun p => Introducer p = true /\ WGPubKey p <> d_key B /\ WGPubKey p <> d_key A)) by (intros; tauto). done.
Qed.
End introducers.

(** ** Meeting in the DHT *)

Lemma network_id_hour secret t u : hour_epoch t = hour_epoch u ->
  DeriveNetworkIDWithTime secret t = DeriveNetworkIDWithTime secret u.
Proof. intros E. unfold DeriveNetworkIDWithTime. by rewrite E. Qed.

Lemma infohashes_elem secret now :
  DeriveNetworkIDWithTime secret now ∈ dht_infohashes secret now
  /\ DeriveNetworkIDWithTime secret (time_add now (-1 * hour)%Z) ∈ dht_infohashes secret now.
Proof.
  unfold dht_infohashes, GetCurrentAndPreviousNetworkIDs. cbv zeta beta iota.
  case_bool_decide as E; [rewrite <- E|]; set_solver.
Qed.

Lemma hour_epoch_div t : (0 <= t)%Z -> hour_epoch t = Z.div t hour.
Proof.
  intros Ht. unfold hour_epoch, time_to_unix. rewrite Z.quot_div_nonneg by (try done; apply Z.div_pos; done || lia).
  by rewrite Z.div_div by done.
Qed.

(** Members whose clocks differ by at most an hour meet in the DHT: some
    identifier under which the one announces its port is among those the other
    queries, also across the hourly rotation. *)
Lemma infohash_shared secret port t u :
  (hour <= t)%Z -> (hour <= u)%Z -> (Z.abs (t - u) <= hour)%Z ->
  exists ih, (ih, port) ∈ announce secret port t /\ ih ∈ queryPeers secret u.
Proof.
  intros Ht Hu Hd.
  assert (forall x y, (0 <= x)%Z -> (0 <= y)%Z -> Z.div x hour = Z.div y hour ->
    DeriveNetworkIDWithTime secret x = DeriveNetworkIDWithTime secret y) as Hid.
  { intros x y Hx Hy E. apply network_id_hour. by rewrite !hour_epoch_div by done. }
  destruct (infohashes_elem secret t) as [Ht1 Ht2], (infohashes_elem secret u) as [Hu1 Hu2].
  assert (exists ih, ih ∈ dht_infohashes secret t /\ ih ∈ dht_infohashes secret u) as (ih & H1 & H2).
  2:{ exists ih. split; [|done]. unfold announce. apply list_elem_of_fmap. by exists ih. }
  unfold time_add in *. change (-1 * hour)%Z with (-3600000000000)%Z in *. change hour with 3600000000000%Z in *.
  assert (Z.div t 3600000000000 = Z.div u 3600000000000 \/ Z.div t 3600000000000 = Z.div (u + -3600000000000) 3600000000000
          \/ Z.div (t + -3600000000000) 3600000000000 = Z.div u 3600000000000)%Z as [E|[E|E]] by div_lia.
  - exists (DeriveNetworkIDWithTime secret t). split; [done|]. by rewrite (Hid t u) by (done || lia).
  - exists (DeriveNetworkIDWithTime secret t). split; [done|]. by rewrite (Hid t (u + -3600000000000)%Z) by (done || lia).
  - exists (DeriveNetworkIDWithTime secret u). split; [|done]. by rewrite <- (Hid (t + -3600000000000)%Z u) by (done || lia).
Qed.

(** ** Bootstrapping *)

(** The delay after a given number of failures. *)
Definition bootstrap_delay (n : nat) : Duration := Z.min DHTBootstrapMaxDelay (DHTBootstrapInitialDelay * 2 ^ Z.of_nat n)%Z.

Lemma bootstrap_delay_step n :
  (if DHTBootstrapMaxDelay <? bootstrap_delay n * 2 then DHTBootstrapMaxDelay else bootstrap_delay n * 2)%Z
  = bootstrap_delay (S n).
Proof.
  unfold bootstrap_delay. rewrite Nat2Z.inj_succ, Z.pow_succ_r by lia.
  change DHTBootstrapMaxDelay with 60000000000%Z. change DHTBootstrapInitialDelay with 5000000000%Z.
  set (x := (2 ^ Z.of_nat n)%Z). clearbody x. split_if; bool_steps; lia.
Qed.

Lemma bootstrap_waits_from n a :
  bootstrap_waits (S a) (bootstrap_delay (S a)) (replicate n false ++ [true]) = bootstrap_delay <$> seq (S a) (S n).
Proof.
  revert a. induction n as [|n IH]; intros a; [done|].
  cbn [replicate app bootstrap_waits Nat.ltb Nat.leb]. cbv zeta.
  rewrite bootstrap_delay_step, IH. done.
Qed.

(** The waits between the attempts to join the DHT: the [i]th is five seconds
    doubled [i] times and at most a minute.  The first wait is thus ten seconds;
    the initial delay of five is never waited. *)
Theorem bootstrap_schedule n :
  bootstrapWithRetry (replicate n false ++ [true]) = bootstrap_delay <$> seq 1 n
  /\ Forall (fun w => 10 * second <= w <= DHTBootstrapMaxDelay)%Z (bootstrapWithRetry (replicate n false ++ [true])).
Proof.
  assert (bootstrapWithRetry (replicate n false ++ [true]) = bootstrap_delay <$> seq 1 n) as E.
  { destruct n as [|n]; [done|]. unfold bootstrapWithRetry. cbn [replicate app bootstrap_waits Nat.ltb Nat.leb]. cbv zeta.
    change DHTBootstrapInitialDelay with (bootstrap_delay 0). by rewrite bootstrap_delay_step, bootstrap_waits_from. }
  split; [done|]. rewrite E. apply Forall_fmap, Forall_forall. intros i Hi%elem_of_seq. simpl.
  unfold bootstrap_delay. assert (2 ^ 1 <= 2 ^ Z.of_nat i)%Z by (apply Z.pow_le_mono_r; lia).
  change DHTBootstrapMaxDelay with 60000000000%Z. change DHTBootstrapInitialDelay with 5000000000%Z.
  change (10 * second)%Z with 10000000000%Z. lia.
Qed.

(** ** Contacting oneself *)

Lemma join_host_port_inj h p q : join_host_port h p = join_host_port h q -> p = q.
Proof.
  unfold join_host_port. destruct (contains_char ":" h); intros E.
  - injection E as E. apply (inj (String.append h)) in E. by injection E.
  - apply (inj (String.append h)) in E. by injection E.
Qed.

Section self_contact.
Context {S : Type} {sink : PeerSink S} {cipher : Aead}.
Notation D := (DHTDiscovery S).

(** The check for the node's own address in [contactPeer] never fires on what
    the node itself published: the DHT holds the exchange port, the check
    compares with the endpoint, which has the WireGuard port.  The node contacts
    itself, and its own HELLO is then ignored, so the exchange times out. *)
Theorem own_announcement_contacted (d : D) host wgPort exchangePort from nonce now :
  GetEndpoint (d_node d) = join_host_port host (itoa wgPort) ->
  (0 <= wgPort <= int64_max)%Z -> (0 <= exchangePort <= int64_max)%Z -> wgPort <> exchangePort ->
  DisableIPv6 (d_config d) = false ->
  let addr := join_host_port host (itoa exchangePort) in
  contactedPeers d !! addr = None ->
  (contactPeer d addr now).2 = [GoExchange addr DHTMethod]
  /\ handleHello (d_exchange d) (hello_of (d_exchange d) now) from nonce now = Some (d_exchange d, []).
Proof.
  intros He Hw Hx Hne H6 addr Hc. split.
  - unfold contactPeer. rewrite H6. cbn [andb]. rewrite He.
    destruct (String.eqb_spec addr (join_host_port host (itoa wgPort))) as [E|_].
    { apply join_host_port_inj, itoa_inj in E; [congruence|unfold int64_min; lia..]. }
    unfold markContacted. unfold Time in *. by rewrite Hc.
  - unfold handleHello. change (pa_WGPubKey (hello_of (d_exchange d) now)) with (own_pubkey (d_exchange d)).
    by rewrite String.eqb_refl.
Qed.
End self_contact.

(** ** A reply that stops the daemon *)

Section crash.
Context {S : Type} {sink : PeerSink S} {cipher : Aead}.
Notation D := (DHTDiscovery S).

(** A member whose announced key has fewer than eight bytes stops every node
    that contacts it: the REPLY is accepted (the handlers do not validate), it
    is handed to the waiting exchange, and the goroutine that logs the first
    eight bytes of the key panics. *)
Theorem short_key_reply_crashes (d : D) rq a data nonce nonce' addr method now :
  exchange_ok (d_exchange d) -> length (gossip_key (d_exchange d)) = 32 ->
  pendingReplies (d_exchange d) !! udp_addr_string (rq_remote rq) = Some (rq_chan rq) ->
  replies (d_exchange d) !! rq_chan rq = Some None ->
  announcement_text a = true -> pa_Protocol a = ProtocolVersion -> pa_MeshIP a <> ""%string ->
  1 + length (pa_KnownPeers a) <= sink_room (d_store d) ->
  length nonce = NonceSize -> Forall is_byte nonce -> fresh_at (pa_Timestamp a) now ->
  SealEnvelope MessageTypeReply (announcement_json a) (gossip_key (d_exchange d)) (Some nonce) = Ok data ->
  String.length (pa_WGPubKey a) < 8 ->
  exists pe info, handleMessage (d_exchange d) data (rq_remote rq) nonce' now = Some (pe, [])
    /\ (finishExchange pe rq).2 = Ok info
    /\ exchanged (set_exchange d pe) addr method (Ok info) now = None.
Proof.
  intros Hok Hlen Hp Hr Ht Hproto Hip Hroom Hn Bn Hf Hseal Hshort.
  destruct (handleMessage_announcement (d_exchange d) (gossip_key (d_exchange d)) MessageTypeReply a data
    (rq_remote rq) nonce nonce' now Ht eq_refl Hlen eq_refl Hn Bn Hproto Hseal Hf) as [Hdec [l ->]].
  unfold handlePlaintext. change (String.eqb MessageTypeReply MessageTypeHello) with false.
  rewrite String.eqb_refl, Hdec. cbv iota.
  destruct (handleReply_learns (with_log (d_exchange d) l) a (rq_remote rq) now (rq_chan rq))
    as (pe & info & -> & Hch & Hk & _); [apply Hok|done|done|done|done|].
  exists pe, info. split; [done|]. split; [unfold finishExchange; cbn [snd]; by rewrite Hch|].
  cbn [exchanged]. rewrite Hk. by rewrite (proj2 (Nat.ltb_lt _ _) Hshort).
Qed.
End crash.

(** ** Samples *)

Notation DS := (DHTDiscovery PeerStore).
Definition discovery (pe : PeerExchange PeerStore) : DS :=
  {| d_exchange := pe; contactedPeers := ∅; controlPeers := ∅; rendezvousBackoff := ∅ |}.
Definition dht_a : DS := discovery ex_a.
Definition dht_b : DS := discovery ex_b.

Lemma rendezvous_windows_agree_witness :
  shouldAttemptRendezvous dht_a "pk-b" t0 = shouldAttemptRendezvous dht_b "pk-a" t0
  /\ length (filter (fun i => shouldAttemptRendezvous dht_a "pk-b" (time_unix (1700000000 + i)) = true)
       (Z.of_nat <$> seq 0 20)) = 4.
Proof.
  destruct (rendezvous_windows_agree dht_a dht_b 1700000000) as [H1 H2]; [discriminate|discriminate|].
  split; [exact (H1 t0 t0 eq_refl)|exact (H2 ltac:(lia))].
Defined.

(** The second in which the ticker of [A] is started so that it never meets the
    window with [B]. *)
Lemma stale_check_phase_locked_witness :
  ~ exists n, shouldAttemptRendezvous dht_a "pk-b"
                (stale_tick (time_unix (pairSeed "pk-a" "pk-b" mod 10 + 1700000005)) n) = true.
Proof.
  intros [n Hn]. apply not_false_iff_true in Hn. apply Hn. assert (d_key dht_a = "pk-a"%string) as Hk by (vm_compute; reflexivity).
  refine (proj1 (proj2 (stale_check_phase_locked dht_a "pk-b"
    (time_unix (pairSeed "pk-a" "pk-b" mod 10 + 1700000005)) _ _) _ n)).
  - discriminate.
  - vm_compute. discriminate.
  - rewrite Hk. vm_compute. discriminate.
Defined.

Lemma backoff_schedule_witness :
  canAttemptRendezvous (failures dht_a "pk-b" [0; 10; 20]%Z) "pk-b" (20 + 12 * second)%Z = false
  /\ canAttemptRendezvous (failures dht_a "pk-b" [0; 10; 20]%Z) "pk-b" (21 + 12 * second)%Z = true.
Proof.
  assert (rendezvousBackoff dht_a !! "pk-b"%string = None) as H by (vm_compute; reflexivity).
  split.
  - refine (eq_trans (proj1 (backoff_schedule dht_a "pk-b" [0; 10]%Z 20%Z _ H)) _). vm_compute. reflexivity.
  - refine (eq_trans (proj1 (backoff_schedule dht_a "pk-b" [0; 10]%Z 20%Z _ H)) _). vm_compute. reflexivity.
Defined.

Definition contacted_a : DS := (contactPeer dht_a "192.0.2.9:40001" t0).1.

Lemma contact_throttled_witness :
  contactPeer contacted_a "192.0.2.9:40001" (t0 + 59 * second)%Z = (contacted_a, []).
Proof.
  assert ((contactPeer dht_a "192.0.2.9:40001" t0).2 = [GoExchange "192.0.2.9:40001" DHTMethod]) as H
    by (vm_compute; reflexivity).
  apply (contact_throttled (fun _ => None) dht_a contacted_a contacted_a "192.0.2.9:40001" t0
    [((t0 + second)%Z, OpShared (d_exchange contacted_a))] (t0 + 59 * second)%Z).
  - rewrite <- H. unfold contacted_a. destruct (contactPeer dht_a "192.0.2.9:40001" t0). reflexivity.
  - split; [vm_compute; discriminate|vm_compute; discriminate].
  - unfold contacted_a. destruct (contactPeer dht_a "192.0.2.9:40001" t0) as [[] ?]. reflexivity.
  - vm_compute. reflexivity.
Defined.

(** Introducers, known to both ends in different orders. *)
Definition introducer (key ep : string) : PeerInfo :=
  {| WGPubKey := key; Hostname := ""; MeshIP := ""; MeshIPv6 := ""; Endpoint := ep; Introducer := true;
     RoutableNetworks := []; LastSeen := t0; DiscoveredVia := ["dht"%string]; Latency := None;
     NATType := ""; EndpointMethod := "dht" |}.
Definition introducer_x : PeerInfo := introducer "pk-x" "198.51.100.7:51820".
Definition introducer_y : PeerInfo := introducer "pk-y" "198.51.100.8:51820".

(** A neighbour that only [A] knows, and a node behind a NAT that only [B] knows. *)
Definition plain_peer (key ep : string) : PeerInfo :=
  {| WGPubKey := key; Hostname := ""; MeshIP := ""; MeshIPv6 := ""; Endpoint := ep; Introducer := false;
     RoutableNetworks := []; LastSeen := t0; DiscoveredVia := ["dht"%string]; Latency := None;
     NATType := ""; EndpointMethod := "dht" |}.

Lemma introducers_agree_witness :
  selectRendezvousIntroducers dht_a "pk-b" [introducer_x; plain_peer "pk-n" "198.51.100.9:51820"; introducer_y] 3 ∅ t0
  = selectRendezvousIntroducers dht_b "pk-a" [plain_peer "pk-m" "10.0.0.9:51820"; introducer_y; introducer_x] 3 ∅ t0
  /\ length (selectRendezvousIntroducers dht_a "pk-b" [introducer_x; plain_peer "pk-n" "198.51.100.9:51820"; introducer_y] 3 ∅ t0) = 2.
Proof.
  assert (d_key dht_a = "pk-a"%string) as Ha by (vm_compute; reflexivity).
  assert (d_key dht_b = "pk-b"%string) as Hb by (vm_compute; reflexivity).
  split; [|vm_compute; reflexivity].
  pose proof (introducers_agree dht_a dht_b [introducer_x; plain_peer "pk-n" "198.51.100.9:51820"; introducer_y]
    [plain_peer "pk-m" "10.0.0.9:51820"; introducer_y; introducer_x] 3 ∅ ∅ t0 t0) as H.
  rewrite Ha, Hb in H. apply H; clear H.
  - reflexivity.
  - by_compute.
  - vm_compute. apply Permutation_swap.
  - intros p [->|[->|[->|[]%not_elem_of_nil]%elem_of_cons]%elem_of_cons]%elem_of_cons Hi; vm_compute; first [reflexivity|discriminate Hi].
  - intros p [->|[->|[->|[]%not_elem_of_nil]%elem_of_cons]%elem_of_cons]%elem_of_cons Hi; vm_compute; first [reflexivity|discriminate Hi].
Defined.

Lemma own_announcement_contacted_witness :
  (contactPeer dht_b "198.51.100.2:40001" t0).2 = [GoExchange "198.51.100.2:40001" DHTMethod].
Proof.
  apply (own_announcement_contacted dht_b "198.51.100.2" 51820 40001 addr_a None t0).
  - vm_compute. reflexivity.
  - vm_compute. split; discriminate.
  - vm_compute. split; discriminate.
  - discriminate.
  - vm_compute. reflexivity.
  - vm_compute. reflexivity.
Defined.

Lemma short_key_reply_crashes_witness :
  exists d pe info data, handleMessage (d_exchange d) data addr_b None t0 = Some (pe, [])
    /\ (finishExchange pe sample_rq).2 = Ok info
    /\ exchanged (set_exchange d pe : DS) "198.51.100.2:51821" DHTMethod (Ok info) t0 = None.
Proof.
  assert (start_a = (start_a.1, Ok sample_rq)) as Hst.
  { assert (is_ok start_a.2 = true) as Hok by (vm_compute; reflexivity).
    unfold sample_rq. destruct start_a as [pe [rq|e]]; [reflexivity|discriminate Hok]. }
  assert (rq_remote sample_rq = addr_b) as Hrem by (vm_compute; reflexivity).
  set (pe1 := with_pending ex_a (<[udp_addr_string (rq_remote sample_rq) := rq_chan sample_rq]> (pendingReplies ex_a))
                (<[rq_chan sample_rq := None]> (replies ex_a))).
  destruct (sealed_ok MessageTypeReply (announcement_json (self_announcement node_b [] t0))
    (gossip_key (d_exchange (discovery pe1))) (replicate 12 2%Z)) as [data Hdata].
  destruct (short_key_reply_crashes (discovery pe1) sample_rq (self_announcement node_b [] t0) data
    (replicate 12 2%Z) None "198.51.100.2:51821" DHTMethod t0) as (pe & info & H1 & H2 & H3).
  - exact ex_a_ok.
  - vm_compute; reflexivity.
  - apply lookup_insert_eq.
  - apply lookup_insert_eq.
  - vm_compute; reflexivity.
  - reflexivity.
  - discriminate.
  - by_compute.
  - reflexivity.
  - by_compute.
  - split; vm_compute; discriminate.
  - exact Hdata.
  - simpl. lia.
  - rewrite Hrem in H1. exists (discovery pe1), pe, info, data. split; [exact H1|]. split; [exact H2|exact H3].
Defined.

(** Three nodes that qualify by their handshakes, and one configured as
    introducer. *)
Definition auto_peer (key ep : string) : PeerInfo :=
  {| WGPubKey := key; Hostname := ""; MeshIP := ""; MeshIPv6 := ""; Endpoint := ep; Introducer := false;
     RoutableNetworks := []; LastSeen := t0; DiscoveredVia := ["dht"%string]; Latency := None;
     NATType := ""; EndpointMethod := "dht" |}.
Definition auto_peers : list PeerInfo :=
  [auto_peer "pk-u" "198.51.100.4:51820"; auto_peer "pk-v" "198.51.100.5:51820"; auto_peer "pk-w" "198.51.100.6:51820"].
Definition dht_a_auto : DS :=
  set_control dht_a (list_to_map ((fun p => (WGPubKey p, Endpoint p)) <$> auto_peers)).

(** Explicit introducers are sorted first, but the choice starts at an index
    drawn from the pair: a node configured as introducer can be passed over in
    favour of three nodes that merely had a recent handshake. *)
Theorem explicit_introducer_passed_over :
  ri_WGPubKey <$> selectRendezvousIntroducers dht_a_auto "pk-e" (introducer_x :: auto_peers) 3
    (list_to_map ((fun p => (WGPubKey p, 1700000000%Z)) <$> auto_peers)) t0
  = ["pk-u"; "pk-v"; "pk-w"]%string.
Proof. vm_compute. reflexivity. Qed.
