(* ===== verification/DhtJoin.v ===== *)
(** * Two members find each other through the DHT

    From the announcement of one member to the entry of each in the store of the
    other: the lookup of dht.go, the contact it makes and the exchange of
    exchange.go, composed as the goroutines compose them.  The network is a class
    whose laws say that a lookup delivers what was announced under the identifier;
    a table of announcements is its instance. *)

From S2P Require Import Prelude GoStrings GoNet GoCrypto PeerStore Derive Aead Envelope NodeConfig PeerSink.
From S2P Require Import Endpoints Exchange Protocol Dht DhtProps.
Local Open Scope wgmesh_scope.

(** BEP 5: [get_peers] returns the address of a host that announced a port under
    the identifier, and announcing more does not remove it. *)
Class DhtNetLaws (W : Type) {net : DhtNet W} : Prop := {
  announced_found (w : W) host ih port : (0 < port)%Z ->
    join_host_port host (itoa port) ∈ net_peers (net_announce w host ih port) ih;
  announced_kept (w : W) host ih ih' port addr :
    addr ∈ net_peers w ih -> addr ∈ net_peers (net_announce w host ih' port) ih;
}.

(** A table of what was announced. *)
#[export] Instance table_net : DhtNet (list (list Z * string)) := {|
  net_announce w host ih port := if (port =? 0)%Z then w else (ih, join_host_port host (itoa port)) :: w;
  net_peers w ih := snd <$> filter (fun e => e.1 = ih) w;
|}.
#[export] Instance table_laws : DhtNetLaws (list (list Z * string)).
Proof.
  split.
  - intros w host ih port Hp. cbn. replace (port =? 0)%Z with false by lia. rewrite filter_cons_True by done. left.
  - intros w host ih ih' port addr H. cbn in *. destruct (port =? 0)%Z; [done|]. rewrite filter_cons. case_decide; [by right|done].
Qed.

Section join.
Context {W S : Type} {net : DhtNet W} {laws : DhtNetLaws W} {sink : PeerSink S} {cipher : Aead}.
Notation D := (DHTDiscovery S).

(** ** Looking up and contacting *)

(** What [contactPeer] asks of an address. *)
Definition contactable (d : D) (addr : string) : Prop :=
  DisableIPv6 (d_config d) && isIPv6Endpoint addr = false /\ addr <> GetEndpoint (d_node d) /\ contactedPeers d !! addr = None.

Lemma contactPeer_exchange (d : D) addr now : d_exchange (contactPeer d addr now).1 = d_exchange d.
Proof. unfold contactPeer, markContacted. repeat case_match; simplify_eq; done. Qed.

Lemma contactPeer_keeps (d : D) addr addr' now : addr <> addr' -> contactable d addr' -> contactable (contactPeer d addr now).1 addr'.
Proof.
  intros Hne (H6 & He & Hc). unfold contactable, d_config, d_node. rewrite contactPeer_exchange. split; [done|]. split; [done|].
  unfold contactPeer, markContacted. repeat case_match; simplify_eq; try done; cbn; by rewrite lookup_insert_ne.
Qed.

Lemma contactPeer_acts (d : D) addr now : contactable d addr -> (contactPeer d addr now).2 = [GoExchange addr DHTMethod].
Proof.
  intros (H6 & He & Hc). unfold contactPeer. rewrite H6, (proj2 (String.eqb_neq _ _) He). unfold markContacted.
  unfold Time in *. by rewrite Hc.
Qed.

Lemma contact_all_exchange (d : D) addrs now : d_exchange (contact_all d addrs now).1 = d_exchange d.
Proof.
  revert d. induction addrs as [|a l IH]; intros d; [done|]. cbn [contact_all].
  pose proof (contactPeer_exchange d a now) as H. destruct (contactPeer d a now) as [d1 acts]. cbn in H.
  specialize (IH d1). destruct (contact_all d1 l now). cbn in *. congruence.
Qed.

Lemma contact_all_reaches (d : D) addrs addr now : contactable d addr ->
  if decide (addr ∈ addrs) then GoExchange addr DHTMethod ∈ (contact_all d addrs now).2
  else contactable (contact_all d addrs now).1 addr.
Proof.
  revert d. induction addrs as [|a l IH]; intros d Hc; [done|]. cbn [contact_all].
  pose proof (contactPeer_keeps d a addr now) as Hk. pose proof (contactPeer_acts d addr now Hc) as Ha.
  destruct (decide (a = addr)) as [->|Hne].
  - destruct (contactPeer d addr now) as [d1 acts]. cbn in Ha. subst acts. destruct (contact_all d1 l now).
    rewrite decide_True by left. cbn. left.
  - specialize (Hk Hne Hc). destruct (contactPeer d a now) as [d1 acts]. cbn in Hk. specialize (IH d1 Hk).
    destruct (contact_all d1 l now) as [d2 acts']. cbn in *. destruct (decide (addr ∈ l)).
    + rewrite decide_True by (by right). set_solver.
    + rewrite decide_False by (rewrite elem_of_cons; naive_solver). done.
Qed.

Lemma query_all_reaches started (d : D) (w : W) ihs ih addr now :
  ih ∈ ihs -> started ih = true -> addr ∈ net_peers w ih -> contactable d addr ->
  GoExchange addr DHTMethod ∈ (query_all started d w ihs now).2.
Proof.
  intros Hin Hs Ha. revert d. induction Hin as [ih' ihs|ih' ih'' ihs Hin IH]; intros d Hc; cbn [query_all];
    unfold queryInfohash at 1.
  - rewrite Hs. pose proof (contact_all_reaches d (net_peers w ih') addr now Hc) as H. rewrite decide_True in H by done.
    destruct (contact_all d _ now) as [d1 acts]. destruct (query_all started d1 w ihs now). cbn in *. set_solver.
  - specialize (IH Hs Ha). destruct (started ih'').
    + pose proof (contact_all_reaches d (net_peers w ih'') addr now Hc) as H.
      destruct (contact_all d _ now) as [d1 acts]. specialize (IH d1). destruct (query_all started d1 w ihs now). cbn in *.
      destruct (decide _); set_solver.
    + specialize (IH d Hc). destruct (query_all started d w ihs now). cbn in *. set_solver.
Qed.

Lemma query_all_exchange started (d : D) (w : W) ihs now : d_exchange (query_all started d w ihs now).1 = d_exchange d.
Proof.
  revert d. induction ihs as [|ih ihs IH]; intros d; [done|]. cbn [query_all]. unfold queryInfohash at 1.
  pose proof (contact_all_exchange d (net_peers w ih) now) as H. destruct (started ih).
  - destruct (contact_all d _ now) as [d1 acts]. specialize (IH d1). destruct (query_all started d1 w ihs now). cbn in *. congruence.
  - specialize (IH d). destruct (query_all started d w ihs now). done.
Qed.

(** ** Announcing *)

Lemma announce_found_all started host (w : W) l ih port : (0 < port)%Z -> started ih = true -> (ih, port) ∈ l ->
  join_host_port host (itoa port) ∈ net_peers (foldl (announceToInfohash started host) w l) ih.
Proof.
  intros Hp Hs Hin.
  assert (forall l w, join_host_port host (itoa port) ∈ net_peers w ih ->
    join_host_port host (itoa port) ∈ net_peers (foldl (announceToInfohash started host) w l) ih) as Hkeep.
  { clear -laws. induction l as [|[ih' p'] l IH]; intros w H; [done|]. cbn [foldl]. apply IH. unfold announceToInfohash. cbn [fst snd].
    destruct (started ih'); [by apply announced_kept|done]. }
  revert w. induction l as [|x l IH]; intros w; [by apply not_elem_of_nil in Hin|].
  apply elem_of_cons in Hin as [<-|Hin]; cbn [foldl]; [|by apply IH].
  apply Hkeep. unfold announceToInfohash. cbn [fst snd]. rewrite Hs. by apply announced_found.
Qed.

(** ** Joining *)

Record member_ready (d : D) : Prop := {
  mr_ok : exchange_ok (d_exchange d);
  mr_ip : ln_MeshIP (d_node d) <> ""%string;
  mr_key : 8 <= String.length (d_key d);
}.
Record one_mesh (A B : D) : Prop := {
  om_secret : Secret (d_config B) = Secret (d_config A);
  om_key : gossip_key (d_exchange A) = gossip_key (d_exchange B);
  om_len : length (gossip_key (d_exchange B)) = 32;
  om_differ : d_key B <> d_key A;
}.

(** The answer of the other node, stored once more under the address it was
    found at. *)
Lemma exchanged_known (d : D) (E : PeerExchange S) addr info now :
  exchange_ok E -> 8 <= String.length (WGPubKey info) -> MeshIP info <> ""%string ->
  is_Some (sink_get (pe_store E) (WGPubKey info)) ->
  exists d', exchanged (set_exchange d E) addr DHTMethod (Ok info) now = Some d'
  /\ exists p, sink_get (d_store d') (WGPubKey info) = Some p /\ MeshIP p = MeshIP info /\ LastSeen p = now.
Proof.
  intros [Hs _] Hk Hip [q Hq]. unfold exchanged. replace (Nat.ltb _ 8) with false by (symmetry; apply Nat.ltb_ge; done).
  cbv zeta. set (d1 := setControlEndpoint _ _ _).
  assert (d_exchange d1 = E) as Hd1 by (unfold d1, setControlEndpoint; repeat case_match; done).
  unfold d_store. rewrite Hd1. destruct (sink_update_spec (pe_store E) info DHTMethod now Hs) as (s1 & -> & _ & Hg & _).
  cbn [mbind option_bind]. eexists. split; [done|]. cbn [d_exchange set_exchange pe_store with_store].
  unfold sink_stored in Hg. rewrite Hq in Hg. eexists. split; [exact Hg|]. cbn. unfold str_or.
  by rewrite (proj2 (String.eqb_neq _ "") Hip).
Qed.

Lemma exchange_starts resolve (d : D) addr to nonce now :
  DisableIPv6 (d_config d) && isIPv6Endpoint addr = false -> resolve addr = Some to ->
  exists pe rq, exchangeWithAddress resolve d addr (Some nonce) true now = (set_exchange d pe, Ok rq)
  /\ rq_remote rq = to /\ startExchange resolve (d_exchange d) addr (Some nonce) true now = (pe, Ok rq).
Proof.
  intros H6 Hr. unfold exchangeWithAddress. rewrite H6. unfold startExchange. rewrite Hr. cbv zeta.
  match goal with |- context [SealEnvelope ?m ?v ?k _] => destruct (sealed_ok m v k nonce) as [data ->] end.
  eexists _, _. split; [reflexivity|]. by split.
Qed.

(** A HELLO outside the window of the receiver's clock is dropped. *)
Lemma hello_ignored resolve (B A : PeerExchange S) addr nonceB nonceA from u tA pe rq :
  gossip_key A = gossip_key B -> length (gossip_key A) = 32 -> length nonceB = NonceSize -> Forall is_byte nonceB ->
  startExchange resolve B addr (Some nonceB) true u = (pe, Ok rq) -> announcement_text (hello_of B u) = true ->
  ~ fresh_at (time_to_unix u) tA -> handleMessage A (rq_hello rq) from nonceA tA = Some (A, []).
Proof.
  intros Hg Hlen Hn Bn Hstart Ht Hf. destruct (startExchange_spec _ _ _ _ _ _ _ _ Hstart) as [_ Hseal].
  unfold handleMessage. rewrite Hg in *.
  destruct (OpenEnvelopeRaw_eq MessageTypeHello (announcement_json (hello_of B u)) (gossip_key B) nonceB tA (rq_hello rq)
    (time_to_unix u)) as (env & _ & ->); try done; [by apply announcement_json_ok| |].
  { rewrite dec_meta_json; [done|]. unfold announcement_text in Ht. bool_steps. lia. }
  destruct (freshness_check (time_to_unix u) tA "message too old" "message timestamp in future"
    (Ok (env, json_bytes (announcement_json (hello_of B u))))) as [[_ ?]|[_ E]]; [done|].
  by destruct (if MaxMessageAge <? _ then _ else _)%Z.
Qed.

(** C16. How a member joins through the DHT.  With clocks up to an hour apart, the
    lookup delivers the address another member announced itself under, in the same
    hour or across the hourly rotation, and the address is contacted, if it is not
    filtered, not the own endpoint and was not contacted before.  The HELLO sent to it
    is taken by the announcer when it arrives within ten minutes of the sender's
    clock, and dropped without a trace otherwise.  When it is taken, the announcer
    stores the newcomer and answers; and when the answer arrives within ten minutes of
    the announcer's clock, the newcomer stores the announcer.  It takes the laws of
    the DHT, one secret, different keys of at least eight characters, mesh addresses,
    announcements of plain text, and room in the stores for what they list. *)
Theorem dht_members_join resolve (A B : D) (w : W) started host port toA fromB nonceA nonceB nonce t u tA u' :
  member_ready A -> member_ready B -> one_mesh A B -> (forall ih, started ih = true) ->
  (0 < port)%Z -> (hour <= t)%Z -> (hour <= u)%Z -> (Z.abs (t - u) <= hour)%Z ->
  length nonceA = NonceSize -> Forall is_byte nonceA -> length nonceB = NonceSize -> Forall is_byte nonceB ->
  let addr := join_host_port host (itoa port) in
  contactable B addr -> resolve addr = Some toA ->
  announcement_text (hello_of (d_exchange B) u) = true ->
  let w1 := announce_all started host w (Secret (d_config A)) port t in
  let '(B1, acts) := query_all started B w1 (queryPeers (Secret (d_config B)) u) u in
  GoExchange addr DHTMethod ∈ acts
  /\ exists B2 rq, exchangeWithAddress resolve B1 addr (Some nonceB) true u = (B2, Ok rq)
  /\ (~ fresh_at (time_to_unix u) tA ->
      handleMessage (d_exchange A) (rq_hello rq) fromB (Some nonceA) tA = Some (d_exchange A, []))
  /\ (fresh_at (time_to_unix u) tA -> 1 + length (getKnownPeers (d_exchange B) u) <= sink_room (d_store A) ->
      exists A1 data, handleMessage (d_exchange A) (rq_hello rq) fromB (Some nonceA) tA = Some (A1, [Send fromB data])
      /\ knows (pe_store A1) (d_node B) tA
      /\ (announcement_text (reply_of A1 fromB tA) = true -> fresh_at (time_to_unix tA) u' ->
          1 + length (getKnownPeers A1 tA) <= sink_room (d_store B) ->
          exists E2 info B3, handleMessage (d_exchange B2) data toA nonce u' = Some (E2, [])
          /\ finishExchange E2 rq = ((finishExchange E2 rq).1, Ok info)
          /\ exchanged (set_exchange B2 (finishExchange E2 rq).1) addr DHTMethod (Ok info) u' = Some B3
          /\ exists p, sink_get (d_store B3) (d_key A) = Some p /\ MeshIP p = ln_MeshIP (d_node A) /\ LastSeen p = u')).
Proof.
  intros HA HB [Hsec Hkey Hlen Hne] Hst Hp Ht Hu Hd HnA BnA HnB BnB addr Hc Hres Htxt w1.
  destruct (infohash_shared (Secret (d_config A)) port t u Ht Hu Hd) as (ih & Han & Hq). rewrite <- Hsec in Hq.
  pose proof (announce_found_all started host w _ ih port Hp (Hst ih) Han) as Hfound.
  pose proof (query_all_reaches started B w1 _ ih addr u Hq (Hst ih) Hfound Hc) as Hgo.
  pose proof (query_all_exchange started B w1 (queryPeers (Secret (d_config B)) u) u) as Hex.
  destruct (query_all started B w1 _ u) as [B1 acts]. cbn [fst snd] in *. split; [exact Hgo|].
  assert (d_config B1 = d_config B) as Hcfg by (unfold d_config; by rewrite Hex).
  destruct (exchange_starts resolve B1 addr toA nonceB u) as (E1 & rq & -> & <- & Hstart);
    [rewrite Hcfg; apply Hc|done|]. rewrite Hex in Hstart.
  eexists _, rq. split; [reflexivity|].
  split; [intros Hf; eapply (hello_ignored resolve (d_exchange B)); try done; by rewrite <- Hkey in Hlen|].
  intros Hf Hroom. destruct (startExchange_spec _ _ _ _ _ _ _ _ Hstart) as [-> Hseal].
  destruct (hello_handled (d_exchange B) (d_exchange A) _ fromB _ nonceA u tA (mr_ok _ HA) Hkey Hlen Hne (mr_ip _ HB)
    HnB BnB Hseal Htxt Hf Hroom) as (A1 & data & Hhello & HnodeA & HkeyA & Hdata & Hknow & _).
  exists A1, data. split; [exact Hhello|]. split; [exact Hknow|].
  intros Htxt' Hf' Hroom'. cbn [d_exchange set_exchange]. set (E1 := with_pending _ _ _).
  destruct (reply_handled E1 A1 (rq_chan rq) (rq_remote rq) data fromB nonceA nonce tA u')
    as (E2 & info & Hreply & Hch & Hk & Hip & (p & Hp' & _) & _); try done.
  - exact (mr_ok _ HB).
  - etrans; [exact HkeyA|exact Hkey].
  - rewrite HnodeA. apply HA.
  - simpl. by rewrite lookup_insert_eq.
  - simpl. by rewrite lookup_insert_eq.
  - assert (own_pubkey A1 = d_key A) as Hown by (unfold d_key, own_pubkey; by rewrite HnodeA).
    destruct (handleMessage_handled E1 data (rq_remote rq) nonce u' (mr_ok _ HB)) as (E2' & effs & Hr2 & Hh & _).
    rewrite Hreply in Hr2. injection Hr2 as <- <-. pose proof (exchange_ok_after _ _ _ _ _ (mr_ok _ HB) Hh) as HE2.
    rewrite Hown in Hk. rewrite HnodeA in Hip, Hp'.
    destruct (exchanged_known B1 (finishExchange E2 rq).1 addr info u') as (B3 & Hb3 & Hfin); [done|..].
    + rewrite Hk. apply HA.
    + rewrite Hip. apply HA.
    + rewrite Hk. by exists p.
    + exists E2, info, B3. split; [exact Hreply|]. split; [unfold finishExchange; by rewrite Hch|]. split; [exact Hb3|].
      rewrite Hk, Hip in Hfin. exact Hfin.
Qed.
End join.

(** ** Sample *)

Definition join_node_a : LocalNode := member "announcer-key" "10.7.0.1" "198.51.100.2:51820" false.
Definition join_node_b : LocalNode := member "newcomer-key" "10.7.0.2" "0.0.0.0:51820" false.
Definition join_a : DS := NewDHTDiscovery mesh_config join_node_a NewPeerStore.
Definition join_b : DS := NewDHTDiscovery mesh_config join_node_b (store_with "pk-c" "10.7.0.3" "192.0.2.3:51820").
Definition join_nonce : list Z := replicate 12 3%Z.
Definition join_addr : string := join_host_port "198.51.100.2" (itoa 51821).
(** The announcer's tick, then the newcomer's lookup. *)
Definition join_query : DS * list dht_action :=
  query_all (fun _ => true) join_b (announce_all (fun _ => true) "198.51.100.2" ([] : list (list Z * string)) (Secret (d_config join_a)) 51821 t0)
    (queryPeers (Secret (d_config join_b)) t0) t0.
(** The newcomer after its HELLO, and the announcer after the answer. *)
Definition join_started : DS * result request :=
  exchangeWithAddress (fun _ => Some addr_b) join_query.1 join_addr (Some join_nonce) true t0.
Definition after_hello (r : result request) : PeerExchange PeerStore :=
  match r with
  | Ok rq => state_of (handleMessage (d_exchange join_a) (rq_hello rq) addr_a (Some join_nonce) t0) (d_exchange join_a)
  | Err _ => d_exchange join_a
  end.
Definition join_a1 : PeerExchange PeerStore := after_hello join_started.2.

Lemma new_discovery (cfg : Config) n (s : PeerStore) :
  let d := NewDHTDiscovery cfg n s in
  d_config d = cfg /\ d_node d = n /\ d_key d = ln_WGPubKey n /\ gossip_key (d_exchange d) = GossipKey (Keys cfg)
  /\ contactedPeers d = ∅ /\ (store_ok s -> exchange_ok (d_exchange d)).
Proof. intros d. do 5 (split; [reflexivity|]). intros Hs. split; [exact Hs|done]. Qed.

Lemma join_ready n s : store_ok s -> ln_MeshIP n <> ""%string -> 8 <= String.length (ln_WGPubKey n) ->
  member_ready (NewDHTDiscovery mesh_config n s).
Proof. generalize mesh_config. intros cfg Hs Hip Hk. split; [by apply new_discovery|exact Hip|exact Hk]. Qed.

Lemma mesh_key_length : length (GossipKey (Keys mesh_config)) = 32.
Proof. by vm_compute. Qed.

Lemma new_one_mesh (cfg : Config) n1 n2 (s1 s2 : PeerStore) :
  length (GossipKey (Keys cfg)) = 32 -> ln_WGPubKey n2 <> ln_WGPubKey n1 ->
  one_mesh (NewDHTDiscovery cfg n1 s1) (NewDHTDiscovery cfg n2 s2).
Proof. by split. Qed.
Lemma join_one_mesh : one_mesh join_a join_b.
Proof. apply new_one_mesh; [exact mesh_key_length|discriminate]. Qed.

Lemma dht_members_join_witness :
  exists B2 rq A1 data E2 info B3,
    GoExchange join_addr DHTMethod ∈ join_query.2
    /\ join_started = (B2, Ok rq)
    /\ handleMessage (d_exchange join_a) (rq_hello rq) addr_a (Some join_nonce) t0 = Some (A1, [Send addr_a data])
    /\ knows (pe_store A1) (d_node join_b) t0
    /\ handleMessage (d_exchange B2) data addr_b None t0 = Some (E2, [])
    /\ exchanged (set_exchange B2 (finishExchange E2 rq).1) join_addr DHTMethod (Ok info) t0 = Some B3
    /\ is_Some (sink_get (d_store B3) (d_key join_a)).
Proof.
  pose proof (dht_members_join (fun _ => Some addr_b) join_a join_b ([] : list (list Z * string)) (fun _ => true)
    "198.51.100.2" 51821 addr_b addr_a join_nonce join_nonce None t0 t0 t0 t0) as H.
  cbv zeta in H. assert (join_a1 = after_hello join_started.2) as E0 by reflexivity. revert E0 H.
  unfold join_started, join_query, join_addr. destruct (query_all _ _ _ _ _) as [B1 acts]. intros E0 H.
  destruct H as (Hgo & B2 & rq & Hstart & _ & Htaken).
  - apply join_ready; [exact NewPeerStore_ok|discriminate|vm_compute; lia].
  - apply join_ready; [apply store_with_ok|discriminate|vm_compute; lia].
  - exact join_one_mesh.
  - reflexivity.
  - reflexivity.
  - vm_compute. discriminate.
  - vm_compute. discriminate.
  - vm_compute. discriminate.
  - reflexivity.
  - by_compute.
  - reflexivity.
  - by_compute.
  - split; [vm_compute; reflexivity|]. split; [|vm_compute; reflexivity]. vm_compute. discriminate.
  - reflexivity.
  - vm_compute. reflexivity.
  - destruct Htaken as (A1 & data & Hhello & Hknow & Hrest); [split; vm_compute; discriminate|vm_compute; lia|].
    assert (join_a1 = A1) as E1 by (rewrite E0; cbn [fst]; rewrite Hstart; cbn [snd after_hello]; rewrite Hhello; reflexivity).
    destruct Hrest as (E2 & info & B3 & Hreply & _ & Hb3 & p & Hp & _).
    + rewrite <- E1. vm_compute. reflexivity.
    + split; vm_compute; discriminate.
    + rewrite <- E1. vm_compute. lia.
    + exists B2, rq, A1, data, E2, info, B3. split; [exact Hgo|]. split; [exact Hstart|]. split; [exact Hhello|].
      split; [exact Hknow|]. split; [exact Hreply|]. split; [exact Hb3|]. exists p. exact Hp.
Defined.
