(* ===== verification/Lan.v ===== *)
(** * LAN discovery (pkg/discovery/lan.go)

    Multicast announcements on a group derived from the secret.  The sockets are
    arguments; a turn of the listening loop handles one datagram. *)

From S2P Require Import Prelude GoStrings GoNet GoCrypto GoJson PeerStore Derive Aead Envelope.
From S2P Require Import NodeConfig Endpoints PeerSink Exchange Protocol.
Local Open Scope wgmesh_scope.

Definition LANMulticastPort : Z := 51830%Z.
Definition LANMaxMessageSize : nat := 4096.

(** [l_stopClosed] tells whether [stopCh] was closed. *)
Record LANDiscovery := {
  l_config : Config;
  l_node : LocalNode;
  l_gossipKey : list Z;
  l_multicastAddr : UDPAddr;
  l_running : bool;
  l_stopClosed : bool;
}.

Definition NewLANDiscovery (cfg : Config) (n : LocalNode) : LANDiscovery :=
  {| l_config := cfg; l_node := n; l_gossipKey := GossipKey (Keys cfg);
     l_multicastAddr := {| ua_ip := [239; 192; nth 0 (MulticastID (Keys cfg)) 0; nth 1 (MulticastID (Keys cfg)) 0]%Z;
                           ua_port := LANMulticastPort |};
     l_running := false; l_stopClosed := false |}.

Definition set_running (l : LANDiscovery) (running stopClosed : bool) : LANDiscovery :=
  {| l_config := l_config l; l_node := l_node l; l_gossipKey := l_gossipKey l;
     l_multicastAddr := l_multicastAddr l; l_running := running; l_stopClosed := stopClosed |}.

(** [joined]: the multicast socket could be opened. *)
Definition lan_Start (joined : bool) (l : LANDiscovery) : result LANDiscovery :=
  if l_running l then Err "LAN discovery already running"
  else if negb joined then Err "failed to join multicast group"
  else Ok (set_running l true (l_stopClosed l)).

(** Closing a closed channel panics. *)
Definition lan_Stop (l : LANDiscovery) : option LANDiscovery :=
  if negb (l_running l) then Some l
  else if l_stopClosed l then None
  else Some (set_running l false true).

(** What the loops do after [Start]: they return at once when the channel is
    closed. *)
Definition loops_active (l : LANDiscovery) : bool := l_running l && negb (l_stopClosed l).

Definition resolveEndpoint (advertised : string) (sender : option UDPAddr) : string :=
  match sender_ip sender with
  | Some ip =>
      match split_host_port advertised with
      | Some (_, port) =>
          if negb (String.eqb port "") then join_host_port (ip_string ip) port
          else join_host_port (ip_string ip) (itoa DefaultWGPort)
      | None => join_host_port (ip_string ip) (itoa DefaultWGPort)
      end
  | None =>
      match split_host_port advertised with Some _ => advertised | None => "" end
  end.

Definition safeTruncate (s : string) (maxLen : nat) : string :=
  if Nat.ltb maxLen (String.length s) then str_take maxLen s ^^ "..." else s.

Section lan.
Context {S : Type} {sink : PeerSink S} {cipher : Aead}.

(** One announcement: the datagram sent to the group. *)
Definition lan_announce (l : LANDiscovery) (nonce : option (list Z)) (now : Time) : list effect :=
  let announcement := self_announcement (l_node l) [] now in
  match SealEnvelope MessageTypeAnnounce (announcement_json announcement) (l_gossipKey l) nonce with
  | Ok data => [Send (l_multicastAddr l) data]
  | Err _ => []
  end.

Definition lan_peer (a : PeerAnnouncement) (endpoint : string) : PeerInfo :=
  {| WGPubKey := pa_WGPubKey a; Hostname := pa_Hostname a; MeshIP := pa_MeshIP a; MeshIPv6 := pa_MeshIPv6 a;
     Endpoint := endpoint; Introducer := pa_Introducer a; RoutableNetworks := pa_RoutableNetworks a;
     LastSeen := zero_time; DiscoveredVia := []; Latency := None; NATType := pa_NATType a;
     EndpointMethod := "" |}.

(** One datagram; the buffer cuts it. *)
Definition lan_receive (l : LANDiscovery) (s : S) (data : list Z) (remote : UDPAddr) (now : Time) : option S :=
  match OpenEnvelope (take LANMaxMessageSize data) (l_gossipKey l) now with
  | None => None
  | Some (Err _) => Some s
  | Some (Ok (_, announcement)) =>
      if String.eqb (pa_WGPubKey announcement) (ln_WGPubKey (l_node l)) then Some s
      else sink_update s (lan_peer announcement (resolveEndpoint (pa_WGEndpoint announcement) (Some remote)))
             LANMethod now
  end.

(** No datagram panics or breaks the store, and none touches the entry under
    the node's own key. *)
Lemma lan_receive_ok l (s : S) data remote now : sink_inv s ->
  exists s', lan_receive l s data remote now = Some s' /\ sink_inv s'
    /\ sink_get s' (ln_WGPubKey (l_node l)) = sink_get s (ln_WGPubKey (l_node l)).
Proof.
  intros Hs. unfold lan_receive.
  destruct (OpenEnvelope_total (take LANMaxMessageSize data) (l_gossipKey l) now) as [[[env a]|e] ->]; [|by eauto].
  destruct (String.eqb_spec (pa_WGPubKey a) (ln_WGPubKey (l_node l))) as [|Hne]; [by eauto|].
  destruct (sink_update_spec s (lan_peer a (resolveEndpoint (pa_WGEndpoint a) (Some remote))) LANMethod now Hs)
    as (s' & -> & Hs' & _ & Ho & _). exists s'. split; [done|]. split; [done|]. apply Ho. simpl. congruence.
Qed.

(** Restarting does not work: the channel stays closed, so the loops of the
    second run return at once, and stopping the second run panics. *)
Lemma lan_restart_broken l l1 l2 l3 : l_running l = false -> l_stopClosed l = false ->
  lan_Start true l = Ok l1 -> lan_Stop l1 = Some l2 -> lan_Start true l2 = Ok l3 ->
  loops_active l1 = true /\ loops_active l3 = false /\ lan_Stop l3 = None.
Proof.
  unfold lan_Start, lan_Stop, loops_active. intros -> Hc. cbn [negb]. intros [= <-]. cbn. rewrite Hc. cbn.
  intros [= <-]. cbn. by intros [= <-].
Qed.
End lan.

(** ** Two nodes on one network *)

Lemma join_nonempty h p : join_host_port h p <> ""%string.
Proof. unfold join_host_port. destruct (contains_char ":" h); [done|]. by destruct h. Qed.

(** A multicast announcement makes the two nodes reach each other on the
    local network for good: the receiver stores the sender at the address the
    datagram came from with the port the sender advertises, and no update by any
    other discovery method changes that endpoint. *)
Theorem lan_discovery_sticks `{Aead} l (n : LocalNode) ps nonce data from h port us t now :
  store_ok ps -> Get ps (ln_WGPubKey n) = None -> size (peers ps) < DefaultMaxPeers ->
  ln_WGPubKey n <> ln_WGPubKey (l_node l) ->
  length (l_gossipKey l) = 32 -> length nonce = NonceSize -> Forall is_byte nonce ->
  let a := self_announcement n [] t in
  Validate a = Ok tt -> announcement_text a = true -> fresh_at (time_to_unix t) now ->
  SealEnvelope MessageTypeAnnounce (announcement_json a) (l_gossipKey l) (Some nonce) = Ok data ->
  length data <= LANMaxMessageSize ->
  ua_ip from <> [] -> split_host_port (GetEndpoint n) = Some (h, port) -> port <> ""%string ->
  Forall (fun u => u.1.2 <> LANMethod) us ->
  exists ps', lan_receive l ps data from now = Some ps' /\ store_ok ps'
    /\ exists q, run_updates (peers ps') us !! ln_WGPubKey n = Some q
         /\ Endpoint q = join_host_port (ip_string (ua_ip from)) port.
Proof.
  intros Hok Hno Hroom Hne Hk Hn Bn a Hval Ht Hf Hs Hlen Hip Hsp Hport Hus.
  unfold lan_receive. rewrite take_ge by done.
  destruct (open_sealed MessageTypeAnnounce a (l_gossipKey l) nonce now data Hval Ht eq_refl eq_refl Hk Hn Bn Hs Hf)
    as (env & _ & ->).
  change (pa_WGPubKey a) with (ln_WGPubKey n). rewrite (proj2 (String.eqb_neq _ _) Hne).
  set (info := lan_peer a _).
  assert (Endpoint info = join_host_port (ip_string (ua_ip from)) port) as Hep.
  { unfold info. cbn [lan_peer Endpoint]. unfold resolveEndpoint, sender_ip. destruct (ua_ip from) as [|b ip] eqn:E; [done|].
    change (pa_WGEndpoint a) with (GetEndpoint n). rewrite Hsp. by rewrite (proj2 (String.eqb_neq _ _) Hport). }
  destruct (@sink_update_spec PeerStore peer_store_sink ps info LANMethod now Hok) as (ps' & Hu & Hok' & Hg & _).
  exists ps'. split; [exact Hu|]. split; [exact Hok'|].
  change (WGPubKey info) with (ln_WGPubKey n) in Hg. unfold sink_stored in Hg. change (WGPubKey info) with (ln_WGPubKey n) in Hg.
  assert (peers ps' !! ln_WGPubKey n = Some (new_peer info LANMethod now)) as Hget.
  { etrans; [exact Hg|]. simpl. rewrite Hno. rewrite (proj2 (Nat.eqb_neq _ _)); [done|]. lia. }
  rewrite Forall_forall in Hus.
  destruct (run_updates_ind (fun q => Endpoint q = Endpoint info /\ EndpointMethod q = LANMethod)
    (peers ps') us (ln_WGPubKey n) (new_peer info LANMethod now)) as (q & Hq & He & _).
  - intros q i method u Hin _ [Hq Hm]. specialize (Hus _ Hin). rewrite <- Hq. apply merge_lan_sticky; [|done|done].
    rewrite Hq, Hep. apply join_nonempty.
  - exact Hget.
  - split; [done|]. cbn [new_peer EndpointMethod]. rewrite Hep.
    by rewrite (proj2 (String.eqb_neq _ _) (join_nonempty _ _)).
  - exists q. split; [exact Hq|]. by rewrite He, Hep.
Qed.

(** ** Sample *)

Definition lan_b : LANDiscovery := NewLANDiscovery mesh_config node_b.
Definition lan_neighbour : LocalNode :=
  member "AAAAAAAAAAAAAAAAAAAAAAAAAAAAAAAAAAAAAAAAAAA=" "10.7.0.5" "0.0.0.0:51820" false.
Definition lan_sender : UDPAddr := v4addr 192 168 1 5 51830.

Lemma lan_discovery_sticks_witness :
  exists data ps', lan_receive lan_b NewPeerStore data lan_sender t0 = Some ps'
    /\ exists q, run_updates (peers ps') [(sample_peer (ln_WGPubKey lan_neighbour) "203.0.113.9:1" "x" 9%Z, "dht"%string, 10%Z)]
                 !! ln_WGPubKey lan_neighbour = Some q
         /\ Endpoint q = "192.168.1.5:51820"%string.
Proof.
  set (a := self_announcement lan_neighbour [] t0).
  assert (match SealEnvelope MessageTypeAnnounce (announcement_json a) (l_gossipKey lan_b) (Some (replicate 12 3%Z)) with
          | Ok data => Nat.leb (length data) LANMaxMessageSize | Err _ => false end = true) as Hfit
    by (vm_compute; reflexivity).
  destruct (sealed_ok MessageTypeAnnounce (announcement_json a) (l_gossipKey lan_b) (replicate 12 3%Z)) as [data Hd].
  rewrite Hd in Hfit.
  destruct (lan_discovery_sticks lan_b lan_neighbour NewPeerStore (replicate 12 3%Z) data lan_sender "0.0.0.0" "51820"
    [(sample_peer (ln_WGPubKey lan_neighbour) "203.0.113.9:1" "x" 9%Z, "dht"%string, 10%Z)] t0 t0)
    as (ps' & Hr & _ & q & Hq & He).
  - exact NewPeerStore_ok.
  - reflexivity.
  - by_compute.
  - discriminate.
  - vm_compute; reflexivity.
  - reflexivity.
  - by_compute.
  - vm_compute; reflexivity.
  - vm_compute; reflexivity.
  - split; vm_compute; discriminate.
  - exact Hd.
  - apply Nat.leb_le. exact Hfit.
  - discriminate.
  - vm_compute; reflexivity.
  - discriminate.
  - repeat constructor. discriminate.
  - exists data, ps'. split; [exact Hr|]. exists q. split; [exact Hq|]. rewrite He. vm_compute. reflexivity.
Defined.
