(* ===== verification/Status.v ===== *)
(** * What a running daemon reports, and what it tells the other parts
    (pkg/daemon/daemon.go: logging, printStatus, local subnets, the privacy layer's
    peers, the address a probe is sent from; pkg/privacy/dandelion.go: the epoch's
    description) *)

From S2P Require Import Prelude GoStrings GoNet GoText GoDuration PeerStore IfName NodeConfig Dandelion Daemon.
From S2P Require Import Health GoTime GoCrypto.
Local Open Scope wgmesh_scope.

(** ** Logging *)

Inductive Level := LevelDebug | LevelInfo | LevelWarn | LevelError.
Definition level_value (l : Level) : Z :=
  (match l with LevelDebug => -4 | LevelInfo => 0 | LevelWarn => 4 | LevelError => 8 end)%Z.

Definition parseLogLevel (level : string) : Level :=
  let l := to_lower level in
  if String.eqb l "debug" then LevelDebug
  else if String.eqb l "warn" || String.eqb l "warning" then LevelWarn
  else if String.eqb l "error" then LevelError
  else LevelInfo.

(** The handler's threshold, and the level at which [log.Printf] is redirected. *)
Record Logging := { lg_threshold : Level; lg_writer : Level }.
Definition configureLogging (level : string) : Logging :=
  let lvl := parseLogLevel level in {| lg_threshold := lvl; lg_writer := lvl |}.

(** A record that the handler lets through. *)
Definition slog_Log (g : Logging) (l : Level) (msg : string) : option (Level * string) :=
  if (level_value (lg_threshold g) <=? level_value l)%Z then Some (l, msg) else None.

(** [strings.TrimRight(s, "\n")]. *)
Fixpoint trim_newlines (s : string) : string :=
  match s with
  | EmptyString => EmptyString
  | String c rest =>
      match trim_newlines rest with
      | EmptyString => if Ascii.eqb c newline_char then EmptyString else String c EmptyString
      | t => String c t
      end
  end.
Definition Write (g : Logging) (p : string) : option (Level * string) * Z :=
  (slog_Log g (lg_writer g) (trim_newlines p), Z.of_nat (String.length p)).

(** ** The local networks *)

(** An address of an interface is a network, or something else. *)
Record net_interface := { ni_up : bool; ni_loopback : bool; ni_addrs : result (list (option IPNet)) }.

Definition interface_subnets (i : net_interface) : list IPNet :=
  if negb (ni_up i) || ni_loopback i then []
  else match ni_addrs i with Err _ => [] | Ok addrs => omap id addrs end.
Definition detectLocalSubnets (ifaces : result (list net_interface)) : list IPNet :=
  match ifaces with Err _ => [] | Ok l => concat (interface_subnets <$> l) end.
(** A test may put another source of networks in place. *)
Definition getLocalSubnets (localSubnetsFn : option (list IPNet)) (ifaces : result (list net_interface)) : list IPNet :=
  match localSubnetsFn with Some l => l | None => detectLocalSubnets ifaces end.

(** ** The status *)

Definition status_name (p : PeerInfo) : string :=
  if String.eqb (Hostname p) "" then shortKey (WGPubKey p) ^^ "..." else Hostname p.
Definition has_key (k : string) (p : PeerInfo) : bool := String.eqb (WGPubKey p) k.
Definition relay_name (active : list PeerInfo) (relayKey : string) : string :=
  match List.find (has_key relayKey) active with
  | Some rp => if negb (String.eqb (Hostname rp) "") then Hostname rp else shortKey relayKey ^^ "..."
  | None => shortKey relayKey ^^ "..."
  end.
Definition status_route (subnets : list IPNet) (relays : gmap string string) (active : list PeerInfo) (p : PeerInfo) : string :=
  match relays !! WGPubKey p with
  | Some relayKey => "relay:" ^^ relay_name active relayKey
  | None => if hasDiscoveryMethod (DiscoveredVia p) LANMethod || endpointOnAnyLocalSubnet (Endpoint p) subnets
            then "direct-lan" else "direct"
  end.
Definition status_line (subnets : list IPNet) (relays : gmap string string) (active : list PeerInfo) (p : PeerInfo) : string :=
  "  - " ^^ status_name p ^^ " (" ^^ MeshIP p ^^ ") route=" ^^ status_route subnets relays active p
  ^^ " via " ^^ list_text (DiscoveredVia p) ^^ " endpoint=" ^^ Endpoint p.

Definition printStatus (d : Daemon) (now : Time) : list string :=
  let active := GetActive (peerStore d) now in
  ("[Status] Active peers: " ^^ itoa (Z.of_nat (length active)))
  :: (status_line (localSubnets d) (relayRoutes d) active <$> active).

(** ** The privacy layer's peers *)

Definition relay_peer_of (p : PeerInfo) : RelayPeer :=
  {| rp_WGPubKey := WGPubKey p; rp_MeshIP := MeshIP p; rp_Endpoint := Endpoint p |}.
Definition getPrivacyPeers (d : Daemon) (now : Time) : list RelayPeer :=
  relay_peer_of <$> List.filter (fun p => negb (has_key (own_key d) p)) (GetActive (peerStore d) now).

(** [time.Duration.Round] to a positive unit, for a duration that is not negative. *)
Definition duration_round (d unit : Duration) : Duration :=
  (let r := d mod unit in if r + r <? unit then d - r else d + (unit - r))%Z.
Definition FormatEpochInfo (r : DandelionRouter) (now : Time) : string :=
  let e := epoch r in
  let remaining := (ep_Duration e - time_sub now (ep_StartedAt e))%Z in
  let remaining := if (remaining <? 0)%Z then 0%Z else remaining in
  "Epoch " ^^ itoa (ep_ID e) ^^ ": " ^^ itoa (Z.of_nat (length (RelayPeers e))) ^^ " relay peers, "
  ^^ duration_string (duration_round remaining second) ^^ " remaining".

(** ** Where a probe is sent from *)

(** [None]: the system chooses; [Some ip]: this address, [None] in it when the
    node's address is not one. *)
Definition probeLocalAddrForRemote (node : option LocalNode) (remote : string) : option (option (list Z)) :=
  let from := fun addr => if String.eqb addr "" then None else Some (parse_ip addr) in
  match split_host_port remote with
  | None => None
  | Some (host, _) =>
      match parse_ip host with
      | None => None
      | Some ip =>
          match node with
          | None => None
          | Some n => match to4 ip with Some _ => from (ln_MeshIP n) | None => from (ln_MeshIPv6 n) end
          end
      end
  end.

(** What the dialer of a probe is told: the address to send from, the interface to
    bind to, the time to give up after. *)
Record dialer := { dl_local : option (option (list Z)); dl_device : option string; dl_timeout : Duration }.
Definition MeshProbeDialTimeout : Duration := (1200 * millisecond)%Z.
Definition bound_device (os : goos) (iface : string) : option string :=
  match os with Linux => if String.eqb iface "" then None else Some iface | _ => None end.
Definition dialProbeOnInterface (os : goos) (c : Config) (node : option LocalNode) (addr : string) : dialer :=
  {| dl_local := probeLocalAddrForRemote node addr; dl_device := bound_device os (InterfaceName c);
     dl_timeout := MeshProbeDialTimeout |}.
(** The device a probe listener is bound to. *)
Definition listenProbeOnInterface (os : goos) (c : Config) : option string := bound_device os (InterfaceName c).

(** * The reports of a running daemon are true (pkg/daemon/daemon.go, pkg/privacy/dandelion.go)

    The status names the tunnels the reconciliation has built, a message of
    [log.Printf] is never filtered out, a probe leaves from the node's address of
    the same family, and the privacy layer relays through other active peers. *)

(** ** Logging *)

Lemma level_refl l : (level_value l <=? level_value l)%Z = true.
Proof. apply Z.leb_refl. Qed.

(** Whatever the level, a line of [log.Printf] comes out, once and without its line
    end, and the writer says it took all of it. *)
Theorem log_printf_visible level p :
  Write (configureLogging level) p
  = (Some (parseLogLevel level, trim_newlines p), Z.of_nat (String.length p)).
Proof. unfold Write, slog_Log, configureLogging. cbn [lg_threshold lg_writer]. by rewrite level_refl. Qed.

(** A record below the configured level is not, except that an unknown name is
    the level info. *)
Lemma slog_threshold level l msg :
  slog_Log (configureLogging level) l msg = None <-> (level_value l < level_value (parseLogLevel level))%Z.
Proof.
  unfold slog_Log, configureLogging. cbn [lg_threshold]. destruct (Z.leb_spec (level_value (parseLogLevel level)) (level_value l)).
  - split; [done|lia].
  - done.
Qed.

Lemma trim_newlines_idem s : trim_newlines (trim_newlines s) = trim_newlines s.
Proof.
  induction s as [|c s IH]; [done|]. cbn [trim_newlines]. destruct (trim_newlines s) as [|d t] eqn:E.
  - destruct (Ascii.eqb c newline_char) eqn:Ec; [done|]. cbn [trim_newlines]. by rewrite Ec.
  - change (trim_newlines (String c (String d t)))
      with (match trim_newlines (String d t) with EmptyString => if Ascii.eqb c newline_char then EmptyString else String c EmptyString | u => String c u end).
    by rewrite IH.
Qed.

(** ** The status *)

Lemma find_key (ps : list PeerInfo) r :
  NoDup (WGPubKey <$> ps) -> r ∈ ps -> List.find (has_key (WGPubKey r)) ps = Some r.
Proof.
  intros Hnd Hr. induction ps as [|p ps IH]; [by apply not_elem_of_nil in Hr|].
  rewrite fmap_cons in Hnd. apply NoDup_cons in Hnd as [Hp Hnd]. cbn [List.find]. unfold has_key at 1.
  apply elem_of_cons in Hr as [->|Hr]; [by rewrite String.eqb_refl|].
  destruct (String.eqb_spec (WGPubKey p) (WGPubKey r)) as [E|]; [|by apply IH].
  exfalso. apply Hp. rewrite E. by apply list_elem_of_fmap_2.
Qed.

(** A relay is called by the name it has in its own line. *)
Lemma relay_name_known ps r :
  NoDup (WGPubKey <$> ps) -> r ∈ ps -> relay_name ps (WGPubKey r) = status_name r.
Proof.
  intros Hnd Hr. unfold relay_name, status_name. rewrite (find_key ps r Hnd Hr).
  by destruct (String.eqb (Hostname r) "").
Qed.

(** The route in the status is the tunnel that carries the peer's traffic: after a
    reconciliation over the active peers, a peer shown behind a relay has its
    prefixes in the tunnel of the active peer of that name, and any other peer the
    daemon configures is shown as direct and has them in its own. *)
Theorem status_shows_tunnels d hs now p :
  store_ok (peerStore d) ->
  let active := GetActive (peerStore d) now in
  let s := buildDesiredPeerConfigsWithHandshakes d active hs now in
  let route := status_route (localSubnets d) (bs_relays s) active p in
  p ∈ active -> eligible d now p ->
  match relay_for d (filter (candidate d now) active) hs now p with
  | Some r => r ∈ active /\ WGPubKey r <> own_key d /\ route = "relay:" ^^ status_name r
              /\ forall c, c ∈ peer_cidrs p -> c ∈ allowed_of (bs_desired s) (WGPubKey r)
  | None => (route = "direct" \/ route = "direct-lan")%string
            /\ forall c, c ∈ peer_cidrs p -> c ∈ allowed_of (bs_desired s) (WGPubKey p)
  end.
Proof.
  intros Hok active s route Hp He. pose proof (GetActive_keys _ now Hok) as Hnd. fold active in Hnd.
  destruct (desired_spec d active hs now) as (Hd & Hr & _). fold s in Hd.
  destruct (build_spec d active hs now) as (s0 & Hoff & _ & Hrel & _ & Es). fold s in Es.
  destruct (build_fold_maps d (filter (candidate d now) active) hs now active s0 (WGPubKey p) Hoff Hnd) as [Hmap _].
  destruct (Hmap p Hp eq_refl He) as [Hrelay _]. rewrite <- Es, Hrel, lookup_empty in Hrelay.
  assert (forall k, k = WGPubKey (default p (relay_for d (filter (candidate d now) active) hs now p)) ->
                    forall c, c ∈ peer_cidrs p -> c ∈ allowed_of (bs_desired s) k) as Hc
    by (intros k Hk c Hin; apply Hd; by exists p).
  unfold route, status_route. rewrite Hrelay.
  destruct (relay_for d (filter (candidate d now) active) hs now p) as [r|] eqn:Er.
  - destruct (Hr p r Er) as [Hin [Hown _]]. split; [done|]. split; [done|]. rewrite (relay_name_known _ _ Hnd Hin).
    split; [done|]. by apply Hc.
  - split; [split_if; [by right|by left]|]. by apply Hc.
Qed.

(** One line for the number of active peers, and one for each of them. *)
Lemma status_lines d now :
  length (printStatus d now) = S (length (GetActive (peerStore d) now))
  /\ forall p, p ∈ GetActive (peerStore d) now ->
       status_line (localSubnets d) (relayRoutes d) (GetActive (peerStore d) now) p ∈ printStatus d now.
Proof.
  split; [unfold printStatus; cbn [length]; by rewrite length_fmap|].
  intros p Hp. unfold printStatus. right. by apply list_elem_of_fmap_2.
Qed.

(** ** The privacy layer *)

(** The relays of an epoch are active peers of the store, at most two, all
    different, and never the node itself. *)
Theorem epoch_relays `{Shuffler} r d now :
  store_ok (peerStore d) ->
  let relays := RelayPeers (epoch (RotateEpoch r (getPrivacyPeers d now) now)) in
  NoDup relays /\ (length relays <= 2)%nat
  /\ forall q, q ∈ relays -> exists p, p ∈ GetActive (peerStore d) now /\ q = relay_peer_of p /\ WGPubKey p <> own_key d.
Proof.
  intros Hok. cbv zeta. unfold RotateEpoch. cbn [epoch RelayPeers].
  assert (NoDup (rp_WGPubKey <$> getPrivacyPeers d now)) as Hnd.
  { unfold getPrivacyPeers. rewrite <- list_fmap_compose.
    change (rp_WGPubKey ∘ relay_peer_of) with WGPubKey.
    pose proof (GetActive_keys (peerStore d) now Hok) as Hk. revert Hk.
    generalize (GetActive (peerStore d) now). intros l Hl. induction l as [|p l IH]; [constructor|].
    rewrite fmap_cons in Hl. apply NoDup_cons in Hl as [Hp Hl]. cbn [List.filter].
    split_if; [|by apply IH]. rewrite fmap_cons. apply NoDup_cons. split; [|by apply IH].
    intros (q & Hq & Hin)%list_elem_of_fmap. apply Hp. rewrite Hq. apply list_elem_of_fmap_2.
    by apply list_elem_of_In, filter_In in Hin as [Hin%list_elem_of_In _]. }
  destruct (relay_selection_agrees (epochSeed r) (u64 (ep_ID (epoch r) + 1)) _ _ 2 Hnd ltac:(done))
    as (_ & Hlen & Hn & Hin).
  split; [done|]. split; [lia|]. intros q Hq. apply Hin in Hq. unfold getPrivacyPeers in Hq.
  apply list_elem_of_fmap in Hq as (p & -> & Hp). apply list_elem_of_In, filter_In in Hp as [Hp Hk].
  exists p. split; [by apply list_elem_of_In|]. split; [done|].
  unfold has_key in Hk. intros E. rewrite E, String.eqb_refl in Hk. done.
Qed.

(** ** Probes *)

Lemma probe_none n remote host port :
  split_host_port remote = Some (host, port) -> parse_ip host = None -> probeLocalAddrForRemote n remote = None.
Proof. intros Hs Hp. unfold probeLocalAddrForRemote. by rewrite Hs, Hp. Qed.

(** A probe is sent from the node's mesh address of the family of the address it
    goes to, when the node has one. *)
Theorem probe_same_family n remote host port ip from :
  split_host_port remote = Some (host, port) -> parse_ip host = Some ip ->
  (forall a, parse_ip (ln_MeshIP n) = Some a -> to4 a <> None) ->
  (forall a, parse_ip (ln_MeshIPv6 n) = Some a -> to4 a = None) ->
  probeLocalAddrForRemote (Some n) remote = Some (Some from) ->
  (to4 from = None <-> to4 ip = None).
Proof.
  intros Hs Hp H4 H6. unfold probeLocalAddrForRemote. rewrite Hs, Hp.
  destruct (to4 ip) as [v|] eqn:E; split_if; intros [= Hf].
  - specialize (H4 from Hf). by split.
  - specialize (H6 from Hf). by split.
Qed.
