(* ===== verification/Metrics.v ===== *)
(** * The Prometheus metrics of the daemon (pkg/daemon/metrics.go)

    The collectors are those of a library: a gauge holds the last value set, a counter
    the number of increments, a histogram or summary the observations made.  They are
    known by their name and the value of their label. *)

From S2P Require Import Prelude GoStrings GoFloat GoTime GoMaps PeerStore IfName NodeConfig Daemon Health.
From S2P Require Import PeerSink Exchange Dht Stun.
Local Open Scope wgmesh_scope.

Record PromRegistry := {
  rg_done : bool;                          (* metricsRegistered *)
  rg_names : list string;                  (* what is registered with the library *)
}.
Record MetricsState := {
  mp_registry : PromRegistry;
  mp_gauges : gmap (string * string) float64;
  mp_counters : gmap (string * string) Z;
  mp_observed : list (string * string * float64);
}.
Definition no_metrics : MetricsState :=
  {| mp_registry := {| rg_done := false; rg_names := [] |}; mp_gauges := ∅; mp_counters := ∅; mp_observed := [] |}.

(** ** Registration *)

Definition collectors : list string :=
  ["wgmesh_active_peers"; "wgmesh_relayed_peers"; "wgmesh_nat_type"; "wgmesh_discovery_events_total";
   "wgmesh_reconcile_duration_seconds"; "wgmesh_probe_rtt_seconds"; "wgmesh_probe_rtt_summary_seconds";
   "wgmesh_nat_traversal_attempts_total"; "wgmesh_nat_traversal_successes_total"; "go"; "process"]%string.

(** Registering a name twice panics. *)
Definition MustRegister (names : list string) (name : string) : option (list string) :=
  if bool_decide (name ∈ names) then None else Some (names ++ [name]).
Definition register_all (names : list string) (l : list string) : option (list string) :=
  foldl (fun acc n => names ← acc; MustRegister names n) (Some names) l.
Definition RegisterMetrics (r : PromRegistry) : option PromRegistry :=
  if rg_done r then Some r
  else names ← register_all (rg_names r) collectors; Some {| rg_done := true; rg_names := names |}.

(** ** Recording *)

Definition set_gauge (name label : string) (v : Z) (m : MetricsState) : MetricsState :=
  {| mp_registry := mp_registry m; mp_gauges := <[(name, label) := f_of_Z v]> (mp_gauges m); mp_counters := mp_counters m;
     mp_observed := mp_observed m |}.
Definition inc_counter (name label : string) (m : MetricsState) : MetricsState :=
  {| mp_registry := mp_registry m; mp_gauges := mp_gauges m;
     mp_counters := <[(name, label) := (default 0%Z (mp_counters m !! (name, label)) + 1)%Z]> (mp_counters m); mp_observed := mp_observed m |}.
Definition observe (name label : string) (v : float64) (m : MetricsState) : MetricsState :=
  {| mp_registry := mp_registry m; mp_gauges := mp_gauges m; mp_counters := mp_counters m;
     mp_observed := mp_observed m ++ [(name, label, v)] |}.

Definition nat_labels : list string := ["cone"; "symmetric"; "unknown"]%string.
Definition UpdateMetrics (d : option Daemon) (m : MetricsState) : MetricsState :=
  match d with
  | None => m
  | Some d =>
      let m := set_gauge "wgmesh_active_peers" "" (Z.of_nat (Count (peerStore d))) m in
      let m := set_gauge "wgmesh_relayed_peers" "" (Z.of_nat (size (currentRelayRoutesSnapshot d))) m in
      let nt := if String.eqb (ln_NATType (localNode d)) "" then "unknown"%string else ln_NATType (localNode d) in
      foldl (fun m label => set_gauge "wgmesh_nat_type" label (if String.eqb label nt then 1 else 0)%Z m) m nat_labels
  end.

Definition since_seconds (start now : Time) : float64 := duration_seconds (time_sub now start).
Definition ObserveReconcileDuration (start now : Time) : MetricsState -> MetricsState := observe "wgmesh_reconcile_duration_seconds" "" (since_seconds start now).
Definition RecordDiscoveryEvent (layer : string) : MetricsState -> MetricsState := inc_counter "wgmesh_discovery_events_total" layer.
Definition ObserveProbeRTT (peerKey : string) (start now : Time) : MetricsState -> MetricsState := observe "wgmesh_probe_rtt_seconds" peerKey (since_seconds start now).
Definition ObserveProbeRTTSummary (peerKey : string) (rtt : Duration) : MetricsState -> MetricsState :=
  observe "wgmesh_probe_rtt_summary_seconds" peerKey (duration_seconds rtt).
Definition RecordNATTraversalAttempt (method : string) : MetricsState -> MetricsState := inc_counter "wgmesh_nat_traversal_attempts_total" method.
Definition RecordNATTraversalSuccess (method : string) : MetricsState -> MetricsState := inc_counter "wgmesh_nat_traversal_successes_total" method.

(** What an exchange with an address records: nothing for an address that is refused,
    an attempt otherwise, and a success when a peer answered. *)
Inductive exchange_outcome := Refused_address | Exchange_failed | Exchange_done.
Definition exchange_metrics (method : string) (o : exchange_outcome) (m : MetricsState) : MetricsState :=
  match o with
  | Refused_address => m
  | Exchange_failed => RecordNATTraversalAttempt method m
  | Exchange_done => RecordDiscoveryEvent "dht" (RecordNATTraversalSuccess method (RecordNATTraversalAttempt method m))
  end.

(** ** Registration is done once *)

Lemma register_first : RegisterMetrics (mp_registry no_metrics) = Some {| rg_done := true; rg_names := collectors |}.
Proof. vm_compute. reflexivity. Qed.

(** Registering again, as often as one likes, neither panics nor changes anything. *)
Theorem register_idempotent r : RegisterMetrics (mp_registry no_metrics) = Some r -> RegisterMetrics r = Some r.
Proof. rewrite register_first. by intros [= <-]. Qed.

(** ** The gauges *)

Definition gauge (m : MetricsState) (name label : string) : option float64 := mp_gauges m !! (name, label).

(** Whatever was there before: the number of peers in the store, of relayed peers, and
    the NAT type as one label that is 1 among two that are 0. *)
Theorem gauges_after d m :
  ln_NATType (localNode d) ∈ ""%string :: nat_labels ->
  let m' := UpdateMetrics (Some d) m in
  gauge m' "wgmesh_active_peers" "" = Some (f_of_Z (Z.of_nat (size (peers (peerStore d))))) /\
  gauge m' "wgmesh_relayed_peers" "" = Some (f_of_Z (Z.of_nat (size (relayRoutes d)))) /\
  exists l, l ∈ nat_labels /\ (ln_NATType (localNode d) = l \/ ln_NATType (localNode d) = ""%string /\ l = "unknown"%string)
    /\ forall l', l' ∈ nat_labels -> gauge m' "wgmesh_nat_type" l' = Some (f_of_Z (if decide (l' = l) then 1 else 0)).
Proof.
  intros Hn. cbv zeta. unfold gauge, UpdateMetrics, nat_labels, set_gauge. cbn [foldl mp_gauges].
  split; [by rewrite !lookup_insert_ne, lookup_insert_eq by done|].
  split; [by rewrite !lookup_insert_ne, lookup_insert_eq by done|].
  assert (forall nt, nt ∈ nat_labels -> forall l', l' ∈ nat_labels ->
    <[("wgmesh_nat_type", "unknown") := f_of_Z (if String.eqb "unknown" nt then 1 else 0)]>
      (<[("wgmesh_nat_type", "symmetric") := f_of_Z (if String.eqb "symmetric" nt then 1 else 0)]>
        (<[("wgmesh_nat_type", "cone") := f_of_Z (if String.eqb "cone" nt then 1 else 0)]>
           (<[("wgmesh_relayed_peers", "") := f_of_Z (Z.of_nat (size (relayRoutes d)))]>
              (<[("wgmesh_active_peers", "") := f_of_Z (Z.of_nat (size (peers (peerStore d))))]> (mp_gauges m)))))
      !! ("wgmesh_nat_type", l')%string = Some (f_of_Z (if decide (l' = nt) then 1 else 0)))%string as H.
  { unfold nat_labels. intros nt Hnt l' Hl'. rewrite !elem_of_cons in Hnt, Hl'.
    destruct Hl' as [->|[->|[->|Hl']]]; [..|by apply not_elem_of_nil in Hl'];
      (destruct Hnt as [->|[->|[->|Hnt]]]; [..|by apply not_elem_of_nil in Hnt]);
      rewrite ?lookup_insert_ne by done; by rewrite lookup_insert_eq. }
  apply elem_of_cons in Hn as [Hn|Hn].
  - exists "unknown"%string. split; [by do 2 right; left|]. split; [by right|]. rewrite Hn. intros l' Hl'. by apply (H "unknown"%string); [do 2 right; left|].
  - exists (ln_NATType (localNode d)). split; [done|]. split; [by left|]. intros l' Hl'.
    destruct (String.eqb_spec (ln_NATType (localNode d)) "") as [E|_]; [|by apply H].
    exfalso. rewrite E in Hn. unfold nat_labels in Hn. rewrite !elem_of_cons in Hn. destruct Hn as [?|[?|[?|Hn]]]; try done. by apply not_elem_of_nil in Hn.
Qed.

(** The NAT types that the probes find are among the labels. *)
Lemma nat_type_label t : nat_type_string t ∈ nat_labels.
Proof. destruct t; unfold nat_labels, nat_type_string; rewrite !elem_of_cons; tauto. Qed.

(** The gauge that is called active counts every peer of the store, also those that
    were last seen too long ago to be active. *)
Example active_gauge_counts_stale :
  let d := set_store sample_daemon {| peers := {["old"%string := relay_sample "old" "1.1.1.1:1"]}; chans := ∅; subscribers := [] |} in
  let now := time_add (LastSeen (relay_sample "old" "1.1.1.1:1")) (24 * hour)%Z in
  gauge (UpdateMetrics (Some d) no_metrics) "wgmesh_active_peers" "" = Some (f_of_Z 1) /\ GetActive (peerStore d) now = [].
Proof. split; vm_compute; reflexivity. Qed.

(** ** The counters *)

Definition counted (m : MetricsState) (name label : string) : Z := default 0%Z (mp_counters m !! (name, label)).

Lemma counted_inc m name label name' label' :
  counted (inc_counter name label m) name' label'
  = (counted m name' label' + (if decide ((name', label') = (name, label)) then 1 else 0))%Z.
Proof.
  unfold counted, inc_counter. cbn [mp_counters]. case_decide as E.
  - injection E as -> ->. by rewrite lookup_insert_eq.
  - rewrite lookup_insert_ne by done. lia.
Qed.

(** For every method there are at most as many successes as attempts. *)
Theorem successes_bounded l m :
  (forall k, counted m "wgmesh_nat_traversal_successes_total" k <= counted m "wgmesh_nat_traversal_attempts_total" k)%Z ->
  let m' := foldl (fun m e => exchange_metrics e.1 e.2 m) m l in
  forall k, (counted m' "wgmesh_nat_traversal_successes_total" k <= counted m' "wgmesh_nat_traversal_attempts_total" k)%Z.
Proof.
  revert m. induction l as [|[method o] l IH]; intros m Hm; cbn [foldl fst snd]; [done|].
  apply IH. intros k. specialize (Hm k). destruct o; cbn [exchange_metrics];
    unfold RecordDiscoveryEvent, RecordNATTraversalSuccess, RecordNATTraversalAttempt; rewrite ?counted_inc; repeat case_decide; simplify_eq; lia.
Qed.
