(* ===== verification/Loops.v ===== *)
(** * The loops of a running node
    (pkg/daemon/daemon.go, pkg/discovery: dht.go, exchange.go, gossip.go, lan.go; pkg/rpc/server.go)

    A goroutine that wakes up at its ticker, at a datagram or at a connection, and
    ends with the context: the sequence of what wakes it is an argument, its turn is
    the operation of the component it belongs to. *)

From S2P Require Import Prelude GoStrings GoNet GoMaps PeerStore Aead RateLimit NodeConfig IfName WgConfig.
From S2P Require Import Iface Dandelion Daemon Health PeerSink Exchange Gossip Protocol Dht Lan External Cache.
From S2P Require Import Status GoJson.
Local Open Scope wgmesh_scope.

(** ** Loops at a ticker *)

Inductive wake (E : Type) := Tick (e : E) | Ended.
Arguments Tick {E} e.
Arguments Ended {E}.

(** The state when the loop has ended, or still waits; [None]: a turn panicked. *)
Fixpoint ticker_loop {S E} (turn : E -> S -> option S) (l : list (wake E)) (s : S) : option (S * bool) :=
  match l with
  | [] => Some (s, false)
  | Ended :: _ => Some (s, true)
  | Tick e :: l => s' ← turn e s; ticker_loop turn l s'
  end.

(** With a first turn before the ticker is made. *)
Definition turn_then_loop {S E} (turn : E -> S -> option S) (first : E) (l : list (wake E)) (s : S) : option (S * bool) :=
  s' ← turn first s; ticker_loop turn l s'.

(** *** The daemon's: the daemon and the commands issued so far *)

Definition daemon_state : Type := Daemon * wg_log.

Definition reconcile_turn (os : goos) (w : world) (s : daemon_state) : option daemon_state :=
  let '(d', l, _, _) := reconcile os w s.1 in Some (d', s.2 ++ l).
Definition reconcileLoop (os : goos) : list (wake world) -> daemon_state -> option (daemon_state * bool) :=
  ticker_loop (reconcile_turn os).

Record health_look := { hl_ok : wg_op -> bool; hl_handshakes : result (gmap string Z); hl_transfers : result (gmap string PeerTransfer); hl_now : Time }.
Definition health_turn (e : health_look) (s : daemon_state) : option daemon_state :=
  let '(d', l) := checkPeerHealth (hl_ok e) s.1 (hl_handshakes e) (hl_transfers e) (hl_now e) in Some (d', s.2 ++ l).
Definition healthMonitorLoop : list (wake health_look) -> daemon_state -> option (daemon_state * bool) := ticker_loop health_turn.

Record probe_look := { pl_ok : wg_op -> bool; pl_net : net_world; pl_handshakes : result (gmap string Z) }.
Definition probe_turn (e : probe_look) (s : daemon_state) : option daemon_state :=
  '(d', l) ← probePeersOverMesh (pl_ok e) (pl_net e) s.1 (pl_handshakes e); Some (d', s.2 ++ l).
Definition meshProbeLoop : list (wake probe_look) -> daemon_state -> option (daemon_state * bool) := ticker_loop probe_turn.

Record cleanup_look := { cl_ok : wg_op -> bool; cl_now : Time }.
Definition cleanup_turn (e : cleanup_look) (s : daemon_state) : option daemon_state :=
  let '(d', l) := stale_cleanup (cl_ok e) s.1 (cl_now e) in Some (d', s.2 ++ l).
Definition staleCleanupLoop : list (wake cleanup_look) -> daemon_state -> option (daemon_state * bool) := ticker_loop cleanup_turn.

(** The status printer reads the daemon as it is at the tick. *)
Definition statusLoop (l : list (wake (Daemon * Time))) : option (list string * bool) :=
  ticker_loop (fun e out => Some (out ++ printStatus e.1 e.2)) l [].

(** *** The epochs of the privacy layer (pkg/daemon/epoch.go) *)

(** Between [Start] and [Stop] the rotation runs. *)
Record EpochManager := { em_router : DandelionRouter; em_started : bool; em_cancelled : bool }.
Definition NewEpochManager (epochSeed : list Z) (now : Time) : EpochManager :=
  {| em_router := NewDandelionRouter epochSeed now; em_started := false; em_cancelled := false |}.
Definition epoch_Start (em : EpochManager) : EpochManager := {| em_router := em_router em; em_started := true; em_cancelled := false |}.
Definition epoch_Stop (em : EpochManager) : EpochManager :=
  if em_started em then {| em_router := em_router em; em_started := true; em_cancelled := true |} else em.
Definition GetRouter (em : EpochManager) : DandelionRouter := em_router em.
Definition GetCurrentEpoch (em : EpochManager) : Epoch := GetEpoch (em_router em).
(** A turn: the peers the daemon knows, and the clock. *)
Definition epoch_loop `{Shuffler} (first : list RelayPeer * Time) (l : list (wake (list RelayPeer * Time))) (r : DandelionRouter)
    : option (DandelionRouter * bool) :=
  turn_then_loop (fun e r => Some (RotateEpoch r e.1 e.2)) first l r.

(** *** Connections to the probe port and to the RPC socket *)

(** [Accept] fails: the loop ends when the context has. *)
Inductive accept_event (C : Type) := Accepted (c : C) | AcceptFailed (cancelled : bool).
Arguments Accepted {C} c.
Arguments AcceptFailed {C} cancelled.
(** The connections handed to a handler, and whether the loop has ended. *)
Fixpoint accept_loop {C} (l : list (accept_event C)) : list C * bool :=
  match l with
  | [] => ([], false)
  | Accepted c :: l => let '(cs, b) := accept_loop l in (c :: cs, b)
  | AcceptFailed true :: _ => ([], true)
  | AcceptFailed false :: l => accept_loop l
  end.
(** A connection to the probe port sends lines, and gets these. *)
Definition acceptProbeConnections (l : list (accept_event (list string))) : list (list string) * bool :=
  let '(cs, b) := accept_loop l in (handleProbeConnection <$> cs, b).

(** ** Datagrams *)

(** What a turn of a listener finds: the stop channel closed, no datagram within the
    second, a failed read, or a datagram. *)
Inductive listen_event (A : Type) := StopClosed | ReadTimeout | ReadFailed | Packet (a : A).
Arguments StopClosed {A}.
Arguments ReadTimeout {A}.
Arguments ReadFailed {A}.
Arguments Packet {A} a.

Fixpoint listen_loop {S A} (turn : A -> S -> option S) (l : list (listen_event A)) (s : S) : option (S * bool) :=
  match l with
  | [] => Some (s, false)
  | StopClosed :: _ => Some (s, true)
  | (ReadTimeout | ReadFailed) :: l => listen_loop turn l s
  | Packet a :: l => s' ← turn a s; listen_loop turn l s'
  end.

Section discovery.
Context {S : Type} {sink : PeerSink S} {cipher : Aead}.
Notation PE := (PeerExchange S).

Definition exchange_turn (m : arrival) (s : PE * list (list effect)) : option (PE * list (list effect)) :=
  '(pe', effs) ← receive s.1 (ar_data m) (ar_from m) (ar_nonce m) (ar_now m); Some (pe', s.2 ++ [effs]).
Definition exchange_listenLoop (l : list (listen_event arrival)) (pe : PE) : option (PE * list (list effect) * bool) :=
  listen_loop exchange_turn l (pe, []).

Definition gossip_turn (m : arrival) (s : MeshGossip * S) : option (MeshGossip * S) :=
  gossip_receive s.1 s.2 (ar_data m) (ar_from m) (ar_now m).
Definition gossip_listenLoop (l : list (listen_event arrival)) (g : MeshGossip) (s : S) : option (MeshGossip * S * bool) :=
  listen_loop gossip_turn l (g, s).

Definition lan_listenLoop (n : LANDiscovery) (l : list (listen_event arrival)) (s : S) : option (S * bool) :=
  listen_loop (fun m s => lan_receive n s (ar_data m) (ar_from m) (ar_now m)) l s.

(** ** Announcements *)

(** A turn: the nonce drawn, the clock, and (for the gossip) the store and the draw. *)
Definition lan_announceLoop (n : LANDiscovery) (first : option (list Z) * Time) (l : list (wake (option (list Z) * Time)))
    : option (list effect * bool) :=
  turn_then_loop (fun e out => Some (out ++ lan_announce n e.1 e.2)) first l [].

Record gossip_look := { go_exchange : PE; go_store : S; go_draw : nat -> nat; go_nonce : option (list Z); go_now : Time }.
Definition gossipLoop (g : MeshGossip) (l : list (wake gossip_look)) : option (list effect * bool) :=
  ticker_loop (fun e out => Some (out ++ exchangeWithRandomPeer g (go_exchange e) (go_store e) (go_draw e) (go_nonce e) (go_now e))) l [].

Context {W : Type} {dht_net : DhtNet W}.

Record announce_look := { an_started : list Z -> bool; an_now : Time }.
(** The network changes by announcements only, as this node sees it. *)
Definition dht_announceLoop (host secret : string) (port : Z) (first : announce_look) (l : list (wake announce_look)) (w : W) : option (W * bool) :=
  turn_then_loop (fun e w => Some (announce_all (an_started e) host w secret port (an_now e))) first l w.

(** The interval at which the next lookup comes is part of the state. *)
Record query_look := { qy_started : list Z -> bool; qy_net : W; qy_count : nat; qy_now : Time }.
Definition query_turn (secret : string) (e : query_look) (s : DHTDiscovery S * list dht_action) : DHTDiscovery S * list dht_action :=
  let '(d, acts) := query_all (qy_started e) s.1 (qy_net e) (queryPeers secret (qy_now e)) (qy_now e) in (d, s.2 ++ acts).
Definition queryLoop (secret : string) (first : query_look) (l : list (wake query_look)) (d : DHTDiscovery S)
    : option (DHTDiscovery S * list dht_action * Duration * bool) :=
  ticker_loop (fun e s => Some (query_turn secret e s.1, query_tick s.2 (qy_count e))) l
    (query_turn secret first (d, []), DHTQueryInterval).

(** *** The transitive connections *)

Inductive transitive_event :=
  | StoreEvent (env : probe_env) (pubKey : string) (now : Time)
  | StoreClosed
  | StaleTick (env : probe_env) (now : Time)
  | TransitiveEnded.
Fixpoint transitive_loop (l : list transitive_event) (s : DHTDiscovery S * list dht_action) : DHTDiscovery S * list dht_action * bool :=
  match l with
  | [] => (s, false)
  | (StoreClosed | TransitiveEnded) :: _ => (s, true)
  | StoreEvent env k now :: l => let '(d, acts) := handlePeerEvent s.1 env k now in transitive_loop l (d, s.2 ++ acts)
  | StaleTick env now :: l => let '(d, acts) := checkStaleHandshakes s.1 env now in transitive_loop l (d, s.2 ++ acts)
  end.
Definition transitiveConnectLoop (env : probe_env) (now : Time) (l : list transitive_event) (d : DHTDiscovery S)
    : DHTDiscovery S * list dht_action * bool :=
  transitive_loop l (tryTransitivePeersWithBackoff d env now).
End discovery.

Record stun_look := { sl_ifaces : option (list iface); sl_answers : stun_answers }.
Definition stunRefreshLoop (servers : list string) (cfg : Config) (l : list (wake stun_look)) (n : LocalNode) : option (LocalNode * bool) :=
  ticker_loop (fun e n => Some (stun_refresh servers cfg (sl_ifaces e) (sl_answers e) n)) l n.

(** ** The nodes of the DHT on disk *)

(** The library's file of nodes: what is written for a table and what is read back. *)
Class NodeFile (A : Type) := {
  node_text : list A -> string;
  node_read : string -> option (list A);
  node_read_text : forall ns, node_read (node_text ns) = Some ns;
}.

(** What the system answers to a save: the directory, the file. *)
Record save_answer := { sv_dir : bool; sv_file : bool }.
(** [nodes] is [None] without a server; [file] is the file before. *)
Definition persistNodes `{NodeFile A} (nodes : option (list A)) (a : save_answer) (file : option string) : option string :=
  match nodes with
  | None | Some [] => file
  | Some ns => if sv_dir a && sv_file a then Some (node_text ns) else file
  end.
(** The server's table after loading. *)
Definition loadPersistedNodes `{NodeFile A} (nodes : option (list A)) (file : option string) : option (list A) :=
  match nodes with
  | None => None
  | Some ns => match file with
               | None => Some ns
               | Some text => match node_read text with None => Some ns | Some more => Some (ns ++ more) end
               end
  end.
Definition persistLoop `{NodeFile A} (l : list (wake (option (list A) * save_answer))) (file : option string) : option (option string * bool) :=
  ticker_loop (fun e file => Some (persistNodes e.1 e.2 file)) l file.

(** ** The peer cache *)

(** A write of the cache file: whole, not begun (no directory, or the file not
    opened), or given up after some of it, which truncates the file. *)
Inductive write_answer := Written | NotOpened | Cut (n : nat).
Record cache_look := { ca_store : PeerStore; ca_write : write_answer; ca_now : Time }.
Definition cache_save (e : cache_look) (file : option string) : option string :=
  let text := SavePeerCache (ca_store e) (ca_now e) in
  match ca_write e with Written => Some text | NotOpened => file | Cut n => Some (str_take n text) end.
(** The ticks, and the final save when the context ends. *)
Definition StartCacheSaver (ticks : list cache_look) (final : option cache_look) (file : option string) : option string :=
  let file := foldl (fun file e => cache_save e file) file ticks in
  match final with Some e => cache_save e file | None => file end.

(** ** Waiting for a handshake *)

Definition HandshakePollInterval : Duration := (250 * millisecond)%Z.

Section wait.
(** The clock at the [i]th time it is read, and what [wg show] gives after that. *)
Context (clock : nat -> Time) (shown : nat -> probe_env).

Fixpoint wait_loop (fuel i : nat) (deadline : Time) (reading : nat -> Z) (baseline : Z) : option Z :=
  match fuel with
  | O => None
  | S fuel =>
      if time_after deadline (clock i) then
        if (baseline <? reading i)%Z then Some (reading i) else wait_loop fuel (S i) deadline reading baseline
      else Some (reading i)
  end.
Definition waitForPeerHandshake (fuel : nat) (iface peerPubKey : string) (baseline : Z) (timeout : Duration) : option Z :=
  wait_loop fuel 1 (time_add (clock 0) timeout) (fun i => getPeerHandshakeTS (shown i) iface peerPubKey) baseline.
End wait.

(** * The loops of a running node do what their turns do (pkg/daemon, pkg/discovery)

    Each loop only takes steps of its component, so the invariants of the component
    hold while it runs; the listeners survive whatever arrives; the pace of the
    lookups and the wait for a handshake are bounded. *)

(** ** At a ticker *)

Lemma ticker_loop_steps {S E} (R : relation S) (turn : E -> S -> option S) l s s' b :
  (forall e s s', turn e s = Some s' -> R s s') -> ticker_loop turn l s = Some (s', b) -> rtc R s s'.
Proof.
  intros Ht. revert s. induction l as [|[e|] l IH]; intros s; cbn [ticker_loop].
  - intros [= <- <-]. done.
  - destruct (turn e s) as [s1|] eqn:E1; [|done]. cbn [mbind option_bind]. intros H. eapply rtc_l; [by eapply Ht|by apply IH].
  - intros [= <- <-]. done.
Qed.

(** A loop whose turns cannot panic goes on until it is told to end. *)
Lemma ticker_loop_total {S E} (turn : E -> S -> S) l s :
  exists s' b, ticker_loop (fun e s => Some (turn e s)) l s = Some (s', b) /\ (b = true <-> Ended ∈ l).
Proof.
  revert s. induction l as [|[e|] l IH]; intros s; cbn [ticker_loop mbind option_bind].
  - exists s, false. split; [done|]. split; [done|]. intros H. by apply not_elem_of_nil in H.
  - destruct (IH (turn e s)) as (s' & b & -> & Hb). exists s', b. split; [done|]. rewrite Hb, elem_of_cons.
    split; [by right|]. by intros [?|?].
  - exists s, true. split; [done|]. split; [by left|done].
Qed.

(** What comes after the end is not looked at. *)
Lemma ticker_loop_ended {S E} (turn : E -> S -> option S) l l' s s' :
  ticker_loop turn l s = Some (s', true) -> ticker_loop turn (l ++ l') s = Some (s', true).
Proof.
  revert s. induction l as [|[e|] l IH]; intros s; cbn [ticker_loop app]; [done| |done].
  destruct (turn e s) as [s1|]; [|done]. cbn [mbind option_bind]. apply IH.
Qed.

(** *** The daemon's loops *)

Lemma reconcileLoop_steps os l s s' b : reconcileLoop os l s = Some (s', b) -> rtc daemon_step s s'.
Proof.
  apply ticker_loop_steps. intros w [d log] s1. unfold reconcile_turn. cbn [fst snd].
  destruct (reconcile os w d) as [[[d' l'] cmds] addrs] eqn:E. intros [= <-]. 
  exists Reconciling, l'. split; [by eapply step_reconcile|done].
Qed.
Lemma healthMonitorLoop_steps l s s' b : healthMonitorLoop l s = Some (s', b) -> rtc daemon_step s s'.
Proof.
  apply ticker_loop_steps. intros e [d log] s1. unfold health_turn. cbn [fst snd].
  destruct (checkPeerHealth _ d _ _ _) as [d' l'] eqn:E. intros [= <-]. 
  exists HealthChecking, l'. split; [by eapply step_health|done].
Qed.
Lemma meshProbeLoop_steps l s s' b : meshProbeLoop l s = Some (s', b) -> rtc daemon_step s s'.
Proof.
  apply ticker_loop_steps. intros e [d log] s1. unfold probe_turn. cbn [fst snd].
  destruct (probePeersOverMesh _ _ d _) as [[d' l']|] eqn:E; [|done]. cbn [mbind option_bind]. intros [= <-]. 
  exists Probing, l'. split; [by eapply step_probe|done].
Qed.

Lemma staleCleanupLoop_steps l s s' b : staleCleanupLoop l s = Some (s', b) -> rtc daemon_step s s'.
Proof.
  apply ticker_loop_steps. intros e [d log] s1. unfold cleanup_turn. cbn [fst snd].
  destruct (stale_cleanup _ d _) as [d' l'] eqn:E. intros [= <-].
  exists Cleaning, l'. split; [by eapply step_cleanup|done].
Qed.

(** The status loop prints a page for every tick until it ends. *)
Lemma statusLoop_pages ticks rest :
  statusLoop ((Tick <$> ticks) ++ Ended :: rest) = Some (concat ((fun e => printStatus e.1 e.2) <$> ticks), true).
Proof.
  unfold statusLoop. assert (forall out, ticker_loop (fun e out => Some (out ++ printStatus e.1 e.2)) ((Tick <$> ticks) ++ Ended :: rest) out
    = Some (out ++ concat ((fun e => printStatus e.1 e.2) <$> ticks), true)) as H; [|by rewrite H].
  induction ticks as [|e ticks IH]; intros out; [by rewrite app_nil_r|].
  cbn [fmap list_fmap app ticker_loop mbind option_bind concat]. by rewrite IH, app_assoc.
Qed.

(** *** The epochs *)

(** The rotation is that of [EpochRotationLoop] over the ticks until the end: one
    epoch for the start and one for each of them, numbered one after the other. *)
Lemma rotation_epochs `{Shuffler} (ts : list (list RelayPeer * Time)) r :
  ep_ID (epoch (EpochRotationLoop r ts)) = u64 (u64 (ep_ID (epoch r)) + Z.of_nat (length ts)) \/ ts = [].
Proof.
  revert r. induction ts as [|t ts IH]; intros r; [by right|left]. unfold EpochRotationLoop in *. cbn [foldl length].
  destruct (IH (RotateEpoch r t.1 t.2)) as [-> | ->]; unfold RotateEpoch, u64; cbn [epoch ep_ID foldl length].
  - rewrite !Zplus_mod_idemp_l. f_equal. lia.
  - rewrite Zplus_mod_idemp_l. f_equal.
Qed.
Theorem epoch_loop_epochs `{Shuffler} first ts rest r :
  epoch_loop first ((Tick <$> ts) ++ Ended :: rest) r = Some (EpochRotationLoop r (first :: ts), true)
  /\ ep_ID (epoch (EpochRotationLoop r (first :: ts))) = u64 (u64 (ep_ID (epoch r)) + Z.of_nat (S (length ts))).
Proof.
  split; [|by destruct (rotation_epochs (first :: ts) r) as [->|?]].
  unfold epoch_loop, turn_then_loop, EpochRotationLoop. cbn [foldl mbind option_bind].
  generalize (RotateEpoch r first.1 first.2) as r0. induction ts as [|t ts IH]; intros r0; [done|].
  cbn [fmap list_fmap app ticker_loop mbind option_bind foldl]. apply IH.
Qed.

(** ** Datagrams *)

(** The datagrams that are read before the listener is told to stop. *)
Fixpoint packets {A} (l : list (listen_event A)) : list A :=
  match l with
  | [] | StopClosed :: _ => []
  | (ReadTimeout | ReadFailed) :: l => packets l
  | Packet a :: l => a :: packets l
  end.

Section discovery.
Context {S : Type} {sink : PeerSink S} {cipher : Aead}.
Notation PE := (PeerExchange S).

Lemma exchange_listen_from (l : list (listen_event arrival)) (pe : PE) out : exchange_ok pe ->
  exists pe' effss b, listen_loop exchange_turn l (pe, out) = Some (pe', out ++ effss, b)
    /\ receive_all pe (packets l) = Some (pe', effss) /\ exchange_ok pe' /\ (b = true <-> StopClosed ∈ l).
Proof.
  revert pe out. induction l as [|e l IH]; intros pe out Hok.
  { exists pe, [], false. rewrite app_nil_r. split; [done|]. split; [done|]. split; [done|]. split; [done|]. intros H. by apply not_elem_of_nil in H. }
  destruct e as [| | |m]; cbn [listen_loop packets receive_all].
  - exists pe, [], true. rewrite app_nil_r. split_and!; [done..|]. split; [by left|done].
  - destruct (IH pe out Hok) as (pe' & effss & b & H1 & H2 & H3 & H4). exists pe', effss, b. split_and!; [done..|].
    rewrite H4, elem_of_cons. split; [by right|]. by intros [?|?].
  - destruct (IH pe out Hok) as (pe' & effss & b & H1 & H2 & H3 & H4). exists pe', effss, b. split_and!; [done..|].
    rewrite H4, elem_of_cons. split; [by right|]. by intros [?|?].
  - destruct (receive_handled pe (ar_data m) (ar_from m) (ar_nonce m) (ar_now m) Hok) as (pe1 & effs & Hr & Hh & _).
    assert (exchange_turn m (pe, out) = Some (pe1, out ++ [effs])) as -> by (unfold exchange_turn; cbn [fst snd]; by rewrite Hr).
    cbn [mbind option_bind].
    destruct (IH pe1 (out ++ [effs]) (exchange_ok_after _ _ _ _ _ Hok Hh)) as (pe' & effss & b & H1 & H2 & H3 & H4).
    exists pe', (effs :: effss), b. rewrite H1, Hr, H2, <- app_assoc. split_and!; [done..|].
    rewrite H4, elem_of_cons. split; [by right|]. by intros [?|?].
Qed.

(** The listener of the exchange survives whatever the socket gives it: timeouts,
    failed reads and any datagrams, and ends exactly when it is told to; what it
    has done by then is what the datagrams before that do. *)
Theorem listener_survives (l : list (listen_event arrival)) (pe : PE) : exchange_ok pe ->
  exists pe' effss b, exchange_listenLoop l pe = Some (pe', effss, b)
    /\ receive_all pe (packets l) = Some (pe', effss) /\ exchange_ok pe' /\ (b = true <-> StopClosed ∈ l).
Proof. intros Hok. destruct (exchange_listen_from l pe [] Hok) as (pe' & effss & b & H). by exists pe', effss, b. Qed.

(** The listener on the local network too, and it never touches the node's own entry. *)
Theorem lan_listener_survives (n : LANDiscovery) l (s : S) : sink_inv s ->
  exists s' b, lan_listenLoop n l s = Some (s', b) /\ sink_inv s'
    /\ sink_get s' (ln_WGPubKey (l_node n)) = sink_get s (ln_WGPubKey (l_node n)) /\ (b = true <-> StopClosed ∈ l).
Proof.
  unfold lan_listenLoop. revert s. induction l as [|e l IH]; intros s Hs.
  { exists s, false. split_and!; [done..|]. split; [done|]. intros H. by apply not_elem_of_nil in H. }
  destruct e as [| | |m]; cbn [listen_loop].
  - exists s, true. split_and!; [done..|]. split; [by left|done].
  - destruct (IH s Hs) as (s' & b & H1 & H2 & H3 & H4). exists s', b. split_and!; [done..|].
    rewrite H4, elem_of_cons. split; [by right|]. by intros [?|?].
  - destruct (IH s Hs) as (s' & b & H1 & H2 & H3 & H4). exists s', b. split_and!; [done..|].
    rewrite H4, elem_of_cons. split; [by right|]. by intros [?|?].
  - destruct (lan_receive_ok n s (ar_data m) (ar_from m) (ar_now m) Hs) as (s1 & -> & Hs1 & Hg).
    cbn [mbind option_bind]. destruct (IH s1 Hs1) as (s' & b & H1 & H2 & H3 & H4). exists s', b.
    split_and!; [done|done|by rewrite H3|]. rewrite H4, elem_of_cons. split; [by right|]. by intros [?|?].
Qed.

(** ** The pace of the lookups *)

Context {W : Type} {dht_net : DhtNet W}.

Lemma query_tick_fold counts iv : iv = DHTQueryInterval \/ iv = DHTQueryIntervalStable ->
  foldl query_tick iv counts
  = if existsb (Nat.leb 3) counts then DHTQueryIntervalStable else iv.
Proof.
  revert iv. induction counts as [|c counts IH]; intros iv Hiv; [done|]. cbn [foldl existsb].
  rewrite IH; unfold query_tick; destruct (Nat.leb 3 c) eqn:Ec; cbn [andb orb]; [|done| |done].
  - destruct Hiv as [->| ->]; [|by destruct (existsb _ _)]. cbn. by destruct (existsb _ _).
  - destruct Hiv as [->| ->]; cbn; [by right|by right].
Qed.

(** The lookups slow down the first time the store has three peers at a tick, for
    good, and never before that. *)
Theorem query_interval secret first ticks rest (d : DHTDiscovery S) :
  exists d' acts, queryLoop secret first ((Tick <$> ticks) ++ Ended :: rest) d
  = Some (d', acts, if existsb (fun e => Nat.leb 3 (qy_count e)) ticks then DHTQueryIntervalStable else DHTQueryInterval, true).
Proof.
  unfold queryLoop.
  assert (forall s iv, exists d' acts, ticker_loop (fun e (s : DHTDiscovery S * list dht_action * Duration) => Some (query_turn secret e s.1, query_tick s.2 (qy_count e)))
            ((Tick <$> ticks) ++ Ended :: rest) (s, iv) = Some (d', acts, foldl query_tick iv (qy_count <$> ticks), true)) as H.
  { induction ticks as [|e ticks IH]; intros [d0 a0] iv; [by exists d0, a0|].
    cbn [fmap list_fmap app ticker_loop mbind option_bind fst snd foldl]. apply IH. }
  assert (existsb (fun e => Nat.leb 3 (qy_count e)) ticks = existsb (Nat.leb 3) (qy_count <$> ticks)) as ->.
  { clear. induction ticks as [|e ticks IH]; [done|]. cbn [fmap list_fmap existsb]. by rewrite IH. }
  destruct (H (query_turn secret first (d, [])) DHTQueryInterval) as (d' & acts & E). exists d', acts.
  by rewrite E, query_tick_fold by (by left).
Qed.
End discovery.

(** ** The nodes on disk *)

(** A save that leaves the file alone: no server, an empty table, or a failure. *)
Definition leaves_alone {A} (e : wake (option (list A) * save_answer)) : Prop :=
  match e with Tick (Some (_ :: _), a) => sv_dir a && sv_file a = false | _ => True end.

(** The nodes of the last table that was saved are there after a restart, however
    often an empty table or a failing disk came after it. *)
Theorem nodes_survive_restart `{NodeFile A} (ns : list A) ans l file :
  ns <> [] -> sv_dir ans && sv_file ans = true -> Forall leaves_alone l ->
  exists file' b, persistLoop (Tick (Some ns, ans) :: l) file = Some (file', b)
    /\ loadPersistedNodes (Some []) file' = Some ns.
Proof.
  intros Hne Ha Hl. exists (Some (node_text ns)).
  assert (exists b, persistLoop l (Some (node_text ns)) = Some (Some (node_text ns), b)) as [b Hb].
  { unfold persistLoop. induction Hl as [|e l He Hl IH]; [by exists false|].
    destruct e as [[nodes a']|]; cbn [ticker_loop]; [|by exists true].
    destruct nodes as [[|n nodes]|]; cbn [persistNodes fst snd mbind option_bind]; [done| |done].
    cbn in He. by rewrite He. }
  exists b. split.
  - unfold persistLoop in *. cbn [ticker_loop]. destruct ns as [|n ns]; [done|]. cbn [persistNodes fst snd mbind option_bind]. by rewrite Ha.
  - cbn [loadPersistedNodes]. by rewrite node_read_text.
Qed.

(** ** The peer cache at shutdown *)

(** Whatever the saves before it left, a shutdown whose last save is written whole
    brings back the peers of that moment which have not expired at the next start. *)
Theorem shutdown_save_restores ticks e file later :
  ca_write e = Written -> store_ok (ca_store e) -> store_text (ca_store e) -> int64 (time_to_unix (ca_now e)) = true ->
  exists ps n, RestoreFromCache (StartCacheSaver ticks (Some e) file) NewPeerStore later = Some (ps, n) /\ store_ok ps
    /\ forall k, is_Some (Get ps k) <-> exists p, Get (ca_store e) k = Some p /\ not_expired later (cache_entry p).
Proof.
  intros Hw Hok Ht Hn. unfold StartCacheSaver, cache_save. rewrite Hw.
  destruct (restore_saved (ca_store e) (ca_now e) later Hok Ht Hn) as (ps & n & Hr & Hs & Hg).
  exists ps, n. split; [done|]. split; [done|]. intros k. rewrite Hg. destruct (Get (ca_store e) k) as [p|].
  - case_decide as Hd; split; [by eauto|by eauto|by intros []|intros (q & [= <-] & Hq); done].
  - split; [by intros []|by intros (q & ? & _)].
Qed.

(** ** Waiting for a handshake *)

Section wait.
Context (clock : nat -> Time) (interval : Duration).
Context (Hint : (0 < interval)%Z) (Hslow : forall i, (0 < i)%nat -> (clock i + interval <= clock (S i))%Z).

Lemma clock_far i n : (0 < i)%nat -> (clock i + interval * Z.of_nat n <= clock (i + n)%nat)%Z.
Proof using Hslow.
  intros Hi. induction n as [|n IH]; [rewrite Nat.add_0_r; lia|].
  rewrite Nat.add_succ_r. pose proof (Hslow (i + n)%nat ltac:(lia)). lia.
Qed.

(** The wait is the search among the readings until the deadline, or the one after. *)
Lemma wait_loop_finds deadline reading baseline n i :
  (0 < i)%nat -> (deadline <= clock (i + n)%nat)%Z -> exists m, (m <= n)%nat
    /\ (forall fuel, (n < fuel)%nat -> wait_loop clock fuel i deadline reading baseline
                     = Some (default (reading (i + m)%nat) (List.find (fun hs => (baseline <? hs)%Z) (reading <$> seq i m))))
    /\ (forall k, (k < m)%nat -> (clock (i + k)%nat < deadline)%Z).
Proof.
  intros Hi. revert i Hi. induction n as [|n IH]; intros i Hi Hd.
  - exists 0%nat. split; [lia|]. split; [|lia]. intros [|fuel] Hf; [lia|]. cbn [wait_loop]. unfold time_after.
    rewrite Nat.add_0_r in *. by rewrite (proj2 (Z.ltb_ge _ _) Hd).
  - destruct (Z.ltb_spec (clock i) deadline) as [Hlt|Hge].
    + destruct (IH (S i) ltac:(lia) ltac:(by rewrite Nat.add_succ_l, <- Nat.add_succ_r)) as (m & Hm & Hw & Hk).
      exists (S m). split; [lia|]. split.
      * intros [|fuel] Hf; [lia|]. cbn [wait_loop]. unfold time_after. rewrite (proj2 (Z.ltb_lt _ _) Hlt).
        cbn [seq fmap list_fmap List.find]. destruct (baseline <? reading i)%Z eqn:Eb; [done|].
        rewrite Hw by lia. by rewrite Nat.add_succ_r.
      * intros [|k] Hkm; [by rewrite Nat.add_0_r|]. rewrite Nat.add_succ_r. apply (Hk k). lia.
    + exists 0%nat. split; [lia|]. split; [|lia]. intros [|fuel] Hf; [lia|]. cbn [wait_loop]. unfold time_after.
      rewrite (proj2 (Z.ltb_ge _ _) Hge). by rewrite Nat.add_0_r.
Qed.
End wait.

(** Waiting for a handshake always ends: with at least the polling interval between
    two readings of the clock it takes at most 42 looks for the ten seconds the
    code gives it, and its answer is that of [waitForHandshake] of the exchange over
    the readings it made: the first that is newer than before, or the last one. *)
Theorem wait_ends clock shown iface k baseline :
  (clock 0%nat <= clock 1%nat)%Z ->
  (forall i, (0 < i)%nat -> (clock i + HandshakePollInterval <= clock (S i))%Z) -> iface <> EmptyString -> k <> EmptyString ->
  exists n, (n <= 40)%nat /\ forall fuel, (42 <= fuel)%nat ->
    waitForPeerHandshake clock shown fuel iface k baseline HandshakeWaitTimeout
    = Some (waitForHandshake k baseline ((fun i => getPeerHandshakeTS (shown i) iface k) <$> seq 1 n) (getPeerHandshakeTS (shown (S n)) iface k)).
Proof.
  intros H0 Hs Hi Hk. pose proof (clock_far clock HandshakePollInterval Hs 1 40 ltac:(lia)) as Hf.
  assert (time_add (clock 0%nat) HandshakeWaitTimeout <= clock (1 + 40)%nat)%Z as Hd.
  { unfold time_add. change HandshakeWaitTimeout with 10000000000%Z. change HandshakePollInterval with 250000000%Z in Hf. lia. }
  destruct (wait_loop_finds clock (time_add (clock 0%nat) HandshakeWaitTimeout)
              (fun i => getPeerHandshakeTS (shown i) iface k) baseline 40 1 ltac:(lia) Hd) as (m & Hm & Hw & _).
  exists m. split; [done|]. intros fuel Hfuel. unfold waitForPeerHandshake. rewrite Hw by lia.
  unfold waitForHandshake. by rewrite (proj2 (String.eqb_neq _ _) Hk).
Qed.

(** A look every quarter of a second; the handshake is there at the fifth. *)
Definition quarter_clock (i : nat) : Time := (250000000 * Z.of_nat i)%Z.
Definition fifth_look (i : nat) : probe_env :=
  {| env_handshakes := Ok {["pk"%string := if Nat.ltb i 5 then 0%Z else 1700000000%Z]}; env_dial6 := false |}.

Lemma wait_ends_witness :
  exists n, (n <= 40)%nat /\ forall fuel, (42 <= fuel)%nat ->
    waitForPeerHandshake quarter_clock fifth_look fuel "wg0" "pk" 0 HandshakeWaitTimeout
    = Some (waitForHandshake "pk" 0 ((fun i => getPeerHandshakeTS (fifth_look i) "wg0" "pk") <$> seq 1 n)
              (getPeerHandshakeTS (fifth_look (S n)) "wg0" "pk")).
Proof.
  apply (wait_ends quarter_clock fifth_look "wg0" "pk" 0).
  - unfold quarter_clock. lia.
  - intros i _. unfold quarter_clock. change HandshakePollInterval with 250000000%Z. lia.
  - discriminate.
  - discriminate.
Defined.

Example wait_found : waitForPeerHandshake quarter_clock fifth_look 42 "wg0" "pk" 0 HandshakeWaitTimeout = Some 1700000000%Z.
Proof. vm_compute. reflexivity. Qed.

(** A file of nodes: a digit for each. *)
Fixpoint bits_text (l : list bool) : string :=
  match l with [] => EmptyString | b :: l => String (if b then "1"%char else "0"%char) (bits_text l) end.
Fixpoint bits_read (s : string) : option (list bool) :=
  match s with EmptyString => Some [] | String c s => l ← bits_read s; Some (Ascii.eqb c "1" :: l) end.
#[local] Program Instance bits_file : NodeFile bool := {| node_text := bits_text; node_read := bits_read |}.
Next Obligation. induction ns as [|[] ns IH]; cbn [bits_text bits_read]; [done| |]; by rewrite IH. Qed.

Example nodes_saved :
  exists file b, persistLoop [Tick (Some [true; false], {| sv_dir := true; sv_file := true |}); Tick (Some [], {| sv_dir := true; sv_file := true |})] None
                 = Some (file, b)
    /\ loadPersistedNodes (Some []) file = Some [true; false].
Proof. apply (nodes_survive_restart [true; false]); [done|done|]. by repeat constructor. Qed.
