(* ===== verification/Mesh.v ===== *)
(** * The centralized mesh: state and access policies (pkg/mesh)

    types.go, mesh.go and policy.go: the nodes, groups and policies of the state
    file, and who may reach whom.  A map that Go leaves nil is [None].  The
    mutex is the subject of Deploy.v; here every operation is what it does once
    it holds the lock. *)

From S2P Require Import Prelude GoStrings GoNet GoJson.
Local Open Scope wgmesh_scope.

Record Node := {
  n_Hostname : string;
  n_MeshIP : list Z;
  n_PublicKey : string;
  n_PrivateKey : string;
  n_SSHHost : string;
  n_SSHPort : Z;
  n_PublicEndpoint : string;
  n_ListenPort : Z;
  n_BehindNAT : bool;
  n_RoutableNetworks : list string;
  n_IsLocal : bool;
  n_ActualHostname : string;
  n_FQDN : string;
}.

Record Group := { g_Description : string; g_Members : list string }.

Record AccessPolicy := {
  ap_Name : string;
  ap_Description : string;
  ap_FromGroups : list string;
  ap_ToGroups : list string;
  ap_AllowMeshIPs : bool;
  ap_AllowRoutableNetworks : bool;
}.

Record PeerAccess := { AllowMeshIP : bool; AllowRoutableNetworks : bool }.

Record Mesh := {
  m_InterfaceName : string;
  m_Network : string;
  m_ListenPort : Z;
  m_Nodes : option (gmap string Node);
  m_LocalHostname : string;
  m_Groups : gmap string Group;
  m_AccessPolicies : list AccessPolicy;
}.

(** Reading a nil map finds nothing. *)
Definition nodes (m : Mesh) : gmap string Node := default ∅ (m_Nodes m).

Definition set_nodes (m : Mesh) (ns : gmap string Node) : Mesh :=
  {| m_InterfaceName := m_InterfaceName m; m_Network := m_Network m; m_ListenPort := m_ListenPort m;
     m_Nodes := Some ns; m_LocalHostname := m_LocalHostname m; m_Groups := m_Groups m;
     m_AccessPolicies := m_AccessPolicies m |}.

(** ** Groups and policies *)

(** The first member seen before, if any. *)
Fixpoint duplicate_member (seen : gset string) (members : list string) : option string :=
  match members with
  | [] => None
  | x :: rest => if bool_decide (x ∈ seen) then Some x else duplicate_member ({[ x ]} ∪ seen) rest
  end.

(** The groups are visited in the order of the map, which Go leaves open; the
    verdict does not depend on it. *)
Definition ValidateGroups (m : Mesh) : result unit :=
  if existsb (fun kg => bool_decide (is_Some (duplicate_member ∅ (g_Members kg.2)))) (map_to_list (m_Groups m))
  then Err "group has duplicate member" else Ok tt.

Definition members (m : Mesh) (g : string) : list string :=
  match m_Groups m !! g with Some group => g_Members group | None => [] end.

Definition known_group (m : Mesh) (g : string) : bool := bool_decide (is_Some (m_Groups m !! g)).

(** The tests on one policy, after the check for duplicate names. *)
Definition validate_policy (m : Mesh) (p : AccessPolicy) : result unit :=
  match ap_FromGroups p with
  | [] => Err "policy has no from_groups"
  | _ =>
      match ap_ToGroups p with
      | [] => Err "policy has no to_groups"
      | _ =>
          if negb (forallb (known_group m) (ap_FromGroups p)) then Err "policy references non-existent from_group"
          else if negb (forallb (known_group m) (ap_ToGroups p)) then Err "policy references non-existent to_group"
          else if existsb (fun f => existsb (fun t =>
                    Nat.ltb 0 (length (members m f)) && Nat.ltb 0 (length (members m t))) (ap_ToGroups p))
                  (ap_FromGroups p)
          then Ok tt else Err "policy does not match any nodes"
      end
  end.

Fixpoint validate_policies (m : Mesh) (ps : list AccessPolicy) : result unit :=
  match ps with
  | [] => Ok tt
  | p :: rest => match validate_policy m p with Ok _ => validate_policies m rest | Err e => Err e end
  end.

Definition ValidatePolicies (m : Mesh) : result unit :=
  match duplicate_member ∅ (ap_Name <$> m_AccessPolicies m) with
  | Some _ => Err "duplicate policy name"
  | None => validate_policies m (m_AccessPolicies m)
  end.

(** The order of the map is open in Go; only membership of the result is used. *)
Definition GetNodeGroups (m : Mesh) (hostname : string) : list string :=
  fst <$> filter (fun kg => hostname ∈ g_Members kg.2) (map_to_list (m_Groups m)).

(** One member of a group on the other side. *)
Definition grant (m : Mesh) (hostname : string) (p : AccessPolicy) (isOutbound : bool)
    (acc : gmap string PeerAccess) (member : string) : gmap string PeerAccess :=
  if String.eqb member hostname then acc
  else match nodes m !! member with
  | None => acc
  | Some _ =>
      let access := default {| AllowMeshIP := false; AllowRoutableNetworks := false |} (acc !! member) in
      <[member := if isOutbound
                  then {| AllowMeshIP := AllowMeshIP access || ap_AllowMeshIPs p;
                          AllowRoutableNetworks := AllowRoutableNetworks access || ap_AllowRoutableNetworks p |}
                  else access]> acc
  end.

(** The groups on the other side of a policy, and whether it is outbound. *)
Definition policy_side (nodeGroups : list string) (p : AccessPolicy) : bool * list string :=
  let isOutbound := existsb (fun g => bool_decide (g ∈ nodeGroups)) (ap_FromGroups p) in
  let isInbound := existsb (fun g => bool_decide (g ∈ nodeGroups)) (ap_ToGroups p) in
  (isOutbound, (if isOutbound then ap_ToGroups p else []) ++ (if isInbound then ap_FromGroups p else [])).

(** A group that does not exist is a nil pointer, and its members a panic. *)
Fixpoint apply_groups (m : Mesh) (hostname : string) (p : AccessPolicy) (isOutbound : bool)
    (groups : list string) (acc : gmap string PeerAccess) : option (gmap string PeerAccess) :=
  match groups with
  | [] => Some acc
  | g :: rest =>
      match m_Groups m !! g with
      | None => None
      | Some group => apply_groups m hostname p isOutbound rest (foldl (grant m hostname p isOutbound) acc (g_Members group))
      end
  end.

Fixpoint apply_policies (m : Mesh) (hostname : string) (nodeGroups : list string) (ps : list AccessPolicy)
    (acc : gmap string PeerAccess) : option (gmap string PeerAccess) :=
  match ps with
  | [] => Some acc
  | p :: rest =>
      let '(isOutbound, others) := policy_side nodeGroups p in
      acc' ← apply_groups m hostname p isOutbound others acc;
      apply_policies m hostname nodeGroups rest acc'
  end.

Definition GetAllowedPeers (m : Mesh) (hostname : string) : option (gmap string PeerAccess) :=
  match GetNodeGroups m hostname with
  | [] => Some ∅
  | nodeGroups => apply_policies m hostname nodeGroups (m_AccessPolicies m) ∅
  end.

Definition GetPeerHostnames (m : Mesh) : list string := sort_strings (fst <$> map_to_list (nodes m)).
Definition GetNodeGroupNames (m : Mesh) : list string := sort_strings (fst <$> map_to_list (m_Groups m)).
Definition GetPolicyNames (m : Mesh) : list string := sort_strings (ap_Name <$> m_AccessPolicies m).
Definition HasGroups (m : Mesh) : bool := Nat.ltb 0 (size (m_Groups m)).
Definition HasPolicies (m : Mesh) : bool := Nat.ltb 0 (length (m_AccessPolicies m)).
Definition IsAccessControlEnabled (m : Mesh) : bool := HasGroups m || HasPolicies m.

(** ** Who may reach whom *)

(** [x] is a member of one of the groups. *)
Definition on_side (m : Mesh) (x : string) (groups : list string) : bool :=
  existsb (fun g => bool_decide (x ∈ members m g)) groups.

(** A policy relates two nodes in one direction or the other. *)
Definition relates (m : Mesh) (p : AccessPolicy) (h x : string) : bool :=
  (on_side m h (ap_FromGroups p) && on_side m x (ap_ToGroups p))
  || (on_side m h (ap_ToGroups p) && on_side m x (ap_FromGroups p)).

(** Every group a policy names exists. *)
Definition groups_known (m : Mesh) : Prop :=
  Forall (fun p => Forall (fun g => is_Some (m_Groups m !! g)) (ap_FromGroups p ++ ap_ToGroups p)) (m_AccessPolicies m).

Lemma validated_groups_known m : ValidatePolicies m = Ok tt -> groups_known m.
Proof.
  unfold ValidatePolicies, groups_known. destruct (duplicate_member _ _); [done|].
  induction (m_AccessPolicies m) as [|p ps IH]; [done|]. cbn [validate_policies].
  destruct (validate_policy m p) as [[]|] eqn:E; [|done]. intros H. constructor; [|by apply IH].
  unfold validate_policy in E. destruct (ap_FromGroups p) as [|f fs]; [done|].
  destruct (ap_ToGroups p) as [|t ts]; [done|].
  destruct (forallb (known_group m) (f :: fs)) eqn:Ef; [|done]. destruct (forallb (known_group m) (t :: ts)) eqn:Et; [|done].
  apply Forall_app. split; apply Forall_forall; intros g Hg; apply (bool_decide_eq_true _).
  - by apply (proj1 (forallb_forall _ _) Ef), list_elem_of_In.
  - by apply (proj1 (forallb_forall _ _) Et), list_elem_of_In.
Qed.

Lemma node_groups_elem m h g : g ∈ GetNodeGroups m h <-> h ∈ members m g.
Proof.
  unfold GetNodeGroups, members. rewrite list_elem_of_fmap. split.
  - intros ([g' grp] & -> & Hin). apply list_elem_of_filter in Hin as [Hm Hin].
    apply elem_of_map_to_list in Hin. cbn [fst snd] in *. by rewrite Hin.
  - destruct (m_Groups m !! g) as [grp|] eqn:E; [|by intros ?%not_elem_of_nil].
    intros Hm. exists (g, grp). split; [done|]. apply list_elem_of_filter. split; [done|]. by apply elem_of_map_to_list.
Qed.

Lemma node_groups_side m h groups :
  existsb (fun g => bool_decide (g ∈ GetNodeGroups m h)) groups = on_side m h groups.
Proof.
  unfold on_side. induction groups as [|g gs IH]; [done|]. cbn [existsb]. rewrite IH. f_equal.
  apply bool_decide_ext, node_groups_elem.
Qed.

Definition no_access : PeerAccess := {| AllowMeshIP := false; AllowRoutableNetworks := false |}.

(** What a policy adds to an access entry. *)
Definition add_access (p : AccessPolicy) (isOutbound : bool) (a : PeerAccess) : PeerAccess :=
  if isOutbound then {| AllowMeshIP := AllowMeshIP a || ap_AllowMeshIPs p;
                        AllowRoutableNetworks := AllowRoutableNetworks a || ap_AllowRoutableNetworks p |}
  else a.

Lemma add_access_idem p b a : add_access p b (add_access p b a) = add_access p b a.
Proof. destruct b; [|done]. unfold add_access. cbn [AllowMeshIP AllowRoutableNetworks]. by rewrite <- !orb_assoc, !orb_diag. Qed.

Section allowed.
Context (m : Mesh) (h : string).

(** A peer the node could have: another node of the mesh. *)
Definition other_node (x : string) : bool := negb (String.eqb x h) && bool_decide (is_Some (nodes m !! x)).

Lemma grant_lookup p b acc y x :
  grant m h p b acc y !! x
  = if bool_decide (x = y) && other_node x then Some (add_access p b (default no_access (acc !! x))) else acc !! x.
Proof.
  unfold grant, other_node. destruct (String.eqb_spec y h) as [->|Hne].
  { destruct (bool_decide_reflect (x = h)) as [->|]; [|done]. by rewrite String.eqb_refl. }
  destruct (nodes m !! y) as [n|] eqn:E.
  - rewrite lookup_insert. destruct (bool_decide_reflect (x = y)) as [->|Hx].
    + rewrite decide_True by done. rewrite (proj2 (String.eqb_neq _ _) Hne), E. cbn [negb andb].
      rewrite bool_decide_eq_true_2 by done. unfold add_access. by destruct b.
    + by rewrite decide_False by congruence.
  - destruct (bool_decide_reflect (x = y)) as [->|]; [|done]. rewrite E.
    rewrite bool_decide_eq_false_2 by (by intros []). by rewrite andb_false_r.
Qed.

Lemma grants_lookup p b ms acc x :
  foldl (grant m h p b) acc ms !! x
  = if bool_decide (x ∈ ms) && other_node x then Some (add_access p b (default no_access (acc !! x))) else acc !! x.
Proof.
  revert acc. induction ms as [|y ms IH]; intros acc; cbn [foldl].
  { by rewrite bool_decide_eq_false_2 by apply not_elem_of_nil. }
  rewrite IH, grant_lookup. destruct (other_node x); rewrite ?andb_true_r, ?andb_false_r; [|done].
  destruct (bool_decide_reflect (x = y)) as [->|Hne].
  - rewrite (bool_decide_eq_true_2 (y ∈ y :: ms)) by (by left). cbn [default option_map from_option].
    destruct (bool_decide (y ∈ ms)); [|done]. f_equal. apply add_access_idem.
  - rewrite (bool_decide_ext (x ∈ y :: ms) (x ∈ ms)) by (rewrite elem_of_cons; naive_solver). done.
Qed.

Lemma apply_groups_lookup p b groups acc : Forall (fun g => is_Some (m_Groups m !! g)) groups ->
  exists acc', apply_groups m h p b groups acc = Some acc'
    /\ forall x, acc' !! x
         = if on_side m x groups && other_node x then Some (add_access p b (default no_access (acc !! x))) else acc !! x.
Proof.
  intros Hg. revert acc. induction Hg as [|g groups [grp Hgrp] _ IH]; intros acc; cbn [apply_groups].
  { by exists acc. }
  rewrite Hgrp. destruct (IH (foldl (grant m h p b) acc (g_Members grp))) as (acc' & -> & Hl).
  exists acc'. split; [done|]. intros x. rewrite Hl, grants_lookup. unfold on_side. cbn [existsb].
  assert (members m g = g_Members grp) as -> by (unfold members; by rewrite Hgrp).
  fold (on_side m x groups). destruct (other_node x); rewrite ?andb_true_r, ?andb_false_r; [|done].
  destruct (bool_decide (x ∈ g_Members grp)); cbn [orb]; [|done].
  destruct (on_side m x groups); [|done]. f_equal. apply add_access_idem.
Qed.

Definition routable_access (acc : gmap string PeerAccess) (x : string) : bool :=
  match acc !! x with Some a => AllowRoutableNetworks a | None => false end.

Lemma policy_side_spec p :
  policy_side (GetNodeGroups m h) p
  = (on_side m h (ap_FromGroups p),
     (if on_side m h (ap_FromGroups p) then ap_ToGroups p else [])
     ++ (if on_side m h (ap_ToGroups p) then ap_FromGroups p else [])).
Proof. unfold policy_side. by rewrite !node_groups_side. Qed.

Lemma side_relates p x :
  on_side m x ((if on_side m h (ap_FromGroups p) then ap_ToGroups p else [])
               ++ (if on_side m h (ap_ToGroups p) then ap_FromGroups p else []))
  = relates m p h x.
Proof.
  unfold relates. unfold on_side at 1. rewrite existsb_app.
  destruct (on_side m h (ap_FromGroups p)), (on_side m h (ap_ToGroups p)); done.
Qed.

Lemma apply_policies_spec ps acc :
  Forall (fun p => Forall (fun g => is_Some (m_Groups m !! g)) (ap_FromGroups p ++ ap_ToGroups p)) ps ->
  exists acc', apply_policies m h (GetNodeGroups m h) ps acc = Some acc'
    /\ (forall x, is_Some (acc' !! x) <->
          is_Some (acc !! x) \/ (other_node x = true /\ existsb (fun p => relates m p h x) ps = true))
    /\ (forall x, routable_access acc' x
          = routable_access acc x
            || (other_node x && existsb (fun p => ap_AllowRoutableNetworks p && on_side m h (ap_FromGroups p) && relates m p h x) ps)).
Proof.
  intros Hps. revert acc. induction Hps as [|p ps Hp _ IH]; intros acc; cbn [apply_policies].
  { exists acc. split; [done|]. split; intros x; [naive_solver|]. cbn [existsb]. by rewrite andb_false_r, orb_false_r. }
  rewrite policy_side_spec. apply Forall_app in Hp as [Hf Ht].
  destruct (apply_groups_lookup p (on_side m h (ap_FromGroups p))
    ((if on_side m h (ap_FromGroups p) then ap_ToGroups p else [])
     ++ (if on_side m h (ap_ToGroups p) then ap_FromGroups p else [])) acc) as (acc1 & -> & Hl).
  { apply Forall_app. split; [destruct (on_side m h (ap_FromGroups p)); [exact Ht|constructor]|].
    destruct (on_side m h (ap_ToGroups p)); [exact Hf|constructor]. }
  cbn [mbind option_bind]. destruct (IH acc1) as (acc' & -> & H1 & H2). exists acc'. split; [done|].
  assert (forall x, acc1 !! x = if relates m p h x && other_node x
    then Some (add_access p (on_side m h (ap_FromGroups p)) (default no_access (acc !! x))) else acc !! x) as Hl'.
  { intros x. rewrite Hl. by rewrite side_relates. }
  split; intros x.
  - rewrite H1, Hl'. cbn [existsb]. destruct (relates m p h x), (other_node x); cbn [andb orb]; naive_solver.
  - rewrite H2. unfold routable_access at 1 2. rewrite Hl'. cbn [existsb].
    destruct (relates m p h x); cbn [andb]; [|by rewrite andb_false_r].
    destruct (other_node x); cbn [andb]; [|done]. rewrite andb_true_r.
    unfold add_access. destruct (on_side m h (ap_FromGroups p)); rewrite ?andb_true_r, ?andb_false_r; cbn [AllowRoutableNetworks].
    + rewrite orb_assoc. f_equal. f_equal. by destruct (acc !! x).
    + f_equal. by destruct (acc !! x).
Qed.
End allowed.

Lemma relates_sym m p h x : relates m p h x = relates m p x h.
Proof.
  unfold relates. by destruct (on_side m h (ap_FromGroups p)), (on_side m h (ap_ToGroups p)),
    (on_side m x (ap_FromGroups p)), (on_side m x (ap_ToGroups p)).
Qed.

(** A node in no group is on no side of any policy. *)
Lemma no_groups_no_side m h groups : GetNodeGroups m h = [] -> on_side m h groups = false.
Proof.
  intros E. rewrite <- node_groups_side, E. apply not_true_is_false. intros (g & _ & Hg)%existsb_exists.
  apply bool_decide_eq_true in Hg. by apply not_elem_of_nil in Hg.
Qed.

Lemma allowed_spec m h : groups_known m ->
  exists acc, GetAllowedPeers m h = Some acc
    /\ (forall x, is_Some (acc !! x) <->
          other_node m h x = true /\ existsb (fun p => relates m p h x) (m_AccessPolicies m) = true)
    /\ (forall x, routable_access acc x
          = other_node m h x
            && existsb (fun p => ap_AllowRoutableNetworks p && on_side m h (ap_FromGroups p) && relates m p h x)
                 (m_AccessPolicies m)).
Proof.
  intros Hk. unfold GetAllowedPeers. destruct (GetNodeGroups m h) as [|g gs] eqn:E.
  - assert (forall p x, relates m p h x = false) as Hr.
    { intros p x. unfold relates. by rewrite !(no_groups_no_side m h) by done. }
    exists ∅. split; [done|]. split; intros x.
    + rewrite lookup_empty. split; [by intros []|]. intros [_ (p & _ & Hp)%existsb_exists]. by rewrite Hr in Hp.
    + unfold routable_access. rewrite lookup_empty. symmetry. apply andb_false_intro2, not_true_is_false.
      intros (p & _ & Hp)%existsb_exists. by rewrite Hr, andb_false_r in Hp.
  - rewrite <- E. destruct (apply_policies_spec m h (m_AccessPolicies m) ∅ Hk) as (acc & -> & H1 & H2).
    exists acc. split; [done|]. split; intros x.
    + rewrite H1, lookup_empty. split; [intros [[]|]; done|by right].
    + rewrite H2. unfold routable_access at 1. by rewrite lookup_empty.
Qed.

(** C30. Access control is exact and deny-by-default: for validated policies the
    peers of a node are the other nodes that some policy relates to it, in
    either direction; a node in no group has none; and being a peer is mutual,
    as WireGuard needs it to be. *)
Theorem allowed_peers_exact m h : ValidatePolicies m = Ok tt ->
  exists acc, GetAllowedPeers m h = Some acc
    /\ (forall x, is_Some (acc !! x) <->
          x <> h /\ is_Some (nodes m !! x) /\ exists p, p ∈ m_AccessPolicies m /\ relates m p h x = true)
    /\ (GetNodeGroups m h = [] -> acc = ∅)
    /\ (forall x, is_Some (nodes m !! h) -> is_Some (acc !! x) ->
          exists acc', GetAllowedPeers m x = Some acc' /\ is_Some (acc' !! h)).
Proof.
  intros Hv. apply validated_groups_known in Hv as Hk. destruct (allowed_spec m h Hk) as (acc & Ha & H1 & _).
  assert (forall h' x (ps : gmap string PeerAccess), (is_Some (ps !! x) <-> other_node m h' x = true
      /\ existsb (fun p => relates m p h' x) (m_AccessPolicies m) = true) ->
    is_Some (ps !! x) <-> x <> h' /\ is_Some (nodes m !! x) /\ exists p, p ∈ m_AccessPolicies m /\ relates m p h' x = true) as Hex.
  { intros h' x ps ->. unfold other_node. rewrite andb_true_iff, negb_true_iff, String.eqb_neq, bool_decide_eq_true, existsb_exists.
    setoid_rewrite list_elem_of_In. tauto. }
  exists acc. split; [done|]. split; [intros x; by apply Hex|]. split.
  - intros E. unfold GetAllowedPeers in Ha. rewrite E in Ha. by injection Ha as <-.
  - intros x Hh Hx. destruct (allowed_spec m x Hk) as (acc' & Ha' & H1' & _). exists acc'. split; [done|].
    apply (Hex h x acc (H1 x)) in Hx as (Hne & Hn & p & Hp & Hr). apply (Hex x h acc' (H1' h)).
    split; [congruence|]. split; [done|]. exists p. by rewrite relates_sym.
Qed.

(** ** Samples *)

Definition mesh_node (hostname ip key : string) (nets : list string) : Node :=
  {| n_Hostname := hostname; n_MeshIP := default [] (parse_ip ip); n_PublicKey := key; n_PrivateKey := "priv-" ^^ hostname;
     n_SSHHost := hostname; n_SSHPort := 22; n_PublicEndpoint := ""; n_ListenPort := 51820; n_BehindNAT := false;
     n_RoutableNetworks := nets; n_IsLocal := false; n_ActualHostname := ""; n_FQDN := "" |}.

(** [gw] is in both groups of a policy from [a] to [b], [srv] only in [a]. *)
Definition leak_mesh : Mesh :=
  {| m_InterfaceName := "wg0"; m_Network := "10.99.0.0/16"; m_ListenPort := 51820;
     m_Nodes := Some (<["gw" := mesh_node "gw" "10.99.0.1" "kg" []]> (<["srv" := mesh_node "srv" "10.99.0.2" "ks" ["10.8.0.0/24"]]> ∅));
     m_LocalHostname := "ctl";
     m_Groups := <["a" := {| g_Description := ""; g_Members := ["gw"; "srv"] |}]>
                 (<["b" := {| g_Description := ""; g_Members := ["gw"] |}]> ∅);
     m_AccessPolicies := [{| ap_Name := "p"; ap_Description := ""; ap_FromGroups := ["a"]; ap_ToGroups := ["b"];
                             ap_AllowMeshIPs := true; ap_AllowRoutableNetworks := true |}] |}%string.

(** The permissions of a policy are not granted per direction: a node that
    is on both sides of a policy gets the routable networks of every node on the
    from side, although no policy has it on the from side and that node on the
    to side. *)
Theorem routable_access_leaks :
  ValidateGroups leak_mesh = Ok tt /\ ValidatePolicies leak_mesh = Ok tt
  /\ (exists acc, GetAllowedPeers leak_mesh "gw" = Some acc /\ routable_access acc "srv" = true)
  /\ Forall (fun p => on_side leak_mesh "gw" (ap_FromGroups p) && on_side leak_mesh "srv" (ap_ToGroups p) = false)
       (m_AccessPolicies leak_mesh).
Proof.
  split; [vm_compute; reflexivity|]. split; [vm_compute; reflexivity|]. split; [|by_compute].
  eexists. split; vm_compute; reflexivity.
Qed.

Lemma allowed_peers_exact_witness :
  exists acc, GetAllowedPeers leak_mesh "srv" = Some acc /\ is_Some (acc !! "gw"%string).
Proof.
  destruct (allowed_peers_exact leak_mesh "srv" ltac:(vm_compute; reflexivity)) as (acc & Ha & Hx & _).
  exists acc. split; [exact Ha|]. apply Hx. split; [discriminate|]. split; [vm_compute; eexists; reflexivity|].
  eexists. split; [left|]. vm_compute. reflexivity.
Defined.
