(* ===== verification/Atomic.v ===== *)
(** * Replacing a file by a temporary file and a rename

    [SaveServices] (pkg/mesh/services.go), [SaveAccount] (pkg/mesh/account.go)
    and the promo store's [save] (pkg/promo/store.go) end in the same sequence of
    system calls: make the directory, write <path>.tmp, rename it, and remove it
    when the rename fails.  The sequence runs one call at a time, and a write may
    be cut anywhere, so that a crash between two of them, and a second process
    that does the same, are runs of the model.  Names refer to inodes, because a
    process keeps writing to the file it opened after another one renamed it. *)

From S2P Require Import Prelude GoStrings.
Local Open Scope wgmesh_scope.

(** ** The disk *)

Record Disk := { d_names : gmap string nat; d_inodes : gmap nat string; d_next : nat }.

Definition read_file (d : Disk) (path : string) : option string := n ← d_names d !! path; d_inodes d !! n.

(** [os.OpenFile] with O_CREATE and O_TRUNC. *)
Definition open_trunc (d : Disk) (path : string) : nat * Disk :=
  match d_names d !! path with
  | Some n => (n, {| d_names := d_names d; d_inodes := <[n := EmptyString]> (d_inodes d); d_next := d_next d |})
  | None => (d_next d, {| d_names := <[path := d_next d]> (d_names d); d_inodes := <[d_next d := EmptyString]> (d_inodes d);
                          d_next := S (d_next d) |})
  end.
Definition append_to (d : Disk) (n : nat) (bytes : string) : Disk :=
  {| d_names := d_names d; d_inodes := <[n := default EmptyString (d_inodes d !! n) ^^ bytes]> (d_inodes d); d_next := d_next d |}.
Definition rename (d : Disk) (old new : string) : option Disk :=
  n ← d_names d !! old;
  Some {| d_names := <[new := n]> (delete old (d_names d)); d_inodes := d_inodes d; d_next := d_next d |}.
Definition remove (d : Disk) (path : string) : Disk :=
  {| d_names := delete path (d_names d); d_inodes := d_inodes d; d_next := d_next d |}.

(** ** The sequence of calls *)

(** Where the saving process is. *)
Inductive stage :=
  | Marshalled
  | DirMade
  | Writing (fd : nat) (rest : string)
  | Written
  | RenameFailed
  | Returned (ok : bool).

#[export] Instance stage_eq_dec : EqDecision stage.
Proof. solve_decision. Defined.

(** The next call and its outcome; a write takes some of the bytes. *)
Inductive call := Mkdir (ok : bool) | Open (ok : bool) | Wrote (n : nat) | WriteFailed | Close | Rename (ok : bool) | Cleanup (ok : bool).

Definition tmp_path (path : string) : string := path ^^ ".tmp".

(** [None]: the process does not make this call here. *)
Definition save_step (path data : string) (c : call) (s : stage * Disk) : option (stage * Disk) :=
  let '(st, d) := s in
  match st, c with
  | Marshalled, Mkdir ok => Some (if ok then DirMade else Returned false, d)
  | DirMade, Open true => let '(fd, d') := open_trunc d (tmp_path path) in Some (Writing fd data, d')
  | DirMade, Open false => Some (Returned false, d)
  | Writing fd rest, Wrote n => Some (Writing fd (str_drop n rest), append_to d fd (str_take n rest))
  | Writing fd rest, Close => if String.eqb rest "" then Some (Written, d) else None
  | Writing _ _, WriteFailed => Some (Returned false, d)
  | Written, Rename true => (fun d' => (Returned true, d')) <$> rename d (tmp_path path) path
  | Written, Rename false => Some (RenameFailed, d)
  | RenameFailed, Cleanup ok => Some (Returned false, if ok then remove d (tmp_path path) else d)
  | _, _ => None
  end.

Definition save_run (path data : string) (cs : list call) (s : stage * Disk) : option (stage * Disk) :=
  foldl (fun acc c => acc ≫= save_step path data c) (Some s) cs.

(** Two processes on one disk; [true] is a call of the first. *)
Definition pair_step (path data1 data2 : string) (w : bool * call) (s : stage * stage * Disk) : option (stage * stage * Disk) :=
  let '(s1, s2, d) := s in
  if w.1 then '(s1', d') ← save_step path data1 w.2 (s1, d); Some (s1', s2, d')
  else '(s2', d') ← save_step path data2 w.2 (s2, d); Some (s1, s2', d').
Definition pair_run (path data1 data2 : string) (ws : list (bool * call)) (d : Disk) : option (stage * stage * Disk) :=
  foldl (fun acc w => acc ≫= pair_step path data1 data2 w) (Some (Marshalled, Marshalled, d)) ws.

(** [os.WriteFile] on the file itself, as [saveLocalNode] (pkg/daemon/helpers.go),
    [SavePeerCache] (pkg/daemon/cache.go) and the mesh's [Save] do. *)
Definition write_step (path data : string) (c : call) (s : stage * Disk) : option (stage * Disk) :=
  let '(st, d) := s in
  match st, c with
  | Marshalled, Mkdir ok => Some (if ok then DirMade else Returned false, d)
  | DirMade, Open true => let '(fd, d') := open_trunc d path in Some (Writing fd data, d')
  | DirMade, Open false => Some (Returned false, d)
  | Writing fd rest, Wrote n => Some (Writing fd (str_drop n rest), append_to d fd (str_take n rest))
  | Writing fd rest, Close => if String.eqb rest "" then Some (Returned true, d) else None
  | Writing _ _, WriteFailed => Some (Returned false, d)
  | _, _ => None
  end.
Definition write_run (path data : string) (cs : list call) (s : stage * Disk) : option (stage * Disk) :=
  foldl (fun acc c => acc ≫= write_step path data c) (Some s) cs.

(** ** One process *)

(** Every name has a file, and no two names share one. *)
Definition disk_ok (d : Disk) : Prop :=
  (forall p n, d_names d !! p = Some n -> is_Some (d_inodes d !! n) /\ (n < d_next d)%nat)
  /\ (forall p q n, d_names d !! p = Some n -> d_names d !! q = Some n -> p = q).

Definition empty_disk : Disk := {| d_names := ∅; d_inodes := ∅; d_next := 0 |}.
Lemma empty_disk_ok : disk_ok empty_disk.
Proof. split; intros p *; cbn [d_names empty_disk]; rewrite lookup_empty; discriminate. Qed.

Lemma tmp_differs path : tmp_path path <> path.
Proof.
  unfold tmp_path. intros E. apply (f_equal String.length) in E. rewrite length_app_str in E. cbn in E. lia.
Qed.

(** What the process has reached: the temporary file holds the bytes written so
    far, all other files are as they were, the rename swaps the whole data in. *)
Definition saving (path data : string) (d0 : Disk) (s : stage * Disk) : Prop :=
  let '(st, d) := s in
  disk_ok d
  /\ (forall p, p <> tmp_path path -> p <> path -> read_file d p = read_file d0 p)
  /\ read_file d path = (if decide (st = Returned true) then Some data else read_file d0 path)
  /\ match st with
     | Writing fd rest => d_names d !! tmp_path path = Some fd /\ exists w, d_inodes d !! fd = Some w /\ w ^^ rest = data
     | Written => read_file d (tmp_path path) = Some data
     | _ => True
     end.

Lemma read_file_inode d n v p : disk_ok d -> (forall q, d_names d !! q = Some n -> q <> p) ->
  read_file {| d_names := d_names d; d_inodes := <[n := v]> (d_inodes d); d_next := d_next d |} p = read_file d p.
Proof.
  intros _ Hp. unfold read_file. cbn [d_names d_inodes]. destruct (d_names d !! p) as [m|] eqn:E; [|done]. cbn [mbind option_bind].
  apply lookup_insert_ne. intros ->. by apply (Hp p).
Qed.

Lemma disk_ok_write d n v : disk_ok d ->
  disk_ok {| d_names := d_names d; d_inodes := <[n := v]> (d_inodes d); d_next := d_next d |}.
Proof.
  intros [H1 H2]. split; cbn [d_names d_inodes d_next]; [|done]. intros p m Hm. destruct (H1 p m Hm) as [Hi Hn]. split; [|done].
  destruct (decide (n = m)) as [->|]; [rewrite lookup_insert_eq | rewrite lookup_insert_ne by done]; by eauto.
Qed.

Lemma open_trunc_names d path fd d' : open_trunc d path = (fd, d') -> d_names d' !! path = Some fd.
Proof. unfold open_trunc. destruct (d_names d !! path) eqn:E; intros [= <- <-]; [done|]. apply lookup_insert_eq. Qed.

Lemma open_trunc_spec d path fd d' : disk_ok d -> open_trunc d path = (fd, d') ->
  disk_ok d' /\ d_names d' !! path = Some fd /\ d_inodes d' !! fd = Some EmptyString
  /\ (forall p, p <> path -> read_file d' p = read_file d p).
Proof.
  intros Hok. pose proof Hok as [H1 H2]. unfold open_trunc. destruct (d_names d !! path) as [n|] eqn:E; intros [= <- <-]; cbn [d_names d_inodes].
  - split; [by apply disk_ok_write|]. split; [done|]. split; [apply lookup_insert_eq|]. intros p Hp. apply read_file_inode; [done|].
    intros q Hq <-. by apply Hp, (H2 q path n).
  - assert (forall p m, d_names d !! p = Some m -> m <> d_next d) as Hfresh by (intros p m Hm; destruct (H1 p m Hm); lia).
    split; [split|split; [apply lookup_insert_eq|split; [apply lookup_insert_eq|]]]; cbn [d_names d_inodes d_next].
    + intros p m [[-> <-]|[Hp Hm]]%lookup_insert_Some; [split; [rewrite lookup_insert_eq; by eauto|lia]|].
      destruct (H1 p m Hm) as [Hi Hn]. rewrite lookup_insert_ne by lia. split; [done|lia].
    + intros p q m [[<- <-]|[Hp Hm]]%lookup_insert_Some [[<- Ee]|[Hq Hm']]%lookup_insert_Some; try done.
      * by destruct (Hfresh q _ Hm').
      * subst. by destruct (Hfresh p _ Hm).
      * by apply (H2 p q m).
    + intros p Hp. unfold read_file. cbn [d_names d_inodes]. rewrite lookup_insert_ne by done.
      destruct (d_names d !! p) as [m|] eqn:Em; [|done]. cbn [mbind option_bind]. apply lookup_insert_ne. intros Ee. by destruct (Hfresh p m Em).
Qed.

Lemma rename_spec d old new d' data : disk_ok d -> old <> new -> rename d old new = Some d' -> read_file d old = Some data ->
  disk_ok d' /\ read_file d' new = Some data /\ (forall p, p <> old -> p <> new -> read_file d' p = read_file d p).
Proof.
  intros [H1 H2] Hne Hr Hread. unfold rename in Hr. unfold read_file in *. destruct (d_names d !! old) as [n|] eqn:E; [|done].
  cbn [mbind option_bind] in *. injection Hr as <-. cbn [d_names d_inodes]. split; [split|split]; cbn [d_names d_inodes d_next].
  - intros p m [[-> <-]|[Hp [Hp' Hm]%lookup_delete_Some]]%lookup_insert_Some; by eapply H1.
  - intros p q m [[<- <-]|[Hp [Hp' Hm]%lookup_delete_Some]]%lookup_insert_Some [[<- Ee]|[Hq [Hq' Hm']%lookup_delete_Some]]%lookup_insert_Some; try done.
    + by destruct Hq'; eapply H2.
    + subst. by destruct Hp'; eapply H2.
    + by eapply H2.
  - by rewrite lookup_insert_eq.
  - intros p Hp Hp'. by rewrite lookup_insert_ne, lookup_delete_ne by done.
Qed.

Lemma remove_spec d path : disk_ok d -> disk_ok (remove d path) /\ (forall p, p <> path -> read_file (remove d path) p = read_file d p).
Proof.
  intros [H1 H2]. unfold remove, read_file. cbn [d_names d_inodes]. split; [split|]; cbn [d_names d_inodes d_next].
  - intros p n [_ Hn]%lookup_delete_Some. by eapply H1.
  - intros p q n [_ Hp]%lookup_delete_Some [_ Hq]%lookup_delete_Some. by eapply H2.
  - intros p Hp. by rewrite lookup_delete_ne.
Qed.

Lemma saving_step path data d0 c s s' : saving path data d0 s -> save_step path data c s = Some s' -> saving path data d0 s'.
Proof.
  destruct s as [st d]. intros (Hok & Hother & Hpath & Hst) Hs. pose proof (tmp_differs path) as Hne.
  destruct st as [| |fd rest| | |ok], c as [ok'|ok'|n| | |ok'|ok']; try done; cbn [save_step] in Hs.
  - injection Hs as <-. by destruct ok'.
  - destruct ok'; [|by injection Hs as <-]. destruct (open_trunc d (tmp_path path)) as [fd d'] eqn:Eo. injection Hs as <-.
    destruct (open_trunc_spec d _ fd d' Hok Eo) as (Hok' & Hn & Hi & Hr). split; [done|]. split; [|split; [|split; [done|by exists EmptyString]]].
    + intros p Hp Hp'. rewrite Hr by done. by apply Hother.
    + rewrite Hr by done. done.
  - injection Hs as <-. destruct Hst as (Hn & w & Hw & Hd). unfold append_to. rewrite Hw. cbn [default].
    assert (forall p, p <> tmp_path path -> forall q, d_names d !! q = Some fd -> q <> p) as Hq.
    { intros p Hp q Hqn ->. apply Hp. by apply (proj2 Hok p _ fd). }
    split; [by apply disk_ok_write|]. split; [|split; [|split; [done|]]].
    + intros p Hp Hp'. rewrite read_file_inode by (done || by apply Hq). by apply Hother.
    + rewrite read_file_inode by (done || by apply Hq). done.
    + eexists. split; [apply lookup_insert_eq|]. rewrite <- app_assoc_str, str_take_drop. done.
  - by injection Hs as <-.
  - destruct (String.eqb_spec rest "") as [->|]; [|done]. injection Hs as <-. destruct Hst as (Hn & w & Hw & Hd). rewrite app_nil_r_str in Hd. subst w.
    split; [done|]. split; [done|]. split; [done|]. unfold read_file. by rewrite Hn.
  - destruct ok'; [|by injection Hs as <-]. destruct (rename d (tmp_path path) path) as [d'|] eqn:Er; [|done]. injection Hs as <-.
    destruct (rename_spec d _ _ d' data Hok Hne Er Hst) as (Hok' & Hnew & Hr). split; [done|]. split; [|split; [by case_decide|done]].
    intros p Hp Hp'. rewrite Hr by done. by apply Hother.
  - injection Hs as <-. destruct ok'; [|done]. destruct (remove_spec d (tmp_path path) Hok) as [Hok' Hr].
    split; [done|]. split; [|split; [|done]].
    + intros p Hp Hp'. rewrite Hr by done. by apply Hother.
    + by rewrite Hr.
Qed.

Lemma saving_run path data d0 cs s s' : saving path data d0 s -> save_run path data cs s = Some s' -> saving path data d0 s'.
Proof.
  intros Hs. revert s'. induction cs as [|c cs IH] using rev_ind; intros s'; unfold save_run; [by intros [= <-]|]. rewrite foldl_app. cbn [foldl].
  intros Hr. destruct (foldl _ (Some s) cs) as [s1|] eqn:E1; [|done]. eapply saving_step; [|exact Hr]. by apply IH.
Qed.

Lemma saving_init path data d : disk_ok d -> saving path data d (Marshalled, d).
Proof. intros Hok. split; [done|]. split; [done|]. split; [|done]. by case_decide. Qed.

(** The calls when nothing fails. *)
Definition all_calls (data : string) : list call := [Mkdir true; Open true; Wrote (String.length data); Close; Rename true].

Lemma save_completes path data d : exists d', save_run path data (all_calls data) (Marshalled, d) = Some (Returned true, d').
Proof.
  unfold save_run, all_calls. cbn [foldl mbind option_bind save_step]. destruct (open_trunc d (tmp_path path)) as [fd d1] eqn:Eo.
  cbn [mbind option_bind save_step]. rewrite str_drop_length. cbn [mbind option_bind save_step]. 
  pose proof (open_trunc_names _ _ _ _ Eo) as Hn.
  cbn. unfold rename. cbn [append_to d_names]. rewrite Hn. by eexists.
Qed.

(** Whatever fails and wherever it stops, the file holds what it held or all of
    the new data, the latter exactly when the save succeeded, and no other file
    but the temporary one is touched. *)
Lemma save_atomic path data d cs st d' : disk_ok d -> save_run path data cs (Marshalled, d) = Some (st, d') ->
  read_file d' path = (if decide (st = Returned true) then Some data else read_file d path)
  /\ (forall p, p <> path -> p <> tmp_path path -> read_file d' p = read_file d p).
Proof.
  intros Hok Hr. destruct (saving_run path data d cs _ _ (saving_init path data d Hok) Hr) as (_ & Hother & Hpath & _).
  split; [done|]. intros p H1 H2. by apply Hother.
Qed.

(** ** Two processes *)

(** Between the write and the rename of the first process the second one opens
    the same temporary file, which empties it: the first renames an empty file
    and reports success. *)
Definition overlap (data1 : string) : list (bool * call) :=
  [(true, Mkdir true); (true, Open true); (true, Wrote (String.length data1)); (true, Close);
   (false, Mkdir true); (false, Open true); (true, Rename true)].

Lemma overlap_empties path data1 data2 d : exists s2 d', pair_run path data1 data2 (overlap data1) d = Some (Returned true, s2, d')
  /\ read_file d' path = Some EmptyString.
Proof.
  unfold pair_run, overlap. cbn [foldl mbind option_bind pair_step fst snd save_step].
  destruct (open_trunc d (tmp_path path)) as [fd d1] eqn:Eo. cbn [mbind option_bind pair_step fst snd save_step].
  rewrite str_drop_length. cbn [mbind option_bind pair_step fst snd save_step String.eqb].
  pose proof (open_trunc_names _ _ _ _ Eo) as Hn.
  unfold open_trunc. cbn [append_to d_names d_inodes d_next]. rewrite Hn. cbn [mbind option_bind pair_step fst snd save_step].
  unfold rename. cbn [d_names d_inodes d_next]. rewrite Hn. cbn [mbind option_bind fmap option_fmap option_map].
  do 2 eexists. split; [done|]. unfold read_file. cbn [d_names d_inodes]. rewrite lookup_insert_eq. cbn [mbind option_bind]. apply lookup_insert_eq.
Qed.

(** ** Writing in place *)

(** Once the file is open its old content is gone. *)
Lemma write_truncates path data d : exists fd d', write_run path data [Mkdir true; Open true] (Marshalled, d) = Some (Writing fd data, d')
  /\ read_file d' path = Some EmptyString.
Proof.
  unfold write_run. cbn [foldl mbind option_bind write_step]. destruct (open_trunc d path) as [fd d1] eqn:Eo.
  exists fd, d1. split; [done|]. unfold read_file. rewrite (open_trunc_names _ _ _ _ Eo). cbn [mbind option_bind].
  unfold open_trunc in Eo. destruct (d_names d !! path); injection Eo as <- <-; apply lookup_insert_eq.
Qed.
