(* ===== verification/MeshState.v ===== *)
(** * The state file of the centralized mesh (pkg/mesh/mesh.go)

    Creating a mesh, adding and removing nodes, and the file they are kept in,
    plain or encrypted with the password.  Key generation, the file system and
    the random draws of the encryption are arguments. *)

From S2P Require Import Prelude GoStrings GoNet GoCrypto GoJson GoMaps GoTimeJson Aead Tokens Endpoints Mesh.
From S2P Require Import GoText.
Local Open Scope wgmesh_scope.

(** ** Creating a mesh *)

(** [parsedNet.String()] of an IPv4 network. *)
Definition ipnet_string (ip : list Z) (mask : list Z) : string :=
  ip_string ip ^^ "/" ^^ itoa (mask_size mask).1.

Definition mesh_network (network : string) : result string :=
  if String.eqb network "" then Ok "10.99.0.0/16"%string
  else match parse_cidr network with
  | None => Err "invalid network CIDR"
  | Some (_, parsedNet) =>
      match to4 (net_ip parsedNet) with
      | None => Err "only IPv4 networks are supported"
      | Some ipv4 => Ok (ipnet_string ipv4 (net_mask parsedNet))
      end
  end.

(** The mesh [InitializeWithNetwork] saves. *)
Definition InitializeWithNetwork (hostname : result string) (network : string) : result Mesh :=
  match hostname with
  | Err _ => Err "failed to get hostname"
  | Ok hostname =>
      match mesh_network network with
      | Err e => Err e
      | Ok meshNetwork =>
          Ok {| m_InterfaceName := "wg0"; m_Network := meshNetwork; m_ListenPort := 51820;
                m_Nodes := Some ∅; m_LocalHostname := hostname; m_Groups := ∅; m_AccessPolicies := [] |}
      end
  end.

Definition Initialize (hostname : result string) : result Mesh := InitializeWithNetwork hostname "".

(** ** Nodes *)

(** [hostname:mesh_ip:ssh_host[:ssh_port]]. *)
Definition parse_node_spec (nodeSpec : string) : result (string * list Z * string * Z) :=
  match split_char ":" nodeSpec with
  | hostname :: ip :: sshHost :: rest =>
      match parse_ip ip with
      | None => Err "invalid mesh IP"
      | Some meshIP =>
          match rest with
          | [] => Ok (hostname, meshIP, sshHost, 22%Z)
          | port :: _ =>
              match sscanf_d port with
              | None => Err "invalid SSH port"
              | Some sshPort => Ok (hostname, meshIP, sshHost, sshPort)
              end
          end
      end
  | _ => Err "invalid node spec, expected hostname:mesh_ip:ssh_host[:ssh_port]"
  end.

Definition new_node (m : Mesh) (hostname : string) (meshIP : list Z) (sshHost : string) (sshPort : Z)
    (privateKey publicKey : string) : Node :=
  {| n_Hostname := hostname; n_MeshIP := meshIP; n_PublicKey := publicKey; n_PrivateKey := privateKey;
     n_SSHHost := sshHost; n_SSHPort := sshPort; n_PublicEndpoint := ""; n_ListenPort := m_ListenPort m;
     n_BehindNAT := false; n_RoutableNetworks := []; n_IsLocal := String.eqb hostname (m_LocalHostname m);
     n_ActualHostname := ""; n_FQDN := "" |}.

(** [keys] is what [GenerateKeyPair] returns (private, public).  Writing to a
    nil map panics ([None]). *)
Definition AddNode (keys : result (string * string)) (m : Mesh) (nodeSpec : string) : option (result Mesh) :=
  match parse_node_spec nodeSpec with
  | Err e => Some (Err e)
  | Ok (hostname, meshIP, sshHost, sshPort) =>
      match nodes m !! hostname with
      | Some _ => Some (Err "node already exists")
      | None =>
          match keys with
          | Err _ => Some (Err "failed to generate keys")
          | Ok (privateKey, publicKey) =>
              match m_Nodes m with
              | None => None
              | Some ns =>
                  Some (Ok (set_nodes m (<[hostname := new_node m hostname meshIP sshHost sshPort privateKey publicKey]> ns)))
              end
          end
      end
  end.

Definition RemoveNode (m : Mesh) (hostname : string) : result Mesh :=
  match nodes m !! hostname with
  | None => Err "node not found"
  | Some _ => Ok (set_nodes m (delete hostname (nodes m)))
  end.

(** [ListSimple], one line per node. *)
Definition ListSimple (m : Mesh) : list string :=
  (fun kn => (if String.eqb (n_ActualHostname kn.2) "" then n_Hostname kn.2 else n_ActualHostname kn.2)
             ^^ " " ^^ ip_string (n_MeshIP kn.2)) <$> map_to_list (nodes m).

(** ** JSON *)

(** A [net.IP] is its text, the empty string when it is nil. *)
Definition ip_json (ip : list Z) : json := JStr (match ip with [] => "" | _ => ip_string ip end)%string.
Definition dec_ip (v : json) : option (list Z) :=
  match v with
  | JStr s => if String.eqb s "" then Some [] else parse_ip s
  | _ => None
  end.

Definition node_json (n : Node) : json :=
  JObj ([("hostname"%string, JStr (n_Hostname n))]
        ++ [("mesh_ip"%string, ip_json (n_MeshIP n))]
        ++ [("public_key"%string, JStr (n_PublicKey n))]
        ++ omit_str "private_key" (n_PrivateKey n)
        ++ [("ssh_host"%string, JStr (n_SSHHost n))]
        ++ [("ssh_port"%string, jint (n_SSHPort n))]
        ++ omit_str "public_endpoint" (n_PublicEndpoint n)
        ++ [("listen_port"%string, jint (n_ListenPort n))]
        ++ [("behind_nat"%string, JBool (n_BehindNAT n))]
        ++ omit_list "routable_networks" JStr (n_RoutableNetworks n)
        ++ [("is_local"%string, JBool (n_IsLocal n))]
        ++ omit_str "actual_hostname" (n_ActualHostname n)
        ++ omit_str "fqdn" (n_FQDN n)).

(** An entry that is [null], which Go reads as a nil pointer, is refused here. *)
Definition dec_node (v : json) : option Node :=
  match v with
  | JObj ms =>
      hn ← str_field "hostname" ms; ip ← field dec_ip keep [] "mesh_ip" ms; pub ← str_field "public_key" ms;
      priv ← str_field "private_key" ms; sh ← str_field "ssh_host" ms; sp ← int_field "ssh_port" ms;
      ep ← str_field "public_endpoint" ms; lp ← int_field "listen_port" ms; nat_b ← bool_field "behind_nat" ms;
      nets ← list_field dec_string "routable_networks" ms; loc ← bool_field "is_local" ms;
      ah ← str_field "actual_hostname" ms; fq ← str_field "fqdn" ms;
      Some {| n_Hostname := hn; n_MeshIP := ip; n_PublicKey := pub; n_PrivateKey := priv; n_SSHHost := sh;
              n_SSHPort := sp; n_PublicEndpoint := ep; n_ListenPort := lp; n_BehindNAT := nat_b;
              n_RoutableNetworks := nets; n_IsLocal := loc; n_ActualHostname := ah; n_FQDN := fq |}
  | _ => None
  end.

(** A slice without [omitempty]: nil is [null]. *)
Definition strings_json (l : list string) : json := match l with [] => JNull | _ => JArr (JStr <$> l) end.

Definition group_json (g : Group) : json :=
  JObj (omit_str "description" (g_Description g) ++ [("members"%string, strings_json (g_Members g))]).
Definition dec_group (v : json) : option Group :=
  match v with
  | JObj ms =>
      d ← str_field "description" ms; ms' ← list_field dec_string "members" ms;
      Some {| g_Description := d; g_Members := ms' |}
  | _ => None
  end.

Definition policy_json (p : AccessPolicy) : json :=
  JObj ([("name"%string, JStr (ap_Name p))]
        ++ omit_str "description" (ap_Description p)
        ++ [("from_groups"%string, strings_json (ap_FromGroups p))]
        ++ [("to_groups"%string, strings_json (ap_ToGroups p))]
        ++ [("allow_mesh_ips"%string, JBool (ap_AllowMeshIPs p))]
        ++ [("allow_routable_networks"%string, JBool (ap_AllowRoutableNetworks p))]).
Definition dec_policy (v : json) : option AccessPolicy :=
  match v with
  | JObj ms =>
      n ← str_field "name" ms; d ← str_field "description" ms; f ← list_field dec_string "from_groups" ms;
      t ← list_field dec_string "to_groups" ms; ai ← bool_field "allow_mesh_ips" ms;
      ar ← bool_field "allow_routable_networks" ms;
      Some {| ap_Name := n; ap_Description := d; ap_FromGroups := f; ap_ToGroups := t;
              ap_AllowMeshIPs := ai; ap_AllowRoutableNetworks := ar |}
  | _ => None
  end.

Definition nodes_json (ns : option (gmap string Node)) : json :=
  match ns with None => JNull | Some ns => map_json node_json ns end.

Definition mesh_json (m : Mesh) : json :=
  JObj ([("interface_name"%string, JStr (m_InterfaceName m))]
        ++ [("network"%string, JStr (m_Network m))]
        ++ [("listen_port"%string, jint (m_ListenPort m))]
        ++ [("nodes"%string, nodes_json (m_Nodes m))]
        ++ [("local_hostname"%string, JStr (m_LocalHostname m))]
        ++ omit_map "groups" group_json (m_Groups m)
        ++ omit_list "access_policies" policy_json (m_AccessPolicies m)).

Definition dec_mesh (v : json) : option Mesh :=
  match v with
  | JObj ms =>
      i ← str_field "interface_name" ms; n ← str_field "network" ms; p ← int_field "listen_port" ms;
      ns ← field (fun v => Some <$> dec_map dec_node v) (fun _ => None) None "nodes" ms;
      l ← str_field "local_hostname" ms;
      gs ← field (dec_map dec_group) (fun _ => ∅) ∅ "groups" ms;
      ps ← list_field dec_policy "access_policies" ms;
      Some {| m_InterfaceName := i; m_Network := n; m_ListenPort := p; m_Nodes := ns;
              m_LocalHostname := l; m_Groups := gs; m_AccessPolicies := ps |}
  | JNull => Some {| m_InterfaceName := ""; m_Network := ""; m_ListenPort := 0; m_Nodes := None;
              m_LocalHostname := ""; m_Groups := ∅; m_AccessPolicies := [] |}
  | _ => None
  end.

(** ** The file *)

Section file.
Context `{Aead, Pbkdf2}.

(** What is written; [salt] and [nonce] are the draws of the encryption. *)
Definition Save (password : string) (salt nonce : option (list Z)) (m : Mesh) : result string :=
  let data := print_indent (mesh_json m) in
  if String.eqb password "" then Ok data
  else wrap "failed to encrypt state" (Encrypt (bytes_of_string data) password salt nonce).

Definition Load (password : string) (content : option string) : result Mesh :=
  match content with
  | None => Err "failed to read state file"
  | Some data =>
      data <-? (if String.eqb password "" then Ok data
                else match Decrypt data password with
                     | Ok bs => Ok (string_of_bytes bs)
                     | Err _ => Err "failed to decrypt state file"
                     end);
      match parse data ≫= dec_mesh with
      | Some m => Ok m
      | None => Err "failed to parse state file"
      end
  end.
End file.

(** ** Reading the file back *)

(** An address whose text is read back as the address. *)
Definition ip_text (ip : list Z) : bool :=
  match ip with
  | [] => true
  | _ => ascii_str (ip_string ip) && negb (String.eqb (ip_string ip) "") && bool_decide (parse_ip (ip_string ip) = Some ip)
  end.

Lemma ip_reads ip : ip_text ip = true -> json_ok (ip_json ip) = true /\ dec_ip (ip_json ip) = Some ip.
Proof.
  unfold ip_text, ip_json, dec_ip. destruct ip as [|b ip]; [done|]. intros Ht. bool_steps. split; [done|].
  by rewrite (proj2 (String.eqb_neq _ _)).
Qed.

Definition node_text (n : Node) : bool :=
  ascii_str (n_Hostname n) && ip_text (n_MeshIP n) && ascii_str (n_PublicKey n) && ascii_str (n_PrivateKey n)
  && ascii_str (n_SSHHost n) && int64 (n_SSHPort n) && ascii_str (n_PublicEndpoint n) && int64 (n_ListenPort n)
  && forallb ascii_str (n_RoutableNetworks n) && ascii_str (n_ActualHostname n) && ascii_str (n_FQDN n).

Lemma node_reads n : node_text n = true -> json_ok (node_json n) = true /\ dec_node (node_json n) = Some n.
Proof.
  unfold node_text, int64. intros Ht. bool_steps.
  match goal with E : ip_text _ = true |- _ => destruct (ip_reads _ E) as [Hj Hd] end. split.
  - unfold node_json. cbn [json_ok]. rewrite !forallb_app. cbn [forallb fst snd]. rewrite Hj. message_ok.
  - unfold dec_node, node_json.
    read_struct ltac:(first [ exact Hd | apply dec_jint; lia | apply fold_omit_list, Forall_true; intros; reflexivity ]).
    by destruct n.
Qed.

Lemma strings_reads name l :
  foldl (field_step (dec_list dec_string) (fun _ => []) name) (Some []) [(name, strings_json l)] = Some l.
Proof.
  destruct l as [|s l]; [simpl; by rewrite key_match_refl|]. rewrite fold_same by done.
  apply (mapM_encode JStr dec_string (s :: l)). by apply Forall_true.
Qed.

Lemma strings_ok l : forallb ascii_str l = true -> json_ok (strings_json l) = true.
Proof.
  intros Hl. destruct l as [|s l]; [done|]. cbn [strings_json json_ok]. apply forallb_forall. intros x Hx.
  apply list_elem_of_In, list_elem_of_fmap in Hx as (y & -> & Hy).
  by apply (proj1 (forallb_forall _ _) Hl), list_elem_of_In.
Qed.

Definition group_text (g : Group) : bool := ascii_str (g_Description g) && forallb ascii_str (g_Members g).

Lemma group_reads g : group_text g = true -> json_ok (group_json g) = true /\ dec_group (group_json g) = Some g.
Proof.
  unfold group_text. intros Ht. bool_steps. split.
  - unfold group_json. cbn [json_ok]. rewrite forallb_app, omit_str_ok by done. cbn [forallb fst snd].
    by rewrite strings_ok.
  - unfold dec_group, group_json. read_struct ltac:(apply strings_reads). by destruct g.
Qed.

Definition policy_text (p : AccessPolicy) : bool :=
  ascii_str (ap_Name p) && ascii_str (ap_Description p) && forallb ascii_str (ap_FromGroups p) && forallb ascii_str (ap_ToGroups p).

Lemma policy_reads p : policy_text p = true -> json_ok (policy_json p) = true /\ dec_policy (policy_json p) = Some p.
Proof.
  unfold policy_text. intros Ht. bool_steps. split.
  - unfold policy_json. cbn [json_ok]. rewrite !forallb_app, omit_str_ok by done. cbn [forallb fst snd json_ok].
    rewrite !strings_ok by done. by match goal with E : ascii_str (ap_Name p) = true |- _ => rewrite E end.
  - unfold dec_policy, policy_json. read_struct ltac:(apply strings_reads). by destruct p.
Qed.

(** What the file can hold: ASCII texts, 64-bit integers, readable addresses. *)
Definition mesh_text (m : Mesh) : Prop :=
  ascii_str (m_InterfaceName m) && ascii_str (m_Network m) && int64 (m_ListenPort m)
    && ascii_str (m_LocalHostname m) && forallb policy_text (m_AccessPolicies m) = true
  /\ (forall h n, nodes m !! h = Some n -> ascii_str h && node_text n = true)
  /\ (forall k g, m_Groups m !! k = Some g -> ascii_str k && group_text g = true).

Lemma omit_map_cases {A} name (enc : A -> json) (m : gmap string A) :
  (m = ∅ /\ omit_map name enc m = []) \/ omit_map name enc m = [(name, map_json enc m)].
Proof. unfold omit_map. case_bool_decide; auto. Qed.

Lemma mesh_reads m : mesh_text m -> json_ok (mesh_json m) = true /\ dec_mesh (mesh_json m) = Some m.
Proof.
  intros (Ht & Hns & Hgs). unfold int64 in Ht. bool_steps.
  assert (forall ns, m_Nodes m = Some ns -> json_ok (map_json node_json ns) = true
            /\ dec_map dec_node (map_json node_json ns) = Some ns) as Hn.
  { intros ns E. unfold nodes in Hns. rewrite E in Hns. simpl in Hns. split.
    - apply map_json_ok. intros k a Hk. specialize (Hns k a Hk). bool_steps. split; [done|by apply node_reads].
    - apply dec_map_json. intros k a Hk. specialize (Hns k a Hk). bool_steps. by apply node_reads. }
  assert (json_ok (map_json group_json (m_Groups m)) = true /\ dec_map dec_group (map_json group_json (m_Groups m)) = Some (m_Groups m)) as [Hgj Hgd].
  { split.
    - apply map_json_ok. intros k a Hk. specialize (Hgs k a Hk). bool_steps. split; [done|by apply group_reads].
    - apply dec_map_json. intros k a Hk. specialize (Hgs k a Hk). bool_steps. by apply group_reads. }
  assert (forall p, p ∈ m_AccessPolicies m -> policy_text p = true) as Hpt.
  { intros p Hp. match goal with E : forallb policy_text _ = true |- _ => by apply (proj1 (forallb_forall _ _) E), list_elem_of_In end. }
  assert (Forall (fun p => json_ok (policy_json p) = true) (m_AccessPolicies m)) as Hpj
    by (apply Forall_forall; intros p Hp; by apply policy_reads, Hpt).
  assert (Forall (fun p => dec_policy (policy_json p) = Some p) (m_AccessPolicies m)) as Hpd
    by (apply Forall_forall; intros p Hp; by apply policy_reads, Hpt).
  assert (json_ok (nodes_json (m_Nodes m)) = true) as Hnj.
  { destruct (m_Nodes m) as [ns|]; [|done]. by apply Hn. }
  split.
  - unfold mesh_json. cbn [json_ok]. rewrite !forallb_app. cbn [forallb fst snd]. rewrite Hnj.
    rewrite omit_list_ok by done.
    destruct (omit_map_cases "groups" group_json (m_Groups m)) as [[_ ->]| ->]; cbn [forallb fst snd]; rewrite ?Hgj;
      cbn [json_ok]; repeat match goal with E : ascii_str _ = true |- _ => rewrite E; clear E end;
      rewrite ?jint_ok by lia; reflexivity.
  - unfold dec_mesh, mesh_json. destruct (m_Nodes m) as [ns|] eqn:En; cbn [nodes_json].
    + destruct (Hn ns eq_refl) as [_ Hnd].
      destruct (omit_map_cases "groups" group_json (m_Groups m)) as [[Eg ->]| ->];
        read_struct ltac:(first [ rewrite Hnd; reflexivity | exact Hgd | apply dec_jint; lia | apply fold_omit_list, Hpd
                                | rewrite Eg; reflexivity ]); destruct m; simpl in *; congruence.
    + destruct (omit_map_cases "groups" group_json (m_Groups m)) as [[Eg ->]| ->];
        read_struct ltac:(first [ exact Hgd | apply dec_jint; lia | apply fold_omit_list, Hpd
                                | rewrite Eg; reflexivity ]); destruct m; simpl in *; congruence.
Qed.

Lemma save_load `{Aead, Pbkdf2} password salt nonce m :
  mesh_text m -> length salt = saltSize -> Forall is_byte salt -> length nonce = gcmNonceSize -> Forall is_byte nonce ->
  exists text, Save password (Some salt) (Some nonce) m = Ok text /\ Load password (Some text) = Ok m.
Proof.
  intros Hm Hs Bs Hn Bn. destruct (mesh_reads m Hm) as [Hj Hd]. unfold Save, Load. cbv zeta.
  assert (parse (print_indent (mesh_json m)) ≫= dec_mesh = Some m) as Hp
    by (rewrite parse_print_indent by done; exact Hd).
  destruct (String.eqb password ""); [exists (print_indent (mesh_json m)); split; [done|]; cbn [rbind]; by rewrite Hp|].
  destruct (Decrypt_Encrypt (bytes_of_string (print_indent (mesh_json m))) password salt nonce
    (bytes_of_string_bytes _) Hs Bs Hn Bn) as (text & -> & Hdec).
  exists text. split; [done|]. rewrite Hdec. cbn [rbind]. by rewrite string_bytes_roundtrip, Hp.
Qed.

(** ** What the operations keep *)

Lemma split_forall p c s : string_forall p s = true -> Forall (fun w => string_forall p w = true) (split_char c s).
Proof.
  induction s as [|d s IH]; [by repeat constructor|]. cbn [string_forall split_char]. intros Hs. bool_steps.
  specialize (IH ltac:(done)). destruct (Ascii.eqb d c); [by constructor|].
  destruct (split_char c s) as [|w ws]; [constructor; [|done]; simpl; by match goal with E : p d = true |- _ => rewrite E end|].
  apply Forall_cons in IH as [Hw Hws]. constructor; [|done]. simpl.
  by match goal with E : p d = true |- _ => rewrite E end.
Qed.

Lemma split_no_sep c s : Forall (fun w => contains_char c w = false) (split_char c s).
Proof.
  induction s as [|d s IH]; [by repeat constructor|]. cbn [split_char].
  destruct (Ascii.eqb_spec d c) as [->|Hne]; [by constructor|].
  destruct (split_char c s) as [|w ws].
  - constructor; [|done]. cbn [contains_char]. by destruct (Ascii.eqb_spec d c).
  - apply Forall_cons in IH as [Hw Hws]. constructor; [|done]. cbn [contains_char].
    by destruct (Ascii.eqb_spec d c).
Qed.

Lemma addr_kind_no_colon s : contains_char ":" s = false -> addr_kind_of s <> KindV6.
Proof.
  induction s as [|c s IH]; [done|]. cbn [contains_char addr_kind_of]. intros Hs.
  destruct (Ascii.eqb c "."); [done|]. destruct (Ascii.eqb c ":"); [done|].
  destruct (Ascii.eqb c "%"); [done|]. by apply IH.
Qed.

(** An address without colons is IPv4, and its text is read back. *)
Lemma spec_ip_text s ip : contains_char ":" s = false -> parse_ip s = Some ip -> ip_text ip = true.
Proof.
  intros Hc. unfold parse_ip, parse_addr. pose proof (addr_kind_no_colon s Hc).
  destruct (addr_kind_of s); [|done..]. destruct (parse_ipv4 s) as [v4|] eqn:E; [|done]. intros [= <-].
  unfold parse_ipv4 in E. destruct (split_char "." s) as [|a [|b [|c [|d []]]]]; try done.
  destruct (parse_octet a) as [xa|] eqn:Ea, (parse_octet b) as [xb|] eqn:Eb, (parse_octet c) as [xc|] eqn:Ec,
    (parse_octet d) as [xd|] eqn:Ed; try done. injection E as <-.
  apply parse_octet_byte in Ea, Eb, Ec, Ed. change (as16 [xa; xb; xc; xd]) with (v4_in_v6_prefix ++ [xa; xb; xc; xd]).
  unfold ip_text. cbn [v4_in_v6_prefix app]. change (0 :: _)%Z with (v4_in_v6_prefix ++ [xa; xb; xc; xd]).
  assert (ip_string (v4_in_v6_prefix ++ [xa; xb; xc; xd]) = ipv4_string [xa; xb; xc; xd]) as ->.
  { unfold ip_string. by rewrite to4_v4. }
  rewrite parse_ip_ipv4_string by done. rewrite bool_decide_eq_true_2 by done. rewrite andb_true_r.
  assert (forall x, is_byte x -> string_forall (byte_in 0 127) (itoa x) = true) as Hasc.
  { intros x [Hx _]. by apply digits_ascii, itoa_digits. }
  unfold ipv4_string, ascii_str. cbn [fmap list_fmap join]. rewrite !string_forall_app, !Hasc by done.
  pose proof (itoa_nonempty xa) as Hne. by destruct (itoa xa).
Qed.

Lemma atoi_int64 s z : atoi s = Some z -> int64 z = true.
Proof. unfold atoi, int64. destruct (strip_plus s); [|done]. destruct (DecimalString.NilZero.int_of_string _); [|done]. by split_if; [intros [= <-]|]. Qed.

Lemma sscanf_int64 s z : sscanf_d s = Some z -> int64 z = true.
Proof.
  unfold sscanf_d. destruct (trim_left s) as [|c t]; [done|].
  assert (forall d x, (if String.eqb d EmptyString then None else atoi x) = Some z -> int64 z = true) as Hd.
  { intros d x. destruct (String.eqb d EmptyString); [done|]. apply atoi_int64. }
  destruct c as [[] [] [] [] [] [] [] []]; apply Hd.
Qed.

(** What a node specification of ASCII text gives. *)
Lemma parse_node_spec_text spec hostname ip sshHost sshPort : ascii_str spec = true ->
  parse_node_spec spec = Ok (hostname, ip, sshHost, sshPort) ->
  ascii_str hostname = true /\ ip_text ip = true /\ ascii_str sshHost = true /\ int64 sshPort = true.
Proof.
  intros Ha. unfold parse_node_spec. pose proof (split_forall _ ":" _ Ha) as Hs. pose proof (split_no_sep ":" spec) as Hc.
  destruct (split_char ":" spec) as [|h [|i [|sh rest]]]; try done.
  apply Forall_cons in Hs as [Hh Hs]. apply Forall_cons in Hs as [Hi Hs]. apply Forall_cons in Hs as [Hsh _].
  apply Forall_cons in Hc as [_ Hc]. apply Forall_cons in Hc as [Hic _].
  destruct (parse_ip i) as [ip'|] eqn:Ei; [|done].
  pose proof (spec_ip_text _ _ Hic Ei). destruct rest as [|port rest].
  - by intros [= <- <- <- <-].
  - destruct (sscanf_d port) eqn:Ep; [|done]. intros [= <- <- <- <-]. by apply sscanf_int64 in Ep.
Qed.

Lemma ipv4_string_ascii ip : ascii_str (ipv4_string ip) = true.
Proof.
  unfold ipv4_string. induction ip as [|b ip IH]; [done|].
  pose proof (itoa_ascii b) as Hb. destruct ip as [|c ip]; [done|]. rewrite !fmap_cons in *. cbn [join]. unfold ascii_str in *.
  rewrite !string_forall_app, Hb. exact IH.
Qed.

Lemma to4_idem ip v4 : to4 ip = Some v4 -> to4 v4 = Some v4.
Proof.
  unfold to4. destruct (Nat.eqb_spec (length ip) 4) as [E|].
  - intros [= <-]. by rewrite E.
  - destruct (Nat.eqb_spec (length ip) 16) as [E|]; [|done]. destruct (bool_decide _); [|done]. intros [= <-].
    by rewrite length_drop, E.
Qed.

Lemma mesh_network_ascii network s : mesh_network network = Ok s -> ascii_str s = true.
Proof.
  unfold mesh_network. destruct (String.eqb network ""); [by intros [= <-]|].
  destruct (parse_cidr network) as [[ip net]|]; [|done]. destruct (to4 (net_ip net)) as [v4|] eqn:E; [|done].
  intros [= <-]. assert (to4 v4 = Some v4) as E4 by by apply to4_idem in E.
  unfold ipnet_string, ascii_str. rewrite !string_forall_app.
  assert (ip_string v4 = ipv4_string v4) as -> by (unfold ip_string; by rewrite E4).
  pose proof (ipv4_string_ascii v4) as H4. pose proof (itoa_ascii (mask_size (net_mask net)).1) as Hm.
  unfold ascii_str in H4, Hm. by rewrite H4, Hm.
Qed.

(** ** Managing a mesh *)

Inductive mesh_op :=
| MeshAdd (keys : result (string * string)) (nodeSpec : string)
| MeshRemove (hostname : string).

(** A command: an error is reported and the state stays. *)
Definition mesh_step (m : Mesh) (op : mesh_op) : option Mesh :=
  match op with
  | MeshAdd keys nodeSpec =>
      match AddNode keys m nodeSpec with
      | None => None
      | Some (Ok m') => Some m'
      | Some (Err _) => Some m
      end
  | MeshRemove hostname => match RemoveNode m hostname with Ok m' => Some m' | Err _ => Some m end
  end.

Fixpoint mesh_run (m : Mesh) (ops : list mesh_op) : option Mesh :=
  match ops with
  | [] => Some m
  | op :: rest => m' ← mesh_step m op; mesh_run m' rest
  end.

(** Input on the command line and generated keys are ASCII. *)
Definition op_text (op : mesh_op) : bool :=
  match op with
  | MeshAdd (Ok (priv, pub)) nodeSpec => ascii_str nodeSpec && ascii_str priv && ascii_str pub
  | MeshAdd (Err _) nodeSpec => ascii_str nodeSpec
  | MeshRemove _ => true
  end.

(** The map is there, every node is filed under its name, knows whether it is
    the local one, and listens on the port of the mesh. *)
Definition mesh_ok (m : Mesh) : Prop :=
  is_Some (m_Nodes m)
  /\ forall h n, nodes m !! h = Some n ->
       n_Hostname n = h /\ n_IsLocal n = String.eqb h (m_LocalHostname m) /\ n_ListenPort n = m_ListenPort m.

Lemma nodes_set_nodes m ns : nodes (set_nodes m ns) = ns.
Proof. done. Qed.

Lemma mesh_step_ok m op : mesh_ok m -> mesh_text m -> op_text op = true ->
  exists m', mesh_step m op = Some m' /\ mesh_ok m' /\ mesh_text m'.
Proof.
  intros Hmo Hmt Hop. assert (exists m', Some m = Some m' /\ mesh_ok m' /\ mesh_text m') as Hstay by by exists m.
  destruct Hmo as [Hsome Hok], Hmt as (Ht & Hns & Hgs). destruct op as [keys spec|hostname]; cbn [mesh_step].
  - unfold AddNode. destruct (parse_node_spec spec) as [[[[h ip] sh] sp]|] eqn:Ep; [|done].
    destruct (nodes m !! h) eqn:Eh; [done|]. destruct keys as [[priv pub]|]; [|done].
    destruct Hsome as [ns Hs]. rewrite Hs. assert (nodes m = ns) as <- by (unfold nodes; by rewrite Hs).
    pose proof (conj Ht I) as Hkeep. cbn [op_text] in Hop. bool_steps.
    destruct (parse_node_spec_text spec h ip sh sp ltac:(done) Ep) as (Hh & Hip & Hsh & Hsp).
    eexists. split; [done|]. split.
    + split; [by eexists|]. intros h' n. rewrite nodes_set_nodes.
      rewrite lookup_insert. case_decide as E; [|apply Hok]. intros [= <-]. subst h'. done.
    + split; [exact (proj1 Hkeep)|]. split; [|exact Hgs]. intros h' n. rewrite nodes_set_nodes.
      rewrite lookup_insert. case_decide as E; [|apply Hns]. intros [= <-]. subst h'.
      rewrite Hh. unfold node_text. cbn [new_node n_Hostname n_MeshIP n_PublicKey n_PrivateKey n_SSHHost n_SSHPort
        n_PublicEndpoint n_ListenPort n_RoutableNetworks n_ActualHostname n_FQDN].
      rewrite Hh, Hip, Hsh, Hsp. repeat match goal with E : ascii_str _ = true |- _ => rewrite E; clear E end.
      bool_steps. by match goal with E : int64 (m_ListenPort m) = true |- _ => rewrite E end.
  - unfold RemoveNode. destruct (nodes m !! hostname) as [old|] eqn:Eh; [|done].
    eexists. split; [done|]. split.
    + split; [by eexists|]. intros h' n. rewrite nodes_set_nodes.
      intros [_ Hn]%lookup_delete_Some. by apply Hok.
    + split; [exact Ht|]. split; [|exact Hgs]. intros h' n. rewrite nodes_set_nodes.
      intros [_ Hn]%lookup_delete_Some. by apply Hns.
Qed.

Lemma mesh_run_ok ops m : mesh_ok m -> mesh_text m -> forallb op_text ops = true ->
  exists m', mesh_run m ops = Some m' /\ mesh_ok m' /\ mesh_text m'.
Proof.
  revert m. induction ops as [|op ops IH]; intros m Hok Ht; cbn [forallb mesh_run]; [by exists m|]. intros Hops. bool_steps.
  destruct (mesh_step_ok m op Hok Ht ltac:(done)) as (m1 & -> & H1 & H2). by apply IH.
Qed.

Lemma mesh_run_header ops m m' : mesh_run m ops = Some m' ->
  m_LocalHostname m' = m_LocalHostname m /\ m_ListenPort m' = m_ListenPort m.
Proof.
  revert m. induction ops as [|op ops IH]; intros m; cbn [mesh_run]; [by intros [= <-]|].
  destruct (mesh_step m op) as [m1|] eqn:E; [|done]. intros [-> ->]%IH. destruct op as [keys spec|h]; cbn [mesh_step] in E.
  - unfold AddNode in E. destruct (parse_node_spec spec) as [[[[h ip] sh] sp]|]; [|by injection E as <-].
    destruct (nodes m !! h); [by injection E as <-|]. destruct keys as [[priv pub]|]; [|by injection E as <-].
    destruct (m_Nodes m); [|done]. by injection E as <-.
  - unfold RemoveNode in E. destruct (nodes m !! h); by injection E as <-.
Qed.

Lemma initialized_ok hostname network m : ascii_str hostname = true ->
  InitializeWithNetwork (Ok hostname) network = Ok m -> mesh_ok m /\ mesh_text m.
Proof.
  intros Hh. unfold InitializeWithNetwork. destruct (mesh_network network) as [net|] eqn:En; [|done]. intros [= <-].
  apply mesh_network_ascii in En. split; [split; [by eexists|]; intros h n Hl; exfalso; exact (lookup_empty_Some h n Hl)|].
  split; [cbn [m_InterfaceName m_Network m_ListenPort m_LocalHostname m_AccessPolicies forallb]; by rewrite Hh, En|]. split; intros k v Hl; exfalso; exact (lookup_empty_Some k v Hl).
Qed.

(** C29. Managing a mesh: whatever commands add and remove nodes after a mesh is
    created, no command panics, every node stays filed under its own name with
    the listening port of the mesh and is local exactly when it carries the
    name of this host, and the state file, encrypted or not, reads back as the
    same mesh. *)
Theorem mesh_lifecycle `{Aead, Pbkdf2} hostname network m0 ops password salt nonce :
  ascii_str hostname = true -> InitializeWithNetwork (Ok hostname) network = Ok m0 -> forallb op_text ops = true ->
  length salt = saltSize -> Forall is_byte salt -> length nonce = gcmNonceSize -> Forall is_byte nonce ->
  exists m text, mesh_run m0 ops = Some m
    /\ (forall h n, nodes m !! h = Some n ->
          n_Hostname n = h /\ n_IsLocal n = String.eqb h hostname /\ n_ListenPort n = 51820%Z)
    /\ Save password (Some salt) (Some nonce) m = Ok text /\ Load password (Some text) = Ok m.
Proof.
  intros Hh Hi Hops Hs Bs Hn Bn. destruct (initialized_ok _ _ _ Hh Hi) as [Hok Ht].
  destruct (mesh_run_ok ops m0 Hok Ht Hops) as (m & Hr & [_ Hm] & Htm).
  destruct (save_load password salt nonce m Htm Hs Bs Hn Bn) as (text & Hsv & Hld).
  exists m, text. split; [done|]. split; [|done]. intros h n Hl.
  destruct (mesh_run_header ops m0 m Hr) as [El Ep].
  assert (m_LocalHostname m0 = hostname /\ m_ListenPort m0 = 51820%Z) as [<- <-].
  { unfold InitializeWithNetwork in Hi. destruct (mesh_network network); [|done]. by injection Hi as <-. }
  rewrite <- El, <- Ep. by apply Hm.
Qed.

(** Two additions, one of them a name that is taken, and a removal. *)
Definition sample_commands : list mesh_op :=
  [MeshAdd (Ok ("priv1", "pub1")) "web:10.99.0.1:192.0.2.7"; MeshAdd (Ok ("priv2", "pub2")) "db:10.99.0.2:192.0.2.8:2222";
   MeshAdd (Ok ("priv3", "pub3")) "web:10.99.0.3:192.0.2.9"; MeshRemove "web"]%string.

Lemma mesh_lifecycle_witness :
  exists m text, mesh_run (match InitializeWithNetwork (Ok "db") "" with Ok m0 => m0 | Err _ => leak_mesh end) sample_commands = Some m
    /\ Save "hunter2" (Some (replicate 32 1%Z)) (Some (replicate 12 2%Z)) m = Ok text
    /\ Load "hunter2" (Some text) = Ok m.
Proof.
  destruct (mesh_lifecycle "db" "" (match InitializeWithNetwork (Ok "db") "" with Ok m0 => m0 | Err _ => leak_mesh end)
    sample_commands "hunter2" (replicate 32 1%Z) (replicate 12 2%Z)) as (m & text & Hr & _ & Hs & Hl);
    [reflexivity|vm_compute; reflexivity|vm_compute; reflexivity|reflexivity|by_compute|reflexivity|by_compute|].
  exists m, text. exact (conj Hr (conj Hs Hl)).
Defined.

(** [AddNode] looks only at the name: a second node with the mesh address of
    the first is added, and so is a node outside the network of the mesh; the
    two nodes then have the same address. *)
Theorem address_not_checked m keys1 keys2 h1 h2 ip sshHost :
  mesh_ok m -> nodes m !! h1 = None -> nodes m !! h2 = None -> h1 <> h2 ->
  contains_char ":" h1 = false -> contains_char ":" h2 = false -> contains_char ":" ip = false ->
  contains_char ":" sshHost = false -> is_Some (parse_ip ip) ->
  exists m' n1 n2,
    mesh_run m [MeshAdd (Ok keys1) (h1 ^^ ":" ^^ ip ^^ ":" ^^ sshHost); MeshAdd (Ok keys2) (h2 ^^ ":" ^^ ip ^^ ":" ^^ sshHost)] = Some m'
    /\ nodes m' !! h1 = Some n1 /\ nodes m' !! h2 = Some n2 /\ n_MeshIP n1 = n_MeshIP n2
    /\ parse_ip ip = Some (n_MeshIP n1).
Proof.
  intros [[ns Hs] _] H1 H2 Hne C1 C2 Ci Cs [a Ha]. assert (nodes m = ns) as E by (unfold nodes; by rewrite Hs). rewrite E in *.
  assert (forall h, contains_char ":" h = false ->
    parse_node_spec (h ^^ ":" ^^ ip ^^ ":" ^^ sshHost) = Ok (h, a, sshHost, 22%Z)) as Hp.
  { intros h Hh. unfold parse_node_spec. change (h ^^ ":" ^^ ip ^^ ":" ^^ sshHost) with (h ^^ String ":" (ip ^^ String ":" sshHost)).
    rewrite (split_char_app ":" h (ip ^^ String ":" sshHost)), (split_char_app ":" ip sshHost), split_char_no_sep by done. by rewrite Ha. }
  destruct keys1 as [k1 p1], keys2 as [k2 p2]. cbn [mesh_run mesh_step]. unfold AddNode. rewrite !Hp by done. rewrite E, H1, Hs.
  cbn [mbind option_bind]. rewrite nodes_set_nodes, lookup_insert_ne by done. rewrite H2. cbn [set_nodes m_Nodes mbind option_bind].
  eexists _, _, _. split; [done|]. rewrite nodes_set_nodes, lookup_insert_ne, lookup_insert_eq, lookup_insert_eq by done. done.
Qed.

(** * The list of a mesh (pkg/mesh/mesh.go: List)

    [groups] and [ns] are the groups and nodes in the order Go visits the maps. *)

Definition described (d : string) : string := if negb (String.eqb d "") then " (" ^^ d ^^ ")" else "".

Definition group_lines (g : string * Group) : list string :=
  ("  " ^^ g.1 ^^ ":" ^^ described (g_Description g.2)) :: ((fun member => "    - " ^^ member) <$> g_Members g.2).
Definition policy_lines (p : AccessPolicy) : list string :=
  ["  " ^^ ap_Name p ^^ ":" ^^ described (ap_Description p); "    From: " ^^ list_text (ap_FromGroups p);
   "    To: " ^^ list_text (ap_ToGroups p); "    Allow Mesh IPs: " ^^ bool_text (ap_AllowMeshIPs p);
   "    Allow Routable Networks: " ^^ bool_text (ap_AllowRoutableNetworks p)].
Definition groups_line (m : Mesh) (hostname : string) : string :=
  match GetNodeGroups m hostname with
  | [] => "    Groups: (none - will have no access)"
  | gs => "    Groups: " ^^ list_text gs
  end.
Definition node_lines (m : Mesh) (kn : string * Node) : list string :=
  let '(hostname, n) := kn in
  ["  " ^^ hostname ^^ (if n_IsLocal n then " (local)" else "") ^^ (if n_BehindNAT n then " [NAT]" else "") ^^ ":";
   "    Mesh IP: " ^^ ip_string (n_MeshIP n); "    SSH: " ^^ n_SSHHost n ^^ ":" ^^ itoa (n_SSHPort n);
   "    Public Key: " ^^ n_PublicKey n]
  ++ when (negb (String.eqb (n_PublicEndpoint n) "")) ["    Endpoint: " ^^ n_PublicEndpoint n]
  ++ when (Nat.ltb 0 (length (n_RoutableNetworks n))) ["    Routable Networks: " ^^ list_text (n_RoutableNetworks n)]
  ++ when (HasGroups m) [groups_line m hostname] ++ [""%string].

Definition List (m : Mesh) (groups : list (string * Group)) (ns : list (string * Node)) : list string :=
  ["Mesh Network: " ^^ m_Network m; "Interface: " ^^ m_InterfaceName m; "Listen Port: " ^^ itoa (m_ListenPort m); ""%string]
  ++ when (HasGroups m) ("Groups:"%string :: concat (group_lines <$> groups) ++ [""%string])
  ++ when (HasPolicies m) ("Access Policies:"%string :: concat (policy_lines <$> m_AccessPolicies m) ++ [""%string])
  ++ ["Nodes:"%string] ++ concat (node_lines m <$> ns).

Lemma concat_piece {A B} (f : A -> list B) (xs : list A) x (h : list B) : x ∈ xs -> exists before after, h ++ concat (f <$> xs) = before ++ f x ++ after.
Proof.
  intros (l1 & l2 & ->)%list_elem_of_split. exists (h ++ concat (f <$> l1)), (concat (f <$> l2)).
  rewrite fmap_app, fmap_cons, concat_app. cbn [concat]. by rewrite !app_assoc.
Qed.

(** ** The access it announces *)

(** A node listed without groups has indeed no access, and a node that has access to
    some other is listed with its groups. *)
Theorem no_groups_no_access m groups ns hostname n :
  groups ≡ₚ map_to_list (m_Groups m) -> ns ≡ₚ map_to_list (nodes m) -> nodes m !! hostname = Some n -> HasGroups m = true ->
  (exists before after, List m groups ns = before ++ node_lines m (hostname, n) ++ after) /\
  (groups_line m hostname = "    Groups: (none - will have no access)"%string -> GetAllowedPeers m hostname = Some ∅) /\
  (GetAllowedPeers m hostname <> Some ∅ -> exists g, g ∈ GetNodeGroups m hostname
                                          /\ groups_line m hostname = "    Groups: " ^^ list_text (GetNodeGroups m hostname)).
Proof.
  intros Hg Hns Hn Hh. split_and!.
  - assert ((hostname, n) ∈ ns) as Hin by (rewrite Hns; by apply elem_of_map_to_list).
    unfold List. rewrite !app_assoc. by apply concat_piece.
  - unfold groups_line, GetAllowedPeers. destruct (GetNodeGroups m hostname) as [|g gs]; [done|].
    unfold list_text. rewrite !app_cons_str. intros E. discriminate E.
  - unfold groups_line, GetAllowedPeers. destruct (GetNodeGroups m hostname) as [|g gs]; [done|]. intros _. exists g. split; [by left|done].
Qed.

(** Every node is listed once, under its name. *)
Lemma listed_once m ns : ns ≡ₚ map_to_list (nodes m) -> NoDup ns.*1 /\ length ns = size (nodes m).
Proof.
  intros H. split; [rewrite H; apply NoDup_fst_map_to_list|]. by rewrite H, length_map_to_list.
Qed.
