(* ===== verification/Deploy.v ===== *)
(** * Deploying the centralized mesh (pkg/mesh/deploy.go, pkg/ssh/wireguard.go)

    What [wgmesh -deploy] does: detect the endpoints of the nodes over SSH,
    generate a configuration for each from the access policies, and apply it.
    The methods of [Mesh] take its [sync.RWMutex], so the operations run in a
    monad with the mutex in it: an operation is done, blocks for ever (one
    goroutine runs the command, so nobody else releases the lock) or panics.
    A remote host is a function from what is asked of it to its answer; which
    hosts answer the dial, and the order in which Go visits a map, are
    arguments. *)

From S2P Require Import Prelude GoStrings GoNet GoJson Routes WgConfig Mesh MeshState.
Local Open Scope wgmesh_scope.

(** ** The mutex *)

Record RWMutex := { rw_writer : bool; rw_readers : nat }.
Definition unlocked : RWMutex := {| rw_writer := false; rw_readers := 0 |}.

Inductive outcome (A : Type) :=
| Done (a : A)
| Blocked
| Panicked.
Arguments Done {A} a.
Arguments Blocked {A}.
Arguments Panicked {A}.

Definition locking (A : Type) : Type := RWMutex -> outcome (A * RWMutex).

Definition done_with {A} (a : A) : locking A := fun l => Done (a, l).
Definition then_do {A B} (p : locking A) (k : A -> locking B) : locking B :=
  fun l => match p l with
           | Done (a, l') => k a l'
           | Blocked => Blocked
           | Panicked => Panicked
           end.
Notation "x <-l p ; k" := (then_do p (fun x => k))
  (at level 100, p at next level, right associativity) : wgmesh_scope.

Definition Lock : locking unit := fun l =>
  if rw_writer l || Nat.ltb 0 (rw_readers l) then Blocked
  else Done (tt, {| rw_writer := true; rw_readers := rw_readers l |}).
Definition Unlock : locking unit := fun l =>
  if rw_writer l then Done (tt, {| rw_writer := false; rw_readers := rw_readers l |}) else Panicked.
Definition RLock : locking unit := fun l =>
  if rw_writer l then Blocked else Done (tt, {| rw_writer := false; rw_readers := S (rw_readers l) |}).
Definition RUnlock : locking unit := fun l =>
  match rw_readers l with
  | O => Panicked
  | S n => Done (tt, {| rw_writer := rw_writer l; rw_readers := n |})
  end.

(** [mu.Lock(); defer mu.Unlock()] and its reading counterpart. *)
Definition locked {A} (body : locking A) : locking A := (_ <-l Lock; a <-l body; _ <-l Unlock; done_with a).
Definition rlocked {A} (body : locking A) : locking A := (_ <-l RLock; a <-l body; _ <-l RUnlock; done_with a).

(** A computation that panics when there is no value. *)
Definition or_panic {A} (o : option A) : locking A :=
  fun l => match o with Some a => Done (a, l) | None => Panicked end.

(** ** Remote hosts *)

(** What a command or a file write answers: its output, or that it failed. *)
Definition Host : Type := rop -> result string.
Definition host_ok (h : Host) (o : rop) : bool := match h o with Ok _ => true | Err _ => false end.

(** [strings.Contains]. *)
Fixpoint str_contains (needle s : string) : bool :=
  String.prefix needle s || match s with EmptyString => false | String _ s' => str_contains needle s' end.

Definition install_commands : list string :=
  ["apt update -qq"; "DEBIAN_FRONTEND=noninteractive apt install -y -qq wireguard wireguard-tools";
   "modprobe wireguard || true"]%string.

Definition EnsureWireGuardInstalled (h : Host) : list rop * result unit :=
  let which := Run "which wg" in
  let install :=
    let '(ops, r) := issue (host_ok h) ((fun c => (Run c, "failed to run"%string)) <$> install_commands) in
    (which :: ops, r) in
  match h which with
  | Ok output => if str_contains "/wg" output then ([which], Ok tt) else install
  | Err _ => install
  end.

(** A command whose trimmed output must not be empty. *)
Definition trimmed_output (h : Host) (cmd failed empty : string) : result string :=
  match h (Run cmd) with
  | Err _ => Err failed
  | Ok output => if String.eqb (trim_space output) "" then Err empty else Ok (trim_space output)
  end.

Definition DetectPublicIP (h : Host) : result string :=
  trimmed_output h "curl -s -4 ifconfig.me || curl -s -4 icanhazip.com || true" "command failed"
    "could not detect public IP".
Definition GetHostname (h : Host) : result string := trimmed_output h "hostname" "failed to get hostname" "hostname is empty".
Definition GetFQDN (h : Host) : result string := trimmed_output h "hostname -f" "failed to get FQDN" "FQDN is empty".

(** The two ways to install routes without a diff. *)
Definition UpdateRoutingTable (h : Host) (iface : string) (networks : list string) : list rop * result unit :=
  issue (host_ok h)
    (((fun nw => (RunQuiet ("ip route add " ^^ nw ^^ " dev " ^^ iface ^^ " || ip route replace " ^^ nw ^^ " dev " ^^ iface),
                  "failed to add route"%string)) <$> networks)
     ++ [(RunQuiet "sysctl -w net.ipv4.ip_forward=1 > /dev/null", "failed to enable IP forwarding"%string)]).

Definition UpdateRoutingTableWithGateways (h : Host) (iface : string) (routes : list Entry) : list rop * result unit :=
  let tail r := Network r ^^ " via " ^^ Gateway r ^^ " dev " ^^ iface in
  issue (host_ok h)
    (((fun r => (RunQuiet ("ip route add " ^^ tail r ^^ " || ip route replace " ^^ tail r), "failed to add route"%string)) <$> routes)
     ++ [(RunQuiet "sysctl -w net.ipv4.ip_forward=1 > /dev/null", "failed to enable IP forwarding"%string)]).

(** ** Locked readers of the mesh *)

Definition HasGroups_l (m : Mesh) : locking bool := rlocked (done_with (HasGroups m)).
Definition HasPolicies_l (m : Mesh) : locking bool := rlocked (done_with (HasPolicies m)).
Definition IsAccessControlEnabled_l (m : Mesh) : locking bool :=
  (b <-l HasGroups_l m; if b then done_with true else HasPolicies_l m).
Definition ValidateGroups_l (m : Mesh) : locking (result unit) := rlocked (done_with (ValidateGroups m)).
Definition ValidatePolicies_l (m : Mesh) : locking (result unit) := rlocked (done_with (ValidatePolicies m)).
Definition GetNodeGroups_l (m : Mesh) (hostname : string) : locking (list string) :=
  rlocked (done_with (GetNodeGroups m hostname)).
Definition GetAllowedPeers_l (m : Mesh) (hostname : string) : locking (gmap string PeerAccess) :=
  rlocked (_ <-l GetNodeGroups_l m hostname; or_panic (GetAllowedPeers m hostname)).

(** ** Endpoints *)

Definition set_detected (n : Node) (endpoint : string) (nat : bool) (actual fqdn : string) : Node :=
  {| n_Hostname := n_Hostname n; n_MeshIP := n_MeshIP n; n_PublicKey := n_PublicKey n; n_PrivateKey := n_PrivateKey n;
     n_SSHHost := n_SSHHost n; n_SSHPort := n_SSHPort n; n_PublicEndpoint := endpoint; n_ListenPort := n_ListenPort n;
     n_BehindNAT := nat; n_RoutableNetworks := n_RoutableNetworks n; n_IsLocal := n_IsLocal n;
     n_ActualHostname := actual; n_FQDN := fqdn |}.

Section remote.
Context (dial : string -> Z -> option Host) (osHostname : result string).

(** What the detection does to one node; the error is a failed dial. *)
Definition detect_node (n : Node) : result Node :=
  if n_IsLocal n then
    Ok (match osHostname with
        | Ok h => if String.eqb (n_ActualHostname n) "" then set_detected n (n_PublicEndpoint n) (n_BehindNAT n) h (n_FQDN n) else n
        | Err _ => n
        end)
  else match dial (n_SSHHost n) (n_SSHPort n) with
  | None => Err "failed to connect"
  | Some h =>
      let actual := match GetHostname h with Ok a => a | Err _ => n_ActualHostname n end in
      let fqdn := match GetFQDN h with Ok f => f | Err _ => n_FQDN n end in
      Ok (match DetectPublicIP h with
          | Err _ => set_detected n (n_PublicEndpoint n) true actual fqdn
          | Ok publicIP =>
              if negb (String.eqb publicIP "") && negb (String.eqb publicIP (n_SSHHost n))
              then set_detected n (n_PublicEndpoint n) true actual fqdn
              else set_detected n (n_SSHHost n ^^ ":" ^^ itoa (n_ListenPort n)) (n_BehindNAT n) actual fqdn
          end)
  end.

(** The nodes detected before the error keep what was found. *)
Fixpoint detect_loop (order : list string) (m : Mesh) : result unit * Mesh :=
  match order with
  | [] => (Ok tt, m)
  | hostname :: rest =>
      match nodes m !! hostname with
      | None => detect_loop rest m
      | Some n =>
          match detect_node n with
          | Err e => (Err e, m)
          | Ok n' => detect_loop rest (set_nodes m (<[hostname := n']> (nodes m)))
          end
      end
  end.

Definition detectEndpoints (order : list string) (m : Mesh) : locking (result unit * Mesh) :=
  locked (done_with (detect_loop order m)).

(** ** Routes and configurations of a node *)

Definition peer_routes (peer : Node) : list Entry :=
  (fun nw => {| Network := nw; Gateway := ip_string (n_MeshIP peer) |}) <$> n_RoutableNetworks peer.

(** The other nodes of the mesh, in the order of the map. *)
Definition other_nodes (m : Mesh) (hostname : string) : list Node :=
  snd <$> filter (fun kn => kn.1 <> hostname) (map_to_list (nodes m)).

Definition collectRoutesForNode (m : Mesh) (node : Node) : locking (list Entry) :=
  rlocked (done_with (mjoin (peer_routes <$> other_nodes m (n_Hostname node)))).

(** The peers [GetAllowedPeers] names, with what they may be used for. *)
Definition allowed_nodes (m : Mesh) (allowed : gmap string PeerAccess) : option (list (Node * PeerAccess)) :=
  mapM (fun ka => (fun peer => (peer, ka.2)) <$> nodes m !! ka.1) (map_to_list allowed).

Definition collectAllRoutesForNode (m : Mesh) (node : Node) : locking (list Entry) :=
  rlocked (
    let own := (fun nw => {| Network := nw; Gateway := ""%string |}) <$> n_RoutableNetworks node in
    enabled <-l IsAccessControlEnabled_l m;
    if (enabled : bool) then
      allowed <-l GetAllowedPeers_l m (n_Hostname node);
      peers <-l or_panic (allowed_nodes m allowed);
      done_with (own ++ mjoin ((fun pa => if AllowRoutableNetworks pa.2 then peer_routes pa.1 else []) <$> peers))
    else done_with (own ++ mjoin (peer_routes <$> other_nodes m (n_Hostname node)))).

Definition prefix_len (m : Mesh) : Z :=
  if String.eqb (m_Network m) "" then 16
  else match parse_cidr (m_Network m) with None => 16 | Some (_, net) => (mask_size (net_mask net)).1 end.

Definition buildPeerConfig (peer : Node) (access : PeerAccess) : WGPeer :=
  {| wp_PublicKey := n_PublicKey peer; wp_Endpoint := n_PublicEndpoint peer;
     wp_AllowedIPs := (ip_string (n_MeshIP peer) ^^ "/32")
                      :: (if AllowRoutableNetworks access then n_RoutableNetworks peer else []);
     wp_PersistentKeepalive := 5 |}.

Definition buildPeerConfigFullAccess (peer : Node) : WGPeer :=
  {| wp_PublicKey := n_PublicKey peer; wp_Endpoint := n_PublicEndpoint peer;
     wp_AllowedIPs := (ip_string (n_MeshIP peer) ^^ "/32") :: n_RoutableNetworks peer;
     wp_PersistentKeepalive := 5 |}.

Definition generateConfigForNode (m : Mesh) (node : Node) : locking FullConfig :=
  rlocked (
    let interface := {| wi_PrivateKey := n_PrivateKey node;
                        wi_Address := ip_string (n_MeshIP node) ^^ "/" ^^ itoa (prefix_len m);
                        wi_ListenPort := n_ListenPort node |} in
    enabled <-l IsAccessControlEnabled_l m;
    if (enabled : bool) then
      allowed <-l GetAllowedPeers_l m (n_Hostname node);
      peers <-l or_panic (allowed_nodes m allowed);
      done_with {| fc_Interface := interface; fc_Peers := (fun pa => buildPeerConfig pa.1 pa.2) <$> peers |}
    else done_with {| fc_Interface := interface;
                      fc_Peers := buildPeerConfigFullAccess <$> other_nodes m (n_Hostname node) |}).

(** ** Applying *)

(** When the routes of the host cannot be read every desired route is tried
    and failures are ignored. *)
Definition syncRoutesForNode (h : Host) (iface : string) (desiredRoutes : list Entry) : list rop * result unit :=
  let show := Run ("ip route show dev " ^^ iface) in
  match ssh_GetCurrentRoutes (match h show with Ok out => Some out | Err _ => None end) with
  | Err _ => (show :: (RunQuiet ∘ ssh_add_line iface <$> desiredRoutes), Ok tt)
  | Ok currentRoutes =>
      let '(toAdd, toRemove) := CalculateRouteDiff currentRoutes desiredRoutes in
      let '(cmds, r) := ApplyRouteDiff (fun c => host_ok h (RunQuiet c)) iface toAdd toRemove in
      (show :: (RunQuiet <$> cmds), r)
  end.

(** What is done on a host once its configuration is known. *)
Definition apply_on_host (h : Host) (iface : string) (config : FullConfig) (desiredRoutes : list Entry)
  : list rop * result unit :=
  let dump := Run ("wg show " ^^ iface ^^ " dump 2>/dev/null || true") in
  match GetCurrentConfig (h dump) with
  | Err _ =>
      let '(ops, r) := ApplyPersistentConfig (host_ok h) iface config desiredRoutes in
      (dump :: ops, wrap "failed to apply config" r)
  | Ok currentConfig =>
      let diff := CalculateConfigDiff currentConfig (FullConfigToConfig config) in
      let '(ops, r) := if HasChanges diff then UpdatePersistentConfig (host_ok h) iface config desiredRoutes diff else ([], Ok tt) in
      match r with
      | Err e => (dump :: ops, Err ("failed to update config: " ^^ e))
      | Ok _ =>
          let '(rops, rr) := syncRoutesForNode h iface desiredRoutes in
          match rr with
          | Err e => (dump :: ops ++ rops, Err ("failed to sync routes: " ^^ e))
          | Ok _ => (dump :: ops ++ rops ++ [WriteFile (conf_path iface) (GenerateWgQuickConfig config desiredRoutes)], Ok tt)
          end
      end
  end.

Definition deploy_node (m : Mesh) (node : Node) : locking (list rop * result unit) :=
  match dial (n_SSHHost node) (n_SSHPort node) with
  | None => done_with ([], Err "failed to connect"%string)
  | Some h =>
      let '(ops, r) := EnsureWireGuardInstalled h in
      match r with
      | Err e => done_with (ops, Err ("failed to ensure WireGuard: " ^^ e))
      | Ok _ =>
          config <-l generateConfigForNode m node;
          desiredRoutes <-l collectAllRoutesForNode m node;
          let '(ops', r') := apply_on_host h (m_InterfaceName m) config desiredRoutes in
          done_with (ops ++ ops', r')
      end
  end.

Fixpoint deploy_loop (order : list string) (m : Mesh) : locking (list rop * result unit) :=
  match order with
  | [] => done_with ([], Ok tt)
  | hostname :: rest =>
      match nodes m !! hostname with
      | None => deploy_loop rest m
      | Some node =>
          res <-l deploy_node m node;
          match res with
          | (ops, Err e) => done_with (ops, Err e)
          | (ops, Ok _) => (res' <-l deploy_loop rest m; done_with (ops ++ res'.1, res'.2))
          end
      end
  end.

(** The validation before anything is deployed. *)
Definition validate_access (m : Mesh) : locking (result unit) :=
  (enabled <-l IsAccessControlEnabled_l m;
   if (enabled : bool) then
     rg <-l ValidateGroups_l m;
     match rg with
     | Err e => done_with (Err ("groups validation failed: " ^^ e))
     | Ok _ =>
         rp <-l ValidatePolicies_l m;
         match rp with
         | Err e => done_with (Err ("policies validation failed: " ^^ e))
         | Ok _ =>
             hg <-l HasGroups_l m;
             if (hg : bool) then (_ <-l HasPolicies_l m; done_with (Ok tt)) else done_with (Ok tt)
         end
     end
   else done_with (Ok tt)).

(** The two orders are those of the two loops over the map. *)
Definition Deploy (order1 order2 : list string) (m : Mesh) : locking (list rop * result unit) :=
  (r <-l validate_access m;
   match r with
   | Err e => done_with ([], Err e)
   | Ok _ =>
       det <-l detectEndpoints order1 m;
       match det with
       | (Err e, _) => done_with ([], Err ("failed to detect endpoints: " ^^ e))
       | (Ok _, m') => locked (deploy_loop order2 m')
       end
   end).
End remote.

(** ** The lock *)

(** [n] readers and no writer. *)
Definition readers (n : nat) : RWMutex := {| rw_writer := false; rw_readers := n |}.

Lemma rlocked_done {A} (body : locking A) a n :
  body (readers (S n)) = Done (a, readers (S n)) -> rlocked body (readers n) = Done (a, readers n).
Proof. intros H. unfold rlocked, then_do, RLock. cbn [readers rw_writer rw_readers]. unfold readers in H. by rewrite H. Qed.

Lemma rlocked_panic {A} (body : locking A) n :
  body (readers (S n)) = Panicked -> rlocked body (readers n) = Panicked.
Proof. intros H. unfold rlocked, then_do, RLock. cbn [readers rw_writer rw_readers]. unfold readers in H. by rewrite H. Qed.

(** A reader that finds the writer's lock waits for ever. *)
Lemma rlocked_blocked {A} (body : locking A) l : rw_writer l = true -> rlocked body l = Blocked.
Proof. intros H. unfold rlocked, then_do, RLock. by rewrite H. Qed.

Lemma then_done {A B} (p : locking A) (k : A -> locking B) a l l' : p l = Done (a, l') -> then_do p k l = k a l'.
Proof. intros H. unfold then_do. by rewrite H. Qed.

Lemma access_enabled_l m n : IsAccessControlEnabled_l m (readers n) = Done (IsAccessControlEnabled m, readers n).
Proof.
  unfold IsAccessControlEnabled_l, IsAccessControlEnabled, HasGroups_l, HasPolicies_l.
  erewrite then_done by (by apply rlocked_done). destruct (HasGroups m); [done|]. by apply rlocked_done.
Qed.

Lemma allowed_peers_l m h n :
  GetAllowedPeers_l m h (readers n)
  = match GetAllowedPeers m h with Some acc => Done (acc, readers n) | None => Panicked end.
Proof.
  unfold GetAllowedPeers_l. destruct (GetAllowedPeers m h) as [acc|] eqn:E.
  - apply rlocked_done. unfold GetNodeGroups_l. erewrite then_done by (by apply rlocked_done). done.
  - apply rlocked_panic. unfold GetNodeGroups_l. erewrite then_done by (by apply rlocked_done). done.
Qed.

Lemma validate_access_l m :
  validate_access m unlocked
  = Done (if IsAccessControlEnabled m then
            match ValidateGroups m with
            | Err e => Err ("groups validation failed: " ^^ e)
            | Ok _ => wrap "policies validation failed" (ValidatePolicies m)
            end
          else Ok tt, unlocked).
Proof.
  change unlocked with (readers 0). unfold validate_access. erewrite then_done by apply access_enabled_l.
  destruct (IsAccessControlEnabled m); [|done].
  unfold ValidateGroups_l. erewrite then_done by (by apply rlocked_done). destruct (ValidateGroups m); [|done].
  unfold ValidatePolicies_l. erewrite then_done by (by apply rlocked_done). destruct (ValidatePolicies m) as [[]|]; [|done].
  unfold HasGroups_l. erewrite then_done by (by apply rlocked_done). destruct (HasGroups m); [|done].
  unfold HasPolicies_l. by erewrite then_done by (by apply rlocked_done).
Qed.

(** ** Endpoint detection keeps who the nodes are *)

Definition same_node (n n' : Node) : Prop := exists e b a f, n' = set_detected n e b a f.

Lemma same_node_refl n : same_node n n.
Proof. exists (n_PublicEndpoint n), (n_BehindNAT n), (n_ActualHostname n), (n_FQDN n). by destruct n. Qed.

Lemma same_node_trans n1 n2 n3 : same_node n1 n2 -> same_node n2 n3 -> same_node n1 n3.
Proof. intros (? & ? & ? & ? & ->) (e & b & a & f & ->). by exists e, b, a, f. Qed.

Section remote_lemmas.
Context (dial : string -> Z -> option Host) (osHostname : result string).

Lemma detect_node_same n n' : detect_node dial osHostname n = Ok n' -> same_node n n'.
Proof.
  unfold detect_node. destruct (n_IsLocal n).
  - intros [= <-]. destruct osHostname; [|apply same_node_refl]. split_if; [by repeat eexists|apply same_node_refl].
  - destruct (dial _ _) as [h|]; [|done]. intros [= <-]. destruct (DetectPublicIP h); [|by repeat eexists].
    split_if; by repeat eexists.
Qed.

Lemma detect_loop_same order m r m' : detect_loop dial osHostname order m = (r, m') ->
  forall h, option_Forall2 same_node (nodes m !! h) (nodes m' !! h).
Proof.
  assert (forall (o : option Node), option_Forall2 same_node o o) as Hrefl.
  { intros [n|]; constructor. apply same_node_refl. }
  revert m. induction order as [|x order IH]; intros m; cbn [detect_loop]; [by intros [= _ <-]|].
  destruct (nodes m !! x) as [n|] eqn:E; [|by apply IH].
  destruct (detect_node dial osHostname n) as [n'|] eqn:En; [|by intros [= _ <-]].
  intros Hl h. specialize (IH _ Hl h). rewrite nodes_set_nodes, lookup_insert in IH. case_decide as Ex; [|done]. subst h.
  rewrite E. destruct (nodes m' !! x) as [n2|]; inversion IH as [? ? Hs|]; subst. constructor.
  exact (same_node_trans _ _ _ (detect_node_same _ _ En) Hs).
Qed.

Lemma detect_loop_ok order m :
  (forall h n, nodes m !! h = Some n -> is_Some (dial (n_SSHHost n) (n_SSHPort n))) ->
  exists m', detect_loop dial osHostname order m = (Ok tt, m').
Proof.
  revert m. induction order as [|x order IH]; intros m Hd; cbn [detect_loop]; [by eexists|].
  destruct (nodes m !! x) as [n|] eqn:E; [|by apply IH].
  destruct (detect_node dial osHostname n) as [n'|] eqn:En.
  - apply IH. intros h n0. rewrite nodes_set_nodes, lookup_insert. case_decide as Ex; [|apply Hd]. intros [= <-].
    apply detect_node_same in En as (? & ? & ? & ? & ->). exact (Hd x n E).
  - destruct (Hd x n E) as [host Hh]. unfold detect_node in En. rewrite Hh in En. by destruct (n_IsLocal n).
Qed.

(** ** The deployment *)

Definition reachable (n : Node) : Prop :=
  exists host, dial (n_SSHHost n) (n_SSHPort n) = Some host /\ (EnsureWireGuardInstalled host).2 = Ok tt.

Lemma deploy_node_locked m n l : rw_writer l = true ->
  (exists ops e, deploy_node dial m n l = Done ((ops, Err e), l)) \/ deploy_node dial m n l = Blocked.
Proof.
  intros Hl. unfold deploy_node. destruct (dial _ _) as [host|]; [|by left; eexists _, _].
  destruct (EnsureWireGuardInstalled host) as [ops [[]|e]]; [right|by left; eexists _, _].
  unfold generateConfigForNode, then_do at 1. by rewrite rlocked_blocked.
Qed.

Lemma deploy_node_reachable m n l : rw_writer l = true -> reachable n -> deploy_node dial m n l = Blocked.
Proof.
  intros Hl (host & Hd & He). unfold deploy_node. rewrite Hd. destruct (EnsureWireGuardInstalled host) as [ops r].
  cbn [snd] in He. subst r. unfold generateConfigForNode, then_do at 1. by rewrite rlocked_blocked.
Qed.

Lemma Deploy_locked order1 order2 m :
  Deploy dial osHostname order1 order2 m unlocked
  = match (if IsAccessControlEnabled m then
            match ValidateGroups m with
            | Err e => Err ("groups validation failed: " ^^ e)
            | Ok _ => wrap "policies validation failed" (ValidatePolicies m)
            end
          else Ok tt) with
    | Err e => Done (([], Err e), unlocked)
    | Ok _ => match detect_loop dial osHostname order1 m with
              | (Err e, _) => Done (([], Err ("failed to detect endpoints: " ^^ e)), unlocked)
              | (Ok _, m') => locked (deploy_loop dial order2 m') unlocked
              end
    end.
Proof.
  unfold Deploy. erewrite then_done by apply validate_access_l.
  destruct (if IsAccessControlEnabled m then _ else _) as [[]|]; [|done].
  unfold then_do at 1, detectEndpoints. cbn. by destruct (detect_loop dial osHostname order1 m) as [[[]|] m'].
Qed.
End remote_lemmas.

(** C31. Deploying a mesh never completes: [Deploy] takes the write lock and then
    calls methods that take the read lock of the same mutex.  So it reports
    success for the empty mesh only, and with valid policies and every host
    reachable with WireGuard installed it hangs at the first node, for every
    order of the nodes. *)
Theorem deploy_deadlocks dial osHostname order1 order2 m :
  order2 ≡ₚ fst <$> map_to_list (nodes m) -> nodes m <> ∅ ->
  (forall ops l, Deploy dial osHostname order1 order2 m unlocked <> Done ((ops, Ok tt), l))
  /\ (ValidateGroups m = Ok tt -> ValidatePolicies m = Ok tt -> (forall h n, nodes m !! h = Some n -> reachable dial n) ->
      Deploy dial osHostname order1 order2 m unlocked = Blocked).
Proof.
  intros Ho Hne. destruct order2 as [|x order2].
  { symmetry in Ho. apply Permutation_nil_r, fmap_nil_inv in Ho. by apply map_to_list_empty_iff in Ho. }
  assert (is_Some (nodes m !! x)) as [n Hn].
  { assert (x ∈ fst <$> map_to_list (nodes m)) as Hx by (rewrite <- Ho; left).
    apply list_elem_of_fmap in Hx as ([k n] & -> & Hin). apply elem_of_map_to_list in Hin. by exists n. }
  assert (forall r m', detect_loop dial osHostname order1 m = (r, m') ->
    exists n', nodes m' !! x = Some n' /\ same_node n n') as Hx.
  { intros r m' Hl. pose proof (detect_loop_same _ _ _ _ _ _ Hl x) as Hs. rewrite Hn in Hs.
    destruct (nodes m' !! x) as [n'|]; inversion Hs; subst. by exists n'. }
  rewrite Deploy_locked. split.
  - intros ops l. destruct (if IsAccessControlEnabled m then _ else _) as [[]|]; [|done].
    destruct (detect_loop dial osHostname order1 m) as [[[]|] m'] eqn:Ed; [|done].
    destruct (Hx _ _ eq_refl) as (n' & Hn' & _). unfold locked, then_do, Lock. cbn [deploy_loop unlocked rw_writer rw_readers].
    rewrite Hn'. unfold then_do. cbn [Nat.ltb Nat.leb orb].
    by destruct (deploy_node_locked dial m' n' {| rw_writer := true; rw_readers := 0 |} eq_refl) as [(os & e & ->)| ->].
  - intros Hg Hp Hr. rewrite Hg, Hp. cbn [wrap]. replace (if IsAccessControlEnabled m then _ else _) with (Ok tt)
      by by destruct (IsAccessControlEnabled m).
    destruct (detect_loop_ok dial osHostname order1 m) as [m' Ed].
    { intros h n0 (host & Hd & _)%Hr. by exists host. }
    rewrite Ed. destruct (Hx _ _ Ed) as (n' & Hn' & (? & ? & ? & ? & ->)). unfold locked, then_do, Lock.
    cbn [deploy_loop unlocked rw_writer rw_readers]. rewrite Hn'. unfold then_do. cbn [Nat.ltb Nat.leb orb].
    rewrite deploy_node_reachable; [done..|]. exact (Hr x n Hn).
Qed.

(** ** The peers of a node *)

Definition full_access : PeerAccess := {| AllowMeshIP := true; AllowRoutableNetworks := true |}.

(** The peers both loops visit, with what they may be used for. *)
Definition peer_list (m : Mesh) (h : string) : option (list (Node * PeerAccess)) :=
  if IsAccessControlEnabled m then allowed ← GetAllowedPeers m h; allowed_nodes m allowed
  else Some ((fun n => (n, full_access)) <$> other_nodes m h).

Definition node_interface (m : Mesh) (node : Node) : WGInterface :=
  {| wi_PrivateKey := n_PrivateKey node; wi_Address := ip_string (n_MeshIP node) ^^ "/" ^^ itoa (prefix_len m);
     wi_ListenPort := n_ListenPort node |}.

Definition access_routes (pa : Node * PeerAccess) : list Entry :=
  if AllowRoutableNetworks pa.2 then peer_routes pa.1 else [].

Lemma generateConfig_l m node n :
  generateConfigForNode m node (readers n)
  = match peer_list m (n_Hostname node) with
    | Some ps => Done ({| fc_Interface := node_interface m node;
                          fc_Peers := (fun pa => buildPeerConfig pa.1 pa.2) <$> ps |}, readers n)
    | None => Panicked
    end.
Proof.
  unfold generateConfigForNode, peer_list. destruct (IsAccessControlEnabled m) eqn:Ea.
  - destruct (GetAllowedPeers m (n_Hostname node)) as [acc|] eqn:E; cbn [mbind option_bind].
    + destruct (allowed_nodes m acc) as [ps|] eqn:Ep; [apply rlocked_done|apply rlocked_panic];
        cbv zeta; erewrite then_done by apply access_enabled_l; rewrite Ea; unfold then_do; by rewrite allowed_peers_l, E, Ep.
    + apply rlocked_panic. cbv zeta. erewrite then_done by apply access_enabled_l. rewrite Ea. unfold then_do.
      by rewrite allowed_peers_l, E.
  - apply rlocked_done. cbv zeta. erewrite then_done by apply access_enabled_l. rewrite Ea. unfold done_with.
    by rewrite <- list_fmap_compose.
Qed.

Lemma collectAllRoutes_l m node n :
  collectAllRoutesForNode m node (readers n)
  = match peer_list m (n_Hostname node) with
    | Some ps => Done (((fun nw => {| Network := nw; Gateway := ""%string |}) <$> n_RoutableNetworks node)
                       ++ mjoin (access_routes <$> ps), readers n)
    | None => Panicked
    end.
Proof.
  unfold collectAllRoutesForNode, peer_list. destruct (IsAccessControlEnabled m) eqn:Ea.
  - destruct (GetAllowedPeers m (n_Hostname node)) as [acc|] eqn:E; cbn [mbind option_bind].
    + destruct (allowed_nodes m acc) as [ps|] eqn:Ep; [apply rlocked_done|apply rlocked_panic];
        cbv zeta; erewrite then_done by apply access_enabled_l; rewrite Ea; unfold then_do; by rewrite allowed_peers_l, E, Ep.
    + apply rlocked_panic. cbv zeta. erewrite then_done by apply access_enabled_l. rewrite Ea. unfold then_do.
      by rewrite allowed_peers_l, E.
  - apply rlocked_done. cbv zeta. erewrite then_done by apply access_enabled_l. rewrite Ea. unfold done_with.
    by rewrite <- list_fmap_compose.
Qed.

(** What the code makes of the policies between two nodes: access to the routed
    networks is given to the nodes of the groups a policy comes from, towards every
    node it relates them to. *)
Definition may_peer (m : Mesh) (h x : string) : bool :=
  negb (IsAccessControlEnabled m) || existsb (fun p => relates m p h x) (m_AccessPolicies m).
Definition may_route (m : Mesh) (h x : string) : bool :=
  negb (IsAccessControlEnabled m)
  || existsb (fun p => ap_AllowRoutableNetworks p && on_side m h (ap_FromGroups p) && relates m p h x) (m_AccessPolicies m).

Lemma allowed_nodes_some m (acc : gmap string PeerAccess) : (forall x, is_Some (acc !! x) -> is_Some (nodes m !! x)) ->
  allowed_nodes m acc = Some (omap (fun ka => (fun peer => (peer, ka.2)) <$> nodes m !! ka.1) (map_to_list acc)).
Proof.
  intros Hacc. unfold allowed_nodes.
  assert (Forall (fun ka => is_Some (nodes m !! ka.1)) (map_to_list acc)) as Hall.
  { apply Forall_forall. intros [k a] Hin%elem_of_map_to_list. apply Hacc. by exists a. }
  induction Hall as [|ka l [peer Hp] Hl IH]; [done|]. cbn [mapM omap list_omap]. rewrite Hp. cbn [fmap option_fmap option_map mbind option_bind].
  by rewrite IH.
Qed.

Lemma peer_list_spec m h : (IsAccessControlEnabled m = true -> ValidatePolicies m = Ok tt) ->
  exists ps, peer_list m h = Some ps
    /\ forall peer b, (exists a, (peer, a) ∈ ps /\ AllowRoutableNetworks a = b) <->
         exists x, other_node m h x = true /\ nodes m !! x = Some peer /\ may_peer m h x = true /\ may_route m h x = b.
Proof.
  intros Hv. unfold peer_list, may_peer, may_route. destruct (IsAccessControlEnabled m); cbn [negb orb].
  - destruct (allowed_spec m h (validated_groups_known m (Hv eq_refl))) as (acc & -> & H1 & H2). cbn [mbind option_bind].
    rewrite allowed_nodes_some.
    2:{ intros x [Ho _]%H1. unfold other_node in Ho. by bool_steps. }
    eexists. split; [done|]. intros peer b. split.
    + intros (a & Hin & <-). apply list_elem_of_omap in Hin as ([x a'] & Hin & Heq). apply elem_of_map_to_list in Hin.
      cbn [fst snd] in Heq. destruct (nodes m !! x) as [peer'|] eqn:En; [|done]. injection Heq as -> ->.
      destruct (proj1 (H1 x) ltac:(by exists a)) as [Ho Hr]. exists x. split; [done|]. split; [done|]. split; [done|].
      specialize (H2 x). unfold routable_access in H2. rewrite Hin, Ho in H2. by rewrite H2.
    + intros (x & Ho & Hn & Hr & <-). destruct (proj2 (H1 x) (conj Ho Hr)) as [a Ha]. exists a. split.
      * apply list_elem_of_omap. exists (x, a). split; [by apply elem_of_map_to_list|]. cbn [fst snd]. by rewrite Hn.
      * specialize (H2 x). unfold routable_access in H2. by rewrite Ha, Ho in H2.
  - eexists. split; [done|]. intros peer b. unfold other_nodes, other_node. split.
    + intros (a & Hin & <-). apply list_elem_of_fmap in Hin as (p & [= <- ->] & Hin). apply list_elem_of_fmap in Hin as ([x p] & -> & Hin).
      apply list_elem_of_filter in Hin as [Hne Hin]. apply elem_of_map_to_list in Hin. cbn [fst snd] in *. exists x.
      rewrite Hin. by rewrite (proj2 (String.eqb_neq _ _) Hne).
    + intros (x & Ho & Hn & _ & <-). exists full_access. split; [|done]. bool_steps.
      apply list_elem_of_fmap. exists peer. split; [done|]. apply list_elem_of_fmap. exists (x, peer). split; [done|].
      apply list_elem_of_filter. split; [done|]. by apply elem_of_map_to_list.
Qed.

(** ** The permission for mesh addresses *)

(** The same policies with other permissions for mesh addresses. *)
Definition with_mesh_ip_flags (flag : AccessPolicy -> bool) (m : Mesh) : Mesh :=
  {| m_InterfaceName := m_InterfaceName m; m_Network := m_Network m; m_ListenPort := m_ListenPort m;
     m_Nodes := m_Nodes m; m_LocalHostname := m_LocalHostname m; m_Groups := m_Groups m;
     m_AccessPolicies := (fun p => {| ap_Name := ap_Name p; ap_Description := ap_Description p;
                                      ap_FromGroups := ap_FromGroups p; ap_ToGroups := ap_ToGroups p;
                                      ap_AllowMeshIPs := flag p;
                                      ap_AllowRoutableNetworks := ap_AllowRoutableNetworks p |}) <$> m_AccessPolicies m |}.

Lemma flags_known flag m : groups_known m -> groups_known (with_mesh_ip_flags flag m).
Proof. unfold groups_known. cbn [with_mesh_ip_flags m_AccessPolicies m_Groups]. rewrite Forall_fmap. done. Qed.

Lemma existsb_fmap {A B} (f : A -> B) g (l : list A) : existsb g (f <$> l) = existsb (fun a => g (f a)) l.
Proof. induction l as [|a l IH]; [done|]. rewrite fmap_cons. cbn [existsb]. by rewrite IH. Qed.

(** What is left of an access entry in the configuration. *)
Definition routable_only (a : PeerAccess) : PeerAccess := {| AllowMeshIP := true; AllowRoutableNetworks := AllowRoutableNetworks a |}.

Lemma flags_allowed flag m h acc : groups_known m -> GetAllowedPeers m h = Some acc ->
  exists acc', GetAllowedPeers (with_mesh_ip_flags flag m) h = Some acc' /\ routable_only <$> acc' = routable_only <$> acc.
Proof.
  intros Hk Hacc. destruct (allowed_spec m h Hk) as (acc0 & E0 & H1 & H2). rewrite Hacc in E0. injection E0 as <-.
  destruct (allowed_spec _ h (flags_known flag m Hk)) as (acc' & E' & H1' & H2'). exists acc'. split; [done|].
  assert (forall x, is_Some (acc' !! x) <-> is_Some (acc !! x)) as Hd.
  { intros x. rewrite H1, H1'. cbn [with_mesh_ip_flags m_AccessPolicies]. rewrite existsb_fmap. done. }
  assert (forall x, routable_access acc' x = routable_access acc x) as Hr.
  { intros x. rewrite H2, H2'. cbn [with_mesh_ip_flags m_AccessPolicies]. rewrite existsb_fmap. done. }
  apply map_eq. intros x. rewrite !lookup_fmap. specialize (Hd x). specialize (Hr x). unfold routable_access in Hr.
  destruct (acc' !! x) as [a'|], (acc !! x) as [a|];
    [|by destruct (proj1 Hd (mk_is_Some _ _ eq_refl))|by destruct (proj2 Hd (mk_is_Some _ _ eq_refl))|done]. cbn [fmap option_fmap option_map]. unfold routable_only. by rewrite Hr.
Qed.

(** The peers as they enter the configuration. *)
Definition only_routable (pa : Node * PeerAccess) : Node * PeerAccess := (pa.1, routable_only pa.2).

Lemma omap_fmap_list {A B C} (f : A -> B) (g : B -> option C) (l : list A) : omap g (f <$> l) = omap (fun a => g (f a)) l.
Proof. induction l as [|a l IH]; [done|]. rewrite fmap_cons. cbn [omap list_omap]. rewrite <- IH. done. Qed.

Lemma fmap_omap_list {A B C} (g : A -> option B) (f : B -> C) (l : list A) : f <$> omap g l = omap (fun a => f <$> g a) l.
Proof. induction l as [|a l IH]; [done|]. cbn [omap list_omap]. destruct (g a); cbn [fmap option_fmap option_map]; [|done]. rewrite fmap_cons. by rewrite <- IH. Qed.

Lemma allowed_only_routable m (acc : gmap string PeerAccess) :
  only_routable <$> omap (fun ka => (fun peer => (peer, ka.2)) <$> nodes m !! ka.1) (map_to_list acc)
  ≡ₚ omap (fun ka => (fun peer => (peer, ka.2)) <$> nodes m !! ka.1) (map_to_list (routable_only <$> acc)).
Proof.
  rewrite (map_to_list_fmap routable_only acc), omap_fmap_list, fmap_omap_list.
  apply reflexive_eq, list_omap_ext, Forall_Forall2_diag, Forall_true. intros [k a]. unfold prod_map. cbn [fst snd id]. destruct (nodes m !! k); reflexivity.
Qed.

Lemma flags_peer_list flag m h ps : (IsAccessControlEnabled m = true -> ValidatePolicies m = Ok tt) ->
  peer_list m h = Some ps ->
  exists ps', peer_list (with_mesh_ip_flags flag m) h = Some ps' /\ only_routable <$> ps' ≡ₚ only_routable <$> ps.
Proof.
  intros Hv. unfold peer_list.
  assert (IsAccessControlEnabled (with_mesh_ip_flags flag m) = IsAccessControlEnabled m) as ->.
  { unfold IsAccessControlEnabled, HasGroups, HasPolicies. cbn [with_mesh_ip_flags m_Groups m_AccessPolicies]. by rewrite length_fmap. }
  destruct (IsAccessControlEnabled m); [|intros [= <-]; by eexists].
  assert (groups_known m) as Hk by by apply validated_groups_known, Hv.
  destruct (GetAllowedPeers m h) as [acc|] eqn:Ea; [|done]. cbn [mbind option_bind].
  destruct (flags_allowed flag m h acc Hk Ea) as (acc' & Ea' & Heq). rewrite Ea'. cbn [mbind option_bind].
  destruct (allowed_spec m h Hk) as (acc0 & E0 & H1 & _). rewrite Ea in E0. injection E0 as <-.
  assert (forall x, is_Some (acc !! x) -> is_Some (nodes m !! x)) as Hin.
  { intros x [Ho _]%H1. unfold other_node in Ho. by bool_steps. }
  assert (forall x, is_Some (acc' !! x) -> is_Some (nodes (with_mesh_ip_flags flag m) !! x)) as Hin'.
  { intros x Hx. apply Hin. apply (fmap_is_Some routable_only). rewrite <- lookup_fmap, <- Heq, lookup_fmap. by apply fmap_is_Some. }
  rewrite (allowed_nodes_some m acc Hin), (allowed_nodes_some _ acc' Hin'). intros [= <-]. eexists. split; [done|].
  rewrite (allowed_only_routable m acc), <- Heq. apply (allowed_only_routable (with_mesh_ip_flags flag m) acc').
Qed.

(** The permission for mesh addresses has no effect: whatever its value in
    the policies, a node gets the same interface, the same peers with the same
    allowed addresses (up to the order of the map) and the same routes. *)
Theorem mesh_ip_permission_ignored flag m node n :
  (IsAccessControlEnabled m = true -> ValidatePolicies m = Ok tt) ->
  exists config routes config' routes',
    generateConfigForNode m node (readers n) = Done (config, readers n)
    /\ collectAllRoutesForNode m node (readers n) = Done (routes, readers n)
    /\ generateConfigForNode (with_mesh_ip_flags flag m) node (readers n) = Done (config', readers n)
    /\ collectAllRoutesForNode (with_mesh_ip_flags flag m) node (readers n) = Done (routes', readers n)
    /\ fc_Interface config' = fc_Interface config /\ fc_Peers config' ≡ₚ fc_Peers config /\ routes' ≡ₚ routes.
Proof.
  intros Hv. destruct (peer_list_spec m (n_Hostname node) Hv) as (ps & Hps & _).
  destruct (flags_peer_list flag m _ ps Hv Hps) as (ps' & Hps' & Hperm).
  eexists _, _, _, _. rewrite !generateConfig_l, !collectAllRoutes_l, Hps, Hps'. do 4 (split; [done|]). cbn [fc_Interface fc_Peers].
  split; [done|]. split.
  - pose proof (fmap_Permutation (fun pa => buildPeerConfig pa.1 pa.2) _ _ Hperm) as Hp. by rewrite <- !list_fmap_compose in Hp.
  - apply Permutation_app_head. pose proof (fmap_Permutation access_routes _ _ Hperm) as Hp. rewrite <- !list_fmap_compose in Hp.
    by apply join_Permutation in Hp.
Qed.

(** ** Samples *)

(** A host that answers every command with [answer]. *)
Definition obliging (answer : string) : Host := fun _ => Ok answer.

Lemma deploy_deadlocks_witness :
  Deploy (fun _ _ => Some (obliging "/usr/bin/wg")) (Ok "ctl"%string) ["gw"; "srv"]%string ["srv"; "gw"]%string leak_mesh unlocked
  = Blocked.
Proof.
  apply (deploy_deadlocks (fun _ _ => Some (obliging "/usr/bin/wg")) (Ok "ctl"%string) ["gw"; "srv"]%string ["srv"; "gw"]%string leak_mesh).
  - by_compute.
  - by_compute.
  - vm_compute. reflexivity.
  - vm_compute. reflexivity.
  - intros h n _. exists (obliging "/usr/bin/wg"). split; [reflexivity|vm_compute; reflexivity].
Defined.

Lemma mesh_ip_permission_ignored_witness :
  exists config config',
    generateConfigForNode leak_mesh (mesh_node "gw" "10.99.0.1" "kg" []) unlocked = Done (config, unlocked)
    /\ generateConfigForNode (with_mesh_ip_flags (fun _ => false) leak_mesh) (mesh_node "gw" "10.99.0.1" "kg" []) unlocked
       = Done (config', unlocked)
    /\ fc_Peers config' ≡ₚ fc_Peers config.
Proof.
  destruct (mesh_ip_permission_ignored (fun _ => false) leak_mesh (mesh_node "gw" "10.99.0.1" "kg" []) 0)
    as (config & routes & config' & routes' & H1 & _ & H2 & _ & _ & Hp & _).
  { intros _. vm_compute. reflexivity. }
  exists config, config'. exact (conj H1 (conj H2 Hp)).
Defined.

(** What the detection found once is never withdrawn: a node whose endpoint
    was published before keeps it, and stays in the configurations of its
    peers, when it is later found behind a NAT. *)
Theorem stale_endpoint_kept dial osHostname n host ip :
  n_IsLocal n = false -> dial (n_SSHHost n) (n_SSHPort n) = Some host -> DetectPublicIP host = Ok ip -> ip <> n_SSHHost n ->
  exists n', detect_node dial osHostname n = Ok n' /\ n_BehindNAT n' = true /\ n_PublicEndpoint n' = n_PublicEndpoint n
    /\ forall access, wp_Endpoint (buildPeerConfig n' access) = n_PublicEndpoint n.
Proof.
  intros Hl Hd Hi Hne. unfold detect_node. rewrite Hl, Hd, Hi.
  assert (ip <> ""%string) as Hnz.
  { unfold DetectPublicIP, trimmed_output in Hi. destruct (host _); [|done]. destruct (String.eqb_spec (trim_space a) ""); [done|].
    by injection Hi as <-. }
  rewrite (proj2 (String.eqb_neq _ _) Hnz), (proj2 (String.eqb_neq _ _) Hne). by eexists.
Qed.
