(* ===== verification/Ssh.v ===== *)
(** * The SSH client and the keys of a host (pkg/ssh/client.go, pkg/wireguard/keys.go)

    A session of the SSH library: it is opened, a command is started on it, the
    standard input is written, and the end of the command awaited.  [remote] is what
    the machine on the other side does with a command and its input. *)

From S2P Require Import Prelude GoStrings GoNet GoText WgConfig Deploy.
Local Open Scope wgmesh_scope.

(** ** Authentication *)

(** The agent's keys first, then every key file that can be read and parsed. *)
Definition key_names : list string := ["id_rsa"; "id_ed25519"; "id_ecdsa"]%string.
Inductive auth (K : Type) := AgentKeys | KeyFile (k : K).
Arguments AgentKeys {K}.
Arguments KeyFile {K} k.
Definition auth_methods {K} (agent : bool) (home : result string) (read : string -> option string) (parse : string -> option K) : list (auth K) :=
  (if agent then [AgentKeys] else [])
  ++ match home with
     | Err _ => []
     | Ok homeDir => omap (fun name => text ← read (filepath_join [homeDir; ".ssh"%string; name]); KeyFile <$> parse text) key_names
     end.
Definition ssh_addr (host : string) (port : Z) : string := host ^^ ":" ^^ itoa port.
(** [dial]: the library's dial as root with these methods. *)
Definition NewClient {K C} (dial : string -> list (auth K) -> result C) (agent : bool) (home : result string)
    (read : string -> option string) (parse : string -> option K) (host : string) (port : Z) : result C :=
  match dial (ssh_addr host port) (auth_methods agent home read parse) with
  | Ok c => Ok c
  | Err e => Err ("failed to dial SSH: " ^^ e)
  end.

(** ** Sessions *)

(** What can go wrong on the way; the command itself answers its output and whether
    its status is 0. *)
Record ssh_session := {
  ss_open : bool;
  ss_stdin : bool;
  ss_start : bool;
  ss_copy : bool;
}.
Definition remote : Type := string -> string -> string * bool.

Definition ssh_Run (s : ssh_session) (m : remote) (cmd : string) : string * result unit :=
  if negb (ss_open s) then (EmptyString, Err "failed to create session")
  else let '(output, ok) := m cmd EmptyString in (output, if ok then Ok tt else Err "command failed").
Definition ssh_RunQuiet (s : ssh_session) (m : remote) (cmd : string) : result unit :=
  if negb (ss_open s) then Err "failed to create session"
  else if (m cmd EmptyString).2 then Ok tt else Err "command failed".

(** [%o]. *)
Fixpoint octal_go (fuel : nat) (n : Z) (acc : string) : string :=
  match fuel with
  | O => acc
  | S fuel => let acc := itoa (n mod 8) ^^ acc in if (n / 8 =? 0)%Z then acc else octal_go fuel (n / 8) acc
  end.
Definition octal (n : Z) : string := octal_go (S (Z.to_nat (Z.log2 n))) n EmptyString.
Definition write_command (path : string) (mode : Z) : string :=
  "cat > " ^^ path ^^ " && chmod " ^^ octal mode ^^ " " ^^ path.

(** A command that is started with the input of a session. *)
Definition with_stdin (s : ssh_session) (m : remote) (cmd input copy_error wait_error : string) : string * result unit :=
  if negb (ss_open s) then (EmptyString, Err "failed to create session")
  else if negb (ss_stdin s) then (EmptyString, Err "failed to get stdin")
  else if negb (ss_start s) then (EmptyString, Err "failed to start command")
  else if negb (ss_copy s) then (EmptyString, Err copy_error)
  else let '(output, ok) := m cmd input in (output, if ok then Ok tt else Err wait_error).
Definition ssh_WriteFile (s : ssh_session) (m : remote) (path content : string) (mode : Z) : result unit :=
  (with_stdin s m (write_command path mode) content "failed to write content" "failed to complete write").2.
Definition ssh_RunWithStdin (s : ssh_session) (m : remote) (cmd stdinContent : string) : string * result unit :=
  with_stdin s m cmd stdinContent "failed to write stdin" "command failed".

(** ** The host the deployment works on *)

(** What an answer of the client is to its caller. *)
Definition answered (a : string * result unit) : result string := match a.2 with Ok _ => Ok a.1 | Err e => Err e end.
(** The configurations and keys of the deployment are written with mode 0600. *)
Definition client_host (session : rop -> ssh_session) (m : remote) : Host := fun o =>
  match o with
  | Run cmd => answered (ssh_Run (session o) m cmd)
  | RunQuiet cmd => match ssh_RunQuiet (session o) m cmd with Ok _ => Ok EmptyString | Err e => Err e end
  | RunWithStdin cmd input => answered (ssh_RunWithStdin (session o) m cmd input)
  | WriteFile path content => match ssh_WriteFile (session o) m path content 384 with Ok _ => Ok EmptyString | Err e => Err e end
  end.

(** The command that stands for an operation, and its input. *)
Definition op_command (o : rop) : string * string :=
  match o with
  | Run cmd | RunQuiet cmd => (cmd, EmptyString)
  | RunWithStdin cmd input => (cmd, input)
  | WriteFile path content => ("cat > " ^^ path ^^ " && chmod 600 " ^^ path, content)
  end.
Definition has_stdin (o : rop) : bool := match o with RunWithStdin _ _ | WriteFile _ _ => true | _ => false end.
Definition session_works (s : ssh_session) (o : rop) : bool :=
  ss_open s && (negb (has_stdin o) || ss_stdin s && ss_start s && ss_copy s).

(** An operation of the deployment succeeds exactly when its session works and its
    command ends well on the machine, with all of its input: a file that is reported
    as written is there whole, with its mode, if [cat] and [chmod] do what they say. *)
Theorem client_host_faithful session m o :
  host_ok (client_host session m) o = session_works (session o) o && (m (op_command o).1 (op_command o).2).2.
Proof.
  unfold host_ok, session_works, client_host, answered. destruct o as [cmd|cmd|cmd input|path content]; cbn [has_stdin op_command fst snd negb orb].
  - unfold ssh_Run. destruct (ss_open (session (Run cmd))); cbn; [|done]. by destruct (m cmd EmptyString) as [out []].
  - unfold ssh_RunQuiet. destruct (ss_open (session (RunQuiet cmd))); cbn; [|done]. by destruct (m cmd EmptyString) as [out []].
  - unfold ssh_RunWithStdin, with_stdin. destruct (session (RunWithStdin cmd input)) as [[] [] [] []]; cbn; try done.
    by destruct (m cmd input) as [out []].
  - unfold ssh_WriteFile, with_stdin. destruct (session (WriteFile path content)) as [[] [] [] []]; cbn [ss_open ss_stdin ss_start ss_copy negb andb]; try done.
    change (write_command path 384) with ("cat > " ^^ path ^^ " && chmod 600 " ^^ path).
    by destruct (m ("cat > " ^^ path ^^ " && chmod 600 " ^^ path) content) as [out []].
Qed.

(** The agent is asked before any file; without a home only the agent is. *)
Lemma auth_agent_first {K} home read (parse : string -> option K) :
  head (auth_methods true home read parse) = Some AgentKeys /\ auth_methods true (Err "no home") read parse = [AgentKeys].
Proof. by destruct home. Qed.

(** ** Keys *)

(** [wg genkey] and [wg pubkey]: the program with its argument and its input. *)
Definition GenerateKeyPair (wg : string -> string -> option string) : result (string * string) :=
  match wg "genkey" EmptyString with
  | None => Err "failed to generate private key"
  | Some out =>
      let privateKey := trim_space out in
      match wg "pubkey" privateKey with
      | None => Err "failed to generate public key"
      | Some out => Ok (privateKey, trim_space out)
      end
  end.

(** The public key is the one [wg] gives for the private key, and neither has a line
    end or a blank around it. *)
Theorem key_pair_matches wg priv pub : GenerateKeyPair wg = Ok (priv, pub) ->
  (exists out, wg "pubkey" priv = Some out /\ pub = trim_space out) /\ trim_right priv = priv /\ trim_right pub = pub.
Proof.
  unfold GenerateKeyPair. destruct (wg "genkey" "") as [g|]; [|done].
  destruct (wg "pubkey" (trim_space g)) as [p|] eqn:Ep; [|done]. intros [= <- <-].
  split; [by exists p|]. unfold trim_space. by rewrite !trim_right_idem.
Qed.
