(* ===== verification/Services.v ===== *)
(** * Managed services (service.go, pkg/mesh/account.go, pkg/mesh/services.go)

    The account and service files, the commands that register, list and remove a
    service, and the --account flag of the other commands (main.go).  The
    Lighthouse client is a third-party library, a record of functions here; the
    clock, the environment and whether a file could be written are arguments.
    What a failed [json.Unmarshal] leaves in a map of services is an argument
    too ([left]).  Times are instants, printed in UTC as the commands make them. *)

From S2P Require Import Prelude GoStrings GoNet GoCrypto GoTime GoJson GoMaps GoTimeJson Derive NodeConfig Atomic.
Local Open Scope wgmesh_scope.

(** ** Errors and files *)

(** An error of the operating system, or one made with [fmt.Errorf]. *)
Inductive error := PathError (notExist : bool) | Errorf (msg : string).

(** [os.IsNotExist] does not look inside an error made with [fmt.Errorf]. *)
Definition IsNotExist (e : error) : bool := match e with PathError b => b | Errorf _ => false end.

(** What [os.ReadFile] finds. *)
Inductive file := Missing | Unreadable | Content (data : string).

Definition ReadFile (f : file) : string + error :=
  match f with Content data => inl data | Missing => inr (PathError true) | Unreadable => inr (PathError false) end.

(** ** The account file *)

Record AccountConfig := { APIKey : string; LighthouseURL : string }.
Definition no_account : AccountConfig := {| APIKey := ""; LighthouseURL := "" |}.

Definition account_json (a : AccountConfig) : json :=
  JObj ([("api_key"%string, JStr (APIKey a))] ++ omit_str "lighthouse_url" (LighthouseURL a)).

Definition dec_account (v : json) : option AccountConfig :=
  match v with
  | JObj ms => k ← str_field "api_key" ms; u ← str_field "lighthouse_url" ms; Some {| APIKey := k; LighthouseURL := u |}
  | JNull => Some no_account
  | _ => None
  end.

(** A member of the wrong type is skipped, and the error reported at the end. *)
Definition left_str (name : string) (ms : list (string * json)) : string :=
  foldl (fun acc kv => if key_match name kv.1 then match kv.2 with JStr s => s | _ => acc end else acc) EmptyString ms.
Definition account_left (data : string) : AccountConfig :=
  match parse data with
  | Some (JObj ms) => {| APIKey := left_str "api_key" ms; LighthouseURL := left_str "lighthouse_url" ms |}
  | _ => no_account
  end.

Definition LoadAccount (f : file) : AccountConfig * option error :=
  match ReadFile f with
  | inr e => (no_account, Some (if IsNotExist e then Errorf "no account configured (file not found)" else Errorf "read account file"))
  | inl data =>
      match parse data ≫= dec_account with
      | None => (account_left data, Some (Errorf "parse account file"))
      | Some cfg => (cfg, if String.eqb (APIKey cfg) "" then Some (Errorf "account file exists but api_key is empty") else None)
      end
  end.

(** The bytes written; [saved] says whether they replaced the file. *)
Definition SaveAccount (cfg : AccountConfig) : string := print_indent (account_json cfg).
Definition saved_file (saved : bool) (data : string) (f : file) : file := if saved then Content data else f.

(** ** The service file *)

Record ServiceEntry := {
  SiteID : string;
  sv_Name : string;
  sv_Domain : string;
  LocalAddr : string;
  sv_Protocol : string;
  RegisteredAt : Time;
}.

Definition service_json (e : ServiceEntry) : json :=
  JObj ([("site_id"%string, JStr (SiteID e))] ++ [("name"%string, JStr (sv_Name e))] ++ [("domain"%string, JStr (sv_Domain e))]
        ++ [("local_addr"%string, JStr (LocalAddr e))] ++ [("protocol"%string, JStr (sv_Protocol e))]
        ++ [("registered_at"%string, time_json (RegisteredAt e))]).

Definition no_service : ServiceEntry :=
  {| SiteID := ""; sv_Name := ""; sv_Domain := ""; LocalAddr := ""; sv_Protocol := ""; RegisteredAt := zero_time |}.

Definition dec_service (v : json) : option ServiceEntry :=
  match v with
  | JObj ms =>
      i ← str_field "site_id" ms; n ← str_field "name" ms; d ← str_field "domain" ms; l ← str_field "local_addr" ms;
      p ← str_field "protocol" ms; r ← field dec_time keep zero_time "registered_at" ms;
      Some {| SiteID := i; sv_Name := n; sv_Domain := d; LocalAddr := l; sv_Protocol := p; RegisteredAt := r |}
  | JNull => Some no_service
  | _ => None
  end.

(** A map of services, nil or not. *)
Notation Services := (gmap string ServiceEntry).

Definition state_services_json (st : option Services) : json :=
  JObj [("services"%string, match st with None => JNull | Some m => map_json service_json m end)].

(** A repeated member extends the map. *)
Definition services_step (acc : option (option Services)) (kv : string * json) : option (option Services) :=
  st ← acc;
  if key_match "services" kv.1 then
    match kv.2 with
    | JNull => Some None
    | JObj l => Some <$> dec_members dec_service l (default ∅ st)
    | _ => None
    end
  else Some st.

Definition dec_services (v : json) : option (option Services) :=
  match v with
  | JObj ms => foldl services_step (Some (Some ∅)) ms
  | JNull => Some (Some ∅)
  | _ => None
  end.

(** The map returned can be nil only with an error. *)
Definition LoadServices (left : option Services) (f : file) : option Services * option error :=
  match ReadFile f with
  | inr e => (Some ∅, if IsNotExist e then None else Some (Errorf "read services file"))
  | inl data =>
      match parse data ≫= dec_services with
      | None => (left, Some (Errorf "parse services file"))
      | Some st => (Some (default ∅ st), None)
      end
  end.

Definition SaveServices (st : option Services) : string := print_indent (state_services_json st).

(** ** Arguments *)

Definition managedDomain : string := "wgmesh.dev".

Definition name_edge (c : ascii) : bool :=
  let n := byte_of_ascii c in (((97 <=? n) && (n <=? 122)) || ((48 <=? n) && (n <=? 57)))%Z.
Fixpoint last_char (c : ascii) (s : string) : ascii := match s with EmptyString => c | String d s => last_char d s end.

(** The regular expression of service names: letters and digits at both ends,
    hyphens between. *)
Definition validServiceName (name : string) : bool :=
  match name with
  | EmptyString => false
  | String c rest => name_edge c && name_edge (last_char c rest) && string_forall (fun d => name_edge d || Ascii.eqb d "-") rest
  end.

Definition normalizeSecret (input : string) : string :=
  let input := trim_space input in
  if String.eqb input "" then ""%string
  else if negb (has_prefix input URIPrefix) then input
  else
    let input := str_drop (String.length URIPrefix) input in
    before_query (match cut_char "/" input with Some (_, secret) => secret | None => input end).

Definition resolveSecret (env flagValue : string) : string :=
  if negb (String.eqb flagValue "") then normalizeSecret flagValue else normalizeSecret env.

Definition validatePort (port : Z) : result Z :=
  if ((port <? 1) || (65535 <? port))%Z then Err "port out of range (1-65535)" else Ok port.

Definition parseLocalAddr (addr : string) : result Z :=
  if has_prefix addr "[" then
    match split_host_port addr with
    | None => Err "invalid address"
    | Some (_, portStr) => match atoi portStr with None => Err "invalid port" | Some port => validatePort port end
    end
  else
    let portStr :=
      if has_prefix addr ":" then str_drop 1 addr
      else if Nat.eqb (count_char ":" addr) 1 then match cut_last ":" addr with Some (_, p) => p | None => addr end
      else addr in
    match atoi portStr with None => Err "invalid port" | Some port => validatePort port end.

Definition parsePortFromAddr (addr : string) : Z := match parseLocalAddr addr with Ok port => port | Err _ => 0%Z end.

(** [strings.TrimSuffix]. *)
Definition trim_suffix (s suffix : string) : option string :=
  let n := (String.length s - String.length suffix)%nat in
  if Nat.leb (String.length suffix) (String.length s) && String.eqb (str_drop n s) suffix then Some (str_take n s) else None.

Definition service_domain (name meshID : string) : string := name ^^ "." ^^ meshID ^^ "." ^^ managedDomain.
Definition extractServiceName (domain meshID : string) : string :=
  default domain (trim_suffix domain ("." ^^ meshID ^^ "." ^^ managedDomain)).

(** [nodeState.PublicKey] of the state file, empty when it cannot be decoded. *)
Definition dec_public_key (v : json) : option string :=
  match v with JObj ms => str_field "public_key" ms | JNull => Some ""%string | _ => None end.
Definition node_public_key (f : file) : string :=
  match ReadFile f with
  | inl data => default ""%string (parse data ≫= dec_public_key)
  | inr _ => ""%string
  end.

(** [nodeState] is /var/lib/wgmesh/wg0.json. *)
Definition deriveMeshIPForService (nodeState : file) (keys : DerivedKeys) (secret : string) (customSubnet : option IPNet) : string :=
  let key := if String.eqb (node_public_key nodeState) "" then "unjoined"%string else node_public_key nodeState in
  match customSubnet with
  | None => DeriveMeshIP (MeshSubnet keys) key secret
  | Some subnet => match DeriveMeshIPInSubnet subnet key secret with
                   | Ok ip => ip
                   | Err _ => DeriveMeshIP (MeshSubnet keys) key secret
                   end
  end.

Definition resolveAccount (saved : bool) (f : file) (apiKeyFlag : string) : file * result AccountConfig :=
  if negb (String.eqb apiKeyFlag "") then
    let acct := {| APIKey := apiKeyFlag; LighthouseURL := LighthouseURL (LoadAccount f).1 |} in
    (saved_file saved (SaveAccount acct) f, if saved then Ok acct else Err "failed to save account")
  else match LoadAccount f with
       | (acct, None) => (f, Ok acct)
       | (_, Some _) => (f, Err "no account configured")
       end.

(** [saveAccountAPIKey], behind the --account flag of join, init and
    install-service. *)
Definition saveAccountAPIKey (saved : bool) (f : file) (apiKey : string) : file :=
  match LoadAccount f with
  | (acct, None) => saved_file saved (SaveAccount {| APIKey := apiKey; LighthouseURL := LighthouseURL acct |}) f
  | (_, Some e) =>
      if IsNotExist e then saved_file saved (SaveAccount {| APIKey := apiKey; LighthouseURL := "" |}) f else f
  end.
Definition handleAccountFlag (saved : bool) (f : file) (apiKey : string) : file :=
  if negb (String.eqb apiKey "") then saveAccountAPIKey saved f apiKey else f.

(** ** The commands *)

Record CreateSiteRequest := {
  cs_Domain : string;
  cs_MeshIP : string;
  cs_Port : Z;
  cs_Protocol : string;
  cs_HealthPath : string;
  cs_HealthInterval : Duration;
}.
Record Site := { site_ID : string; site_Domain : string; site_Port : Z; site_Status : string }.

(** What the Lighthouse client offers; the calls carry the URL and the key. *)
Record Lighthouse := {
  DiscoverLighthouse : string -> result string;
  CreateSite : string -> string -> CreateSiteRequest -> result Site;
  ListSites : string -> string -> result (list Site);
  DeleteSite : string -> string -> string -> bool;
}.

(** The state directory. *)
Record StateDir := { account_file : file; services_file : file }.

(** A command ends with exit status 1, panics, or completes. *)
Inductive outcome (A : Type) := Exit (why : string) | Panic | Done (a : A).
Arguments Exit {A} _.
Arguments Panic {A}.
Arguments Done {A} _.

Record AddFlags := {
  fl_secret : string;
  fl_meshSubnet : string;
  fl_protocol : string;
  fl_healthPath : string;
  fl_healthInterval : Duration;
  fl_account : string;
}.

Section commands.
Context `{Hkdf} (lh : Lighthouse) (env : string).

(** The environment of one command: which writes succeed, what a failed decode
    leaves, and the time. *)
Record Ambient := { am_account_saved : bool; am_services_saved : bool; am_left : option Services; am_now : Time }.

Definition lighthouse_url (acct : AccountConfig) (meshID : string) : result string :=
  if String.eqb (LighthouseURL acct) "" then DiscoverLighthouse lh meshID else Ok (LighthouseURL acct).

Definition add_service (am : Ambient) (dir : StateDir) (name domain localAddr protocol : string) (site : Site) : StateDir * bool :=
  match (LoadServices (am_left am) (services_file dir)).1 with
  | None => (dir, false)
  | Some st =>
      let entry := {| SiteID := site_ID site; sv_Name := name; sv_Domain := domain; LocalAddr := localAddr;
                      sv_Protocol := protocol; RegisteredAt := am_now am |} in
      ({| account_file := account_file dir;
          services_file := saved_file (am_services_saved am) (SaveServices (Some (<[name := entry]> st))) (services_file dir) |}, true)
  end.

(** What completes prints the URL and the origin. *)
Definition serviceAddCmd (am : Ambient) (nodeState : file) (dir : StateDir) (fl : AddFlags) (args : list string)
  : StateDir * outcome (string * string * Z * string) :=
  match args with
  | name :: localAddr :: _ =>
      let secret := resolveSecret env (fl_secret fl) in
      if String.eqb secret "" then (dir, Exit "--secret is required (or set WGMESH_SECRET)")
      else if negb (validServiceName name) then (dir, Exit "invalid service name")
      else if negb (String.eqb (fl_protocol fl) "http") && negb (String.eqb (fl_protocol fl) "https") then (dir, Exit "invalid protocol")
      else match parseLocalAddr localAddr with
      | Err _ => (dir, Exit "invalid local address")
      | Ok port =>
          match DeriveKeys secret with
          | Err _ => (dir, Exit "failed to derive keys")
          | Ok keys =>
              let meshID := MeshID keys in
              let '(af, acct) := resolveAccount (am_account_saved am) (account_file dir) (fl_account fl) in
              let dir := {| account_file := af; services_file := services_file dir |} in
              match acct with
              | Err e => (dir, Exit e)
              | Ok acct =>
                  match lighthouse_url acct meshID with
                  | Err _ => (dir, Exit "failed to discover Lighthouse")
                  | Ok url =>
                      match ParseSubnetOrDefault (fl_meshSubnet fl) with
                      | Err e => (dir, Exit e)
                      | Ok customSubnet =>
                          let domain := service_domain name meshID in
                          let meshIP := deriveMeshIPForService nodeState keys secret customSubnet in
                          match CreateSite lh url (APIKey acct)
                                  {| cs_Domain := domain; cs_MeshIP := meshIP; cs_Port := port; cs_Protocol := fl_protocol fl;
                                     cs_HealthPath := fl_healthPath fl; cs_HealthInterval := fl_healthInterval fl |} with
                          | Err _ => (dir, Exit "failed to register service")
                          | Ok site =>
                              let '(dir, ok) := add_service am dir name domain localAddr (fl_protocol fl) site in
                              (dir, if ok then Done (domain, meshIP, port, site_Status site) else Panic)
                          end
                      end
                  end
              end
          end
      end
  | _ => (dir, Exit "Usage: wgmesh service add <name> <local-addr> [flags]")
  end.

Definition local_site (e : ServiceEntry) : Site :=
  {| site_ID := SiteID e; site_Domain := sv_Domain e; site_Port := parsePortFromAddr (LocalAddr e); site_Status := "local" |}.

(** The sites of the Lighthouse, if an account is there and it answers. *)
Definition remote_sites (f : file) (meshID : string) : option (list Site) :=
  match LoadAccount f with
  | (acct, None) =>
      match lighthouse_url acct meshID with
      | Err _ => None
      | Ok url => if String.eqb url "" then None
                  else match ListSites lh url (APIKey acct) with Ok sites => Some sites | Err _ => None end
      end
  | _ => None
  end.

(** The rows of the table: name, URL, port, status. *)
Definition site_row (meshID : string) (s : Site) : string * string * Z * string :=
  (extractServiceName (site_Domain s) meshID, "https://" ^^ site_Domain s, site_Port s, site_Status s).

Definition serviceListCmd (left : option Services) (dir : StateDir) (secretFlag : string)
  : outcome (list (string * string * Z * string)) :=
  let secret := resolveSecret env secretFlag in
  if String.eqb secret "" then Exit "--secret is required (or set WGMESH_SECRET)"
  else match DeriveKeys secret with
  | Err _ => Exit "failed to derive keys"
  | Ok keys =>
      let meshID := MeshID keys in
      match remote_sites (account_file dir) meshID with
      | Some sites => Done (site_row meshID <$> sites)
      | None =>
          match LoadServices left (services_file dir) with
          | (_, Some _) => Exit "failed to load local services"
          | (st, None) => Done (site_row meshID <$> (local_site ∘ snd <$> map_to_list (default ∅ st)))
          end
      end
  end.

(** The request to delete a site, if one is sent: URL, key and site. *)
Definition delete_request (f : file) (meshID : string) (e : ServiceEntry) : option (string * string * string) :=
  match LoadAccount f with
  | (acct, None) =>
      match lighthouse_url acct meshID with
      | Err _ => None
      | Ok url => if String.eqb url "" then None else Some (url, APIKey acct, SiteID e)
      end
  | _ => None
  end.

(** The answer of the Lighthouse to a deletion makes no difference. *)
Definition serviceRemoveCmd (am : Ambient) (dir : StateDir) (secretFlag : string) (args : list string)
  : StateDir * option (string * string * string) * outcome unit :=
  let secret := resolveSecret env secretFlag in
  if String.eqb secret "" then (dir, None, Exit "--secret is required (or set WGMESH_SECRET)")
  else match args with
  | [] => (dir, None, Exit "Usage: wgmesh service remove <name> [flags]")
  | name :: _ =>
      match DeriveKeys secret with
      | Err _ => (dir, None, Exit "failed to derive keys")
      | Ok keys =>
          match LoadServices (am_left am) (services_file dir) with
          | (_, Some _) => (dir, None, Exit "failed to load services")
          | (st, None) =>
              match default ∅ st !! name with
              | None => (dir, None, Exit "service not found in local state")
              | Some entry =>
                  let request := delete_request (account_file dir) (MeshID keys) entry in
                  let data := SaveServices (Some (delete name (default ∅ st))) in
                  ({| account_file := account_file dir;
                      services_file := saved_file (am_services_saved am) data (services_file dir) |}, request,
                   if am_services_saved am then Done tt else Exit "failed to update local state")
              end
          end
      end
  end.
End commands.
