(* ===== verification/ServicesProps.v ===== *)
(** * Services: what the commands keep and what they register

    The service file survives crashes and is read back as it was written, a
    registration is recorded and undone by a removal, the commands derive the
    keys of the daemon; and three things that go wrong: two processes saving at
    once, the flag that should save an account, the address that is registered. *)

From S2P Require Import Prelude GoStrings GoNet GoCrypto GoTime GoJson GoMaps GoTimeJson Derive IfName NodeConfig Atomic Services.
Local Open Scope wgmesh_scope.

(** ** Reading back *)

(** Texts that the file keeps byte for byte, and a year of four digits. *)
Definition service_text (e : ServiceEntry) : Prop :=
  ascii_str (SiteID e) && ascii_str (sv_Name e) && ascii_str (sv_Domain e) && ascii_str (LocalAddr e) && ascii_str (sv_Protocol e) = true
  /\ year_ok 0 (RegisteredAt e).
Definition services_text (m : Services) : Prop := forall k e, m !! k = Some e -> ascii_str k = true /\ service_text e.

Lemma service_reads e : service_text e -> json_ok (service_json e) = true /\ dec_service (service_json e) = Some e.
Proof.
  intros [Ht Hy]. bool_steps. split.
  - unfold service_json. cbn [json_ok]. rewrite !forallb_app. cbn [forallb fst snd]. unfold time_json. rewrite time_json_ok. message_ok.
  - unfold dec_service, service_json.
    read_struct ltac:(first [by apply time_reads | rewrite fold_same by discriminate; by apply time_reads]). by destruct e.
Qed.

Lemma services_read left m : services_text m -> LoadServices left (Content (SaveServices (Some m))) = (Some m, None).
Proof.
  intros Hm. unfold LoadServices, SaveServices. cbn [ReadFile].
  assert (json_ok (map_json service_json m) = true) as Hok.
  { apply map_json_ok. intros k e Hk. destruct (Hm k e Hk) as [H1 H2]. split; [done|by apply service_reads]. }
  rewrite parse_print_indent by (cbn [state_services_json json_ok forallb fst snd]; by rewrite Hok).
  cbn [mbind option_bind dec_services state_services_json foldl services_step fst snd]. rewrite key_match_refl.
  assert (dec_map dec_service (map_json service_json m) = Some m) as Hd.
  { apply dec_map_json. intros k e Hk. by apply service_reads, (Hm k e Hk). }
  cbn [dec_map map_json] in Hd |- *. match goal with |- context [dec_members dec_service ?l ?a] => replace (dec_members dec_service l a) with (Some m) by (symmetry; exact Hd) end. done.
Qed.

Lemma account_reads a : ascii_str (APIKey a) = true -> ascii_str (LighthouseURL a) = true -> APIKey a <> ""%string ->
  LoadAccount (Content (SaveAccount a)) = (a, None).
Proof.
  intros H1 H2 Hne. unfold LoadAccount, SaveAccount. cbn [ReadFile]. rewrite parse_print_indent by (unfold account_json; message_ok).
  cbn [mbind option_bind].
  assert (dec_account (account_json a) = Some a) as ->.
  { unfold dec_account, account_json. read_struct fail. by destruct a. }
  by rewrite (proj2 (String.eqb_neq _ _) Hne).
Qed.

(** ** Crashes *)

(** The file at a path of the disk. *)
Definition file_at (d : Disk) (path : string) : file := match read_file d path with Some data => Content data | None => Missing end.

(** C37. Saving the services is atomic.  Wherever the save is interrupted and
    whichever of its calls fail, reading the file gives the services that were
    saved when the save reported success and what was there before when it did
    not; no other file but the temporary one changes, and with no failure the save
    succeeds. *)
Theorem services_crash_safe path m d cs st d' left :
  services_text m -> disk_ok d -> save_run path (SaveServices (Some m)) cs (Marshalled, d) = Some (st, d') ->
  LoadServices left (file_at d' path)
    = (if decide (st = Returned true) then (Some m, None) else LoadServices left (file_at d path))
  /\ (forall p, p <> path -> p <> tmp_path path -> file_at d' p = file_at d p)
  /\ exists d'', save_run path (SaveServices (Some m)) (all_calls (SaveServices (Some m))) (Marshalled, d) = Some (Returned true, d'').
Proof.
  intros Hm Hok Hr. destruct (save_atomic _ _ _ _ _ _ Hok Hr) as [Hp Ho]. split; [|split].
  - unfold file_at at 1. rewrite Hp. case_decide; [by apply services_read|done].
  - intros p H1 H2. unfold file_at. by rewrite Ho.
  - apply save_completes.
Qed.

Definition sample_entry : ServiceEntry :=
  {| SiteID := "s1"; sv_Name := "ollama"; sv_Domain := "ollama.abc.wgmesh.dev"; LocalAddr := ":11434"; sv_Protocol := "http";
     RegisteredAt := 1700000000123000000%Z |}.

Lemma sample_text : services_text {["ollama"%string := sample_entry]}.
Proof.
  intros k e [<- <-]%lookup_singleton_Some. split; [done|]. split; [done|]. unfold year_ok. vm_compute. split; intros [=].
Qed.
Lemma services_crash_safe_witness : exists d',
  save_run "services.json" (SaveServices (Some {["ollama"%string := sample_entry]})) [Mkdir true; Open true; Wrote 7] (Marshalled, empty_disk)
    = Some (Writing 0 (str_drop 7 (SaveServices (Some {["ollama"%string := sample_entry]}))), d')
  /\ LoadServices None (file_at d' "services.json") = (Some ∅, None).
Proof.
  eexists. split; [reflexivity|].
  pose proof (services_crash_safe "services.json" {["ollama"%string := sample_entry]} empty_disk [Mkdir true; Open true; Wrote 7]
    _ _ None sample_text empty_disk_ok eq_refl) as [H _].
  rewrite H. reflexivity.
Defined.

(** Two processes that save at once can destroy the file.  They share the name
    of the temporary file: when the second opens it between the write and the
    rename of the first, the first puts an empty file in place and reports success,
    and the file can no longer be read. *)
Theorem concurrent_saves_corrupt path m1 m2 d left : exists s2 d',
  pair_run path (SaveServices (Some m1)) (SaveServices (Some m2)) (overlap (SaveServices (Some m1))) d = Some (Returned true, s2, d')
  /\ LoadServices left (file_at d' path) = (left, Some (Errorf "parse services file")).
Proof.
  destruct (overlap_empties path (SaveServices (Some m1)) (SaveServices (Some m2)) d) as (s2 & d' & Hr & He).
  exists s2, d'. split; [done|]. unfold file_at. by rewrite He.
Qed.

(** A member of a mesh. *)
Definition joined_node : LocalNode :=
  {| ln_WGPubKey := "pub"; ln_WGPrivateKey := "priv"; ln_MeshIP := ""; ln_MeshIPv6 := ""; ln_RoutableNetworks := [];
     ln_Introducer := false; ln_NATType := ""; ln_Hostname := ""; wgEndpoint := "" |}.

(** A crash while the daemon writes its state file costs the node its identity.
    The file is truncated before it is written, unlike the service file; a daemon
    that starts after a crash at that moment cannot read it, and takes the new key
    pair and the address that belongs to it. *)
Theorem identity_lost_on_crash cfg path n d hostname priv pub : config_ok cfg -> exists fd d' n' saves,
  write_run path (saveLocalNode n) [Mkdir true; Open true] (Marshalled, d) = Some (Writing fd (saveLocalNode n), d')
  /\ initLocalNode cfg hostname (loadLocalNode (read_file d' path)) (Ok (priv, pub)) = Ok (n', saves)
  /\ ln_WGPubKey n' = pub /\ ln_WGPrivateKey n' = priv /\ derive_ip cfg pub = Ok (ln_MeshIP n').
Proof.
  intros Hc. destruct (write_truncates path (saveLocalNode n) d) as (fd & d' & Hr & He).
  destruct (derive_ip_in_subnet cfg pub Hc) as (ip & Hip & _). do 4 eexists. split; [exact Hr|]. rewrite He.
  change (loadLocalNode (Some EmptyString)) with (@None LocalNode). unfold initLocalNode, create_node. cbn [wrap rbind]. rewrite Hip.
  cbn [rbind]. split; [reflexivity|]. done.
Qed.

Lemma identity_lost_on_crash_witness : exists fd d' n' saves,
  write_run "/var/lib/wgmesh/wg0.json" (saveLocalNode joined_node) [Mkdir true; Open true] (Marshalled, empty_disk)
    = Some (Writing fd (saveLocalNode joined_node), d')
  /\ initLocalNode (get_config (H := flat_hkdf) "0123456789abcdef" "192.168.64.0/22") "host"
       (loadLocalNode (read_file d' "/var/lib/wgmesh/wg0.json")) (Ok ("priv2", "pub2")%string) = Ok (n', saves)
  /\ ln_WGPubKey n' <> ln_WGPubKey joined_node.
Proof.
  destruct (identity_lost_on_crash (get_config (H := flat_hkdf) "0123456789abcdef" "192.168.64.0/22") "/var/lib/wgmesh/wg0.json" joined_node
    empty_disk "host" "priv2" "pub2" (get_config_ok (H := flat_hkdf) "0123456789abcdef" "192.168.64.0/22" ltac:(vm_compute; reflexivity)))
    as (fd & d' & n' & saves & H1 & H2 & H3 & _).
  exists fd, d', n', saves. split; [exact H1|]. split; [exact H2|]. rewrite H3. discriminate.
Defined.

(** ** The account *)

(** The --account flag of join and install-service does not save a first
    account: without an account file the key is dropped, because the error that
    says so is not recognised any more.  The same flag of service add saves it. *)
Theorem account_flag_not_saved saved apiKey : apiKey <> ""%string -> ascii_str apiKey = true ->
  handleAccountFlag saved Missing apiKey = Missing
  /\ LoadAccount (resolveAccount true Missing apiKey).1 = ({| APIKey := apiKey; LighthouseURL := "" |}, None).
Proof.
  intros Hne Ha. apply String.eqb_neq in Hne as E. unfold handleAccountFlag, resolveAccount. rewrite E. split; [reflexivity|].
  cbn [negb fst saved_file LoadAccount ReadFile IsNotExist LighthouseURL no_account]. by apply account_reads.
Qed.

Lemma account_flag_not_saved_witness :
  handleAccountFlag true Missing "cr_0123" = Missing
  /\ LoadAccount (resolveAccount true Missing "cr_0123").1 = ({| APIKey := "cr_0123"; LighthouseURL := "" |}, None).
Proof. apply (account_flag_not_saved true "cr_0123"); [discriminate|reflexivity]. Defined.

(** ** Secrets *)

(** Not a URI without version segment but with a query. *)
Definition plain_form (input : string) : bool :=
  let t := trim_space input in
  let rest := str_drop (String.length URIPrefix) t in
  negb (has_prefix t URIPrefix && negb (contains_char "/" rest) && contains_char "?" rest).

Lemma cut_none_char c s : cut_char c s = None -> contains_char c s = false.
Proof.
  induction s as [|d s IH]; [done|]. cbn [cut_char contains_char]. destruct (Ascii.eqb d c); [done|].
  destruct (cut_char c s) as [[? ?]|]; [done|]. auto.
Qed.
Lemma no_query s : contains_char "?" s = false -> before_query s = s.
Proof. intros H. unfold before_query. by rewrite cut_char_none. Qed.

Lemma normalize_parse input : plain_form input = true -> normalizeSecret input = parseSecret input.
Proof.
  unfold plain_form, normalizeSecret, parseSecret. cbv zeta. generalize (trim_space input). intros t Hp.
  destruct (String.eqb_spec t "") as [->|Hne]; [done|]. destruct (has_prefix t URIPrefix); [|done]. cbn [negb] in *.
  set (rest := str_drop _ t) in *. destruct (cut_char "/" rest) as [[v s]|] eqn:Ec; [done|].
  apply cut_none_char in Ec. rewrite Ec in Hp. cbn [negb andb] in Hp. apply negb_true_iff in Hp. by apply no_query.
Qed.

(** The service commands and the daemon derive the same keys from a secret,
    however it is written: a raw secret, or a URI with a version segment, with or
    without a query. *)
Theorem service_keys_agree `{Hkdf} os opts cfg env :
  NewConfig os opts = Ok cfg -> plain_form (o_Secret opts) = true ->
  resolveSecret env (o_Secret opts) = Secret cfg /\ DeriveKeys (resolveSecret env (o_Secret opts)) = Ok (Keys cfg).
Proof.
  intros Hc Hp. destruct (NewConfig_ok os opts cfg Hc) as [_ Hs]. unfold NewConfig in Hc.
  apply rbind_ok in Hc as (keys & Hk%wrap_ok & Hc). apply rbind_ok in Hc as ([] & _ & Hc). apply rbind_ok in Hc as (sub & _ & Hc).
  apply rbind_ok in Hc as ([] & _ & Hc). injection Hc as <-. cbn [Keys Secret] in *.
  unfold resolveSecret. destruct (String.eqb_spec (o_Secret opts) "") as [E|Hne].
  - rewrite E in Hk. destruct (derive_keys_total "" : exists e, DeriveKeys "" = Err e) as [e He]. change (parseSecret "") with ""%string in Hk. congruence.
  - cbn [negb]. by rewrite normalize_parse.
Qed.

Lemma service_keys_agree_witness : exists cfg,
  NewConfig (H := flat_hkdf) Linux (sample_opts "wgmesh://v1/0123456789abcdef?relay=true" "") = Ok cfg
  /\ resolveSecret "" "wgmesh://v1/0123456789abcdef?relay=true" = Secret cfg.
Proof.
  destruct (NewConfig (H := flat_hkdf) Linux (sample_opts "wgmesh://v1/0123456789abcdef?relay=true" "")) as [cfg|e] eqn:E;
    [|exfalso; vm_compute in E; discriminate].
  exists cfg. split; [done|].
  exact (proj1 (service_keys_agree (H := flat_hkdf) Linux (sample_opts "wgmesh://v1/0123456789abcdef?relay=true" "") cfg "" E eq_refl)).
Defined.

(** A URI without version segment keeps its query in the daemon's secret. *)
Example query_without_version :
  normalizeSecret "wgmesh://0123456789abcdef?x=1" = "0123456789abcdef"%string
  /\ parseSecret "wgmesh://0123456789abcdef?x=1" = "0123456789abcdef?x=1"%string.
Proof. by split. Qed.

(** ** The registered address *)

Lemma saved_node_has_no_public_key n : json_ok (state_json n) = true -> node_public_key (Content (saveLocalNode n)) = ""%string.
Proof.
  intros Hok. unfold node_public_key, saveLocalNode. cbn [ReadFile]. rewrite parse_print_indent by done. cbn [mbind option_bind dec_public_key state_json].
  read_fields. reflexivity.
Qed.

(** The address that service add registers has nothing to do with the node.
    The command looks for the member public_key of the state file and the daemon
    writes wg_pubkey, so whatever node the daemon saved, the registered address is
    the one the mesh would give to a node whose key is the word unjoined: the same
    for every member. *)
Theorem service_address_ignores_node cfg n : json_ok (state_json n) = true ->
  deriveMeshIPForService (Content (saveLocalNode n)) (Keys cfg) (Secret cfg) (CustomSubnet cfg)
  = match derive_ip cfg "unjoined" with Ok ip => ip | Err _ => DeriveMeshIP (MeshSubnet (Keys cfg)) "unjoined" (Secret cfg) end.
Proof.
  intros Hok. unfold deriveMeshIPForService, derive_ip. rewrite saved_node_has_no_public_key by done. cbn [String.eqb].
  destruct (CustomSubnet cfg) as [net|]; [|done]. by destruct (DeriveMeshIPInSubnet net "unjoined" (Secret cfg)).
Qed.

Lemma service_address_ignores_node_witness :
  let cfg := get_config (H := flat_hkdf) "0123456789abcdef" "192.168.64.0/22" in
  exists own registered, derive_ip cfg (ln_WGPubKey joined_node) = Ok own
  /\ deriveMeshIPForService (Content (saveLocalNode joined_node)) (Keys cfg) (Secret cfg) (CustomSubnet cfg) = registered /\ own <> registered.
Proof.
  intros cfg. rewrite (service_address_ignores_node cfg joined_node eq_refl).
  do 2 eexists. split; [vm_compute; reflexivity|]. split; [vm_compute; reflexivity|]. discriminate.
Defined.

(** ** Registering and removing *)

Lemma name_ascii name : validServiceName name = true -> ascii_str name = true.
Proof.
  destruct name as [|c rest]; [done|]. cbn [validServiceName]. intros H. bool_steps. unfold ascii_str. cbn [string_forall].
  assert (forall d, name_edge d = true -> byte_in 0 127 d = true) as He.
  { intros d Hd. unfold name_edge, byte_in in *. apply orb_true_iff in Hd as [Hd|Hd]; bool_steps; apply andb_true_iff; rewrite !Z.leb_le; lia. }
  rewrite He by done. cbn [andb]. match goal with E : string_forall _ rest = true |- _ => revert E end. clear - He.
  induction rest as [|d rest IH]; [done|]. cbn [string_forall]. intros [Hd Hr]%andb_true_iff. rewrite IH by done. rewrite andb_true_r.
  apply orb_true_iff in Hd as [Hd|Hd%Ascii.eqb_eq]; [by apply He|by subst].
Qed.

Lemma hex_digit_ascii n : (0 <= n < 16)%Z -> byte_in 0 127 (hex_digit n) = true.
Proof.
  intros Hn. assert (forallb (fun n => byte_in 0 127 (hex_digit n)) [0;1;2;3;4;5;6;7;8;9;10;11;12;13;14;15]%Z = true) as H by reflexivity.
  apply (proj1 (forallb_forall _ _) H). cbn. lia.
Qed.
Lemma hex_bytes_ascii bs : Forall is_byte bs -> ascii_str (hex_bytes bs) = true.
Proof.
  unfold ascii_str. induction 1 as [|b bs Hb _ IH]; [done|]. cbn [hex_bytes string_forall]. rewrite IH. unfold is_byte in Hb.
  rewrite !hex_digit_ascii; [done|apply Z.mod_pos_bound; lia|]. split; [apply Z.div_pos; lia|apply Z.div_lt_upper_bound; lia].
Qed.

Lemma mesh_id_ascii `{Hkdf} secret keys : DeriveKeys secret = Ok keys -> ascii_str (MeshID keys) = true.
Proof.
  unfold DeriveKeys. destruct (Nat.ltb _ _); [done|]. intros (x1 & _ & H1)%rbind_ok. apply rbind_ok in H1 as (x2 & _ & H1).
  apply rbind_ok in H1 as (x3 & _ & H1). apply rbind_ok in H1 as (x4 & _ & H1). apply rbind_ok in H1 as (x5 & _ & H1).
  apply rbind_ok in H1 as (x6 & _ & H1). apply rbind_ok in H1 as (x7 & _ & H1). apply rbind_ok in H1 as (x8 & _ & H1).
  injection H1 as <-. unfold MeshID. cbn [NetworkID]. apply hex_bytes_ascii. apply Forall_take, Forall_take, sha256_bytes.
Qed.

Lemma extract_domain name meshID : extractServiceName (service_domain name meshID) meshID = name.
Proof.
  unfold extractServiceName, service_domain, trim_suffix. set (suffix := "." ^^ meshID ^^ "." ^^ managedDomain).
  rewrite length_app_str. replace (String.length name + String.length suffix - String.length suffix)%nat with (String.length name) by lia.
  rewrite str_drop_app, str_take_app, String.eqb_refl. by rewrite (proj2 (Nat.leb_le _ _)) by lia.
Qed.

Lemma domain_ascii name meshID : ascii_str name = true -> ascii_str meshID = true -> ascii_str (service_domain name meshID) = true.
Proof. intros Hn Hm. unfold service_domain. apply ascii_app; [done|]. apply (ascii_app "."); [done|]. by apply ascii_app. Qed.

Section lifecycle.
Context `{Hkdf} (lh : Lighthouse) (env : string).

(** What a completed registration went through. *)
Lemma add_done am nodeState dir fl name localAddr args dir1 r :
  serviceAddCmd lh env am nodeState dir fl (name :: localAddr :: args) = (dir1, Done r) ->
  exists keys af acct url rq site,
    DeriveKeys (resolveSecret env (fl_secret fl)) = Ok keys /\ resolveSecret env (fl_secret fl) <> ""%string
    /\ validServiceName name = true /\ (fl_protocol fl = "http"%string \/ fl_protocol fl = "https"%string)
    /\ resolveAccount (am_account_saved am) (account_file dir) (fl_account fl) = (af, Ok acct)
    /\ lighthouse_url lh acct (MeshID keys) = Ok url
    /\ CreateSite lh url (APIKey acct) rq = Ok site /\ cs_Domain rq = service_domain name (MeshID keys)
    /\ parseLocalAddr localAddr = Ok (cs_Port rq)
    /\ (dir1, true) = add_service am {| account_file := af; services_file := services_file dir |} name (service_domain name (MeshID keys))
         localAddr (fl_protocol fl) site.
Proof.
  unfold serviceAddCmd. cbv zeta. destruct (String.eqb_spec (resolveSecret env (fl_secret fl)) "") as [|Hne]; [done|].
  destruct (validServiceName name) eqn:Hv; [|done]. cbn [negb].
  assert (negb (String.eqb (fl_protocol fl) "http") && negb (String.eqb (fl_protocol fl) "https") = true
          \/ (fl_protocol fl = "http"%string \/ fl_protocol fl = "https"%string)) as Hp.
  { destruct (String.eqb_spec (fl_protocol fl) "http"); [auto|]. destruct (String.eqb_spec (fl_protocol fl) "https"); auto. }
  destruct (_ && _) eqn:Ep; [done|]. destruct Hp as [|Hp]; [done|]. destruct (parseLocalAddr localAddr) as [port|] eqn:Eport; [|done].
  destruct (DeriveKeys _) as [keys|] eqn:Ek; [|done]. destruct (resolveAccount _ _ _) as [af acct] eqn:Ea. destruct acct as [acct|]; [|done].
  destruct (lighthouse_url lh acct (MeshID keys)) as [url|] eqn:Eu; [|done]. destruct (ParseSubnetOrDefault _) as [sub|]; [|done].
  match goal with |- context [CreateSite lh url (APIKey acct) ?rq] => set (rq0 := rq); destruct (CreateSite lh url (APIKey acct) rq0) as [site|] eqn:Es; [|done] end.
  match goal with |- context [add_service ?a ?b ?c ?d ?e ?f ?g] => destruct (add_service a b c d e f g) as [dir2 ok] eqn:Ed end.
  destruct ok; [|done]. intros [= <- _]. exists keys, af, acct, url, rq0, site. by rewrite Ed.
Qed.

(** The account a command has resolved is the one the next command finds. *)
Lemma account_stays saved f flag af acct : resolveAccount saved f flag = (af, Ok acct) ->
  (flag <> ""%string -> ascii_str flag = true /\ ascii_str (LighthouseURL (LoadAccount f).1) = true) ->
  LoadAccount af = (acct, None).
Proof.
  unfold resolveAccount. intros Hr Ha. destruct (String.eqb_spec flag "") as [->|Hne]; cbn [negb] in Hr.
  - destruct (LoadAccount f) as [a [e|]] eqn:El; [done|]. injection Hr as <- <-. done.
  - destruct saved; [|done]. injection Hr as <- <-. destruct (Ha Hne). by apply account_reads.
Qed.

(** C38. A registration is recorded and a removal undoes it.  When service add
    completes over a readable file and its save succeeds, the file holds the old
    services and the new one under its name (an old one of that name is
    overwritten), with the identifier of the site that was created for its domain,
    and the local list shows it under that name.  Removing it with the same secret
    leaves the services of the other names, so the old services when the name was
    free.  The removal finds the account of the registration, with --account or
    without: when the account names a Lighthouse, that one, with the same key, is
    asked to delete that site; when it does not, the one that is discovered at the
    removal is asked, and none when nothing is discovered. *)
Theorem service_lifecycle am nodeState dir fl name localAddr args dir1 r m left :
  (forall url key rq site, CreateSite lh url key rq = Ok site -> ascii_str (site_ID site) = true) ->
  LoadServices (am_left am) (services_file dir) = (Some m, None) -> services_text m ->
  (fl_account fl <> ""%string ->
     ascii_str (fl_account fl) = true /\ ascii_str (LighthouseURL (LoadAccount (account_file dir)).1) = true) ->
  ascii_str localAddr = true -> year_ok 0 (am_now am) -> am_services_saved am = true ->
  serviceAddCmd lh env am nodeState dir fl (name :: localAddr :: args) = (dir1, Done r) ->
  exists keys url acct rq site entry,
    DeriveKeys (resolveSecret env (fl_secret fl)) = Ok keys
    /\ CreateSite lh url (APIKey acct) rq = Ok site /\ cs_Domain rq = sv_Domain entry /\ SiteID entry = site_ID site
    /\ LoadServices left (services_file dir1) = (Some (<[name := entry]> m), None)
    /\ site_row (MeshID keys) (local_site entry) = (name, "https://" ^^ sv_Domain entry, cs_Port rq, "local"%string)
    /\ (fl_account fl <> ""%string -> APIKey acct = fl_account fl)
    /\ (LighthouseURL acct <> ""%string -> url = LighthouseURL acct)
    /\ (LighthouseURL acct = ""%string -> DiscoverLighthouse lh (MeshID keys) = Ok url)
    /\ forall lh' am', am_services_saved am' = true ->
       exists dir2 req, serviceRemoveCmd lh' env am' dir1 (fl_secret fl) [name] = (dir2, req, Done tt)
       /\ LoadServices left (services_file dir2) = (Some (delete name m), None) /\ account_file dir2 = account_file dir1
       /\ (LighthouseURL acct <> ""%string -> req = Some (url, APIKey acct, site_ID site))
       /\ (LighthouseURL acct = ""%string ->
            match DiscoverLighthouse lh' (MeshID keys) with
            | Ok u => u <> ""%string -> req = Some (u, APIKey acct, site_ID site)
            | Err _ => req = None
            end).
Proof.
  intros Hid Hload Hm Hacc Haddr Hy Hsaved Hadd.
  destruct (add_done _ _ _ _ _ _ _ _ _ Hadd) as (keys & af & acct & url & rq & site & Hk & Hne & Hv & Hp & Hacct & Hurl & Hcr & Hdom & Hport & Hsvc).
  pose proof (name_ascii _ Hv) as Hn. pose proof (mesh_id_ascii _ _ Hk) as Hmid. unfold add_service in Hsvc. cbn [services_file account_file] in Hsvc.
  rewrite Hload in Hsvc. cbn [fst] in Hsvc. rewrite Hsaved in Hsvc. cbn [saved_file] in Hsvc. injection Hsvc as ->.
  set (entry := {| SiteID := site_ID site |}). set (m1 := <[name := entry]> m).
  assert (services_text m1) as Hm1.
  { intros k e [[<- <-]|[_ Hke]]%lookup_insert_Some; [|by apply Hm]. split; [done|]. split; [|done]. cbn [SiteID sv_Name sv_Domain LocalAddr sv_Protocol entry].
    rewrite (Hid _ _ _ _ Hcr), Hn, Haddr. rewrite domain_ascii by done. by destruct Hp as [-> | ->]. }
  assert (services_text (delete name m1)) as Hm2 by (intros k e [_ Hke]%lookup_delete_Some; by apply Hm1).
  exists keys, url, acct, rq, site, entry. split; [done|]. split; [done|]. split; [done|]. split; [done|]. cbn [services_file account_file].
  split; [by apply services_read|]. split.
  { unfold site_row, local_site, parsePortFromAddr. cbn [site_Domain site_Port site_Status sv_Domain LocalAddr entry]. rewrite extract_domain, Hport. done. }
  assert (LoadAccount af = (acct, None)) as Hla by by eapply account_stays.
  unfold lighthouse_url in Hurl.
  split. { unfold resolveAccount in Hacct. intros Hf%String.eqb_neq. rewrite Hf in Hacct. cbn [negb] in Hacct.
    destruct (am_account_saved am); [by injection Hacct as <- <-|done]. }
  split. { intros Hu%String.eqb_neq. rewrite Hu in Hurl. by injection Hurl as <-. }
  split. { intros Hu. by rewrite Hu in Hurl. }
  intros lh' am' Hs'. unfold serviceRemoveCmd. apply String.eqb_neq in Hne. rewrite Hne, Hk. cbn [services_file account_file].
  rewrite services_read by done. assert (m1 !! name = Some entry) as Hl by apply lookup_insert_eq.
  cbn [default from_option id]. rewrite Hl, Hs'. cbn [saved_file].
  do 2 eexists. split; [reflexivity|]. cbn [services_file account_file]. split; [|split; [done|]].
  - etransitivity; [exact (services_read left (delete name m1) Hm2)|]. unfold m1. do 2 f_equal. apply delete_insert_eq.
  - unfold delete_request. rewrite Hla. unfold lighthouse_url. split.
    + intros Hu%String.eqb_neq. rewrite Hu in Hurl |- *. injection Hurl as <-. by rewrite Hu.
    + intros Hu. rewrite Hu. cbn [String.eqb]. destruct (DiscoverLighthouse lh' (MeshID keys)) as [u|]; [|done].
      intros Hne'%String.eqb_neq. by rewrite Hne'.
Qed.
End lifecycle.

Definition sample_lighthouse : Lighthouse :=
  {| DiscoverLighthouse := fun _ => Ok "https://lighthouse"%string;
     CreateSite := fun _ _ rq => Ok {| site_ID := "s1"; site_Domain := cs_Domain rq; site_Port := cs_Port rq; site_Status := "pending" |};
     ListSites := fun _ _ => Err "unreachable"%string; DeleteSite := fun _ _ _ => true |}.
Definition sample_flags : AddFlags :=
  {| fl_secret := "0123456789abcdef"; fl_meshSubnet := ""; fl_protocol := "http"; fl_healthPath := "/"; fl_healthInterval := (30 * second)%Z;
     fl_account := "" |}.
Definition sample_ambient : Ambient :=
  {| am_account_saved := true; am_services_saved := true; am_left := None; am_now := 1700000000123000000%Z |}.
Definition sample_dir : StateDir :=
  {| account_file := Content (SaveAccount {| APIKey := "cr_1"; LighthouseURL := "" |}); services_file := Missing |}.

(** Another Lighthouse, found by a later command. *)
Definition moved_lighthouse : Lighthouse :=
  {| DiscoverLighthouse := fun _ => Ok "https://moved"%string; CreateSite := fun _ _ _ => Err "unreachable"%string;
     ListSites := fun _ _ => Err "unreachable"%string; DeleteSite := fun _ _ _ => true |}.

Lemma service_lifecycle_witness :
  let add := serviceAddCmd (H := flat_hkdf) sample_lighthouse "" sample_ambient Missing sample_dir sample_flags ["ollama"; ":11434"]%string in
  (exists r, add.2 = Done r) /\ exists dir2 entry,
    LoadServices None (services_file add.1) = (Some {["ollama"%string := entry]}, None)
    /\ serviceRemoveCmd (H := flat_hkdf) moved_lighthouse "" sample_ambient add.1 (fl_secret sample_flags) ["ollama"%string]
       = (dir2, Some ("https://moved", "cr_1", "s1")%string, Done tt)
    /\ LoadServices None (services_file dir2) = (Some ∅, None).
Proof.
  intros add. destruct add as [dir1 out] eqn:E. assert (exists r, out = Done r) as [r Hr].
  { assert (match add.2 with Done _ => true | _ => false end = true) as Hd by (vm_compute; reflexivity). rewrite E in Hd. cbn [snd] in Hd.
    destruct out as [| |r]; [discriminate|discriminate|by exists r]. }
  subst out. cbn [fst snd]. split; [by exists r|].
  assert (forall url key rq site, CreateSite sample_lighthouse url key rq = Ok site -> ascii_str (site_ID site) = true) as Hid
    by (intros url key rq site [= <-]; reflexivity).
  assert (services_text ∅) as Hm by (intros k e He; by rewrite lookup_empty in He).
  assert (year_ok 0 (am_now sample_ambient)) as Hy by (unfold year_ok; vm_compute; split; intros [=]).
  destruct (service_lifecycle (H := flat_hkdf) sample_lighthouse "" sample_ambient Missing sample_dir sample_flags "ollama" ":11434" []
    dir1 r ∅ None Hid eq_refl Hm (fun _ => conj eq_refl eq_refl) eq_refl Hy eq_refl E)
    as (keys & url & acct & rq & site & entry & Hk & Hcr & _ & _ & Hl & _ & _ & _ & _ & Hrem).
  destruct (Hrem moved_lighthouse sample_ambient eq_refl) as (dir2 & req & Hr & Hl2 & _ & _ & _). exists dir2, entry.
  rewrite insert_empty in Hl. split; [done|]. rewrite delete_empty in Hl2. split; [|done]. rewrite Hr. f_equal. f_equal.
  assert ((serviceRemoveCmd (H := flat_hkdf) moved_lighthouse "" sample_ambient add.1 (fl_secret sample_flags) ["ollama"%string]).1.2
    = Some ("https://moved", "cr_1", "s1")%string) as Hc by (vm_compute; reflexivity).
  rewrite E in Hc. cbn [fst] in Hc. by rewrite Hr in Hc.
Defined.
