(* ===== verification/Rpc.v ===== *)
(** * The control socket (pkg/rpc: protocol.go, server.go, client.go)

    JSON-RPC over a Unix socket, one request and one response per line: the
    decoding of requests, the five methods, the connection loop, the client, and
    the callbacks with which main.go ties the server to the daemon's peer store.
    The zone of [time.Local] and the reprinting of a number that is not a small
    integer (Go reads it as a binary64) are arguments. *)

From S2P Require Import Prelude GoStrings GoTime GoJson GoMaps Routes PeerStore GoText.
Local Open Scope wgmesh_scope.

(** ** Protocol *)

Definition ErrCodeParseError : Z := -32700.
Definition ErrCodeInvalidRequest : Z := -32600.
Definition ErrCodeMethodNotFound : Z := -32601.
Definition ErrCodeInvalidParams : Z := -32602.
Definition ErrCodeInternalError : Z := -32603.

Record Request := { rq_JSONRPC : string; rq_Method : string; rq_Params : gmap string json; rq_ID : json }.
Record Error := { e_Code : Z; e_Message : string }.

(** A response has a result or an error; its version is always 2.0. *)
Record Response := { rs_body : json + Error; rs_ID : json }.

(** Integers that a binary64 holds and Go prints as they are. *)
Definition small_int (lit : string) : bool :=
  match atoi lit with Some z => String.eqb (itoa z) lit && (Z.abs z <=? 2 ^ 53)%Z | None => false end.

Section values.
Context (renumber : string -> option string).

(** A value read into [interface{}] and printed again: numbers through binary64,
    objects with the last of equal keys and in the order of the keys. *)
Fixpoint any_value (v : json) : option json :=
  match v with
  | JNull => Some JNull
  | JBool b => Some (JBool b)
  | JStr s => Some (JStr s)
  | JNum lit => if small_int lit then Some (JNum lit) else JNum <$> renumber lit
  | JArr l => JArr <$> mapM any_value l
  | JObj l =>
      ms ← mapM (fun kv => (fun x => (kv.1, x)) <$> any_value kv.2) l;
      Some (JObj (sorted_members (foldl (fun (m : gmap string json) kv => <[kv.1 := kv.2]> m) ∅ ms)))
  end.

(** A [params] member is read into the map, which a repeated member extends. *)
Definition params_step (acc : option (gmap string json)) (kv : string * json) : option (gmap string json) :=
  m ← acc;
  if key_match "params" kv.1 then
    match kv.2 with
    | JNull => Some ∅
    | JObj l =>
        ms ← mapM (fun kv => (fun x => (kv.1, x)) <$> any_value kv.2) l;
        Some (foldl (fun (m : gmap string json) kv => <[kv.1 := kv.2]> m) m ms)
    | _ => None
    end
  else Some m.

Definition empty_request : Request := {| rq_JSONRPC := ""; rq_Method := ""; rq_Params := ∅; rq_ID := JNull |}.

Definition dec_request (v : json) : option Request :=
  match v with
  | JNull => Some empty_request
  | JObj ms =>
      version ← str_field "jsonrpc" ms; method ← str_field "method" ms;
      params ← foldl params_step (Some ∅) ms; id ← field any_value (fun _ => JNull) JNull "id" ms;
      Some {| rq_JSONRPC := version; rq_Method := method; rq_Params := params; rq_ID := id |}
  | _ => None
  end.
End values.

Definition error_json (e : Error) : json :=
  JObj [("code", jint (e_Code e)); ("message", JStr (e_Message e))]%string.

Definition response_json (r : Response) : json :=
  JObj ([("jsonrpc"%string, JStr "2.0")]
        ++ (match rs_body r with inl result => [("result"%string, result)] | inr e => [("error"%string, error_json e)] end)
        ++ [("id"%string, rs_ID r)]).

(** ** The daemon's side *)

Record PeerData := {
  pd_WGPubKey : string;
  pd_Hostname : string;
  pd_MeshIP : string;
  pd_Endpoint : string;
  pd_LastSeen : Time;
  pd_DiscoveredVia : list string;
  pd_RoutableNetworks : list string;
  pd_LatencyMs : option Z;
}.

Record StatusData := { sd_MeshIP : string; sd_PubKey : string; sd_Uptime : Duration; sd_Interface : string }.

(** What the callbacks read: the store, the local node (its mesh address and
    key, once it is initialised), the start time, the interface. *)
Record RpcDaemon := {
  rd_store : PeerStore;
  rd_local : option (string * string);
  rd_startTime : Time;
  rd_interface : string;
}.

(** [Latency.Milliseconds()] rounds towards zero. *)
Definition rpc_peer (p : PeerInfo) : PeerData :=
  {| pd_WGPubKey := WGPubKey p; pd_Hostname := Hostname p; pd_MeshIP := MeshIP p; pd_Endpoint := Endpoint p;
     pd_LastSeen := LastSeen p; pd_DiscoveredVia := DiscoveredVia p; pd_RoutableNetworks := RoutableNetworks p;
     pd_LatencyMs := (fun l => Z.quot l millisecond) <$> Latency p |}.

Definition GetRPCPeers (d : RpcDaemon) (now : Time) : list PeerData := rpc_peer <$> GetActive (rd_store d) now.
Definition GetRPCPeer (d : RpcDaemon) (pubKey : string) : option PeerData := rpc_peer <$> Get (rd_store d) pubKey.

Definition GetRPCPeerCounts (d : RpcDaemon) (now : Time) : Z * Z * Z :=
  let total := Z.of_nat (length (GetAll (rd_store d))) in
  let active := Z.of_nat (length (GetActive (rd_store d) now)) in
  (active, total, (total - active)%Z).

(** A zero start time is set by the first question. *)
Definition GetUptime (d : RpcDaemon) (now : Time) : Duration * RpcDaemon :=
  if time_is_zero (rd_startTime d)
  then (0%Z, {| rd_store := rd_store d; rd_local := rd_local d; rd_startTime := now; rd_interface := rd_interface d |})
  else (time_sub now (rd_startTime d), d).

Definition GetRPCStatus (d : RpcDaemon) (now : Time) : option StatusData * RpcDaemon :=
  match rd_local d with
  | None => (None, d)
  | Some (meshIP, pubKey) =>
      let '(uptime, d') := GetUptime d now in
      (Some {| sd_MeshIP := meshIP; sd_PubKey := pubKey; sd_Uptime := uptime; sd_Interface := rd_interface d |}, d')
  end.

(** ** The server *)

Section server.
Context (renumber : string -> option string) (zone : Z) (version : string).

Definition PeerInfo_json (p : PeerData) : json :=
  JObj ([("pubkey"%string, JStr (pd_WGPubKey p))]
        ++ omit_str "hostname" (pd_Hostname p)
        ++ [("mesh_ip"%string, JStr (pd_MeshIP p))]
        ++ [("endpoint"%string, JStr (pd_Endpoint p))]
        ++ [("last_seen"%string, JStr (format_rfc3339 zone (pd_LastSeen p)))]
        ++ [("discovered_via"%string, JArr (JStr <$> pd_DiscoveredVia p))]
        ++ omit_list "routable_networks" JStr (pd_RoutableNetworks p)
        ++ (match pd_LatencyMs p with Some ms => [("latency_ms"%string, jint ms)] | None => [] end)).

Definition handlePeersList (d : RpcDaemon) (now : Time) : json + Error :=
  inl (JObj [("peers"%string, JArr (PeerInfo_json <$> GetRPCPeers d now))]).

Definition handlePeersGet (d : RpcDaemon) (params : gmap string json) : json + Error :=
  match params !! "pubkey"%string with
  | Some (JStr pubkey) =>
      if String.eqb pubkey "" then inr {| e_Code := ErrCodeInvalidParams; e_Message := "missing or invalid 'pubkey' parameter" |}
      else match GetRPCPeer d pubkey with
      | None => inr {| e_Code := ErrCodeInvalidParams; e_Message := "peer not found: " ^^ pubkey |}
      | Some peer => inl (PeerInfo_json peer)
      end
  | _ => inr {| e_Code := ErrCodeInvalidParams; e_Message := "missing or invalid 'pubkey' parameter" |}
  end.

Definition handlePeersCount (d : RpcDaemon) (now : Time) : json + Error :=
  let '(active, total, dead) := GetRPCPeerCounts d now in
  inl (JObj [("active", jint active); ("total", jint total); ("dead", jint dead)]%string).

Definition handleDaemonStatus (d : RpcDaemon) (now : Time) : (json + Error) * RpcDaemon :=
  match GetRPCStatus d now with
  | (None, d') => (inr {| e_Code := ErrCodeInternalError; e_Message := "daemon status unavailable" |}, d')
  | (Some s, d') =>
      (inl (JObj [("mesh_ip", JStr (sd_MeshIP s)); ("pubkey", JStr (sd_PubKey s)); ("uptime", jint (sd_Uptime s));
                  ("interface", JStr (sd_Interface s)); ("version", JStr version)]%string), d')
  end.

Definition handleDaemonPing : json + Error :=
  inl (JObj [("pong", JBool true); ("version", JStr version)]%string).

Definition dispatch (d : RpcDaemon) (now : Time) (req : Request) : (json + Error) * RpcDaemon :=
  if String.eqb (rq_Method req) "peers.list" then (handlePeersList d now, d)
  else if String.eqb (rq_Method req) "peers.get" then (handlePeersGet d (rq_Params req), d)
  else if String.eqb (rq_Method req) "peers.count" then (handlePeersCount d now, d)
  else if String.eqb (rq_Method req) "daemon.status" then handleDaemonStatus d now
  else if String.eqb (rq_Method req) "daemon.ping" then (handleDaemonPing, d)
  else (inr {| e_Code := ErrCodeMethodNotFound; e_Message := "method not found: " ^^ rq_Method req |}, d).

Definition handleRequest (d : RpcDaemon) (now : Time) (req : Request) : Response * RpcDaemon :=
  if negb (String.eqb (rq_JSONRPC req) "2.0") then
    ({| rs_body := inr {| e_Code := ErrCodeInvalidRequest; e_Message := "invalid jsonrpc version, must be 2.0" |};
        rs_ID := rq_ID req |}, d)
  else let '(body, d') := dispatch d now req in ({| rs_body := body; rs_ID := rq_ID req |}, d').

(** ** A connection *)

Definition MaxScanTokenSize : Z := 65536.

(** A carriage return at the end of a line is dropped. *)
Fixpoint drop_cr (s : string) : string :=
  match s with
  | EmptyString => EmptyString
  | String c EmptyString => if (byte_of_ascii c =? 13)%Z then EmptyString else s
  | String c rest => String c (drop_cr rest)
  end.

(** The tokens of [bufio.Scanner]: the last line needs no newline, a line that
    does not fit the buffer ends the scan. *)
Fixpoint scan_tokens (lines : list string) : list string :=
  match lines with
  | [] => []
  | [s] => if String.eqb s "" || (MaxScanTokenSize <=? Z.of_nat (String.length s))%Z then [] else [drop_cr s]
  | s :: rest => if (MaxScanTokenSize <=? Z.of_nat (String.length s))%Z then [] else drop_cr s :: scan_tokens rest
  end.
Definition scan (input : string) : list string := scan_tokens (split_char newline input).

Definition parse_error (s : string) : Response :=
  {| rs_body := inr {| e_Code := ErrCodeParseError; e_Message := "failed to parse request: " ^^ s |}; rs_ID := JNull |}.

(** One line: [why] is the text of the decoder's error. *)
Definition handle_line (why : string) (d : RpcDaemon) (now : Time) (line : string) : Response * RpcDaemon :=
  match parse line ≫= dec_request renumber with
  | None => (parse_error why, d)
  | Some req => handleRequest d now req
  end.

Fixpoint handle_lines (why : string) (d : RpcDaemon) (now : Time) (lines : list string) : list Response * RpcDaemon :=
  match lines with
  | [] => ([], d)
  | line :: rest =>
      let '(r, d1) := handle_line why d now line in
      let '(rs, d2) := handle_lines why d1 now rest in
      (r :: rs, d2)
  end.

Definition writeResponse (r : Response) : string := print (response_json r) ^^ String newline EmptyString.

(** The bytes written to a connection that sent [input]. *)
Definition handleConnection (why : string) (d : RpcDaemon) (now : Time) (input : string) : string * RpcDaemon :=
  let '(rs, d') := handle_lines why d now (scan input) in
  (foldr (fun r out => writeResponse r ^^ out) EmptyString rs, d').

(** ** The client *)

Definition request_json (method : string) (params : gmap string json) (id : Z) : json :=
  JObj ([("jsonrpc"%string, JStr "2.0"); ("method"%string, JStr method)]
        ++ omit_map "params" (fun v => v) params
        ++ [("id"%string, jint id)]).

(** [reader.ReadBytes('\n')]: up to and with the newline. *)
Fixpoint read_line (s : string) : option string :=
  match s with
  | EmptyString => None
  | String c rest => if Ascii.eqb c newline then Some (String c EmptyString) else String c <$> read_line rest
  end.

Definition dec_error (v : json) : option (option Error) :=
  match v with
  | JObj ms =>
      code ← int_field "code" ms; message ← str_field "message" ms;
      Some (Some {| e_Code := code; e_Message := message |})
  | _ => None
  end.

(** The result and the error of a response. *)
Definition dec_response (v : json) : option (json * option Error) :=
  match v with
  | JNull => Some (JNull, None)
  | JObj ms =>
      _ ← str_field "jsonrpc" ms; result ← field (any_value renumber) (fun _ => JNull) JNull "result" ms;
      error ← field dec_error (fun _ => None) None "error" ms; _ ← field (any_value renumber) (fun _ => JNull) JNull "id" ms;
      Some (result, error)
  | _ => None
  end.

(** [answer] is what the connection delivers after the request was written. *)
Definition Call (answer : string -> string) (nextID : Z) (method : string) (params : gmap string json) : result json :=
  let reqData := print (request_json method params (nextID + 1)) in
  match read_line (answer (reqData ^^ String newline EmptyString)) with
  | None => Err "failed to read response"
  | Some respData =>
      match parse respData ≫= dec_response with
      | None => Err "failed to decode response"
      | Some (_, Some e) => Err ("RPC error " ^^ itoa (e_Code e) ^^ ": " ^^ e_Message e)
      | Some (result, None) => Ok result
      end
  end.
End server.

(** Looking a key up in a decoded object. *)
Definition obj_get (key : string) (v : json) : option json :=
  match v with JObj l => (list_to_map l : gmap string json) !! key | _ => None end.

(** ** Socket paths *)

(** [getenv] of WGMESH_SOCKET and XDG_RUNTIME_DIR, and whether /var/run is
    writable. *)
Definition GetSocketPath (wgmeshSocket xdgRuntimeDir : string) (varRunWritable : bool) : string :=
  if negb (String.eqb wgmeshSocket "") then wgmeshSocket
  else if varRunWritable then "/var/run/wgmesh.sock"
  else if negb (String.eqb xdgRuntimeDir "") then path_clean (xdgRuntimeDir ^^ "/" ^^ "wgmesh.sock")
  else "/tmp/wgmesh.sock".

Definition FormatSocketPath (home : result string) (path : string) : string :=
  match home with
  | Ok h => if has_prefix path h then "~" ^^ str_drop (String.length h) path else path
  | Err _ => path
  end.

(** ** Starting and stopping *)

(** [os.Remove]: done, nothing there, or refused. *)
Inductive removal := Removed | NotExist | Refused.

(** [callbacks]: all four are set; [isSocket]: what [Stat] says of the path. *)
Definition NewServer (socketPath : string) (callbacks : bool) (remove : removal) (isSocket : option bool) (mkdir : bool) : result unit :=
  if String.eqb socketPath "" then Err "socket path is required"
  else if negb callbacks then Err "all callback functions are required"
  else match remove with
  | Refused => match isSocket with
               | Some false => Err "path exists but is not a socket"
               | _ => Err "failed to remove existing socket"
               end
  | _ => if mkdir then Ok tt else Err "failed to create socket directory"
  end.

(** The listener is closed again when the permissions cannot be set. *)
Definition rpc_Start (listen chmod : bool) : result unit :=
  if negb listen then Err "failed to listen on socket"
  else if negb chmod then Err "failed to set socket permissions" else Ok tt.

Definition rpc_Stop (remove : removal) : result unit :=
  match remove with Refused => Err "failed to remove socket" | _ => Ok tt end.
