(* ===== verification/Lifecycle.v ===== *)
(** * Starting and stopping a node (pkg/daemon/daemon.go, pkg/discovery: dht.go, exchange.go, gossip.go)

    [RunWithDHTDiscovery] from its first step to the last deferred call, with the
    discovery it starts and stops: which sockets, listeners, loops and interface
    are there in between and afterwards.  Whether a system call succeeds, and what
    the main loop receives, are arguments. *)

From S2P Require Import Prelude GoStrings GoNet PeerStore IfName Derive NodeConfig Iface.
From S2P Require Import Daemon Health Cache Lan Dandelion Loops Rpc.
Local Open Scope wgmesh_scope.

(** ** The exchange's socket and the gossip *)

(** [Start] makes a new stop channel each time, so [Stop] never closes one twice. *)
Record ExchangeServer := { xs_running : bool; xs_open : bool; xs_port : Z }.

Definition exchange_Start (c : Config) (bound : bool) (x : ExchangeServer) : ExchangeServer * result unit :=
  if xs_running x then (x, Err "peer exchange already running")
  else if negb bound then (x, Err "failed to bind UDP port")
  else ({| xs_running := true; xs_open := true; xs_port := GossipPort (Keys c) |}, Ok tt).

Definition exchange_Stop (x : ExchangeServer) : ExchangeServer :=
  if negb (xs_running x) then x else {| xs_running := false; xs_open := false; xs_port := xs_port x |}.

(** The gossip's own socket is only opened without an exchange; its stop channel
    is made once. *)
Record GossipServer := { gs_shared : bool; gs_running : bool; gs_stopClosed : bool; gs_open : bool }.
Definition new_gossip (shared : bool) : GossipServer :=
  {| gs_shared := shared; gs_running := false; gs_stopClosed := false; gs_open := false |}.

Definition gossip_Start (bind_mesh bind_any : bool) (g : GossipServer) : GossipServer * result unit :=
  if gs_running g then (g, Err "gossip already running")
  else if gs_shared g then
    ({| gs_shared := true; gs_running := true; gs_stopClosed := gs_stopClosed g; gs_open := gs_open g |}, Ok tt)
  else if bind_mesh || bind_any then
    ({| gs_shared := false; gs_running := true; gs_stopClosed := gs_stopClosed g; gs_open := true |}, Ok tt)
  else (g, Err "failed to bind gossip port").

(** [None]: closing a closed channel panics. *)
Definition gossip_Stop (g : GossipServer) : option GossipServer :=
  if negb (gs_running g) then Some g
  else if gs_stopClosed g then None
  else Some {| gs_shared := gs_shared g; gs_running := false; gs_stopClosed := true; gs_open := false |}.

(** ** The discovery *)

Inductive dht_loop := BootstrapWithRetry | AnnounceLoop | QueryLoop | PersistLoop | TransitiveConnectLoop | StunRefreshLoop.

Record Discovery := {
  dc_running : bool;
  dc_cancelled : bool;
  dc_exchange : ExchangeServer;
  dc_gossip : option GossipServer;
  dc_lan : option Lan.LANDiscovery;
  dc_server : bool;
  dc_loops : list dht_loop;
}.

Definition NewDHTDiscovery : Discovery :=
  {| dc_running := false; dc_cancelled := false;
     dc_exchange := {| xs_running := false; xs_open := false; xs_port := 0 |};
     dc_gossip := None; dc_lan := None; dc_server := false; dc_loops := [] |}.

(** What the system answers: the exchange's port bound, the multicast group
    joined, the port after the exchange's or any port bound, how many bootstrap
    nodes resolved, the DHT library's server made. *)
Record dht_env := {
  de_exchange : bool;
  de_lan : bool;
  de_next_port : bool;
  de_any_port : bool;
  de_resolved : nat;
  de_server : bool;
}.

Definition initDHTServer (e : dht_env) : result (list dht_loop) :=
  if negb (de_next_port e) && negb (de_any_port e) then Err "failed to bind DHT port"
  else if Nat.eqb (de_resolved e) 0 then Err "no bootstrap nodes resolved"
  else if negb (de_server e) then Err "failed to create DHT server"
  else Ok [BootstrapWithRetry].

(** A LAN discovery that cannot start is dropped. *)
Definition start_lan (c : Config) (n : LocalNode) (e : dht_env) (old : option Lan.LANDiscovery) : option Lan.LANDiscovery :=
  if NodeConfig.LANDiscovery c then match lan_Start (de_lan e) (NewLANDiscovery c n) with Ok l => Some l | Err _ => None end
  else old.

Definition stop_opt {A} (stop : A -> option A) (o : option A) : option (option A) :=
  match o with None => Some None | Some a => Some <$> stop a end.

(** [None]: stopping a gossip that was stopped before panics. *)
Definition dht_Start (c : Config) (n : LocalNode) (e : dht_env) (d : Discovery) : option (Discovery * result unit) :=
  if dc_running d then Some (d, Err "DHT discovery already running")
  else
    let build x g l s loops := {| dc_running := true; dc_cancelled := dc_cancelled d; dc_exchange := x;
                                  dc_gossip := g; dc_lan := l; dc_server := s; dc_loops := loops |} in
    let gossip := if Gossip c then Some (new_gossip true) else dc_gossip d in
    match exchange_Start c (de_exchange e) (dc_exchange d) with
    | (x, Err m) =>
        Some (build x gossip (dc_lan d) (dc_server d) (dc_loops d), Err ("failed to start peer exchange: " ^^ m))
    | (x, Ok _) =>
        let lan := start_lan c n e (dc_lan d) in
        let started := match gossip with
                       | Some g => let '(g, r) := gossip_Start false false g in (Some g, r)
                       | None => (None, Ok tt)
                       end in
        match started with
        | (g, Err m) =>
            Some (build (exchange_Stop x) g lan (dc_server d) (dc_loops d), Err ("failed to start gossip: " ^^ m))
        | (g, Ok _) =>
            match initDHTServer e with
            | Err m =>
                g' ← stop_opt gossip_Stop g;
                Some (build (exchange_Stop x) g' lan (dc_server d) (dc_loops d),
                      Err ("failed to initialize DHT server: " ^^ m))
            | Ok boot =>
                Some (build x g lan true
                   (dc_loops d ++ boot ++ [AnnounceLoop; QueryLoop; PersistLoop]
                    ++ (if DisablePunching c then [] else [TransitiveConnectLoop]) ++ [StunRefreshLoop]), Ok tt)
            end
        end
    end.

(** The loops end when the context is cancelled; nothing waits for them. *)
Definition dht_loops_active (d : Discovery) : list dht_loop := if dc_cancelled d then [] else dc_loops d.

(** What stopping does, in order; [Goodbye]: whether the exchange's socket is
    open when the GOODBYE messages are sent. *)
Inductive stop_event :=
  | CacheSaved | RpcStopped | EpochStopped | Goodbye (socket_open : bool) | NodesPersisted | ServerClosed
  | LanStopped | GossipStopped | ExchangeStopped | InterfaceRemoved.

Definition dht_Stop (d : Discovery) : option (Discovery * list stop_event) :=
  if negb (dc_running d) then Some (d, [])
  else
    lan ← stop_opt lan_Stop (dc_lan d);
    gossip ← stop_opt gossip_Stop (dc_gossip d);
    Some ({| dc_running := false; dc_cancelled := true; dc_exchange := exchange_Stop (dc_exchange d);
             dc_gossip := gossip; dc_lan := lan; dc_server := false; dc_loops := dc_loops d |},
          [Goodbye (xs_open (dc_exchange d))]
          ++ (if dc_server d then [NodesPersisted; ServerClosed] else [])
          ++ (if dc_lan d then [LanStopped] else []) ++ (if dc_gossip d then [GossipStopped] else []) ++ [ExchangeStopped]).

(** ** The daemon *)

(** The goroutines of a daemon. *)
Inductive task :=
  | CacheSaver | ReconcileLoop | StatusLoop | StaleCleanupLoop | HealthMonitorLoop | MeshProbeLoop
  | ProbeAccept (addr : string) | ProbeCloser | EpochRotation | RpcAccept.
#[export] Instance task_eq_dec : EqDecision task.
Proof. solve_decision. Defined.

(** What is deferred for the return of [RunWithDHTDiscovery]. *)
Inductive deferred := TeardownWireGuard | StopDiscovery | StopEpoch | StopRpc.

(** The RPC server as long as it matters here: its listener and its context. *)
Record RpcServer := { rp_open : bool; rp_cancelled : bool }.

(** The addresses the probe server listens on, of those it tries. *)
Definition probe_addrs (n : LocalNode) (port : Z) : list string :=
  join_host_port (ln_MeshIP n) (itoa port)
  :: (if String.eqb (ln_MeshIPv6 n) "" then [] else [join_host_port (ln_MeshIPv6 n) (itoa port)]).
Definition startMeshProbeServer (n : LocalNode) (port : Z) (listen : string -> bool) : list string * result unit :=
  if String.eqb (ln_MeshIP n) "" then ([], Err "local mesh IP not initialized")
  else let listeners := List.filter listen (probe_addrs n port) in
       (listeners, if Nat.eqb (length listeners) 0 then Err "unable to bind probe listener" else Ok tt).

(** What the main loop gets: SIGHUP with the lines of the reload file and what
    the system answers to the reconciliation it triggers, a signal to end (or the
    end of the context), or a turn of some other goroutine. *)
Inductive main_event :=
  | Hup (file : result (list string)) (w : world)
  | Terminate
  | Turn (f : Daemon -> Daemon).

Definition set_reloaded (d : Daemon) (c : Config) (n : LocalNode) : Daemon :=
  {| config := c; localNode := n; peerStore := peerStore d; lastAppliedPeerConfigs := lastAppliedPeerConfigs d;
     relayRoutes := relayRoutes d; directStableCycles := directStableCycles d; localSubnets := localSubnets d;
     peerHealthFailures := peerHealthFailures d; lastPeerTransferTotal := lastPeerTransferTotal d;
     probeSessions := probeSessions d; probeFailures := probeFailures d; temporaryOffline := temporaryOffline d |}.

Definition handleSIGHUP (os : goos) (d : Daemon) (file : result (list string)) (w : world) : Daemon :=
  match LoadReloadFile file with
  | Err _ => d
  | Ok opts =>
      let '(c, n) := reloadConfig (config d) (Some (localNode d)) opts in
      let '(d', _, _, _) := reconcile os w (set_reloaded d c (default (localNode d) n)) in d'
  end.

(** The daemon when the loop ended, or still runs. *)
Fixpoint main_loop (os : goos) (evs : list main_event) (d : Daemon) : Daemon * bool :=
  match evs with
  | [] => (d, false)
  | Terminate :: _ => (d, true)
  | Hup file w :: evs => main_loop os evs (handleSIGHUP os d file w)
  | Turn f :: evs => main_loop os evs (f d)
  end.

Section daemon.
Context {H : Type} {exec : Executor H} (os : goos) (wgBinPath wireguardGoBinPath : string).

(** A running daemon: the host, the listeners of the probe server, the goroutines
    (with whether the [WaitGroup] counts them), the parts it started, whether its
    context is cancelled, and the deferred calls, the last one first. *)
Record Process := {
  fn_host : H;
  fn_daemon : option Daemon;
  fn_listeners : list string;
  fn_tasks : list (task * bool);
  fn_disc : option Discovery;
  fn_epoch : option EpochManager;
  fn_rpc : option RpcServer;
  fn_cancelled : bool;
  fn_deferred : list deferred;
  fn_log : list stop_event;
}.
Inductive outcome := Running (f : Process) | Waiting (f : Process) | Returned (f : Process) (r : result unit) | Panicked.

Definition new_process (h : H) (d : option Daemon) : Process :=
  {| fn_host := h; fn_daemon := d; fn_listeners := []; fn_tasks := []; fn_disc := None; fn_epoch := None;
     fn_rpc := None; fn_cancelled := false; fn_deferred := []; fn_log := [] |}.

Definition on_host (p : Process) (h : H) (ev : list stop_event) : Process :=
  {| fn_host := h; fn_daemon := fn_daemon p; fn_listeners := fn_listeners p; fn_tasks := fn_tasks p;
     fn_disc := fn_disc p; fn_epoch := fn_epoch p; fn_rpc := fn_rpc p; fn_cancelled := fn_cancelled p;
     fn_deferred := fn_deferred p; fn_log := fn_log p ++ ev |}.
Definition with_daemon (p : Process) (d : Daemon) : Process :=
  {| fn_host := fn_host p; fn_daemon := Some d; fn_listeners := fn_listeners p; fn_tasks := fn_tasks p;
     fn_disc := fn_disc p; fn_epoch := fn_epoch p; fn_rpc := fn_rpc p; fn_cancelled := fn_cancelled p;
     fn_deferred := fn_deferred p; fn_log := fn_log p |}.
(** The goroutines and the listeners. *)
Definition with_tasks (p : Process) (ts : list (task * bool)) (ls : list string) (ev : list stop_event) : Process :=
  {| fn_host := fn_host p; fn_daemon := fn_daemon p; fn_listeners := ls; fn_tasks := ts;
     fn_disc := fn_disc p; fn_epoch := fn_epoch p; fn_rpc := fn_rpc p; fn_cancelled := fn_cancelled p;
     fn_deferred := fn_deferred p; fn_log := fn_log p ++ ev |}.
(** The parts that are started and stopped. *)
Definition with_parts (p : Process) (d : option Discovery) (em : option EpochManager) (r : option RpcServer)
    (ev : list stop_event) : Process :=
  {| fn_host := fn_host p; fn_daemon := fn_daemon p; fn_listeners := fn_listeners p; fn_tasks := fn_tasks p;
     fn_disc := d; fn_epoch := em; fn_rpc := r; fn_cancelled := fn_cancelled p;
     fn_deferred := fn_deferred p; fn_log := fn_log p ++ ev |}.
Definition defer_call (p : Process) (x : deferred) : Process :=
  {| fn_host := fn_host p; fn_daemon := fn_daemon p; fn_listeners := fn_listeners p; fn_tasks := fn_tasks p;
     fn_disc := fn_disc p; fn_epoch := fn_epoch p; fn_rpc := fn_rpc p; fn_cancelled := fn_cancelled p;
     fn_deferred := x :: fn_deferred p; fn_log := fn_log p |}.
Definition cancel_context (p : Process) : Process :=
  {| fn_host := fn_host p; fn_daemon := fn_daemon p; fn_listeners := fn_listeners p; fn_tasks := fn_tasks p;
     fn_disc := fn_disc p; fn_epoch := fn_epoch p; fn_rpc := fn_rpc p; fn_cancelled := true;
     fn_deferred := fn_deferred p; fn_log := fn_log p |}.

(** [go f()], and [wg.Add(1)] with [defer wg.Done()] around it. *)
Definition spawn (waited : bool) (p : Process) (t : task) : Process :=
  with_tasks p (fn_tasks p ++ [(t, waited)]) (fn_listeners p) [].

(** The probe server accepts on each listener; one goroutine closes them all. *)
Definition serve_probes (p : Process) (listeners : list string) : Process :=
  let p := with_tasks p (fn_tasks p ++ ((fun a => (ProbeAccept a, false)) <$> listeners)) (fn_listeners p ++ listeners) [] in
  match listeners with [] => p | _ => spawn false p ProbeCloser end.

Definition start_epoch (c : Config) (now : Time) (p : Process) : Process :=
  if Privacy c then
    let em := epoch_Start (NewEpochManager (EpochSeed (Keys c)) now) in
    defer_call (spawn false (with_parts p (fn_disc p) (Some em) (fn_rpc p) []) EpochRotation) StopEpoch
  else p.

(** Whether an RPC server is set, and can listen and set its permissions. *)
Definition start_rpc (rpc : option (bool * bool)) (p : Process) : Process :=
  match rpc with
  | None => p
  | Some (listen, chmod) =>
      match rpc_Start listen chmod with
      | Err _ => p
      | Ok _ =>
          let r := {| rp_open := true; rp_cancelled := false |} in
          defer_call (spawn false (with_parts p (fn_disc p) (fn_epoch p) (Some r) []) RpcAccept) StopRpc
      end
  end.

(** Whether a goroutine that looks at its context now ends: [Accept] must fail first. *)
Definition ends (p : Process) (t : task) : bool :=
  match t with
  | ProbeAccept addr => fn_cancelled p && negb (bool_decide (addr ∈ fn_listeners p))
  | EpochRotation => fn_cancelled p || match fn_epoch p with Some em => em_cancelled em | None => false end
  | RpcAccept => match fn_rpc p with Some r => rp_cancelled r && negb (rp_open r) | None => false end
  | _ => fn_cancelled p
  end.

(** One turn of a goroutine, as far as it concerns its end. *)
Definition turn (p : Process) (t : task) : Process :=
  if bool_decide (t ∈ (fn_tasks p).*1) && ends p t then
    let rest := filter (fun g => g.1 <> t) (fn_tasks p) in
    match t with
    | CacheSaver => with_tasks p rest (fn_listeners p) [CacheSaved]
    | ProbeCloser => with_tasks p rest [] []
    | _ => with_tasks p rest (fn_listeners p) []
    end
  else p.

Record run_env := {
  re_hostname : string;
  re_loaded : option LocalNode;
  re_keypair : result (string * string);
  re_listen : string -> bool;
  re_cache : option string;
  re_now : Time;
  re_subnets : list IPNet;
  re_dht : dht_env;
  (** The endpoint the discovery finds for the node. *)
  re_endpoint : LocalNode -> LocalNode;
  (** Whether an RPC server is set, and can listen and set its permissions. *)
  re_rpc : option (bool * bool);
  (** What the work in the background does to the host while the daemon runs. *)
  re_work : H -> H;
  (** The goroutines that get a turn while the daemon waits at its end. *)
  re_turns : list task;
}.

Definition init_store (d : Daemon) (s : PeerStore) : Daemon := set_store d s.

(** The deferred calls; [None] is a panic. *)
Definition run_deferred (c : Config) (x : deferred) (p : Process) : option Process :=
  match x with
  | TeardownWireGuard => Some (on_host p (teardownWireGuard (Some os) (fn_host p) c) [InterfaceRemoved])
  | StopDiscovery =>
      match fn_disc p with
      | None => Some p
      | Some d => '(d, ev) ← dht_Stop d; Some (with_parts p (Some d) (fn_epoch p) (fn_rpc p) ev)
      end
  | StopEpoch => Some (with_parts p (fn_disc p) (epoch_Stop <$> fn_epoch p) (fn_rpc p) [EpochStopped])
  | StopRpc =>
      Some (with_parts p (fn_disc p) (fn_epoch p)
              ((fun _ => {| rp_open := false; rp_cancelled := true |}) <$> fn_rpc p) [RpcStopped])
  end.
Fixpoint unwind (c : Config) (xs : list deferred) (p : Process) : option Process :=
  match xs with
  | [] => Some p
  | x :: xs => p ← run_deferred c x p; unwind c xs p
  end.
Definition return_from (c : Config) (p : Process) (r : result unit) : outcome :=
  match unwind c (fn_deferred p) p with Some p => Returned p r | None => Panicked end.

(** [cancel], [wg.Wait] for the goroutines that are counted, and the return. *)
Definition shut_down (c : Config) (p : Process) (turns : list task) : outcome :=
  let p := foldl turn (cancel_context p) turns in
  if existsb snd (fn_tasks p) then Waiting p else return_from c p (Ok tt).

Definition RunWithDHTDiscovery (e : run_env) (h : H) (c : Config) (evs : list main_event) : outcome :=
  match initLocalNode c (re_hostname e) (re_loaded e) (re_keypair e) with
  | Err m => Returned (new_process h None) (Err ("failed to initialize local node: " ^^ m))
  | Ok (node, _) =>
      match setupWireGuard (Some os) wgBinPath wireguardGoBinPath h c node with
      | (h1, _, Err m) => Returned (new_process h1 None) (Err ("failed to setup WireGuard: " ^^ m))
      | (h1, c1, Ok _) =>
          let node1 := setLocalWGEndpoint c1 node in
          let d0 := NewDaemon c1 node1 (re_subnets e) in
          let p := defer_call (new_process h1 (Some d0)) TeardownWireGuard in
          let p := serve_probes p (startMeshProbeServer node1 (healthProbePort d0) (re_listen e)).1 in
          match RestoreFromCache (re_cache e) (peerStore d0) (re_now e) with
          | None => Panicked
          | Some (store, _) =>
              let d1 := set_local (init_store d0 store) (re_endpoint e node1) in
              let p := spawn true (with_daemon p d1) CacheSaver in
              match dht_Start c1 (localNode d1) (re_dht e) NewDHTDiscovery with
              | None => Panicked
              | Some (disc, Err m) =>
                  return_from c1 (with_parts p (Some disc) (fn_epoch p) (fn_rpc p) [])
                    (Err ("failed to start DHT discovery: " ^^ m))
              | Some (disc, Ok _) =>
                  let p := defer_call (with_parts p (Some disc) (fn_epoch p) (fn_rpc p) []) StopDiscovery in
                  let p := start_rpc (re_rpc e) (start_epoch c1 (re_now e) p) in
                  let p := foldl (spawn true) p [ReconcileLoop; StatusLoop] in
                  let p := foldl (spawn false) p [StaleCleanupLoop; HealthMonitorLoop; MeshProbeLoop] in
                  let '(d2, ended) := main_loop os evs d1 in
                  let p := on_host (with_daemon p d2) (re_work e h1) [] in
                  if ended then shut_down c1 p (re_turns e) else Running p
              end
          end
      end
  end.
End daemon.
