(* ===== verification/LifecycleProps.v ===== *)
(** * What starting and stopping a node leaves behind

    A node that was told to end has stopped what it started, or told it to end, and
    said goodbye while it still could; a discovery that fails to start leaves the LAN
    sockets open; a second start of a discovery or of the gossip does nothing. *)

From S2P Require Import Prelude GoStrings GoNet PeerStore PeerSink IfName Derive NodeConfig Iface IfaceProps.
From S2P Require Import Daemon Health Cache Lan Dandelion Loops Rpc Lifecycle.
Local Open Scope wgmesh_scope.







(** The DHT cannot be reached: what is left when the exchange could start. *)
Lemma dht_fails c n e m : de_exchange e = true -> initDHTServer e = Err m ->
  exists d, dht_Start c n e NewDHTDiscovery = Some (d, Err ("failed to initialize DHT server: " ^^ m))
  /\ xs_open (dc_exchange d) = false /\ dc_server d = false /\ dc_loops d = []
  /\ (forall g, dc_gossip d = Some g -> gs_running g = false)
  /\ dc_lan d = start_lan c n e None.
Proof.
  intros Hx Hi. unfold dht_Start, exchange_Start. cbn. rewrite Hx, Hi. cbn.
  destruct (Gossip c); cbn; (eexists; split; [done|]); cbn; split_and!; try done. by intros g [= <-].
Qed.


Lemma restored (d : Daemon) cache now : peerStore d = NewPeerStore ->
  exists s n, RestoreFromCache cache (peerStore d) now = Some (s, n).
Proof.
  intros ->. unfold RestoreFromCache. destruct (LoadPeerCache cache) as [c|]; [|by do 2 eexists].
  destruct (@update_all_spec PeerStore peer_store_sink NewPeerStore (cache_peers c now) CacheMethod now NewPeerStore_ok) as (s & -> & _). by do 2 eexists.
Qed.

(** ** Goroutines at the end *)

Section turns.
Context {H : Type}.
Implicit Types (p : Process (H := H)) (t : task).











(** The peers are saved when the cache saver is gone, once. *)
Definition saves p : Prop := fn_log p = if bool_decide (CacheSaver ∈ (fn_tasks p).*1) then [] else [CacheSaved].





(** Nothing ends while no context is cancelled. *)
Lemma idle_turns ts p : fn_cancelled p = false -> fn_epoch p = None -> fn_rpc p = None -> foldl turn p ts = p.
Proof.
  intros Hc He Hr. assert (forall t, turn p t = p) as Ht.
  { intros t. unfold turn. destruct (bool_decide _); [|done]. cbn [andb]. unfold ends. rewrite Hc, He, Hr. by destruct t. }
  induction ts as [|t ts IH]; [done|]. cbn [foldl]. by rewrite Ht.
Qed.





End turns.

Section host.
Context {H : Type} {exec : Executor H} {wg : string} {host : LinuxHost exec wg} (goBin : string).

(** The node of the configuration can be set up on the host: it is usable by the
    tools, and [q], one of the ports tried, is free. *)
Record can_start (e : run_env (H := H)) (h : H) (c : Config) (node : LocalNode) (q : Z) : Prop := {
  cs_node : exists saves, initLocalNode c (re_hostname e) (re_loaded e) (re_keypair e) = Ok (node, saves);
  cs_ready : node_ready c node;
  cs_name : InterfaceName c <> ""%string;
  cs_port : (0 < WGListenPort c <= q /\ q <= WGListenPort c + 100 /\ q <= 65535)%Z;
  cs_free : port_free h (InterfaceName c) q;
}.


Lemma torn_down h h1 c p l : InterfaceName c <> ""%string -> link h1 (InterfaceName c) = Some l ->
  (forall n, n <> InterfaceName c -> link h1 n = link h n) ->
  let h2 := teardownWireGuard (Some Linux) h1 (with_listen_port c p) in
  link h2 (InterfaceName c) = None /\ forall n, n <> InterfaceName c -> link h2 n = link h n.
Proof.
  intros Hne Hl Ho. pose proof (teardown_ok h1 (with_listen_port c p) l Hne Hl) as ST.
  split; [by apply (sets_link _ _ _ _ ST)|]. intros n Hn. destruct ST as [E _]. rewrite E.
  cbn [with_listen_port InterfaceName]. rewrite decide_False by done. by apply Ho.
Qed.

(** The host once the interface is up. *)
Lemma started e h c node q : can_start e h c node q -> exists h1 p l,
  setupWireGuard (Some Linux) wg goBin h c node = (h1, with_listen_port c p, Ok tt)
  /\ link h1 (InterfaceName c) = Some l /\ (forall n, n <> InterfaceName c -> link h1 n = link h n).
Proof.
  intros [_ HN _ (Hp & Hq & Hq2) Hf].
  destruct (setup_spec goBin h c node q HN ltac:(lia) ltac:(lia) Hq2 Hf) as (h1 & p & E & _ & _ & _ & _ & Hl & Ho).
  exists h1, p. eexists. split; [exact E|]. split; [exact Hl|exact Ho].
Qed.

(** The goroutines the shutdown waits for. *)
Definition waited_tasks : list task := [CacheSaver; ReconcileLoop; StatusLoop].


(** The process up to the DHT, with the goroutines of the probe server on [ls]. *)
Definition before_dht (h : H) (d0 d1 : Daemon) (ls : list string) : Process :=
  spawn true (with_daemon (serve_probes (defer_call (new_process h (Some d0)) TeardownWireGuard) ls) d1) CacheSaver.
Definition with_discovery (p : Process (H := H)) (disc : Discovery) : Process :=
  with_parts p (Some disc) (fn_epoch p) (fn_rpc p) [].

(** The goroutines of the probe server. *)
Definition probe_tasks (ls : list string) : list (task * bool) :=
  ((fun a => (ProbeAccept a, false)) <$> ls) ++ match ls with [] => [] | _ => [(ProbeCloser, false)] end.

Lemma before_dht_tasks h d0 d1 ls :
  fn_tasks (before_dht h d0 d1 ls) = probe_tasks ls ++ [(CacheSaver, true)] /\ fn_listeners (before_dht h d0 d1 ls) = ls
  /\ fn_log (before_dht h d0 d1 ls) = [] /\ fn_epoch (before_dht h d0 d1 ls) = None /\ fn_rpc (before_dht h d0 d1 ls) = None
  /\ fn_cancelled (before_dht h d0 d1 ls) = false
  /\ fn_deferred (before_dht h d0 d1 ls) = [TeardownWireGuard] /\ fn_host (before_dht h d0 d1 ls) = h.
Proof. unfold before_dht, serve_probes, probe_tasks. destruct ls; cbn; by rewrite <- ?app_assoc. Qed.







(** C32. Without a resolvable DHT bootstrap node the daemon does not run at all,
    even on a network where LAN discovery works: it gives up, removes its interface
    and closes the exchange, and leaves the LAN discovery running and the probe
    listeners open, every one that could be bound: its context is never cancelled,
    so no turn of the goroutines it leaves ends any of them or closes a listener. *)
Theorem offline_node_cannot_start e h c node q evs :
  can_start e h c node q -> de_exchange (re_dht e) = true -> (de_next_port (re_dht e) || de_any_port (re_dht e)) = true ->
  de_resolved (re_dht e) = 0 -> NodeConfig.LANDiscovery c = true -> de_lan (re_dht e) = true ->
  exists f d l, RunWithDHTDiscovery Linux wg goBin e h c evs
      = Returned f (Err "failed to start DHT discovery: failed to initialize DHT server: no bootstrap nodes resolved")
  /\ link (fn_host f) (InterfaceName c) = None
  /\ fn_disc f = Some d /\ xs_open (dc_exchange d) = false /\ dht_loops_active d = []
  /\ dc_lan d = Some l /\ loops_active l = true
  /\ (ln_MeshIP node <> ""%string ->
      forall turns, fn_tasks (foldl turn f turns) = fn_tasks f
      /\ forall addr, addr ∈ fn_listeners (foldl turn f turns)
           <-> addr ∈ probe_addrs node (GossipPort (Keys c) + MeshProbePortOffset) /\ re_listen e addr = true).
Proof.
  intros HC Hx Hp H0 HL HJ. destruct (started e h c node q HC) as (h1 & p & l & E1 & Hl & Ho).
  destruct HC as [(saves & En) _ Hne _ _]. unfold RunWithDHTDiscovery. rewrite En, E1. cbv zeta.
  set (d0 := NewDaemon _ _ _). destruct (restored d0 (re_cache e) (re_now e) eq_refl) as (s & n & ->).
  set (d1 := set_local _ _).
  assert (initDHTServer (re_dht e) = Err "no bootstrap nodes resolved") as Hi.
  { unfold initDHTServer. rewrite H0. by destruct (de_next_port _), (de_any_port _). }
  destruct (dht_fails (with_listen_port c p) (localNode d1) (re_dht e) _ Hx Hi) as (d & -> & Hxo & _ & Hlo & _ & Hlan).
  assert (exists la, dc_lan d = Some la /\ loops_active la = true) as (la & Ela & Hla).
  { rewrite Hlan. unfold start_lan. cbn [with_listen_port NodeConfig.LANDiscovery]. rewrite HL. unfold lan_Start. cbn.
    rewrite HJ. cbn. eexists. split; [reflexivity|]. reflexivity. }
  destruct (torn_down h h1 c p l Hne Hl Ho) as [Hgone _].
  set (ls := (startMeshProbeServer _ _ _).1). fold (before_dht h1 d0 d1 ls). fold (with_discovery (before_dht h1 d0 d1 ls) d).
  destruct (before_dht_tasks h1 d0 d1 ls) as (Et & El & _ & Ee & Er & Ec & Ed & Eh).
  unfold return_from. cbn [with_discovery with_parts fn_deferred]. rewrite Ed. cbn [unwind run_deferred mbind option_bind].
  do 2 eexists. exists la. split; [reflexivity|].
  cbn [on_host with_discovery with_parts fn_host fn_disc fn_tasks fn_listeners]. rewrite Eh.
  split; [done|]. split; [done|]. split; [done|]. split; [unfold dht_loops_active; rewrite Hlo; by destruct (dc_cancelled d)|].
  split; [done|]. split; [done|]. intros Hip turns. rewrite idle_turns; [|done..].
  cbn [on_host with_discovery with_parts fn_host fn_disc fn_tasks fn_listeners]. rewrite El.
  split; [done|]. intros addr. unfold ls, startMeshProbeServer.
  change (ln_MeshIP (setLocalWGEndpoint _ _)) with (ln_MeshIP node). rewrite (proj2 (String.eqb_neq _ _) Hip).
  cbn [fst]. rewrite list_elem_of_In, List.filter_In, <- list_elem_of_In. done.
Qed.
End host.

(** ** Starting again *)

(** A gossip of its own that was stopped starts again without its loop, and a
    second stop panics; a discovery that was stopped starts with loops that return
    at once, its context being cancelled for good. *)
Lemma gossip_restart_broken g1 g2 g3 :
  gossip_Start true true (new_gossip false) = (g1, Ok tt) -> gossip_Stop g1 = Some g2 ->
  gossip_Start true true g2 = (g3, Ok tt) -> gs_stopClosed g3 = true /\ gossip_Stop g3 = None.
Proof. intros [= <-] [= <-] [= <-]. done. Qed.

Lemma discovery_restart_dead c n e d d1 d2 evs r : dht_Start c n e d = Some (d1, Ok tt) ->
  dht_Stop d1 = Some (d2, evs) -> dc_running d1 = true -> dht_Start c n e d2 = r ->
  forall d3 r3, r = Some (d3, r3) -> dc_cancelled d3 = true.
Proof.
  intros _ Hs Hr Hst d3 r3 E. unfold dht_Stop in Hs. rewrite Hr in Hs. cbn [negb] in Hs.
  destruct (stop_opt lan_Stop (dc_lan d1)) as [l|]; [|done].
  destruct (stop_opt gossip_Stop (dc_gossip d1)) as [g|]; [|done]. injection Hs as <- _.
  subst r. unfold dht_Start in E. cbn [dc_running] in E. cbv zeta in E. cbn [dc_cancelled dc_exchange dc_lan dc_server dc_loops dc_gossip] in E.
  destruct (exchange_Start _ _ _) as [x [|]]; [|by injection E as <- _].
  destruct (match (if Gossip c then _ else _) with Some _ => _ | None => _ end) as [g' [|]]; [|by injection E as <- _].
  destruct (initDHTServer e); [by injection E as <- _|].
  destruct (stop_opt gossip_Stop g'); [|done]. by injection E as <- _.
Qed.

(** ** Runs on the simulated host *)

Definition no_dns : dht_env :=
  {| de_exchange := true; de_lan := true; de_next_port := true; de_any_port := true; de_resolved := 0; de_server := true |}.
Definition env_with (dht : dht_env) : run_env (H := SimHost) :=
  {| re_hostname := "host"; re_loaded := Some set_node; re_keypair := Err ""; re_listen := fun _ => true; re_cache := None;
     re_now := 0%Z; re_subnets := []; re_dht := dht; re_endpoint := fun n => n; re_rpc := Some (true, true);
     re_work := fun h => h; re_turns := waited_tasks |}.
Definition run_node : LocalNode :=
  match initLocalNode set_cfg "host" (Some set_node) (Err "") with Ok (n, _) => n | Err _ => set_node end.

Lemma env_can_start dht : can_start (host := sim_linux) (env_with dht) busy_host set_cfg run_node 51822.
Proof.
  destruct set_cfg_name as [En Ep].
  assert (is_ok (initLocalNode set_cfg "host" (Some set_node) (Err "")) = true) as Hok by (vm_compute; reflexivity).
  split.
  - unfold run_node, env_with. cbn [re_hostname re_loaded re_keypair].
    destruct (initLocalNode set_cfg "host" (Some set_node) (Err "")) as [[n sv]|]; [by exists sv|done].
  - split; [by vm_compute|by vm_compute|by vm_compute|intros _; by vm_compute].
  - by vm_compute.
  - rewrite Ep. lia.
  - rewrite En. exact busy_free.
Qed.

(** Two turns of other goroutines, then the end. *)
Definition day_of_work : list main_event := [Turn (fun d => d); Turn (fun d => d); Terminate].


Lemma offline_node_cannot_start_witness :
  exists f d l m, RunWithDHTDiscovery Linux "wg" "wireguard-go" (env_with no_dns) busy_host set_cfg day_of_work = Returned f (Err m)
  /\ fn_disc f = Some d /\ dc_lan d = Some l /\ loops_active l = true /\ fn_listeners f <> [].
Proof.
  destruct (offline_node_cannot_start (wg := "wg") "wireguard-go" (env_with no_dns) busy_host set_cfg run_node 51822 day_of_work)
    as (f & d & l & E & _ & Hd & _ & _ & Hl & Ha & Hopen).
  - exact (env_can_start no_dns).
  - reflexivity.
  - reflexivity.
  - reflexivity.
  - vm_compute; reflexivity.
  - reflexivity.
  - do 4 eexists. split; [exact E|]. split; [exact Hd|]. split; [exact Hl|]. split; [exact Ha|].
    destruct (Hopen ltac:(by_compute) []) as [_ Hin]. cbn [foldl] in Hin. intros Hnil.
    apply (not_elem_of_nil (join_host_port (ln_MeshIP run_node) (itoa (GossipPort (Keys set_cfg) + MeshProbePortOffset)))).
    rewrite <- Hnil. apply Hin. split; [left|reflexivity].
Defined.
