(* ===== verification/RpcProps.v ===== *)
(** * What a client of the control socket sees

    Every line is answered by one line with its identifier, and a call over the
    socket returns what the daemon's peer store holds. *)

From S2P Require Import Prelude GoStrings GoTime GoJson GoMaps GoTimeJson Routes PeerStore Rpc.
Local Open Scope wgmesh_scope.

(** ** Lines *)

Definition not_newline (c : ascii) : bool := negb (Ascii.eqb c newline).

Lemma forall_itoa p z : (forall c, is_digit c = true -> p c = true) -> p "-"%char = true -> string_forall p (itoa z) = true.
Proof.
  intros Hd Hm. assert (forall d, string_forall is_digit d = true -> string_forall p d = true) as Hs.
  { induction d as [|c d IH]; [done|]. cbn [string_forall]. intros H. bool_steps. by rewrite Hd, IH. }
  destruct (itoa_canon z) as [[H _]|(d & -> & [H _])]; [by apply Hs|]. cbn [string_forall]. by rewrite Hm, Hs.
Qed.

Lemma quote_one_line s : ascii_str s = true -> string_forall not_newline (quote s) = true.
Proof.
  intros Hs. unfold quote. cbn [string_forall]. rewrite string_forall_app. change (not_newline quote_char) with true. cbn [andb].
  rewrite andb_true_r. unfold ascii_str in Hs. induction s as [|c s IH]; [done|]. cbn [string_forall] in Hs. bool_steps.
  cbn [escape_go]. match goal with E : byte_in 0 127 c = true |- _ => rewrite E; revert E end. rewrite string_forall_app, IH by done.
  rewrite andb_true_r. destruct c as [[] [] [] [] [] [] [] []]; vm_compute; congruence.
Qed.

Lemma join_one_line p sep ws : string_forall p sep = true -> Forall (fun w => string_forall p w = true) ws ->
  string_forall p (join sep ws) = true.
Proof.
  intros Hs H. induction H as [|w ws Hw Hws IH]; [done|]. destruct ws as [|w' ws]; [done|]. cbn [join] in *.
  by rewrite !string_forall_app, Hw, Hs, IH.
Qed.

(** JSON is printed on one line. *)
Lemma print_one_line v : json_ok v = true -> string_forall not_newline (print v) = true.
Proof.
  induction v as [|b|lit|s|l IH|l IH] using json_ind'; intros Hok.
  - done.
  - by destruct b.
  - destruct (int_lit_itoa lit Hok) as [z ->]. apply forall_itoa; [|done].
    intros c. destruct c as [[] [] [] [] [] [] [] []]; vm_compute; congruence.
  - by apply quote_one_line.
  - cbn [print json_ok] in *. cbn [string_forall]. rewrite string_forall_app. change (not_newline "[") with true. cbn [andb].
    rewrite andb_true_r. apply join_one_line; [done|]. apply Forall_map. apply Forall_forall. intros x Hx.
    apply (proj1 (Forall_forall _ _) IH x Hx). by apply (proj1 (forallb_forall _ _) Hok), list_elem_of_In.
  - cbn [print json_ok] in *. cbn [string_forall]. rewrite string_forall_app. change (not_newline "{") with true. cbn [andb].
    rewrite andb_true_r. apply join_one_line; [done|]. apply Forall_map. apply Forall_forall. intros x Hx.
    pose proof (proj1 (forallb_forall _ _) Hok x (proj1 (list_elem_of_In _ _) Hx)) as Hkv. cbv beta in Hkv. bool_steps. rewrite string_forall_app.
    rewrite quote_one_line by done. cbn [string_forall andb]. change (not_newline ":") with true.
    by apply (proj1 (Forall_forall _ _) IH x Hx).
Qed.

Lemma one_line_no_newline s : string_forall not_newline s = true -> contains_char newline s = false.
Proof. by apply forall_not_contains. Qed.

Lemma read_line_app s rest : contains_char newline s = false ->
  read_line (s ^^ String newline rest) = Some (s ^^ String newline EmptyString).
Proof.
  induction s as [|c s IH]; intros Hs; [done|]. rewrite !app_cons_str. cbn [read_line contains_char] in *. bool_steps.
  match goal with E : Ascii.eqb c newline = false |- _ => rewrite E end. rewrite IH by done. done.
Qed.

(** The newline after a value is white space. *)
Lemma parse_print_line v : json_ok v = true -> parse (print v ^^ String newline EmptyString) = Some v.
Proof.
  intros Hok. unfold parse. rewrite <- (print_at_compact v 0).
  rewrite (print_at_reads (fun _ => EmptyString) EmptyString (fun _ => eq_refl) eq_refl v 0 Hok); [done| |done].
  pose proof (print_at_need (fun _ => EmptyString) EmptyString v 0 Hok). rewrite length_app_str. lia.
Qed.

Lemma drop_cr_app s c : (byte_of_ascii c =? 13)%Z = false -> drop_cr (s ^^ String c EmptyString) = s ^^ String c EmptyString.
Proof.
  intros Hc. induction s as [|d s IH]; [rewrite app_nil_l_str; cbn [drop_cr]; by rewrite Hc|]. rewrite app_cons_str. cbn [drop_cr]. rewrite IH.
  destruct (s ^^ String c EmptyString) eqn:E; [|done]. by destruct s.
Qed.

(** An object on a line of its own is one token. *)
Lemma scan_object l : json_ok (JObj l) = true -> (Z.of_nat (String.length (print (JObj l))) < MaxScanTokenSize)%Z ->
  scan (print (JObj l) ^^ String newline EmptyString) = [print (JObj l)].
Proof.
  intros Hok Hlen. unfold scan. rewrite split_char_app by by apply one_line_no_newline, print_one_line.
  change (split_char newline EmptyString) with [EmptyString]. cbn [scan_tokens].
  rewrite (proj2 (Z.leb_gt _ _) Hlen). change (String.eqb "" "" || _) with true. cbn [orb]. f_equal.
  cbn [print]. rewrite <- (app_cons_str "{"%char). by apply drop_cr_app.
Qed.

(** ** Values over the wire *)

(** Trees whose numbers are small integers: the decoder keeps them. *)
Fixpoint small_json (v : json) : bool :=
  match v with
  | JNum lit => small_int lit
  | JArr l => forallb small_json l
  | JObj l => forallb (fun kv => small_json kv.2) l
  | _ => true
  end.

(** What the decoder makes of them. *)
Fixpoint as_map (v : json) : json :=
  match v with
  | JArr l => JArr (List.map as_map l)
  | JObj l => JObj (sorted_members (foldl (fun (m : gmap string json) kv => <[kv.1 := kv.2]> m) ∅
                                      (List.map (fun kv => (kv.1, as_map kv.2)) l)))
  | _ => v
  end.

Lemma mapM_total {A B} (f : A -> option B) (g : A -> B) l : Forall (fun a => f a = Some (g a)) l -> mapM f l = Some (List.map g l).
Proof. induction 1 as [|a l Ha _ IH]; [done|]. cbn [mapM List.map]. rewrite Ha, IH. done. Qed.

Lemma any_value_small renumber v : small_json v = true -> any_value renumber v = Some (as_map v).
Proof.
  induction v as [|b|lit|s|l IH|l IH] using json_ind'; intros Hs; [done|done| |done|..]; cbn [any_value small_json as_map] in *.
  - by rewrite Hs.
  - rewrite (mapM_total _ as_map); [done|]. apply Forall_forall. intros x Hx. apply (proj1 (Forall_forall _ _) IH x Hx).
    by apply (proj1 (forallb_forall _ _) Hs), list_elem_of_In.
  - rewrite (mapM_total _ (fun kv => (kv.1, as_map kv.2))); [done|]. apply Forall_forall. intros x Hx.
    rewrite (proj1 (Forall_forall _ _) IH x Hx); [done|]. by apply (proj1 (forallb_forall _ _) Hs x), list_elem_of_In.
Qed.

Lemma obj_get_sorted key (m : gmap string json) : obj_get key (JObj (sorted_members m)) = m !! key.
Proof.
  cbn [obj_get]. assert (NoDup (sorted_members m).*1) as Hnd by (rewrite sorted_members_perm; apply NoDup_fst_map_to_list).
  destruct (m !! key) as [v|] eqn:E.
  - apply elem_of_list_to_map; [done|]. by apply sorted_members_elem.
  - apply not_elem_of_list_to_map. intros Hin. apply list_elem_of_fmap in Hin as ([k v] & -> & Hin).
    apply sorted_members_elem in Hin. cbn [fst] in E. congruence.
Qed.

Lemma obj_get_as_map key l :
  obj_get key (as_map (JObj l))
  = foldl (fun (m : gmap string json) kv => <[kv.1 := kv.2]> m) ∅ (List.map (fun kv => (kv.1, as_map kv.2)) l) !! key.
Proof. apply (obj_get_sorted key). Qed.

Lemma small_jint z : (Z.abs z <= 2 ^ 53)%Z -> small_json (jint z) = true /\ json_ok (jint z) = true.
Proof.
  intros Hz. assert (int64_min <= z <= int64_max)%Z as Hr by (unfold int64_min, int64_max; lia). split; [|by apply jint_ok].
  cbn [small_json jint]. unfold small_int. rewrite atoi_itoa by done. rewrite String.eqb_refl. by apply Z.leb_le.
Qed.

(** ** A call *)

Section calls.
Context (renumber : string -> option string) (zone : Z) (version why : string).

(** Parameters that the decoder keeps. *)
Definition plain_params (params : gmap string json) : Prop :=
  forall k v, params !! k = Some v -> ascii_str k = true /\ exists s, v = JStr s /\ ascii_str s = true.

Lemma request_ok method params id : ascii_str method = true -> plain_params params -> (Z.abs id <= 2 ^ 53)%Z ->
  json_ok (request_json method params id) = true
  /\ dec_request renumber (request_json method params id)
     = Some {| rq_JSONRPC := "2.0"; rq_Method := method; rq_Params := params; rq_ID := jint id |}.
Proof.
  intros Hm Hp Hid. destruct (small_jint id Hid) as [Hsi Hji]. split.
  - unfold request_json. cbn [json_ok]. rewrite !forallb_app. cbn [forallb fst snd json_ok]. rewrite Hm, Hji.
    assert (json_ok (map_json (fun v => v) params) = true) as Hmj.
    { apply map_json_ok. intros k a Ha. destruct (Hp k a Ha) as (Hk & s & -> & Hs). done. }
    unfold omit_map. destruct (bool_decide (params = ∅)); [done|]. cbn [forallb fst snd]. by rewrite Hmj.
  - assert (forall A (dec : json -> option A) on_null name acc, key_match name "params" = false ->
      foldl (field_step dec on_null name) acc (omit_map "params" (fun v => v) params) = acc) as Hskip.
    { intros A dec on_null name acc Hk. unfold omit_map. destruct (bool_decide _); [done|]. by apply fold_other. }
    unfold dec_request, request_json.
    change ([("jsonrpc"%string, JStr "2.0"); ("method"%string, JStr method)])
      with ([("jsonrpc"%string, JStr "2.0")] ++ [("method"%string, JStr method)]).
    eapply bind_intro; [unfold str_field, field; rewrite !foldl_app, (fold_other _ _ _ _ "id"), Hskip, (fold_other _ _ _ _ "method"), fold_same by done; reflexivity|].
    eapply bind_intro; [unfold str_field, field; rewrite !foldl_app, (fold_other _ _ _ _ "id"), Hskip, (fold_other _ _ _ _ "jsonrpc"), fold_same by done; reflexivity|].
    eapply (bind_intro _ _ params).
    + rewrite !foldl_app. unfold omit_map. case_bool_decide as E; [by rewrite E|]. cbn [foldl params_step mbind option_bind fst snd].
      change (key_match "params" "jsonrpc") with false. change (key_match "params" "method") with false.
      change (key_match "params" "params") with true. cbn [mbind option_bind map_json].
      rewrite (mapM_total _ (fun kv => kv)).
      * rewrite map_id. cbn [mbind option_bind]. rewrite <- (fold_sorted_members params) at 2. f_equal.
        assert (((fun ka : string * json => (ka.1, ka.2)) <$> sorted_members params) = sorted_members params) as ->; [|done].
        rewrite <- list_fmap_id. apply list_fmap_ext. by intros ? [].
      * apply Forall_fmap, Forall_forall. intros [k v] Hin%sorted_members_elem. destruct (Hp k v Hin) as (_ & s & -> & _). done.
    + eapply bind_intro; [unfold field; rewrite !foldl_app, Hskip, (fold_other _ _ _ _ "method"), (fold_other _ _ _ _ "jsonrpc"), fold_same by done; by apply any_value_small|].
      done.
Qed.

Definition body_ok (body : json + Error) : Prop :=
  match body with
  | inl r => json_ok r = true /\ small_json r = true /\ r <> JNull
  | inr e => ascii_str (e_Message e) = true /\ (Z.abs (e_Code e) <= 2 ^ 53)%Z
  end.

Lemma response_ok body id : body_ok body -> (Z.abs id <= 2 ^ 53)%Z ->
  json_ok (response_json {| rs_body := body; rs_ID := jint id |}) = true
  /\ dec_response renumber (response_json {| rs_body := body; rs_ID := jint id |})
     = Some (match body with inl r => (as_map r, None) | inr e => (JNull, Some e) end).
Proof.
  intros Hb Hid. destruct (small_jint id Hid) as [Hsi Hji]. destruct body as [r|e]; destruct Hb as [H1 H2].
  - destruct H2 as [H2 H3]. split.
    { unfold response_json. cbn [rs_body rs_ID app json_ok forallb fst snd]. by rewrite H1, Hji. }
    unfold dec_response, response_json. cbn [rs_body rs_ID].
    eapply bind_intro; [unfold str_field, field; rewrite !foldl_app, (fold_other _ _ _ _ "id"), (fold_other _ _ _ _ "result"), fold_same by done; reflexivity|].
    eapply bind_intro; [unfold field; rewrite !foldl_app, (fold_other _ _ _ _ "id"), (fold_other _ _ _ _ "jsonrpc"), fold_same by done; by apply any_value_small|].
    eapply bind_intro; [unfold field; rewrite !foldl_app, (fold_other _ _ _ _ "id"), (fold_other _ _ _ _ "result"), (fold_other _ _ _ _ "jsonrpc") by done; reflexivity|].
    eapply bind_intro; [unfold field; rewrite !foldl_app, (fold_other _ _ _ _ "result"), (fold_other _ _ _ _ "jsonrpc"), fold_same by done; by apply any_value_small|].
    done.
  - destruct (small_jint (e_Code e) H2) as [Hse Hje]. split.
    { unfold response_json, error_json. cbn [rs_body rs_ID app json_ok forallb fst snd]. by rewrite H1, Hje, Hji. }
    unfold dec_response, response_json. cbn [rs_body rs_ID].
    eapply bind_intro; [unfold str_field, field; rewrite !foldl_app, (fold_other _ _ _ _ "id"), (fold_other _ _ _ _ "error"), fold_same by done; reflexivity|].
    eapply bind_intro; [unfold field; rewrite !foldl_app, (fold_other _ _ _ _ "id"), (fold_other _ _ _ _ "error"), (fold_other _ _ _ _ "jsonrpc") by done; reflexivity|].
    eapply bind_intro; [unfold field; rewrite !foldl_app, (fold_other _ _ _ _ "id"), (fold_other _ _ _ _ "jsonrpc"), fold_same by done|].
    { unfold dec_error, error_json.
      change [("code"%string, jint (e_Code e)); ("message"%string, JStr (e_Message e))]
        with ([("code"%string, jint (e_Code e))] ++ [("message"%string, JStr (e_Message e))]).
      eapply bind_intro; [unfold int_field, field; rewrite !foldl_app, (fold_other _ _ _ _ "message"), fold_same by done; apply dec_jint; unfold int64_min, int64_max; lia|].
      eapply bind_intro; [unfold str_field, field; rewrite !foldl_app, (fold_other _ _ _ _ "code"), fold_same by done; reflexivity|].
      reflexivity. }
    eapply bind_intro; [unfold field; rewrite !foldl_app, (fold_other _ _ _ _ "error"), (fold_other _ _ _ _ "jsonrpc"), fold_same by done; by apply any_value_small|].
    by destruct e.
Qed.

(** The answers of the server to a client on the same socket. *)
Definition socket (d : RpcDaemon) (now : Time) (input : string) : string :=
  (handleConnection renumber zone version why d now input).1.

(** A call returns what the dispatcher computed. *)
Lemma call_served d now nextID method params :
  ascii_str method = true -> plain_params params -> (0 <= nextID < 2 ^ 53)%Z ->
  (Z.of_nat (String.length (print (request_json method params (nextID + 1)))) < MaxScanTokenSize)%Z ->
  let body := (dispatch zone version d now
    {| rq_JSONRPC := "2.0"; rq_Method := method; rq_Params := params; rq_ID := jint (nextID + 1) |}).1 in
  body_ok body ->
  Call renumber (socket d now) nextID method params
  = match body with
    | inl r => Ok (as_map r)
    | inr e => Err ("RPC error " ^^ itoa (e_Code e) ^^ ": " ^^ e_Message e)
    end.
Proof.
  intros Hm Hp Hid Hlen body Hb. assert (Z.abs (nextID + 1) <= 2 ^ 53)%Z as Hid' by lia.
  destruct (request_ok method params (nextID + 1) Hm Hp Hid') as [Hok Hdec].
  pose proof (scan_object _ Hok Hlen) as Hscan. fold (request_json method params (nextID + 1)) in Hscan.
  unfold Call, socket, handleConnection. rewrite Hscan. cbn [handle_lines].
  unfold handle_line. rewrite parse_print by done. cbn [mbind option_bind]. rewrite Hdec.
  unfold handleRequest. cbn [rq_JSONRPC rq_ID]. change (negb (String.eqb "2.0" "2.0")) with false. cbv iota.
  destruct (dispatch zone version d now _) as [b d'] eqn:Ed. cbn [fst] in body. subst body. cbn [fst foldr].
  destruct (response_ok b (nextID + 1) Hb Hid') as [Hrok Hrdec]. unfold writeResponse. rewrite app_nil_r_str.
  rewrite read_line_app by by apply one_line_no_newline, print_one_line. rewrite parse_print_line by done. cbn [mbind option_bind].
  rewrite Hrdec. by destruct b.
Qed.
End calls.

(** ** Peers over the socket *)

(** A peer whose texts are ASCII and whose last sign of life is in a year that
    RFC 3339 can write. *)
Definition peer_text (zone : Z) (p : PeerInfo) : Prop :=
  ascii_str (WGPubKey p) && ascii_str (Hostname p) && ascii_str (MeshIP p) && ascii_str (Endpoint p)
  && forallb ascii_str (DiscoveredVia p) && forallb ascii_str (RoutableNetworks p) = true
  /\ (0 <= d_year (civil_of_days ((time_to_unix (LastSeen p) + zone) / 86400)) <= 9999)%Z
  /\ (forall l, Latency p = Some l -> int64_min <= l <= int64_max)%Z.

Lemma latency_small l : (int64_min <= l <= int64_max)%Z -> (Z.abs (Z.quot l millisecond) <= 2 ^ 53)%Z.
Proof.
  unfold int64_min, int64_max, millisecond. intros Hl. rewrite <- Z.quot_abs by lia. rewrite Z.quot_div_nonneg by lia.
  apply Z.div_le_upper_bound; lia.
Qed.

Lemma strings_json_ok l : forallb ascii_str l = true -> json_ok (JArr (JStr <$> l)) = true /\ small_json (JArr (JStr <$> l)) = true.
Proof.
  intros Hl. cbn [json_ok small_json]. split; apply forallb_forall; intros x Hx;
    apply list_elem_of_In, list_elem_of_fmap in Hx as (s & -> & Hs); [|done].
  by apply (proj1 (forallb_forall _ _) Hl), list_elem_of_In.
Qed.

Lemma peer_json_ok zone p : peer_text zone p ->
  json_ok (PeerInfo_json zone (rpc_peer p)) = true /\ small_json (PeerInfo_json zone (rpc_peer p)) = true.
Proof.
  intros (Ht & _ & Hl). bool_steps. pose proof (format_rfc3339_ascii zone (LastSeen p)) as Hf.
  destruct (strings_json_ok (DiscoveredVia p) ltac:(done)) as [Hd1 Hd2].
  unfold PeerInfo_json. cbn [rpc_peer pd_WGPubKey pd_Hostname pd_MeshIP pd_Endpoint pd_LastSeen pd_DiscoveredVia pd_RoutableNetworks pd_LatencyMs].
  assert (forall f : string * json -> bool, (forall ms, Latency p = Some ms -> f ("latency_ms"%string, jint (Z.quot ms millisecond)) = true) ->
    forallb f (match (fun l => Z.quot l millisecond) <$> Latency p with Some ms => [("latency_ms"%string, jint ms)] | None => [] end) = true) as Hlat.
  { intros f Hf'. destruct (Latency p) as [ms|]; [|done]. cbn [fmap option_fmap option_map forallb]. by rewrite Hf'. }
  split.
  - cbn [json_ok]. rewrite !forallb_app, omit_str_ok, omit_list_ok by
      (done || (apply Forall_forall; intros x Hx; cbn [json_ok]; apply (proj1 (forallb_forall _ (RoutableNetworks p)) ltac:(done)), list_elem_of_In; exact Hx)).
    cbn [forallb fst snd]. rewrite Hd1, Hlat.
    2:{ intros ms Hms. cbn [fst snd]. apply andb_true_iff. split; [done|]. apply small_jint, latency_small, Hl, Hms. }
    cbn [json_ok]. rewrite Hf. repeat match goal with E : ascii_str _ = true |- _ => rewrite E; clear E end. done.
  - cbn [small_json]. rewrite !forallb_app. cbn [forallb fst snd]. rewrite Hd2, Hlat.
    2:{ intros ms Hms. cbn [fst snd]. apply small_jint, latency_small, Hl, Hms. }
    unfold omit_str, omit_list. destruct (strings_json_ok (RoutableNetworks p) ltac:(done)) as [_ Hr].
    destruct (String.eqb (Hostname p) ""), (RoutableNetworks p); cbn [forallb fst snd]; rewrite ?Hr; done.
Qed.

(** The first call of a client, as the command line makes it. *)
Definition call_first (renumber : string -> option string) (zone : Z) (version why : string) (d : RpcDaemon) (now : Time)
    (method : string) (params : gmap string json) : result json :=
  Call renumber (socket renumber zone version why d now) 1 method params.

Definition pubkey_param (k : string) : gmap string json := {["pubkey"%string := JStr k]}.

Lemma pubkey_plain k : ascii_str k = true -> plain_params (pubkey_param k).
Proof. intros Hk k' v. unfold pubkey_param. intros [<- <-]%lookup_singleton_Some. split; [done|]. by exists k. Qed.

(** What the command line reads of a peer: the texts, and the time it parses. *)
Definition shows (r : json) (p : PeerInfo) : Prop :=
  obj_get "pubkey" r = Some (JStr (WGPubKey p))
  /\ obj_get "hostname" r = (if String.eqb (Hostname p) "" then None else Some (JStr (Hostname p)))
  /\ obj_get "mesh_ip" r = Some (JStr (MeshIP p))
  /\ obj_get "endpoint" r = Some (JStr (Endpoint p))
  /\ obj_get "discovered_via" r = Some (JArr (JStr <$> DiscoveredVia p))
  /\ obj_get "routable_networks" r = (match RoutableNetworks p with [] => None | l => Some (JArr (JStr <$> l)) end)
  /\ (exists text, obj_get "last_seen" r = Some (JStr text) /\ parse_rfc3339 text = Some (time_unix (time_to_unix (LastSeen p))))
  /\ obj_get "latency_ms" r = (fun l => jint (Z.quot l millisecond)) <$> Latency p.

Lemma peer_shows zone p : zone_ok zone -> peer_text zone p -> shows (as_map (PeerInfo_json zone (rpc_peer p))) p.
Proof.
  intros Hz (_ & Hy & _). pose proof (parse_format_rfc3339 zone (LastSeen p) Hz Hy) as Hf.
  assert (forall l, List.map as_map (JStr <$> l) = JStr <$> l) as Hstrs.
  { induction l as [|s l IH]; [done|]. rewrite fmap_cons. cbn [List.map as_map]. by rewrite IH. }
  unfold shows, PeerInfo_json. rewrite !obj_get_as_map.
  cbn [rpc_peer pd_WGPubKey pd_Hostname pd_MeshIP pd_Endpoint pd_LastSeen pd_DiscoveredVia pd_RoutableNetworks pd_LatencyMs].
  generalize dependent (format_rfc3339 zone (LastSeen p)). intros text Hf. rewrite !List.map_app.
  unfold omit_str, omit_list. cbn [List.map fst snd as_map]. rewrite Hstrs.
  assert (forall l : list string, List.map as_map (JStr <$> l) = JStr <$> l) as Hs2 by exact Hstrs.
  destruct (Latency p) as [ms|]; cbn [fmap option_fmap option_map List.map fst snd as_map jint];
    destruct (RoutableNetworks p) as [|nw nws]; cbn [List.map fst snd as_map]; rewrite ?Hs2;
    destruct (String.eqb (Hostname p) ""); cbn [List.map app foldl fst snd as_map];
    (do 6 (split; [reflexivity|])); (split; [exists text; split; [reflexivity|exact Hf]|reflexivity]).
Qed.

(** A client that asks for a peer over the socket gets what the store holds:
    for every peer in the store the fields it prints are those of the peer, its
    last sign of life reads back to the second, and asking for a key that is
    not there is answered with the invalid-params error. *)
Theorem rpc_get_shows_store renumber zone version why d now k :
  zone_ok zone -> ascii_str k = true -> k <> ""%string ->
  (Z.of_nat (String.length (print (request_json "peers.get" (pubkey_param k) 2))) < MaxScanTokenSize)%Z ->
  match Get (rd_store d) k with
  | Some p => peer_text zone p ->
      exists r, call_first renumber zone version why d now "peers.get" (pubkey_param k) = Ok r /\ shows r p
  | None => call_first renumber zone version why d now "peers.get" (pubkey_param k)
            = Err ("RPC error -32602: peer not found: " ^^ k)
  end.
Proof.
  intros Hz Hk Hne Hlen. pose proof (call_served renumber zone version why d now 1 "peers.get" (pubkey_param k) eq_refl
    (pubkey_plain k Hk) ltac:(lia) Hlen) as Hc. cbv zeta in Hc.
  change (dispatch zone version d now {| rq_JSONRPC := "2.0"; rq_Method := "peers.get"; rq_Params := pubkey_param k; rq_ID := jint (1 + 1) |})
    with (handlePeersGet zone d (pubkey_param k), d) in Hc. cbn [fst] in Hc. unfold handlePeersGet, pubkey_param in Hc.
  rewrite lookup_singleton_eq, (proj2 (String.eqb_neq _ _) Hne) in Hc. unfold GetRPCPeer in Hc.
  destruct (Get (rd_store d) k) as [p|]; cbn [fmap option_fmap option_map] in Hc.
  - intros Ht. destruct (peer_json_ok zone p Ht) as [H1 H2]. assert (PeerInfo_json zone (rpc_peer p) <> JNull) as H3 by discriminate.
    eexists. split; [exact (Hc (conj H1 (conj H2 H3)))|]. by apply peer_shows.
  - assert (ascii_str ("peer not found: " ^^ k) = true) as Hmsg by (unfold ascii_str in *; by rewrite string_forall_app).
    assert (Z.abs ErrCodeInvalidParams <= 2 ^ 53)%Z as Hcode by by apply Z.leb_le.
    exact (Hc (conj Hmsg Hcode)).
Qed.

Lemma peers_body_ok zone ps : Forall (peer_text zone) ps ->
  body_ok (inl (JObj [("peers"%string, JArr (PeerInfo_json zone <$> (rpc_peer <$> ps)))])).
Proof.
  intros Hall. assert (forallb json_ok (PeerInfo_json zone <$> (rpc_peer <$> ps)) = true
    /\ forallb small_json (PeerInfo_json zone <$> (rpc_peer <$> ps)) = true) as [H1 H2].
  { induction Hall as [|p ps Hp _ [IH1 IH2]]; [done|]. rewrite !fmap_cons. cbn [forallb].
    destruct (peer_json_ok zone p Hp) as [-> ->]. by rewrite IH1, IH2. }
  split; [cbn [json_ok forallb fst snd]; by rewrite H1|]. split; [cbn [small_json forallb fst snd]; by rewrite H2|discriminate].
Qed.

Lemma counts_body_ok a t e : (Z.abs a <= 2 ^ 53)%Z -> (Z.abs t <= 2 ^ 53)%Z -> (Z.abs e <= 2 ^ 53)%Z ->
  body_ok (inl (JObj [("active", jint a); ("total", jint t); ("dead", jint e)]%string)).
Proof.
  intros Ha Ht He. destruct (small_jint a Ha) as [A1 A2], (small_jint t Ht) as [T1 T2], (small_jint e He) as [E1 E2].
  split; [cbn [json_ok forallb fst snd]; by rewrite A2, T2, E2|]. split; [cbn [small_json forallb fst snd]; by rewrite A1, T1, E1|discriminate].
Qed.

(** The three questions of the command line agree with each other and with
    the store: the list has exactly the active peers, the count of active peers
    is its length, and active and dead peers together are the store. *)
Theorem rpc_list_agrees_count renumber zone version why d now :
  zone_ok zone -> (size (peers (rd_store d)) <= DefaultMaxPeers)%nat ->
  (forall k p, Get (rd_store d) k = Some p -> peer_text zone p) ->
  exists peers_r count_r rs,
    call_first renumber zone version why d now "peers.list" ∅ = Ok peers_r
    /\ call_first renumber zone version why d now "peers.count" ∅ = Ok count_r
    /\ obj_get "peers" peers_r = Some (JArr rs)
    /\ Forall2 shows rs (GetActive (rd_store d) now)
    /\ obj_get "active" count_r = Some (jint (Z.of_nat (length rs)))
    /\ obj_get "total" count_r = Some (jint (Z.of_nat (size (peers (rd_store d)))))
    /\ obj_get "dead" count_r = Some (jint (Z.of_nat (size (peers (rd_store d))) - Z.of_nat (length rs))).
Proof.
  intros Hz Hsz Ht. assert (plain_params ∅) as Hp by (intros k v; by rewrite lookup_empty).
  assert (Forall (peer_text zone) (GetActive (rd_store d) now)) as Hall.
  { apply Forall_forall. intros p Hin. apply list_elem_of_filter in Hin as [_ Hin].
    apply list_elem_of_fmap in Hin as ([k p'] & -> & Hin). apply elem_of_map_to_list in Hin. by apply (Ht k). }
  assert (length (GetAll (rd_store d)) = size (peers (rd_store d))) as Htot by (unfold GetAll; by rewrite length_fmap, length_map_to_list).
  assert (length (GetActive (rd_store d) now) <= size (peers (rd_store d)))%nat as Hact.
  { rewrite <- Htot. unfold GetActive. apply length_filter. }
  pose proof (call_served renumber zone version why d now 1 "peers.list" ∅ eq_refl Hp ltac:(lia) ltac:(vm_compute; reflexivity)) as Hl.
  pose proof (call_served renumber zone version why d now 1 "peers.count" ∅ eq_refl Hp ltac:(lia) ltac:(vm_compute; reflexivity)) as Hc.
  cbv zeta in Hl, Hc.
  change (dispatch zone version d now {| rq_JSONRPC := "2.0"; rq_Method := "peers.list"; rq_Params := ∅; rq_ID := jint (1 + 1) |})
    with (handlePeersList zone d now, d) in Hl.
  change (dispatch zone version d now {| rq_JSONRPC := "2.0"; rq_Method := "peers.count"; rq_Params := ∅; rq_ID := jint (1 + 1) |})
    with (handlePeersCount d now, d) in Hc.
  cbn [fst] in Hl, Hc. unfold handlePeersList, GetRPCPeers in Hl. unfold handlePeersCount, GetRPCPeerCounts in Hc.
  rewrite Htot in Hc. unfold DefaultMaxPeers in Hsz.
  eexists _, _, (List.map as_map (PeerInfo_json zone <$> (rpc_peer <$> GetActive (rd_store d) now))).
  split; [apply Hl; by apply peers_body_ok|]. split; [apply Hc; apply counts_body_ok; lia|].
  rewrite !obj_get_as_map. split; [reflexivity|]. rewrite length_map, !length_fmap. split; [|split; [|split]; reflexivity].
  clear - Hall Hz. induction Hall as [|p ps Hp _ IH]; [constructor|]. rewrite !fmap_cons. cbn [List.map].
  constructor; [by apply peer_shows|exact IH].
Qed.

(** ** Conformance *)

Definition methods : list string := ["peers.list"; "peers.get"; "peers.count"; "daemon.status"; "daemon.ping"]%string.

(** A response of JSON-RPC 2.0, and the two it can be. *)
Definition answer_json (id : json) (outcome : string * json) : json :=
  JObj [("jsonrpc"%string, JStr "2.0"); outcome; ("id"%string, id)].
Definition success (id result answer : json) : Prop := answer = answer_json id ("result"%string, result).
Definition failure (id : json) (code : Z) (answer : json) : Prop :=
  exists message, answer = answer_json id ("error"%string, JObj [("code", jint code); ("message", JStr message)]%string).

Section conformance.
Context (renumber : string -> option string) (zone : Z) (version : string) (now : Time).
Context (st : PeerStore) (loc : option (string * string)) (iface : string) (up : Duration).

(** What a method of the protocol is to answer. *)
Definition method_answer (req : Request) (answer : json) : Prop :=
  let id := rq_ID req in
  (rq_Method req = "peers.list"%string ->
     success id (JObj [("peers"%string, JArr ((fun p => PeerInfo_json zone (rpc_peer p)) <$> GetActive st now))]) answer)
  /\ (rq_Method req = "peers.get"%string ->
     match rq_Params req !! "pubkey"%string with
     | Some (JStr k) => match peers st !! k with
                        | Some p => if String.eqb k "" then failure id (-32602) answer
                                    else success id (PeerInfo_json zone (rpc_peer p)) answer
                        | None => failure id (-32602) answer
                        end
     | _ => failure id (-32602) answer
     end)
  /\ (rq_Method req = "peers.count"%string ->
     let active := Z.of_nat (length (GetActive st now)) in let total := Z.of_nat (size (peers st)) in
     success id (JObj [("active", jint active); ("total", jint total); ("dead", jint (total - active))]%string) answer)
  /\ (rq_Method req = "daemon.status"%string ->
     match loc with
     | Some (ip, key) =>
         success id (JObj [("mesh_ip", JStr ip); ("pubkey", JStr key); ("uptime", jint up); ("interface", JStr iface);
                           ("version", JStr version)]%string) answer
     | None => failure id (-32603) answer
     end)
  /\ (rq_Method req = "daemon.ping"%string ->
     success id (JObj [("pong", JBool true); ("version", JStr version)]%string) answer)
  /\ (rq_Method req ∉ methods -> failure id (-32601) answer).

(** What a line is to be answered with. *)
Definition served (line : string) (answer : json) : Prop :=
  match parse line ≫= dec_request renumber with
  | None => failure JNull (-32700) answer
  | Some req => (rq_JSONRPC req <> "2.0"%string -> failure (rq_ID req) (-32600) answer)
                /\ (rq_JSONRPC req = "2.0"%string -> method_answer req answer)
  end.
End conformance.

(** The time the daemon says it has run for; the first question starts the
    clock of a daemon that has none. *)
Definition uptime (d : RpcDaemon) (now : Time) : Duration :=
  if time_is_zero (rd_startTime d) then 0%Z else time_sub now (rd_startTime d).

(** The questions of a client leave all this as it is. *)
Definition same_daemon (now : Time) (d d' : RpcDaemon) : Prop :=
  rd_store d' = rd_store d /\ rd_local d' = rd_local d /\ rd_interface d' = rd_interface d /\ uptime d' now = uptime d now.

Lemma error_answer code message id :
  failure id code (response_json {| rs_body := inr {| e_Code := code; e_Message := message |}; rs_ID := id |}).
Proof. by eexists. Qed.

Lemma GetUptime_spec d now : (GetUptime d now).1 = uptime d now /\ same_daemon now d (GetUptime d now).2.
Proof.
  unfold GetUptime, same_daemon, uptime. destruct (time_is_zero (rd_startTime d)) eqn:E; cbn [fst snd rd_store rd_local rd_interface rd_startTime].
  - split; [done|]. split_and!; try done. destruct (time_is_zero now); [done|]. unfold time_sub. by rewrite Z.sub_diag.
  - split; [done|]. split_and!; try done. by rewrite E.
Qed.

Lemma dispatch_answers zone version d now req body d' : dispatch zone version d now req = (body, d') ->
  same_daemon now d d'
  /\ method_answer zone version now (rd_store d) (rd_local d) (rd_interface d) (uptime d now) req
       (response_json {| rs_body := body; rs_ID := rq_ID req |}).
Proof.
  unfold dispatch, method_answer. intros Hd.
  destruct (String.eqb_spec (rq_Method req) "peers.list") as [E|N1].
  { injection Hd as <- <-. split; [done|]. rewrite E. split_and!; try done; [|by intros []; apply list_elem_of_In; cbn; tauto].
    intros _. unfold handlePeersList, GetRPCPeers. by rewrite <- list_fmap_compose. }
  destruct (String.eqb_spec (rq_Method req) "peers.get") as [E|N2].
  { injection Hd as <- <-. split; [done|]. rewrite E. split_and!; try done; [|by intros []; apply list_elem_of_In; cbn; tauto].
    intros _. unfold handlePeersGet. destruct (rq_Params req !! _) as [[]|]; try apply error_answer.
    unfold GetRPCPeer, Get. destruct (String.eqb s ""); [destruct (_ !! s); apply error_answer|].
    destruct (_ !! s); [done|apply error_answer]. }
  destruct (String.eqb_spec (rq_Method req) "peers.count") as [E|N3].
  { injection Hd as <- <-. split; [done|]. rewrite E. split_and!; try done; [|by intros []; apply list_elem_of_In; cbn; tauto].
    intros _. unfold handlePeersCount, GetRPCPeerCounts, GetAll. rewrite length_fmap, length_map_to_list. done. }
  destruct (String.eqb_spec (rq_Method req) "daemon.status") as [E|N4].
  { unfold handleDaemonStatus, GetRPCStatus in Hd. rewrite E.
    destruct (rd_local d) as [[ip key]|] eqn:El.
    - destruct (GetUptime_spec d now) as [<- Hs]. destruct (GetUptime d now) as [up d1]. injection Hd as <- <-.
      split; [exact Hs|]. split_and!; try done. by intros []; apply list_elem_of_In; cbn; tauto.
    - injection Hd as <- <-. split; [done|]. split_and!; try done; [intros _; apply error_answer|by intros []; apply list_elem_of_In; cbn; tauto]. }
  destruct (String.eqb_spec (rq_Method req) "daemon.ping") as [E|N5].
  { injection Hd as <- <-. split; [done|]. rewrite E. split_and!; try done. by intros []; apply list_elem_of_In; cbn; tauto. }
  injection Hd as <- <-. split; [done|]. split_and!; try done. intros _. apply error_answer.
Qed.

Lemma handle_line_answers renumber zone version why d now line r d' :
  handle_line renumber zone version why d now line = (r, d') ->
  served renumber zone version now (rd_store d) (rd_local d) (rd_interface d) (uptime d now) line (response_json r)
  /\ same_daemon now d d'.
Proof.
  unfold handle_line, served. destruct (parse line ≫= dec_request renumber) as [req|].
  - unfold handleRequest. destruct (String.eqb_spec (rq_JSONRPC req) "2.0") as [E|N]; cbn [negb].
    + destruct (dispatch zone version d now req) as [body d1] eqn:Ed. intros [= <- <-].
      destruct (dispatch_answers _ _ _ _ _ _ _ Ed) as [Hs Ha]. split; [|exact Hs]. split; [done|]. by intros _.
    + intros [= <- <-]. split; [|done]. split; [intros _; apply error_answer|done].
  - intros [= <- <-]. split; [|done]. apply error_answer.
Qed.

(** C36. The server answers as the protocol says, for every input: each line the
    scanner delivers is answered by exactly one line, in order, a JSON-RPC 2.0
    response with the identifier of the request.  A line that is no request is
    answered with -32700 (and a null identifier), another version than 2.0 with
    -32600, an unknown method with -32601; peers.list gives the active peers,
    peers.get the peer of the key (-32602 when the key is missing, empty or
    unknown), peers.count the counts of the store, daemon.status the local node
    (-32603 when there is none) and daemon.ping the version.  No request changes
    what the daemon knows. *)
Theorem rpc_conformance renumber zone version why d now input :
  exists answers d',
    handleConnection renumber zone version why d now input
      = (foldr (fun a out => print a ^^ String newline out) EmptyString answers, d')
    /\ Forall2 (served renumber zone version now (rd_store d) (rd_local d) (rd_interface d) (uptime d now)) (scan input) answers
    /\ same_daemon now d d'.
Proof.
  unfold handleConnection. destruct (handle_lines renumber zone version why d now (scan input)) as [rs d'] eqn:E.
  exists (response_json <$> rs), d'. split.
  { f_equal. clear E. induction rs as [|r rs IH]; [done|]. rewrite fmap_cons. cbn [foldr]. rewrite IH. unfold writeResponse.
    by rewrite <- app_assoc_str. }
  revert d rs d' E. generalize (scan input). intros lines.
  induction lines as [|line lines IH]; intros d rs d'; cbn [handle_lines]; [intros [= <- <-]; by repeat constructor|].
  destruct (handle_line renumber zone version why d now line) as [r d1] eqn:E1.
  destruct (handle_lines renumber zone version why d1 now lines) as [rs2 d2] eqn:E2. intros [= <- <-].
  destruct (handle_line_answers _ _ _ _ _ _ _ _ _ E1) as [Ha (S1 & S2 & S3 & S4)].
  destruct (IH _ _ _ E2) as [Hf (T1 & T2 & T3 & T4)]. rewrite S1, S2, S3, S4 in Hf.
  split; [rewrite fmap_cons; by constructor|]. unfold same_daemon. by rewrite T1, T2, T3, T4.
Qed.

(** ** Samples *)

Definition rpc_sample_peer : PeerInfo :=
  {| WGPubKey := "pk"; Hostname := "db"; MeshIP := "10.99.0.2"; MeshIPv6 := ""; Endpoint := "192.0.2.7:51820"; Introducer := false;
     RoutableNetworks := ["10.8.0.0/24"]; LastSeen := time_unix 1700000000; DiscoveredVia := ["dht"]; Latency := Some (12 * millisecond)%Z;
     NATType := ""; EndpointMethod := "dht" |}%string.

Definition rpc_sample : RpcDaemon :=
  {| rd_store := {| peers := {["pk"%string := rpc_sample_peer]}; chans := ∅; subscribers := [] |};
     rd_local := Some ("10.99.0.1", "me")%string; rd_startTime := time_unix 1699999000; rd_interface := "wg0" |}.

Lemma rpc_sample_text k p : Get (rd_store rpc_sample) k = Some p -> peer_text 3600 p.
Proof.
  unfold Get. cbn [rd_store rpc_sample peers]. intros [_ <-]%lookup_singleton_Some. split; [reflexivity|]. split.
  - change (0 <= 2023 <= 9999)%Z. lia.
  - intros l [= <-]. unfold int64_min, int64_max, millisecond. lia.
Qed.

Lemma rpc_get_shows_store_witness :
  exists r, call_first (fun _ => None) 3600 "dev" "" rpc_sample (time_unix 1700000060) "peers.get" (pubkey_param "pk") = Ok r
            /\ shows r rpc_sample_peer.
Proof.
  assert (zone_ok 3600) as Hz by (split; [reflexivity|lia]). assert ("pk"%string <> ""%string) as Hne by discriminate.
  assert (Z.of_nat (String.length (print (request_json "peers.get" (pubkey_param "pk") 2))) < MaxScanTokenSize)%Z as Hlen
    by (vm_compute; reflexivity).
  exact (rpc_get_shows_store (fun _ => None) 3600 "dev" "" rpc_sample (time_unix 1700000060) "pk" Hz eq_refl Hne Hlen
    (rpc_sample_text "pk" rpc_sample_peer eq_refl)).
Defined.

Lemma rpc_list_agrees_count_witness :
  exists r, call_first (fun _ => None) 3600 "dev" "" rpc_sample (time_unix 1700000060) "peers.count" ∅ = Ok r
            /\ obj_get "active" r = Some (jint 1) /\ obj_get "dead" r = Some (jint 0).
Proof.
  destruct (rpc_list_agrees_count (fun _ => None) 3600 "dev" "" rpc_sample (time_unix 1700000060)) as
    (pr & cr & rs & _ & Hc & _ & Hf & Ha & _ & Hd).
  - split; [reflexivity|lia].
  - apply Nat.leb_le. vm_compute. reflexivity.
  - exact rpc_sample_text.
  - exists cr. split; [exact Hc|]. apply Forall2_length in Hf. rewrite Hf in Ha, Hd. split; [exact Ha|exact Hd].
Defined.

(** A connection with a question and a line that is no request. *)
Definition rpc_session : string := print (request_json "peers.count" ∅ 7) ^^ String newline "not json".

Lemma rpc_conformance_witness :
  exists counts err d', handleConnection (fun _ => None) 3600 "dev" "why" rpc_sample (time_unix 1700000060) rpc_session
      = (print counts ^^ String newline (print err ^^ String newline EmptyString), d')
    /\ success (jint 7) (JObj [("active", jint 1); ("total", jint 1); ("dead", jint 0)]%string) counts
    /\ failure JNull (-32700) err.
Proof.
  destruct (rpc_conformance (fun _ => None) 3600 "dev" "why" rpc_sample (time_unix 1700000060) rpc_session) as (answers & d' & H1 & H2 & _).
  change (scan rpc_session) with [print (request_json "peers.count" ∅ 7); "not json"%string] in H2.
  apply Forall2_cons_inv_l in H2 as (counts & rest & Hc & H2 & ->).
  apply Forall2_cons_inv_l in H2 as (err & rest' & He & H2 & ->). apply Forall2_nil_inv_l in H2 as ->.
  exists counts, err, d'. split; [exact H1|]. split; [|exact He].
  destruct Hc as [_ Hc]. specialize (Hc eq_refl). destruct Hc as (_ & _ & Hc & _). by apply Hc.
Defined.
