(* ===== verification/Registry.v ===== *)
(** * The rendezvous registry (pkg/discovery/registry.go)

    Nodes of a mesh that share nothing but the secret can meet through an issue
    of a public GitHub repository: its title is derived from the secret and its
    body carries an encrypted announcement with the peers its writer knew.  The
    HTTP client is the parameter [http] on an abstract world; [IssueTracker]
    states what the issue API documents, and a list of issues is an instance.
    The clock, the nonce and the environment's token are arguments; a panic is
    [None]. *)

From S2P Require Import Prelude GoStrings GoNet GoCrypto GoJson PeerStore Derive Aead Envelope.
Local Open Scope wgmesh_scope.

Definition RegistryRepo : string := "wgmesh-registry/public".
Definition RegistryAPI : string := "https://api.github.com".
Definition RegistryMaxPeers : nat := 50.
Definition RegistryUpdateAge : Duration := (24 * hour)%Z.

Record RendezvousRegistry := {
  rr_SearchTerm : string;
  rr_GossipKey : list Z;
  rr_IssueURL : string;
  rr_issueNum : Z;
}.

Definition NewRendezvousRegistry (keys : DerivedKeys) : RendezvousRegistry :=
  {| rr_SearchTerm := "wgmesh-" ^^ hex_bytes (RendezvousID keys); rr_GossipKey := GossipKey keys;
     rr_IssueURL := ""; rr_issueNum := 0 |}.

(** ** Requests *)

Record Request := { rq_method : string; rq_url : string; rq_headers : list (string * string); rq_body : string }.

Definition issue_url (num : Z) : string :=
  RegistryAPI ^^ "/repos/" ^^ RegistryRepo ^^ "/issues/" ^^ itoa num.

Definition search_request (term token : string) : Request :=
  {| rq_method := "GET";
     rq_url := RegistryAPI ^^ "/search/issues?q=" ^^ term ^^ "+repo:" ^^ RegistryRepo ^^ "+in:title";
     rq_headers := [("Accept", "application/vnd.github.v3+json"); ("User-Agent", "wgmesh")]
                   ++ (if String.eqb token "" then [] else [("Authorization", "Bearer " ^^ token)]);
     rq_body := "" |}%string.

Definition write_request (method url token : string) (payload : json) : Request :=
  {| rq_method := method; rq_url := url;
     rq_headers := [("Accept", "application/vnd.github.v3+json"); ("Authorization", "Bearer " ^^ token);
                    ("Content-Type", "application/json"); ("User-Agent", "wgmesh")];
     rq_body := print payload |}%string.

(** [json.Marshal] writes the keys of a map in order. *)
Definition create_request (term body token : string) : Request :=
  write_request "POST" (RegistryAPI ^^ "/repos/" ^^ RegistryRepo ^^ "/issues") token
    (JObj [("body"%string, JStr body); ("title"%string, JStr term)]).
Definition update_request (num : Z) (body token : string) : Request :=
  write_request "PATCH" (issue_url num) token (JObj [("body"%string, JStr body)]).

(** ** Answers *)

Record Issue := { is_Number : Z; is_Title : string; is_Body : string }.
Definition zero_issue : Issue := {| is_Number := 0; is_Title := ""; is_Body := "" |}.

(** [json.NewDecoder(r).Decode]: the first value of the stream. *)
Definition parse_first (s : string) : option json :=
  match parse_value (S (2 * String.length s)) s with Some (v, _) => Some v | None => None end.

Definition dec_issue (v : json) : option Issue :=
  match v with
  | JObj ms => n ← int_field "number" ms; t ← str_field "title" ms; b ← str_field "body" ms;
               Some {| is_Number := n; is_Title := t; is_Body := b |}
  | JNull => Some zero_issue
  | _ => None
  end.
Definition dec_items (v : json) : option (list Issue) :=
  match v with JObj ms => list_field dec_issue "items" ms | JNull => Some [] | _ => None end.
Definition dec_number (v : json) : option Z :=
  match v with JObj ms => int_field "number" ms | JNull => Some 0%Z | _ => None end.

(** ** The issue body *)

Definition startMarker : string := "<!-- PEERS:".
Definition endMarker : string := ":PEERS -->".

(** [strings.Index] and [strings.LastIndex]; [None] is -1. *)
Fixpoint index (s sub : string) : option nat :=
  if has_prefix s sub then Some 0%nat
  else match s with EmptyString => None | String _ s' => S <$> index s' sub end.
Fixpoint last_index (s sub : string) : option nat :=
  match s with
  | EmptyString => if has_prefix s sub then Some 0%nat else None
  | String _ s' => match last_index s' sub with
                   | Some i => Some (S i)
                   | None => if has_prefix s sub then Some 0%nat else None
                   end
  end.

(** [s[lo:hi]] with [hi] within the string; [None] is the slice panic. *)
Definition str_slice (s : string) (lo hi : nat) : option string :=
  if Nat.ltb hi lo then None else Some (str_take (hi - lo) (str_drop lo s)).

Definition announced_peer (a : PeerAnnouncement) : PeerInfo :=
  {| WGPubKey := pa_WGPubKey a; Hostname := pa_Hostname a; MeshIP := pa_MeshIP a;
     MeshIPv6 := pa_MeshIPv6 a; Endpoint := pa_WGEndpoint a; Introducer := false;
     RoutableNetworks := pa_RoutableNetworks a; LastSeen := zero_time; DiscoveredVia := [];
     Latency := None; NATType := pa_NATType a; EndpointMethod := "" |}.
Definition listed_peer (kp : KnownPeer) : PeerInfo :=
  {| WGPubKey := kp_WGPubKey kp; Hostname := kp_Hostname kp; MeshIP := kp_MeshIP kp;
     MeshIPv6 := kp_MeshIPv6 kp; Endpoint := kp_WGEndpoint kp; Introducer := false;
     RoutableNetworks := []; LastSeen := zero_time; DiscoveredVia := []; Latency := None;
     NATType := kp_NATType kp; EndpointMethod := "" |}.

Definition opened_peers (a : PeerAnnouncement) : list PeerInfo :=
  (if String.eqb (pa_WGPubKey a) "" then [] else [announced_peer a]) ++ (listed_peer <$> pa_KnownPeers a).

Definition known_peer_of (p : PeerInfo) : KnownPeer :=
  {| kp_WGPubKey := WGPubKey p; kp_Hostname := Hostname p; kp_MeshIP := MeshIP p;
     kp_MeshIPv6 := MeshIPv6 p; kp_WGEndpoint := Endpoint p; kp_Introducer := Introducer p;
     kp_NATType := NATType p |}.

Definition registry_announcement (first : PeerInfo) (rest : list PeerInfo) (now : Time) : PeerAnnouncement :=
  CreateAnnouncement (WGPubKey first) (MeshIP first) (Endpoint first) (Introducer first)
    (RoutableNetworks first) (known_peer_of <$> rest) (Hostname first) (MeshIPv6 first) (NATType first) now.

Definition newline : string := String (ascii_of_byte 10) EmptyString.
Definition body_head : string := "wgmesh registry rendezvous point" ^^ newline ^^ newline.
Definition issue_body (encrypted : string) : string :=
  body_head ^^ startMarker ^^ newline ^^ encrypted ^^ newline ^^ endMarker.

(** The loop that merges: what is kept of [existing] once [seen] holds the keys
    of the [n] entries in front. *)
Fixpoint merge_loop (seen : list string) (n : nat) (existing : list PeerInfo) : list PeerInfo :=
  match existing with
  | [] => []
  | p :: ps =>
      if String.eqb (WGPubKey p) "" || bool_decide (WGPubKey p ∈ seen) then merge_loop seen n ps
      else p :: (if Nat.leb RegistryMaxPeers (S n) then [] else merge_loop (WGPubKey p :: seen) (S n) ps)
  end.
Definition merge_peers (myInfo : PeerInfo) (existing : list PeerInfo) : list PeerInfo :=
  myInfo :: merge_loop [WGPubKey myInfo] 1 existing.

Section registry.
Context {cipher : Aead} {W : Type} (http : W -> Request -> W * option (Z * string)).

Definition decryptPeerList (r : RendezvousRegistry) (body : string) (now : Time) : option (list PeerInfo) :=
  match index body startMarker, last_index body endMarker with
  | Some startIdx, Some endIdx =>
      if Nat.leb endIdx startIdx then Some []
      else
        raw ← str_slice body (startIdx + String.length startMarker) endIdx;
        let encryptedData := trim_space raw in
        if String.eqb encryptedData "" then Some []
        else match OpenEnvelope (bytes_of_string encryptedData) (rr_GossipKey r) now with
             | None => None
             | Some (Err _) => Some []
             | Some (Ok (_, announcement)) => Some (opened_peers announcement)
             end
  | _, _ => Some []
  end.

Definition with_issue (r : RendezvousRegistry) (num : Z) : RendezvousRegistry :=
  {| rr_SearchTerm := rr_SearchTerm r; rr_GossipKey := rr_GossipKey r;
     rr_IssueURL := issue_url num; rr_issueNum := num |}.

(** The outer [option] is a panic of the decryption. *)
Definition searchRegistry (w : W) (r : RendezvousRegistry) (token : string) (now : Time)
  : option (W * RendezvousRegistry * result (list PeerInfo)) :=
  let '(w', resp) := http w (search_request (rr_SearchTerm r) token) in
  match resp with
  | None => Some (w', r, Err "search request failed")
  | Some (status, text) =>
      if negb (Z.eqb status 200) then Some (w', r, Err "search returned status")
      else match parse_first text ≫= dec_items with
           | None => Some (w', r, Err "failed to decode search results")
           | Some [] => Some (w', r, Ok [])
           | Some (issue :: _) =>
               let r' := with_issue r (is_Number issue) in
               peers ← decryptPeerList r' (is_Body issue) now;
               Some (w', r', Ok peers)
           end
  end.

Definition buildIssueBody (r : RendezvousRegistry) (peers : list PeerInfo) (now : Time)
    (nonce : option (list Z)) : result string :=
  match peers with
  | [] => Err "no peers to publish"
  | first :: rest =>
      match SealEnvelope MessageTypeAnnounce (announcement_json (registry_announcement first rest now))
              (rr_GossipKey r) nonce with
      | Err e => Err ("failed to encrypt peer list: " ^^ e)
      | Ok encrypted => Ok (issue_body (string_of_bytes encrypted))
      end
  end.

Definition createIssue (w : W) (r : RendezvousRegistry) (myInfo : PeerInfo) (token : string)
    (now : Time) (nonce : option (list Z)) : W * RendezvousRegistry * result unit :=
  match buildIssueBody r [myInfo] now nonce with
  | Err e => (w, r, Err ("failed to build issue body: " ^^ e))
  | Ok body =>
      let '(w', resp) := http w (create_request (rr_SearchTerm r) body token) in
      match resp with
      | None => (w', r, Err "create issue request failed")
      | Some (status, text) =>
          if negb (Z.eqb status 201) then (w', r, Err "create issue returned status")
          else match parse_first text ≫= dec_number with
               | None => (w', r, Err "failed to decode create response")
               | Some num => (w', with_issue r num, Ok tt)
               end
      end
  end.

(** The request and the test of its answer that both updates share. *)
Definition patch_issue (w : W) (r : RendezvousRegistry) (peers : list PeerInfo) (token : string)
    (now : Time) (nonce : option (list Z)) : W * result unit :=
  match buildIssueBody r peers now nonce with
  | Err e => (w, Err ("failed to build issue body: " ^^ e))
  | Ok body =>
      let '(w', resp) := http w (update_request (rr_issueNum r) body token) in
      match resp with
      | None => (w', Err "update request failed")
      | Some (status, _) => (w', if Z.eqb status 200 then Ok tt else Err "update returned status")
      end
  end.

Definition updatePeerListMerged (w : W) (r : RendezvousRegistry) (myInfo : PeerInfo)
    (existingPeers : list PeerInfo) (token : string) (now : Time) (nonce : option (list Z))
  : W * result unit :=
  if Z.eqb (rr_issueNum r) 0 then (w, Err "no issue number set")
  else patch_issue w r (merge_peers myInfo existingPeers) token now nonce.

Definition UpdatePeerListWithAll (w : W) (r : RendezvousRegistry) (peers : list PeerInfo)
    (token : string) (now : Time) (nonce : option (list Z)) : W * result unit :=
  if String.eqb token "" then (w, Err "GITHUB_TOKEN not set")
  else if Z.eqb (rr_issueNum r) 0 then (w, Err "no registry issue found")
  else patch_issue w r peers token now nonce.

(** [opened] is the clock when the found body is decrypted, [sealed] when the
    new one is written.  The error result is always nil. *)
Definition FindOrCreate (w : W) (r : RendezvousRegistry) (myInfo : PeerInfo) (token : string)
    (opened sealed : Time) (nonce : option (list Z)) : option (W * RendezvousRegistry * list PeerInfo) :=
  '(w1, r1, found) ← searchRegistry w r token opened;
  let peers := match found with Ok ps => ps | Err _ => [] end in
  if String.eqb token "" then Some (w1, r1, peers)
  else if Z.eqb (rr_issueNum r1) 0 then
    let '(w2, r2, _) := createIssue w1 r1 myInfo token sealed nonce in Some (w2, r2, peers)
  else
    let '(w2, _) := updatePeerListMerged w1 r1 myInfo peers token sealed nonce in Some (w2, r1, peers).

End registry.
