(* ===== verification/RegistryProps.v ===== *)
(** * What the rendezvous registry achieves

    Theorems on pkg/discovery/registry.go: nodes meet when each comes within ten
    minutes of the last write and its search shows that write, and older lists are
    lost; what a failed search does to
    the published list; which issue bodies crash a node; what merging keeps. *)

From S2P Require Import Prelude GoStrings GoNet GoCrypto GoJson PeerStore Derive Aead Envelope Registry GoTimeJson.
Local Open Scope wgmesh_scope.

(** ** Finding the markers *)

Lemma has_prefix_get s p k : has_prefix s p = true -> (k < String.length p)%nat -> String.get k s = String.get k p.
Proof.
  unfold has_prefix. revert s k. induction p as [|c p IH]; intros s k H Hk; [simpl in Hk; lia|].
  destruct s as [|d s]; [done|]. cbn [String.prefix] in H. destruct (ascii_dec c d) as [->|]; [|done].
  destruct k as [|k]; [done|]. cbn [String.get]. apply IH; [done|]. cbn [String.length] in Hk. lia.
Qed.

Lemma get_drop s n k : String.get k (str_drop n s) = String.get (n + k) s.
Proof. revert n. induction s as [|c s IH]; intros [|n]; try done. by cbn [str_drop Nat.add String.get]. Qed.

Lemma index_found s sub i : index s sub = Some i -> has_prefix (str_drop i s) sub = true.
Proof.
  revert i. induction s as [|c s IH]; intros i; cbn [index].
  - destruct (has_prefix "" sub) eqn:E; [|done]. intros [= <-]. done.
  - destruct (has_prefix (String c s) sub) eqn:E; [intros [= <-]; done|].
    destruct (index s sub) as [j|]; [|done]. intros [= <-]. by apply IH.
Qed.

Lemma last_index_found s sub i : last_index s sub = Some i -> has_prefix (str_drop i s) sub = true.
Proof.
  revert i. induction s as [|c s IH]; intros i; cbn [last_index].
  - destruct (has_prefix "" sub) eqn:E; [|done]. intros [= <-]. done.
  - destruct (last_index s sub) as [j|]; [intros [= <-]; by apply IH|].
    destruct (has_prefix (String c s) sub) eqn:E; [|done]. by intros [= <-].
Qed.

Lemma has_prefix_short s p : (String.length s < String.length p)%nat -> has_prefix s p = false.
Proof.
  unfold has_prefix. revert s. induction p as [|c p IH]; intros [|d s] H; cbn [String.length] in H; try lia; try done.
  cbn [String.prefix]. destruct (ascii_dec c d); [|done]. apply IH. lia.
Qed.

Lemma last_index_short s p : (String.length s < String.length p)%nat -> last_index s p = None.
Proof.
  induction s as [|c s IH]; intros H; cbn [last_index]; rewrite has_prefix_short by done; [done|].
  rewrite IH; [done|]. cbn [String.length] in H. lia.
Qed.

Lemma last_index_app s c m : last_index (s ^^ String c m) (String c m) = Some (String.length s).
Proof.
  induction s as [|d s IH].
  - rewrite app_nil_l_str. cbn [last_index]. rewrite last_index_short by (cbn [String.length]; lia).
    pose proof (has_prefix_app (String c m) "") as H. rewrite app_nil_r_str in H. by rewrite H.
  - rewrite app_cons_str. cbn [last_index]. by rewrite IH.
Qed.

Lemma print_object_braces ms : exists s, print (JObj ms) = String "{" (s ^^ "}").
Proof. by eexists. Qed.

Lemma trim_object ms : trim_space (newline ^^ print (JObj ms) ^^ newline) = print (JObj ms).
Proof.
  destruct (print_object_braces ms) as [s ->]. unfold trim_space, newline.
  rewrite app_cons_str, app_nil_l_str, app_cons_str.
  change (trim_left (String (ascii_of_byte 10) (String "{" ((s ^^ "}") ^^ String (ascii_of_byte 10) ""))))
    with (String "{" (s ^^ "}") ^^ String (ascii_of_byte 10) "").
  rewrite trim_right_app by done. rewrite <- app_cons_str. by apply trim_right_last.
Qed.

(** What is between the markers of a published body. *)
Lemma published_slice ms :
  let body := issue_body (print (JObj ms)) in
  exists e, index body startMarker = Some 34%nat /\ last_index body endMarker = Some e /\ (45 <= e)%nat
    /\ str_slice body (34 + String.length startMarker) e = Some (newline ^^ print (JObj ms) ^^ newline).
Proof.
  intros body. set (mid := newline ^^ print (JObj ms) ^^ newline).
  set (front := body_head ^^ startMarker).
  assert (body = front ^^ mid ^^ endMarker) as Hb.
  { unfold body, issue_body, mid, front. by rewrite !app_assoc_str. }
  exists (String.length (front ^^ mid)).
  assert (String.length (front ^^ mid) = 45 + String.length mid)%nat as Hl by by rewrite length_app_str.
  split; [reflexivity|]. split.
  { rewrite Hb, app_assoc_str. apply last_index_app. }
  split; [lia|]. unfold str_slice. change (34 + String.length startMarker)%nat with (String.length front).
  assert (String.length front = 45)%nat as Hf by reflexivity. rewrite Hl, Hf.
  rewrite (proj2 (Nat.ltb_ge _ _)) by lia. replace (45 + String.length mid - 45)%nat with (String.length mid) by lia.
  by rewrite Hb, <- Hf, str_drop_app, str_take_app.
Qed.

Section props.
Context {cipher : Aead}.

(** ** Reading a published list *)

(** An announcement other nodes can read. *)
Definition publishable (first : PeerInfo) (rest : list PeerInfo) (now : Time) : Prop :=
  Validate (registry_announcement first rest now) = Ok tt
  /\ announcement_text (registry_announcement first rest now) = true.

(** What is left of a peer when it is read back. *)
Definition as_announced (p : PeerInfo) : PeerInfo :=
  announced_peer (registry_announcement p [] 0%Z).
Definition as_listed (p : PeerInfo) : PeerInfo := listed_peer (known_peer_of p).

Definition good_nonce (nonce : list Z) : Prop := length nonce = NonceSize /\ Forall is_byte nonce.

Lemma build_body (r : RendezvousRegistry) first rest now nonce : exists data,
  SealEnvelope MessageTypeAnnounce (announcement_json (registry_announcement first rest now))
    (rr_GossipKey r) (Some nonce) = Ok data
  /\ buildIssueBody r (first :: rest) now (Some nonce) = Ok (issue_body (string_of_bytes data)).
Proof. eexists. split; [reflexivity|]. by unfold buildIssueBody. Qed.

Lemma sealed_object (key : list Z) v nonce data : SealEnvelope MessageTypeAnnounce v key (Some nonce) = Ok data ->
  exists ms, string_of_bytes data = print (JObj ms) /\ data = bytes_of_string (print (JObj ms)).
Proof. intros [= <-]. eexists. split; [apply string_bytes_roundtrip|reflexivity]. Qed.

(** Decrypting what was built is opening the envelope. *)
Lemma decrypt_built r first rest t nonce body now :
  buildIssueBody r (first :: rest) t (Some nonce) = Ok body ->
  exists data, SealEnvelope MessageTypeAnnounce (announcement_json (registry_announcement first rest t))
                 (rr_GossipKey r) (Some nonce) = Ok data
  /\ decryptPeerList r body now = match OpenEnvelope data (rr_GossipKey r) now with
                                  | Some (Ok (_, a)) => Some (opened_peers a)
                                  | Some (Err _) => Some []
                                  | None => None
                                  end.
Proof.
  destruct (build_body r first rest t nonce) as (data & Hs & Hb). rewrite Hb. intros [= <-].
  exists data. split; [done|]. destruct (sealed_object _ _ _ _ Hs) as (ms & Hd & Hd').
  rewrite Hd. unfold decryptPeerList. destruct (published_slice ms) as (e & -> & -> & He & Hsl).
  rewrite (proj2 (Nat.leb_gt _ _)) by lia. rewrite Hsl. cbn [mbind option_bind]. rewrite trim_object.
  rewrite (proj2 (String.eqb_neq _ _)) by (destruct (print_object_braces ms) as [? ->]; done).
  rewrite <- Hd'. by destruct (OpenEnvelope data (rr_GossipKey r) now) as [[[env a]|]|].
Qed.

(** The same mesh: one key, whatever issue was cached. *)
Definition same_mesh (r r' : RendezvousRegistry) : Prop :=
  rr_GossipKey r = rr_GossipKey r' /\ rr_SearchTerm r = rr_SearchTerm r'.

Lemma decrypt_same_mesh r r' body now : same_mesh r r' -> decryptPeerList r body now = decryptPeerList r' body now.
Proof. intros [E _]. unfold decryptPeerList. by rewrite E. Qed.

Lemma announced_key_valid first rest t : Validate (registry_announcement first rest t) = Ok tt -> WGPubKey first <> ""%string.
Proof. intros (Hk & _)%Validate_iff E. unfold registry_announcement, CreateAnnouncement in Hk. cbn [pa_WGPubKey] in Hk.
  rewrite E in Hk. destruct Hk as (bs & [= <-] & ?). done. Qed.

Lemma opened_announcement first rest t : Validate (registry_announcement first rest t) = Ok tt ->
  opened_peers (registry_announcement first rest t) = as_announced first :: (as_listed <$> rest).
Proof.
  intros Hv. unfold opened_peers, registry_announcement at 1, CreateAnnouncement. cbn [pa_WGPubKey].
  rewrite (proj2 (String.eqb_neq _ _)) by by apply (announced_key_valid first rest t).
  cbn [app]. f_equal. unfold registry_announcement, CreateAnnouncement. cbn [pa_KnownPeers].
  by rewrite <- list_fmap_compose.
Qed.

(** The age of a published list as a reader sees it: the announcement carries
    whole seconds. *)
Definition list_fresh (t now : Time) : Prop := fresh_at (time_to_unix t) now.

(** Another node of the mesh reads back what was published. *)
Lemma decrypt_fresh r r' first rest t nonce body now :
  same_mesh r' r -> length (rr_GossipKey r) = 32%nat -> good_nonce nonce -> publishable first rest t ->
  list_fresh t now -> buildIssueBody r (first :: rest) t (Some nonce) = Ok body ->
  decryptPeerList r' body now = Some (as_announced first :: (as_listed <$> rest)).
Proof.
  intros Hm Hk [Hn Bn] [Hv Ht] Hf Hb. rewrite (decrypt_same_mesh r' r) by done.
  destruct (decrypt_built r first rest t nonce body now Hb) as (data & Hs & ->).
  destruct (open_sealed MessageTypeAnnounce _ (rr_GossipKey r) nonce now data Hv Ht) as (env & _ & ->); try done.
  by rewrite opened_announcement.
Qed.

(** ... until its timestamp leaves the window; then it reads as an empty list. *)
Lemma decrypt_stale r r' first rest t nonce body now :
  same_mesh r' r -> length (rr_GossipKey r) = 32%nat -> good_nonce nonce -> publishable first rest t ->
  ~ list_fresh t now -> buildIssueBody r (first :: rest) t (Some nonce) = Ok body ->
  decryptPeerList r' body now = Some [].
Proof.
  intros Hm Hk [Hn Bn] [Hv Ht] Hf Hb. rewrite (decrypt_same_mesh r' r) by done.
  destruct (decrypt_built r first rest t nonce body now Hb) as (data & Hs & ->).
  assert (exists e, OpenEnvelope data (rr_GossipKey r) now = Some (Err e)) as [e ->]; [|done].
  eapply (OpenEnvelope_stale MessageTypeAnnounce); try done; [by apply announcement_json_ok|].
  apply dec_meta_json. unfold announcement_text in Ht. bool_steps. lia.
Qed.

(** Which peers others can read, one at a time. *)
Definition peer_publishable (p : PeerInfo) : Prop := publishable p [] 0%Z.

Lemma peers_publishable first rest now : Forall peer_publishable (first :: rest) ->
  (length rest <= MaxKnownPeers)%nat -> (int64_min <= time_to_unix now <= int64_max)%Z ->
  publishable first rest now.
Proof.
  intros [[Hv Ht] Hr]%Forall_cons Hl Hnow. split.
  - apply Validate_iff in Hv as (? & ? & ? & ? & ? & ? & _ & _). apply Validate_iff.
    do 6 (split; [assumption|]).
    unfold registry_announcement, CreateAnnouncement. cbn [pa_KnownPeers]. rewrite length_fmap. split; [done|].
    apply Forall_fmap. eapply Forall_impl; [exact Hr|]. intros p [(? & ? & ? & ? & _)%Validate_iff _]. by split_and!.
  - unfold announcement_text, registry_announcement, CreateAnnouncement in *.
    cbn [pa_Protocol pa_WGPubKey pa_Hostname pa_MeshIP pa_MeshIPv6 pa_WGEndpoint pa_RoutableNetworks pa_KnownPeers
         pa_ObservedEndpoint pa_NATType pa_Timestamp] in *. bool_steps.
    repeat match goal with E : _ = true |- _ => rewrite E; clear E end. cbn [andb].
    assert (forallb known_peer_text (known_peer_of <$> rest) = true) as ->.
    { apply forallb_forall. intros k (p & -> & Hp)%list_elem_of_In%list_elem_of_fmap.
      pose proof (proj1 (Forall_forall _ _) Hr p Hp) as [_ Hp']. unfold announcement_text in Hp'.
      unfold registry_announcement, CreateAnnouncement in Hp'.
      cbn [pa_Protocol pa_WGPubKey pa_Hostname pa_MeshIP pa_MeshIPv6 pa_WGEndpoint pa_RoutableNetworks pa_KnownPeers
         pa_ObservedEndpoint pa_NATType pa_Timestamp] in Hp'. bool_steps.
      unfold known_peer_text, known_peer_of.
      cbn [kp_WGPubKey kp_Hostname kp_MeshIP kp_MeshIPv6 kp_WGEndpoint kp_NATType].
      repeat match goal with E : ascii_str _ = true |- _ => rewrite E; clear E end. done. }
    cbn [andb]. rewrite (proj2 (Z.leb_le _ _)), (proj2 (Z.leb_le _ _)) by lia. done.
Qed.

Lemma announced_publishable p : peer_publishable p -> peer_publishable (as_announced p).
Proof. done. Qed.

(** ** Bodies that crash a reader *)

(** C34. Reading an issue body panics exactly when the last end marker begins at
    the colon of the first start marker; whoever can open an issue under the
    mesh's search term can put such a body there. *)
Theorem registry_body_panics_iff r body now :
  decryptPeerList r body now = None <->
  exists i, index body startMarker = Some i /\ last_index body endMarker = Some (i + 10)%nat.
Proof.
  unfold decryptPeerList. split.
  - destruct (index body startMarker) as [i|] eqn:Ei; [|done].
    destruct (last_index body endMarker) as [e|] eqn:Ee; [|done].
    destruct (Nat.leb_spec e i) as [|Hlt]; [done|]. unfold str_slice.
    destruct (Nat.ltb_spec e (i + String.length startMarker)) as [Hs|Hs]; cbn [mbind option_bind].
    + intros _. exists i. split; [done|]. f_equal.
      apply index_found in Ei. apply last_index_found in Ee.
      pose proof (has_prefix_get _ _ 0 Ee ltac:(vm_compute; lia)) as H0. rewrite get_drop, Nat.add_0_r in H0.
      assert (String.get (e - i) (str_drop i body) = String.get (e - i) startMarker) as H1.
      { apply has_prefix_get; [done|lia]. }
      rewrite get_drop in H1. replace (i + (e - i))%nat with e in H1 by lia. rewrite H0 in H1.
      change (String.length startMarker) with 11%nat in Hs.
      assert (e - i < 11)%nat as Hd by lia. assert (e - i <> 0)%nat as Hz by lia.
      destruct (e - i)%nat as [|[|[|[|[|[|[|[|[|[|[|]]]]]]]]]]] eqn:E; try (vm_compute in H1; discriminate); lia.
    + destruct (String.eqb _ ""); [done|]. 
      match goal with |- context [OpenEnvelope ?d ?k ?t] => by destruct (OpenEnvelope_total d k t) as [[[? ?]|] ->] end.
  - intros (i & -> & ->). rewrite (proj2 (Nat.leb_gt _ _)) by lia. unfold str_slice.
    change (String.length startMarker) with 11%nat. by rewrite (proj2 (Nat.ltb_lt _ _)) by lia.
Qed.

(** ** Merging *)

(** The entries a list of peers is reduced to: named, and the first of its key. *)
Fixpoint distinct_peers (seen : list string) (l : list PeerInfo) : list PeerInfo :=
  match l with
  | [] => []
  | p :: l =>
      if bool_decide (WGPubKey p = ""%string \/ WGPubKey p ∈ seen) then distinct_peers seen l
      else p :: distinct_peers (WGPubKey p :: seen) l
  end.

Lemma merge_loop_take seen n l : (0 < n < RegistryMaxPeers)%nat ->
  merge_loop seen n l = take (RegistryMaxPeers - n) (distinct_peers seen l).
Proof.
  revert seen n. induction l as [|p l IH]; intros seen n Hn; cbn [merge_loop distinct_peers]; [by rewrite take_nil|].
  assert (String.eqb (WGPubKey p) "" || bool_decide (WGPubKey p ∈ seen)
          = bool_decide (WGPubKey p = ""%string \/ WGPubKey p ∈ seen)) as ->.
  { destruct (String.eqb_spec (WGPubKey p) ""); destruct (decide (WGPubKey p ∈ seen));
      repeat case_bool_decide; try done; tauto. }
  case_bool_decide; [by apply IH|].
  replace (RegistryMaxPeers - n)%nat with (S (RegistryMaxPeers - S n))%nat by lia. cbn [take]. f_equal.
  destruct (Nat.leb_spec RegistryMaxPeers (S n)).
  - by replace (RegistryMaxPeers - S n)%nat with 0%nat by lia.
  - apply IH. lia.
Qed.

Lemma distinct_peers_spec seen l p : p ∈ distinct_peers seen l -> p ∈ l /\ WGPubKey p <> ""%string /\ WGPubKey p ∉ seen.
Proof.
  revert seen. induction l as [|q l IH]; intros seen; cbn [distinct_peers]; [by intros ?%not_elem_of_nil|].
  case_bool_decide as Hq.
  - intros (? & ? & ?)%IH. split_and!; [by right|done|done].
  - intros [->|(? & ? & Hs)%IH]%elem_of_cons; [split_and!; [by left|tauto|tauto]|].
    split_and!; [by right|done|]. set_solver.
Qed.

Lemma distinct_peers_NoDup seen l : NoDup (WGPubKey <$> distinct_peers seen l).
Proof.
  revert seen. induction l as [|q l IH]; intros seen; cbn [distinct_peers]; [constructor|].
  case_bool_decide; [apply IH|]. rewrite fmap_cons. constructor; [|apply IH].
  intros (p & Hp & (_ & _ & Hs)%distinct_peers_spec)%list_elem_of_fmap. apply Hs. rewrite <- Hp. by left.
Qed.

Lemma distinct_peers_complete seen l k : k <> ""%string -> k ∉ seen ->
  (exists p, p ∈ l /\ WGPubKey p = k) -> exists p, p ∈ distinct_peers seen l /\ WGPubKey p = k.
Proof.
  intros Hk. revert seen. induction l as [|q l IH]; intros seen Hs (p & Hp & E); [by apply not_elem_of_nil in Hp|].
  cbn [distinct_peers]. case_bool_decide as Hq.
  - apply elem_of_cons in Hp as [->|Hp]; [destruct Hq; congruence|]. apply IH; eauto.
  - destruct (decide (WGPubKey q = k)) as [Eq|Ne]; [exists q; split; [by left|done]|].
    destruct (IH (WGPubKey q :: seen)) as (p' & ? & ?).
    + intros [?|?]%elem_of_cons; congruence.
    + apply elem_of_cons in Hp as [->|Hp]; [congruence|]. eauto.
    + exists p'. split; [by right|done].
Qed.

(** The list a node publishes is the first fifty of itself and the entries
    it read, one per non-empty key and itself first; nothing is lost below fifty. *)
Theorem merged_list_spec me existing : WGPubKey me <> ""%string ->
  let l := merge_peers me existing in
  l = take RegistryMaxPeers (distinct_peers [] (me :: existing))
  /\ (length l <= RegistryMaxPeers)%nat /\ NoDup (WGPubKey <$> l)
  /\ ((length l < RegistryMaxPeers)%nat -> forall k, k <> ""%string ->
      (exists p, p ∈ me :: existing /\ WGPubKey p = k) -> exists p, p ∈ l /\ WGPubKey p = k).
Proof.
  intros Hme l.
  assert (l = take RegistryMaxPeers (distinct_peers [] (me :: existing))) as Hl.
  { unfold l, merge_peers. rewrite merge_loop_take by (unfold RegistryMaxPeers; lia).
    cbn [distinct_peers]. rewrite bool_decide_eq_false_2 by set_solver. done. }
  rewrite Hl. split; [done|]. split; [rewrite length_take; lia|]. split.
  - rewrite fmap_take. eapply sublist_NoDup; [apply distinct_peers_NoDup|apply sublist_take].
  - intros Hlen k Hk Hex. rewrite take_ge; [|rewrite length_take in Hlen; lia].
    apply distinct_peers_complete; [done|set_solver|done].
Qed.

End props.

(** ** What the issue tracker promises *)

(** The issue API, for the requests of this program.  A creation answers 201
    with the number and stores the issue, an update answers 200 and stores the
    new body, for a token that may write to the repository ([it_accepts]).  A
    search answers from an index, [it_indexed], which follows the stored issues,
    [it_issue], only after a while: nothing is promised about it after a write.
    [it_ok] is that the service answers, [it_room] that an issue may still be
    created. *)
Class IssueTracker {W : Type} (http : W -> Request -> W * option (Z * string)) := {
  it_ok : W -> Prop;
  it_room : W -> Prop;
  it_accepts : string -> Prop;
  it_issue : W -> string -> option (Z * string);
  it_indexed : W -> string -> option (Z * string);
  it_search : forall w term token, it_ok w -> token = ""%string \/ it_accepts token -> exists text items,
    http w (search_request term token) = (w, Some (200%Z, text))
    /\ parse_first text ≫= dec_items = Some items
    /\ it_indexed w term = (fun i => (is_Number i, is_Body i)) <$> head items;
  it_create : forall w term body token, it_ok w -> it_room w -> it_accepts token ->
    ascii_str term = true -> ascii_str body = true -> it_issue w term = None ->
    exists w' text num, http w (create_request term body token) = (w', Some (201%Z, text))
      /\ parse_first text ≫= dec_number = Some num /\ num <> 0%Z
      /\ it_ok w' /\ it_issue w' term = Some (num, body);
  it_update : forall w term num old body token, it_ok w -> it_accepts token ->
    ascii_str body = true -> it_issue w term = Some (num, old) ->
    exists w' text, http w (update_request num body token) = (w', Some (200%Z, text))
      /\ it_ok w' /\ it_issue w' term = Some (num, body);
}.

(** Clocks within ten minutes, less the second the timestamp is cut to. *)
Lemma fresh_within t now : (0 <= now - t <= MaxMessageAge - second)%Z -> list_fresh t now.
Proof. intros H. pose proof (time_to_unix_bounds t). unfold list_fresh, fresh_at, MaxMessageAge, minute, second in *. lia. Qed.

Lemma merge_loop_subset seen n l p : p ∈ merge_loop seen n l -> p ∈ l.
Proof.
  revert seen n. induction l as [|q l IH]; intros seen n; cbn [merge_loop]; [done|].
  destruct (_ || _); [intros ?%IH; by right|]. intros [->|Hp]%elem_of_cons; [by left|]. right.
  destruct (Nat.leb _ _); [by apply not_elem_of_nil in Hp|by apply IH in Hp].
Qed.

Lemma merge_loop_length seen n l : (length (merge_loop seen n l) <= length l)%nat.
Proof.
  revert seen n. induction l as [|q l IH]; intros seen n; cbn [merge_loop]; [done|].
  destruct (_ || _); cbn [length]; [specialize (IH seen n); lia|].
  destruct (Nat.leb _ _); cbn [length]; [lia|]. specialize (IH (WGPubKey q :: seen) (S n)). lia.
Qed.

Lemma escape_ascii s : ascii_str s = true -> ascii_str (escape_go 0 0 s) = true.
Proof.
  induction s as [|c s IH]; intros H; [done|]. unfold ascii_str in H. cbn [string_forall] in H. bool_steps.
  cbn [escape_go]. rewrite H. apply ascii_app; [|by apply IH].
  clear IH. destruct c as [[] [] [] [] [] [] [] []]; first [discriminate H|reflexivity].
Qed.

Lemma quote_ascii s : ascii_str s = true -> ascii_str (quote s) = true.
Proof. intros H. unfold quote. change (ascii_str (escape_go 0 0 s ^^ String quote_char "") = true).
  apply ascii_app; [by apply escape_ascii|done]. Qed.

Lemma envelope_ascii e : envelope_ok e -> ascii_str (print (envelope_json e)) = true.
Proof.
  intros (Ht & Hn & Hc). unfold envelope_json, jbytes. cbn [app print List.map join fst snd].
  change (ascii_str (((quote "type" ^^ String ":" (quote (MessageType e))) ^^ "," ^^
    (quote "nonce" ^^ String ":" (quote (b64_encode StdEncoding (Nonce e)))) ^^ "," ^^
    (quote "ciphertext" ^^ String ":" (quote (b64_encode StdEncoding (Ciphertext e))))) ^^ "}") = true).
  repeat match goal with
  | |- ascii_str (String.append _ _) = true => apply ascii_app
  | |- ascii_str (quote _) = true => apply quote_ascii
  | |- ascii_str (String ":" ?q) = true => change (ascii_str q = true)
  | |- ascii_str (b64_encode _ _) = true => by apply b64_ascii
  end; done.
Qed.

(** The body is plain ASCII, so the tracker's JSON carries it unchanged. *)
Lemma body_ascii {cipher : Aead} (key : list Z) v nonce data : length key = 32%nat -> good_nonce nonce ->
  SealEnvelope MessageTypeAnnounce v key (Some nonce) = Ok data ->
  ascii_str (issue_body (string_of_bytes data)) = true.
Proof.
  intros Hk [Hn Bn] [= <-]. unfold json_bytes at 1. rewrite string_bytes_roundtrip.
  unfold issue_body. do 3 (apply ascii_app; [done|]). apply ascii_app; [|done]. apply envelope_ascii.
  split; [done|]. split; [done|]. apply seal_bytes; try done. apply bytes_of_string_bytes.
Qed.

Section meeting.
Context {cipher : Aead} {W : Type} (http : W -> Request -> W * option (Z * string)) `{!IssueTracker http}.

(** The search has caught up with what was last written. *)
Definition shown (w : W) (term : string) : Prop := it_indexed w term = it_issue w term.

(** A search that finds no issue, and one that finds an issue. *)
Lemma search_none w r token now : it_ok w -> token = ""%string \/ it_accepts token ->
  it_indexed w (rr_SearchTerm r) = None ->
  searchRegistry http w r token now = Some (w, r, Ok []).
Proof.
  intros Hw Ht Hn. destruct (it_search w (rr_SearchTerm r) token Hw Ht) as (text & items & Hh & Hd & Hi).
  unfold searchRegistry. rewrite Hh, Z.eqb_refl. cbn [negb]. rewrite Hd. rewrite Hn in Hi. by destruct items.
Qed.

Lemma search_some w r token now num body peers : it_ok w -> token = ""%string \/ it_accepts token ->
  it_indexed w (rr_SearchTerm r) = Some (num, body) ->
  decryptPeerList r body now = Some peers ->
  searchRegistry http w r token now = Some (w, with_issue r num, Ok peers).
Proof.
  intros Hw Ht Hn Hp. destruct (it_search w (rr_SearchTerm r) token Hw Ht) as (text & items & Hh & Hd & Hi).
  unfold searchRegistry. rewrite Hh, Z.eqb_refl. cbn [negb]. rewrite Hd. rewrite Hn in Hi.
  destruct items as [|i items]; [done|]. cbn [head fmap option_fmap option_map] in Hi. injection Hi as <- <-.
  rewrite (decrypt_same_mesh _ r) by done. by rewrite Hp.
Qed.

Lemma issue_body_ascii r peers t nonce body : length (rr_GossipKey r) = 32%nat -> good_nonce nonce ->
  buildIssueBody r peers t (Some nonce) = Ok body -> ascii_str body = true.
Proof.
  intros Hk Bn. destruct peers as [|p ps]; [done|].
  destruct (build_body r p ps t nonce) as (data & Hs & ->). intros [= <-]. by eapply body_ascii.
Qed.

Lemma built r p ps t nonce : exists body, buildIssueBody r (p :: ps) t (Some nonce) = Ok body.
Proof. destruct (build_body r p ps t nonce) as (data & _ & ->). by eexists. Qed.

(** The first node of a mesh publishes itself. *)
Lemma first_node w r me token opened sealed nonce :
  it_ok w -> it_room w -> it_issue w (rr_SearchTerm r) = None -> it_indexed w (rr_SearchTerm r) = None ->
  ascii_str (rr_SearchTerm r) = true ->
  rr_issueNum r = 0%Z -> token <> ""%string -> it_accepts token -> length (rr_GossipKey r) = 32%nat -> good_nonce nonce ->
  exists w' num body, FindOrCreate http w r me token opened sealed (Some nonce) = Some (w', with_issue r num, [])
    /\ num <> 0%Z /\ it_ok w' /\ it_issue w' (rr_SearchTerm r) = Some (num, body)
    /\ buildIssueBody r [me] sealed (Some nonce) = Ok body.
Proof.
  intros Hw Hr Hn Hx Ha H0 Ht Hat Hk Bn. destruct (built r me [] sealed nonce) as [body Hb].
  destruct (it_create w (rr_SearchTerm r) body token) as (w' & text & num & Hh & Hd & Hz & Hw' & Hi); try done.
  { by eapply issue_body_ascii. }
  exists w', num, body. unfold FindOrCreate. rewrite search_none by auto. cbn [mbind option_bind].
  rewrite (proj2 (String.eqb_neq _ _)) by done. rewrite H0. cbn [Z.eqb]. unfold createIssue. rewrite Hb, Hh.
  cbn [negb Z.eqb Pos.eqb]. by rewrite Hd.
Qed.

(** A later node reads the issue and publishes itself in front of what it read. *)
Lemma later_node w r me token opened sealed nonce num old peers :
  it_ok w -> it_issue w (rr_SearchTerm r) = Some (num, old) -> shown w (rr_SearchTerm r) ->
  num <> 0%Z -> token <> ""%string -> it_accepts token -> length (rr_GossipKey r) = 32%nat -> good_nonce nonce -> decryptPeerList r old opened = Some peers ->
  exists w' body, FindOrCreate http w r me token opened sealed (Some nonce) = Some (w', with_issue r num, peers)
    /\ it_ok w' /\ it_issue w' (rr_SearchTerm r) = Some (num, body)
    /\ buildIssueBody r (merge_peers me peers) sealed (Some nonce) = Ok body.
Proof.
  intros Hw Hi Hx Hz Ht Hat Hk Bn Hp. destruct (built r me (merge_loop [WGPubKey me] 1 peers) sealed nonce) as [body Hb].
  destruct (it_update w (rr_SearchTerm r) num old body token) as (w' & text & Hh & Hw' & Hi'); try done.
  { by eapply issue_body_ascii. }
  exists w', body. unfold FindOrCreate. rewrite (search_some w r token opened num old peers) by (auto; by rewrite Hx).
  cbn [mbind option_bind]. rewrite (proj2 (String.eqb_neq _ _)) by done. unfold updatePeerListMerged.
  cbn [with_issue rr_issueNum]. rewrite (proj2 (Z.eqb_neq _ _)) by done. unfold patch_issue.
  change (buildIssueBody (with_issue r num)) with (buildIssueBody r). unfold merge_peers at 1.
  rewrite Hb. cbn [with_issue rr_issueNum]. by rewrite Hh.
Qed.

(** A node whose search does not show the issue reads nothing. *)
Lemma unseen_node w r me token opened sealed nonce : it_ok w -> token = ""%string \/ it_accepts token ->
  it_indexed w (rr_SearchTerm r) = None ->
  exists w' r', FindOrCreate http w r me token opened sealed nonce = Some (w', r', []).
Proof.
  intros Hw Ht Hx. unfold FindOrCreate. rewrite search_none by done. cbn [mbind option_bind].
  destruct (String.eqb token ""); [by do 2 eexists|]. destruct (Z.eqb (rr_issueNum r) 0).
  - destruct (createIssue http w r me token sealed nonce) as [[w2 r2] ?]. by do 2 eexists.
  - destruct (updatePeerListMerged http w r me [] token sealed nonce) as [w2 ?]. by do 2 eexists.
Qed.

(** Without a token a node only reads. *)
Lemma reading_node w r me opened sealed nonce num body peers :
  it_ok w -> it_issue w (rr_SearchTerm r) = Some (num, body) -> shown w (rr_SearchTerm r) ->
  decryptPeerList r body opened = Some peers -> FindOrCreate http w r me "" opened sealed nonce = Some (w, with_issue r num, peers).
Proof.
  intros Hw Hi Hx Hp. unfold FindOrCreate. by rewrite (search_some w r "" opened num body peers) by (auto; by rewrite Hx).
Qed.

(** ** Three nodes: one publishes, one comes later, one only reads *)

Section three_nodes.
Context (w : W) (ra rb rc : RendezvousRegistry) (a b c : PeerInfo) (tokA tokB : string).
Context (oa sa ob sb oc : Time) (nonceA nonceB : list Z).

(** A fresh mesh of three nodes, of which [a] and [b] have a token. *)
Record fresh_mesh : Prop := {
  fm_ok : it_ok w;
  fm_room : it_room w;
  fm_none : it_issue w (rr_SearchTerm ra) = None /\ it_indexed w (rr_SearchTerm ra) = None;
  fm_term : ascii_str (rr_SearchTerm ra) = true;
  fm_new : rr_issueNum ra = 0%Z;
  fm_key : length (rr_GossipKey ra) = 32%nat;
  fm_b : same_mesh rb ra;
  fm_c : same_mesh rc ra;
  fm_tokens : tokA <> ""%string /\ tokB <> ""%string;
  fm_accepted : it_accepts tokA /\ it_accepts tokB;
  fm_nonces : good_nonce nonceA /\ good_nonce nonceB;
  fm_peers : peer_publishable a /\ peer_publishable b;
  fm_distinct : WGPubKey a <> WGPubKey b;
  fm_clock : (int64_min <= time_to_unix sa <= int64_max)%Z /\ (int64_min <= time_to_unix sb <= int64_max)%Z;
}.

(** A world between two visits: the service still answers, the issue is as it
    was left, and the search has caught up with it. *)
Definition caught_up (w w' : W) : Prop :=
  it_ok w' /\ it_issue w' (rr_SearchTerm ra) = it_issue w (rr_SearchTerm ra) /\ shown w' (rr_SearchTerm ra).

(** What the third node reads when the second read [peers]. *)
Lemma three_nodes (HM : fresh_mesh) peers :
  (forall body, buildIssueBody ra [a] sa (Some nonceA) = Ok body -> decryptPeerList ra body ob = Some peers) ->
  Forall peer_publishable peers -> (length peers <= MaxKnownPeers)%nat -> list_fresh sb oc ->
  exists w1 ra', FindOrCreate http w ra a tokA oa sa (Some nonceA) = Some (w1, ra', []) /\ it_ok w1
  /\ forall v1, caught_up w1 v1 ->
  exists w2 rb', FindOrCreate http v1 rb b tokB ob sb (Some nonceB) = Some (w2, rb', peers) /\ it_ok w2
  /\ forall v2, caught_up w2 v2 ->
  exists rc', FindOrCreate http v2 rc c "" oc sb None
    = Some (v2, rc', as_announced b :: (as_listed <$> merge_loop [WGPubKey b] 1 peers)).
Proof.
  destruct HM. destruct fm_tokens0 as [TA TB], fm_accepted0 as [GA GB], fm_nonces0 as [HnA HnB],
    fm_peers0 as [PA PB], fm_clock0 as [CA CB], fm_none0 as [N1 N2].
  intros Hpeers Hpub Hlen Hf.
  destruct (first_node w ra a tokA oa sa nonceA) as (w1 & num & body & H1 & Hz & Hw1 & Hi1 & Hb1); try done.
  assert (rr_SearchTerm rb = rr_SearchTerm ra /\ rr_SearchTerm rc = rr_SearchTerm ra) as [Eb Ec].
  { split; [apply fm_b0|apply fm_c0]. }
  exists w1. eexists. split; [exact H1|]. split; [done|]. intros v1 (V1 & I1 & X1).
  destruct (later_node v1 rb b tokB ob sb nonceB num body peers) as (w2 & body' & H2 & Hw2 & Hi2 & Hb2); try done.
  { by rewrite Eb, I1. }
  { by rewrite Eb. }
  { by rewrite (proj1 fm_b0). }
  { rewrite (decrypt_same_mesh rb ra) by done. by apply Hpeers. }
  exists w2. eexists. split; [exact H2|]. split; [done|]. intros v2 (V2 & I2 & X2).
  eexists. apply reading_node with (num := num) (body := body'); [done|by rewrite Ec, I2, <- Eb|by rewrite Ec|].
  eapply (decrypt_fresh rb rc); [|by rewrite (proj1 fm_b0)|exact HnB| |exact Hf|exact Hb2].
  { split; [by rewrite (proj1 fm_c0), (proj1 fm_b0)|by rewrite Ec, Eb]. }
  apply peers_publishable; [|etransitivity; [apply merge_loop_length|done]|done].
  constructor; [done|]. apply Forall_forall. intros p Hp%merge_loop_subset. by eapply Forall_forall.
Qed.

Lemma merge_single : WGPubKey a <> ""%string -> WGPubKey a <> WGPubKey b ->
  merge_loop [WGPubKey b] 1 [as_announced a] = [as_announced a].
Proof.
  intros Ha Hab. cbn [merge_loop]. change (WGPubKey (as_announced a)) with (WGPubKey a).
  rewrite (proj2 (String.eqb_neq _ _)) by exact Ha.
  rewrite bool_decide_eq_false_2 by (by rewrite list_elem_of_singleton). reflexivity.
Qed.

(** C25. Three nodes of a mesh meet through the registry, when each visit comes
    within ten minutes of the previous write (less the second timestamps are cut
    to) and the search shows what was last written: the first creates the issue,
    the second reads the first's entry and publishes itself in front of it, the
    third, which has no token, reads both.  A visitor whose search does not show
    the issue yet reads nothing.  Introducer flags, and the routable networks of
    all but the last writer, do not survive. *)
Theorem registry_nodes_meet (HM : fresh_mesh) :
  (0 <= ob - sa <= MaxMessageAge - second)%Z -> (0 <= oc - sb <= MaxMessageAge - second)%Z ->
  exists w1 ra', FindOrCreate http w ra a tokA oa sa (Some nonceA) = Some (w1, ra', []) /\ it_ok w1
  /\ (forall v1, it_ok v1 -> it_indexed v1 (rr_SearchTerm rb) = None ->
       exists w2 rb', FindOrCreate http v1 rb b tokB ob sb (Some nonceB) = Some (w2, rb', []))
  /\ forall v1, caught_up w1 v1 ->
  exists w2 rb', FindOrCreate http v1 rb b tokB ob sb (Some nonceB) = Some (w2, rb', [as_announced a]) /\ it_ok w2
  /\ forall v2, caught_up w2 v2 ->
  exists rc', FindOrCreate http v2 rc c "" oc sb None = Some (v2, rc', [as_announced b; as_listed a]).
Proof.
  intros Hab Hbc. assert (as_listed (as_announced a) = as_listed a) as E by done.
  rewrite <- E. destruct (three_nodes HM [as_announced a]) as (w1 & ra' & H1 & Hw1 & H2).
  - intros body Hb. destruct HM. apply (decrypt_fresh ra ra a [] sa nonceA); try done.
    + apply fm_nonces0.
    + apply peers_publishable; [|simpl; lia|apply fm_clock0]. constructor; [apply fm_peers0|constructor].
    + by apply fresh_within.
  - constructor; [|constructor]. destruct HM. apply announced_publishable, fm_peers0.
  - unfold MaxKnownPeers. simpl. lia.
  - by apply fresh_within.
  - rewrite merge_single in H2; [| |apply HM]; [|apply (announced_key_valid a [] 0%Z), (fm_peers HM)].
    exists w1, ra'. split; [done|]. split; [done|]. split; [|exact H2].
    intros v1 V1 X1. apply unseen_node; [done| |done]. right. apply (fm_accepted HM).
Qed.

(** A list older than ten minutes is lost although its nodes live: the
    second node reads nothing from the issue, and overwrites it with its own entry
    alone, so that the third never hears of the first. *)
Theorem registry_forgets_nodes (HM : fresh_mesh) :
  (MaxMessageAge < ob - sa)%Z -> (0 <= oc - sb <= MaxMessageAge - second)%Z ->
  exists w1 ra', FindOrCreate http w ra a tokA oa sa (Some nonceA) = Some (w1, ra', []) /\ it_ok w1
  /\ forall v1, caught_up w1 v1 ->
  exists w2 rb', FindOrCreate http v1 rb b tokB ob sb (Some nonceB) = Some (w2, rb', []) /\ it_ok w2
  /\ forall v2, caught_up w2 v2 ->
  exists rc', FindOrCreate http v2 rc c "" oc sb None = Some (v2, rc', [as_announced b]).
Proof.
  intros Hab Hbc. apply (three_nodes HM []); [|constructor|simpl; lia|by apply fresh_within].
  intros body Hb. destruct HM. apply (decrypt_stale ra ra a [] sa nonceA); try done.
  - apply fm_nonces0.
  - apply peers_publishable; [|simpl; lia|apply fm_clock0]. constructor; [apply fm_peers0|constructor].
  - intros [H _]. pose proof (time_to_unix_bounds sa). lia.
Qed.

End three_nodes.
End meeting.

(** ** A failed search *)

Section failed_search.
Context {cipher : Aead} {W : Type} (http : W -> Request -> W * option (Z * string)).

(** The answers a search does not use: none, a status other than 200 (a rate
    limit is 403), a text that is not the expected JSON. *)
Definition unusable (resp : option (Z * string)) : Prop :=
  match resp with
  | None => True
  | Some (status, text) => status <> 200%Z \/ parse_first text ≫= dec_items = None
  end.

(** A node that has the issue's number and whose search fails (no answer,
    a rate limit, an undecodable text) overwrites the published list with its own
    entry alone: that is the body it sends, and what every node then reads. *)
Theorem failed_search_erases_list w w' resp r rd me token opened sealed nonce now :
  rr_issueNum r <> 0%Z -> token <> ""%string ->
  http w (search_request (rr_SearchTerm r) token) = (w', resp) -> unusable resp ->
  length (rr_GossipKey r) = 32%nat -> good_nonce nonce -> peer_publishable me ->
  (int64_min <= time_to_unix sealed <= int64_max)%Z -> same_mesh rd r ->
  (0 <= now - sealed <= MaxMessageAge - second)%Z ->
  exists body, FindOrCreate http w r me token opened sealed (Some nonce)
               = Some (fst (http w' (update_request (rr_issueNum r) body token)), r, [])
    /\ decryptPeerList rd body now = Some [as_announced me].
Proof.
  intros Hn Ht Hh Hu Hk HN Hp Hs Hm Hnow. destruct (built r me [] sealed nonce) as [body Hb].
  exists body. split.
  - unfold FindOrCreate, searchRegistry. rewrite Hh.
    assert (exists e, match resp with
      | Some (status, text) =>
          if negb (status =? 200)%Z then Some (w', r, Err "search returned status")
          else match parse_first text ≫= dec_items with
               | Some [] => Some (w', r, Ok [])
               | Some (issue :: _) => peers ← decryptPeerList (with_issue r (is_Number issue)) (is_Body issue) opened;
                                      Some (w', with_issue r (is_Number issue), Ok peers)
               | None => Some (w', r, Err "failed to decode search results")
               end
      | None => Some (w', r, Err "search request failed")
      end = Some (w', r, @Err (list PeerInfo) e)) as [e ->].
    { destruct resp as [[status text]|]; [|by eexists]. destruct (Z.eqb_spec status 200) as [->|]; [|by eexists].
      cbn [negb]. destruct Hu as [|Hu]; [done|]. rewrite Hu. by eexists. }
    cbn [mbind option_bind]. rewrite (proj2 (String.eqb_neq _ _)), (proj2 (Z.eqb_neq _ _)) by done.
    unfold updatePeerListMerged, merge_peers, patch_issue. cbn [merge_loop].
    rewrite (proj2 (Z.eqb_neq _ _)), Hb by done.
    by destruct (http w' (update_request (rr_issueNum r) body token)) as [w2 [[status text]|]].
  - apply (decrypt_fresh r rd me [] sealed nonce); try done; [|by apply fresh_within].
    apply peers_publishable; [|simpl; lia|done]. by constructor.
Qed.

End failed_search.

(** ** A tracker that keeps the promise *)

Definition issue_json (i : Issue) : json :=
  JObj ([("number"%string, jint (is_Number i))] ++ [("title"%string, JStr (is_Title i))] ++ [("body"%string, JStr (is_Body i))]).
Definition issue_ok (i : Issue) : bool := int64 (is_Number i) && ascii_str (is_Title i) && ascii_str (is_Body i).
Definition with_body (body : string) (i : Issue) : Issue :=
  {| is_Number := is_Number i; is_Title := is_Title i; is_Body := body |}.

Definition lists_issue (url : string) (i : Issue) : bool := String.eqb (rq_url (search_request (is_Title i) "")) url.
Definition names_issue (url : string) (i : Issue) : bool := String.eqb (issue_url (is_Number i)) url.
Definition issue_list (url : string) (w : list Issue) : list Issue := List.filter (lists_issue url) w.

(** A repository as its list of issues. *)
Definition tracker_http (w : list Issue) (rq : Request) : list Issue * option (Z * string) :=
  if String.eqb (rq_method rq) "GET" then
    (w, Some (200%Z, print (JObj [("items"%string, JArr (issue_json <$> issue_list (rq_url rq) w))])))
  else match parse_first (rq_body rq) ≫= dec_issue with
  | None => (w, Some (400%Z, ""%string))
  | Some new =>
      if String.eqb (rq_method rq) "POST" then
        let num := (Z.of_nat (length w) + 1)%Z in
        (w ++ [{| is_Number := num; is_Title := is_Title new; is_Body := is_Body new |}],
         Some (201%Z, print (JObj [("number"%string, jint num)])))
      else ((fun i => if names_issue (rq_url rq) i then with_body (is_Body new) i else i) <$> w,
            Some (200%Z, "{}"%string))
  end.

Lemma parse_first_print v : json_ok v = true -> parse_first (print v) = Some v.
Proof.
  intros H. pose proof (parse_print v H) as P. unfold parse in P. unfold parse_first.
  destruct (parse_value _ (print v)) as [[v' rest]|]; [|done]. destruct (String.eqb _ ""); [by injection P as ->|done].
Qed.

Lemma dec_issue_json i : issue_ok i = true -> dec_issue (issue_json i) = Some i.
Proof.
  unfold issue_ok, int64. intros H. bool_steps. unfold dec_issue, issue_json.
  read_struct ltac:(apply dec_jint; lia). by destruct i.
Qed.

Lemma issue_json_ok i : issue_ok i = true -> json_ok (issue_json i) = true.
Proof.
  unfold issue_ok, int64. intros H. bool_steps. unfold issue_json. cbn [app json_ok forallb fst snd].
  rewrite jint_ok by lia. by repeat match goal with E : ascii_str _ = true |- _ => rewrite E; clear E end.
Qed.

Lemma mapM_issues l : Forall (fun i => issue_ok i = true) l -> mapM dec_issue (issue_json <$> l) = Some l.
Proof. intros H. apply mapM_Some, Forall2_fmap_l. induction H; constructor; [by apply dec_issue_json|done]. Qed.

Lemma write_payload m url token title body : ascii_str title = true -> ascii_str body = true ->
  parse_first (rq_body (write_request m url token (JObj [("body"%string, JStr body); ("title"%string, JStr title)])))
    ≫= dec_issue = Some {| is_Number := 0; is_Title := title; is_Body := body |}.
Proof.
  intros Ht Hb. cbn [rq_body write_request]. rewrite parse_first_print; [done|].
  cbn [json_ok forallb fst snd]. by rewrite Ht, Hb.
Qed.
Lemma patch_payload m url token body : ascii_str body = true ->
  parse_first (rq_body (write_request m url token (JObj [("body"%string, JStr body)])))
    ≫= dec_issue = Some {| is_Number := 0; is_Title := ""; is_Body := body |}.
Proof.
  intros Hb. cbn [rq_body write_request]. rewrite parse_first_print; [done|].
  cbn [json_ok forallb fst snd]. by rewrite Hb.
Qed.

Definition first_issue (w : list Issue) (term : string) : option (Z * string) :=
  (fun i => (is_Number i, is_Body i)) <$> head (issue_list (rq_url (search_request term "")) w).

Lemma first_after_patch num body w term old : first_issue w term = Some (num, old) ->
  first_issue ((fun i => if names_issue (issue_url num) i then with_body body i else i) <$> w) term = Some (num, body).
Proof.
  unfold first_issue, issue_list. induction w as [|i w IH]; [done|].
  rewrite fmap_cons. cbn [List.filter].
  assert (lists_issue (rq_url (search_request term "")) (if names_issue (issue_url num) i then with_body body i else i)
          = lists_issue (rq_url (search_request term "")) i) as -> by by destruct (names_issue _ i).
  destruct (lists_issue _ i) eqn:E; [|done]. cbn [head fmap option_fmap option_map]. intros [= <- <-].
  unfold names_issue. by rewrite String.eqb_refl.
Qed.

#[export] Program Instance tracker_issues : IssueTracker tracker_http := {|
  it_ok w := Forall (fun i => issue_ok i = true) w;
  it_room w := (Z.of_nat (length w) < 2 ^ 62)%Z;
  it_accepts token := token <> ""%string;
  it_issue := first_issue;
  it_indexed := first_issue;
|}.
Next Obligation.
  intros w term token Hw _. cbn beta in *. do 2 eexists. split; [reflexivity|].
  assert (Forall (fun i => issue_ok i = true) (issue_list (rq_url (search_request term token)) w)) as Hl.
  { apply Forall_forall. intros i [Hi _]%list_elem_of_In%filter_In. apply list_elem_of_In in Hi. by eapply Forall_forall in Hw. }
  split; [|reflexivity].
  rewrite parse_first_print.
  - unfold dec_items, list_field, field. cbn. by rewrite mapM_issues.
  - cbn [json_ok forallb fst snd]. rewrite andb_true_r. apply forallb_forall.
    intros v (i & -> & Hi)%list_elem_of_In%list_elem_of_fmap. apply issue_json_ok. by eapply Forall_forall in Hl.
Qed.
Next Obligation.
  intros w term body token Hw Hr Ht Ha Hb Hn. cbn beta in *.
  exists (w ++ [{| is_Number := (Z.of_nat (length w) + 1)%Z; is_Title := term; is_Body := body |}]).
  do 2 eexists. unfold tracker_http, create_request. rewrite write_payload by done. split; [reflexivity|].
  assert (int64_min <= Z.of_nat (length w) + 1 <= int64_max)%Z as Hi by (unfold int64_min, int64_max; lia).
  split; [|split; [|split]].
  - rewrite parse_first_print; [|cbn [json_ok forallb fst snd]; rewrite jint_ok by lia; done].
    cbn [mbind option_bind]. by apply (dec_jint (Z.of_nat (length w) + 1)).
  - lia.
  - apply Forall_app. split; [done|]. constructor; [|constructor]. unfold issue_ok, int64. cbn [is_Number is_Title is_Body].
    rewrite Ha, Hb. rewrite !(proj2 (Z.leb_le _ _)) by lia. done.
  - unfold first_issue, issue_list in *. rewrite List.filter_app.
    destruct (List.filter _ w); [|done]. cbn [app List.filter]. unfold lists_issue at 1. cbn [is_Title].
    by rewrite String.eqb_refl.
Qed.
Next Obligation.
  intros w term num old body token Hw Ht Hb Hi. cbn beta in *. do 2 eexists.
  unfold tracker_http, update_request. rewrite patch_payload by done. split; [reflexivity|].
  cbn [rq_url write_request is_Body]. split.
  - apply Forall_fmap. eapply Forall_impl; [exact Hw|]. intros i Hok. cbn. destruct (names_issue _ i); [|done].
    unfold issue_ok in *. bool_steps. cbn [with_body is_Number is_Title is_Body].
    repeat match goal with E : _ = true |- _ => rewrite E; clear E end. done.
  - by apply first_after_patch with old.
Qed.

(** ** Witnesses *)

Definition reg_peer (key ip ep : string) : PeerInfo :=
  {| WGPubKey := key; Hostname := "node"; MeshIP := ip; MeshIPv6 := ""; Endpoint := ep; Introducer := true;
     RoutableNetworks := ["192.168.5.0/24"%string]; LastSeen := 0%Z; DiscoveredVia := []; Latency := None;
     NATType := "cone"; EndpointMethod := "" |}.
Definition reg_a : PeerInfo := reg_peer "AAAAAAAAAAAAAAAAAAAAAAAAAAAAAAAAAAAAAAAAAAA=" "10.42.0.7" "192.0.2.1:51820".
Definition reg_b : PeerInfo := reg_peer "AQEBAQEBAQEBAQEBAQEBAQEBAQEBAQEBAQEBAQEBAQE=" "10.42.0.9" "198.51.100.2:51820".
Definition reg_node : RendezvousRegistry :=
  {| rr_SearchTerm := "wgmesh-0011223344556677"; rr_GossipKey := replicate 32 9%Z; rr_IssueURL := ""; rr_issueNum := 0 |}.
Definition reg_start : Time := (1700000000 * second)%Z.

Lemma reg_publishable : peer_publishable reg_a /\ peer_publishable reg_b.
Proof. split; split; vm_compute; reflexivity. Qed.

Lemma reg_mesh later : (0 <= later <= 100000)%Z ->
  fresh_mesh tracker_http [] reg_node reg_node reg_node reg_a reg_b "tok-a" "tok-b"
    reg_start (reg_start + later * second)%Z (replicate 12 3%Z) (replicate 12 4%Z).
Proof.
  intros Hl. split; [constructor| |by split|reflexivity|reflexivity|reflexivity|done|done|done|done| | |done|].
  - change (Z.of_nat 0 < 2 ^ 62)%Z. lia.
  - split; split; [done|by_compute|done|by_compute].
  - apply reg_publishable.
  - split; [by_compute|]. unfold reg_start, time_to_unix. rewrite <- Z.mul_add_distr_r, Z.div_mul by done.
    unfold int64_min, int64_max. lia.
Qed.

Lemma registry_nodes_meet_witness :
  exists w1 w2 ra' rb' rc',
    FindOrCreate tracker_http [] reg_node reg_a "tok-a" reg_start reg_start (Some (replicate 12 3%Z)) = Some (w1, ra', [])
    /\ FindOrCreate tracker_http w1 reg_node reg_b "tok-b" (reg_start + 300 * second)%Z (reg_start + 300 * second)%Z
         (Some (replicate 12 4%Z)) = Some (w2, rb', [as_announced reg_a])
    /\ FindOrCreate tracker_http w2 reg_node reg_a "" (reg_start + 400 * second)%Z (reg_start + 300 * second)%Z None
       = Some (w2, rc', [as_announced reg_b; as_listed reg_a]).
Proof.
  destruct (registry_nodes_meet tracker_http [] reg_node reg_node reg_node reg_a reg_b reg_a "tok-a" "tok-b"
    reg_start reg_start (reg_start + 300 * second) (reg_start + 300 * second) (reg_start + 400 * second)
    (replicate 12 3) (replicate 12 4))%Z as (w1 & ra' & H1 & Hw1 & _ & H2);
    [by apply reg_mesh|unfold reg_start, MaxMessageAge, minute, second; lia..|].
  destruct (H2 w1 (conj Hw1 (conj eq_refl eq_refl))) as (w2 & rb' & H3 & Hw2 & H4).
  destruct (H4 w2 (conj Hw2 (conj eq_refl eq_refl))) as [rc' H5].
  exists w1, w2, ra', rb', rc'. split; [exact H1|]. split; [exact H3|exact H5].
Defined.

Lemma registry_forgets_nodes_witness :
  exists w1 w2 ra' rb' rc',
    FindOrCreate tracker_http [] reg_node reg_a "tok-a" reg_start reg_start (Some (replicate 12 3%Z)) = Some (w1, ra', [])
    /\ FindOrCreate tracker_http w1 reg_node reg_b "tok-b" (reg_start + 660 * second)%Z (reg_start + 660 * second)%Z
         (Some (replicate 12 4%Z)) = Some (w2, rb', [])
    /\ FindOrCreate tracker_http w2 reg_node reg_a "" (reg_start + 700 * second)%Z (reg_start + 660 * second)%Z None
       = Some (w2, rc', [as_announced reg_b]).
Proof.
  destruct (registry_forgets_nodes tracker_http [] reg_node reg_node reg_node reg_a reg_b reg_a "tok-a" "tok-b"
    reg_start reg_start (reg_start + 660 * second) (reg_start + 660 * second) (reg_start + 700 * second)
    (replicate 12 3) (replicate 12 4))%Z as (w1 & ra' & H1 & Hw1 & H2);
    [by apply reg_mesh|unfold reg_start, MaxMessageAge, minute, second; lia..|].
  destruct (H2 w1 (conj Hw1 (conj eq_refl eq_refl))) as (w2 & rb' & H3 & Hw2 & H4).
  destruct (H4 w2 (conj Hw2 (conj eq_refl eq_refl))) as [rc' H5].
  exists w1, w2, ra', rb', rc'. split; [exact H1|]. split; [exact H3|exact H5].
Defined.

(** A client whose search is refused (status 403, a rate limit). *)
Definition limited_http (w : list Request) (rq : Request) : list Request * option (Z * string) :=
  (w ++ [rq], Some (if String.eqb (rq_method rq) "GET" then 403%Z else 200%Z, ""%string)).

Lemma failed_search_erases_list_witness :
  exists body, FindOrCreate limited_http [] (with_issue reg_node 7) reg_a "tok" reg_start reg_start (Some (replicate 12 3%Z))
    = Some ([search_request "wgmesh-0011223344556677" "tok"; update_request 7 body "tok"], with_issue reg_node 7, [])
  /\ decryptPeerList reg_node body (reg_start + 60 * second)%Z = Some [as_announced reg_a].
Proof.
  destruct (failed_search_erases_list limited_http [] [search_request "wgmesh-0011223344556677" "tok"]
    (Some (403%Z, ""%string)) (with_issue reg_node 7) reg_node reg_a "tok" reg_start reg_start (replicate 12 3%Z)
    (reg_start + 60 * second)%Z) as (body & H1 & H2).
  - done.
  - done.
  - reflexivity.
  - by left.
  - reflexivity.
  - split; [done|by_compute].
  - apply reg_publishable.
  - by_compute.
  - done.
  - unfold reg_start, MaxMessageAge, minute, second. lia.
  - exists body. split; [exact H1|exact H2].
Defined.

Lemma merged_list_spec_witness :
  merge_peers reg_a [reg_b; reg_a; reg_b] = [reg_a; reg_b] /\ NoDup (WGPubKey <$> merge_peers reg_a [reg_b; reg_a; reg_b]).
Proof. split; [vm_compute; reflexivity|]. apply (merged_list_spec reg_a [reg_b; reg_a; reg_b]). done. Defined.

(** The shortest body that crashes a node, and the longer form a reader expects. *)
Example crashing_body : decryptPeerList reg_node "<!-- PEERS:PEERS -->" reg_start = None
  /\ decryptPeerList reg_node "<!-- PEERS::PEERS -->" reg_start = Some [].
Proof. split; reflexivity. Qed.
