(* ===== verification/Promo.v ===== *)
(** * Promo codes (pkg/promo: crc24.go, generate.go, types.go, store.go)

    Codes of eight base32 characters with a checksum and a version, and the
    store of campaigns, codes and redemptions.  HKDF of golang.org/x/crypto and
    the random salt are arguments, and so is whether the store file could be
    written; the store keeps what it had when it could not. *)

From S2P Require Import Prelude GoStrings GoCrypto Derive.
Local Open Scope Z_scope.

(** ** CRC-24 *)

Definition crc24Polynomial : Z := 8801531.  (* 0x864CFB *)
Definition crc24Init : Z := 11994318.       (* 0xB704CE *)

(** One of the eight shifts of a byte, in 32 bits. *)
Definition crc24_shift (crc : Z) : Z :=
  if negb (Z.land crc 8388608 =? 0) then u32 (Z.lxor (u32 (Z.shiftl crc 1)) crc24Polynomial) else u32 (Z.shiftl crc 1).

Definition crc24_byte (crc b : Z) : Z := Nat.iter 8 crc24_shift (Z.lxor crc (u32 (Z.shiftl b 16))).

Definition crc24Checksum (data : list Z) : Z := Z.land (foldl crc24_byte crc24Init data) 16777215.

(** ** Base32 ([base32.StdEncoding]) *)

Definition b32_char (v : Z) : ascii := ascii_of_byte (if v <? 26 then 65 + v else 24 + v).
Definition b32_value (c : ascii) : option Z :=
  let n := byte_of_ascii c in
  if (65 <=? n) && (n <=? 90) then Some (n - 65)
  else if (50 <=? n) && (n <=? 55) then Some (n - 24) else None.

(** The characters that carry data for 1 to 5 bytes. *)
Definition b32_chars (bytes : nat) : nat := match bytes with 1 => 2 | 2 => 4 | 3 => 5 | 4 => 7 | _ => 8 end%nat.
Definition b32_bytes (chars : nat) : nat := match chars with 2 => 1 | 4 => 2 | 5 => 3 | 7 => 4 | _ => 5 end%nat.

(** The [i]-th five bits of the 40 bits of a quantum. *)
Definition five_bits (v : Z) (i : nat) : Z := v / 32 ^ (7 - Z.of_nat i) mod 32.

Fixpoint string_of_chars (l : list ascii) : string :=
  match l with [] => EmptyString | c :: l => String c (string_of_chars l) end.

Definition b32_quantum (bs : list Z) : string :=
  let v := be_uint (bs ++ replicate (5 - length bs) 0) in
  let n := b32_chars (length bs) in
  string_of_chars (((fun i => b32_char (five_bits v i)) <$> seq 0 n) ++ replicate (8 - n) "="%char).

Fixpoint b32_encode (fuel : nat) (bs : list Z) : string :=
  match fuel, bs with
  | S fuel, _ :: _ => String.append (b32_quantum (take 5 bs)) (b32_encode fuel (drop 5 bs))
  | _, _ => EmptyString
  end.
Definition EncodeToString (bs : list Z) : string := b32_encode (length bs) bs.

(** One quantum: its values, what follows, and whether padding ended the text. *)
Fixpoint read_quantum (n : nat) (acc : list Z) (src : string) : option (list Z * string * bool) :=
  match n with
  | O => Some (acc, src, false)
  | S n =>
      match src with
      | EmptyString => None
      | String c rest =>
          let j := length acc in
          if Ascii.eqb c "=" && Nat.leb 2 j && Nat.ltb (String.length rest) 8 then
            if Nat.ltb (String.length rest + j) 7 then None
            else if string_forall (fun d => Ascii.eqb d "=") (str_take (7 - j) rest) then
              if Nat.eqb j 1 || Nat.eqb j 3 || Nat.eqb j 6 then None else Some (acc, rest, true)
            else None
          else match b32_value c with
               | None => None
               | Some x => read_quantum n (acc ++ [x]) rest
               end
      end
  end.

Definition pack_quantum (vals : list Z) : list Z :=
  let v := foldl (fun acc x => acc * 32 + x) 0 (vals ++ replicate (8 - length vals) 0) in
  take (b32_bytes (length vals)) (be_bytes 5 v).

Fixpoint b32_decode (fuel : nat) (src : string) : option (list Z) :=
  match fuel, src with
  | _, EmptyString => Some []
  | O, _ => None
  | S fuel, _ =>
      match read_quantum 8 [] src with
      | None => None
      | Some (vals, rest, true) => Some (pack_quantum vals)
      | Some (vals, rest, false) => (fun bs => pack_quantum vals ++ bs) <$> b32_decode fuel rest
      end
  end.
Definition DecodeString (s : string) : option (list Z) :=
  let t := strip_newlines s in b32_decode (S (String.length t)) t.

(** ** Codes *)

Definition codeLength : nat := 13.
Definition checksumLength : nat := 4.
Definition payloadLength : nat := 8.
Definition payloadBytes : nat := 5.
Definition codeVersion : string := "A".

Definition upper (c : ascii) : ascii :=
  let n := byte_of_ascii c in if (97 <=? n) && (n <=? 122) then ascii_of_byte (n - 32) else c.
Fixpoint to_upper (s : string) : string :=
  match s with EmptyString => EmptyString | String c s => String (upper c) (to_upper s) end.

Definition checksum_text (encoded : string) : string :=
  let checksum := crc24Checksum (bytes_of_string encoded) in
  str_take checksumLength (EncodeToString [u8 (Z.land (Z.shiftr checksum 8) 255); u8 (Z.land checksum 255)]).

(** [kdf secret salt]: the first bytes of HKDF with the info string of promo
    codes. *)
Definition GenerateCode (kdf : string -> list Z -> option (list Z)) (salt : option (list Z)) (campaignID seed : string) : result string :=
  if String.eqb campaignID "" then Err "campaign ID cannot be empty"
  else if String.eqb seed "" then Err "seed cannot be empty"
  else match salt with
  | None => Err "generate salt"
  | Some salt =>
      match kdf (String.append seed campaignID) salt with
      | None => Err "hkdf read"
      | Some payload =>
          let encoded := str_take payloadLength (EncodeToString payload) in
          Ok (to_upper (String.append encoded (String.append (checksum_text encoded) codeVersion)))
      end
  end.

(** [None] is a panic: the decoded checksum is indexed without looking at its
    length. *)
Definition ValidateCode (code : string) : option (option string) :=
  if negb (Nat.eqb (String.length code) codeLength) then Some None
  else
    let payload := str_take payloadLength code in
    let checksumEncoded := str_take checksumLength (str_drop payloadLength code) in
    if negb (String.eqb (str_drop (payloadLength + checksumLength) code) codeVersion) then Some None
    else match DecodeString (String.append checksumEncoded "====") with
    | None => Some None
    | Some (b0 :: b1 :: _) =>
        let storedChecksum := Z.lor (Z.shiftl b0 8) b1 in
        if Z.land storedChecksum 65535 =? Z.land (crc24Checksum (bytes_of_string payload)) 65535
        then Some (Some payload) else Some None
    | Some _ => None
    end.

(** ** The store *)

Record Campaign := {
  cp_ID : string;
  cp_Name : string;
  cp_Source : string;
  cp_CodePrefix : string;
  cp_CreatedAt : Time;
  cp_ExpiresAt : Time;
  cp_TrialDays : Z;
  cp_NodeLimit : Z;
}.
Record Promo := { pr_Code : string; pr_CampaignID : string; pr_Redeemed : bool; pr_RedeemedAt : Time; pr_CreatedAt : Time }.
Record Redemption := {
  rd_Code : string;
  rd_CampaignID : string;
  rd_AccountID : string;
  rd_RedeemedAt : Time;
  rd_TrialEndsAt : Time;
}.

Record Store := {
  s_campaigns : gmap string Campaign;
  s_promos : gmap string Promo;
  s_redemptions : gmap string Redemption;
}.
Definition empty_store : Store := {| s_campaigns := ∅; s_promos := ∅; s_redemptions := ∅ |}.

Definition expired (now : Time) (c : Campaign) : bool := negb (time_is_zero (cp_ExpiresAt c)) && time_after now (cp_ExpiresAt c).

(** [saved]: whether the file could be written. *)
Definition CreateCampaign (saved : bool) (now : Time) (s : Store) (id name source : string) (trialDays nodeLimit : Z) (expiresAt : Time)
  : Store * result Campaign :=
  match s_campaigns s !! id with
  | Some _ => (s, Err "campaign already exists")
  | None =>
      if String.eqb name "" then (s, Err "campaign name cannot be empty")
      else if trialDays <=? 0 then (s, Err "trial days must be positive")
      else if nodeLimit <=? 0 then (s, Err "node limit must be positive")
      else
        let c := {| cp_ID := id; cp_Name := name; cp_Source := source; cp_CodePrefix := ""; cp_CreatedAt := now; cp_ExpiresAt := expiresAt;
                    cp_TrialDays := trialDays; cp_NodeLimit := nodeLimit |} in
        if saved then ({| s_campaigns := <[id := c]> (s_campaigns s); s_promos := s_promos s; s_redemptions := s_redemptions s |}, Ok c)
        else ({| s_campaigns := delete id (<[id := c]> (s_campaigns s)); s_promos := s_promos s; s_redemptions := s_redemptions s |},
              Err "write promo store")
  end.

Definition GetCampaign (s : Store) (id : string) : result Campaign :=
  match s_campaigns s !! id with Some c => Ok c | None => Err "campaign not found" end.

(** [generated] is what [GenerateCode] returned. *)
Definition GeneratePromo (saved : bool) (now : Time) (s : Store) (campaignID : string) (generated : result string) : Store * result string :=
  match s_campaigns s !! campaignID with
  | None => (s, Err "campaign not found")
  | Some campaign =>
      if expired now campaign then (s, Err "campaign expired")
      else match generated with
      | Err e => (s, Err e)
      | Ok code =>
          match s_promos s !! code with
          | Some _ => (s, Err "code collision (retry with different seed)")
          | None =>
              let p := {| pr_Code := code; pr_CampaignID := campaignID; pr_Redeemed := false; pr_RedeemedAt := zero_time; pr_CreatedAt := now |} in
              if saved then ({| s_campaigns := s_campaigns s; s_promos := <[code := p]> (s_promos s); s_redemptions := s_redemptions s |}, Ok code)
              else ({| s_campaigns := s_campaigns s; s_promos := delete code (<[code := p]> (s_promos s)); s_redemptions := s_redemptions s |},
                    Err "write promo store")
          end
      end
  end.

Definition mark_redeemed (p : Promo) (redeemed : bool) (t : Time) : Promo :=
  {| pr_Code := pr_Code p; pr_CampaignID := pr_CampaignID p; pr_Redeemed := redeemed; pr_RedeemedAt := t; pr_CreatedAt := pr_CreatedAt p |}.

(** [now.AddDate(0, 0, days)] where the offset from UTC does not change. *)
Definition add_days (t : Time) (days : Z) : Time := time_add t (days * 24 * hour).

(** [None] is the panic of [ValidateCode]. *)
Definition RedeemCode (saved : bool) (now : Time) (s : Store) (code accountID : string) : option (Store * result (Campaign * Time)) :=
  match ValidateCode code with
  | None => None
  | Some None => Some (s, Err "invalid promo code"%string)
  | Some (Some _) =>
      Some (match s_promos s !! code with
      | None => (s, Err "promo code not found"%string)
      | Some promo =>
          if pr_Redeemed promo then (s, Err "promo code already redeemed"%string)
          else match s_campaigns s !! pr_CampaignID promo with
          | None => (s, Err "campaign not found"%string)
          | Some campaign =>
              if expired now campaign then (s, Err "campaign expired"%string)
              else
                let trialEndsAt := add_days now (cp_TrialDays campaign) in
                let redemption := {| rd_Code := code; rd_CampaignID := pr_CampaignID promo; rd_AccountID := accountID;
                                     rd_RedeemedAt := now; rd_TrialEndsAt := trialEndsAt |} in
                if saved then
                  ({| s_campaigns := s_campaigns s; s_promos := <[code := mark_redeemed promo true now]> (s_promos s);
                      s_redemptions := <[code := redemption]> (s_redemptions s) |}, Ok (campaign, trialEndsAt))
                else
                  ({| s_campaigns := s_campaigns s; s_promos := <[code := mark_redeemed promo false zero_time]> (s_promos s);
                      s_redemptions := delete code (<[code := redemption]> (s_redemptions s)) |}, Err "write promo store"%string)
          end
      end)
  end.

Definition GetCampaignStats (s : Store) (campaignID : string) : nat * nat :=
  let mine := filter (fun p => pr_CampaignID p = campaignID) (snd <$> map_to_list (s_promos s)) in
  (length mine, length (filter (fun p => pr_Redeemed p = true) mine)).

Definition ListCampaigns (s : Store) : list Campaign := snd <$> map_to_list (s_campaigns s).
Definition GetRedemptions (s : Store) (campaignID : string) : list Redemption :=
  filter (fun r => rd_CampaignID r = campaignID) (snd <$> map_to_list (s_redemptions s)).
