(* ===== verification/PromoProps.v ===== *)
(** * What promo codes promise

    Generated codes validate, one wrong character or two swapped ones in the
    payload are noticed, and a code is redeemed at most once; but a malformed
    code can crash the validation, and some wrong checksum characters pass. *)

From S2P Require Import Prelude GoStrings GoCrypto Derive Promo.
Local Open Scope Z_scope.

(** ** Codes in three parts *)

(** Validation of a payload, a checksum and the version. *)
Definition validate_parts (payload checksum : string) : option (option string) :=
  match DecodeString (String.append checksum "====") with
  | None => Some None
  | Some (b0 :: b1 :: _) =>
      if Z.land (Z.lor (Z.shiftl b0 8) b1) 65535 =? Z.land (crc24Checksum (bytes_of_string payload)) 65535
      then Some (Some payload) else Some None
  | Some _ => None
  end.

Lemma ValidateCode_parts p q : String.length p = payloadLength -> String.length q = checksumLength ->
  ValidateCode (String.append p (String.append q codeVersion)) = validate_parts p q.
Proof.
  intros Hp Hq. unfold ValidateCode. rewrite !length_app_str, Hp, Hq. change (negb (Nat.eqb (payloadLength + (checksumLength + String.length codeVersion)) codeLength)) with false.
  cbv iota zeta. assert (str_take payloadLength (String.append p (String.append q codeVersion)) = p) as -> by (rewrite <- Hp; apply str_take_app).
  assert (str_drop payloadLength (String.append p (String.append q codeVersion)) = String.append q codeVersion) as ->
    by (rewrite <- Hp; apply str_drop_app).
  assert (str_take checksumLength (String.append q codeVersion) = q) as -> by (rewrite <- Hq; apply str_take_app).
  assert (str_drop (payloadLength + checksumLength) (String.append p (String.append q codeVersion)) = codeVersion) as ->
    by (rewrite app_assoc_str, <- Hp, <- Hq, <- length_app_str; apply str_drop_app).
  done.
Qed.

(** ** Base32 *)

Lemma b32_value_char x : 0 <= x < 32 ->
  b32_value (b32_char x) = Some x /\ Ascii.eqb (b32_char x) "=" = false
  /\ ((byte_of_ascii (b32_char x) =? 10) || (byte_of_ascii (b32_char x) =? 13)) = false /\ upper (b32_char x) = b32_char x.
Proof.
  intros Hx. assert (x ∈ (Z.of_nat <$> seq 0 32)) as Hin.
  { apply list_elem_of_fmap. exists (Z.to_nat x). split; [lia|]. apply elem_of_seq. lia. }
  clear Hx. revert x Hin. apply (proj1 (Forall_forall _ _)). repeat constructor.
Qed.

(** A character of the alphabet is neither padding nor a line break. *)
Lemma b32_value_plain c x : b32_value c = Some x ->
  0 <= x < 32 /\ Ascii.eqb c "=" = false /\ ((byte_of_ascii c =? 10) || (byte_of_ascii c =? 13)) = false.
Proof.
  unfold b32_value. destruct (Ascii.eqb_spec c "=") as [->|_]; [done|]. intros H.
  set (n := byte_of_ascii c) in *. destruct ((65 <=? n) && (n <=? 90)) eqn:E1.
  - injection H as <-. bool_steps. split; [lia|]. split; [done|]. apply orb_false_iff. rewrite !Z.eqb_neq. lia.
  - destruct ((50 <=? n) && (n <=? 55)) eqn:E2; [|done]. injection H as <-. bool_steps. split; [lia|]. split; [done|].
    apply orb_false_iff. rewrite !Z.eqb_neq. lia.
Qed.

Lemma strip_data c x s : b32_value c = Some x -> strip_newlines (String c s) = String c (strip_newlines s).
Proof. intros H. destruct (b32_value_plain _ _ H) as (_ & _ & N). cbn [strip_newlines]. by rewrite N. Qed.

Lemma read_data n acc c x rest : b32_value c = Some x -> read_quantum (S n) acc (String c rest) = read_quantum n (acc ++ [x]) rest.
Proof. intros H. destruct (b32_value_plain _ _ H) as (_ & E & _). cbn [read_quantum]. by rewrite E, H. Qed.

(** Four data characters. *)
Definition two_bytes (x0 x1 x2 x3 : Z) : list Z := take 2 (be_bytes 5 (((((x0 * 32 + x1) * 32 + x2) * 32 + x3)) * 32 ^ 4)).

Lemma decode_four c0 c1 c2 c3 x0 x1 x2 x3 :
  b32_value c0 = Some x0 -> b32_value c1 = Some x1 -> b32_value c2 = Some x2 -> b32_value c3 = Some x3 ->
  DecodeString (String c0 (String c1 (String c2 (String c3 "====")))) = Some (two_bytes x0 x1 x2 x3).
Proof.
  intros H0 H1 H2 H3. unfold DecodeString. erewrite !strip_data by eassumption. change (strip_newlines "====") with "===="%string. cbv zeta.
  cbn [String.length b32_decode]. rewrite (read_data _ _ _ _ _ H0), (read_data _ _ _ _ _ H1), (read_data _ _ _ _ _ H2), (read_data _ _ _ _ _ H3).
  change (read_quantum 4 _ "====") with (Some ([x0; x1; x2; x3], "==="%string, true)). cbv iota. unfold two_bytes, pack_quantum.
  cbn [length app replicate Nat.sub foldl b32_bytes]. do 3 f_equal. lia.
Qed.

Lemma two_bytes_eq x0 x1 x2 x3 (w := ((x0 * 32 + x1) * 32 + x2) * 32 + x3) :
  two_bytes x0 x1 x2 x3 = [w / 4096 mod 256; w / 16 mod 256].
Proof.
  unfold two_bytes, be_bytes. fold w. cbn [seq rev app fmap list_fmap take]. rewrite !Z.shiftr_div_pow2 by lia.
  change (32 ^ 4) with (2 ^ 20). f_equal; [|f_equal]; f_equal.
  - change (2 ^ (8 * Z.of_nat 4)) with (2 ^ 20 * 4096). rewrite (Z.mul_comm w), Z.div_mul_cancel_l by lia. done.
  - change (2 ^ (8 * Z.of_nat 3)) with (2 ^ 20 * 16). rewrite (Z.mul_comm w), Z.div_mul_cancel_l by lia. done.
Qed.

(** Two bytes, encoded in four characters. *)
Definition x_0 (a b : Z) : Z := a / 8.
Definition x_1 (a b : Z) : Z := a mod 8 * 4 + b / 64.
Definition x_2 (a b : Z) : Z := b / 2 mod 32.
Definition x_3 (a b : Z) : Z := b mod 2 * 16.

Lemma encode_two a b : is_byte a -> is_byte b ->
  str_take 4 (EncodeToString [a; b])
  = String (b32_char (x_0 a b)) (String (b32_char (x_1 a b)) (String (b32_char (x_2 a b)) (String (b32_char (x_3 a b)) EmptyString))).
Proof.
  unfold is_byte. intros Ha Hb. unfold EncodeToString. cbn [length b32_encode take drop].
  unfold b32_quantum. cbn [length replicate Nat.sub b32_chars seq fmap list_fmap app string_of_chars].
  assert (be_uint [a; b; 0; 0; 0] = (a * 256 + b) * 2 ^ 24) as -> by (unfold be_uint; cbn [foldl]; lia).
  assert (forall i d, (0 <= i <= 3)%nat -> 2 ^ (24 + d) = 32 ^ (7 - Z.of_nat i) -> 0 <= d ->
    five_bits ((a * 256 + b) * 2 ^ 24) i = (a * 256 + b) / 2 ^ d mod 32) as Hf.
  { intros i d Hi Hd Hd0. unfold five_bits. rewrite <- Hd. rewrite Z.pow_add_r by lia.
    rewrite (Z.mul_comm (a * 256 + b)), Z.div_mul_cancel_l by lia. done. }
  rewrite (Hf 0%nat 11), (Hf 1%nat 6), (Hf 2%nat 1) by (lia || reflexivity).
  assert (five_bits ((a * 256 + b) * 2 ^ 24) 3 = (a * 256 + b) * 16 mod 32) as ->.
  { unfold five_bits. change (32 ^ (7 - Z.of_nat 3)) with (2 ^ 20). change (2 ^ 24) with (16 * 2 ^ 20).
    rewrite Z.mul_assoc, Z.div_mul by lia. done. }
  assert ((a * 256 + b) / 2 ^ 11 mod 32 = x_0 a b) as -> by (unfold x_0; change (2 ^ 11) with 2048; div_lia).
  assert ((a * 256 + b) / 2 ^ 6 mod 32 = x_1 a b) as -> by (unfold x_1; change (2 ^ 6) with 64; div_lia).
  assert ((a * 256 + b) / 2 ^ 1 mod 32 = x_2 a b) as -> by (unfold x_2; change (2 ^ 1) with 2; div_lia).
  assert ((a * 256 + b) * 16 mod 32 = x_3 a b) as -> by (unfold x_3; div_lia).
  done.
Qed.

Lemma x_bounds a b : is_byte a -> is_byte b -> 0 <= x_0 a b < 32 /\ 0 <= x_1 a b < 32 /\ 0 <= x_2 a b < 32 /\ 0 <= x_3 a b < 32.
Proof. unfold is_byte, x_0, x_1, x_2, x_3. intros Ha Hb. div_lia. Qed.

Lemma decode_two a b : is_byte a -> is_byte b -> two_bytes (x_0 a b) (x_1 a b) (x_2 a b) (x_3 a b) = [a; b].
Proof.
  unfold is_byte. intros Ha Hb. rewrite two_bytes_eq.
  assert (((x_0 a b * 32 + x_1 a b) * 32 + x_2 a b) * 32 + x_3 a b = 16 * (a * 256 + b)) as -> by (unfold x_0, x_1, x_2, x_3; div_lia).
  f_equal; [|f_equal].
  - replace (16 * (a * 256 + b) / 4096) with a; [by apply Z.mod_small|]. apply (Z.div_unique _ _ _ (16 * b)); lia.
  - rewrite Z.mul_comm, Z.div_mul by lia. rewrite Z.add_comm, Z.mod_add by lia. by apply Z.mod_small.
Qed.

(** The two checksum bytes are the low sixteen bits of the CRC. *)
Lemma checksum_bytes c :
  Z.land (Z.lor (Z.shiftl (u8 (Z.land (Z.shiftr c 8) 255)) 8) (u8 (Z.land c 255))) 65535 = Z.land c 65535.
Proof.
  assert (forall z, u8 z = Z.land z (Z.ones 8)) as Hu by (intros; unfold u8; by rewrite Z.land_ones by lia).
  change 65535 with (Z.ones 16). change 255 with (Z.ones 8). rewrite !Hu. apply Z.bits_inj'. intros n Hn.
  rewrite !Z.land_spec, Z.lor_spec, Z.shiftl_spec, !Z.land_spec, (Z.testbit_ones 16), (Z.testbit_ones 8 n), (Z.testbit_ones 8 (n - 8)) by lia.
  rewrite (proj2 (Z.leb_le 0 n) Hn). destruct (Z.ltb_spec n 16); cbn [andb]; [|by rewrite !andb_false_r]. rewrite !(andb_true_r (_ || _)), (andb_true_r (Z.testbit c n)).
  destruct (Z.ltb_spec n 8).
  - rewrite (Z.testbit_neg_r _ (n - 8)) by lia. cbn [andb orb]. by rewrite !andb_true_r.
  - rewrite Z.shiftr_spec by lia. replace (n - 8 + 8) with n by lia. rewrite !andb_false_r, orb_false_r.
    destruct (Z.leb_spec 0 (n - 8)), (Z.ltb_spec (n - 8) 8); try lia. cbn [andb]. by rewrite !andb_true_r.
Qed.

Lemma upper_append a b : to_upper (String.append a b) = String.append (to_upper a) (to_upper b).
Proof. induction a as [|c a IH]; [done|]. rewrite !app_cons_str. cbn [to_upper]. rewrite app_cons_str. by rewrite IH. Qed.

(** Text over the alphabet, in upper case. *)
Definition b32_text (s : string) : Prop := exists xs, s = string_of_chars (b32_char <$> xs) /\ Forall (fun x => 0 <= x < 32) xs.

Lemma upper_b32 s : b32_text s -> to_upper s = s.
Proof.
  intros (xs & -> & Hx). induction Hx as [|x xs Hx _ IH]; [done|]. rewrite fmap_cons. cbn [string_of_chars to_upper].
  destruct (b32_value_char x Hx) as (_ & _ & _ & ->). by rewrite IH.
Qed.

Lemma encode_five bs : length bs = 5%nat ->
  b32_text (str_take 8 (EncodeToString bs)) /\ String.length (str_take 8 (EncodeToString bs)) = 8%nat.
Proof.
  intros Hl. destruct bs as [|a [|b [|c [|d [|e []]]]]]; try discriminate. unfold EncodeToString. cbn [length b32_encode take drop].
  unfold b32_quantum. cbn [length replicate Nat.sub b32_chars seq fmap list_fmap app string_of_chars]. rewrite app_nil_r_str.
  set (v := be_uint _). cbn [str_take String.length]. split; [|done].
  exists (five_bits v <$> seq 0 8). split; [done|]. apply Forall_fmap, Forall_true. intros i. apply Z.mod_pos_bound. lia.
Qed.

Lemma checksum_valid p : String.length p = payloadLength ->
  validate_parts p (checksum_text p) = Some (Some p) /\ b32_text (checksum_text p) /\ String.length (checksum_text p) = checksumLength.
Proof.
  intros Hp. unfold checksum_text, checksumLength. set (crc := crc24Checksum (bytes_of_string p)).
  set (a := u8 (Z.land (Z.shiftr crc 8) 255)). set (b := u8 (Z.land crc 255)).
  assert (is_byte a) as Ha by apply u8_byte. assert (is_byte b) as Hb by apply u8_byte.
  rewrite encode_two by done. destruct (x_bounds a b Ha Hb) as (B0 & B1 & B2 & B3). split.
  - unfold validate_parts. fold crc. rewrite !app_cons_str, app_nil_l_str.
    rewrite (decode_four _ _ _ _ _ _ _ _ (proj1 (b32_value_char _ B0)) (proj1 (b32_value_char _ B1))
      (proj1 (b32_value_char _ B2)) (proj1 (b32_value_char _ B3))), decode_two by done.
    unfold a, b. by rewrite checksum_bytes, Z.eqb_refl.
  - split; [|done]. exists [x_0 a b; x_1 a b; x_2 a b; x_3 a b]. split; [done|]. repeat (apply Forall_cons; split; [done|]). constructor.
Qed.

(** A code that is generated for a campaign validates, to its own payload:
    whatever the key derivation delivered, the code has 13 characters and its
    checksum and version are accepted. *)
Theorem generated_code_valid kdf salt campaignID seed bs :
  campaignID <> ""%string -> seed <> ""%string -> kdf (String.append seed campaignID) salt = Some bs -> length bs = payloadBytes ->
  exists code, GenerateCode kdf (Some salt) campaignID seed = Ok code
    /\ String.length code = codeLength /\ ValidateCode code = Some (Some (str_take payloadLength code)).
Proof.
  intros Hc Hs Hk Hl. unfold GenerateCode. rewrite (proj2 (String.eqb_neq _ _) Hc), (proj2 (String.eqb_neq _ _) Hs), Hk.
  destruct (encode_five bs Hl) as [Ht Hlen]. change (str_take 8 (EncodeToString bs)) with (str_take payloadLength (EncodeToString bs)) in *.
  set (p := str_take payloadLength (EncodeToString bs)) in *. destruct (checksum_valid p Hlen) as (Hv & Ht' & Hlen').
  eexists. split; [done|]. rewrite !upper_append, (upper_b32 p Ht), (upper_b32 _ Ht'). change (to_upper codeVersion) with codeVersion. split.
  - by rewrite !length_app_str, Hlen, Hlen'.
  - rewrite ValidateCode_parts by done. rewrite Hv. do 2 f_equal. symmetry. change payloadLength with 8%nat. rewrite <- Hlen at 1. apply str_take_app.
Qed.

(** A code from outside can crash the program: when the checksum is two
    characters of the alphabet and two padding characters, one byte is decoded
    and the second is indexed all the same.  Any payload will do. *)
Theorem malformed_code_panics p c d :
  String.length p = payloadLength -> is_Some (b32_value c) -> is_Some (b32_value d) ->
  ValidateCode (String.append p (String.append (String c (String d "==")) codeVersion)) = None
  /\ forall saved now s account,
       RedeemCode saved now s (String.append p (String.append (String c (String d "==")) codeVersion)) account = None.
Proof.
  intros Hp [x Hx] [y Hy]. assert (ValidateCode (String.append p (String.append (String c (String d "==")) codeVersion)) = None) as Hv.
  { rewrite ValidateCode_parts by done. unfold validate_parts, DecodeString. rewrite !app_cons_str.
    rewrite (strip_data _ _ _ Hx), (strip_data _ _ _ Hy). change (strip_newlines _) with "======"%string. cbv zeta.
    cbn [String.length b32_decode]. rewrite (read_data _ _ _ _ _ Hx), (read_data _ _ _ _ _ Hy).
    change (read_quantum 6 _ "======") with (Some ([x; y], "====="%string, true)). cbv iota.
    unfold pack_quantum. cbn [length b32_bytes]. unfold be_bytes. done. }
  split; [exact Hv|]. intros saved now s account. unfold RedeemCode. by rewrite Hv.
Qed.

(** Not every wrong checksum character is noticed: the last one carries a
    single bit, so each of the sixteen characters with the same bit is accepted
    in its place. *)
Theorem checksum_typo_accepted p c0 c1 c2 x y :
  String.length p = payloadLength -> is_Some (b32_value c0) -> is_Some (b32_value c1) -> is_Some (b32_value c2) ->
  0 <= x < 32 -> 0 <= y < 32 -> x / 16 = y / 16 ->
  ValidateCode (String.append p (String.append (String c0 (String c1 (String c2 (String (b32_char x) "")))) codeVersion))
  = ValidateCode (String.append p (String.append (String c0 (String c1 (String c2 (String (b32_char y) "")))) codeVersion)).
Proof.
  intros Hp [x0 H0] [x1 H1] [x2 H2] Hx Hy Hxy. rewrite !ValidateCode_parts by done. unfold validate_parts. rewrite !app_cons_str, app_nil_l_str.
  rewrite (decode_four _ _ _ _ _ _ _ _ H0 H1 H2 (proj1 (b32_value_char _ Hx))), (decode_four _ _ _ _ _ _ _ _ H0 H1 H2 (proj1 (b32_value_char _ Hy))).
  destruct (b32_value_plain _ _ H0) as (B0 & _ & _), (b32_value_plain _ _ H1) as (B1 & _ & _), (b32_value_plain _ _ H2) as (B2 & _ & _).
  rewrite !two_bytes_eq. set (w := (x0 * 32 + x1) * 32 + x2).
  assert ((w * 32 + x) / 16 = (w * 32 + y) / 16) as E16 by div_lia.
  assert ((w * 32 + x) / 4096 = (w * 32 + y) / 4096) as E4096.
  { change 4096 with (16 * 256). rewrite <- !Z.div_div by lia. by rewrite E16. }
  by rewrite E16, E4096.
Qed.

(** ** Typing errors in the payload *)

Ltac by_bits :=
  apply Z.bits_inj'; intros; rewrite ?Z.lxor_spec, ?Z.land_spec, ?Z.lxor_spec, ?Z.land_spec;
  repeat match goal with |- context [Z.testbit ?a ?n] => destruct (Z.testbit a n) end; reflexivity.

Lemma u32_land z : u32 z = Z.land z (Z.ones 32).
Proof. unfold u32. by rewrite Z.land_ones by lia. Qed.

Lemma lxor_shuffle a b c d : Z.lxor (Z.lxor a b) (Z.lxor c d) = Z.lxor (Z.lxor a c) (Z.lxor b d).
Proof. by_bits. Qed.

Lemma land_lxor a b c : Z.land (Z.lxor a b) c = Z.lxor (Z.land a c) (Z.land b c).
Proof. by_bits. Qed.

Lemma crc24_shift_eq a : crc24_shift a = Z.lxor (u32 (Z.shiftl a 1)) (if Z.testbit a 23 then crc24Polynomial else 0).
Proof.
  assert (Z.land a 8388608 = if Z.testbit a 23 then 8388608 else 0) as E.
  { change 8388608 with (2 ^ 23). apply Z.bits_inj'. intros n Hn. rewrite Z.land_spec, Z.pow2_bits_eqb by lia.
    destruct (Z.eqb_spec 23 n) as [<-|Hne].
    - destruct (Z.testbit a 23); [by rewrite Z.pow2_bits_true|by rewrite Z.bits_0].
    - rewrite andb_false_r. destruct (Z.testbit a 23); [by rewrite Z.pow2_bits_false|by rewrite Z.bits_0]. }
  unfold crc24_shift. rewrite E. destruct (Z.testbit a 23); cbn [negb Z.eqb].
  - rewrite (u32_land (Z.lxor _ _)), land_lxor, (u32_land (Z.shiftl a 1)). f_equal. by_bits.
  - by rewrite Z.lxor_0_r.
Qed.

Lemma crc24_shift_lxor a b : crc24_shift (Z.lxor a b) = Z.lxor (crc24_shift a) (crc24_shift b).
Proof.
  rewrite !crc24_shift_eq, Z.shiftl_lxor, !u32_land, land_lxor, Z.lxor_spec. rewrite (lxor_shuffle (Z.land (Z.shiftl a 1) _)). f_equal.
  by destruct (Z.testbit a 23), (Z.testbit b 23).
Qed.

(** The shifts of a byte, on a difference. *)
Definition shift8 (d : Z) : Z := Nat.iter 8 crc24_shift d.

Lemma shift8_lxor a b : shift8 (Z.lxor a b) = Z.lxor (shift8 a) (shift8 b).
Proof. unfold shift8. generalize 8%nat. intros n. induction n as [|n IH]; [done|]. rewrite !Nat.iter_succ. by rewrite IH, crc24_shift_lxor. Qed.

Lemma crc24_byte_lxor a d x y : crc24_byte (Z.lxor a d) (Z.lxor x y) = Z.lxor (crc24_byte a x) (shift8 (Z.lxor d (u32 (Z.shiftl y 16)))).
Proof.
  unfold crc24_byte. fold (shift8 (Z.lxor (Z.lxor a d) (u32 (Z.shiftl (Z.lxor x y) 16)))). fold (shift8 (Z.lxor a (u32 (Z.shiftl x 16)))).
  rewrite <- shift8_lxor. apply (f_equal shift8). rewrite Z.shiftl_lxor, !u32_land, land_lxor. apply lxor_shuffle.
Qed.

(** How a difference moves through the rest of the data. *)
Lemma crc24_rest a d xs : foldl crc24_byte (Z.lxor a d) xs = Z.lxor (foldl crc24_byte a xs) (Nat.iter (length xs) shift8 d).
Proof.
  revert a d. induction xs as [|x xs IH]; intros a d; [done|]. cbn [foldl length].
  rewrite <- (Z.lxor_0_r x) at 1. rewrite crc24_byte_lxor. change (u32 (Z.shiftl 0 16)) with 0. rewrite Z.lxor_0_r, IH. f_equal.
  by rewrite Nat.iter_succ_r.
Qed.

(** The differences a wrong byte, and two swapped bytes, leave after them. *)
Definition one_byte (e : Z) : Z := shift8 (u32 (Z.shiftl e 16)).
Definition two_swapped (e : Z) : Z := shift8 (Z.lxor (one_byte e) (u32 (Z.shiftl e 16))).

(** A difference shows in the low sixteen bits, now and after up to [k] more
    bytes. *)
Fixpoint noticed (k : nat) (d : Z) : bool :=
  negb (Z.land d 65535 =? 0) && match k with O => true | S k => noticed k (shift8 d) end.

Lemma noticed_spec k d j : noticed k d = true -> (j <= k)%nat -> Z.land (Nat.iter j shift8 d) 65535 <> 0.
Proof.
  revert d j. induction k as [|k IH]; intros d j; cbn [noticed]; intros H Hj; bool_steps.
  - by assert (j = 0)%nat as -> by lia.
  - destruct j as [|j]; [done|]. rewrite Nat.iter_succ_r. apply IH; [done|lia].
Qed.

Lemma differences_noticed d : d = one_byte \/ d = two_swapped ->
  forall k e, (k <= 7)%nat -> 0 < e < 256 -> Z.land (Nat.iter k shift8 (d e)) 65535 <> 0.
Proof.
  intros Hd. assert (forallb (fun e => noticed 7 (d (Z.of_nat (S e)))) (seq 0 255) = true) as H
    by (destruct Hd as [-> | ->]; vm_compute; reflexivity).
  intros k e Hk He. rewrite forallb_forall in H. specialize (H (Z.to_nat (e - 1)) ltac:(apply in_seq; lia)). cbv beta in H.
  replace (Z.of_nat (S (Z.to_nat (e - 1)))) with e in H by lia. by apply (noticed_spec 7).
Qed.

Lemma lxor_diff a b : Z.lxor a (Z.lxor a b) = b.
Proof. by_bits. Qed.

Lemma byte_diff a b : is_byte a -> is_byte b -> a <> b -> 0 < Z.lxor a b < 256.
Proof.
  unfold is_byte. intros Ha Hb Hne. assert (0 <= Z.lxor a b) by (apply Z.lxor_nonneg; lia).
  assert (Z.lxor a b <> 0) by (rewrite Z.lxor_eq_0_iff; done). split; [lia|].
  change 256 with (2 ^ 8). apply Z.log2_lt_pow2; [lia|]. apply (Z.le_lt_trans _ (Z.max (Z.log2 a) (Z.log2 b))); [by apply Z.log2_lxor; lia|].
  apply Z.max_lub_lt; (destruct (Z.eq_dec a 0) as [->|]; destruct (Z.eq_dec b 0) as [->|]; cbn; try lia; apply Z.log2_lt_pow2; lia).
Qed.

(** The low sixteen bits of the CRC. *)
Definition crc16 (p : list Z) : Z := Z.land (crc24Checksum p) 65535.

Lemma crc16_eq p : crc16 p = Z.land (foldl crc24_byte crc24Init p) 65535.
Proof.
  unfold crc16, crc24Checksum. rewrite <- Z.land_assoc. done.
Qed.

Lemma crc16_diff a d xs : Z.land (Nat.iter (length xs) shift8 d) 65535 <> 0 ->
  Z.land (foldl crc24_byte (Z.lxor a d) xs) 65535 <> Z.land (foldl crc24_byte a xs) 65535.
Proof.
  intros Hd. rewrite crc24_rest, land_lxor. intros E. apply Hd.
  rewrite <- (lxor_diff (Z.land (foldl crc24_byte a xs) 65535) (Z.land (Nat.iter (length xs) shift8 d) 65535)), E. apply Z.lxor_nilpotent.
Qed.

Lemma byte_substituted s a b : crc24_byte s b = Z.lxor (crc24_byte s a) (one_byte (Z.lxor a b)).
Proof.
  pose proof (crc24_byte_lxor s 0 a (Z.lxor a b)) as E. rewrite lxor_diff, Z.lxor_0_r, Z.lxor_0_l in E. exact E.
Qed.

(** One wrong byte, and two neighbours swapped. *)
Lemma substitution_noticed p q a b : is_byte a -> is_byte b -> a <> b -> (length q <= 7)%nat -> crc16 (p ++ b :: q) <> crc16 (p ++ a :: q).
Proof.
  intros Ha Hb Hne Hq. rewrite !crc16_eq, !foldl_app. cbn [foldl]. set (s := foldl crc24_byte crc24Init p).
  rewrite (byte_substituted s a b).
  apply crc16_diff, differences_noticed; [by left|done|by apply byte_diff].
Qed.

Lemma transposition_noticed p q a b : is_byte a -> is_byte b -> a <> b -> (length q <= 7)%nat ->
  crc16 (p ++ b :: a :: q) <> crc16 (p ++ a :: b :: q).
Proof.
  intros Ha Hb Hne Hq. rewrite !crc16_eq, !foldl_app. cbn [foldl]. set (s := foldl crc24_byte crc24Init p).
  assert (crc24_byte (crc24_byte s b) a = Z.lxor (crc24_byte (crc24_byte s a) b) (two_swapped (Z.lxor a b))) as ->.
  { rewrite (byte_substituted s a b).
    pose proof (crc24_byte_lxor (crc24_byte s a) (one_byte (Z.lxor a b)) b (Z.lxor a b)) as E.
    assert (Z.lxor b (Z.lxor a b) = a) as Eb by by_bits. rewrite Eb in E. exact E. }
  apply crc16_diff, differences_noticed; [by right|done|by apply byte_diff].
Qed.

Lemma str_drop_plus n k s : str_drop (n + k) s = str_drop k (str_drop n s).
Proof. revert s. induction n as [|n IH]; intros s; [done|]. destruct s as [|c s]; [by destruct k|]. exact (IH s). Qed.

Definition valid (code : string) : Prop := exists payload, ValidateCode code = Some (Some payload).

(** What follows the payload fixes the checksum. *)
Lemma valid_crc p p' r : String.length p = payloadLength -> String.length p' = payloadLength ->
  valid (String.append p r) -> valid (String.append p' r) -> crc16 (bytes_of_string p) = crc16 (bytes_of_string p').
Proof.
  assert (forall p, String.length p = payloadLength -> valid (String.append p r) ->
    match DecodeString (String.append (str_take checksumLength r) "====") with
    | Some (b0 :: b1 :: _) => Z.land (Z.lor (Z.shiftl b0 8) b1) 65535 = crc16 (bytes_of_string p)
    | _ => False
    end) as Hv.
  { clear p p'. intros p Hp [payload H]. unfold ValidateCode in H. destruct (negb (Nat.eqb _ _)); [done|]. cbv zeta in H.
    rewrite (str_drop_plus payloadLength checksumLength) in H. rewrite <- Hp, str_take_app, str_drop_app in H.
    destruct (negb (String.eqb _ _)); [done|]. destruct (DecodeString _) as [[|b0 [|b1 bs]]|]; try done. unfold crc16.
    destruct (Z.eqb_spec (Z.land (Z.lor (Z.shiftl b0 8) b1) 65535) (Z.land (crc24Checksum (bytes_of_string p)) 65535)); done. }
  intros Hp Hp' H1%Hv H2%Hv; try done. destruct (DecodeString _) as [[|b0 [|b1 bs]]|]; try done. congruence.
Qed.

Lemma bytes_append a b : bytes_of_string (String.append a b) = bytes_of_string a ++ bytes_of_string b.
Proof. induction a as [|c a IH]; [done|]. rewrite app_cons_str. change (bytes_of_string (String ?x ?y)) with (byte_of_ascii x :: bytes_of_string y). by rewrite IH. Qed.

Lemma bytes_length s : length (bytes_of_string s) = String.length s.
Proof. induction s as [|c s IH]; [done|]. change (bytes_of_string (String c s)) with (byte_of_ascii c :: bytes_of_string s). cbn [length String.length]. by rewrite IH. Qed.

(** The checksum notices the usual typing errors in the payload: with the
    rest of the code unchanged, a code with one payload character replaced, or
    with two neighbouring ones swapped, is never valid when the original is. *)
Theorem payload_typos_detected p q r c d : c <> d ->
  (String.length p + S (String.length q) = payloadLength)%nat ->
  ~ (valid (String.append (String.append p (String c q)) r) /\ valid (String.append (String.append p (String d q)) r))
  /\ forall q', q = String d q' ->
       ~ (valid (String.append (String.append p (String c (String d q'))) r) /\ valid (String.append (String.append p (String d (String c q'))) r)).
Proof.
  intros Hne Hl. assert (byte_of_ascii c <> byte_of_ascii d) as Hb by (intros E; apply Hne; by apply (f_equal ascii_of_byte) in E; rewrite !ascii_byte_roundtrip in E).
  assert (length (bytes_of_string q) = String.length q) as Hlq by apply bytes_length.
  split.
  - intros [H1 H2]. assert (crc16 (bytes_of_string (String.append p (String d q))) = crc16 (bytes_of_string (String.append p (String c q)))) as E.
    { apply (valid_crc _ _ r); [..|exact H2|exact H1]; rewrite length_app_str; exact Hl. }
    rewrite !bytes_append in E. revert E. apply (substitution_noticed (bytes_of_string p) (bytes_of_string q)); [apply byte_of_ascii_range..|done|]. rewrite Hlq. unfold payloadLength in Hl. lia.
  - intros q' -> [H1 H2]. cbn [String.length] in *.
    assert (crc16 (bytes_of_string (String.append p (String d (String c q')))) = crc16 (bytes_of_string (String.append p (String c (String d q'))))) as E.
    { apply (valid_crc _ _ r); [..|exact H2|exact H1]; rewrite length_app_str; exact Hl. }
    rewrite !bytes_append in E. revert E. apply (transposition_noticed (bytes_of_string p) (bytes_of_string q')); [apply byte_of_ascii_range..|done|].
    rewrite bytes_length. unfold payloadLength in Hl. lia.
Qed.

(** ** Redemption *)

Inductive promo_op :=
| OpCampaign (saved : bool) (now : Time) (id name source : string) (trialDays nodeLimit : Z) (expiresAt : Time)
| OpGenerate (saved : bool) (now : Time) (campaignID : string) (generated : result string)
| OpRedeem (saved : bool) (now : Time) (code accountID : string).

(** The store after an operation, and the code it redeemed; [None] is a panic. *)
Definition promo_step (s : Store) (op : promo_op) : option (Store * option string) :=
  match op with
  | OpCampaign saved now id name source trialDays nodeLimit expiresAt =>
      Some ((CreateCampaign saved now s id name source trialDays nodeLimit expiresAt).1, None)
  | OpGenerate saved now campaignID generated => Some ((GeneratePromo saved now s campaignID generated).1, None)
  | OpRedeem saved now code accountID =>
      match RedeemCode saved now s code accountID with
      | None => None
      | Some (s', Ok _) => Some (s', Some code)
      | Some (s', Err _) => Some (s', None)
      end
  end.

(** The codes redeemed by a run, in order. *)
Fixpoint promo_run (s : Store) (ops : list promo_op) : option (Store * list string) :=
  match ops with
  | [] => Some (s, [])
  | op :: rest =>
      '(s1, r) ← promo_step s op; '(s2, rs) ← promo_run s1 rest;
      Some (s2, match r with Some code => code :: rs | None => rs end)
  end.

(** Every code is filed under itself, belongs to a campaign, and is marked when
    and only when there is a redemption, of the same campaign; an unused code
    has no time of redemption. *)
Definition store_ok (s : Store) : Prop :=
  (forall id c, s_campaigns s !! id = Some c -> cp_ID c = id)
  /\ (forall code p, s_promos s !! code = Some p ->
        pr_Code p = code /\ is_Some (s_campaigns s !! pr_CampaignID p) /\ (pr_Redeemed p = false -> pr_RedeemedAt p = zero_time)
        /\ match s_redemptions s !! code with
           | Some r => pr_Redeemed p = true /\ rd_CampaignID r = pr_CampaignID p
           | None => pr_Redeemed p = false
           end)
  /\ (forall code r, s_redemptions s !! code = Some r -> rd_Code r = code /\ is_Some (s_promos s !! code)).

(** An operation whose file could not be written has no effect. *)
Definition failed_save (op : promo_op) : bool :=
  match op with
  | OpCampaign saved _ _ _ _ _ _ _ | OpGenerate saved _ _ _ | OpRedeem saved _ _ _ => negb saved
  end.

Lemma mark_unredeemed p : pr_Redeemed p = false -> pr_RedeemedAt p = zero_time -> mark_redeemed p false zero_time = p.
Proof. destruct p. cbn. by intros -> ->. Qed.

Lemma promo_step_ok s op s' r : store_ok s -> promo_step s op = Some (s', r) ->
  store_ok s' /\ (failed_save op = true -> s' = s /\ r = None)
  /\ (forall code, is_Some (s_redemptions s' !! code) <-> is_Some (s_redemptions s !! code) \/ r = Some code)
  /\ (forall code, r = Some code -> s_redemptions s !! code = None).
Proof.
  intros Hok. assert (forall r' : option string, r' = None -> store_ok s /\ (failed_save op = true -> s = s /\ r' = None)
    /\ (forall code, is_Some (s_redemptions s !! code) <-> is_Some (s_redemptions s !! code) \/ r' = Some code)
    /\ (forall code, r' = Some code -> s_redemptions s !! code = None)) as Hsame.
  { intros r' ->. split; [done|]. split; [done|]. split; [|done]. intros code. naive_solver. }
  destruct Hok as (H1 & H2 & H3).
  destruct op as [saved now id name source days limit exp|saved now cid gen|saved now code acc]; cbn [promo_step failed_save].
  - unfold CreateCampaign. destruct (s_campaigns s !! id) as [c|] eqn:Ec; [intros [= <- <-]; by apply Hsame|].
    destruct (String.eqb name ""); [intros [= <- <-]; by apply Hsame|]. destruct (days <=? 0); [intros [= <- <-]; by apply Hsame|].
    destruct (limit <=? 0); [intros [= <- <-]; by apply Hsame|]. destruct saved; cbn [fst]; intros [= <- <-].
    + split; [|split; [done|split; [intros; cbn [s_redemptions]; naive_solver|done]]].
      split; [|split; [|exact H3]]; cbn [s_campaigns s_promos s_redemptions].
      * intros id' c'. rewrite lookup_insert. case_decide as E; [intros [= <-]; exact E|apply H1].
      * intros code p Hp. destruct (H2 code p Hp) as (A & B & C & D). split; [done|]. split; [|done]. rewrite lookup_insert. by case_decide.
    + rewrite delete_insert_id by done. destruct s. cbn. by apply Hsame.
  - unfold GeneratePromo. destruct (s_campaigns s !! cid) as [c|] eqn:Ec; [|intros [= <- <-]; by apply Hsame].
    destruct (expired now c); [intros [= <- <-]; by apply Hsame|]. destruct gen as [code|]; [|intros [= <- <-]; by apply Hsame].
    destruct (s_promos s !! code) as [p|] eqn:Ep; [intros [= <- <-]; by apply Hsame|]. destruct saved; cbn [fst]; intros [= <- <-].
    + split; [|split; [done|split; [intros; cbn [s_redemptions]; naive_solver|done]]].
      split; [exact H1|]. split; cbn [s_campaigns s_promos s_redemptions].
      * intros code' p'. rewrite lookup_insert. case_decide as E; [|apply H2]. intros [= <-]. subst code'. cbn [pr_Code pr_CampaignID pr_Redeemed pr_RedeemedAt].
        split; [done|]. split; [by rewrite Ec|]. split; [done|]. destruct (s_redemptions s !! code) as [r'|] eqn:Er; [|done].
        destruct (H3 _ _ Er) as [_ [p' Hp']]. congruence.
      * intros code' r' Hr. destruct (H3 _ _ Hr) as [A B]. split; [done|]. rewrite lookup_insert. by case_decide.
    + rewrite delete_insert_id by done. destruct s. cbn. by apply Hsame.
  - unfold RedeemCode. destruct (ValidateCode code) as [[payload|]|]; [|intros [= <- <-]; by apply Hsame|done].
    destruct (s_promos s !! code) as [p|] eqn:Ep; [|intros [= <- <-]; by apply Hsame]. destruct (H2 _ _ Ep) as (A & B & C & D).
    destruct (pr_Redeemed p) eqn:Er; [intros [= <- <-]; by apply Hsame|].
    destruct (s_campaigns s !! pr_CampaignID p) as [c|] eqn:Ec; [|intros [= <- <-]; by apply Hsame].
    destruct (expired now c); [intros [= <- <-]; by apply Hsame|].
    destruct (s_redemptions s !! code) as [r'|] eqn:Erd; [by destruct D|]. destruct saved; intros [= <- <-].
    + split; [|split; [done|split; cbn [s_redemptions]]].
      * split; [exact H1|]. split; cbn [s_campaigns s_promos s_redemptions].
        { intros code' p'. rewrite lookup_insert. case_decide as E.
          - intros [= <-]. subst code'. rewrite lookup_insert_eq. cbn. by rewrite Ec.
          - intros Hp. rewrite lookup_insert_ne by done. by apply H2. }
        { intros code' r'. rewrite lookup_insert. case_decide as E.
          - intros [= <-]. subst code'. split; [done|]. by rewrite lookup_insert_eq.
          - intros Hr. rewrite lookup_insert_ne by done. by apply H3. }
      * intros code'. rewrite lookup_insert. case_decide as E; [subst; naive_solver|]. naive_solver.
      * intros code' [= <-]. done.
    + rewrite delete_insert_id by done. rewrite (mark_unredeemed p Er (C eq_refl)), insert_id by done. destruct s. cbn. by apply Hsame.
Qed.

Lemma promo_run_ok ops s0 s rs : store_ok s0 -> promo_run s0 ops = Some (s, rs) ->
  store_ok s /\ NoDup rs /\ (forall code, code ∈ rs -> s_redemptions s0 !! code = None)
  /\ (forall code, is_Some (s_redemptions s !! code) <-> is_Some (s_redemptions s0 !! code) \/ code ∈ rs).
Proof.
  revert s0 rs. induction ops as [|op ops IH]; intros s0 rs Hok; cbn [promo_run].
  { intros [= <- <-]. split; [done|]. split; [constructor|]. split; [by intros code ?%not_elem_of_nil|].
    intros code. rewrite elem_of_nil. tauto. }
  destruct (promo_step s0 op) as [[s1 r]|] eqn:E1; [|done]. cbn [mbind option_bind].
  destruct (promo_run s1 ops) as [[s2 rs2]|] eqn:E2; [|done]. cbn [mbind option_bind]. intros [= <- <-].
  destruct (promo_step_ok _ _ _ _ Hok E1) as (Hok1 & _ & Hred & Hnew). destruct (IH _ _ Hok1 E2) as (Hok2 & Hnd & Hfresh & Hall).
  assert (forall code, code ∈ rs2 -> s_redemptions s0 !! code = None) as Hback.
  { intros code Hc. apply eq_None_not_Some. intros Hs. apply (eq_None_not_Some (s_redemptions s1 !! code)); [by apply Hfresh|]. apply Hred. by left. }
  split; [done|]. destruct r as [code|].
  - split; [|split].
    + constructor; [|done]. intros Hin. apply (eq_None_not_Some (s_redemptions s1 !! code)); [by apply Hfresh|]. apply Hred. by right.
    + intros code' [->|Hin]%elem_of_cons; [by apply Hnew|by apply Hback].
    + intros code'. rewrite Hall, Hred, elem_of_cons. naive_solver.
  - split; [done|]. split; [done|]. intros code. rewrite Hall, Hred. naive_solver.
Qed.

(** A code is redeemed at most once: over any sequence of operations on the
    store, with the file failing to be written at any of them, no code is
    redeemed twice, the redemptions on record are exactly the successful ones,
    every code is marked if and only if it was redeemed, and an operation whose
    file could not be written changes nothing. *)
Theorem redeemed_once ops s rs : promo_run empty_store ops = Some (s, rs) ->
  NoDup rs /\ (forall code, code ∈ rs <-> is_Some (s_redemptions s !! code)) /\ store_ok s
  /\ forall op s' r, failed_save op = true -> promo_step s op = Some (s', r) -> s' = s /\ r = None.
Proof.
  intros Hr. assert (store_ok empty_store) as H0.
  { split; [|split]; intros k v Hl; exfalso; exact (lookup_empty_Some k v Hl). }
  destruct (promo_run_ok ops empty_store s rs H0 Hr) as (Hok & Hnd & _ & Hall). split; [done|]. split.
  - intros code. rewrite Hall. unfold empty_store. cbn [s_redemptions]. rewrite lookup_empty. split; [by right|]. by intros [[]|].
  - split; [done|]. intros op s' r Hf Hs. by apply (promo_step_ok s op s' r Hok Hs).
Qed.

(** ** Samples *)

Definition sample_code : string := "AEBAGBAF6UWAA".
Definition sample_promo_ops : list promo_op :=
  [OpCampaign true (time_unix 1000) "c" "spring" "discord" 30 5 zero_time; OpGenerate true (time_unix 1001) "c" (Ok sample_code);
   OpRedeem false (time_unix 1002) sample_code "a"; OpRedeem true (time_unix 1003) sample_code "a";
   OpRedeem true (time_unix 1004) sample_code "b"]%string.

Lemma redeemed_once_witness :
  exists s, promo_run empty_store sample_promo_ops = Some (s, [sample_code]) /\ NoDup [sample_code] /\ store_ok s.
Proof.
  assert (match promo_run empty_store sample_promo_ops with Some p => p.2 = [sample_code] | None => False end) as Hrun
    by (vm_compute; reflexivity).
  destruct (promo_run empty_store sample_promo_ops) as [[s rs]|] eqn:E; [|destruct Hrun]. cbn [snd] in Hrun. subst rs.
  destruct (redeemed_once sample_promo_ops s [sample_code] E) as (H1 & _ & H2 & _). exists s. split; [reflexivity|]. exact (conj H1 H2).
Defined.

Lemma generated_code_valid_witness :
  exists code, GenerateCode (fun _ _ => Some [1; 2; 3; 4; 5]) (Some []) "c" "s" = Ok code
    /\ String.length code = codeLength /\ ValidateCode code = Some (Some (str_take payloadLength code)).
Proof. apply (generated_code_valid (fun _ _ => Some [1; 2; 3; 4; 5]) [] "c" "s" [1; 2; 3; 4; 5]); [discriminate|discriminate|reflexivity|reflexivity]. Defined.

Lemma malformed_code_panics_witness : ValidateCode "AAAAAAAAAB==A" = None.
Proof.
  apply (malformed_code_panics "AAAAAAAA" "A" "B"); [reflexivity|vm_compute; eexists; reflexivity|vm_compute; eexists; reflexivity].
Defined.

Lemma payload_typos_detected_witness : valid sample_code /\ ~ valid "AEBAGBAG6UWAA"%string.
Proof.
  assert (valid sample_code) as Hv by (exists "AEBAGBAF"%string; vm_compute; reflexivity). split; [exact Hv|]. intros Hbad.
  assert ("F"%char <> "G"%char) as Hne by discriminate.
  exact (proj1 (payload_typos_detected "AEBAGBA" "" "6UWAA" "F" "G" Hne eq_refl) (conj Hv Hbad)).
Defined.

Lemma checksum_typo_accepted_witness : ValidateCode "AEBAGBAF6UWBA" = ValidateCode sample_code.
Proof.
  apply (checksum_typo_accepted "AEBAGBAF" "6" "U" "W" 1 0);
    [reflexivity|vm_compute; eexists; reflexivity|vm_compute; eexists; reflexivity|vm_compute; eexists; reflexivity|lia|lia|reflexivity].
Defined.
