(* ===== verification/PromoFile.v ===== *)
(** * The file of the promo store (pkg/promo/store.go: load, save)

    The three maps are written as lists, in whatever order Go visits a map, and
    read back into maps.  [zone] is the offset with which a time is printed; the
    file itself is replaced by the sequence of calls of Atomic.v. *)

From S2P Require Import Prelude GoStrings GoTime GoJson GoTimeJson Atomic Promo PromoProps.
Local Open Scope wgmesh_scope.

Section file.
Context (zone : Time -> Z).

Definition promo_time (t : Time) : json := time_json_at (zone t) t.

Definition campaign_json (c : Campaign) : json :=
  JObj ([("ID"%string, JStr (cp_ID c))] ++ [("Name"%string, JStr (cp_Name c))] ++ [("Source"%string, JStr (cp_Source c))]
        ++ [("CodePrefix"%string, JStr (cp_CodePrefix c))] ++ [("CreatedAt"%string, promo_time (cp_CreatedAt c))]
        ++ [("ExpiresAt"%string, promo_time (cp_ExpiresAt c))] ++ [("TrialDays"%string, jint (cp_TrialDays c))]
        ++ [("NodeLimit"%string, jint (cp_NodeLimit c))]).
Definition promo_json (p : Promo) : json :=
  JObj ([("Code"%string, JStr (pr_Code p))] ++ [("CampaignID"%string, JStr (pr_CampaignID p))]
        ++ [("Redeemed"%string, JBool (pr_Redeemed p))] ++ [("RedeemedAt"%string, promo_time (pr_RedeemedAt p))]
        ++ [("CreatedAt"%string, promo_time (pr_CreatedAt p))]).
Definition redemption_json (r : Redemption) : json :=
  JObj ([("Code"%string, JStr (rd_Code r))] ++ [("CampaignID"%string, JStr (rd_CampaignID r))]
        ++ [("AccountID"%string, JStr (rd_AccountID r))] ++ [("RedeemedAt"%string, promo_time (rd_RedeemedAt r))]
        ++ [("TrialEndsAt"%string, promo_time (rd_TrialEndsAt r))]).

(** A pointer: [null] is nil. *)
Definition dec_pointer {A} (dec : list (string * json) -> option A) (v : json) : option (option A) :=
  match v with JNull => Some None | JObj ms => Some <$> dec ms | _ => None end.

Definition time_field := field dec_time keep zero_time.

Definition dec_campaign (ms : list (string * json)) : option Campaign :=
  i ← str_field "ID" ms; n ← str_field "Name" ms; s ← str_field "Source" ms; x ← str_field "CodePrefix" ms;
  c ← time_field "CreatedAt" ms; e ← time_field "ExpiresAt" ms; t ← int_field "TrialDays" ms; l ← int_field "NodeLimit" ms;
  Some {| cp_ID := i; cp_Name := n; cp_Source := s; cp_CodePrefix := x; cp_CreatedAt := c; cp_ExpiresAt := e; cp_TrialDays := t; cp_NodeLimit := l |}.
Definition dec_promo (ms : list (string * json)) : option Promo :=
  c ← str_field "Code" ms; i ← str_field "CampaignID" ms; r ← bool_field "Redeemed" ms; ra ← time_field "RedeemedAt" ms;
  ca ← time_field "CreatedAt" ms;
  Some {| pr_Code := c; pr_CampaignID := i; pr_Redeemed := r; pr_RedeemedAt := ra; pr_CreatedAt := ca |}.
Definition dec_redemption (ms : list (string * json)) : option Redemption :=
  c ← str_field "Code" ms; i ← str_field "CampaignID" ms; a ← str_field "AccountID" ms; ra ← time_field "RedeemedAt" ms;
  te ← time_field "TrialEndsAt" ms;
  Some {| rd_Code := c; rd_CampaignID := i; rd_AccountID := a; rd_RedeemedAt := ra; rd_TrialEndsAt := te |}.

(** What is serialized. *)
Record storeData := { sd_Campaigns : list Campaign; sd_Promos : list Promo; sd_Redemptions : list Redemption }.

Definition store_json (sd : storeData) : json :=
  JObj ([("campaigns"%string, JArr (campaign_json <$> sd_Campaigns sd))] ++ [("promos"%string, JArr (promo_json <$> sd_Promos sd))]
        ++ [("redemptions"%string, JArr (redemption_json <$> sd_Redemptions sd))]).

(** The lists decoded, with nil for [null]. *)
Definition dec_store (v : json) : option (list (option Campaign) * list (option Promo) * list (option Redemption)) :=
  match v with
  | JObj ms =>
      cs ← list_field (dec_pointer dec_campaign) "campaigns" ms; ps ← list_field (dec_pointer dec_promo) "promos" ms;
      rs ← list_field (dec_pointer dec_redemption) "redemptions" ms; Some (cs, ps, rs)
  | JNull => Some ([], [], [])
  | _ => None
  end.

(** The bytes written for the maps visited in the order of [sd]. *)
Definition promo_save (sd : storeData) : string := print_indent (store_json sd).

(** The order in which the maps were visited. *)
Definition visits (s : Store) (sd : storeData) : Prop :=
  sd_Campaigns sd ≡ₚ (map_to_list (s_campaigns s)).*2 /\ sd_Promos sd ≡ₚ (map_to_list (s_promos s)).*2
  /\ sd_Redemptions sd ≡ₚ (map_to_list (s_redemptions s)).*2.

(** A map filled from a list; [None] is the panic on a nil pointer. *)
Definition fill {A} (key : A -> string) (l : list (option A)) : option (gmap string A) :=
  foldl (fun acc x => m ← acc; a ← x; Some (<[key a := a]> m)) (Some ∅) l.

(** [content]: the file, [None] when it does not exist, an error when it cannot
    be read.  The result is [None] for a panic. *)
Definition promo_load (content : result (option string)) : option (result Store) :=
  match content with
  | Err _ => Some (Err "read promo store"%string)
  | Ok None => Some (Ok empty_store)
  | Ok (Some data) =>
      match parse data ≫= dec_store with
      | None => Some (Err "parse promo store"%string)
      | Some (cs, ps, rs) =>
          c ← fill cp_ID cs; p ← fill pr_Code ps; r ← fill rd_Code rs;
          Some (Ok {| s_campaigns := c; s_promos := p; s_redemptions := r |})
      end
  end.

(** ** Reading back *)

(** Texts the file keeps, integers of 64 bits, and times with four digits of year
    and an offset of whole minutes. *)
Definition time_text (t : Time) : Prop := zone_ok (zone t) /\ year_ok (zone t) t.
Definition store_text (s : Store) : Prop :=
  (forall k c, s_campaigns s !! k = Some c ->
     ascii_str (cp_ID c) && ascii_str (cp_Name c) && ascii_str (cp_Source c) && ascii_str (cp_CodePrefix c)
       && int64 (cp_TrialDays c) && int64 (cp_NodeLimit c) = true
     /\ time_text (cp_CreatedAt c) /\ time_text (cp_ExpiresAt c))
  /\ (forall k p, s_promos s !! k = Some p ->
     ascii_str (pr_Code p) && ascii_str (pr_CampaignID p) = true /\ time_text (pr_RedeemedAt p) /\ time_text (pr_CreatedAt p))
  /\ (forall k r, s_redemptions s !! k = Some r ->
     ascii_str (rd_Code r) && ascii_str (rd_CampaignID r) && ascii_str (rd_AccountID r) = true
     /\ time_text (rd_RedeemedAt r) /\ time_text (rd_TrialEndsAt r)).

Lemma time_text_reads t : time_text t -> dec_time (promo_time t) = Some t.
Proof. intros [Hz Hy]. exact (time_reads_at (zone t) t Hz Hy). Qed.
Lemma promo_time_ok t : json_ok (promo_time t) = true.
Proof. exact (time_json_ok (zone t) t). Qed.
Local Opaque promo_time.

Ltac read_times := first [apply time_text_reads; assumption | apply dec_jint; lia].

Lemma pointer_reads {A} (dec : list (string * json) -> option A) ms a : dec ms = Some a -> dec_pointer dec (JObj ms) = Some (Some a).
Proof. cbn [dec_pointer]. by intros ->. Qed.

Lemma campaign_reads s k c : store_text s -> s_campaigns s !! k = Some c ->
  json_ok (campaign_json c) = true /\ dec_pointer dec_campaign (campaign_json c) = Some (Some c).
Proof.
  intros (H & _ & _) Hk. destruct (H k c Hk) as (Ht & H1 & H2). unfold int64 in Ht. bool_steps. split.
  - unfold campaign_json. cbn [json_ok]. rewrite !forallb_app. cbn [forallb fst snd]. rewrite !promo_time_ok. message_ok.
  - apply pointer_reads. unfold dec_campaign, time_field. read_struct read_times. by destruct c.
Qed.

Lemma promo_reads s k p : store_text s -> s_promos s !! k = Some p ->
  json_ok (promo_json p) = true /\ dec_pointer dec_promo (promo_json p) = Some (Some p).
Proof.
  intros (_ & H & _) Hk. destruct (H k p Hk) as (Ht & H1 & H2). bool_steps. split.
  - unfold promo_json. cbn [json_ok]. rewrite !forallb_app. cbn [forallb fst snd]. rewrite !promo_time_ok. message_ok.
  - apply pointer_reads. unfold dec_promo, time_field. read_struct read_times. by destruct p.
Qed.

Lemma redemption_reads s k r : store_text s -> s_redemptions s !! k = Some r ->
  json_ok (redemption_json r) = true /\ dec_pointer dec_redemption (redemption_json r) = Some (Some r).
Proof.
  intros (_ & _ & H) Hk. destruct (H k r Hk) as (Ht & H1 & H2). bool_steps. split.
  - unfold redemption_json. cbn [json_ok]. rewrite !forallb_app. cbn [forallb fst snd]. rewrite !promo_time_ok. message_ok.
  - apply pointer_reads. unfold dec_redemption, time_field. read_struct read_times. by destruct r.
Qed.

(** A list of the values of a map, in any order, fills the map again. *)
Lemma fill_map {A} (key : A -> string) (m : gmap string A) l :
  (forall k a, m !! k = Some a -> key a = k) -> l ≡ₚ (map_to_list m).*2 -> fill key (Some <$> l) = Some m.
Proof.
  intros Hkey Hl. unfold fill.
  assert (forall l (acc : gmap string A), foldl (fun acc x => m ← acc; a ← x; Some (<[key a := a]> m)) (Some acc) (Some <$> l)
            = Some (foldl (fun m a => <[key a := a]> m) acc l)) as ->.
  { clear. induction l as [|a l IH]; intros acc; [done|]. cbn [fmap list_fmap foldl mbind option_bind]. apply IH. }
  f_equal. assert (forall l : list A, foldl (fun (m : gmap string A) a => <[key a := a]> m) ∅ l = list_to_map (rev ((fun a => (key a, a)) <$> l))) as ->.
  { clear. induction l as [|a l IH] using rev_ind; [done|]. rewrite foldl_app, fmap_app, rev_app_distr, IH. done. }
  assert ((fun a => (key a, a)) <$> l ≡ₚ map_to_list m) as Hp.
  { rewrite Hl. rewrite <- list_fmap_compose. transitivity (id <$> map_to_list m); [|by rewrite list_fmap_id].
    erewrite list_fmap_ext; [reflexivity|]. intros i [k a] Hi. cbn. f_equal. apply Hkey. apply elem_of_map_to_list. by eapply list_elem_of_lookup_2. }
  rewrite <- (list_to_map_to_list m). apply list_to_map_proper; [|by rewrite <- Permutation_rev].
  rewrite <- Permutation_rev, Hp. apply NoDup_fst_map_to_list.
Qed.

(** A list of encoded values is valid JSON and read back as non-nil pointers. *)
Lemma list_reads {A} (enc : A -> json) (dec : list (string * json) -> option A) (m : gmap string A) l :
  l ≡ₚ (map_to_list m).*2 ->
  (forall k a, m !! k = Some a -> json_ok (enc a) = true /\ dec_pointer dec (enc a) = Some (Some a)) ->
  json_ok (JArr (enc <$> l)) = true /\ dec_list (dec_pointer dec) (JArr (enc <$> l)) = Some (Some <$> l).
Proof.
  intros Hl Hm. assert (forall a, a ∈ l -> json_ok (enc a) = true /\ dec_pointer dec (enc a) = Some (Some a)) as Ha.
  { intros a Hin. rewrite Hl in Hin. apply list_elem_of_fmap in Hin as ([k a'] & -> & Hin%elem_of_map_to_list). by apply (Hm k). }
  clear Hl Hm. split.
  - cbn [json_ok]. apply forallb_forall. intros x Hx%list_elem_of_In. apply list_elem_of_fmap in Hx as (a & -> & Hin). by apply Ha.
  - cbn [dec_list]. induction l as [|a l IH]; [done|]. cbn [fmap list_fmap mapM]. rewrite (proj2 (Ha a ltac:(by left))). cbn [mbind option_bind].
    rewrite IH by (intros b Hb; apply Ha; by right). done.
Qed.

(** The promo store survives a restart.  Whatever order the maps were visited
    in, loading the file that a save left gives the store back, and at every moment
    of a save, with any of its calls failing, loading gives the new store or what
    was there before. *)
Theorem promo_store_survives path s sd d cs st d' :
  store_ok s -> store_text s -> visits s sd -> disk_ok d ->
  save_run path (promo_save sd) cs (Marshalled, d) = Some (st, d') ->
  promo_load (Ok (read_file d' path))
  = if decide (st = Returned true) then Some (Ok s) else promo_load (Ok (read_file d path)).
Proof.
  intros (K1 & K2 & K3) Ht (V1 & V2 & V3) Hd Hr. destruct (save_atomic _ _ _ _ _ _ Hd Hr) as [-> _]. case_decide; [|done].
  unfold promo_load, promo_save.
  destruct (list_reads campaign_json dec_campaign _ _ V1 (fun k a => campaign_reads s k a Ht)) as [J1 D1].
  destruct (list_reads promo_json dec_promo _ _ V2 (fun k a => promo_reads s k a Ht)) as [J2 D2].
  destruct (list_reads redemption_json dec_redemption _ _ V3 (fun k a => redemption_reads s k a Ht)) as [J3 D3].
  rewrite parse_print_indent by (unfold store_json; cbn [json_ok forallb app fst snd] in *; by rewrite J1, J2, J3).
  cbn [mbind option_bind].
  assert (dec_store (store_json sd) = Some (Some <$> sd_Campaigns sd, Some <$> sd_Promos sd, Some <$> sd_Redemptions sd)) as ->.
  { unfold dec_store, store_json. read_struct ltac:(first [exact D1 | exact D2 | exact D3]). done. }
  rewrite (fill_map _ _ _ K1 V1). cbn [mbind option_bind]. rewrite (fill_map _ (s_promos s) _ (fun k p H => proj1 (K2 k p H)) V2).
  cbn [mbind option_bind]. rewrite (fill_map _ (s_redemptions s) _ (fun k r H => proj1 (K3 k r H)) V3). by destruct s.
Qed.
End file.

(** ** Sample *)

Definition sample_campaign : Campaign :=
  {| cp_ID := "c"; cp_Name := "spring"; cp_Source := "discord"; cp_CodePrefix := ""; cp_CreatedAt := time_unix 1700000000;
     cp_ExpiresAt := zero_time; cp_TrialDays := 30; cp_NodeLimit := 5 |}.
Definition sample_promo : Promo :=
  {| pr_Code := sample_code; pr_CampaignID := "c"; pr_Redeemed := false; pr_RedeemedAt := zero_time; pr_CreatedAt := time_unix 1700000001 |}.
Definition sample_store : Store :=
  {| s_campaigns := {["c"%string := sample_campaign]}; s_promos := {[sample_code := sample_promo]}; s_redemptions := ∅ |}.
Definition sample_data : storeData := {| sd_Campaigns := [sample_campaign]; sd_Promos := [sample_promo]; sd_Redemptions := [] |}.
Definition utc (t : Time) : Z := 0.

Lemma sample_store_ok : store_ok sample_store.
Proof.
  split; [|split]; cbn [s_campaigns s_promos s_redemptions sample_store].
  - by intros id c [<- <-]%lookup_singleton_Some.
  - intros code p [<- <-]%lookup_singleton_Some. rewrite lookup_empty. by repeat split; eauto.
  - intros code r Hr. by rewrite lookup_empty in Hr.
Qed.
Lemma sample_store_text : store_text utc sample_store.
Proof.
  assert (forall t, (0 <=? d_year (civil_of_days ((time_to_unix t + 0) / 86400)))%Z && (d_year (civil_of_days ((time_to_unix t + 0) / 86400)) <=? 9999)%Z = true
            -> time_text utc t) as Ht.
  { intros t H. split; [done|]. unfold year_ok, utc. bool_steps. lia. }
  split; [|split]; cbn [s_campaigns s_promos s_redemptions sample_store].
  - intros k c [<- <-]%lookup_singleton_Some. split; [done|]. split; apply Ht; vm_compute; reflexivity.
  - intros k p [<- <-]%lookup_singleton_Some. split; [done|]. split; apply Ht; vm_compute; reflexivity.
  - intros k r Hr. by rewrite lookup_empty in Hr.
Qed.
Lemma sample_visits : visits sample_store sample_data.
Proof. split; [|split]; reflexivity. Qed.

Lemma promo_store_survives_witness : exists d',
  save_run "promos.json" (promo_save utc sample_data) (all_calls (promo_save utc sample_data)) (Marshalled, empty_disk)
    = Some (Returned true, d')
  /\ promo_load (Ok (read_file d' "promos.json")) = Some (Ok sample_store).
Proof.
  destruct (save_completes "promos.json" (promo_save utc sample_data) empty_disk) as [d' Hd].
  exists d'. split; [exact Hd|].
  pose proof (promo_store_survives utc "promos.json" sample_store sample_data _ _ _ _ sample_store_ok sample_store_text sample_visits empty_disk_ok Hd) as H.
  rewrite decide_True in H by reflexivity. exact H.
Defined.
