(* ===== verification/Referral.v ===== *)
(** * Referral codes (pkg/referral: code.go, tier.go, types.go, mock_store.go)

    Share codes, reward tiers and the in-memory store.  The random bytes and the
    clock are arguments; a map is visited in some order that Go leaves open. *)

From S2P Require Import Prelude GoStrings GoCrypto Derive Promo PromoProps.
Local Open Scope Z_scope.

(** ** Codes *)

Fixpoint trim_right_eq (s : string) : string :=
  match s with
  | EmptyString => EmptyString
  | String c rest => match trim_right_eq rest with
                     | EmptyString => if Ascii.eqb c "=" then EmptyString else String c EmptyString
                     | t => String c t
                     end
  end.

(** [buf]: the ten random bytes, or the failure to read them. *)
Definition Generate (buf : option (list Z)) : result string :=
  match buf with
  | None => Err "rand"
  | Some buf =>
      let encoded := trim_right_eq (EncodeToString buf) in
      let encoded := if Nat.ltb (String.length encoded) 10 then String.append encoded (str_take (10 - String.length encoded) encoded) else encoded in
      Ok (String.append (str_take 5 encoded) (String "-" (str_take 5 (str_drop 5 encoded))))
  end.

Definition code_char (c : ascii) : bool :=
  let n := byte_of_ascii c in ((65 <=? n) && (n <=? 90)) || ((50 <=? n) && (n <=? 55)).

(** A byte that is not ASCII belongs to a rune outside the alphabet. *)
Definition Validate (code : string) : bool :=
  match split_char "-" code with
  | [a; b] => Nat.eqb (String.length a) 5 && Nat.eqb (String.length b) 5 && string_forall code_char a && string_forall code_char b
  | _ => false
  end.

(** ** Tiers *)

Definition TierRegistered : Z := 0.
Definition TierDeployed : Z := 1.
Definition TierWeekActive : Z := 2.
Definition TierMonthActive : Z := 3.
Definition TierSubscribed : Z := 4.

Definition ShouldUpgradeTier (currentTier newTier : Z) : bool := currentTier <? newTier.

(** ** The store *)

Record Referrer := { rf_ID : string; rf_Code : string; rf_CreatedAt : Time; rf_ReferralCount : Z }.
Record Referral := { rl_ReferrerCode : string; rl_RefereeID : string; rl_ConvertedAt : Time; rl_RewardTier : Z }.
Record Reward := { rw_ReferrerID : string; rw_ReferralID : string; rw_Tier : Z; rw_GrantedAt : Time }.
Record MockStore := { ms_Referrers : gmap string Referrer; ms_Referrals : gmap string Referral; ms_Rewards : list Reward }.

Definition NewMockStore : MockStore := {| ms_Referrers := ∅; ms_Referrals := ∅; ms_Rewards := [] |}.

Definition CreateReferrer (m : MockStore) (now : Time) (code : result string) (id : string) : MockStore * result Referrer :=
  match code with
  | Err e => (m, Err e)
  | Ok code =>
      let ref := {| rf_ID := id; rf_Code := code; rf_CreatedAt := now; rf_ReferralCount := 0 |} in
      ({| ms_Referrers := <[id := ref]> (ms_Referrers m); ms_Referrals := ms_Referrals m; ms_Rewards := ms_Rewards m |}, Ok ref)
  end.

(** The key of the referrer that is found. *)
Definition find_code (m : MockStore) (code : string) : option (string * Referrer) :=
  head (filter (fun kr => rf_Code kr.2 = code) (map_to_list (ms_Referrers m))).
Definition GetByCode (m : MockStore) (code : string) : result Referrer :=
  match find_code m code with Some (_, ref) => Ok ref | None => Err "referral: not found" end.
Definition GetByID (m : MockStore) (id : string) : result Referrer :=
  match ms_Referrers m !! id with Some ref => Ok ref | None => Err "referral: not found" end.

Definition RecordReferral (m : MockStore) (now : Time) (referrerCode refereeID : string) : MockStore * result Referral :=
  match find_code m referrerCode with
  | None => (m, Err "referral: not found")
  | Some (id, ref) =>
      let r := {| rl_ReferrerCode := referrerCode; rl_RefereeID := refereeID; rl_ConvertedAt := now; rl_RewardTier := TierRegistered |} in
      ({| ms_Referrers := <[id := {| rf_ID := rf_ID ref; rf_Code := rf_Code ref; rf_CreatedAt := rf_CreatedAt ref;
                                     rf_ReferralCount := rf_ReferralCount ref + 1 |}]> (ms_Referrers m);
          ms_Referrals := <[refereeID := r]> (ms_Referrals m); ms_Rewards := ms_Rewards m |}, Ok r)
  end.

Definition UpdateReferralTier (m : MockStore) (refereeID : string) (tier : Z) : MockStore * result unit :=
  match ms_Referrals m !! refereeID with
  | None => (m, Err "referral: not found")
  | Some r =>
      ({| ms_Referrers := ms_Referrers m;
          ms_Referrals := <[refereeID := {| rl_ReferrerCode := rl_ReferrerCode r; rl_RefereeID := rl_RefereeID r;
                                            rl_ConvertedAt := rl_ConvertedAt r; rl_RewardTier := tier |}]> (ms_Referrals m);
          ms_Rewards := ms_Rewards m |}, Ok tt)
  end.

Definition ListRewards (m : MockStore) (referrerID : string) (limit : Z) : list Reward :=
  if limit <=? 0 then [] else take (Z.to_nat limit) (filter (fun r => rw_ReferrerID r = referrerID) (ms_Rewards m)).

(** ** Generated codes are valid *)

Lemma trim_right_eq_id s : string_forall code_char s = true -> trim_right_eq s = s.
Proof.
  induction s as [|c s IH]; [done|]. cbn [string_forall trim_right_eq]. intros H. bool_steps. rewrite IH by done.
  destruct s; [|done]. destruct (Ascii.eqb_spec c "=") as [->|]; [discriminate|done].
Qed.

Lemma b32_code_char x : 0 <= x < 32 -> code_char (b32_char x) = true.
Proof.
  intros Hx. destruct (b32_value_char x Hx) as (Hv & _). unfold b32_value in Hv. unfold code_char.
  destruct (_ && _); [done|]. destruct (_ && _) eqn:E; [|done]. done.
Qed.

Lemma encode_ten buf : length buf = 10%nat ->
  string_forall code_char (EncodeToString buf) = true /\ String.length (EncodeToString buf) = 16%nat.
Proof.
  intros Hl. destruct buf as [|a [|b [|c [|d [|e [|f [|g [|h [|i [|j []]]]]]]]]]]; try discriminate.
  unfold EncodeToString. cbn [length b32_encode take drop]. rewrite app_nil_r_str.
  assert (forall bs, length bs = 5%nat -> string_forall code_char (b32_quantum bs) = true /\ String.length (b32_quantum bs) = 8%nat) as Hq.
  { intros bs Hb. unfold b32_quantum. rewrite Hb. set (v := be_uint _).
    cbn [b32_chars replicate Nat.sub seq fmap list_fmap app string_of_chars string_forall String.length]. split; [|done].
    rewrite !b32_code_char by (apply Z.mod_pos_bound; lia). done. }
  destruct (Hq [a; b; c; d; e] eq_refl) as [A1 A2], (Hq [f; g; h; i; j] eq_refl) as [B1 B2].
  rewrite string_forall_app, length_app_str, A1, A2, B1, B2. done.
Qed.

(** A share code made from ten random bytes is always accepted. *)
Theorem referral_code_valid buf : length buf = 10%nat -> exists code, Generate (Some buf) = Ok code /\ Validate code = true.
Proof.
  intros Hl. destruct (encode_ten buf Hl) as [Hc Hn]. unfold Generate. rewrite (trim_right_eq_id _ Hc), Hn. cbn [Nat.ltb Nat.leb].
  eexists. split; [done|]. unfold Validate. set (s := EncodeToString buf) in *.
  assert (forall t, string_forall code_char t = true -> contains_char "-" t = false) as Hd by (intros t; by apply forall_not_contains).
  assert (string_forall code_char (str_take 5 s) = true) as H1 by by apply str_take_forall.
  assert (string_forall code_char (str_take 5 (str_drop 5 s)) = true) as H2 by by apply str_take_forall, str_drop_forall.
  rewrite split_char_app, split_char_no_sep by by apply Hd. rewrite !length_str_take, length_str_drop, Hn, H1, H2. done.
Qed.
