(* ===== verification/Cli.v ===== *)
(** * The command line (main.go)

    Which command an argument list selects, the flags of the commands of the
    decentralized mode and what they hand to the daemon, the service installer and
    the referral file.  Printing is left out except where the text is the result.
    [Err] is an exit with a non-zero status; the environment, files, random bytes
    and the clock are arguments. *)

From S2P Require Import Prelude GoStrings GoNet GoCrypto GoJson IfName Derive NodeConfig GoFloat Tokens.
From S2P Require Import GoDuration GoFlag Systemd Atomic Referral.
Local Open Scope wgmesh_scope.

Definition defaultStateDir : string := "/var/lib/wgmesh".

(** ** main *)

Inductive command :=
  | CVersion | CJoin | CInit | CStatus | CTestPeer | CQr | CInstallService | CUninstallService
  | CRotateSecret | CMesh | CPeers | CService | CPilot | CReferral | CLegacy.

#[export] Instance command_eq_dec : EqDecision command.
Proof. solve_decision. Defined.

Definition subcommands : list (string * command) :=
  [("version", CVersion); ("join", CJoin); ("init", CInit); ("status", CStatus); ("test-peer", CTestPeer);
   ("qr", CQr); ("install-service", CInstallService); ("uninstall-service", CUninstallService);
   ("rotate-secret", CRotateSecret); ("mesh", CMesh); ("peers", CPeers); ("service", CService);
   ("pilot", CPilot); ("referral", CReferral)]%string.

(** [args]: the words after the program name. *)
Definition select_command (args : list string) : command :=
  if existsb (fun a => String.eqb a "--version" || String.eqb a "-v") args then CVersion
  else match args with
       | [] => CLegacy
       | a :: _ => default CLegacy (snd <$> List.find (fun c => String.eqb (fst c) a) subcommands)
       end.

(** The centralized mode: its flags, and which one acts when several are given. *)
Definition legacy_flags : FlagSet :=
  [("state", FString); ("add", FString); ("remove", FString); ("list", FBool); ("list-simple", FBool);
   ("deploy", FBool); ("init", FBool); ("network", FString); ("encrypt", FBool)]%string.

Inductive legacy_action :=
  | LInit (network : string) | LAdd (spec : string) | LRemove (name : string)
  | LList | LListSimple | LDeploy | LUsage.

(** How often a password is asked for, the state file, and the action. *)
Definition legacy_plan (args : list string) : result (nat * string * legacy_action) :=
  match parse_flags legacy_flags args ∅ with
  | Err e => Err e
  | Ok (v, _) =>
      let init := get_bool v "init" in
      let asked := if get_bool v "encrypt" then if init then 2%nat else 1%nat else 0%nat in
      let add := get_string v "add" "" in
      let remove := get_string v "remove" "" in
      Ok (asked, get_string v "state" (defaultStateDir ^^ "/mesh-state.json"),
          if init then LInit (get_string v "network" "")
          else if negb (String.eqb add "") then LAdd add
          else if negb (String.eqb remove "") then LRemove remove
          else if get_bool v "list" then LList
          else if get_bool v "list-simple" then LListSimple
          else if get_bool v "deploy" then LDeploy
          else LUsage)
  end.

(** ** join *)

Definition join_flags : FlagSet :=
  [("secret", FString); ("account", FString); ("state-dir", FString); ("advertise-routes", FString);
   ("listen-port", FInt); ("interface", FString); ("log-level", FString); ("privacy", FBool); ("gossip", FBool);
   ("socket-path", FString); ("no-lan-discovery", FBool); ("no-ipv6", FBool); ("force-relay", FBool);
   ("no-punching", FBool); ("introducer", FBool); ("mesh-subnet", FString); ("pprof", FString);
   ("metrics", FString); ("referral", FString)]%string.

(** The flag, else WGMESH_SECRET, else the file WGMESH_SECRET_FILE names. *)
Definition resolve_secret (flag_secret env_secret env_file : string) (read : string -> option string) : result string :=
  if negb (String.eqb flag_secret "") then Ok flag_secret
  else if negb (String.eqb env_secret "") then Ok env_secret
  else if negb (String.eqb env_file "") then
    match read env_file with
    | None => Err "Error reading secret file"
    | Some bytes => let s := trim_space bytes in if String.eqb s "" then Err "--secret is required" else Ok s
    end
  else Err "--secret is required".

Definition parse_routes (text : string) : option (list string) :=
  if String.eqb text "" then None else Some (trim_space <$> split_char "," text).

(** What join does before and with the daemon. *)
Record JoinPlan := {
  jp_opts : DaemonOpts;
  jp_account : string;
  jp_stateDir : string;
  jp_referral : string;
  jp_socket : string;
  jp_pprof : string;
  jp_metrics : string;
}.

Definition join_opts (v : FlagVals) (secret : string) : DaemonOpts :=
  {| o_Secret := secret; o_InterfaceName := get_string v "interface" ""; o_WGListenPort := get_int v "listen-port" 51820;
     o_AdvertiseRoutes := parse_routes (get_string v "advertise-routes" "");
     o_LogLevel := get_string v "log-level" "info"; o_Privacy := get_bool v "privacy"; o_Gossip := get_bool v "gossip";
     o_DisableLANDiscovery := get_bool v "no-lan-discovery"; o_Introducer := get_bool v "introducer";
     o_DisableIPv6 := get_bool v "no-ipv6"; o_ForceRelay := get_bool v "force-relay";
     o_DisablePunching := get_bool v "no-punching"; o_MeshSubnet := get_string v "mesh-subnet" "" |}.

Definition joinCmd (args : list string) (env_secret env_file : string) (read : string -> option string) : result JoinPlan :=
  match parse_flags join_flags args ∅ with
  | Err e => Err e
  | Ok (v, _) =>
      match resolve_secret (get_string v "secret" "") env_secret env_file read with
      | Err e => Err e
      | Ok secret =>
          Ok {| jp_opts := join_opts v secret; jp_account := get_string v "account" "";
                jp_stateDir := get_string v "state-dir" defaultStateDir; jp_referral := get_string v "referral" "";
                jp_socket := get_string v "socket-path" ""; jp_pprof := get_string v "pprof" "";
                jp_metrics := get_string v "metrics" "" |}
      end
  end.

(** ** install-service *)

Definition install_flags : FlagSet :=
  [("secret", FString); ("account", FString); ("state-dir", FString); ("interface", FString); ("listen-port", FInt);
   ("advertise-routes", FString); ("privacy", FBool); ("gossip", FBool); ("no-lan-discovery", FBool);
   ("no-ipv6", FBool); ("force-relay", FBool); ("no-punching", FBool); ("introducer", FBool);
   ("mesh-subnet", FString)]%string.

Definition service_config (v : FlagVals) : SystemdServiceConfig :=
  {| sc_Secret := get_string v "secret" ""; sc_InterfaceName := get_string v "interface" "";
     sc_ListenPort := get_int v "listen-port" 51820;
     sc_AdvertiseRoutes := default [] (parse_routes (get_string v "advertise-routes" ""));
     sc_Privacy := get_bool v "privacy"; sc_Gossip := get_bool v "gossip";
     sc_DisableLANDiscovery := get_bool v "no-lan-discovery"; sc_DisableIPv6 := get_bool v "no-ipv6";
     sc_ForceRelay := get_bool v "force-relay"; sc_DisablePunching := get_bool v "no-punching";
     sc_Introducer := get_bool v "introducer"; sc_MeshSubnet := get_string v "mesh-subnet" "";
     sc_BinaryPath := "" |}.

Definition installServiceCmd (args : list string) : result SystemdServiceConfig :=
  match parse_flags install_flags args ∅ with
  | Err e => Err e
  | Ok (v, _) => if String.eqb (get_string v "secret" "") "" then Err "--secret is required" else Ok (service_config v)
  end.

(** ** qr, rotate-secret *)

Definition qrCmd (args : list string) : result string :=
  match parse_flags [("secret"%string, FString)] args ∅ with
  | Err e => Err e
  | Ok (v, _) =>
      let secret := get_string v "secret" "" in
      if String.eqb secret "" then Err "--secret is required"
      else Ok (if has_prefix secret URIPrefix then secret else FormatSecretURI secret)
  end.

(** The lines of the box: chunks of at most [width], with what pads each. *)
Fixpoint qr_chunks (fuel width : nat) (data : string) : list (string * nat) :=
  match fuel, data with
  | O, _ | _, EmptyString => []
  | S fuel, _ =>
      let chunk := str_take width data in
      (chunk, (width - String.length chunk) * 2)%nat :: qr_chunks fuel width (str_drop width data)
  end.
Definition qr_width (data : string) : nat := Nat.min 40 (String.length data).
Definition printTextQR (data : string) : list (string * nat) := qr_chunks (String.length data) (qr_width data) data.

Definition rotate_flags : FlagSet := [("current", FString); ("new", FString); ("grace", FDuration)]%string.

(** What the command has made when it prints: the announcement, which it does not
    send, the grace period and the URI of the new secret. *)
Record Rotation := { rt_announcement : RotationAnnouncement; rt_grace : string; rt_URI : string }.

(** [random] makes a new secret when none is given. *)
Definition rotateSecretCmd `{Hkdf} (args : list string) (random : option (list Z)) (now : Time) : result Rotation :=
  (parsed <-? parse_flags rotate_flags args ∅;
   let vals := fst parsed in
   let current := get_string vals "current" "" in
   let grace := get_duration vals "grace" (24 * hour)%Z in
   if String.eqb current "" then Err "--current is required"
   else
     newSecret <-? (if String.eqb (get_string vals "new" "") "" then wrap "Failed to generate new secret" (GenerateSecret random)
                    else Ok (get_string vals "new" ""));
     oldKeys <-? wrap "Failed to derive keys from current secret" (DeriveKeys current);
     Ok {| rt_announcement := GenerateRotationAnnouncement (MembershipKey oldKeys) newSecret grace now;
           rt_grace := duration_string grace; rt_URI := FormatSecretURI newSecret |})%wg.

(** ** status *)

Record StatusOutput := {
  so_Interface : string;
  so_NetworkID : string;
  so_MeshSubnet : string;
  so_MeshIPv6Prefix : string;
  so_GossipPort : Z;
  so_RendezvousID : string;
  so_ServiceStatus : string;
}.

Definition nth_byte (bs : list Z) (i : nat) : Z := List.nth i bs 0%Z.
Definition hex2 (b : Z) : string := hex_bytes [b].
Definition formatIPv6Prefix (p : list Z) : string :=
  hex2 (nth_byte p 0) ^^ hex2 (nth_byte p 1) ^^ ":" ^^ hex2 (nth_byte p 2) ^^ hex2 (nth_byte p 3) ^^ ":"
  ^^ hex2 (nth_byte p 4) ^^ hex2 (nth_byte p 5) ^^ ":" ^^ hex2 (nth_byte p 6) ^^ hex2 (nth_byte p 7) ^^ "::/64".

Definition status_flags : FlagSet :=
  [("secret", FString); ("json", FBool); ("interface", FString); ("mesh-subnet", FString)]%string.

Definition subnet_text (n : IPNet) : string := ip_string (net_ip n) ^^ "/" ^^ itoa (mask_size (net_mask n)).1.

Definition status_output (cfg : Config) (service : string) : StatusOutput :=
  {| so_Interface := InterfaceName cfg; so_NetworkID := hex_bytes (take 8 (NetworkID (Keys cfg)));
     so_MeshSubnet := match CustomSubnet cfg with
                      | Some net => subnet_text net
                      | None => "10." ^^ itoa (nth_byte (MeshSubnet (Keys cfg)) 0) ^^ ".0.0/16"
                      end;
     so_MeshIPv6Prefix := formatIPv6Prefix (MeshPrefixV6 (Keys cfg)); so_GossipPort := GossipPort (Keys cfg);
     so_RendezvousID := hex_bytes (RendezvousID (Keys cfg)); so_ServiceStatus := service |}.

Definition status_opts (secret iface subnet : string) : DaemonOpts :=
  {| o_Secret := secret; o_InterfaceName := iface; o_WGListenPort := 0; o_AdvertiseRoutes := None; o_LogLevel := "";
     o_Privacy := false; o_Gossip := false; o_DisableLANDiscovery := false; o_Introducer := false;
     o_DisableIPv6 := false; o_ForceRelay := false; o_DisablePunching := false; o_MeshSubnet := subnet |}.

Definition statusCmd `{Hkdf} (os : goos) (args : list string) (active : option string) : result (bool * StatusOutput) :=
  match parse_flags status_flags args ∅ with
  | Err e => Err e
  | Ok (v, _) =>
      if String.eqb (get_string v "secret" "") "" then Err "--secret is required"
      else (cfg <-? wrap "Failed to create config"
                      (NewConfig os (status_opts (get_string v "secret" "") (get_string v "interface" "") (get_string v "mesh-subnet" "")));
            Ok (get_bool v "json", status_output cfg (ServiceStatus active)))%wg
  end.

(** ** Ages *)

(** [int(d.Seconds())] and the like; [Hours()/24] is a float64 division. *)
Definition duration_minutes (d : Duration) : float64 :=
  f_add (f_of_Z (Z.quot d minute)) (f_div (f_of_Z (Z.rem d minute)) (f_of_Z 60000000000)).
Definition duration_hours (d : Duration) : float64 :=
  f_add (f_of_Z (Z.quot d hour)) (f_div (f_of_Z (Z.rem d hour)) (f_of_Z 3600000000000)).
Definition formatDuration (d : Duration) : string :=
  if (d <? minute)%Z then itoa (f_trunc (duration_seconds d)) ^^ "s"
  else if (d <? hour)%Z then itoa (f_trunc (duration_minutes d)) ^^ "m"
  else if (d <? 24 * hour)%Z then itoa (f_trunc (duration_hours d)) ^^ "h"
  else itoa (f_trunc (f_div (duration_hours d) (f_of_Z 24))) ^^ "d".

(** ** The referral file *)

Record referralState := { rs_Code : string; rs_ReferredBy : string }.
Definition no_referral : referralState := {| rs_Code := ""; rs_ReferredBy := "" |}.

Definition referralCodePath (env_dir : string) : string :=
  (if String.eqb env_dir "" then defaultStateDir else env_dir) ^^ "/referral.json".

Definition referral_json (rs : referralState) : json :=
  JObj ([("code"%string, JStr (rs_Code rs))] ++ omit_str "referred_by" (rs_ReferredBy rs)).
Definition dec_referral (v : json) : option referralState :=
  match v with
  | JObj ms => c ← str_field "code" ms; r ← str_field "referred_by" ms; Some {| rs_Code := c; rs_ReferredBy := r |}
  | JNull => Some no_referral
  | _ => None
  end.

(** The file: not there, not readable, or its content. *)
Inductive ref_file := RefMissing | RefUnreadable | RefContent (data : string).

Definition loadReferralState (f : ref_file) : result referralState :=
  match f with
  | RefMissing => Ok no_referral
  | RefUnreadable => Err "read referral state"
  | RefContent data => match parse data ≫= dec_referral with Some rs => Ok rs | None => Err "parse referral state" end
  end.

(** What a completed save leaves; [saved]: whether it completed (the calls it
    makes are those of the atomic replacement). *)
Definition saveReferralState (saved : bool) (f : ref_file) (rs : referralState) : ref_file * result unit :=
  if saved then (RefContent (print_indent (referral_json rs)), Ok tt) else (f, Err "write referral state").

Definition getOrCreateReferralCode (saved : bool) (buf : option (list Z)) (f : ref_file) : ref_file * result string :=
  match loadReferralState f with
  | Err e => (f, Err e)
  | Ok rs =>
      if negb (String.eqb (rs_Code rs) "") && Referral.Validate (rs_Code rs) then (f, Ok (rs_Code rs))
      else match Generate buf with
           | Err e => (f, Err ("generate referral code: " ^^ e))
           | Ok code =>
               match saveReferralState saved f {| rs_Code := code; rs_ReferredBy := rs_ReferredBy rs |} with
               | (f', Ok _) => (f', Ok code)
               | (f', Err e) => (f', Err e)
               end
           end
  end.

Definition recordReferralCode (saved : bool) (f : ref_file) (code : string) : ref_file * result unit :=
  if negb (Referral.Validate code) then (f, Err "invalid referral code format")
  else match loadReferralState f with
       | Err e => (f, Err e)
       | Ok rs => saveReferralState saved f {| rs_Code := rs_Code rs; rs_ReferredBy := code |}
       end.

(** ** init *)

(** The referral is recorded before the new secret is shown; when that fails the
    secret is not shown. *)
Definition initCmd (args : list string) (random : option (list Z)) (saved : bool) (f : ref_file)
  : ref_file * result string :=
  match parse_flags [("secret", FBool); ("referral", FString)]%string args ∅ with
  | Err e => (f, Err e)
  | Ok (v, _) =>
      if get_bool v "secret" then
        match GenerateSecret random with
        | Err e => (f, Err ("Failed to generate secret: " ^^ e))
        | Ok secret =>
            let code := get_string v "referral" "" in
            if String.eqb code "" then (f, Ok (FormatSecretURI secret))
            else match recordReferralCode saved f code with
                 | (f', Err e) => (f', Err ("Failed to apply referral code: " ^^ e))
                 | (f', Ok _) => (f', Ok (FormatSecretURI secret))
                 end
        end
      else (f, Err "usage")
  end.
