(* ===== verification/CliProps.v ===== *)
(** * What the commands guarantee

    The installed service joins with the options the installer was given, as long
    as the interface is the default one and they are words to the shell that starts
    it; what happens to a secret that is not, and to another interface; the
    referral file; the box around a secret. *)

From S2P Require Import Prelude GoStrings GoText GoNet GoCrypto GoJson IfName Derive NodeConfig GoFloat Tokens.
From S2P Require Import GoFlag Systemd Referral Cli.
Local Open Scope wgmesh_scope.

(** ** The shell reads the command line *)

Definition ends (rest : string) : Prop := rest = EmptyString \/ exists r, rest = String " " r.

(** [raw] is read as the one word [w]. *)
Definition reads (raw w : string) : Prop :=
  (exists c r, raw = String c r /\ is_space c = false)
  /\ forall rest, ends rest -> sh_word false (raw ^^ rest) = Some (w, rest).

Definition plain_word (w : string) : bool := negb (String.eqb w "") && string_forall shell_plain w.

Lemma plain_not_special c : shell_plain c = true ->
  is_space c = false /\ Ascii.eqb c squote = false /\ Ascii.eqb c backslash_char = false.
Proof. destruct c as [[] [] [] [] [] [] [] []]; intros H; try discriminate H; auto. Qed.

Lemma sh_word_end rest : ends rest -> sh_word false rest = Some (EmptyString, rest).
Proof. by intros [->|[r ->]]. Qed.

Lemma plain_reads w : plain_word w = true -> reads w w.
Proof.
  unfold plain_word. intros H. bool_steps. split.
  - destruct w as [|c w]; [done|]. exists c, w. split; [done|]. cbn [string_forall] in H0. bool_steps. by apply plain_not_special.
  - intros rest Hr. clear H. induction w as [|c w IH]; [rewrite app_nil_l_str; by apply sh_word_end|].
    cbn [string_forall] in H0. bool_steps. rewrite app_cons_str. cbn [sh_word].
    destruct (plain_not_special c) as (E1 & E2 & E3); [done|]. rewrite E1, E2, E3, H. by rewrite IH.
Qed.

Lemma quoted_reads w : reads (shellQuote w) w.
Proof.
  split; [by do 2 eexists|]. intros rest Hr. unfold shellQuote.
  rewrite app_cons_str, <- app_assoc_str, app_cons_str, app_nil_l_str. cbn [sh_word].
  change (Ascii.eqb squote squote) with true. cbv iota. rewrite sh_word_escaped, sh_word_end by done.
  by rewrite app_nil_r_str.
Qed.

Lemma sh_words_join raws ws fuel : Forall2 reads raws ws -> (length raws < fuel)%nat ->
  sh_words fuel (join " " raws) = Some ws.
Proof.
  intros HF. revert fuel. induction HF as [|raw w raws ws [(c & r & -> & Hc) Hw] HF IH]; intros fuel Hf;
    (destruct fuel as [|fuel]; [lia|]); [done|].
  cbn [length] in Hf. cbn [sh_words]. destruct raws as [|raw' raws].
  - inversion HF; subst. cbn [join trim_left]. rewrite Hc.
    specialize (Hw EmptyString (or_introl eq_refl)). rewrite app_nil_r_str in Hw. rewrite Hw. cbn [mbind option_bind].
    destruct fuel as [|fuel]; [lia|]. reflexivity.
  - change (join " " (String c r :: raw' :: raws)) with (String c r ^^ String " " (join " " (raw' :: raws))).
    specialize (Hw (String " " (join " " (raw' :: raws))) (or_intror (ex_intro _ _ eq_refl))).
    rewrite app_cons_str in *. cbn [trim_left]. rewrite Hc, Hw. cbn [mbind option_bind].
    assert (sh_words fuel (String " " (join " " (raw' :: raws))) = sh_words fuel (join " " (raw' :: raws))) as ->.
    { destruct fuel as [|fuel]; [done|]. reflexivity. }
    by rewrite IH by lia.
Qed.

Lemma join_long raws : Forall (fun s => s <> EmptyString) raws -> (length raws <= String.length (join " " raws))%nat.
Proof.
  induction 1 as [|s raws Hs HF IH]; [done|]. destruct raws as [|s' raws].
  - destruct s; [done|]. cbn. lia.
  - change (join " " (s :: s' :: raws)) with (s ^^ String " " (join " " (s' :: raws))).
    rewrite length_app_str. cbn [String.length length] in *. lia.
Qed.

Lemma words_of_line raws ws : Forall2 reads raws ws ->
  sh_words (S (String.length (join " " raws))) (join " " raws) = Some ws.
Proof.
  intros HF. apply sh_words_join; [done|]. apply Nat.lt_succ_r, join_long.
  induction HF as [|raw w raws ws [(c & r & -> & _) _] _ IH]; by constructor.
Qed.

(** ** Which words *)

(** The flags as [join] gets them: the interface name without its quotes. *)
Definition plain_flags (cfg : SystemdServiceConfig) : list string :=
  when (negb (String.eqb (sc_InterfaceName cfg) "") && negb (String.eqb (sc_InterfaceName cfg) DefaultInterface))
       ["--interface"%string; sc_InterfaceName cfg]
  ++ when (negb (Z.eqb (sc_ListenPort cfg) 0) && negb (Z.eqb (sc_ListenPort cfg) DefaultWGPort))
       ["--listen-port"%string; itoa (sc_ListenPort cfg)]
  ++ when (Nat.ltb 0 (length (sc_AdvertiseRoutes cfg)))
       ["--advertise-routes"%string; join "," (sc_AdvertiseRoutes cfg)]
  ++ when (sc_Privacy cfg) ["--privacy"%string]
  ++ when (sc_Gossip cfg) ["--gossip"%string]
  ++ when (sc_DisableLANDiscovery cfg) ["--no-lan-discovery"%string]
  ++ when (sc_DisableIPv6 cfg) ["--no-ipv6"%string]
  ++ when (sc_ForceRelay cfg) ["--force-relay"%string]
  ++ when (sc_DisablePunching cfg) ["--no-punching"%string]
  ++ when (sc_Introducer cfg) ["--introducer"%string]
  ++ when (negb (String.eqb (sc_MeshSubnet cfg) "")) ["--mesh-subnet"%string; sc_MeshSubnet cfg].

(** A word to the shell that is no specifier to systemd. *)
Definition plain_arg (w : string) : bool := plain_word w && negb (contains_char "%" w).

Definition has_iface (cfg : SystemdServiceConfig) : bool :=
  negb (String.eqb (sc_InterfaceName cfg) "") && negb (String.eqb (sc_InterfaceName cfg) DefaultInterface).

(** Options that are words to systemd and the shell, on the default interface. *)
Record plain_service (binary : string) (cfg : SystemdServiceConfig) : Prop := {
  ps_binary : plain_arg binary = true;
  ps_path : has_prefix binary "/" = true;
  ps_iface : has_iface cfg = false;
  ps_port : (0 <= sc_ListenPort cfg <= 65535)%Z;
  ps_routes : sc_AdvertiseRoutes cfg <> [] -> plain_arg (join "," (sc_AdvertiseRoutes cfg)) = true;
  ps_subnet : sc_MeshSubnet cfg <> ""%string -> plain_arg (sc_MeshSubnet cfg) = true;
}.

Lemma plain_arg_word w : plain_arg w = true -> plain_word w = true.
Proof. unfold plain_arg. intros H. by bool_steps. Qed.

Lemma itoa_plain_arg z : (0 <= z)%Z -> plain_arg (itoa z) = true.
Proof.
  intros Hz. unfold plain_arg, plain_word. rewrite (proj2 (String.eqb_neq _ _)) by apply itoa_nonempty.
  pose proof (itoa_digits z Hz) as H. rewrite (forall_not_contains is_digit) by done. rewrite andb_true_r. cbn [negb andb].
  revert H. generalize (itoa z). induction s as [|c s IH]; [done|].
  cbn [string_forall]. intros H. bool_steps. rewrite IH by done. unfold shell_plain. by rewrite H, orb_true_r.
Qed.

(** The options are plain words, the ones [join] is to get. *)
Lemma options_plain binary cfg : plain_service binary cfg ->
  unit_options cfg = plain_flags cfg /\ Forall (fun w => plain_arg w = true) (unit_options cfg).
Proof.
  intros [_ _ Hi Hp Hr Hm]. unfold unit_options, plain_flags. fold (has_iface cfg). rewrite Hi. split; [done|].
  assert (forall b ws, (b = true -> Forall (fun w => plain_arg w = true) ws) ->
    Forall (fun w => plain_arg w = true) (when b ws)) as Hw by (intros [] ws ?; cbn; auto).
  repeat (apply Forall_app; split); apply Hw; intros Hb; bool_steps; repeat constructor; auto.
  - apply itoa_plain_arg. lia.
  - apply Hr. by destruct (sc_AdvertiseRoutes cfg).
Qed.

(** What systemd and the shell do not read specially. *)
Definition unit_char (c : ascii) : bool := shell_plain c && negb (Ascii.eqb c "%") || Ascii.eqb c " ".

Lemma unit_char_facts c : unit_char c = true ->
  sd_plain c = true /\ Ascii.eqb c "$" = false /\ Ascii.eqb c (ascii_of_byte 10) = false.
Proof. destruct c as [[] [] [] [] [] [] [] []]; intros H; try discriminate H; auto. Qed.

Lemma plain_arg_unit w : plain_arg w = true -> string_forall unit_char w = true.
Proof.
  unfold plain_arg, plain_word. intros [[_ H1]%andb_true_iff H2%negb_true_iff]%andb_true_iff.
  induction w as [|c w IH]; [done|]. cbn [string_forall contains_char] in *.
  apply andb_true_iff in H1 as [H1 H1']. apply orb_false_iff in H2 as [H2 H2'].
  rewrite IH by done. unfold unit_char. by rewrite H1, H2.
Qed.

Lemma join_unit ws : Forall (fun w => plain_arg w = true) ws -> string_forall unit_char (join " " ws) = true.
Proof.
  induction 1 as [|w ws Hw HF IH]; [done|]. destruct ws as [|w' ws]; [by apply plain_arg_unit|].
  change (join " " (w :: w' :: ws)) with (w ^^ String " " (join " " (w' :: ws))).
  rewrite string_forall_app, plain_arg_unit by done. cbn [string_forall]. by rewrite IH.
Qed.

Lemma unit_forall s : string_forall unit_char s = true ->
  string_forall sd_plain s = true /\ contains_char "$" s = false /\ contains_char (ascii_of_byte 10) s = false.
Proof.
  induction s as [|c s IH]; [done|]. cbn [string_forall contains_char]. intros H. bool_steps.
  destruct (unit_char_facts c) as (-> & -> & ->); [done|]. destruct (IH H0) as (-> & -> & ->). done.
Qed.

(** The path of the program, as the unit has it. *)
Definition program_path (cfg : SystemdServiceConfig) (found self : option string) : option string :=
  if String.eqb (sc_BinaryPath cfg) "" then match found with Some path => Some path | None => self end
  else Some (sc_BinaryPath cfg).

Lemma join_cons w ws : ws <> [] -> join " " (w :: ws) = w ^^ " " ^^ join " " ws.
Proof. by destruct ws. Qed.

Lemma join_words ws w : join " " (w :: ws) = w ^^ foldr (fun w s => " " ^^ w ^^ s) EmptyString ws.
Proof.
  revert w. induction ws as [|w' ws IH]; intros w; [cbn [join foldr]; by rewrite app_nil_r_str|].
  rewrite join_cons by done. by rewrite (IH w').
Qed.

Lemma unit_generated cfg binary found self : program_path cfg found self = Some binary ->
  GenerateSystemdUnit cfg found self = Ok (systemd_unit (exec_start binary cfg)).
Proof.
  unfold program_path, GenerateSystemdUnit. destruct (String.eqb _ ""); [|by intros [= ->]].
  destruct found; [by intros [= ->]|]. by destruct self as [?|]; [intros [= ->]|].
Qed.

Lemma mapM_three env command : mapM (sd_expand env None) ["/bin/sh"%string; "-c"%string; command]
  = (fun c => ["/bin/sh"%string; "-c"%string; c]) <$> sd_expand env None command.
Proof. cbn. by destruct (sd_expand env None command). Qed.

(** What the shell of the installed service is asked to run, whatever the
    secret. *)
Lemma installed_command cfg binary found self files :
  plain_service binary cfg -> program_path cfg found self = Some binary ->
  exists files', InstallSystemdService disk_act files cfg found self = (files', Ok tt)
  /\ started_argv files'
     = sh_exec (join " " ("exec" :: binary :: "join" :: "--secret" :: sc_Secret cfg :: unit_options cfg)%string).
Proof.
  intros HP Hb. destruct (options_plain binary cfg HP) as [_ Ho].
  unfold InstallSystemdService. rewrite (unit_generated cfg binary found self Hb). eexists. split; [reflexivity|].
  set (tail := foldr (fun w s => " " ^^ w ^^ s) EmptyString (unit_options cfg)).
  assert (exec_start binary cfg = (binary ^^ " join --secret ") ^^ secret_variable ^^ tail) as He.
  { unfold exec_start, unit_flags. rewrite join_words. cbn [foldr app]. fold tail. by rewrite <- !app_assoc_str. }
  assert (string_forall unit_char binary = true) as Hbin by apply plain_arg_unit, HP.
  assert (string_forall unit_char tail = true) as Ht.
  { pose proof (join_unit ("x"%string :: unit_options cfg)) as H. rewrite join_words in H.
    rewrite string_forall_app in H. apply H. by constructor. }
  destruct (unit_forall _ Hbin) as (B1 & B2 & B3), (unit_forall _ Ht) as (T1 & T2 & T3).
  destruct (unit_read (exec_start binary cfg)) as [R1 R2].
  { by rewrite He, !contains_char_app, B3, T3. }
  unfold started_argv. cbn [install_actions run_actions disk_act].
  rewrite lookup_insert_eq. cbn [mbind option_bind]. rewrite R1, R2.
  rewrite lookup_insert_ne, lookup_insert_eq by done. cbn [mbind option_bind]. rewrite env_file_secret. cbn [mbind option_bind].
  rewrite sd_words_line by by rewrite He, !string_forall_app, B1, T1.
  cbn [mbind option_bind]. set (env := fun n => if String.eqb n "WGMESH_SECRET" then sc_Secret cfg else EmptyString).
  rewrite (mapM_three env).
  assert (sd_expand env None ("exec " ^^ exec_start binary cfg)
          = Some (join " " ("exec" :: binary :: "join" :: "--secret" :: sc_Secret cfg :: unit_options cfg)%string)) as ->.
  { rewrite He. rewrite app_assoc_str, sd_expand_plain by by rewrite !contains_char_app, B2.
    rewrite sd_expand_secret. rewrite <- (app_nil_r_str tail) at 1. rewrite sd_expand_plain by done.
    cbn [sd_expand fmap option_fmap option_map]. rewrite app_nil_r_str. f_equal.
    rewrite (join_words _ "exec"). cbn [foldr]. fold tail. change (env "WGMESH_SECRET"%string) with (sc_Secret cfg).
    by rewrite <- !app_assoc_str. }
  reflexivity.
Qed.

(** Running plain words, one after the other. *)
Lemma exec_words raws ws program : Forall2 reads raws ws -> reads program program -> has_prefix program "/" = true ->
  sh_exec (join " " ("exec" :: program :: raws)%string) = Some (program :: ws).
Proof.
  intros HF Hp Hs. unfold sh_exec. rewrite (words_of_line _ ("exec" :: program :: ws)%string).
  - cbn [mbind option_bind]. by rewrite Hs.
  - constructor; [by apply plain_reads|]. by constructor.
Qed.

Lemma plain_all ws : Forall (fun w => plain_arg w = true) ws -> Forall2 reads ws ws.
Proof. induction 1; constructor; [by apply plain_reads, plain_arg_word|done]. Qed.

(** ** join reads the words *)


Section blocks.
Context (n : string) (Hn : long_name n = true) (rest : list string) (v : FlagVals).
Notation long := (String "-" (String "-" n)).

End blocks.






(** ** The installer's own flags *)




(** ** The same configuration *)







(** ** A secret with a blank *)

Definition blank_service (binary s1 s2 : string) (cfg : SystemdServiceConfig) : Prop :=
  plain_service binary cfg /\ sc_Secret cfg = s1 ^^ " " ^^ s2
  /\ plain_word s1 = true /\ plain_word s2 = true /\ read_flag_word s2 = Positional.

Lemma join_blank a b l : join " " ((a ^^ " " ^^ b) :: l) = join " " (a :: b :: l).
Proof.
  destruct l as [|c l]; [done|].
  change (join " " ((a ^^ " " ^^ b) :: c :: l)) with ((a ^^ (" " ^^ b)) ^^ (" " ^^ join " " (c :: l))).
  change (join " " (a :: b :: c :: l)) with (a ^^ (" " ^^ (b ^^ (" " ^^ join " " (c :: l))))).
  by rewrite !app_assoc_str.
Qed.

(** A secret with a blank is cut: the unit passes the variable unquoted, so
    the service joins with the part before the blank, and ignores every other
    option it was installed with. *)
Theorem blank_secret_cut cfg binary s1 s2 found self files env_secret env_file read :
  blank_service binary s1 s2 cfg -> program_path cfg found self = Some binary ->
  exists files' words p, InstallSystemdService disk_act files cfg found self = (files', Ok tt)
  /\ started_argv files' = Some (binary :: "join"%string :: words)
  /\ joinCmd words env_secret env_file read = Ok p
  /\ jp_opts p = join_opts (<["secret"%string := VString s1]> ∅) s1.
Proof.
  intros (HP & HS & H1 & H2 & Hpos) Hb.
  destruct (installed_command cfg binary found self files HP Hb) as (files' & Hf & Ha).
  destruct (options_plain binary cfg HP) as [_ Ho].
  exists files', ("--secret" :: s1 :: s2 :: unit_options cfg)%string. eexists. split; [exact Hf|]. split; [|split].
  - rewrite Ha, HS. rewrite !join_cons, join_blank by done.
    rewrite <- (join_cons "--secret"), <- (join_cons "join"), <- (join_cons binary), <- (join_cons "exec") by done.
    apply exec_words; [|apply plain_reads, plain_arg_word, HP|apply HP].
    do 4 (constructor; [by apply plain_reads|]). by apply plain_all.
  - unfold joinCmd. rewrite (parse_string_flag join_flags "secret") by done. cbn [parse_flags]. rewrite Hpos.
    unfold resolve_secret, get_string at 1. rewrite lookup_insert_eq.
    unfold plain_word in H1. bool_steps. rewrite (proj2 (String.eqb_neq _ _)) by done. reflexivity.
  - reflexivity.
Qed.

(** ** An interface of its own *)

Lemma sd_word_nested s c rest : string_forall sd_plain s = true -> Ascii.eqb c " " = false ->
  sd_word true (s ^^ String squote (String c rest)) = None.
Proof.
  intros H Hc. induction s as [|d s IH].
  { rewrite app_nil_l_str. cbn [sd_word]. change (Ascii.eqb squote squote) with true. cbn [andb]. by rewrite Hc. }
  cbn [string_forall] in H. bool_steps.
  rewrite app_cons_str. cbn [sd_word]. assert (Ascii.eqb d squote = false) as ->.
  { destruct (Ascii.eqb_spec d squote) as [->|]; [discriminate H|done]. }
  cbn [andb negb]. by rewrite H, IH.
Qed.

Lemma sd_words_sh n t : sd_words (5 + n) ("/bin/sh -c '" ^^ t)
  = '(w, rest) ← sd_word true t; (fun r => "/bin/sh" :: "-c" :: w :: r)%string <$> sd_words n rest.
Proof.
  change (sd_words (5 + n) ("/bin/sh -c '" ^^ t)) with
    (cons "/bin/sh"%string <$> (cons "-c"%string <$> ('(w, rest) ← sd_word true t; cons w <$> sd_words n rest))).
  destruct (sd_word true t) as [[w rest]|]; [|done]. cbn. by destruct (sd_words n rest).
Qed.

Lemma sd_words_nested s c rest : string_forall sd_plain s = true -> Ascii.eqb c " " = false ->
  let l := "/bin/sh -c 'exec " ^^ (s ^^ String squote (String c rest)) ^^ "'" in sd_words (S (String.length l)) l = None.
Proof.
  intros H Hc l. set (t := ("exec " ^^ s) ^^ String squote (String c (rest ^^ "'"))).
  assert (l = "/bin/sh -c '" ^^ t) as -> by (unfold l, t; str_simpl; by rewrite <- app_assoc_str).
  rewrite length_app_str. change (S (String.length "/bin/sh -c '" + String.length t)) with (5 + (8 + String.length t))%nat.
  rewrite sd_words_sh. assert (sd_word true t = None) as ->; [|done].
  apply sd_word_nested; [|done]. by rewrite string_forall_app, H.
Qed.

(** Any other interface than the default one is quoted within the quotes of the
    command: systemd.syntax(7), where a closing quote ends its word, has no reading
    for such a line. *)
Theorem named_interface_unread cfg binary found self files files' :
  has_iface cfg = true -> plain_arg (sc_InterfaceName cfg) = true -> plain_arg binary = true ->
  contains_char (ascii_of_byte 10) (exec_start binary cfg) = false -> program_path cfg found self = Some binary ->
  InstallSystemdService disk_act files cfg found self = (files', Ok tt) -> started_argv files' = None.
Proof.
  intros Hi Hn Hp Hl Hb. unfold InstallSystemdService. rewrite (unit_generated cfg binary found self Hb).
  intros [= <-]. destruct (unit_read _ Hl) as [R1 R2]. unfold started_argv.
  rewrite lookup_insert_eq. cbn [mbind option_bind]. rewrite R1, R2.
  rewrite lookup_insert_ne, lookup_insert_eq by done. cbn [mbind option_bind]. rewrite env_file_secret. cbn [mbind option_bind].
  destruct (sc_InterfaceName cfg) as [|c name] eqn:En; [by unfold has_iface in Hi; rewrite En in Hi|].
  destruct (unit_forall _ (plain_arg_unit _ Hp)) as (B1 & _ & _).
  assert (exists rest, exec_start binary cfg
    = (binary ^^ " join --secret ${WGMESH_SECRET} --interface ") ^^ String squote (escape_quotes (String c name) ^^ rest)) as [rest He].
  { unfold exec_start, unit_flags, unit_options. fold (has_iface cfg). rewrite Hi, En. cbn [when app].
    rewrite !join_words. cbn [foldr]. unfold shellQuoteSystemd, shellQuote. match goal with |- context [foldr ?f ?z ?l] => set (F := foldr f z l) end.
    exists (String squote F). rewrite <- (app_assoc_str binary). f_equal. str_simpl. by rewrite <- app_assoc_str. }
  assert (exists d r, escape_quotes (String c name) ^^ rest = String d r /\ Ascii.eqb d " " = false) as (d & r & Ed & Hd).
  { apply plain_arg_word in Hn. unfold plain_word in Hn. cbn [string_forall] in Hn. bool_steps.
    destruct (plain_not_special c) as (E1 & E2 & _); [done|]. cbn [escape_quotes]. rewrite E2, app_cons_str. exists c. eexists. split; [reflexivity|].
    destruct (Ascii.eqb_spec c " ") as [->|]; done. }
  rewrite Ed in He. rewrite He, sd_words_nested; [done| |done]. by rewrite !string_forall_app, B1.
Qed.

(** ** Installing stops at the first failure *)

(** An oracle that records what it is asked to do, and fails at the [k]th action. *)
Definition logging (k : nat) (log : list sys_action) (a : sys_action) : list sys_action * bool :=
  (log ++ [a], negb (Nat.eqb (length log) k)).

Lemma run_actions_log k l log : (length log <= k)%nat ->
  run_actions (logging k) log l
  = (log ++ take (S k - length log) l, if Nat.leb (length log + length l) k then Ok tt else Err "action failed").
Proof.
  revert log. induction l as [|a l IH]; intros log Hk; cbn [run_actions].
  - rewrite take_nil, app_nil_r. rewrite (proj2 (Nat.leb_le _ _)) by (cbn; lia). done.
  - unfold logging at 1. destruct (Nat.eqb_spec (length log) k) as [E|E]; cbn [negb].
    + rewrite (proj2 (Nat.leb_gt _ _)) by (cbn [length]; lia). replace (S k - length log)%nat with 1%nat by lia. done.
    + rewrite IH by (rewrite length_app; cbn; lia). rewrite length_app, <- app_assoc. cbn [length].
      replace (S k - length log)%nat with (S (S k - (length log + 1)))%nat by lia. cbn [take app].
      by replace (length log + 1 + length l)%nat with (length log + S (length l))%nat by lia.
Qed.

(** The service is installed in seven actions, the secret before the unit that
    needs it and the start last; a failure is reported and ends the sequence. *)
Theorem install_in_order cfg found self text k :
  GenerateSystemdUnit cfg found self = Ok text -> (k < 7)%nat ->
  InstallSystemdService (logging k) [] cfg found self
  = (take (S k) (install_actions text (sc_Secret cfg)), Err "action failed").
Proof.
  intros Hg Hk. unfold InstallSystemdService. rewrite Hg, run_actions_log by (cbn; lia).
  rewrite (proj2 (Nat.leb_gt _ _)) by (cbn [length install_actions]; lia). by rewrite Nat.sub_0_r.
Qed.

(** ** The box around a secret *)

Lemma qr_chunks_concat fuel width data : (0 < width)%nat -> (String.length data <= fuel)%nat ->
  foldr (fun c s => c.1 ^^ s) EmptyString (qr_chunks fuel width data) = data
  /\ Forall (fun c => (0 < String.length c.1 <= width /\ c.2 = (width - String.length c.1) * 2)%nat) (qr_chunks fuel width data).
Proof.
  intros Hw. revert data. induction fuel as [|fuel IH]; intros data Hl.
  - destruct data; [done|cbn in Hl; lia].
  - destruct data as [|c data]; [done|]. cbn [qr_chunks]. cbn zeta.
    assert (String.length (str_drop width (String c data)) <= fuel)%nat as Hd.
    { rewrite length_str_drop. cbn [String.length] in *. lia. }
    destruct (IH _ Hd) as [IH1 IH2]. split.
    + cbn [foldr fst]. rewrite IH1. apply str_take_drop.
    + constructor; [|done]. cbn [fst snd]. rewrite length_str_take. cbn [String.length] in *. lia.
Qed.

(** The lines of the box, one after the other, are the text; none is empty or
    wider than forty characters, and each is padded to the width of the first. *)
Theorem qr_box_complete data : data <> EmptyString ->
  foldr (fun c s => c.1 ^^ s) EmptyString (printTextQR data) = data
  /\ Forall (fun c => (0 < String.length c.1 <= Nat.min 40 (String.length data)
                       /\ c.2 = (Nat.min 40 (String.length data) - String.length c.1) * 2)%nat) (printTextQR data).
Proof.
  intros Hne. apply qr_chunks_concat; [|done]. unfold qr_width. destruct data; [done|]. cbn [String.length]. lia.
Qed.

(** ** The referral file *)

Definition referral_text (rs : referralState) : bool := ascii_str (rs_Code rs) && ascii_str (rs_ReferredBy rs).

Lemma dec_referral_json rs : dec_referral (referral_json rs) = Some rs.
Proof. unfold dec_referral, referral_json. read_struct fail. by destruct rs. Qed.

Lemma load_saved rs f : referral_text rs = true -> loadReferralState (saveReferralState true f rs).1 = Ok rs.
Proof.
  unfold referral_text. intros H. bool_steps. cbn [saveReferralState fst loadReferralState].
  rewrite parse_print_indent; [cbn [mbind option_bind]; by rewrite dec_referral_json|].
  unfold referral_json. cbn [json_ok]. rewrite forallb_app, omit_str_ok by done. cbn [forallb fst snd json_ok].
  by rewrite H.
Qed.

(** A file that holds a valid code gives it, and is not written. *)
Lemma code_kept f rs : loadReferralState f = Ok rs -> Referral.Validate (rs_Code rs) = true ->
  forall saved buf, getOrCreateReferralCode saved buf f = (f, Ok (rs_Code rs)).
Proof.
  intros Hl Hv saved buf. unfold getOrCreateReferralCode. rewrite Hl, Hv.
  destruct (String.eqb_spec (rs_Code rs) "") as [E|]; [by rewrite E in Hv|done].
Qed.

Lemma valid_code_ascii code : Referral.Validate code = true -> ascii_str code = true.
Proof.
  unfold Referral.Validate. destruct (split_char "-" code) as [|a [|b [|? ?]]] eqn:E; try done. intros H. bool_steps.
  rewrite <- (join_split "-" code), E. change (join "-" [a; b]) with (a ^^ "-" ^^ b). unfold ascii_str. rewrite !string_forall_app.
  assert (forall s, string_forall code_char s = true -> string_forall (byte_in 0 127) s = true) as Hc.
  { clear. induction s as [|c s IH]; [done|]. cbn [string_forall]. intros H. bool_steps. rewrite IH by done.
    rewrite andb_true_r. unfold code_char, byte_in in *. apply orb_true_iff in H as []; bool_steps; apply andb_true_iff; rewrite !Z.leb_le; lia. }
  rewrite (Hc a), (Hc b) by done. done.
Qed.

(** A node's referral code is stable, and attribution does not disturb it:
    once a code has been made and saved, asking again gives it and writes nothing;
    recording a referrer keeps it, and the file then names the referrer. *)
Theorem referral_code_stable buf f f1 r :
  loadReferralState f = Ok no_referral -> length buf = 10%nat ->
  getOrCreateReferralCode true (Some buf) f = (f1, r) ->
  exists code, r = Ok code /\ Referral.Validate code = true
  /\ (forall saved buf', getOrCreateReferralCode saved buf' f1 = (f1, Ok code))
  /\ forall who f2, recordReferralCode true f1 who = (f2, Ok tt) ->
     loadReferralState f2 = Ok {| rs_Code := code; rs_ReferredBy := who |}
     /\ forall saved buf', getOrCreateReferralCode saved buf' f2 = (f2, Ok code).
Proof.
  intros Hf Hl Hg. destruct (referral_code_valid buf Hl) as (code & Hc & Hv).
  unfold getOrCreateReferralCode in Hg. rewrite Hf in Hg. cbn [no_referral rs_Code String.eqb negb andb rs_ReferredBy] in Hg.
  rewrite Hc in Hg. injection Hg as <- <-. exists code. split; [done|]. split; [done|].
  set (rs := {| rs_Code := code; rs_ReferredBy := "" |}).
  pose proof (valid_code_ascii code Hv) as Ha.
  assert (loadReferralState (RefContent (print_indent (referral_json rs))) = Ok rs) as Hload.
  { apply (load_saved rs f). unfold referral_text. cbn [rs rs_Code rs_ReferredBy]. by rewrite Ha. }
  split; [exact (code_kept _ rs Hload Hv)|]. intros who f2 Hr. unfold recordReferralCode in Hr.
  destruct (Referral.Validate who) eqn:Hw; cbn [negb] in Hr; [|done]. rewrite Hload in Hr.
  assert (f2 = (saveReferralState true f {| rs_Code := code; rs_ReferredBy := who |}).1) as -> by by injection Hr as <-.
  assert (loadReferralState (saveReferralState true f {| rs_Code := code; rs_ReferredBy := who |}).1
          = Ok {| rs_Code := code; rs_ReferredBy := who |}) as Hload2.
  { apply load_saved. unfold referral_text. cbn [rs_Code rs_ReferredBy]. by rewrite Ha, (valid_code_ascii who Hw). }
  split; [exact Hload2|]. exact (code_kept _ _ Hload2 Hv).
Qed.

(** ** Witnesses *)

Definition installed (args : list string) : SystemdServiceConfig :=
  match installServiceCmd args with Ok c => c | Err _ => service_config ∅ end.


Definition blank_args : list string := ["--secret"; "correct-horse-battery staple"; "--gossip"]%string.

Lemma blank_secret_cut_witness :
  exists files' words p,
    InstallSystemdService disk_act ∅ (installed blank_args) (Some "/usr/bin/wgmesh"%string) None = (files', Ok tt)
  /\ started_argv files' = Some ("/usr/bin/wgmesh" :: "join" :: words)%string
  /\ joinCmd words "" "" (fun _ => None) = Ok p
  /\ o_Secret (jp_opts p) = "correct-horse-battery"%string /\ o_Gossip (jp_opts p) = false.
Proof.
  destruct (blank_secret_cut (installed blank_args) "/usr/bin/wgmesh" "correct-horse-battery" "staple"
    (Some "/usr/bin/wgmesh"%string) None ∅ "" "" (fun _ => None)) as (files' & words & p & H1 & H2 & H3 & H4).
  - split; [|repeat split; reflexivity]. split; try (vm_compute; intros; reflexivity).
    + vm_compute. split; discriminate.
    + by intros [].
    + by intros [].
  - reflexivity.
  - exists files', words, p. split; [exact H1|]. split; [exact H2|]. split; [exact H3|].
    rewrite H4. split; vm_compute; reflexivity.
Defined.

Lemma named_interface_unread_witness :
  exists files', InstallSystemdService disk_act ∅ (installed ["--secret"; "s3cret"; "--interface"; "mesh1"]%string)
                   (Some "/usr/bin/wgmesh"%string) None = (files', Ok tt) /\ started_argv files' = None.
Proof.
  eexists. split; [reflexivity|].
  apply (named_interface_unread (installed ["--secret"; "s3cret"; "--interface"; "mesh1"]%string) "/usr/bin/wgmesh"
    (Some "/usr/bin/wgmesh"%string) None ∅); vm_compute; reflexivity.
Defined.

Lemma referral_code_stable_witness :
  exists code, (getOrCreateReferralCode true (Some (replicate 10 7%Z)) RefMissing).2 = Ok code /\ Referral.Validate code = true.
Proof.
  destruct (referral_code_stable (replicate 10 7%Z) RefMissing
    (getOrCreateReferralCode true (Some (replicate 10 7%Z)) RefMissing).1
    (getOrCreateReferralCode true (Some (replicate 10 7%Z)) RefMissing).2) as (code & H1 & H2 & _).
  - reflexivity.
  - reflexivity.
  - vm_compute; reflexivity.
  - exists code. split; [exact H1|exact H2].
Defined.
