(* ===== verification/Rotation.v ===== *)
(** * Secret rotation (pkg/crypto/rotation.go, rotate-secret of main.go)

    The JSON form of a rotation in progress, whose grace period is the text of a
    duration, and what the nodes of a mesh make of the announcement that the
    rotate-secret command makes. *)

From S2P Require Import Prelude GoStrings GoTime GoJson GoTimeJson GoDuration.
From S2P Require Import Derive NodeConfig Tokens IfName GoFlag Cli.
Local Open Scope wgmesh_scope.

Definition rotation_json (zone : Z) (rs : RotationState) : json :=
  JObj ([("old_secret"%string, JStr (OldSecret rs))] ++ [("new_secret"%string, JStr (NewSecret rs))]
        ++ [("grace_period"%string, JStr (duration_string (GracePeriod rs)))]
        ++ [("started_at"%string, time_json_at zone (StartedAt rs))] ++ [("completed"%string, JBool (Completed rs))]).
Definition MarshalJSON (zone : Z) (rs : RotationState) : string := print (rotation_json zone rs).

(** The fields decoded over those of the receiver, and the text of the grace
    period, which hides the number of the embedded struct. *)
Definition dec_rotation (rs : RotationState) (v : json) : option (RotationState * string) :=
  match v with
  | JObj ms =>
      o ← field dec_string keep (OldSecret rs) "old_secret" ms; n ← field dec_string keep (NewSecret rs) "new_secret" ms;
      s ← field dec_time keep (StartedAt rs) "started_at" ms; c ← field dec_bool keep (Completed rs) "completed" ms;
      g ← str_field "grace_period" ms;
      Some ({| OldSecret := o; NewSecret := n; GracePeriod := GracePeriod rs; StartedAt := s; Completed := c |}, g)
  | JNull => Some (rs, ""%string)
  | _ => None
  end.

Definition with_grace (rs : RotationState) (d : Duration) : RotationState :=
  {| OldSecret := OldSecret rs; NewSecret := NewSecret rs; GracePeriod := d; StartedAt := StartedAt rs; Completed := Completed rs |}.

Definition UnmarshalJSON (rs : RotationState) (data : string) : result RotationState :=
  match parse data ≫= dec_rotation rs with
  | None => Err "json"
  | Some (rs', g) =>
      if String.eqb g "" then Ok (with_grace rs' 0%Z)
      else match parse_duration g with
           | None => Err "invalid grace_period duration"
           | Some d => Ok (with_grace rs' d)
           end
  end.

(** ** Properties *)

Lemma fmt_frac_ascii v prec : ascii_str (fmt_frac v prec) = true.
Proof.
  unfold fmt_frac. pose proof (trim_zeros_digits _ (proj1 (pad_digits prec (v mod 10 ^ Z.of_nat prec)))) as H.
  destruct (trim_zeros _) as [|c r]; [done|]. apply (ascii_app "."); [done|]. by apply digits_ascii.
Qed.

(** The text of a duration is ASCII unless it is a number of microseconds. *)
Lemma duration_ascii d : (d = 0 \/ second <= Z.abs d)%Z -> ascii_str (duration_string d) = true.
Proof.
  intros Hd. assert (forall u, (u = 0 \/ second <= u)%Z -> ascii_str (fmt_magnitude u) = true) as Hm.
  { intros u Hu. unfold fmt_magnitude, microsecond, millisecond.
    destruct (Z.eqb_spec u 0); [done|]. assert (second <= u)%Z by lia. unfold second in *.
    replace (u <? 1000)%Z with false by lia. replace (u <? 1000000)%Z with false by lia. replace (u <? 1000000000)%Z with false by lia.
    cbv zeta. repeat case_match; repeat (apply ascii_app; [first [apply itoa_ascii|apply fmt_frac_ascii|done]|]);
      first [done|apply ascii_app; [apply itoa_ascii|]; apply ascii_app; [apply fmt_frac_ascii|done]]. }
  unfold duration_string. destruct (Z.ltb_spec d 0).
  - apply (ascii_app "-"); [done|]. apply Hm. lia.
  - apply Hm. lia.
Qed.

Definition rotation_text (zone : Z) (rs : RotationState) : Prop :=
  ascii_str (OldSecret rs) = true /\ ascii_str (NewSecret rs) = true
  /\ (int64_min <= GracePeriod rs <= int64_max)%Z /\ Z.rem (GracePeriod rs) second = 0%Z
  /\ zone_ok zone /\ year_ok zone (StartedAt rs).

(** A rotation whose grace period is a whole number of seconds is read back as it
    was written, into any receiver. *)
Theorem rotation_state_roundtrip zone rs old : rotation_text zone rs -> UnmarshalJSON old (MarshalJSON zone rs) = Ok rs.
Proof.
  intros (Ho & Hn & Hg & Hw & Hz & Hy). unfold UnmarshalJSON, MarshalJSON.
  assert (ascii_str (duration_string (GracePeriod rs)) = true) as Ha.
  { apply duration_ascii. pose proof (Z.quot_rem' (GracePeriod rs) second) as E. unfold second in *. lia. }
  rewrite parse_print.
  2:{ unfold rotation_json. cbn [json_ok]. rewrite !forallb_app. cbn [forallb fst snd]. rewrite time_json_ok. message_ok. }
  cbn [mbind option_bind].
  assert (dec_rotation old (rotation_json zone rs)
          = Some (with_grace rs (GracePeriod old), duration_string (GracePeriod rs))) as ->.
  { unfold dec_rotation, rotation_json. read_struct ltac:(by apply time_reads_at). done. }
  assert (String.eqb (duration_string (GracePeriod rs)) "" = false) as ->.
  { pose proof (duration_roundtrip _ Hg Hw) as H. apply String.eqb_neq. intros E. by rewrite E in H. }
  rewrite duration_roundtrip by done. by destruct rs.
Qed.

(** The secret [--current] names is the one the node was configured with. *)
Definition names_current (args : list string) (cfg : Config) : Prop :=
  exists vals rest, parse_flags rotate_flags args ∅ = Ok (vals, rest) /\ get_string vals "current" "" = Secret cfg.

Lemma NewConfig_keys `{Hkdf} os opts cfg : NewConfig os opts = Ok cfg -> DeriveKeys (Secret cfg) = Ok (Keys cfg).
Proof.
  unfold NewConfig. intros (keys & Hk%wrap_ok & H1)%rbind_ok. apply rbind_ok in H1 as ([] & _ & H1).
  apply rbind_ok in H1 as (sub & _ & H1). apply rbind_ok in H1 as ([] & _ & H1). by injection H1 as <-.
Qed.

(** What rotate-secret makes is what the members need: an announcement that every
    node of the current secret accepts for an hour, which vouches for the secret
    whose URI is printed. *)
Theorem rotation_announced `{Hkdf} os opts cfg args random now r now1 now2 :
  NewConfig os opts = Ok cfg -> names_current args cfg -> rotateSecretCmd args random now = Ok r ->
  (now1 - time_unix (time_to_unix now) <= hour)%Z -> (time_unix (time_to_unix now) <= now2 + hour)%Z ->
  ValidateRotationAnnouncement (MembershipKey (Keys cfg)) (rt_announcement r) now1 now2 = true
  /\ exists new, VerifyNewSecret new (rt_announcement r) = true /\ rt_URI r = FormatSecretURI new
     /\ (uri_safe new = true -> parseSecret (rt_URI r) = new).
Proof.
  intros Hc (vals & rest & Hp & Hs) Hr H1 H2. apply NewConfig_keys in Hc. unfold rotateSecretCmd in Hr.
  rewrite Hp in Hr. cbn [rbind fst] in Hr. rewrite Hs in Hr. destruct (String.eqb (Secret cfg) ""); [done|].
  apply rbind_ok in Hr as (new & _ & Hr). apply rbind_ok in Hr as (keys & Hk%wrap_ok & Hr).
  assert (keys = Keys cfg) as -> by congruence. injection Hr as <-. cbn [rt_announcement rt_URI].
  destruct (rotation_window (MembershipKey (Keys cfg)) new (get_duration vals "grace" (24 * hour)%Z) now _ now1 now2 eq_refl) as [Hv Hw].
  split; [by apply Hw|]. exists new. split; [done|]. split; [done|]. apply parse_format_secret.
Qed.

Definition rotation_opts (secret : string) : DaemonOpts :=
  {| o_Secret := secret; o_InterfaceName := ""; o_WGListenPort := 0%Z; o_AdvertiseRoutes := None; o_LogLevel := "";
     o_Privacy := false; o_Gossip := false; o_DisableLANDiscovery := false; o_Introducer := false; o_DisableIPv6 := false;
     o_ForceRelay := false; o_DisablePunching := false; o_MeshSubnet := "" |}.
Definition rotation_args (current : string) : list string := ["--current"; current; "--new"; "the-next-mesh-secret"; "--grace"; "12h"]%string.
Definition rotation_now : Time := (1700000000 * second)%Z.

Lemma rotation_state_roundtrip_witness :
  let rs := {| OldSecret := "old"; NewSecret := "new"; GracePeriod := (24 * hour)%Z; StartedAt := rotation_now; Completed := false |} in
  UnmarshalJSON rs (MarshalJSON 7200 rs) = Ok rs.
Proof.
  apply rotation_state_roundtrip. split; [reflexivity|]. split; [reflexivity|].
  split; [unfold int64_min, int64_max; cbn [GracePeriod]; unfold hour, minute, second; lia|]. split; [reflexivity|]. split; by vm_compute.
Defined.

(** Whether a member accepts what the command makes of each text of its secret. *)
Definition rotation_verdicts (currents : list string) : list bool :=
  match NewConfig Linux (rotation_opts "the-current-mesh-secret") with
  | Ok cfg =>
      let key := MembershipKey (Keys cfg) in
      omap (fun current => match rotateSecretCmd (rotation_args current) None rotation_now with
                           | Ok r => Some (ValidateRotationAnnouncement key (rt_announcement r) rotation_now rotation_now)
                           | Err _ => None
                           end) currents
  | Err _ => []
  end.

(** It accepts the announcement made with the secret, and refuses the one made
    with the URI of the secret, which join takes for the secret itself. *)
Example uri_current_refused :
  rotation_verdicts ["the-current-mesh-secret"; FormatSecretURI "the-current-mesh-secret"]%string = [true; false].
Proof. vm_cast_no_check (eq_refl [true; false]). Qed.
