(* ===== verification/MeshCmd.v ===== *)
(** * The commands of the centralised mode (main.go: main, meshCmd)

    The operator's commands on the state file: what each reads and writes, composed
    of the parts that Cli and MeshState model, and sessions of several commands
    against a specification on the table of nodes.
    The typed passwords, generated keys, random bytes and the answers of the disk
    are arguments. *)

From S2P Require Import Prelude GoStrings GoNet GoJson GoFlag Aead Tokens Cli.
From S2P Require Import Mesh MeshState.
Local Open Scope wgmesh_scope.

(** The files by their paths. *)
Notation files := (gmap string string).

(** What writing the state file does: it is there, its directory or the file
    cannot be made, or the write breaks off and leaves a part. *)
Inductive disk_answer := Stored | NotMade | BrokenOff (part : string).

Record cmd_env := {
  ce_password1 : result string;
  ce_password2 : result string;
  ce_hostname : result string;
  ce_keys : result (string * string);
  ce_salt : option (list Z);
  ce_nonce : option (list Z);
  ce_disk : disk_answer;
}.

Inductive outcome :=
  | Exits (out : list string)
  | Lists (m : Mesh)
  | Deploys (m : Mesh)
  | Fails (msg : string)
  | Panics.

(** The password: "" when none is asked for, which is also what encrypts nothing. *)
Definition ask_password (asked : nat) (e : cmd_env) : result string :=
  match asked with
  | O => Ok ""
  | 1 => wrap "failed to read password" (ce_password1 e)
  | _ => ReadPasswordTwice (ce_password1 e) (ce_password2 e)
  end%nat.

Section commands.
Context `{Aead, Pbkdf2}.

Definition save_state (fs : files) (path password : string) (e : cmd_env) (m : Mesh) : files * result unit :=
  match Save password (ce_salt e) (ce_nonce e) m with
  | Err msg => (fs, Err msg)
  | Ok text =>
      match ce_disk e with
      | Stored => (<[path := text]> fs, Ok tt)
      | NotMade => (fs, Err "failed to create directory")
      | BrokenOff part => (<[path := part]> fs, Err "failed to write state file")
      end
  end.

Definition saved (fs : files) (path password : string) (e : cmd_env) (m : Mesh) (pre : string) (out : string) : files * outcome :=
  match save_state fs path password e m with
  | (fs, Ok _) => (fs, Exits [out])
  | (fs, Err _) => (fs, Fails pre)
  end.

(** The flags of the centralised mode. *)
Definition legacy_main (args : list string) (e : cmd_env) (fs : files) : files * outcome :=
  match legacy_plan args with
  | Err msg => (fs, Fails msg)
  | Ok (asked, path, action) =>
      match ask_password asked e with
      | Err _ => (fs, Fails "Failed to read password")
      | Ok password =>
          match action with
          | LInit network =>
              match InitializeWithNetwork (ce_hostname e) network with
              | Err _ => (fs, Fails "Failed to initialize mesh")
              | Ok m => saved fs path password e m "Failed to initialize mesh" "Mesh initialized successfully"
              end
          | _ =>
              match Load password (fs !! path) with
              | Err _ => (fs, Fails "Failed to load mesh state")
              | Ok m =>
                  match action with
                  | LAdd spec =>
                      match AddNode (ce_keys e) m spec with
                      | None => (fs, Panics)
                      | Some (Err _) => (fs, Fails "Failed to add node")
                      | Some (Ok m) => saved fs path password e m "Failed to save state" "Node added successfully"
                      end
                  | LRemove name =>
                      match RemoveNode m name with
                      | Err _ => (fs, Fails "Failed to remove node")
                      | Ok m => saved fs path password e m "Failed to save state" "Node removed successfully"
                      end
                  | LList => (fs, Lists m)
                  | LListSimple => (fs, Exits (ListSimple m))
                  | LDeploy => (fs, Deploys m)
                  | _ => (fs, Fails "usage")
                  end
              end
          end
      end
  end.

(** [wgmesh mesh]; [args]: the words after it.  It only reads. *)
Definition mesh_flags : FlagSet := [("state", FString); ("encrypt", FBool)]%string.
Definition meshCmd (args : list string) (e : cmd_env) (fs : files) : outcome :=
  match args with
  | [] => Fails "action required"
  | action :: rest =>
      match parse_flags mesh_flags rest ∅ with
      | Err msg => Fails msg
      | Ok (v, _) =>
          match ask_password (if get_bool v "encrypt" then 1 else 0)%nat e with
          | Err _ => Fails "Failed to read password"
          | Ok password =>
              match Load password (fs !! get_string v "state" "mesh-state.json") with
              | Err _ => Fails "Failed to load mesh state"
              | Ok m => if String.eqb action "list" then Exits (ListSimple m) else Fails "Unknown action"
              end
          end
      end
  end.

(** A session: one command after the other. *)
Fixpoint session (cs : list (list string * cmd_env)) (fs : files) : files * list outcome :=
  match cs with
  | [] => (fs, [])
  | (args, e) :: cs =>
      let '(fs, o) := legacy_main args e fs in
      let '(fs, os) := session cs fs in
      (fs, o :: os)
  end.

End commands.

(** ** What a session is to do

    The specification knows the table of nodes, nil or not, and what is asked of
    it; nothing of flags, node specifications, passwords or files. *)

Notation table := (option (gmap string Node)).

Inductive request :=
  | Add (name ip host : string) (port : option Z)
  | Remove (name : string).

(** The words of the command line. *)
Definition words (path password : string) (rq : request) : list string :=
  (if String.eqb password "" then [] else ["-encrypt"%string])
  ++ ["-state"%string; path]
  ++ match rq with
     | Add name ip host port =>
         ["-add"%string; name ^^ ":" ^^ ip ^^ ":" ^^ host ^^ match port with Some z => ":" ^^ itoa z | None => "" end]
     | Remove name => ["-remove"%string; name]
     end.

(** One request: the table it leaves in the file, and what the command reports.
    [local], [lport]: the name of this host and the port of the mesh. *)
Definition effect (local : string) (lport : Z) (t : table) (rq : request) (e : cmd_env) : table * outcome :=
  let store (t' : table) done := match ce_disk e with NotMade => (t, Fails "Failed to save state") | _ => (t', Exits [done]) end in
  match rq with
  | Remove name =>
      if decide (is_Some (default ∅ t !! name)) then store (Some (delete name (default ∅ t))) "Node removed successfully"%string
      else (t, Fails "Failed to remove node")
  | Add name ip host port =>
      match parse_ip ip, ce_keys e with
      | Some addr, Ok (private, public) =>
          if decide (is_Some (default ∅ t !! name)) then (t, Fails "Failed to add node")
          else match t with
          | None => (t, Panics)
          | Some ns =>
              store (Some (<[name := {| n_Hostname := name; n_MeshIP := addr; n_PublicKey := public; n_PrivateKey := private;
                                        n_SSHHost := host; n_SSHPort := default 22%Z port; n_PublicEndpoint := "";
                                        n_ListenPort := lport; n_BehindNAT := false; n_RoutableNetworks := [];
                                        n_IsLocal := bool_decide (name = local); n_ActualHostname := ""; n_FQDN := "" |}]> ns))
                    "Node added successfully"%string
          end
      | _, _ => (t, Fails "Failed to add node")
      end
  end.

Fixpoint effects (local : string) (lport : Z) (t : table) (cs : list (request * cmd_env)) : table * list outcome :=
  match cs with
  | [] => (t, [])
  | (rq, e) :: cs =>
      let '(t, o) := effect local lport t rq e in
      let '(t, os) := effects local lport t cs in
      (t, o :: os)
  end.

(** The line of a node in the list. *)
Definition shown_as (n : Node) : string :=
  (if String.eqb (n_ActualHostname n) "" then n_Hostname n else n_ActualHostname n) ^^ " " ^^ ip_string (n_MeshIP n).

Definition with_table (m : Mesh) (t : table) : Mesh :=
  {| m_InterfaceName := m_InterfaceName m; m_Network := m_Network m; m_ListenPort := m_ListenPort m; m_Nodes := t;
     m_LocalHostname := m_LocalHostname m; m_Groups := m_Groups m; m_AccessPolicies := m_AccessPolicies m |}.

(** What the operator and the system provide: the password of the file, random
    bytes, keys, a disk that does not break off in the middle of the file, and
    arguments of plain text. *)
Record usable (password : string) (rq : request) (e : cmd_env) : Prop := {
  us_password : password = ""%string \/ ce_password1 e = Ok password;
  us_disk : forall part, ce_disk e <> BrokenOff part;
  us_salt : exists salt, ce_salt e = Some salt /\ length salt = saltSize /\ Forall is_byte salt;
  us_nonce : exists nonce, ce_nonce e = Some nonce /\ length nonce = gcmNonceSize /\ Forall is_byte nonce;
  us_keys : forall priv pub, ce_keys e = Ok (priv, pub) -> ascii_str priv && ascii_str pub = true;
  us_words : match rq with
             | Add name ip host port =>
                 ascii_str name && ascii_str ip && ascii_str host
                   && negb (contains_char ":" name || contains_char ":" ip || contains_char ":" host) = true
                 /\ forall z, port = Some z -> (0 <= z <= int64_max)%Z
             | Remove name => name <> ""%string
             end;
}.

(** ** The commands do it *)

Section refinement.
Context `{Aead, Pbkdf2}.

(** The file holds the mesh. *)
Definition holds (fs : files) (path password : string) (m : Mesh) : Prop := Load password (fs !! path) = Ok m.

Definition encrypt_flag (password : string) : list string := if String.eqb password "" then [] else ["--encrypt"%string].

Lemma sscanf_itoa z : (0 <= z <= int64_max)%Z -> sscanf_d (itoa z) = Some z.
Proof.
  intros Hz. assert (forall s, string_forall is_digit s = true -> digit_prefix s = s) as Hp.
  { induction s as [|c s IH]; [done|]. cbn [string_forall digit_prefix]. intros [-> Hs]%andb_true_iff. by rewrite IH. }
  pose proof (itoa_digits z ltac:(lia)) as Hd. pose proof (Hp _ Hd) as Hpre. pose proof (itoa_nonempty z) as Hne.
  rewrite <- (atoi_itoa z) by (unfold int64_min; lia). unfold sscanf_d.
  destruct (itoa z) as [|c s]; [done|]. cbn [string_forall] in Hd. apply andb_true_iff in Hd as [Hc _].
  assert (trim_left (String c s) = String c s) as ->.
  { cbn [trim_left]. destruct c as [[] [] [] [] [] [] [] []]; try discriminate Hc; reflexivity. }
  destruct c as [[] [] [] [] [] [] [] []]; try discriminate Hc; cbv beta iota zeta; by rewrite Hpre.
Qed.

Lemma spec_reads name ip host port :
  contains_char ":" name || contains_char ":" ip || contains_char ":" host = false ->
  (forall z, port = Some z -> (0 <= z <= int64_max)%Z) ->
  parse_node_spec (name ^^ ":" ^^ ip ^^ ":" ^^ host ^^ match port with Some z => ":" ^^ itoa z | None => "" end)
  = match parse_ip ip with Some addr => Ok (name, addr, host, default 22%Z port) | None => Err "invalid mesh IP" end.
Proof.
  intros [[Hn Hi]%orb_false_iff Hh]%orb_false_iff Hz. unfold parse_node_spec.
  change (name ^^ ":" ^^ ip ^^ ":" ^^ ?t) with (name ^^ String ":" (ip ^^ String ":" t)).
  rewrite (split_char_app ":" name _ Hn), (split_char_app ":" ip _ Hi). destruct port as [z|].
  - change (":" ^^ itoa z) with (String ":" (itoa z)). rewrite (split_char_app ":" host _ Hh), split_char_no_sep.
    + destruct (parse_ip ip); [|done]. by rewrite sscanf_itoa by auto.
    + apply (forall_not_contains is_digit); [done|]. apply itoa_digits. specialize (Hz z eq_refl). lia.
  - rewrite app_nil_r_str, split_char_no_sep by done. done.
Qed.

(** The words ask for the operation, once for the password if there is one. *)
Lemma words_plan path password rq e : usable password rq e -> exists asked spec,
  legacy_plan (words path password rq) = Ok (asked, path, match rq with Add _ _ _ _ => LAdd spec | Remove name => LRemove name end)
  /\ ask_password asked e = Ok password
  /\ match rq with Add name ip host port => parse_node_spec spec
        = match parse_ip ip with Some addr => Ok (name, addr, host, default 22%Z port) | None => Err "invalid mesh IP" end
      | Remove _ => True end.
Proof.
  intros [Hp _ _ _ _ Hw]. unfold words.
  assert (exists asked, ask_password asked e = Ok password /\ forall flag w action,
    (flag = "-add"%string /\ action = LAdd w \/ flag = "-remove"%string /\ action = LRemove w) -> w <> ""%string ->
    legacy_plan ((if String.eqb password "" then [] else ["-encrypt"%string]) ++ ["-state"%string; path] ++ [flag; w])
    = Ok (asked, path, action)) as (asked & Ha & Hplan).
  { destruct (String.eqb_spec password "") as [->|Hpw].
    - exists 0%nat. split; [done|]. intros flag w action Hf Hw'%String.eqb_neq.
      destruct Hf as [[-> ->]|[-> ->]].
      + change (legacy_plan _) with (@Ok (nat * string * legacy_action) (0%nat, path, if negb (String.eqb w "") then LAdd w else LUsage)).
        by rewrite Hw'.
      + change (legacy_plan _) with (@Ok (nat * string * legacy_action) (0%nat, path, if negb (String.eqb w "") then LRemove w else LUsage)).
        by rewrite Hw'.
    - exists 1%nat. destruct Hp as [->|Hp]; [done|]. split; [cbn [ask_password]; by rewrite Hp|]. intros flag w action Hf Hw'%String.eqb_neq.
      destruct Hf as [[-> ->]|[-> ->]].
      + change (legacy_plan _) with (@Ok (nat * string * legacy_action) (1%nat, path, if negb (String.eqb w "") then LAdd w else LUsage)).
        by rewrite Hw'.
      + change (legacy_plan _) with (@Ok (nat * string * legacy_action) (1%nat, path, if negb (String.eqb w "") then LRemove w else LUsage)).
        by rewrite Hw'. }
  destruct rq as [name ip host port|name].
  - destruct Hw as [Hw Hz]. apply andb_true_iff in Hw as [_ Hw%negb_true_iff].
    eexists asked, _. split; [apply Hplan; [by left|by destruct name]|]. split; [done|]. by apply spec_reads.
  - exists asked, ""%string. split; [|done]. apply Hplan; [by right|done].
Qed.

Lemma with_own_table m : with_table m (m_Nodes m) = m.
Proof. by destruct m. Qed.

Lemma text_with_table m t : mesh_text m ->
  (forall h n, default ∅ t !! h = Some n -> ascii_str h && node_text n = true) -> mesh_text (with_table m t).
Proof. intros (H1 & _ & H3) Ht. split; [exact H1|]. split; [exact Ht|exact H3]. Qed.

(** Saving: the file holds the new table, or what it held when it cannot be
    made. *)
Lemma saved_does fs path password e m t pre done rq :
  usable password rq e -> mesh_text m -> mesh_text (with_table m t) -> holds fs path password m ->
  exists fs', saved fs path password e (with_table m t) pre done
              = (fs', match ce_disk e with NotMade => Fails pre | _ => Exits [done] end)
    /\ holds fs' path password (with_table m match ce_disk e with NotMade => m_Nodes m | _ => t end)
    /\ mesh_text (with_table m match ce_disk e with NotMade => m_Nodes m | _ => t end)
    /\ forall p, p <> path -> fs' !! p = fs !! p.
Proof.
  intros [_ Hd (salt & Hs & Ls & Bs) (nonce & Hn & Ln & Bn) _ _] Hm Ht Hl.
  destruct (save_load password salt nonce (with_table m t) Ht Ls Bs Ln Bn) as (text & Hsv & Hld).
  unfold saved, save_state. rewrite Hs, Hn, Hsv. destruct (ce_disk e) as [| |part]; [| |by destruct (Hd part)].
  - eexists. split; [done|]. unfold holds. rewrite lookup_insert_eq. split; [done|]. split; [done|].
    intros p Hp. by rewrite lookup_insert_ne.
  - exists fs. rewrite with_own_table. done.
Qed.

Lemma command_effect fs path password m rq e : usable password rq e -> mesh_text m -> holds fs path password m ->
  exists fs', legacy_main (words path password rq) e fs = (fs', (effect (m_LocalHostname m) (m_ListenPort m) (m_Nodes m) rq e).2)
    /\ holds fs' path password (with_table m (effect (m_LocalHostname m) (m_ListenPort m) (m_Nodes m) rq e).1)
    /\ mesh_text (with_table m (effect (m_LocalHostname m) (m_ListenPort m) (m_Nodes m) rq e).1)
    /\ forall p, p <> path -> fs' !! p = fs !! p.
Proof.
  intros Hu Hm Hl. destruct (words_plan path password rq e Hu) as (asked & spec & Hplan & Hask & Hspec).
  assert (forall o : outcome, exists fs' : files, (fs, o) = (fs', o) /\ holds fs' path password (with_table m (m_Nodes m))
    /\ mesh_text (with_table m (m_Nodes m)) /\ forall p, p <> path -> fs' !! p = fs !! p) as Hstay.
  { intros o. exists fs. by rewrite with_own_table. }
  unfold legacy_main. rewrite Hplan, Hask. pose proof Hl as Hl0. unfold holds in Hl0. pose proof Hm as (Hh & Hns & Hgs). unfold nodes in Hns.
  destruct rq as [name ip host port|name]; cbv beta iota; rewrite Hl0; cbn [effect].
  - unfold AddNode. rewrite Hspec. destruct (parse_ip ip) as [addr|] eqn:Eip; [|apply Hstay].
    destruct (decide (is_Some (default ∅ (m_Nodes m) !! name))) as [[old Ho]|Hnone].
    { unfold nodes. rewrite Ho. destruct (ce_keys e) as [[priv pub]|]; apply Hstay. }
    unfold nodes. apply eq_None_not_Some in Hnone. rewrite Hnone.
    destruct (ce_keys e) as [[priv pub]|] eqn:Ek; [|apply Hstay].
    destruct (m_Nodes m) as [ns|] eqn:En; [|apply Hstay].
    match goal with |- context [Some (<[name := ?node]> ns)] => set (n := node) end.
    assert (new_node m name addr host (default 22%Z port) priv pub = n) as ->.
    { unfold new_node, n. f_equal. destruct (String.eqb_spec name (m_LocalHostname m)); by case_bool_decide. }
    change (set_nodes m (<[name := n]> ns)) with (with_table m (Some (<[name := n]> ns))).
    destruct (us_words _ _ _ Hu) as [Hw Hz]. apply andb_true_iff in Hw as [Hw Hc%negb_true_iff].
    apply andb_true_iff in Hw as [[Hn1 Hn2]%andb_true_iff Hn3]. apply orb_false_iff in Hc as [[_ Hci]%orb_false_iff _].
    assert (mesh_text (with_table m (Some (<[name := n]> ns)))) as Ht.
    { apply text_with_table; [done|]. intros h' n'. cbn [default from_option id]. rewrite lookup_insert. case_decide as E; [|apply Hns].
      intros [= <-]. subst h'. rewrite Hn1. unfold node_text, n. cbn [n_Hostname n_MeshIP n_PublicKey n_PrivateKey n_SSHHost n_SSHPort
        n_PublicEndpoint n_ListenPort n_RoutableNetworks n_ActualHostname n_FQDN].
      rewrite Hn1, (spec_ip_text _ _ Hci Eip), Hn3. pose proof (us_keys _ _ _ Hu _ _ Ek) as [-> ->]%andb_true_iff.
      assert (int64 (default 22%Z port) = true) as ->.
      { destruct port as [z|]; [|done]. specialize (Hz z eq_refl). unfold int64, int64_min in *. cbn [default from_option id].
        apply andb_true_iff. rewrite !Z.leb_le. lia. }
      bool_steps. by match goal with E : int64 (m_ListenPort m) = true |- _ => rewrite E end. }
    destruct (saved_does fs path password e m (Some (<[name := n]> ns)) "Failed to save state" "Node added successfully" _ Hu Hm Ht Hl)
      as (fs' & Hsv & Hh' & Ht' & Hf). exists fs'. rewrite En in Hh', Ht'. destruct (ce_disk e); done.
  - unfold RemoveNode, nodes. destruct (decide (is_Some (default ∅ (m_Nodes m) !! name))) as [[old Ho]|Hnone].
    2:{ apply eq_None_not_Some in Hnone. rewrite Hnone. apply Hstay. }
    rewrite Ho. change (set_nodes m ?x) with (with_table m (Some x)).
    assert (mesh_text (with_table m (Some (delete name (default ∅ (m_Nodes m)))))) as Ht.
    { apply text_with_table; [done|]. intros h' n'. cbn [default from_option id]. intros [_ Hn']%lookup_delete_Some. by apply Hns. }
    destruct (saved_does fs path password e m _ "Failed to save state" "Node removed successfully" _ Hu Hm Ht Hl)
      as (fs' & Hsv & Hh' & Ht' & Hf). exists fs'. destruct (ce_disk e); done.
Qed.

Lemma effect_safe local lport ns rq e : is_Some (effect local lport (Some ns) rq e).1 /\ (effect local lport (Some ns) rq e).2 <> Panics.
Proof.
  destruct rq as [name ip host port|name]; cbn [effect].
  - destruct (parse_ip ip); [|by split; [eexists|]]. destruct (ce_keys e) as [[? ?]|]; [|by split; [eexists|]].
    destruct (decide _); [by split; [eexists|]|]. destruct (ce_disk e); by split; [eexists|].
  - destruct (decide _); [|by split; [eexists|]]. destruct (ce_disk e); by split; [eexists|].
Qed.

(** What [mesh list] prints of the file. *)
Lemma list_shows fs path password m e : holds fs path password m -> password = ""%string \/ ce_password1 e = Ok password ->
  meshCmd (["list"; "--state"; path]%string ++ encrypt_flag password) e fs = Exits (ListSimple m).
Proof.
  intros Hl He. unfold meshCmd, encrypt_flag. cbn [app fst]. rewrite (parse_string_flag _ "state") by done.
  unfold holds in Hl. destruct (String.eqb_spec password "") as [->|Hne].
  - cbn [parse_flags]. unfold get_bool, get_string. rewrite lookup_insert_eq, lookup_insert_ne, lookup_empty by done.
    cbn [ask_password]. by rewrite Hl.
  - rewrite (parse_bool_flag _ "encrypt") by done. cbn [parse_flags]. unfold get_bool, get_string.
    rewrite lookup_insert_eq, lookup_insert_ne, lookup_insert_eq by done. destruct He as [->|He]; [done|].
    cbn [ask_password]. rewrite He. cbn [wrap]. by rewrite Hl.
Qed.

(** C39. The commands do what is asked of the table of nodes.  In a session of
    additions and removals on one state file, plain or encrypted, given the
    password of the file and a disk that stores a file whole or not at all, every
    command reports what the specification says, the file then holds the table of
    the specification and no other file is touched; [mesh list] shows a line for
    each node of it and nothing else.  A command panics only when the file has no
    table at all ([{}], or null nodes), and a name that is taken is refused. *)
Theorem session_refines path password cs fs m :
  Forall (fun c => usable password c.1 c.2) cs -> mesh_text m -> holds fs path password m ->
  let run := effects (m_LocalHostname m) (m_ListenPort m) (m_Nodes m) cs in
  exists fs', session ((fun c => (words path password c.1, c.2)) <$> cs) fs = (fs', run.2)
  /\ (forall p, p <> path -> fs' !! p = fs !! p)
  /\ holds fs' path password (with_table m run.1)
  /\ (is_Some (m_Nodes m) -> Panics ∉ run.2)
  /\ forall e, password = ""%string \/ ce_password1 e = Ok password ->
     exists lines, meshCmd (["list"; "--state"; path]%string ++ encrypt_flag password) e fs' = Exits lines
     /\ length lines = size (default ∅ run.1)
     /\ forall line, line ∈ lines <-> exists h n, default ∅ run.1 !! h = Some n /\ line = shown_as n.
Proof.
  intros Hc. revert fs m. induction Hc as [|[rq e] cs Hu Hc IH]; intros fs m Hm Hl; cbn [effects].
  - exists fs. cbn [fst snd]. rewrite with_own_table. split; [done|]. split; [done|]. split; [done|].
    split; [intros _; by apply not_elem_of_nil|]. intros e He. eexists. split; [by apply list_shows|].
    unfold ListSimple, nodes. split; [by rewrite length_fmap, length_map_to_list|]. intros line. rewrite list_elem_of_fmap. split.
    + intros ([h n] & -> & Hin%elem_of_map_to_list). by exists h, n.
    + intros (h & n & Hn & ->). exists (h, n). split; [done|]. by apply elem_of_map_to_list.
  - cbn [fst snd] in Hu. destruct (command_effect fs path password m rq e Hu Hm Hl) as (fs1 & Hr & Hl1 & Hm1 & Hf1).
    pose proof (fun ns => effect_safe (m_LocalHostname m) (m_ListenPort m) ns rq e) as Hsafe.
    destruct (effect (m_LocalHostname m) (m_ListenPort m) (m_Nodes m) rq e) as [t1 o] eqn:Eo. cbn [fst snd] in Hr, Hl1, Hm1.
    destruct (IH fs1 (with_table m t1) Hm1 Hl1) as (fs' & Hs & Hf & Hl' & Hp & Hlist). cbn [with_table m_LocalHostname m_ListenPort m_Nodes] in *.
    destruct (effects (m_LocalHostname m) (m_ListenPort m) t1 cs) as [t os]. cbn [fst snd] in *.
    exists fs'. rewrite fmap_cons. cbn [session fst snd]. rewrite Hr, Hs. split; [done|]. split; [intros p Hne; by rewrite Hf, Hf1|].
    split; [exact Hl'|]. split; [|exact Hlist]. intros [ns En]. specialize (Hsafe ns). rewrite En in Eo. rewrite Eo in Hsafe.
    destruct Hsafe as [H1 H2]. rewrite not_elem_of_cons. split; [by intros E|]. by apply Hp.
Qed.
End refinement.

(** ** What a password and a path do not do *)

Section notes.
Context `{Aead, Pbkdf2}.

(** An empty password encrypts nothing: a command run with [--encrypt] whose user
    types nothing does what it does without the option, so that -init leaves the
    private keys of the mesh in a plain file. *)
Theorem empty_password_stores_plain args asked path action e fs :
  legacy_plan args = Ok (asked, path, action) -> ce_password1 e = Ok "" -> ce_password2 e = Ok "" ->
  forall args', legacy_plan args' = Ok (O, path, action) -> legacy_main args e fs = legacy_main args' e fs.
Proof.
  intros Hp H1 H2 args' Hp'. unfold legacy_main. rewrite Hp, Hp'.
  assert (ask_password asked e = Ok "") as ->; [|done].
  destruct asked as [|[|n]]; [done|..]; unfold ask_password, ReadPasswordTwice; rewrite ?H1, ?H2; done.
Qed.

(** -init and mesh list do not agree on the file when none is named: the list
    command fails on the mesh that -init has just made. *)
Theorem default_state_not_shared e fs fs' o :
  legacy_main ["-init"%string] e fs = (fs', o) -> fs !! "mesh-state.json"%string = None ->
  meshCmd ["list"%string] e fs' = Fails "Failed to load mesh state".
Proof.
  intros Hm Hf. assert (fs' !! "mesh-state.json"%string = None) as E.
  { assert (legacy_plan ["-init"%string] = Ok (O, "/var/lib/wgmesh/mesh-state.json"%string, LInit "")) as Hp by (vm_compute; reflexivity).
    unfold legacy_main in Hm. rewrite Hp in Hm. cbn [ask_password] in Hm.
    destruct (InitializeWithNetwork _ _); [|by injection Hm as <- _].
    unfold saved, save_state in Hm. destruct (Save _ _ _ _); [|by injection Hm as <- _].
    destruct (ce_disk e); injection Hm as <- _; [by rewrite lookup_insert_ne|done|by rewrite lookup_insert_ne]. }
  unfold meshCmd. cbn [parse_flags]. unfold get_bool, get_string. rewrite lookup_empty. cbn [ask_password]. rewrite !lookup_empty.
  by rewrite E.
Qed.
End notes.

(** ** Sample *)

Definition sample_env (keys : result (string * string)) (disk : disk_answer) : cmd_env :=
  {| ce_password1 := Ok "hunter2"; ce_password2 := Ok "hunter2"; ce_hostname := Ok "db"; ce_keys := keys;
     ce_salt := Some (replicate 32 1%Z); ce_nonce := Some (replicate 12 2%Z); ce_disk := disk |}%string.
Definition sample_mesh : Mesh :=
  match InitializeWithNetwork (Ok "db"%string) "" with Ok m => m | Err _ => leak_mesh end.

(** Two additions, one of a name that is taken, one that is not stored, and a
    removal. *)
Definition sample_session : list (request * cmd_env) :=
  [(Add "web" "10.99.0.1" "192.0.2.7" None, sample_env (Ok ("priv1", "pub1")) Stored);
   (Add "db" "10.99.0.2" "192.0.2.8" (Some 2222%Z), sample_env (Ok ("priv2", "pub2")) Stored);
   (Add "web" "10.99.0.3" "192.0.2.9" None, sample_env (Ok ("priv3", "pub3")) Stored);
   (Add "gw" "10.99.0.4" "192.0.2.9" None, sample_env (Ok ("priv3", "pub3")) NotMade);
   (Remove "web", sample_env (Err "") Stored)]%string.

Lemma sample_usable : Forall (fun c => usable "hunter2" c.1 c.2) sample_session.
Proof.
  assert (forall n x, is_byte x -> Forall is_byte (replicate n x)) as Hb by (intros; by apply Forall_replicate).
  unfold sample_session. repeat apply Forall_cons_2; [..|apply Forall_nil_2];
    (split; [by right|done|by eexists; split_and!; [reflexivity|reflexivity|apply Hb]|
             by eexists; split_and!; [reflexivity|reflexivity|apply Hb]|by intros ? ? [= <- <-]|]).
  all: cbn [fst]; try done; (split; [reflexivity|]); try done. intros z [= <-]. done.
Qed.

Lemma session_refines_witness :
  exists text fs', session ((fun c => (words "m.json" "hunter2" c.1, c.2)) <$> sample_session) {["m.json"%string := text]}
      = (fs', [Exits ["Node added successfully"]; Exits ["Node added successfully"]; Fails "Failed to add node";
               Fails "Failed to save state"; Exits ["Node removed successfully"]]%string)
    /\ exists line, meshCmd ["list"; "--state"; "m.json"; "--encrypt"]%string (sample_env (Err "") Stored) fs' = Exits [line]
                    /\ line = "db 10.99.0.2"%string.
Proof.
  destruct (initialized_ok "db" "" sample_mesh eq_refl ltac:(vm_compute; reflexivity)) as [_ Ht].
  destruct (save_load "hunter2" (replicate 32 1%Z) (replicate 12 2%Z) sample_mesh Ht eq_refl ltac:(by_compute) eq_refl ltac:(by_compute))
    as (text & _ & Hl).
  destruct (session_refines "m.json" "hunter2" sample_session {["m.json"%string := text]} sample_mesh) as (fs' & Hr & _ & _ & _ & Hlist).
  - exact sample_usable.
  - exact Ht.
  - unfold holds. rewrite lookup_singleton_eq. exact Hl.
  - exists text, fs'. split; [rewrite Hr; f_equal; vm_compute; reflexivity|].
    destruct (Hlist (sample_env (Err "") Stored)) as (lines & Hm & Hn & Hin); [by right|].
    assert (length lines = 1%nat) as Hlen by (rewrite Hn; vm_compute; reflexivity). destruct lines as [|line [|? ?]]; try done.
    exists line. split; [exact Hm|]. destruct (proj1 (Hin line) ltac:(by left)) as (h & n & Hh & ->).
    apply elem_of_map_to_list in Hh. vm_compute in Hh. apply list_elem_of_singleton in Hh. injection Hh as -> ->. reflexivity.
Defined.

(** A state file without a table: adding a node panics. *)
Example nil_table_panics `{Aead, Pbkdf2} fs e :
  fs !! "m.json"%string = Some "{}"%string -> ce_keys e = Ok ("priv", "pub")%string ->
  (legacy_main (words "m.json" "" (Add "web" "10.99.0.1" "192.0.2.7" None)) e fs).2 = Panics.
Proof. intros Hf Hk. unfold legacy_main. change (legacy_plan _) with (@Ok (nat * string * legacy_action) (0%nat, "m.json"%string, LAdd "web:10.99.0.1:192.0.2.7")). cbn [ask_password]. rewrite Hf, Hk. reflexivity. Qed.
