(* ===== verification/TestPeer.v ===== *)
(** * The test-peer command (main.go) against a running node

    [wgmesh test-peer] sends one HELLO to a running node and reads the answer.
    The node is the exchange of pkg/discovery/exchange.go. *)

From S2P Require Import Prelude GoStrings GoNet GoCrypto GoJson PeerStore Derive Aead Envelope.
From S2P Require Import IfName NodeConfig PeerSink Exchange Gossip Protocol GoFlag Cli.
Local Open Scope wgmesh_scope.

Definition test_key : string := "test-pubkey".

Definition test_flags : FlagSet := [("secret", FString); ("peer", FString); ("port", FInt)]%string.

(** The announcement the command makes up. *)
Definition test_announcement (now : Time) : PeerAnnouncement :=
  CreateAnnouncement test_key "10.0.0.1" "test:51820" false [] [] "" "" "" now.

(** Up to the datagram: the configuration, where it goes and its bytes.  [bound]:
    the local socket could be opened. *)
Definition test_hello `{Hkdf} `{Aead} (os : goos) (args : list string) (bound : bool)
    (resolve : string -> option UDPAddr) (nonce : option (list Z)) (now : Time)
  : result (Config * UDPAddr * list Z) :=
  match parse_flags test_flags args ∅ with
  | Err e => Err e
  | Ok (v, _) =>
      if String.eqb (get_string v "secret" "") "" || String.eqb (get_string v "peer" "") "" then Err "usage"
      else
        (cfg <-? wrap "Failed to create config" (NewConfig os (status_opts (get_string v "secret" "") "" ""));
         if negb bound then Err "Failed to bind UDP"
         else match resolve (get_string v "peer" "") with
              | None => Err "Failed to resolve peer"
              | Some peerUDP =>
                  data <-? wrap "Failed to create message"
                    (SealEnvelope MessageTypeHello (announcement_json (test_announcement now)) (GossipKey (Keys cfg)) nonce);
                  Ok (cfg, peerUDP, data)
              end)%wg
  end.

(** What is sent, and what is reported: message type, key and mesh address of the
    answer.  [answer]: what arrived within ten seconds, if anything. *)
Definition testPeerCmd `{Hkdf} `{Aead} (os : goos) (args : list string) (bound : bool)
    (resolve : string -> option UDPAddr) (nonce : option (list Z)) (sent : bool) (answer : option (list Z))
    (now now' : Time) : list effect * option (result (string * string * string)) :=
  match test_hello os args bound resolve nonce now with
  | Err e => ([], Some (Err e))
  | Ok (cfg, peerUDP, data) =>
      ([Send peerUDP data],
       if negb sent then Some (Err "Failed to send")
       else match answer with
            | None => Some (Err "No response")
            | Some buf =>
                match OpenEnvelope buf (GossipKey (Keys cfg)) now' with
                | None => None
                | Some (Err _) => Some (Err "Failed to decrypt (wrong secret?)")
                | Some (Ok (envelope, reply)) => Some (Ok (MessageType envelope, pa_WGPubKey reply, pa_MeshIP reply))
                end
            end)
  end.

(** ** The answer of a running node *)

(** An announcement that breaks the contract is refused by whoever opens it. *)
Lemma open_invalid `{Aead} mt a key nonce now data :
  ~ announcement_valid a -> announcement_text a = true -> pa_Protocol a = ProtocolVersion ->
  ascii_str mt = true -> length key = 32 -> length nonce = NonceSize -> Forall is_byte nonce ->
  SealEnvelope mt (announcement_json a) key (Some nonce) = Ok data ->
  exists e, OpenEnvelope data key now = Some (Err e).
Proof.
  intros Hv Ht Hp Hmt Hk Hn Bn Hs.
  pose proof (announcement_json_ok a Ht) as Hj.
  assert (dec_meta (announcement_json a) = Some (ProtocolVersion, pa_Timestamp a)) as Hm.
  { rewrite <- Hp. apply dec_meta_json. unfold announcement_text in Ht. bool_steps. lia. }
  unfold OpenEnvelope.
  destruct (OpenEnvelopeRaw_eq mt _ key nonce now data _ Hj Hmt Hk Hn Bn Hm Hs) as (env & _ & ->).
  destruct (_ <? _)%Z; [by eexists|]. destruct (time_after _ _); [by eexists|]. cbn [rbind fst snd].
  cbn [mbind option_bind rbind fst snd]. rewrite json_bytes_roundtrip, dec_announcement_json by done.
  destruct (Envelope.Validate a) as [[]|e] eqn:E; [|by eexists]. by apply Validate_iff in E.
Qed.

Lemma test_key_invalid k : kp_WGPubKey k = test_key -> ~ known_peer_valid k.
Proof.
  intros Hk [Hv _]. rewrite Hk in Hv. apply validateWGPubKey_ok in Hv. vm_compute in Hv. discriminate.
Qed.

Section running.
Context {S : Type} {sink : PeerSink S} {cipher : Aead} `{Hkdf}.
Notation PE := (PeerExchange S).

Lemma test_hello_sealed os args bound resolve nonce now cfg to hello :
  test_hello os args bound resolve (Some nonce) now = Ok (cfg, to, hello) ->
  length (GossipKey (Keys cfg)) = 32
  /\ SealEnvelope MessageTypeHello (announcement_json (test_announcement now)) (GossipKey (Keys cfg)) (Some nonce) = Ok hello.
Proof.
  unfold test_hello. destruct (parse_flags _ _ _) as [[v w]|]; [|done].
  destruct (_ || _); [done|]. intros E. apply rbind_ok in E as (c & Hc & E). apply wrap_ok in Hc.
  destruct bound; [|done]. cbn [negb] in E. destruct (resolve _) as [u|]; [|done].
  apply rbind_ok in E as (d & Hd & E). apply wrap_ok in Hd. injection E as <- <- <-.
  split; [|done]. apply NewConfig_ok in Hc as [[Hk _] _]. apply Hk.
Qed.

(** The peer that was just heard of is among those told to others. *)
Lemma heard_is_known (pe : PE) k p now :
  sink_inv (pe_store pe) -> sink_get (pe_store pe) k = Some p -> LastSeen p = now ->
  k <> ""%string -> k <> own_pubkey pe -> known_peer_of p ∈ getKnownPeers pe now /\ WGPubKey p = k.
Proof.
  intros Hs Hg Hl He Ho. pose proof (sink_get_key _ _ _ Hs Hg) as Hk. split; [|done].
  unfold getKnownPeers. apply list_elem_of_fmap. exists p. split; [done|].
  apply list_elem_of_filter. split; [by rewrite Hk|]. apply sink_active_spec; [done|].
  rewrite Hk. split; [done|]. unfold is_active. subst now.
  unfold time_sub. rewrite Z.sub_diag. by vm_compute.
Qed.

(** C33. The command never reports success against a running node: the node
    stores the made-up key of the HELLO as a peer, so its answer lists that key,
    which the command's own validation refuses as "wrong secret?".  The made-up
    peer stays in the node's store, with the address 10.0.0.1.  Any node of the
    same secret with room for a peer will do; the clocks may differ by ten
    minutes. *)
Theorem test_peer_always_fails os args resolve nonce now cfg to hello (B : PE) from nonceB tB :
  test_hello os args true resolve (Some nonce) now = Ok (cfg, to, hello) ->
  exchange_ok B -> gossip_key B = GossipKey (Keys cfg) -> own_pubkey B <> test_key -> 1 <= sink_room (pe_store B) ->
  length nonce = NonceSize -> Forall is_byte nonce -> length nonceB = NonceSize -> Forall is_byte nonceB ->
  int64 (time_to_unix now) = true -> fresh_at (time_to_unix now) tB ->
  exists B1 answer p, handleMessage B hello from (Some nonceB) tB = Some (B1, [Send from answer])
    /\ sink_get (pe_store B1) test_key = Some p /\ MeshIP p = "10.0.0.1"%string
    /\ (announcement_text (reply_of B1 from tB) = true -> forall now',
        testPeerCmd os args true resolve (Some nonce) true (Some answer) now now'
        = ([Send to hello], Some (Err "Failed to decrypt (wrong secret?)"))).
Proof.
  intros Hh HB Hkey Hown Hroom Hn Bn HnB BnB Hi Hf.
  destruct (test_hello_sealed _ _ _ _ _ _ _ _ _ Hh) as [Hlen Hseal].
  destruct (handleMessage_announcement B (GossipKey (Keys cfg)) MessageTypeHello (test_announcement now) hello from
    nonce (Some nonceB) tB) as [Hdec [l ->]]; try done.
  unfold handlePlaintext. rewrite String.eqb_refl, Hdec.
  destruct (handleHello_learns (with_log B l) (test_announcement now) from (Some nonceB) tB)
    as (s1 & -> & Hs1 & (p & Hp & Hlast & Hip & _) & _); [apply HB|by apply not_eq_sym in Hown; exact Hown|done|apply not_elem_of_nil|done|].
  set (B1 := with_store (with_log B l) s1).
  destruct (sealed_ok MessageTypeReply (announcement_json (reply_of B1 from tB)) (gossip_key B1) nonceB) as [data Hdata].
  exists B1, data, p. split; [by rewrite (sendReply_sealed _ _ _ _ _ Hdata)|]. split; [done|]. split; [done|].
  intros Ht now'. unfold testPeerCmd. rewrite Hh. cbn [negb].
  destruct (heard_is_known B1 test_key p tB Hs1 Hp Hlast) as [Hin Hk]; [done|by apply not_eq_sym|].
  change (gossip_key B1) with (gossip_key B) in Hdata. rewrite Hkey in Hdata.
  destruct (open_invalid MessageTypeReply (reply_of B1 from tB) (GossipKey (Keys cfg)) nonceB now' data) as [e ->]; try done.
  intros (_ & _ & _ & _ & _ & _ & _ & Hv). rewrite Forall_forall in Hv. specialize (Hv _ Hin).
  by apply test_key_invalid in Hv.
Qed.
End running.

(** ** A run: [B] of the exchange samples, tested with its own secret *)

Definition sample_args : list string := ["--secret"; "correct-horse-battery-staple"; "--peer"; "198.51.100.2:51821"]%string.
Definition sample_hello : result (Config * UDPAddr * list Z) :=
  test_hello Linux sample_args true (fun _ => Some addr_b) (Some (replicate 12 1%Z)) t0.
Definition hello_parts : Config * UDPAddr * list Z :=
  match sample_hello with Ok r => r | Err _ => (mesh_config, addr_b, []) end.
Definition tested : PeerExchange PeerStore :=
  state_of (handleMessage ex_b hello_parts.2 addr_a (Some (replicate 12 2%Z)) t0) ex_b.

Lemma test_peer_always_fails_witness :
  exists answer p, handleMessage ex_b hello_parts.2 addr_a (Some (replicate 12 2%Z)) t0 = Some (tested, [Send addr_a answer])
    /\ sink_get (pe_store tested) test_key = Some p
    /\ (testPeerCmd Linux sample_args true (fun _ => Some addr_b) (Some (replicate 12 1%Z)) true (Some answer) t0 t0).2
       = Some (Err "Failed to decrypt (wrong secret?)").
Proof.
  assert (sample_hello = Ok (hello_parts.1.1, hello_parts.1.2, hello_parts.2)) as Hh.
  { assert (is_ok sample_hello = true) as Hok by (vm_compute; reflexivity).
    unfold hello_parts. destruct sample_hello as [[[c u] d]|e]; [reflexivity|discriminate Hok]. }
  destruct (test_peer_always_fails Linux sample_args (fun _ => Some addr_b) (replicate 12 1%Z) t0
    hello_parts.1.1 hello_parts.1.2 hello_parts.2 ex_b addr_a (replicate 12 2%Z) t0) as (B1 & answer & p & HB & Hp & _ & Hfail).
  - exact Hh.
  - exact ex_b_ok.
  - unfold ex_b. rewrite gossip_key_new. vm_compute; reflexivity.
  - discriminate.
  - by_compute.
  - reflexivity.
  - by_compute.
  - reflexivity.
  - by_compute.
  - vm_compute; reflexivity.
  - split; vm_compute; discriminate.
  - assert (tested = B1) as E1 by (unfold tested; rewrite HB; reflexivity).
    exists answer, p. rewrite E1. split; [exact HB|]. split; [exact Hp|]. rewrite Hfail; [reflexivity|].
    rewrite <- E1. vm_compute; reflexivity.
Defined.
