(* ===== verification/PeersCmd.v ===== *)
(** * The peers command (main.go: peersCmd and its three handlers)

    The command asks the daemon over its socket and prints what comes back.  Its
    result is the printed lines, or the first line it writes to standard error
    before it ends with status 1. *)

From Stdlib Require Import SpecFloat.
From S2P Require Import Prelude GoStrings GoTime GoJson GoFloat GoFmt Routes PeerStore Rpc Cli RpcProps.
Local Open Scope wgmesh_scope.

(** A type assertion to [string] whose second result is dropped. *)
Definition as_text (v : option json) : string := match v with Some (JStr s) => s | _ => EmptyString end.
(** Numbers are decoded into float64; one out of its range fails the decoding. *)
Definition as_number (v : option json) : option float64 := match v with Some (JNum lit) => lit_float lit | _ => None end.
(** The strings of an array; other elements are skipped. *)
Definition texts (v : option json) : list string :=
  match v with
  | Some (JArr l) => omap (fun x => match x with JStr s => Some s | _ => None end) l
  | _ => []
  end.

Definition short_key (pubkey : string) : string :=
  if Nat.ltb 16 (String.length pubkey) then str_take 16 pubkey ^^ "..." else pubkey.

Definition peer_columns (hostname pubkey meshIP endpoint lastSeen latency via : string) : string :=
  pad_right 20 hostname ^^ " " ^^ pad_right 19 pubkey ^^ " " ^^ pad_right 15 meshIP ^^ " " ^^ pad_right 25 endpoint ^^ " "
  ^^ pad_right 10 lastSeen ^^ " " ^^ pad_right 10 latency ^^ " " ^^ via.

Definition latency_text (v : option json) : string :=
  match as_number v with Some ms => fmt_f 1 ms ^^ "ms" | None => "-" end.

(** The row of a peer; an element that is no object with a key has none. *)
Definition peer_row (now : Time) (peer : json) : option string :=
  match peer, obj_get "pubkey" peer with
  | JObj _, Some (JStr pubkey) =>
      let short := short_key pubkey in
      let hostname := as_text (obj_get "hostname" peer) in
      let hostname := if String.eqb hostname EmptyString then short else hostname in
      let hostname := if Nat.ltb 20 (String.length hostname) then str_take 17 hostname ^^ "..." else hostname in
      let lastSeen := match parse_rfc3339 (as_text (obj_get "last_seen" peer)) with
                      | Some t => formatDuration (time_sub now t)
                      | None => "unknown"
                      end in
      Some (peer_columns hostname short (as_text (obj_get "mesh_ip" peer)) (as_text (obj_get "endpoint" peer)) lastSeen
              (latency_text (obj_get "latency_ms" peer)) (join "," (texts (obj_get "discovered_via" peer))))
  | _, _ => None
  end.

Definition peers_header : list string :=
  [peer_columns "HOSTNAME" "PUBLIC KEY" "MESH IP" "ENDPOINT" "LAST SEEN" "LATENCY" "DISCOVERED VIA"; repeat_str "-" 130].

Section client.
Context (call : string -> gmap string json -> result json).

Definition handlePeersList (now : Time) : result (list string) :=
  match call "peers.list"%string ∅ with
  | Err e => Err ("RPC error: " ^^ e)
  | Ok (JObj l) =>
      match obj_get "peers" (JObj l) with
      | Some (JArr []) => Ok ["No active peers"]%string
      | Some (JArr peersData) => Ok (peers_header ++ omap (peer_row now) peersData)
      | _ => Err "Invalid peers data"
      end
  | Ok _ => Err "Invalid response format"
  end.

Definition handlePeersCount : result (list string) :=
  match call "peers.count"%string ∅ with
  | Err e => Err ("RPC error: " ^^ e)
  | Ok (JObj l) =>
      match as_number (obj_get "active" (JObj l)), as_number (obj_get "total" (JObj l)), as_number (obj_get "dead" (JObj l)) with
      | Some active, Some total, Some dead =>
          Ok ["Peer Statistics"; "==============="; "Active peers: " ^^ itoa (f_trunc active);
              "Total peers:  " ^^ itoa (f_trunc total); "Dead peers:   " ^^ itoa (f_trunc dead)]%string
      | _, _, _ => Err "Invalid peer count data"
      end
  | Ok _ => Err "Invalid response format"
  end.

(** The line of the latency: none when it is neither a number nor absent. *)
Definition peer_latency (v : option json) : list string :=
  match v with
  | None | Some JNull => ["Latency:        -"]%string
  | Some _ => match as_number v with Some ms => ["Latency:        " ^^ fmt_f 1 ms ^^ " ms"] | None => [] end
  end.

Definition handlePeersGet (pubkey : string) : result (list string) :=
  match call "peers.get"%string {["pubkey"%string := JStr pubkey]} with
  | Err e => Err ("RPC error: " ^^ e)
  | Ok (JObj l) =>
      let get k := obj_get k (JObj l) in
      Ok (["Peer Information"; "================"; "Public Key:     " ^^ as_text (get "pubkey");
           "Mesh IP:        " ^^ as_text (get "mesh_ip"); "Endpoint:       " ^^ as_text (get "endpoint");
           "Last Seen:      " ^^ as_text (get "last_seen")]%string
          ++ match texts (get "discovered_via"%string) with [] => [] | l => ["Discovered Via: " ^^ join ", " l] end
          ++ match texts (get "routable_networks"%string) with [] => [] | l => ["Routes:         " ^^ join ", " l] end
          ++ peer_latency (get "latency_ms"%string))
  | Ok _ => Err "Invalid response format"
  end.
End client.

(** [dial]: the connection to a socket, what it answers to what is written; the
    environment gives WGMESH_SOCKET and XDG_RUNTIME_DIR. *)
Definition peersCmd (renumber : string -> option string) (dial : string -> option (string -> string))
    (wgmeshSocket xdgRuntimeDir : string) (varRunWritable : bool) (now : Time) (args : list string) : result (list string) :=
  match args with
  | _ :: _ :: action :: rest =>
      let socketPath := if String.eqb wgmeshSocket EmptyString then GetSocketPath wgmeshSocket xdgRuntimeDir varRunWritable else wgmeshSocket in
      match dial socketPath with
      | None => Err "Failed to connect to daemon: failed to connect to socket"
      | Some answer =>
          let call := Call renumber answer 1 in
          if String.eqb action "list" then handlePeersList call now
          else if String.eqb action "count" then handlePeersCount call
          else if String.eqb action "get" then
            match rest with
            | pubkey :: _ => handlePeersGet call pubkey
            | [] => Err "Usage: wgmesh peers get <pubkey>"
            end
          else Err ("Unknown action: " ^^ action)
      end
  | _ => Err "Usage: wgmesh peers <list|count|get>"
  end.

(** * What the peers command shows (main.go: peersCmd)

    From the terminal to the peer store and back: the client, the socket, the
    server and the printed pages composed. *)

(** ** Numbers *)

Lemma f_trunc_int z : (Z.abs z < 2 ^ 53)%Z -> f_trunc (f_of_Z z) = z.
Proof.
  intros Hz. unfold f_of_Z, binary_normalize. destruct z as [|p|p]; [done| |].
  all: destruct (binary_round_exact false p ltac:(lia)) as (m & k & E & Hk & Hm);
    destruct (binary_round_exact true p ltac:(lia)) as (m' & k' & E' & Hk' & Hm'); rewrite ?E, ?E'; cbn [f_trunc].
  - destruct (Z.ltb_spec (- k) 0); rewrite ?Z.shiftr_div_pow2, ?Z.shiftl_mul_pow2 by lia; rewrite Hm.
    + rewrite Z.opp_involutive. apply Z.div_mul. assert (0 < 2 ^ k)%Z by (apply Z.pow_pos_nonneg; lia). lia.
    + replace k with 0%Z by lia. cbn. lia.
  - destruct (Z.ltb_spec (- k') 0); rewrite ?Z.shiftr_div_pow2, ?Z.shiftl_mul_pow2 by lia; rewrite Hm'.
    + rewrite Z.opp_involutive, Z.div_mul; [done|]. assert (0 < 2 ^ k')%Z by (apply Z.pow_pos_nonneg; lia). lia.
    + replace k' with 0%Z by lia. cbn. lia.
Qed.

Lemma as_number_int z : (Z.abs z < 2 ^ 53)%Z -> as_number (Some (jint z)) = Some (f_of_Z z).
Proof. apply lit_float_itoa. Qed.

Lemma latency_below l : (int64_min <= l <= int64_max)%Z -> (Z.abs (Z.quot l millisecond) < 2 ^ 53)%Z.
Proof.
  unfold int64_min, int64_max, millisecond. intros Hl. rewrite <- Z.quot_abs by lia. rewrite Z.quot_div_nonneg by lia.
  apply Z.div_lt_upper_bound; lia.
Qed.

(** ** Pages of the store *)

(** The text of a latency, in whole milliseconds. *)
Definition ms_text (l : Duration) : string := itoa (Z.quot l millisecond) ^^ ".0".

Definition shown_host (p : PeerInfo) : string :=
  let h := if String.eqb (Hostname p) EmptyString then short_key (WGPubKey p) else Hostname p in
  if Nat.ltb 20 (String.length h) then str_take 17 h ^^ "..." else h.
(** Times on the wire are whole seconds. *)
Definition shown_row (now : Time) (p : PeerInfo) : string :=
  peer_columns (shown_host p) (short_key (WGPubKey p)) (MeshIP p) (Endpoint p)
    (formatDuration (time_sub now (time_unix (time_to_unix (LastSeen p)))))
    (match Latency p with Some l => ms_text l ^^ "ms" | None => "-" end) (join "," (DiscoveredVia p)).

Definition list_page (now : Time) (ps : list PeerInfo) : list string :=
  match ps with [] => ["No active peers"]%string | _ => peers_header ++ (shown_row now <$> ps) end.

Definition count_page (active total : nat) : list string :=
  ["Peer Statistics"; "==============="; "Active peers: " ^^ itoa (Z.of_nat active); "Total peers:  " ^^ itoa (Z.of_nat total);
   "Dead peers:   " ^^ itoa (Z.of_nat total - Z.of_nat active)]%string.

Definition named (label : string) (l : list string) : list string := match l with [] => [] | _ => [label ^^ join ", " l] end.
Definition peer_page (p : PeerInfo) (lastSeen : string) : list string :=
  ["Peer Information"; "================"; "Public Key:     " ^^ WGPubKey p; "Mesh IP:        " ^^ MeshIP p;
   "Endpoint:       " ^^ Endpoint p; "Last Seen:      " ^^ lastSeen]%string
  ++ named "Discovered Via: " (DiscoveredVia p) ++ named "Routes:         " (RoutableNetworks p)
  ++ [match Latency p with Some l => "Latency:        " ^^ ms_text l ^^ " ms" | None => "Latency:        -" end].

Lemma texts_strings l : texts (Some (JArr (JStr <$> l))) = l.
Proof. cbn [texts]. induction l as [|s l IH]; [done|]. rewrite fmap_cons. cbn [omap list_omap]. by rewrite IH. Qed.

Lemma shows_object r p : shows r p -> exists l, r = JObj l.
Proof. intros (H & _). destruct r; try discriminate H. by eexists. Qed.

Definition latency_ok (p : PeerInfo) : Prop := forall l, Latency p = Some l -> (int64_min <= l <= int64_max)%Z.

Lemma shows_row now r p : latency_ok p -> shows r p -> peer_row now r = Some (shown_row now p).
Proof.
  intros Hl Hs. destruct (shows_object r p Hs) as [ms ->].
  destruct Hs as (H1 & H2 & H3 & H4 & H5 & _ & (text & H6 & H7) & H8).
  unfold peer_row. rewrite H1, H2, H3, H4, H5, H6, H8, texts_strings. cbn [as_text]. rewrite H7.
  unfold shown_row, shown_host, latency_text. repeat f_equal.
  - by destruct (String.eqb_spec (Hostname p) ""); cbn [as_text String.eqb]; [|apply String.eqb_neq in n; rewrite n].
  - destruct (Latency p) as [l|] eqn:El; [|done]. cbn [fmap option_fmap option_map]. specialize (Hl l El).
    rewrite as_number_int, fmt_f_int by by apply latency_below. done.
Qed.

Lemma shows_rows now rs ps : Forall latency_ok ps -> Forall2 shows rs ps -> omap (peer_row now) rs = shown_row now <$> ps.
Proof.
  intros Hl H. induction H as [|r p rs ps Hs _ IH]; [done|]. apply Forall_cons in Hl as [Hp Hl].
  rewrite fmap_cons, <- IH by done. apply omap_cons_Some. by apply shows_row.
Qed.

(** The three handlers, given what their calls return. *)
Lemma list_printed call now r rs ps :
  call "peers.list"%string ∅ = Ok r -> obj_get "peers" r = Some (JArr rs) -> Forall latency_ok ps -> Forall2 shows rs ps ->
  handlePeersList call now = Ok (list_page now ps).
Proof.
  intros Hc Hr Hl Hs. unfold handlePeersList. rewrite Hc. destruct r; try discriminate Hr. rewrite Hr.
  unfold list_page. destruct Hs as [|r p rs ps Hrp Hs]; [done|].
  by rewrite (shows_rows now (r :: rs) (p :: ps)) by (done || by constructor).
Qed.

Lemma count_printed call r a t :
  call "peers.count"%string ∅ = Ok r -> obj_get "active" r = Some (jint (Z.of_nat a)) -> obj_get "total" r = Some (jint (Z.of_nat t)) ->
  obj_get "dead" r = Some (jint (Z.of_nat t - Z.of_nat a)) -> (Z.of_nat a <= Z.of_nat t < 2 ^ 53)%Z ->
  handlePeersCount call = Ok (count_page a t).
Proof.
  intros Hc Ha Ht Hd Hb. unfold handlePeersCount. rewrite Hc. destruct r; try discriminate Ha. rewrite Ha, Ht, Hd.
  rewrite !as_number_int, !f_trunc_int by lia. done.
Qed.

Lemma get_printed call k r p :
  call "peers.get"%string {["pubkey"%string := JStr k]} = Ok r -> shows r p -> latency_ok p ->
  exists text, parse_rfc3339 text = Some (time_unix (time_to_unix (LastSeen p))) /\ handlePeersGet call k = Ok (peer_page p text).
Proof.
  intros Hc Hs Hl. unfold handlePeersGet. rewrite Hc. destruct (shows_object r p Hs) as [ms ->].
  destruct Hs as (H1 & H2 & H3 & H4 & H5 & H6 & (text & H7 & H8) & H9). exists text. split; [done|]. cbv zeta.
  rewrite H1, H3, H4, H5, H6, H7, H9, texts_strings. unfold peer_page, named. cbn [as_text]. do 3 f_equal; [|f_equal].
  - by destruct (DiscoveredVia p).
  - destruct (RoutableNetworks p) as [|n ns]; [done|]. by rewrite texts_strings.
  - destruct (Latency p) as [l|] eqn:El; [|done]. cbn [fmap option_fmap option_map peer_latency]. specialize (Hl l El).
    unfold jint at 1. cbv beta iota. rewrite as_number_int, fmt_f_int by by apply latency_below. done.
Qed.

Lemma peer_text_latency zone p : peer_text zone p -> latency_ok p.
Proof. by intros (_ & _ & H). Qed.

(** C35. The peers command shows the peer store of the daemon: the list has a
    row for every active peer with its key, addresses, age, latency and sources,
    the counts are those of the store, a peer asked for by its key is printed with
    its fields and its last sign of life to the second, and an unknown key is
    reported as such. *)
Theorem peers_command_shows_store renumber zone version why d now now' sock xdg writable run :
  zone_ok zone -> sock <> EmptyString -> (size (peers (rd_store d)) <= DefaultMaxPeers)%nat ->
  (forall k p, Get (rd_store d) k = Some p -> peer_text zone p) ->
  run = (fun args => peersCmd renumber (fun path => if String.eqb path sock then Some (socket renumber zone version why d now) else None)
                       sock xdg writable now' ("wgmesh" :: "peers" :: args)%string) ->
  run ["list"%string] = Ok (list_page now' (GetActive (rd_store d) now)) /\
  run ["count"%string] = Ok (count_page (length (GetActive (rd_store d) now)) (size (peers (rd_store d)))) /\
  forall k, ascii_str k = true -> k <> EmptyString ->
    (Z.of_nat (String.length (print (request_json "peers.get" (pubkey_param k) 2))) < MaxScanTokenSize)%Z ->
    match Get (rd_store d) k with
    | Some p => exists text, parse_rfc3339 text = Some (time_unix (time_to_unix (LastSeen p)))
                             /\ run ["get"%string; k] = Ok (peer_page p text)
    | None => run ["get"%string; k] = Err ("RPC error: RPC error -32602: peer not found: " ^^ k)
    end.
Proof.
  intros Hz Hs Hsz Ht ->. unfold peersCmd. rewrite (proj2 (String.eqb_neq _ _) Hs), String.eqb_refl.
  destruct (rpc_list_agrees_count renumber zone version why d now Hz Hsz Ht)
    as (pr & cr & rs & Hl & Hc & Hp & Hrs & Ha & Htot & Hd).
  pose proof (Forall2_length _ _ _ Hrs) as Hlen. rewrite Hlen in Ha, Hd.
  assert (length (GetActive (rd_store d) now) <= size (peers (rd_store d)))%nat as Hle.
  { unfold GetActive. etransitivity; [apply length_filter|]. unfold GetAll. by rewrite length_fmap, length_map_to_list. }
  split; [|split].
  - cbn [String.eqb Ascii.eqb Bool.eqb]. apply (list_printed _ _ pr rs); [exact Hl|exact Hp| |exact Hrs].
    apply Forall_forall. intros p Hin. apply list_elem_of_filter in Hin as [_ Hin].
    apply list_elem_of_fmap in Hin as ([k p'] & -> & Hin). apply elem_of_map_to_list in Hin.
    by apply (peer_text_latency zone), (Ht k).
  - cbn [String.eqb Ascii.eqb Bool.eqb]. apply (count_printed _ cr); [exact Hc|exact Ha|exact Htot|exact Hd|].
    unfold DefaultMaxPeers in Hsz. lia.
  - intros k Hk Hne Hkl. pose proof (rpc_get_shows_store renumber zone version why d now k Hz Hk Hne Hkl) as Hg.
    cbn [String.eqb Ascii.eqb Bool.eqb]. destruct (Get (rd_store d) k) as [p|] eqn:Eg.
    + destruct (Hg (Ht k p Eg)) as (r & Hr & Hsr). apply (get_printed _ k r); [exact Hr|exact Hsr|].
      by apply (peer_text_latency zone), (Ht k).
    + unfold handlePeersGet. unfold call_first, pubkey_param in Hg. by rewrite Hg.
Qed.

Lemma peers_command_shows_store_witness :
  let run := fun args => peersCmd (fun _ => None)
    (fun path => if String.eqb path "/run/x.sock" then Some (socket (fun _ => None) 3600 "dev" "" rpc_sample (time_unix 1700000060)) else None)
    "/run/x.sock" "" false (time_unix 1700000061) ("wgmesh" :: "peers" :: args)%string in
  run ["count"%string] = Ok (count_page 1 1) /\
  run ["list"%string] = Ok (list_page (time_unix 1700000061) (GetActive (rd_store rpc_sample) (time_unix 1700000060))).
Proof.
  edestruct (peers_command_shows_store (fun _ => None) 3600 "dev" "" rpc_sample (time_unix 1700000060) (time_unix 1700000061)
    "/run/x.sock" "" false) as (Hl & Hc & _).
  - split; [reflexivity|lia].
  - discriminate.
  - apply Nat.leb_le. vm_compute. reflexivity.
  - exact rpc_sample_text.
  - reflexivity.
  - split; [exact Hc|exact Hl].
Defined.

Example peers_list_sample :
  list_page (time_unix 1700000061) [rpc_sample_peer] =
  ["HOSTNAME             PUBLIC KEY          MESH IP         ENDPOINT                  LAST SEEN  LATENCY    DISCOVERED VIA";
   "----------------------------------------------------------------------------------------------------------------------------------";
   "db                   pk                  10.99.0.2       192.0.2.7:51820           1m         12.0ms     dht"]%string.
Proof. vm_compute. reflexivity. Qed.

(** Without a daemon nothing is asked. *)
Theorem no_daemon_no_answer renumber wgmeshSocket xdg writable now action rest :
  peersCmd renumber (fun _ => None) wgmeshSocket xdg writable now ("wgmesh" :: "peers" :: action :: rest)%string
  = Err "Failed to connect to daemon: failed to connect to socket".
Proof. unfold peersCmd. by destruct (String.eqb wgmeshSocket ""). Qed.
