(* ===== verification/Pilot.v ===== *)
(** * The pilot programme (pkg/pilot: pilot.go, config.go, metrics.go, validation.go, complete.go; main.go)

    The evaluation of a pilot: its configuration and milestones, the metrics it
    gathers, its validation and its final rating, and the commands that load and
    save it.  The YAML codec is a third-party library, the class [Yaml]; times are
    instants, and a day is 24 hours.  A command's result is what it leaves in the
    configuration file and how it ends. *)

From Stdlib Require Import SpecFloat.
From S2P Require Import Prelude GoStrings GoTime GoFloat GoFmt Derive.
Local Open Scope wgmesh_scope.

(** ** Configuration *)

Record Milestone := { ml_Name : string; ml_Completed : bool; ml_CompletedAt : Time; ml_TargetDate : Time }.
Record MetricsTarget := {
  mt_MeshConnectivity : float64;
  mt_PeerDiscoveryTime : Z;
  mt_RoutePropagation : Z;
  mt_ThroughputMbps : float64;
  mt_LatencyOverheadMs : Z;
}.
Record PilotConfig := {
  pc_PilotID : string;
  pc_Organization : string;
  pc_ContactEmail : string;
  pc_StartDate : Time;
  pc_EndDate : Time;
  pc_Mode : string;
  pc_NodeCount : Z;
  pc_Milestones : gmap string Milestone;
  pc_MetricsTargets : MetricsTarget;
}.

(** ** Metrics *)

Record Metrics := {
  mx_PilotID : string;
  mx_Phase : string;
  mx_DaysElapsed : Z;
  mx_MeshUptimePercent : float64;
  mx_PeerDiscoverySuccess : float64;
  mx_RoutePropagationTime : Duration;
  mx_ThroughputMbps : float64;
  mx_LatencyMs : float64;
  mx_ConnectionOverheadMs : float64;
  mx_DaemonRestarts : Z;
  mx_WireGuardRestarts : Z;
  mx_NetworkPartitions : Z;
  mx_RecoveryTimeSec : Z;
  mx_DiscoveryLayerCounts : gmap string Z;
  mx_NATTypes : gmap string Z;
  mx_HolePunchSuccess : float64;
  mx_RelayFallbackCount : Z;
  mx_started : bool;
}.

Definition f_zero : float64 := f_of_Z 0.
Definition NewMetrics : Metrics :=
  {| mx_PilotID := ""; mx_Phase := ""; mx_DaysElapsed := 0; mx_MeshUptimePercent := f_zero;
     mx_PeerDiscoverySuccess := f_zero; mx_RoutePropagationTime := 0%Z; mx_ThroughputMbps := f_zero;
     mx_LatencyMs := f_zero; mx_ConnectionOverheadMs := f_zero; mx_DaemonRestarts := 0; mx_WireGuardRestarts := 0;
     mx_NetworkPartitions := 0; mx_RecoveryTimeSec := 0; mx_DiscoveryLayerCounts := ∅; mx_NATTypes := ∅;
     mx_HolePunchSuccess := f_zero; mx_RelayFallbackCount := 0; mx_started := false |}.

(** One measurement. *)
Inductive measurement :=
  | RecordPeerDiscovery (layer : string)
  | RecordMeshConnectivity (percent : float64)
  | RecordRoutePropagation (d : Duration)
  | RecordThroughput (mbps : float64)
  | RecordLatency (latencyMs overheadMs : float64)
  | RecordDaemonRestart
  | RecordWireGuardRestart
  | RecordNetworkPartition (recoveryTimeSec : Z)
  | RecordNATType (natType : string)
  | RecordHolePunchSuccess (success : bool)
  | RecordRelayFallback.

Definition bump (m : gmap string Z) (k : string) : gmap string Z := <[k := (default 0 (m !! k) + 1)%Z]> m.

(** A Metrics with the fields the measurements change. *)
Definition measured (m : Metrics) (uptime : float64) (route : Duration) (mbps latency overhead : float64)
    (daemon wg partitions recovery : Z) (layers nats : gmap string Z) (punch : float64) (relay : Z) : Metrics :=
  {| mx_PilotID := mx_PilotID m; mx_Phase := mx_Phase m; mx_DaysElapsed := mx_DaysElapsed m;
     mx_MeshUptimePercent := uptime; mx_PeerDiscoverySuccess := mx_PeerDiscoverySuccess m;
     mx_RoutePropagationTime := route; mx_ThroughputMbps := mbps; mx_LatencyMs := latency;
     mx_ConnectionOverheadMs := overhead; mx_DaemonRestarts := daemon; mx_WireGuardRestarts := wg;
     mx_NetworkPartitions := partitions; mx_RecoveryTimeSec := recovery; mx_DiscoveryLayerCounts := layers;
     mx_NATTypes := nats; mx_HolePunchSuccess := punch; mx_RelayFallbackCount := relay; mx_started := mx_started m |}.

(** Measurements before the start are dropped. *)
Definition record_measurement (m : Metrics) (x : measurement) : Metrics :=
  if negb (mx_started m) then m
  else
    let u := mx_MeshUptimePercent m in let rt := mx_RoutePropagationTime m in let tp := mx_ThroughputMbps m in
    let la := mx_LatencyMs m in let ov := mx_ConnectionOverheadMs m in let dr := mx_DaemonRestarts m in
    let wr := mx_WireGuardRestarts m in let np := mx_NetworkPartitions m in let re := mx_RecoveryTimeSec m in
    let ls := mx_DiscoveryLayerCounts m in let ns := mx_NATTypes m in let hp := mx_HolePunchSuccess m in
    let rl := mx_RelayFallbackCount m in
    match x with
    | RecordPeerDiscovery l => measured m u rt tp la ov dr wr np re (bump ls l) ns hp rl
    | RecordMeshConnectivity p => measured m p rt tp la ov dr wr np re ls ns hp rl
    | RecordRoutePropagation d => measured m u d tp la ov dr wr np re ls ns hp rl
    | RecordThroughput x => measured m u rt x la ov dr wr np re ls ns hp rl
    | RecordLatency x y => measured m u rt tp x y dr wr np re ls ns hp rl
    | RecordDaemonRestart => measured m u rt tp la ov (dr + 1) wr np re ls ns hp rl
    | RecordWireGuardRestart => measured m u rt tp la ov dr (wr + 1) np re ls ns hp rl
    | RecordNetworkPartition s => measured m u rt tp la ov dr wr (np + 1) s ls ns hp rl
    | RecordNATType t => measured m u rt tp la ov dr wr np re ls (bump ns t) hp rl
    | RecordHolePunchSuccess ok =>
        let hp' := if ok then f_div (f_add hp (f_of_Z 1)) (f_of_Z 2) else f_div hp (f_of_Z 2) in
        measured m u rt tp la ov dr wr np re ls ns hp' rl
    | RecordRelayFallback => measured m u rt tp la ov dr wr np re ls ns hp (rl + 1)
    end%Z.

Definition start_metrics (m : Metrics) (pilotID : string) : Metrics :=
  {| mx_PilotID := pilotID; mx_Phase := mx_Phase m; mx_DaysElapsed := mx_DaysElapsed m;
     mx_MeshUptimePercent := mx_MeshUptimePercent m; mx_PeerDiscoverySuccess := mx_PeerDiscoverySuccess m;
     mx_RoutePropagationTime := mx_RoutePropagationTime m; mx_ThroughputMbps := mx_ThroughputMbps m;
     mx_LatencyMs := mx_LatencyMs m; mx_ConnectionOverheadMs := mx_ConnectionOverheadMs m;
     mx_DaemonRestarts := mx_DaemonRestarts m; mx_WireGuardRestarts := mx_WireGuardRestarts m;
     mx_NetworkPartitions := mx_NetworkPartitions m; mx_RecoveryTimeSec := mx_RecoveryTimeSec m;
     mx_DiscoveryLayerCounts := mx_DiscoveryLayerCounts m; mx_NATTypes := mx_NATTypes m;
     mx_HolePunchSuccess := mx_HolePunchSuccess m; mx_RelayFallbackCount := mx_RelayFallbackCount m; mx_started := true |}.

(** ** The pilot *)

Record Pilot := {
  pl_config : PilotConfig;
  pl_phase : string;
  pl_days : Z;
  pl_started : bool;
  pl_completed : bool;
  pl_metrics : Metrics;
}.

Definition no_targets : MetricsTarget :=
  {| mt_MeshConnectivity := f_zero; mt_PeerDiscoveryTime := 0; mt_RoutePropagation := 0; mt_ThroughputMbps := f_zero;
     mt_LatencyOverheadMs := 0 |}.
Definition no_config : PilotConfig :=
  {| pc_PilotID := ""; pc_Organization := ""; pc_ContactEmail := ""; pc_StartDate := zero_time; pc_EndDate := zero_time;
     pc_Mode := ""; pc_NodeCount := 0; pc_Milestones := ∅; pc_MetricsTargets := no_targets |}.
Definition NewPilot : Pilot :=
  {| pl_config := no_config; pl_phase := ""; pl_days := 0; pl_started := false; pl_completed := false; pl_metrics := NewMetrics |}.

Definition day : Duration := (24 * hour)%Z.
Definition add_days (t : Time) (n : Z) : Time := time_add t (n * day)%Z.

(** [int(d.Hours() / 24)]. *)
Definition hours_of (d : Duration) : float64 :=
  f_add (f_of_Z (Z.quot d hour)) (f_div (f_of_Z (Z.rem d hour)) (f_of_Z 3600000000000)).
Definition days_of (d : Duration) : Z := f_trunc (f_div (hours_of d) (f_of_Z 24)).

Definition id_char (c : ascii) : bool :=
  let n := byte_of_ascii c in ((97 <=? n) && (n <=? 122) || (48 <=? n) && (n <=? 57) || (n =? 45))%Z.
Fixpoint keep_id_chars (s : string) : string :=
  match s with
  | EmptyString => EmptyString
  | String c s' => if id_char c then String c (keep_id_chars s') else keep_id_chars s'
  end.
Definition hyphenate (c : ascii) : ascii := if Ascii.eqb c " " || Ascii.eqb c "/" then "-"%char else c.
Definition compact_date (t : Time) : string :=
  let d := civil_of_days (t / day) in pad 4 (d_year d) ^^ pad 2 (d_month d) ^^ pad 2 (d_day d).
Definition generatePilotID (org : string) (t : Time) : string :=
  keep_id_chars (str_map hyphenate (to_lower org)) ^^ "-" ^^ compact_date t.

Definition new_milestone (name : string) (target : Time) : Milestone :=
  {| ml_Name := name; ml_Completed := false; ml_CompletedAt := zero_time; ml_TargetDate := target |}.
Definition initializeMilestones (startDate : Time) (durationDays : Z) : gmap string Milestone :=
  <["baseline"%string := new_milestone "Baseline Setup" (add_days startDate 3)]>
  (<["mesh_stability"%string := new_milestone "Mesh Stability" (add_days startDate 7)]>
  (<["production_traffic"%string := new_milestone "Production Traffic" (add_days startDate 14)]>
  (<["advanced_scenarios"%string := new_milestone "Advanced Scenarios" (add_days startDate durationDays)]> ∅))).

Definition getCurrentPhase (daysElapsed : Z) : string :=
  (if daysElapsed <=? 3 then "Baseline Setup" else if daysElapsed <=? 7 then "Mesh Stability"
   else if daysElapsed <=? 14 then "Production Traffic" else "Advanced Scenarios")%Z.

Definition f_dec (num den : Z) : float64 := f_div (f_of_Z num) (f_of_Z den).
Definition standard_targets : MetricsTarget :=
  {| mt_MeshConnectivity := f_dec 999 10; mt_PeerDiscoveryTime := 60; mt_RoutePropagation := 30;
     mt_ThroughputMbps := f_of_Z 80; mt_LatencyOverheadMs := 20 |}.

Definition with_config (p : Pilot) (c : PilotConfig) (started : bool) : Pilot :=
  {| pl_config := c; pl_phase := pl_phase p; pl_days := pl_days p; pl_started := started; pl_completed := false;
     pl_metrics := pl_metrics p |}.

Definition pilot_initialize (p : Pilot) (org contact : string) (nodeCount : Z) (mode : string) (durationDays : Z) (now : Time)
  : Pilot * result unit :=
  if String.eqb org "" then (p, Err "organization name is required")
  else if String.eqb contact "" then (p, Err "contact email is required")
  else if (nodeCount <? 1)%Z then (p, Err "node count must be at least 1")
  else if negb (String.eqb mode "centralized") && negb (String.eqb mode "decentralized")
  then (p, Err "mode must be 'centralized' or 'decentralized'")
  else if (durationDays <? 7)%Z then (p, Err "duration must be at least 7 days")
  else
    (with_config p {| pc_PilotID := generatePilotID org now; pc_Organization := org; pc_ContactEmail := contact;
                      pc_StartDate := now; pc_EndDate := add_days now durationDays; pc_Mode := mode;
                      pc_NodeCount := nodeCount; pc_Milestones := initializeMilestones now durationDays;
                      pc_MetricsTargets := standard_targets |} false, Ok tt).

Definition pilot_start (p : Pilot) : Pilot * result unit :=
  if pl_started p then (p, Err "pilot already started")
  else if String.eqb (pc_PilotID (pl_config p)) "" then (p, Err "pilot not initialized")
  else ({| pl_config := pl_config p; pl_phase := pl_phase p; pl_days := pl_days p; pl_started := true;
           pl_completed := pl_completed p; pl_metrics := start_metrics (pl_metrics p) (pc_PilotID (pl_config p)) |}, Ok tt).

Definition elapsed_days (p : Pilot) (now : Time) : Z := days_of (time_sub now (pc_StartDate (pl_config p))).
Definition with_days (p : Pilot) (days : Z) (phase : string) : Pilot :=
  {| pl_config := pl_config p; pl_phase := phase; pl_days := days; pl_started := pl_started p;
     pl_completed := pl_completed p; pl_metrics := pl_metrics p |}.
Definition pilot_status (p : Pilot) (now : Time) : result Pilot :=
  if negb (pl_started p) then Err "pilot not started"
  else let d := elapsed_days p now in Ok (with_days p d (getCurrentPhase d)).

Definition MarkMilestoneComplete (p : Pilot) (name : string) (now : Time) : Pilot * result unit :=
  let c := pl_config p in
  match pc_Milestones c !! name with
  | None => (p, Err "milestone not found")
  | Some m =>
      let m' := {| ml_Name := ml_Name m; ml_Completed := true; ml_CompletedAt := now; ml_TargetDate := ml_TargetDate m |} in
      ({| pl_config := {| pc_PilotID := pc_PilotID c; pc_Organization := pc_Organization c; pc_ContactEmail := pc_ContactEmail c;
                          pc_StartDate := pc_StartDate c; pc_EndDate := pc_EndDate c; pc_Mode := pc_Mode c;
                          pc_NodeCount := pc_NodeCount c; pc_Milestones := <[name := m']> (pc_Milestones c);
                          pc_MetricsTargets := pc_MetricsTargets c |};
          pl_phase := pl_phase p; pl_days := pl_days p; pl_started := pl_started p; pl_completed := pl_completed p;
          pl_metrics := pl_metrics p |}, Ok tt)
  end.
Definition IsMilestoneComplete (p : Pilot) (name : string) : bool :=
  match pc_Milestones (pl_config p) !! name with Some m => ml_Completed m | None => false end.

(** ** Validation *)

Record CheckResult := { ck_Name : string; ck_Passed : bool; ck_Message : string; ck_Severity : string }.

Definition validateConfig (c : PilotConfig) : bool :=
  negb (String.eqb (pc_PilotID c) "") && negb (String.eqb (pc_Organization c) "")
  && negb (String.eqb (pc_ContactEmail c) "") && (0 <? pc_NodeCount c)%Z.
Definition severity (passed : bool) (failing : string) : string := if passed then "info" else failing.

Definition validateMeshConnectivity (c : PilotConfig) (m : Metrics) : CheckResult :=
  let passed := f_le (mt_MeshConnectivity (pc_MetricsTargets c)) (mx_MeshUptimePercent m) in
  {| ck_Name := "Mesh Connectivity"; ck_Passed := passed;
     ck_Message := "Mesh connectivity: " ^^ fmt_f 2 (mx_MeshUptimePercent m) ^^ "% (target: ≥"
                   ^^ fmt_f 1 (mt_MeshConnectivity (pc_MetricsTargets c)) ^^ "%)"; ck_Severity := severity passed "error" |}.
Definition validatePeerDiscovery (c : PilotConfig) (m : Metrics) : CheckResult :=
  let actual := f_trunc (f_mul (mx_PeerDiscoverySuccess m) (f_of_Z (pc_NodeCount c))) in
  let passed := (pc_NodeCount c <=? actual)%Z in
  {| ck_Name := "Peer Discovery"; ck_Passed := passed;
     ck_Message := "Peer discovery: " ^^ itoa actual ^^ "/" ^^ itoa (pc_NodeCount c) ^^ " nodes discovered"; ck_Severity := severity passed "warning" |}.
Definition validateRoutePropagation (c : PilotConfig) (m : Metrics) : CheckResult :=
  let actual := f_trunc (duration_seconds (mx_RoutePropagationTime m)) in
  let passed := ((actual <=? mt_RoutePropagation (pc_MetricsTargets c)) || (actual =? 0))%Z in
  {| ck_Name := "Route Propagation"; ck_Passed := passed;
     ck_Message := "Route propagation: " ^^ itoa actual ^^ "s (target: ≤" ^^ itoa (mt_RoutePropagation (pc_MetricsTargets c)) ^^ "s)";
     ck_Severity := if negb passed && (0 <? actual)%Z then "warning" else "info" |}.
Definition validateStability (m : Metrics) : CheckResult :=
  let passed := ((mx_DaemonRestarts m =? 0) && (mx_WireGuardRestarts m =? 0))%Z in
  {| ck_Name := "System Stability"; ck_Passed := passed;
     ck_Message := "Daemon restarts: " ^^ itoa (mx_DaemonRestarts m) ^^ ", WireGuard restarts: " ^^ itoa (mx_WireGuardRestarts m); ck_Severity := severity passed "error" |}.

Definition milestones (c : PilotConfig) : list Milestone := snd <$> map_to_list (pc_Milestones c).
Definition overdue (c : PilotConfig) (days : Z) (m : Milestone) : bool :=
  negb (ml_Completed m) && (days_of (time_sub (ml_TargetDate m) (pc_StartDate c)) <? days)%Z.
Definition validateMilestoneProgress (c : PilotConfig) (days : Z) : CheckResult :=
  let overdueCount := length (List.filter (overdue c days) (milestones c)) in
  let completedCount := length (List.filter ml_Completed (milestones c)) in
  let passed := Nat.eqb overdueCount 0 in
  {| ck_Name := "Milestone Progress"; ck_Passed := passed;
     ck_Message := "Milestones: " ^^ itoa (Z.of_nat completedCount) ^^ " completed, " ^^ itoa (Z.of_nat overdueCount) ^^ " overdue"; ck_Severity := severity passed "warning" |}.

Definition computeOverallPass (checks : list CheckResult) : bool :=
  negb (existsb (fun k => String.eqb (ck_Severity k) "error" && negb (ck_Passed k)) checks).

Definition run_checks (p : Pilot) (days : Z) : list CheckResult :=
  let c := pl_config p in let m := pl_metrics p in
  [{| ck_Name := "Pilot Configuration"; ck_Passed := validateConfig c; ck_Message := "Pilot configuration is valid"; ck_Severity := "info" |};
   validateMeshConnectivity c m; validatePeerDiscovery c m; validateRoutePropagation c m;
   validateStability m; validateMilestoneProgress c days].

(** Passed, failed and warning counts decide the summary. *)
Definition generateValidationSummary (checks : list CheckResult) : string :=
  let passed := length (List.filter ck_Passed checks) in
  let failed := length (List.filter (fun k => negb (ck_Passed k) && String.eqb (ck_Severity k) "error") checks) in
  let warned := length (List.filter (fun k => negb (ck_Passed k) && negb (String.eqb (ck_Severity k) "error")) checks) in
  let n x := itoa (Z.of_nat x) in
  if Nat.ltb 0 failed then "Validation failed: " ^^ n passed ^^ " passed, " ^^ n failed ^^ " failed, " ^^ n warned ^^ " warnings"
  else if Nat.ltb 0 warned then "Validation passed with warnings: " ^^ n passed ^^ " passed, " ^^ n warned ^^ " warnings"
  else "All checks passed: " ^^ n passed ^^ "/" ^^ n (length checks).

Definition pilot_validate (p : Pilot) (now : Time) : result (Pilot * bool * list CheckResult * string) :=
  if negb (pl_started p) then Err "pilot not started"
  else
    let d := elapsed_days p now in
    let checks := run_checks p d in
    Ok (with_days p d (pl_phase p), computeOverallPass checks, checks, generateValidationSummary checks).

(** ** The final report *)

Record ReportSummary := {
  rsu_AllMilestonesCompleted : bool;
  rsu_MeshConnectivityAvg : float64;
  rsu_PeerDiscoverySuccess : float64;
  rsu_TotalDaemonRestarts : Z;
  rsu_TotalWGRestarts : Z;
  rsu_OverallRating : string;
  rsu_Recommendation : string;
}.

Definition connectivity_score (avg : float64) : Z :=
  if f_le (f_dec 999 10) avg then 30 else if f_le (f_of_Z 99) avg then 25 else if f_le (f_of_Z 95) avg then 20 else 0.
Definition discovery_score (rate : float64) : Z :=
  if f_le (f_dec 95 100) rate then 20 else if f_le (f_dec 80 100) rate then 15 else if f_le (f_dec 60 100) rate then 10 else 0.
Definition stability_score (daemon wg : Z) : Z :=
  (if (daemon =? 0) && (wg =? 0) then 30 else if (daemon <=? 2) && (wg <=? 2) then 20
   else if (daemon <=? 5) && (wg <=? 5) then 10 else 0)%Z.
Definition milestone_score (c : PilotConfig) : Z :=
  if forallb ml_Completed (milestones c) then 20
  else
    let completed := f_of_Z (Z.of_nat (length (List.filter ml_Completed (milestones c)))) in
    f_trunc (f_mul (f_div completed (f_of_Z (Z.of_nat (length (milestones c))))) (f_of_Z 20)).

Definition pilot_score (c : PilotConfig) (m : Metrics) : Z :=
  (connectivity_score (mx_MeshUptimePercent m) + discovery_score (mx_PeerDiscoverySuccess m)
   + stability_score (mx_DaemonRestarts m) (mx_WireGuardRestarts m) + milestone_score c)%Z.

Definition evaluatePilot (c : PilotConfig) (m : Metrics) : string * string :=
  let score := pilot_score c m in
  (if 90 <=? score then ("excellent", "Ready for production deployment")
   else if 70 <=? score then ("good", "Suitable for production with monitoring")
   else if 50 <=? score then ("fair", "Requires investigation before production")
   else ("poor", "Not recommended for production"))%Z%string.

Definition generateReportSummary (c : PilotConfig) (m : Metrics) : ReportSummary :=
  {| rsu_AllMilestonesCompleted := forallb ml_Completed (milestones c);
     rsu_MeshConnectivityAvg := mx_MeshUptimePercent m; rsu_PeerDiscoverySuccess := mx_PeerDiscoverySuccess m;
     rsu_TotalDaemonRestarts := mx_DaemonRestarts m; rsu_TotalWGRestarts := mx_WireGuardRestarts m;
     rsu_OverallRating := (evaluatePilot c m).1; rsu_Recommendation := (evaluatePilot c m).2 |}.

Record FinalReport := { fr_Config : PilotConfig; fr_DurationDays : Z; fr_Summary : ReportSummary; fr_CompletedAt : Time }.

Definition pilot_complete (p : Pilot) (now : Time) : Pilot * result FinalReport :=
  if negb (pl_started p) then (p, Err "pilot not started")
  else if pl_completed p then (p, Err "pilot already completed")
  else
    let c := pl_config p in
    ({| pl_config := c; pl_phase := pl_phase p; pl_days := pl_days p; pl_started := true; pl_completed := true;
        pl_metrics := pl_metrics p |},
     Ok {| fr_Config := c; fr_DurationDays := days_of (time_sub (pc_EndDate c) (pc_StartDate c));
           fr_Summary := generateReportSummary c (pl_metrics p); fr_CompletedAt := now |}).

(** ** The file *)

(** yaml.v3: a configuration it writes is the one it reads. *)
Class Yaml := {
  yaml_text : Type;
  yaml_marshal : PilotConfig -> yaml_text;
  yaml_unmarshal : yaml_text -> option PilotConfig;
  yaml_roundtrip : forall c, yaml_unmarshal (yaml_marshal c) = Some c;
}.

Section commands.
Context `{Yaml}.

(** [None]: the file cannot be read. *)
Definition loadConfig (f : option yaml_text) : result PilotConfig :=
  match f with
  | None => Err "failed to read config file"
  | Some data =>
      match yaml_unmarshal data with
      | None => Err "failed to unmarshal config"
      | Some c => if String.eqb (pc_PilotID c) "" then Err "invalid config: missing pilot_id" else Ok c
      end
  end.

Definition pilot_load (p : Pilot) (f : option yaml_text) : Pilot * result unit :=
  match loadConfig f with
  | Err e => (p, Err e)
  | Ok c => (with_config p c (negb (time_is_zero (pc_StartDate c))), Ok tt)
  end.

(** [saved]: whether the directory and the file could be written. *)
Definition pilot_save (saved : bool) (p : Pilot) (f : option yaml_text) : option yaml_text * result unit :=
  if saved then (Some (yaml_marshal (pl_config p)), Ok tt) else (f, Err "failed to write config file").

(** The arguments of pilot init: each option takes the next word; the last wins. *)
Record InitArgs := { ia_org : string; ia_contact : string; ia_nodes : Z; ia_mode : string; ia_duration : Z }.
Definition no_init_args : InitArgs := {| ia_org := ""; ia_contact := ""; ia_nodes := 0; ia_mode := ""; ia_duration := 0 |}.
Fixpoint parse_init_args (args : list string) (a : InitArgs) : InitArgs :=
  match args with
  | k :: ((v :: rest) as more) =>
      if String.eqb k "--org" then parse_init_args rest {| ia_org := v; ia_contact := ia_contact a; ia_nodes := ia_nodes a; ia_mode := ia_mode a; ia_duration := ia_duration a |}
      else if String.eqb k "--contact" then parse_init_args rest {| ia_org := ia_org a; ia_contact := v; ia_nodes := ia_nodes a; ia_mode := ia_mode a; ia_duration := ia_duration a |}
      else if String.eqb k "--nodes" then parse_init_args rest {| ia_org := ia_org a; ia_contact := ia_contact a; ia_nodes := default (ia_nodes a) (sscanf_d v); ia_mode := ia_mode a; ia_duration := ia_duration a |}
      else if String.eqb k "--mode" then parse_init_args rest {| ia_org := ia_org a; ia_contact := ia_contact a; ia_nodes := ia_nodes a; ia_mode := v; ia_duration := ia_duration a |}
      else if String.eqb k "--duration" then parse_init_args rest {| ia_org := ia_org a; ia_contact := ia_contact a; ia_nodes := ia_nodes a; ia_mode := ia_mode a; ia_duration := default (ia_duration a) (sscanf_d v) |}
      else parse_init_args more a
  | _ => a
  end.

Definition runPilotInit (args : list string) (saved : bool) (now : Time) (f : option yaml_text) : option yaml_text * result unit :=
  let a := parse_init_args args no_init_args in
  let nodes := if Z.eqb (ia_nodes a) 0 then 3%Z else ia_nodes a in
  let mode := if String.eqb (ia_mode a) "" then "decentralized"%string else ia_mode a in
  let duration := if Z.eqb (ia_duration a) 0 then 30%Z else ia_duration a in
  if String.eqb (ia_org a) "" then (f, Err "--org is required")
  else if String.eqb (ia_contact a) "" then (f, Err "--contact is required")
  else match pilot_initialize NewPilot (ia_org a) (ia_contact a) nodes mode duration now with
       | (_, Err e) => (f, Err e)
       | (p, Ok _) => pilot_save saved p f
       end.

Definition runPilotStart (saved : bool) (f : option yaml_text) : option yaml_text * result unit :=
  match pilot_load NewPilot f with
  | (_, Err e) => (f, Err ("Failed to load pilot configuration: " ^^ e))
  | (p, Ok _) =>
      match pilot_start p with
      | (_, Err e) => (f, Err ("Failed to start pilot: " ^^ e))
      | (p', Ok _) => pilot_save saved p' f
      end
  end.

Definition runPilotStatus (now : Time) (f : option yaml_text) : result Pilot :=
  match pilot_load NewPilot f with
  | (_, Err e) => Err e
  | (p, Ok _) => pilot_status p now
  end.

Definition runPilotComplete (now : Time) (f : option yaml_text) : result FinalReport :=
  match pilot_load NewPilot f with
  | (_, Err e) => Err e
  | (p, Ok _) => (pilot_complete p now).2
  end.

(** Exits with status 1 when the checks do not pass. *)
Definition runPilotValidate (now : Time) (f : option yaml_text) : result unit :=
  match pilot_load NewPilot f with
  | (_, Err e) => Err e
  | (p, Ok _) =>
      match pilot_validate p now with
      | Err e => Err e
      | Ok (_, passed, _, _) => if passed then Ok tt else Err "exit status 1"
      end
  end.

(** The commands that may change the file, in any order. *)
Inductive pilot_cmd := PInit (args : list string) (saved : bool) (now : Time) | PStart (saved : bool).
Definition pilot_run1 (f : option yaml_text) (c : pilot_cmd) : option yaml_text :=
  match c with PInit args saved now => (runPilotInit args saved now f).1 | PStart saved => (runPilotStart saved f).1 end.
Definition pilot_run (f : option yaml_text) (cs : list pilot_cmd) : option yaml_text := foldl pilot_run1 f cs.

(** ** What the commands can reach *)

(** Zero over a count is zero points. *)
Lemma zero_points n : f_trunc (f_mul (f_div f_zero (f_of_Z n)) (f_of_Z 20)) = 0%Z.
Proof. change f_zero with (S754_zero false). destruct (f_of_Z n) as [[]|[]| |[] m e]; reflexivity. Qed.

(** A configuration as init writes it: started the moment it was made, and no
    milestone completed. *)
Definition fresh_config (c : PilotConfig) : Prop :=
  pc_PilotID c <> ""%string /\ pc_StartDate c <> zero_time /\ pc_Milestones c <> ∅
  /\ map_Forall (fun _ m => ml_Completed m = false) (pc_Milestones c)
  /\ pc_MetricsTargets c = standard_targets.
Definition file_ok (f : option yaml_text) : Prop := f = None \/ exists c, f = Some (yaml_marshal c) /\ fresh_config c.

Definition cmd_clock (c : pilot_cmd) : Prop := match c with PInit _ _ now => now <> zero_time | PStart _ => True end.

Lemma fresh_milestones start n : map_Forall (fun _ m => ml_Completed m = false) (initializeMilestones start n).
Proof. unfold initializeMilestones. repeat (apply map_Forall_insert_2; [done|]). apply map_Forall_empty. Qed.

Lemma pilot_id_nonempty org t : generatePilotID org t <> ""%string.
Proof. unfold generatePilotID. destruct (keep_id_chars _); done. Qed.

Lemma save_ok saved p f : fresh_config (pl_config p) -> file_ok f -> file_ok (pilot_save saved p f).1.
Proof. intros Hc Hf. destruct saved; [|done]. right. by eexists. Qed.

Lemma init_config p org contact n mode d now p' : now <> zero_time ->
  pilot_initialize p org contact n mode d now = (p', Ok tt) -> fresh_config (pl_config p').
Proof.
  intros Hnow. unfold pilot_initialize.
  destruct (String.eqb org ""); [done|]. destruct (String.eqb contact ""); [done|]. destruct (n <? 1)%Z; [done|].
  destruct (_ && _); [done|]. destruct (d <? 7)%Z; [done|]. intros [= <-].
  split; [apply pilot_id_nonempty|]. split; [done|]. split; [apply insert_non_empty|]. split; [apply fresh_milestones|done].
Qed.

Lemma init_ok args saved now f : now <> zero_time -> file_ok f -> file_ok (runPilotInit args saved now f).1.
Proof.
  intros Hnow Hf. unfold runPilotInit. cbv zeta. destruct (String.eqb _ ""); [done|]. destruct (String.eqb _ ""); [done|].
  destruct (pilot_initialize _ _ _ _ _ _ _) as [p [[]|e]] eqn:E; [|done]. apply save_ok; [|done]. by eapply init_config.
Qed.

(** What is loaded from such a file. *)
Definition loaded (c : PilotConfig) : Pilot := with_config NewPilot c true.

Lemma load_ok f : file_ok f -> (exists e, pilot_load NewPilot f = (NewPilot, Err e))
  \/ exists c, f = Some (yaml_marshal c) /\ fresh_config c /\ pilot_load NewPilot f = (loaded c, Ok tt).
Proof.
  intros [->|(c & -> & Hc)]; [left; by eexists|]. right. exists c. split; [done|]. split; [done|].
  unfold pilot_load, loadConfig. rewrite yaml_roundtrip. destruct Hc as (Hid & Hst & _).
  rewrite (proj2 (String.eqb_neq _ _)) by done. unfold time_is_zero. by rewrite (proj2 (Z.eqb_neq _ _)).
Qed.

Lemma start_fails saved f : file_ok f -> (runPilotStart saved f).1 = f /\ is_ok (runPilotStart saved f).2 = false.
Proof.
  intros Hf. unfold runPilotStart. by destruct (load_ok f Hf) as [[e ->]|(c & _ & _ & ->)].
Qed.

Lemma pilot_run_ok cs f : Forall cmd_clock cs -> file_ok f -> file_ok (pilot_run f cs).
Proof.
  revert f. induction cs as [|c cs IH]; intros f Hc Hf; [done|]. apply Forall_cons in Hc as [Hc Hcs].
  apply IH; [done|]. destruct c as [args saved now|saved]; cbn [pilot_run1].
  - by apply init_ok.
  - by rewrite (proj1 (start_fails saved f Hf)).
Qed.

Lemma fresh_score c : fresh_config c -> pilot_score c NewMetrics = 30%Z.
Proof.
  intros (_ & _ & Hne & Hm & _). unfold pilot_score.
  assert (milestone_score c = 0)%Z as ->; [|vm_compute; reflexivity].
  unfold milestone_score.
  assert (Forall (fun m => ml_Completed m = false) (milestones c)) as Hf.
  { apply Forall_fmap, Forall_forall. intros [k m] Hin. apply elem_of_map_to_list in Hin. by apply (Hm k). }
  assert (milestones c <> []) as Hnil.
  { intros E%fmap_nil_inv. by apply map_to_list_empty_iff in E. }
  assert (List.filter ml_Completed (milestones c) = []) as ->.
  { clear -Hf. induction Hf as [|m l Hm _ IH]; [done|]. cbn [List.filter]. by rewrite Hm. }
  destruct (milestones c) as [|m l]; [done|]. apply Forall_cons in Hf as [Hm0 _]. cbn [forallb]. rewrite Hm0. cbn [andb].
  apply zero_points.
Qed.

(** The pilot commands contradict each other: whatever sequence of init and
    start is run from an empty directory, start has never succeeded, because init
    already stores a start date; validate exits with an error; and complete, which
    can be repeated, rates every pilot poor, because no command records a metric or
    completes a milestone. *)
Theorem pilot_commands_never_succeed cs now saved :
  Forall cmd_clock cs -> let f := pilot_run None cs in
  is_ok (runPilotStart saved f).2 = false /\ is_ok (runPilotValidate now f) = false
  /\ (forall r, runPilotComplete now f = Ok r ->
        rsu_OverallRating (fr_Summary r) = "poor"%string
        /\ rsu_Recommendation (fr_Summary r) = "Not recommended for production"%string).
Proof.
  intros Hc f. assert (file_ok f) as Hf by (apply pilot_run_ok; [done|by left]).
  split; [by apply start_fails|]. unfold runPilotValidate, runPilotComplete.
  destruct (load_ok f Hf) as [[e ->]|(c & _ & Hc' & ->)]; [done|]. split.
  - unfold pilot_validate. cbn [loaded with_config pl_started negb].
    assert (computeOverallPass (run_checks (loaded c) (elapsed_days (loaded c) now)) = false) as ->; [|done].
    unfold run_checks, validateMeshConnectivity. cbn [loaded with_config pl_config pl_metrics NewPilot].
    destruct Hc' as (_ & _ & _ & _ & ->). reflexivity.
  - intros r. cbn [pilot_complete loaded with_config pl_started pl_completed negb snd]. intros [= <-].
    cbn [fr_Summary generateReportSummary rsu_OverallRating rsu_Recommendation pl_config pl_metrics NewPilot].
    unfold evaluatePilot. by rewrite fresh_score.
Qed.

End commands.

(** ** Witness *)

Definition plain_yaml : Yaml :=
  {| yaml_text := PilotConfig; yaml_marshal := id; yaml_unmarshal := Some; yaml_roundtrip := fun c => eq_refl |}.
Definition pilot_script : list pilot_cmd :=
  [PInit ["--org"; "Acme Corp"; "--contact"; "ops@acme.example"]%string true (1700000000 * second)%Z; PStart true].

Lemma pilot_commands_never_succeed_witness :
  (exists c, pilot_run (H := plain_yaml) None pilot_script = Some c /\ pc_PilotID c = "acme-corp-20231114"%string)
  /\ is_ok (runPilotStart (H := plain_yaml) true (pilot_run (H := plain_yaml) None pilot_script)).2 = false.
Proof.
  split; [eexists; split; [reflexivity|vm_compute; reflexivity]|].
  apply (pilot_commands_never_succeed (H := plain_yaml) pilot_script 0%Z true).
  constructor; [discriminate|]. constructor; [exact I|constructor].
Defined.
