(* ===== verification/Report.v ===== *)
(** * The reports of a pilot (pkg/pilot/report.go; main.go: runPilotReport)

    The console, JSON and HTML reports as the program writes them.  [layers] and
    [nats] are the orders in which Go visits the two maps of counters, [zone] the
    offset with which a time is printed and [float_text] the shortest decimal of a
    float64, with which encoding/json prints it. *)

From S2P Require Import Prelude GoStrings GoTime GoJson GoMaps GoTimeJson GoFloat GoDuration GoFmt Pilot.
Local Open Scope wgmesh_scope.

Definition newline : string := String (ascii_of_byte 10) EmptyString.
Definition line (s : string) : string := s ^^ newline.
Definition rule (c : string) : string := line (repeat_str c 70).

(** HTML fragments are written with single quotes for double ones. *)
Definition html (s : string) : string := str_map (fun c => if Ascii.eqb c "'" then ascii_of_byte 34 else c) s.

(** [formatDuration]. *)
Definition report_duration (d : Duration) : string :=
  if (d =? 0)%Z then "-"
  else if (d <? second)%Z then itoa (Z.quot d millisecond) ^^ "ms"
  else if (d <? minute)%Z then fmt_f 1 (duration_seconds d) ^^ "s"
  else if (d <? hour)%Z then
    fmt_f 1 (f_add (f_of_Z (Z.quot d minute)) (f_div (f_of_Z (Z.rem d minute)) (f_of_Z 60000000000))) ^^ "m"
  else fmt_f 1 (hours_of d) ^^ "h".

Definition milestoneOrder : list string := ["baseline"; "mesh_stability"; "production_traffic"; "advanced_scenarios"]%string.
Definition ordered_milestones (c : PilotConfig) : list Milestone := omap (fun k => pc_Milestones c !! k) milestoneOrder.
Definition getNextMilestone (c : PilotConfig) : option Milestone := List.find (fun m => negb (ml_Completed m)) (ordered_milestones c).

(** Days from the start of the pilot. *)
Definition day_of (c : PilotConfig) (t : Time) : Z := days_of (time_sub t (pc_StartDate c)).

(** [Snapshot], with the phase and the day the report sets. *)
Definition snapshot (m : Metrics) (phase : string) (days : Z) : Metrics :=
  {| mx_PilotID := mx_PilotID m; mx_Phase := phase; mx_DaysElapsed := days; mx_MeshUptimePercent := mx_MeshUptimePercent m;
     mx_PeerDiscoverySuccess := mx_PeerDiscoverySuccess m; mx_RoutePropagationTime := mx_RoutePropagationTime m;
     mx_ThroughputMbps := mx_ThroughputMbps m; mx_LatencyMs := mx_LatencyMs m; mx_ConnectionOverheadMs := mx_ConnectionOverheadMs m;
     mx_DaemonRestarts := mx_DaemonRestarts m; mx_WireGuardRestarts := mx_WireGuardRestarts m;
     mx_NetworkPartitions := mx_NetworkPartitions m; mx_RecoveryTimeSec := mx_RecoveryTimeSec m;
     mx_DiscoveryLayerCounts := mx_DiscoveryLayerCounts m; mx_NATTypes := mx_NATTypes m;
     mx_HolePunchSuccess := mx_HolePunchSuccess m; mx_RelayFallbackCount := mx_RelayFallbackCount m; mx_started := false |}.

Section report.
Context (layers nats : list (string * Z)) (zone : Time -> Z) (float_text : float64 -> string).

Definition concat_str (l : list string) : string := foldr String.append EmptyString l.

(** ** Console *)

Definition console_milestone (c : PilotConfig) (days : Z) (m : Milestone) : string :=
  line ((if ml_Completed m then "✓" else if (day_of c (ml_TargetDate m) <? days)%Z then "⚠" else "○") ^^ " " ^^ ml_Name m
        ^^ (if ml_Completed m then " (completed Day " ^^ itoa (day_of c (ml_CompletedAt m)) ^^ ")"
            else " (target: Day " ^^ itoa (day_of c (ml_TargetDate m)) ^^ ")")).

(** The messages of the warnings; the text is the same on the console and in HTML. *)
Definition below_target (c : PilotConfig) (m : Metrics) : bool := f_lt (mx_MeshUptimePercent m) (mt_MeshConnectivity (pc_MetricsTargets c)).
Definition warnings (c : PilotConfig) (m : Metrics) : list (bool * string) :=
  (if below_target c m
   then [(true, "Mesh connectivity (" ^^ fmt_f 2 (mx_MeshUptimePercent m) ^^ "%) below target ("
                ^^ fmt_f 1 (mt_MeshConnectivity (pc_MetricsTargets c)) ^^ "%)")] else [])
  ++ (if (0 <? mx_DaemonRestarts m)%Z then [(true, itoa (mx_DaemonRestarts m) ^^ " daemon restart(s) detected")] else [])
  ++ (if (0 <? mx_WireGuardRestarts m)%Z then [(true, itoa (mx_WireGuardRestarts m) ^^ " WireGuard restart(s) detected")] else [])
  ++ (if (0 <? mx_RelayFallbackCount m)%Z then [(false, itoa (mx_RelayFallbackCount m) ^^ " relay fallback(s) recorded")] else []).
Definition console_warning (w : bool * string) : string := line ((if w.1 then "[WARN] " else "[INFO] ") ^^ w.2).

Definition total_discoveries : Z := foldl (fun acc kv => (acc + kv.2)%Z) 0%Z layers.

Definition discovery_text (c : PilotConfig) (m : Metrics) : string :=
  if (0 <? total_discoveries)%Z
  then "Peer Discovery: " ^^ fmt_f 1 (mx_PeerDiscoverySuccess m) ^^ "% ("
       ^^ itoa (f_trunc (f_mul (mx_PeerDiscoverySuccess m) (f_of_Z (pc_NodeCount c)))) ^^ "/" ^^ itoa (pc_NodeCount c) ^^ " discovered)"
  else "Peer Discovery: No discovery events recorded".

Definition generateConsoleReport (c : PilotConfig) (m : Metrics) : string :=
  let days := mx_DaysElapsed m in
  line ("wgmesh Pilot Report: " ^^ pc_PilotID c) ^^ rule "=" ^^ newline
  ^^ line ("Phase: " ^^ mx_Phase m ^^ " (Day " ^^ itoa days ^^ " of " ^^ itoa (day_of c (pc_EndDate c)) ^^ ")")
  ^^ line ("Organization: " ^^ pc_Organization c ^^ " | Contact: " ^^ pc_ContactEmail c) ^^ newline
  ^^ line "MILESTONE STATUS" ^^ rule "-"
  ^^ concat_str (console_milestone c days <$> ordered_milestones c) ^^ newline
  ^^ line "KEY METRICS (last 24h)" ^^ rule "-"
  ^^ line ("Mesh Connectivity: " ^^ fmt_f 2 (mx_MeshUptimePercent m) ^^ "% (target: ≥"
           ^^ fmt_f 1 (mt_MeshConnectivity (pc_MetricsTargets c)) ^^ "%)")
  ^^ line (discovery_text c m)
  ^^ line ("Route Propagation: " ^^ report_duration (mx_RoutePropagationTime m) ^^ " avg (target: ≤"
           ^^ itoa (mt_RoutePropagation (pc_MetricsTargets c)) ^^ "s)")
  ^^ line ("Daemon Restarts: " ^^ itoa (mx_DaemonRestarts m)) ^^ line ("WireGuard Restarts: " ^^ itoa (mx_WireGuardRestarts m)) ^^ newline
  ^^ (match layers with
      | [] => EmptyString
      | _ => line "DISCOVERY LAYER DISTRIBUTION" ^^ rule "-"
             ^^ concat_str ((fun kv => line ("  " ^^ kv.1 ^^ ": " ^^ itoa kv.2)) <$> layers) ^^ newline
      end)
  ^^ (match nats with
      | [] => EmptyString
      | _ => line "NAT TYPES DETECTED" ^^ rule "-"
             ^^ concat_str ((fun kv => line ("  " ^^ kv.1 ^^ ": " ^^ itoa kv.2 ^^ " nodes")) <$> nats) ^^ newline
      end)
  ^^ line "ISSUES / WARNINGS" ^^ rule "-"
  ^^ (match warnings c m with [] => line "[INFO] No issues detected" | ws => concat_str (console_warning <$> ws) end) ^^ newline
  ^^ line "NEXT STEPS" ^^ rule "-"
  ^^ line (match getNextMilestone c with
           | Some x => if ml_Completed x then "→ Complete and proceed to next phase"
                       else "→ Work towards " ^^ ml_Name x ^^ " milestone (target: Day " ^^ itoa (day_of c (ml_TargetDate x)) ^^ ")"
           | None => "→ All milestones completed"
           end) ^^ newline.

(** ** JSON *)

Definition jfloat (f : float64) : json := JNum (float_text f).
Definition milestone_json (m : Milestone) : json :=
  JObj [("Name", JStr (ml_Name m)); ("Completed", JBool (ml_Completed m)); ("CompletedAt", time_json_at (zone (ml_CompletedAt m)) (ml_CompletedAt m));
        ("TargetDate", time_json_at (zone (ml_TargetDate m)) (ml_TargetDate m))]%string.
Definition targets_json (t : MetricsTarget) : json :=
  JObj [("MeshConnectivity", jfloat (mt_MeshConnectivity t)); ("PeerDiscoveryTime", jint (mt_PeerDiscoveryTime t));
        ("RoutePropagation", jint (mt_RoutePropagation t)); ("ThroughputMbps", jfloat (mt_ThroughputMbps t));
        ("LatencyOverheadMs", jint (mt_LatencyOverheadMs t))]%string.
(** A map literal: printed in the order of its keys. *)
Definition any_map (l : list (string * json)) : json := map_json (fun v => v) (list_to_map l : gmap string json).
Definition metrics_json (m : Metrics) : json :=
  any_map [("mesh_uptime_percent", jfloat (mx_MeshUptimePercent m)); ("peer_discovery_success", jfloat (mx_PeerDiscoverySuccess m));
           ("route_propagation_time", JStr (duration_string (mx_RoutePropagationTime m))); ("throughput_mbps", jfloat (mx_ThroughputMbps m));
           ("latency_ms", jfloat (mx_LatencyMs m)); ("connection_overhead_ms", jfloat (mx_ConnectionOverheadMs m));
           ("daemon_restarts", jint (mx_DaemonRestarts m)); ("wireguard_restarts", jint (mx_WireGuardRestarts m));
           ("network_partitions", jint (mx_NetworkPartitions m)); ("recovery_time_sec", jint (mx_RecoveryTimeSec m));
           ("discovery_layer_counts", map_json jint (mx_DiscoveryLayerCounts m)); ("nat_types", map_json jint (mx_NATTypes m));
           ("hole_punch_success", jfloat (mx_HolePunchSuccess m)); ("relay_fallback_count", jint (mx_RelayFallbackCount m))]%string.
Definition rfc3339_at (t : Time) : json := JStr (format_rfc3339 (zone t) t).
Definition report_json (c : PilotConfig) (m : Metrics) (now : Time) : json :=
  any_map [("pilot_id", JStr (pc_PilotID c)); ("organization", JStr (pc_Organization c)); ("contact_email", JStr (pc_ContactEmail c));
           ("mode", JStr (pc_Mode c)); ("node_count", jint (pc_NodeCount c)); ("start_date", rfc3339_at (pc_StartDate c));
           ("end_date", rfc3339_at (pc_EndDate c)); ("current_phase", JStr (mx_Phase m)); ("days_elapsed", jint (mx_DaysElapsed m));
           ("milestones", map_json milestone_json (pc_Milestones c)); ("metrics", metrics_json m);
           ("targets", targets_json (pc_MetricsTargets c)); ("generated_at", rfc3339_at now)]%string.
Definition generateJSONReport (c : PilotConfig) (m : Metrics) (now : Time) : string := print_indent (report_json c m now).

(** ** HTML *)

Definition html_start : string := html
"<!DOCTYPE html>
<html>
<head>
    <title>wgmesh Pilot Report: ".
Definition html_style : string := html
"</title>
    <style>
        body { font-family: Arial, sans-serif; margin: 40px; background: #f5f5f5; }
        .container { max-width: 1000px; margin: 0 auto; background: white; padding: 30px; border-radius: 8px; box-shadow: 0 2px 4px rgba(0,0,0,0.1); }
        h1 { color: #333; border-bottom: 2px solid #4CAF50; padding-bottom: 10px; }
        h2 { color: #666; margin-top: 30px; font-size: 18px; }
        .header { background: #f8f9fa; padding: 15px; border-radius: 5px; margin-bottom: 20px; }
        .metrics { display: grid; grid-template-columns: repeat(2, 1fr); gap: 15px; margin: 20px 0; }
        .metric-card { background: #f8f9fa; padding: 15px; border-radius: 5px; border-left: 4px solid #4CAF50; }
        .metric-label { font-size: 12px; color: #666; text-transform: uppercase; }
        .metric-value { font-size: 24px; font-weight: bold; color: #333; margin-top: 5px; }
        .milestone { padding: 10px; margin: 5px 0; border-radius: 3px; }
        .milestone.completed { background: #d4edda; border-left: 4px solid #28a745; }
        .milestone.pending { background: #fff3cd; border-left: 4px solid #ffc107; }
        .milestone.overdue { background: #f8d7da; border-left: 4px solid #dc3545; }
        .warning { background: #fff3cd; padding: 10px; border-radius: 5px; margin: 5px 0; border-left: 4px solid #ffc107; }
        .info { background: #d1ecf1; padding: 10px; border-radius: 5px; margin: 5px 0; border-left: 4px solid #17a2b8; }
        table { width: 100%; border-collapse: collapse; margin: 15px 0; }
        th, td { padding: 10px; text-align: left; border-bottom: 1px solid #ddd; }
        th { background: #f8f9fa; }
        .timestamp { font-size: 12px; color: #999; }
    </style>
</head>
<body>
    <div class='container'>
        <h1>wgmesh Pilot Report</h1>
        
        <div class='header'>
            <strong>".

Definition html_milestone (c : PilotConfig) (days : Z) (m : Milestone) : string :=
  html "        <div class='milestone " ^^ (if ml_Completed m then "completed" else if (day_of c (ml_TargetDate m) <? days)%Z then "overdue" else "pending")
  ^^ html "'>
            " ^^ ml_Name m ^^ " - "
  ^^ (if ml_Completed m then "Completed Day " ^^ itoa (day_of c (ml_CompletedAt m)) else "Target: Day " ^^ itoa (day_of c (ml_TargetDate m)))
  ^^ "
        </div>".

Definition html_table (title header : string) (rows : list (string * Z)) : string :=
  match rows with
  | [] => EmptyString
  | _ => "
        <h2>" ^^ title ^^ "</h2>
        <table>
            <tr>" ^^ header ^^ "</tr>
" ^^ concat_str ((fun kv => "            <tr><td>" ^^ kv.1 ^^ "</td><td>" ^^ itoa kv.2 ^^ "</td></tr>" ^^ newline) <$> rows)
  ^^ "        </table>
"
  end.

Definition html_warning (w : bool * string) : string :=
  html (if w.1 then "        <div class='warning'>" else "        <div class='info'>") ^^ w.2 ^^ "</div>".

Definition generateHTMLReport (c : PilotConfig) (m : Metrics) (now : Time) : string :=
  let days := mx_DaysElapsed m in
  html_start ^^ pc_PilotID c ^^ html_style ^^ pc_PilotID c
  ^^ "</strong><br>
            Phase: " ^^ mx_Phase m ^^ " (Day " ^^ itoa days ^^ " of " ^^ itoa (day_of c (pc_EndDate c)) ^^ ")<br>
            Organization: " ^^ pc_Organization c ^^ " | Contact: " ^^ pc_ContactEmail c
  ^^ "
        </div>

        <h2>Milestone Status</h2>
"
  ^^ concat_str (html_milestone c days <$> ordered_milestones c)
  ^^ html "
        <h2>Key Metrics (Last 24h)</h2>
        <div class='metrics'>
            <div class='metric-card'>
                <div class='metric-label'>Mesh Connectivity</div>
                <div class='metric-value'>" ^^ fmt_f 2 (mx_MeshUptimePercent m) ^^ "%"
  ^^ html "</div>
            </div>
            <div class='metric-card'>
                <div class='metric-label'>Peer Discovery Success</div>
                <div class='metric-value'>" ^^ fmt_f 1 (mx_PeerDiscoverySuccess m) ^^ "%"
  ^^ html "</div>
            </div>
            <div class='metric-card'>
                <div class='metric-label'>Route Propagation</div>
                <div class='metric-value'>" ^^ report_duration (mx_RoutePropagationTime m)
  ^^ html "</div>
            </div>
            <div class='metric-card'>
                <div class='metric-label'>Daemon Restarts</div>
                <div class='metric-value'>" ^^ itoa (mx_DaemonRestarts m)
  ^^ html "</div>
            </div>
        </div>
"
  ^^ html_table "Discovery Layer Distribution" "<th>Layer</th><th>Count</th>" layers
  ^^ html_table "NAT Types Detected" "<th>Type</th><th>Nodes</th>" nats
  ^^ html "
        <h2>Issues / Warnings</h2>
"
  ^^ (match warnings c m with
      | [] => html "        <div class='info'>No issues detected</div>"
      | ws => concat_str (html_warning <$> ws)
      end)
  ^^ html "
        <div class='timestamp'>
            Generated: " ^^ format_rfc3339 (zone now) now
  ^^ html "
        </div>
    </div>
</body>
</html>
".

(** ** The command *)

Inductive ReportFormat := FormatConsole | FormatJSON | FormatHTML.

(** The report of a pilot; the day and the phase are brought up to date first. *)
Definition GenerateReport (p : Pilot) (format : ReportFormat) (now : Time) : result (Pilot * string) :=
  if negb (pl_started p) then Err "pilot not started"
  else
    let d := elapsed_days p now in
    let p' := with_days p d (getCurrentPhase d) in
    let m := snapshot (pl_metrics p) (getCurrentPhase d) d in
    let c := pl_config p in
    Ok (p', match format with
            | FormatConsole => generateConsoleReport c m
            | FormatJSON => generateJSONReport c m now
            | FormatHTML => generateHTMLReport c m now
            end).

(** [--format] and [--output]: each takes the next word; the last wins. *)
Fixpoint parse_report_args (args : list string) (format output : string) : string * string :=
  match args with
  | k :: ((v :: rest) as more) =>
      if String.eqb k "--format" then parse_report_args rest v output
      else if String.eqb k "--output" then parse_report_args rest format v
      else parse_report_args more format output
  | _ => (format, output)
  end.

(** What is printed and what is written to a file; [write] answers the write. *)
Definition runPilotReport `{Yaml} (args : list string) (write : string -> bool) (now : Time) (f : option yaml_text)
    : result (string * option (string * string)) :=
  let '(format0, output) := parse_report_args args EmptyString EmptyString in
  let format := if String.eqb format0 EmptyString then "console"%string else format0 in
  match pilot_load NewPilot f with
  | (_, Err e) => Err ("Failed to load pilot configuration: " ^^ e)
  | (p, Ok _) =>
      match (if String.eqb format "json" then Some FormatJSON else if String.eqb format "html" then Some FormatHTML
             else if String.eqb format "console" then Some FormatConsole else None) with
      | None => Err ("Unknown format: " ^^ format)
      | Some fmt =>
          match GenerateReport p fmt now with
          | Err e => Err ("Failed to generate report: " ^^ e)
          | Ok (_, text) =>
              if String.eqb output EmptyString then Ok (text, None)
              else if write output then Ok (line ("Report written to " ^^ output), Some (output, text))
              else Err "Failed to generate report: failed to write report"
          end
      end
  end.

(** ** What the reports say *)

(** A milestone is marked overdue on the console exactly when the validation of
    the pilot counts it as overdue. *)
Theorem overdue_mark c days m : has_prefix (console_milestone c days m) "⚠" = overdue c days m.
Proof.
  unfold console_milestone, overdue, day_of, line. destruct (ml_Completed m); [done|]. cbn [negb andb].
  by destruct (days_of (time_sub (ml_TargetDate m) (pc_StartDate c)) <? days)%Z.
Qed.

(** The next step is always an uncompleted milestone, the first of the order, or
    all of them are completed: the branch for a completed one is dead. *)
Theorem next_milestone_exact c :
  match getNextMilestone c with
  | Some x => exists before after, ordered_milestones c = before ++ x :: after /\ ml_Completed x = false /\ Forall (fun m => ml_Completed m = true) before
  | None => Forall (fun m => ml_Completed m = true) (ordered_milestones c)
  end.
Proof.
  unfold getNextMilestone. induction (ordered_milestones c) as [|m l IH]; [constructor|]. cbn [List.find].
  destruct (ml_Completed m) eqn:E; cbn [negb].
  - destruct (List.find _ l) as [x|].
    + destruct IH as (b & a & -> & Hx & Hb). exists (m :: b), a. split; [done|]. split; [done|]. by constructor.
    + by constructor.
  - exists [], l. by split_and!.
Qed.

(** A report warns exactly when something is to be warned of. *)
Theorem no_warning_iff c m :
  warnings c m = [] <->
  f_lt (mx_MeshUptimePercent m) (mt_MeshConnectivity (pc_MetricsTargets c)) = false /\
  (mx_DaemonRestarts m <= 0 /\ mx_WireGuardRestarts m <= 0 /\ mx_RelayFallbackCount m <= 0)%Z.
Proof.
  unfold warnings, below_target. split.
  - destruct (f_lt _ _), (Z.ltb_spec 0 (mx_DaemonRestarts m)), (Z.ltb_spec 0 (mx_WireGuardRestarts m)), (Z.ltb_spec 0 (mx_RelayFallbackCount m)); done.
  - intros (-> & H1 & H2 & H3). by rewrite !(proj2 (Z.ltb_ge _ _)).
Qed.

(** ** The command knows no measurement

    Every command makes a new pilot with empty metrics and loads only the
    configuration, so a report never shows what the mesh did. *)

Definition rendered (c : PilotConfig) (format : ReportFormat) (now : Time) : string :=
  let d := day_of c now in
  let m := snapshot NewMetrics (getCurrentPhase d) d in
  match format with
  | FormatConsole => generateConsoleReport c m
  | FormatJSON => generateJSONReport c m now
  | FormatHTML => generateHTMLReport c m now
  end.

(** Whatever was measured, a report that is made is that of an unused mesh; of a
    pilot made by init it warns that the connectivity is 0.00%. *)
Theorem report_knows_no_measurement `{Yaml} args write now f text file :
  runPilotReport args write now f = Ok (text, file) ->
  exists c format, loadConfig f = Ok c /\
    match file with Some (_, data) => data | None => text end = rendered c format now /\
    (pc_MetricsTargets c = standard_targets ->
     forall phase d, warnings c (snapshot NewMetrics phase d) = [(true, "Mesh connectivity (0.00%) below target (99.9%)"%string)]).
Proof.
  unfold runPilotReport. destruct (parse_report_args args "" "") as [format0 output]. cbv zeta.
  unfold pilot_load. destruct (loadConfig f) as [c|e] eqn:El; [|done].
  set (o := if String.eqb _ "json" then _ else _). destruct o as [fmt|]; [|done].
  unfold GenerateReport. cbn [with_config pl_started]. destruct (negb _); [done|].
  assert (elapsed_days (with_config NewPilot c (negb (time_is_zero (pc_StartDate c)))) now = day_of c now) as -> by done.
  cbn [pl_config pl_metrics with_config NewPilot]. fold (rendered c fmt now). intros Hr. exists c, fmt. split; [done|]. split.
  - destruct (String.eqb output ""); [by injection Hr as <- <-|]. destruct (write output); [|done]. by injection Hr as <- <-.
  - intros Ht phase d. unfold warnings, below_target. rewrite Ht. reflexivity.
Qed.

(** The JSON report does not depend on the order in which maps are visited, and
    an organisation is put into the page as it is: markup in it is markup. *)
Lemma contains_app_l s t u : contains t u = true -> contains (s ^^ t) u = true.
Proof. intros Ht. induction s as [|c s IH]; [done|]. rewrite app_cons_str. cbn [contains]. by rewrite IH, orb_true_r. Qed.
Lemma contains_prefix s t : contains (s ^^ t) s = true.
Proof. pose proof (has_prefix_app s t) as Hp. destruct (s ^^ t); cbn [contains]; by rewrite Hp. Qed.

Theorem html_not_escaped c m now : contains (generateHTMLReport c m now) (pc_Organization c) = true.
Proof.
  unfold generateHTMLReport. cbv zeta. do 11 apply contains_app_l. apply contains_prefix.
Qed.
End report.

(** The success rate is a ratio for the rating and a percentage for the report: a
    mesh that discovered all its peers gets every point and is shown with 1.0%. *)
Theorem ratio_printed_as_percentage m c :
  mx_PeerDiscoverySuccess m = f_of_Z 1 -> pc_NodeCount c = 5%Z ->
  discovery_score (mx_PeerDiscoverySuccess m) = 20%Z /\
  discovery_text [("dht"%string, 5%Z)] c m = "Peer Discovery: 1.0% (5/5 discovered)"%string.
Proof. intros Hm Hc. unfold discovery_text. rewrite Hm, Hc. by vm_compute. Qed.
