(* ===== verification/PilotPages.v ===== *)
(** * The final report and the validation of a pilot as they are printed
    (pkg/pilot: complete.go, validation.go; main.go: runPilotComplete, runPilotValidate)

    [zone] is the offset with which a time is printed, [visited] the order in which
    Go visits the map of milestones. *)

From S2P Require Import Prelude GoStrings GoText GoTime GoJson GoFloat GoFmt Pilot Report.
Local Open Scope wgmesh_scope.

(** Templates are written with single quotes for double ones. *)
Definition quoted (s : string) : string := html s.

Section pages.
Context (zone : Time -> Z) (visited : list Milestone).

Definition at_ (t : Time) : string := format_rfc3339 (zone t) t.
(** [Format("2006-01-02")]. *)
Definition on_day (t : Time) : string := str_take 10 (format_datetime (zone t) t "").

(** ** The final report *)

Definition final_milestone (c : PilotConfig) (m : Milestone) : string :=
  line ("  " ^^ ml_Name m ^^ ": "
        ^^ (if ml_Completed m then "✓ Completed (Day " ^^ itoa (day_of c (ml_CompletedAt m)) ^^ ")" else "✗ Not completed")).

Definition FormatConsole (r : FinalReport) : string :=
  let c := fr_Config r in let s := fr_Summary r in
  line ("wgmesh Pilot Final Report: " ^^ pc_PilotID c) ^^ rule "=" ^^ newline
  ^^ line ("Organization: " ^^ pc_Organization c) ^^ line ("Contact: " ^^ pc_ContactEmail c) ^^ newline
  ^^ line "PILOT DURATION" ^^ line ("Start: " ^^ on_day (pc_StartDate c)) ^^ line ("End: " ^^ on_day (pc_EndDate c))
  ^^ line ("Duration: " ^^ itoa (fr_DurationDays r) ^^ " days") ^^ newline
  ^^ line "CONFIGURATION" ^^ line ("Mode: " ^^ pc_Mode c) ^^ line ("Node Count: " ^^ itoa (pc_NodeCount c)) ^^ newline
  ^^ line "MILESTONE COMPLETION" ^^ concat_str (final_milestone c <$> visited) ^^ newline
  ^^ line "SUMMARY METRICS"
  ^^ line ("  Mesh Connectivity Avg: " ^^ fmt_f 2 (rsu_MeshConnectivityAvg s) ^^ "%")
  ^^ line ("  Peer Discovery Success: " ^^ fmt_f 1 (f_mul (rsu_PeerDiscoverySuccess s) (f_of_Z 100)) ^^ "%")
  ^^ line ("  Total Daemon Restarts: " ^^ itoa (rsu_TotalDaemonRestarts s))
  ^^ line ("  Total WireGuard Restarts: " ^^ itoa (rsu_TotalWGRestarts s)) ^^ newline
  ^^ line "EVALUATION" ^^ line ("  Overall Rating: " ^^ to_upper (rsu_OverallRating s))
  ^^ line ("  Recommendation: " ^^ rsu_Recommendation s) ^^ newline
  ^^ line ("Completed at: " ^^ at_ (fr_CompletedAt r)).

(** A template filled in without any escaping. *)
Definition FormatJSON (r : FinalReport) : string :=
  let c := fr_Config r in let s := fr_Summary r in
  quoted "{
  'pilot_id': '" ^^ (pc_PilotID c)
  ^^ quoted "',
  'organization': '" ^^ (pc_Organization c)
  ^^ quoted "',
  'contact_email': '" ^^ (pc_ContactEmail c)
  ^^ quoted "',
  'start_date': '" ^^ (at_ (pc_StartDate c))
  ^^ quoted "',
  'end_date': '" ^^ (at_ (pc_EndDate c))
  ^^ quoted "',
  'duration_days': " ^^ itoa (fr_DurationDays r)
  ^^ quoted ",
  'mode': '" ^^ (pc_Mode c)
  ^^ quoted "',
  'node_count': " ^^ itoa (pc_NodeCount c)
  ^^ quoted ",
  'summary': {
    'all_milestones_completed': " ^^ bool_text (rsu_AllMilestonesCompleted s)
  ^^ quoted ",
    'mesh_connectivity_avg': " ^^ fmt_f 2 (rsu_MeshConnectivityAvg s)
  ^^ quoted ",
    'peer_discovery_success': " ^^ fmt_f 2 (rsu_PeerDiscoverySuccess s)
  ^^ quoted ",
    'total_daemon_restarts': " ^^ itoa (rsu_TotalDaemonRestarts s)
  ^^ quoted ",
    'total_wg_restarts': " ^^ itoa (rsu_TotalWGRestarts s)
  ^^ quoted ",
    'overall_rating': '" ^^ (rsu_OverallRating s)
  ^^ quoted "',
    'recommendation': '" ^^ (rsu_Recommendation s)
  ^^ quoted "'
  },
  'completed_at': '" ^^ (at_ (fr_CompletedAt r))
  ^^ quoted "'
}".

(** ** The validation *)

Definition check_line (k : CheckResult) : string :=
  line ((if ck_Passed k then "✓" else "✗") ^^ " [" ^^ to_upper (ck_Severity k) ^^ "] " ^^ ck_Name k ^^ ": " ^^ ck_Message k).
Definition validation_console (checks : list CheckResult) (summary : string) (now : Time) : string :=
  line "Pilot Validation Results" ^^ rule "=" ^^ newline ^^ concat_str (check_line <$> checks) ^^ newline ^^ rule "="
  ^^ line ("Summary: " ^^ summary) ^^ line ("Validated at: " ^^ at_ now).
Definition validation_json (passed : bool) (checks : list CheckResult) (summary : string) (now : Time) : string :=
  quoted "{
  'passed': " ^^ bool_text passed
  ^^ quoted ",
  'summary': '" ^^ summary
  ^^ quoted "',
  'validated_at': '" ^^ at_ now
  ^^ quoted "',
  'checks': " ^^ itoa (Z.of_nat (length checks))
  ^^ quoted "
}".

(** *** The document the template stands for *)

Definition final_json (r : FinalReport) : json :=
  let c := fr_Config r in let s := fr_Summary r in
  JObj [("pilot_id", JStr (pc_PilotID c)); ("organization", JStr (pc_Organization c)); ("contact_email", JStr (pc_ContactEmail c));
        ("start_date", JStr (at_ (pc_StartDate c))); ("end_date", JStr (at_ (pc_EndDate c)));
        ("duration_days", jint (fr_DurationDays r)); ("mode", JStr (pc_Mode c)); ("node_count", jint (pc_NodeCount c));
        ("summary", JObj [("all_milestones_completed", JBool (rsu_AllMilestonesCompleted s));
                          ("mesh_connectivity_avg", JNum (fmt_f 2 (rsu_MeshConnectivityAvg s)));
                          ("peer_discovery_success", JNum (fmt_f 2 (rsu_PeerDiscoverySuccess s)));
                          ("total_daemon_restarts", jint (rsu_TotalDaemonRestarts s)); ("total_wg_restarts", jint (rsu_TotalWGRestarts s));
                          ("overall_rating", JStr (rsu_OverallRating s)); ("recommendation", JStr (rsu_Recommendation s))]);
        ("completed_at", JStr (at_ (fr_CompletedAt r)))]%string.

(** ** The commands *)

(** The first [--output] that is followed by a word. *)
Fixpoint output_path (args : list string) : string :=
  match args with
  | k :: ((v :: _) as more) => if String.eqb k "--output" then v else output_path more
  | _ => EmptyString
  end.

(** What is printed, and what is written to a file when the write succeeds; the
    exit status is 0 even when it does not. *)
Definition complete_command `{Yaml} (args : list string) (write : string -> bool) (now : Time) (f : option yaml_text)
    : result (string * option (string * string)) :=
  match runPilotComplete now f with
  | Err e => Err e
  | Ok report =>
      let path := output_path args in
      if String.eqb path EmptyString then Ok (FormatConsole report, None)
      else if write path then Ok (FormatConsole report ^^ newline ^^ line ("Report saved to " ^^ path), Some (path, FormatJSON report))
      else Ok (FormatConsole report, None)
  end.

(** The printed page and the exit status. *)
Definition validate_command `{Yaml} (now : Time) (f : option yaml_text) : result (string * Z) :=
  match pilot_load NewPilot f with
  | (_, Err e) => Err e
  | (p, Ok _) =>
      match pilot_validate p now with
      | Err e => Err e
      | Ok (_, passed, checks, summary) => Ok (line (validation_console checks summary now), if passed then 0%Z else 1%Z)
      end
  end.

(** ** The template is a JSON document when the texts need no escape *)

Definition plain_char (c : ascii) : bool :=
  let n := byte_of_ascii c in
  ((32 <=? n) && (n <? 127) && negb ((n =? 34) || (n =? 92) || (n =? 60) || (n =? 62) || (n =? 38)))%Z.
Definition plain (s : string) : bool := string_forall plain_char s.

Lemma plain_escape c : plain_char c = true -> byte_in 0 127 c = true /\ escape_byte c = String c EmptyString.
Proof. destruct c as [[] [] [] [] [] [] [] []]; intros H; first [discriminate H | by split]. Qed.

Lemma plain_quote s : plain s = true -> quote s = String quote_char EmptyString ^^ (s ^^ String quote_char EmptyString).
Proof.
  intros Hs. rewrite app_cons_str, app_nil_l_str. unfold quote. induction s as [|c s IH]; [done|]. unfold plain in *.
  cbn [string_forall] in Hs. bool_steps. cbn [escape_go]. destruct (plain_escape c) as [-> ->]; [done|]. injection (IH ltac:(done)) as IH'. by rewrite app_cons_str, app_nil_l_str, app_cons_str, IH'.
Qed.

(** Member for member and blank for blank, it is what an encoder would have written. *)
Lemma final_json_layout r :
  let c := fr_Config r in
  plain (pc_PilotID c) = true -> plain (pc_Organization c) = true -> plain (pc_ContactEmail c) = true -> plain (pc_Mode c) = true ->
  plain (at_ (pc_StartDate c)) = true -> plain (at_ (pc_EndDate c)) = true -> plain (at_ (fr_CompletedAt r)) = true ->
  plain (rsu_OverallRating (fr_Summary r)) = true -> plain (rsu_Recommendation (fr_Summary r)) = true ->
  FormatJSON r = print_indent (final_json r).
Proof.
  intros c H1 H2 H3 H4 H5 H6 H7 H8 H9. unfold FormatJSON, final_json, print_indent. fold c. cbv zeta. unfold jint.
  cbn [print_at List.map join fst snd print].
  rewrite (plain_quote _ H1), (plain_quote _ H2), (plain_quote _ H3), (plain_quote _ H4), (plain_quote _ H5), (plain_quote _ H6), (plain_quote _ H7), (plain_quote _ H8), (plain_quote _ H9).
  fold (bool_text (rsu_AllMilestonesCompleted (fr_Summary r))).
  generalize (bool_text (rsu_AllMilestonesCompleted (fr_Summary r))) as y1.
  generalize (itoa (fr_DurationDays r)) (itoa (pc_NodeCount c)) (itoa (rsu_TotalDaemonRestarts (fr_Summary r))) (itoa (rsu_TotalWGRestarts (fr_Summary r))).
  generalize (fmt_f 2 (rsu_MeshConnectivityAvg (fr_Summary r))) (fmt_f 2 (rsu_PeerDiscoverySuccess (fr_Summary r))).
  generalize (at_ (pc_StartDate c)) (at_ (pc_EndDate c)) (at_ (fr_CompletedAt r)).
  generalize (pc_PilotID c) (pc_Organization c) (pc_ContactEmail c) (pc_Mode c) (rsu_OverallRating (fr_Summary r)) (rsu_Recommendation (fr_Summary r)).
  intros x1 x2 x3 x4 x5 x6 x7 x8 x9 x10 x11 x12 x13 x14 x15 x16. clear.
  repeat first [rewrite <- app_assoc_str | rewrite app_cons_str]. vm_compute.
  reflexivity.
Qed.

(** ** Which checks can fail a pilot *)

(** Only the connectivity and the stability of the mesh: an invalid configuration,
    peers that were not found, slow routes and overdue milestones never do. *)
Lemma validation_decided p days :
  computeOverallPass (run_checks p days)
  = ck_Passed (validateMeshConnectivity (pl_config p) (pl_metrics p)) && ck_Passed (validateStability (pl_metrics p)).
Proof.
  unfold computeOverallPass, run_checks, validateMeshConnectivity, validatePeerDiscovery, validateRoutePropagation, validateStability,
    validateMilestoneProgress, severity.
  cbn [existsb ck_Passed ck_Severity]. repeat split_if; reflexivity.
Qed.

(** The check of the configuration says that it is valid, whether it passes or not. *)
Lemma configuration_check p days :
  nth_error (run_checks p days) 0
  = Some {| ck_Name := "Pilot Configuration"; ck_Passed := validateConfig (pl_config p);
            ck_Message := "Pilot configuration is valid"; ck_Severity := "info" |}.
Proof. done. Qed.

(** A page is printed exactly when the checks ran, and the status tells their outcome. *)
Lemma validate_status `{Yaml} now f out code : validate_command now f = Ok (out, code) ->
  (code = 0%Z \/ code = 1%Z) /\ exists p checks summary p', (pilot_load NewPilot f).1 = p
    /\ pilot_validate p now = Ok (p', Z.eqb code 0, checks, summary) /\ out = line (validation_console checks summary now).
Proof.
  unfold validate_command. destruct (pilot_load NewPilot f) as [p [[]|e]] eqn:Ep; [|done].
  destruct (pilot_validate p now) as [[[[p' passed] checks] summary]|e] eqn:Ev; [|done]. intros [= <- <-].
  split; [by destruct passed; [left|right]|]. exists p, checks, summary, p'. split; [done|]. split; [|done].
  rewrite Ev. by destruct passed.
Qed.
End pages.

(** A quote in the name of the organisation is copied as it is: no reader accepts the file. *)
Definition report_of (organization : string) : FinalReport :=
  {| fr_Config := {| pc_PilotID := "pilot-acme-20260101"; pc_Organization := organization; pc_ContactEmail := "ops@example.org";
                     pc_StartDate := time_unix 1767225600; pc_EndDate := time_unix 1769817600; pc_Mode := "centralized"; pc_NodeCount := 3;
                     pc_Milestones := ∅; pc_MetricsTargets := pc_MetricsTargets (pl_config NewPilot) |};
     fr_DurationDays := 30; fr_Summary := generateReportSummary (pl_config NewPilot) NewMetrics; fr_CompletedAt := time_unix 1769817600 |}.

Example quoted_report_unreadable : parse (FormatJSON (fun _ => 0%Z) (report_of (quoted "The 'A' Team"))) = None.
Proof. vm_compute. reflexivity. Qed.

Example plain_report_readable :
  parse (FormatJSON (fun _ => 0%Z) (report_of "The A Team")) = Some (final_json (fun _ => 0%Z) (report_of "The A Team")).
Proof. vm_compute. reflexivity. Qed.
