(* ===== verification/MainCmd.v ===== *)
(** * The commands as they are run and as they print (main.go)

    What the commands of the command line print around the work that the other files
    model, the help, and the dispatch of the words after [pilot] and [referral]. *)

From S2P Require Import Prelude GoStrings GoNet GoText GoJson GoCrypto GoTime IfName Derive NodeConfig.
From S2P Require Import Systemd Referral Status GoFlag GoDuration Services Rpc Cli Pilot Report PilotPages.
From S2P Require Import CliProps.
Local Open Scope wgmesh_scope.

(** What a command prints, the errors and warnings it reports (without the lines of
    usage that may follow one), and whether its exit status is 0. *)
Record page := { stdout : list string; stderr : list string; succeeds : bool }.
Definition printed (l : list string) : page := {| stdout := l; stderr := []; succeeds := true |}.
Definition failed (out : list string) (err : string) : page := {| stdout := out; stderr := [err]; succeeds := false |}.

(** ** The help *)

(** A tilde stands for a double quote. *)
Definition with_quotes (s : string) : string := str_map (fun c => if Ascii.eqb c "~" then double_quote else c) s.

Definition versionOutput (version : string) : string := "wgmesh version " ^^ version.

Definition printUsage : string := with_quotes
"wgmesh - WireGuard mesh network builder

FLAGS:
  --version, -v               Show version information
  -state <file>    Path to mesh state file (default: " ^^ filepath_join [defaultStateDir; "mesh-state.json"%string] ^^ with_quotes ")
  -add <spec>      Add node (format: hostname:ip:ssh_host[:ssh_port])
  -remove <name>   Remove node by hostname
  -list            List all nodes
  -deploy          Deploy configuration to all nodes
  -init            Initialize new mesh state file
  -network <CIDR>  Custom mesh network for init (default: 10.99.0.0/16)
  -encrypt         Encrypt state file with password

SUBCOMMANDS (centralized mode):
  mesh list [--state <file>] [--encrypt]  List hostnames and mesh IPs

SUBCOMMANDS (decentralized mode):
  init --secret                 Generate a new mesh secret
	join --secret <SECRET>        Join a mesh network
	     [--account <cr_...>]    Save Lighthouse API key for service commands
	     [--mesh-subnet CIDR]    Custom mesh subnet (e.g. 192.168.100.0/24)
	     [--no-lan-discovery]     Disable LAN multicast discovery
	     [--no-ipv6]              Ignore IPv6 endpoints for connectivity
	     [--force-relay]          Prefer relay path for non-LAN peers
	     [--no-punching]          Disable NAT port punching/rendezvous
	     [--introducer]           Enable rendezvous introducer role
  status --secret <SECRET>      Show mesh status
  qr --secret <SECRET>          Display secret as QR code (text)
	install-service --secret ...  Install systemd service
	     [--account <cr_...>]    Save Lighthouse API key for service commands
	     [--no-lan-discovery]     Disable LAN multicast discovery in service
	     [--no-ipv6]              Ignore IPv6 endpoints in service
	     [--force-relay]          Prefer relay path in service
	     [--no-punching]          Disable NAT punching in service
	     [--introducer]           Enable rendezvous introducer role in service
  uninstall-service             Remove systemd service
  rotate-secret                 Rotate mesh secret

QUERY SUBCOMMANDS (decentralized mode):
  peers list                    List all active peers
  peers count                   Show peer statistics
  peers get <pubkey>            Get specific peer details

REFERRAL SUBCOMMANDS:
  referral show                 Show your referral code and share URL
  referral stats                Show local referral statistics
  referral validate <code>      Validate a referral code format

  Note: These commands query a running daemon via RPC socket.
  The daemon must be started with 'wgmesh join' first.

EXAMPLES:
  # Show version
  wgmesh --version
  wgmesh -v

  # Decentralized mode (automatic peer discovery):
  wgmesh init --secret                          # Generate a new mesh secret
  wgmesh join --secret ~wgmesh://v1/K7x2...~    # Join mesh on this node
  wgmesh join --secret ~...~ --account cr_123    # Join and save API key
  wgmesh join --secret ~...~ --privacy           # Join with Dandelion++ privacy
  wgmesh join --secret ~...~ --gossip            # Enable in-mesh gossip

  # Query running daemon:
  wgmesh peers list                              # List all active peers
  wgmesh peers count                             # Show peer counts
  wgmesh peers get <pubkey>                      # Get specific peer info

  # Centralized mode (SSH-based deployment):
  wgmesh -init -encrypt                         # Initialize encrypted state
  wgmesh -add node1:10.99.0.1:192.168.1.10     # Add a node
  wgmesh -deploy                               # Deploy to all nodes
  wgmesh mesh list                             # List hostnames and mesh IPs".

Definition printPilotUsage : string :=
"wgmesh pilot - Pilot evaluation management

SUBCOMMANDS:
  pilot init [--org <name>] [--contact <email>] [--nodes <n>] [--mode <mode>] [--duration <days>]
                          Initialize a new pilot evaluation
  pilot start              Start the pilot evaluation
  pilot status            Show pilot status and progress
  pilot report [--format <format>] [--output <file>]
                          Generate pilot evaluation report
  pilot complete          Finalize pilot and generate summary
  pilot validate          Run pilot validation checks

OPTIONS:
  --org <name>            Organization name (required for init)
  --contact <email>       Contact email (required for init)
  --nodes <n>             Expected number of nodes (default: 3)
  --mode <mode>           Operational mode: decentralized or centralized (default: decentralized)
  --duration <days>       Pilot duration in days (default: 30)
  --format <format>       Report format: console, json, html (default: console)
  --output <file>         Output file path (default: stdout)".

Definition printReferralUsage : string :=
"wgmesh referral - Referral program management

SUBCOMMANDS:
  referral show                 Show your referral code and share URL
  referral stats                Show local referral statistics
  referral validate <code>      Validate a referral code format

The referral store implementation lives in the private backend; this command
reads/writes only the local referral state file.".

(** ** status *)

Definition status_json (o : StatusOutput) : json :=
  JObj ([("interface", JStr (so_Interface o)); ("network_id", JStr (so_NetworkID o)); ("mesh_subnet", JStr (so_MeshSubnet o));
         ("mesh_ipv6_prefix", JStr (so_MeshIPv6Prefix o)); ("gossip_port", jint (so_GossipPort o));
         ("rendezvous_id", JStr (so_RendezvousID o))]%string ++ omit_str "service_status" (so_ServiceStatus o)).
Definition status_text (custom : bool) (o : StatusOutput) : list string :=
  ["Mesh Status"; "==========="; "Interface: " ^^ so_Interface o; "Network ID: " ^^ so_NetworkID o;
   "Mesh Subnet: " ^^ so_MeshSubnet o ^^ (if custom then " (custom)" else "");
   "Mesh IPv6 Prefix: " ^^ so_MeshIPv6Prefix o; "Gossip Port: " ^^ itoa (so_GossipPort o);
   "Rendezvous ID: " ^^ so_RendezvousID o; ""]%string
  ++ when (negb (String.eqb (so_ServiceStatus o) "")) ["Service Status: " ^^ so_ServiceStatus o]
  ++ [""; "(Run 'wg show' to see connected peers)"]%string.
(** [custom]: the command was given a subnet. *)
Definition status_page (r : result (bool * StatusOutput)) (custom : bool) : page :=
  match r with
  | Err e => failed [] e
  | Ok (true, o) => printed [print_indent (status_json o)]
  | Ok (false, o) => printed (status_text custom o)
  end.

(** ** qr *)

Definition block : string := String (ascii_of_byte 226) (String (ascii_of_byte 150) (String (ascii_of_byte 136) EmptyString)).
Definition blocks : string := block ^^ block.
Fixpoint repeated (n : nat) (s : string) : string := match n with O => EmptyString | S n => s ^^ repeated n s end.
Definition qr_border (width : nat) : string := repeated (width + 2) blocks.
Definition qr_blank (width : nat) : string := blocks ^^ repeated width "  " ^^ blocks.
Definition qr_line (c : string * nat) : string := blocks ^^ "  " ^^ c.1 ^^ repeated c.2 " " ^^ "  " ^^ blocks.
Definition qr_box (data : string) : list string :=
  let width := qr_width data in
  [qr_border width; qr_blank width] ++ (qr_line <$> printTextQR data) ++ [qr_blank width; qr_border width].
Definition qr_page (r : result string) : page :=
  match r with
  | Err e => failed [] e
  | Ok uri => printed (["Mesh Secret QR Code"; "===================="; ""; "URI: " ^^ uri; ""]%string ++ qr_box uri
                       ++ [""; "Scan this QR code or copy the URI to join the mesh."]%string)
  end.

(** ** rotate-secret *)

Definition rotation_page (r : result Rotation) : page :=
  match r with
  | Err e => failed [] e
  | Ok r =>
      printed ["Secret Rotation Initiated"; "========================="; "Grace Period: " ^^ rt_grace r; "New Secret URI: " ^^ rt_URI r; "";
               "During the grace period, both secrets will be accepted.";
               "After " ^^ rt_grace r ^^ ", all nodes should use the new secret."; ""; "Share the new secret with all nodes:";
               "  wgmesh join --secret " ^^ String double_quote (rt_URI r ^^ String double_quote EmptyString)]%string
  end.

(** ** install-service, uninstall-service *)

Section host.
Context {S : Type} (act : S -> sys_action -> S * bool).

(** The account key is saved before anything is installed. *)
Definition install_page (args : list string) (account_saved : bool) (account : file) (found self : option string) (s : S) : S * file * page :=
  match parse_flags install_flags args ∅, installServiceCmd args with
  | Ok (v, _), Ok cfg =>
      let account' := handleAccountFlag account_saved account (get_string v "account" "") in
      match InstallSystemdService act s cfg found self with
      | (s', Err e) => (s', account', failed ["Installing wgmesh systemd service..."%string] ("Failed to install service: " ^^ e))
      | (s', Ok _) => (s', account', printed ["Installing wgmesh systemd service..."; "Service installed and started successfully!";
                                              "Check status with: systemctl status wgmesh"]%string)
      end
  | _, r => (s, account, failed [] (match r with Err e => e | Ok _ => EmptyString end))
  end.

Definition uninstallServiceCmd (missing : S -> string -> bool) (s : S) : S * page :=
  match UninstallSystemdService act missing s with
  | (s', Err e) => (s', failed ["Removing wgmesh systemd service..."%string] ("Failed to uninstall service: " ^^ e))
  | (s', Ok _) => (s', printed ["Removing wgmesh systemd service..."; "Service removed successfully!"]%string)
  end.
End host.

(** ** join *)

(** What a look at a directory finds: [Stat] of it, and whether a file could be made
    there, closed and removed again. *)
Record writable := { wr_is_dir : option bool; wr_create : bool; wr_close : bool; wr_remove : bool }.
Definition IsWritable (w : writable) : bool :=
  match wr_is_dir w with
  | None | Some false => false
  | Some true => wr_create w && wr_close w && wr_remove w
  end.

(** The files that are changed before the daemon is made. *)
Record join_files := { jf_account : file; jf_referral : ref_file }.
(** What the system answers: whether the files could be saved; the environment of the
    socket path; what preparing the socket finds; how the daemon ends. *)
Record join_env := {
  je_account_saved : bool;
  je_referral_saved : bool;
  je_socket : string;
  je_runtime_dir : string;
  je_var_run : writable;
  je_remove : removal;
  je_is_socket : option bool;
  je_mkdir : bool;
  je_run : Config -> Logging -> bool -> result unit;
}.

Definition getRPCSocketPath (e : join_env) : string := GetSocketPath (je_socket e) (je_runtime_dir e) (IsWritable (je_var_run e)).
Definition createRPCServer (e : join_env) (path : string) : result unit :=
  NewServer path true (je_remove e) (je_is_socket e) (je_mkdir e).

Definition mode_lines (o : DaemonOpts) : list string :=
  when (o_Privacy o) ["Privacy mode enabled (Dandelion++ relay)"%string] ++ when (o_Gossip o) ["In-mesh gossip enabled"%string]
  ++ when (o_DisableLANDiscovery o) ["LAN discovery disabled"%string] ++ when (o_DisableIPv6 o) ["IPv6 connectivity disabled"%string]
  ++ when (o_ForceRelay o) ["Force relay mode enabled"%string] ++ when (o_DisablePunching o) ["NAT punching disabled"%string]
  ++ when (o_Introducer o) ["Rendezvous introducer enabled"%string].

(** The referral is noted, or a warning printed; joining goes on either way. *)
Definition apply_referral (saved : bool) (f : ref_file) (code : string) : ref_file * list string * list string :=
  if String.eqb code "" then (f, [], [])
  else match recordReferralCode saved f code with
       | (f', Err e) => (f', [], ["Warning: referral code not applied: " ^^ e])
       | (f', Ok _) => (f', ["Referral applied: " ^^ code], [])
       end.

(** The HTTP servers that are started beside the daemon: their use and address. *)
Definition http_servers (p : JoinPlan) : list (string * string) :=
  (if negb (String.eqb (jp_pprof p) "") then [("pprof"%string, jp_pprof p)] else [])
  ++ (if negb (String.eqb (jp_metrics p) "") then [("/metrics"%string, jp_metrics p)] else []).

(** The daemon is run with the configuration, the logging and whether an RPC server
    was set.  The messages about the account file are left out. *)
Definition join_main `{Hkdf} (os : goos) (e : join_env) (f : join_files) (plan : result JoinPlan) : join_files * list (string * string) * page :=
  match plan with
  | Err m => (f, [], failed [] m)
  | Ok p =>
      let account := handleAccountFlag (je_account_saved e) (jf_account f) (jp_account p) in
      let '(referral, out1, err1) := apply_referral (je_referral_saved e) (jf_referral f) (jp_referral p) in
      let f' := {| jf_account := account; jf_referral := referral |} in
      match NewConfig os (jp_opts p) with
      | Err m => (f', [], {| stdout := out1; stderr := err1 ++ ["Failed to create config: " ^^ m]; succeeds := false |})
      | Ok cfg =>
          let log := configureLogging (LogLevel cfg) in
          let path := if String.eqb (jp_socket p) "" then getRPCSocketPath e else jp_socket p in
          let '(rpc, out2, err2) :=
            match createRPCServer e path with
            | Err m => (false, [], ["Warning: failed to create RPC server: " ^^ m])
            | Ok _ => (true, ["RPC socket configured: " ^^ path ^^ " (will start after DHT discovery)"], [])
            end in
          let out := out1 ++ out2 ++ ["Initializing mesh node with DHT discovery..."%string] ++ mode_lines (jp_opts p) in
          match je_run e cfg log rpc with
          | Err m => (f', http_servers p, {| stdout := out; stderr := err1 ++ err2 ++ ["Daemon error: " ^^ m]; succeeds := false |})
          | Ok _ => (f', http_servers p, {| stdout := out; stderr := err1 ++ err2; succeeds := true |})
          end
      end
  end.

(** ** referral *)

Definition runReferralShow (saved : bool) (buf : option (list Z)) (f : ref_file) : ref_file * page :=
  match getOrCreateReferralCode saved buf f with
  | (f', Err e) => (f', failed [] ("Error: " ^^ e))
  | (f', Ok code) => (f', printed ["Your referral code: " ^^ code; "Share URL: https://wgmesh.io/?ref=" ^^ code])
  end.
Definition runReferralStats (f : ref_file) : page :=
  match loadReferralState f with
  | Err e => failed [] ("Error: " ^^ e)
  | Ok rs =>
      if String.eqb (rs_Code rs) "" then printed ["No referral code configured. Run 'wgmesh referral show' to generate one."%string]
      else printed (["Referral code: " ^^ rs_Code rs] ++ when (negb (String.eqb (rs_ReferredBy rs) "")) ["Referred by: " ^^ rs_ReferredBy rs])
  end.
Definition runReferralValidate (rest : list string) : page :=
  match rest with
  | [] => failed [] "Usage: wgmesh referral validate XXXXX-XXXXX"
  | code :: _ => if Referral.Validate code then printed ["Valid referral code: " ^^ code]
                 else {| stdout := ["Invalid referral code format"%string]; stderr := []; succeeds := false |}
  end.
(** [args]: the words after [referral]. *)
Definition referralCmd (saved : bool) (buf : option (list Z)) (args : list string) (f : ref_file) : ref_file * page :=
  match args with
  | [] => (f, {| stdout := [printReferralUsage]; stderr := []; succeeds := false |})
  | a :: rest =>
      if String.eqb a "show" then runReferralShow saved buf f
      else if String.eqb a "stats" then (f, runReferralStats f)
      else if String.eqb a "validate" then (f, runReferralValidate rest)
      else (f, {| stdout := [printReferralUsage]; stderr := ["Unknown referral subcommand: " ^^ a]; succeeds := false |})
  end.

(** ** service *)

Inductive service_command := ServiceAdd | ServiceList | ServiceRemove.
Definition service_usage : list string :=
  ["Usage: wgmesh service <add|list|remove>"; ""; "Commands:"; "  add <name> <local-addr>    Register a service for managed ingress";
   "  list                       List registered services"; "  remove <name>              Deregister a service"]%string.
Definition serviceCmd (args : list string) : service_command + page :=
  match args with
  | [] => inr {| stdout := []; stderr := service_usage; succeeds := false |}
  | a :: _ =>
      if String.eqb a "add" then inl ServiceAdd else if String.eqb a "list" then inl ServiceList
      else if String.eqb a "remove" then inl ServiceRemove
      else inr {| stdout := []; stderr := ["Unknown service command: " ^^ a; "Available commands: add, list, remove"%string]; succeeds := false |}
  end.

(** ** pilot *)

Inductive pilot_command := PilotInit | PilotStart | PilotStatus | PilotReport | PilotComplete | PilotValidate.
Definition pilot_words : list (string * pilot_command) :=
  [("init", PilotInit); ("start", PilotStart); ("status", PilotStatus); ("report", PilotReport);
   ("complete", PilotComplete); ("validate", PilotValidate)]%string.
(** The command that is run, or the page that is printed instead. *)
Definition pilotCmd (args : list string) : pilot_command + page :=
  match args with
  | [] => inr {| stdout := [printPilotUsage]; stderr := []; succeeds := false |}
  | a :: _ => match List.find (fun c => String.eqb (fst c) a) pilot_words with
              | Some (_, c) => inl c
              | None => inr {| stdout := [printPilotUsage]; stderr := ["Unknown pilot subcommand: " ^^ a]; succeeds := false |}
              end
  end.

(** * What the commands print (main.go)

    The help against the dispatch, the status in JSON, the box of qr, what join
    changes before it can fail, and the referral a user is shown. *)

(** ** The help and the dispatch *)

(** The words the lines of a text begin with. *)
Definition first_words (text : string) : list string := omap head (fields <$> split_char newline_char text).
Definition in_help (text word : string) : bool := existsb (String.eqb word) (first_words text).

(** Four subcommands that [main] runs are not in its help. *)
Example usage_omits :
  List.filter (fun c => negb (in_help printUsage c.1)) subcommands
  = [("version", CVersion); ("test-peer", CTestPeer); ("service", CService); ("pilot", CPilot)]%string.
Proof. vm_compute. reflexivity. Qed.

(** The help of [pilot] has the two words of each of its subcommands. *)
Example pilot_usage_complete :
  forallb (fun c => existsb (fun l => match fields l with a :: b :: _ => String.eqb a "pilot" && String.eqb b c.1 | _ => false end)
                      (split_char newline_char printPilotUsage)) pilot_words = true.
Proof. vm_compute. reflexivity. Qed.

(** A word after [pilot] is run exactly when it is one of the six. *)
Lemma pilot_dispatch a rest c : pilotCmd (a :: rest) = inl c <-> (a, c) ∈ pilot_words.
Proof.
  unfold pilotCmd, pilot_words. cbn [List.find fst]. split.
  - repeat match goal with |- context [String.eqb ?x a] => destruct (String.eqb_spec x a) as [<-|] end;
      intros [= <-]; rewrite !elem_of_cons; tauto.
  - intros H. repeat (apply elem_of_cons in H as [[= -> ->]|H]; [reflexivity|]). by apply not_elem_of_nil in H.
Qed.

(** ** status *)

Definition status_plain (o : StatusOutput) : bool :=
  ascii_str (so_Interface o) && ascii_str (so_NetworkID o) && ascii_str (so_MeshSubnet o) && ascii_str (so_MeshIPv6Prefix o)
  && ascii_str (so_RendezvousID o) && ascii_str (so_ServiceStatus o).

(** The JSON of the status is read back member by member. *)
Theorem status_json_readable o custom :
  status_plain o = true -> (int64_min <= so_GossipPort o <= int64_max)%Z ->
  exists text, status_page (Ok (true, o)) custom = printed [text] /\ parse text = Some (status_json o)
    /\ obj_get "network_id" (status_json o) = Some (JStr (so_NetworkID o))
    /\ obj_get "gossip_port" (status_json o) = Some (jint (so_GossipPort o)).
Proof.
  intros H Hp. exists (print_indent (status_json o)). split; [done|]. split; [|unfold status_json, omit_str; split; by destruct (String.eqb (so_ServiceStatus o) "")].
  apply parse_print_indent. unfold status_plain in H. bool_steps. unfold status_json. cbn [json_ok].
  rewrite forallb_app, omit_str_ok by done. cbn [forallb fst snd]. rewrite (jint_ok (so_GossipPort o)) by done. cbn [json_ok].
  repeat match goal with E : ascii_str _ = true |- _ => rewrite E; clear E end. done.
Qed.

(** ** qr *)

(** The border of the box is as wide as a line of it only when the line holds four
    characters: the padding is counted twice. *)
Fixpoint columns (s : string) : Z := (* the continuation bytes of a block take no column *)
  match s with EmptyString => 0%Z | String c s => ((if byte_in 128 191 c then 0 else 1) + columns s)%Z end.

Example qr_box_ragged :
  columns <$> qr_box "wgmesh://v1/dGhpcyBpcyBub3QgYSBzZWNyZXQgYXQgYWxs"
  = [84; 84; 48; 80; 84; 84]%Z.
Proof. vm_compute. reflexivity. Qed.

(** ** join *)

(** What join changes before it knows whether it can run: the account file and the
    referral file are what they would be, whether the configuration is accepted or
    not; the daemon is run exactly when it is, with that configuration and its log
    level, and a socket that cannot be prepared does not keep it from running. *)
Theorem join_order `{Hkdf} os e f p :
  let '(f', servers, pg) := join_main os e f (Ok p) in
  jf_account f' = handleAccountFlag (je_account_saved e) (jf_account f) (jp_account p)
  /\ jf_referral f' = (apply_referral (je_referral_saved e) (jf_referral f) (jp_referral p)).1.1
  /\ match NewConfig os (jp_opts p) with
     | Err m => servers = [] /\ succeeds pg = false /\ ("Failed to create config: " ^^ m) ∈ stderr pg
     | Ok cfg => exists path,
         path = (if String.eqb (jp_socket p) "" then getRPCSocketPath e else jp_socket p)
         /\ succeeds pg = is_ok (je_run e cfg (configureLogging (LogLevel cfg)) (is_ok (createRPCServer e path)))
     end.
Proof.
  unfold join_main. destruct (apply_referral _ _ _) as [[referral out1] err1].
  destruct (NewConfig os (jp_opts p)) as [cfg|m].
  - set (path := if String.eqb (jp_socket p) "" then getRPCSocketPath e else jp_socket p).
    destruct (createRPCServer e path) as [[]|m2] eqn:Er; destruct (je_run e cfg _ _) as [[]|m3] eqn:Ej;
      (split; [done|]; split; [done|]; exists path; split; [done|]; rewrite Er; cbn [is_ok]; by rewrite Ej).
  - split; [done|]. split; [done|]. split; [done|]. split; [done|]. cbn [stderr]. apply elem_of_app. right. by left.
Qed.

(** ** referral *)

(** The attribution is not shown by [referral stats] until the node has a code of its
    own, which [referral show] makes; from then on both are. *)
Theorem attribution_shown code buf :
  Referral.Validate code = true -> length buf = 10%nat ->
  let joined := (apply_referral true RefMissing code).1.1 in
  referralCmd true (Some buf) ["stats"%string] joined
    = (joined, printed ["No referral code configured. Run 'wgmesh referral show' to generate one."%string])
  /\ exists own file, Referral.Validate own = true
     /\ referralCmd true (Some buf) ["show"%string] joined
        = (file, printed ["Your referral code: " ^^ own; "Share URL: https://wgmesh.io/?ref=" ^^ own])
     /\ forall buf', referralCmd true buf' ["stats"%string] file
                     = (file, printed ["Referral code: " ^^ own; "Referred by: " ^^ code]).
Proof.
  intros Hv Hl. assert (code <> EmptyString) as Hne by (intros ->; done). apply String.eqb_neq in Hne.
  destruct (referral_code_valid buf Hl) as (own & Hg & Hown). pose proof (valid_code_ascii code Hv) as Ha.
  unfold apply_referral, recordReferralCode. rewrite Hne, Hv. cbn [negb loadReferralState no_referral rs_Code rs_ReferredBy].
  set (rs := {| rs_Code := EmptyString; rs_ReferredBy := code |}).
  pose proof (load_saved rs RefMissing) as Hload.
  destruct (saveReferralState true RefMissing rs) as [joined r] eqn:Es. assert (r = Ok tt) as -> by by injection Es. cbn [fst snd].
  specialize (Hload ltac:(unfold referral_text, rs; cbn [rs_Code rs_ReferredBy]; by rewrite Ha)). cbn [fst] in Hload.
  split.
  { unfold referralCmd. cbn [String.eqb Ascii.eqb Bool.eqb]. unfold runReferralStats. by rewrite Hload. }
  set (rs2 := {| rs_Code := own; rs_ReferredBy := code |}).
  exists own, (saveReferralState true joined rs2).1. split; [done|].
  pose proof (load_saved rs2 joined ltac:(unfold referral_text, rs2; cbn [rs_Code rs_ReferredBy]; by rewrite Ha, (valid_code_ascii own Hown))) as Hload2.
  split.
  - unfold referralCmd. cbn [String.eqb Ascii.eqb Bool.eqb]. unfold runReferralShow, getOrCreateReferralCode. rewrite Hload.
    cbn [rs_Code rs String.eqb negb andb]. rewrite Hg. done.
  - intros buf'. unfold referralCmd. cbn [String.eqb Ascii.eqb Bool.eqb]. unfold runReferralStats. rewrite Hload2. cbn [rs2 rs_Code rs_ReferredBy].
    rewrite Hne. destruct (String.eqb_spec own "") as [->|]; [done|]. done.
Qed.
