(* ===== verification/Analytics.v ===== *)
(** * Analytics (pkg/analytics)

    The conversion log (logger.go): events buffered and appended to a file, one JSON
    object a line; the metrics computed from that file (metrics.go); the trial
    events given to handlers (events.go, memory.go) and the row an event becomes in
    the database (postgres.go).  Which system calls succeed, the clock and random
    bytes are arguments; [zone] is the offset with which a time is printed. *)

From S2P Require Import Prelude GoStrings GoTime GoCrypto GoJson GoTimeJson GoMaps GoFloat.
Local Open Scope wgmesh_scope.

(** ** Conversion events (types.go) *)

Definition EventTrialSignup : string := "trial_signup".
Definition EventTrialActivation : string := "trial_activation".
Definition EventTrialConversion : string := "trial_conversion".
Definition EventPromoRedeemed : string := "promo_redeemed".
Definition EventCommunityClick : string := "community_click".

Definition PropCode : string := "code".
Definition PropCampaignID : string := "campaign_id".
Definition PropSource : string := "source".
Definition PropAccountID : string := "account_id".
Definition PropCommunityID : string := "community_id".
Definition PropClickURL : string := "click_url".

(** [Properties]: [None] is a nil map. *)
Record ConversionEvent := {
  cv_ID : string;
  cv_Type : string;
  cv_Timestamp : Time;
  cv_Properties : option (gmap string string);
}.
Record ConversionFunnel := { fu_SignupCount : Z; fu_ActivationCount : Z; fu_ConversionCount : Z; fu_LastUpdated : Time }.

(** [event.Properties[key]]. *)
Definition property (e : ConversionEvent) (key : string) : string := default "" (cv_Properties e ≫= lookup key).

Section log.
Context (zone : Time -> Z).

Definition properties_json (p : option (gmap string string)) : json :=
  match p with None => JNull | Some m => map_json JStr m end.
Definition event_json (e : ConversionEvent) : json :=
  JObj ([("ID"%string, JStr (cv_ID e))] ++ [("Type"%string, JStr (cv_Type e))]
        ++ [("Timestamp"%string, time_json_at (zone (cv_Timestamp e)) (cv_Timestamp e))]
        ++ [("Properties"%string, properties_json (cv_Properties e))]).

(** A value of a map of strings: [null] is the empty string. *)
Definition dec_value (v : json) : option string := match v with JNull => Some "" | _ => dec_string v end.
Definition dec_event (v : json) : option ConversionEvent :=
  match v with
  | JObj ms =>
      i ← str_field "ID" ms; t ← str_field "Type" ms; at_ ← field dec_time keep zero_time "Timestamp" ms;
      p ← field (fun v => Some <$> dec_map dec_value v) (fun _ => None) None "Properties" ms;
      Some {| cv_ID := i; cv_Type := t; cv_Timestamp := at_; cv_Properties := p |}
  | JNull => Some {| cv_ID := ""; cv_Type := ""; cv_Timestamp := zero_time; cv_Properties := None |}
  | _ => None
  end.

(** ** The logger (logger.go) *)

Record Logger := { lg_bufSize : nat; lg_buffer : list ConversionEvent; lg_flushed : nat }.
Definition NewLogger (bufSize : Z) : Logger :=
  {| lg_bufSize := Z.to_nat (if (bufSize <=? 0)%Z then 100 else bufSize); lg_buffer := []; lg_flushed := 0 |}.

(** The lines of the log file; [None]: there is no file. *)
Notation log_file := (option (list string)).

(** What the system answers to one flush: directory, opening, and which write
    fails, if any. *)
Record flush_env := { fe_mkdir : bool; fe_open : bool; fe_fails : option nat }.
Definition writes (env : flush_env) (n : nat) : nat := match fe_fails env with None => n | Some k => Nat.min k n end.

Definition lines_of (f : log_file) : list string := default [] f.
Definition encode (e : ConversionEvent) : string := print (event_json e).

Definition flush (env : flush_env) (l : Logger) (f : log_file) : Logger * log_file * result unit :=
  match lg_buffer l with
  | [] => (l, f, Ok tt)
  | events =>
      if negb (fe_mkdir env) then (l, f, Err "create directory")
      else if negb (fe_open env) then (l, f, Err "open log file")
      else
        let f' := Some (lines_of f ++ (encode <$> take (writes env (length events)) events)) in
        if Nat.ltb (writes env (length events)) (length events) then (l, f', Err "encode event")
        else ({| lg_bufSize := lg_bufSize l; lg_buffer := []; lg_flushed := lg_flushed l + length events |}, f', Ok tt)
  end.

(** [type-nanoseconds]. *)
Definition generateEventID (type : string) (now : Time) : string := type ^^ "-" ^^ itoa now.

(** The event as it is buffered. *)
Definition completed (e : ConversionEvent) (now : Time) : ConversionEvent :=
  {| cv_ID := if String.eqb (cv_ID e) "" then generateEventID (cv_Type e) now else cv_ID e; cv_Type := cv_Type e;
     cv_Timestamp := if time_is_zero (cv_Timestamp e) then now else cv_Timestamp e; cv_Properties := cv_Properties e |}.

Definition Log (env : flush_env) (now : Time) (l : Logger) (f : log_file) (e : ConversionEvent) : Logger * log_file * result unit :=
  let l := {| lg_bufSize := lg_bufSize l; lg_buffer := lg_buffer l ++ [completed e now]; lg_flushed := lg_flushed l |} in
  if Nat.leb (lg_bufSize l) (length (lg_buffer l)) then flush env l f else (l, f, Ok tt).

Definition new_event (type : string) (props : list (string * string)) : ConversionEvent :=
  {| cv_ID := ""; cv_Type := type; cv_Timestamp := zero_time; cv_Properties := Some (list_to_map props) |}.

(** The five ways an event is made. *)
Inductive log_call :=
  | LogTrialSignup (code campaignID source accountID : string)
  | LogTrialActivation (accountID : string)
  | LogTrialConversion (accountID : string)
  | LogPromoRedeemed (code campaignID accountID : string)
  | LogCommunityClick (communityID source url : string).

Definition logged (c : log_call) : ConversionEvent :=
  match c with
  | LogTrialSignup code campaignID source accountID =>
      new_event EventTrialSignup [(PropCode, code); (PropCampaignID, campaignID); (PropSource, source); (PropAccountID, accountID)]
  | LogTrialActivation accountID => new_event EventTrialActivation [(PropAccountID, accountID)]
  | LogTrialConversion accountID => new_event EventTrialConversion [(PropAccountID, accountID)]
  | LogPromoRedeemed code campaignID accountID =>
      new_event EventPromoRedeemed [(PropCode, code); (PropCampaignID, campaignID); (PropAccountID, accountID)]
  | LogCommunityClick communityID source url =>
      new_event EventCommunityClick [(PropCommunityID, communityID); (PropSource, source); (PropClickURL, url)]
  end.

Inductive log_op := Call (c : log_call) | Flush.
Definition log_step (s : Logger * log_file) (op : log_op * flush_env * Time) : Logger * log_file :=
  let '(l, f) := s in
  match op with
  | (Call c, env, now) => (Log env now l f (logged c)).1
  | (Flush, env, _) => (flush env l f).1
  end.
Definition log_run (s : Logger * log_file) (ops : list (log_op * flush_env * Time)) : Logger * log_file := foldl log_step s ops.

(** ** The calculator (metrics.go) *)

Definition MaxLine : nat := 65535.

(** The lines a [bufio.Scanner] delivers; one longer than its buffer is an error. *)
Definition scan (f : list string) : result (list string) :=
  if forallb (fun s => Nat.leb (String.length s) MaxLine) f then Ok f else Err "scan log".

(** The events of the lines; a malformed line is skipped. *)
Definition events_of (ls : list string) : list ConversionEvent := omap (fun s => parse s ≫= dec_event) ls.

Record CampaignMetrics := {
  cm_CampaignID : string;
  cm_Source : string;
  cm_PromosGenerated : Z;
  cm_PromosRedeemed : Z;
  cm_Signups : Z;
  cm_Activations : Z;
  cm_Conversions : Z;
  cm_ConversionRate : float64;
}.
Definition no_metrics (id : string) : CampaignMetrics :=
  {| cm_CampaignID := id; cm_Source := ""; cm_PromosGenerated := 0; cm_PromosRedeemed := 0; cm_Signups := 0;
     cm_Activations := 0; cm_Conversions := 0; cm_ConversionRate := f_of_Z 0 |}.

Definition campaign_step (m : CampaignMetrics) (e : ConversionEvent) : CampaignMetrics :=
  if negb (String.eqb (property e PropCampaignID) (cm_CampaignID m)) then m
  else
    let one t := if String.eqb (cv_Type e) t then 1%Z else 0%Z in
    {| cm_CampaignID := cm_CampaignID m;
       cm_Source := if String.eqb (cm_Source m) "" then property e PropSource else cm_Source m;
       cm_PromosGenerated := cm_PromosGenerated m; cm_PromosRedeemed := cm_PromosRedeemed m + one EventPromoRedeemed;
       cm_Signups := cm_Signups m + one EventTrialSignup; cm_Activations := cm_Activations m + one EventTrialActivation;
       cm_Conversions := cm_Conversions m + one EventTrialConversion; cm_ConversionRate := cm_ConversionRate m |}.

Definition with_rate (m : CampaignMetrics) : CampaignMetrics :=
  {| cm_CampaignID := cm_CampaignID m; cm_Source := cm_Source m; cm_PromosGenerated := cm_PromosGenerated m;
     cm_PromosRedeemed := cm_PromosRedeemed m; cm_Signups := cm_Signups m; cm_Activations := cm_Activations m;
     cm_Conversions := cm_Conversions m;
     cm_ConversionRate := if (0 <? cm_Signups m)%Z
                          then f_mul (f_div (f_of_Z (cm_Conversions m)) (f_of_Z (cm_Signups m))) (f_of_Z 100)
                          else cm_ConversionRate m |}.

(** [f]: the file, an error when it cannot be opened. *)
Definition ComputeCampaignMetrics (f : result log_file) (id : string) : result CampaignMetrics :=
  match f with
  | Err _ => Err "open log"
  | Ok None => Ok (no_metrics id)
  | Ok (Some ls) =>
      match scan ls with
      | Err e => Err e
      | Ok ls => Ok (with_rate (foldl campaign_step (no_metrics id) (events_of ls)))
      end
  end.

Definition funnel_step (m : ConversionFunnel) (e : ConversionEvent) : ConversionFunnel :=
  let one t := if String.eqb (cv_Type e) t then 1%Z else 0%Z in
  {| fu_SignupCount := fu_SignupCount m + one EventTrialSignup; fu_ActivationCount := fu_ActivationCount m + one EventTrialActivation;
     fu_ConversionCount := fu_ConversionCount m + one EventTrialConversion; fu_LastUpdated := fu_LastUpdated m |}.
Definition ComputeFunnelMetrics (f : result log_file) (now : Time) : result ConversionFunnel :=
  let zero := {| fu_SignupCount := 0; fu_ActivationCount := 0; fu_ConversionCount := 0; fu_LastUpdated := now |} in
  match f with
  | Err _ => Err "open log"
  | Ok None => Ok zero
  | Ok (Some ls) => match scan ls with Err e => Err e | Ok ls => Ok (foldl funnel_step zero (events_of ls)) end
  end.
End log.

(** ** Trial events (events.go) *)

Definition FunnelStageOrder : list string :=
  ["trial_landing_viewed"; "trial_form_started"; "trial_email_submitted"; "trial_email_verified"; "trial_account_created";
   "trial_install_started"; "trial_install_completed"; "trial_mesh_active"]%string.
Definition ValidateEventType (t : string) : bool := existsb (String.eqb t) FunnelStageOrder.

Fixpoint stage_from (i : Z) (stage : string) (l : list string) : Z :=
  match l with [] => (-1)%Z | s :: l => if String.eqb s stage then i else stage_from (i + 1) stage l end.
Definition GetStageIndex (stage : string) : Z := stage_from 0 stage FunnelStageOrder.
Definition IsStageAfter (a b : string) : bool :=
  let ia := GetStageIndex a in let ib := GetStageIndex b in (ib <? ia)%Z && (0 <=? ia)%Z && (0 <=? ib)%Z.

Record EventMetadata := {
  em_Referrer : string; em_UTMSource : string; em_UTMMedium : string; em_UTMCampaign : string;
  em_Browser : string; em_DeviceType : string; em_UserAgent : string; em_RemoteAddr : string;
}.
#[export] Instance metadata_eq_dec : EqDecision EventMetadata.
Proof. solve_decision. Defined.
Definition no_metadata : EventMetadata :=
  {| em_Referrer := ""; em_UTMSource := ""; em_UTMMedium := ""; em_UTMCampaign := ""; em_Browser := ""; em_DeviceType := "";
     em_UserAgent := ""; em_RemoteAddr := "" |}.

Record FunnelError := {
  fe_Stage : string; fe_ErrorType : string; fe_ErrorCode : string; fe_UserMessage : string;
  fe_Context : gmap string json; fe_Timestamp : Time;
}.
Record Event := {
  ev_ID : string; ev_Type : string; ev_Timestamp : Time; ev_SessionID : string; ev_UserID : string;
  ev_Metadata : EventMetadata; ev_Error : option FunnelError;
}.

(** What [Track] hands to every handler, or why it hands nothing.  [random]: the
    bytes for a missing identifier. *)
Definition prepare (random : option (list Z)) (now : Time) (e : Event) : result Event :=
  match (if String.eqb (ev_ID e) "" then match random with Some bs => Ok (hex_bytes bs) | None => Err "failed to generate event ID" end
         else Ok (ev_ID e)) with
  | Err m => Err m
  | Ok id =>
      if String.eqb (ev_SessionID e) "" then Err "session_id is required"
      else Ok {| ev_ID := id; ev_Type := ev_Type e; ev_Timestamp := if time_is_zero (ev_Timestamp e) then now else ev_Timestamp e;
                 ev_SessionID := ev_SessionID e; ev_UserID := ev_UserID e; ev_Metadata := ev_Metadata e; ev_Error := ev_Error e |}
  end.

(** The handlers run concurrently, each on its own state; one of the errors is
    returned, in the order the handlers ended. *)
Definition Track {S} (handle : S -> Event -> S * result unit) (hs : list S) (random : option (list Z)) (now : Time) (e : Event)
  : list S * list string * result unit :=
  match prepare random now e with
  | Err m => (hs, [], Err m)
  | Ok e =>
      let rs := (fun s => handle s e) <$> hs in
      let errs := omap (fun r => match r.2 with Err m => Some ("handler failed: " ^^ m) | Ok _ => None end) rs in
      (rs.*1, errs, match errs with [] => Ok tt | m :: _ => Err m end)
  end.

Definition stage_event (type sessionID userID : string) (metadata : EventMetadata) : Event :=
  {| ev_ID := ""; ev_Type := type; ev_Timestamp := zero_time; ev_SessionID := sessionID; ev_UserID := userID;
     ev_Metadata := metadata; ev_Error := None |}.
Definition error_event (sessionID userID stage errType errCode userMessage : string) (context : gmap string json) (now : Time) : Event :=
  {| ev_ID := ""; ev_Type := stage; ev_Timestamp := zero_time; ev_SessionID := sessionID; ev_UserID := userID;
     ev_Metadata := no_metadata;
     ev_Error := Some {| fe_Stage := stage; fe_ErrorType := errType; fe_ErrorCode := errCode; fe_UserMessage := userMessage;
                         fe_Context := context; fe_Timestamp := now |} |}.

(** ** The memory handler (memory.go) *)

Definition memory_Handle (s : list Event) (e : Event) : list Event * result unit := (s ++ [e], Ok tt).
Definition GetEventsBySession (s : list Event) (sessionID : string) : list Event :=
  List.filter (fun e => String.eqb (ev_SessionID e) sessionID) s.
Definition CountByType (s : list Event) (type : string) : nat := length (List.filter (fun e => String.eqb (ev_Type e) type) s).

(** ** The row of an event (postgres.go) *)

Definition metadata_json (m : EventMetadata) : json :=
  JObj (omit_str "referrer" (em_Referrer m) ++ omit_str "utm_source" (em_UTMSource m) ++ omit_str "utm_medium" (em_UTMMedium m)
        ++ omit_str "utm_campaign" (em_UTMCampaign m) ++ omit_str "browser" (em_Browser m) ++ omit_str "device_type" (em_DeviceType m)
        ++ omit_str "user_agent" (em_UserAgent m) ++ omit_str "remote_addr" (em_RemoteAddr m)).
Definition dec_metadata (v : json) : option EventMetadata :=
  match v with
  | JObj ms =>
      a ← str_field "referrer" ms; b ← str_field "utm_source" ms; c ← str_field "utm_medium" ms; d ← str_field "utm_campaign" ms;
      e ← str_field "browser" ms; f ← str_field "device_type" ms; g ← str_field "user_agent" ms; h ← str_field "remote_addr" ms;
      Some {| em_Referrer := a; em_UTMSource := b; em_UTMMedium := c; em_UTMCampaign := d; em_Browser := e; em_DeviceType := f;
              em_UserAgent := g; em_RemoteAddr := h |}
  | JNull => Some no_metadata
  | _ => None
  end.
Definition error_json (f : FunnelError) : json :=
  JObj ([("stage"%string, JStr (fe_Stage f))] ++ [("error_type"%string, JStr (fe_ErrorType f))]
        ++ [("error_code"%string, JStr (fe_ErrorCode f))] ++ omit_str "user_message" (fe_UserMessage f)
        ++ omit_map "context" id (fe_Context f) ++ [("timestamp"%string, time_json (fe_Timestamp f))]).
Definition zero_error : FunnelError :=
  {| fe_Stage := ""; fe_ErrorType := ""; fe_ErrorCode := ""; fe_UserMessage := ""; fe_Context := ∅; fe_Timestamp := zero_time |}.
(** Into a pointer: [null] is nil. *)
Definition dec_error (v : json) : option (option FunnelError) :=
  match v with
  | JObj ms =>
      s ← str_field "stage" ms; t ← str_field "error_type" ms; c ← str_field "error_code" ms; u ← str_field "user_message" ms;
      x ← field (dec_map Some) (fun _ => ∅) ∅ "context" ms; at_ ← field dec_time keep zero_time "timestamp" ms;
      Some (Some {| fe_Stage := s; fe_ErrorType := t; fe_ErrorCode := c; fe_UserMessage := u; fe_Context := x; fe_Timestamp := at_ |})
  | JNull => Some None
  | _ => None
  end.

(** The columns; [None] is NULL. *)
Record EventRow := {
  rw_event_id : string; rw_event_type : string; rw_timestamp : Time; rw_session_id : string;
  rw_user_id : option string; rw_metadata : option string; rw_error_data : option string;
}.
Definition nullString (s : string) : option string := if String.eqb s "" then None else Some s.
Definition nullBytes (b : option string) : option string := match b with None => Some "{}"%string | Some s => Some s end.

Definition row_of (e : Event) : EventRow :=
  {| rw_event_id := ev_ID e; rw_event_type := ev_Type e; rw_timestamp := ev_Timestamp e; rw_session_id := ev_SessionID e;
     rw_user_id := nullString (ev_UserID e);
     rw_metadata := nullBytes (if decide (ev_Metadata e = no_metadata) then None else Some (print (metadata_json (ev_Metadata e))));
     rw_error_data := nullBytes ((fun f => print (error_json f)) <$> ev_Error e) |}.

(** The event read from a row; a NULL column leaves the zero value. *)
Definition event_of (r : EventRow) : option Event :=
  m ← match rw_metadata r with None => Some no_metadata | Some s => parse s ≫= dec_metadata end;
  f ← match rw_error_data r with None => Some None | Some s => parse s ≫= dec_error end;
  Some {| ev_ID := rw_event_id r; ev_Type := rw_event_type r; ev_Timestamp := rw_timestamp r; ev_SessionID := rw_session_id r;
          ev_UserID := default "" (rw_user_id r); ev_Metadata := m; ev_Error := f |}.
