(* ===== verification/AnalyticsProps.v ===== *)
(** * What the analytics report

    The log file gives back the events that were logged; the metrics of a campaign
    never show an activation or a conversion; a trial event without an error comes
    back from the database with one. *)

From S2P Require Import Prelude GoStrings GoTime GoCrypto GoJson GoTimeJson GoMaps GoFloat Analytics.
Local Open Scope wgmesh_scope.

Section props.
Context (zone : Time -> Z).

(** ** Reading the log back *)

Definition event_text (e : ConversionEvent) : Prop :=
  ascii_str (cv_ID e) = true /\ ascii_str (cv_Type e) = true
  /\ zone_ok (zone (cv_Timestamp e)) /\ year_ok (zone (cv_Timestamp e)) (cv_Timestamp e)
  /\ exists m, cv_Properties e = Some m /\ map_Forall (fun k v => ascii_str k = true /\ ascii_str v = true) m.

Lemma event_reads e : event_text e -> parse (encode zone e) ≫= dec_event = Some e.
Proof.
  intros (Hi & Ht & Hz & Hy & m & Hm & Hp). unfold encode. destruct e as [i t at_ p]. cbn [cv_ID cv_Type cv_Timestamp cv_Properties] in *.
  subst p. rewrite parse_print.
  - cbn [mbind option_bind dec_event event_json cv_ID cv_Type cv_Timestamp cv_Properties properties_json].
    assert (Some <$> dec_map dec_value (map_json JStr m) = Some (Some m)) as Hd.
    { rewrite dec_map_json by done. done. }
    read_struct ltac:(first [exact (time_reads_at _ _ Hz Hy) | exact Hd]). done.
  - cbn [event_json json_ok cv_ID cv_Type cv_Timestamp cv_Properties properties_json]. rewrite !forallb_app. cbn [forallb fst snd].
    rewrite time_json_ok, map_json_ok by (intros k a Ha; exact (Hp k a Ha)). cbn [json_ok]. by rewrite Hi, Ht.
Qed.

Lemma events_read l : Forall event_text l -> events_of (encode zone <$> l) = l.
Proof.
  unfold events_of. induction 1 as [|e l He _ IH]; [done|]. cbn [fmap list_fmap omap list_omap]. rewrite event_reads by done.
  f_equal. exact IH.
Qed.

(** The arguments of a call are ASCII; the clock can be printed. *)
Definition call_text (c : log_call) : bool :=
  match c with
  | LogTrialSignup a b c d => ascii_str a && ascii_str b && ascii_str c && ascii_str d
  | LogTrialActivation a | LogTrialConversion a => ascii_str a
  | LogPromoRedeemed a b c | LogCommunityClick a b c => ascii_str a && ascii_str b && ascii_str c
  end.
Definition clock_ok (now : Time) : Prop := zone_ok (zone now) /\ year_ok (zone now) now.

Lemma props_text l : forallb (fun kv => ascii_str kv.1 && ascii_str kv.2) l = true ->
  map_Forall (fun k v => ascii_str k = true /\ ascii_str v = true) (list_to_map l : gmap string string).
Proof.
  intros Hl k v Hk%elem_of_list_to_map_2. rewrite forallb_forall in Hl. specialize (Hl (k, v) (proj1 (list_elem_of_In _ _) Hk)).
  cbn [fst snd] in Hl. by apply andb_true_iff in Hl.
Qed.

Lemma call_event_text c now : call_text c = true -> clock_ok now -> event_text (completed (logged c) now).
Proof.
  intros Hc [Hz Hy].
  assert (forall ty l, ascii_str ty = true -> forallb (fun kv => ascii_str kv.1 && ascii_str kv.2) l = true ->
    event_text (completed (new_event ty l) now)) as Hmake.
  { intros ty l Hty Hl. split; [|split; [exact Hty|split; [exact Hz|split; [exact Hy|]]]].
    - cbn. unfold generateEventID. apply ascii_app; [done|]. apply (ascii_app "-"); [done|]. apply itoa_ascii.
    - eexists. split; [reflexivity|]. by apply props_text. }
  destruct c; cbn [logged call_text] in *; bool_steps; apply Hmake; try reflexivity; cbn [forallb fst snd];
    repeat (apply andb_true_intro; split); done.
Qed.

(** ** Runs of the logger *)

Definition op_ok (x : log_op * flush_env * Time) : Prop :=
  match x with (Call c, _, now) => call_text c = true /\ clock_ok now | (Flush, _, _) => True end.
(** An event that a call made. *)
Definition made (e : ConversionEvent) : Prop := exists c now, call_text c = true /\ clock_ok now /\ e = completed (logged c) now.
Lemma made_text e : made e -> event_text e.
Proof. intros (c & now & Hc & Hk & ->). by apply call_event_text. Qed.

(** The file holds events that were made, and so does the buffer. *)
Definition log_inv (s : Logger * option (list string)) : Prop :=
  Forall made (lg_buffer s.1) /\ exists es, lines_of s.2 = encode zone <$> es /\ Forall made es.

Lemma flush_inv env l f : log_inv (l, f) -> log_inv (flush zone env l f).1.
Proof.
  intros (Hb & es & Hl & He). cbn [fst snd] in *. unfold flush. destruct (lg_buffer l) as [|e0 es0] eqn:Eb.
  { cbn [fst]. split; [cbn [fst]; by rewrite Eb|by exists es]. }
  destruct (fe_mkdir env); cbn [negb fst]; [|split; [cbn [fst]; by rewrite Eb|by exists es]].
  destruct (fe_open env); cbn [negb fst]; [|split; [cbn [fst]; by rewrite Eb|by exists es]].
  cbv zeta. set (evs := e0 :: es0) in *.
  assert (lines_of (Some (lines_of f ++ (encode zone <$> take (writes env (length evs)) evs))) = encode zone <$> es ++ take (writes env (length evs)) evs) as Hf
    by (cbn; by rewrite Hl, fmap_app).
  assert (Forall made (es ++ take (writes env (length evs)) evs)) as Ha by (apply Forall_app; split; [done|by apply Forall_take]).
  destruct (Nat.ltb _ _); cbn [fst]; (split; [cbn [fst lg_buffer]|exists (es ++ take (writes env (length evs)) evs); by split]); [by rewrite Eb|constructor].
Qed.

Lemma step_inv s x : op_ok x -> log_inv s -> log_inv (log_step zone s x).
Proof.
  destruct s as [l f], x as [[[c|] env] now]; cbn [op_ok log_step]; [|intros _; apply flush_inv].
  intros [Hc Hk] (Hb & Hes). cbn [fst snd] in *. unfold Log. cbv zeta. set (l' := {| lg_bufSize := _ |}).
  assert (log_inv (l', f)) as Hi.
  { split; [|exact Hes]. cbn [fst l' lg_buffer]. apply Forall_app. split; [done|]. constructor; [|constructor]. by exists c, now. }
  destruct (Nat.leb _ _); [by apply flush_inv|exact Hi].
Qed.

Lemma run_inv bufSize ops : Forall op_ok ops -> log_inv (log_run zone (NewLogger bufSize, None) ops).
Proof.
  unfold log_run. assert (log_inv (NewLogger bufSize, None)) as H0 by (split; [constructor|by exists []]).
  revert H0. generalize (NewLogger bufSize, None : option (list string)). induction ops as [|x ops IH]; intros s Hs Ho; [done|].
  apply Forall_cons in Ho as [Hx Ho]. cbn [foldl]. apply IH; [by apply step_inv|done].
Qed.

Lemma run_events bufSize ops : Forall op_ok ops ->
  Forall made (events_of (lines_of (log_run zone (NewLogger bufSize, None) ops).2)).
Proof.
  intros Ho. destruct (run_inv bufSize ops Ho) as (_ & es & -> & He). rewrite events_read; [done|].
  eapply Forall_impl; [exact He|exact made_text].
Qed.

(** ** A campaign *)

(** Only signups and redemptions name their campaign. *)
Lemma made_campaign e id : made e -> id <> ""%string -> property e PropCampaignID = id ->
  cv_Type e <> EventTrialActivation /\ cv_Type e <> EventTrialConversion.
Proof.
  intros (c & now & _ & _ & ->) Hid Hp. unfold property in Hp. destruct c; cbn [logged completed new_event cv_Properties cv_Type mbind option_bind] in *; try (by split).
  all: cbn [list_to_map foldr fst snd] in Hp; rewrite ?lookup_insert_ne, ?lookup_empty in Hp by done; by subst.
Qed.

Lemma campaign_fold es m : Forall made es -> cm_CampaignID m <> ""%string ->
  let m' := foldl campaign_step m es in
  cm_CampaignID m' = cm_CampaignID m /\ cm_Activations m' = cm_Activations m /\ cm_Conversions m' = cm_Conversions m
  /\ cm_PromosGenerated m' = cm_PromosGenerated m.
Proof.
  intros He. revert m. induction He as [|e es Hm _ IH]; intros m Hid; [done|]. cbn [foldl].
  assert (let m1 := campaign_step m e in cm_CampaignID m1 = cm_CampaignID m /\ cm_Activations m1 = cm_Activations m
    /\ cm_Conversions m1 = cm_Conversions m /\ cm_PromosGenerated m1 = cm_PromosGenerated m) as (E1 & E2 & E3 & E4).
  { unfold campaign_step. destruct (String.eqb_spec (property e PropCampaignID) (cm_CampaignID m)) as [Hp|]; [|done].
    destruct (made_campaign e _ Hm Hid Hp) as [Ha Hc]. cbn. rewrite (proj2 (String.eqb_neq _ _) Ha), (proj2 (String.eqb_neq _ _) Hc).
    split_and!; try done; apply Z.add_0_r. }
  destruct (IH (campaign_step m e)) as (F1 & F2 & F3 & F4); [by rewrite E1|]. cbv zeta. by rewrite F1, F2, F3, F4.
Qed.

(** A campaign never shows a conversion.  Whatever is logged through the
    five methods of the logger, with any flush failing in any way, the metrics of a
    campaign computed from the log have no activations and no conversions: those
    events are logged without the campaign they belong to. *)
Theorem campaign_never_converts bufSize ops id m :
  Forall op_ok ops -> id <> ""%string ->
  ComputeCampaignMetrics (Ok (log_run zone (NewLogger bufSize, None) ops).2) id = Ok m ->
  cm_CampaignID m = id /\ cm_Activations m = 0%Z /\ cm_Conversions m = 0%Z /\ cm_PromosGenerated m = 0%Z.
Proof.
  intros Ho Hid. pose proof (run_events bufSize ops Ho) as He. unfold ComputeCampaignMetrics.
  destruct (log_run _ _ _).2 as [ls|]; [|by intros [= <-]]. cbn [lines_of default] in He. unfold scan.
  destruct (forallb _ ls); [|done]. intros [= <-]. exact (campaign_fold _ (no_metrics id) He Hid).
Qed.

(** ** The funnel *)

Definition call_event (x : log_op * flush_env * Time) : option ConversionEvent :=
  match x with (Call c, _, now) => Some (completed (logged c) now) | (Flush, _, _) => None end.
(** Every system call of the flush succeeds. *)
Definition no_failure (x : log_op * flush_env * Time) : Prop :=
  fe_mkdir x.1.2 = true /\ fe_open x.1.2 = true /\ fe_fails x.1.2 = None.

Lemma flush_all env l f : fe_mkdir env = true -> fe_open env = true -> fe_fails env = None ->
  let s := (flush zone env l f).1 in
  lg_buffer s.1 = [] /\ lines_of s.2 = lines_of f ++ (encode zone <$> lg_buffer l).
Proof.
  intros Hm Ho Hf. unfold flush. destruct (lg_buffer l) as [|e es] eqn:Eb; [cbn; split; [done|by rewrite app_nil_r]|].
  rewrite Hm, Ho. cbn [negb]. unfold writes. rewrite Hf, Nat.ltb_irrefl, take_ge by done. by split.
Qed.

Lemma run_all ops s : Forall no_failure ops -> let s' := log_run zone s ops in
  lines_of s'.2 ++ (encode zone <$> lg_buffer s'.1)
  = lines_of s.2 ++ (encode zone <$> lg_buffer s.1 ++ omap call_event ops).
Proof.
  unfold log_run. revert s. induction ops as [|x ops IH]; intros s Ho; [cbn; by rewrite app_nil_r|].
  apply Forall_cons in Ho as [(Hm & Hop & Hf) Ho]. cbn [foldl]. cbv zeta in *. rewrite IH by done.
  assert (lines_of (log_step zone s x).2 ++ (encode zone <$> lg_buffer (log_step zone s x).1)
          = lines_of s.2 ++ (encode zone <$> lg_buffer s.1 ++ from_option (fun e => [e]) [] (call_event x))) as Hx.
  { destruct s as [l f], x as [[[c|] env] now]; cbn [log_step call_event from_option fst snd] in *.
    - unfold Log. cbv zeta. set (l' := {| lg_bufSize := _ |}). destruct (Nat.leb _ _); [|done].
      destruct (flush_all env l' f Hm Hop Hf) as [-> ->]. by rewrite app_nil_r.
    - destruct (flush_all env l f Hm Hop Hf) as [-> ->]. by rewrite !app_nil_r. }
  assert (omap call_event (x :: ops) = from_option (fun e => [e]) [] (call_event x) ++ omap call_event ops) as ->.
  { cbn [omap list_omap]. by destruct (call_event x). }
  rewrite !fmap_app in *. rewrite app_assoc, Hx. by rewrite <- !app_assoc.
Qed.

Definition calls_of (t : string) (es : list ConversionEvent) : Z :=
  Z.of_nat (length (List.filter (fun e => String.eqb (cv_Type e) t) es)).

Lemma funnel_fold es m : let m' := foldl funnel_step m es in
  fu_SignupCount m' = (fu_SignupCount m + calls_of EventTrialSignup es)%Z
  /\ fu_ActivationCount m' = (fu_ActivationCount m + calls_of EventTrialActivation es)%Z
  /\ fu_ConversionCount m' = (fu_ConversionCount m + calls_of EventTrialConversion es)%Z.
Proof.
  cbv zeta. revert m. induction es as [|e es IH]; intros m; [unfold calls_of; cbn; lia|]. cbn [foldl].
  destruct (IH (funnel_step m e)) as (-> & -> & ->). unfold calls_of. cbn [funnel_step fu_SignupCount fu_ActivationCount fu_ConversionCount List.filter].
  split_and!; destruct (String.eqb _ _); cbn [length]; lia.
Qed.

(** The log keeps everything: when no system call fails, the funnel computed
    after a final flush counts each signup, activation and conversion that was
    logged exactly once, whatever the size of the buffer. *)
Theorem funnel_counts_calls bufSize ops env at_ now :
  Forall op_ok ops -> Forall no_failure (ops ++ [(Flush, env, at_)]) ->
  let f := (log_run zone (NewLogger bufSize, None) (ops ++ [(Flush, env, at_)])).2 in
  Forall (fun s => String.length s <= MaxLine) (lines_of f) ->
  let calls := omap call_event ops in
  exists fu, ComputeFunnelMetrics (Ok f) now = Ok fu
  /\ fu_SignupCount fu = calls_of EventTrialSignup calls /\ fu_ActivationCount fu = calls_of EventTrialActivation calls
  /\ fu_ConversionCount fu = calls_of EventTrialConversion calls.
Proof.
  intros Ho Hn f Hlen calls. apply Forall_app in Hn as [Hn Hlast]. apply Forall_cons in Hlast as [(Hm & Hop & Hf) _].
  pose proof (run_all ops (NewLogger bufSize, None) Hn) as Hall. cbv zeta in Hall. cbn [snd fst lines_of default NewLogger lg_buffer app] in Hall.
  assert (lines_of f = encode zone <$> calls) as Hl.
  { unfold f, log_run. rewrite foldl_app. cbn [foldl log_step]. unfold log_run in Hall.
    destruct (foldl (log_step zone) _ ops) as [l f0]. cbv beta iota.
    pose proof (proj2 (flush_all env l f0 Hm Hop Hf)) as E. cbn [fst snd log_step] in *. rewrite E. exact Hall. }
  assert (Forall event_text calls) as Hc.
  { unfold calls. clear -Ho. induction Ho as [|x ops Hx _ IH]; [constructor|].
    destruct x as [[[c|] env] now]; cbn [omap list_omap call_event]; [|exact IH]. constructor; [|exact IH]. destruct Hx. by apply call_event_text. }
  destruct f as [ls|]; cbn [lines_of default] in *.
  - unfold ComputeFunnelMetrics, scan. assert (forallb (fun s => Nat.leb (String.length s) MaxLine) ls = true) as ->.
    { apply forallb_forall. intros s Hs%list_elem_of_In. rewrite Forall_forall in Hlen. by apply Nat.leb_le, Hlen. }
    assert (ls = encode zone <$> calls) as -> by exact Hl. rewrite events_read by done. eexists. split; [reflexivity|]. apply funnel_fold.
  - destruct calls as [|e es] eqn:Ec; [|done]. unfold ComputeFunnelMetrics. by eexists.
Qed.

(** A write that fails in the middle of a flush leaves the events before it in
    the file and in the buffer: the flush that succeeds writes them again. *)
Lemma flush_retry_duplicates l f k env env' : k < length (lg_buffer l) ->
  fe_mkdir env = true -> fe_open env = true -> fe_fails env = Some k ->
  fe_mkdir env' = true -> fe_open env' = true -> fe_fails env' = None ->
  exists f1 e, flush zone env l f = (l, f1, Err e)
  /\ lines_of (flush zone env' l f1).1.2
     = lines_of f ++ (encode zone <$> take k (lg_buffer l)) ++ (encode zone <$> lg_buffer l).
Proof.
  intros Hk Hm Ho Hf Hm' Ho' Hf'. unfold flush at 1. destruct (lg_buffer l) as [|e0 es0] eqn:Eb; [cbn in Hk; lia|].
  rewrite Hm, Ho. cbn [negb]. unfold writes. rewrite Hf, Nat.min_l by lia. rewrite (proj2 (Nat.ltb_lt _ _)) by lia.
  do 2 eexists. split; [reflexivity|]. destruct (flush_all env' l (Some (lines_of f ++ (encode zone <$> take k (e0 :: es0)))) Hm' Ho' Hf') as [_ ->].
  cbn [lines_of default]. by rewrite Eb, app_assoc.
Qed.
End props.

(** ** Trial events *)

(** The stages are those of the funnel, in a strict order. *)
Lemma stage_index_iff t : (0 <= GetStageIndex t)%Z <-> ValidateEventType t = true.
Proof.
  unfold GetStageIndex, ValidateEventType.
  assert (forall l i, (0 <= i)%Z -> ((0 <= stage_from i t l)%Z <-> existsb (String.eqb t) l = true)) as H; [|by apply H].
  induction l as [|s l IH]; intros i Hi; cbn [stage_from existsb]; [split; [lia|done]|].
  destruct (String.eqb_spec s t) as [->|Hne]; [rewrite String.eqb_refl; cbn; split; [done|lia]|].
  rewrite (proj2 (String.eqb_neq t s)) by congruence. cbn [orb]. apply IH. lia.
Qed.

Lemma stage_after_strict a b c :
  IsStageAfter a a = false /\ (IsStageAfter a b = true -> IsStageAfter b c = true -> IsStageAfter a c = true)
  /\ (ValidateEventType a = true -> ValidateEventType b = true -> a <> b -> IsStageAfter a b = true \/ IsStageAfter b a = true).
Proof.
  unfold IsStageAfter. split; [by rewrite Z.ltb_irrefl|]. split; [intros H1 H2; bool_steps; repeat (apply andb_true_intro; split); lia|].
  intros Ha Hb Hne. pose proof (proj2 (stage_index_iff a) Ha) as Ia. pose proof (proj2 (stage_index_iff b) Hb) as Ib.
  assert (GetStageIndex a <> GetStageIndex b) as Hi.
  { unfold ValidateEventType in *. apply existsb_exists in Ha as (x & Hx%list_elem_of_In & ->%String.eqb_eq).
    apply existsb_exists in Hb as (y & Hy%list_elem_of_In & ->%String.eqb_eq). unfold FunnelStageOrder in Hx, Hy.
    repeat (apply elem_of_cons in Hx as [->|Hx]); try (by apply not_elem_of_nil in Hx);
    repeat (apply elem_of_cons in Hy as [->|Hy]); try (by apply not_elem_of_nil in Hy); try done. }
  rewrite !(proj2 (Z.leb_le _ _)) by done. rewrite !andb_true_r, !Z.ltb_lt. lia.
Qed.

(** A trial event without an error gets one in the database: the missing value
    is stored as an empty object, which is read back as an error of zero values. *)
Lemma stored_event_gets_error e : ev_Metadata e = no_metadata -> ev_Error e = None ->
  event_of (row_of e)
  = Some {| ev_ID := ev_ID e; ev_Type := ev_Type e; ev_Timestamp := ev_Timestamp e; ev_SessionID := ev_SessionID e;
            ev_UserID := ev_UserID e; ev_Metadata := no_metadata; ev_Error := Some zero_error |}.
Proof.
  intros Hm He. unfold row_of, event_of. rewrite Hm, He, decide_True by done.
  cbn [rw_event_id rw_event_type rw_timestamp rw_session_id rw_user_id rw_metadata rw_error_data nullBytes fmap option_fmap option_map].
  replace (parse "{}" ≫= dec_metadata) with (Some no_metadata) by reflexivity.
  replace (parse "{}" ≫= dec_error) with (Some (Some zero_error)) by reflexivity.
  cbn [mbind option_bind]. f_equal. unfold nullString. destruct (String.eqb_spec (ev_UserID e) "") as [->|]; done.
Qed.

(** ** A customer of a campaign *)

Definition all_ok : flush_env := {| fe_mkdir := true; fe_open := true; fe_fails := None |}.
Definition utc (_ : Time) : Z := 0%Z.
Definition noon : Time := (1700000000 * second)%Z.
Definition customer : list (log_op * flush_env * Time) :=
  [(Call (LogTrialSignup "PROMO-1" "spring" "discord" "acct-1"), all_ok, noon); (Call (LogTrialActivation "acct-1"), all_ok, noon);
   (Call (LogTrialConversion "acct-1"), all_ok, noon)].

Lemma noon_ok : clock_ok utc noon.
Proof. by_compute. Qed.
Lemma customer_ok : Forall (op_ok utc) customer.
Proof. unfold customer. repeat (constructor; [exact (conj eq_refl noon_ok)|]). constructor. Qed.

(** The funnel sees a conversion, the campaign does not. *)
Lemma campaign_never_converts_witness :
  exists m, ComputeCampaignMetrics (Ok (log_run utc (NewLogger 1, None) customer).2) "spring" = Ok m
  /\ cm_Signups m = 1%Z /\ cm_Conversions m = 0%Z.
Proof.
  destruct (ComputeCampaignMetrics (Ok (log_run utc (NewLogger 1, None) customer).2) "spring") as [m|e] eqn:E.
  2: { exfalso. vm_compute in E. discriminate. }
  exists m. split; [reflexivity|].
  destruct (campaign_never_converts utc 1%Z customer "spring" m) as (_ & _ & Hc & _).
  - exact customer_ok.
  - discriminate.
  - exact E.
  - split; [|exact Hc]. assert ((cm_Signups <$> (match ComputeCampaignMetrics (Ok (log_run utc (NewLogger 1, None) customer).2) "spring" with
      Ok m => Some m | Err _ => None end)) = Some 1%Z) as H by (vm_compute; reflexivity). rewrite E in H. cbn in H. by injection H.
Defined.

Lemma funnel_counts_calls_witness :
  exists fu, ComputeFunnelMetrics (Ok (log_run utc (NewLogger 2, None) (customer ++ [(Flush, all_ok, noon)])).2) noon = Ok fu
  /\ fu_SignupCount fu = 1%Z /\ fu_ConversionCount fu = 1%Z.
Proof.
  destruct (funnel_counts_calls utc 2%Z customer all_ok noon noon) as (fu & E & Hs & _ & Hc).
  - exact customer_ok.
  - repeat (constructor; [repeat split|]). constructor.
  - by_compute.
  - exists fu. split; [exact E|]. split; [rewrite Hs; vm_compute; reflexivity|rewrite Hc; vm_compute; reflexivity].
Defined.
