(* ===== verification/AnalyticsDb.v ===== *)
(** * Trial events in the database (pkg/analytics/postgres.go), and their log (log.go)

    The table is a map from its primary key to rows; every statement of the source
    is a function on it, with the answer of the database as an argument.  A
    TIMESTAMPTZ column keeps microseconds, the class [PgTime]; JSONB gives back an
    equal value, which the reader does not tell from the text. *)

From S2P Require Import Prelude GoStrings GoTime GoFloat Analytics.
Local Open Scope wgmesh_scope.

(** What a timestamp column stores. *)
Class PgTime := {
  pg_time : Time -> Time;
  pg_time_near : forall t, (Z.abs (pg_time t - t) < 1000)%Z;
  pg_time_mono : forall t u, (t <= u)%Z -> (pg_time t <= pg_time u)%Z;
}.

#[export] Instance truncating_time : PgTime.
Proof.
  refine {| pg_time := fun t => (t / 1000 * 1000)%Z |}.
  - intros t. pose proof (Z.div_mod t 1000 ltac:(lia)). pose proof (Z.mod_pos_bound t 1000 ltac:(lia)). lia.
  - intros t u H. apply Z.mul_le_mono_nonneg_r; [lia|]. apply Z.div_le_mono; lia.
Defined.

Section database.
Context `{PgTime}.

(** trial_signup_events, by event_id. *)
Notation Table := (gmap string EventRow).

Definition stored_row (r : EventRow) : EventRow :=
  {| rw_event_id := rw_event_id r; rw_event_type := rw_event_type r; rw_timestamp := pg_time (rw_timestamp r);
     rw_session_id := rw_session_id r; rw_user_id := rw_user_id r; rw_metadata := rw_metadata r; rw_error_data := rw_error_data r |}.

(** The CHECK of the table. *)
Definition event_type_allowed (t : string) : bool := existsb (String.eqb t) FunnelStageOrder.

(** INSERT ... ON CONFLICT (event_id) DO NOTHING. *)
Definition insert_event (t : Table) (r : EventRow) : option Table :=
  if event_type_allowed (rw_event_type r) then
    Some match t !! rw_event_id r with Some _ => t | None => <[rw_event_id r := stored_row r]> t end
  else None.

(** [available]: the database executes the statement. *)
Definition postgres_Handle (available : bool) (t : Table) (e : Event) : Table * result unit :=
  match (if available then insert_event t (row_of e) else None) with
  | Some t' => (t', Ok tt)
  | None => (t, Err "failed to insert event")
  end.

(** CREATE TABLE IF NOT EXISTS. *)
Definition EnsureTable (available : bool) (t : option Table) : option Table * result unit :=
  if available then (Some (default ∅ t), Ok tt) else (t, Err "failed to create table").

Definition earlier (a b : EventRow) : Prop := (rw_timestamp a <= rw_timestamp b)%Z.
#[export] Instance earlier_dec : RelDecision earlier.
Proof. intros a b. unfold earlier. apply _. Defined.

Definition session_rows (t : Table) (sessionID : string) : list EventRow :=
  base.filter (fun r => rw_session_id r = sessionID) (map_to_list t).*2.

(** [visited]: the rows of the session in the order the table has them; equal
    timestamps stay in it. *)
Definition GetSession (available : bool) (visited : list EventRow) : result (list Event) :=
  if available then
    match mapM event_of (merge_sort earlier visited) with
    | Some es => Ok es
    | None => Err "failed to unmarshal"
    end
  else Err "failed to query events".

Record FunnelStageMetrics := { fs_EventType : string; fs_UniqueSessions : Z; fs_ConversionRate : float64 }.

(** COUNT(DISTINCT session_id) of a type in a period. *)
Definition unique_sessions (t : Table) (startDate endDate : Time) (type : string) : nat :=
  size (list_to_set (rw_session_id <$>
    base.filter (fun r => rw_event_type r = type /\ (startDate <= rw_timestamp r <= endDate)%Z) (map_to_list t).*2) : gset string).

(** The groups in the order of the stages. *)
Definition funnel_stages (t : Table) (startDate endDate : Time) : list (string * nat) :=
  omap (fun type => let n := unique_sessions t startDate endDate type in if Nat.eqb n 0 then None else Some (type, n)) FunnelStageOrder.

(** LAG(unique_sessions, 1, 0): the row before, or 0. *)
Fixpoint with_rates (previous : nat) (l : list (string * nat)) : list FunnelStageMetrics :=
  match l with
  | [] => []
  | (type, n) :: l' =>
      {| fs_EventType := type; fs_UniqueSessions := Z.of_nat n;
         fs_ConversionRate := if Nat.ltb 0 previous
                              then f_mul (f_div (f_of_Z (Z.of_nat n)) (f_of_Z (Z.of_nat previous))) (f_of_Z 100) else f_of_Z 0 |}
      :: with_rates n l'
  end.
Definition GetFunnelMetrics (available : bool) (t : Table) (startDate endDate : Time) : result (list FunnelStageMetrics) :=
  if available then Ok (with_rates 0 (funnel_stages t startDate endDate)) else Err "failed to query funnel metrics".

Definition day_interval : Duration := (24 * hour)%Z.
(** The rows left and the number of rows deleted. *)
Definition CleanupOldEvents (available : bool) (t : Table) (now : Time) (retentionDays : Z) : Table * result Z :=
  if available then
    let kept := base.filter (fun kr => (now - day_interval * retentionDays <= rw_timestamp kr.2)%Z) t in
    (kept, Ok (Z.of_nat (size t) - Z.of_nat (size kept))%Z)
  else (t, Err "failed to cleanup old events").

(** ** The line of the log handler *)

(** [Format("2006-01-02T15:04:05Z")]: the letter is text, not a zone. *)
Definition log_message (zone : Z) (prefix : string) (e : Event) : string :=
  "[" ^^ prefix ^^ "] Event: " ^^ ev_Type e ^^ " | Session: " ^^ ev_SessionID e ^^ " | User: " ^^ ev_UserID e ^^ " | Time: "
  ^^ format_datetime zone (ev_Timestamp e) "Z"
  ^^ match ev_Error e with
     | Some f => " | ERROR: type=" ^^ fe_ErrorType f ^^ " code=" ^^ fe_ErrorCode f ^^ " msg=" ^^ fe_UserMessage f
     | None => EmptyString
     end.

(** ** Storing *)

(** An event is stored once: handling it again, or another one with its identifier,
    changes nothing and is no error. *)
Theorem postgres_handle_once t e e' t1 r :
  postgres_Handle true t e = (t1, r) -> ev_ID e' = ev_ID e ->
  event_type_allowed (ev_Type e) = true -> event_type_allowed (ev_Type e') = true ->
  postgres_Handle true t1 e' = (t1, Ok tt) /\ is_Some (t1 !! ev_ID e) /\ forall k, k <> ev_ID e -> t1 !! k = t !! k.
Proof.
  unfold postgres_Handle, insert_event. cbn [row_of rw_event_type rw_event_id]. intros He Hid Ht Ht'. rewrite Ht in He.
  rewrite Ht', Hid. injection He as <- _. destruct (t !! ev_ID e) as [x|] eqn:E.
  - rewrite E. split_and!; [done|by eexists|done].
  - rewrite lookup_insert_eq. split_and!; [done|by eexists|]. intros k Hk. by apply lookup_insert_ne.
Qed.

(** An event of a type outside the funnel is refused, and nothing is stored. *)
Theorem postgres_refuses available t e :
  event_type_allowed (ev_Type e) = false -> postgres_Handle available t e = (t, Err "failed to insert event").
Proof. intros Ht. unfold postgres_Handle, insert_event. cbn [row_of rw_event_type]. rewrite Ht. by destruct available. Qed.

(** ** Reading a session *)

#[export] Instance earlier_trans : Transitive earlier.
Proof. intros a b c. unfold earlier. lia. Qed.
#[export] Instance earlier_total : Total earlier.
Proof. intros a b. unfold earlier. lia. Qed.

Lemma event_of_time r e : event_of r = Some e -> ev_Timestamp e = rw_timestamp r /\ ev_ID e = rw_event_id r.
Proof.
  unfold event_of. destruct (match rw_metadata r with None => _ | Some s => _ end) as [m|]; [|done].
  cbn [mbind option_bind]. destruct (match rw_error_data r with None => _ | Some s => _ end) as [f|]; [|done]. by intros [= <-].
Qed.

(** The events of a session come back in the order of their times, each once. *)
Theorem session_in_order t sessionID visited es :
  visited ≡ₚ session_rows t sessionID -> GetSession true visited = Ok es ->
  StronglySorted (fun a b => (ev_Timestamp a <= ev_Timestamp b)%Z) es /\
  ev_ID <$> es ≡ₚ rw_event_id <$> session_rows t sessionID.
Proof.
  intros Hp. unfold GetSession. destruct (mapM event_of _) as [es'|] eqn:E; [|done]. intros [= <-].
  apply mapM_Some in E. pose proof (StronglySorted_merge_sort earlier visited) as Hs.
  rewrite <- Hp, <- (merge_sort_Permutation earlier visited) at 1.
  revert Hs. generalize (merge_sort earlier visited) as rs, es', E. clear. intros rs es E Hs.
  induction E as [|r e rs es Hr E IH]; [split; [constructor|done]|].
  apply StronglySorted_inv in Hs as [Hs Hall]. destruct (IH Hs) as [H1 H2]. apply event_of_time in Hr as [Ht Hi]. split.
  - constructor; [exact H1|]. rewrite Ht. clear - E Hall. induction E as [|r' e' rs es Hr' E IH]; [constructor|].
    apply Forall_cons in Hall as [Hx Hall]. constructor; [|by apply IH].
    apply event_of_time in Hr' as [-> _]. exact Hx.
  - rewrite !fmap_cons, Hi. by constructor.
Qed.

(** ** The funnel *)

Lemma with_rates_types p l : fs_EventType <$> with_rates p l = l.*1.
Proof. revert p. induction l as [|[ty n] l IH]; intros p; [done|]. cbn [with_rates]. by rewrite fmap_cons, IH. Qed.

Lemma omap_sublist (f : string -> option (string * nat)) l :
  (forall x y, f x = Some y -> y.1 = x) -> (omap f l).*1 `sublist_of` l.
Proof.
  intros Hf. induction l as [|x l IH]; [constructor|]. cbn [omap list_omap]. destruct (f x) as [y|] eqn:E.
  - rewrite fmap_cons, (Hf x y E). by apply sublist_skip.
  - by apply sublist_cons.
Qed.

(** The rows are a part of the stages in their order, each with at least one
    session; the first has no rate. *)
Theorem funnel_in_order t startDate endDate l :
  GetFunnelMetrics true t startDate endDate = Ok l ->
  (fs_EventType <$> l) `sublist_of` FunnelStageOrder /\
  Forall (fun m => fs_UniqueSessions m = Z.of_nat (unique_sessions t startDate endDate (fs_EventType m)) /\ (0 < fs_UniqueSessions m)%Z) l /\
  (forall m rest, l = m :: rest -> fs_ConversionRate m = f_of_Z 0).
Proof.
  intros [= <-]. split; [|split].
  - rewrite with_rates_types. apply omap_sublist. intros x y. cbv zeta. destruct (Nat.eqb _ 0); [done|]. by intros [= <-].
  - assert (Forall (fun p => p.2 = unique_sessions t startDate endDate p.1 /\ 0 < p.2) (funnel_stages t startDate endDate)) as Hall.
    { apply Forall_forall. intros [ty n] Hin. apply list_elem_of_omap in Hin as (x & _ & Hx). cbv zeta in Hx.
      destruct (Nat.eqb_spec (unique_sessions t startDate endDate x) 0); [done|]. injection Hx as <- <-. cbn. lia. }
    revert Hall. generalize (funnel_stages t startDate endDate) as rows. generalize 0 at 2 as q.
    intros q rows Hall. revert q. induction Hall as [|[ty n] rows [Hn Hpos] _ IH]; intros q; [constructor|].
    cbn [with_rates]. constructor; [|apply IH]. cbn in *. lia.
  - intros m rest. destruct (funnel_stages t startDate endDate) as [|[ty n] rows]; [done|]. cbn [with_rates]. by intros [= <- _].
Qed.

(** ** Retention *)

(** The clean-up removes exactly the rows older than the period and says how many. *)
Theorem retention_exact t now days t' n :
  CleanupOldEvents true t now days = (t', Ok n) ->
  (forall k r, t' !! k = Some r <-> t !! k = Some r /\ (now - day_interval * days <= rw_timestamp r)%Z) /\
  n = (Z.of_nat (size t) - Z.of_nat (size t'))%Z /\ (0 <= n)%Z.
Proof.
  intros [= <- <-]. split; [|split].
  - intros k r. by rewrite map_lookup_filter_Some.
  - done.
  - assert (size (base.filter (fun kr : string * EventRow => (now - day_interval * days <= rw_timestamp kr.2)%Z) t) <= size t); [|lia].
    apply map_subseteq_size, map_filter_subseteq.
Qed.
End database.

(** A time in a zone east of Greenwich is printed with the letter that stands for
    UTC: the line of the log names an instant two hours later. *)
Theorem log_time_not_utc :
  let e := {| ev_ID := "1"; ev_Type := "trial_mesh_active"; ev_Timestamp := time_unix 0; ev_SessionID := "s"; ev_UserID := "u";
              ev_Metadata := no_metadata; ev_Error := None |} in
  log_message 7200 "trial" e = "[trial] Event: trial_mesh_active | Session: s | User: u | Time: 1970-01-01T02:00:00Z"%string.
Proof. vm_compute. reflexivity. Qed.
