(* ===== verification/Dashboard.v ===== *)
(** * The outreach dashboard (cmd/analytics-dashboard)

    The page composed of the promo store and the analytics log.  The writer of the
    tables passes a line on as soon as one without cells follows, which happens
    before every line printed directly: the printed order is the order of the
    code.  [visited] is the order in which Go visits the map of campaigns. *)

From Stdlib Require Import SpecFloat.
From S2P Require Import Prelude GoStrings GoText GoJson GoFloat GoFmt Promo PromoFile Analytics AnalyticsProps.
Local Open Scope wgmesh_scope.

Definition truncate (s : string) (maxLen : nat) : string :=
  if Nat.leb (String.length s) maxLen then s else str_take (maxLen - 3) s ^^ "...".
Definition row (cs : list string) : string := "  " ^^ join (String tab_char EmptyString) cs.

(** A campaign's line.  [log] is the file as this computation finds it; [None] is
    the panic on the metrics that a failed computation does not return. *)
Definition campaign_cells (s : Store) (log : result (option (list string))) (c : Campaign) : option (list string) :=
  let '(generated, redeemed) := GetCampaignStats s (cp_ID c) in
  match ComputeCampaignMetrics log (cp_ID c) with
  | Err _ => None
  | Ok metrics =>
      Some [truncate (cp_Name c) 20; truncate (cp_Source c) 10; itoa (Z.of_nat generated); itoa (Z.of_nat redeemed);
            itoa (cm_Signups metrics); itoa (cm_Conversions metrics); fmt_f 1 (cm_ConversionRate metrics) ^^ "%"]
  end.

(** Newest first. *)
Definition newer (a b : Campaign) : Prop := (cp_CreatedAt b <= cp_CreatedAt a)%Z.
#[export] Instance newer_dec : RelDecision newer.
Proof. intros a b. unfold newer. apply _. Defined.

Definition funnel_lines (f : ConversionFunnel) : list string :=
  ["Overall Conversion Funnel:"; row ["Signups"; "Activations"; "Conversions"];
   row [itoa (fu_SignupCount f); itoa (fu_ActivationCount f); itoa (fu_ConversionCount f)]; ""]%string.
Definition campaign_header : list (list string) :=
  [["Campaign"; "Source"; "Generated"; "Redeemed"; "Signups"; "Conversions"; "Rate"];
   ["-------"; "------"; "---------"; "--------"; "-------"; "-----------"; "----"]]%string.

(** [logs]: the log as the computation for a campaign finds it.  The result is
    [None] for a panic. *)
Definition displayDashboard (s : Store) (visited : list Campaign) (log : result (option (list string))) (logs : string -> result (option (list string))) (now : Time)
    : option (result (list string)) :=
  match ComputeFunnelMetrics log now with
  | Err e => Some (Err ("compute funnel metrics: " ^^ e))
  | Ok funnel =>
      let head := ["=== wgmesh Outreach Dashboard ==="; ""]%string ++ tab_lines (funnel_lines funnel) in
      match visited with
      | [] => Some (Ok (head ++ ["No campaigns found. Create campaigns with promo codes."%string]))
      | _ =>
          rows ← mapM (fun c => campaign_cells s (logs (cp_ID c)) c) (merge_sort newer visited);
          Some (Ok (head ++ ["Campaign Performance:"%string] ++ tab_lines (row <$> campaign_header ++ rows)
                    ++ [""; "Run 'wgmesh promo create' to generate codes for campaigns."]%string))
      end
  end.

(** [home]: the answer of [os.UserHomeDir]; [promos] and [log]: the contents of a
    path; the campaigns are visited in the order [visit] puts them. *)
Definition dashboard_run (home : result string) (promos : string -> result (option string)) (log : string -> result (option (list string)))
    (visit : list Campaign -> list Campaign) (now : Time) : option (result (list string)) :=
  match home with
  | Err e => Some (Err ("get home directory: " ^^ e))
  | Ok homeDir =>
      let wgmeshDir := filepath_join [homeDir; ".wgmesh"]%string in
      match promo_load (promos (filepath_join [wgmeshDir; "promos.json"]%string)) with
      | None => None
      | Some (Err e) => Some (Err ("load promo store: " ^^ e))
      | Some (Ok s) =>
          let f := log (filepath_join [wgmeshDir; "analytics.log"]%string) in
          displayDashboard s (visit (ListCampaigns s)) f (fun _ => f) now
      end
  end.

(** ** Order *)

#[export] Instance newer_trans : Transitive newer.
Proof. intros a b c. unfold newer. lia. Qed.
#[export] Instance newer_total : Total newer.
Proof. intros a b. unfold newer. lia. Qed.

Lemma newest_first_canonical l1 l2 : NoDup (cp_CreatedAt <$> l1) -> l1 ≡ₚ l2 -> merge_sort newer l1 = merge_sort newer l2.
Proof.
  intros Hnd Hp. apply (StronglySorted_unique_strong newer).
  - intros x1 x2 H1 H2 H12 H21. rewrite merge_sort_Permutation in H1. rewrite merge_sort_Permutation, <- Hp in H2.
    assert (cp_CreatedAt x1 = cp_CreatedAt x2) as E by (unfold newer in *; lia).
    apply list_elem_of_lookup in H1 as [i1 H1]. apply list_elem_of_lookup in H2 as [i2 H2].
    assert (i1 = i2) as ->; [|congruence]. eapply NoDup_lookup; [exact Hnd| |]; rewrite list_lookup_fmap.
    + by rewrite H1.
    + rewrite H2. cbn. by rewrite E.
  - apply StronglySorted_merge_sort; apply _.
  - apply StronglySorted_merge_sort; apply _.
  - by rewrite !merge_sort_Permutation.
Qed.

(** Campaigns made at different times are shown in one order, however the map is
    visited. *)
Theorem dashboard_order s v1 v2 log logs now :
  NoDup (cp_CreatedAt <$> v1) -> v1 ≡ₚ v2 -> displayDashboard s v1 log logs now = displayDashboard s v2 log logs now.
Proof.
  intros Hnd Hp. unfold displayDashboard. destruct (ComputeFunnelMetrics log now); [|done].
  destruct v1 as [|x v1], v2 as [|y v2]; [done|by apply Permutation_nil_l in Hp|by apply Permutation_nil_r in Hp|].
  by rewrite (newest_first_canonical _ _ Hnd Hp).
Qed.

(** ** What it shows of a campaign *)

Lemma truncate_length s n : 3 <= n -> String.length (truncate s n) <= n.
Proof.
  intros Hn. unfold truncate. destruct (Nat.leb_spec (String.length s) n); [done|].
  rewrite length_app_str, length_str_take. cbn. lia.
Qed.

Lemma signups_bound es m :
  (0 <= cm_Signups m)%Z -> (0 <= cm_Signups (foldl campaign_step m es) <= cm_Signups m + Z.of_nat (length es))%Z.
Proof.
  revert m. induction es as [|e es IH]; intros m Hm; cbn [foldl length]; [lia|].
  assert (0 <= cm_Signups (campaign_step m e) <= cm_Signups m + 1)%Z as H1.
  { unfold campaign_step. destruct (negb _); [lia|]. cbn. destruct (String.eqb _ _); lia. }
  specialize (IH (campaign_step m e) ltac:(lia)). lia.
Qed.

Lemma events_length ls : length (events_of ls) <= length ls.
Proof.
  unfold events_of. induction ls as [|l ls IH]; [done|]. cbn [omap list_omap]. case_match; cbn [length]; lia.
Qed.

(** No conversions out of any number of signups are a rate of zero. *)
Lemma zero_rate n : (0 < n < 2 ^ 53)%Z -> f_mul (f_div (f_of_Z 0) (f_of_Z n)) (f_of_Z 100) = S754_zero false.
Proof.
  intros Hn. destruct n as [|p|p]; [lia| |lia]. unfold f_of_Z at 2, binary_normalize.
  destruct (binary_round_exact false p ltac:(lia)) as (m & k & -> & _). done.
Qed.

(** The dashboard never shows a conversion of a campaign: with the log of any run
    of the logger, every campaign has 0 conversions and a rate of 0.0%. *)
Theorem dashboard_never_converts zone bufSize ops s c cs f :
  Forall (op_ok zone) ops -> cp_ID c <> ""%string -> f = (log_run zone (NewLogger bufSize, None) ops).2 ->
  (Z.of_nat (length (default [] f)) < 2 ^ 53)%Z ->
  campaign_cells s (Ok f) c = Some cs -> cs !! 5 = Some "0"%string /\ cs !! 6 = Some "0.0%"%string.
Proof.
  intros Ho Hid -> Hlen. unfold campaign_cells. destruct (GetCampaignStats s (cp_ID c)) as [g r].
  destruct (ComputeCampaignMetrics _ _) as [m|] eqn:E; [|done].
  destruct (campaign_never_converts zone bufSize ops (cp_ID c) m Ho Hid E) as (_ & _ & Hc & _).
  intros [= <-]. cbn. rewrite Hc. split; [done|]. f_equal.
  assert (cm_ConversionRate m = S754_zero false) as ->; [|done].
  revert E Hc Hlen. unfold ComputeCampaignMetrics. destruct (log_run _ _ _).2 as [ls|]; [|by intros [= <-]].
  unfold scan. destruct (forallb _ ls); [|done]. intros [= <-]. change (default [] (Some ls)) with ls.
  set (m0 := foldl campaign_step (no_metrics (cp_ID c)) (events_of ls)). intros Hc Hlen.
  assert (0 <= cm_Signups m0 <= Z.of_nat (length (events_of ls)))%Z as Hb by (apply (signups_bound _ (no_metrics _)); cbn; lia).
  pose proof (events_length ls) as Hle.
  assert (cm_ConversionRate m0 = S754_zero false) as H0.
  { unfold m0. generalize (events_of ls) as es. assert (cm_ConversionRate (no_metrics (cp_ID c)) = S754_zero false) as H by done. revert H.
    generalize (no_metrics (cp_ID c)) as m. clear. intros m H es. revert m H. induction es as [|e es IH]; intros m H; [done|]. apply IH.
    unfold campaign_step. by destruct (negb _). }
  cbn [with_rate cm_ConversionRate cm_Conversions] in *. rewrite Hc. destruct (Z.ltb_spec 0 (cm_Signups m0)); [|done]. apply zero_rate. lia.
Qed.

(** The metrics of a failed computation are used all the same: a log that can be
    read for the funnel and not for a campaign ends the program with a panic. *)
Theorem dashboard_panics s visited log logs now funnel c :
  ComputeFunnelMetrics log now = Ok funnel -> c ∈ visited -> (exists e, logs (cp_ID c) = Err e) ->
  displayDashboard s visited log logs now = None.
Proof.
  intros Hf Hc [e He]. unfold displayDashboard. rewrite Hf. destruct visited as [|v vs] eqn:Ev; [by apply not_elem_of_nil in Hc|].
  rewrite <- Ev in *. assert (c ∈ merge_sort newer visited) as Hin by by rewrite merge_sort_Permutation.
  assert (mapM (fun c => campaign_cells s (logs (cp_ID c)) c) (merge_sort newer visited) = None) as ->; [|done].
  revert Hin. induction (merge_sort newer visited) as [|x l IH]; [by intros ?%not_elem_of_nil|]. cbn [mapM].
  intros [<-|Hin]%elem_of_cons.
  - unfold campaign_cells at 1. rewrite He. by destruct (GetCampaignStats s (cp_ID c)).
  - destruct (campaign_cells s (logs (cp_ID x)) x); [|done]. cbn [mbind option_bind]. by rewrite IH.
Qed.

(** Otherwise a page is printed. *)
Theorem dashboard_prints s visited log now funnel :
  ComputeFunnelMetrics log now = Ok funnel -> exists page, displayDashboard s visited log (fun _ => log) now = Some (Ok page).
Proof.
  intros Hf. unfold displayDashboard. rewrite Hf. destruct visited as [|v vs]; [by eexists|].
  assert (forall c, exists cs, campaign_cells s log c = Some cs) as Hall.
  { intros c. unfold campaign_cells. destruct (GetCampaignStats s (cp_ID c)).
    assert (exists m, ComputeCampaignMetrics log (cp_ID c) = Ok m) as [m ->]; [|by eexists].
    unfold ComputeFunnelMetrics, ComputeCampaignMetrics in *. destruct log as [[ls|]|]; [|by eexists|done].
    destruct (scan ls); [by eexists|done]. }
  assert (exists rows, mapM (fun c => campaign_cells s log c) (merge_sort newer (v :: vs)) = Some rows) as [rows ->]; [|by eexists].
  induction (merge_sort newer (v :: vs)) as [|c l [rows IH]]; [by eexists|]. cbn [mapM]. destruct (Hall c) as [cs ->].
  cbn [mbind option_bind]. rewrite IH. by eexists.
Qed.
