(* ===== verification/Nurture.v ===== *)
(** * The e-mail sequence of a trial (pkg/nurture)

    Which e-mails are due (sequence.go), and how one is rendered and sent
    (sender.go).  The environment, the SMTP server's answer and the text of a time
    in its location are arguments. *)

From S2P Require Import Prelude GoStrings GoNet GoTime.
Local Open Scope wgmesh_scope.

Record EmailTemplate := { et_Delay : Duration; et_Subject : string; et_TemplateID : string; et_TrackingID : string }.
Definition email_day (n : Z) : Duration := (n * 24 * hour)%Z.

Definition NurtureSequence : list EmailTemplate :=
  [{| et_Delay := 0%Z; et_Subject := "Welcome to Cloudroof - Let's get your mesh running";
      et_TemplateID := "email-01-welcome"; et_TrackingID := "trial_welcome" |};
   {| et_Delay := email_day 2; et_Subject := "How's your mesh coming along?";
      et_TemplateID := "email-02-usecases"; et_TrackingID := "trial_usecases" |};
   {| et_Delay := email_day 5; et_Subject := "Beyond basic meshing: Advanced Cloudroof features";
      et_TemplateID := "email-03-features"; et_TrackingID := "trial_features" |};
   {| et_Delay := email_day 12; et_Subject := "Your trial is halfway done - Here's what you're missing";
      et_TemplateID := "email-04-comparison"; et_TrackingID := "trial_comparison" |};
   {| et_Delay := email_day 18; et_Subject := "Last chance to upgrade your Cloudroof trial";
      et_TemplateID := "email-05-final"; et_TrackingID := "trial_final" |}].

(** [alreadySent]: the tracking identifiers that map to true. *)
Definition GetPendingEmails (createdAt now : Time) (alreadySent : gset string) : list EmailTemplate :=
  let elapsed := time_sub now createdAt in
  List.filter (fun e => negb (bool_decide (et_TrackingID e ∈ alreadySent)) && (et_Delay e <=? elapsed)%Z) NurtureSequence.

(** ** Templates *)

Record TemplateData := {
  td_TrialID : string; td_Email : string; td_ReplyTo : string; td_StartDate : Time; td_ExpiryDate : Time; td_DaysRemaining : Z;
  td_UpgradeLink : string; td_UnsubscribeLink : string; td_QuickstartLink : string; td_UseCasesLink : string;
  td_FeaturesLink : string; td_FAQLink : string; td_TroubleshootingLink : string;
}.

Definition email_nl : string := String (ascii_of_byte 10) "".
(** Lines, each ended. *)
Definition email_text (ls : list string) : string := foldr (fun l s => l ^^ email_nl ^^ s) "" ls.

Definition welcomeTemplate : string := email_text
  ["Welcome to Cloudroof - Let's get your mesh running";
   "";
   "Hi {{.Email}},";
   "";
   "Your trial is now active! Here's everything you need to get started.";
   "";
   "QUICK START";
   "==========";
   "Get 3 nodes connected in under 15 minutes:";
   "{{.QuickstartLink}}";
   "";
   "First milestone: Get your first mesh running with 3 connected nodes.";
   "Expected time: 15 minutes";
   "";
   "YOUR TRIAL DETAILS";
   "================";
   "Trial ID: {{.TrialID}}";
   "Started: {{.StartDate}}";
   "Expires: {{.ExpiryDate}}";
   "Days remaining: {{.DaysRemaining}}";
   "";
   "NEED HELP?";
   "=========";
   "Quickstart Guide: {{.QuickstartLink}}";
   "Documentation: docs.cloudroof.eu";
   "Email Support: {{.ReplyTo}}";
   "";
   "Let's get your mesh running!";
   "";
   "---";
   "To stop receiving these emails, unsubscribe: {{.UnsubscribeLink}}"]%string.

Definition usecasesTemplate : string := email_text
  ["How's your mesh coming along?";
   "";
   "Hi {{.Email}},";
   "";
   "By now you should have your first mesh running. Here are 3 powerful ways to use Cloudroof:";
   "";
   "1. SITE-TO-SITE VPN";
   "Connect your office network to cloud resources securely.";
   "Full guide: {{.UseCasesLink}}/hybrid-site-to-site";
   "";
   "2. MULTI-CLOUD CONNECTIVITY";
   "Link AWS, GCP, and Azure VPCs without public IPs.";
   "Full guide: {{.UseCasesLink}}/multi-cloud";
   "";
   "3. REMOTE TEAM ACCESS";
   "Give developers secure access to internal services.";
   "Full guide: {{.UseCasesLink}}/remote-dev-team";
   "";
   "SUCCESS METRIC";
   "============";
   "Teams with 5+ connected nodes see 90% fewer connectivity issues.";
   "";
   "Your trial: {{.DaysRemaining}} days remaining";
   "Explore all use cases: {{.UseCasesLink}}";
   "";
   "---";
   "To stop receiving these emails, unsubscribe: {{.UnsubscribeLink}}"]%string.

Definition featuresTemplate : string := email_text
  ["Beyond basic meshing: Advanced Cloudroof features";
   "";
   "Hi {{.Email}},";
   "";
   "You've got the basics working. Here's what makes Cloudroof powerful:";
   "";
   "ADVANCED FEATURES";
   "================";
   "• NAT Traversal: Automatic UDP hole-punching";
   "• Relay Fallback: Peers connect even behind symmetric NAT";
   "• DHT Discovery: Serverless peer finding";
   "• Gossip Protocol: In-mesh peer broadcast";
   "";
   "MANAGED INGRESS (Paid Tier)";
   "==========================";
   "Upgrade for:";
   "• CDN-backed ingress with global edge deployment";
   "• Automated xDS sync for Envoy integration";
   "• Priority support and SLA guarantees";
   "";
   "Try managed ingress: {{.FeaturesLink}}";
   "";
   "Your trial: {{.DaysRemaining}} days remaining";
   "Upgrade now: {{.UpgradeLink}}";
   "";
   "---";
   "To stop receiving these emails, unsubscribe: {{.UnsubscribeLink}}"]%string.

Definition comparisonTemplate : string := email_text
  ["Your trial is halfway done - Here's what you're missing";
   "";
   "Hi {{.Email}},";
   "";
   "Your trial expires in {{.DaysRemaining}} days. Here's what you get when you upgrade:";
   "";
   "FREE TIER";
   "========";
   "• Self-managed mesh networking";
   "• Community support";
   "• Basic DHT discovery";
   "• Up to 10 nodes";
   "";
   "PAID TIER";
   "=========";
   "• Everything in Free, plus:";
   "• Managed ingress (CDN-backed)";
   "• Priority email support";
   "• 99.9% SLA guarantee";
   "• Unlimited nodes";
   "• Advanced analytics and monitoring";
   "• xDS/Envoy integration";
   "";
   "UPGRADE BONUS";
   "============";
   "Upgrade this week and get 20% off your first month.";
   "Use code: TRIALUPGRADE";
   "";
   "Upgrade now: {{.UpgradeLink}}";
   "";
   "Your trial expires: {{.ExpiryDate}}";
   "Don't lose your mesh continuity!";
   "";
   "---";
   "To stop receiving these emails, unsubscribe: {{.UnsubscribeLink}}"]%string.

Definition finalTemplate : string := email_text
  ["Last chance to upgrade your Cloudroof trial";
   "";
   "Hi {{.Email}},";
   "";
   "Your trial expires in {{.DaysRemaining}} days.";
   "";
   "KEEP YOUR MESH RUNNING";
   "=====================";
   "Upgrade now to ensure uninterrupted service:";
   "{{.UpgradeLink}}";
   "";
   "STAY ON FREE TIER";
   "================";
   "If you prefer the free tier, here are resources for success:";
   "";
   "• Evaluation Checklist: docs.cloudroof.eu/evaluation-checklist.md";
   "• FAQ: {{.FAQLink}}";
   "• Troubleshooting Guide: {{.TroubleshootingLink}}";
   "";
   "EXTEND YOUR TRIAL";
   "=================";
   "Need more time? Contact us to request a trial extension:";
   "{{.ReplyTo}}";
   "";
   "Trial ID: {{.TrialID}}";
   "Expires: {{.ExpiryDate}}";
   "";
   "Upgrade now: {{.UpgradeLink}}";
   "";
   "---";
   "To stop receiving these emails, unsubscribe: {{.UnsubscribeLink}}"]%string.

Section sender.
(** [time.Time.String] of a value of the data. *)
Context (time_string : Time -> string).

Definition data_field (d : TemplateData) (name : string) : option string :=
  snd <$> List.find (fun kv => String.eqb (fst kv) name)
    [("TrialID", td_TrialID d); ("Email", td_Email d); ("ReplyTo", td_ReplyTo d); ("StartDate", time_string (td_StartDate d));
     ("ExpiryDate", time_string (td_ExpiryDate d)); ("DaysRemaining", itoa (td_DaysRemaining d));
     ("UpgradeLink", td_UpgradeLink d); ("UnsubscribeLink", td_UnsubscribeLink d); ("QuickstartLink", td_QuickstartLink d);
     ("UseCasesLink", td_UseCasesLink d); ("FeaturesLink", td_FeaturesLink d); ("FAQLink", td_FAQLink d);
     ("TroubleshootingLink", td_TroubleshootingLink d)]%string.

(** The text up to the closing braces, and what follows them. *)
Fixpoint until_close (s : string) : option (string * string) :=
  match s with
  | EmptyString => None
  | String c r =>
      if has_prefix s "}}" then Some (EmptyString, str_drop 2 s)
      else match until_close r with Some (name, rest) => Some (String c name, rest) | None => None end
  end.

(** A template of text and field references; [None]: it cannot be rendered. *)
Fixpoint render_go (fuel : nat) (d : TemplateData) (s : string) : option string :=
  match fuel, s with
  | O, _ | _, EmptyString => Some EmptyString
  | S fuel, String c r =>
      if has_prefix s "{{." then
        match until_close (str_drop 3 s) with
        | Some (name, rest) => v ← data_field d name; t ← render_go fuel d rest; Some (v ^^ t)
        | None => None
        end
      else t ← render_go fuel d r; Some (String c t)
  end.
Definition render (d : TemplateData) (s : string) : option string := render_go (String.length s) d s.

(** ** The sender *)

Record Sender := { sn_from : string; sn_replyTo : string; sn_provider : string; sn_smtpHost : string; sn_smtpPort : string }.
Definition getEnv (env : string -> string) (key defaultVal : string) : string :=
  if String.eqb (env key) "" then defaultVal else env key.
Definition NewSender (env : string -> string) : Sender :=
  {| sn_from := getEnv env "NURTURE_FROM" "noreply@cloudroof.eu"; sn_replyTo := getEnv env "NURTURE_REPLY_TO" "support@cloudroof.eu";
     sn_provider := getEnv env "NURTURE_EMAIL_PROVIDER" "log"; sn_smtpHost := getEnv env "SMTP_HOST" "";
     sn_smtpPort := getEnv env "SMTP_PORT" "587" |}.

Definition email_templates : list (string * string) :=
  [("email-01-welcome", welcomeTemplate); ("email-02-usecases", usecasesTemplate); ("email-03-features", featuresTemplate);
   ("email-04-comparison", comparisonTemplate); ("email-05-final", finalTemplate)]%string.

Definition crlf : string := String (ascii_of_byte 13) (String (ascii_of_byte 10) "").
Definition smtp_message (s : Sender) (subject to body : string) : string :=
  "From: " ^^ sn_from s ^^ crlf ^^ "To: " ^^ to ^^ crlf ^^ "Subject: " ^^ subject ^^ crlf ^^ "MIME-Version: 1.0" ^^ crlf
  ^^ "Content-Type: text/plain; charset=UTF-8" ^^ crlf ^^ crlf ^^ body.

(** What goes out. *)
Inductive mail := Mailed (server from to message : string) | Logged (to subject body : string).

(** [smtp]: the server's answer. *)
Definition SendEmail (s : Sender) (smtp : result unit) (templateID subject : string) (d : TemplateData) : list mail * result unit :=
  match snd <$> List.find (fun t => String.eqb (fst t) templateID) email_templates with
  | None => ([], Err "template not found")
  | Some tmpl =>
      match render d tmpl with
      | None => ([], Err "rendering template")
      | Some body =>
          if String.eqb (sn_provider s) "smtp" then
            if String.eqb (sn_smtpHost s) "" then ([], Err "SMTP host not configured")
            else ([Mailed (sn_smtpHost s ^^ ":" ^^ sn_smtpPort s) (sn_from s) (td_Email d) (smtp_message s subject (td_Email d) body)], smtp)
          else if String.eqb (sn_provider s) "log" then ([Logged (td_Email d) subject body], Ok tt)
          else ([], Err "unknown email provider")
      end
  end.
End sender.

(** ** What is sent when *)

(** A job that runs at the times [ts] and marks what it sends. *)
Fixpoint nurture_job (createdAt : Time) (sent : gset string) (ts : list Time) : list EmailTemplate :=
  match ts with
  | [] => []
  | t :: ts =>
      let due := GetPendingEmails createdAt t sent in
      due ++ nurture_job createdAt (list_to_set (et_TrackingID <$> due) ∪ sent) ts
  end.

Definition due_by (elapsed : Duration) : list EmailTemplate := List.filter (fun e => (et_Delay e <=? elapsed)%Z) NurtureSequence.
Definition sent_by (elapsed : Duration) : gset string := list_to_set (et_TrackingID <$> due_by elapsed).

Definition by_delay (a b : EmailTemplate) : Prop := (et_Delay a <= et_Delay b)%Z.

Lemma filter_split l e0 e1 : Sorted.StronglySorted by_delay l -> (e0 <= e1)%Z ->
  List.filter (fun e => (et_Delay e <=? e0)%Z) l
  ++ List.filter (fun e => negb (et_Delay e <=? e0)%Z && (et_Delay e <=? e1)%Z) l
  = List.filter (fun e => (et_Delay e <=? e1)%Z) l.
Proof.
  intros Hs He. induction Hs as [|a l _ IH Ha]; [done|]. cbn [List.filter].
  destruct (Z.leb_spec (et_Delay a) e0) as [H0|H0].
  - rewrite (proj2 (Z.leb_le _ _)) by lia. cbn [app negb andb]. by rewrite IH.
  - assert (forall l, Forall (by_delay a) l -> List.filter (fun e => (et_Delay e <=? e0)%Z) l = []) as Hnil.
    { clear -H0. induction 1 as [|b l Hb _ IH]; [done|]. cbn [List.filter]. unfold by_delay in Hb.
      rewrite (proj2 (Z.leb_gt _ _)) by lia. exact IH. }
    rewrite Hnil in * by done. cbn [app negb andb] in *. rewrite <- IH. by destruct (et_Delay a <=? e1)%Z.
Qed.

Lemma sequence_sorted : Sorted.StronglySorted by_delay NurtureSequence.
Proof. unfold NurtureSequence. repeat constructor; unfold by_delay; cbn [et_Delay]; unfold email_day, hour, minute, second; lia. Qed.

(** What was sent by [e0] is what was due by then. *)
Lemma sent_iff e e0 : e ∈ NurtureSequence -> bool_decide (et_TrackingID e ∈ sent_by e0) = (et_Delay e <=? e0)%Z.
Proof.
  intros He. unfold sent_by, due_by.
  assert (forall f, f ∈ NurtureSequence -> et_TrackingID f = et_TrackingID e -> f = e) as Hinj.
  { intros f Hf. unfold NurtureSequence in He, Hf.
    repeat (apply elem_of_cons in He as [->|He]); try (by apply not_elem_of_nil in He);
    repeat (apply elem_of_cons in Hf as [->|Hf]); try (by apply not_elem_of_nil in Hf); cbn [et_TrackingID]; intros H; done. }
  destruct (Z.leb_spec (et_Delay e) e0) as [Hd|Hd].
  - apply bool_decide_eq_true_2. apply elem_of_list_to_set, list_elem_of_fmap. exists e. split; [done|].
    apply list_elem_of_In, filter_In. split; [by apply list_elem_of_In|]. by apply Z.leb_le.
  - apply bool_decide_eq_false_2. intros Hin. apply elem_of_list_to_set, list_elem_of_fmap in Hin as (f & Ef & Hf).
    apply list_elem_of_In, filter_In in Hf as [Hf%list_elem_of_In Hle%Z.leb_le]. rewrite (Hinj f Hf ltac:(congruence)) in Hle. lia.
Qed.

Lemma pending_after createdAt now e0 : (e0 <= time_sub now createdAt)%Z ->
  due_by e0 ++ GetPendingEmails createdAt now (sent_by e0) = due_by (time_sub now createdAt).
Proof.
  intros He. unfold due_by, GetPendingEmails. cbv zeta. rewrite <- (filter_split NurtureSequence e0 _ sequence_sorted He). f_equal.
  apply filter_ext_in. intros e Hin%list_elem_of_In. by rewrite sent_iff.
Qed.

Lemma job_from createdAt ts : forall e0, Sorted.StronglySorted Z.le ts ->
  Forall (fun t => (e0 <= time_sub t createdAt)%Z) ts ->
  due_by e0 ++ nurture_job createdAt (sent_by e0) ts
  = due_by (match last ts with Some t => time_sub t createdAt | None => e0 end).
Proof.
  induction ts as [|t ts IH]; intros e0 Hs Hf; [by rewrite app_nil_r|]. apply Forall_cons in Hf as [Ht Hf].
  apply Sorted.StronglySorted_inv in Hs as [Hs Hge]. cbn [nurture_job]. cbv zeta.
  pose proof (pending_after createdAt t e0 Ht) as Hp.
  assert (list_to_set (et_TrackingID <$> GetPendingEmails createdAt t (sent_by e0)) ∪ sent_by e0 = sent_by (time_sub t createdAt)) as ->.
  { unfold sent_by. rewrite <- Hp, fmap_app, list_to_set_app_L. set_solver. }
  rewrite app_assoc, Hp, IH; [|done|].
  - rewrite last_cons. by destruct (last ts).
  - eapply Forall_impl; [exact Hge|]. intros u Hu. unfold time_sub. cbn beta in Hu. lia.
Qed.

(** A job that runs at any times after the trial began sends each e-mail once,
    in the order of the sequence, as soon as it runs after the e-mail's delay. *)
Theorem nurture_once_in_order createdAt ts t : Sorted.StronglySorted Z.le ts -> Forall (fun u => (createdAt <= u)%Z) ts ->
  last ts = Some t -> nurture_job createdAt ∅ ts = due_by (time_sub t createdAt).
Proof.
  intros Hs Hf Hl. pose proof (job_from createdAt ts (-1) Hs) as H. rewrite Hl in H. rewrite <- H; [reflexivity|].
  eapply Forall_impl; [exact Hf|]. intros u Hu. unfold time_sub, int64_min, int64_max. cbn beta in Hu. lia.
Qed.

Lemma nurture_once_in_order_witness :
  et_TrackingID <$> nurture_job 0%Z ∅ [email_day 1; email_day 6] = ["trial_welcome"; "trial_usecases"; "trial_features"]%string.
Proof.
  rewrite (nurture_once_in_order 0%Z [email_day 1; email_day 6] (email_day 6)).
  - vm_compute. reflexivity.
  - repeat constructor. unfold email_day, hour, minute, second. lia.
  - repeat constructor; unfold email_day, hour, minute, second; lia.
  - reflexivity.
Defined.

(** Every e-mail of the sequence can be sent in the mode without a server. *)
Lemma sequence_sendable time_string env d e : e ∈ NurtureSequence -> env "NURTURE_EMAIL_PROVIDER"%string = ""%string ->
  exists body, SendEmail time_string (NewSender env) (Ok tt) (et_TemplateID e) (et_Subject e) d
    = ([Logged (td_Email d) (et_Subject e) body], Ok tt).
Proof.
  intros He Henv. unfold SendEmail, NewSender, getEnv. cbn [sn_provider]. rewrite Henv. unfold NurtureSequence in He.
  repeat (apply elem_of_cons in He as [->|He]); try (by apply not_elem_of_nil in He).
  all: cbn -[render]; match goal with |- context [render ?a ?b ?c] => destruct (render a b c) eqn:E end;
    vm_compute in E; first [discriminate E|by eexists].
Qed.
