(* ===== verification/Eidos.v ===== *)
(** * Metadata of the feature documents (eidos/eidosmeta, cmd/eidos-lint)

    Every document under eidos/ opens with a frontmatter in a small subset of
    YAML.  meta.go reads it line by line and reports what it does not accept;
    cmd/eidos-lint prints the reports for all documents.  The file system is an
    argument: what [os.ReadFile] answers for a path. *)

From S2P Require Import Prelude GoStrings GoText.
Local Open Scope wgmesh_scope.

(** ** Package bufio *)

(** [bufio.ScanLines] drops the carriage return before the end of a line. *)
Definition drop_cr (s : string) : string :=
  match last_char s with
  | Some c => if Ascii.eqb c return_char then str_take (String.length s - 1) s else s
  | None => s
  end.

(** The lines a [bufio.Scanner] delivers, and the error it stops with: a line
    that does not fit into its buffer of 65536 bytes. *)
Fixpoint deliver (ls : list string) : list string * option string :=
  match ls with
  | [] => ([], None)
  | [l] => if String.eqb l EmptyString then ([], None)
           else if (65536 <=? Z.of_nat (String.length l))%Z then ([], Some "bufio.Scanner: token too long"%string)
           else ([drop_cr l], None)
  | l :: ls' => if (65536 <=? Z.of_nat (String.length l))%Z then ([], Some "bufio.Scanner: token too long"%string)
                else let '(r, e) := deliver ls' in (drop_cr l :: r, e)
  end.
Definition scan_lines (s : string) : list string * option string := deliver (split_char newline_char s).

(** ** Metadata and diagnostics *)

Definition StatusImplemented : string := "implemented".
Definition StatusImplementable : string := "implementable".
Definition StatusProvisional : string := "provisional".

Record Meta := {
  m_Status : string;
  m_CompatDimensions : list string;
  m_TrackingIssue : string;
  m_Since : string;
  m_CompatDimensionsSet : bool;
  m_TrackingIssueSet : bool;
  m_SinceSet : bool;
}.
Definition no_meta : Meta :=
  {| m_Status := ""; m_CompatDimensions := []; m_TrackingIssue := ""; m_Since := "";
     m_CompatDimensionsSet := false; m_TrackingIssueSet := false; m_SinceSet := false |}.

Record Diag := { dg_Severity : string; dg_File : string; dg_Line : Z; dg_Message : string }.
Definition error_at (line : Z) (msg : string) : Diag :=
  {| dg_Severity := "error"; dg_File := ""; dg_Line := line; dg_Message := msg |}.
Definition in_file (path : string) (d : Diag) : Diag :=
  {| dg_Severity := dg_Severity d; dg_File := path; dg_Line := dg_Line d; dg_Message := dg_Message d |}.
Definition withFile (path : string) (ds : list Diag) : list Diag := in_file path <$> ds.

(** The keys of the map, in the order [sort.Strings] puts them. *)
Definition validCompatDimensions : list string := ["api"; "behavior"; "cli"; "wire"]%string.
Definition ValidCompatDimensions (visited : list string) : list string := sort_strings visited.

Definition valid_dimension (d : string) : bool := existsb (String.eqb d) validCompatDimensions.
Definition valid_status (s : string) : bool :=
  String.eqb s StatusImplemented || String.eqb s StatusImplementable || String.eqb s StatusProvisional.

Definition Validate (meta : Meta) : list Diag :=
  (if valid_status (m_Status meta) then []
   else if String.eqb (m_Status meta) "" then [error_at 0 "missing status"]
   else [error_at 0 ("invalid status " ^^ go_quote (m_Status meta))])
  ++ (if m_CompatDimensionsSet meta then [] else [error_at 0 "missing compat-dimensions"])
  ++ (if m_TrackingIssueSet meta then [] else [error_at 0 "missing tracking-issue"])
  ++ (if m_SinceSet meta then [] else [error_at 0 "missing since"])
  ++ ((fun d => error_at 0 ("invalid compat-dimension " ^^ go_quote d))
        <$> base.filter (fun d => valid_dimension d = false) (m_CompatDimensions meta)).

(** ** Scalars and inline lists

    The result of the Go functions is used only when the second value is true. *)

Definition parseScalar (raw0 : string) : option string :=
  let raw := trim_space raw0 in
  match raw with
  | EmptyString => Some EmptyString
  | String c rest =>
      if Ascii.eqb c "["%char || Ascii.eqb c "{"%char then None
      else if Ascii.eqb c double_quote || Ascii.eqb c single_quote then
        match last_char rest with
        | Some e => if Ascii.eqb e c then Some (str_take (String.length rest - 1) rest) else None
        | None => None
        end
      else if contains_any raw "[]{}" then None else Some raw
  end.

Fixpoint parse_values (parts : list string) : option (list string) :=
  match parts with
  | [] => Some []
  | part :: parts' =>
      v ← parseScalar (trim_space part);
      if String.eqb v EmptyString then None else vs ← parse_values parts'; Some (v :: vs)
  end.

Definition parseInlineStringList (raw0 : string) : option (list string) :=
  let raw := trim_space raw0 in
  if String.eqb raw "[]" then Some []
  else if negb (has_prefix raw "[") || negb (has_suffix raw "]") then None
  else
    let body := trim_space (cut_suffix (trim_prefix "[" raw) "]") in
    if String.eqb body EmptyString then Some [] else parse_values (split_char "," body).

(** ** The lines of the frontmatter *)

Record frontmatterLine := { fl_number : Z; fl_text : string }.

(** The variables of [parseYAMLLines]. *)
Record parsing := {
  ps_meta : Meta;
  ps_diags : list Diag;
  ps_currentSeqKey : string;
  ps_seenKeys : gset string;
}.
Definition no_parsing : parsing := {| ps_meta := no_meta; ps_diags := []; ps_currentSeqKey := ""; ps_seenKeys := ∅ |}.

Definition complain (line : Z) (msg : string) (p : parsing) : parsing :=
  {| ps_meta := ps_meta p; ps_diags := ps_diags p ++ [error_at line msg]; ps_currentSeqKey := ps_currentSeqKey p;
     ps_seenKeys := ps_seenKeys p |}.
Definition with_meta (m : Meta) (p : parsing) : parsing :=
  {| ps_meta := m; ps_diags := ps_diags p; ps_currentSeqKey := ps_currentSeqKey p; ps_seenKeys := ps_seenKeys p |}.
Definition with_seq (k : string) (p : parsing) : parsing :=
  {| ps_meta := ps_meta p; ps_diags := ps_diags p; ps_currentSeqKey := k; ps_seenKeys := ps_seenKeys p |}.
Definition saw (k : string) (p : parsing) : parsing :=
  {| ps_meta := ps_meta p; ps_diags := ps_diags p; ps_currentSeqKey := ps_currentSeqKey p;
     ps_seenKeys := {[k]} ∪ ps_seenKeys p |}.

Definition set_status (v : string) (m : Meta) : Meta :=
  {| m_Status := v; m_CompatDimensions := m_CompatDimensions m; m_TrackingIssue := m_TrackingIssue m; m_Since := m_Since m;
     m_CompatDimensionsSet := m_CompatDimensionsSet m; m_TrackingIssueSet := m_TrackingIssueSet m; m_SinceSet := m_SinceSet m |}.
Definition set_dimensions (vs : list string) (m : Meta) : Meta :=
  {| m_Status := m_Status m; m_CompatDimensions := vs; m_TrackingIssue := m_TrackingIssue m; m_Since := m_Since m;
     m_CompatDimensionsSet := true; m_TrackingIssueSet := m_TrackingIssueSet m; m_SinceSet := m_SinceSet m |}.
Definition add_dimension (v : string) (m : Meta) : Meta :=
  {| m_Status := m_Status m; m_CompatDimensions := m_CompatDimensions m ++ [v]; m_TrackingIssue := m_TrackingIssue m; m_Since := m_Since m;
     m_CompatDimensionsSet := m_CompatDimensionsSet m; m_TrackingIssueSet := m_TrackingIssueSet m; m_SinceSet := m_SinceSet m |}.
Definition set_tracking (v : string) (m : Meta) : Meta :=
  {| m_Status := m_Status m; m_CompatDimensions := m_CompatDimensions m; m_TrackingIssue := v; m_Since := m_Since m;
     m_CompatDimensionsSet := m_CompatDimensionsSet m; m_TrackingIssueSet := true; m_SinceSet := m_SinceSet m |}.
Definition set_since (v : string) (m : Meta) : Meta :=
  {| m_Status := m_Status m; m_CompatDimensions := m_CompatDimensions m; m_TrackingIssue := m_TrackingIssue m; m_Since := v;
     m_CompatDimensionsSet := m_CompatDimensionsSet m; m_TrackingIssueSet := m_TrackingIssueSet m; m_SinceSet := true |}.

(** The [switch] on the key; the key has been recorded as seen. *)
Definition parse_key (n : Z) (key rawValue : string) (p : parsing) : parsing :=
  let m := ps_meta p in
  if String.eqb key "status" then
    match parseScalar rawValue with
    | Some (String c v) => with_meta (set_status (String c v) m) p
    | _ => complain n "malformed status" p
    end
  else if String.eqb key "compat-dimensions" then
    let marked := with_meta (set_dimensions (m_CompatDimensions m) m) p in
    if String.eqb rawValue EmptyString then with_seq key marked
    else match parseInlineStringList rawValue with
         | Some vs => with_meta (set_dimensions vs m) p
         | None => complain n "malformed compat-dimensions" marked
         end
  else if String.eqb key "tracking-issue" then
    match parseScalar rawValue with
    | Some v => with_meta (set_tracking v m) p
    | None => complain n "malformed tracking-issue" (with_meta (set_tracking (m_TrackingIssue m) m) p)
    end
  else if String.eqb key "since" then
    match parseScalar rawValue with
    | Some v => with_meta (set_since v m) p
    | None => complain n "malformed since" (with_meta (set_since (m_Since m) m) p)
    end
  else p.

(** One iteration of the loop. *)
Definition parse_line (p : parsing) (line : frontmatterLine) : parsing :=
  let n := fl_number line in
  let trimmed := trim_space (fl_text line) in
  if String.eqb trimmed EmptyString || has_prefix trimmed "#" then p
  else if has_prefix trimmed "- " then
    if negb (String.eqb (ps_currentSeqKey p) "compat-dimensions") then complain n "sequence item without sequence key" p
    else match parseScalar (trim_space (trim_prefix "- " trimmed)) with
         | None => complain n "malformed compat-dimensions item" p
         | Some v => with_meta (add_dimension v (ps_meta p)) p
         end
  else
    let p := with_seq EmptyString p in
    match cut_char ":" trimmed with
    | None => complain n "malformed YAML mapping" p
    | Some (k, v) =>
        let key := trim_space k in
        let rawValue := trim_space v in
        if String.eqb key EmptyString then complain n "empty YAML key" p
        else if decide (key ∈ ps_seenKeys p) then complain n ("duplicate key " ^^ go_quote key) p
        else parse_key n key rawValue (saw key p)
    end.

Definition parseYAMLLines (lines : list frontmatterLine) : Meta * list Diag :=
  let p := foldl parse_line no_parsing lines in (ps_meta p, ps_diags p).

(** ** The file *)

(** The lines after the first; [n] is the number of the line before them. *)
Fixpoint front_lines (path : string) (n : Z) (lines : list frontmatterLine) (rest : list string) (err : option string)
    : Meta * list Diag :=
  match rest with
  | [] => (no_meta, withFile path [error_at n match err with
                                              | Some e => "reading frontmatter: " ^^ e
                                              | None => "unterminated YAML frontmatter"
                                              end])
  | line :: rest' =>
      if String.eqb (trim_space line) "---" then
        let '(meta, diags) := parseYAMLLines lines in (meta, withFile path diags)
      else front_lines path (n + 1) (lines ++ [{| fl_number := (n + 1)%Z; fl_text := line |}]) rest' err
  end.

Definition parseFrontmatter (path contents : string) : Meta * list Diag :=
  match scan_lines contents with
  | ([], _) => (no_meta, withFile path [error_at 1 "missing YAML frontmatter"])
  | (first :: rest, err) =>
      if negb (String.eqb (trim_space first) "---") then (no_meta, withFile path [error_at 1 "missing YAML frontmatter"])
      else front_lines path 1 [] rest err
  end.

(** [data]: what [os.ReadFile] answers. *)
Definition ParseFile (path : string) (data : result string) : Meta * list Diag :=
  match data with
  | Err e => (no_meta, withFile path [error_at 0 ("reading file: " ^^ e)])
  | Ok contents =>
      let '(meta, diags) := parseFrontmatter path contents in
      ((meta, ((fun d => if String.eqb (dg_File d) "" then in_file path d else d) <$> diags)
               ++ withFile path (Validate meta)))
  end.

Definition hasErrorDiag (ds : list Diag) : bool := existsb (fun d => String.eqb (dg_Severity d) "error") ds.

(** The line printed for a diagnostic. *)
Definition diag_line (d : Diag) : string :=
  dg_File d ^^ ":" ^^ itoa (dg_Line d) ^^ ": " ^^ dg_Severity d ^^ ": " ^^ dg_Message d.

(** cmd/eidos-lint: the printed lines and the exit status.  [glob] answers
    eidos/*.md, [read] the contents of a path. *)
Definition lint_main (glob : result (list string)) (read : string -> result string) : list string * Z :=
  match glob with
  | Err e => (["glob eidos/*.md: " ^^ e], 1%Z)
  | Ok paths =>
      let diags := paths ≫= fun path => (ParseFile path (read path)).2 in
      (diag_line <$> diags, if hasErrorDiag diags then 1%Z else 0%Z)
  end.

(** * What the reader of the feature documents accepts (eidos/eidosmeta)

    A reference grammar of frontmatters: entries with their text and their
    meaning.  The reader gives every such document its meaning, and a document it
    reports nothing about satisfies what the ledger relies on. *)

(** Dropping a carriage return does not show after [TrimSpace]. *)
Lemma trim_space_drop_cr l : trim_space (drop_cr l) = trim_space l.
Proof.
  unfold drop_cr. destruct (last_char l) as [c|] eqn:E; [|done].
  destruct (Ascii.eqb_spec c return_char) as [->|]; [|done]. apply last_char_split in E as [t ->].
  rewrite take_last. symmetry. by apply trim_space_blank_r.
Qed.

(** ** Scalars *)

Inductive scalar :=
| Plain (v : string)
| Quoted (q : ascii) (v : string).

Definition scalar_text (s : scalar) : string :=
  match s with Plain v => v | Quoted q v => String q (v ^^ String q EmptyString) end.
Definition scalar_value (s : scalar) : string := match s with Plain v => v | Quoted _ v => v end.

Definition is_quote (c : ascii) : bool := Ascii.eqb c double_quote || Ascii.eqb c single_quote.
Definition plain_start (v : string) : bool := match v with String c _ => negb (is_quote c) | EmptyString => true end.
Definition scalar_ok (s : scalar) : Prop :=
  match s with
  | Plain v => trimmed v /\ contains_any v "[]{}" = false /\ plain_start v = true
  | Quoted q v => is_quote q = true
  end.

Lemma quote_not_space q : is_quote q = true -> is_space q = false.
Proof. unfold is_quote. intros [H|H]%orb_true_iff; by apply Ascii.eqb_eq in H as ->. Qed.

Lemma scalar_trimmed s : scalar_ok s -> trimmed (scalar_text s).
Proof.
  destruct s as [v|q v]; [by intros [H _]|]. intros Hq%quote_not_space. cbn [scalar_text]. split; [done|]. split.
  - cbn [trim_left]. by rewrite Hq.
  - pose proof (trim_right_last (String q v) q Hq) as H. by rewrite app_cons_str in H.
Qed.

Lemma parseScalar_trim s : parseScalar (trim_space s) = parseScalar s.
Proof. unfold parseScalar. by rewrite trim_space_idem. Qed.

Lemma plain_char v c s : contains_any (String c s) v = false -> contains_char c v = false.
Proof. unfold contains_any. cbn [string_forall]. intros H. bool_steps. done. Qed.

(** A scalar is read back. *)
Lemma parseScalar_text s : scalar_ok s -> parseScalar (scalar_text s) = Some (scalar_value s).
Proof.
  intros H. unfold parseScalar. rewrite trimmed_space by by apply scalar_trimmed.
  destruct s as [[|c v]|q v]; cbn [scalar_text scalar_value].
  - done.
  - destruct H as (_ & Hany & Hq). pose proof (plain_char _ _ _ Hany) as Hc. cbn [contains_char] in Hc. bool_steps.
    rewrite (Ascii.eqb_sym c "["), (Ascii.eqb_sym c "{").
    repeat match goal with E : Ascii.eqb _ c = false |- _ => rewrite E; clear E end.
    cbn [plain_start] in Hq. apply negb_true_iff in Hq. unfold is_quote in Hq. cbn [orb]. rewrite Hq. by rewrite Hany.
  - assert (Ascii.eqb q "[" || Ascii.eqb q "{" = false) as ->.
    { revert H. simpl. unfold is_quote. intros [E|E]%orb_true_iff; by apply Ascii.eqb_eq in E as ->. }
    cbn in H. unfold is_quote in H. rewrite H, last_char_app, Ascii.eqb_refl. by rewrite take_last.
Qed.

(** ** Inline lists *)

Definition item_ok (s : scalar) : Prop :=
  scalar_ok s /\ scalar_value s <> EmptyString /\ contains_char "," (scalar_text s) = false.
Definition inline_text (ds : list scalar) : string := "[" ^^ join ", " (scalar_text <$> ds) ^^ "]".

Lemma parse_values_texts pre d ds :
  trim_left pre = EmptyString -> contains_char "," pre = false -> Forall item_ok (d :: ds) ->
  parse_values (split_char "," (pre ^^ join ", " (scalar_text <$> d :: ds))) = Some (scalar_value <$> d :: ds).
Proof.
  intros Hpre Hc H. revert pre d Hpre Hc H. induction ds as [|e ds IH]; intros pre d Hpre Hc H.
  - apply Forall_cons in H as [(Hok & Hne & Hd) _]. change (join ", " (scalar_text <$> [d])) with (scalar_text d).
    rewrite split_char_no_sep by by rewrite contains_char_app, Hc. cbn [parse_values].
    assert (trim_space (pre ^^ scalar_text d) = scalar_text d) as ->.
    { unfold trim_space. rewrite trim_left_app, Hpre. apply trimmed_space, scalar_trimmed, Hok. }
    rewrite parseScalar_text by done. cbn. by apply String.eqb_neq in Hne as ->.
  - apply Forall_cons in H as [(Hok & Hne & Hd) H].
    change (join ", " (scalar_text <$> d :: e :: ds)) with (scalar_text d ^^ String "," (" " ^^ join ", " (scalar_text <$> e :: ds))).
    rewrite app_assoc_str, split_char_app by by rewrite contains_char_app, Hc. cbn [parse_values].
    assert (trim_space (pre ^^ scalar_text d) = scalar_text d) as ->.
    { unfold trim_space. rewrite trim_left_app, Hpre. apply trimmed_space, scalar_trimmed, Hok. }
    rewrite parseScalar_text by done. cbn [mbind option_bind]. apply String.eqb_neq in Hne as ->.
    rewrite IH by done. done.
Qed.

Lemma parseInline_text ds : Forall item_ok ds -> parseInlineStringList (inline_text ds) = Some (scalar_value <$> ds).
Proof.
  intros H. destruct ds as [|d ds]; [done|].
  assert (trimmed (join ", " (scalar_text <$> d :: ds))) as Hj.
  { apply trimmed_join; [done|]. apply Forall_fmap. eapply Forall_impl; [exact H|].
    intros x [Hx _]. by apply scalar_trimmed. }
  unfold parseInlineStringList, inline_text. pose proof (parse_values_texts "" d ds eq_refl eq_refl H) as Hv.
  rewrite app_nil_l_str in Hv. revert Hj Hv. generalize (join ", " (scalar_text <$> d :: ds)) as body. intros body Hj Hv.
  assert (trimmed ("[" ^^ body ^^ "]")) as Ht by by apply trimmed_app.
  rewrite (trimmed_space _ Ht).
  assert (String.eqb ("[" ^^ body ^^ "]") "[]" = false) as ->.
  { apply String.eqb_neq. rewrite app_cons_str, app_nil_l_str. intros [= E]. destruct Hj as [Hne _].
    destruct body as [|c [|]]; [done|discriminate E|discriminate E]. }
  rewrite has_prefix_app. cbn [negb orb].
  assert (trim_prefix "[" ("[" ^^ body ^^ "]") = body ^^ "]") as ->.
  { unfold trim_prefix. rewrite has_prefix_app. apply str_drop_app. }
  assert (has_suffix ("[" ^^ body ^^ "]") "]" = true) as ->.
  { rewrite app_assoc_str. apply (proj2 (cut_suffix_last ("[" ^^ body) "]")). }
  cbn [negb]. rewrite (proj1 (cut_suffix_last body "]")), (trimmed_space _ Hj).
  destruct (String.eqb_spec body EmptyString) as [->|]; [by destruct Hj|]. exact Hv.
Qed.

(** ** Lines *)

(** The key of a mapping. *)
Definition key_ok (k : string) : Prop := word k /\ contains_char ":" k = false /\ has_prefix k "#" = false.

Definition key_line (k v : string) : string := k ^^ ":" ^^ v.

Lemma key_line_trim k v : word k -> trim_space (key_line k v) = key_line k (trim_right v).
Proof.
  intros [Hne Ht]. unfold trim_space, key_line.
  assert (trim_left k = k) as Hl by (destruct k as [|c k]; [done|]; unfold tight in Ht; cbn in *; bool_steps;
    match goal with E : is_space c = false |- _ => by rewrite E end).
  rewrite trim_left_app, Hl. destruct (String.eqb_spec k EmptyString) as [|_]; [done|].
  assert (trim_right (":" ^^ v) = ":" ^^ trim_right v) as Hr.
  { rewrite !app_cons_str, !app_nil_l_str. cbn [trim_right]. by destruct (trim_right v). }
  rewrite trim_right_app_ne by by rewrite Hr. by rewrite Hr.
Qed.

Lemma key_not_item k v : word k -> has_prefix (key_line k v) "- " = false.
Proof.
  intros [Hne Ht]. unfold key_line, has_prefix. destruct k as [|c [|d k]]; [done| |]; rewrite ?app_cons_str, ?app_nil_l_str; cbn [String.prefix].
  - by destruct (ascii_dec "-" c).
  - destruct (ascii_dec "-" c); [|done]. destruct (ascii_dec " " d) as [<-|]; [|done].
    unfold tight in Ht. cbn in Ht. by destruct (is_space c).
Qed.

Lemma key_not_comment k v : key_ok k -> has_prefix (key_line k v) "#" = false.
Proof.
  intros ([Hne _] & _ & H). unfold key_line, has_prefix in *. destruct k as [|c k]; [done|]. rewrite app_cons_str.
  cbn [String.prefix] in *. destruct (ascii_dec "#" c); [by destruct k|done].
Qed.

(** A line that names a key. *)
Lemma parse_line_key p n k v :
  key_ok k ->
  parse_line p {| fl_number := n; fl_text := key_line k v |} =
  if decide (k ∈ ps_seenKeys p) then complain n ("duplicate key " ^^ go_quote k) (with_seq EmptyString p)
  else parse_key n k (trim_space v) (saw k (with_seq EmptyString p)).
Proof.
  intros Hk. pose proof Hk as (Hw & Hc & _). unfold parse_line. cbn [fl_number fl_text].
  rewrite key_line_trim by done. rewrite key_not_item, key_not_comment by done.
  assert (String.eqb (key_line k (trim_right v)) EmptyString = false) as ->.
  { apply String.eqb_neq. destruct Hw as [Hne _]. by destruct k. }
  cbn [orb]. unfold key_line. rewrite app_cons_str, app_nil_l_str, cut_char_app by done.
  destruct Hw as [Hne Ht]. rewrite (trim_space_tight k Ht), trim_space_right.
  by destruct (String.eqb_spec k EmptyString).
Qed.

(** A line that holds an item of a sequence. *)
Definition item_line (indent : string) (s : scalar) : string := indent ^^ "- " ^^ scalar_text s.

Lemma item_line_trim indent s : trim_left indent = EmptyString -> scalar_ok s ->
  trim_space (item_line indent s) = "- " ^^ scalar_text s.
Proof.
  intros Hi Hs%scalar_trimmed. pose proof Hs as (Hne & _ & Hr). unfold item_line, trim_space.
  rewrite trim_left_app, Hi. change (trim_left ("- " ^^ scalar_text s)) with ("- " ^^ scalar_text s).
  change (String.eqb "" "") with true. cbv iota. rewrite trim_right_app_ne; by rewrite Hr.
Qed.

Lemma parse_line_item p n indent s :
  trim_left indent = EmptyString -> scalar_ok s -> ps_currentSeqKey p = "compat-dimensions"%string ->
  parse_line p {| fl_number := n; fl_text := item_line indent s |} =
  with_meta (add_dimension (scalar_value s) (ps_meta p)) p.
Proof.
  intros Hi Hs Hp. unfold parse_line. cbn [fl_number fl_text]. rewrite item_line_trim by done.
  rewrite has_prefix_app. change (String.eqb ("- " ^^ scalar_text s) EmptyString) with false.
  change (has_prefix ("- " ^^ scalar_text s) "#") with false. cbn [orb]. rewrite Hp, String.eqb_refl. cbn [negb].
  unfold trim_prefix. rewrite has_prefix_app, (str_drop_app "- "). rewrite parseScalar_trim, parseScalar_text by done. done.
Qed.

(** Blank lines and comments. *)
Definition ignored (l : string) : bool :=
  String.eqb (trim_space l) EmptyString || has_prefix (trim_space l) "#".

Lemma parse_line_ignored p n l : ignored l = true -> parse_line p {| fl_number := n; fl_text := l |} = p.
Proof. unfold parse_line, ignored. cbn [fl_text]. by intros ->. Qed.

Lemma parse_line_cr p n l : parse_line p {| fl_number := n; fl_text := drop_cr l |} = parse_line p {| fl_number := n; fl_text := l |}.
Proof. unfold parse_line. cbn [fl_number fl_text]. by rewrite trim_space_drop_cr. Qed.

(** ** The grammar *)

Inductive entry :=
| EStatus (s : scalar)
| EInline (ds : list scalar)
| EBlock (items : list (string * scalar))
| ETracking (s : scalar)
| ESince (s : scalar)
| EOther (k v : string)
| EIgnored (l : string).

Definition entry_lines (e : entry) : list string :=
  match e with
  | EStatus s => [key_line "status" (" " ^^ scalar_text s)]
  | EInline ds => [key_line "compat-dimensions" (" " ^^ inline_text ds)]
  | EBlock items => key_line "compat-dimensions" "" :: ((fun i => item_line i.1 i.2) <$> items)
  | ETracking s => [key_line "tracking-issue" (" " ^^ scalar_text s)]
  | ESince s => [key_line "since" (" " ^^ scalar_text s)]
  | EOther k v => [key_line k v]
  | EIgnored l => [l]
  end.

Definition entry_key (e : entry) : option string :=
  match e with
  | EStatus _ => Some "status"
  | EInline _ | EBlock _ => Some "compat-dimensions"
  | ETracking _ => Some "tracking-issue"
  | ESince _ => Some "since"
  | EOther k _ => Some k
  | EIgnored _ => None
  end%string.

Definition known_keys : list string := ["status"; "compat-dimensions"; "tracking-issue"; "since"]%string.

Definition entry_ok (e : entry) : Prop :=
  match e with
  | EStatus s => scalar_ok s /\ scalar_value s <> EmptyString
  | EInline ds => Forall item_ok ds
  | EBlock items => Forall (fun i => trim_left i.1 = EmptyString /\ scalar_ok i.2) items
  | ETracking s | ESince s => scalar_ok s
  | EOther k _ => key_ok k /\ ~ k ∈ known_keys
  | EIgnored l => ignored l = true
  end.

(** What an entry says. *)
Definition entry_meta (m : Meta) (e : entry) : Meta :=
  match e with
  | EStatus s => set_status (scalar_value s) m
  | EInline ds => set_dimensions (scalar_value <$> ds) m
  | EBlock items => set_dimensions (scalar_value <$> items.*2) m
  | ETracking s => set_tracking (scalar_value s) m
  | ESince s => set_since (scalar_value s) m
  | EOther _ _ | EIgnored _ => m
  end.
Definition described (es : list entry) : Meta := foldl entry_meta no_meta es.

Definition document (es : list entry) : list string := es ≫= entry_lines.
Definition document_ok (es : list entry) : Prop := Forall entry_ok es /\ NoDup (omap entry_key es).

(** Numbered lines. *)
Fixpoint numbered (n : Z) (ls : list string) : list frontmatterLine :=
  match ls with [] => [] | l :: ls' => {| fl_number := n; fl_text := l |} :: numbered (n + 1) ls' end.

Lemma numbered_app n ls ls' : numbered n (ls ++ ls') = numbered n ls ++ numbered (n + Z.of_nat (length ls)) ls'.
Proof.
  revert n. induction ls as [|l ls IH]; intros n; [by rewrite Z.add_0_r|]. cbn [numbered app length].
  rewrite IH. do 3 f_equal. lia.
Qed.

Lemma parse_items p n items m :
  Forall (fun i => trim_left i.1 = EmptyString /\ scalar_ok i.2) items ->
  ps_currentSeqKey p = "compat-dimensions"%string -> ps_meta p = set_dimensions m (ps_meta p) ->
  foldl parse_line p (numbered n ((fun i => item_line i.1 i.2) <$> items)) =
  with_meta (set_dimensions (m ++ (scalar_value <$> items.*2)) (ps_meta p)) p.
Proof.
  intros H. revert p n m. induction H as [|[i s] items [Hi Hs] _ IH]; intros p n m Hp Hm.
  - cbn. rewrite app_nil_r, <- Hm. by destruct p.
  - rewrite fmap_cons. cbn [numbered foldl fst snd]. rewrite parse_line_item by done.
    rewrite (IH _ _ (m ++ [scalar_value s])); [|done|].
    + rewrite <- app_assoc. done.
    + cbn [with_meta ps_meta]. rewrite Hm. done.
Qed.

(** The dimensions are empty as long as their key has not been seen. *)
Definition fresh (p : parsing) : Prop :=
  ~ "compat-dimensions"%string ∈ ps_seenKeys p -> m_CompatDimensions (ps_meta p) = [].

(** What reading an entry does. *)
Definition reads_entry (e : entry) (p p' : parsing) : Prop :=
  ps_meta p' = entry_meta (ps_meta p) e /\ ps_diags p' = ps_diags p /\
  ps_seenKeys p' = match entry_key e with Some k => {[k]} ∪ ps_seenKeys p | None => ps_seenKeys p end.

Lemma known_key_ok k : k ∈ known_keys -> key_ok k.
Proof.
  intros H. cut (Forall key_ok known_keys); [by rewrite Forall_forall; auto|].
  repeat constructor; done.
Qed.

Lemma parse_line_known p n k v :
  key_ok k -> ~ k ∈ ps_seenKeys p ->
  parse_line p {| fl_number := n; fl_text := key_line k v |} = parse_key n k (trim_space v) (saw k (with_seq EmptyString p)).
Proof. intros Hk Hn. rewrite parse_line_key by done. by rewrite decide_False. Qed.

Lemma trim_space_pad v : trim_space (" " ^^ v) = trim_space v.
Proof. unfold trim_space. by rewrite trim_left_app. Qed.

Lemma inline_trimmed ds : Forall item_ok ds -> trimmed (inline_text ds).
Proof. intros _. unfold inline_text. by apply trimmed_app. Qed.

Lemma trimmed_nonempty s : trimmed s -> String.eqb s EmptyString = false.
Proof. intros [H _]. by apply String.eqb_neq. Qed.

Lemma parse_entry e p n :
  entry_ok e -> fresh p -> (forall k, entry_key e = Some k -> ~ k ∈ ps_seenKeys p) ->
  reads_entry e p (foldl parse_line p (numbered n (entry_lines e))).
Proof.
  intros Hok Hf Hk. unfold reads_entry.
  destruct e as [s|ds|items|s|s|k v|l]; cbn [entry_lines numbered foldl entry_key entry_meta] in *;
    try (specialize (Hk _ eq_refl)).
  1, 4, 5: rewrite parse_line_known by (done || apply known_key_ok; by_compute);
    rewrite trim_space_pad; unfold parse_key; cbn [String.eqb Ascii.eqb Bool.eqb];
    rewrite parseScalar_trim.
  - destruct Hok as [Hok Hne]. rewrite parseScalar_text by done. by destruct (scalar_value s).
  - rewrite parseScalar_text by done. done.
  - rewrite parseScalar_text by done. done.
  - rewrite parse_line_known by (done || apply known_key_ok; by_compute). rewrite trim_space_pad.
    rewrite trimmed_space by by apply inline_trimmed. unfold parse_key. cbn [String.eqb Ascii.eqb Bool.eqb].
    rewrite trimmed_nonempty by by apply inline_trimmed. by rewrite parseInline_text.
  - rewrite parse_line_known by (done || apply known_key_ok; by_compute).
    unfold parse_key. cbn [String.eqb Ascii.eqb Bool.eqb trim_space trim_left trim_right].
    rewrite (parse_items _ _ _ []); [done|done|done|]. cbn. specialize (Hf Hk). by rewrite Hf.
  - destruct Hok as [Hok Hn]. rewrite parse_line_known by done. unfold parse_key.
    repeat match goal with |- context [String.eqb k ?x] =>
      destruct (String.eqb_spec k x) as [->|_]; [exfalso; apply Hn; by_compute|] end. done.
  - by rewrite parse_line_ignored.
Qed.

Lemma reads_fresh e p p' : entry_ok e -> fresh p -> reads_entry e p p' -> fresh p'.
Proof.
  intros Hok Hf (Hm & _ & Hs). unfold fresh in *. rewrite Hm, Hs.
  destruct e as [s|ds|items|s|s|k v|l]; cbn [entry_key entry_meta]; intros Hn.
  2, 3: exfalso; apply Hn; set_solver.
  all: try (apply Hf; set_solver).
  all: apply Hf in Hn || (assert (~ "compat-dimensions"%string ∈ ps_seenKeys p) as Hn' by set_solver; apply Hf in Hn'); assumption.
Qed.

(** A document gives its meaning and no diagnostics. *)
Lemma parse_entries es p n :
  Forall entry_ok es -> fresh p -> NoDup (omap entry_key es) ->
  (forall k, k ∈ omap entry_key es -> ~ k ∈ ps_seenKeys p) ->
  exists seq seen, foldl parse_line p (numbered n (document es)) =
    {| ps_meta := foldl entry_meta (ps_meta p) es; ps_diags := ps_diags p; ps_currentSeqKey := seq; ps_seenKeys := seen |}.
Proof.
  intros H. revert p n. induction H as [|e es He Hes IH]; intros p n Hf Hnd Hk.
  - exists (ps_currentSeqKey p), (ps_seenKeys p). by destruct p.
  - unfold document. cbn [mbind list_bind]. rewrite numbered_app, foldl_app. fold (document es).
    assert (reads_entry e p (foldl parse_line p (numbered n (entry_lines e)))) as Hr.
    { apply parse_entry; [done|done|]. intros k Ek. apply Hk. cbn [omap list_omap]. rewrite Ek. by left. }
    pose proof (reads_fresh _ _ _ He Hf Hr) as Hf'. destruct Hr as (Hm & Hd & Hs).
    cbn [foldl]. rewrite <- Hm, <- Hd. apply IH; [done| |].
    + cbn [omap list_omap] in Hnd. destruct (entry_key e); [by apply NoDup_cons in Hnd as [_ ?]|done].
    + intros k Hin. rewrite Hs. cbn [omap list_omap] in Hnd, Hk. destruct (entry_key e) as [k'|]; [|by apply Hk].
      apply NoDup_cons in Hnd as [Hn _]. specialize (Hk k ltac:(by right)). set_solver.
Qed.

(** ** The text of a file *)

Definition line_ok (l : string) : Prop := contains_char newline_char l = false /\ (Z.of_nat (String.length l) < 65536)%Z.
Definition lines_text (ls : list string) (rest : string) : string :=
  foldr (fun l t => l ^^ String newline_char t) rest ls.
Definition frontmatter_text (es : list entry) (rest : string) : string :=
  lines_text ("---"%string :: document es ++ ["---"%string]) rest.

Lemma scan_lines_cons l t : line_ok l ->
  scan_lines (l ^^ String newline_char t) = let '(r, e) := scan_lines t in (drop_cr l :: r, e).
Proof.
  intros [Hn Hl]. unfold scan_lines. rewrite split_char_app by done. cbn [deliver].
  pose proof (split_char_nonempty newline_char t). destruct (split_char newline_char t) as [|x xs]; [done|].
  by destruct (Z.leb_spec 65536 (Z.of_nat (String.length l))); [lia|].
Qed.

Lemma scan_lines_text ls t : Forall line_ok ls ->
  scan_lines (lines_text ls t) = let '(r, e) := scan_lines t in ((drop_cr <$> ls) ++ r, e).
Proof.
  intros H. induction H as [|l ls Hl _ IH]; cbn [lines_text foldr].
  - by destruct (scan_lines t).
  - fold (lines_text ls t). rewrite scan_lines_cons, IH by done. by destruct (scan_lines t).
Qed.

Definition inside (l : string) : bool := negb (String.eqb (trim_space l) "---").

Lemma front_lines_close path n acc ls close rest err :
  Forall (fun l => inside l = true) ls -> inside close = false ->
  front_lines path n acc (ls ++ close :: rest) err =
  let '(m, ds) := parseYAMLLines (acc ++ numbered (n + 1) ls) in (m, withFile path ds).
Proof.
  intros H Hc. revert n acc. induction H as [|l ls Hl _ IH]; intros n acc; cbn [app front_lines numbered].
  - unfold inside in Hc. apply negb_false_iff in Hc as ->. by rewrite app_nil_r.
  - unfold inside in Hl. apply negb_true_iff in Hl as ->. rewrite IH, <- app_assoc. done.
Qed.

Lemma inside_cr l : inside (drop_cr l) = inside l.
Proof. unfold inside. by rewrite trim_space_drop_cr. Qed.

Lemma parse_lines_cr p n ls : foldl parse_line p (numbered n (drop_cr <$> ls)) = foldl parse_line p (numbered n ls).
Proof. revert p n. induction ls as [|l ls IH]; intros p n; [done|]. cbn. by rewrite parse_line_cr, IH. Qed.

Lemma inside_key k v : word k -> contains_char ":" k = false -> inside (key_line k v) = true.
Proof.
  intros Hw _. unfold inside. rewrite key_line_trim by done. apply negb_true_iff, String.eqb_neq. intros E.
  assert (contains_char ":" (key_line k (trim_right v)) = true) as Hc.
  { unfold key_line. by rewrite !contains_char_app, orb_true_r. }
  by rewrite E in Hc.
Qed.

Lemma inside_entry e : entry_ok e -> Forall (fun l => inside l = true) (entry_lines e).
Proof.
  assert (forall k v, key_ok k -> inside (key_line k v) = true) as Hkey by (intros k v (Hw & Hc & _); by apply inside_key).
  intros Hok. destruct e as [s|ds|items|s|s|k v|l]; cbn [entry_lines]; repeat constructor;
    try (apply Hkey, known_key_ok; by_compute).
  - apply Forall_fmap. eapply Forall_impl; [exact Hok|]. intros [i s] [Hi Hs]. unfold compose, inside.
    cbn [fst snd] in *. by rewrite item_line_trim.
  - by apply Hkey, Hok.
  - cbn in Hok. unfold ignored, inside in *. apply orb_true_iff in Hok as [H|H].
    + apply String.eqb_eq in H as ->. done.
    + apply negb_true_iff, String.eqb_neq. intros E. by rewrite E in H.
Qed.

Lemma inside_document es : Forall entry_ok es -> Forall (fun l => inside l = true) (document es).
Proof. intros H. apply Forall_bind. eapply Forall_impl; [exact H|]. intros e. apply inside_entry. Qed.

Lemma parseFrontmatter_document path es rest :
  document_ok es -> Forall line_ok (document es) -> parseFrontmatter path (frontmatter_text es rest) = (described es, []).
Proof.
  intros [Hok Hnd] Hl. unfold parseFrontmatter, frontmatter_text.
  assert (line_ok "---") as Hd by by split.
  rewrite scan_lines_text by (constructor; [done|]; apply Forall_app; split; [done|by repeat constructor]).
  destruct (scan_lines rest) as [r err]. rewrite fmap_cons, fmap_app. cbn [app]. change (drop_cr "---") with "---"%string.
  change (negb (String.eqb (trim_space "---") "---")) with false. cbv iota.
  change (drop_cr <$> ["---"%string]) with ["---"%string]. rewrite <- app_assoc. cbn [app].
  rewrite front_lines_close; [|by apply Forall_fmap; eapply Forall_impl; [by apply inside_document|]; intros l H; unfold compose; by rewrite inside_cr|done].
  unfold parseYAMLLines. cbn [app]. rewrite parse_lines_cr.
  destruct (parse_entries es no_parsing (1 + 1) Hok) as (seq & seen & ->); [done|done| |done].
  intros k _. apply not_elem_of_empty.
Qed.

(** A file with a frontmatter of the grammar, its keys in any order, with any
    line ends, comments, other keys and text after it, is read as the metadata it
    describes; the only diagnostics are those of the validation. *)
Theorem frontmatter_read path es rest :
  document_ok es -> Forall line_ok (document es) ->
  ParseFile path (Ok (frontmatter_text es rest)) = (described es, withFile path (Validate (described es))).
Proof. intros Hok Hl. unfold ParseFile. by rewrite parseFrontmatter_document. Qed.

Definition ledger_entry : list entry :=
  [EIgnored "# ledger"; ESince (Quoted single_quote "v0.2.0"); EStatus (Plain "implemented");
   EOther "tldr" " one: two"; EBlock [("  "%string, Plain "cli"); (""%string, Quoted double_quote "wire")]; ETracking (Plain "#589")]%string.

Lemma ledger_entry_ok : document_ok ledger_entry /\ Forall line_ok (document ledger_entry).
Proof.
  split; [split|].
  - repeat constructor; try done. by_compute.
  - by_compute.
  - repeat constructor; done.
Qed.

Example ledger_entry_read :
  ParseFile "eidos/x.md" (Ok (frontmatter_text ledger_entry "body")) =
  ({| m_Status := "implemented"; m_CompatDimensions := ["cli"; "wire"]; m_TrackingIssue := "#589"; m_Since := "v0.2.0";
      m_CompatDimensionsSet := true; m_TrackingIssueSet := true; m_SinceSet := true |}, [])%string.
Proof. vm_compute. reflexivity. Qed.

Lemma frontmatter_read_witness :
  ParseFile "eidos/x.md" (Ok (frontmatter_text ledger_entry "body")) =
  (described ledger_entry, withFile "eidos/x.md" (Validate (described ledger_entry))).
Proof. apply frontmatter_read; apply ledger_entry_ok. Defined.

(** ** Diagnostics *)

Definition is_error (path : string) (d : Diag) : Prop := dg_Severity d = "error"%string /\ dg_File d = path.

Lemma withFile_error path ds : Forall (fun d => dg_Severity d = "error"%string) ds -> Forall (is_error path) (withFile path ds).
Proof. intros H. apply Forall_fmap. eapply Forall_impl; [exact H|]. done. Qed.

Lemma Validate_errors m : Forall (fun d => dg_Severity d = "error"%string) (Validate m).
Proof.
  unfold Validate. repeat (apply Forall_app; split); try (split_if; by repeat constructor).
  apply Forall_fmap, Forall_forall. done.
Qed.

Definition clean (p : parsing) : Prop := Forall (fun d => dg_Severity d = "error"%string) (ps_diags p).

Lemma complain_clean n msg p : clean p -> clean (complain n msg p).
Proof. intros H. apply Forall_app. by repeat constructor. Qed.

Lemma parse_line_clean p l : clean p -> clean (parse_line p l).
Proof.
  intros H. unfold parse_line, parse_key.
  repeat first [ apply complain_clean | case_match | progress (cbn [with_meta]) ]; try exact H.
Qed.

Lemma parse_lines_clean p ls : clean p -> clean (foldl parse_line p ls).
Proof. revert p. induction ls as [|l ls IH]; intros p H; [done|]. by apply IH, parse_line_clean. Qed.

Lemma front_lines_errors path n acc rest err : Forall (is_error path) (front_lines path n acc rest err).2.
Proof.
  revert n acc. induction rest as [|l rest IH]; intros n acc; cbn [front_lines].
  - by repeat constructor.
  - destruct (String.eqb (trim_space l) "---"); [|apply IH]. unfold parseYAMLLines. apply withFile_error.
    apply (parse_lines_clean no_parsing). by constructor.
Qed.

(** Every diagnostic is an error and names the file it is about. *)
Theorem diagnostics_are_errors path data : Forall (is_error path) (ParseFile path data).2.
Proof.
  unfold ParseFile. destruct data as [contents|e]; [|by repeat constructor].
  destruct (parseFrontmatter path contents) as [meta diags] eqn:E.
  assert (Forall (is_error path) diags) as H.
  { replace diags with (parseFrontmatter path contents).2 by by rewrite E. unfold parseFrontmatter.
    destruct (scan_lines contents) as [[|first rest] err]; [by repeat constructor|].
    destruct (negb _); [by repeat constructor|apply front_lines_errors]. }
  cbn [snd]. apply Forall_app. split; [|apply withFile_error, Validate_errors].
  apply Forall_fmap. eapply Forall_impl; [exact H|]. intros d [H1 H2]. unfold compose.
  by destruct (String.eqb (dg_File d) "").
Qed.

Lemma no_error_no_diag path data : hasErrorDiag (ParseFile path data).2 = false <-> (ParseFile path data).2 = [].
Proof.
  pose proof (diagnostics_are_errors path data) as H. destruct (ParseFile path data).2 as [|d ds]; [done|].
  apply Forall_cons in H as [[H _] _]. cbn [hasErrorDiag existsb]. by rewrite H.
Qed.

(** What the ledger relies on. *)
Definition ledger_ready (m : Meta) : Prop :=
  valid_status (m_Status m) = true /\ Forall (fun d => valid_dimension d = true) (m_CompatDimensions m) /\
  m_CompatDimensionsSet m = true /\ m_TrackingIssueSet m = true /\ m_SinceSet m = true.

Lemma Validate_nil m : Validate m = [] <-> ledger_ready m.
Proof.
  unfold Validate, ledger_ready. split.
  - intros (H1 & (H2 & (H3 & (H4 & H5)%app_nil)%app_nil)%app_nil)%app_nil. split_and!.
    + destruct (valid_status _); [done|]. by destruct (String.eqb _ _).
    + apply fmap_nil_inv in H5. apply Forall_forall. intros d Hd. destruct (valid_dimension d) eqn:E; [done|].
      exfalso. assert (d ∈ @nil string) as H; [|by apply not_elem_of_nil in H].
      rewrite <- H5. by apply list_elem_of_filter.
    + by destruct (m_CompatDimensionsSet m).
    + by destruct (m_TrackingIssueSet m).
    + by destruct (m_SinceSet m).
  - intros (-> & Hd & -> & -> & ->). cbn [app]. induction Hd as [|d ds Hd _ IH]; [done|].
    by rewrite filter_cons_False by by rewrite Hd.
Qed.

(** A document without diagnostics is ready for the ledger, and was readable. *)
Theorem accepted_is_ready path data :
  (ParseFile path data).2 = [] -> ledger_ready (ParseFile path data).1 /\ is_ok data = true.
Proof.
  unfold ParseFile. destruct data as [contents|e]; [|done]. destruct (parseFrontmatter path contents) as [meta diags].
  cbn [snd fst]. intros [_ H%fmap_nil_inv]%app_nil. by rewrite <- Validate_nil.
Qed.

(** The lint succeeds exactly when every document is accepted. *)
Theorem lint_accepts paths read :
  (lint_main (Ok paths) read).2 = 0%Z <-> Forall (fun path => (ParseFile path (read path)).2 = []) paths.
Proof.
  unfold lint_main. cbn [snd].
  assert (hasErrorDiag (paths ≫= fun path => (ParseFile path (read path)).2) = false <->
          Forall (fun path => (ParseFile path (read path)).2 = []) paths) as H.
  { induction paths as [|path paths IH]; [by split|]. cbn [mbind list_bind]. unfold hasErrorDiag. rewrite existsb_app.
    rewrite orb_false_iff, Forall_cons. fold (hasErrorDiag (ParseFile path (read path)).2). rewrite no_error_no_diag.
    by rewrite <- IH. }
  rewrite <- H. by destruct (hasErrorDiag _).
Qed.

(** However the map of dimensions is visited, the list is the sorted one. *)
Theorem valid_dimensions_sorted visited :
  visited ≡ₚ validCompatDimensions -> ValidCompatDimensions visited = validCompatDimensions.
Proof. intros H. unfold ValidCompatDimensions. rewrite (sort_strings_canonical _ _ H). by vm_compute. Qed.
