(* ===== verification/StatusGen.v ===== *)
(** * The feature ledger (cmd/status-gen)

    main.go collects the documents under eidos/ that eidosmeta accepts and looks
    for the artifacts of the dimensions they claim; render.go writes the page
    STATUS.md.  The file system is a record of its answers; the tree that
    [filepath.WalkDir] visits is a value, and its callback is modelled.  Only the
    root "." is used by the program. *)

From S2P Require Import Prelude GoStrings GoText Eidos.
Local Open Scope wgmesh_scope.

(** ** The file system *)

Inductive node :=
| File
| Directory (err : option string) (entries : list (string * node)).

Record FileSystem := {
  fs_glob : string -> option (list string);   (* [None]: a malformed pattern *)
  fs_read : string -> result string;
  fs_is_dir : string -> bool;                  (* [os.Stat] finds a directory *)
  fs_root : result node;                       (* the tree below ".", in lexical order *)
  fs_write : string -> result unit;            (* the answer to writing STATUS.md *)
}.

(** ** Discovery (main.go) *)

Record DimensionStatus := { ds_Name : string; ds_Present : bool; ds_Note : string }.
Record FeatureStatus := {
  ft_Name : string;
  ft_Slug : string;
  ft_Status : string;
  ft_TrackingIssue : string;
  ft_Since : string;
  ft_Dimensions : list DimensionStatus;
}.

Definition featureSlug (name : string) : string := join "-" (fields (to_lower name)).

(** [filepath.Rel] from ".". *)
Definition trimRoot (path : string) : string := if has_prefix path "/" then path else path_clean path.

Definition openAPIReferencesFeature (data slug name : string) : bool :=
  let haystack := to_lower data in
  existsb (fun c => negb (String.eqb c EmptyString) && contains haystack c)
    [slug; to_lower name; replace_char " " "-" (to_lower name)].

Definition script_pattern (slug : string) : string := filepath_join ["."; "testdata"; "script"; slug ^^ "*.txtar"]%string.
Definition compat_pattern (slug : string) : string := filepath_join ["."; "testdata"; "compat"; slug; "v*"]%string.

Definition present (dimension path : string) : DimensionStatus :=
  {| ds_Name := dimension; ds_Present := true; ds_Note := trimRoot path |}.
Definition absent (dimension note : string) : DimensionStatus :=
  {| ds_Name := dimension; ds_Present := false; ds_Note := note |}.

Definition checkDimension (fs : FileSystem) (slug name dimension : string) (openAPIFiles : list string) : DimensionStatus :=
  if String.eqb dimension "cli" || String.eqb dimension "behavior" then
    match sort_strings <$> fs_glob fs (script_pattern slug) with
    | Some (first :: _) => present dimension first
    | _ => absent dimension ("missing testdata/script/" ^^ slug ^^ "*.txtar")
    end
  else if String.eqb dimension "wire" then
    match List.find (fs_is_dir fs) (default [] (fs_glob fs (compat_pattern slug))) with
    | Some m => present dimension m
    | None => absent dimension ("missing testdata/compat/" ^^ slug ^^ "/v*/")
    end
  else if String.eqb dimension "api" then
    match List.find (fun path => match fs_read fs path with
                            | Ok data => openAPIReferencesFeature data slug name
                            | Err _ => false
                            end) openAPIFiles with
    | Some path => present dimension path
    | None => absent dimension "openapi.yaml not found or does not reference feature"
    end
  else absent dimension "unknown dimension".

(** [filepath.WalkDir] with the callback of [findOpenAPIFiles]; an entry named
    [name] at [path]. *)
Definition child (path name : string) : string := filepath_join [path; name].
Fixpoint walk (path name : string) (n : node) : result (list string) :=
  match n with
  | File => Ok (if String.eqb (to_lower name) "openapi.yaml" then [path] else [])
  | Directory err entries =>
      if String.eqb name ".git" || String.eqb name ".compound-engineering" then Ok []
      else match err with
           | Some e => Err e
           | None =>
               (fix visit (es : list (string * node)) : result (list string) :=
                  match es with
                  | [] => Ok []
                  | (name', n') :: es' => x <-? walk (child path name') name' n'; y <-? visit es'; Ok (x ++ y)
                  end) entries
           end
  end.
Definition findOpenAPIFiles (fs : FileSystem) : result (list string) :=
  root <-? fs_root fs; paths <-? walk "." "." root; Ok (sort_strings paths).

Definition dimension_le (a b : DimensionStatus) : Prop := str_le (ds_Name a) (ds_Name b).
#[export] Instance dimension_le_dec : RelDecision dimension_le.
Proof. intros a b. unfold dimension_le. apply _. Defined.

(** The feature of an accepted document. *)
Definition document_name (path : string) : string := cut_suffix (filepath_base path) (filepath_ext path).
Definition feature_of (fs : FileSystem) (openAPIFiles : list string) (path : string) (meta : Meta) : FeatureStatus :=
  let name := document_name path in
  let slug := featureSlug name in
  {| ft_Name := name; ft_Slug := slug; ft_Status := m_Status meta; ft_TrackingIssue := m_TrackingIssue meta;
     ft_Since := m_Since meta;
     ft_Dimensions := merge_sort dimension_le
                        ((fun d => checkDimension fs slug name d openAPIFiles) <$> m_CompatDimensions meta) |}.

Definition discover_step (fs : FileSystem) (openAPIFiles : list string)
    (acc : list FeatureStatus * list Diag) (path : string) : list FeatureStatus * list Diag :=
  let '(meta, fileDiags) := ParseFile path (fs_read fs path) in
  (if hasErrorDiag fileDiags then acc.1 else acc.1 ++ [feature_of fs openAPIFiles path meta], acc.2 ++ fileDiags).

Definition DiscoverFeatures (fs : FileSystem) : list FeatureStatus * list Diag :=
  match fs_glob fs (filepath_join ["."; "eidos"; "*.md"]%string) with
  | None => ([], [error_at 0 "glob eidos/*.md: syntax error in pattern"])
  | Some found =>
      match findOpenAPIFiles fs with
      | Err e => ([], [error_at 0 ("finding openapi.yaml: " ^^ e)])
      | Ok openAPIFiles => foldl (discover_step fs openAPIFiles) ([], []) (sort_strings found)
      end
  end.

(** ** Rendering (render.go) *)

Definition matrixDimensions : list string := ["api"; "behavior"; "cli"; "wire"]%string.
Definition nl : string := String newline_char EmptyString.

Record statusStats := {
  st_features : Z;
  st_implemented : Z;
  st_provisional : Z;
  st_claimed : Z;
  st_satisfied : Z;
  st_missing : Z;
}.

Definition escapeTableCell (value : string) : string := replace_char "|" "\|" value.
Definition isProvisionalOrImplementable (status : string) : bool :=
  String.eqb status StatusProvisional || String.eqb status StatusImplementable.
Definition renderTrackingIssue (issue0 : string) : string :=
  let issue := trim_space (trim_prefix "#" issue0) in
  if String.eqb issue EmptyString then "-"
  else "[#" ^^ issue ^^ "](https://github.com/atvirokodosprendimai/wgmesh/issues/" ^^ issue ^^ ")".
Definition renderSince (since : string) : string := if String.eqb since EmptyString then "-" else escapeTableCell since.

(** What the loop over the features accumulates. *)
Record page := {
  pg_stats : statusStats;
  pg_provisionalGaps : list string;
  pg_missingArtifactGaps : list string;
  pg_rows : string;
}.

(** One dimension of a feature: counted, and listed when its artifact is missing. *)
Definition dimension_step (feature : FeatureStatus) (acc : statusStats * list string) (d : DimensionStatus)
    : statusStats * list string :=
  let '(s, gaps) := acc in
  let add (sat mis : Z) := {| st_features := st_features s; st_implemented := st_implemented s; st_provisional := st_provisional s;
    st_claimed := st_claimed s + 1; st_satisfied := st_satisfied s + sat; st_missing := st_missing s + mis |}%Z in
  if ds_Present d then (add 1%Z 0%Z, gaps)
  else (add 0%Z 1%Z, gaps ++ ["- " ^^ ft_Name feature ^^ " / " ^^ ds_Name d ^^ ": " ^^ ds_Note d]).

Definition by_dimension (ds : list DimensionStatus) : gmap string DimensionStatus :=
  foldl (fun m d => <[ds_Name d := d]> m) ∅ ds.
Definition dimension_cell (m : gmap string DimensionStatus) (dimension : string) : string :=
  match m !! dimension with
  | Some entry => if ds_Present entry then "OK" else "MISSING"
  | None => "-"
  end.

Definition render_row (feature : FeatureStatus) : string :=
  "| " ^^ escapeTableCell (ft_Name feature) ^^ " | " ^^ ft_Status feature ^^ " | "
  ^^ renderTrackingIssue (ft_TrackingIssue feature) ^^ " | " ^^ renderSince (ft_Since feature)
  ^^ foldr (fun d t => " | " ^^ dimension_cell (by_dimension (ft_Dimensions feature)) d ^^ t) (" |" ^^ nl) matrixDimensions.

Definition count_status (status : string) (s : statusStats) : statusStats :=
  {| st_features := st_features s;
     st_implemented := st_implemented s + (if String.eqb status StatusImplemented then 1 else 0);
     st_provisional := st_provisional s + (if String.eqb status StatusProvisional then 1 else 0);
     st_claimed := st_claimed s; st_satisfied := st_satisfied s; st_missing := st_missing s |}%Z.

Definition feature_step (p : page) (feature : FeatureStatus) : page :=
  let '(s, gaps) := foldl (dimension_step feature) (count_status (ft_Status feature) (pg_stats p), pg_missingArtifactGaps p)
                      (ft_Dimensions feature) in
  {| pg_stats := s;
     pg_provisionalGaps := pg_provisionalGaps p ++
       (if isProvisionalOrImplementable (ft_Status feature) then ["- " ^^ ft_Name feature ^^ ": " ^^ ft_Status feature] else []);
     pg_missingArtifactGaps := gaps;
     pg_rows := pg_rows p ^^ render_row feature |}.

Definition feature_le (a b : FeatureStatus) : Prop :=
  if String.eqb (ft_Name a) (ft_Name b) then str_le (ft_Slug a) (ft_Slug b) else str_le (ft_Name a) (ft_Name b).
#[export] Instance feature_le_dec : RelDecision feature_le.
Proof. intros a b. unfold feature_le. destruct (String.eqb (ft_Name a) (ft_Name b)); apply _. Defined.

Definition page_of (features : list FeatureStatus) : page :=
  foldl feature_step
    {| pg_stats := {| st_features := Z.of_nat (length features); st_implemented := 0; st_provisional := 0; st_claimed := 0;
                      st_satisfied := 0; st_missing := 0 |};
       pg_provisionalGaps := []; pg_missingArtifactGaps := []; pg_rows := EmptyString |} features.

Definition roster (empty : string) (gaps : list string) : string :=
  match gaps with
  | [] => empty
  | _ => foldr (fun gap t => gap ^^ nl ^^ t) EmptyString (sort_strings gaps)
  end.
Definition summary_line (label : string) (n : Z) : string := "- " ^^ label ^^ ": " ^^ itoa n ^^ nl.
Definition render_summary (s : statusStats) : string :=
  summary_line "Features" (st_features s) ^^ summary_line "Implemented features" (st_implemented s)
  ^^ summary_line "Provisional features" (st_provisional s) ^^ summary_line "Claimed dimensions" (st_claimed s)
  ^^ summary_line "Satisfied dimensions" (st_satisfied s) ^^ summary_line "Missing dimensions" (st_missing s).

Definition RenderStatus (features : list FeatureStatus) : string :=
  let p := page_of (merge_sort feature_le features) in
  "<!-- DO NOT EDIT: generated by `make status` -->" ^^ nl ^^ "# Feature Ledger Status" ^^ nl ^^ nl ^^ "## Matrix" ^^ nl ^^ nl
  ^^ "| Feature | Status | Tracking | Since | API | Behavior | CLI | Wire |" ^^ nl
  ^^ "| --- | --- | --- | --- | --- | --- | --- | --- |" ^^ nl
  ^^ pg_rows p
  ^^ nl ^^ "## Gap Roster" ^^ nl ^^ nl ^^ "### Provisional / Implementable Features" ^^ nl ^^ nl
  ^^ roster ("No provisional or implementable features." ^^ nl) (pg_provisionalGaps p)
  ^^ nl ^^ "### Missing Compat Artifacts" ^^ nl ^^ nl
  ^^ roster ("No missing claimed dimensions." ^^ nl) (pg_missingArtifactGaps p)
  ^^ nl ^^ "## Summary" ^^ nl ^^ nl ^^ render_summary (pg_stats p).

(** The command: what it prints, what it puts into STATUS.md, its exit status. *)
Definition status_main (fs : FileSystem) : list string * option string * Z :=
  let '(features, diags) := DiscoverFeatures fs in
  let out := diag_line <$> diags in
  if hasErrorDiag diags then (out, None, 1%Z)
  else match fs_write fs (RenderStatus features) with
       | Ok _ => (out, Some (RenderStatus features), 0%Z)
       | Err e => (out ++ ["writing STATUS.md: " ^^ e], None, 1%Z)
       end.

(** * Properties of the feature ledger (cmd/status-gen)

    The ledger lists exactly the accepted documents, does not depend on the order
    in which features are given, its summary adds up, and a row has its eight
    cells as long as the tracking issue holds no bar. *)

(** ** Order *)

Lemma feature_le_iff a b :
  feature_le a b <-> ft_Name a = ft_Name b /\ str_le (ft_Slug a) (ft_Slug b)
                     \/ ft_Name a <> ft_Name b /\ str_le (ft_Name a) (ft_Name b).
Proof. unfold feature_le. destruct (String.eqb_spec (ft_Name a) (ft_Name b)); tauto. Qed.

#[export] Instance feature_le_trans : Transitive feature_le.
Proof.
  intros a b c. rewrite !feature_le_iff. intros [[H1 L1]|[H1 L1]] [[H2 L2]|[H2 L2]].
  - left. split; [congruence|]. by transitivity (ft_Slug b).
  - right. by rewrite H1.
  - right. by rewrite <- H2.
  - right. split; [|by transitivity (ft_Name b)]. intros E. apply H1. apply (anti_symm str_le); [done|by rewrite E].
Qed.

#[export] Instance feature_le_total : Total feature_le.
Proof.
  intros a b. rewrite !feature_le_iff. destruct (decide (ft_Name a = ft_Name b)) as [E|E].
  - destruct (total str_le (ft_Slug a) (ft_Slug b)); [left|right]; left; by split.
  - destruct (total str_le (ft_Name a) (ft_Name b)); [left|right]; right; split; congruence.
Qed.

Lemma sorted_features_canonical l1 l2 :
  NoDup (ft_Name <$> l1) -> l1 ≡ₚ l2 -> merge_sort feature_le l1 = merge_sort feature_le l2.
Proof.
  intros Hnd Hp. apply (StronglySorted_unique_strong feature_le).
  - intros x1 x2 H1 H2 H12 H21. rewrite merge_sort_Permutation in H1. rewrite merge_sort_Permutation, <- Hp in H2.
    assert (ft_Name x1 = ft_Name x2) as E.
    { apply feature_le_iff in H12 as [[]|[_ H12]]; [done|]. apply feature_le_iff in H21 as [[]|[_ H21]]; [done|].
      by apply (anti_symm str_le). }
    apply list_elem_of_lookup in H1 as [i1 H1]. apply list_elem_of_lookup in H2 as [i2 H2].
    assert (i1 = i2) as ->; [|congruence]. eapply NoDup_lookup; [exact Hnd| |]; rewrite list_lookup_fmap.
    + by rewrite H1.
    + rewrite H2. cbn. by rewrite E.
  - apply StronglySorted_merge_sort; apply _.
  - apply StronglySorted_merge_sort; apply _.
  - by rewrite !merge_sort_Permutation.
Qed.

(** The page does not depend on the order of the features. *)
Theorem RenderStatus_order l1 l2 : NoDup (ft_Name <$> l1) -> l1 ≡ₚ l2 -> RenderStatus l1 = RenderStatus l2.
Proof. intros Hnd Hp. unfold RenderStatus. by rewrite (sorted_features_canonical l1 l2). Qed.

(** ** The summary *)

Definition missing_dimensions (f : FeatureStatus) : list DimensionStatus :=
  base.filter (fun d => ds_Present d = false) (ft_Dimensions f).
Definition claimed_dimensions (fs : list FeatureStatus) : list DimensionStatus := fs ≫= ft_Dimensions.
Definition missing_gap (f : FeatureStatus) (d : DimensionStatus) : string :=
  "- " ^^ ft_Name f ^^ " / " ^^ ds_Name d ^^ ": " ^^ ds_Note d.

Definition add_counts (c m : nat) (s : statusStats) : statusStats :=
  {| st_features := st_features s; st_implemented := st_implemented s; st_provisional := st_provisional s;
     st_claimed := st_claimed s + Z.of_nat c; st_satisfied := st_satisfied s + (Z.of_nat c - Z.of_nat m);
     st_missing := st_missing s + Z.of_nat m |}%Z.

Lemma dimension_fold f s gaps ds :
  foldl (dimension_step f) (s, gaps) ds =
  (add_counts (length ds) (length (base.filter (fun d => ds_Present d = false) ds)) s,
   gaps ++ (missing_gap f <$> base.filter (fun d => ds_Present d = false) ds)).
Proof.
  revert s gaps. induction ds as [|d ds IH]; intros s gaps; cbn [foldl].
  - rewrite app_nil_r. f_equal. destruct s. unfold add_counts. cbn. f_equal; lia.
  - unfold dimension_step at 2. destruct (ds_Present d) eqn:E; rewrite IH.
    + rewrite filter_cons_False by by rewrite E. f_equal. unfold add_counts. cbn [length st_features st_implemented st_provisional st_claimed st_satisfied st_missing]. f_equal; lia.
    + rewrite filter_cons_True by done. rewrite fmap_cons, <- app_assoc. f_equal.
      unfold add_counts. cbn [length st_features st_implemented st_provisional st_claimed st_satisfied st_missing]. f_equal; lia.
Qed.

(** The page in closed form. *)
Definition counted (st : string) (l : list FeatureStatus) : Z := Z.of_nat (length (base.filter (fun f => ft_Status f = st) l)).
Definition gap_statuses (l : list FeatureStatus) : list string :=
  (fun f => "- " ^^ ft_Name f ^^ ": " ^^ ft_Status f) <$> base.filter (fun f => isProvisionalOrImplementable (ft_Status f) = true) l.

Definition page_after (p : page) (l : list FeatureStatus) : Prop := forall p', p' = foldl feature_step p l ->
  st_features (pg_stats p') = st_features (pg_stats p) /\
  st_implemented (pg_stats p') = (st_implemented (pg_stats p) + counted StatusImplemented l)%Z /\
  st_provisional (pg_stats p') = (st_provisional (pg_stats p) + counted StatusProvisional l)%Z /\
  st_claimed (pg_stats p') = (st_claimed (pg_stats p) + Z.of_nat (length (claimed_dimensions l)))%Z /\
  st_satisfied (pg_stats p') = (st_satisfied (pg_stats p) + Z.of_nat (length (claimed_dimensions l)) - Z.of_nat (length (l ≫= missing_dimensions)))%Z /\
  st_missing (pg_stats p') = (st_missing (pg_stats p) + Z.of_nat (length (l ≫= missing_dimensions)))%Z /\
  pg_provisionalGaps p' = pg_provisionalGaps p ++ gap_statuses l /\
  pg_missingArtifactGaps p' = pg_missingArtifactGaps p ++ (l ≫= fun f => missing_gap f <$> missing_dimensions f) /\
  pg_rows p' = pg_rows p ^^ foldr (fun f t => render_row f ^^ t) EmptyString l.

Lemma count_cons st f l : counted st (f :: l) = ((if String.eqb (ft_Status f) st then 1 else 0) + counted st l)%Z.
Proof.
  unfold counted. destruct (String.eqb_spec (ft_Status f) st).
  - rewrite filter_cons_True by done. cbn [length]. lia.
  - by rewrite filter_cons_False.
Qed.

Lemma page_closed p l : page_after p l.
Proof.
  revert p. induction l as [|f l IH]; intros p p' ->; cbn [foldl].
  - unfold counted, gap_statuses, claimed_dimensions. cbn. rewrite !Z.add_0_r, Z.sub_0_r, !app_nil_r, app_nil_r_str. done.
  - destruct (IH (feature_step p f) _ eq_refl) as (H1 & H2 & H3 & H4 & H5 & H6 & H7 & H8 & H9).
    rewrite H1, H2, H3, H4, H5, H6, H7, H8, H9. unfold feature_step. rewrite dimension_fold, !count_cons.
    cbn [pg_stats pg_provisionalGaps pg_missingArtifactGaps pg_rows add_counts count_status st_features st_implemented st_provisional st_claimed st_satisfied st_missing].
    unfold claimed_dimensions. cbn [mbind list_bind foldr]. rewrite !length_app. fold (missing_dimensions f).
    rewrite <- !app_assoc, <- app_assoc_str. split_and!; try lia; try done.
    f_equal. unfold gap_statuses. destruct (isProvisionalOrImplementable (ft_Status f)) eqn:E.
    + by rewrite filter_cons_True.
    + by rewrite filter_cons_False by by rewrite E.
Qed.

(** The numbers of the summary: every claimed dimension is satisfied or missing,
    and each missing one is in the roster; with valid statuses a feature is
    implemented or in the roster of the others. *)
Theorem summary_adds_up l s :
  s = pg_stats (page_of l) ->
  st_features s = Z.of_nat (length l) /\
  st_claimed s = Z.of_nat (length (claimed_dimensions l)) /\
  st_claimed s = (st_satisfied s + st_missing s)%Z /\ (0 <= st_satisfied s)%Z /\
  st_missing s = Z.of_nat (length (pg_missingArtifactGaps (page_of l))) /\
  (Forall (fun f => valid_status (ft_Status f) = true) l ->
   st_features s = (st_implemented s + Z.of_nat (length (pg_provisionalGaps (page_of l))))%Z).
Proof.
  intros ->. unfold page_of.
  edestruct page_closed as (H1 & H2 & _ & H4 & H5 & H6 & H7 & H8 & _); [reflexivity|].
  rewrite H1, H2, H4, H5, H6, H7, H8. cbn [pg_stats pg_provisionalGaps pg_missingArtifactGaps st_features st_implemented st_claimed st_satisfied st_missing app].
  assert (length (l ≫= missing_dimensions) <= length (claimed_dimensions l)) as Hle.
  { unfold claimed_dimensions. clear. induction l as [|f l IH]; [done|]. cbn [mbind list_bind]. rewrite !length_app.
    pose proof (length_filter (fun d => ds_Present d = false) (ft_Dimensions f)). unfold missing_dimensions at 1. lia. }
  split_and!; try lia.
  - f_equal. clear. induction l as [|f l IH]; [done|]. cbn [mbind list_bind]. rewrite !length_app, length_fmap. lia.
  - intros Hv. unfold gap_statuses. rewrite length_fmap. clear -Hv. induction Hv as [|f l Hf _ IH]; [done|].
    rewrite count_cons. cbn [length]. unfold valid_status in Hf.
    destruct (String.eqb_spec (ft_Status f) StatusImplemented) as [E|E].
    + rewrite filter_cons_False by by rewrite E. lia.
    + rewrite filter_cons_True by (unfold isProvisionalOrImplementable; cbn [orb] in Hf; by rewrite orb_comm). cbn [length]. lia.
Qed.

Lemma summary_adds_up_witness :
  let l := [{| ft_Name := "zeta"; ft_Slug := "zeta"; ft_Status := StatusProvisional; ft_TrackingIssue := ""; ft_Since := "";
               ft_Dimensions := [absent "wire" "missing fixture"; present "cli" "x"] |}]%string in
  st_claimed (pg_stats (page_of l)) = 2%Z /\ st_missing (pg_stats (page_of l)) = 1%Z /\
  st_features (pg_stats (page_of l)) = Z.of_nat (length l).
Proof. split; [reflexivity|]. split; [reflexivity|]. eapply summary_adds_up. reflexivity. Defined.

(** ** Rows *)

(** The bars that separate cells: those not directly after a backslash. *)
Fixpoint bars (escaped : bool) (s : string) : nat :=
  match s with
  | EmptyString => 0
  | String c s' => (if Ascii.eqb c "|" && negb escaped then 1 else 0) + bars (Ascii.eqb c (ascii_of_byte 92)) s'
  end.

Lemma bars_plain b s : contains_char "|" s = false -> bars b s = 0.
Proof.
  revert b. induction s as [|c s IH]; intros b; [done|]. cbn [contains_char bars]. intros [Hc Hs]%orb_false_iff.
  by rewrite Hc, IH.
Qed.

(** After text that does not end with a backslash the count starts afresh. *)
Lemma bars_app b s t : last_char s <> Some (ascii_of_byte 92) -> s <> EmptyString -> bars b (s ^^ t) = bars b s + bars false t.
Proof.
  revert b. induction s as [|c s IH]; intros b Hl Hne; [done|]. rewrite app_cons_str. cbn [bars].
  destruct s as [|d s].
  - rewrite app_nil_l_str. cbn [bars last_char] in *. destruct (Ascii.eqb_spec c (ascii_of_byte 92)) as [->|]; [done|]. lia.
  - rewrite IH; [lia| |done]. exact Hl.
Qed.

Lemma bars_escaped b s t : bars b (escapeTableCell s ^^ String " " t) = bars false t.
Proof.
  unfold escapeTableCell. revert b. induction s as [|c s IH]; intros b; cbn [replace_char].
  - done.
  - destruct (Ascii.eqb_spec c "|") as [->|Hne].
    + rewrite !app_cons_str, !app_nil_l_str. cbn [bars]. rewrite IH. by destruct b.
    + rewrite !app_cons_str, !app_nil_l_str. cbn [bars]. rewrite IH. by apply Ascii.eqb_neq in Hne as ->.
Qed.

Lemma bars_text b s t : contains_char "|" s = false -> bars b (s ^^ String " " t) = bars false t.
Proof.
  revert b. induction s as [|c s IH]; intros b; [done|]. cbn [contains_char]. intros [Hc Hs]%orb_false_iff.
  rewrite app_cons_str. cbn [bars]. by rewrite Hc, IH.
Qed.

Lemma contains_trim_left c s : contains_char c s = false -> contains_char c (trim_left s) = false.
Proof.
  induction s as [|d s IH]; [done|]. cbn [contains_char trim_left]. intros [Hd Hs]%orb_false_iff.
  destruct (is_space d); [by apply IH|]. cbn [contains_char]. by rewrite Hd.
Qed.
Lemma contains_trim_right c s : contains_char c s = false -> contains_char c (trim_right s) = false.
Proof.
  induction s as [|d s IH]; [done|]. cbn [contains_char trim_right]. intros [Hd Hs]%orb_false_iff.
  specialize (IH Hs). destruct (trim_right s) as [|e t].
  - destruct (is_space d); [done|]. cbn [contains_char]. by rewrite Hd.
  - change (contains_char c (String d (String e t))) with (Ascii.eqb d c || contains_char c (String e t)). by rewrite Hd, IH.
Qed.
Lemma contains_drop c n s : contains_char c s = false -> contains_char c (str_drop n s) = false.
Proof.
  revert n. induction s as [|d s IH]; intros [|n]; try done. cbn [contains_char str_drop]. intros [_ Hs]%orb_false_iff.
  by apply IH.
Qed.

Lemma tracking_no_bar issue : contains_char "|" issue = false -> contains_char "|" (renderTrackingIssue issue) = false.
Proof.
  intros H. unfold renderTrackingIssue.
  assert (contains_char "|" (trim_space (trim_prefix "#" issue)) = false) as Ht.
  { apply contains_trim_right, contains_trim_left. unfold trim_prefix. split_if; [by apply contains_drop|done]. }
  destruct (String.eqb _ _); [done|]. by rewrite !contains_char_app, Ht.
Qed.

Lemma cells_bars m ds t :
  bars false (foldr (fun d t => " | " ^^ dimension_cell m d ^^ t) (" |" ^^ t) ds) = length ds + bars false (" |" ^^ t).
Proof.
  induction ds as [|d ds IH]; [done|]. cbn [foldr length]. rewrite !app_cons_str, !app_nil_l_str. cbn [bars].
  change (bars false (String " " ?x)) with (bars false x).
  destruct (foldr _ _ ds) as [|c r] eqn:E; [by destruct ds|].
  assert (c = " "%char) as -> by (destruct ds; by injection E).
  cbn [bars] in IH. change (Ascii.eqb " " "|") with false in IH. change (Ascii.eqb " " (ascii_of_byte 92)) with false in IH.
  cbn [andb Nat.add] in IH. rewrite bars_text; [|unfold dimension_cell; by repeat case_match].
  rewrite IH, !app_cons_str, app_nil_l_str. cbn. lia.
Qed.

(** A row of the matrix has eight cells, whatever the name and the version hold. *)
Theorem row_has_eight_cells f :
  valid_status (ft_Status f) = true -> contains_char "|" (ft_TrackingIssue f) = false -> bars false (render_row f) = 9.
Proof.
  intros Hs Ht. unfold render_row.
  assert (contains_char "|" (ft_Status f) = false) as Hb.
  { unfold valid_status in Hs. by repeat (apply orb_true_iff in Hs as [Hs|Hs]); apply String.eqb_eq in Hs as ->. }
  apply tracking_no_bar in Ht.
  pose proof (cells_bars (by_dimension (ft_Dimensions f)) matrixDimensions nl) as Hc.
  destruct (foldr _ (" |" ^^ nl) matrixDimensions) as [|c r] eqn:E; [discriminate E|].
  assert (c = " "%char) as -> by by injection E.
  cbn [bars] in Hc. change (Ascii.eqb " " "|") with false in Hc. change (Ascii.eqb " " (ascii_of_byte 92)) with false in Hc.
  cbn [andb Nat.add] in Hc. rewrite !app_cons_str, !app_nil_l_str. cbn [bars].
  rewrite bars_escaped. cbn [bars]. rewrite bars_text by done. cbn [bars].
  rewrite bars_text by done. cbn [bars].
  unfold renderSince. destruct (String.eqb (ft_Since f) EmptyString).
  - rewrite bars_text by done. by rewrite Hc.
  - rewrite bars_escaped. by rewrite Hc.
Qed.

Definition plain_feature (issue : string) : FeatureStatus :=
  {| ft_Name := "a|b"; ft_Slug := "a|b"; ft_Status := StatusImplemented; ft_TrackingIssue := issue; ft_Since := "v1|v2";
     ft_Dimensions := [] |}.

Lemma row_has_eight_cells_witness : bars false (render_row (plain_feature "#12")) = 9.
Proof. apply row_has_eight_cells; reflexivity. Defined.

(** The tracking issue is not escaped: a bar in it adds cells to the row. *)
Theorem tracking_issue_splits_row :
  valid_status (ft_Status (plain_feature "12|13")) = true /\ bars false (render_row (plain_feature "12|13")) = 11.
Proof. by split. Qed.

(** ** Discovery *)

Definition accepted (fs : FileSystem) (path : string) : bool := negb (hasErrorDiag (ParseFile path (fs_read fs path)).2).

Lemma discover_fold fs api acc paths :
  foldl (discover_step fs api) acc paths =
  (acc.1 ++ ((fun path => feature_of fs api path (ParseFile path (fs_read fs path)).1)
               <$> base.filter (fun path => accepted fs path = true) paths),
   acc.2 ++ (paths ≫= fun path => (ParseFile path (fs_read fs path)).2)).
Proof.
  revert acc. induction paths as [|path paths IH]; intros acc; cbn [foldl].
  - cbn. rewrite !app_nil_r. by destruct acc.
  - rewrite IH. unfold discover_step. destruct (ParseFile path (fs_read fs path)) as [meta ds] eqn:E.
    cbn [mbind list_bind]. destruct (hasErrorDiag ds) eqn:Hd; cbn [fst snd].
    + rewrite filter_cons_False by (unfold accepted; rewrite E; cbn [snd]; by rewrite Hd). by rewrite E, <- app_assoc.
    + rewrite filter_cons_True by (unfold accepted; rewrite E; cbn [snd]; by rewrite Hd). by rewrite fmap_cons, E, <- !app_assoc.
Qed.

(** Where the search for API descriptions succeeds, the features are those of the
    accepted documents, in the order of their paths, and every document that is
    not accepted is reported. *)
Theorem discovered_exact fs found api :
  fs_glob fs "eidos/*.md" = Some found -> findOpenAPIFiles fs = Ok api ->
  (DiscoverFeatures fs).1 =
    ((fun path => feature_of fs api path (ParseFile path (fs_read fs path)).1)
       <$> base.filter (fun path => accepted fs path = true) (sort_strings found)) /\
  (DiscoverFeatures fs).2 = (sort_strings found ≫= fun path => (ParseFile path (fs_read fs path)).2).
Proof.
  intros Hg Ha. unfold DiscoverFeatures. change (filepath_join ["."; "eidos"; "*.md"]%string) with "eidos/*.md"%string.
  by rewrite Hg, Ha, discover_fold.
Qed.

(** A feature of the ledger has a valid status and only dimensions that
    [checkDimension] knows: the branch for unknown ones is dead. *)
Theorem discovered_ready fs f d :
  f ∈ (DiscoverFeatures fs).1 ->
  valid_status (ft_Status f) = true /\
  (d ∈ ft_Dimensions f ->
   valid_dimension (ds_Name d) = true /\ (ds_Present d = false -> ds_Note d <> "unknown dimension"%string)).
Proof.
  unfold DiscoverFeatures. destruct (fs_glob fs _) as [found|]; [|by intros H%not_elem_of_nil].
  destruct (findOpenAPIFiles fs) as [api|e]; [|by intros H%not_elem_of_nil]. rewrite discover_fold. cbn [fst app].
  intros (path & -> & [Ha _]%list_elem_of_filter)%list_elem_of_fmap. unfold accepted in Ha. apply negb_true_iff in Ha.
  apply no_error_no_diag, accepted_is_ready in Ha as [(Hs & Hd & _) _]. split; [exact Hs|].
  cbn [feature_of ft_Dimensions]. rewrite merge_sort_Permutation.
  intros (x & -> & Hx)%list_elem_of_fmap. rewrite Forall_forall in Hd. specialize (Hd x Hx).
  unfold checkDimension. unfold valid_dimension in Hd. cbn [existsb validCompatDimensions] in Hd.
  repeat (apply orb_true_iff in Hd as [Hd|Hd]); try done; apply String.eqb_eq in Hd as ->; cbn [String.eqb Ascii.eqb Bool.eqb orb];
    repeat case_match; by split.
Qed.

(** STATUS.md is written only when every document is accepted, and then with the
    page of all of them; otherwise the command fails and writes nothing. *)
Theorem status_written_iff_accepted fs found api :
  fs_glob fs "eidos/*.md" = Some found -> findOpenAPIFiles fs = Ok api -> is_ok (fs_write fs (RenderStatus (DiscoverFeatures fs).1)) = true ->
  if forallb (accepted fs) found
  then status_main fs = ([], Some (RenderStatus ((fun path => feature_of fs api path (ParseFile path (fs_read fs path)).1) <$> sort_strings found)), 0%Z)
  else (status_main fs).1.2 = None /\ (status_main fs).2 = 1%Z /\ (status_main fs).1.1 <> [].
Proof.
  intros Hg Ha Hw. destruct (discovered_exact fs found api Hg Ha) as [Hf Hd]. unfold status_main.
  destruct (DiscoverFeatures fs) as [features diags]. cbn [fst snd] in *. subst features diags.
  destruct (forallb (accepted fs) found) eqn:Hall.
  - assert (Forall (fun path => accepted fs path = true) (sort_strings found)) as Hs.
    { rewrite sort_strings_perm. apply Forall_forall. intros x Hx. rewrite forallb_forall in Hall.
      by apply Hall, list_elem_of_In. }
    rewrite filter_all in * by (intros x Hx; by rewrite Forall_forall in Hs; apply Hs).
    assert ((sort_strings found ≫= fun path => (ParseFile path (fs_read fs path)).2) = []) as ->.
    { clear -Hs. induction Hs as [|path ps Hp _ IH]; [done|]. cbn [mbind list_bind]. rewrite IH, app_nil_r.
      apply no_error_no_diag. by apply negb_true_iff. }
    cbn [hasErrorDiag existsb fmap list_fmap]. by destruct (fs_write fs _).
  - assert (exists path, path ∈ sort_strings found /\ accepted fs path = false) as (path & Hp & Hacc).
    { clear -Hall. setoid_rewrite sort_strings_perm. induction found as [|x l IH]; [done|]. cbn [forallb] in Hall.
      destruct (accepted fs x) eqn:E.
      - destruct (IH Hall) as (p & Hp & He). exists p. split; [by right|done].
      - exists x. split; [by left|done]. }
    unfold accepted in Hacc. apply negb_false_iff in Hacc. unfold hasErrorDiag in Hacc. rewrite existsb_exists in Hacc.
    destruct Hacc as (d & Hin & Hsev). apply list_elem_of_In in Hin.
    assert (d ∈ (sort_strings found ≫= fun path => (ParseFile path (fs_read fs path)).2)) as Hd
      by (apply list_elem_of_bind; by exists path).
    assert (hasErrorDiag (sort_strings found ≫= fun path => (ParseFile path (fs_read fs path)).2) = true) as ->.
    { apply existsb_exists. exists d. split; [by apply list_elem_of_In|done]. }
    split_and!; [done|done|]. cbn [fst]. intros H%fmap_nil_inv. rewrite H in Hd. by apply not_elem_of_nil in Hd.
Qed.

(** ** A file system of listed files

    Patterns with one star in their last element and one directory per pattern,
    as the ledger asks for. *)

Definition star_match (pattern name : string) : bool :=
  match cut_char "*" pattern with
  | Some (a, b) => has_prefix name a && has_suffix (str_drop (String.length a) name) b
                   && negb (contains_char "/" (str_drop (String.length a) name))
  | None => String.eqb pattern name
  end.
Definition listing (files : list (string * string)) (root : node) : FileSystem :=
  {| fs_glob := fun pattern => Some (base.filter (fun p => star_match pattern p = true) files.*1);
     fs_read := fun path => match List.find (fun f => String.eqb f.1 path) files with Some f => Ok f.2 | None => Err "no such file" end;
     fs_is_dir := fun _ => false;
     fs_root := Ok root;
     fs_write := fun _ => Ok tt |}.

Definition rpc_document (status dimension : string) : string :=
  frontmatter_text [EStatus (Plain status); EInline [Plain dimension]; ETracking (Plain "12"); ESince (Plain "v1")] "text".
Definition rpc_files : FileSystem :=
  listing [("eidos/rpc server.md", rpc_document "implemented" "cli"); ("eidos/rpc.md", rpc_document "implemented" "cli");
           ("testdata/script/rpc-server.txtar", "")]%string
    (Directory None [("openapi.yaml", File); (".git", Directory None [("openapi.yaml", File)]); ("docs", Directory None [("OpenAPI.yaml", File)])]%string).

(** The script of one feature satisfies every feature whose slug begins its name:
    only rpc-server has a script, and both features are reported as covered. *)
Theorem artifact_of_other_feature :
  ((fun f => (ft_Name f, (fun d => (ds_Present d, ds_Note d)) <$> ft_Dimensions f)) <$> (DiscoverFeatures rpc_files).1) =
  [("rpc server", [(true, "testdata/script/rpc-server.txtar")]); ("rpc", [(true, "testdata/script/rpc-server.txtar")])]%string.
Proof. vm_compute. reflexivity. Qed.

Example descriptions_found : findOpenAPIFiles rpc_files = Ok ["docs/OpenAPI.yaml"; "openapi.yaml"]%string.
Proof. vm_compute. reflexivity. Qed.

Lemma status_written_iff_accepted_witness :
  (status_main rpc_files).2 = 0%Z /\
  if forallb (accepted rpc_files) ["eidos/rpc server.md"; "eidos/rpc.md"]%string
  then status_main rpc_files = ([], Some (RenderStatus ((fun path => feature_of rpc_files ["docs/OpenAPI.yaml"; "openapi.yaml"]%string path
         (ParseFile path (fs_read rpc_files path)).1) <$> sort_strings ["eidos/rpc server.md"; "eidos/rpc.md"]%string)), 0%Z)
  else (status_main rpc_files).1.2 = None /\ (status_main rpc_files).2 = 1%Z /\ (status_main rpc_files).1.1 <> [].
Proof. split; [vm_compute; reflexivity|]. apply status_written_iff_accepted; vm_compute; reflexivity. Defined.

(** ** The search for descriptions *)

(** A path of the tree that a search not entering the two directories reaches. *)
Inductive reaches : string -> string -> node -> string -> Prop :=
| reaches_file path name : to_lower name = "openapi.yaml"%string -> reaches path name File path
| reaches_in path name entries name' n' p :
    ~ name ∈ [".git"; ".compound-engineering"]%string -> (name', n') ∈ entries ->
    reaches (child path name') name' n' p -> reaches path name (Directory None entries) p.

Lemma walk_nested path name err entries :
  walk path name (Directory err entries) =
  if String.eqb name ".git" || String.eqb name ".compound-engineering" then Ok []
  else match err with
       | Some e => Err e
       | None => foldr (fun e acc => x <-? walk (child path e.1) e.1 e.2; y <-? acc; Ok (x ++ y)) (Ok []) entries
       end.
Proof.
  cbn [walk]. destruct (_ || _); [done|]. destruct err; [done|].
  induction entries as [|[n' t] es IH]; [done|]. cbn [foldr fst snd]. by rewrite IH.
Qed.

Section node_rule.
  Context (P : node -> Prop) (HF : P File)
          (HD : forall err entries, Forall (fun e => P e.2) entries -> P (Directory err entries)).
Fixpoint node_induction (n : node) : P n :=
  match n with
  | File => HF
  | Directory err entries =>
      HD err entries ((fix go es : Forall (fun e => P e.2) es :=
                         match es with
                         | [] => Forall_nil_2 _
                         | e :: es' => Forall_cons_2 _ e es' (node_induction e.2) (go es')
                         end) entries)
  end.
End node_rule.

Lemma reaches_directory path name err entries p :
  reaches path name (Directory err entries) p <->
  err = None /\ ~ name ∈ [".git"; ".compound-engineering"]%string /\
  exists e, e ∈ entries /\ reaches (child path e.1) e.1 e.2 p.
Proof.
  split.
  - inversion 1; subst. split_and!; [done|done|]. by eexists (_, _).
  - intros (-> & Hn & [n' t] & He & Hr). by econstructor.
Qed.

(** A search that succeeds finds exactly the files it can reach. *)
Theorem walk_exact n path name found : walk path name n = Ok found -> forall p, p ∈ found <-> reaches path name n p.
Proof.
  revert path name found. induction n as [|err entries IH] using node_induction; intros path name found H p.
  - cbn in H. injection H as <-. destruct (String.eqb_spec (to_lower name) "openapi.yaml") as [E|E].
    + rewrite list_elem_of_singleton. split; [intros ->; by constructor|by inversion 1].
    + split; [by intros Hp%not_elem_of_nil|by inversion 1].
  - rewrite walk_nested in H. destruct (String.eqb_spec name ".git") as [->|E1]; cbn [orb] in H.
    { injection H as <-. split; [by intros Hp%not_elem_of_nil|]. rewrite reaches_directory. intros (_ & [] & _). by left. }
    destruct (String.eqb_spec name ".compound-engineering") as [->|E2].
    { injection H as <-. split; [by intros Hp%not_elem_of_nil|]. rewrite reaches_directory. intros (_ & [] & _). by right; left. }
    destruct err; [done|].
    assert (forall p, p ∈ found <-> exists e, e ∈ entries /\ reaches (child path e.1) e.1 e.2 p) as Hin.
    { clear p. revert found H. induction IH as [|[n' t] es Ht _ IHes]; intros found H p; cbn [foldr fst snd] in H.
      - injection H as <-. split; [by intros Hp%not_elem_of_nil|]. by intros (e & He%not_elem_of_nil & _).
      - apply rbind_ok in H as (x & Hx & H). apply rbind_ok in H as (y & Hy & [= <-]).
        rewrite elem_of_app, (Ht _ _ _ Hx p), (IHes y Hy p). split.
        + intros [Hr|(e & He & Hr)]; [exists (n', t)|exists e]; by split; [constructor|].
        + intros (e & [->|He]%elem_of_cons & Hr); [by left|right; by exists e]. }
    rewrite Hin, reaches_directory. split; [|by intros (_ & _ & ?)]. intros He. split_and!; [done| |exact He].
    by intros [?|[?|?%not_elem_of_nil]%elem_of_cons]%elem_of_cons.
Qed.
